(* ===== verification/_CoqProject ===== *)
-Q . S2P
Prelude.v
GoStrings.v
GoStrconv.v
GoPath.v
GoRegexp.v
GoTime.v
GoJson.v
GoStruct.v
GoBase64.v
GoNet.v
Effects.v
AppErrors.v
Executor.v
Filesystem.v
Archive.v
Auth.v
Cron.v
SiteDomain.v
SiteFiles.v
Site.v
Nginx.v
Modules.v
System.v
Ufw.v
Firewall.v
FirewallSpec.v
AgentApi.v
AgentWire.v
AgentSpec.v
Host.v
HostSpec.v
AgentHost.v
Presets.v
PresetsSpec.v
Fail2ban.v
Fail2banSpec.v
ControlPlane.v
ControlPlaneSpec.v
ControlPlaneStreams.v
Http.v
Router.v
RouterSpec.v
Servers.v
ServersSpec.v
UpdateManifest.v
Update.v
UpdateGates.v
UpdateDisk.v
UpdateHistory.v
BackupTypes.v
Backup.v
BackupVerify.v
BackupDisk.v
Updater.v
BackupWait.v
Cli.v
GoSql.v
Events.v
Pool.v
Stats.v
Dashboard.v
DashboardSpec.v
Settings.v
Config.v
ConfigTx.v
Services.v
SiteStore.v
SiteStoreSpec.v
SiteHandlers.v
ModulePages.v
Php.v
CronRpc.v
CronModule.v
CronModuleSpec.v
OtherModules.v
NginxSettings.v
Logs.v
Database.v
AgentTunnel.v
