(* ===== verification/Prelude.v ===== *)
(** * OpenDeploy: a verification library

    OpenDeploy is a server panel written in Go.  A Core process serves the web
    interface and an HTTP API and keeps its state in SQLite: users and sessions, sites,
    modules such as nginx or php with their background jobs, settings, remote servers.
    It never touches the host itself: an Agent process with root rights does, through a
    command executor, a filesystem manager and managers of archives, cron jobs,
    packages, services, the firewall and nginx sites.  The Core reaches the Agent of
    its own host by gRPC, and the Agents of other hosts through a control plane they
    connect to.  A request goes through the middleware to a handler, from there to a
    service, which validates it, asks modules and the Agent to change the host, writes
    the database, and undoes the change when a later step fails.  A command run by
    root updates the installation and makes and restores backups, on requests the Core
    leaves in a file.

    ** How the code is modelled

    This file has the results, sequencing, loops, 64-bit integers, insertion sort and
    tactics the others share.  Effects models code that calls something else: a program
    is a tree of calls, in the order of the source, branching on the answers, so that a
    statement about all executions covers every behaviour and failure of the callee;
    [runs] runs it against a callee with a state, given by a relation, and [par]
    interleaves two programs.  Code with goroutines, channels and locks is a step
    function or relation over the shared state, with theorems over every interleaving.
    Each definition that models code is preceded by the lines it translates.  A file
    whose name ends in Spec has the theorems on the file before it.

    What the sources use of Go and its packages: GoStrings, GoStrconv, GoPath, GoRegexp,
    GoTime, GoJson, GoStruct (decoding of JSON into structures), GoBase64, GoNet
    (addresses), GoSql (tables, LIKE).  Pool has goroutines that
    share a state, with invariants that hold in every state they reach.

    ** The Agent

    - AppErrors: internal/platform/apperrors.  Errors and their envelopes.
    - Executor: internal/agent/executor.  [Validate] and what it calls, [Run], the
      bounded buffers, [streamLines].
    - Filesystem: internal/agent/filesystem.  [securePath] and every operation, over a
      snapshot of the links for path resolution and a disk whose calls may fail.
    - Archive: internal/agent/archive.  Creation, zip and tar extraction.
    - Cron: internal/agent/cron.  Validation, discovery, the job store, the crontab.
    - Ufw: internal/agent/firewall.  The parser of ufw status, the commands for rules.
    - Host, AgentHost: packages, services, processes and the runtime of sites
      (internal/agent/packages, systemd, stats, siteruntime), and the composition of
      client, server and host.  Stats: internal/agent/stats.
    - AgentApi, AgentWire, CronRpc: internal/agent/server, internal/agent/app,
      internal/agentclient and internal/core/capability.  The methods of the server, the calls of the client and
      the same calls through the control plane.

    [validate_sound]: every accepted command has an allowlisted binary and arguments of
    the listed forms.  [operations_confined]: every file operation stays inside the
    allowed roots whatever links exist, and deletes no root.  [agent_confined] puts this
    together from the client down to the calls of the host, for the requests of
    [agent_op].  [tar_extraction_bounded]: extraction ends
    within its limits.  [operations_refine]: every cron operation takes its own step of
    an abstract job table under failing calls, and the crontab says what the table says.
    [location_transparent]: for the operations named there, a call through the control
    plane has the results of the same call on the local Agent.

    ** Users, requests, servers

    - Auth: internal/core/auth.  Roles, the service, passwords, the two tables.
    - Http, Router: internal/core/server and the handlers of authentication.
      Requests, middleware, the route table with the permission of each route.
    - AgentTunnel: internal/agent/remote.  The stream of an Agent to the control plane with
      its commands, subscriptions and heartbeats.
    - Servers: internal/core/remote.  Enrollment, heartbeats and tasks of remote servers.
    - ControlPlane, ControlPlaneStreams: internal/core/controlplane.  Sessions, dispatch
      and streams.
    - Dashboard: internal/core/dashboard and internal/core/audit.  Tickets, websocket
      connections, the poller.
    - Logs: internal/platform/logger and internal/core/logs.  The queue of log records
      and its worker, the search.
    - Events: the event bus and tasks.  Settings, Config, ConfigTx: settings, the
      configuration of the Core, transactions on configuration files.
    - Services: internal/core/service.  The list of services and their control.
    - Database: internal/platform/database.  Opening the database and what it records of
      its migrations.

    [refresh_rotates]: a refresh consumes an unexpired session.  [handlers_guarded]: a handler that
    is not public is reached only with a token whose role has the permission of the
    route; [accounts_changed_by_admins] follows this down to the tables.
    [enrollment_single_use]: a token enrolls one server.  [dispatch_authentic],
    [dispatch_ends], [stream_in_order]: over every interleaving, what Dispatch returns
    was given by the authenticated Agent for that command, Dispatch is never stuck once
    its context is done, and streams have no gaps.  [connections_authorised]: tickets are
    used once.  [settings_all_or_nothing], [config_all_or_nothing]: an update of settings
    or of a configuration file happens as a whole or not at all; Services and Logs have
    the like for services ([log_records_in_order]: records are flushed in order, once).
    [command_answered], [stream_numbered], [work_after_welcome]: the Agent answers each
    command once, numbers the pieces of its streams and does nothing before the
    handshake.  [metadata_converted], [open_backs_up]: metadata of early releases are
    converted as a whole, and a database that is behind is backed up before it changes.

    ** Sites and modules

    - SiteDomain, SiteFiles, Site: internal/core/site.  The data and its validation; the
      files of a site; [Create], [Update], [Delete], [Enable], [Disable] and
      [ReconcileActive] with their compensations.  [Site.SSL] is a pointer that two
      copies of a site share, so SSL records live in a heap.
    - SiteStore, SiteHandlers: the SQL of the repository statement by statement, the
      handlers and the events of sites.
    - Nginx: modules/nginx/sites.go, its template, and internal/agent/nginxsite.  The
      class [WebServerPlugin] is what the site service relies on, and the module is an
      instance of it.  NginxSettings: the settings and editable files of the module.
    - Modules, ModulePages: internal/core/module.  Lifecycle operations, background jobs,
      recovery after a restart, the loader; the views, handlers and dispatch to pages.
    - Firewall, Presets, Fail2ban, Php, CronModule, OtherModules: modules/.  OtherModules
      has apache, certbot, git, mysql, nodejs and postgresql.
    - System: what the services promise together.

    [create_consistent], [lifecycle_consistent]: creating, enabling and disabling keep what
    is stored and what is served in step under any single failure (creating, without a
    certificate of Let's Encrypt);
    [update_stored_and_served] is the same for updates that succeed.  [repository_refines]: the
    SQL of the repository implements a map of whole sites.  [nginx_serves_as_told]: the
    nginx module implements the map of served domains the service relies on, if a call
    that fails changes nothing, and
    [created_config_structure]: what it writes has the structure of the template.
    [site_files_confined]: file requests stay in the document root.  [job_outcome]: a job
    ends in a final state and moves its module exactly on success, if no database call
    fails.  [changes_after_backup]: with a backup guard nine operations change nothing
    before a backup succeeded.  [preset_switched], [settings_survive]: protection presets
    are switched as a whole, if files can be read, and keep their settings.  [accepted_rule_permitted],
    [protected_rules_kept]: an accepted firewall rule becomes a permitted ufw command
    that says what the request said, and a change or deletion spares the listed rules of
    the panel.  [cron_jobs_guarded]: locked jobs stay as they are, and changing or deleting
    a reserved one takes an administrator.
    The other modules have [pools_as_told], [certbot_permitted], [names_stay_quoted],
    [apache_site_loaded], [nginx_settings_all_or_nothing] and [editable_confined].

    ** Updates and backups

    - UpdateManifest, Update, UpdateGates, UpdateDisk, UpdateHistory: internal/update.
    - BackupTypes, Backup, BackupVerify, BackupDisk, BackupWait: internal/backup.
    - Updater: internal/core/updater, the service of the Core.  Cli: the commands of root
      and the request file between the two.

    [replaced_after_gates]: no file is replaced before signature, tag, commit, size and
    digest were checked, the archive so checked was extracted, and a backup succeeded.  [install_all_or_nothing], [restore_all_or_nothing]:
    an update or a restoration that reports that it was undone leaves every file as it
    was, under the conditions on failing copies, targets and links they state.  [archive_accepted], [extraction_terminates], [manifest_well_formed]: what is
    accepted, and that reading any archive ends.  [compareVersions_semver]: the order of
    versions is that of Semantic Versioning, for numbers below 2^63.
    [request_performed], [backup_awaited]: root does what the Core was asked for, and the
    Core notices.

    ** Where the code does not do what it means to

    The theorem then says what the code does.  Users and servers: [login_undoes_block],
    [blocked_user_refreshes], [certificate_never_renewed], [abandoned_stream_blocks],
    [archives_confined_locally_only], [site_changes_reach_nobody], [task_identifier],
    [namespace_wildcards], [select_options_unchecked], [queued_not_conflict],
    [rollback_loses_mode], [logger_attributes_lost], [duration_text_panics],
    [record_after_close_panics], [dirty_version_rewound].  Agent: [tar_limit_overflow], [schedule_line_break],
    [set_enabled_loses_update], [copy_onto_itself], [openssl_inline_path_unchecked],
    [short_cpu_line_panics], [status_without_substate], [far_future_accepted],
    [root_deletion_refused_rename_not], [protected_process_told_locally].  Sites and modules:
    [duplicate_domain_unserves], [existing_ssl_never_certbot], [proxy_host_injects],
    [failed_install_blocks], [stale_update_two_certificates], [broken_reading_unnoticed],
    [moves_onto_one_path], [empty_batch_any_action], [unknown_module_status],
    [empty_body_refused], [unban_all_refused], [cleared_port_shown],
    [failed_probe_ready], [uninstall_never_fails], [locks_are_copied],
    [untyped_stored_unknown], [operator_disables], [crontab_export_as_root],
    [failed_delete_still_served], [apache_bypasses_pool], [second_directive_lost],
    [torn_copy_served], [failed_read_keeps_jail], [retry_without_backup],
    [add_replaces_protected].  Updates and backups: [torn_snapshot_restored],
    [torn_history_blocks], [restore_leaves_half], [beyond_semver], [parent_name_accepted].

    ** Bounds

    Loops of the source are structural here, over lists or over the turns they make, or
    have fuel that a theorem shows to be enough: the search for an existing ancestor by
    the components of a path ([securePath_within]), the groups of an IPv6 address
    (eight), the entries of an archive ([extraction_terminates]), the wait for a backup
    (7201 ticks: thirty minutes of 250 ms, and one tick that is due together with the
    deadline).  Pumps, pollers, streams and workers are considered for any number of
    turns.  Bounds of the source are kept: channels of
    64, 32 and 10000 entries, batches of 100 records, lines of 64 KiB, a mebibyte of
    validator output.  [dispatch_ends] bounds the remaining actions of a call by a rank
    of at most five.  Integers are kept at 64 bits where sizes are added.

    ** Assumptions

    What the operating system, SQLite, bcrypt, the JWT library, CSRF protection, the
    random source and the clock answer is arbitrary, unless a file says what it relies
    on: the semantics of file calls in Filesystem, Archive, Cron, Nginx, ConfigTx and
    the files on updates and backups; of tables in Auth, SiteStore, Servers, Settings,
    Services and Modules, where a failed commit changes nothing and transactions are
    serial, as there is one connection; fresh names of temporary files and fresh
    identifiers; gRPC delivers messages unchanged; and the class [Unicode], of which only
    ASCII facts are used.  The matching of routes by the router library, the encoders
    of JSON and YAML, multipart forms, mail addresses and the time zone are parameters
    or calls.  "One failure" counts failed calls and failed health checks; two failures
    can leave things out of step, as a compensation may fail too.

    ** Not modelled

    Generated gRPC code, the web interface and the installers; dependency injection
    (internal/core/app), the parsing of flags and the construction of the logger, which
    have no logic of their own; the SQL of the migrations; the
    certificates of the control plane, which are calls of crypto/x509; the ACME manager,
    which drives a third-party client; the token buckets of the rate limiter, which are
    floating point; tables of distributions (internal/platform/osprovider); menus, schemas
    of settings, and the grids, status and health pages of nginx, which collect values
    for display. *)

From Stdlib Require Export Ascii String.
From stdpp Require Export base list strings gmap sorting.
From Stdlib Require Export ZArith Lia.

#[global] Arguments String.append !_ _ : simpl nomatch.

(** ** Results of fallible Go code

    A Go function returning [(T, error)] is modelled by [result E T]. *)

Inductive result (E A : Type) : Type :=
| Ok (a : A)
| Err (e : E).
Arguments Ok {E A} _.
Arguments Err {E A} _.

Declare Scope go_scope.
Delimit Scope go_scope with go.

Definition bind_result {E A B} (r : result E A) (k : A -> result E B) : result E B :=
  match r with Ok a => k a | Err e => Err e end.

Definition is_ok {E A} (r : result E A) : bool :=
  match r with Ok _ => true | Err _ => false end.

(** Wrapping of an error, [fmt.Errorf("...: %w", err)]. *)
Definition map_err {E F A} (f : E -> F) (r : result E A) : result F A :=
  match r with Ok a => Ok a | Err e => Err (f e) end.

Notation "'let?' x ':=' c 'in' k" := (bind_result c (fun x => k))
  (at level 10, x pattern, c at level 150, k at level 200) : go_scope.
Notation "c ';?' k" := (bind_result c (fun _ => k))
  (at level 99, k at level 200, right associativity) : go_scope.

(** A guard with an early return: [if bad { return err }]. *)
Definition fail_if {E} (bad : bool) (e : E) : result E () :=
  if bad then Err e else Ok ().

(** A loop [for _, x := range l { if err := f(x); err != nil { return err } }]. *)
Fixpoint for_each {E A} (f : A -> result E ()) (l : list A) : result E () :=
  match l with
  | [] => Ok ()
  | x :: l' => match f x with Ok _ => for_each f l' | Err e => Err e end
  end.

(** A loop that also reads the previous element, [args[index-1]]. *)
Fixpoint for_each_prev {E A} (prev : option A) (f : option A -> A -> result E ())
    (l : list A) : result E () :=
  match l with
  | [] => Ok ()
  | x :: l' =>
      match f prev x with Ok _ => for_each_prev (Some x) f l' | Err e => Err e end
  end.

(** ** Tactics *)

Create HintDb opendeploy.
Create Rewrite HintDb opendeploy.

(** Split boolean guards into propositions. *)
Ltac propify :=
  repeat match goal with
  | H : (_ && _) = true |- _ => apply andb_true_iff in H; destruct H
  | H : (_ || _) = false |- _ => apply orb_false_iff in H; destruct H
  | H : negb _ = true |- _ => apply negb_true_iff in H
  | H : negb _ = false |- _ => apply negb_false_iff in H
  | H : bool_decide _ = true |- _ => apply bool_decide_eq_true in H
  | H : bool_decide _ = false |- _ => apply bool_decide_eq_false in H
  end.

(** Case analysis on the scrutinee of a [match] in a hypothesis or the goal. *)
Ltac break_in H :=
  match type of H with
  | context [match ?x with _ => _ end] =>
      lazymatch x with
      | context [match _ with _ => _ end] => fail
      | _ => destruct x eqn:?
      end
  end.
Ltac break_goal :=
  match goal with
  | |- context [match ?x with _ => _ end] =>
      lazymatch x with
      | context [match _ with _ => _ end] => fail
      | _ => destruct x eqn:?
      end
  end.

(** Explore every branch of a fallible function assumed to have returned [H]. *)
Ltac explore H := repeat (break_in H; simplify_eq/=; try discriminate H).

(** ** Lemmas on results *)

Section results.
Context {E A B : Type}.

Lemma bind_result_ok (r : result E A) (k : A -> result E B) b :
  bind_result r k = Ok b <-> exists a, r = Ok a /\ k a = Ok b.
Proof. destruct r; simpl; split; [eauto|intros (? & [= ->] & ?); done|done|by intros (? & [=] & _)]. Qed.

Lemma fail_if_ok (b : bool) (e : E) : fail_if b e = Ok () <-> b = false.
Proof. unfold fail_if; destruct b; naive_solver. Qed.

Lemma for_each_ok (f : A -> result E ()) l :
  for_each f l = Ok () <-> Forall (fun x => f x = Ok ()) l.
Proof.
  induction l as [|x l IH]; simpl; [by split|].
  rewrite Forall_cons, <- IH. destruct (f x) as [[]|]; intuition congruence.
Qed.

Lemma for_each_prev_ok (f : option A -> A -> result E ()) l prev :
  for_each_prev prev f l = Ok () <->
  forall i x, l !! i = Some x ->
    f (match i with 0 => prev | S j => l !! j end) x = Ok ().
Proof.
  revert prev; induction l as [|y l IH]; intros prev; simpl.
  { split; [by intros _ [|i] x|done]. }
  destruct (f prev y) as [[]|] eqn:Hf; split; intros H.
  - intros [|i] x Hi; simplify_eq/=; [done|].
    pose proof (proj1 (IH (Some y)) H i x Hi) as Hx. destruct i; done.
  - apply IH. intros i x Hi. specialize (H (S i) x Hi). by destruct i.
  - done.
  - specialize (H 0 y eq_refl). simpl in H. congruence.
Qed.
End results.

#[export] Hint Rewrite @bind_result_ok @fail_if_ok @for_each_ok : opendeploy.

(** ** Machine integers *)

(** Conversion to int64, and addition at that width. *)
Definition to_int64 (z : Z) : Z := ((z + 2 ^ 63) mod 2 ^ 64 - 2 ^ 63)%Z.
Definition add64 (a b : Z) : Z := to_int64 (a + b).

Definition is_int64 (z : Z) : Prop := (- 2 ^ 63 <= z < 2 ^ 63)%Z.

Lemma to_int64_id z : is_int64 z -> to_int64 z = z.
Proof. unfold is_int64, to_int64. intros H. rewrite Z.mod_small; lia. Qed.

Lemma to_int64_range z : is_int64 (to_int64 z).
Proof.
  unfold is_int64, to_int64. pose proof (Z.mod_pos_bound (z + 2 ^ 63) (2 ^ 64)). lia.
Qed.

(** ** Sorting

    [sort.Slice] and [sort.Strings]: an insertion sort, which agrees with any
    sorting routine when no two elements are equivalent. *)

Section sorting.
Context {A : Type} (le : A -> A -> bool).

Fixpoint insert_sorted (x : A) (l : list A) : list A :=
  match l with
  | [] => [x]
  | y :: l' => if le x y then x :: l else y :: insert_sorted x l'
  end.

Definition isort (l : list A) : list A := foldr insert_sorted [] l.

Notation sorted := (Sorted (fun a b => le a b = true)).

Lemma insert_sorted_perm x l : insert_sorted x l ≡ₚ x :: l.
Proof.
  induction l as [|y l IH]; simpl; [done|]. destruct (le x y); [done|].
  rewrite IH. apply Permutation_swap.
Qed.

Lemma isort_perm l : isort l ≡ₚ l.
Proof. induction l as [|x l IH]; simpl; [done|]. by rewrite insert_sorted_perm, IH. Qed.

Lemma isort_sorted l : (forall a b, le a b = true \/ le b a = true) -> sorted (isort l).
Proof.
  intros Htot. induction l as [|x l IH]; simpl; [constructor|].
  induction IH as [|y l' Hl IHl Hy]; simpl; [by constructor|].
  destruct (le x y) eqn:Hxy; [by repeat constructor|].
  assert (Hyx : le y x = true) by (destruct (Htot x y); congruence).
  constructor; [done|]. destruct Hy as [|z l'' Hz]; simpl; [by constructor|].
  destruct (le x z); by constructor.
Qed.

Lemma isort_id l : sorted l -> isort l = l.
Proof.
  induction 1 as [|x l Hl IH Hx]; simpl; [done|]. rewrite IH.
  destruct Hx as [|y l' Hxy]; simpl; [done|]. by rewrite Hxy.
Qed.
End sorting.
