(* ===== verification/GoStrings.v ===== *)
(** * Go strings

    A Go [string] is a sequence of bytes; here it is Rocq's [string], whose
    [ascii] characters are the 256 bytes.  This file models what the program
    uses of the packages [strings], [unicode] and [unicode/utf8], and the
    lemmas the components share about them. *)


From S2P Require Import Prelude.
Local Open Scope string_scope.

(** ** Bytes *)

Definition byte_val (c : ascii) : Z := Z.of_N (N_of_ascii c).

Definition in_range (lo hi : Z) (z : Z) : bool := (lo <=? z)%Z && (z <=? hi)%Z.
Definition byte_in (lo hi : ascii) (c : ascii) : bool :=
  in_range (byte_val lo) (byte_val hi) (byte_val c).

Definition is_digit (c : ascii) : bool := byte_in "0" "9" c.
Definition is_upper (c : ascii) : bool := byte_in "A" "Z" c.
Definition is_lower (c : ascii) : bool := byte_in "a" "z" c.
Definition is_alnum (c : ascii) : bool := is_lower c || is_upper c || is_digit c.

Definition lower_byte (c : ascii) : ascii :=
  if is_upper c then ascii_of_N (N_of_ascii c + 32) else c.

(** ** Quantifiers over the bytes of a string *)

Fixpoint str_forall (p : ascii -> bool) (s : string) : bool :=
  match s with
  | EmptyString => true
  | String c s' => p c && str_forall p s'
  end.

Definition str_exists (p : ascii -> bool) (s : string) : bool :=
  negb (str_forall (fun c => negb (p c)) s).

Fixpoint str_map (f : ascii -> ascii) (s : string) : string :=
  match s with
  | EmptyString => ""
  | String c s' => String (f c) (str_map f s')
  end.

Fixpoint str_concat_map (f : ascii -> string) (s : string) : string :=
  match s with "" => "" | String c s' => f c ++ str_concat_map f s' end.

Fixpoint str_rev (s : string) : string :=
  match s with
  | EmptyString => ""
  | String c s' => str_rev s' ++ String c ""
  end.

(** [len(s)] *)
Definition len (s : string) : Z := Z.of_nat (String.length s).

(** ** Package strings *)

Definition has_prefix (s p : string) : bool := String.prefix p s.

Fixpoint has_suffix (s suf : string) : bool :=
  String.eqb s suf ||
  match s with EmptyString => false | String _ s' => has_suffix s' suf end.

Fixpoint contains (s sub : string) : bool :=
  has_prefix s sub ||
  match s with EmptyString => false | String _ s' => contains s' sub end.

Definition contains_byte (s : string) (b : ascii) : bool := str_exists (Ascii.eqb b) s.

(** [strings.ContainsAny] for a set of ASCII characters. *)
Definition contains_any (s chars : string) : bool := str_exists (contains_byte chars) s.

Fixpoint drop_bytes (n : nat) (s : string) : string :=
  match n, s with
  | 0, _ => s
  | S n', String _ s' => drop_bytes n' s'
  | S _, EmptyString => ""
  end.

Fixpoint take_bytes (n : nat) (s : string) : string :=
  match n, s with
  | S n', String c s' => String c (take_bytes n' s')
  | _, _ => ""
  end.

Definition trim_prefix (s p : string) : string :=
  if has_prefix s p then drop_bytes (String.length p) s else s.

Definition trim_suffix (s suf : string) : string :=
  if has_suffix s suf then take_bytes (String.length s - String.length suf) s else s.

(** [strings.Split(s, sep)] for a one-byte separator. *)
Fixpoint split (sep : ascii) (s : string) : list string :=
  match s with
  | EmptyString => [""]
  | String c s' =>
      if Ascii.eqb c sep then "" :: split sep s'
      else match split sep s' with
           | h :: t => String c h :: t
           | [] => [String c ""]
           end
  end.

(** [strings.SplitN(s, sep, 2)]: the part before the first separator, and the
    rest when there is one. *)
Fixpoint cut (sep : ascii) (s : string) : string * option string :=
  match s with
  | EmptyString => ("", None)
  | String c s' =>
      if Ascii.eqb c sep then ("", Some s')
      else let '(h, t) := cut sep s' in (String c h, t)
  end.

Fixpoint join (sep : string) (l : list string) : string :=
  match l with
  | [] => ""
  | [x] => x
  | x :: l' => x ++ sep ++ join sep l'
  end.

(** *** White space

    [unicode.IsSpace] holds of nine one- or two-byte runes and of sixteen runes
    with a three-byte encoding. *)

Definition space1 (a : ascii) : bool :=
  in_range 9 13 (byte_val a) || (byte_val a =? 32)%Z.
Definition space2 (a b : ascii) : bool :=
  (byte_val a =? 194)%Z && ((byte_val b =? 133)%Z || (byte_val b =? 160)%Z).
Definition space3 (a b c : ascii) : bool :=
  let '(a, b, c) := (byte_val a, byte_val b, byte_val c) in
  ((a =? 225) && (b =? 154) && (c =? 128))%Z
  || ((a =? 226) && (b =? 128) &&
      (in_range 128 138 c || (c =? 168) || (c =? 169) || (c =? 175)))%Z
  || ((a =? 226) && (b =? 129) && (c =? 159))%Z
  || ((a =? 227) && (b =? 128) && (c =? 128))%Z.

Section trimming.
Variables (sp2 : ascii -> ascii -> bool) (sp3 : ascii -> ascii -> ascii -> bool).

Fixpoint trim_leading (s : string) : string :=
  match s with
  | EmptyString => ""
  | String a s1 =>
      if space1 a then trim_leading s1
      else match s1 with
           | EmptyString => s
           | String b s2 =>
               if sp2 a b then trim_leading s2
               else match s2 with
                    | EmptyString => s
                    | String c s3 => if sp3 a b c then trim_leading s3 else s
                    end
           end
  end.
End trimming.

Definition trim_left (s : string) : string := trim_leading space2 space3 s.
Definition trim_right (s : string) : string :=
  str_rev (trim_leading (fun b a => space2 a b) (fun c b a => space3 a b c) (str_rev s)).

Definition trim_space (s : string) : string := trim_right (trim_left s).

(** [strings.Fields]: the maximal runs of non-space runes.  [cur] is the run
    being read. *)
Definition flush (cur : string) (l : list string) : list string :=
  if String.eqb cur "" then l else cur :: l.

Fixpoint fields_from (cur : string) (s : string) : list string :=
  match s with
  | EmptyString => flush cur []
  | String a s1 =>
      if space1 a then flush cur (fields_from "" s1)
      else match s1 with
           | EmptyString => flush (cur ++ String a "") []
           | String b s2 =>
               if space2 a b then flush cur (fields_from "" s2)
               else match s2 with
                    | EmptyString => fields_from (cur ++ String a "") s1
                    | String c s3 =>
                        if space3 a b c then flush cur (fields_from "" s3)
                        else fields_from (cur ++ String a "") s1
                    end
           end
  end.

Definition fields (s : string) : list string := fields_from "" s.

(** ** UTF-8

    Decoding as [for _, r := range s] and the [regexp] package do it: a byte
    that starts no valid sequence counts as one [utf8.RuneError]. *)

Definition rune_error : Z := 65533.

Definition cont (c : ascii) : bool := in_range 128 191 (byte_val c).

Definition valid2 (a b : ascii) : bool := in_range 194 223 (byte_val a) && cont b.
Definition valid3 (a b c : ascii) : bool :=
  let a := byte_val a in
  cont c &&
  (((a =? 224)%Z && in_range 160 191 (byte_val b))
   || ((in_range 225 236 a || in_range 238 239 a) && cont b)
   || ((a =? 237)%Z && in_range 128 159 (byte_val b))).
Definition valid4 (a b c d : ascii) : bool :=
  let a := byte_val a in
  cont c && cont d &&
  (((a =? 240)%Z && in_range 144 191 (byte_val b))
   || (in_range 241 243 a && cont b)
   || ((a =? 244)%Z && in_range 128 143 (byte_val b))).

Definition low6 (c : ascii) : Z := Z.land (byte_val c) 63.

Fixpoint runes (s : string) : list Z :=
  match s with
  | EmptyString => []
  | String a s1 =>
      if (byte_val a <? 128)%Z then byte_val a :: runes s1
      else match s1 with
      | EmptyString => [rune_error]
      | String b s2 =>
          if valid2 a b then (Z.land (byte_val a) 31 * 64 + low6 b)%Z :: runes s2
          else match s2 with
          | EmptyString => rune_error :: runes s1
          | String c s3 =>
              if valid3 a b c then
                (Z.land (byte_val a) 15 * 4096 + low6 b * 64 + low6 c)%Z :: runes s3
              else match s3 with
              | EmptyString => rune_error :: runes s1
              | String d s4 =>
                  if valid4 a b c d then
                    (Z.land (byte_val a) 7 * 262144 + low6 b * 4096
                     + low6 c * 64 + low6 d)%Z :: runes s4
                  else rune_error :: runes s1
              end
          end
      end
  end.

Definition byte_of (z : Z) : ascii := ascii_of_N (Z.to_N z).

Definition encode_rune (r : Z) : string :=
  (if in_range 0 127 r then String (byte_of r) ""
   else if in_range 128 2047 r then
     String (byte_of (192 + r / 64)) (String (byte_of (128 + r mod 64)) "")
   else if in_range 2048 55295 r || in_range 57344 65535 r then
     String (byte_of (224 + r / 4096))
       (String (byte_of (128 + r / 64 mod 64)) (String (byte_of (128 + r mod 64)) ""))
   else if in_range 65536 1114111 r then
     String (byte_of (240 + r / 262144))
       (String (byte_of (128 + r / 4096 mod 64))
          (String (byte_of (128 + r / 64 mod 64)) (String (byte_of (128 + r mod 64)) "")))
   else String (byte_of 239) (String (byte_of 191) (String (byte_of 189) "")))%Z.

(** The tables of package [unicode] beyond ASCII: the general categories L and
    N, the simple lower-case mapping, and [unicode.IsPrint]. *)
Class Unicode := {
  uni_letter_or_number : Z -> bool;
  uni_lower : Z -> Z;
  uni_print : Z -> bool;
}.

Definition is_ascii (s : string) : bool := str_forall (fun c => (byte_val c <? 128)%Z) s.

(** [strings.ToLower]: bytewise on ASCII strings, by runes otherwise. *)
Definition to_lower_rune `{Unicode} (r : Z) : Z :=
  if (r <? 128)%Z then (if in_range 65 90 r then r + 32 else r)%Z else uni_lower r.

Definition to_lower `{Unicode} (s : string) : string :=
  if is_ascii s then str_map lower_byte s
  else String.concat "" (encode_rune <$> (to_lower_rune <$> runes s)).

(** [strings.EqualFold] against an ASCII string whose letters have no
    non-ASCII case variants (every letter except k and s). *)
Definition equal_fold (s t : string) : bool :=
  String.eqb (str_map lower_byte s) (str_map lower_byte t).

(** ** Lemmas *)

Lemma str_forall_forall (p : ascii -> bool) s :
  str_forall p s = true <-> forall c, In c (String.list_ascii_of_string s) -> p c = true.
Proof.
  induction s as [|c s IH]; simpl; [naive_solver|].
  rewrite andb_true_iff, IH. naive_solver.
Qed.

Lemma str_forall_mono (p q : ascii -> bool) s :
  (forall c, p c = true -> q c = true) -> str_forall p s = true -> str_forall q s = true.
Proof. rewrite !str_forall_forall. naive_solver. Qed.

Lemma str_forall_ext (p q : ascii -> bool) s :
  (forall c, p c = q c) -> str_forall p s = str_forall q s.
Proof. intros H. induction s as [|c s IH]; simpl; [done|]. by rewrite H, IH. Qed.

Lemma str_forall_app p s t : str_forall p (s ++ t) = str_forall p s && str_forall p t.
Proof. induction s as [|c s IH]; simpl; [done|]. by rewrite IH, andb_assoc. Qed.

Lemma str_app_nil_r s : s ++ "" = s.
Proof. induction s; simpl; congruence. Qed.

Lemma str_app_assoc s t u : (s ++ t) ++ u = s ++ (t ++ u).
Proof. induction s; simpl; congruence. Qed.

Lemma str_length_app s t : String.length (s ++ t) = String.length s + String.length t.
Proof. induction s; simpl; congruence. Qed.

Lemma has_prefix_iff s p : has_prefix s p = true <-> exists t, s = p ++ t.
Proof.
  unfold has_prefix. revert s; induction p as [|c p IH]; intros s; simpl.
  { destruct s; split; eauto. }
  destruct s as [|d s]; [split; [done|by intros [t [=]]]|].
  simpl. destruct (ascii_dec c d) as [->|Hne].
  - rewrite IH. split; intros [t Ht]; exists t; congruence.
  - split; [done|]. intros [t Ht]. congruence.
Qed.

Lemma has_prefix_app p t : has_prefix (p ++ t) p = true.
Proof. apply has_prefix_iff; eauto. Qed.

Lemma has_suffix_iff s suf : has_suffix s suf = true <-> exists t, s = t ++ suf.
Proof.
  induction s as [|c s IH]; cbn [has_suffix]; rewrite orb_true_iff, String.eqb_eq.
  - split; [intros [->|[=]]; by exists ""|].
    intros [[|d t] Ht]; simpl in Ht; [by left|congruence].
  - rewrite IH. split.
    + intros [<-|[t ->]]; [by exists ""|by exists (String c t)].
    + intros [[|d t] Ht]; simpl in Ht; [by left|]. right. exists t. congruence.
Qed.

Lemma contains_iff s sub : contains s sub = true <-> exists pre post, s = pre ++ sub ++ post.
Proof.
  induction s as [|c s IH]; cbn [contains]; rewrite orb_true_iff, has_prefix_iff.
  - split; [intros [[t ->]|[=]]; by exists "", t|].
    intros [[|d pre] [post Ht]]; simpl in Ht; [left; eauto|congruence].
  - rewrite IH. split.
    + intros [[t Ht]|[pre [post ->]]]; [by exists "", t|by exists (String c pre), post].
    + intros [[|d pre] [post Ht]]; simpl in Ht; [left; eauto|].
      right. exists pre, post. congruence.
Qed.

Lemma contains_app_l s t sub : contains s sub = true -> contains (s ++ t) sub = true.
Proof.
  rewrite !contains_iff. intros (pre & post & ->). exists pre, (post ++ t).
  by rewrite !str_app_assoc.
Qed.

Lemma contains_app_r s t sub : contains t sub = true -> contains (s ++ t) sub = true.
Proof.
  rewrite !contains_iff. intros (pre & post & ->). exists (s ++ pre), post.
  by rewrite !str_app_assoc.
Qed.

Lemma contains_self s : contains s s = true.
Proof. rewrite contains_iff. exists "", "". by rewrite str_app_nil_r. Qed.

Lemma str_exists_false p s :
  str_exists p s = false <-> str_forall (fun c => negb (p c)) s = true.
Proof. unfold str_exists. by rewrite negb_false_iff. Qed.

Lemma str_exists_true p s :
  str_exists p s = true <-> exists c, In c (String.list_ascii_of_string s) /\ p c = true.
Proof.
  unfold str_exists. rewrite negb_true_iff. induction s as [|c s IH]; simpl; [naive_solver|].
  rewrite andb_false_iff, negb_false_iff, IH. naive_solver.
Qed.

Lemma contains_byte_iff s b :
  contains_byte s b = true <-> In b (String.list_ascii_of_string s).
Proof.
  unfold contains_byte. rewrite str_exists_true. split.
  - intros (c & Hin & <-%Ascii.eqb_eq). done.
  - intros Hin. exists b. by rewrite Ascii.eqb_refl.
Qed.

(** *** Splitting and joining *)

Lemma concat_cons x l : String.concat "" (x :: l) = x ++ String.concat "" l.
Proof. destruct l as [|y l]; simpl; [by rewrite str_app_nil_r|done]. Qed.

Lemma concat_snoc l x : String.concat "" (l ++ [x])%list = String.concat "" l ++ x.
Proof.
  induction l as [|y l IH]; [done|]. change ((y :: l) ++ [x])%list with (y :: (l ++ [x]))%list.
  by rewrite !concat_cons, IH, str_app_assoc.
Qed.

Lemma list_ascii_app s t :
  String.list_ascii_of_string (s ++ t) = (String.list_ascii_of_string s ++ String.list_ascii_of_string t)%list.
Proof. induction s as [|c s IH]; simpl; [done|]. by rewrite IH. Qed.

Lemma split_nonnil sep s : split sep s <> [].
Proof. destruct s as [|c s]; simpl; repeat case_match; done. Qed.

Lemma join_split sep s : join (String sep "") (split sep s) = s.
Proof.
  induction s as [|c s IH]; simpl; [done|].
  destruct (Ascii.eqb_spec c sep) as [->|Hne].
  - destruct (split sep s) eqn:E; [by apply split_nonnil in E|]. simpl in *. by rewrite IH.
  - destruct (split sep s) as [|h t] eqn:E; [by apply split_nonnil in E|].
    rewrite <- IH. by destruct t.
Qed.

Lemma split_forall sep (p : ascii -> bool) s :
  str_forall p s = true -> Forall (fun x => str_forall p x = true) (split sep s).
Proof.
  induction s as [|c s IH]; simpl; [by repeat constructor|].
  rewrite andb_true_iff; intros [Hc Hs]. specialize (IH Hs).
  destruct (Ascii.eqb c sep); [by constructor|].
  destruct (split sep s) as [|h t]; inversion IH; subst; repeat constructor; simpl;
    rewrite ?Hc; auto.
Qed.

Definition no_byte (b : ascii) (s : string) : Prop :=
  str_forall (fun c => negb (Ascii.eqb b c)) s = true.

Lemma contains_any_no_byte b s chars :
  contains_byte chars b = true -> contains_any s chars = false -> no_byte b s.
Proof.
  unfold contains_any, no_byte. rewrite str_exists_false. intros Hc. apply str_forall_mono. intros c.
  rewrite !negb_true_iff. intros Hn. apply Ascii.eqb_neq. intros <-. congruence.
Qed.

Lemma split_no_sep sep s : Forall (no_byte sep) (split sep s).
Proof.
  unfold no_byte. induction s as [|c s IH]; simpl; [by repeat constructor|].
  destruct (Ascii.eqb_spec c sep) as [->|Hne]; [by constructor|].
  assert (Hb : negb (Ascii.eqb sep c) = true) by (apply negb_true_iff, Ascii.eqb_neq; congruence).
  destruct (split sep s) as [|h t]; inversion IH; subst; repeat constructor; simpl;
    rewrite ?Hb; auto.
Qed.

Lemma split_app_sep sep s t :
  no_byte sep s -> split sep (s ++ String sep t) = s :: split sep t.
Proof.
  unfold no_byte. induction s as [|c s IH]; simpl; [by rewrite Ascii.eqb_refl|].
  rewrite andb_true_iff, negb_true_iff. intros [Hc Hs].
  rewrite Ascii.eqb_sym, Hc, (IH Hs). done.
Qed.

Lemma split_id sep s : no_byte sep s -> split sep s = [s].
Proof.
  unfold no_byte. induction s as [|c s IH]; simpl; [done|].
  rewrite andb_true_iff, negb_true_iff. intros [Hc Hs].
  by rewrite Ascii.eqb_sym, Hc, (IH Hs).
Qed.

Lemma split_join sep l :
  l <> [] -> Forall (no_byte sep) l -> split sep (join (String sep "") l) = l.
Proof.
  induction l as [|x [|y l] IH]; intros Hne Hl; [done|..].
  - inversion Hl; subst. by apply split_id.
  - inversion Hl; subst. simpl join.
    change (x ++ String sep "" ++ ?r) with (x ++ String sep r).
    rewrite split_app_sep by done. f_equal. by apply IH.
Qed.

Lemma split_contains sep s x : In x (split sep s) -> contains s x = true.
Proof.
  rewrite <- (join_split sep s) at 2. generalize (split sep s) as l.
  induction l as [|y [|z l] IH]; [done|..].
  - intros [->|[]]. apply contains_self.
  - intros [->|Hin]; simpl join.
    + apply contains_app_l, contains_self.
    + apply contains_app_r, (contains_app_r (String sep "")), IH, Hin.
Qed.

Lemma str_forall_take p n s : str_forall p s = true -> str_forall p (take_bytes n s) = true.
Proof.
  revert n; induction s as [|c s IH]; intros [|n]; simpl; try done.
  rewrite !andb_true_iff. naive_solver.
Qed.

Lemma take_bytes_all n s : (String.length s <= n)%nat -> take_bytes n s = s.
Proof.
  revert n; induction s as [|c s IH]; intros [|n] Hn; simpl in *; try done; [lia|].
  rewrite IH by lia. done.
Qed.

Lemma take_bytes_app n s t :
  take_bytes n (s ++ t) = take_bytes n s ++ take_bytes (n - String.length s) t.
Proof.
  revert n; induction s as [|c s IH]; intros [|n]; simpl; try done. by rewrite IH.
Qed.

Lemma take_bytes_length n s : String.length (take_bytes n s) = Nat.min n (String.length s).
Proof. revert n; induction s as [|c s IH]; intros [|n]; simpl; congruence. Qed.

Lemma len_app s t : len (s ++ t) = (len s + len t)%Z.
Proof. unfold len. rewrite str_length_app. lia. Qed.

Lemma len_String c s : len (String c s) = (1 + len s)%Z.
Proof. unfold len. cbn [String.length]. lia. Qed.

Lemma length_list_ascii s : length (String.list_ascii_of_string s) = String.length s.
Proof. induction s; simpl; auto. Qed.

Lemma len_nonneg s : (0 <= len s)%Z.
Proof. unfold len. lia. Qed.

Lemma drop_bytes_app s t : drop_bytes (String.length s) (s ++ t) = t.
Proof. by induction s. Qed.

Lemma trim_prefix_app p t : trim_prefix (p ++ t) p = t.
Proof. unfold trim_prefix. by rewrite has_prefix_app, drop_bytes_app. Qed.

(** *** Words *)

(** Printable ASCII without the space. *)
Definition is_word_byte (c : ascii) : bool := in_range 33 126 (byte_val c).

Lemma fields_from_byte cur a s :
  is_word_byte a = true -> fields_from cur (String a s) = fields_from (cur ++ String a "") s.
Proof.
  unfold is_word_byte, in_range. intros Ha.
  assert (H1 : space1 a = false) by (unfold space1, in_range; lia).
  assert (H2 : forall b, space2 a b = false) by (intros b; unfold space2; lia).
  assert (H3 : forall b c, space3 a b c = false) by (intros b c; unfold space3; lia).
  cbn [fields_from]. rewrite H1. destruct s as [|b s]; [done|]. rewrite H2.
  destruct s as [|c s]; [done|]. by rewrite H3.
Qed.

Lemma word_not_space a b c : is_word_byte a = true -> space1 a = false /\ space2 a b = false /\ space3 a b c = false.
Proof.
  unfold is_word_byte, in_range. intros Ha. split_and!; [unfold space1, in_range|unfold space2|unfold space3]; lia.
Qed.

Lemma trim_leading_word sp2 sp3 a s :
  is_word_byte a = true -> (forall b, is_word_byte b = true -> sp2 a b = false) ->
  (forall b c, is_word_byte b = true -> is_word_byte c = true -> sp3 a b c = false) ->
  str_forall is_word_byte s = true -> trim_leading sp2 sp3 (String a s) = String a s.
Proof.
  intros Ha H2 H3 Hs. destruct (word_not_space a a a Ha) as (H1 & _). cbn [trim_leading]. rewrite H1.
  destruct s as [|b s]; [done|]. cbn [str_forall] in Hs. apply andb_true_iff in Hs as [Hb Hs]. rewrite (H2 b Hb).
  destruct s as [|c s]; [done|]. cbn [str_forall] in Hs. apply andb_true_iff in Hs as [Hc _]. by rewrite (H3 b c Hb Hc).
Qed.

Lemma str_rev_app s t : str_rev (s ++ t) = str_rev t ++ str_rev s.
Proof.
  induction s as [|c s IH]; simpl; [by rewrite str_app_nil_r|]. by rewrite IH, str_app_assoc.
Qed.

Lemma str_rev_involutive s : str_rev (str_rev s) = s.
Proof. induction s as [|c s IH]; simpl; [done|]. by rewrite str_rev_app, IH. Qed.

Lemma str_forall_rev p s : str_forall p (str_rev s) = str_forall p s.
Proof.
  induction s as [|c s IH]; [done|]. cbn [str_rev str_forall]. rewrite str_forall_app, IH. cbn [str_forall].
  by rewrite andb_true_r, andb_comm.
Qed.

(** A text without spaces is not trimmed. *)
Lemma trim_space_word s : str_forall is_word_byte s = true -> trim_space s = s.
Proof.
  intros Hs. unfold trim_space. assert (Hl : trim_left s = s).
  { destruct s as [|a s]; [done|]. cbn [str_forall] in Hs. apply andb_true_iff in Hs as [Ha Hs].
    apply trim_leading_word; [done| | |done]; intros; by apply word_not_space. }
  rewrite Hl. unfold trim_right. pose proof (str_forall_rev is_word_byte s) as Hr. rewrite Hs in Hr.
  assert (Ht : trim_leading (fun b a => space2 a b) (fun c b a => space3 a b c) (str_rev s) = str_rev s).
  { destruct (str_rev s) as [|a r]; [done|]. cbn [str_forall] in Hr. apply andb_true_iff in Hr as [Ha Hr].
    apply trim_leading_word; [done| | |done]; intros; by apply word_not_space. }
  by rewrite Ht, str_rev_involutive.
Qed.

Lemma fields_from_word cur w s :
  str_forall is_word_byte w = true -> fields_from cur (w ++ s) = fields_from (cur ++ w) s.
Proof.
  revert cur; induction w as [|a w IH]; intros cur; [by rewrite str_app_nil_r|].
  cbn [str_forall String.append]. intros [Ha Hw]%andb_true_iff. rewrite fields_from_byte by done.
  rewrite IH by done. by rewrite str_app_assoc.
Qed.

Lemma flush_nonempty w l : w <> "" -> flush w l = w :: l.
Proof. intros Hw. unfold flush. by apply String.eqb_neq in Hw as ->. Qed.

(** Words joined by spaces are read back. *)
Lemma fields_join l :
  Forall (fun w => w <> "" /\ str_forall is_word_byte w = true) l -> fields (join " " l) = l.
Proof.
  unfold fields. induction 1 as [|w l [Hne Hw] Hl IH]; [done|].
  destruct l as [|v l].
  - cbn [join]. rewrite <- (str_app_nil_r w) at 1. rewrite fields_from_word by done.
    cbn [String.append fields_from]. by rewrite flush_nonempty.
  - cbn [join]. rewrite fields_from_word by done. cbn [String.append fields_from].
    change (space1 " ") with true. cbv iota. rewrite flush_nonempty by done. f_equal. exact IH.
Qed.

(** What precedes the first separator. *)
Lemma cut_id sep s : no_byte sep s -> cut sep s = (s, None).
Proof.
  unfold no_byte. induction s as [|c s IH]; simpl; [done|].
  rewrite andb_true_iff, negb_true_iff. intros [Hc Hs]. by rewrite Ascii.eqb_sym, Hc, (IH Hs).
Qed.

Lemma cut_some sep s a b : cut sep s = (a, Some b) -> s = a ++ String sep b.
Proof.
  revert a b. induction s as [|c s IH]; intros a b; cbn [cut]; [done|].
  destruct (Ascii.eqb_spec c sep) as [->|]; [by intros [= <- <-]|]. destruct (cut sep s) as [h t]. intros [= <- ->].
  by rewrite (IH h b).
Qed.

Lemma cut_app_sep sep s t : no_byte sep s -> cut sep (s ++ String sep t) = (s, Some t).
Proof.
  unfold no_byte. induction s as [|c s IH]; simpl; [by rewrite Ascii.eqb_refl|].
  rewrite andb_true_iff, negb_true_iff. intros [Hc Hs]. by rewrite Ascii.eqb_sym, Hc, (IH Hs).
Qed.

(** A small instance of the tables, for examples: no letters beyond ASCII. *)
Definition unicode_ascii : Unicode :=
  {| uni_letter_or_number := fun _ => false; uni_lower := fun r => r; uni_print := fun _ => false |}.
