(* ===== verification/GoStrconv.v ===== *)
(** * Numbers and quotation

    What the program uses of the packages [strconv] and [fmt] for numbers: decimal
    printing, [strconv.Atoi], the [%d] verb of [fmt.Sscanf], and [strconv.Quote]. *)

From stdpp Require Import pretty.
From S2P Require Import Prelude GoStrings.
Local Open Scope string_scope.

(** ** Decimal digits *)

Definition digit_val (c : ascii) : Z := (byte_val c - 48)%Z.

(** The number a run of digits stands for, most significant first. *)
Fixpoint digits_val (acc : Z) (s : string) : Z :=
  match s with
  | EmptyString => acc
  | String c s' => digits_val (acc * 10 + digit_val c) s'
  end.

(** The longest prefix of digits, and the rest. *)
Fixpoint digit_prefix (s : string) : string * string :=
  match s with
  | EmptyString => ("", "")
  | String c s' =>
      if is_digit c then let '(d, r) := digit_prefix s' in (String c d, r) else ("", s)
  end.

Definition int_max : Z := 2 ^ 63 - 1.

(** A sign, then the rest. *)
Definition take_sign (s : string) : bool * string :=
  match s with
  | String "-" s' => (true, s')
  | String "+" s' => (false, s')
  | _ => (false, s)
  end.

Definition signed (neg : bool) (z : Z) : option Z :=
  let z := if neg then (- z)%Z else z in
  if ((- 2 ^ 63 <=? z) && (z <=? int_max))%Z then Some z else None.

(** [strconv.Atoi] *)
Definition atoi (s : string) : option Z :=
  let '(neg, s) := take_sign s in
  let '(d, r) := digit_prefix s in
  if String.eqb d "" || negb (String.eqb r "") then None else signed neg (digits_val 0 d).

(** [fmt.Sscanf(s, "%d", &n)]: white space is skipped, a sign and digits are
    read, and what follows them is left. *)
Definition sscanf_d (s : string) : option Z :=
  let '(neg, s) := take_sign (trim_left s) in
  let '(d, _) := digit_prefix s in
  if String.eqb d "" then None else signed neg (digits_val 0 d).

(** Decimal printing, [%d]. *)
Definition itoa (z : Z) : string := pretty z.

(** ** Quotation *)

Definition hex_digit (z : Z) : ascii :=
  if (z <? 10)%Z then byte_of (48 + z) else byte_of (87 + z).

Fixpoint hex_pad (n : nat) (z : Z) : string :=
  match n with
  | 0 => ""
  | S n' => hex_pad n' (z / 16) ++ String (hex_digit (z mod 16)) ""
  end.

Definition dquote : ascii := ascii_of_nat 34.
Definition backslash : ascii := ascii_of_nat 92.
Definition esc (c : ascii) : string := String backslash (String c "").

(** One rune of [strconv.Quote]; [raw] is its encoding in the subject. *)
Definition quote_rune `{Unicode} (r : Z) (raw : string) : string :=
  (if (r =? byte_val dquote) then esc dquote
   else if (r =? 92) then esc backslash
   else if in_range 32 126 r then raw
   else if (128 <=? r) && uni_print r then raw
   else if (r =? 7) then esc "a" else if (r =? 8) then esc "b" else if (r =? 12) then esc "f"
   else if (r =? 10) then esc "n" else if (r =? 13) then esc "r" else if (r =? 9) then esc "t"
   else if (r =? 11) then esc "v"
   else if (r <? 32) || (r =? 127) then esc "x" ++ hex_pad 2 r
   else if (r <? 65536) then esc "u" ++ hex_pad 4 r
   else esc "U" ++ hex_pad 8 r)%Z.

(** A byte that is no part of a valid encoding. *)
Definition quote_bad_byte (a : ascii) : string := esc "x" ++ hex_pad 2 (byte_val a).

Fixpoint quote_body `{Unicode} (s : string) : string :=
  match s with
  | EmptyString => ""
  | String a s1 =>
      if (byte_val a <? 128)%Z then quote_rune (byte_val a) (String a "") ++ quote_body s1
      else match s1 with
      | EmptyString => quote_bad_byte a
      | String b s2 =>
          if valid2 a b then
            quote_rune (Z.land (byte_val a) 31 * 64 + low6 b) (String a (String b "")) ++ quote_body s2
          else match s2 with
          | EmptyString => quote_bad_byte a ++ quote_body s1
          | String c s3 =>
              if valid3 a b c then
                quote_rune (Z.land (byte_val a) 15 * 4096 + low6 b * 64 + low6 c)
                  (String a (String b (String c ""))) ++ quote_body s3
              else match s3 with
              | EmptyString => quote_bad_byte a ++ quote_body s1
              | String d s4 =>
                  if valid4 a b c d then
                    quote_rune (Z.land (byte_val a) 7 * 262144 + low6 b * 4096 + low6 c * 64 + low6 d)
                      (String a (String b (String c (String d "")))) ++ quote_body s4
                  else quote_bad_byte a ++ quote_body s1
              end
          end
      end
  end.

(** [strconv.Quote] *)
Definition quote `{Unicode} (s : string) : string :=
  String dquote (quote_body s ++ String dquote "").

(** ** Lemmas *)

(** Bytes above the control characters. *)
Definition is_text (c : ascii) : bool := (32 <=? byte_val c)%Z.

Lemma byte_val_byte_of z : (0 <= z < 256)%Z -> byte_val (byte_of z) = z.
Proof. intros H. unfold byte_val, byte_of. rewrite N_ascii_embedding; lia. Qed.

Lemma hex_digit_text z : (0 <= z < 16)%Z -> is_text (hex_digit z) = true.
Proof.
  intros H. unfold is_text, hex_digit. case_match; rewrite byte_val_byte_of; lia.
Qed.

Lemma hex_pad_text n z : str_forall is_text (hex_pad n z) = true.
Proof.
  revert z; induction n as [|n IH]; intros z; [done|]. cbn [hex_pad]. rewrite str_forall_app, IH.
  simpl. rewrite hex_digit_text; [done|]. apply Z.mod_pos_bound. lia.
Qed.

Lemma quote_rune_text `{Unicode} r raw :
  ((32 <= r)%Z -> str_forall is_text raw = true) -> str_forall is_text (quote_rune r raw) = true.
Proof.
  intros Hraw. unfold quote_rune.
  repeat match goal with |- str_forall _ (if ?b then _ else _) = true => destruct b eqn:? end;
    rewrite ?str_forall_app, ?hex_pad_text; try done; apply Hraw;
    unfold in_range in *; propify; lia.
Qed.

Lemma high_text c : (128 <= byte_val c)%Z -> is_text c = true.
Proof. unfold is_text. lia. Qed.

Lemma cont_high c : cont c = true -> (128 <= byte_val c)%Z.
Proof. unfold cont, in_range. intros ?; propify; lia. Qed.

(** A quoted string is one line of text: it holds no control characters. *)
Lemma quote_text `{Unicode} s : str_forall is_text (quote s) = true.
Proof.
  unfold quote. cbn [str_forall]. apply andb_true_iff. split; [done|]. rewrite str_forall_app.
  apply andb_true_iff. split; [|done].
  assert (Hbad : forall a, str_forall is_text (quote_bad_byte a) = true)
    by (intros a; unfold quote_bad_byte; by rewrite str_forall_app, hex_pad_text).
  remember (String.length s) as n eqn:Hn. assert (Hle : String.length s <= n) by lia. clear Hn.
  revert s Hle. induction n as [|n IH]; intros s Hle; [by destruct s; simpl in *; [|lia]|].
  destruct s as [|a s1]; [done|]. cbn [quote_body].
  destruct (Z.ltb_spec (byte_val a) 128) as [Ha|Ha].
  { rewrite str_forall_app, IH by (simpl in Hle; lia). rewrite quote_rune_text; [done|].
    simpl. unfold is_text. intros. lia. }
  apply high_text in Ha.
  destruct s1 as [|b s2]; [apply Hbad|].
  destruct (valid2 a b) eqn:H2; [|destruct s2 as [|c s3]; [|destruct (valid3 a b c) eqn:H3;
    [|destruct s3 as [|d s4]; [|destruct (valid4 a b c d) eqn:H4]]]];
    rewrite str_forall_app, ?Hbad, IH, ?andb_true_r by (simpl in *; lia); try done;
    apply quote_rune_text; intros _; cbn [str_forall]; rewrite Ha.
  - unfold valid2 in H2. propify. rewrite (high_text b) by by apply cont_high. done.
  - unfold valid3, cont, in_range in H3. rewrite (high_text b), (high_text c); [done|lia..].
  - unfold valid4, cont, in_range in H4. rewrite (high_text b), (high_text c), (high_text d); [done|lia..].
Qed.
(** ** Decimal printing and reading *)

Lemma digits_val_app acc d t : digits_val acc (d ++ t) = digits_val (digits_val acc d) t.
Proof. revert acc; induction d as [|c d IH]; intros acc; simpl; [done|apply IH]. Qed.

Lemma digit_prefix_all d t :
  str_forall is_digit d = true -> (forall c r, t = String c r -> is_digit c = false) ->
  digit_prefix (d ++ t) = (d, t).
Proof.
  intros Hd Ht. induction d as [|c d IH]; simpl in *.
  - destruct t as [|c r]; [done|]. simpl. by rewrite (Ht c r).
  - apply andb_true_iff in Hd as [-> Hd]. by rewrite IH.
Qed.

(** A decimal numeral: digits, no leading zero. *)
Definition numeral (d : string) (z : Z) : Prop :=
  str_forall is_digit d = true /\ digits_val 0 d = z /\
  exists c r, d = String c r /\ (c = "0"%char -> r = "").

Lemma pretty_char x :
  (x < 10)%N -> is_digit (pretty_N_char x) = true /\ digit_val (pretty_N_char x) = Z.of_N x /\
  (pretty_N_char x = "0"%char -> x = 0%N).
Proof.
  intros Hx. assert (x = 0 \/ x = 1 \/ x = 2 \/ x = 3 \/ x = 4 \/ x = 5 \/ x = 6 \/ x = 7 \/ x = 8 \/ x = 9)%N
    as Hcases by lia. by repeat destruct Hcases as [->|Hcases]; [..|subst x].
Qed.

Lemma pretty_go_numeral x s :
  (0 < x)%N -> exists d, pretty_N_go x s = d ++ s /\ str_forall is_digit d = true /\
    digits_val 0 d = Z.of_N x /\ exists c r, d = String c r /\ c <> "0"%char.
Proof.
  revert s. induction (N.lt_wf_0 x) as [x _ IH]; intros s Hx. rewrite pretty_N_go_step by done.
  assert (Hm : (x `mod` 10 < 10)%N) by by apply N.mod_lt.
  destruct (pretty_char _ Hm) as (Hd & Hv & H0).
  assert (Hdm : (x = 10 * (x `div` 10) + x `mod` 10)%N) by by apply N.div_mod.
  destruct (decide (x `div` 10 = 0)%N) as [Hz|Hz].
  - rewrite Hz, pretty_N_go_0. exists (String (pretty_N_char (x `mod` 10)) ""). simpl. rewrite Hd.
    split_and!; [done|done|lia|]. eexists _, _. split; [done|]. intros Hc. apply H0 in Hc. lia.
  - destruct (IH (x `div` 10)%N ltac:(by apply N.div_lt) (String (pretty_N_char (x `mod` 10)) s) ltac:(lia))
      as (d & -> & Hall & Hval & c & r & -> & Hc).
    exists (String c r ++ String (pretty_N_char (x `mod` 10)) ""). rewrite str_app_assoc, str_forall_app, Hall.
    cbn [str_forall andb]. rewrite Hd, digits_val_app, Hval. cbn [digits_val].
    split_and!; [done|done|lia|]. by eexists _, _.
Qed.

Lemma itoa_numeral z : (0 <= z)%Z -> numeral (itoa z) z.
Proof.
  intros Hz. destruct z as [|p|p]; [|clear Hz|lia].
  { split_and!; [done..|]. by eexists _, _. }
  unfold itoa, pretty, pretty_Z, pretty, pretty_positive, pretty, pretty_N. rewrite decide_False by done.
  destruct (pretty_go_numeral (Npos p) "" eq_refl) as (d & -> & Hall & Hval & c & r & -> & Hc).
  rewrite str_app_nil_r. split_and!; [done..|]. by eexists _, _.
Qed.

Lemma itoa_neg z : (z < 0)%Z -> itoa z = "-" ++ itoa (- z).
Proof. by destruct z. Qed.

Lemma itoa_inj z w : itoa z = itoa w -> z = w.
Proof. intros H. by apply (inj pretty) in H. Qed.

Lemma digit_not_sign c : is_digit c = true -> c <> "-"%char /\ c <> "+"%char.
Proof. intros H. split; by intros ->. Qed.

Lemma take_sign_digit c r : is_digit c = true -> take_sign (String c r) = (false, String c r).
Proof.
  intros [H1 H2]%digit_not_sign. unfold take_sign.
  by destruct c as [[] [] [] [] [] [] [] []].
Qed.

(** Reading a printed integer gives it back. *)
Lemma atoi_itoa z : is_int64 z -> atoi (itoa z) = Some z.
Proof.
  intros Hz. unfold is_int64 in Hz.
  assert (Hread : forall neg n, (0 <= n)%Z -> (let '(d, r) := digit_prefix (itoa n) in
    if String.eqb d "" || negb (String.eqb r "") then None else signed neg (digits_val 0 d)) = signed neg n).
  { intros neg n Hn. destruct (itoa_numeral n Hn) as (Hall & Hval & c & r & Hi & _).
    pose proof (digit_prefix_all (itoa n) "" Hall ltac:(done)) as Hp. rewrite str_app_nil_r in Hp.
    rewrite Hp, Hval, Hi. done. }
  unfold atoi. destruct (decide (z < 0)%Z) as [Hneg|Hpos].
  - rewrite itoa_neg by done. cbn [String.append take_sign]. rewrite Hread by lia. unfold signed, int_max.
    rewrite Z.opp_involutive. by assert (((- 2 ^ 63 <=? z) && (z <=? 2 ^ 63 - 1))%Z = true) as -> by lia.
  - assert (Hs : take_sign (itoa z) = (false, itoa z)).
    { destruct (itoa_numeral z ltac:(lia)) as (Hall & _ & c & r & Hi & _). rewrite Hi in *. simpl in Hall.
      apply andb_true_iff in Hall as [Hc _]. by apply take_sign_digit. }
    rewrite Hs, Hread by lia. unfold signed, int_max.
    by assert (((- 2 ^ 63 <=? z) && (z <=? 2 ^ 63 - 1))%Z = true) as -> by lia.
Qed.


Example quote_example : @quote unicode_ascii "a b" = String dquote ("a b" ++ String dquote "").
Proof. reflexivity. Qed.
Example sscanf_example : sscanf_d "5*" = Some 5%Z /\ sscanf_d "" = None /\ sscanf_d "60" = Some 60%Z.
Proof. by vm_compute. Qed.
Example itoa_example : itoa (-42) = "-42".
Proof. reflexivity. Qed.
