(* ===== verification/GoPath.v ===== *)
(** * Go paths on Unix

    The functions of packages [path] and [path/filepath] the program uses, on
    Unix, where both use the separator '/'.  A rooted path is handled through
    its list of components; [abs l] is the rooted path with components [l]. *)

From S2P Require Import Prelude GoStrings.
Local Open Scope string_scope.

Definition slash : ascii := "/"%char.

(** ** Definitions *)

Definition rooted (p : string) : bool := has_prefix p "/".

(** One element of [filepath.Clean]'s loop; the stack holds the kept elements,
    last first. *)
Definition clean_step (r : bool) (st : list string) (c : string) : list string :=
  if String.eqb c "" || String.eqb c "." then st
  else if String.eqb c ".." then
    match st with
    | [] => if r then [] else [".."]
    | top :: st' => if String.eqb top ".." then (if r then st else ".." :: st) else st'
    end
  else c :: st.

Definition clean_comps (p : string) : list string :=
  rev (fold_left (clean_step (rooted p)) (split slash p) []).

Definition abs (l : list string) : string := "/" ++ join "/" l.

(** [filepath.Clean] and [path.Clean]. *)
Definition clean (p : string) : string :=
  if rooted p then abs (clean_comps p)
  else match clean_comps p with [] => "." | l => join "/" l end.

(** [path.Join(a, b)]: empty elements are ignored. *)
Definition path_join (a b : string) : string :=
  match List.filter (fun s => negb (String.eqb s "")) [a; b] with
  | [] => ""
  | l => clean (join "/" l)
  end.

(** [filepath.Dir]: all but the last element, cleaned. *)
Definition dir (p : string) : string :=
  match rev (split slash p) with
  | [] | [_] => clean ""
  | _ :: r => clean (join "/" (rev r ++ [""])%list)
  end.

(** [filepath.Base]: the last non-empty element. *)
Definition base (p : string) : string :=
  match last (List.filter (fun s => negb (String.eqb s "")) (split slash p)) with
  | Some b => b
  | None => if String.eqb p "" then "." else "/"
  end.

(** [filepath.IsAbs]. *)
Definition is_abs (p : string) : bool := rooted p.

(** The elements left of two paths after their common leading elements. *)
Fixpoint strip_common (b t : list string) : list string * list string :=
  match b, t with
  | x :: b', y :: t' => if String.eqb x y then strip_common b' t' else (b, t)
  | _, _ => (b, t)
  end.

(** [filepath.Rel(basepath, targpath)] for a rooted target; [None] is the error
    "can't make targpath relative to basepath". *)
Definition rel (basepath targpath : string) : option string :=
  let b := clean basepath in
  let t := clean targpath in
  if String.eqb b t then Some "."
  else if negb (Bool.eqb (rooted b) (rooted t)) then None
  else
    let '(b', t') := strip_common (clean_comps b) (clean_comps t) in
    Some (join "/" (replicate (length b') ".." ++ t')%list).

(** ** Components of a cleaned rooted path *)

Definition good_comp (c : string) : Prop :=
  c <> "" /\ c <> "." /\ c <> ".." /\ no_byte slash c.

#[export] Instance good_comp_dec c : Decision (good_comp c).
Proof. unfold good_comp, no_byte. apply _. Defined.

Lemma no_byte_app b s t : no_byte b (s ++ t) <-> no_byte b s /\ no_byte b t.
Proof. unfold no_byte. by rewrite str_forall_app, andb_true_iff. Qed.

Lemma clean_step_good st c :
  no_byte slash c -> Forall good_comp st -> Forall good_comp (clean_step true st c).
Proof.
  intros Hc Hst. unfold clean_step.
  destruct (String.eqb_spec c ""), (String.eqb_spec c "."); simpl; try done.
  destruct (String.eqb_spec c "..").
  - destruct st as [|top st]; [done|]. inversion Hst; subst. by case_match.
  - constructor; [|done]. repeat split; done.
Qed.

Lemma clean_fold_good l st :
  Forall (no_byte slash) l -> Forall good_comp st ->
  Forall good_comp (fold_left (clean_step true) l st).
Proof.
  revert st; induction l as [|c l IH]; intros st Hl Hst; simpl; [done|].
  inversion Hl; subst. apply IH; [done|]. by apply clean_step_good.
Qed.

Lemma clean_comps_good p : rooted p = true -> Forall good_comp (clean_comps p).
Proof.
  intros Hr. unfold clean_comps. rewrite Hr. apply Forall_rev, clean_fold_good; [|done].
  apply split_no_sep.
Qed.

Lemma clean_fold_id l st :
  Forall good_comp l -> fold_left (clean_step true) l st = (rev l ++ st)%list.
Proof.
  revert st; induction l as [|c l IH]; intros st Hl; simpl; [done|].
  inversion Hl as [|?? (Hn & Hd & Hdd & _) Hl']; subst.
  rewrite IH by done. unfold clean_step.
  apply String.eqb_neq in Hn, Hd, Hdd. rewrite Hn, Hd, Hdd. simpl.
  by rewrite <- app_assoc.
Qed.

Lemma abs_rooted l : rooted (abs l) = true.
Proof. apply has_prefix_iff. eauto. Qed.

Lemma split_abs l :
  Forall good_comp l -> split slash (abs l) = "" :: (match l with [] => [""] | _ => l end).
Proof.
  intros Hl. change (abs l) with ("" ++ String slash (join "/" l)).
  rewrite split_app_sep by done. f_equal. destruct l as [|x l]; [done|].
  apply split_join; [done|]. eapply Forall_impl; [exact Hl|]. by intros c (_&_&_&?).
Qed.

Lemma clean_comps_abs l : Forall good_comp l -> clean_comps (abs l) = l.
Proof.
  intros Hl. unfold clean_comps. rewrite abs_rooted, split_abs by done.
  assert (H : fold_left (clean_step true) ("" :: match l with [] => [""] | _ => l end) [] = rev l).
  { destruct l as [|x l]; [done|].
    change (fold_left (clean_step true) (x :: l) [] = rev (x :: l)).
    rewrite (clean_fold_id (x :: l)) by done. by rewrite app_nil_r. }
  rewrite H. apply rev_involutive.
Qed.

Lemma clean_abs l : Forall good_comp l -> clean (abs l) = abs l.
Proof. intros Hl. unfold clean. by rewrite abs_rooted, clean_comps_abs. Qed.

Lemma clean_rooted p : rooted p = true -> clean p = abs (clean_comps p).
Proof. intros Hr. unfold clean. by rewrite Hr. Qed.

Lemma clean_idemp p : rooted p = true -> clean (clean p) = clean p.
Proof.
  intros Hr. rewrite (clean_rooted p Hr). apply clean_abs. by apply clean_comps_good.
Qed.

Lemma abs_inj l l' : Forall good_comp l -> Forall good_comp l' -> abs l = abs l' -> l = l'.
Proof. intros Hl Hl' H. by rewrite <- (clean_comps_abs l), H, clean_comps_abs. Qed.

#[export] Hint Resolve clean_comps_good abs_rooted : opendeploy.

(** ** Prefixes of rooted paths *)

Lemma join_cons x l : l <> [] -> join "/" (x :: l) = x ++ "/" ++ join "/" l.
Proof. by destruct l. Qed.

Lemma join_app l1 l2 :
  l1 <> [] -> l2 <> [] -> join "/" (l1 ++ l2)%list = join "/" l1 ++ "/" ++ join "/" l2.
Proof.
  intros H1 H2. induction l1 as [|x [|y l1] IH]; [done|..].
  - simpl app. by rewrite join_cons.
  - change ((x :: y :: l1) ++ l2)%list with (x :: ((y :: l1) ++ l2))%list.
    rewrite !join_cons, IH by done. by rewrite !str_app_assoc.
Qed.

(** The elements of a path that textually extends a rooted path. *)
Lemma split_abs_slash l t :
  Forall good_comp l -> l <> [] ->
  split slash ((abs l ++ "/") ++ t) = ("" :: l ++ split slash t)%list.
Proof.
  intros Hl Hne. rewrite str_app_assoc.
  change (abs l) with ("" ++ String slash (join "/" l)).
  change (("" ++ String slash ?a) ++ ?b) with ("" ++ String slash (a ++ b)).
  rewrite split_app_sep by done. f_equal. destruct l as [|x l]; [done|].
  clear Hne. revert x Hl. induction l as [|y l IH]; intros x Hl; inversion Hl as [|?? Hx Hr]; subst.
  - apply (split_app_sep slash x t), Hx.
  - rewrite join_cons, !str_app_assoc by done.
    transitivity (x :: split slash (join "/" (y :: l) ++ "/" ++ t));
      [apply (split_app_sep slash x), Hx|]. simpl app. f_equal. by apply IH.
Qed.

(** A cleaned path extends [abs l1 ++ "/"] exactly when it has more components
    after those of [l1]. *)
Lemma has_prefix_abs l1 l2 :
  Forall good_comp l1 -> Forall good_comp l2 -> l1 <> [] ->
  has_prefix (abs l2) (abs l1 ++ "/") = true <->
  exists l3, l3 <> [] /\ l2 = (l1 ++ l3)%list.
Proof.
  intros H1 H2 Hne. rewrite has_prefix_iff. split.
  - intros [t Ht].
    assert (Hs : split slash (abs l2) = ("" :: l1 ++ split slash t)%list)
      by (rewrite Ht; by apply split_abs_slash).
    rewrite split_abs in Hs by done. injection Hs as Hs.
    assert (Hl2 : l2 = (l1 ++ split slash t)%list).
    { destruct l2 as [|x l2]; [|done].
      destruct l1 as [|y l1]; [done|]. injection Hs as <- Hs. inversion H1 as [|?? Hy]; subst.
      by destruct Hy as [? _]. }
    exists (split slash t). split; [apply split_nonnil|done].
  - intros (l3 & Hl3 & ->). exists (join "/" l3). unfold abs.
    rewrite join_app by done. by rewrite !str_app_assoc.
Qed.

Lemma base_abs_snoc l x : Forall good_comp (l ++ [x])%list -> base (abs (l ++ [x])%list) = x.
Proof.
  intros Hg. unfold base. rewrite split_abs by done.
  assert (Hk : List.filter (fun s => negb (String.eqb s "")) (l ++ [x])%list = (l ++ [x])%list).
  { induction Hg as [|y k (Hy & _) Hk IH]; simpl; [done|]. apply String.eqb_neq in Hy. by rewrite Hy, IH. }
  replace (match (l ++ [x])%list with [] => [""] | _ => (l ++ [x])%list end) with (l ++ [x])%list by by destruct l.
  cbn [List.filter String.eqb negb]. rewrite Hk, last_snoc. done.
Qed.

(** ** Relative paths *)

Lemma strip_common_spec b t b' t' :
  strip_common b t = (b', t') ->
  exists l, b = (l ++ b')%list /\ t = (l ++ t')%list /\
    (forall x y, head b' = Some x -> head t' = Some y -> x <> y).
Proof.
  revert t; induction b as [|x b IH]; intros t; simpl.
  { intros [= <- <-]. by exists []. }
  destruct t as [|y t]; [intros [= <- <-]; by exists []|].
  destruct (String.eqb_spec x y) as [->|Hne].
  - intros H. destruct (IH _ H) as (l & -> & -> & Hd). by exists (y :: l).
  - intros [= <- <-]. exists []. repeat split; try done. simpl. congruence.
Qed.

(** The test [err == nil && rel != ".." && !HasPrefix(rel, "../")]. *)
Definition rel_inside (o : option string) : bool :=
  match o with
  | Some r => negb (String.eqb r "..") && negb (has_prefix r "../")
  | None => false
  end.

Lemma join_up_inside n t :
  Forall good_comp t ->
  rel_inside (Some (join "/" (replicate n ".." ++ t)%list)) = true <-> n = 0.
Proof.
  intros Ht. destruct n as [|n]; simpl replicate; split; try done.
  - intros _. simpl app. destruct t as [|x t]; [done|].
    inversion Ht as [|?? (Hn & _ & Hdd & Hs) _]; subst. unfold rel_inside.
    rewrite andb_true_iff, !negb_true_iff, String.eqb_neq. split.
    + intros He. destruct t as [|y t]; [done|]. rewrite join_cons in He by done.
      pose proof (split_app_sep slash x (join "/" (y :: t)) Hs) as H.
      change (String slash ?r) with ("/" ++ r) in H. rewrite He in H.
      change (split slash "..") with [".."] in H. injection H as H _. congruence.
    + apply not_true_is_false. intros [r Hr]%has_prefix_iff.
      assert (Hsp : split slash (join "/" (x :: t)) = ".." :: split slash r).
      { rewrite Hr. apply (split_app_sep slash ".."). done. }
      rewrite split_join in Hsp; [congruence|done|].
      eapply Forall_impl; [exact Ht|]. by intros c (_&_&_&?).
  - intros H. exfalso. unfold rel_inside in H.
    assert (Hj : (replicate n ".." ++ t)%list = [] \/ (replicate n ".." ++ t)%list <> [])
      by (destruct (replicate n ".." ++ t)%list; [by left|by right]).
    simpl app in H. destruct Hj as [Hj|Hj]; [by rewrite Hj in H|].
    rewrite join_cons in H by done. apply andb_true_iff in H as [_ H].
    apply negb_true_iff in H. rewrite <- not_true_iff_false, has_prefix_iff in H.
    apply H. exists (join "/" (replicate n ".." ++ t)%list). by rewrite <- str_app_assoc.
Qed.

(** [Rel] of two rooted paths stays inside the base exactly when the components
    of the base are a prefix of those of the target. *)
Lemma rel_inside_iff b t :
  rooted b = true -> rooted t = true ->
  rel_inside (rel b t) = true <-> clean_comps b `prefix_of` clean_comps t.
Proof.
  intros Hb Ht. unfold rel. rewrite !clean_rooted by done.
  assert (Gb := clean_comps_good _ Hb). assert (Gt := clean_comps_good _ Ht).
  destruct (String.eqb_spec (abs (clean_comps b)) (abs (clean_comps t))) as [He|Hne].
  { apply abs_inj in He; [|done..]. rewrite He. split; [by intros _; exists []; rewrite app_nil_r|done]. }
  rewrite !abs_rooted. simpl Bool.eqb. cbv iota.
  rewrite !clean_comps_abs by done.
  destruct (strip_common (clean_comps b) (clean_comps t)) as [b' t'] eqn:Hs.
  apply strip_common_spec in Hs as (l & Eb & Et & Hd).
  simpl negb. cbv iota. rewrite join_up_inside.
  2:{ rewrite Et in Gt. by apply Forall_app in Gt as [_ ?]. }
  rewrite length_zero_iff_nil. split.
  - intros ->. rewrite app_nil_r in Eb. rewrite Eb, Et. by exists t'.
  - intros [k Hk]. rewrite Eb, <- app_assoc in Hk. rewrite Et in Hk.
    apply app_inv_head in Hk. subst t'. destruct b' as [|x b']; [done|].
    exfalso. by apply (Hd x x).
Qed.

(** ** Paths without ".." *)

Lemma clean_fold_no_dotdot r l st :
  Forall (fun c => c <> "..") l ->
  exists k, fold_left (clean_step r) l st = (k ++ st)%list.
Proof.
  revert st; induction l as [|c l IH]; intros st Hl; simpl; [by exists []|].
  inversion Hl as [|?? Hc Hl']; subst. apply String.eqb_neq in Hc.
  unfold clean_step at 2. rewrite Hc. destruct (String.eqb c "" || String.eqb c "."); simpl.
  - by apply IH.
  - destruct (IH (c :: st) Hl') as [k ->]. exists (k ++ [c])%list. by rewrite <- app_assoc.
Qed.

(** A path that extends a cleaned root textually and holds no ".." stays below
    the root once cleaned. *)
Lemma prefix_no_dotdot_under l p :
  Forall good_comp l -> l <> [] ->
  has_prefix p (abs l ++ "/") = true -> contains p ".." = false ->
  rooted p = true /\ l `prefix_of` clean_comps p.
Proof.
  intros Hl Hne [t ->]%has_prefix_iff Hdd.
  assert (Hr : rooted ((abs l ++ "/") ++ t) = true)
    by (apply has_prefix_iff; unfold abs; rewrite !str_app_assoc; eauto).
  split; [done|]. unfold clean_comps. rewrite Hr.
  assert (Hs : split slash ((abs l ++ "/") ++ t) = (split slash (abs l) ++ split slash t)%list)
    by (rewrite split_abs_slash, split_abs by done; by destruct l).
  rewrite Hs, fold_left_app, split_abs by done.
  assert (Hf : fold_left (clean_step true) ("" :: match l with [] => [""] | _ => l end) [] = rev l).
  { pose proof (clean_comps_abs l Hl) as Hc. unfold clean_comps in Hc.
    rewrite abs_rooted, split_abs in Hc by done.
    apply (f_equal (@rev string)) in Hc. by rewrite rev_involutive in Hc. }
  rewrite Hf. destruct (clean_fold_no_dotdot true (split slash t) (rev l)) as [k ->].
  - apply Forall_forall. intros c Hc%list_elem_of_In ->.
    apply not_true_iff_false in Hdd. apply Hdd, contains_app_r.
    by apply (split_contains slash).
  - rewrite rev_app_distr, rev_involutive. by apply prefix_app_r.
Qed.

(** ** Relative roots *)

Lemma clean_fold_noslash l st :
  Forall (no_byte slash) l -> Forall (fun c => c <> "" /\ no_byte slash c) st ->
  Forall (fun c => c <> "" /\ no_byte slash c) (fold_left (clean_step false) l st).
Proof.
  revert st; induction l as [|c l IH]; intros st Hl Hst; simpl; [done|].
  inversion Hl as [|?? Hc Hl']; subst. apply IH; [done|]. unfold clean_step.
  destruct (String.eqb_spec c ""); simpl; [done|].
  destruct (String.eqb_spec c "."); simpl; [done|].
  destruct (String.eqb_spec c ".."); [|by constructor].
  destruct Hst as [|top st Ht Hst]; [by repeat constructor|].
  case_match; [|done]. constructor; [done|by constructor].
Qed.

Lemma clean_unrooted p : rooted p = false -> rooted (clean p) = false.
Proof.
  intros Hr. unfold clean. rewrite Hr.
  assert (Hf : Forall (fun c => c <> "" /\ no_byte slash c) (clean_comps p)).
  { unfold clean_comps. rewrite Hr. apply Forall_rev, clean_fold_noslash; [apply split_no_sep|done]. }
  destruct (clean_comps p) as [|x l]; [done|]. inversion Hf as [|?? [Hx Hn] _]; subst.
  apply not_true_is_false. intros [t Ht]%has_prefix_iff.
  destruct x as [|c x]; [done|].
  assert (Hc : c = slash) by (unfold slash; destruct l; simpl in Ht; congruence).
  subst c. done.
Qed.

Lemma rel_unrooted b t : rooted b = false -> rooted t = true -> rel_inside (rel b t) = false.
Proof.
  intros Hb Ht. unfold rel. pose proof (clean_unrooted b Hb) as Hcb.
  assert (Hct : rooted (clean t) = true) by (rewrite clean_rooted by done; apply abs_rooted).
  destruct (String.eqb_spec (clean b) (clean t)) as [He|]; [congruence|].
  by rewrite Hcb, Hct.
Qed.

(** ** Parents and joins *)

Lemma good_no_slash l : Forall good_comp l -> Forall (no_byte slash) l.
Proof. intros Hl. eapply Forall_impl; [exact Hl|]. by intros c (_ & _ & _ & ?). Qed.

(** A trailing separator does not matter. *)
Lemma clean_abs_slash l : Forall good_comp l -> clean (abs (l ++ [""])%list) = abs l.
Proof.
  intros Hl. rewrite clean_rooted by apply abs_rooted. f_equal.
  unfold clean_comps. rewrite abs_rooted.
  change (abs (l ++ [""])%list) with ("" ++ String slash (join "/" (l ++ [""])%list)).
  rewrite split_app_sep, split_join.
  - change (rev (fold_left (clean_step true) (l ++ [""])%list []) = l).
    rewrite fold_left_app, (clean_fold_id l) by done.
    change (rev (rev l ++ [])%list = l). by rewrite app_nil_r, rev_involutive.
  - by destruct l.
  - apply Forall_app. split; [by apply good_no_slash|by repeat constructor].
  - done.
Qed.

Lemma dir_abs_snoc l x :
  Forall good_comp (l ++ [x])%list -> dir (abs (l ++ [x])%list) = abs l.
Proof.
  intros Hg. assert (Hs : rev (split slash (abs (l ++ [x])%list)) = (x :: rev ("" :: l))%list).
  { rewrite split_abs by done. by destruct l; simpl; rewrite ?rev_app_distr. }
  apply Forall_app in Hg as [Hl _]. unfold dir. rewrite Hs.
  destruct (rev ("" :: l)) as [|y r] eqn:E; [by apply (f_equal length) in E; rewrite length_rev in E|].
  rewrite <- E, rev_involutive. change (("" :: l) ++ [""])%list with ("" :: (l ++ [""])%list).
  rewrite join_cons by (by destruct l). by apply clean_abs_slash.
Qed.

Lemma dir_root : dir (abs []) = abs [].
Proof. reflexivity. Qed.

(** Joining good components to a rooted path appends them. *)
Lemma path_join_comps p l :
  rooted p = true -> Forall good_comp l -> l <> [] ->
  rooted (path_join p (join "/" l)) = true /\
  clean_comps (path_join p (join "/" l)) = (clean_comps p ++ l)%list.
Proof.
  intros Hp Hl Hne. unfold path_join.
  assert (Hpe : String.eqb p "" = false).
  { apply String.eqb_neq. intros ->. done. }
  assert (Hje : String.eqb (join "/" l) "" = false).
  { apply String.eqb_neq. destruct l as [|x l]; [done|]. inversion Hl as [|?? (Hx & _) _]; subst.
    destruct x; [done|]. by destruct l. }
  cbn [List.filter]. rewrite Hpe, Hje. cbn [negb]. cbv iota.
  change (join "/" [p; join "/" l]) with (p ++ "/" ++ join "/" l).
  assert (Hr : rooted (p ++ "/" ++ join "/" l) = true).
  { apply has_prefix_iff in Hp as [t ->]. apply has_prefix_iff. rewrite str_app_assoc. eauto. }
  rewrite clean_rooted by done.
  assert (Hc : clean_comps (p ++ "/" ++ join "/" l) = (clean_comps p ++ l)%list).
  { unfold clean_comps. rewrite Hr, Hp.
    assert (Hs : split slash (p ++ "/" ++ join "/" l) = (split slash p ++ l)%list).
    { rewrite <- (join_split slash p) at 1.
      assert (Hns := split_no_sep slash p). pose proof (split_nonnil slash p) as Hnn.
      revert Hns Hnn. generalize (split slash p) as q. intros q Hq Hqn.
      change (String slash "") with "/". rewrite <- join_app by done.
      apply split_join; [by destruct q|]. apply Forall_app. split; [done|].
      by apply good_no_slash. }
    by rewrite Hs, fold_left_app, clean_fold_id, rev_app_distr, rev_involutive. }
  rewrite Hc. split; [apply abs_rooted|]. apply clean_comps_abs.
  apply Forall_app. split; [by apply clean_comps_good|done].
Qed.

Lemma path_join_clean a b : rooted a = true -> exists p, path_join a b = clean p /\ rooted p = true.
Proof.
  intros Ha. unfold path_join. cbn [List.filter].
  assert (Hae : String.eqb a "" = false) by (apply String.eqb_neq; by intros ->).
  rewrite Hae. cbn [negb]. destruct (String.eqb b ""); cbn [negb]; cbv iota.
  - by exists a.
  - eexists; split; [done|]. apply has_prefix_iff in Ha as [t ->].
    apply has_prefix_iff. by exists (t ++ "/" ++ b).
Qed.

(** Joining one component. *)
Lemma path_join_one p x : rooted p = true -> good_comp x -> path_join p x = abs (clean_comps p ++ [x])%list.
Proof.
  intros Hp Hx. destruct (path_join_comps p [x] Hp) as [Hr Hc]; [by constructor|done|].
  destruct (path_join_clean p x Hp) as (q & Hq & Hrq). change (join "/" [x]) with x in *.
  rewrite Hq in *. rewrite clean_rooted in * by done. rewrite clean_comps_abs in Hc by by apply clean_comps_good.
  by rewrite Hc.
Qed.

Lemma path_join_one_inj p q x y :
  rooted p = true -> rooted q = true -> good_comp x -> good_comp y ->
  path_join p x = path_join q y -> clean_comps p = clean_comps q /\ x = y.
Proof.
  intros Hp Hq Hx Hy. rewrite !path_join_one by done. intros He.
  apply abs_inj in He; [|by apply Forall_app; split; [by apply clean_comps_good|constructor]..].
  apply app_inj_tail in He. tauto.
Qed.

Lemma dir_join_one p x : rooted p = true -> good_comp x -> dir (path_join p x) = abs (clean_comps p).
Proof.
  intros Hp Hx. rewrite path_join_one by done. apply dir_abs_snoc.
  apply Forall_app. split; [by apply clean_comps_good|by constructor].
Qed.

(** ** Containment *)

(** [p] has all components of [root] first, and more. *)
Definition below (root p : string) : Prop :=
  rooted p = true /\ exists l, l <> [] /\ clean_comps p = (clean_comps root ++ l)%list /\ clean p = p.

Definition at_or_below (root p : string) : Prop :=
  rooted p = true /\ clean_comps root `prefix_of` clean_comps p.

#[export] Instance at_or_below_dec root p : Decision (at_or_below root p).
Proof. unfold at_or_below. apply _. Defined.

Lemma below_dir root p :
  rooted root = true -> below root p -> at_or_below root (dir p).
Proof.
  intros Hr (Hp & l & Hl & Hc & Hcl). pose proof (clean_comps_good _ Hp) as Hg.
  rewrite clean_rooted in Hcl by done. rewrite <- Hcl.
  destruct (exists_last Hl) as (l' & x & ->). rewrite Hc, app_assoc in *.
  rewrite dir_abs_snoc by done. apply Forall_app in Hg as [Hg _].
  split; [apply abs_rooted|]. rewrite clean_comps_abs by done. by apply prefix_app_r.
Qed.

Lemma below_at root p : below root p -> at_or_below root p.
Proof. intros (Hp & l & _ & Hc & _). split; [done|]. rewrite Hc. by apply prefix_app_r. Qed.

Lemma split_app sep a b : split sep (a ++ String sep b) = (split sep a ++ split sep b)%list.
Proof.
  induction a as [|c a IH]; simpl; [by rewrite Ascii.eqb_refl|]. rewrite IH.
  destruct (Ascii.eqb c sep); [done|]. pose proof (split_nonnil sep a). by destruct (split sep a).
Qed.

(** Joining a rooted path to a rooted path appends its components. *)
Lemma path_join_abs p l :
  rooted p = true -> Forall good_comp l -> path_join p (abs l) = abs (clean_comps p ++ l)%list.
Proof.
  intros Hp Hl. unfold path_join.
  assert (Hpe : String.eqb p "" = false) by (apply String.eqb_neq; by intros ->).
  assert (Hae : String.eqb (abs l) "" = false) by by apply String.eqb_neq.
  cbn [List.filter]. rewrite Hpe, Hae. cbn [negb]. cbv iota.
  change (join "/" [p; abs l]) with (p ++ String slash (abs l)).
  assert (Hr : rooted (p ++ String slash (abs l)) = true).
  { apply has_prefix_iff in Hp as [t ->]. apply has_prefix_iff. rewrite str_app_assoc. eauto. }
  rewrite clean_rooted by done. f_equal. unfold clean_comps. rewrite Hr, Hp, split_app, fold_left_app.
  rewrite split_abs by done. change (fold_left ?f ("" :: ?k) ?s) with (fold_left f k s).
  destruct l as [|x l]; [by rewrite app_nil_r|].
  by rewrite clean_fold_id, rev_app_distr, rev_involutive.
Qed.

Lemma below_abs root l p :
  rooted root = true -> Forall good_comp l -> l <> [] -> p = abs (clean_comps root ++ l)%list -> below root p.
Proof.
  intros Hr Hl Hne ->. assert (Forall good_comp (clean_comps root ++ l)%list)
    by (apply Forall_app; auto using clean_comps_good).
  split; [apply abs_rooted|]. exists l. by rewrite clean_comps_abs, clean_abs.
Qed.

(** ** Clean relative paths *)

Definition dots_first (st : list string) : Prop :=
  exists k g, st = (g ++ repeat ".." k)%list /\ Forall good_comp g.

Lemma clean_step_relative st c : no_byte slash c -> dots_first st -> dots_first (clean_step false st c).
Proof.
  intros Hc (k & g & -> & Hg). unfold clean_step.
  destruct (String.eqb_spec c ""), (String.eqb_spec c "."); simpl; try by exists k, g.
  destruct (String.eqb_spec c "..").
  - destruct g as [|x g]; simpl.
    + destruct k as [|k]; simpl; [by exists 1, []|]. by exists (S (S k)), [].
    + apply Forall_cons in Hg as [(_ & _ & Hx & _) Hg]. apply String.eqb_neq in Hx. rewrite Hx. by exists k, g.
  - exists k, (c :: g). split; [done|]. by constructor.
Qed.

Lemma clean_comps_relative p :
  rooted p = false -> exists k g, clean_comps p = (repeat ".." k ++ g)%list /\ Forall good_comp g.
Proof.
  intros Hr. unfold clean_comps. rewrite Hr.
  assert (H : forall l st, Forall (no_byte slash) l -> dots_first st -> dots_first (fold_left (clean_step false) l st)).
  { intros l. induction l as [|c l IH]; intros st Hl Hst; simpl; [done|]. apply Forall_cons in Hl as [? ?].
    apply IH; [done|]. by apply clean_step_relative. }
  destruct (H (split slash p) [] (split_no_sep _ _)) as (k & g & -> & Hg); [by exists 0, []|].
  exists k, (rev g). rewrite rev_app_distr. split; [|by apply Forall_rev]. f_equal.
  clear. induction k as [|k IH]; [done|]. simpl. rewrite IH. clear. induction k as [|k IH]; [done|]. simpl. by rewrite IH.
Qed.

(** A clean relative path that does not start with ".." is "." or some components. *)
Lemma clean_relative_inside p :
  rooted p = false -> clean p = p -> p <> ".." -> has_prefix p "../" = false ->
  p = "." \/ exists l, l <> [] /\ Forall good_comp l /\ p = join "/" l.
Proof.
  intros Hr Hc Hdd Hpre. unfold clean in Hc. rewrite Hr in Hc.
  destruct (clean_comps_relative p Hr) as (k & g & Hk & Hg). rewrite Hk in Hc.
  destruct k as [|k].
  - simpl in Hc. destruct g as [|x g]; [by left|]. right. exists (x :: g). done.
  - exfalso. simpl in Hc. destruct (repeat ".." k ++ g)%list as [|y l] eqn:Hl; [by simpl in Hc; congruence|].
    change (join "/" (".." :: y :: l) = p) in Hc. rewrite join_cons in Hc by done.
    assert (Ht : has_prefix p "../" = true) by (apply has_prefix_iff; rewrite <- Hc; by eexists). congruence.
Qed.

(** Joining anything to a rooted path cleans its elements one after the other. *)
Lemma path_join_fold p s : rooted p = true ->
  path_join p s = abs (rev (fold_left (clean_step true) (split slash s) (rev (clean_comps p)))).
Proof.
  intros Hp. unfold path_join. cbn [List.filter].
  assert (Hpe : String.eqb p "" = false) by (apply String.eqb_neq; by intros ->). rewrite Hpe. cbn [negb].
  destruct (String.eqb_spec s "") as [->|Hs]; cbn [negb]; cbv iota.
  { cbn [join]. rewrite clean_rooted by done. change (fold_left (clean_step true) (split slash "") ?st) with st.
    by rewrite rev_involutive. }
  change (join "/" [p; s]) with (p ++ String slash s).
  assert (Hr : rooted (p ++ String slash s) = true).
  { apply has_prefix_iff in Hp as [t ->]. apply has_prefix_iff. rewrite str_app_assoc. eauto. }
  rewrite clean_rooted by done. unfold clean_comps. rewrite Hr, Hp, split_app, fold_left_app. do 2 f_equal.
  by rewrite rev_involutive.
Qed.
