(* ===== verification/GoRegexp.v ===== *)
(** * Regular expressions

    The patterns of the program are all anchored, [^...$], and use character
    classes, groups and repetitions.  They are matched on the runes of the
    subject, as Go's [regexp] does.  The matcher is by derivatives; [lang] is the
    language of an expression and [matches_lang] relates the two. *)

From S2P Require Import Prelude GoStrings.
Local Open Scope Z_scope.

Inductive re : Type :=
| Void
| Eps
| Cls (p : Z -> bool)
| Cat (r1 r2 : re)
| Alt (r1 r2 : re)
| Star (r : re).

(** ** Matching by derivatives *)

Fixpoint nullable (r : re) : bool :=
  match r with
  | Void | Cls _ => false
  | Eps | Star _ => true
  | Cat r1 r2 => nullable r1 && nullable r2
  | Alt r1 r2 => nullable r1 || nullable r2
  end.

Definition mk_cat (r1 r2 : re) : re :=
  match r1 with Void => Void | Eps => r2 | _ => Cat r1 r2 end.
Definition mk_alt (r1 r2 : re) : re :=
  match r1, r2 with Void, _ => r2 | _, Void => r1 | _, _ => Alt r1 r2 end.

Fixpoint deriv (c : Z) (r : re) : re :=
  match r with
  | Void | Eps => Void
  | Cls p => if p c then Eps else Void
  | Cat r1 r2 =>
      let d := mk_cat (deriv c r1) r2 in
      if nullable r1 then mk_alt d (deriv c r2) else d
  | Alt r1 r2 => mk_alt (deriv c r1) (deriv c r2)
  | Star r1 => mk_cat (deriv c r1) (Star r1)
  end.

Fixpoint matches (r : re) (w : list Z) : bool :=
  match w with
  | [] => nullable r
  | c :: w' => matches (deriv c r) w'
  end.

(** [MatchString] of the pattern [^r$]. *)
Definition match_string (r : re) (s : string) : bool := matches r (runes s).

(** ** Patterns *)

(** [r+], [r?] and [r{0,n}]. *)
Definition plus (r : re) : re := Cat r (Star r).
Definition opt (r : re) : re := Alt Eps r.
Fixpoint upto (n : nat) (r : re) : re :=
  match n with O => Eps | S n' => opt (Cat r (upto n' r)) end.

Fixpoint lit (s : string) : re :=
  match s with
  | EmptyString => Eps
  | String c s' => Cat (Cls (Z.eqb (byte_val c))) (lit s')
  end.

(** Classes of ASCII characters. *)
Definition one_of (s : string) (z : Z) : bool :=
  existsb (fun c => byte_val c =? z) (String.list_ascii_of_string s).
Definition r_digit : Z -> bool := in_range 48 57.
Definition r_upper : Z -> bool := in_range 65 90.
Definition r_lower : Z -> bool := in_range 97 122.
Definition r_alpha (z : Z) : bool := r_upper z || r_lower z.
Definition r_alnum (z : Z) : bool := r_alpha z || r_digit z.

(** ** The language of an expression *)

Inductive lang : re -> list Z -> Prop :=
| l_eps : lang Eps []
| l_cls p c : p c = true -> lang (Cls p) [c]
| l_cat r1 r2 w1 w2 : lang r1 w1 -> lang r2 w2 -> lang (Cat r1 r2) (w1 ++ w2)
| l_alt_l r1 r2 w : lang r1 w -> lang (Alt r1 r2) w
| l_alt_r r1 r2 w : lang r2 w -> lang (Alt r1 r2) w
| l_star_nil r : lang (Star r) []
| l_star_cons r w1 w2 : lang r w1 -> lang (Star r) w2 -> lang (Star r) (w1 ++ w2).
#[export] Hint Constructors lang : opendeploy.

Lemma lang_cat r1 r2 w :
  lang (Cat r1 r2) w <-> exists w1 w2, w = w1 ++ w2 /\ lang r1 w1 /\ lang r2 w2.
Proof.
  split; [inversion 1; subst; eauto 6|]. intros (w1 & w2 & -> & ? & ?). by constructor.
Qed.

Lemma lang_alt r1 r2 w : lang (Alt r1 r2) w <-> lang r1 w \/ lang r2 w.
Proof. split; [inversion 1; auto|intros [?|?]; auto with opendeploy]. Qed.

Lemma lang_eps w : lang Eps w <-> w = [].
Proof. split; [by inversion 1|intros ->; constructor]. Qed.

Lemma lang_void w : ~ lang Void w.
Proof. inversion 1. Qed.

Lemma lang_cls p w : lang (Cls p) w <-> exists c, w = [c] /\ p c = true.
Proof. split; [inversion 1; eauto|intros (c & -> & ?); by constructor]. Qed.

Lemma lang_mk_cat r1 r2 w : lang (mk_cat r1 r2) w <-> lang (Cat r1 r2) w.
Proof.
  destruct r1; try done; simpl; rewrite lang_cat.
  - split; [by inversion 1|]. intros (? & ? & _ & Hv & _). by apply lang_void in Hv.
  - split; [intros H; exists [], w; auto with opendeploy|].
    by intros (? & ? & -> & ->%lang_eps & H).
Qed.

Lemma lang_mk_alt r1 r2 w : lang (mk_alt r1 r2) w <-> lang (Alt r1 r2) w.
Proof.
  rewrite lang_alt. pose proof (lang_void w) as Hv.
  destruct r1; simpl; [tauto|destruct r2; rewrite ?lang_alt; tauto..].
Qed.

Lemma nullable_lang r : nullable r = true <-> lang r [].
Proof.
  induction r as [| |p|r1 IH1 r2 IH2|r1 IH1 r2 IH2|r IH]; simpl.
  - split; [done|by inversion 1].
  - split; auto with opendeploy.
  - split; [done|]. intros H. apply lang_cls in H as (c & [=] & _).
  - rewrite andb_true_iff, IH1, IH2, lang_cat. split.
    + intros [? ?]. by exists [], [].
    + intros (w1 & w2 & Hw & ? & ?). symmetry in Hw. by apply app_nil in Hw as [-> ->].
  - rewrite orb_true_iff, IH1, IH2, lang_alt. done.
  - split; auto with opendeploy.
Qed.

Lemma lang_star_inv r c w :
  lang (Star r) (c :: w) -> exists w1 w2, w = w1 ++ w2 /\ lang r (c :: w1) /\ lang (Star r) w2.
Proof.
  remember (Star r) as s eqn:Hs. remember (c :: w) as v eqn:Hv. intros H. revert r c w Hs Hv.
  induction H as [| | | | | |r' w1 w2 H1 _ H2 IH]; intros r0 c0 w0 Hs Hv; simplify_eq.
  destruct w1 as [|d w1]; simpl in Hv; simplify_eq; [eauto|]. eauto 6.
Qed.

Lemma deriv_lang c r w : lang (deriv c r) w <-> lang r (c :: w).
Proof.
  revert w; induction r as [| |p|r1 IH1 r2 IH2|r1 IH1 r2 IH2|r IH]; intros w; simpl.
  - split; by inversion 1.
  - split; by inversion 1.
  - rewrite lang_cls. destruct (p c) eqn:Hp; split.
    + intros ->%lang_eps. eauto.
    + intros (d & [= <- ->] & _). constructor.
    + by inversion 1.
    + intros (d & [= <- ->] & Hd). congruence.
  - assert (Hd : lang (mk_cat (deriv c r1) r2) w <->
       exists w1 w2, w = w1 ++ w2 /\ lang r1 (c :: w1) /\ lang r2 w2).
    { rewrite lang_mk_cat, lang_cat. by setoid_rewrite IH1. }
    assert (Hc : lang (Cat r1 r2) (c :: w) <->
       (exists w1 w2, w = w1 ++ w2 /\ lang r1 (c :: w1) /\ lang r2 w2)
       \/ (lang r1 [] /\ lang r2 (c :: w))).
    { rewrite lang_cat. split.
      - intros ([|d w1] & w2 & Hw & ? & ?); simplify_eq/=; [by right|left; eauto].
      - intros [(w1 & w2 & -> & ? & ?)|[? ?]]; [by exists (c :: w1), w2|by exists [], (c :: w)]. }
    rewrite Hc. pose proof (nullable_lang r1) as Hn. destruct (nullable r1).
    + rewrite lang_mk_alt, lang_alt, Hd, IH2. intuition congruence.
    + rewrite Hd. intuition congruence.
  - by rewrite lang_mk_alt, !lang_alt, IH1, IH2.
  - rewrite lang_mk_cat, lang_cat. split.
    + intros (w1 & w2 & -> & H1 & H2). apply IH in H1. by apply (l_star_cons r (c :: w1)).
    + intros (w1 & w2 & -> & H1 & H2)%lang_star_inv. exists w1, w2. by rewrite IH.
Qed.

Lemma matches_lang r w : matches r w = true <-> lang r w.
Proof.
  revert r; induction w as [|c w IH]; intros r; simpl; [apply nullable_lang|].
  by rewrite IH, deriv_lang.
Qed.

Lemma match_string_lang r s : match_string r s = true <-> lang r (runes s).
Proof. apply matches_lang. Qed.

(** ** Repetitions of one class *)

Lemma lang_star_cls p w : lang (Star (Cls p)) w <-> Forall (fun c => p c = true) w.
Proof.
  split.
  - induction w as [|c w IH]; [constructor|].
    intros (w1 & w2 & -> & (d & [= <- ->] & ?)%lang_cls & H2)%lang_star_inv.
    constructor; [done|]. by apply IH.
  - induction 1 as [|c w Hc Hw IH]; [constructor|].
    apply (l_star_cons _ [c]); [by constructor|done].
Qed.

Lemma lang_plus_cls p w :
  lang (plus (Cls p)) w <-> w <> [] /\ Forall (fun c => p c = true) w.
Proof.
  unfold plus. rewrite lang_cat. split.
  - intros (w1 & w2 & -> & (c & -> & Hc)%lang_cls & Hw%lang_star_cls). split; [done|by constructor].
  - intros [Hne H]. destruct H as [|c w Hc Hw]; [done|].
    exists [c], w. rewrite lang_cls, lang_star_cls. eauto.
Qed.

Lemma lang_upto_cls p n w :
  lang (upto n (Cls p)) w <-> Forall (fun c => p c = true) w /\ (length w <= n)%nat.
Proof.
  revert w; induction n as [|n IH]; intros w; simpl.
  { rewrite lang_eps. split; [by intros ->|]. intros [_ H]. destruct w; [done|simpl in H; lia]. }
  unfold opt. rewrite lang_alt, lang_eps, lang_cat. split.
  - intros [->|(w1 & w2 & -> & (c & -> & ?)%lang_cls & [? ?]%IH)]; [split; [done|simpl; lia]|].
    split; [by constructor|simpl; lia].
  - intros [H Hl]. destruct H as [|c w Hc Hw]; [by left|]. right. simpl in Hl.
    exists [c], w. rewrite lang_cls, IH. repeat split; eauto. lia.
Qed.

Lemma lang_lit s w : lang (lit s) w <-> w = byte_val <$> String.list_ascii_of_string s.
Proof.
  revert w; induction s as [|c s IH]; intros w; simpl; [apply lang_eps|].
  rewrite lang_cat. split.
  - intros (w1 & w2 & -> & (d & -> & <-%Z.eqb_eq)%lang_cls & ->%IH). done.
  - intros ->. exists [byte_val c], (byte_val <$> String.list_ascii_of_string s).
    rewrite lang_cls, IH. repeat split. exists (byte_val c). by rewrite Z.eqb_refl.
Qed.

(** ** From runes to bytes *)

Lemma byte_val_bounds c : 0 <= byte_val c < 256.
Proof. unfold byte_val. pose proof (N_ascii_bounded c). lia. Qed.

Lemma low6_mod c : low6 c = byte_val c mod 64.
Proof. unfold low6. by rewrite (Z.land_ones _ 6). Qed.

(** A byte of a multi-byte sequence decodes to no ASCII rune. *)
Lemma runes_high a s :
  128 <= byte_val a -> exists r l, runes (String a s) = r :: l /\ 128 <= r.
Proof.
  intros Ha. simpl. assert ((byte_val a <? 128) = false) as -> by lia.
  assert (Hre : 128 <= rune_error) by (unfold rune_error; lia).
  pose proof (byte_val_bounds a) as Hb.
  destruct s as [|b s]; [eauto|]. destruct (valid2 a b) eqn:H2.
  { eexists _, _; split; [done|]. unfold valid2, in_range, cont in H2. propify.
    rewrite (Z.land_ones _ 5), low6_mod by lia. change (2 ^ 5) with 32.
    Z.div_mod_to_equations. lia. }
  destruct s as [|c s]; [eauto|]. destruct (valid3 a b c) eqn:H3.
  { eexists _, _; split; [done|]. unfold valid3, in_range, cont in H3.
    rewrite (Z.land_ones _ 4), !low6_mod by lia. change (2 ^ 4) with 16.
    pose proof (Z.mod_pos_bound (byte_val c) 64). pose proof (Z.mod_pos_bound (byte_val b) 64).
    propify. repeat (apply orb_true_iff in H0 as [H0|H0]); propify;
      Z.div_mod_to_equations; lia. }
  destruct s as [|d s]; [eauto|]. destruct (valid4 a b c d) eqn:H4; [|eauto].
  eexists _, _; split; [done|]. unfold valid4, in_range, cont in H4.
  rewrite (Z.land_ones _ 3), !low6_mod by lia. change (2 ^ 3) with 8.
  pose proof (Z.mod_pos_bound (byte_val c) 64). pose proof (Z.mod_pos_bound (byte_val b) 64).
  pose proof (Z.mod_pos_bound (byte_val d) 64).
  propify. repeat (apply orb_true_iff in H3 as [H3|H3]); propify;
    Z.div_mod_to_equations; lia.
Qed.

(** All runes in an ASCII class: all bytes in the class. *)
Lemma runes_forall_ascii (p : Z -> bool) s :
  (forall r, p r = true -> r < 128) ->
  Forall (fun r => p r = true) (runes s) <-> str_forall (fun c => p (byte_val c)) s = true.
Proof.
  intros Hp. induction s as [|a s IH]; [by split|].
  destruct (Z.lt_ge_cases (byte_val a) 128) as [Ha|Ha].
  - simpl. assert ((byte_val a <? 128) = true) as -> by lia.
    by rewrite Forall_cons, IH, andb_true_iff.
  - destruct (runes_high a s Ha) as (r & l & -> & Hr). simpl. split.
    + intros [Hx _]%Forall_cons. apply Hp in Hx. lia.
    + intros [Hx _]%andb_true_iff. apply Hp in Hx. lia.
Qed.

Lemma runes_nil s : runes s = [] <-> s = ""%string.
Proof.
  split; [|by intros ->]. destruct s as [|a s]; [done|].
  destruct (Z.lt_ge_cases (byte_val a) 128) as [Ha|Ha].
  - simpl. by assert ((byte_val a <? 128) = true) as -> by lia.
  - by destruct (runes_high a s Ha) as (r & l & -> & _).
Qed.

Lemma runes_ascii s :
  Forall (fun r => r < 128) (runes s) -> runes s = byte_val <$> String.list_ascii_of_string s.
Proof.
  induction s as [|a s IH]; [done|].
  destruct (Z.lt_ge_cases (byte_val a) 128) as [Ha|Ha].
  - simpl. assert ((byte_val a <? 128) = true) as -> by lia.
    intros [_ H]%Forall_cons. by rewrite IH.
  - destruct (runes_high a s Ha) as (r & l & -> & Hr). intros [? _]%Forall_cons. lia.
Qed.

(** [^[p]+$] for a class of ASCII characters. *)
Lemma match_plus_ascii (p : Z -> bool) s :
  (forall r, p r = true -> r < 128) ->
  match_string (plus (Cls p)) s = true <->
  s <> ""%string /\ str_forall (fun c => p (byte_val c)) s = true.
Proof.
  intros Hp. rewrite match_string_lang, lang_plus_cls, runes_forall_ascii by done.
  by rewrite runes_nil.
Qed.

(** ** The alphabet of an expression *)

(** Every class of [r] is included in [q]. *)
Fixpoint over (q : Z -> bool) (r : re) : Prop :=
  match r with
  | Void | Eps => True
  | Cls p => forall z, p z = true -> q z = true
  | Cat r1 r2 | Alt r1 r2 => over q r1 /\ over q r2
  | Star r1 => over q r1
  end.

Lemma over_upto q n r : over q r -> over q (upto n r).
Proof. induction n; simpl; auto. Qed.

Lemma over_lit q s : str_forall (fun c => q (byte_val c)) s = true -> over q (lit s).
Proof.
  induction s as [|c s IH]; simpl; [done|]. intros [Hc Hs]%andb_true_iff.
  split; [by intros z <-%Z.eqb_eq|auto].
Qed.

Lemma lang_over q r w : over q r -> lang r w -> Forall (fun z => q z = true) w.
Proof.
  intros Ho H. induction H; simpl in *; repeat constructor; naive_solver eauto using Forall_app_2.
Qed.

Lemma match_over (q : Z -> bool) r s :
  (forall z, q z = true -> z < 128) -> over q r -> match_string r s = true ->
  str_forall (fun c => q (byte_val c)) s = true.
Proof.
  intros Hq Ho H%match_string_lang. apply runes_forall_ascii; [done|]. by eapply lang_over.
Qed.

(** ** Classes of ASCII characters *)

Lemma class_ascii (p : Z -> bool) :
  (forall z, p z = true -> r_alnum z = true \/ exists s, is_ascii s = true /\ one_of s z = true) ->
  forall z, p z = true -> (z < 128)%Z.
Proof.
  intros H z Hz. destruct (H z Hz) as [Ha|(s & Hs & Ho)].
  - unfold r_alnum, r_alpha, r_upper, r_lower, r_digit, in_range in Ha. lia.
  - unfold one_of in Ho. apply existsb_exists in Ho as (c & Hin & <-%Z.eqb_eq).
    unfold is_ascii in Hs. rewrite str_forall_forall in Hs. specialize (Hs c Hin). lia.
Qed.

Ltac solve_class_ascii :=
  apply class_ascii; intros ? [?|?]%orb_true_iff; [by left|right; eexists; split; [|done]; done].

Lemma r_alnum_byte c : r_alnum (byte_val c) = is_alnum c.
Proof.
  unfold r_alnum, r_alpha, is_alnum, r_upper, r_lower, r_digit, is_upper, is_lower, is_digit, byte_in.
  change (byte_val "0") with 48%Z. change (byte_val "9") with 57%Z.
  change (byte_val "A") with 65%Z. change (byte_val "Z") with 90%Z.
  change (byte_val "a") with 97%Z. change (byte_val "z") with 122%Z.
  by rewrite (orb_comm (in_range 65 90 _)).
Qed.

Lemma byte_val_inj c d : byte_val c = byte_val d -> c = d.
Proof.
  unfold byte_val. intros H%N2Z.inj. by rewrite <- (ascii_N_embedding c), H, ascii_N_embedding.
Qed.

Lemma one_of_byte s c : one_of s (byte_val c) = contains_byte s c.
Proof.
  apply eq_true_iff_eq. rewrite contains_byte_iff. unfold one_of. rewrite existsb_exists.
  split; [intros (d & Hin & Hd%Z.eqb_eq%byte_val_inj); by subst|].
  intros Hin. exists c. by rewrite Z.eqb_refl.
Qed.

(** ** Expressions over ASCII, on strings *)

Definition slang (r : re) (s : string) : Prop := lang r (byte_val <$> String.list_ascii_of_string s).

Lemma slang_match (q : Z -> bool) r s :
  (forall z, q z = true -> z < 128) -> over q r -> match_string r s = true <-> slang r s.
Proof.
  intros Hq Ho. rewrite match_string_lang. unfold slang. split; intros H.
  - rewrite <- runes_ascii; [done|]. eapply Forall_impl; [by eapply lang_over|]. exact Hq.
  - rewrite runes_ascii; [done|]. apply (Forall_impl (fun z => (z <? 128) = true)); [|lia].
    apply (runes_forall_ascii (fun z => z <? 128)); [lia|].
    apply (lang_over q) in H; [|done]. clear -H Hq. induction s as [|c s IH]; [done|]. simpl in *.
    apply Forall_cons in H as [Hc H]. rewrite IH by done. specialize (Hq _ Hc).
    by assert ((byte_val c <? 128) = true) as -> by lia.
Qed.

Lemma slang_cat r1 r2 s :
  slang (Cat r1 r2) s <-> exists s1 s2, s = (s1 ++ s2)%string /\ slang r1 s1 /\ slang r2 s2.
Proof.
  unfold slang. rewrite lang_cat. split.
  - intros (w1 & w2 & He & H1 & H2). apply fmap_app_inv in He as (l1 & l2 & -> & -> & Hl).
    exists (String.string_of_list_ascii l1), (String.string_of_list_ascii l2).
    rewrite !String.list_ascii_of_string_of_list_ascii. split; [|done].
    rewrite <- (String.string_of_list_ascii_of_string s), Hl. clear. induction l1; simpl; congruence.
  - intros (s1 & s2 & -> & H1 & H2). rewrite list_ascii_app, fmap_app. eauto.
Qed.

Lemma slang_lit t s : slang (lit t) s <-> s = t.
Proof.
  unfold slang. rewrite lang_lit. split; [|by intros ->]. intros H.
  apply list_fmap_eq_inj in H; [|intros ? ?; apply byte_val_inj].
  rewrite <- (String.string_of_list_ascii_of_string s), H. apply String.string_of_list_ascii_of_string.
Qed.

Lemma slang_opt r s : slang (opt r) s <-> s = ""%string \/ slang r s.
Proof.
  unfold slang, opt. rewrite lang_alt, lang_eps. split; intros [H|H]; auto.
  - left. by destruct s.
  - left. by rewrite H.
Qed.

Lemma slang_plus p s :
  slang (plus (Cls p)) s <-> s <> ""%string /\ str_forall (fun c => p (byte_val c)) s = true.
Proof.
  unfold slang. rewrite lang_plus_cls, Forall_fmap, Forall_forall, str_forall_forall.
  setoid_rewrite list_elem_of_In. split; intros [Hn H]; (split; [by destruct s|done]).
Qed.
