(* ===== verification/GoTime.v ===== *)
(** * Times

    What the program uses of package [time]: civil times with an offset, their order,
    the layouts it prints (RFC 3339 with fractions, as JSON has them, and the compact
    stamp of transaction identifiers) and the strict RFC 3339 parser behind
    [Time.UnmarshalJSON]. *)

From S2P Require Import Prelude GoStrings GoStrconv GoRegexp.
Local Open Scope string_scope.

(** ** Civil times *)

(** [t_off] is the offset from UTC in minutes. *)
Record time := {
  t_year : Z; t_month : Z; t_day : Z; t_hour : Z; t_min : Z; t_sec : Z; t_nsec : Z; t_off : Z }.

#[export] Instance time_eq_dec : EqDecision time.
Proof. solve_decision. Defined.

(** The zero time, 1 January of year 1, UTC. *)
Definition zero_time : time := {|
  t_year := 1; t_month := 1; t_day := 1; t_hour := 0; t_min := 0; t_sec := 0; t_nsec := 0; t_off := 0 |}.

Definition leap (y : Z) : bool :=
  ((y mod 4 =? 0) && (negb (y mod 100 =? 0) || (y mod 400 =? 0)))%Z.

Definition month_days (y m : Z) : Z :=
  (if m =? 2 then (if leap y then 29 else 28)
   else if (m =? 4) || (m =? 6) || (m =? 9) || (m =? 11) then 30 else 31)%Z.

(** Days from 1 January of year 1 to the first day of a month. *)
Definition days_before (y m : Z) : Z :=
  let p := (y - 1)%Z in
  (365 * p + p / 4 - p / 100 + p / 400
   + foldr (fun k n => month_days y (Z.of_nat k) + n) 0 (seq 1 (Z.to_nat m - 1)))%Z.

(** Nanoseconds since the zero time: the instant two times are compared by. *)
Definition instant (t : time) : Z :=
  (((((days_before (t_year t) (t_month t) + (t_day t - 1)) * 24 + t_hour t) * 60
     + t_min t - t_off t) * 60 + t_sec t) * 1000000000 + t_nsec t)%Z.

Definition is_zero (t : time) : bool := (instant t =? 0)%Z.
Definition before (t u : time) : bool := (instant t <? instant u)%Z.

(** ** Printing *)

(** A decimal number in [n] digits. *)
Fixpoint dec_pad (n : nat) (z : Z) : string :=
  match n with
  | 0 => ""
  | S n' => dec_pad n' (z / 10) ++ String (byte_of (48 + z mod 10)) ""
  end.

Fixpoint trim_zeros (s : string) : string :=
  match s with
  | EmptyString => ""
  | String c s' =>
      match trim_zeros s' with
      | EmptyString => if Ascii.eqb c "0" then "" else String c ""
      | t => String c t
      end
  end.

Definition fraction (nsec : Z) : string :=
  if (nsec =? 0)%Z then "" else "." ++ trim_zeros (dec_pad 9 nsec).

Definition zone (off : Z) : string :=
  if (off =? 0)%Z then "Z"
  else (if (off <? 0)%Z then "-" else "+")
       ++ dec_pad 2 (Z.abs off / 60) ++ ":" ++ dec_pad 2 (Z.abs off mod 60).

(** [t.Format(time.RFC3339Nano)] *)
Definition rfc3339 (t : time) : string :=
  dec_pad 4 (t_year t) ++ "-" ++ dec_pad 2 (t_month t) ++ "-" ++ dec_pad 2 (t_day t) ++ "T"
  ++ dec_pad 2 (t_hour t) ++ ":" ++ dec_pad 2 (t_min t) ++ ":" ++ dec_pad 2 (t_sec t)
  ++ fraction (t_nsec t) ++ zone (t_off t).

(** [t.Format("20060102T150405.000000000Z")] *)
Definition stamp (t : time) : string :=
  dec_pad 4 (t_year t) ++ dec_pad 2 (t_month t) ++ dec_pad 2 (t_day t) ++ "T"
  ++ dec_pad 2 (t_hour t) ++ dec_pad 2 (t_min t) ++ dec_pad 2 (t_sec t)
  ++ "." ++ dec_pad 9 (t_nsec t) ++ "Z".

(** ** Parsing *)

(** [n] digits, as a number between [lo] and [hi]. *)
Fixpoint take_digits (n : nat) (acc : Z) (s : string) : option (Z * string) :=
  match n with
  | 0 => Some (acc, s)
  | S n' =>
      match s with
      | EmptyString => None
      | String c s' => if is_digit c then take_digits n' (acc * 10 + digit_val c) s' else None
      end
  end.

Definition number (n : nat) (lo hi : Z) (s : string) : option (Z * string) :=
  '(z, r) ← take_digits n 0 s;
  if ((lo <=? z) && (z <=? hi))%Z then Some (z, r) else None.

Definition expect (c : ascii) (s : string) : option string :=
  match s with
  | EmptyString => None
  | String d s' => if Ascii.eqb c d then Some s' else None
  end.

(** The first nine digits of a fraction, filled with zeros. *)
Fixpoint frac_val (n : nat) (d : string) : Z :=
  match n with
  | 0 => 0%Z
  | S n' =>
      match d with
      | EmptyString => 0%Z
      | String c d' => (digit_val c * 10 ^ Z.of_nat n' + frac_val n' d')%Z
      end
  end.

Definition parse_fraction (s : string) : option (Z * string) :=
  match s with
  | String "." s' =>
      let '(d, r) := digit_prefix s' in
      if String.eqb d "" then None else Some (frac_val 9 d, r)
  | _ => Some (0%Z, s)
  end.

Definition parse_zone (s : string) : option Z :=
  match s with
  | String "Z" r => if String.eqb r "" then Some 0%Z else None
  | String c r =>
      if Ascii.eqb c "+" || Ascii.eqb c "-" then
        '(h, r) ← number 2 0 23 r;
        r ← expect ":" r;
        '(m, r) ← number 2 0 59 r;
        if String.eqb r "" then Some (if Ascii.eqb c "-" then - (h * 60 + m) else h * 60 + m)%Z
        else None
      else None
  | EmptyString => None
  end.

(** [parseStrictRFC3339] *)
Definition parse_rfc3339 (s : string) : option time :=
  '(y, s) ← number 4 0 9999 s;
  s ← expect "-" s;
  '(mo, s) ← number 2 1 12 s;
  s ← expect "-" s;
  '(d, s) ← number 2 1 (month_days y mo) s;
  s ← expect "T" s;
  '(h, s) ← number 2 0 23 s;
  s ← expect ":" s;
  '(mi, s) ← number 2 0 59 s;
  s ← expect ":" s;
  '(se, s) ← number 2 0 59 s;
  '(ns, s) ← parse_fraction s;
  off ← parse_zone s;
  Some {| t_year := y; t_month := mo; t_day := d; t_hour := h; t_min := mi; t_sec := se;
          t_nsec := ns; t_off := off |}.

(** ** Lemmas *)

(** A time a clock can show, in a year JSON can hold. *)
Definition valid_time (t : time) : Prop :=
  (0 <= t_year t <= 9999 /\ 1 <= t_month t <= 12 /\ 1 <= t_day t <= month_days (t_year t) (t_month t)
   /\ 0 <= t_hour t <= 23 /\ 0 <= t_min t <= 59 /\ 0 <= t_sec t <= 59
   /\ 0 <= t_nsec t < 10 ^ 9 /\ - 1440 < t_off t < 1440)%Z.

#[export] Instance valid_time_dec t : Decision (valid_time t).
Proof. unfold valid_time. apply _. Defined.

Lemma digit_byte z : (0 <= z < 10)%Z -> is_digit (byte_of (48 + z)) = true /\ digit_val (byte_of (48 + z)) = z.
Proof.
  intros Hz. unfold is_digit, byte_in, in_range, digit_val. rewrite byte_val_byte_of by lia.
  change (byte_val "0") with 48%Z. change (byte_val "9") with 57%Z. split; [|lia].
  apply andb_true_iff. split; apply Z.leb_le; lia.
Qed.

Lemma dec_pad_length n z : String.length (dec_pad n z) = n.
Proof. revert z; induction n as [|n IH]; intros z; simpl; [done|]. rewrite str_length_app, IH. simpl. lia. Qed.

Lemma dec_pad_digits n z : str_forall is_digit (dec_pad n z) = true.
Proof.
  revert z; induction n as [|n IH]; intros z; simpl; [done|]. rewrite str_forall_app, IH. simpl.
  pose proof (Z.mod_pos_bound z 10 ltac:(lia)). by rewrite (proj1 (digit_byte (z mod 10) ltac:(lia))).
Qed.

Lemma take_digits_app n1 n2 acc s : 
  take_digits (n1 + n2) acc s = '(a, r) ← take_digits n1 acc s; take_digits n2 a r.
Proof.
  revert acc s; induction n1 as [|n1 IH]; intros acc s; simpl; [done|].
  destruct s as [|c s]; [done|]. destruct (is_digit c); [apply IH|done].
Qed.

Lemma take_dec_pad n z acc s :
  (0 <= z < 10 ^ Z.of_nat n)%Z ->
  take_digits n acc (dec_pad n z ++ s) = Some ((acc * 10 ^ Z.of_nat n + z)%Z, s).
Proof.
  revert z acc s; induction n as [|n IH]; intros z acc s Hz.
  { simpl in *. do 2 f_equal. lia. }
  replace (S n) with (n + 1) by lia. rewrite take_digits_app. replace (n + 1) with (S n) by lia.
  simpl dec_pad. rewrite str_app_assoc.
  assert (Hp : (10 ^ Z.of_nat (S n) = 10 * 10 ^ Z.of_nat n)%Z).
  { rewrite Nat2Z.inj_succ, Z.pow_succ_r by lia. done. }
  rewrite Hp in Hz. pose proof (Z.div_mod z 10 ltac:(lia)) as Hdm.
  pose proof (Z.mod_pos_bound z 10 ltac:(lia)).
  rewrite IH by (split; [apply Z.div_pos; lia|apply Z.div_lt_upper_bound; lia]).
  cbn [mbind option_bind take_digits String.append].
  destruct (digit_byte (z mod 10) ltac:(lia)) as [-> ->]. do 2 f_equal. rewrite Hp. nia.
Qed.

Lemma number_dec_pad n lo hi z s :
  (lo <= z <= hi)%Z -> (0 <= z < 10 ^ Z.of_nat n)%Z -> number n lo hi (dec_pad n z ++ s) = Some (z, s).
Proof.
  intros Hr Hz. unfold number. rewrite take_dec_pad by done. cbn [mbind option_bind].
  rewrite Z.mul_0_l, Z.add_0_l. by assert (((lo <=? z) && (z <=? hi))%Z = true) as -> by lia.
Qed.

(** The number the digits of a fraction stand for does not depend on trailing zeros. *)
Lemma frac_trim n s : frac_val n (trim_zeros s) = frac_val n s.
Proof.
  revert n; induction s as [|c s IH]; intros [|n]; [done..|]. simpl.
  specialize (IH n). destruct (trim_zeros s) as [|d t]; [|simpl; by rewrite <- IH].
  rewrite <- IH. destruct (Ascii.eqb_spec c "0") as [->|]; destruct n; done.
Qed.

Lemma frac_val_take n d z acc :
  String.length d = n -> str_forall is_digit d = true ->
  take_digits n acc d = Some (z, "") -> (frac_val n d = z - acc * 10 ^ Z.of_nat n)%Z.
Proof.
  revert n acc; induction d as [|c d IH]; intros [|n] acc Hl Hd Ht; cbn [String.length str_forall take_digits frac_val] in *; try done.
  { injection Ht as ->. lia. }
  apply andb_true_iff in Hd as [Hc Hd]. rewrite Hc in Ht.
  rewrite (IH n _ ltac:(lia) Hd Ht). replace (Z.of_nat (S n)) with (Z.succ (Z.of_nat n)) by lia.
  rewrite Z.pow_succ_r by lia. ring.
Qed.

Lemma frac_dec_pad z : (0 <= z < 10 ^ 9)%Z -> frac_val 9 (dec_pad 9 z) = z.
Proof.
  intros Hz. pose proof (take_dec_pad 9 z 0 "" Hz) as Ht. rewrite str_app_nil_r in Ht.
  rewrite (frac_val_take 9 (dec_pad 9 z) _ _ (dec_pad_length 9 z) (dec_pad_digits 9 z) Ht). lia.
Qed.

Lemma trim_zeros_digits s : str_forall is_digit s = true -> str_forall is_digit (trim_zeros s) = true.
Proof.
  induction s as [|c s IH]; simpl; [done|]. intros [Hc Hs]%andb_true_iff. specialize (IH Hs).
  destruct (trim_zeros s); simpl in *; [|by rewrite Hc]. destruct (Ascii.eqb c "0"); simpl; by rewrite ?Hc.
Qed.

Lemma digit_prefix_app d c s :
  str_forall is_digit d = true -> is_digit c = false -> digit_prefix (d ++ String c s) = (d, String c s).
Proof.
  intros Hd Hc. induction d as [|x d IH]; simpl in *; [by rewrite Hc|].
  apply andb_true_iff in Hd as [-> Hd]. by rewrite IH.
Qed.

Lemma zone_head off : exists c s, zone off = String c s /\ is_digit c = false /\ c <> "."%char.
Proof.
  unfold zone. destruct (off =? 0)%Z; [by eexists _, _|].
  destruct (off <? 0)%Z; by eexists _, _.
Qed.

Lemma parse_fraction_print ns off :
  (0 <= ns < 10 ^ 9)%Z -> parse_fraction (fraction ns ++ zone off) = Some (ns, zone off).
Proof.
  intros Hns. destruct (zone_head off) as (c & s & Hz & Hc & Hdot). unfold fraction.
  destruct (Z.eqb_spec ns 0) as [->|Hne].
  { rewrite Hz. cbn [String.append]. unfold parse_fraction.
    destruct c as [[] [] [] [] [] [] [] []]; try done. }
  cbn [String.append parse_fraction]. rewrite Hz.
  rewrite digit_prefix_app by auto using trim_zeros_digits, dec_pad_digits.
  assert (Hf : frac_val 9 (trim_zeros (dec_pad 9 ns)) = ns) by (by rewrite frac_trim, frac_dec_pad).
  destruct (String.eqb_spec (trim_zeros (dec_pad 9 ns)) "") as [He|_].
  { rewrite He in Hf. simpl in Hf. lia. }
  by rewrite Hf.
Qed.

Lemma parse_zone_print off : (- 1440 < off < 1440)%Z -> parse_zone (zone off) = Some off.
Proof.
  intros Ho. unfold zone. destruct (Z.eqb_spec off 0) as [->|Hne]; [done|].
  assert (Hq : (0 <= Z.abs off / 60 <= 23)%Z)
    by (split; [apply Z.div_pos; lia|apply Z.lt_succ_r, Z.div_lt_upper_bound; lia]).
  pose proof (Z.mod_pos_bound (Z.abs off) 60 ltac:(lia)).
  pose proof (Z.div_mod (Z.abs off) 60 ltac:(lia)).
  destruct (off <? 0)%Z eqn:Hs; cbn [String.append parse_zone].
  all: match goal with |- context [Ascii.eqb ?a ?b || _] =>
         change (Ascii.eqb a b || _) with true end; cbn [orb].
  all: rewrite number_dec_pad by (change (10 ^ Z.of_nat 2)%Z with 100%Z; lia); cbn [mbind option_bind expect String.append].
  all: change (Ascii.eqb ":" ":") with true; cbn [mbind option_bind].
  all: rewrite <- (str_app_nil_r (dec_pad 2 (Z.abs off mod 60))).
  all: rewrite number_dec_pad by (change (10 ^ Z.of_nat 2)%Z with 100%Z; lia); cbn [mbind option_bind].
  all: change (String.eqb "" "") with true; cbn [Ascii.eqb Bool.eqb]; f_equal; lia.
Qed.

Lemma month_days_bounds y m : (28 <= month_days y m <= 31)%Z.
Proof. unfold month_days. repeat case_match; lia. Qed.

(** Reading a printed time gives it back. *)
Lemma parse_print_time t : valid_time t -> parse_rfc3339 (rfc3339 t) = Some t.
Proof.
  destruct t as [y mo d h mi se ns off]. unfold valid_time. cbn [t_year t_month t_day t_hour t_min t_sec t_nsec t_off].
  intros (Hy & Hmo & Hd & Hh & Hmi & Hse & Hns & Hoff). pose proof (month_days_bounds y mo).
  unfold rfc3339, parse_rfc3339. cbn [t_year t_month t_day t_hour t_min t_sec t_nsec t_off].
  rewrite (number_dec_pad 4) by (change (10 ^ Z.of_nat 4)%Z with 10000%Z; lia).
  cbn [mbind option_bind expect String.append Ascii.eqb Bool.eqb].
  do 5 (rewrite (number_dec_pad 2) by (change (10 ^ Z.of_nat 2)%Z with 100%Z; lia);
        cbn [mbind option_bind expect String.append Ascii.eqb Bool.eqb]).
  rewrite parse_fraction_print by done. cbn [mbind option_bind].
  by rewrite parse_zone_print.
Qed.

(** A printed time is plain text: it needs no escape inside a JSON string. *)
Definition time_byte (c : ascii) : bool := is_digit c || contains_byte "-:.+TZ" c.

Lemma digits_time_bytes s : str_forall is_digit s = true -> str_forall time_byte s = true.
Proof. apply str_forall_mono. intros c Hc. unfold time_byte. by rewrite Hc. Qed.

Lemma rfc3339_bytes t : str_forall time_byte (rfc3339 t) = true.
Proof.
  assert (Hdec : forall n z, str_forall time_byte (dec_pad n z) = true)
    by (intros; apply digits_time_bytes, dec_pad_digits).
  assert (Hfr : str_forall time_byte (fraction (t_nsec t)) = true).
  { unfold fraction. destruct (_ =? _)%Z; [done|].
    rewrite str_forall_app, (digits_time_bytes (trim_zeros _)); [done|]. apply trim_zeros_digits, dec_pad_digits. }
  assert (Hz : str_forall time_byte (zone (t_off t)) = true).
  { unfold zone. destruct (_ =? _)%Z; [done|]. rewrite !str_forall_app, !Hdec. by destruct (_ <? _)%Z. }
  unfold rfc3339. rewrite !str_forall_app, !Hdec, Hfr, Hz. done.
Qed.

Lemma is_zero_valid t : is_zero t = true <-> instant t = 0%Z.
Proof. apply Z.eqb_eq. Qed.
