(* ===== verification/GoJson.v ===== *)
(** * JSON

    What the program uses of package [encoding/json]: the text of a value, as
    [json.Marshal] prints it, the parser of [json.Unmarshal] and [Decoder.Decode], and
    the decoding of an object into a struct.  A string literal is kept as the text
    between its quotes, as the scanner of the package has it; it is unquoted when a
    field is set.  Numbers are kept as their literals. *)

From S2P Require Import Prelude GoStrings GoStrconv GoRegexp GoTime.
Local Open Scope string_scope.

(** ** Values *)

Inductive json : Type :=
| JNull
| JBool (b : bool)
| JNum (lit : string)
| JStr (raw : string)
| JArr (l : list json)
| JObj (l : list (string * json)).

(** ** String literals *)

(** The runes of a string with their encodings; [None] is a byte that starts none. *)
Fixpoint chunks (s : string) : list (option Z * string) :=
  match s with
  | EmptyString => []
  | String a s1 =>
      if (byte_val a <? 128)%Z then (Some (byte_val a), String a "") :: chunks s1
      else match s1 with
      | EmptyString => [(None, String a "")]
      | String b s2 =>
          if valid2 a b then
            (Some (Z.land (byte_val a) 31 * 64 + low6 b)%Z, String a (String b "")) :: chunks s2
          else match s2 with
          | EmptyString => (None, String a "") :: chunks s1
          | String c s3 =>
              if valid3 a b c then
                (Some (Z.land (byte_val a) 15 * 4096 + low6 b * 64 + low6 c)%Z,
                 String a (String b (String c ""))) :: chunks s3
              else match s3 with
              | EmptyString => (None, String a "") :: chunks s1
              | String d s4 =>
                  if valid4 a b c d then
                    (Some (Z.land (byte_val a) 7 * 262144 + low6 b * 4096 + low6 c * 64 + low6 d)%Z,
                     String a (String b (String c (String d "")))) :: chunks s4
                  else (None, String a "") :: chunks s1
              end
          end
      end
  end.

Definition valid_utf8 (s : string) : bool :=
  forallb (fun c => match fst c with Some _ => true | None => false end) (chunks s).

Definition escape_chunk (c : option Z * string) : string :=
  match c with
  | (None, _) => esc "u" ++ "fffd"
  | (Some r, raw) =>
      (if (r =? 34) then esc dquote else if (r =? 92) then esc backslash
       else if (r =? 8) then esc "b" else if (r =? 12) then esc "f" else if (r =? 10) then esc "n"
       else if (r =? 13) then esc "r" else if (r =? 9) then esc "t"
       else if (r <? 32) || (r =? 60) || (r =? 62) || (r =? 38) || (r =? 8232) || (r =? 8233)
       then esc "u" ++ hex_pad 4 r
       else raw)%Z
  end.

(** The literal of a string, without the quotes. *)
Definition escape (s : string) : string := String.concat "" (escape_chunk <$> chunks s).

Definition hex_val (c : ascii) : option Z :=
  let z := byte_val c in
  (if in_range 48 57 z then Some (z - 48) else if in_range 97 102 z then Some (z - 87)
   else if in_range 65 70 z then Some (z - 55) else None)%Z.

Definition hex4 (s : string) : option (Z * string) :=
  match s with
  | String a (String b (String c (String d r))) =>
      a ← hex_val a; b ← hex_val b; c ← hex_val c; d ← hex_val d;
      Some ((((a * 16 + b) * 16 + c) * 16 + d)%Z, r)
  | _ => None
  end.

Definition simple_escape (e : ascii) : option ascii :=
  if Ascii.eqb e dquote then Some dquote
  else if Ascii.eqb e backslash then Some backslash
  else if Ascii.eqb e "/" then Some "/"%char
  else if Ascii.eqb e "b" then Some (ascii_of_nat 8)
  else if Ascii.eqb e "f" then Some (ascii_of_nat 12)
  else if Ascii.eqb e "n" then Some (ascii_of_nat 10)
  else if Ascii.eqb e "r" then Some (ascii_of_nat 13)
  else if Ascii.eqb e "t" then Some (ascii_of_nat 9)
  else None.

Definition is_surrogate (r : Z) : bool := in_range 55296 57343 r.

(** The second half of a surrogate pair, and what follows it. *)
Definition low_surrogate (s : string) : option (Z * string) :=
  match s with
  | String a (String "u" s') =>
      if Ascii.eqb a backslash then
        '(r, s') ← hex4 s'; if in_range 56320 57343 r then Some (r, s') else None
      else None
  | _ => None
  end.

(** The string a literal stands for. *)
Fixpoint unquote_from (fuel : nat) (s : string) : option string :=
  match fuel with
  | 0 => None
  | S n =>
      match s with
      | EmptyString => Some ""
      | String c s1 =>
          if Ascii.eqb c backslash then
            match s1 with
            | EmptyString => None
            | String e s2 =>
                if Ascii.eqb e "u" then
                  '(r, s3) ← hex4 s2;
                  if is_surrogate r then
                    match low_surrogate s3 with
                    | Some (r2, s4) =>
                        if in_range 55296 56319 r
                        then String.append (encode_rune ((r - 55296) * 1024 + (r2 - 56320) + 65536)) <$> unquote_from n s4
                        else String.append (encode_rune rune_error) <$> unquote_from n s3
                    | None => String.append (encode_rune rune_error) <$> unquote_from n s3
                    end
                  else String.append (encode_rune r) <$> unquote_from n s3
                else d ← simple_escape e; String d <$> unquote_from n s2
            end
          else if Ascii.eqb c dquote || (byte_val c <? 32)%Z then None
          else
            match chunks s with
            | (Some _, raw) :: _ => String.append raw <$> unquote_from n (drop_bytes (String.length raw) s)
            | _ => String.append (encode_rune rune_error) <$> unquote_from n s1
            end
      end
  end.

Definition unquote (s : string) : option string := unquote_from (S (String.length s)) s.

(** ** Printing *)

Definition quoted (raw : string) : string := String dquote (raw ++ String dquote "").

Fixpoint print_json (v : json) : string :=
  match v with
  | JNull => "null"
  | JBool b => if b then "true" else "false"
  | JNum lit => lit
  | JStr raw => quoted raw
  | JArr l => "[" ++ join "," (print_json <$> l) ++ "]"
  | JObj l => "{" ++ join "," ((fun kv => quoted (fst kv) ++ ":" ++ print_json (snd kv)) <$> l) ++ "}"
  end.

(** ** Parsing *)

Definition is_ws (c : ascii) : bool :=
  (byte_val c =? 32)%Z || (byte_val c =? 9)%Z || (byte_val c =? 10)%Z || (byte_val c =? 13)%Z.

Fixpoint skip_ws (s : string) : string :=
  match s with
  | EmptyString => ""
  | String c s' => if is_ws c then skip_ws s' else s
  end.

Definition prepend (p : string) (r : option (string * string)) : option (string * string) :=
  '(raw, rest) ← r; Some (p ++ raw, rest).

Definition is_hex (c : ascii) : bool := match hex_val c with Some _ => true | None => false end.

(** A literal up to its closing quote, and what follows. *)
Fixpoint scan_string (s : string) : option (string * string) :=
  match s with
  | EmptyString => None
  | String c s1 =>
      if Ascii.eqb c dquote then Some ("", s1)
      else if Ascii.eqb c backslash then
        match s1 with
        | EmptyString => None
        | String e s2 =>
            if Ascii.eqb e "u" then
              match s2 with
              | String h1 (String h2 (String h3 (String h4 s3))) =>
                  if is_hex h1 && is_hex h2 && is_hex h3 && is_hex h4
                  then prepend (esc "u" ++ String h1 (String h2 (String h3 (String h4 "")))) (scan_string s3)
                  else None
              | _ => None
              end
            else match simple_escape e with
                 | Some _ => prepend (esc e) (scan_string s2)
                 | None => None
                 end
        end
      else if (byte_val c <? 32)%Z then None
      else prepend (String c "") (scan_string s1)
  end.

(** A run of at least one digit. *)
Definition digits1 (s : string) : option (string * string) :=
  let '(d, r) := digit_prefix s in if String.eqb d "" then None else Some (d, r).

Definition scan_frac (s : string) : option (string * string) :=
  match s with
  | String "." r => '(d, r) ← digits1 r; Some ("." ++ d, r)
  | _ => Some ("", s)
  end.

Definition scan_exp (s : string) : option (string * string) :=
  match s with
  | String c r =>
      if Ascii.eqb c "e" || Ascii.eqb c "E" then
        match r with
        | String g r' =>
            if Ascii.eqb g "+" || Ascii.eqb g "-"
            then '(d, r'') ← digits1 r'; Some (String c (String g d), r'')
            else '(d, r'') ← digits1 r; Some (String c d, r'')
        | EmptyString => None
        end
      else Some ("", s)
  | EmptyString => Some ("", "")
  end.

Definition scan_int (s : string) : option (string * string) :=
  match s with
  | String c r => if Ascii.eqb c "0" then Some ("0", r) else digits1 s
  | EmptyString => None
  end.

Definition scan_sign (s : string) : string * string :=
  match s with
  | String c r => if Ascii.eqb c "-" then ("-", r) else ("", s)
  | EmptyString => ("", "")
  end.

Definition scan_number (s : string) : option (string * string) :=
  let '(sign, s) := scan_sign s in
  '(int, s) ← scan_int s;
  '(frac, s) ← scan_frac s;
  '(exp, s) ← scan_exp s;
  Some (sign ++ int ++ frac ++ exp, s).

(** A value, the elements of an array up to "]", the members of an object up to "}". *)
Fixpoint parse_value (n : nat) (s : string) {struct n} : option (json * string) :=
  match n with
  | 0 => None
  | S n' =>
      match skip_ws s with
      | EmptyString => None
      | String c r =>
          if Ascii.eqb c dquote then '(raw, r) ← scan_string r; Some (JStr raw, r)
          else if Ascii.eqb c "[" then
            match skip_ws r with
            | String "]" r' => Some (JArr [], r')
            | _ => '(l, r) ← parse_elements n' r; Some (JArr l, r)
            end
          else if Ascii.eqb c "{" then
            match skip_ws r with
            | String "}" r' => Some (JObj [], r')
            | _ => '(l, r) ← parse_members n' r; Some (JObj l, r)
            end
          else if has_prefix (String c r) "null" then Some (JNull, drop_bytes 4 (String c r))
          else if has_prefix (String c r) "true" then Some (JBool true, drop_bytes 4 (String c r))
          else if has_prefix (String c r) "false" then Some (JBool false, drop_bytes 5 (String c r))
          else '(lit, r) ← scan_number (String c r); Some (JNum lit, r)
      end
  end
with parse_elements (n : nat) (s : string) {struct n} : option (list json * string) :=
  match n with
  | 0 => None
  | S n' =>
      '(v, r) ← parse_value n' s;
      match skip_ws r with
      | String "," r => '(l, r) ← parse_elements n' r; Some (v :: l, r)
      | String "]" r => Some ([v], r)
      | _ => None
      end
  end
with parse_members (n : nat) (s : string) {struct n} : option (list (string * json) * string) :=
  match n with
  | 0 => None
  | S n' =>
      match skip_ws s with
      | String c r =>
          if Ascii.eqb c dquote then
            '(k, r) ← scan_string r;
            match skip_ws r with
            | String ":" r =>
                '(v, r) ← parse_value n' r;
                match skip_ws r with
                | String "," r => '(l, r) ← parse_members n' r; Some ((k, v) :: l, r)
                | String "}" r => Some ([(k, v)], r)
                | _ => None
                end
            | _ => None
            end
          else None
      | EmptyString => None
      end
  end.

(** Two turns for every byte are more than any value needs. *)
Definition parse_first (s : string) : option (json * string) :=
  parse_value (2 * S (String.length s)) s.

(** [json.Unmarshal] allows only white space after the value. *)
Definition parse_json (s : string) : option json :=
  '(v, r) ← parse_first s; if String.eqb (skip_ws r) "" then Some v else None.

(** ** Lemmas on string literals *)

(** One rune and its encoding. *)
Inductive utf8_chunk : Z -> string -> Prop :=
| chunk1 a : (byte_val a < 128)%Z -> utf8_chunk (byte_val a) (String a "")
| chunk2 a b : valid2 a b = true ->
    utf8_chunk (Z.land (byte_val a) 31 * 64 + low6 b) (String a (String b ""))
| chunk3 a b c : valid3 a b c = true ->
    utf8_chunk (Z.land (byte_val a) 15 * 4096 + low6 b * 64 + low6 c) (String a (String b (String c "")))
| chunk4 a b c d : valid4 a b c d = true ->
    utf8_chunk (Z.land (byte_val a) 7 * 262144 + low6 b * 4096 + low6 c * 64 + low6 d)
      (String a (String b (String c (String d "")))).

Ltac utf8_bounds :=
  unfold valid2, valid3, valid4, cont, in_range in *;
  repeat rewrite ?andb_true_iff, ?orb_true_iff, ?Z.leb_le, ?Z.eqb_eq, ?andb_false_iff, ?Z.leb_gt in *.

Lemma chunks_cons r raw t : utf8_chunk r raw -> chunks (raw ++ t) = (Some r, raw) :: chunks t.
Proof.
  intros [a Ha|a b H|a b c H|a b c d H]; cbn [chunks String.append].
  - by assert ((byte_val a <? 128)%Z = true) as -> by lia.
  - rewrite H. assert ((byte_val a <? 128)%Z = false) as ->; [|done]. utf8_bounds. lia.
  - rewrite H. assert ((byte_val a <? 128)%Z = false) as -> by (utf8_bounds; lia).
    assert (valid2 a b = false) as ->; [|done]. apply not_true_iff_false. intros ?. utf8_bounds. lia.
  - rewrite H. assert ((byte_val a <? 128)%Z = false) as -> by (utf8_bounds; lia).
    assert (valid2 a b = false) as -> by (apply not_true_iff_false; intros ?; utf8_bounds; lia).
    assert (valid3 a b c = false) as ->; [|done]. apply not_true_iff_false. intros ?. utf8_bounds. lia.
Qed.

(** A string is empty, or starts with a rune, or with a byte that starts none. *)
Lemma chunks_ind (P : string -> Prop) :
  P "" ->
  (forall r raw t, utf8_chunk r raw -> P t -> P (raw ++ t)) ->
  (forall a t, (128 <= byte_val a)%Z -> chunks (String a t) = (None, String a "") :: chunks t -> P t ->
     P (String a t)) ->
  forall s, P s.
Proof.
  intros H0 Hr Hb s. induction s as [s IH] using (induction_ltof1 _ String.length). unfold ltof in IH.
  destruct s as [|a s1]; [done|].
  destruct (byte_val a <? 128)%Z eqn:Ha.
  { refine (Hr _ (String a "") s1 (chunk1 a _) _); [lia|]. apply IH. simpl. lia. }
  assert (Hbad : chunks (String a s1) = (None, String a "") :: chunks s1 -> P (String a s1))
    by (intros He; apply Hb; [lia|done|]; apply IH; simpl; lia).
  cbn [chunks] in Hbad. rewrite Ha in Hbad.
  destruct s1 as [|b s2]; [by apply Hbad|].
  destruct (valid2 a b) eqn:H2.
  { refine (Hr _ (String a (String b "")) s2 (chunk2 a b H2) _). apply IH. simpl. lia. }
  destruct s2 as [|c s3]; [by apply Hbad|].
  destruct (valid3 a b c) eqn:H3.
  { refine (Hr _ (String a (String b (String c ""))) s3 (chunk3 a b c H3) _). apply IH. simpl. lia. }
  destruct s3 as [|d s4]; [by apply Hbad|].
  destruct (valid4 a b c d) eqn:H4; [|by apply Hbad].
  refine (Hr _ (String a (String b (String c (String d "")))) s4 (chunk4 a b c d H4) _). apply IH. simpl. lia.
Qed.

Lemma escape_cons r raw t : utf8_chunk r raw -> escape (raw ++ t) = escape_chunk (Some r, raw) ++ escape t.
Proof.
  intros H. unfold escape. rewrite (chunks_cons _ _ _ H), fmap_cons.
  destruct (chunks t); simpl; [by rewrite str_app_nil_r|done].
Qed.

Lemma escape_bad a t :
  chunks (String a t) = (None, String a "") :: chunks t ->
  escape (String a t) = escape_chunk (None, String a "") ++ escape t.
Proof.
  intros H. unfold escape. rewrite H, fmap_cons. destruct (chunks t); simpl; by rewrite ?str_app_nil_r.
Qed.

Lemma utf8_high r raw :
  utf8_chunk r raw -> (r < 128 /\ exists a, raw = String a "" /\ byte_val a = r)%Z \/
    (128 <= r /\ str_forall (fun c => 128 <=? byte_val c) raw = true)%Z /\ exists a t, raw = String a t.
Proof.
  assert (Hl6 : forall c, cont c = true -> (low6 c = byte_val c - 128)%Z).
  { intros c Hc. rewrite low6_mod. utf8_bounds.
    symmetry. apply (Z.mod_unique_pos _ _ 2); lia. }
  intros [a Ha|a b H|a b c H|a b c d H]; [left; by eauto|right; split; [|by eauto]..].
  - assert (Z.land (byte_val a) 31 = byte_val a mod 32)%Z as ->.
    { change 31%Z with (Z.ones 5). by rewrite Z.land_ones. }
    unfold valid2 in H. apply andb_true_iff in H as [Ha Hb]. rewrite (Hl6 b Hb). utf8_bounds.
    assert (byte_val a mod 32 = byte_val a - 192)%Z as -> by (symmetry; apply (Z.mod_unique_pos _ _ 6); lia).
    split; [lia|]. simpl. rewrite !andb_true_iff, !Z.leb_le. lia.
  - pose proof (Z.land_nonneg (byte_val a) 15). pose proof (byte_val_bounds a).
    assert (Hb : (byte_val a = 224 -> 2048 <= low6 b * 64)%Z /\ (0 <= low6 b)%Z /\ (0 <= low6 c)%Z
      /\ (byte_val a <> 224 -> 1 <= Z.land (byte_val a) 15)%Z).
    { rewrite !low6_mod. pose proof (Z.mod_pos_bound (byte_val b) 64). pose proof (Z.mod_pos_bound (byte_val c) 64).
      assert (Hm : Z.land (byte_val a) 15 = (byte_val a mod 16)%Z)
        by (change 15%Z with (Z.ones 4); by rewrite Z.land_ones).
      rewrite Hm. split_and!; [|lia..|].
      - intros Ha. utf8_bounds. assert (byte_val b mod 64 = byte_val b - 128)%Z as ->; [|lia].
        symmetry. apply (Z.mod_unique_pos _ _ 2); lia.
      - intros Ha. utf8_bounds.
        assert (byte_val a mod 16 = byte_val a - 224)%Z as ->; [|lia].
        symmetry. apply (Z.mod_unique_pos _ _ 14); lia. }
    split; [utf8_bounds; nia|]. utf8_bounds. simpl. rewrite !andb_true_iff, !Z.leb_le. lia.
  - pose proof (byte_val_bounds a).
    assert (Hm : Z.land (byte_val a) 7 = (byte_val a mod 8)%Z)
      by (change 7%Z with (Z.ones 3); by rewrite Z.land_ones).
    rewrite Hm, !low6_mod. pose proof (Z.mod_pos_bound (byte_val b) 64).
    pose proof (Z.mod_pos_bound (byte_val c) 64). pose proof (Z.mod_pos_bound (byte_val d) 64).
    pose proof (Z.mod_pos_bound (byte_val a) 8).
    split.
    + destruct (decide (byte_val a = 240)%Z) as [Ha|Ha].
      * assert (byte_val b mod 64 = byte_val b - 128)%Z as ->; [|utf8_bounds; lia].
        symmetry. utf8_bounds. apply (Z.mod_unique_pos _ _ 2); lia.
      * assert (byte_val a mod 8 = byte_val a - 240)%Z as ->; [|utf8_bounds; lia].
        symmetry. utf8_bounds. apply (Z.mod_unique_pos _ _ 30); lia.
    + utf8_bounds. simpl. rewrite !andb_true_iff, !Z.leb_le. lia.
Qed.

Lemma byte_of_val c : byte_of (byte_val c) = c.
Proof. unfold byte_of, byte_val. by rewrite N2Z.id, ascii_N_embedding. Qed.

(** The two line separators JSON escapes are encoded in three bytes. *)
Lemma line_separator r raw : utf8_chunk r raw -> (r = 8232 \/ r = 8233)%Z -> encode_rune r = raw.
Proof.
  intros H Hr. destruct H as [a Ha|a b H|a b c H|a b c d H].
  - lia.
  - exfalso. pose proof (byte_val_bounds a). pose proof (Z.mod_pos_bound (byte_val b) 64).
    assert (Z.land (byte_val a) 31 = byte_val a mod 32)%Z as Hm
      by (change 31%Z with (Z.ones 5); by rewrite Z.land_ones).
    pose proof (Z.mod_pos_bound (byte_val a) 32). rewrite low6_mod in Hr. lia.
  - assert (Hm : Z.land (byte_val a) 15 = (byte_val a mod 16)%Z)
      by (change 15%Z with (Z.ones 4); by rewrite Z.land_ones).
    rewrite Hm, !low6_mod in *. utf8_bounds.
    assert (Hb : (byte_val b mod 64 = byte_val b - 128)%Z) by (symmetry; apply (Z.mod_unique_pos _ _ 2); lia).
    assert (Hc : (byte_val c mod 64 = byte_val c - 128)%Z) by (symmetry; apply (Z.mod_unique_pos _ _ 2); lia).
    assert (Ha : (byte_val a mod 16 = byte_val a - 224)%Z) by (symmetry; apply (Z.mod_unique_pos _ _ 14); lia).
    rewrite Ha, Hb, Hc in *.
    assert (byte_val a = 226 /\ byte_val b = 128)%Z as [Ea Eb] by lia.
    destruct Hr as [Hr|Hr]; rewrite Hr; rewrite <- (byte_of_val a), <- (byte_of_val b), <- (byte_of_val c), Ea, Eb.
    + assert (byte_val c = 168)%Z as -> by lia. reflexivity.
    + assert (byte_val c = 169)%Z as -> by lia. reflexivity.
  - exfalso. assert (Hm : Z.land (byte_val a) 7 = (byte_val a mod 8)%Z)
      by (change 7%Z with (Z.ones 3); by rewrite Z.land_ones).
    rewrite Hm, !low6_mod in *. pose proof (Z.mod_pos_bound (byte_val b) 64).
    pose proof (Z.mod_pos_bound (byte_val c) 64). pose proof (Z.mod_pos_bound (byte_val d) 64).
    pose proof (Z.mod_pos_bound (byte_val a) 8). utf8_bounds.
    destruct (decide (byte_val a = 240)%Z) as [Ha|Ha].
    + assert (byte_val b mod 64 = byte_val b - 128)%Z; [|lia].
      symmetry. apply (Z.mod_unique_pos _ _ 2); lia.
    + assert (byte_val a mod 8 = byte_val a - 240)%Z; [|lia].
      symmetry. apply (Z.mod_unique_pos _ _ 30); lia.
Qed.

Lemma hex_val_digit z : (0 <= z < 16)%Z -> hex_val (hex_digit z) = Some z.
Proof.
  intros Hz. unfold hex_digit, hex_val, in_range. destruct (z <? 10)%Z eqn:Hlt; rewrite byte_val_byte_of by lia.
  - assert (((48 <=? 48 + z) && (48 + z <=? 57))%Z = true) as -> by lia. f_equal. lia.
  - assert (((48 <=? 87 + z) && (87 + z <=? 57))%Z = false) as -> by lia.
    assert (((97 <=? 87 + z) && (87 + z <=? 102))%Z = true) as -> by lia. f_equal. lia.
Qed.

Lemma hex_pad4 r : hex_pad 4 r =
  String (hex_digit (r / 16 / 16 / 16 mod 16)) (String (hex_digit (r / 16 / 16 mod 16))
    (String (hex_digit (r / 16 mod 16)) (String (hex_digit (r mod 16)) ""))).
Proof. reflexivity. Qed.

Lemma hex4_pad r t : (0 <= r < 65536)%Z -> hex4 (hex_pad 4 r ++ t) = Some (r, t).
Proof.
  intros Hr. rewrite hex_pad4. cbn [hex4 String.append].
  rewrite !hex_val_digit by (apply Z.mod_pos_bound; lia). cbn [mbind option_bind]. do 2 f_equal.
  pose proof (Z.div_mod r 16 ltac:(lia)). pose proof (Z.div_mod (r / 16) 16 ltac:(lia)).
  pose proof (Z.div_mod (r / 16 / 16) 16 ltac:(lia)).
  assert (Hq : (r / 16 / 16 / 16 mod 16 = r / 16 / 16 / 16)%Z).
  { apply Z.mod_small. rewrite !Z.div_div by lia. change (16 * 16 * 16)%Z with 4096%Z.
    split; [apply Z.div_pos; lia|apply Z.div_lt_upper_bound; lia]. }
  rewrite Hq. lia.
Qed.

(** The escape of a rune: itself, a backslash and a letter, or four digits. *)
Inductive escape_view (r : Z) (raw : string) : string -> Prop :=
| view_raw : r <> 34%Z -> r <> 92%Z -> (32 <= r)%Z -> escape_view r raw raw
| view_simple e d : simple_escape e = Some d -> Ascii.eqb e "u" = false -> raw = String d "" ->
    escape_view r raw (esc e)
| view_hex : (0 <= r < 65536)%Z -> is_surrogate r = false -> encode_rune r = raw ->
    escape_view r raw (esc "u" ++ hex_pad 4 r).

Lemma escape_chunk_view r raw : utf8_chunk r raw -> escape_view r raw (escape_chunk (Some r, raw)).
Proof.
  intros H. pose proof (utf8_high _ _ H) as Hh. cbn [escape_chunk].
  assert (Hone : (0 <= r < 128)%Z -> raw = String (byte_of r) "").
  { intros Hr. destruct Hh as [(_ & a & -> & <-)|[[Hge _] _]]; [by rewrite byte_of_val|lia]. }
  assert (Hpos : (0 <= r)%Z).
  { destruct Hh as [(_ & a & _ & <-)|[[Hge _] _]]; [apply byte_val_bounds|lia]. }
  repeat match goal with
  | |- escape_view _ _ (if (r =? ?k)%Z then _ else _) => destruct (Z.eqb_spec r k) as [->|];
      [by eapply view_simple; [reflexivity|reflexivity|apply Hone; lia]|]
  end.
  destruct (_ || _) eqn:Hc; [|apply view_raw; [done|done|lia]].
  apply view_hex; [lia|unfold is_surrogate, in_range; lia|].
  destruct (decide (r < 128)%Z) as [Hlt|Hge].
  - rewrite Hone by lia. unfold encode_rune, in_range.
    by assert (((0 <=? r) && (r <=? 127))%Z = true) as -> by lia.
  - apply line_separator; [done|lia].
Qed.

Lemma unquote_chunk r raw n t :
  utf8_chunk r raw -> unquote_from (S n) (escape_chunk (Some r, raw) ++ t) = String.append raw <$> unquote_from n t.
Proof.
  intros H. destruct (escape_chunk_view _ _ H) as [Hq Hb Hc|e d He Hu ->|Hr Hs <-].
  - assert (Hhead : exists a s, raw = String a s /\ Ascii.eqb a backslash = false /\
      Ascii.eqb a dquote || (byte_val a <? 32)%Z = false).
    { assert (Hne : forall a k, byte_val a <> Z.of_nat k -> k < 256 -> Ascii.eqb a (ascii_of_nat k) = false).
      { intros a k Hk Hlt. destruct (Ascii.eqb_spec a (ascii_of_nat k)) as [->|]; [|done]. exfalso. apply Hk.
        unfold byte_val, ascii_of_nat. rewrite N_ascii_embedding by lia. apply nat_N_Z. }
      destruct (utf8_high _ _ H) as [(Hlt & a & -> & <-)|[[Hge Hall] (a & s & ->)]].
      - exists a, "". split; [done|]. unfold backslash, dquote. rewrite !Hne by lia. split; [done|]. simpl. lia.
      - exists a, s. split; [done|]. simpl in Hall. apply andb_true_iff in Hall as [Ha _].
        unfold backslash, dquote. rewrite !Hne by lia. split; [done|]. simpl. lia. }
    destruct Hhead as (a & s & -> & Hb1 & Hq1). cbn [unquote_from String.append]. rewrite Hb1, Hq1.
    change (String a (s ++ t)) with (String a s ++ t). rewrite (chunks_cons _ _ _ H), drop_bytes_app. done.
  - cbn [esc String.append unquote_from]. change (Ascii.eqb backslash backslash) with true. cbn iota.
    rewrite Hu, He. cbn [mbind option_bind]. by destruct (unquote_from n t).
  - cbn [esc String.append unquote_from]. change (Ascii.eqb backslash backslash) with true. cbn iota.
    change (Ascii.eqb "u" "u") with true. cbn iota. rewrite hex4_pad by done. cbn [mbind option_bind].
    by rewrite Hs.
Qed.

(** Unquoting the literal of a string of valid UTF-8 gives it back. *)
Lemma unquote_escape s : valid_utf8 s = true -> unquote (escape s) = Some s.
Proof.
  assert (Hn : forall s n, valid_utf8 s = true -> String.length (escape s) < n -> unquote_from n (escape s) = Some s).
  2:{ intros Hv. apply Hn; [done|]. lia. }
  clear s. intros s. induction s as [|r raw t H IH|a t Ha Hc IH] using chunks_ind; intros n Hv Hlen.
  - by destruct n; [simpl in Hlen; lia|].
  - unfold valid_utf8 in *. rewrite (chunks_cons _ _ _ H) in Hv. simpl in Hv.
    rewrite (escape_cons _ _ _ H) in *. destruct n as [|n]; [lia|]. rewrite unquote_chunk by done.
    rewrite str_length_app in Hlen.
    assert (String.length (escape_chunk (Some r, raw)) <> 0).
    { destruct (escape_chunk_view _ _ H) as [? ? ?| |]; [|done..].
      destruct (utf8_high _ _ H) as [(_ & ? & -> & _)|[_ (? & ? & ->)]]; done. }
    by rewrite IH by (done || lia).
  - unfold valid_utf8 in Hv. by rewrite Hc in Hv.
Qed.

Lemma is_hex_digit z : is_hex (hex_digit (z mod 16)) = true.
Proof. unfold is_hex. rewrite hex_val_digit; [done|]. apply Z.mod_pos_bound. lia. Qed.

(** Literals the scanner accepts. *)
Definition lexical (raw : string) : Prop :=
  forall rest, scan_string (raw ++ String dquote rest) = Some (raw, rest).

Lemma lexical_nil : lexical "".
Proof. done. Qed.

Lemma lexical_byte c raw :
  Ascii.eqb c dquote = false -> Ascii.eqb c backslash = false -> (32 <= byte_val c)%Z -> lexical raw ->
  lexical (String c raw).
Proof.
  intros Hq Hb Hc H rest. cbn [scan_string String.append]. rewrite Hq, Hb, H.
  by assert ((byte_val c <? 32)%Z = false) as -> by lia.
Qed.

Lemma lexical_simple e raw :
  is_Some (simple_escape e) -> Ascii.eqb e "u" = false -> lexical raw -> lexical (esc e ++ raw).
Proof.
  intros [d He] Hu H rest. cbn [esc scan_string String.append].
  change (Ascii.eqb backslash dquote) with false. change (Ascii.eqb backslash backslash) with true. cbn iota.
  by rewrite Hu, He, H.
Qed.

Lemma lexical_hex h1 h2 h3 h4 raw :
  is_hex h1 && is_hex h2 && is_hex h3 && is_hex h4 = true -> lexical raw ->
  lexical (esc "u" ++ String h1 (String h2 (String h3 (String h4 raw)))).
Proof.
  intros Hh H rest. cbn [esc scan_string String.append].
  change (Ascii.eqb backslash dquote) with false. change (Ascii.eqb backslash backslash) with true.
  change (Ascii.eqb "u" "u") with true. cbn iota. by rewrite Hh, H.
Qed.

Lemma lexical_plain s raw :
  str_forall (fun c => negb (Ascii.eqb c dquote) && negb (Ascii.eqb c backslash) && (32 <=? byte_val c)%Z) s = true ->
  lexical raw -> lexical (s ++ raw).
Proof.
  intros Hs Hr. induction s as [|c s IH]; [done|]. simpl in Hs. propify. cbn [String.append].
  apply lexical_byte; [done|done|lia|auto].
Qed.

Lemma lexical_escape s : lexical (escape s).
Proof.
  induction s as [|r raw t H IH|a t Ha Hc IH] using chunks_ind; [done| |].
  - rewrite (escape_cons _ _ _ H). destruct (escape_chunk_view _ _ H) as [Hq Hb Hc|e d He Hu _|Hr _ _].
    + apply lexical_plain; [|done]. apply str_forall_forall. intros c Hin.
      assert (Hcode : byte_val c <> 34%Z /\ byte_val c <> 92%Z /\ (32 <= byte_val c)%Z).
      { destruct (utf8_high _ _ H) as [(_ & a & -> & <-)|[[_ Hall] _]].
        - simpl in Hin. destruct Hin as [<-|[]]. done.
        - rewrite str_forall_forall in Hall. specialize (Hall c Hin). simpl in Hall. lia. }
      rewrite !andb_true_iff, !negb_true_iff. split_and!; [| |lia].
      * destruct (Ascii.eqb_spec c dquote) as [->|]; [|done]. by destruct Hcode as [[] _].
      * destruct (Ascii.eqb_spec c backslash) as [->|]; [|done]. by destruct Hcode as [_ [[] _]].
    + apply lexical_simple; [by eexists|done|done].
    + rewrite str_app_assoc. rewrite hex_pad4. cbn [String.append].
      apply lexical_hex; [|done]. by rewrite !is_hex_digit.
  - rewrite (escape_bad _ _ Hc). cbn [escape_chunk]. rewrite str_app_assoc. by apply lexical_hex.
Qed.

(** ** Printing and parsing *)

Section json_ind.
Variables (P : json -> Prop) (Hnull : P JNull) (Hbool : forall b, P (JBool b)) (Hnum : forall l, P (JNum l))
  (Hstr : forall r, P (JStr r)) (Harr : forall l, Forall P l -> P (JArr l))
  (Hobj : forall l, Forall (fun kv => P (snd kv)) l -> P (JObj l)).

Fixpoint json_nested_ind (v : json) : P v :=
  match v with
  | JNull => Hnull
  | JBool b => Hbool b
  | JNum l => Hnum l
  | JStr r => Hstr r
  | JArr l => Harr l ((fix go l : Forall P l :=
      match l with
      | [] => @List.Forall_nil _ _
      | x :: l' => @List.Forall_cons _ _ _ _ (json_nested_ind x) (go l')
      end) l)
  | JObj l => Hobj l ((fix go l : Forall (fun kv => P (snd kv)) l :=
      match l with
      | [] => @List.Forall_nil _ _
      | x :: l' => @List.Forall_cons _ (fun kv => P (snd kv)) x l' (json_nested_ind (snd x)) (go l')
      end) l)
  end.
End json_ind.

(** Values whose strings are literals and whose numbers are integers. *)
Fixpoint wf_json (v : json) : Prop :=
  match v with
  | JNull | JBool _ => True
  | JNum lit => exists z, lit = itoa z
  | JStr raw => lexical raw
  | JArr l => foldr (fun v P => wf_json v /\ P) True l
  | JObj l => foldr (fun kv P => (lexical (fst kv) /\ wf_json (snd kv)) /\ P) True l
  end.

(** What may follow a value: nothing, a delimiter or white space. *)
Definition delimited (s : string) : Prop :=
  s = "" \/ exists c r, s = String c r /\ contains_byte ",]}" c || is_ws c = true.

Lemma delimited_head s c r : delimited s -> s = String c r ->
  is_digit c = false /\ c <> "."%char /\ c <> "e"%char /\ c <> "E"%char.
Proof.
  intros [->|(d & t & -> & Hd)]; [done|]. intros [= -> ->]. revert Hd.
  destruct c as [[] [] [] [] [] [] [] []]; try discriminate; done.
Qed.

Lemma scan_frac_delimited s : delimited s -> scan_frac s = Some ("", s).
Proof.
  intros Hd. destruct s as [|c r]; [done|]. destruct (delimited_head _ _ _ Hd eq_refl) as (_ & Hc & _).
  unfold scan_frac. by destruct c as [[] [] [] [] [] [] [] []].
Qed.

Lemma scan_exp_delimited s : delimited s -> scan_exp s = Some ("", s).
Proof.
  intros Hd. destruct s as [|c r]; [done|]. destruct (delimited_head _ _ _ Hd eq_refl) as (_ & _ & He & HE).
  unfold scan_exp. destruct (Ascii.eqb_spec c "e"), (Ascii.eqb_spec c "E"); done.
Qed.

Lemma scan_number_itoa z s : delimited s -> scan_number (itoa z ++ s) = Some (itoa z, s).
Proof.
  intros Hs.
  assert (Hint : forall n, (0 <= n)%Z -> scan_int (itoa n ++ s) = Some (itoa n, s)).
  { intros n Hn. destruct (itoa_numeral n Hn) as (Hall & _ & c & r & Hi & H0).
    assert (Hd1 : digits1 (itoa n ++ s) = Some (itoa n, s)).
    { unfold digits1. rewrite digit_prefix_all by (done || by intros ? ? ?; eapply delimited_head).
      by rewrite Hi. }
    rewrite Hi in *. cbn [String.append scan_int] in *. destruct (Ascii.eqb_spec c "0") as [->|Hne]; [|done].
    by rewrite H0 by done. }
  assert (Hsign : forall n, (0 <= n)%Z -> scan_sign (itoa n ++ s) = ("", itoa n ++ s)).
  { intros n Hn. destruct (itoa_numeral n Hn) as (Hall & _ & c & r & Hi & H0). rewrite Hi in *. simpl in Hall.
    apply andb_true_iff in Hall as [Hc _]. apply digit_not_sign in Hc as [Hc _]. cbn [String.append scan_sign].
    by destruct (Ascii.eqb_spec c "-"). }
  unfold scan_number. destruct (decide (z < 0)%Z) as [Hneg|Hpos].
  - rewrite itoa_neg by done. cbn [String.append scan_sign]. change (Ascii.eqb "-" "-") with true. cbn iota.
    rewrite Hint by lia. cbn [mbind option_bind].
    rewrite scan_frac_delimited by done. cbn [mbind option_bind]. rewrite scan_exp_delimited by done.
    cbn [mbind option_bind]. by rewrite !str_app_nil_r.
  - rewrite Hsign by lia. rewrite Hint by lia. cbn [mbind option_bind].
    rewrite scan_frac_delimited by done. cbn [mbind option_bind]. rewrite scan_exp_delimited by done.
    cbn [mbind option_bind]. by rewrite !str_app_nil_r.
Qed.

(** The first byte of a value. *)
Lemma print_head v : wf_json v ->
  exists c r, print_json v = String c r /\ is_ws c = false /\ c <> "]"%char /\ c <> "}"%char.
Proof.
  destruct v as [|[]|lit|raw|l|l]; cbn [print_json wf_json]; try (intros _; by eexists _, _). intros [z ->].
  destruct (decide (z < 0)%Z) as [Hneg|Hpos]; [rewrite itoa_neg by done; by eexists _, _|].
  destruct (itoa_numeral z ltac:(lia)) as (Hall & _ & c & r & Hi & _). rewrite Hi in *. eexists _, _.
  split; [done|]. simpl in Hall. apply andb_true_iff in Hall as [Hc _]. revert Hc.
  destruct c as [[] [] [] [] [] [] [] []]; try discriminate; done.
Qed.

Lemma number_head z s :
  exists c r, itoa z ++ s = String c r /\ is_ws c = false /\ Ascii.eqb c dquote = false /\
    Ascii.eqb c "[" = false /\ Ascii.eqb c "{" = false /\
    has_prefix (String c r) "null" = false /\ has_prefix (String c r) "true" = false /\
    has_prefix (String c r) "false" = false.
Proof.
  destruct (decide (z < 0)%Z) as [Hneg|Hpos]; [rewrite itoa_neg by done; by eexists _, _|].
  destruct (itoa_numeral z ltac:(lia)) as (Hall & _ & c & r & Hi & _). rewrite Hi in *. eexists _, _.
  split; [done|]. simpl in Hall. apply andb_true_iff in Hall as [Hc _]. revert Hc.
  destruct c as [[] [] [] [] [] [] [] []]; try discriminate; done.
Qed.

Lemma skip_ws_head s c r : s = String c r -> is_ws c = false -> skip_ws s = s.
Proof. intros -> Hc. simpl. by rewrite Hc. Qed.

(** [v] printed before [s] is read back, given enough turns. *)
Definition reads_back (v : json) : Prop :=
  forall n s, delimited s -> 2 * String.length (print_json v) <= n ->
  parse_value n (print_json v ++ s) = Some (v, s).

Lemma comma_delimited s : delimited (String "," s).
Proof. right. by eexists _, _. Qed.
Lemma bracket_delimited s : delimited (String "]" s).
Proof. right. by eexists _, _. Qed.
Lemma brace_delimited s : delimited (String "}" s).
Proof. right. by eexists _, _. Qed.
#[local] Hint Resolve comma_delimited bracket_delimited brace_delimited : core.

Lemma join_cons2 sep x y l : join sep (x :: y :: l) = x ++ sep ++ join sep (y :: l).
Proof. done. Qed.

Lemma parse_elements_print l n s :
  l <> [] -> Forall reads_back l -> 2 * String.length (join "," (print_json <$> l)) < n ->
  parse_elements n (join "," (print_json <$> l) ++ String "]" s) = Some (l, s).
Proof.
  intros Hne Hl. revert n. induction Hl as [|x l Hx Hl IH]; [done|]. intros n Hn.
  destruct n as [|n]; [lia|]. cbn [parse_elements]. destruct l as [|y l].
  - cbn [fmap list_fmap join] in *. rewrite Hx by (done || lia). done.
  - rewrite !fmap_cons, join_cons2 in *. cbn [String.append] in *.
    rewrite !str_length_app in Hn. cbn [String.length] in Hn. rewrite str_app_assoc. cbn [String.append].
    rewrite Hx by (done || lia). cbn [mbind option_bind skip_ws].
    change (is_ws ",") with false. cbn iota.
    rewrite <- fmap_cons in *. rewrite IH by (done || lia). done.
Qed.

Definition print_member (kv : string * json) : string := quoted (fst kv) ++ ":" ++ print_json (snd kv).

Lemma parse_members_print l n s :
  l <> [] -> Forall (fun kv => lexical (fst kv) /\ reads_back (snd kv)) l ->
  2 * String.length (join "," (print_member <$> l)) < n ->
  parse_members n (join "," (print_member <$> l) ++ String "}" s) = Some (l, s).
Proof.
  intros Hne Hl. revert n. induction Hl as [|[k v] l [Hk Hv] Hl IH]; [done|]. intros n Hn.
  destruct n as [|n]; [lia|]. cbn [fst snd] in Hk, Hv. cbn [parse_members].
  assert (Hmem : forall t, print_member (k, v) ++ t = String dquote (k ++ String dquote (String ":" (print_json v ++ t)))).
  { intros t. unfold print_member, quoted. cbn [fst snd String.append]. by rewrite !str_app_assoc. }
  assert (Hlen : String.length (print_json v) < String.length (print_member (k, v))).
  { unfold print_member. cbn [fst snd]. rewrite str_length_app. simpl. lia. }
  destruct l as [|y l].
  - rewrite list_fmap_singleton in *. cbn [join] in *. rewrite Hmem. cbn [skip_ws]. change (is_ws dquote) with false.
    cbn iota. change (Ascii.eqb dquote dquote) with true. cbn iota. rewrite Hk. cbn [mbind option_bind skip_ws].
    change (is_ws ":") with false. cbn iota. rewrite Hv by (done || lia). done.
  - rewrite !fmap_cons, join_cons2 in *. rewrite <- fmap_cons in *. cbn [String.append] in *.
    rewrite !str_length_app in Hn. cbn [String.length] in Hn. rewrite str_app_assoc, Hmem. cbn [skip_ws String.append].
    change (is_ws dquote) with false. cbn iota. change (Ascii.eqb dquote dquote) with true. cbn iota.
    rewrite Hk. cbn [mbind option_bind skip_ws]. change (is_ws ":") with false. cbn iota.
    rewrite Hv by (done || lia). cbn [mbind option_bind skip_ws]. change (is_ws ",") with false. cbn iota.
    rewrite IH by (done || lia). done.
Qed.

Lemma parse_value_print v : wf_json v -> reads_back v.
Proof.
  induction v as [|b|lit|raw|l IH|l IH] using json_nested_ind; intros Hwf n s Hs Hn.
  all: destruct n as [|n]; [destruct (print_head _ Hwf) as (? & ? & Heq & _); rewrite Heq in Hn; simpl in Hn; lia|].
  - by destruct s.
  - by destruct b, s.
  - destruct Hwf as [z ->]. cbn [print_json parse_value].
    destruct (number_head z s) as (c & r & Hc & Hws & Hq & Hb & Hbr & H1 & H2 & H3).
    rewrite (skip_ws_head _ c r) by done. rewrite Hc, Hq, Hb, Hbr, H1, H2, H3, <- Hc, scan_number_itoa by done. done.
  - simpl in Hwf. cbn [print_json parse_value]. unfold quoted. cbn [String.append skip_ws].
    change (is_ws dquote) with false. cbn iota. change (Ascii.eqb dquote dquote) with true. cbn iota.
    rewrite str_app_assoc. cbn [String.append]. by rewrite Hwf.
  - cbn [print_json parse_value] in *. cbn [String.append skip_ws String.length] in *.
    change (is_ws "[") with false. cbn iota. change (Ascii.eqb "[" dquote) with false.
    change (Ascii.eqb "[" "[") with true. cbn iota. rewrite str_app_assoc in *. cbn [String.append].
    rewrite str_length_app in Hn. cbn [String.length] in Hn.
    destruct (decide (l = [])) as [->|Hne]; [done|].
    assert (Hall : Forall wf_json l /\ Forall reads_back l).
    { clear -IH Hwf. induction IH as [|x l Hx Hl IHl]; [done|]. simpl in Hwf. destruct Hwf as [Hw Hwf].
      destruct (IHl Hwf). split; constructor; auto. }
    destruct Hall as [Hw Hr].
    pose proof (parse_elements_print l n s Hne Hr ltac:(lia)) as Hp.
    destruct l as [|x l]; [done|]. apply Forall_cons in Hw as [Hx _].
    destruct (print_head x Hx) as (c & r & Hxr & Hws & Hbr & _).
    assert (Hhd : exists t, join "," (print_json <$> x :: l) ++ String "]" s = String c t).
    { rewrite fmap_cons. destruct (print_json <$> l); cbn [join]; rewrite Hxr; by eexists. }
    destruct Hhd as [t Ht]. rewrite (skip_ws_head _ c t), Ht in * by done. rewrite Hp.
    by destruct c as [[] [] [] [] [] [] [] []].
  - change (print_json (JObj l)) with ("{" ++ join "," (print_member <$> l) ++ "}") in *.
    cbn [parse_value] in *. cbn [String.append skip_ws String.length] in *.
    change (is_ws "{") with false. cbn iota. change (Ascii.eqb "{" dquote) with false.
    change (Ascii.eqb "{" "[") with false. change (Ascii.eqb "{" "{") with true. cbn iota.
    rewrite str_app_assoc in *. cbn [String.append].
    rewrite str_length_app in Hn. cbn [String.length] in Hn.
    destruct (decide (l = [])) as [->|Hne]; [done|].
    assert (Hr : Forall (fun kv => lexical (fst kv) /\ reads_back (snd kv)) l).
    { clear -IH Hwf. induction IH as [|x l Hx Hl IHl]; [done|]. simpl in Hwf. destruct Hwf as [[Hk Hw] Hwf].
      constructor; auto. }
    pose proof (parse_members_print l n s Hne Hr ltac:(lia)) as Hp.
    destruct l as [|x l]; [done|].
    assert (Hhd : exists t, join "," (print_member <$> x :: l) ++ String "}" s = String dquote t).
    { rewrite fmap_cons. destruct (print_member <$> l); cbn [join]; by eexists. }
    destruct Hhd as [t Ht]. rewrite (skip_ws_head _ dquote t), Ht in * by done. by rewrite Hp.
Qed.

(** Reading a printed value gives it back, also when white space follows. *)
Lemma parse_print v s : wf_json v -> skip_ws s = "" -> parse_json (print_json v ++ s) = Some v.
Proof.
  intros Hv Hs. unfold parse_json, parse_first. rewrite parse_value_print; [|done|..].
  - cbn [mbind option_bind]. by rewrite Hs.
  - destruct s as [|c r]; [by left|right]. eexists _, _. split; [done|]. simpl in Hs.
    destruct (is_ws c); [by rewrite orb_true_r|done].
  - rewrite str_length_app. lia.
Qed.

(** A literal has no control character, so a printed value is one line. *)
Lemma scan_string_text s raw rest : scan_string s = Some (raw, rest) -> str_forall is_text raw = true.
Proof.
  revert raw rest. induction s as [s IH] using (induction_ltof1 _ String.length). unfold ltof in IH.
  intros raw rest. destruct s as [|c s1]; cbn [scan_string]; [done|].
  assert (Hpre : forall p t, String.length t < String.length (String c s1) -> str_forall is_text p = true ->
    prepend p (scan_string t) = Some (raw, rest) -> str_forall is_text raw = true).
  { intros p t Ht Hp H. unfold prepend in H. destruct (scan_string t) as [[r0 t0]|] eqn:Hs; [|done].
    cbn [mbind option_bind] in H. injection H as <- <-. rewrite str_forall_app, Hp. by eapply IH. }
  assert (Hhex : forall h, is_hex h = true -> is_text h = true)
    by (intros h; destruct h as [[] [] [] [] [] [] [] []]; try discriminate; done).
  assert (Hesc : forall e, is_Some (simple_escape e) -> is_text e = true)
    by (intros e; destruct e as [[] [] [] [] [] [] [] []]; try (intros [? [=]]); done).
  destruct (Ascii.eqb c dquote); [by intros [= <- <-]|]. destruct (Ascii.eqb c backslash).
  - destruct s1 as [|e s2]; [done|]. destruct (Ascii.eqb e "u").
    + destruct s2 as [|h1 [|h2 [|h3 [|h4 s3]]]]; try done. destruct (_ && _) eqn:Hh; [|done].
      apply Hpre; [simpl; lia|]. propify. simpl. by rewrite !Hhex.
    + destruct (simple_escape e) eqn:He; [|done]. apply Hpre; [simpl; lia|]. simpl. by rewrite Hesc by by eexists.
  - destruct (byte_val c <? 32)%Z eqn:Hc; [done|]. apply Hpre; [simpl; lia|]. simpl. unfold is_text.
    by assert ((32 <=? byte_val c)%Z = true) as -> by lia.
Qed.

Lemma lexical_text raw : lexical raw -> str_forall is_text raw = true.
Proof. intros H. eapply scan_string_text, (H ""). Qed.

Lemma join_forall p sep l :
  str_forall p sep = true -> Forall (fun s => str_forall p s = true) l -> str_forall p (join sep l) = true.
Proof.
  intros Hs. induction 1 as [|x l Hx Hl IH]; [done|]. destruct l as [|y l]; [done|].
  rewrite join_cons2, !str_forall_app, Hx, Hs. done.
Qed.

Lemma digit_text c : is_digit c = true -> is_text c = true.
Proof. destruct c as [[] [] [] [] [] [] [] []]; try discriminate; done. Qed.

Lemma print_text v : wf_json v -> str_forall is_text (print_json v) = true.
Proof.
  induction v as [|b|lit|raw|l IH|l IH] using json_nested_ind; intros Hwf.
  - done.
  - by destruct b.
  - destruct Hwf as [z ->]. cbn [print_json]. destruct (decide (z < 0)%Z).
    + rewrite itoa_neg by done. cbn [String.append str_forall]. change (is_text "-") with true. simpl.
      destruct (itoa_numeral (- z)) as [Hall _]; [lia|]. by eapply str_forall_mono; [apply digit_text|].
    + destruct (itoa_numeral z) as [Hall _]; [lia|]. by eapply str_forall_mono; [apply digit_text|].
  - cbn [print_json]. unfold quoted. cbn [str_forall]. rewrite str_forall_app, lexical_text by done. done.
  - cbn [print_json]. rewrite !str_forall_app, join_forall; [done|done|].
    apply Forall_fmap. clear -IH Hwf. induction IH as [|x l Hx Hl IHl]; [constructor|].
    simpl in Hwf. destruct Hwf. constructor; auto.
  - change (print_json (JObj l)) with ("{" ++ join "," (print_member <$> l) ++ "}").
    rewrite !str_forall_app, join_forall; [done|done|].
    apply Forall_fmap. clear -IH Hwf. induction IH as [|x l Hx Hl IHl]; [constructor|].
    simpl in Hwf. destruct Hwf as [[Hk Hv] Hwf]. constructor; [|auto]. unfold print_member, quoted, compose.
    rewrite !str_forall_app. cbn [str_forall]. rewrite str_forall_app, lexical_text by done.
    by rewrite Hx.
Qed.
