(* ===== verification/GoStruct.v ===== *)
(** * Structs in JSON

    The decoding of a JSON object into a Go struct, the members [json.Marshal] writes
    for its fields, and files with one object per line. *)

From S2P Require Import Prelude GoStrings GoStrconv GoRegexp GoTime GoJson.
Local Open Scope string_scope.

(** Package crypto/sha256: the hexadecimal digest of a text. *)
Class Digest := { sha256_hex : string -> string }.

(** ** Decoding *)

(** [foldName] against an ASCII name: letters without their case; two runes outside
    ASCII fold to "s" and "k". *)
Definition fold_rune (r : Z) : Z :=
  (if in_range 65 90 r then r + 32 else if r =? 383 then 115 else if r =? 8490 then 107 else r)%Z.
Definition same_key (name key : string) : bool :=
  bool_decide ((fold_rune <$> runes key) = (fold_rune <$> runes name)).

(** The fields of a struct: their names and how a value sets them.  An error of the
    decoder is [None]. *)
Definition fields_of (R : Type) : Type := list (string * (json -> R -> option R)).

Section structs.
Context {R : Type}.

(** An exact name is preferred to one that differs in case. *)
Definition find_field (fs : fields_of R) (key : string) : option (json -> R -> option R) :=
  match List.find (fun f => String.eqb (fst f) key) fs with
  | Some f => Some (snd f)
  | None => snd <$> List.find (fun f => same_key (fst f) key) fs
  end.

(** Members are decoded in their order, a later one over an earlier one; [strict] is
    [DisallowUnknownFields]. *)
Fixpoint decode_members (strict : bool) (fs : fields_of R) (l : list (string * json)) (r : R) : option R :=
  match l with
  | [] => Some r
  | (k, v) :: l' =>
      key ← unquote k;
      r' ← (match find_field fs key with
            | Some set => set v r
            | None => if strict then None else Some r
            end);
      decode_members strict fs l' r'
  end.

(** A null leaves the struct as it is. *)
Definition decode_struct (strict : bool) (fs : fields_of R) (v : json) (r : R) : option R :=
  match v with
  | JNull => Some r
  | JObj l => decode_members strict fs l r
  | _ => None
  end.

Definition set_string (f : string -> R -> R) (v : json) (r : R) : option R :=
  match v with
  | JNull => Some r
  | JStr raw => s ← unquote raw; Some (f s r)
  | _ => None
  end.

Definition set_bool (f : bool -> R -> R) (v : json) (r : R) : option R :=
  match v with JNull => Some r | JBool b => Some (f b r) | _ => None end.

(** [strconv.ParseInt] of the literal, within the bounds of the field's type. *)
Definition set_int (lo hi : Z) (f : Z -> R -> R) (v : json) (r : R) : option R :=
  match v with
  | JNull => Some r
  | JNum lit => z ← atoi lit; if ((lo <=? z) && (z <=? hi))%Z then Some (f z r) else None
  | _ => None
  end.

(** [Time.UnmarshalJSON] parses the text between the quotes as it stands. *)
Definition set_time (f : time -> R -> R) (v : json) (r : R) : option R :=
  match v with
  | JNull => Some r
  | JStr raw => t ← parse_rfc3339 raw; Some (f t r)
  | _ => None
  end.

(** A slice: elements beyond the old length start from the zero value. *)
Fixpoint decode_list {A} (zero : A) (dec : json -> A -> option A) (old : list A) (l : list json) : option (list A) :=
  match l with
  | [] => Some []
  | v :: l' =>
      a ← dec v (default zero (head old));
      rest ← decode_list zero dec (tail old) l';
      Some (a :: rest)
  end.

Definition set_list {A} (zero : A) (dec : json -> A -> option A) (get : R -> list A) (put : list A -> R -> R)
    (v : json) (r : R) : option R :=
  match v with
  | JNull => Some (put [] r)
  | JArr l => l' ← decode_list zero dec (get r) l; Some (put l' r)
  | _ => None
  end.

Lemma decode_members_app strict fs l1 l2 r :
  decode_members strict fs (l1 ++ l2)%list r = decode_members strict fs l1 r ≫= decode_members strict fs l2.
Proof.
  revert r; induction l1 as [|[k v] l1 IH]; intros r; simpl; [done|].
  destruct (unquote k); simpl; [|done]. destruct (match find_field _ _ with Some _ => _ | None => _ end); [apply IH|done].
Qed.
End structs.

(** A decoder: [json.Unmarshal], and [Decoder.Decode] with or without unknown fields. *)
Definition unmarshal {R} (fs : fields_of R) (zero : R) (s : string) : option R :=
  v ← parse_json s; decode_struct false fs v zero.
Definition decode_first {R} (strict : bool) (fs : fields_of R) (zero : R) (s : string) : option R :=
  '(v, _) ← parse_first s; decode_struct strict fs v zero.

(** Members as [json.Marshal] writes them; [omit_string] is a string with omitempty. *)
Definition str_member (k s : string) : list (string * json) := [(k, JStr (escape s))].
Definition omit_string (k s : string) : list (string * json) :=
  if String.eqb s "" then [] else str_member k s.
Definition time_member (k : string) (t : time) : list (string * json) := [(k, JStr (rfc3339 t))].
Definition int_member (k : string) (z : Z) : list (string * json) := [(k, JNum (itoa z))].
Definition arr_member (k : string) (l : list json) : list (string * json) :=
  match l with [] => [(k, JNull)] | _ => [(k, JArr l)] end.
Definition omit_false (k : string) (b : bool) : list (string * json) := if b then [(k, JBool true)] else [].

(** [Time.MarshalJSON] refuses years outside [0, 9999]. *)
Definition time_marshals (t : time) : bool :=
  ((0 <=? t_year t) && (t_year t <=? 9999) && (-1440 <? t_off t) && (t_off t <? 1440))%Z.

Lemma time_marshals_valid t : valid_time t -> time_marshals t = true.
Proof. unfold valid_time, time_marshals. intros ((? & ?) & _ & _ & _ & _ & _ & _ & (? & ?)). lia. Qed.

Section members.
Context {R : Type} (strict : bool) (fs : fields_of R).

Lemma decode_str_member k f s r :
  unquote k = Some k -> find_field fs k = Some (set_string f) -> valid_utf8 s = true ->
  decode_members strict fs (str_member k s) r = Some (f s r).
Proof. intros Hk Hf Hs. simpl. rewrite Hk. simpl. rewrite Hf. simpl. by rewrite unquote_escape. Qed.

Lemma decode_omit_string k f s r :
  unquote k = Some k -> find_field fs k = Some (set_string f) -> valid_utf8 s = true -> f "" r = r ->
  decode_members strict fs (omit_string k s) r = Some (f s r).
Proof.
  intros Hk Hf Hs H0. unfold omit_string. destruct (String.eqb_spec s "") as [->|]; [by simpl; rewrite H0|].
  by apply decode_str_member.
Qed.

Lemma decode_time_member k f t r :
  unquote k = Some k -> find_field fs k = Some (set_time f) -> valid_time t ->
  decode_members strict fs (time_member k t) r = Some (f t r).
Proof. intros Hk Hf Ht. simpl. rewrite Hk. simpl. rewrite Hf. simpl. by rewrite parse_print_time. Qed.

Lemma decode_int_member k lo hi f z r :
  unquote k = Some k -> find_field fs k = Some (set_int lo hi f) -> (lo <= z <= hi)%Z -> is_int64 z ->
  decode_members strict fs (int_member k z) r = Some (f z r).
Proof.
  intros Hk Hf Hz H64. simpl. rewrite Hk. simpl. rewrite Hf. simpl. rewrite atoi_itoa by done. simpl.
  by assert (((lo <=? z) && (z <=? hi))%Z = true) as -> by lia.
Qed.

(** A slice that is nil or not empty; a null leaves nil. *)
Lemma decode_arr_member {A} k zero dec get put (print : A -> json) l r :
  unquote k = Some k -> find_field fs k = Some (set_list zero dec get put) -> get r = [] ->
  Forall (fun a => dec (print a) zero = Some a) l ->
  decode_members strict fs (arr_member k (print <$> l)) r = Some (put l r).
Proof.
  intros Hk Hf Hg Hl. unfold arr_member. destruct l as [|a l]; simpl; rewrite Hk; simpl; rewrite Hf; [done|].
  unfold set_list. rewrite Hg.
  assert (Hd : decode_list zero dec [] (print <$> a :: l) = Some (a :: l)).
  { clear Hg. induction Hl as [|b l' Hb Hl IH]; [done|]. rewrite fmap_cons. cbn [decode_list head tail default].
    simpl. rewrite Hb. simpl. change (tail (@nil A)) with (@nil A) in *. by rewrite IH. }
  rewrite fmap_cons in Hd. unfold fmap in Hd. by rewrite Hd.
Qed.

Lemma decode_omit_false k f b r :
  unquote k = Some k -> find_field fs k = Some (set_bool f) -> f false r = r ->
  decode_members strict fs (omit_false k b) r = Some (f b r).
Proof. intros Hk Hf H0. destruct b; simpl; [|by rewrite H0]. rewrite Hk. simpl. by rewrite Hf. Qed.
End members.

(** ** Well-formedness of printed members *)

Definition wf_members (l : list (string * json)) : Prop :=
  Forall (fun kv => lexical (fst kv) /\ wf_json (snd kv)) l.

Lemma wf_obj l : wf_members l -> wf_json (JObj l).
Proof. induction 1 as [|x l Hx Hl IH]; [done|]. by split. Qed.

Lemma wf_arr l : Forall wf_json l -> wf_json (JArr l).
Proof. induction 1 as [|x l Hx Hl IH]; [done|]. by split. Qed.

Lemma wf_members_app l1 l2 : wf_members l1 -> wf_members l2 -> wf_members (l1 ++ l2)%list.
Proof. intros H1 H2. by apply Forall_app. Qed.

Definition plain_key (k : string) : bool :=
  str_forall (fun c => is_alnum c || Ascii.eqb c "_") k.

Lemma plain_key_lexical k : plain_key k = true -> lexical k.
Proof.
  intros Hk. rewrite <- (str_app_nil_r k). apply lexical_plain; [|apply lexical_nil].
  eapply str_forall_mono; [|done]. intros c. destruct c as [[] [] [] [] [] [] [] []]; try discriminate; done.
Qed.

Lemma time_lexical t : lexical (rfc3339 t).
Proof.
  rewrite <- (str_app_nil_r (rfc3339 t)). apply lexical_plain; [|apply lexical_nil].
  eapply str_forall_mono; [|apply rfc3339_bytes].
  intros c. destruct c as [[] [] [] [] [] [] [] []]; try discriminate; done.
Qed.

Lemma wf_str_member k s : plain_key k = true -> wf_members (str_member k s).
Proof. intros Hk. repeat constructor; [by apply plain_key_lexical|apply lexical_escape]. Qed.
Lemma wf_omit_string k s : plain_key k = true -> wf_members (omit_string k s).
Proof. intros Hk. unfold omit_string. destruct (String.eqb s ""); [constructor|by apply wf_str_member]. Qed.
Lemma wf_time_member k t : plain_key k = true -> wf_members (time_member k t).
Proof. intros Hk. repeat constructor; [by apply plain_key_lexical|apply time_lexical]. Qed.
Lemma wf_int_member k z : plain_key k = true -> wf_members (int_member k z).
Proof. intros Hk. repeat constructor; [by apply plain_key_lexical|]. simpl. eauto. Qed.
Lemma wf_arr_member k l : plain_key k = true -> Forall wf_json l -> wf_members (arr_member k l).
Proof.
  intros Hk Hl. unfold wf_members. destruct l as [|x l]; apply Forall_singleton; (split; [by apply plain_key_lexical|]); [done|].
  by apply (wf_arr (x :: l)).
Qed.
Lemma wf_omit_false k b : plain_key k = true -> wf_members (omit_false k b).
Proof. intros Hk. destruct b; repeat constructor. by apply plain_key_lexical. Qed.

#[export] Hint Resolve wf_members_app wf_str_member wf_omit_string wf_time_member wf_int_member wf_omit_false
  wf_obj wf_arr : opendeploy.

(** ** Lines of JSON

    Files to which one object is appended per line. *)

Section jsonl.
Context {R : Type} (blank : string -> bool) (read : string -> option R).

(** The lines of the file, blank ones skipped; a line that does not decode is an error
    with its number. *)
Fixpoint read_lines (n : nat) (l : list string) : result nat (list R) :=
  match l with
  | [] => Ok []
  | x :: l' =>
      if blank x then read_lines (S n) l'
      else match read x with
           | None => Err n
           | Some r => match read_lines (S n) l' with Ok rs => Ok (r :: rs) | Err e => Err e end
           end
  end.

Definition newline : ascii := ascii_of_nat 10.

Definition read_jsonl (data : string) : result nat (list R) :=
  read_lines 1 (split newline (trim_space data)).

(** The line an append writes. *)
Definition line_of (x : string) : string := x ++ String newline "".

(** A line an object prints as. *)
Definition object_line (x : string) : Prop :=
  str_forall is_text x = true /\ (exists r, x = String "{" r) /\ exists r, x = r ++ "}".

Lemma read_lines_map (rs : list R) (p : R -> string) n :
  Forall (fun r => blank (p r) = false /\ read (p r) = Some r) rs ->
  read_lines n (p <$> rs) = Ok rs.
Proof.
  intros H. revert n. induction H as [|r rs [Hb Hr] _ IH]; intros n; [done|]. cbn [fmap list_fmap read_lines].
  by rewrite Hb, Hr, IH.
Qed.

Lemma concat_lines xs : xs <> [] ->
  String.concat "" (line_of <$> xs) = join (String newline "") xs ++ String newline "".
Proof.
  induction xs as [|x xs IH]; [done|]. intros _. destruct xs as [|y xs]; [done|].
  rewrite join_cons2, !str_app_assoc. cbn [String.append]. rewrite <- IH by done.
  rewrite !fmap_cons. unfold line_of at 1. cbn [String.concat String.append]. 
  change (String.concat "" (line_of y :: (line_of <$> xs))) with
    (match line_of <$> xs with [] => line_of y | _ => line_of y ++ "" ++ String.concat "" (line_of <$> xs) end).
  by rewrite str_app_assoc.
Qed.
End jsonl.

Lemma trim_left_brace s : trim_left (String "{" s) = String "{" s.
Proof. by destruct s as [|b [|c s]]. Qed.

Lemma trim_right_brace s : trim_right (s ++ "}" ++ String newline "") = s ++ "}".
Proof.
  unfold trim_right. rewrite <- str_app_assoc, !str_rev_app. cbn [str_rev String.append].
  set (t := str_rev s).
  assert (Ht : trim_leading (fun b a => space2 a b) (fun c b a => space3 a b c) (String newline (String "}" t))
    = String "}" t).
  { cbn [trim_leading]. change (space1 newline) with true. change (space1 "}") with false. cbn iota.
    destruct t as [|a [|b t']]; [done| |]; cbn [trim_leading].
    - destruct (space2 a "}") eqn:H; [|done]. unfold space2 in H. by rewrite andb_false_r in H.
    - destruct (space2 a "}") eqn:H; [unfold space2 in H; by rewrite andb_false_r in H|].
      destruct (space3 b a "}") eqn:H3; [|done]. exfalso. unfold space3 in H3.
      change (byte_val "}") with 125%Z in H3. change (in_range 128 138 125) with false in H3.
      repeat (rewrite ?andb_false_r, ?orb_false_r in H3; simpl in H3). done. }
  rewrite Ht. cbn [str_rev]. subst t. by rewrite str_rev_involutive.
Qed.

Lemma text_no_newline s : str_forall is_text s = true -> no_byte newline s.
Proof.
  intros H. unfold no_byte. eapply str_forall_mono; [|done]. intros c Hc.
  destruct (Ascii.eqb_spec newline c) as [<-|]; done.
Qed.

Lemma object_line_trim x : object_line x -> trim_space x <> "".
Proof.
  intros (_ & [r ->] & [r' Hr]). unfold trim_space. rewrite trim_left_brace, Hr. unfold trim_right.
  rewrite str_rev_app. cbn [str_rev String.append]. intros H.
  destruct (str_rev r') as [|a [|b t]]; [done| |]; cbn [trim_leading] in H; change (space1 "}") with false in H; cbn iota in H.
  - destruct (space2 a "}") eqn:H2; [unfold space2 in H2; by rewrite andb_false_r in H2|].
    cbn [str_rev String.append] in H. done.
  - destruct (space2 a "}") eqn:H2; [unfold space2 in H2; by rewrite andb_false_r in H2|].
    destruct (space3 b a "}") eqn:H3.
    + exfalso. unfold space3 in H3.
      change (byte_val "}") with 125%Z in H3. change (in_range 128 138 125) with false in H3.
      repeat (rewrite ?andb_false_r, ?orb_false_r in H3; simpl in H3). done.
    + change (str_rev (String "}" (String a (String b t)))) with ((str_rev (String a (String b t))) ++ "}") in H.
      by destruct (str_rev (String a (String b t))).
Qed.

(** The file to which the lines of [rs] were appended. *)
Definition lines_text {R} (p : R -> string) (rs : list R) : string := String.concat "" (line_of <$> (p <$> rs)).

Lemma lines_text_snoc {R} (p : R -> string) rs r : lines_text p (rs ++ [r])%list = lines_text p rs ++ line_of (p r).
Proof.
  unfold lines_text. rewrite !fmap_app. change (line_of <$> (p <$> [r])) with [line_of (p r)]. apply concat_snoc.
Qed.

(** Reading a file of printed objects gives the objects, in the order they were
    appended. *)
Lemma read_jsonl_lines {R} (blank : string -> bool) (read : string -> option R) (p : R -> string) rs :
  blank "" = true ->
  Forall (fun r => object_line (p r) /\ blank (p r) = false /\ read (p r) = Some r) rs ->
  read_jsonl blank read (String.concat "" (line_of <$> (p <$> rs))) = Ok rs.
Proof.
  intros Hblank H. destruct (decide (rs = [])) as [->|Hne].
  { unfold read_jsonl. change (split newline (trim_space (String.concat "" (line_of <$> (p <$> [])))))
      with [""]. cbn [read_lines]. by rewrite Hblank. }
  assert (Hobj : Forall object_line (p <$> rs)) by (apply Forall_fmap; eapply Forall_impl; [done|]; naive_solver).
  assert (Hne' : p <$> rs <> []) by by destruct rs.
  unfold read_jsonl. rewrite concat_lines by done.
  assert (Htrim : trim_space (join (String newline "") (p <$> rs) ++ String newline "") = join (String newline "") (p <$> rs)).
  { assert (Hends : exists a b, join (String newline "") (p <$> rs) = String "{" a /\
      join (String newline "") (p <$> rs) = b ++ "}").
    { clear -Hobj Hne'. induction Hobj as [|x l (_ & [r ->] & [r' Hr']) Hl IH]; [done|].
      destruct l as [|y l]; [cbn [join]; eauto|]. destruct (IH ltac:(done)) as (a & b & _ & Hb).
      rewrite join_cons2, Hb. cbn [String.append]. eexists _, _. split; [done|].
      instantiate (1 := String "{" (r ++ String newline b)). cbn [String.append]. by rewrite !str_app_assoc. }
    destruct Hends as (a & b & Ha & Hb). unfold trim_space. rewrite Ha at 1. cbn [String.append].
    rewrite trim_left_brace. change (String "{" (a ++ String newline "")) with (String "{" a ++ String newline "").
    rewrite <- Ha, Hb, str_app_assoc. apply trim_right_brace. }
  rewrite Htrim, split_join; [|done|].
  - apply read_lines_map. eapply Forall_impl; [done|]. naive_solver.
  - eapply Forall_impl; [done|]. intros x (Hx & _). by apply text_no_newline.
Qed.

Lemma print_obj_line l : wf_members l -> object_line (print_json (JObj l)).
Proof.
  intros Hl. split; [by apply print_text, wf_obj|].
  change (print_json (JObj l)) with ("{" ++ join "," (print_member <$> l) ++ "}"). split; [by eexists|].
  exists ("{" ++ join "," (print_member <$> l)). by rewrite str_app_assoc.
Qed.

Lemma unmarshal_print {R} (fs : fields_of R) zero l s r :
  wf_members l -> skip_ws s = "" -> decode_members false fs l zero = Some r ->
  unmarshal fs zero (print_json (JObj l) ++ s) = Some r.
Proof. intros Hl Hs Hd. unfold unmarshal. rewrite parse_print by auto with opendeploy. done. Qed.

Lemma decode_first_print {R} strict (fs : fields_of R) zero l s r :
  wf_members l -> delimited s -> decode_members strict fs l zero = Some r ->
  decode_first strict fs zero (print_json (JObj l) ++ s) = Some r.
Proof.
  intros Hl Hs Hd. unfold decode_first, parse_first. rewrite parse_value_print; [done|by apply wf_obj|done|].
  rewrite str_length_app. lia.
Qed.

(** Decode printed members one after the other. *)
Ltac decode_step :=
  rewrite decode_members_app;
  first [ erewrite decode_str_member by first [reflexivity | eassumption]
        | erewrite decode_omit_string by first [reflexivity | eassumption]
        | erewrite decode_time_member by first [reflexivity | eassumption]
        | erewrite decode_omit_false by first [reflexivity | eassumption] ];
  cbn [mbind option_bind].
