(* ===== verification/GoBase64.v ===== *)
(** * Bytes, lists and numbers in JSON

    What encoding/json writes for byte slices (package encoding/base64, the standard
    alphabet with padding), for slices of strings and for booleans, and how it reads them
    back into the fields of a struct. *)

From S2P Require Import Prelude GoStrings GoStrconv GoRegexp GoTime GoJson GoStruct.
Local Open Scope string_scope.

(** ** Base64 *)

Definition b64_alphabet : string := "ABCDEFGHIJKLMNOPQRSTUVWXYZabcdefghijklmnopqrstuvwxyz0123456789+/".

Definition b64_char (i : Z) : ascii := default "A"%char (String.get (Z.to_nat i) b64_alphabet).

Fixpoint index_of (c : ascii) (s : string) (i : Z) : option Z :=
  match s with
  | "" => None
  | String a s' => if Ascii.eqb a c then Some i else index_of c s' (i + 1)
  end.
Definition b64_val (c : ascii) : option Z := index_of c b64_alphabet 0.

Definition pad_byte : ascii := "="%char.

Fixpoint b64_encode (s : string) : string :=
  match s with
  | String a (String b (String c s')) =>
      let v := (byte_val a * 65536 + byte_val b * 256 + byte_val c)%Z in
      String (b64_char (v / 262144)) (String (b64_char (v / 4096 mod 64)) (String (b64_char (v / 64 mod 64))
        (String (b64_char (v mod 64)) (b64_encode s'))))
  | String a (String b "") =>
      let v := (byte_val a * 65536 + byte_val b * 256)%Z in
      String (b64_char (v / 262144)) (String (b64_char (v / 4096 mod 64)) (String (b64_char (v / 64 mod 64)) "="))
  | String a "" =>
      let v := (byte_val a * 65536)%Z in
      String (b64_char (v / 262144)) (String (b64_char (v / 4096 mod 64)) "==")
  | "" => ""
  end.

(** Line breaks in the text are skipped. *)
Fixpoint drop_breaks (s : string) : string :=
  match s with
  | "" => ""
  | String a s' => if (byte_val a =? 10)%Z || (byte_val a =? 13)%Z then drop_breaks s' else String a (drop_breaks s')
  end.

Fixpoint b64_quads (s : string) : option string :=
  match s with
  | "" => Some ""
  | String a (String b (String c (String d s'))) =>
      x ← b64_val a; y ← b64_val b;
      if Ascii.eqb c pad_byte then
        if Ascii.eqb d pad_byte && String.eqb s' "" then Some (String (byte_of ((x * 64 + y) / 16)) "") else None
      else
        z ← b64_val c;
        if Ascii.eqb d pad_byte then
          if String.eqb s' "" then
            let v := (x * 4096 + y * 64 + z)%Z in
            Some (String (byte_of (v / 1024)) (String (byte_of (v / 4 mod 256)) ""))
          else None
        else
          w ← b64_val d;
          rest ← b64_quads s';
          let v := (x * 262144 + y * 4096 + z * 64 + w)%Z in
          Some (String (byte_of (v / 65536)) (String (byte_of (v / 256 mod 256)) (String (byte_of (v mod 256)) rest)))
  | _ => None
  end.

Definition b64_decode (s : string) : option string := b64_quads (drop_breaks s).


Lemma b64_char_ok i : (0 <= i < 64)%Z ->
  b64_val (b64_char i) = Some i /\ Ascii.eqb (b64_char i) pad_byte = false /\ (is_alnum (b64_char i) || contains_byte "+/" (b64_char i)) = true.
Proof.
  intros Hi.
  assert (H : forallb (fun n => let c := b64_char (Z.of_nat n) in
    bool_decide (b64_val c = Some (Z.of_nat n)) && negb (Ascii.eqb c pad_byte) && (is_alnum c || contains_byte "+/" c)) (seq 0 64) = true)
    by (vm_compute; reflexivity).
  rewrite forallb_forall in H. specialize (H (Z.to_nat i)). rewrite Z2Nat.id in H by lia.
  specialize (H ltac:(apply in_seq; lia)). cbv zeta in H. apply andb_true_iff in H as [[H1 H2]%andb_true_iff H3].
  apply bool_decide_eq_true in H1. apply negb_true_iff in H2. done.
Qed.

Definition b64_byte (c : ascii) : bool := is_alnum c || contains_byte "+/=" c.

Lemma b64_char_byte i : (0 <= i < 64)%Z -> b64_byte (b64_char i) = true.
Proof.
  intros Hi. destruct (b64_char_ok i Hi) as (_ & _ & H). unfold b64_byte. revert H.
  generalize (b64_char i). intros c. destruct c as [[] [] [] [] [] [] [] []]; try discriminate; done.
Qed.

(** Strings three bytes at a time. *)
Lemma string_triples (P : string -> Prop) :
  P "" -> (forall a, P (String a "")) -> (forall a b, P (String a (String b ""))) ->
  (forall a b c s, P s -> P (String a (String b (String c s)))) -> forall s, P s.
Proof.
  intros H0 H1 H2 H3 s. induction s as [s IH] using (induction_ltof1 _ String.length). unfold ltof in IH.
  destruct s as [|a [|b [|c s]]]; [done..|]. apply H3, IH. cbn. lia.
Qed.

Lemma byte_val_bounds' c : (0 <= byte_val c < 256)%Z.
Proof. apply byte_val_bounds. Qed.

Ltac byte_bounds :=
  repeat match goal with
  | c : ascii |- _ => lazymatch goal with H : (0 <= byte_val c < 256)%Z |- _ => fail | _ => pose proof (byte_val_bounds' c) end
  end.
Ltac div_lia := byte_bounds; Z.to_euclidean_division_equations; lia.

Lemma b64_encode_bytes s : str_forall b64_byte (b64_encode s) = true.
Proof.
  induction s as [|a|a b|a b c s IH] using string_triples; [done|..]; cbn [b64_encode str_forall];
    rewrite !b64_char_byte by div_lia; [done..|]. by rewrite IH.
Qed.

Lemma drop_breaks_id s : str_forall b64_byte s = true -> drop_breaks s = s.
Proof.
  induction s as [|a s IH]; [done|]. cbn [str_forall drop_breaks]. intros [Ha Hs]%andb_true_iff.
  assert (((byte_val a =? 10)%Z || (byte_val a =? 13)%Z) = false) as ->; [|by rewrite IH].
  destruct a as [[] [] [] [] [] [] [] []]; try discriminate; done.
Qed.

Lemma b64_round_trip s : b64_decode (b64_encode s) = Some s.
Proof.
  unfold b64_decode. rewrite (drop_breaks_id _ (b64_encode_bytes s)).
  induction s as [|a|a b|a b c s IH] using string_triples; [done|..]; cbn [b64_encode b64_quads].
  - set (v := (byte_val a * 65536)%Z).
    destruct (b64_char_ok (v / 262144)) as (-> & _ & _); [unfold v; div_lia|].
    destruct (b64_char_ok (v / 4096 mod 64)) as (-> & _ & _); [unfold v; div_lia|]. cbn [mbind option_bind Ascii.eqb Bool.eqb andb].
    change (Ascii.eqb "=" pad_byte) with true. change (String.eqb "" "") with true. cbn [andb]. repeat f_equal.
    rewrite <- (byte_of_val a). f_equal. unfold v. div_lia.
  - set (v := (byte_val a * 65536 + byte_val b * 256)%Z).
    destruct (b64_char_ok (v / 262144)) as (-> & _ & _); [unfold v; div_lia|].
    destruct (b64_char_ok (v / 4096 mod 64)) as (-> & _ & _); [unfold v; div_lia|].
    destruct (b64_char_ok (v / 64 mod 64)) as (Hz & Hp & _); [unfold v; div_lia|]. rewrite Hp, Hz. cbn [mbind option_bind].
    change (Ascii.eqb "=" pad_byte) with true. change (String.eqb "" "") with true. repeat f_equal.
    + rewrite <- (byte_of_val a). f_equal. unfold v. div_lia.
    + rewrite <- (byte_of_val b). f_equal. unfold v. div_lia.
  - set (v := (byte_val a * 65536 + byte_val b * 256 + byte_val c)%Z).
    destruct (b64_char_ok (v / 262144)) as (-> & _ & _); [unfold v; div_lia|].
    destruct (b64_char_ok (v / 4096 mod 64)) as (-> & _ & _); [unfold v; div_lia|].
    destruct (b64_char_ok (v / 64 mod 64)) as (Hz & Hp & _); [unfold v; div_lia|].
    destruct (b64_char_ok (v mod 64)) as (Hw & Hq & _); [unfold v; div_lia|].
    rewrite Hp, Hz, Hq, Hw, IH. cbn [mbind option_bind].
    assert (Hv : (v / 262144 * 262144 + v / 4096 mod 64 * 4096 + v / 64 mod 64 * 64 + v mod 64 = v)%Z) by (unfold v; div_lia).
    rewrite Hv. repeat f_equal.
    + rewrite <- (byte_of_val a). f_equal. unfold v. div_lia.
    + rewrite <- (byte_of_val b). f_equal. unfold v. div_lia.
    + rewrite <- (byte_of_val c). f_equal. unfold v. div_lia.
Qed.

(** ** Members and fields *)

Definition bytes_json (s : string) : json := JStr (b64_encode s).
Definition string_json (s : string) : json := JStr (escape s).
(** A nil slice is null; the model has no other empty slice. *)
Definition strings_json (l : list string) : json := match l with [] => JNull | _ => JArr (string_json <$> l) end.

Definition bytes_member (k s : string) : list (string * json) := [(k, bytes_json s)].
Definition strings_member (k : string) (l : list string) : list (string * json) := [(k, strings_json l)].
Definition bool_member (k : string) (b : bool) : list (string * json) := [(k, JBool b)].

Section fields.
Context {R : Type}.

Definition set_bytes (f : string -> R -> R) (v : json) (r : R) : option R :=
  match v with
  | JNull => Some (f "" r)
  | JStr raw => t ← unquote raw; s ← b64_decode t; Some (f s r)
  | _ => None
  end.

Definition string_value (v : json) (old : string) : option string := set_string (fun s _ => s) v old.

Definition set_strings (get : R -> list string) (put : list string -> R -> R) : json -> R -> option R :=
  set_list "" string_value get put.

Lemma b64_plain s : escape (b64_encode s) = b64_encode s /\ valid_utf8 (b64_encode s) = true.
Proof.
  pose proof (b64_encode_bytes s) as H. revert H. generalize (b64_encode s). intros t.
  induction t as [|c t IH]; [done|]. cbn [str_forall]. intros [Hc Ht]%andb_true_iff. destruct (IH Ht) as [IH1 IH2].
  assert (Hu : utf8_chunk (byte_val c) (String c "") /\ escape_chunk (Some (byte_val c), String c "") = String c "").
  { destruct c as [[] [] [] [] [] [] [] []]; try discriminate Hc; (split; [by constructor|done]). }
  destruct Hu as [Hu He]. split.
  - change (String c t) with (String c "" ++ t). rewrite (escape_cons _ _ _ Hu), He, IH1. done.
  - unfold valid_utf8 in *. change (String c t) with (String c "" ++ t). rewrite (chunks_cons _ _ _ Hu). cbn. exact IH2.
Qed.

Lemma unquote_b64 s : unquote (b64_encode s) = Some (b64_encode s).
Proof. destruct (b64_plain s) as [He Hv]. rewrite <- He at 1. by apply unquote_escape. Qed.

Lemma decode_bytes_member strict (fs : fields_of R) k f s r :
  unquote k = Some k -> find_field fs k = Some (set_bytes f) -> decode_members strict fs (bytes_member k s) r = Some (f s r).
Proof.
  intros Hk Hf. cbn [bytes_member decode_members]. rewrite Hk. cbn [mbind option_bind]. rewrite Hf. cbn [set_bytes bytes_json].
  rewrite unquote_b64. cbn [mbind option_bind]. by rewrite b64_round_trip.
Qed.

Lemma decode_bool_member strict (fs : fields_of R) k f b r :
  unquote k = Some k -> find_field fs k = Some (set_bool f) -> decode_members strict fs (bool_member k b) r = Some (f b r).
Proof. intros Hk Hf. cbn [bool_member decode_members]. rewrite Hk. cbn [mbind option_bind]. by rewrite Hf. Qed.

Lemma decode_string_list l : Forall (fun s => valid_utf8 s = true) l ->
  decode_list "" string_value [] (string_json <$> l) = Some l.
Proof.
  induction 1 as [|s l Hs Hl IH]; [done|]. rewrite fmap_cons. cbn [decode_list string_json string_value set_string].
  rewrite (unquote_escape s Hs). cbn [mbind option_bind tail]. by rewrite IH.
Qed.

Lemma decode_strings_member strict (fs : fields_of R) k get put l r :
  unquote k = Some k -> find_field fs k = Some (set_strings get put) -> get r = [] -> Forall (fun s => valid_utf8 s = true) l ->
  decode_members strict fs (strings_member k l) r = Some (put l r).
Proof.
  intros Hk Hf Hg Hl. cbn [strings_member decode_members]. rewrite Hk. cbn [mbind option_bind]. rewrite Hf.
  unfold set_strings, set_list, strings_json. destruct l as [|s l]; [done|]. rewrite Hg, (decode_string_list (s :: l)) by done. done.
Qed.
End fields.

Lemma wf_bytes_json s : wf_json (bytes_json s).
Proof. cbn. destruct (b64_plain s) as [<- _]. apply lexical_escape. Qed.
Lemma wf_strings_json l : wf_json (strings_json l).
Proof.
  destruct l as [|s l]; [done|]. apply (wf_arr (string_json <$> s :: l)). apply Forall_fmap, Forall_forall.
  intros x _. cbn. apply lexical_escape.
Qed.
Lemma wf_member k v : plain_key k = true -> wf_json v -> wf_members [(k, v)].
Proof. intros Hk Hv. apply Forall_singleton. split; [by apply plain_key_lexical|done]. Qed.
Lemma wf_bytes_member k s : plain_key k = true -> wf_members (bytes_member k s).
Proof. intros Hk. apply wf_member; [done|apply wf_bytes_json]. Qed.
Lemma wf_strings_member k l : plain_key k = true -> wf_members (strings_member k l).
Proof. intros Hk. apply wf_member; [done|apply wf_strings_json]. Qed.
Lemma wf_bool_member k b : plain_key k = true -> wf_members (bool_member k b).
Proof. intros Hk. by apply wf_member. Qed.
#[export] Hint Resolve wf_bytes_member wf_strings_member wf_bool_member : opendeploy.
