(* ===== verification/GoNet.v ===== *)
(** * Addresses

    Go's [net.ParseIP], [net.ParseCIDR] and [IP.To4], as far as the sources use them: the
    text forms of IPv4 and IPv6 addresses and of prefixes. *)

From S2P Require Import Prelude GoStrings GoStrconv GoJson.
Local Open Scope string_scope.

(** ** IPv4 *)

(** A field of a dotted address: up to 255, without a leading zero. *)
Definition parse_octet (s : string) : option Z :=
  if String.eqb s "" || negb (str_forall is_digit s) || (has_prefix s "0" && negb (String.eqb s "0")) then None
  else let z := digits_val 0 s in if (z <=? 255)%Z then Some z else None.

Definition parse_ipv4 (s : string) : option (list Z) :=
  match split "." s with
  | [a; b; c; d] => a ← parse_octet a; b ← parse_octet b; c ← parse_octet c; d ← parse_octet d; Some [a; b; c; d]
  | _ => None
  end.

(** ** IPv6 *)

(** The hexadecimal digits a group begins with, and the rest; a group of more than four
    is refused. *)
Fixpoint hex_group (s : string) (n : nat) (acc : Z) : option (nat * Z * string) :=
  match s with
  | "" => Some (n, acc, "")
  | String c s' =>
      match hex_val c with
      | Some d => if (3 <? n)%nat then None else hex_group s' (S n) (acc * 16 + d)%Z
      | None => Some (n, acc, s)
      end
  end.

(** The loop: [bytes] are the bytes so far, [ellipsis] where "::" was.  Every turn adds two
    or four bytes, so eight turns are enough; [None] is a syntax error. *)
Fixpoint ipv6_loop (fuel : nat) (s : string) (bytes : list Z) (ellipsis : option nat) : option (list Z * option nat * string) :=
  match fuel with
  | 0 => Some (bytes, ellipsis, s)
  | S fuel =>
      match hex_group s 0 0 with
      | None | Some (0, _, _) => None
      | Some (_, acc, rest) =>
          if has_prefix rest "." then
            if bool_decide (ellipsis = None) && negb (length bytes =? 12)%nat then None
            else if (16 <? length bytes + 4)%nat then None
            else four ← parse_ipv4 s; Some ((bytes ++ four)%list, ellipsis, "")
          else
            let bytes := (bytes ++ [Z.shiftr acc 8; Z.land acc 255])%list in
            match rest with
            | "" => Some (bytes, ellipsis, "")
            | String c s' =>
                if negb (Ascii.eqb c ":") || String.eqb s' "" then None
                else match s' with
                | String ":" s'' =>
                    match ellipsis with
                    | Some _ => None
                    | None =>
                        if String.eqb s'' "" then Some (bytes, Some (length bytes), "")
                        else ipv6_loop fuel s'' bytes (Some (length bytes))
                    end
                | _ => ipv6_loop fuel s' bytes ellipsis
                end
            end
      end
  end.

Definition expand_ellipsis (bytes : list Z) (ellipsis : option nat) : option (list Z) :=
  match ellipsis with
  | None => if (length bytes =? 16)%nat then Some bytes else None
  | Some e =>
      if (length bytes <? 16)%nat
      then Some (take e bytes ++ replicate (16 - length bytes) 0%Z ++ drop e bytes)%list
      else None
  end.

Definition parse_ipv6 (s : string) : option (list Z) :=
  let '(s, ellipsis) := match s with String ":" (String ":" s') => (s', Some 0) | _ => (s, None) end in
  if bool_decide (ellipsis = Some 0) && String.eqb s "" then Some (replicate 16 0%Z)
  else match ipv6_loop 8 s [] ellipsis with
  | Some (bytes, ellipsis, "") => expand_ellipsis bytes ellipsis
  | _ => None
  end.

(** ** Addresses and prefixes *)

(** [netip.ParseAddr], for addresses without a zone: the form is decided by the first point
    or colon. *)
Fixpoint first_mark (s : string) : option ascii :=
  match s with
  | "" => None
  | String c s' => if Ascii.eqb c "." || Ascii.eqb c ":" || Ascii.eqb c "%" then Some c else first_mark s'
  end.

Definition parse_addr (s : string) : option (list Z) :=
  match first_mark s with
  | Some "."%char => parse_ipv4 s
  | Some ":"%char => if contains_byte s "%" then None else parse_ipv6 s
  | _ => None
  end.

(** [net.ParseIP]: the 16-byte form. *)
Definition parse_ip (s : string) : option (list Z) :=
  (fun b => if (length b =? 4)%nat then ([0; 0; 0; 0; 0; 0; 0; 0; 0; 0; 255; 255] ++ b)%Z%list else b) <$> parse_addr s.

(** [ip.To4() != nil] *)
Definition is_ipv4 (ip : list Z) : bool :=
  (length ip =? 16)%nat && bool_decide (take 12 ip = [0; 0; 0; 0; 0; 0; 0; 0; 0; 0; 255; 255]%Z).

(** [net.ParseCIDR] succeeds. *)
Definition parse_cidr (s : string) : bool :=
  match cut "/" s with
  | (addr, Some mask) =>
      match parse_addr addr with
      | Some b =>
          negb (String.eqb mask "") && str_forall is_digit mask
          && (digits_val 0 mask <=? 8 * Z.of_nat (length b))%Z
      | None => false
      end
  | (_, None) => false
  end.

Example ip_1 : is_ipv4 <$> parse_ip "10.0.0.1" = Some true. Proof. reflexivity. Qed.
Example ip_2 : is_ipv4 <$> parse_ip "2001:db8::1" = Some false. Proof. reflexivity. Qed.
Example ip_3 : is_ipv4 <$> parse_ip "::ffff:10.0.0.1" = Some true. Proof. reflexivity. Qed.
Example ip_4 : parse_ip "1:2:3:4:5:6:7::" = Some [0;1;0;2;0;3;0;4;0;5;0;6;0;7;0;0]%Z. Proof. reflexivity. Qed.
Example ip_5 : (parse_ip "01.2.3.4", parse_ip "1:2:3:4:5:6:7:8:9", parse_ip "1::2::3", parse_ip "12345::") = (None, None, None, None).
Proof. reflexivity. Qed.
Example cidr_1 : parse_cidr "10.0.0.0/8" && parse_cidr "2001:db8::/32" && negb (parse_cidr "10.0.0.0/33") = true.
Proof. reflexivity. Qed.

(** ** Printing *)

(** A group in hexadecimal, without leading zeros. *)
Fixpoint hex_group_text (fuel : nat) (z : Z) : string :=
  match fuel with
  | 0 => ""
  | S fuel => (if (z / 16 =? 0)%Z then "" else hex_group_text fuel (z / 16)) ++ String (hex_digit (z mod 16)) ""
  end.

Fixpoint ip_groups (bytes : list Z) : list Z :=
  match bytes with a :: b :: rest => (a * 256 + b)%Z :: ip_groups rest | _ => [] end.

Fixpoint zeros (l : list Z) : nat :=
  match l with z :: l' => if (z =? 0)%Z then S (zeros l') else 0 | [] => 0 end.

(** The first of the longest runs of at least two zero groups: where it starts and its length. *)
Fixpoint zero_run (i : nat) (groups : list Z) (best : nat * nat) : nat * nat :=
  match groups with
  | [] => best
  | _ :: rest =>
      let n := zeros groups in
      zero_run (S i) rest (if (2 <=? n)%nat && (snd best <? n)%nat then (i, n) else best)
  end.

(** [net.IP.String] of a 16-byte address. *)
Definition ip_string (ip : list Z) : string :=
  if is_ipv4 ip then join "." (itoa <$> drop 12 ip) else
  let groups := ip_groups ip in
  let texts l := join ":" (hex_group_text 4 <$> l) in
  match zero_run 0 groups (0, 0) with
  | (_, 0) => texts groups
  | (start, n) => texts (take start groups) ++ "::" ++ texts (drop (start + n) groups)
  end.

Example ip_text_1 : ip_string <$> parse_ip "2001:DB8:0:0:1:0:0:1" = Some "2001:db8::1:0:0:1". Proof. reflexivity. Qed.
Example ip_text_2 : ip_string <$> parse_ip "::ffff:10.0.0.1" = Some "10.0.0.1". Proof. reflexivity. Qed.
Example ip_text_3 : ip_string <$> parse_ip "::" = Some "::". Proof. reflexivity. Qed.
