(* ===== verification/Effects.v ===== *)
(** * Effects

    Code that calls the operating system, a database or another process is a
    [prog]: a tree whose nodes are the calls, in the order the source makes
    them, and whose branches are the answers.  A statement about all branches
    therefore holds for every behaviour of the callee.  [run] executes a program
    against a handler, which is how a callee that is modelled is plugged in. *)

From S2P Require Import Prelude.

Inductive prog (E : Set -> Set) (A : Type) : Type :=
| Ret (a : A)
| Call {X : Set} (e : E X) (k : X -> prog E A).
Arguments Ret {E A} _.
Arguments Call {E A X} _ _.

(** One call with the answer it got. *)
Inductive action (E : Set -> Set) : Type :=
| Act {X : Set} (e : E X) (x : X).
Arguments Act {E X} _ _.

Section effects.
Context {E : Set -> Set}.

Fixpoint bind {A B} (p : prog E A) (f : A -> prog E B) : prog E B :=
  match p with
  | Ret a => f a
  | Call e k => Call e (fun x => bind (k x) f)
  end.

Definition call {X} (e : E X) : prog E X := Call e Ret.

(** [if err != nil { return err }] after a call that may fail. *)
Definition bind_err {Er A B} (p : prog E (result Er A)) (f : A -> prog E (result Er B)) :
    prog E (result Er B) :=
  bind p (fun r => match r with Ok a => f a | Err e => Ret (Err e) end).

(** The same, when the error is wrapped before it is returned. *)
Definition bind_wrap {Er Fr A B} (w : Er -> Fr) (p : prog E (result Er A))
    (f : A -> prog E (result Fr B)) : prog E (result Fr B) :=
  bind p (fun r => match r with Ok a => f a | Err e => Ret (Err (w e)) end).

(** ** Execution *)

Fixpoint run {A W} (h : forall X, E X -> W -> X * W) (p : prog E A) (w : W) : A * W :=
  match p with
  | Ret a => (a, w)
  | Call e k => let '(x, w') := h _ e w in run h (k x) w'
  end.

(** [exec p tr a]: the calls [tr], with their answers, lead [p] to return [a]. *)
Fixpoint exec {A} (p : prog E A) (tr : list (action E)) (a : A) : Prop :=
  match p with
  | Ret b => tr = [] /\ a = b
  | @Call _ _ X e k => exists (x : X) tr', tr = Act e x :: tr' /\ exec (k x) tr' a
  end.

(** ** Runs against a callee with a state

    [sem e s x s']: in state [s] the call [e] may answer [x] and leave [s'].
    [runs p s a s']: [p] started in [s] may return [a] and leave [s']. *)

Section relational.
Context {S : Type} (sem : forall X, E X -> S -> X -> S -> Prop).

Fixpoint runs {A} (p : prog E A) (s : S) (a : A) (s' : S) : Prop :=
  match p with
  | Ret b => a = b /\ s' = s
  | @Call _ _ X e k => exists (x : X) s1, sem X e s x s1 /\ runs (k x) s1 a s'
  end.

Lemma runs_bind {A B} (p : prog E A) (f : A -> prog E B) s b s' :
  runs (bind p f) s b s' <-> exists a s1, runs p s a s1 /\ runs (f a) s1 b s'.
Proof.
  revert s; induction p as [a|X e k IH]; intros s; simpl.
  - split; [by eauto|]. by intros (? & ? & [-> ->] & ?).
  - split.
    + intros (x & s1 & He & (a & s2 & Hk & Hf)%IH). eauto 8.
    + intros (a & s2 & (x & s1 & He & Hk) & Hf). exists x, s1. split; [done|]. apply IH. eauto.
Qed.

Lemma runs_call {X} (c : E X) s x s' : runs (call c) s x s' <-> sem X c s x s'.
Proof. split; [by intros (? & ? & ? & -> & ->)|]. intros Hs. by exists x, s'. Qed.

Lemma runs_try {Er A B} (p : prog E (result Er A)) (f : A -> prog E (result Er B)) s b s' :
  runs (bind_err p f) s b s' <->
  (exists a s1, runs p s (Ok a) s1 /\ runs (f a) s1 b s') \/ (exists err, runs p s (Err err) s' /\ b = Err err).
Proof.
  unfold bind_err. rewrite runs_bind. split.
  - intros ([a|err] & s1 & Hp & Hf); [eauto|]. destruct Hf as [-> ->]. eauto.
  - intros [(a & s1 & Hp & Hf)|(err & Hp & ->)]; [by exists (Ok a), s1|]. by exists (Err err), s'.
Qed.

Lemma runs_wrap {Er Fr A B} (w : Er -> Fr) (p : prog E (result Er A)) (f : A -> prog E (result Fr B)) s b s' :
  runs (bind_wrap w p f) s b s' <->
  (exists a s1, runs p s (Ok a) s1 /\ runs (f a) s1 b s') \/ (exists err, runs p s (Err err) s' /\ b = Err (w err)).
Proof.
  unfold bind_wrap. rewrite runs_bind. split.
  - intros ([a|err] & s1 & Hp & Hf); [eauto|]. destruct Hf as [-> ->]. eauto.
  - intros [(a & s1 & Hp & Hf)|(err & Hp & ->)]; [by exists (Ok a), s1|]. by exists (Err err), s'.
Qed.

(** The weakest precondition: whatever the calls answer, [Q] holds at the end. *)
Fixpoint wp {A} (Q : A -> S -> Prop) (p : prog E A) (s : S) : Prop :=
  match p with
  | Ret a => Q a s
  | @Call _ _ X e k => forall (x : X) s1, sem X e s x s1 -> wp Q (k x) s1
  end.

Lemma wp_runs {A} (Q : A -> S -> Prop) (p : prog E A) s :
  wp Q p s <-> forall a s', runs p s a s' -> Q a s'.
Proof.
  revert s; induction p as [b|X e k IH]; intros s; simpl.
  - split; [by intros HQ a s' [-> ->]|]. intros HQ. by apply HQ.
  - split.
    + intros Hw a s' (x & s1 & He & Hk). by apply (IH x s1); [apply Hw|].
    + intros HQ x s1 He. apply IH. intros a s' Hk. eauto.
Qed.

Lemma wp_bind {A B} (Q : B -> S -> Prop) (p : prog E A) (f : A -> prog E B) s :
  wp (fun a s1 => wp Q (f a) s1) p s -> wp Q (bind p f) s.
Proof. revert s; induction p as [a|X e k IH]; intros s; simpl; [done|]. auto. Qed.

Lemma wp_mono {A} (Q Q' : A -> S -> Prop) (p : prog E A) s :
  (forall a s, Q a s -> Q' a s) -> wp Q p s -> wp Q' p s.
Proof. intros HQ. revert s; induction p as [a|X e k IH]; intros s; simpl; auto. Qed.

(** Two programs whose calls interleave. *)
Inductive par {A B} : prog E A -> prog E B -> S -> A -> B -> S -> Prop :=
| par_done a b s : par (Ret a) (Ret b) s a b s
| par_left X (e : E X) k q s x s1 a b s' :
    sem X e s x s1 -> par (k x) q s1 a b s' -> par (Call e k) q s a b s'
| par_right X (e : E X) p k s x s1 a b s' :
    sem X e s x s1 -> par p (k x) s1 a b s' -> par p (Call e k) s a b s'.

(** An invariant of the state that every call keeps. *)
Lemma runs_invariant {A} (I : S -> Prop) (p : prog E A) s a s' :
  (forall X (e : E X) s x s', sem X e s x s' -> I s -> I s') -> runs p s a s' -> I s -> I s'.
Proof.
  intros Hstep. revert s; induction p as [b|X e k IH]; intros s; simpl; [by intros [-> ->]|].
  intros (x & s1 & He & Hk) Hs. eauto.
Qed.
End relational.

(** ** Statements about every execution *)

(** Every call satisfies [P], and every result satisfies [Q]. *)
Fixpoint always {A} (P : forall X, E X -> Prop) (Q : A -> Prop) (p : prog E A) : Prop :=
  match p with
  | Ret a => Q a
  | @Call _ _ X e k => P X e /\ forall x, always P Q (k x)
  end.

Lemma always_bind {A B} P (Q : A -> Prop) (R : B -> Prop) (p : prog E A) f :
  always P Q p -> (forall a, Q a -> always P R (f a)) -> always P R (bind p f).
Proof.
  intros Hp Hf. induction p as [a|X e k IH]; simpl in *; [by apply Hf|].
  destruct Hp as [He Hk]. split; [done|]. intros x. by apply IH.
Qed.

Lemma always_mono {A} (P P' : forall X, E X -> Prop) (Q Q' : A -> Prop) (p : prog E A) :
  (forall X e, P X e -> P' X e) -> (forall a, Q a -> Q' a) -> always P Q p -> always P' Q' p.
Proof.
  intros HP HQ. induction p as [a|X e k IH]; simpl; [apply HQ|]. naive_solver.
Qed.

Lemma always_exec {A} P (Q : A -> Prop) (p : prog E A) tr a :
  always P Q p -> exec p tr a ->
  Q a /\ Forall (fun ac => match ac with Act e _ => P _ e end) tr.
Proof.
  revert tr; induction p as [b|X e k IH]; intros tr; simpl.
  - intros HQ [-> ->]. by split.
  - intros [He Hk] (x & tr' & -> & Hx). destruct (IH x tr' (Hk x) Hx) as [HQ HF].
    split; [done|]. by constructor.
Qed.

(** Every call satisfies [P]. *)
Definition calls {A} (P : forall X, E X -> Prop) (p : prog E A) : Prop := always P (fun _ => True) p.

Lemma calls_bind {A B} P (p : prog E A) (f : A -> prog E B) : calls P p -> (forall a, calls P (f a)) -> calls P (bind p f).
Proof. intros Hp Hf. eapply always_bind; [exact Hp|]. intros a _. apply Hf. Qed.

Lemma calls_try {Er A B} P (p : prog E (result Er A)) (f : A -> prog E (result Er B)) :
  calls P p -> (forall a, calls P (f a)) -> calls P (bind_err p f).
Proof. intros Hp Hf. apply calls_bind; [done|]. by intros [a|err]. Qed.

Lemma calls_wrap {Er Fr A B} P (w : Er -> Fr) (p : prog E (result Er A)) (f : A -> prog E (result Fr B)) :
  calls P p -> (forall a, calls P (f a)) -> calls P (bind_wrap w p f).
Proof. intros Hp Hf. apply calls_bind; [done|]. by intros [a|err]. Qed.

Lemma calls_call {X} (P : forall X, E X -> Prop) (c : E X) : P X c -> calls P (call c).
Proof. intros H. by split. Qed.

Lemma calls_in {A X} P (p : prog E A) tr a (c : E X) x : calls P p -> exec p tr a -> In (Act c x) tr -> P X c.
Proof.
  intros Hp Hx Hin. apply (always_exec _ _ _ _ _ Hp) in Hx as [_ Hx]. rewrite List.Forall_forall in Hx. by apply (Hx _ Hin).
Qed.

Lemma exec_bind {A B} (p : prog E A) (f : A -> prog E B) tr b :
  exec (bind p f) tr b <->
  exists tr1 tr2 a, tr = tr1 ++ tr2 /\ exec p tr1 a /\ exec (f a) tr2 b.
Proof.
  revert tr; induction p as [a|X e k IH]; intros tr; simpl.
  - split; [intros H; by exists [], tr, a|]. by intros (? & ? & ? & -> & [-> ->] & H).
  - split.
    + intros (x & tr' & -> & H). apply IH in H as (t1 & t2 & a & -> & H1 & H2).
      exists (Act e x :: t1), t2, a. eauto 8.
    + intros (t1 & t2 & a & -> & (x & t1' & -> & H1) & H2).
      exists x, (t1' ++ t2)%list. split; [done|]. apply IH. eauto 8.
Qed.

Lemma exec_try {Er A B} (p : prog E (result Er A)) (k : A -> prog E (result Er B)) tr b :
  exec (bind_err p k) tr (Ok b) -> exists t1 t2 a, tr = t1 ++ t2 /\ exec p t1 (Ok a) /\ exec (k a) t2 (Ok b).
Proof.
  unfold bind_err. intros (t1 & t2 & [a|err] & -> & H1 & H2)%exec_bind; [eauto 8|]. by destruct H2.
Qed.

Lemma exec_wrap {Er Fr A B} (w : Er -> Fr) (p : prog E (result Er A)) (k : A -> prog E (result Fr B)) tr b :
  exec (bind_wrap w p k) tr (Ok b) -> exists t1 t2 a, tr = t1 ++ t2 /\ exec p t1 (Ok a) /\ exec (k a) t2 (Ok b).
Proof.
  unfold bind_wrap. intros (t1 & t2 & [a|err] & -> & H1 & H2)%exec_bind; [eauto 8|]. by destruct H2.
Qed.

Lemma exec_call {X} (c : E X) tr x : exec (call c) tr x -> tr = [Act c x].
Proof. by intros (x' & tr' & -> & -> & ->). Qed.

(** A relation on states that holds across every call a program may make holds across
    its runs. *)
Lemma runs_always {S A} (sem : forall X, E X -> S -> X -> S -> Prop) P (Q : A -> Prop) (R : S -> S -> Prop)
    `{!Reflexive R, !Transitive R} (p : prog E A) s a s' :
  always P Q p -> (forall X (c : E X) s x s', P X c -> sem X c s x s' -> R s s') -> runs sem p s a s' -> R s s'.
Proof.
  intros Hp Hstep. revert s Hp. induction p as [b|X c k IH]; intros s; simpl; [by intros _ [_ ->]|].
  intros [Hc Hk] (x & s1 & Hs & Hr). transitivity s1; [by eapply Hstep|by eapply IH].
Qed.

Lemma runs_exec {S A} (sem : forall X, E X -> S -> X -> S -> Prop) (p : prog E A) s a s' :
  runs sem p s a s' -> exists tr, exec p tr a.
Proof.
  revert s. induction p as [b|X c k IH]; intros s; simpl; [intros [-> _]; by exists []|].
  intros (x & s1 & _ & [tr Htr]%IH). eauto 6.
Qed.

(** A run is an execution: whatever holds of all executions holds of runs. *)
Lemma run_exec {A W} (h : forall X, E X -> W -> X * W) (p : prog E A) w :
  exists tr, exec p tr (fst (run h p w)).
Proof.
  revert w; induction p as [a|X e k IH]; intros w; simpl; [by exists []|].
  destruct (h X e w) as [x w']. destruct (IH x w') as [tr Htr]. eauto 6.
Qed.

(** The calls of a run, with their answers. *)
Fixpoint logged {A W} (h : forall X, E X -> W -> X * W) (p : prog E A) (w : W) : list (action E) * A :=
  match p with
  | Ret a => ([], a)
  | Call e k => let '(x, w') := h _ e w in let '(tr, a) := logged h (k x) w' in (Act e x :: tr, a)
  end.

Lemma logged_exec {A W} (h : forall X, E X -> W -> X * W) (p : prog E A) w : exec p (fst (logged h p w)) (snd (logged h p w)).
Proof.
  revert w; induction p as [a|X e k IH]; intros w; simpl; [done|]. destruct (h X e w) as [x w']. specialize (IH x w').
  destruct (logged h (k x) w') as [tr a]. by exists x, tr.
Qed.

Lemma logged_answers {A W} (h : forall X, E X -> W -> X * W) (p : prog E A) w :
  Forall (fun ac => match ac with Act e x => exists w1, x = fst (h _ e w1) end) (fst (logged h p w)).
Proof.
  revert w; induction p as [a|X e k IH]; intros w; simpl; [constructor|]. destruct (h X e w) as [x w'] eqn:Hh. specialize (IH x w').
  destruct (logged h (k x) w') as [tr a]. constructor; [|done]. exists w. by rewrite Hh.
Qed.

(** The calls of a program, with the answers of a callee that may give none. *)
Fixpoint traced {A} (h : forall X, E X -> option X) (p : prog E A) : option (list (action E) * A) :=
  match p with
  | Ret a => Some ([], a)
  | Call e k => x ← h _ e; '(tr, a) ← traced h (k x); Some (Act e x :: tr, a)
  end.

Lemma traced_exec {A} (h : forall X, E X -> option X) (p : prog E A) tr a :
  traced h p = Some (tr, a) -> exec p tr a.
Proof.
  revert tr; induction p as [b|X e k IH]; intros tr; simpl; [by intros [= <- <-]|].
  destruct (h X e) as [x|]; simpl; [|done]. destruct (traced h (k x)) as [[tr' b]|] eqn:Ht; simpl; [|done].
  intros [= <- <-]. eauto 6.
Qed.

Lemma traced_answers {A} (h : forall X, E X -> option X) (p : prog E A) tr a :
  traced h p = Some (tr, a) -> Forall (fun ac => match ac with Act e x => h _ e = Some x end) tr.
Proof.
  revert tr; induction p as [b|X e k IH]; intros tr; simpl; [intros [= <- _]; constructor|].
  destruct (h X e) as [x|] eqn:Hh; simpl; [|done]. destruct (traced h (k x)) as [[tr' b]|] eqn:Ht; simpl; [|done].
  intros [= <- <-]. constructor; [done|by eapply IH].
Qed.

Lemma run_bind {A B W} (h : forall X, E X -> W -> X * W) (p : prog E A) (f : A -> prog E B) w :
  run h (bind p f) w = let '(a, w') := run h p w in run h (f a) w'.
Proof.
  revert w; induction p as [a|X e k IH]; intros w; simpl; [done|].
  destruct (h X e w) as [x w']. apply IH.
Qed.
End effects.

(** ** Programs inside programs

    Every call of [p] is answered by a program of its own. *)
Fixpoint interp {E F : Set -> Set} {A} (h : forall X, E X -> prog F X) (p : prog E A) : prog F A :=
  match p with
  | Ret a => Ret a
  | Call c k => bind (h _ c) (fun x => interp h (k x))
  end.

Lemma interp_bind {E F : Set -> Set} {A B} (h : forall X, E X -> prog F X) (p : prog E A) (f : A -> prog E B) tr b :
  exec (interp h (bind p f)) tr b <-> exec (bind (interp h p) (fun a => interp h (f a))) tr b.
Proof.
  revert tr. induction p as [a|X c k IH]; intros tr; cbn [bind interp]; [done|]. rewrite !exec_bind. split.
  - intros (t1 & t2 & x & -> & Hx & (t3 & t4 & a & -> & H3 & H4)%IH%exec_bind).
    exists (t1 ++ t3)%list, t4, a. rewrite <- app_assoc. split_and!; [done| |done]. apply exec_bind. eauto 8.
  - intros (t1 & t2 & a & -> & (t3 & t4 & x & -> & Hx & Hk)%exec_bind & Hf).
    exists t3, (t4 ++ t2)%list, x. rewrite <- app_assoc. split_and!; [done..|]. apply IH, exec_bind. eauto 8.
Qed.

Lemma calls_interp {E F : Set -> Set} {A} (h : forall X, E X -> prog F X) (P : forall X, F X -> Prop)
    (P' : forall X, E X -> Prop) (p : prog E A) :
  (forall X (c : E X), P' X c -> calls P (h X c)) -> calls P' p -> calls P (interp h p).
Proof.
  intros Hh. induction p as [a|X c k IH]; [intros _; exact I|]. intros [Hc Hk]. cbn [interp].
  apply calls_bind; [by apply Hh|]. intros x. apply IH, Hk.
Qed.

Notation "'let!' x ':=' p 'in' k" := (bind p (fun x => k))
  (at level 10, x pattern, p at level 150, k at level 200) : go_scope.
Notation "'try!' x ':=' p 'in' k" := (bind_err p (fun x => k))
  (at level 10, x pattern, p at level 150, k at level 200) : go_scope.
Notation "'wrap!' w 'of' x ':=' p 'in' k" := (bind_wrap w p (fun x => k))
  (at level 10, w at level 9, x pattern, p at level 150, k at level 200) : go_scope.
(** [_ = p]: the error is discarded. *)
Notation "'ignore!' p 'in' k" := (bind p (fun _ => k))
  (at level 10, p at level 150, k at level 200) : go_scope.

(** Goes through a program, leaving its parts that are not unfolded. *)
Ltac calls_walk :=
  repeat first
    [ progress cbv zeta
    | match goal with
      | |- calls _ (Ret _) => exact I
      | |- calls _ (call _) => apply calls_call; first [exact I | by intros [] | done]
      | |- calls _ (bind_err _ _) => apply calls_try; [|intro]
      | |- calls _ (bind_wrap _ _ _) => apply calls_wrap; [|intro]
      | |- calls _ (bind _ _) => apply calls_bind; [|intro]
      | |- calls _ (match ?x with _ => _ end) => destruct x
      end ].
