(* ===== verification/AppErrors.v ===== *)
(** * Application errors

    src/internal/platform/apperrors/errors.go: the errors services return, and
    the envelope HTTP clients see of them.  The correlation identifier an error
    gets at random is drawn when the envelope is written. *)

From S2P Require Import Prelude GoStrings.
Local Open Scope string_scope.

(** source: internal/platform/apperrors/errors.go:18-55 (ErrorCode) *)
Inductive ErrorCode :=
| CodeInternal | CodeNotFound | CodeAlreadyExists | CodeInvalidInput | CodeUnauthorized
| CodeForbidden | CodeConflict | CodeCapabilityUnavailable | CodeRateLimited
| CodeInvalidCredentials | CodeTokenExpired | CodeTokenInvalid | CodeSessionNotFound
| CodeModuleNotFound | CodeModuleInstalled | CodeModuleNotInstalled | CodeModuleEnabled
| CodeModuleDisabled | CodeModuleBusy
| CodeSiteNotFound | CodeSiteDomainTaken | CodeSiteAlreadyExists
| CodeAgentUnavailable | CodeAgentTimeout.

#[export] Instance ErrorCode_eq_dec : EqDecision ErrorCode.
Proof. solve_decision. Defined.

(** source: internal/platform/apperrors/errors.go:21-55 (the values of the codes) *)
Definition code_string (c : ErrorCode) : string :=
  match c with
  | CodeInternal => "INTERNAL_ERROR" | CodeNotFound => "NOT_FOUND"
  | CodeAlreadyExists => "ALREADY_EXISTS" | CodeInvalidInput => "INVALID_INPUT"
  | CodeUnauthorized => "UNAUTHORIZED" | CodeForbidden => "FORBIDDEN" | CodeConflict => "CONFLICT"
  | CodeCapabilityUnavailable => "CAPABILITY_UNAVAILABLE" | CodeRateLimited => "RATE_LIMITED"
  | CodeInvalidCredentials => "INVALID_CREDENTIALS" | CodeTokenExpired => "TOKEN_EXPIRED"
  | CodeTokenInvalid => "TOKEN_INVALID" | CodeSessionNotFound => "SESSION_NOT_FOUND"
  | CodeModuleNotFound => "MODULE_NOT_FOUND" | CodeModuleInstalled => "MODULE_ALREADY_INSTALLED"
  | CodeModuleNotInstalled => "MODULE_NOT_INSTALLED" | CodeModuleEnabled => "MODULE_ALREADY_ENABLED"
  | CodeModuleDisabled => "MODULE_ALREADY_DISABLED" | CodeModuleBusy => "MODULE_BUSY"
  | CodeSiteNotFound => "SITE_NOT_FOUND" | CodeSiteDomainTaken => "SITE_DOMAIN_TAKEN"
  | CodeSiteAlreadyExists => "SITE_ALREADY_EXISTS" | CodeAgentUnavailable => "AGENT_UNAVAILABLE"
  | CodeAgentTimeout => "AGENT_TIMEOUT"
  end.

(** source: internal/platform/apperrors/errors.go:57-77 (AppError): a Go error is a
    plain one, one that wraps another ([fmt.Errorf] with %w), or an [AppError] *)
Inductive error :=
| Plain (msg : string)
| Wrapped (msg : string) (cause : error)
| App (e : AppError)
with AppError :=
| mkAppError (HTTPStatus : Z) (Code : ErrorCode) (Message : string) (Cause : option error)
    (Details Recommendation : string) (Context : gmap string string).

Definition HTTPStatus (e : AppError) : Z := let 'mkAppError s _ _ _ _ _ _ := e in s.
Definition Code (e : AppError) : ErrorCode := let 'mkAppError _ c _ _ _ _ _ := e in c.
Definition Message (e : AppError) : string := let 'mkAppError _ _ m _ _ _ _ := e in m.
Definition Cause (e : AppError) : option error := let 'mkAppError _ _ _ c _ _ _ := e in c.
Definition Details (e : AppError) : string := let 'mkAppError _ _ _ _ d _ _ := e in d.
Definition Recommendation (e : AppError) : string := let 'mkAppError _ _ _ _ _ r _ := e in r.
Definition Context_ (e : AppError) : gmap string string := let 'mkAppError _ _ _ _ _ _ c := e in c.

(** source: internal/platform/apperrors/errors.go:79-89 (Error) *)
Fixpoint error_text (e : error) : string :=
  match e with
  | Plain msg => msg
  | Wrapped msg cause => msg ++ ": " ++ error_text cause
  | App (mkAppError _ code message cause _ _ _) =>
      match cause with
      | Some c => "[" ++ code_string code ++ "] " ++ message ++ ": " ++ error_text c
      | None => "[" ++ code_string code ++ "] " ++ message
      end
  end.

(** source: internal/platform/apperrors/errors.go:151-173 (recommendation) *)
Definition recommendation (status : Z) : string :=
  (if status =? 400 then "Check the submitted fields and try again."
   else if status =? 401 then "Sign in again and retry the request."
   else if status =? 403 then "Ask an administrator for the required permission."
   else if status =? 404 then "Refresh the page and verify that the resource still exists."
   else if status =? 409 then "Refresh the current state, resolve the conflict, and retry."
   else if status =? 503 then "Check the OpenDeploy Agent and retry when it is healthy."
   else if status =? 501 then "Select the local server or a feature supported by the remote Agent."
   else if status =? 504 then "Check Agent connectivity and retry the operation."
   else "Retry once; if the problem persists, use the error ID to inspect server logs.")%Z.

(** source: internal/platform/apperrors/errors.go:91-103 (New) *)
Definition New (status : Z) (code : ErrorCode) (message : string) : AppError :=
  mkAppError status code message None message (recommendation status) empty.

(** source: internal/platform/apperrors/errors.go:105-110 (Wrap) *)
Definition Wrap (status : Z) (code : ErrorCode) (message : string) (cause : error) : AppError :=
  mkAppError status code message (Some cause) message (recommendation status) empty.

(** source: internal/platform/apperrors/errors.go:112-116 (WithContext) *)
Definition WithContext (e : AppError) (fields : gmap string string) : AppError :=
  mkAppError (HTTPStatus e) (Code e) (Message e) (Cause e) (Details e) (Recommendation e) fields.

(** [errors.As(err, &appErr)]: the first [AppError] of the chain. *)
Fixpoint find_app (e : error) : option AppError :=
  match e with
  | Plain _ => None
  | Wrapped _ cause => find_app cause
  | App a => Some a
  end.

(** source: internal/platform/apperrors/errors.go:177-179 (NotFound) *)
Definition NotFound (resource : string) : error := App (New 404 CodeNotFound (resource ++ " not found")).
(** source: internal/platform/apperrors/errors.go:181-183 (AlreadyExists) *)
Definition AlreadyExists (resource : string) : error :=
  App (New 409 CodeAlreadyExists (resource ++ " already exists")).
(** source: internal/platform/apperrors/errors.go:185-187 (InvalidInput) *)
Definition InvalidInput (msg : string) : error := App (New 400 CodeInvalidInput msg).
(** source: internal/platform/apperrors/errors.go:189-191 (Unauthorized) *)
Definition Unauthorized (msg : string) : error := App (New 401 CodeUnauthorized msg).
(** source: internal/platform/apperrors/errors.go:193-195 (Forbidden) *)
Definition Forbidden (msg : string) : error := App (New 403 CodeForbidden msg).

(** source: internal/platform/apperrors/errors.go:197-203 (Internal) *)
Definition Internal (msg : string) (cause : error) : AppError :=
  match find_app cause with
  | Some existing => existing
  | None => Wrap 500 CodeInternal msg cause
  end.

(** source: internal/platform/apperrors/errors.go:205-207 (AgentUnavailable) *)
Definition AgentUnavailable (cause : error) : AppError :=
  Wrap 503 CodeAgentUnavailable "agent is unavailable" cause.

(** source: internal/platform/apperrors/errors.go:209-216 (IsAppError) *)
Definition IsAppError (e : error) (code : ErrorCode) : bool :=
  match find_app e with Some a => bool_decide (Code a = code) | None => false end.

(** source: internal/platform/apperrors/errors.go:218-225 (AsAppError) *)
Definition AsAppError (e : error) : AppError :=
  match find_app e with
  | Some a => a
  | None => Internal "an unexpected error occurred" e
  end.

Inductive log_level := LogError | LogWarn | LogNone.

(** What a client receives. *)
Record response := {
  status : Z;
  error_id_header : string;
  body_code : string;
  body_message : string;
  body_details : string;
  body_recommendation : string;
  body_error_id : string;
  body_context : gmap string string;
}.

(** source: internal/platform/apperrors/errors.go:118-149 (WriteHTTP): the log level
    and the response *)
Definition WriteHTTP (error_id : string) (e : error) : log_level * response :=
  let a := AsAppError e in
  (if (500 <=? HTTPStatus a)%Z then LogError else if (400 <=? HTTPStatus a)%Z then LogWarn else LogNone,
   {| status := HTTPStatus a; error_id_header := error_id; body_code := code_string (Code a);
      body_message := Message a; body_details := Details a; body_recommendation := Recommendation a;
      body_error_id := error_id; body_context := Context_ a |}).

(** ** Nothing internal reaches the client *)

(** The same error with another cause: what lies below the first [AppError] of a
    chain, or the whole chain when there is none. *)
Inductive same_surface : error -> error -> Prop :=
| surface_app s c m k k' d r x : same_surface (App (mkAppError s c m k d r x)) (App (mkAppError s c m k' d r x))
| surface_wrapped msg msg' e e' : same_surface e e' -> same_surface (Wrapped msg e) (Wrapped msg' e')
| surface_internal e e' : find_app e = None -> find_app e' = None -> same_surface e e'.

Definition with_cause (a : AppError) (k : option error) : AppError :=
  mkAppError (HTTPStatus a) (Code a) (Message a) k (Details a) (Recommendation a) (Context_ a).

Lemma same_surface_found e e' :
  same_surface e e' ->
  match find_app e, find_app e' with
  | Some a, Some a' => exists k, a = with_cause a' k
  | None, None => True
  | _, _ => False
  end.
Proof.
  induction 1 as [s c m k k' d r x| |e e' He He']; simpl; [by exists k|done|by rewrite He, He'].
Qed.

(** The response does not depend on causes or on the text of errors that are
    not application errors: two errors with the same surface give the same
    response, and an error that is no application error is answered with 500 and a
    fixed message. *)
Theorem response_hides_causes id e e' :
  same_surface e e' -> WriteHTTP id e = WriteHTTP id e' /\
  (find_app e = None -> status (snd (WriteHTTP id e)) = 500%Z /\
     body_message (snd (WriteHTTP id e)) = "an unexpected error occurred").
Proof.
  intros Hs. split.
  - apply same_surface_found in Hs. unfold WriteHTTP, AsAppError, Internal.
    destruct (find_app e) as [a|] eqn:Ha, (find_app e') as [a'|] eqn:Ha'; try done.
    by destruct Hs as (k & ->), a'.
  - intros Hx. unfold WriteHTTP, AsAppError, Internal. by rewrite Hx.
Qed.

Lemma response_hides_causes_witness :
  WriteHTTP "id" (Wrapped "query" (Plain "password=hunter2")) = WriteHTTP "id" (Plain "no such table") /\
  (find_app (Wrapped "query" (Plain "password=hunter2")) = None ->
   status (snd (WriteHTTP "id" (Wrapped "query" (Plain "password=hunter2")))) = 500%Z /\
   body_message (snd (WriteHTTP "id" (Wrapped "query" (Plain "password=hunter2"))))
     = "an unexpected error occurred").
Proof.
  exact (response_hides_causes "id" _ _ (surface_internal (Wrapped "query" (Plain "password=hunter2"))
    (Plain "no such table") eq_refl eq_refl)).
Defined.
