(* ===== verification/Executor.v ===== *)
(** * The Agent's command executor

    src/internal/agent/executor/shell.go: the allowlist of commands the root
    Agent may start, the validation of their arguments, and the bounded
    buffers their output goes through. *)

From S2P Require Import Prelude GoStrings GoPath GoRegexp Effects.
Local Open Scope string_scope.
Local Open Scope go_scope.

(** ** Constants and the allowlist *)

(** source: internal/agent/executor/shell.go:19-23 (maxCommandOutput) *)
Definition maxCommandOutput : Z := 2 ^ 20.
(** source: internal/agent/executor/shell.go:19-23 (maxCommandArgument) *)
Definition maxCommandArgument : Z := 4096.
(** source: internal/agent/executor/shell.go:19-23 (defaultCommandTimeout), in nanoseconds *)
Definition defaultCommandTimeout : Z := 2 * 60 * 1000000000.

(** source: internal/agent/executor/shell.go:25-29 (AllowedCommand) *)
Record AllowedCommand := { Binary : string; AllowedArgs : list string }.

(** source: internal/agent/executor/shell.go:31-60 (allowlist) *)
Definition allowlist : list AllowedCommand := [
  {| Binary := "apt-get"; AllowedArgs := ["install"; "remove"; "update"; "upgrade"; "autoremove"; "-y"; "-q"; "--no-install-recommends"; "--upgrade"; "--purge"] |};
  {| Binary := "apt"; AllowedArgs := ["install"; "remove"; "update"; "upgrade"; "list"; "search"; "show"; "--installed"; "-y"; "-q"] |};
  {| Binary := "dnf"; AllowedArgs := ["install"; "remove"; "update"; "upgrade"; "list"; "search"; "info"; "--installed"; "-y"; "-q"] |};
  {| Binary := "yum"; AllowedArgs := ["install"; "remove"; "update"; "upgrade"; "list"; "search"; "info"; "--installed"; "-y"; "-q"] |};
  {| Binary := "systemctl"; AllowedArgs := [
       "start"; "stop"; "restart"; "reload"; "enable"; "disable"; "status";
       "is-active"; "is-enabled"; "daemon-reload"; "show"; "-p"; "--property";
       "SubState"; "--value"] |};
  {| Binary := "journalctl"; AllowedArgs := ["-u"; "-n"; "-f"; "--no-pager"; "-o"; "short"; "short-precise"] |};
  {| Binary := "ufw"; AllowedArgs := ["allow"; "deny"; "reject"; "delete"; "status"; "numbered"; "enable"; "disable"; "reload"; "reset"; "--force"] |};
  {| Binary := "nginx"; AllowedArgs := ["-t"; "-T"; "-s"; "reload"; "stop"; "quit"; "-v"; "-V"] |};
  {| Binary := "openssl"; AllowedArgs := ["x509"; "-in"; "-noout"; "-issuer"; "-subject"; "-dates"; "-ext"; "subjectAltName"] |};
  {| Binary := "ss"; AllowedArgs := ["-tuln"] |};
  {| Binary := "curl"; AllowedArgs := ["-s"; "--max-time"] |};
  {| Binary := "test"; AllowedArgs := ["-S"] |};
  {| Binary := "php"; AllowedArgs := ["-v"; "-m"] |};
  {| Binary := "node"; AllowedArgs := ["--version"] |};
  {| Binary := "npm"; AllowedArgs := ["--version"] |};
  {| Binary := "git"; AllowedArgs := ["clone"; "pull"; "fetch"; "checkout"; "rev-parse"; "--version"] |};
  {| Binary := "tail"; AllowedArgs := ["-n"; "-f"] |};
  {| Binary := "fail2ban-client"; AllowedArgs := ["status"; "set"; "reload"; "stop"; "start"; "banip"; "unban"; "unbanip"; "-V"] |};
  {| Binary := "fail2ban-server"; AllowedArgs := ["-b"; "-t"] |};
  {| Binary := "hostname"; AllowedArgs := [] |};
  {| Binary := "timedatectl"; AllowedArgs := ["set-timezone"; "status"] |};
  {| Binary := "certbot"; AllowedArgs := ["certonly"; "renew"; "--webroot"; "-w"; "-d"; "-n"; "--agree-tos"; "-m"; "--expand"; "--register-unsafely-without-email"; "--cert-name"; "--non-interactive"] |} ].

(** ** Patterns *)

Definition safeOperandClass (z : Z) : bool := r_alnum z || one_of "_@%+.,:/=-" z.
Definition safeServiceClass (z : Z) : bool := r_alnum z || one_of "_.@-" z.
Definition safePackageClass (z : Z) : bool := r_alnum z || one_of "+._:-" z.
Definition safeHostClass (z : Z) : bool := r_alnum z || one_of ".-" z.

(** source: internal/agent/executor/shell.go:67-67 (safeOperand) *)
Definition safeOperand : re := plus (Cls safeOperandClass).
(** source: internal/agent/executor/shell.go:68-68 (safeService) *)
Definition safeService : re := plus (Cls safeServiceClass).
(** source: internal/agent/executor/shell.go:69-69 (safePackage) *)
Definition safePackage : re := Cat (Cls r_alnum) (Star (Cls safePackageClass)).
(** source: internal/agent/executor/shell.go:70-70 (decimal) *)
Definition decimal : re := plus (Cls r_digit).

Section unicode.
Context `{Unicode}.

Definition safeCommentClass (z : Z) : bool :=
  if (z <? 128)%Z then r_alnum z || one_of " _.,:/@+()-" z else uni_letter_or_number z.

(** source: internal/agent/executor/shell.go:71-71 (safeComment) *)
Definition safeComment : re := Cat (Cls safeCommentClass) (upto 127 (Cls safeCommentClass)).
End unicode.

(** source: internal/agent/executor/shell.go:72-72 (safeHost) *)
Definition safeHost : re :=
  Cat (Cls r_alnum) (opt (Cat (upto 251 (Cls safeHostClass)) (Cls r_alnum))).

(** source: internal/agent/executor/shell.go:211-211 (socketPattern) *)
Definition socketPattern : re :=
  Cat (lit "/run/php/php") (Cat (plus (Cls r_digit)) (Cat (lit ".")
    (Cat (plus (Cls r_digit)) (Cat (lit "-fpm-") (Cat (Cls r_alnum)
      (Cat (upto 252 (Cls safeHostClass)) (lit ".sock"))))))).

(** ** Validation *)

Inductive validator_error :=
| InvalidBinaryName
| NotOnAllowlist (binary : string)
| MalformedArgument (binary : string)
| ArgumentNotPermitted (arg binary : string)
| InvalidPackageOperand
| InvalidServiceOperand
| InvalidJournalOperand
| LogPathOutside
| CertificatePathOutside
| OnlySocketListing
| GitMutation
| OnlyNginxHealth
| OnlyPhpSockets.

(** source: internal/agent/executor/shell.go:236-238 (pathWithin) *)
Definition pathWithin (path root : string) : bool :=
  String.eqb path root || (has_prefix path (root ++ "/") && negb (contains path "..")).

(** source: internal/agent/executor/shell.go:218-225 (isPackageAction) *)
Definition isPackageAction (value : string) : bool :=
  existsb (String.eqb value)
    ["install"; "remove"; "update"; "upgrade"; "autoremove"; "list"; "search"; "show"; "info"].

(** source: internal/agent/executor/shell.go:227-234 (isSystemdAction) *)
Definition isSystemdAction (value : string) : bool :=
  existsb (String.eqb value)
    ["start"; "stop"; "restart"; "reload"; "enable"; "disable"; "status"; "is-active";
     "is-enabled"; "daemon-reload"; "show"].

(** source: internal/agent/executor/shell.go:109-119 (isAllowedArg) *)
Definition isAllowedArg (arg : string) (allowed : list string) : bool :=
  if negb (has_prefix arg "-") then match_string safeOperand arg && negb (contains arg "..")
  else existsb (fun accepted => String.eqb arg accepted || has_prefix arg (accepted ++ "=")) allowed.

(** source: internal/agent/executor/shell.go:121-181 (validateOperands) *)
Definition validateOperands (binary : string) (args : list string) : result validator_error () :=
  if existsb (String.eqb binary) ["apt-get"; "apt"; "dnf"; "yum"] then
    for_each (fun arg =>
      if has_prefix arg "-" || isPackageAction arg then Ok ()
      else fail_if (negb (match_string safePackage arg)) InvalidPackageOperand) args
  else if String.eqb binary "systemctl" then
    for_each (fun arg =>
      if has_prefix arg "-" || isSystemdAction arg || String.eqb arg "SubState" then Ok ()
      else fail_if (negb (match_string safeService arg)) InvalidServiceOperand) args
  else if String.eqb binary "journalctl" then
    for_each (fun arg =>
      if has_prefix arg "-" || String.eqb arg "short" || String.eqb arg "short-precise"
         || match_string decimal arg then Ok ()
      else fail_if (negb (match_string safeService arg)) InvalidJournalOperand) args
  else if String.eqb binary "tail" then
    for_each (fun arg =>
      if has_prefix arg "-" || match_string decimal arg then Ok ()
      else fail_if (negb (pathWithin arg "/var/log")) LogPathOutside) args
  else if String.eqb binary "openssl" then
    for_each_prev None (fun prev arg =>
      if bool_decide (prev = Some "-in") then
        fail_if (negb (pathWithin arg "/etc/letsencrypt")
                 && negb (pathWithin arg "/var/lib/opendeploy")) CertificatePathOutside
      else Ok ()) args
  else if String.eqb binary "ss" then
    fail_if (negb (bool_decide (args = ["-tuln"]))) OnlySocketListing
  else if String.eqb binary "git" then
    for_each (fun arg =>
      fail_if (negb (String.eqb arg "--version") && negb (String.eqb arg "rev-parse"))
        GitMutation) args
  else Ok ().

(** source: internal/agent/executor/shell.go:183-205 (validateCurlArgs) *)
Definition validateCurlArgs (args : list string) : result validator_error () :=
  if bool_decide (args = ["-s"; "--max-time"; "1"; "http://127.0.0.1/nginx_status"]) then Ok ()
  else match args with
  | [a0; a1; a2; a3; a4; a5; a6; a7] =>
      if String.eqb a0 "-s" && String.eqb a1 "-o" && String.eqb a2 "/dev/null"
         && String.eqb a3 "-w" && String.eqb a4 "%{http_code}" && String.eqb a5 "-H"
         && has_prefix a6 "Host: " && String.eqb a7 "http://127.0.0.1/" then
        let host := trim_prefix a6 "Host: " in
        if match_string safeHost host && negb (contains host "..") then Ok ()
        else Err OnlyNginxHealth
      else Err OnlyNginxHealth
  | _ => Err OnlyNginxHealth
  end.

(** source: internal/agent/executor/shell.go:207-216 (validateSocketTestArgs) *)
Definition validateSocketTestArgs (args : list string) : result validator_error () :=
  match args with
  | [a0; a1] =>
      if negb (String.eqb a0 "-S") then Err OnlyPhpSockets
      else fail_if (negb (match_string socketPattern a1) || contains a1 "..") OnlyPhpSockets
  | _ => Err OnlyPhpSockets
  end.

(** The bytes no argument may hold: NUL, CR and LF. *)
Definition control_bytes : string :=
  String (ascii_of_nat 0) (String (ascii_of_nat 13) (String (ascii_of_nat 10) "")).

Section validate.
Context `{Unicode}.

(** source: internal/agent/executor/shell.go:95-105 (Validate, the loop body) *)
Definition validateArg (binary : string) (allowed : list string) (prev : option string)
    (arg : string) : result validator_error () :=
  if String.eqb arg "" || (maxCommandArgument <? len arg)%Z
     || contains_any arg control_bytes then Err (MalformedArgument binary)
  else if String.eqb binary "ufw" && bool_decide (prev = Some "comment")
          && match_string safeComment arg then Ok ()
  else fail_if (negb (isAllowedArg arg allowed)) (ArgumentNotPermitted arg binary).

(** source: internal/agent/executor/shell.go:75-107 (Validate) *)
Definition Validate (binary : string) (args : list string) : result validator_error () :=
  if String.eqb binary "" || negb (String.eqb binary (trim_space binary))
     || contains_any binary "/\" then Err InvalidBinaryName
  else match List.find (fun a => String.eqb (Binary a) binary) allowlist with
  | None => Err (NotOnAllowlist binary)
  | Some allowed =>
      if String.eqb binary "curl" then validateCurlArgs args
      else if String.eqb binary "test" then validateSocketTestArgs args
      else
        for_each_prev None (validateArg binary (AllowedArgs allowed)) args ;?
        validateOperands binary args
  end.
End validate.

(** ** Bounded output *)

(** source: internal/agent/executor/shell.go:376-379 (limitedBuffer) *)
Record limitedBuffer := { buffer : string; truncated : bool }.

Definition empty_buffer : limitedBuffer := {| buffer := ""; truncated := false |}.

(** source: internal/agent/executor/shell.go:381-394 (Write); it always reports
    the whole slice as written *)
Definition buffer_Write (b : limitedBuffer) (p : string) : limitedBuffer :=
  let remaining := (maxCommandOutput - len (buffer b))%Z in
  if (0 <? remaining)%Z then
    if (remaining <? len p)%Z then
      {| buffer := buffer b ++ take_bytes (Z.to_nat remaining) p; truncated := true |}
    else {| buffer := buffer b ++ p; truncated := truncated b |}
  else {| buffer := buffer b; truncated := true |}.

Definition newline : string := String (ascii_of_nat 10) "".

(** source: internal/agent/executor/shell.go:396-401 (String) *)
Definition buffer_String (b : limitedBuffer) : string :=
  if truncated b then buffer b ++ newline ++ "[output truncated]" else buffer b.

(** *** Line streaming

    [accept i] is the outcome of the [select] for the [i]-th message: the
    receiver takes it, or the context is done. *)

Inductive stream_state :=
| Reading (line : string) (emitted : Z) (sent : list string)
| Finished (sent : list string).

Definition try_send (accept : nat -> bool) (sent : list string) (msg : string) :
    bool * list string :=
  if accept (length sent) then (true, (sent ++ [msg])%list) else (false, sent).

(** source: internal/agent/executor/shell.go:344-363 (streamLines, one byte) *)
Definition stream_byte (accept : nat -> bool) (prefix : string) (st : stream_state) (b : ascii) :
    stream_state :=
  match st with
  | Finished sent => Finished sent
  | Reading line emitted sent =>
      if Ascii.eqb b (ascii_of_nat 10) then
        let emitted := (emitted + len line)%Z in
        if (maxCommandOutput <? emitted)%Z then
          Finished (snd (try_send accept sent "[output truncated]"))
        else
          let '(taken, sent) := try_send accept sent (prefix ++ line) in
          if taken then Reading "" emitted sent else Finished sent
      else if (len line <? maxCommandOutput)%Z then Reading (line ++ String b "") emitted sent
      else st
  end.

(** source: internal/agent/executor/shell.go:364-372 (streamLines, end of input) *)
Definition stream_eof (accept : nat -> bool) (prefix : string) (st : stream_state) : list string :=
  match st with
  | Finished sent => sent
  | Reading line emitted sent =>
      if (0 <? len line)%Z && (emitted + len line <=? maxCommandOutput)%Z then
        snd (try_send accept sent (prefix ++ line))
      else sent
  end.

(** source: internal/agent/executor/shell.go:338-374 (streamLines): the chunks
    are what successive [Read] calls return before the reader fails *)
Definition streamLines (accept : nat -> bool) (prefix : string) (chunks : list string) :
    list string :=
  stream_eof accept prefix
    (fold_left (fun st chunk =>
        fold_left (stream_byte accept prefix) (String.list_ascii_of_string chunk) st)
      chunks (Reading "" 0 [])).

(** ** Running a command *)

(** source: internal/agent/executor/shell.go:403-411 (restrictedEnvironment) *)
Definition restrictedEnvironment (path : string) : list string :=
  ["PATH=" ++ path; "HOME=/root"; "LANG=C.UTF-8"; "LC_ALL=C.UTF-8";
   "DEBIAN_FRONTEND=noninteractive"].

(** source: internal/agent/executor/shell.go:246-252 (NewShell) *)
Definition restrictedPath : string := "/usr/sbin:/usr/bin:/sbin:/bin".

(** source: internal/agent/executor/shell.go:413-423 (withCommandTimeout): the
    deadline of the derived context, given the caller's deadline and the time *)
Definition withCommandTimeout (deadline : option Z) (now : Z) (binary : string) : Z :=
  match deadline with
  | Some d => d
  | None =>
      (now + if existsb (String.eqb binary) ["apt"; "apt-get"; "dnf"; "yum"; "certbot"]
             then 30 * 60 * 1000000000 else defaultCommandTimeout)%Z
  end.

(** What the started process does: what it writes, its exit status when it has
    one, the error of [cmd.Run], and whether the deadline had passed. *)
Record process := {
  p_stdout : list string;
  p_stderr : list string;
  p_exit : option Z;
  p_error : option string;
  p_deadline_exceeded : bool;
  p_duration : Z;
}.

Inductive exec_call : Set -> Set :=
| TimeNow : exec_call Z
| CmdRun (deadline : Z) (binary : string) (args env : list string) : exec_call process.

(** source: internal/agent/executor/shell.go:254-259 (Result) *)
Record Result := { Stdout : string; Stderr : string; ExitCode : Z; Duration : Z }.

Inductive shell_error :=
| Rejected (e : validator_error)
| DeadlineExceeded (binary : string)
| CommandFailed (binary : string) (e : string).

Definition collect (writes : list string) : string :=
  buffer_String (fold_left buffer_Write writes empty_buffer).

Section run.
Context `{Unicode}.

(** source: internal/agent/executor/shell.go:261-289 (Run): Go returns the result
    with the error *)
Definition Run (ctx_deadline : option Z) (binary : string) (args : list string) :
    prog exec_call (option Result * option shell_error) :=
  match Validate binary args with
  | Err e => Ret (None, Some (Rejected e))
  | Ok _ =>
      let! now := call TimeNow in
      let! p := call (CmdRun (withCommandTimeout ctx_deadline now binary) binary args
                        (restrictedEnvironment restrictedPath)) in
      let res := {| Stdout := collect (p_stdout p); Stderr := collect (p_stderr p);
                    ExitCode := default 0%Z (p_exit p); Duration := p_duration p |} in
      match p_error p with
      | None => Ret (Some res, None)
      | Some e =>
          if p_deadline_exceeded p then Ret (Some res, Some (DeadlineExceeded binary))
          else Ret (Some res, Some (CommandFailed binary e))
      end
  end.
End run.

(** ** What an accepted argument looks like *)

Definition safe_byte (c : ascii) : bool := is_alnum c || contains_byte "_@%+.,:/=-" c.
Definition host_byte (c : ascii) : bool := is_alnum c || contains_byte ".-" c.

(** A plain operand: only bytes no shell or parser treats specially, no "..". *)
Definition plain_operand (arg : string) : Prop :=
  arg <> "" /\ str_forall safe_byte arg = true /\ contains arg ".." = false.

(** A flag of the allowlist entry of [binary], alone or as [flag=value]. *)
Definition listed_flag (binary arg : string) : Prop :=
  has_prefix arg "-" = true /\
  exists a f, In a allowlist /\ Binary a = binary /\ In f (AllowedArgs a) /\
    (arg = f \/ exists v, arg = f ++ "=" ++ v).

(** A host name of at most 253 bytes that starts and ends with a letter or digit. *)
Definition plain_host (h : string) : Prop :=
  h <> "" /\ (len h <= 253)%Z /\ str_forall host_byte h = true /\ contains h ".." = false.

Definition no_control (arg : string) : Prop :=
  str_forall (fun c => negb (contains_byte control_bytes c)) arg = true.

Lemma safe_class_bytes s :
  str_forall (fun c => safeOperandClass (byte_val c)) s = str_forall safe_byte s.
Proof.
  apply str_forall_ext. intros c. unfold safeOperandClass, safe_byte.
  by rewrite r_alnum_byte, one_of_byte.
Qed.

Lemma safeOperand_spec s :
  match_string safeOperand s = true <-> s <> "" /\ str_forall safe_byte s = true.
Proof.
  unfold safeOperand. rewrite match_plus_ascii by solve_class_ascii. by rewrite safe_class_bytes.
Qed.

Lemma isAllowedArg_spec binary a arg :
  In a allowlist -> Binary a = binary -> isAllowedArg arg (AllowedArgs a) = true ->
  listed_flag binary arg \/ plain_operand arg.
Proof.
  intros Ha Hb. unfold isAllowedArg. destruct (has_prefix arg "-") eqn:Hp; simpl.
  - intros (f & Hf & Hm)%existsb_exists. left. split; [done|]. exists a, f.
    split_and!; [done..|]. apply orb_true_iff in Hm as [->%String.eqb_eq|[v ->]%has_prefix_iff];
      [by left|right; exists v; by rewrite str_app_assoc].
  - intros [[? ?]%safeOperand_spec Hdd%negb_true_iff]%andb_true_iff. by right.
Qed.

Lemma no_control_mono (p : ascii -> bool) s :
  (forall c, p c = true -> contains_byte control_bytes c = false) ->
  str_forall p s = true -> no_control s.
Proof.
  intros Hp. apply str_forall_mono. intros c Hc. by rewrite (Hp c Hc).
Qed.

Lemma safe_byte_no_control c : safe_byte c = true -> contains_byte control_bytes c = false.
Proof.
  intros H. apply not_true_is_false. rewrite contains_byte_iff. simpl.
  intros [<-|[<-|[<-|[]]]]; vm_compute in H; discriminate.
Qed.

(** *** Accepted [curl] and [test] commands *)

Definition curl_status : list string := ["-s"; "--max-time"; "1"; "http://127.0.0.1/nginx_status"].
Definition curl_probe (host : string) : list string :=
  ["-s"; "-o"; "/dev/null"; "-w"; "%{http_code}"; "-H"; "Host: " ++ host; "http://127.0.0.1/"].

Lemma host_class_bytes s :
  Forall (fun r => safeHostClass r = true) (runes s) <-> str_forall host_byte s = true.
Proof.
  rewrite runes_forall_ascii by solve_class_ascii.
  rewrite (str_forall_ext _ host_byte); [done|]. intros c.
  unfold safeHostClass, host_byte. by rewrite r_alnum_byte, one_of_byte.
Qed.

Lemma safeHost_lang w :
  lang safeHost w -> Forall (fun r => safeHostClass r = true) w /\ w <> [] /\ (length w <= 253)%nat.
Proof.
  assert (Hal : forall z, r_alnum z = true -> safeHostClass z = true)
    by (intros z Hz; unfold safeHostClass; by rewrite Hz).
  unfold safeHost, opt. intros (w1 & w2 & -> & (c & -> & Hc)%lang_cls & Hw)%lang_cat.
  apply lang_alt in Hw as [->%lang_eps|(m & e & -> & [Hm Hlen]%lang_upto_cls & (d & -> & Hd)%lang_cls)%lang_cat].
  - split_and!; [by repeat constructor; auto|done|simpl; lia].
  - split_and!; [|done|rewrite !length_app; simpl; lia].
    constructor; [by apply Hal|]. apply Forall_app. split; [done|]. repeat constructor. by apply Hal.
Qed.

Lemma safeHost_spec h :
  match_string safeHost h = true -> h <> "" /\ (len h <= 253)%Z /\ str_forall host_byte h = true.
Proof.
  intros H%match_string_lang. apply safeHost_lang in H as (Hf & Hne & Hlen).
  split_and!; [by rewrite <- runes_nil| |by apply host_class_bytes].
  rewrite runes_ascii, length_fmap, length_list_ascii in Hlen; [unfold len; lia|].
  eapply Forall_impl; [exact Hf|]. by solve_class_ascii.
Qed.

Lemma validateCurlArgs_spec args :
  validateCurlArgs args = Ok () ->
  args = curl_status \/ exists host, args = curl_probe host /\ plain_host host.
Proof.
  unfold validateCurlArgs. intros H. case_bool_decide as Hs; [by left|]. right.
  do 8 (destruct args as [|? args]; [done|]). destruct args; [|done].
  destruct (_ && String.eqb _ "http://127.0.0.1/") eqn:Hc; [|done].
  rewrite !andb_true_iff, !String.eqb_eq in Hc.
  destruct Hc as [[[[[[[-> ->] ->] ->] ->] ->] [h ->]%has_prefix_iff] ->].
  rewrite trim_prefix_app in H.
  destruct (match_string safeHost h && _) eqn:Hh; [|done].
  apply andb_true_iff in Hh as [(Hne & Hlen & Hf)%safeHost_spec Hdd%negb_true_iff].
  by exists h.
Qed.

Lemma socketPattern_operand s :
  match_string socketPattern s = true -> s <> "" /\ str_forall safe_byte s = true.
Proof.
  intros H. split; [by intros ->|]. rewrite <- safe_class_bytes. revert H.
  apply match_over; [solve_class_ascii|]. unfold socketPattern, plus, r_digit.
  assert (Hal : forall z, r_alnum z = true -> safeOperandClass z = true)
    by (intros z Hz; unfold safeOperandClass; by rewrite Hz).
  assert (Hdg : forall z, in_range 48 57 z = true -> safeOperandClass z = true)
    by (intros z Hz; apply Hal; unfold r_alnum, r_digit; by rewrite Hz, orb_true_r).
  cbn [over]. split_and!; try done; try (by apply over_lit).
  apply over_upto. intros z [Hz|Hz]%orb_true_iff; [by apply Hal|].
  apply existsb_exists in Hz as (c & Hin & <-%Z.eqb_eq). simpl in Hin.
  by destruct Hin as [<-|[<-|[]]].
Qed.

Lemma validateSocketTestArgs_spec args :
  validateSocketTestArgs args = Ok () ->
  exists sock, args = ["-S"; sock] /\ plain_operand sock.
Proof.
  unfold validateSocketTestArgs. destruct args as [|a0 [|a1 [|]]]; try done.
  destruct (String.eqb_spec a0 "-S") as [->|]; [|done]. cbn [negb].
  rewrite fail_if_ok. intros [Hm Hdd]%orb_false_iff. apply negb_false_iff in Hm.
  apply socketPattern_operand in Hm as [? ?]. by exists a1.
Qed.

(** ** Soundness of the validator *)

Section soundness.
Context `{Unicode}.

(** A [ufw] rule comment: the argument after the word "comment". *)
Definition rule_comment (args : list string) (i : nat) (arg : string) : Prop :=
  exists j, i = S j /\ args !! j = Some "comment" /\ match_string safeComment arg = true.

Lemma validateArg_spec binary a prev arg :
  In a allowlist -> Binary a = binary -> validateArg binary (AllowedArgs a) prev arg = Ok () ->
  no_control arg /\
  ((binary = "ufw" /\ prev = Some "comment" /\ match_string safeComment arg = true)
   \/ listed_flag binary arg \/ plain_operand arg).
Proof.
  intros Ha Hb. unfold validateArg. destruct (_ || contains_any arg control_bytes) eqn:Hm; [done|].
  apply orb_false_iff in Hm as [_ Hctl]. unfold contains_any in Hctl. apply str_exists_false in Hctl.
  intros Hr. split; [done|].
  destruct (_ && match_string safeComment arg) eqn:Hc.
  - left. by rewrite !andb_true_iff, String.eqb_eq, bool_decide_eq_true in Hc; destruct_and!.
  - right. apply fail_if_ok, negb_false_iff in Hr. by eapply isAllowedArg_spec.
Qed.

(** The part of [Validate] that all commands but [curl] and [test] go through. *)
Lemma validate_general binary args :
  binary <> "curl" -> binary <> "test" -> Validate binary args = Ok () ->
  exists a, In a allowlist /\ Binary a = binary /\
    for_each_prev None (validateArg binary (AllowedArgs a)) args = Ok () /\
    validateOperands binary args = Ok ().
Proof.
  intros Hc%String.eqb_neq Ht%String.eqb_neq. unfold Validate. destruct (_ || _); [done|].
  destruct (List.find _ _) as [a|] eqn:Hf; [|done].
  apply List.find_some in Hf as [Ha Hb%String.eqb_eq].
  rewrite Hc, Ht, bind_result_ok. intros ([] & H1 & H2). eauto.
Qed.

Lemma validate_binary binary args :
  Validate binary args = Ok () -> In binary (Binary <$> allowlist).
Proof.
  unfold Validate. destruct (_ || _); [done|].
  destruct (List.find _ _) as [a|] eqn:Hf; [|done].
  apply List.find_some in Hf as [Ha <-%String.eqb_eq]. intros _. by apply in_map.
Qed.

(** C1. The validator admits no argument that could change the meaning of the
    command line: a binary is started only if it is on the allowlist; [curl] is
    limited to the two local health probes; and every argument of any other
    command is a flag of that command's list, or an operand of letters, digits
    and [_@%+.,:/=-] without "..", or a [ufw] rule comment. *)
Theorem validate_sound binary args :
  Validate binary args = Ok () ->
  In binary (Binary <$> allowlist) /\
  (binary = "curl" /\
     (args = curl_status \/ exists host, args = curl_probe host /\ plain_host host)
   \/ binary <> "curl" /\ forall i arg, args !! i = Some arg ->
        listed_flag binary arg \/ plain_operand arg
        \/ binary = "ufw" /\ rule_comment args i arg).
Proof.
  intros Hv. split; [by eapply validate_binary|].
  destruct (decide (binary = "curl")) as [->|Hc].
  { left. split; [done|]. apply validateCurlArgs_spec. exact Hv. }
  right. split; [done|]. destruct (decide (binary = "test")) as [->|Ht].
  { apply validateSocketTestArgs_spec in Hv as (sock & -> & Hs).
    intros [|[|i]] arg Hi; simplify_eq/=; [left|by (right; left)].
    split; [done|]. exists {| Binary := "test"; AllowedArgs := ["-S"] |}, "-S".
    split_and!; [by (do 11 right; left)|done|by left|by left]. }
  destruct (validate_general _ _ Hc Ht Hv) as (a & Ha & Hb & Hf & _).
  intros i arg Hi. pose proof (proj1 (for_each_prev_ok _ _ _) Hf i arg Hi) as Harg.
  destruct (validateArg_spec _ _ _ _ Ha Hb Harg) as [_ [(-> & Hp & Hm)|[?|?]]]; [|by left|by (right; left)].
  right; right. split; [done|]. destruct i as [|j]; [done|]. by exists j.
Qed.

(** No argument of an accepted command holds a NUL, CR or LF byte. *)
Theorem validate_no_control binary args :
  Validate binary args = Ok () -> Forall no_control args.
Proof.
  intros Hv. assert (Hpo : forall s, plain_operand s -> no_control s).
  { intros s (_ & Hs & _). revert Hs. apply no_control_mono, safe_byte_no_control. }
  destruct (decide (binary = "curl")) as [->|Hc].
  { apply validateCurlArgs_spec in Hv as [->|(h & -> & _ & _ & Hh & _)]; repeat constructor.
    unfold no_control. rewrite str_forall_app. apply andb_true_iff. split; [done|]. revert Hh.
    apply str_forall_mono. intros c Hc. rewrite safe_byte_no_control; [done|].
    unfold safe_byte. unfold host_byte in Hc. apply orb_true_iff in Hc as [->|Hc]; [done|].
    apply orb_true_iff; right. apply contains_byte_iff. apply contains_byte_iff in Hc.
    simpl in *. tauto. }
  destruct (decide (binary = "test")) as [->|Ht].
  { apply validateSocketTestArgs_spec in Hv as (sock & -> & Hs). repeat constructor. by apply Hpo. }
  destruct (validate_general _ _ Hc Ht Hv) as (a & Ha & Hb & Hf & _).
  apply Forall_forall. intros arg [i Hi]%list_elem_of_lookup.
  pose proof (proj1 (for_each_prev_ok _ _ _) Hf i arg Hi) as Harg.
  by destruct (validateArg_spec _ _ _ _ Ha Hb Harg).
Qed.

(** ** Confinement of file operands *)

Lemma pathWithin_under path root l :
  root = abs l -> Forall good_comp l -> l <> [] -> pathWithin path root = true ->
  rooted path = true /\ l `prefix_of` clean_comps path.
Proof.
  intros -> Hl Hne. unfold pathWithin. rewrite orb_true_iff, String.eqb_eq, andb_true_iff, negb_true_iff.
  intros [->|[Hp Hdd]]; [|by apply prefix_no_dotdot_under].
  split; [apply abs_rooted|]. by rewrite clean_comps_abs.
Qed.

Lemma tail_under_log args :
  Validate "tail" args = Ok () ->
  Forall (fun arg => has_prefix arg "-" = true \/ match_string decimal arg = true
    \/ rooted arg = true /\ ["var"; "log"] `prefix_of` clean_comps arg) args.
Proof.
  intros Hv. destruct (validate_general "tail" args) as (a & _ & _ & _ & Ho); [done..|].
  apply for_each_ok in Ho. eapply Forall_impl; [exact Ho|]. intros arg Harg. simpl in Harg.
  destruct (has_prefix arg "-"); [by left|]. destruct (match_string decimal arg); [by (right; left)|].
  right; right. apply fail_if_ok, negb_false_iff in Harg.
  eapply pathWithin_under; [done| |done|exact Harg]. repeat constructor; done.
Qed.

Lemma openssl_in_managed args i path :
  Validate "openssl" args = Ok () -> args !! i = Some "-in" -> args !! S i = Some path ->
  rooted path = true /\
  (["etc"; "letsencrypt"] `prefix_of` clean_comps path
   \/ ["var"; "lib"; "opendeploy"] `prefix_of` clean_comps path).
Proof.
  intros Hv Hi Hs. destruct (validate_general "openssl" args) as (a & _ & _ & _ & Ho); [done..|].
  pose proof (proj1 (for_each_prev_ok _ _ _) Ho (S i) path Hs) as Hp. simpl in Hp.
  rewrite Hi, bool_decide_true, fail_if_ok, andb_false_iff, !negb_false_iff in Hp by done.
  destruct Hp as [Hp|Hp].
  - apply (pathWithin_under _ _ ["etc"; "letsencrypt"]) in Hp as [Hr Hu];
      [auto|done|repeat constructor; done|done].
  - apply (pathWithin_under _ _ ["var"; "lib"; "opendeploy"]) in Hp as [Hr Hu];
      [auto|done|repeat constructor; done|done].
Qed.

(** The programs that read files are confined: an accepted [tail] command names,
    besides flags and numbers, only rooted paths whose cleaned form lies under
    /var/log, and the file named after [-in] of an accepted [openssl] command lies
    in one of the two managed certificate roots. *)
Theorem readers_confined args :
  (Validate "tail" args = Ok () ->
   Forall (fun arg => has_prefix arg "-" = true \/ match_string decimal arg = true
     \/ rooted arg = true /\ ["var"; "log"] `prefix_of` clean_comps arg) args) /\
  (Validate "openssl" args = Ok () -> forall i path, args !! i = Some "-in" -> args !! S i = Some path ->
   rooted path = true /\
   (["etc"; "letsencrypt"] `prefix_of` clean_comps path
    \/ ["var"; "lib"; "opendeploy"] `prefix_of` clean_comps path)).
Proof. split; [apply tail_under_log|]. intros Hv i path. by apply openssl_in_managed. Qed.

(** The root check of [openssl] does not see a file given as [-in=path]: every
    such command is accepted, whatever the path. *)
Theorem openssl_inline_path_unchecked path :
  no_control path -> (len path <= 4000)%Z ->
  Validate "openssl" ["x509"; "-in=" ++ path; "-noout"] = Ok ().
Proof.
  intros Hc Hl. set (flags := ["x509"; "-in"; "-noout"; "-issuer"; "-subject"; "-dates";
    "-ext"; "subjectAltName"]).
  change (Validate "openssl" ?args) with
    (for_each_prev None (validateArg "openssl" flags) args ;? validateOperands "openssl" args).
  assert (Harg : validateArg "openssl" flags (Some "x509") ("-in=" ++ path) = Ok ()).
  { unfold validateArg.
    assert (Hctl : contains_any ("-in=" ++ path) control_bytes = false)
      by (apply str_exists_false; rewrite str_forall_app; by rewrite Hc).
    assert (Hlen : (maxCommandArgument <? len ("-in=" ++ path))%Z = false)
      by (rewrite len_app; unfold maxCommandArgument; change (len "-in=") with 4%Z; lia).
    rewrite Hctl, Hlen. by destruct path. }
  cbn [for_each_prev]. rewrite Harg. by destruct path.
Qed.
(** The allowlist's non-flag keywords restrict nothing: any word of letters,
    digits and [_.@-] is accepted as the only argument of [systemctl], a verb
    that is not on its list included. *)
Lemma systemctl_any_verb word :
  match_string safeService word = true -> has_prefix word "-" = false ->
  contains word ".." = false -> (len word <= maxCommandArgument)%Z ->
  Validate "systemctl" [word] = Ok ().
Proof.
  intros Hm Hp Hdd Hl.
  assert (Hs : word <> "" /\ str_forall safe_byte word = true).
  { split; [intros ->; by vm_compute in Hm|]. rewrite <- safe_class_bytes. revert Hm.
    apply match_over; [solve_class_ascii|]. unfold safeService, plus. cbn [over].
    assert (Hin : forall z, safeServiceClass z = true -> safeOperandClass z = true); [|done].
    intros z [Hz|Hz]%orb_true_iff; unfold safeOperandClass; [by rewrite Hz|].
    apply orb_true_iff. right. apply existsb_exists in Hz as (c & Hc & <-%Z.eqb_eq).
    simpl in Hc. by repeat destruct Hc as [<-|Hc]. }
  assert (Hno : contains_any word control_bytes = false).
  { apply str_exists_false. destruct Hs as [_ Hs]. revert Hs.
    apply no_control_mono, safe_byte_no_control. }
  apply safeOperand_spec in Hs as Hop.
  set (flags := ["start"; "stop"; "restart"; "reload"; "enable"; "disable"; "status";
    "is-active"; "is-enabled"; "daemon-reload"; "show"; "-p"; "--property"; "SubState"; "--value"]).
  change (Validate "systemctl" ?args) with
    (for_each_prev None (validateArg "systemctl" flags) args ;? validateOperands "systemctl" args).
  assert (Hv : validateArg "systemctl" flags None word = Ok ()).
  { unfold validateArg, isAllowedArg. destruct Hs as [Hne%String.eqb_neq _].
    assert ((maxCommandArgument <? len word)%Z = false) as -> by lia.
    rewrite Hne, Hno, Hp, Hop, Hdd. done. }
  cbn [for_each_prev]. rewrite Hv. cbn [bind_result].
  change (validateOperands "systemctl" [word]) with
    (for_each (fun arg =>
      if has_prefix arg "-" || isSystemdAction arg || String.eqb arg "SubState" then Ok ()
      else fail_if (negb (match_string safeService arg)) InvalidServiceOperand) [word]).
  cbn [for_each]. rewrite Hm. by destruct (_ || _).
Qed.
End soundness.

(** ** Output limits *)

Definition concat_all (l : list string) : string := fold_right String.append "" l.

Lemma maxCommandOutput_pos : (0 < maxCommandOutput)%Z.
Proof. done. Qed.
#[local] Opaque maxCommandOutput.

Lemma buffer_Write_take b total p :
  buffer b = take_bytes (Z.to_nat maxCommandOutput) total ->
  buffer (buffer_Write b p) = take_bytes (Z.to_nat maxCommandOutput) (total ++ p).
Proof.
  pose proof maxCommandOutput_pos as Hm. intros Hb. rewrite take_bytes_app. unfold buffer_Write.
  assert (Hl : len (buffer b) = Z.min maxCommandOutput (len total)).
  { rewrite Hb. unfold len. rewrite take_bytes_length. lia. }
  destruct (Z.ltb_spec 0 (maxCommandOutput - len (buffer b))) as [Hr|Hr].
  - assert (Ht : len total = len (buffer b)) by lia. unfold len in Ht.
    destruct (Z.ltb_spec (maxCommandOutput - len (buffer b)) (len p)) as [Hp|Hp];
      simpl; rewrite <- Hb; f_equal.
    + f_equal. unfold len in *. lia.
    + symmetry. apply take_bytes_all. unfold len in *. lia.
  - simpl. rewrite <- Hb. replace (_ - _) with 0 by (unfold len in *; lia).
    by rewrite str_app_nil_r.
Qed.

Lemma buffer_truncated_mono b p : truncated b = true -> truncated (buffer_Write b p) = true.
Proof. intros Hb. unfold buffer_Write. by repeat case_match. Qed.

(** The captured output of a process is the first mebibyte of what it wrote,
    whatever the sizes of the writes, and nothing is lost unless it is marked. *)
Theorem captured_output ws :
  let b := fold_left buffer_Write ws empty_buffer in
  buffer b = take_bytes (Z.to_nat maxCommandOutput) (concat_all ws) /\
  (truncated b = false -> buffer b = concat_all ws).
Proof.
  cbv zeta.
  enough (Hgen : forall ws b total,
    buffer b = take_bytes (Z.to_nat maxCommandOutput) total ->
    (truncated b = false -> buffer b = total) ->
    let c := fold_left buffer_Write ws b in
    buffer c = take_bytes (Z.to_nat maxCommandOutput) (total ++ concat_all ws) /\
    (truncated c = false -> buffer c = total ++ concat_all ws)).
  { by apply (Hgen ws empty_buffer ""). }
  clear ws. induction ws as [|p ws IH]; intros b total Hb Ht; simpl.
  { by rewrite !str_app_nil_r. }
  rewrite <- str_app_assoc. apply IH; [by apply buffer_Write_take|].
  intros Hf. destruct (truncated b) eqn:Htb; [by rewrite buffer_truncated_mono in Hf|].
  unfold buffer_Write in *. rewrite (Ht eq_refl) in *. repeat case_match; simpl in *; done.
Qed.

Lemma buffer_Write_length b p :
  (len (buffer b) <= maxCommandOutput)%Z -> (len (buffer (buffer_Write b p)) <= maxCommandOutput)%Z.
Proof.
  intros Hb. unfold buffer_Write. destruct (Z.ltb_spec 0 (maxCommandOutput - len (buffer b))); [|done].
  destruct (Z.ltb_spec (maxCommandOutput - len (buffer b)) (len p)); cbn [buffer]; rewrite len_app; [|lia].
  unfold len in *. rewrite take_bytes_length. lia.
Qed.

Lemma captured_output_length ws :
  (len (buffer (fold_left buffer_Write ws empty_buffer)) <= maxCommandOutput)%Z.
Proof.
  assert (H0 : (len (buffer empty_buffer) <= maxCommandOutput)%Z)
    by (change (len _) with 0%Z; pose proof maxCommandOutput_pos; lia).
  revert H0. generalize empty_buffer. induction ws as [|p ws IH]; intros b Hb; simpl; [done|].
  by apply IH, buffer_Write_length.
Qed.

(** *** Lines *)

Definition nl : ascii := ascii_of_nat 10.

(** The lines of a text; a last line without terminator counts when non-empty. *)
Fixpoint drop_last_empty (l : list string) : list string :=
  match l with
  | [] => []
  | [x] => if String.eqb x "" then [] else [x]
  | x :: l' => x :: drop_last_empty l'
  end.
Definition lines (s : string) : list string := drop_last_empty (split nl s).

Definition prepend (line : string) (l : list string) : list string :=
  match l with h :: t => (line ++ h) :: t | [] => [] end.

Lemma stream_lines_from prefix s line emitted sent :
  (0 <= emitted)%Z -> (emitted + len line + len s <= maxCommandOutput)%Z ->
  stream_eof (fun _ => true) prefix
    (fold_left (stream_byte (fun _ => true) prefix) (String.list_ascii_of_string s)
      (Reading line emitted sent))
  = (sent ++ (String.append prefix <$> drop_last_empty (prepend line (split nl s))))%list.
Proof.
  revert line emitted sent; induction s as [|b s IH]; intros line emitted sent He Hlen.
  - cbn [String.list_ascii_of_string fold_left stream_eof split prepend].
    rewrite str_app_nil_r. change (len "") with 0%Z in Hlen.
    destruct line as [|c line]; [by rewrite app_nil_r|].
    change (0 <? len (String c line))%Z with true. cbn [andb].
    assert ((emitted + len (String c line) <=? maxCommandOutput)%Z = true) as -> by lia.
    done.
  - rewrite len_String in Hlen. pose proof (len_nonneg s).
    cbn [String.list_ascii_of_string fold_left split stream_byte].
    change (ascii_of_nat 10) with nl. pose proof (len_nonneg line). destruct (Ascii.eqb b nl).
    + assert ((maxCommandOutput <? emitted + len line)%Z = false) as -> by lia.
      cbn -[len]. rewrite IH by (change (len "") with 0%Z; lia). rewrite <- app_assoc. f_equal.
      rewrite str_app_nil_r. cbn [prepend].
      destruct (split nl s) eqn:Hs; [by apply split_nonnil in Hs|]. done.
    + assert ((len line <? maxCommandOutput)%Z = true) as -> by lia.
      rewrite IH by (rewrite ?len_app, ?len_String; change (len "") with 0%Z; lia).
      f_equal. f_equal.
      destruct (split nl s) as [|h t] eqn:Hs; [by apply split_nonnil in Hs|].
      cbn [prepend]. by rewrite str_app_assoc.
Qed.

Lemma stream_chunks accept prefix chunks st :
  fold_left (fun st chunk =>
      fold_left (stream_byte accept prefix) (String.list_ascii_of_string chunk) st) chunks st
  = fold_left (stream_byte accept prefix) (String.list_ascii_of_string (concat_all chunks)) st.
Proof.
  revert st; induction chunks as [|c chunks IH]; intros st; simpl; [done|].
  by rewrite IH, list_ascii_app, fold_left_app.
Qed.

(** Streaming a process's output whose receiver keeps up sends its lines, in
    order and each with the prefix, however the reads cut the text, as long as
    the text fits in the output limit. *)
Theorem stream_lines_exact prefix chunks :
  (len (concat_all chunks) <= maxCommandOutput)%Z ->
  streamLines (fun _ => true) prefix chunks
  = String.append prefix <$> lines (concat_all chunks).
Proof.
  intros Hlen. unfold streamLines. rewrite stream_chunks, stream_lines_from by (unfold len in *; simpl; lia).
  unfold lines. by destruct (split nl (concat_all chunks)).
Qed.

Fixpoint payload_total (prefix : string) (sent : list string) : Z :=
  match sent with
  | [] => 0
  | m :: sent' => (len m - len prefix) + payload_total prefix sent'
  end.

Definition stream_ok (prefix : string) (st : stream_state) : Prop :=
  match st with
  | Reading line emitted sent =>
      payload_total prefix sent = emitted /\ (emitted <= maxCommandOutput)%Z
  | Finished sent =>
      (payload_total prefix sent <= maxCommandOutput)%Z \/
      exists l, sent = (l ++ ["[output truncated]"])%list /\
        (payload_total prefix l <= maxCommandOutput)%Z
  end.

Lemma payload_snoc prefix l m :
  payload_total prefix (l ++ [m])%list = (payload_total prefix l + (len m - len prefix))%Z.
Proof. induction l as [|x l IH]; cbn [app payload_total]; lia. Qed.

Lemma stream_byte_ok accept prefix st b :
  stream_ok prefix st -> stream_ok prefix (stream_byte accept prefix st b).
Proof.
  destruct st as [line emitted sent|sent]; [|done]. intros [Ht Hm]. unfold stream_byte.
  destruct (Ascii.eqb b _); [|by case_match].
  destruct (Z.ltb_spec maxCommandOutput (emitted + len line)) as [Hlt|Hge].
  - unfold try_send. destruct (accept (length sent)); simpl;
      [right; exists sent|left]; rewrite ?Ht; auto.
  - unfold try_send. destruct (accept (length sent)); cbn [snd stream_ok]; [|left; lia].
    rewrite payload_snoc, len_app. lia.
Qed.

(** Whatever a process prints and whatever the receiver does, the lines
    streamed to it total at most a mebibyte, apart from one truncation notice. *)
Theorem stream_lines_bounded accept prefix chunks :
  let sent := streamLines accept prefix chunks in
  (payload_total prefix sent <= maxCommandOutput)%Z \/
  exists l, sent = (l ++ ["[output truncated]"])%list /\
    (payload_total prefix l <= maxCommandOutput)%Z.
Proof.
  cbv zeta. unfold streamLines. rewrite stream_chunks.
  assert (Hok : stream_ok prefix (fold_left (stream_byte accept prefix)
    (String.list_ascii_of_string (concat_all chunks)) (Reading "" 0 []))).
  { assert (H0 : stream_ok prefix (Reading "" 0 []))
      by (split; [done|pose proof maxCommandOutput_pos; lia]). revert H0.
    generalize (Reading "" 0 []). induction (String.list_ascii_of_string _) as [|b l IH]; [done|].
    intros st Hst. simpl. by apply IH, stream_byte_ok. }
  destruct (fold_left _ _ _) as [line emitted sent|sent]; simpl in *; [|done].
  destruct Hok as [Ht Hm]. left. destruct (_ && _) eqn:Hb; [|lia].
  unfold try_send. destruct (accept (length sent)); cbn [snd]; [|lia].
  rewrite payload_snoc, len_app. lia.
Qed.

(** ** Running *)

Section running.
Context `{Unicode}.

(** [Run] starts a process only for a command the validator accepts, with the
    arguments unchanged and the fixed environment, and never returns more than
    a mebibyte (and the truncation notice) of each output stream. *)
Theorem run_guarded ctx_deadline binary args :
  always
    (fun X (e : exec_call X) =>
       match e with
       | TimeNow => True
       | CmdRun _ b a env =>
           b = binary /\ a = args /\ Validate b a = Ok () /\
           env = restrictedEnvironment "/usr/sbin:/usr/bin:/sbin:/bin"
       end)
    (fun r => match fst r with
       | None => Validate binary args <> Ok ()
       | Some res => (len (Stdout res) <= maxCommandOutput + 19)%Z /\
                     (len (Stderr res) <= maxCommandOutput + 19)%Z
       end)
    (Run ctx_deadline binary args).
Proof.
  assert (Hcol : forall ws, (len (collect ws) <= maxCommandOutput + 19)%Z).
  { intros ws. unfold collect, buffer_String.
    pose proof (captured_output_length ws) as Hl.
    destruct (truncated _); rewrite ?len_app; change (len newline) with 1%Z;
      change (len "[output truncated]") with 18%Z; lia. }
  unfold Run. destruct (Validate binary args) as [[]|e] eqn:Hv; simpl; [|done].
  split; [done|]. intros now. split; [done|]. intros p.
  destruct (p_error p); [destruct (p_deadline_exceeded p)|]; simpl; auto.
Qed.
End running.

(** ** Witnesses *)

Lemma validate_sound_witness :
  @Validate unicode_ascii "systemctl" ["restart"; "nginx.service"] = Ok () /\
  In "systemctl" (Binary <$> allowlist).
Proof.
  split; [vm_compute; reflexivity|].
  exact (proj1 (@validate_sound unicode_ascii "systemctl" ["restart"; "nginx.service"]
    ltac:(vm_compute; reflexivity))).
Defined.

Lemma validate_no_control_witness :
  Forall no_control ["-s"; "-o"; "/dev/null"; "-w"; "%{http_code}"; "-H"; "Host: a.example"; "http://127.0.0.1/"].
Proof.
  exact (@validate_no_control unicode_ascii "curl" (curl_probe "a.example")
    ltac:(vm_compute; reflexivity)).
Defined.

Lemma openssl_inline_path_unchecked_witness :
  @Validate unicode_ascii "openssl" ["x509"; "-in=/etc/ssl/private/host.key"; "-noout"] = Ok ().
Proof.
  exact (@openssl_inline_path_unchecked unicode_ascii "/etc/ssl/private/host.key"
    ltac:(vm_compute; reflexivity) ltac:(vm_compute; discriminate)).
Defined.

Lemma systemctl_any_verb_witness :
  @Validate unicode_ascii "systemctl" ["poweroff"] = Ok () /\ isSystemdAction "poweroff" = false.
Proof.
  split; [|reflexivity].
  exact (@systemctl_any_verb unicode_ascii "poweroff" ltac:(vm_compute; reflexivity)
    ltac:(vm_compute; reflexivity) ltac:(vm_compute; reflexivity) ltac:(vm_compute; discriminate)).
Defined.

Lemma stream_lines_exact_witness :
  streamLines (fun _ => true) "> " ["one" ++ newline ++ "tw"; "o"] = ["> one"; "> two"].
Proof.
  rewrite (stream_lines_exact "> " ["one" ++ newline ++ "tw"; "o"]); [reflexivity|].
  vm_compute. discriminate.
Defined.
