(* ===== verification/Filesystem.v ===== *)
(** * The Agent's filesystem boundary

    src/internal/agent/filesystem: path validation (path_resolver.go) and the
    file operations of the root Agent (manager.go).  Queries ([Lstat],
    [EvalSymlinks]) read a snapshot of the file system; every other system call
    is a call of the program tree, in the order of the source. *)

From S2P Require Import Prelude GoStrings GoPath Effects.
Local Open Scope string_scope.
Local Open Scope go_scope.

(** ** State and errors *)

(** source: internal/agent/filesystem/manager.go:13-32 (AllowedRoots) *)
Definition AllowedRoots : list string := [
  "/etc/nginx/nginx.conf";
  "/etc/nginx/conf.d";
  "/etc/nginx/snippets";
  "/etc/nginx/mime.types";
  "/etc/nginx/sites-available";
  "/etc/nginx/sites-enabled";
  "/etc/apache2/sites-available";
  "/etc/apache2/sites-enabled";
  "/etc/php";
  "/etc/fail2ban/jail.d";
  "/etc/fail2ban/filter.d";
  "/var/www";
  "/var/lib/opendeploy";
  "/var/log/nginx";
  "/var/log/fail2ban.log";
  "/srv" ].

(** source: internal/agent/filesystem/manager.go:34-37 (Manager) *)
Record Manager := { allowedRoots : list string }.

(** source: internal/agent/filesystem/manager.go:39-44 (NewManager) *)
Definition NewManager : Manager := {| allowedRoots := AllowedRoots |}.

Inductive lstat_result := LstatOk | LstatNotExist | LstatError (e : string).

(** The part of the operating system the path checks query. *)
Record fs_view := {
  lstat : string -> lstat_result;
  eval_symlinks : string -> result string string;
}.

Inductive fs_error :=
| NotAbsolute
| Traversal (path : string)
| OutsideAllowed (path : string)
| InspectError (path e : string)
| NoExistingParent (path : string)
| ResolveError (path e : string)
| SymlinkEscapes (e : fs_error)
| InvalidSuffix
| UnsafePermissionBits (mode : Z)
| RefusingRoot
| RootOwnership
| OsError (operation path e : string)
| LoopExhausted.

(** ** Path validation *)

(** source: internal/agent/filesystem/path_resolver.go:16-32 (validatePathWithin) *)
Definition validatePathWithin (path : string) (roots : list string) : result fs_error string :=
  if negb (is_abs path) && negb (has_prefix path "/") then Err NotAbsolute
  else
    let c := clean path in
    if contains path ".." then Err (Traversal path)
    else if existsb (fun root => rel_inside (rel (clean root) c)) roots then Ok c
    else Err (OutsideAllowed c).

(** source: internal/agent/filesystem/path_resolver.go:12-14 (validatePath) *)
Definition validatePath (path : string) : result fs_error string :=
  validatePathWithin path AllowedRoots.

Section manager.
Variables (m : Manager) (v : fs_view).

(** source: internal/agent/filesystem/path_resolver.go:86-88 (Manager.validatePath) *)
Definition m_validatePath (path : string) : result fs_error string :=
  validatePathWithin path (allowedRoots m).

(** source: internal/agent/filesystem/path_resolver.go:73-84 (resolvedRoots) *)
Definition resolvedRoots : list string :=
  (fun root => match eval_symlinks v root with Ok r => r | Err _ => clean root end)
    <$> allowedRoots m.

(** source: internal/agent/filesystem/path_resolver.go:41-55 (securePath, the loop):
    the nearest existing ancestor *)
Fixpoint nearest_existing (fuel : nat) (original existing : string) : result fs_error string :=
  match fuel with
  | 0 => Err LoopExhausted
  | S fuel' =>
      match lstat v existing with
      | LstatOk => Ok existing
      | LstatError e => Err (InspectError existing e)
      | LstatNotExist =>
          let parent := dir existing in
          if String.eqb parent existing then Err (NoExistingParent original)
          else nearest_existing fuel' original parent
      end
  end.

(** source: internal/agent/filesystem/path_resolver.go:34-71 (securePath) *)
Definition securePath (path : string) : result fs_error string :=
  let? c := m_validatePath path in
  let? existing := nearest_existing (S (length (clean_comps c))) c c in
  let? resolved := map_err (ResolveError existing) (eval_symlinks v existing) in
  let? _ := map_err SymlinkEscapes (validatePathWithin resolved resolvedRoots) in
  if String.eqb existing c then Ok resolved
  else match rel existing c with
       | None => Err InvalidSuffix
       | Some suffix =>
           if has_prefix suffix ".." then Err InvalidSuffix else Ok (path_join resolved suffix)
       end.

(** source: internal/agent/filesystem/path_resolver.go:90-93 (Resolve) *)
Definition Resolve (path : string) : result fs_error string := securePath path.
End manager.

(** ** System calls *)

(** An open temporary file: the directory and the name [os.CreateTemp] chose. *)
Record tmpfile := { tmp_dir : string; tmp_name : string }.

Record file_info := {
  fi_size : Z; fi_mode : Z; fi_modtime : Z; fi_owner : string; fi_group : string }.
Record dir_entry := { de_name : string; de_isdir : bool; de_info : option file_info }.

Inductive fs_call : Set -> Set :=
| ReadFile (path : string) : fs_call (result string string)
| OsMkdirAll (path : string) (mode : Z) : fs_call (result string ())
| CreateTemp (dir pattern : string) : fs_call (result string tmpfile)
| TmpChmod (t : tmpfile) (mode : Z) : fs_call (result string ())
| TmpWrite (t : tmpfile) (content : string) : fs_call (result string ())
| TmpSync (t : tmpfile) : fs_call (result string ())
| TmpClose (t : tmpfile) : fs_call (result string ())
| TmpRename (t : tmpfile) (path : string) : fs_call (result string ())
| TmpRemove (t : tmpfile) : fs_call (result string ())
| OpenDir (path : string) : fs_call (result string ())
| SyncDir (path : string) : fs_call (result string ())
| CloseDir (path : string) : fs_call ()
| RemoveAll (path : string) : fs_call (result string ())
| ReadDir (path : string) : fs_call (result string (list dir_entry))
| OsRename (old new : string) : fs_call (result string ())
| OpenRead (path : string) : fs_call (result string ())
| StatOpen (path : string) : fs_call (result string Z)
| OpenWrite (path : string) (mode : Z) : fs_call (result string ())
| CopyData (dst src : string) : fs_call (result string ())
| SyncFile (path : string) : fs_call (result string ())
| CloseFile (path : string) : fs_call ()
| OsChmod (path : string) (mode : Z) : fs_call (result string ())
| OsChown (path : string) (uid gid : Z) : fs_call (result string ()).

Definition perm (mode : Z) : Z := Z.land mode 511.

(** source: internal/agent/filesystem/manager.go:269-274 (validateMode) *)
Definition validateMode (mode : Z) : result fs_error () :=
  if (perm mode =? 0)%Z || negb (Z.ldiff mode 511 =? 0)%Z || negb (Z.land (perm mode) 2 =? 0)%Z
  then Err (UnsafePermissionBits mode) else Ok ().

(** source: internal/agent/filesystem/syncdir_unix.go:7-14 (syncDirectory) *)
Definition syncDirectory (path : string) : prog fs_call (result string ()) :=
  try! _ := call (OpenDir path) in
  let! r := call (SyncDir path) in
  ignore! call (CloseDir path) in
  Ret r.

(** ** Operations *)

Section operations.
Variables (m : Manager) (v : fs_view).

(** [clean, err := m.securePath(path); if err != nil { return err }] *)
Definition with_secure {A} (path : string) (k : string -> prog fs_call (result fs_error A)) :
    prog fs_call (result fs_error A) :=
  match securePath m v path with Ok c => k c | Err e => Ret (Err e) end.

Definition with_mode {A} (mode : Z) (k : prog fs_call (result fs_error A)) :
    prog fs_call (result fs_error A) :=
  match validateMode mode with Ok _ => k | Err e => Ret (Err e) end.

(** source: internal/agent/filesystem/manager.go:46-57 (Read) *)
Definition Read (path : string) : prog fs_call (result fs_error string) :=
  with_secure path (fun c =>
    wrap! (OsError "read" c) of data := call (ReadFile c) in
    Ret (Ok data)).

(** source: internal/agent/filesystem/manager.go:80-103 (Write, after the temporary
    file is open) *)
Definition write_body (c parent : string) (t : tmpfile) (content : string) (mode : Z) :
    prog fs_call (result fs_error ()) :=
  let fail := fun operation e =>
    ignore! call (TmpClose t) in Ret (Err (OsError operation c e)) in
  let! r := call (TmpChmod t (perm mode)) in
  match r with Err e => fail "chmod temporary file for" e | Ok _ =>
  let! r := call (TmpWrite t content) in
  match r with Err e => fail "write temporary file for" e | Ok _ =>
  let! r := call (TmpSync t) in
  match r with Err e => fail "sync temporary file for" e | Ok _ =>
  wrap! (OsError "close temporary file for" c) of _ := call (TmpClose t) in
  wrap! (OsError "replace" c) of _ := call (TmpRename t c) in
  wrap! (OsError "sync parent directory for" c) of _ := syncDirectory parent in
  Ret (Ok ())
  end end end.

(** source: internal/agent/filesystem/manager.go:59-104 (Write); the deferred
    [os.Remove] runs after every outcome once the temporary file exists *)
Definition Write (path content : string) (mode : Z) : prog fs_call (result fs_error ()) :=
  with_mode mode (with_secure path (fun c =>
    wrap! (OsError "mkdir for" c) of _ := call (OsMkdirAll (dir c) 493) in
    let parent := dir c in
    wrap! (OsError "create temporary file for" c) of t :=
      call (CreateTemp parent ("." ++ base c ++ ".tmp-*")) in
    let! r := write_body c parent t content mode in
    ignore! call (TmpRemove t) in
    Ret r)).

(** source: internal/agent/filesystem/manager.go:106-121 (Delete) *)
Definition Delete (path : string) : prog fs_call (result fs_error ()) :=
  with_secure path (fun c =>
    if existsb (String.eqb c) (resolvedRoots m v) then Ret (Err RefusingRoot)
    else wrap! (OsError "delete" c) of _ := call (RemoveAll c) in Ret (Ok ())).

(** source: internal/agent/filesystem/manager.go:123-136 (MkdirAll) *)
Definition MkdirAll (path : string) (mode : Z) : prog fs_call (result fs_error ()) :=
  with_mode mode (with_secure path (fun c =>
    wrap! (OsError "mkdir" c) of _ := call (OsMkdirAll c mode) in Ret (Ok ()))).

(** source: internal/agent/filesystem/manager.go:138-148 (FileEntry) *)
Record FileEntry := {
  fe_Name : string; fe_Path : string; fe_IsDir : bool; fe_Size : Z; fe_Mode : Z;
  fe_ModTime : Z; fe_Owner : string; fe_Group : string }.

(** source: internal/agent/filesystem/manager.go:161-180 (List, the loop): an entry
    whose [Info] fails is skipped *)
Definition list_entries (c : string) (entries : list dir_entry) : list FileEntry :=
  omap (fun e => match de_info e with
    | None => None
    | Some i => Some {| fe_Name := de_name e; fe_Path := path_join c (de_name e);
        fe_IsDir := de_isdir e; fe_Size := fi_size i; fe_Mode := fi_mode i;
        fe_ModTime := fi_modtime i; fe_Owner := fi_owner i; fe_Group := fi_group i |}
    end) entries.

(** source: internal/agent/filesystem/manager.go:150-182 (List) *)
Definition List (path : string) : prog fs_call (result fs_error (list FileEntry)) :=
  with_secure path (fun c =>
    wrap! (OsError "list" c) of entries := call (ReadDir c) in
    Ret (Ok (list_entries c entries))).

(** source: internal/agent/filesystem/manager.go:184-198 (Rename) *)
Definition Rename (oldPath newPath : string) : prog fs_call (result fs_error ()) :=
  with_secure oldPath (fun cleanOld => with_secure newPath (fun cleanNew =>
    wrap! (OsError "rename" cleanOld) of _ := call (OsRename cleanOld cleanNew) in Ret (Ok ()))).

(** source: internal/agent/filesystem/manager.go:217-236 (Copy, once the source is
    open; [src.Close] and [dst.Close] are deferred) *)
Definition copy_body (cleanSrc cleanDst : string) : prog fs_call (result fs_error ()) :=
  wrap! (OsError "stat src" cleanSrc) of mode := call (StatOpen cleanSrc) in
  wrap! (OsError "mkdir for dst" cleanDst) of _ := call (OsMkdirAll (dir cleanDst) 493) in
  let dstMode := Z.ldiff (perm mode) 18 in
  wrap! (OsError "open dst" cleanDst) of _ := call (OpenWrite cleanDst dstMode) in
  let! r :=
    wrap! (OsError "copy" cleanSrc) of _ := call (CopyData cleanDst cleanSrc) in
    wrap! (OsError "sync" cleanDst) of _ := call (SyncFile cleanDst) in
    Ret (Ok ()) in
  ignore! call (CloseFile cleanDst) in
  Ret r.

(** source: internal/agent/filesystem/manager.go:200-237 (Copy) *)
Definition Copy (srcPath dstPath : string) : prog fs_call (result fs_error ()) :=
  with_secure srcPath (fun cleanSrc => with_secure dstPath (fun cleanDst =>
    wrap! (OsError "open src" cleanSrc) of _ := call (OpenRead cleanSrc) in
    let! r := copy_body cleanSrc cleanDst in
    ignore! call (CloseFile cleanSrc) in
    Ret r)).

(** source: internal/agent/filesystem/manager.go:239-252 (Chmod) *)
Definition Chmod (path : string) (mode : Z) : prog fs_call (result fs_error ()) :=
  with_secure path (fun c => with_mode mode (
    wrap! (OsError "chmod" c) of _ := call (OsChmod c (perm mode)) in Ret (Ok ()))).

(** source: internal/agent/filesystem/manager.go:254-267 (Chown) *)
Definition Chown (path : string) (uid gid : Z) : prog fs_call (result fs_error ()) :=
  with_secure path (fun c =>
    if (uid <=? 0)%Z || (gid <=? 0)%Z then Ret (Err RootOwnership)
    else wrap! (OsError "chown" c) of _ := call (OsChown c uid gid) in Ret (Ok ())).
End operations.

(** ** Path validation: specification *)

(** [p] is a rooted path whose cleaned form lies at or below one of [roots]. *)
Definition within (roots : list string) (p : string) : Prop :=
  rooted p = true /\
  exists r, In r roots /\ rooted r = true /\ clean_comps r `prefix_of` clean_comps p.

Lemma clean_comps_clean p : rooted p = true -> clean_comps (clean p) = clean_comps p.
Proof. intros Hr. rewrite clean_rooted by done. by apply clean_comps_abs, clean_comps_good. Qed.

Lemma rooted_clean p : rooted (clean p) = rooted p.
Proof.
  destruct (rooted p) eqn:Hr; [|by apply clean_unrooted].
  rewrite clean_rooted by done. apply abs_rooted.
Qed.

Lemma within_clean roots p : within roots (clean p) <-> within roots p.
Proof.
  unfold within. rewrite rooted_clean. split; intros [Hr H]; rewrite clean_comps_clean in * by done; done.
Qed.

Lemma root_check_within roots p :
  rooted p = true ->
  existsb (fun root => rel_inside (rel (clean root) (clean p))) roots = true <-> within roots p.
Proof.
  intros Hp. unfold within. rewrite existsb_exists. split.
  - intros (r & Hin & Hr). split; [done|]. exists r. split; [done|].
    destruct (rooted r) eqn:Hrr.
    + split; [done|]. apply rel_inside_iff in Hr; [|by rewrite rooted_clean..].
      by rewrite !clean_comps_clean in Hr.
    + rewrite rel_unrooted in Hr; by rewrite ?rooted_clean.
  - intros (_ & r & Hin & Hr & Hpre). exists r. split; [done|].
    apply rel_inside_iff; rewrite ?rooted_clean; [done..|]. by rewrite !clean_comps_clean.
Qed.

(** The lexical check decides its specification: a path is accepted, and
    then returned cleaned, exactly when it is absolute, holds no ".." and its
    components extend those of an allowed root. *)
Lemma validatePathWithin_iff path roots c :
  validatePathWithin path roots = Ok c <->
  rooted path = true /\ contains path ".." = false /\ within roots path /\ c = clean path.
Proof.
  unfold validatePathWithin, is_abs. change (has_prefix path "/") with (rooted path).
  destruct (rooted path) eqn:Hr; simpl; [|split; [done|by intros [? _]]].
  destruct (contains path ".."); [split; [done|by intros (_ & ? & _)]|].
  pose proof (root_check_within roots path Hr) as Hw.
  destruct (existsb _ roots); split; intuition congruence.
Qed.

(** ** Symlink resolution *)

Section secure.
Variables (m : Manager) (v : fs_view).

(** The loop starts from a cleaned path and climbs one component at a time. *)
Lemma nearest_existing_spec fuel original l r :
  Forall good_comp l -> nearest_existing v fuel original (abs l) = r ->
  (length l < fuel -> r <> Err LoopExhausted) /\
  (forall p, r = Ok p -> exists k, k `prefix_of` l /\ p = abs k).
Proof.
  revert l r; induction fuel as [|fuel IH]; intros l r Hl; simpl.
  { intros <-. split; [lia|done]. }
  destruct (lstat v (abs l)) eqn:Hst.
  - intros <-. split; [done|]. intros p [= <-]. by exists l.
  - destruct l as [|y l0] using rev_ind.
    { rewrite dir_root, String.eqb_refl. intros <-. done. }
    clear IHl0. rewrite dir_abs_snoc by done.
    destruct (String.eqb_spec (abs l0) (abs (l0 ++ [y])%list)); [intros <-; done|].
    apply Forall_app in Hl as [Hl0 _]. intros Hr. destruct (IH l0 r Hl0 Hr) as [Hne Hp].
    split; [rewrite length_app; simpl; intros; apply Hne; lia|].
    intros p Hpp. destruct (Hp p Hpp) as (k & Hk & ->). exists k. split; [|done].
    etrans; [exact Hk|]. by apply prefix_app_r.
  - intros <-. done.
Qed.

Lemma rel_abs_suffix k t :
  Forall good_comp (k ++ t)%list -> t <> [] -> rel (abs k) (abs (k ++ t)%list) = Some (join "/" t).
Proof.
  intros Hg Ht. pose proof Hg as Hg'. apply Forall_app in Hg' as [Hk _].
  unfold rel. rewrite !clean_abs by done.
  destruct (String.eqb_spec (abs k) (abs (k ++ t)%list)) as [He|_].
  { apply abs_inj in He; [|done..]. apply (f_equal length) in He. rewrite length_app in He.
    destruct t; [done|simpl in He; lia]. }
  rewrite !abs_rooted, !clean_comps_abs by done. cbn [Bool.eqb negb]. cbv iota.
  assert (Hs : strip_common k (k ++ t)%list = ([], t)).
  { clear. induction k as [|x k IH]; simpl; [done|]. by rewrite String.eqb_refl. }
  by rewrite Hs.
Qed.

Lemma securePath_spec path p :
  (securePath m v path = Ok p -> within (resolvedRoots m v) p) /\
  securePath m v path <> Err LoopExhausted.
Proof.
  unfold securePath, m_validatePath. destruct (validatePathWithin path _) as [c|e] eqn:Hval.
  2:{ simpl. split; [done|]. intros [= ->]. unfold validatePathWithin in Hval. by repeat case_match. }
  apply validatePathWithin_iff in Hval as (Hr & _ & _ & ->). rewrite clean_rooted by done.
  pose proof (clean_comps_good _ Hr) as Hg. cbn [bind_result]. rewrite clean_comps_abs by done.
  destruct (nearest_existing v _ _ _) as [ex|e] eqn:Hn.
  2:{ simpl. split; [done|]. intros [= ->].
      apply nearest_existing_spec in Hn as [Hne _]; [|done]. apply Hne; [lia|done]. }
  apply nearest_existing_spec in Hn as [_ Hex]; [|done].
  destruct (Hex ex eq_refl) as (k & [t Ht] & ->). rewrite Ht in *. clear Hex.
  cbn [bind_result]. destruct (eval_symlinks v (abs k)) as [res|e]; cbn [map_err bind_result]; [|done].
  destruct (validatePathWithin res (resolvedRoots m v)) as [c|e] eqn:Hval;
    cbn [map_err bind_result]; [|done].
  apply validatePathWithin_iff in Hval as (Hrr & _ & Hw & _).
  destruct (String.eqb_spec (abs k) (abs (k ++ t)%list)) as [He|Hne].
  { split; [intros ?; by simplify_eq|done]. }
  assert (Htn : t <> []) by (intros ->; by rewrite app_nil_r in Hne).
  rewrite rel_abs_suffix by done. destruct (has_prefix _ ".."); split; try done.
  intros ?; simplify_eq. destruct Hw as (_ & r & Hin & Hroot & Hpre).
  apply Forall_app in Hg as [_ Hgt].
  destruct (path_join_comps res t Hrr Hgt Htn) as [Hj1 Hj2].
  split; [done|]. exists r. rewrite Hj2. split_and!; [done..|].
  etrans; [exact Hpre|]. by apply prefix_app_r.
Qed.

(** Path resolution is confined and total: the lexical check accepts exactly
    the absolute paths without ".." whose components extend an allowed root;
    whatever symbolic links exist, a path that [securePath] returns lies at or
    below a resolved allowed root; and the search for an existing ancestor always
    ends. *)
Theorem securePath_within path p :
  (validatePathWithin path (allowedRoots m) = Ok p <->
     rooted path = true /\ contains path ".." = false /\ within (allowedRoots m) path /\ p = clean path) /\
  (securePath m v path = Ok p -> within (resolvedRoots m v) p) /\
  securePath m v path <> Err LoopExhausted.
Proof. split; [apply validatePathWithin_iff|apply securePath_spec]. Qed.

(** ** Confinement of the operations *)

(** The directory of a path has its components but the last, or as many, or one more if the path ends in
    two dots. *)
Lemma dir_comps p :
  rooted p = true ->
  rooted (dir p) = true /\
  (clean_comps (dir p) = clean_comps p \/ (exists x, clean_comps p = (clean_comps (dir p) ++ [x])%list) \/
   (exists x, clean_comps (dir p) = (clean_comps p ++ [x])%list)).
Proof.
  intros Hr. destruct (exists_last (split_nonnil slash p)) as (l & x & Hl).
  assert (exists l', l = "" :: l') as [l' ->].
  { apply has_prefix_iff in Hr as [t ->]. cbn in Hl. destruct l as [|y l]; [|injection Hl as -> _; eauto].
    exfalso. apply (f_equal length) in Hl. cbn in Hl. pose proof (split_nonnil slash t). destruct (split slash t); cbn in Hl; [done|lia]. }
  pose proof (split_no_sep slash p) as Hn. rewrite Hl in Hn. apply Forall_app in Hn as [Hn _].
  set (q := join "/" (("" :: l') ++ [""])%list).
  assert (rooted q = true) as Hq by (unfold q, rooted; apply has_prefix_iff; destruct l'; by eexists).
  assert (split slash q = (("" :: l') ++ [""])%list) as Hsq.
  { apply split_join; [by destruct l'|]. apply Forall_app. split; [done|by repeat constructor]. }
  assert (dir p = clean q) as ->.
  { unfold dir. rewrite Hl, rev_app_distr. cbn [rev app]. destruct (rev l' ++ [""])%list as [|y r] eqn:E; [by destruct (rev l')|].
    rewrite <- E. unfold q. do 2 f_equal. rewrite rev_app_distr, rev_involutive. done. }
  rewrite rooted_clean, clean_comps_clean by done. split; [done|]. unfold clean_comps. rewrite Hr, Hq, Hsq, Hl, !fold_left_app.
  set (st := fold_left (clean_step true) ("" :: l') []). cbn [fold_left]. change (clean_step true st "") with st.
  unfold clean_step. destruct (_ || _); [by left|]. destruct (String.eqb x ".."); [|right; left; cbn; eauto].
  destruct st as [|top st]; [by left|]. destruct (String.eqb top ".."); [by left|]. right. right. cbn. eauto.
Qed.

(** The directory that holds a root. *)
Definition holds_root (d : string) : Prop :=
  exists r q, In r (resolvedRoots m v) /\ rooted r = true /\ clean_comps q = clean_comps r /\ d = dir q.

(** The directory of a path inside the roots is inside them, unless the path is a root. *)
Lemma dir_within p : within (resolvedRoots m v) p -> within (resolvedRoots m v) (dir p) \/ holds_root (dir p).
Proof.
  intros (Hp & r & Hin & Hr & Hpre). destruct (dir_comps p Hp) as [Hd [He|[[x He]|[x He]]]].
  - left. split; [done|]. exists r. by rewrite He.
  - destruct Hpre as [t Ht]. destruct t as [|y t'] using rev_ind.
    + right. exists r, p. by rewrite app_nil_r in Ht.
    + left. split; [done|]. exists r. split_and!; [done..|]. rewrite Ht, app_assoc in He. apply app_inj_tail in He as [<- _]. by apply prefix_app_r.
  - left. split; [done|]. exists r. split_and!; [done..|]. rewrite He. by apply prefix_app_r.
Qed.

(** What each system call of the manager may touch: a path inside the roots, or the directory of such a
    path, which is inside them too unless the path is a root itself.  Temporary files are treated apart. *)
Definition call_confined {X} (e : fs_call X) : Prop :=
  let inside := within (resolvedRoots m v) in
  match e with
  | RemoveAll p => inside p /\ ~ In p (resolvedRoots m v)
  | ReadFile p | ReadDir p | OpenRead p | StatOpen p | OpenWrite p _
  | SyncFile p | CloseFile p | OsChmod p _ | OsChown p _ _ | TmpRename _ p => inside p
  | OsRename p q | CopyData p q => inside p /\ inside q
  | OsMkdirAll d _ | CreateTemp d _ | OpenDir d | SyncDir d | CloseDir d => inside d \/ holds_root d
  | TmpChmod _ _ | TmpWrite _ _ | TmpSync _ | TmpClose _ | TmpRemove _ => True
  end.

(** The temporary file a call works on. *)
Definition tmp_of {X} (e : fs_call X) : option tmpfile :=
  match e with
  | TmpChmod t _ | TmpWrite t _ | TmpSync t | TmpClose t | TmpRename t _ | TmpRemove t => Some t
  | _ => None
  end.

(** Every temporary file a program works on is one of [ts] or one that it created before. *)
Fixpoint own_temps {A} (ts : list tmpfile) (p : prog fs_call A) : Prop :=
  match p with
  | Ret _ => True
  | @Call _ _ X e k =>
      (forall t, tmp_of e = Some t -> In t ts) /\
      match e in fs_call X return (X -> prog fs_call A) -> Prop with
      | CreateTemp _ _ => fun k => forall r, own_temps (match r with Ok t => t :: ts | Err _ => ts end) (k r)
      | _ => fun k => forall x, own_temps ts (k x)
      end k
  end.

(** What each system call of the manager may grant. *)
Definition call_mode_safe {X} (e : fs_call X) : Prop :=
  match e with
  | OsMkdirAll _ mode | TmpChmod _ mode | OsChmod _ mode =>
      (0 < mode <= 511)%Z /\ Z.testbit mode 1 = false
  | OpenWrite _ mode => Z.testbit mode 1 = false /\ Z.testbit mode 4 = false
  | OsChown _ uid gid => (0 < uid)%Z /\ (0 < gid)%Z
  | _ => True
  end.
End secure.

(** ** The operations as one interface *)

(** The requests the Agent serves through the manager. *)
Inductive operation :=
| OpRead (path : string)
| OpWrite (path content : string) (mode : Z)
| OpDelete (path : string)
| OpMkdirAll (path : string) (mode : Z)
| OpList (path : string)
| OpRename (oldPath newPath : string)
| OpCopy (srcPath dstPath : string)
| OpChmod (path : string) (mode : Z)
| OpChown (path : string) (uid gid : Z).

Definition outcome {A} (p : prog fs_call (result fs_error A)) : prog fs_call (result fs_error ()) :=
  bind p (fun r => Ret (match r with Ok _ => Ok () | Err e => Err e end)).

Definition perform (m : Manager) (v : fs_view) (o : operation) : prog fs_call (result fs_error ()) :=
  match o with
  | OpRead p => outcome (Read m v p)
  | OpWrite p c mode => Write m v p c mode
  | OpDelete p => Delete m v p
  | OpMkdirAll p mode => MkdirAll m v p mode
  | OpList p => outcome (List m v p)
  | OpRename p q => Rename m v p q
  | OpCopy p q => Copy m v p q
  | OpChmod p mode => Chmod m v p mode
  | OpChown p uid gid => Chown m v p uid gid
  end.

Lemma perm_mod mode : perm mode = (mode mod 512)%Z.
Proof. unfold perm. change 511%Z with (Z.ones 9). by rewrite Z.land_ones. Qed.

Lemma perm_bounds mode : (0 <= perm mode <= 511)%Z.
Proof. rewrite perm_mod. pose proof (Z.mod_pos_bound mode 512). lia. Qed.

Lemma perm_valid mode : (0 < mode <= 511)%Z -> perm mode = mode.
Proof. intros Hr. rewrite perm_mod. apply Z.mod_small. lia. Qed.

Lemma land2_testbit x : Z.land x 2 = 0%Z -> Z.testbit x 1 = false.
Proof.
  intros H. apply (f_equal (fun z => Z.testbit z 1)) in H.
  by rewrite Z.land_spec, Z.bits_0, andb_true_r in H.
Qed.

(** A mode the manager accepts is between 1 and 0o777, grants nothing to the
    world to write, and is its own permission part. *)
Lemma validateMode_safe mode :
  validateMode mode = Ok () <->
  (0 < mode <= 511)%Z /\ Z.testbit mode 1 = false.
Proof.
  unfold validateMode. pose proof (perm_bounds mode) as Hb. split.
  - destruct (_ || _) eqn:Hg; [done|]. intros _.
    rewrite !orb_false_iff, !negb_false_iff, !Z.eqb_eq, Z.eqb_neq in Hg.
    destruct Hg as [[Hz Hd] Hw]. pose proof (Z.lor_ldiff_and mode 511) as Hm.
    rewrite Hd, Z.lor_0_l in Hm. change (Z.land mode 511) with (perm mode) in Hm.
    rewrite Hm in *. split; [lia|by apply land2_testbit].
  - intros [Hr Ht]. rewrite perm_valid by done. assert ((mode =? 0)%Z = false) as -> by lia.
    assert (Z.ldiff mode 511 = 0%Z) as ->.
    { pose proof (Z.ldiff_ones_r mode 9) as Hl. change (Z.ones 9) with 511%Z in Hl.
      rewrite Hl, Z.shiftr_div_pow2 by lia. rewrite Z.div_small; [done|].
      change (2 ^ 9)%Z with 512%Z. lia. }
    assert (Z.land mode 2 = 0%Z) as ->; [|done].
    apply Z.bits_inj'. intros n Hn. rewrite Z.land_spec, Z.bits_0.
    destruct (decide (n = 1%Z)) as [->|Hne]; [by rewrite Ht|].
    change 2%Z with (2 ^ 1)%Z. rewrite Z.pow2_bits_false; [by rewrite andb_false_r|lia].
Qed.

Section confinement.
Variables (m : Manager) (v : fs_view).

Definition safe_call {X} (e : fs_call X) : Prop := call_confined m v e /\ call_mode_safe e.

Lemma always_secure {A} (Q : result fs_error A -> Prop) path k :
  (forall e, Q (Err e)) ->
  (forall c, within (resolvedRoots m v) c -> always (@safe_call) Q (k c)) ->
  always (@safe_call) Q (with_secure m v path k).
Proof.
  intros He Hk. unfold with_secure. destruct (securePath m v path) as [c|e] eqn:Hs; [|apply He].
  apply Hk. by eapply securePath_spec.
Qed.

Lemma always_mode {A} (Q : result fs_error A -> Prop) mode k :
  (forall e, Q (Err e)) ->
  ((0 < mode <= 511)%Z -> Z.testbit mode 1 = false -> always (@safe_call) Q k) ->
  always (@safe_call) Q (with_mode mode k).
Proof.
  intros He Hk. unfold with_mode. destruct (validateMode mode) as [[]|e] eqn:Hv; [|apply He].
  apply validateMode_safe in Hv as [? ?]. by apply Hk.
Qed.

(** Step through the calls of an operation. *)
Ltac walk :=
  repeat first
    [ apply always_secure; [done|]; intros ? ?
    | apply always_mode; [done|]; intros ? ?
    | progress cbn [always bind bind_err bind_wrap call outcome]
    | match goal with
      | |- always _ _ (match ?r with _ => _ end) => destruct r eqn:?
      | |- always _ _ (bind (match ?r with _ => _ end) _) => destruct r eqn:?
      | |- always _ _ (bind (bind (match ?r with _ => _ end) _) _) => destruct r eqn:?
      | |- _ /\ _ => split
      | |- forall _, _ => intro
      end ].

Lemma always_outcome {A} (p : prog fs_call (result fs_error A)) :
  always (@safe_call) (fun _ => True) p -> always (@safe_call) (fun _ => True) (outcome p).
Proof. intros Hp. by eapply always_bind. Qed.

Lemma remove_safe c :
  within (resolvedRoots m v) c -> existsb (String.eqb c) (resolvedRoots m v) = false ->
  safe_call (RemoveAll c).
Proof.
  intros Hc Hr. split; [|done]. split; [done|]. intros Hin. apply not_true_iff_false in Hr.
  apply Hr, existsb_exists. exists c. by rewrite String.eqb_refl.
Qed.

Lemma mkdir_parent_safe c : within (resolvedRoots m v) c -> safe_call (OsMkdirAll (dir c) 493).
Proof. intros Hc. split; [by apply dir_within|]. split; [lia|done]. Qed.

Lemma open_write_safe c mode :
  within (resolvedRoots m v) c -> safe_call (OpenWrite c (Z.ldiff (perm mode) 18)).
Proof. intros Hc. split; [done|]. split; by rewrite Z.ldiff_spec, andb_false_r. Qed.

Lemma write_body_safe c parent t content mode :
  within (resolvedRoots m v) c -> parent = dir c ->
  (0 < mode <= 511)%Z -> Z.testbit mode 1 = false ->
  always (@safe_call) (fun _ => True) (write_body c parent t content mode).
Proof.
  intros Hc -> Hm Hw. unfold write_body, syncDirectory. rewrite perm_valid by done.
  walk; unfold safe_call, call_confined, call_mode_safe; eauto using dir_within.
Qed.

(** Each request, call by call. *)
Lemma perform_safe o :
  always (@safe_call) (fun _ => True) (perform m v o).
Proof.
  destruct o; cbn [perform]; try apply always_outcome; unfold Read, Write, Delete, MkdirAll, List,
    Rename, Copy, copy_body, Chmod, Chown; walk; try done; 
    auto using mkdir_parent_safe, open_write_safe, remove_safe.
  all: try (by eapply always_bind; [by apply write_body_safe|]; intros ? _; walk).
  all: unfold safe_call, call_confined, call_mode_safe; rewrite ?perm_valid by done; eauto 8 using dir_within.
  all: propify; split; [done|lia].
Qed.

Lemma own_temps_bind {A B} ts (p : prog fs_call A) (f : A -> prog fs_call B) :
  own_temps ts p -> (forall ts' a, (forall t, In t ts -> In t ts') -> own_temps ts' (f a)) -> own_temps ts (bind p f).
Proof.
  revert ts. induction p as [a|X e k IH]; intros ts; cbn; [by intros _ Hf; apply Hf|]. intros [Ht Hk] Hf. split; [done|].
  destruct e; cbn in *; intros x; (apply IH; [by apply Hk|]); try done. intros ts' a Hin. apply Hf. intros t Hts. apply Hin. destruct x; [by right|done].
Qed.

Lemma own_temps_secure {A} ts path k : (forall c, own_temps ts (k c)) -> own_temps ts (@with_secure m v A path k).
Proof. intros Hk. unfold with_secure. by destruct (securePath m v path). Qed.

Lemma own_temps_mode {A} ts mode k : own_temps ts k -> own_temps ts (@with_mode A mode k).
Proof. intros Hk. unfold with_mode. by destruct (validateMode mode). Qed.

Ltac walk_temps :=
  repeat first
    [ apply own_temps_secure; intros ?
    | apply own_temps_mode
    | progress cbn [own_temps tmp_of bind bind_err bind_wrap call outcome]
    | match goal with
      | |- own_temps _ (match ?r with _ => _ end) => destruct r
      | |- own_temps _ (bind (match ?r with _ => _ end) _) => destruct r
      | |- own_temps _ (bind (bind (match ?r with _ => _ end) _) _) => destruct r
      | |- _ /\ _ => split
      | |- forall _, _ => intro
      end ].

Lemma perform_own_temps o : own_temps [] (perform m v o).
Proof.
  destruct o; cbn [perform]; unfold outcome, Read, Write, Delete, MkdirAll, List, Rename, Copy, copy_body, write_body, syncDirectory, Chmod, Chown; walk_temps;
    try done; try (simplify_eq; by left).
  all: apply own_temps_bind; [|done]; walk_temps; done.
Qed.

(** C2. Over one snapshot of the links, every system call the manager makes for any request acts on a
    path at or below a resolved allowed root, or on the directory of such a path to create it, to put a
    temporary file there or to sync it, which lies at or below a root too unless the path is a root
    itself; it works only on temporary files it created there.  It never deletes a root (a rename may
    move one), never makes anything world-writable, and never gives a file to root. *)
Theorem operations_confined o :
  always (@safe_call) (fun _ => True) (perform m v o) /\ own_temps [] (perform m v o).
Proof. split; [apply perform_safe|apply perform_own_temps]. Qed.

(** Deleting a root is refused, moving it away is not: the same path, as the source of a rename. *)
Theorem root_deletion_refused_rename_not path new c c' :
  securePath m v path = Ok c -> In c (resolvedRoots m v) -> securePath m v new = Ok c' ->
  Delete m v path = Ret (Err RefusingRoot) /\ exec (Rename m v path new) [Act (OsRename c c') (Ok ())] (Ok ()).
Proof.
  intros Hc Hin Hc'. unfold Delete, Rename, with_secure. rewrite Hc, Hc'. split; [|cbn; by eexists _, _].
  destruct (existsb (String.eqb c) (resolvedRoots m v)) eqn:He; [done|]. apply not_true_iff_false in He. destruct He. apply existsb_exists. exists c. by rewrite String.eqb_refl.
Qed.
End confinement.

(** ** A disk

    A model of the callee: regular files by path, temporary files apart, and an
    oracle that makes any call fail, without effect.  Renaming a temporary file
    replaces the target in one step, as rename(2) does; opening a file for
    writing truncates it, as O_TRUNC does. *)

Record disk := {
  files : gmap string string;
  temps : gmap string string;
  faults : nat -> bool;
  ticks : nat;
}.

Definition set_files (f : gmap string string) (d : disk) : disk :=
  {| files := f; temps := temps d; faults := faults d; ticks := ticks d |}.
Definition set_temps (t : gmap string string) (d : disk) : disk :=
  {| files := files d; temps := t; faults := faults d; ticks := ticks d |}.
Definition tick (d : disk) : disk :=
  {| files := files d; temps := temps d; faults := faults d; ticks := S (ticks d) |}.

Definition tmp_path (t : tmpfile) : string := path_join (tmp_dir t) (tmp_name t).

(** A call that may fail: [eff] is its effect and its answer. *)
Definition attempt {A} (d : disk) (eff : disk -> result string A * disk) : result string A * disk :=
  if faults d (ticks d) then (Err "fault", tick d) else eff (tick d).

Definition disk_call {X} (e : fs_call X) (d : disk) : X * disk :=
  match e in fs_call X return X * disk with
  | ReadFile p => attempt d (fun d =>
      (match files d !! p with Some c => Ok c | None => Err "no such file" end, d))
  | OsMkdirAll _ _ | TmpChmod _ _ | TmpSync _ | TmpClose _ | OpenDir _ | SyncDir _
  | SyncFile _ | OsChmod _ _ | OsChown _ _ _ => attempt d (fun d => (Ok (), d))
  | CreateTemp dir pat => attempt d (fun d =>
      let t := {| tmp_dir := dir; tmp_name := pat |} in
      (Ok t, set_temps (<[tmp_path t := ""]> (temps d)) d))
  | TmpWrite t c => attempt d (fun d => (Ok (), set_temps (<[tmp_path t := c]> (temps d)) d))
  | TmpRename t p => attempt d (fun d =>
      match temps d !! tmp_path t with
      | None => (Err "no such file", d)
      | Some c => (Ok (), set_temps (delete (tmp_path t) (temps d)) (set_files (<[p := c]> (files d)) d))
      end)
  | TmpRemove t => attempt d (fun d => (Ok (), set_temps (delete (tmp_path t) (temps d)) d))
  | CloseDir _ | CloseFile _ => ((), d)
  | RemoveAll p => attempt d (fun d => (Ok (), set_files (delete p (files d)) d))
  | ReadDir _ => attempt d (fun d => (Ok [], d))
  | OsRename p q => attempt d (fun d =>
      match files d !! p with
      | None => (Err "no such file", d)
      | Some c => (Ok (), set_files (<[q := c]> (delete p (files d))) d)
      end)
  | OpenRead p => attempt d (fun d =>
      (match files d !! p with Some _ => Ok () | None => Err "no such file" end, d))
  | StatOpen _ => attempt d (fun d => (Ok 420%Z, d))
  | OpenWrite p _ => attempt d (fun d => (Ok (), set_files (<[p := ""]> (files d)) d))
  | CopyData dst src => attempt d (fun d =>
      (Ok (), set_files (<[dst := default "" (files d !! src)]> (files d)) d))
  end.

Definition on_disk {A} (p : prog fs_call A) (d : disk) : A * disk := run (@disk_call) p d.

Section disk.
Variables (m : Manager) (v : fs_view).

Definition replaced (path content : string) (d d' : disk) : Prop :=
  exists c, securePath m v path = Ok c /\ files d' = <[c := content]> (files d).

Ltac step_disk :=
  repeat first
    [ progress cbn [run bind bind_err bind_wrap call disk_call fst snd]
    | match goal with
      | |- context [attempt ?d _] => unfold attempt at 1; destruct (faults d (ticks d)) eqn:?
      | |- context [temps ?d !! ?k] => progress simplify_map_eq
      end ].

(** A write is all or nothing under any pattern of failing system calls: the
    files are unchanged, or exactly the target has the new content, and the
    latter whenever the operation reports success. *)
Theorem write_all_or_nothing path content mode d :
  let '(r, d') := on_disk (Write m v path content mode) d in
  (files d' = files d \/ replaced path content d d') /\
  (r = Ok () -> replaced path content d d').
Proof.
  unfold on_disk, Write, with_mode, with_secure, write_body, syncDirectory, replaced.
  destruct (validateMode mode); [|by simpl; split; [left|]].
  destruct (securePath m v path) as [c|] eqn:Hs; [|by simpl; split; [left|]].
  step_disk; simpl; try (split; [by eauto|done]); simplify_map_eq; simpl; eauto 8.
Qed.

(** Copying a file to another path, with no failing call, gives the target
    the content of the source and changes nothing else. *)
Theorem copy_content src dst s t c d :
  securePath m v src = Ok s -> securePath m v dst = Ok t -> s <> t ->
  (forall n, faults d n = false) -> files d !! s = Some c ->
  let '(r, d') := on_disk (Copy m v src dst) d in
  r = Ok () /\ files d' = <[t := c]> (files d).
Proof.
  intros Hs Ht Hne Hf Hc. unfold on_disk, Copy, copy_body, with_secure. rewrite Hs, Ht.
  repeat first [progress cbn | progress unfold attempt | rewrite Hf | rewrite Hc].
  rewrite lookup_insert_ne, Hc, insert_insert_eq by done. done.
Qed.

(** Copying a file onto itself destroys its content: the target is truncated
    when it is opened, before the copy reads the source. *)
Theorem copy_onto_itself src s c d :
  securePath m v src = Ok s -> (forall n, faults d n = false) -> files d !! s = Some c ->
  let '(r, d') := on_disk (Copy m v src src) d in
  r = Ok () /\ files d' !! s = Some "".
Proof.
  intros Hs Hf Hc. unfold on_disk, Copy, copy_body, with_secure. rewrite Hs.
  repeat first [progress cbn | progress unfold attempt | rewrite Hf | rewrite Hc].
  by rewrite !lookup_insert_eq.
Qed.
End disk.

(** ** Witnesses *)

(** A file system with the site roots and one page, and no symbolic links. *)
Definition sample_view : fs_view := {|
  lstat := fun p =>
    if existsb (String.eqb p) ["/"; "/var"; "/var/www"; "/var/www/site"; "/var/www/site/index.html"]
    then LstatOk else LstatNotExist;
  eval_symlinks := fun p => Ok p |}.

Definition sample_disk : disk := {|
  files := {["/var/www/site/index.html" := "hello"]}; temps := empty;
  faults := fun _ => false; ticks := 0 |}.

Example secure_new_file :
  securePath NewManager sample_view "/var/www/site/css/app.css" = Ok "/var/www/site/css/app.css".
Proof. vm_compute. reflexivity. Qed.

Example secure_outside : securePath NewManager sample_view "/etc/shadow" = Err (OutsideAllowed "/etc/shadow").
Proof. vm_compute. reflexivity. Qed.

Lemma copy_content_witness :
  let '(r, d') := on_disk (Copy NewManager sample_view "/var/www/site/index.html" "/var/www/site/old.html")
    sample_disk in
  r = Ok () /\ files d' = <["/var/www/site/old.html" := "hello"]> (files sample_disk).
Proof.
  exact (copy_content NewManager sample_view "/var/www/site/index.html" "/var/www/site/old.html"
    "/var/www/site/index.html" "/var/www/site/old.html" "hello" sample_disk
    ltac:(vm_compute; reflexivity) ltac:(vm_compute; reflexivity) ltac:(discriminate)
    (fun _ => eq_refl) ltac:(vm_compute; reflexivity)).
Defined.

Lemma copy_onto_itself_witness :
  let '(r, d') := on_disk (Copy NewManager sample_view "/var/www/site/index.html" "/var/www/site/index.html")
    sample_disk in
  r = Ok () /\ files d' !! "/var/www/site/index.html" = Some "".
Proof.
  exact (copy_onto_itself NewManager sample_view "/var/www/site/index.html"
    "/var/www/site/index.html" "hello" sample_disk
    ltac:(vm_compute; reflexivity) (fun _ => eq_refl) ltac:(vm_compute; reflexivity)).
Defined.
