(* ===== verification/Archive.v ===== *)
(** * Archive creation and extraction

    src/internal/agent/archive/manager.go: the in-process extraction of zip and
    tar archives the Agent performs for the file manager. *)

From S2P Require Import Prelude GoStrings GoPath Effects.
Local Open Scope string_scope.
Local Open Scope go_scope.

(** source: internal/agent/archive/manager.go:16-19 (maxArchiveEntries) *)
Definition maxArchiveEntries : Z := 10000.
(** source: internal/agent/archive/manager.go:16-19 (maxExtractedBytes) *)
Definition maxExtractedBytes : Z := 2 ^ 30.

Inductive archive_error :=
| InvalidSourceCount
| UnsupportedFormat (format : string)
| CreateFailed (e output : string)
| UnsupportedExtraction
| TooManyEntries
| ContextError (e : string)
| InvalidEntryPath
| EntryEscapes (name : string)
| UnsupportedEntryType (name : string)
| SizeLimitExceeded
| SpecialEntry (name : string)
| SymlinkParent
| TruncatedEntry (e : option string)
| SystemError (operation e : string)
| LoopExhausted.

(** ** Calls *)

(** A zip directory entry: [entry.Mode()] with Go's type bits, and
    [UncompressedSize64]. *)
Record zip_entry := { ze_name : string; ze_mode : Z; ze_size : Z }.

Inductive tar_type := TypeDir | TypeReg | TypeRegA | TypeOther.
Record tar_header := { th_name : string; th_type : tar_type; th_size : Z; th_mode : Z }.

Inductive ar_call : Set -> Set :=
| CmdOutput (command : string) (args env : list string) : ar_call (list string * option string)
| ArMkdirAll (path : string) (mode : Z) : ar_call (result string ())
| ArEvalSymlinks (path : string) : ar_call (result string string)
| ZipOpen (path : string) : ar_call (result string (list zip_entry))
| ArOpen (path : string) : ar_call (result string ())
| GzipReader : ar_call (result string ())
| TarNext : ar_call (result string (option tar_header))
| CtxErr : ar_call (option string)
| EntryOpen (name : string) : ar_call (result string ())
| CreateEntry (path : string) (mode : Z) : ar_call (result string ())
| CopyLimited (path : string) (limit : Z) : ar_call (result string ())
| CopyN (path : string) (size : Z) : ar_call (Z * option string)
| CloseEntry (path : string) : ar_call (result string ()).

(** [p.Perm() &^ 0o022] *)
Definition no_group_world_write (mode : Z) : Z := Z.ldiff (Z.land mode 511) 18.

(** ** Creation *)

(** source: internal/agent/archive/manager.go:29-44 (Create, the command) *)
Definition create_command (format dest : string) (files : list string) :
    option (string * list string) :=
  if String.eqb format "zip" then Some ("zip", ["-r"; "-q"; dest] ++ files)%list
  else if String.eqb format "tar" then Some ("tar", ["-cf"; dest; "--"] ++ files)%list
  else if String.eqb format "tar.gz" then Some ("tar", ["-czf"; dest; "--"] ++ files)%list
  else if String.eqb format "tar.xz" then Some ("tar", ["-cJf"; dest; "--"] ++ files)%list
  else if String.eqb format "tar.bz2" then Some ("tar", ["-cjf"; dest; "--"] ++ files)%list
  else if String.eqb format "7z" then Some ("7z", ["a"; "--"; dest] ++ files)%list
  else None.

(** source: internal/agent/archive/manager.go:261-265 (limitedWriter) *)
Record limitedWriter := { w_buffer : string; w_remaining : Z; w_truncated : bool }.

(** source: internal/agent/archive/manager.go:267-276 (Write) *)
Definition writer_Write (w : limitedWriter) (value : string) : limitedWriter :=
  let '(value, t) :=
    if (w_remaining w <? len value)%Z
    then (take_bytes (Z.to_nat (Z.max 0 (w_remaining w))) value, true)
    else (value, w_truncated w) in
  {| w_buffer := w_buffer w ++ value; w_remaining := w_remaining w - len value; w_truncated := t |}.

(** source: internal/agent/archive/manager.go:278-283 (String) *)
Definition writer_String (w : limitedWriter) : string :=
  if w_truncated w then w_buffer w ++ String (ascii_of_nat 10) "[output truncated]" else w_buffer w.

(** source: internal/agent/archive/manager.go:253-259 (limitedCombinedOutput) *)
Definition limited_output (limit : Z) (writes : list string) : string :=
  writer_String (fold_left writer_Write writes
    {| w_buffer := ""; w_remaining := limit; w_truncated := false |}).

(** source: internal/agent/archive/manager.go:21-52 (Create) *)
Definition Create (format dest : string) (files : list string) :
    prog ar_call (result archive_error ()) :=
  if (length files =? 0)%nat || (maxArchiveEntries <? Z.of_nat (length files))%Z
  then Ret (Err InvalidSourceCount)
  else match create_command format dest files with
  | None => Ret (Err (UnsupportedFormat format))
  | Some (command, args) =>
      let! (writes, err) := call (CmdOutput command args
        ["PATH=/usr/sbin:/usr/bin:/sbin:/bin"; "LANG=C.UTF-8"; "LC_ALL=C.UTF-8"]) in
      match err with
      | Some e => Ret (Err (CreateFailed e (limited_output (2 ^ 20) writes)))
      | None => Ret (Ok ())
      end
  end.

(** ** Extraction *)

(** source: internal/agent/archive/manager.go:225-236 (safeTarget) *)
Definition safeTarget (root name : string) : result archive_error string :=
  if String.eqb name "" || is_abs name || has_prefix name "/" || contains_byte name (ascii_of_nat 0)
  then Err InvalidEntryPath
  else
    let target := path_join root name in
    if negb (has_prefix target (clean root ++ "/")) then Err (EntryEscapes name)
    else Ok target.

(** source: internal/agent/archive/manager.go:238-251 (ensureSafeParent) *)
Definition ensureSafeParent (target : string) : prog ar_call (result archive_error ()) :=
  let parent := dir target in
  wrap! (SystemError "create parent") of _ := call (ArMkdirAll parent 488) in
  wrap! (SystemError "resolve parent") of resolved := call (ArEvalSymlinks parent) in
  if negb (String.eqb resolved parent) then Ret (Err SymlinkParent) else Ret (Ok ()).

(** source: internal/agent/archive/manager.go:114-141 (writeZIPEntry) *)
Definition writeZIPEntry (entry : zip_entry) (target : string) :
    prog ar_call (result archive_error ()) :=
  try! _ := ensureSafeParent target in
  wrap! (SystemError "open entry") of _ := call (EntryOpen (ze_name entry)) in
  let mode := Z.land (ze_mode entry) 511 in
  let mode := if (mode =? 0)%Z then 416%Z else mode in
  let mode := Z.ldiff mode 18 in
  wrap! (SystemError "create entry") of _ := call (CreateEntry target mode) in
  let! copyErr := call (CopyLimited target (maxExtractedBytes + 1)) in
  let! closeErr := call (CloseEntry target) in
  match copyErr, closeErr with
  | Err e, _ => Ret (Err (SystemError "write entry" e))
  | _, Err e => Ret (Err (SystemError "close entry" e))
  | Ok _, Ok _ => Ret (Ok ())
  end.

(** Go's mode bits. *)
Definition ModeDir : Z := 2 ^ 31.
Definition ModeSymlink : Z := 2 ^ 27.
Definition ModeType : Z :=
  2 ^ 31 + 2 ^ 27 + 2 ^ 25 + 2 ^ 24 + 2 ^ 26 + 2 ^ 21 + 2 ^ 19.
Definition has_bits (mode bits : Z) : bool := negb (Z.land mode bits =? 0)%Z.

(** source: internal/agent/archive/manager.go:85-110 (extractZIP, the loop) *)
Fixpoint zip_entries (destination : string) (total : Z) (l : list zip_entry) :
    prog ar_call (result archive_error ()) :=
  match l with
  | [] => Ret (Ok ())
  | entry :: l' =>
      let! cancelled := call CtxErr in
      match cancelled with
      | Some e => Ret (Err (ContextError e))
      | None =>
      match safeTarget destination (ze_name entry) with
      | Err e => Ret (Err e)
      | Ok target =>
          let mode := ze_mode entry in
          if has_bits mode ModeSymlink || has_bits mode ModeType && negb (has_bits mode ModeDir) then
            Ret (Err (UnsupportedEntryType (ze_name entry)))
          else if has_bits mode ModeDir then
            wrap! (SystemError "create directory") of _ := call (ArMkdirAll target 488) in
            zip_entries destination total l'
          else
            let total := add64 total (to_int64 (ze_size entry)) in
            if (maxExtractedBytes <? total)%Z then Ret (Err SizeLimitExceeded)
            else
              try! _ := writeZIPEntry entry target in
              zip_entries destination total l'
      end end
  end.

(** source: internal/agent/archive/manager.go:75-112 (extractZIP) *)
Definition extractZIP (source destination : string) : prog ar_call (result archive_error ()) :=
  wrap! (SystemError "open zip") of entries := call (ZipOpen source) in
  if (maxArchiveEntries <? Z.of_nat (length entries))%Z then Ret (Err TooManyEntries)
  else zip_entries destination 0 entries.

(** source: internal/agent/archive/manager.go:202-223 (writeTAREntry) *)
Definition writeTAREntry (target : string) (size mode : Z) : prog ar_call (result archive_error ()) :=
  try! _ := ensureSafeParent target in
  let mode := no_group_world_write mode in
  let mode := if (mode =? 0)%Z then 416%Z else mode in
  wrap! (SystemError "create entry") of _ := call (CreateEntry target mode) in
  let! (written, copyErr) := call (CopyN target size) in
  let! closeErr := call (CloseEntry target) in
  match copyErr with
  | Some e => Ret (Err (TruncatedEntry (Some e)))
  | None =>
      if negb (written =? size)%Z then Ret (Err (TruncatedEntry None))
      else match closeErr with
           | Err e => Ret (Err (SystemError "close entry" e))
           | Ok _ => Ret (Ok ())
           end
  end.

(** source: internal/agent/archive/manager.go:161-200 (extractTAR); [entries] and
    [total] are the loop's counters, [fuel] bounds its turns *)
Fixpoint extract_tar_loop (fuel : nat) (destination : string) (entries total : Z) :
    prog ar_call (result archive_error ()) :=
  match fuel with
  | 0 => Ret (Err LoopExhausted)
  | S fuel' =>
      let! next := call TarNext in
      match next with
      | Err e => Ret (Err (SystemError "read tar" e))
      | Ok None => Ret (Ok ())
      | Ok (Some header) =>
          let! cancelled := call CtxErr in
          match cancelled with
          | Some e => Ret (Err (ContextError e))
          | None =>
          let entries := (entries + 1)%Z in
          if (maxArchiveEntries <? entries)%Z then Ret (Err TooManyEntries)
          else match safeTarget destination (th_name header) with
          | Err e => Ret (Err e)
          | Ok target =>
              match th_type header with
              | TypeDir =>
                  wrap! (SystemError "create directory") of _ := call (ArMkdirAll target 488) in
                  extract_tar_loop fuel' destination entries total
              | TypeReg | TypeRegA =>
                  if (th_size header <? 0)%Z
                     || (maxExtractedBytes <? add64 total (th_size header))%Z
                  then Ret (Err SizeLimitExceeded)
                  else
                    let total := add64 total (th_size header) in
                    try! _ := writeTAREntry target (th_size header) (th_mode header) in
                    extract_tar_loop fuel' destination entries total
              | TypeOther => Ret (Err (SpecialEntry (th_name header)))
              end
          end end
      end
  end.

(** source: internal/agent/archive/manager.go:161-163 (extractTAR, its start) *)
Definition extractTAR (destination : string) : prog ar_call (result archive_error ()) :=
  extract_tar_loop (S (Z.to_nat maxArchiveEntries)) destination 0 0.

(** source: internal/agent/archive/manager.go:143-159 (extractTARFile) *)
Definition extractTARFile (source destination : string) (compressed : bool) :
    prog ar_call (result archive_error ()) :=
  wrap! (SystemError "open tar") of _ := call (ArOpen source) in
  if compressed then
    wrap! (SystemError "open gzip") of _ := call GzipReader in
    extractTAR destination
  else extractTAR destination.

(** source: internal/agent/archive/manager.go:54-73 (Extract) *)
Definition Extract `{Unicode} (source destination : string) : prog ar_call (result archive_error ()) :=
  wrap! (SystemError "create destination") of _ := call (ArMkdirAll destination 488) in
  let lower := to_lower source in
  if has_suffix lower ".zip" then extractZIP source destination
  else if has_suffix lower ".tar" then extractTARFile source destination false
  else if has_suffix lower ".tar.gz" || has_suffix lower ".tgz" then
    extractTARFile source destination true
  else Ret (Err UnsupportedExtraction).

(** ** Targets stay below the destination *)

(** An entry name is accepted only if, joined to the destination and cleaned,
    it names something strictly below it. *)
Lemma safeTarget_below root name target :
  rooted root = true -> safeTarget root name = Ok target -> below root target.
Proof.
  intros Hr. unfold safeTarget. destruct (_ || _); [done|].
  destruct (has_prefix _ _) eqn:Hp; simpl; [|done]. intros [= <-].
  destruct (path_join_clean root name Hr) as (p & Hj & Hrp). rewrite Hj in *.
  rewrite clean_rooted in Hp |- * by done.
  pose proof (clean_comps_good _ Hrp) as Hg. pose proof (clean_comps_good _ Hr) as Hgr.
  rewrite (clean_rooted root) in Hp by done.
  destruct (decide (clean_comps root = [])) as [He|Hne].
  { rewrite He in Hp. apply has_prefix_iff in Hp as [t Ht]. exfalso.
    unfold abs in Ht. destruct (clean_comps p) as [|x l]; [done|].
    inversion Hg as [|?? (Hx & _ & _ & Hs) _]; subst. destruct x as [|c x]; [done|].
    assert (Hcs : c = slash) by (unfold slash; destruct l; simpl in Ht; congruence).
    subst c. unfold no_byte in Hs. simpl in Hs. discriminate. }
  apply has_prefix_abs in Hp as (l & Hl & Hc); [|done..].
  unfold below. rewrite abs_rooted, clean_comps_abs, clean_abs by done. eauto.
Qed.

(** ** Confinement of the whole extraction *)

(** What the calls of an extraction may create, and with which modes. *)
Definition extract_call_ok (destination : string) {X} (e : ar_call X) : Prop :=
  match e with
  | ArMkdirAll p mode => at_or_below destination p /\ mode = 488%Z
  | CreateEntry p mode =>
      below destination p /\ Z.testbit mode 1 = false /\ Z.testbit mode 4 = false
      /\ (0 <= mode <= 511)%Z
  | CopyLimited p limit => below destination p /\ limit = (maxExtractedBytes + 1)%Z
  | CopyN p _ | CloseEntry p => below destination p
  | CmdOutput _ _ _ => False
  | _ => True
  end.

Section confined.
Context (destination : string) (Hroot : rooted destination = true).
Notation ok := (fun X (e : ar_call X) => extract_call_ok destination e).

Lemma clear_write_bits mode :
  let m := Z.ldiff mode 18 in Z.testbit m 1 = false /\ Z.testbit m 4 = false.
Proof. cbv zeta. by rewrite !Z.ldiff_spec, !andb_false_r. Qed.

Lemma ldiff_perm_bounds mode b : (0 <= mode <= 511)%Z -> (0 <= Z.ldiff mode b <= 511)%Z.
Proof.
  intros [H0 H1]. assert (0 <= Z.ldiff mode b <= mode)%Z; [|lia].
  apply Z.ldiff_le; [done|]. apply Z.bits_inj'. intros n _. rewrite !Z.ldiff_spec, Z.bits_0.
  by destruct (Z.testbit mode n), (Z.testbit b n).
Qed.

Lemma land511_bounds mode : (0 <= Z.land mode 511 <= 511)%Z.
Proof.
  assert (Hm : Z.land mode 511 = (mode mod 512)%Z)
    by (change 511%Z with (Z.ones 9); by rewrite Z.land_ones).
  rewrite Hm. pose proof (Z.mod_pos_bound mode 512). lia.
Qed.

Lemma create_entry_ok target mode :
  below destination target -> (0 <= mode <= 511)%Z ->
  extract_call_ok destination (CreateEntry target (Z.ldiff mode 18)).
Proof.
  intros Hb Hm. destruct (clear_write_bits mode). split_and!; try done; by apply ldiff_perm_bounds.
Qed.

Ltac walk :=
  repeat first
    [ progress cbn [always bind bind_err bind_wrap call]
    | match goal with
      | |- always _ _ (match ?r with _ => _ end) => destruct r eqn:?
      | |- always _ _ (match ?r with _ => _ end _) => destruct r eqn:?
      | |- always _ _ (bind (match ?r with _ => _ end) _) => destruct r eqn:?
      | |- _ /\ _ => split
      | |- forall _, _ => intro
      end ].

Lemma ensureSafeParent_ok target :
  below destination target -> always ok (fun _ => True) (ensureSafeParent target).
Proof.
  intros Hb. unfold ensureSafeParent. walk; try done.
  split; [by apply below_dir|done].
Qed.

Lemma writeZIPEntry_ok entry target :
  below destination target -> always ok (fun _ => True) (writeZIPEntry entry target).
Proof.
  intros Hb. unfold writeZIPEntry, bind_err.
  eapply always_bind; [by apply ensureSafeParent_ok|]. intros [[]|e] _; [|done].
  cbn [always bind bind_wrap call]. split; [done|]. intros [[]|e]; [|done].
  cbn [always bind bind_wrap call]. split.
  { pose proof (land511_bounds (ze_mode entry)). case_match; apply create_entry_ok; auto; lia. }
  walk; simpl; auto.
Qed.

Lemma writeTAREntry_ok target size mode :
  below destination target -> always ok (fun _ => True) (writeTAREntry target size mode).
Proof.
  intros Hb. unfold writeTAREntry, bind_err.
  eapply always_bind; [by apply ensureSafeParent_ok|]. intros [[]|e] _; [|done].
  cbn [always bind bind_wrap call]. split.
  { case_match; [by split_and!|]. apply create_entry_ok; [done|]. apply land511_bounds. }
  walk; simpl; auto.
Qed.

Lemma zip_entries_ok l total : always ok (fun _ => True) (zip_entries destination total l).
Proof.
  revert total; induction l as [|entry l IH]; intros total; cbn [zip_entries]; [done|].
  cbn [always bind call]. split; [done|]. intros [e|]; [done|].
  destruct (safeTarget destination (ze_name entry)) as [target|e] eqn:Ht; [|done].
  apply safeTarget_below in Ht; [|done]. cbv zeta.
  destruct (_ || _); [done|]. destruct (has_bits _ ModeDir).
  { cbn [always bind bind_wrap call]. split; [by split; [apply below_at|]|]. intros [[]|e]; [apply IH|done]. }
  destruct (_ <? _)%Z; [done|]. unfold bind_err.
  eapply always_bind; [by apply writeZIPEntry_ok|]. intros [[]|e] _; [apply IH|done].
Qed.

Lemma extract_tar_loop_ok fuel entries total :
  always ok (fun _ => True) (extract_tar_loop fuel destination entries total).
Proof.
  revert entries total; induction fuel as [|fuel IH]; intros entries total; cbn [extract_tar_loop]; [done|].
  cbn [always bind call]. split; [done|]. intros [[header|]|e]; [|done..].
  cbn [always bind call]. split; [done|]. intros [e|]; [done|]. cbv zeta.
  destruct (_ <? _)%Z; [done|].
  destruct (safeTarget destination (th_name header)) as [target|e] eqn:Ht; [|done].
  apply safeTarget_below in Ht; [|done].
  assert (Hreg : forall t, always ok (fun _ => True)
    (try! _ := writeTAREntry target (th_size header) (th_mode header) in
     extract_tar_loop fuel destination (entries + 1) t)).
  { intros t. unfold bind_err. eapply always_bind; [by apply writeTAREntry_ok|].
    intros [[]|e] _; [apply IH|done]. }
  destruct (th_type header); [|destruct (_ || _); [done|apply Hreg]..|done].
  cbn [always bind bind_wrap call]. split; [by split; [apply below_at|]|]. intros [[]|e]; [apply IH|done].
Qed.

Lemma Extract_ok `{Unicode} source :
  always ok (fun _ => True) (Extract source destination).
Proof.
  assert (Htar : forall c, always ok (fun _ => True) (extractTARFile source destination c)).
  { intros c. unfold extractTARFile, extractTAR. cbn [always bind bind_wrap call].
    split; [done|]. intros [[]|e]; [|done]. destruct c; [|apply extract_tar_loop_ok].
    cbn [always bind bind_wrap call]. split; [done|]. intros [[]|e]; [apply extract_tar_loop_ok|done]. }
  unfold Extract. cbn [always bind bind_wrap call].
  split; [by split; [split; [done|by exists []; rewrite app_nil_r]|]|].
  intros [[]|e]; [|done]. cbv zeta. case_match.
  { unfold extractZIP. cbn [always bind bind_wrap call]. split; [done|].
    intros [l|e]; [|done]. case_match; [done|]. apply zip_entries_ok. }
  case_match; [auto|]. case_match; [auto|done].
Qed.

(** Whatever the archive holds and whatever the calls answer, an extraction
    creates directories only at or below the destination and files only strictly
    below it, no file writable by group or world, and starts no process. *)
Theorem extract_confined `{Unicode} source :
  always ok (fun _ => True) (Extract source destination).
Proof. apply Extract_ok. Qed.
End confined.

(** ** The limits on what an archive may expand to *)

(** The bytes a trace asks to copy out of a tar archive. *)
Definition copied_by (ac : action ar_call) : Z :=
  match ac with Act e _ => match e with CopyN _ n => n | _ => 0%Z end end.

Fixpoint copied (tr : list (action ar_call)) : Z :=
  match tr with [] => 0%Z | ac :: tr' => (copied_by ac + copied tr')%Z end.

(** The headers the archive gives have sizes for which [total + size] fits an int64. *)
Definition header_fits (ac : action ar_call) : Prop :=
  match ac with
  | Act e x =>
      match e in ar_call X return X -> Prop with
      | TarNext => fun r => match r with
                            | Ok (Some h) => (th_size h < 2 ^ 63 - maxExtractedBytes)%Z
                            | _ => True end
      | _ => fun _ => True
      end x
  end.

Lemma copied_app a b : copied (a ++ b)%list = (copied a + copied b)%Z.
Proof. induction a; simpl; lia. Qed.

#[local] Opaque maxExtractedBytes.

Lemma max_bytes_bounds : (0 <= maxExtractedBytes < 2 ^ 62)%Z.
Proof. by vm_compute. Qed.

Lemma writeTAREntry_copied target size mode tr r :
  (0 <= size)%Z -> exec (writeTAREntry target size mode) tr r -> (copied tr <= size)%Z.
Proof.
  intros Hs. unfold writeTAREntry, ensureSafeParent, bind_err, bind_wrap. cbn [bind call exec].
  intros (x & tr1 & -> & H). revert H. destruct x; cbn [bind call exec]; [|by intros [-> ->]].
  intros (y & tr2 & -> & H). revert H. destruct y as [res|]; cbn [bind call exec]; [|by intros [-> ->]].
  destruct (negb _); cbn [bind call exec]; [by intros [-> ->]|].
  intros (z & tr3 & -> & H). revert H. destruct z; cbn [bind call exec]; [|by intros [-> ->]].
  intros ([w ce] & tr4 & -> & z & tr5 & -> & H).
  assert (tr5 = []) as -> by (repeat case_match; by destruct H). cbn. lia.
Qed.

Section limits.
Context (destination : string).

Lemma tar_loop_bounded fuel entries total tr r :
  (0 <= total <= maxExtractedBytes)%Z ->
  exec (extract_tar_loop fuel destination entries total) tr r ->
  Forall header_fits tr -> (total + copied tr <= maxExtractedBytes)%Z.
Proof.
  pose proof max_bytes_bounds as Hmax.
  revert entries total tr; induction fuel as [|fuel IH]; intros entries total tr Ht;
    cbn [extract_tar_loop bind call exec]; [intros [-> _]; cbn; lia|].
  intros (next & tr1 & -> & H) Hfit. apply Forall_cons in Hfit as [Hfit1 Hfit].
  change (copied (Act TarNext next :: tr1)) with (copied tr1). revert H.
  destruct next as [[h|]|e]; cbn [bind call exec]; [|intros [-> _]; cbn; lia..].
  intros (c & tr2 & -> & H). change (copied (Act CtxErr c :: tr2)) with (copied tr2).
  apply Forall_cons in Hfit as [_ Hfit]. revert H.
  destruct c as [e|]; cbn [exec]; [intros [-> _]; cbn; lia|].
  destruct (_ <? entries + 1)%Z; cbn [exec]; [intros [-> _]; cbn; lia|].
  destruct (safeTarget destination (th_name h)) as [target|e]; cbn [exec]; [|intros [-> _]; cbn; lia].
  assert (Hreg : exec (if ((th_size h <? 0) || (maxExtractedBytes <? add64 total (th_size h)))%Z
            then Ret (Err SizeLimitExceeded)
            else try! _ := writeTAREntry target (th_size h) (th_mode h) in
              extract_tar_loop fuel destination (entries + 1) (add64 total (th_size h))) tr2 r ->
            (total + copied tr2 <= maxExtractedBytes)%Z).
  { destruct (_ || _)%Z eqn:Hg; cbn [exec]; [intros [-> _]; cbn; lia|].
    apply orb_false_iff in Hg as [Hneg Hle]. cbn in Hfit1. unfold add64 in *.
    rewrite to_int64_id in * by (unfold is_int64; lia).
    intros (t1 & t2 & a & -> & Hw & Hrest)%exec_bind. apply writeTAREntry_copied in Hw; [|lia].
    rewrite copied_app. apply Forall_app in Hfit as [_ Hfit2].
    destruct a as [[]|e]; [|destruct Hrest as [-> _]; cbn; lia].
    apply IH in Hrest; [lia|lia|done]. }
  destruct (th_type h); [|exact Hreg..|cbn [exec]; intros [-> _]; cbn; lia].
  unfold bind_wrap. cbn [bind call exec]. intros (x & tr3 & -> & H).
  change (copied (Act (ArMkdirAll target 488) x :: tr3)) with (copied tr3).
  apply Forall_cons in Hfit as [_ Hfit]. destruct x as [[]|e]; [by eapply IH in H|].
  destruct H as [-> _]. cbn; lia.
Qed.

(** The fuel is enough: the entry counter stops the loop first. *)
Definition ended (r : result archive_error ()) : Prop := r <> Err LoopExhausted.
Notation ends := (always (fun _ _ => True) ended).

Lemma writeTAREntry_ends target size mode : ends (writeTAREntry target size mode).
Proof.
  unfold writeTAREntry, ensureSafeParent, bind_err, bind_wrap, ended.
  repeat first [ progress cbn [always bind call] | split; [done|]; intro | case_match ]; done.
Qed.

Lemma safeTarget_error name e : safeTarget destination name = Err e -> e <> LoopExhausted.
Proof. unfold safeTarget. intros ? ->. by repeat case_match. Qed.

Lemma tar_loop_ends fuel entries total :
  (entries <= maxArchiveEntries < entries + Z.of_nat fuel)%Z ->
  ends (extract_tar_loop fuel destination entries total).
Proof.
  revert entries total; induction fuel as [|fuel IH]; intros entries total Hf; cbn [extract_tar_loop];
    [lia|].
  cbn [always bind call]. split; [done|]. intros [[h|]|e]; [|done..].
  cbn [always bind call]. split; [done|]. intros [e|]; [done|]. cbv zeta.
  destruct (_ <? _)%Z eqn:Hlt; [done|].
  destruct (safeTarget destination (th_name h)) as [target|e] eqn:Ht.
  2:{ cbn. intros [= ->]. by apply (safeTarget_error _ _ Ht). }
  assert (Hnext : forall t, ends (extract_tar_loop fuel destination (entries + 1) t))
    by (intros t; apply IH; lia).
  assert (Hreg : forall t, ends (try! _ := writeTAREntry target (th_size h) (th_mode h) in
     extract_tar_loop fuel destination (entries + 1) t)).
  { intros t. eapply always_bind; [apply writeTAREntry_ends|]. intros [[]|e] Hr; [done|].
    cbn. unfold ended in *. congruence. }
  destruct (th_type h); [|destruct (_ || _); [done|apply Hreg]..|done].
  cbn [always bind bind_wrap call]. split; [done|]. intros [[]|e]; done.
Qed.

(** C40. An extraction of a tar archive ends within the entry limit, and as long
    as no entry claims a size within [maxExtractedBytes] of the largest int64 it
    copies at most [maxExtractedBytes] bytes in all. *)
Theorem tar_extraction_bounded tr r :
  exec (extractTAR destination) tr r ->
  r <> Err LoopExhausted /\ (Forall header_fits tr -> (copied tr <= maxExtractedBytes)%Z).
Proof.
  intros H. split.
  - eapply (always_exec (fun _ _ => True) ended) in H; [by destruct H|].
    apply tar_loop_ends. vm_compute. by split.
  - intros Hfit. apply tar_loop_bounded in H; [lia|pose proof max_bytes_bounds; lia|done].
Qed.

(** The calls that read one regular entry and write it to [target]. *)
Definition entry_calls (name target : string) (size : Z) : list (action ar_call) :=
  [Act TarNext (Ok (Some {| th_name := name; th_type := TypeReg; th_size := size; th_mode := 420 |}));
   Act CtxErr None; Act (ArMkdirAll (dir target) 488) (Ok ());
   Act (ArEvalSymlinks (dir target)) (Ok (dir target)); Act (CreateEntry target 420) (Ok ());
   Act (CopyN target size) (size, None); Act (CloseEntry target) (Ok ())].

Lemma tar_loop_entry fuel entries total name target size tr r :
  safeTarget destination name = Ok target -> (entries < maxArchiveEntries)%Z -> (0 <= size)%Z ->
  (add64 total size <= maxExtractedBytes)%Z ->
  exec (extract_tar_loop fuel destination (entries + 1) (add64 total size)) tr r ->
  exec (extract_tar_loop (S fuel) destination entries total) (entry_calls name target size ++ tr)%list r.
Proof.
  intros Ht He Hs Hl H. unfold entry_calls. cbn [extract_tar_loop bind call exec app].
  do 2 (eexists _, _; split; [reflexivity|]; cbn [bind call exec]).
  assert ((maxArchiveEntries <? entries + 1)%Z = false) as -> by lia.
  cbn [th_name th_type th_size th_mode]. rewrite Ht.
  assert (((size <? 0) || (maxExtractedBytes <? add64 total size))%Z = false) as -> by lia.
  unfold writeTAREntry, ensureSafeParent, bind_err, bind_wrap. cbn [bind call exec].
  do 2 (eexists _, _; split; [reflexivity|]; cbn [bind call exec]).
  rewrite String.eqb_refl. cbn [negb bind call exec].
  do 3 (eexists _, _; split; [reflexivity|]; cbn [bind call exec]).
  by rewrite Z.eqb_refl.
Qed.

(** The running total is an int64, so the size limit is no limit for an
    archive that claims enormous entries: after a one-byte entry, an entry of
    2^63-1 bytes makes the total negative and is copied. *)
Theorem tar_limit_overflow name1 name2 target1 target2 :
  safeTarget destination name1 = Ok target1 -> safeTarget destination name2 = Ok target2 ->
  exists tr, exec (extractTAR destination) tr (Ok ()) /\ copied tr = (2 ^ 63)%Z.
Proof.
  intros H1 H2.
  exists (entry_calls name1 target1 1 ++ entry_calls name2 target2 (2 ^ 63 - 1) ++ [Act TarNext (Ok None)])%list.
  split; [|by rewrite !copied_app].
  assert (exists n, S (Z.to_nat maxArchiveEntries) = S (S (S n))) as [n Hn] by by exists (Z.to_nat 9998).
  unfold extractTAR. rewrite Hn. pose proof max_bytes_bounds.
  apply tar_loop_entry; [done|by vm_compute|done| |].
  { change (add64 0 1) with 1%Z. by vm_compute. }
  apply tar_loop_entry; [done|by vm_compute|done|by vm_compute|].
  by exists (Ok None), [].
Qed.
End limits.

(** ** Witnesses *)

Lemma extract_confined_witness :
  always (fun X (e : ar_call X) => extract_call_ok "/var/www/site" e) (fun _ => True)
    (@Extract unicode_ascii "/tmp/upload.zip" "/var/www/site").
Proof. exact (@extract_confined "/var/www/site" eq_refl unicode_ascii "/tmp/upload.zip"). Defined.

Definition sample_tar : list (action ar_call) :=
  (entry_calls "a.txt" "/srv/a.txt" 3 ++ [Act TarNext (Ok None)])%list.

Lemma sample_tar_exec : exec (extractTAR "/srv") sample_tar (Ok ()).
Proof.
  assert (exists n, S (Z.to_nat maxArchiveEntries) = S (S n)) as [n Hn] by by exists (Z.to_nat 9999).
  unfold extractTAR. rewrite Hn. apply tar_loop_entry; [done|by vm_compute..|]. by exists (Ok None), [].
Qed.

Lemma tar_extraction_bounded_witness :
  Ok () <> Err LoopExhausted /\
  (Forall header_fits sample_tar -> (copied sample_tar <= maxExtractedBytes)%Z).
Proof. exact (tar_extraction_bounded "/srv" sample_tar (Ok ()) sample_tar_exec). Defined.

Lemma tar_limit_overflow_witness :
  exists tr, exec (extractTAR "/srv") tr (Ok ()) /\ copied tr = (2 ^ 63)%Z.
Proof. exact (tar_limit_overflow "/srv" "a" "b" "/srv/a" "/srv/b" eq_refl eq_refl). Defined.
