(* ===== verification/Auth.v ===== *)
(** * Users, sessions and tokens

    src/internal/core/auth: roles and permissions (domain.go), the service
    (service.go), generated passwords (password.go), access tokens (jwt.go), and
    the SQLite repositories (sqlite_repository.go) as operations on two tables.

    The service is a [prog] over the calls it makes to its repositories, to the
    audit log, to bcrypt, the JWT library, the random source and the clock.
    bcrypt, JWT and UUID answers are arbitrary; the repositories answer from the
    tables. *)

From S2P Require Import Prelude GoStrings GoStrconv AppErrors Effects.
Local Open Scope string_scope.
Local Open Scope go_scope.

(** ** Roles and permissions *)

(** source: internal/core/auth/domain.go:22-53 (Permission) *)
Inductive Permission :=
| PermDashboardView | PermProcessManage
| PermModuleView | PermModuleInstall | PermModuleUninstall | PermModuleEnable | PermModuleDisable
| PermModuleConfigure
| PermSiteView | PermSiteCreate | PermSiteUpdate | PermSiteDelete
| PermServiceView | PermServiceManage
| PermServerView | PermServerManage
| PermSettingsView | PermSettingsUpdate | PermSettingsSecurity
| PermAuditView | PermUserManage.

#[export] Instance Permission_eq_dec : EqDecision Permission.
Proof. solve_decision. Defined.

(** A role is a string; three of them are known. *)
(** source: internal/core/auth/domain.go:13-20 (Role) *)
Definition Role : Set := string.
Definition RoleAdmin : Role := "admin".
Definition RoleOperator : Role := "operator".
Definition RoleViewer : Role := "viewer".

(** source: internal/core/auth/domain.go:55-87 (rolePermissions) *)
Definition rolePermissions (r : Role) : list Permission :=
  if String.eqb r RoleAdmin then
    [PermDashboardView; PermProcessManage;
     PermModuleView; PermModuleInstall; PermModuleUninstall;
     PermModuleEnable; PermModuleDisable; PermModuleConfigure;
     PermSiteView; PermSiteCreate; PermSiteUpdate; PermSiteDelete;
     PermServiceView; PermServiceManage; PermServerView; PermServerManage;
     PermSettingsView; PermSettingsUpdate; PermSettingsSecurity;
     PermAuditView; PermUserManage]
  else if String.eqb r RoleOperator then
    [PermDashboardView; PermProcessManage;
     PermModuleView; PermModuleEnable; PermModuleDisable; PermModuleConfigure;
     PermSiteView; PermSiteCreate; PermSiteUpdate; PermSiteDelete;
     PermServiceView; PermServiceManage; PermServerView; PermServerManage;
     PermSettingsView; PermAuditView]
  else if String.eqb r RoleViewer then
    [PermDashboardView; PermModuleView; PermSiteView; PermServiceView; PermServerView;
     PermSettingsView; PermAuditView]
  else [].

(** source: internal/core/auth/domain.go:89-97 (HasPermission) *)
Definition HasPermission (r : Role) (p : Permission) : bool := bool_decide (p ∈ rolePermissions r).

(** source: internal/core/auth/domain.go:99-102 (IsValid) *)
Definition IsValid (r : Role) : bool :=
  String.eqb r RoleAdmin || String.eqb r RoleOperator || String.eqb r RoleViewer.

(** ** Data *)

(** source: internal/core/auth/domain.go:106-117 (User); times in nanoseconds *)
Record User := {
  ID : string; Username : string; Email : string; Password : string; Role_ : Role;
  IsActive : bool; CreatedAt : Z; UpdatedAt : Z; LastLogin : option Z;
}.

(** source: internal/core/auth/domain.go:124-127 (IsAdmin) *)
Definition IsAdmin (u : User) : bool := String.eqb (Role_ u) RoleAdmin.

(** source: internal/core/auth/domain.go:131-140 (Session) *)
Record Session := {
  s_ID : string; UserID : string; TokenHash : string; IPAddress : string; UserAgent : string;
  ExpiresAt : Z; s_CreatedAt : Z;
}.

(** source: internal/core/auth/domain.go:142-145 (IsExpired) *)
Definition IsExpired (now : Z) (s : Session) : bool := (ExpiresAt s <? now)%Z.

(** source: internal/core/auth/service.go:23-29 (TokenPair) *)
Record TokenPair := { AccessToken : string; RefreshToken : string; tp_ExpiresAt : Z; TokenType : string }.

(** source: internal/core/auth/jwt.go:10-16 (Claims) *)
Record Claims := {
  Issuer : string; Subject : string; IssuedAt : Z; c_ExpiresAt : Z;
  c_UserID : string; c_Username : string; c_Role : string;
}.

(** source: internal/core/auth/repository.go:5-11 (UserFilter) *)
Record UserFilter := { f_Query : string; f_Role : Role; f_Status : string; f_Limit : Z; f_Offset : Z }.

(** source: internal/core/auth/repository.go:13-18 (UserPage) *)
Record UserPage := { Items : list User; Total : Z; p_Limit : Z; p_Offset : Z }.

(** source: internal/core/auth/service.go:223-228 (CreateUserInput) *)
Record CreateUserInput := { ci_Username : string; ci_Email : string; ci_Password : string; ci_Role : Role }.
(** source: internal/core/auth/service.go:230-234 (UpdateUserInput) *)
Record UpdateUserInput := { ui_Username : string; ui_Email : string; ui_Role : Role }.

(** ** Calls *)

(** source: internal/core/auth/repository.go:20-40 (UserRepository, SessionRepository)
    and what else the service calls *)
Inductive auth_call : Set -> Set :=
| FindByID (id : string) : auth_call (result error User)
| FindByUsername (username : string) : auth_call (result error User)
| CreateU (u : User) : auth_call (result error ())
| UpdateU (u : User) : auth_call (result error ())
| DeleteU (id : string) : auth_call (result error ())
| Count : auth_call (result error Z)
| ListU (f : UserFilter) : auth_call (result error UserPage)
| CreateS (s : Session) : auth_call (result error ())
| FindByTokenHash (hash : string) : auth_call (result error Session)
| DeleteByID (id : string) : auth_call (result error ())
| DeleteExpired (now : Z) : auth_call (result error ())
| DeleteByUserID (id : string) : auth_call (result error ())
| AuditRecord (actor action resource : string) : auth_call ()
| AuditList (id : string) (limit offset : Z) : auth_call (result error (list string))
| BcryptHash (password : string) : auth_call (result error string)
| BcryptCompare (hash password : string) : auth_call bool
| JwtSign (c : Claims) : auth_call (result error string)
| RandRead (n : nat) : auth_call (result error (list Z))
| NewUUID : auth_call string
| TimeNow : auth_call Z.

(** Functions of other packages: the hex SHA-256 digest, and whether
    [net/mail.ParseAddress] accepts a string. *)
Class AuthLibs := { sha256Hex : string -> string; mail_ok : string -> bool }.

(** source: internal/core/auth/password.go:12-16 (MinimumPasswordLength) *)
Definition MinimumPasswordLength : Z := 12.
(** source: internal/core/auth/password.go:12-16 (DefaultGeneratedPasswordLength) *)
Definition DefaultGeneratedPasswordLength : Z := 20.
(** source: internal/core/auth/password.go:12-16 (passwordAlphabet) *)
Definition passwordAlphabet : string :=
  "ABCDEFGHIJKLMNOPQRSTUVWXYZabcdefghijklmnopqrstuvwxyz0123456789-_".

(** ** Access tokens *)

(** source: internal/core/auth/jwt.go:18-30 (NewJWTManager) *)
Definition NewJWTManager (secret : string) : result error string :=
  if (len secret <? 32)%Z then Err (Plain "jwt: secret must be at least 32 bytes") else Ok secret.

(** source: internal/core/auth/jwt.go:32-53 (Generate) *)
Definition Generate (userID username role : string) (ttl : Z) : prog auth_call (result error string) :=
  let! now := call TimeNow in
  let claims := {| Issuer := "opendeploy"; Subject := userID; IssuedAt := now;
                   c_ExpiresAt := now + ttl; c_UserID := userID; c_Username := username; c_Role := role |} in
  wrap! (Wrapped "jwt: sign") of signed := call (JwtSign claims) in
  Ret (Ok signed).

(** ** The service *)

(** source: internal/core/auth/service.go:31-42 (Service): the durations, and whether
    there is an audit log *)
Record Service := { accessTTL : Z; refreshTTL : Z; has_audit : bool }.

Section service.
Context `{Unicode} `{AuthLibs} (svc : Service).

(** source: internal/core/auth/service.go:388-395 (generateSecureToken) *)
Definition generateSecureToken : prog auth_call (result error string) :=
  wrap! (Wrapped "generate token") of b := call (RandRead 32) in
  Ret (Ok (String.concat "" (map (hex_pad 2) b))).

(** source: internal/core/auth/service.go:373-379 (recordUserAudit) *)
Definition recordUserAudit (actorID action id : string) : prog auth_call () :=
  if has_audit svc then call (AuditRecord actorID action ("user:" ++ id)) else Ret ().

(** source: internal/core/auth/service.go:360-371 (validateUserInput) *)
Definition validateUserInput (username email : string) (role : Role) : result error () :=
  if (len username <? 3)%Z || (64 <? len username)%Z then
    Err (InvalidInput "username must contain 3 to 64 characters")
  else if negb (mail_ok email) then Err (InvalidInput "email is invalid")
  else if negb (IsValid role) then Err (InvalidInput "role must be admin, operator, or viewer")
  else Ok ().

Definition invalid_credentials : error :=
  App (New 401 CodeInvalidCredentials "invalid username or password").
Definition password_too_short : error :=
  InvalidInput "password must contain at least 12 characters".

(** [apperrors.Internal(msg, err)] *)
Definition internal (msg : string) (e : error) : error := App (Internal msg e).

(** source: internal/core/auth/service.go:64-99 (SeedAdminIfEmpty) *)
Definition SeedAdminIfEmpty (username password : string) : prog auth_call (result error ()) :=
  wrap! (Wrapped "auth: seed admin: count users") of count := call Count in
  if (0 <? count)%Z then Ret (Ok ())
  else if (len password <? MinimumPasswordLength)%Z then
    Ret (Err (Plain "auth: seed admin: initial password must contain at least 12 characters"))
  else
    wrap! (Wrapped "auth: seed admin: hash password") of hash := call (BcryptHash password) in
    let! now := call TimeNow in
    let! id := call NewUUID in
    let admin := {| ID := id; Username := username; Email := username ++ "@localhost"; Password := hash;
                    Role_ := RoleAdmin; IsActive := true; CreatedAt := now; UpdatedAt := now;
                    LastLogin := None |} in
    wrap! (Wrapped "auth: seed admin: create") of _ := call (CreateU admin) in
    Ret (Ok ()).

Definition touch_login (now : Z) (u : User) : User := {|
  ID := ID u; Username := Username u; Email := Email u; Password := Password u; Role_ := Role_ u;
  IsActive := IsActive u; CreatedAt := CreatedAt u; UpdatedAt := now; LastLogin := Some now |}.

Definition new_session (id user hash ip agent : string) (now : Z) : Session := {|
  s_ID := id; UserID := user; TokenHash := hash; IPAddress := ip; UserAgent := agent;
  ExpiresAt := now + refreshTTL svc; s_CreatedAt := now |}.

Definition token_pair (access refresh : string) (now : Z) : TokenPair := {|
  AccessToken := access; RefreshToken := refresh; tp_ExpiresAt := now + accessTTL svc;
  TokenType := "Bearer" |}.

(** source: internal/core/auth/service.go:101-156 (Login) *)
Definition Login (username password ipAddress userAgent : string) :
    prog auth_call (result error TokenPair) :=
  let! found := call (FindByUsername username) in
  match found with
  | Err _ => Ret (Err invalid_credentials)
  | Ok user =>
  let! matches := call (BcryptCompare (Password user) password) in
  if negb matches then Ret (Err invalid_credentials)
  else if negb (IsActive user) then Ret (Err (Forbidden "user account is blocked"))
  else
    wrap! (internal "generate access token") of accessToken :=
      Generate (ID user) (Username user) (Role_ user) (accessTTL svc) in
    wrap! (internal "generate refresh token") of rawRefresh := generateSecureToken in
    let tokenHash := sha256Hex rawRefresh in
    let! now := call TimeNow in
    let! sid := call NewUUID in
    let session := new_session sid (ID user) tokenHash ipAddress userAgent now in
    wrap! (internal "create session") of _ := call (CreateS session) in
    let! now2 := call TimeNow in
    ignore! (call (UpdateU (touch_login now2 user))) in
    Ret (Ok (token_pair accessToken rawRefresh now))
  end.

(** source: internal/core/auth/service.go:158-207 (Refresh) *)
Definition Refresh (rawRefreshToken ipAddress userAgent : string) :
    prog auth_call (result error TokenPair) :=
  let hash := sha256Hex rawRefreshToken in
  let! found := call (FindByTokenHash hash) in
  match found with
  | Err _ => Ret (Err (App (New 401 CodeTokenInvalid "invalid or expired refresh token")))
  | Ok session =>
  let! now := call TimeNow in
  if IsExpired now session then
    ignore! (call (DeleteByID (s_ID session))) in
    Ret (Err (App (New 401 CodeTokenExpired "refresh token expired")))
  else
    wrap! (internal "find user for refresh") of user := call (FindByID (UserID session)) in
    ignore! (call (DeleteByID (s_ID session))) in
    wrap! (internal "generate access token") of accessToken :=
      Generate (ID user) (Username user) (Role_ user) (accessTTL svc) in
    wrap! (internal "generate refresh token") of rawRefresh := generateSecureToken in
    let! now := call TimeNow in
    let! sid := call NewUUID in
    let newSession := new_session sid (ID user) (sha256Hex rawRefresh) ipAddress userAgent now in
    wrap! (internal "create refreshed session") of _ := call (CreateS newSession) in
    Ret (Ok (token_pair accessToken rawRefresh now))
  end.

(** source: internal/core/auth/service.go:209-216 (Logout) *)
Definition Logout (userID : string) : prog auth_call (result error ()) :=
  wrap! (internal "logout: delete sessions") of _ := call (DeleteByUserID userID) in
  Ret (Ok ()).

(** source: internal/core/auth/service.go:218-221 (GetUser) *)
Definition GetUser (userID : string) : prog auth_call (result error User) := call (FindByID userID).

(** source: internal/core/auth/service.go:236-244 (ListUsers) *)
Definition ListUsers (f : UserFilter) : prog auth_call (result error UserPage) :=
  let limit := if (f_Limit f <=? 0)%Z || (100 <? f_Limit f)%Z then 25%Z else f_Limit f in
  let offset := if (f_Offset f <? 0)%Z then 0%Z else f_Offset f in
  call (ListU {| f_Query := f_Query f; f_Role := f_Role f; f_Status := f_Status f;
                 f_Limit := limit; f_Offset := offset |}).

(** source: internal/core/auth/service.go:246-266 (CreateUser) *)
Definition CreateUser (actorID : string) (input : CreateUserInput) : prog auth_call (result error User) :=
  let username := trim_space (ci_Username input) in
  let email := trim_space (to_lower (ci_Email input)) in
  match validateUserInput username email (ci_Role input) with
  | Err e => Ret (Err e)
  | Ok _ =>
  if (len (ci_Password input) <? MinimumPasswordLength)%Z then Ret (Err password_too_short)
  else
    wrap! (internal "hash password") of hash := call (BcryptHash (ci_Password input)) in
    let! now := call TimeNow in
    let! id := call NewUUID in
    let user := {| ID := id; Username := username; Email := email; Password := hash;
                   Role_ := ci_Role input; IsActive := true; CreatedAt := now; UpdatedAt := now;
                   LastLogin := None |} in
    try! _ := call (CreateU user) in
    ignore! (recordUserAudit actorID "user.create" id) in
    Ret (Ok user)
  end.

(** source: internal/core/auth/service.go:268-287 (UpdateUser) *)
Definition UpdateUser (actorID id : string) (input : UpdateUserInput) : prog auth_call (result error User) :=
  try! user := call (FindByID id) in
  let username := trim_space (ui_Username input) in
  let email := trim_space (to_lower (ui_Email input)) in
  match validateUserInput username email (ui_Role input) with
  | Err e => Ret (Err e)
  | Ok _ =>
  if String.eqb actorID id && negb (String.eqb (ui_Role input) RoleAdmin) then
    Ret (Err (InvalidInput "an administrator cannot remove their own admin role"))
  else
    let! now := call TimeNow in
    let user := {| ID := ID user; Username := username; Email := email; Password := Password user;
                   Role_ := ui_Role input; IsActive := IsActive user; CreatedAt := CreatedAt user;
                   UpdatedAt := now; LastLogin := LastLogin user |} in
    try! _ := call (UpdateU user) in
    ignore! (recordUserAudit actorID "user.update" id) in
    Ret (Ok user)
  end.

Definition set_password (hash : string) (active : bool) (now : Z) (u : User) : User := {|
  ID := ID u; Username := Username u; Email := Email u; Password := hash; Role_ := Role_ u;
  IsActive := active; CreatedAt := CreatedAt u; UpdatedAt := now; LastLogin := LastLogin u |}.

(** source: internal/core/auth/service.go:289-308 (SetPassword) *)
Definition SetPassword (actorID id password : string) : prog auth_call (result error ()) :=
  if (len password <? MinimumPasswordLength)%Z then Ret (Err password_too_short)
  else
    try! user := call (FindByID id) in
    wrap! (internal "hash password") of hash := call (BcryptHash password) in
    let! now := call TimeNow in
    try! _ := call (UpdateU (set_password hash (IsActive user) now user)) in
    ignore! (call (DeleteByUserID id)) in
    ignore! (recordUserAudit actorID "user.password.change" id) in
    Ret (Ok ()).

Definition set_active (active : bool) (now : Z) (u : User) : User :=
  set_password (Password u) active now u.

(** source: internal/core/auth/service.go:310-331 (SetUserActive) *)
Definition SetUserActive (actorID id : string) (active : bool) : prog auth_call (result error User) :=
  if String.eqb actorID id && negb active then
    Ret (Err (InvalidInput "an administrator cannot block their own account"))
  else
    try! user := call (FindByID id) in
    let! now := call TimeNow in
    let user := set_active active now user in
    try! _ := call (UpdateU user) in
    ignore! (if active then Ret (Ok ()) else call (DeleteByUserID id)) in
    ignore! (recordUserAudit actorID (if active then "user.unblock" else "user.block") id) in
    Ret (Ok user).

(** source: internal/core/auth/service.go:333-345 (DeleteUser) *)
Definition DeleteUser (actorID id : string) : prog auth_call (result error ()) :=
  if String.eqb actorID id then
    Ret (Err (InvalidInput "an administrator cannot delete their own account"))
  else
    try! _ := call (FindByID id) in
    wrap! (internal "delete user") of _ := call (DeleteU id) in
    ignore! (recordUserAudit actorID "user.delete" id) in
    Ret (Ok ()).

(** source: internal/core/auth/service.go:347-358 (UserAudit) *)
Definition UserAudit (id : string) (limit offset : Z) : prog auth_call (result error (list string)) :=
  try! _ := call (FindByID id) in
  let limit := if (limit <=? 0)%Z || (100 <? limit)%Z then 50%Z else limit in
  let offset := if (offset <? 0)%Z then 0%Z else offset in
  call (AuditList id limit offset).

(** source: internal/core/auth/service.go:381-384 (PurgeExpiredSessions) *)
Definition PurgeExpiredSessions : prog auth_call (result error ()) :=
  let! now := call TimeNow in call (DeleteExpired now).

(** ** Generated passwords *)

(** source: internal/core/auth/password.go:28-31 (GeneratePassword, the loop) *)
Definition password_chars (random : list Z) : string :=
  string_of_list_ascii ((fun value =>
    default "A"%char (String.get (Z.to_nat (Z.land value 63)) passwordAlphabet)) <$> random).

(** source: internal/core/auth/password.go:18-33 (GeneratePassword) *)
Definition GeneratePassword (length : Z) : prog auth_call (result error string) :=
  if (length <? MinimumPasswordLength)%Z then
    Ret (Err (Plain "password length must be at least 12 characters"))
  else
    wrap! (Wrapped "generate password entropy") of random := call (RandRead (Z.to_nat length)) in
    Ret (Ok (password_chars random)).

(** source: internal/core/auth/password.go:35-65 (ResetGeneratedPassword) *)
Definition ResetGeneratedPassword (username : string) : prog auth_call (result error string) :=
  wrap! (Wrapped "find user") of user := call (FindByUsername username) in
  try! password := GeneratePassword DefaultGeneratedPasswordLength in
  wrap! (Wrapped "hash generated password") of hash := call (BcryptHash password) in
  let! now := call TimeNow in
  wrap! (Wrapped "revoke sessions") of _ := call (DeleteByUserID (ID user)) in
  wrap! (Wrapped "update user") of _ := call (UpdateU (set_password hash true now user)) in
  Ret (Ok password).
End service.

(** ** The tables

    The schema of migrations/001_init.up.sql: users with unique identifier, name
    and address and a checked role; sessions with unique identifier and token hash
    whose user exists, and which go when it goes.  Foreign keys are on.  Times are
    stored in RFC 3339, so to the second. *)

Record tables := { users : gmap string User; sessions : gmap string Session }.

Definition rfc3339 (t : Z) : Z := (t / 1000000000 * 1000000000)%Z.

Definition find_in {A} (p : A -> bool) (m : gmap string A) : option A :=
  snd <$> head (List.filter (fun '(_, a) => p a) (map_to_list m)).

(** Another row than [id] satisfies [p]. *)
Definition other_row {A} (id : string) (p : A -> bool) (m : gmap string A) : bool :=
  existsb (fun '(k, a) => negb (String.eqb k id) && p a) (map_to_list m).

Definition user_conflict (t : tables) (u : User) : bool :=
  other_row (ID u) (fun v => String.eqb (Username v) (Username u) || String.eqb (Email v) (Email u)) (users t).

Definition set_users (m : gmap string User) (t : tables) : tables := {| users := m; sessions := sessions t |}.
Definition set_sessions (m : gmap string Session) (t : tables) : tables := {| users := users t; sessions := m |}.

Definition no_session_of (id : string) (m : gmap string Session) : gmap string Session :=
  filter (fun '(_, s) => UserID s <> id) m.

(** source: internal/core/auth/sqlite_repository.go:26-30 (FindByID) *)
Definition repo_FindByID (t : tables) (id : string) : result error User :=
  match users t !! id with Some u => Ok u | None => Err (NotFound "user") end.

(** source: internal/core/auth/sqlite_repository.go:32-36 (FindByUsername) *)
Definition repo_FindByUsername (t : tables) (username : string) : result error User :=
  match find_in (fun u => String.eqb (Username u) username) (users t) with
  | Some u => Ok u | None => Err (NotFound "user") end.

(** source: internal/core/auth/sqlite_repository.go:44-59 (Create) *)
Definition repo_CreateU (t : tables) (u : User) : result error () * tables :=
  if bool_decide (is_Some (users t !! ID u)) || user_conflict t u then (Err (AlreadyExists "user"), t)
  else if negb (IsValid (Role_ u)) then (Err (Plain "user repository: create: CHECK constraint failed"), t)
  else (Ok (), set_users (<[ID u := {|
      ID := ID u; Username := Username u; Email := Email u; Password := Password u; Role_ := Role_ u;
      IsActive := IsActive u; CreatedAt := rfc3339 (CreatedAt u); UpdatedAt := rfc3339 (UpdatedAt u);
      LastLogin := None |}]> (users t)) t).

(** source: internal/core/auth/sqlite_repository.go:61-83 (Update) *)
Definition repo_UpdateU (t : tables) (u : User) : result error () * tables :=
  match users t !! ID u with
  | None => (Err (NotFound "user"), t)
  | Some old =>
      if user_conflict t u then (Err (Plain "user repository: update: UNIQUE constraint failed"), t)
      else if negb (IsValid (Role_ u)) then (Err (Plain "user repository: update: CHECK constraint failed"), t)
      else (Ok (), set_users (<[ID u := {|
          ID := ID u; Username := Username u; Email := Email u; Password := Password u; Role_ := Role_ u;
          IsActive := IsActive u; CreatedAt := CreatedAt old; UpdatedAt := rfc3339 (UpdatedAt u);
          LastLogin := rfc3339 <$> LastLogin u |}]> (users t)) t)
  end.

(** source: internal/core/auth/sqlite_repository.go:85-89 (Delete) *)
Definition repo_DeleteU (t : tables) (id : string) : result error () * tables :=
  (Ok (), {| users := delete id (users t); sessions := no_session_of id (sessions t) |}).

(** source: internal/core/auth/sqlite_repository.go:91-95 (Count) *)
Definition repo_Count (t : tables) : result error Z := Ok (Z.of_nat (size (users t))).

(** source: internal/core/auth/sqlite_repository.go:183-195 (Create) *)
Definition repo_CreateS (t : tables) (s : Session) : result error () * tables :=
  if bool_decide (is_Some (sessions t !! s_ID s))
     || other_row (s_ID s) (fun r => String.eqb (TokenHash r) (TokenHash s)) (sessions t) then
    (Err (Plain "session repository: create: UNIQUE constraint failed"), t)
  else if negb (bool_decide (is_Some (users t !! UserID s))) then
    (Err (Plain "session repository: create: FOREIGN KEY constraint failed"), t)
  else (Ok (), set_sessions (<[s_ID s := {|
      s_ID := s_ID s; UserID := UserID s; TokenHash := TokenHash s; IPAddress := IPAddress s;
      UserAgent := UserAgent s; ExpiresAt := rfc3339 (ExpiresAt s);
      s_CreatedAt := rfc3339 (s_CreatedAt s) |}]> (sessions t)) t).

(** source: internal/core/auth/sqlite_repository.go:197-214 (FindByTokenHash) *)
Definition repo_FindByTokenHash (t : tables) (hash : string) : result error Session :=
  match find_in (fun s => String.eqb (TokenHash s) hash) (sessions t) with
  | Some s => Ok s
  | None => Err (App (New 401 CodeSessionNotFound "session not found"))
  end.

(** source: internal/core/auth/sqlite_repository.go:216-219 (DeleteByID) *)
Definition repo_DeleteByID (t : tables) (id : string) : result error () * tables :=
  (Ok (), set_sessions (delete id (sessions t)) t).

(** source: internal/core/auth/sqlite_repository.go:221-225 (DeleteExpired) *)
Definition repo_DeleteExpired (t : tables) (now : Z) : result error () * tables :=
  (Ok (), set_sessions (filter (fun '(_, s) => (rfc3339 now <= ExpiresAt s)%Z) (sessions t)) t).

(** source: internal/core/auth/sqlite_repository.go:227-230 (DeleteByUserID) *)
Definition repo_DeleteByUserID (t : tables) (id : string) : result error () * tables :=
  (Ok (), set_sessions (no_session_of id (sessions t)) t).

(** A read leaves the tables alone. *)
Definition reading {A} (t : tables) (r : A) : A * tables := (r, t).

(** The answer of a repository call and the tables after it; [None] for calls that
    are none. *)
Definition repo {X} (e : auth_call X) (t : tables) : option (X * tables) :=
  match e in auth_call X return option (X * tables) with
  | FindByID id => Some (reading t (repo_FindByID t id))
  | FindByUsername n => Some (reading t (repo_FindByUsername t n))
  | CreateU u => Some (repo_CreateU t u)
  | UpdateU u => Some (repo_UpdateU t u)
  | DeleteU id => Some (repo_DeleteU t id)
  | Count => Some (reading t (repo_Count t))
  | CreateS s => Some (repo_CreateS t s)
  | FindByTokenHash h => Some (reading t (repo_FindByTokenHash t h))
  | DeleteByID id => Some (repo_DeleteByID t id)
  | DeleteExpired now => Some (repo_DeleteExpired t now)
  | DeleteByUserID id => Some (repo_DeleteByUserID t id)
  | _ => None
  end.

(** The answer of a call that failed with a database error. *)
Definition failed {X} (e : auth_call X) (x : X) : Prop :=
  match e in auth_call X return X -> Prop with
  | FindByID _ => fun x => exists m, x = Err (Plain m)
  | FindByUsername _ => fun x => exists m, x = Err (Plain m)
  | FindByTokenHash _ => fun x => exists m, x = Err (Plain m)
  | Count => fun x => exists m, x = Err (Plain m)
  | CreateU _ | UpdateU _ | DeleteU _ | CreateS _ | DeleteByID _ | DeleteExpired _
  | DeleteByUserID _ => fun x => exists m, x = Err (Plain m)
  | _ => fun _ => False
  end x.

(** One call: a repository call is answered from the tables or, if [faulty], fails
    without effect; any other call is answered arbitrarily. *)
Definition sem (faulty : bool) X (e : auth_call X) (t : tables) (x : X) (t' : tables) : Prop :=
  match repo e t with
  | Some out => out = (x, t') \/ faulty = true /\ failed e x /\ t' = t
  | None => t' = t
  end.

(** ** Invariants of the tables *)

Record tables_ok (t : tables) : Prop := {
  ok_user_key : forall i u, users t !! i = Some u -> ID u = i;
  ok_username : forall i j u v, users t !! i = Some u -> users t !! j = Some v ->
    Username u = Username v -> i = j;
  ok_email : forall i j u v, users t !! i = Some u -> users t !! j = Some v -> Email u = Email v -> i = j;
  ok_role : forall i u, users t !! i = Some u -> IsValid (Role_ u) = true;
  ok_session_key : forall i s, sessions t !! i = Some s -> s_ID s = i;
  ok_token : forall i j r s, sessions t !! i = Some r -> sessions t !! j = Some s ->
    TokenHash r = TokenHash s -> i = j;
  ok_owner : forall i s, sessions t !! i = Some s -> is_Some (users t !! UserID s);
}.

Lemma other_row_false {A} id (p : A -> bool) (m : gmap string A) :
  other_row id p m = false -> forall k a, m !! k = Some a -> k <> id -> p a = false.
Proof.
  unfold other_row. intros Hf k a Hk Hne. apply not_true_iff_false in Hf.
  destruct (p a) eqn:Hp; [|done]. destruct Hf. apply existsb_exists. exists (k, a).
  split; [by apply list_elem_of_In, elem_of_map_to_list|]. rewrite Hp.
  by apply String.eqb_neq in Hne as ->.
Qed.

Lemma find_in_some {A} (p : A -> bool) (m : gmap string A) a :
  find_in p m = Some a -> exists k, m !! k = Some a /\ p a = true.
Proof.
  unfold find_in. destruct (List.filter _ _) as [|[k b] l] eqn:Hf; simpl; [done|]. intros [= <-].
  assert (Hin : In (k, b) ((k, b) :: l)) by by left. rewrite <- Hf in Hin.
  apply filter_In in Hin as [Hin Hp]. exists k. split; [|done].
  by apply elem_of_map_to_list, list_elem_of_In.
Qed.

Lemma find_in_none {A} (p : A -> bool) (m : gmap string A) :
  find_in p m = None <-> forall k a, m !! k = Some a -> p a = false.
Proof.
  unfold find_in. split.
  - destruct (List.filter _ _) as [|[k b] l] eqn:Hf; [|done]. intros _ k a Hk.
    destruct (p a) eqn:Hp; [|done]. enough (In (k, a) []) by done. rewrite <- Hf. apply filter_In.
    split; [|done]. by apply list_elem_of_In, elem_of_map_to_list.
  - intros Hall. destruct (List.filter _ _) as [|[k b] l] eqn:Hf; [done|]. exfalso.
    assert (Hin : In (k, b) ((k, b) :: l)) by by left. rewrite <- Hf in Hin.
    apply filter_In in Hin as [Hin%list_elem_of_In%elem_of_map_to_list Hp].
    by rewrite (Hall k b Hin) in Hp.
Qed.

(** Putting a user row that conflicts with no other one. *)
Lemma put_user_ok t u :
  tables_ok t -> user_conflict t u = false -> IsValid (Role_ u) = true ->
  tables_ok (set_users (<[ID u := u]> (users t)) t).
Proof.
  intros Hok Hc Hrole. pose proof (other_row_false _ _ _ Hc) as Hother.
  assert (Hdiff : forall k v, users t !! k = Some v -> k <> ID u -> Username v <> Username u /\ Email v <> Email u).
  { intros k v Hk Hne. specialize (Hother k v Hk Hne). apply orb_false_iff in Hother as [H1 H2].
    by split; apply String.eqb_neq. }
  split; simpl.
  - intros i v [[<- <-]|[_ Hv]]%lookup_insert_Some; [done|by eapply ok_user_key].
  - intros i j v w Hv Hw Heq. apply lookup_insert_Some in Hv, Hw.
    destruct Hv as [[<- <-]|[Hni Hv]], Hw as [[<- <-]|[Hnj Hw]]; [done| | |by eapply ok_username].
    + by destruct (Hdiff j w Hw (not_eq_sym Hnj)).
    + by destruct (Hdiff i v Hv (not_eq_sym Hni)).
  - intros i j v w Hv Hw Heq. apply lookup_insert_Some in Hv, Hw.
    destruct Hv as [[<- <-]|[Hni Hv]], Hw as [[<- <-]|[Hnj Hw]]; [done| | |by eapply ok_email].
    + by destruct (Hdiff j w Hw (not_eq_sym Hnj)).
    + by destruct (Hdiff i v Hv (not_eq_sym Hni)).
  - intros i v [[<- <-]|[_ Hv]]%lookup_insert_Some; [done|by eapply ok_role].
  - apply (ok_session_key t Hok).
  - apply (ok_token t Hok).
  - intros i s Hs. apply (ok_owner t Hok) in Hs. by apply lookup_insert_is_Some'; right.
Qed.

Lemma put_row_ok t u row :
  tables_ok t -> user_conflict t u = false -> IsValid (Role_ u) = true ->
  ID row = ID u -> Username row = Username u -> Email row = Email u -> Role_ row = Role_ u ->
  tables_ok (set_users (<[ID u := row]> (users t)) t).
Proof.
  intros Hok Hc Hv Hi Hn He Hr. rewrite <- Hi. apply put_user_ok; [done| |by rewrite Hr].
  unfold user_conflict in *. by rewrite Hi, Hn, He.
Qed.

(** Fewer sessions, and fewer users as long as theirs go too. *)
Lemma shrink_ok t t' :
  tables_ok t -> users t' ⊆ users t -> sessions t' ⊆ sessions t ->
  (forall i s, sessions t' !! i = Some s -> is_Some (users t' !! UserID s)) -> tables_ok t'.
Proof.
  intros Hok Hu Hs Hown.
  assert (Hu' : forall i u, users t' !! i = Some u -> users t !! i = Some u)
    by (intros; by eapply lookup_weaken).
  assert (Hs' : forall i s, sessions t' !! i = Some s -> sessions t !! i = Some s)
    by (intros; by eapply lookup_weaken).
  destruct Hok. split; eauto.
Qed.

Lemma no_session_of_sub id m : no_session_of id m ⊆ m.
Proof. apply map_filter_subseteq. Qed.

Lemma no_session_of_lookup id m i s :
  no_session_of id m !! i = Some s <-> m !! i = Some s /\ UserID s <> id.
Proof. apply map_lookup_filter_Some. Qed.

Lemma repo_CreateS_ok t s : tables_ok t -> tables_ok (snd (repo_CreateS t s)).
Proof.
  intros Hok. unfold repo_CreateS.
  destruct (_ || _) eqn:Hg; [done|]. destruct (negb _) eqn:Hfk; [done|].
  apply negb_false_iff, bool_decide_eq_true in Hfk. apply orb_false_iff in Hg as [Hfresh Hother].
  apply bool_decide_eq_false in Hfresh. pose proof (other_row_false _ _ _ Hother) as Hdiff.
  assert (Hne : forall j r, sessions t !! j = Some r -> TokenHash r <> TokenHash s).
  { intros j r Hr. apply String.eqb_neq, (Hdiff j); [done|]. intros ->. apply Hfresh. by eexists. }
  destruct Hok. split; simpl; [done..| | |].
  - intros i r [[<- <-]|[_ Hr]]%lookup_insert_Some; [done|eauto].
  - intros i j r r' Hr Hr' Heq. apply lookup_insert_Some in Hr, Hr'.
    destruct Hr as [[<- <-]|[_ Hr]], Hr' as [[<- <-]|[_ Hr']]; [done| | |eauto]; simpl in Heq.
    + by destruct (Hne j r' Hr').
    + by destruct (Hne i r Hr).
  - intros i r [[<- <-]|[_ Hr]]%lookup_insert_Some; simpl; [done|eauto].
Qed.

Lemma sem_ok faulty X (e : auth_call X) t x t' : sem faulty X e t x t' -> tables_ok t -> tables_ok t'.
Proof.
  intros Hsem Hok. unfold sem in Hsem. destruct (repo e t) as [out|] eqn:Hr; [|by subst].
  destruct Hsem as [->|(_ & _ & ->)]; [|done].
  apply (f_equal (option_map snd)) in Hr.
  destruct e; try discriminate Hr; cbn [repo option_map reading snd] in Hr; injection Hr as Hr;
    try (by rewrite <- Hr); subst t'.
  - unfold repo_CreateU. destruct (_ || _) eqn:Hc; [done|]. destruct (negb _) eqn:Hv; [done|].
    apply orb_false_iff in Hc as [_ Hc]. apply negb_false_iff in Hv. by apply (put_row_ok t u).
  - unfold repo_UpdateU. destruct (users t !! ID u); [|done]. destruct (user_conflict t u) eqn:Hc; [done|].
    destruct (negb _) eqn:Hv; [done|]. apply negb_false_iff in Hv. by apply (put_row_ok t u).
  - apply (shrink_ok t); [done|apply delete_subseteq|apply no_session_of_sub|]. simpl.
    intros i s [Hs Hne]%no_session_of_lookup. rewrite lookup_delete_ne by done. by eapply ok_owner.
  - by apply repo_CreateS_ok.
  - apply (shrink_ok t); [done|done|apply delete_subseteq|]. simpl.
    intros i s [_ Hs]%lookup_delete_Some. by eapply ok_owner.
  - apply (shrink_ok t); [done|done|apply map_filter_subseteq|]. simpl.
    intros i s [Hs _]%map_lookup_filter_Some. by eapply ok_owner.
  - apply (shrink_ok t); [done|done|apply no_session_of_sub|]. simpl.
    intros i s [Hs _]%no_session_of_lookup. by eapply ok_owner.
Qed.

(** ** What calls leave *)

Section calls.
Context (faulty : bool).
Notation sem := (sem faulty).

(** A call leaves the tables as they were, or answers from them. *)
Lemma sem_cases X (e : auth_call X) t x t' : sem X e t x t' -> t' = t \/ repo e t = Some (x, t').
Proof.
  unfold Auth.sem. destruct (repo e t) as [out|]; [|by left]. intros [->|(_ & _ & ->)]; auto.
Qed.

Lemma sem_FindByID id t x t' :
  sem _ (FindByID id) t x t' -> t' = t /\ forall u, x = Ok u -> users t !! id = Some u.
Proof.
  intros [Ho|(_ & Hf & ->)]; simpl in *.
  - unfold reading, repo_FindByID in Ho. injection Ho as Hx <-. split; [done|]. intros u ->.
    destruct (users t !! id); congruence.
  - split; [done|]. by destruct Hf as [m ->].
Qed.

Lemma sem_FindByUsername n t x t' :
  sem _ (FindByUsername n) t x t' ->
  t' = t /\ forall u, x = Ok u -> exists i, users t !! i = Some u /\ Username u = n.
Proof.
  intros [Ho|(_ & Hf & ->)]; simpl in *.
  - unfold reading, repo_FindByUsername in Ho. injection Ho as Hx <-. split; [done|]. intros u ->.
    destruct (find_in _ _) as [v|] eqn:Hfind; [|done]. injection Hx as ->.
    apply find_in_some in Hfind as (i & Hi & Hn). exists i. split; [done|]. by apply String.eqb_eq.
  - split; [done|]. by destruct Hf as [m ->].
Qed.

Lemma sem_FindByTokenHash h t x t' :
  sem _ (FindByTokenHash h) t x t' ->
  t' = t /\ forall s, x = Ok s -> exists i, sessions t !! i = Some s /\ TokenHash s = h.
Proof.
  intros [Ho|(_ & Hf & ->)]; simpl in *.
  - unfold reading, repo_FindByTokenHash in Ho. injection Ho as Hx <-. split; [done|]. intros u ->.
    destruct (find_in _ _) as [v|] eqn:Hfind; [|done]. injection Hx as ->.
    apply find_in_some in Hfind as (i & Hi & Hn). exists i. split; [done|]. by apply String.eqb_eq.
  - split; [done|]. by destruct Hf as [m ->].
Qed.

Definition active_admin (t : tables) (a : string) : Prop :=
  exists u, users t !! a = Some u /\ IsActive u = true /\ IsAdmin u = true.

(** The call cannot take the last access of [a]. *)
Definition spares (a : string) {X} (e : auth_call X) : Prop :=
  match e with
  | UpdateU u => ID u = a -> IsActive u = true /\ IsAdmin u = true
  | DeleteU id => id <> a
  | _ => True
  end.

Lemma sem_spares a X (e : auth_call X) t x t' :
  sem X e t x t' -> spares a e -> active_admin t a -> active_admin t' a.
Proof.
  intros [->|Hr]%sem_cases Hs Ha; [done|]. apply (f_equal (option_map snd)) in Hr.
  destruct e; try discriminate Hr; cbn [repo option_map reading snd] in Hr; injection Hr as Hr;
    try (by rewrite <- Hr); subst t'; try done; destruct Ha as (v & Hv & Hact & Hadm).
  - unfold repo_CreateU. destruct (_ || _) eqn:Hc; [by exists v|]. destruct (negb _); [by exists v|].
    apply orb_false_iff in Hc as [Hnone%bool_decide_eq_false _]. exists v. simpl.
    rewrite lookup_insert_ne; [done|]. intros Heq. apply Hnone. rewrite Heq. by eexists.
  - unfold repo_UpdateU. destruct (users t !! ID u); [|by exists v].
    destruct (user_conflict t u); [by exists v|]. destruct (negb _); [by exists v|].
    unfold active_admin. simpl. destruct (decide (ID u = a)) as [<-|Hne].
    + destruct (Hs eq_refl). rewrite lookup_insert_eq. by eexists.
    + exists v. by rewrite lookup_insert_ne.
  - exists v. simpl in *. by rewrite lookup_delete_ne.
  - unfold repo_CreateS. repeat (destruct (_ || _) || destruct (negb _)); by exists v.
Qed.
End calls.

(** ** Administration *)

Section administration.
Context `{Unicode} `{AuthLibs} (svc : Service) (faulty : bool).
Notation wp := (wp (sem faulty)).
Notation runs := (runs (sem faulty)).

(** What an administrator does to accounts. *)
Inductive admin_op :=
| OpCreateUser (input : CreateUserInput)
| OpUpdateUser (id : string) (input : UpdateUserInput)
| OpSetPassword (id password : string)
| OpSetActive (id : string) (active : bool)
| OpDeleteUser (id : string).

Definition finish {A} (p : prog auth_call (result error A)) : prog auth_call (result error ()) :=
  bind p (fun r => Ret (match r with Ok _ => Ok () | Err e => Err e end)).

Definition manage (actor : string) (o : admin_op) : prog auth_call (result error ()) :=
  match o with
  | OpCreateUser input => finish (CreateUser svc actor input)
  | OpUpdateUser id input => finish (UpdateUser svc actor id input)
  | OpSetPassword id password => SetPassword svc actor id password
  | OpSetActive id active => finish (SetUserActive svc actor id active)
  | OpDeleteUser id => DeleteUser svc actor id
  end.

Lemma finish_wp {A} (Q : tables -> Prop) (p : prog auth_call (result error A)) t :
  wp (fun _ t' => Q t') p t -> wp (fun _ t' => Q t') (finish p) t.
Proof. intros Hp. by apply wp_bind. Qed.

(** Step through one call that spares [a]. *)
Lemma wp_spare {A X} a (e : auth_call X) (k : X -> prog auth_call A) t :
  active_admin t a -> spares a e ->
  (forall x t', sem faulty X e t x t' -> active_admin t' a -> wp (fun _ t' => active_admin t' a) (k x) t') ->
  wp (fun _ t' => active_admin t' a) (Call e k) t.
Proof. intros Ha Hs Hk x t' Hsem. apply Hk; [done|]. by eapply sem_spares. Qed.

Ltac spare :=
  repeat first
    [ progress cbn [bind bind_err bind_wrap call recordUserAudit]
    | match goal with
      | |- wp _ (Ret _) _ => assumption
      | |- wp _ (Call (UpdateU _) _) _ => idtac; fail 1
      | |- wp _ (Call (FindByID _) _) _ => idtac; fail 1
      | |- wp _ (Call _ _) _ => eapply wp_spare; [eassumption|done|]; intros ? ? ? ?
      | |- wp _ (match ?b with _ => _ end) _ => destruct b eqn:?
      | |- wp _ (bind (recordUserAudit _ _ _ _) _) _ => unfold recordUserAudit
      | |- wp _ (bind (match ?b with _ => _ end) _) _ => destruct b eqn:?
      end ].

(** The row a lookup found is the one with its identifier. *)
Lemma wp_found {A} a id (k : result error User -> prog auth_call A) t :
  tables_ok t -> active_admin t a ->
  (forall u, ID u = id -> (id = a -> IsActive u = true /\ IsAdmin u = true) ->
     wp (fun _ t' => active_admin t' a) (k (Ok u)) t) ->
  (forall e, wp (fun _ t' => active_admin t' a) (k (Err e)) t) ->
  wp (fun _ t' => active_admin t' a) (Call (FindByID id) k) t.
Proof.
  intros Hok Ha Hu He x t' Hsem. apply sem_FindByID in Hsem as [-> Hfound].
  destruct x as [u|e]; [|apply He]. specialize (Hfound u eq_refl). apply Hu.
  - by eapply ok_user_key.
  - intros ->. destruct Ha as (v & Hv & ? & ?). by rewrite Hfound in Hv; simplify_eq.
Qed.

Lemma manage_spares actor o t :
  tables_ok t -> active_admin t actor -> wp (fun _ t' => active_admin t' actor) (manage actor o) t.
Proof.
  intros Hok Ha. destruct o as [input|id input|id password|id active|id]; cbn [manage]; try apply finish_wp.
  - unfold CreateUser. spare.
  - unfold UpdateUser. cbn [bind_err bind call]. apply wp_found; [done..| |intros; spare].
    intros u Hid Hself. spare. eapply wp_spare; [eassumption| |intros; spare]. simpl. intros <-.
    destruct (Hself (eq_sym Hid)). split; [done|]. subst id. rewrite String.eqb_refl in *.
    unfold IsAdmin. simpl. destruct (String.eqb (ui_Role input) RoleAdmin); done.
  - unfold SetPassword. spare. apply wp_found; [done..| |intros; spare]. intros u Hid Hself. spare.
    eapply wp_spare; [eassumption| |intros; spare]. simpl. intros <-. by apply Hself.
  - unfold SetUserActive. spare. apply wp_found; [done..| |intros; spare]. intros u Hid Hself. spare.
    eapply wp_spare; [eassumption| |intros; spare]. simpl. intros <-.
    destruct (Hself (eq_sym Hid)). split; [|done]. subst id. rewrite String.eqb_refl in *. by destruct active.
  - unfold DeleteUser. destruct (String.eqb_spec actor id) as [|Hne]; [spare|].
    cbn [bind_err bind call]. apply wp_found; [done..| |intros; spare]. intros u Hid Hself.
    cbn [bind_wrap bind call]. eapply wp_spare; [eassumption|by apply not_eq_sym|]. intros. spare.
Qed.

(** An administrator cannot lock themselves out: whatever the account
    operation, whichever database calls fail, an active administrator who performs
    it is still there, active and an administrator. *)
Theorem admin_survives actor o t r t' :
  tables_ok t -> active_admin t actor -> runs (manage actor o) t r t' -> active_admin t' actor.
Proof.
  intros Hok Ha. revert r t'. apply (wp_runs (sem faulty) (fun _ t' => active_admin t' actor)).
  by apply manage_spares.
Qed.
End administration.

(** ** Sessions *)

Section session_proofs.
Context `{Unicode} `{AuthLibs} (svc : Service).
Notation wp := (wp (sem false)).
Notation runs := (runs (sem false)).

Definition no_sessions (id : string) (t : tables) : Prop :=
  forall i s, sessions t !! i = Some s -> UserID s <> id.

(** The operations that end the sessions of a user. *)
Inductive revoking (id : string) : prog auth_call (result error ()) -> Prop :=
| revoke_logout : revoking id (Logout id)
| revoke_password actor password : revoking id (SetPassword svc actor id password)
| revoke_block actor : revoking id (finish (SetUserActive svc actor id false))
| revoke_delete actor : revoking id (DeleteUser svc actor id).

Lemma wp_any {A X} (Q : A -> tables -> Prop) (e : auth_call X) k t :
  (forall x t', wp Q (k x) t') -> wp Q (Call e k) t.
Proof. intros Hk x t' _. apply Hk. Qed.

(** A call that keeps the sessions. *)
Definition keeps_sessions {X} (e : auth_call X) : Prop :=
  match e with
  | CreateS _ | DeleteU _ | DeleteByID _ | DeleteExpired _ | DeleteByUserID _ => False
  | _ => True
  end.

Lemma sem_keeps faulty X (e : auth_call X) t x t' :
  keeps_sessions e -> sem faulty X e t x t' -> sessions t' = sessions t.
Proof.
  intros Hk [->|Hr]%sem_cases; [done|]. apply (f_equal (option_map snd)) in Hr.
  destruct e; try done; cbn [repo option_map reading snd] in Hr; injection Hr as <-; try done.
  - unfold repo_CreateU. by repeat (destruct (_ || _) || destruct (negb _)).
  - unfold repo_UpdateU. destruct (users t !! ID u); [|done].
    by destruct (user_conflict t u), (negb (IsValid (Role_ u))).
Qed.

Lemma wp_keeps {A X} id (Q : A -> tables -> Prop) (e : auth_call X) k t :
  keeps_sessions e -> no_sessions id t ->
  (forall x t', no_sessions id t' -> wp Q (k x) t') -> wp Q (Call e k) t.
Proof.
  intros He Hn Hk x t' Hsem. apply Hk. unfold no_sessions in *. by erewrite sem_keeps.
Qed.

Lemma wp_revoke {A} id (Q : A -> tables -> Prop) k t :
  (forall t', no_sessions id t' -> wp Q (k (Ok ())) t') -> wp Q (Call (DeleteByUserID id) k) t.
Proof.
  intros Hk x t' [Ho|(Hf & _)]; [|done]. injection Ho as <- <-. apply Hk.
  by intros i s [_ Hs]%no_session_of_lookup.
Qed.

Lemma wp_delete_user {A} id (Q : A -> tables -> Prop) k t :
  (forall t', no_sessions id t' -> wp Q (k (Ok ())) t') -> wp Q (Call (DeleteU id) k) t.
Proof.
  intros Hk x t' [Ho|(Hf & _)]; [|done]. injection Ho as <- <-. apply Hk.
  by intros i s [_ Hs]%no_session_of_lookup.
Qed.

Ltac revoked id :=
  repeat first
    [ progress cbn [bind bind_err bind_wrap call finish negb]
    | match goal with
      | |- wp _ (Ret _) _ => done
      | |- wp _ (Call (DeleteByUserID _) _) _ => apply wp_revoke; intros ? ?
      | |- wp _ (Call (DeleteU _) _) _ => apply wp_delete_user; intros ? ?
      | Hn : no_sessions id ?t |- wp _ (Call _ _) ?t => eapply (wp_keeps id); [done|exact Hn|]; intros ? ? ?
      | |- wp _ (Call _ _) _ => apply wp_any; intros ? ?
      | |- wp _ (match ?b with _ => _ end) _ => destruct b eqn:?
      | |- wp _ (bind (recordUserAudit _ _ _ _) _) _ => unfold recordUserAudit
      | |- wp _ (bind (match ?b with _ => _ end) _) _ => destruct b eqn:?
      | |- wp _ (bind (bind (recordUserAudit _ _ _ _) _) _) _ => unfold recordUserAudit
      | |- wp _ (bind (bind (match ?b with _ => _ end) _) _) _ => destruct b eqn:?
      end ].

(** Logging out, changing a password, blocking and deleting an account each
    end every session of the user, when the database answers. *)
Theorem sessions_revoked id p t r t' :
  revoking id p -> runs p t r t' -> r = Ok () -> no_sessions id t'.
Proof.
  intros Hp. revert r t'.
  apply (wp_runs (sem false) (fun r t' => r = Ok () -> no_sessions id t')).
  destruct Hp; unfold Logout, SetPassword, SetUserActive, DeleteUser, finish; revoked id; simpl; auto.
Qed.

(** The semantics with a clock: no time that is read is before [start]. *)
Definition clocked (start : Z) (faulty : bool) X (e : auth_call X) (t : tables) (x : X) (t' : tables) : Prop :=
  sem faulty X e t x t' /\ (match e in auth_call X return X -> Prop with TimeNow => fun now => (start <= now)%Z | _ => fun _ => True end) x.

(** The tables after a refresh of the session [s], whose token was [raw]: there is a session of the same
    user for the fresh token; every other session was there before; and the one of the old token is gone
    if its deletion did not fail. *)
Definition rotated (faulty : bool) (t : tables) (s : Session) (raw fresh : string) (t' : tables) : Prop :=
  (exists j s', sessions t' !! j = Some s' /\ TokenHash s' = sha256Hex fresh /\ UserID s' = UserID s) /\
  (forall j s', sessions t' !! j = Some s' -> TokenHash s' = sha256Hex fresh \/ sessions t !! j = Some s') /\
  (faulty = false -> sha256Hex fresh <> sha256Hex raw -> forall j s', sessions t' !! j = Some s' -> TokenHash s' <> sha256Hex raw) /\
  users t' = users t.

Lemma create_rotates faulty (deleted : bool) t s raw i sid fresh ip agent now t' :
  tables_ok t -> sessions t !! i = Some s -> TokenHash s = sha256Hex raw -> (faulty = false -> deleted = true) ->
  sem faulty _ (CreateS (new_session svc sid (UserID s) (sha256Hex fresh) ip agent now))
    (if deleted then set_sessions (delete i (sessions t)) t else t) (Ok ()) t' ->
  rotated faulty t s raw fresh t'.
Proof.
  intros Hok Hs Hh Hd [Ho|(_ & [e He] & _)]; [|done]. unfold repo, repo_CreateS in Ho.
  destruct (_ || _); [done|]. destruct (negb _); [done|]. injection Ho as <-. split_and!.
  - eexists _, _. split; [apply lookup_insert_eq|done].
  - cbn. intros j r [[<- <-]|[_ Hr]]%lookup_insert_Some; [by left|right]. destruct deleted; cbn in Hr; [by apply lookup_delete_Some in Hr as [_ Hr]|done].
  - cbn. intros Hf Hne j r [[<- <-]|[_ Hr]]%lookup_insert_Some; [done|]. rewrite (Hd Hf) in Hr. cbn in Hr.
    apply lookup_delete_Some in Hr as [Hij Hr]. intros Heq. apply Hij.
    eapply (ok_token t Hok); [exact Hs|exact Hr|congruence].
  - by destruct deleted.
Qed.

(** C5. A refresh token is good for one refresh: whenever a refresh succeeds, whatever database calls
    failed on the way, it found a session of the token that had not expired when the request began, and
    leaves a session of the same user for the new token; every other session was there before; and if no
    database call failed, none is left for the old token. *)
Theorem refresh_rotates start faulty raw ip agent t pair t' :
  tables_ok t -> Effects.runs (clocked start faulty) (Refresh svc raw ip agent) t (Ok pair) t' ->
  exists i s, sessions t !! i = Some s /\ TokenHash s = sha256Hex raw /\ (start <= ExpiresAt s)%Z /\
    rotated faulty t s raw (RefreshToken pair) t'.
Proof.
  intros Hok Hrun. assert (Hx : Ok (E := error) pair = Ok pair) by done. revert Hrun Hx.
  generalize (Ok (E := error) pair) at 1 2. intros r Hrun. revert r t' Hrun.
  apply (wp_runs (clocked start faulty) (fun r t' => r = Ok pair -> exists i s, sessions t !! i = Some s /\
    TokenHash s = sha256Hex raw /\ (start <= ExpiresAt s)%Z /\ rotated faulty t s raw (RefreshToken pair) t')).
  unfold Refresh. cbn [bind call Effects.wp].
  intros [s|e] t1 [Hsem _]; apply sem_FindByTokenHash in Hsem as [-> Hfound]; [|done].
  destruct (Hfound s eq_refl) as (i & Hs & Hh). intros now t1 [-> Hnow].
  destruct (IsExpired now s) eqn:Hexp; [by intros y t1 _|]. apply Z.ltb_ge in Hexp. unfold bind_wrap. cbn [bind call Effects.wp].
  intros [u|e] t1 [Hsem _]; apply sem_FindByID in Hsem as [-> Huser]; [|done].
  specialize (Huser u eq_refl). apply (ok_user_key t Hok) in Huser.
  cbn [bind call Effects.wp]. intros y t1 [Hd _].
  assert (exists deleted, (faulty = false -> deleted = true) /\ t1 = if deleted : bool then set_sessions (delete i (sessions t)) t else t) as (deleted & Hdel & ->).
  { destruct Hd as [Hd|(Hf & _ & ->)]; [exists true|exists false; split; [congruence|done]]. split; [done|]. injection Hd as _ <-. by rewrite (ok_session_key t Hok i s Hs). }
  unfold Generate, generateSecureToken. cbn [bind call Effects.wp]. intros now2 t1 [-> _]. intros [access|e] t1 [-> _]; [|done]. cbn [bind call Effects.wp].
  intros [bytes|e] t1 [-> _]; [|done]. cbn [bind call Effects.wp]. intros now3 t1 [-> _]. intros sid t1 [-> _]. intros z t1 [Hc _].
  rewrite Huser in Hc. destruct z as [[]|e]; [|done]. cbn. intros [= <-]. exists i, s. split_and!; [done|done|lia|]. by eapply create_rotates.
Qed.
End session_proofs.

(** Roles form a hierarchy: a viewer's permissions are an operator's, an
    operator's an administrator's; an administrator has all of them, an unknown
    role none; and only an administrator installs modules, changes settings or
    manages users. *)
Theorem role_hierarchy p r :
  (HasPermission RoleViewer p = true -> HasPermission RoleOperator p = true) /\
  (HasPermission RoleOperator p = true -> HasPermission RoleAdmin p = true) /\
  HasPermission RoleAdmin p = true /\
  (IsValid r = false -> HasPermission r p = false) /\
  (In p [PermModuleInstall; PermModuleUninstall; PermSettingsUpdate; PermSettingsSecurity; PermUserManage] ->
   HasPermission r p = true -> r = RoleAdmin).
Proof.
  split_and!; [by destruct p|by destruct p|by destruct p| |].
  - unfold IsValid, HasPermission, rolePermissions. intros [[Ha Ho]%orb_false_iff Hv]%orb_false_iff.
    rewrite Ha, Ho, Hv. apply bool_decide_eq_false. set_solver.
  - unfold HasPermission, rolePermissions. intros Hin Hp. destruct (String.eqb_spec r RoleAdmin); [done|].
    apply bool_decide_eq_true in Hp. simpl in Hin.
    destruct (String.eqb r RoleOperator); [|destruct (String.eqb r RoleViewer)];
      destruct Hin as [<-|[<-|[<-|[<-|[<-|[]]]]]]; set_solver.
Qed.

(** ** Generated passwords *)

Definition alphabet_char (value : Z) : ascii :=
  default "A"%char (String.get (Z.to_nat (Z.land value 63)) passwordAlphabet).

Lemma list_of_password random :
  String.list_ascii_of_string (password_chars random) = alphabet_char <$> random.
Proof. apply list_ascii_of_string_of_list_ascii. Qed.

Lemma alphabet_char_in value : contains_byte passwordAlphabet (alphabet_char value) = true.
Proof.
  assert (Hb : (0 <= Z.land value 63 < 64)%Z).
  { change 63%Z with (Z.ones 6). rewrite Z.land_ones by lia. apply Z.mod_pos_bound. lia. }
  unfold alphabet_char. set (k := Z.to_nat _). assert (Hk : k < 64) by lia. clearbody k.
  assert (Hall : forallb (fun k => contains_byte passwordAlphabet
    (default "A"%char (String.get k passwordAlphabet))) (seq 0 64) = true) by by vm_compute.
  rewrite forallb_forall in Hall. apply Hall, in_seq. lia.
Qed.

(** A generated password has the requested length, at least 12, and only
    characters that need no quoting; each of the 64 characters stands for exactly
    four of the 256 values of a random byte, so none is more likely than another. *)
Theorem generated_password_uniform length tr password :
  exec (GeneratePassword length) tr (Ok password) ->
  exists random, tr = [Act (RandRead (Z.to_nat length)) (Ok random)] /\
    (12 <= length)%Z /\
    (List.length random = Z.to_nat length -> len password = length) /\
    str_forall (contains_byte passwordAlphabet) password = true /\
    forall c, contains_byte passwordAlphabet c = true ->
      List.length (List.filter (fun v => Ascii.eqb (alphabet_char (Z.of_nat v)) c) (seq 0 256)) = 4.
Proof.
  unfold GeneratePassword. destruct (Z.ltb_spec length MinimumPasswordLength) as [|Hmin]; [by intros [_ ?]|].
  unfold MinimumPasswordLength in Hmin. cbn [bind_wrap bind call exec]. intros ([random|e] & tr' & -> & [-> Hp]); [|done].
  injection Hp as ->. exists random. split_and!; [done|lia| | |].
  - intros Hl. unfold len. rewrite <- length_list_ascii, list_of_password, length_fmap. lia.
  - apply str_forall_forall. rewrite list_of_password. intros c Hin%list_elem_of_In.
    apply list_elem_of_fmap in Hin as (v & -> & _). apply alphabet_char_in.
  - assert (Hall : forallb (fun c => (List.length (List.filter (fun v =>
      Ascii.eqb (alphabet_char (Z.of_nat v)) c) (seq 0 256)) =? 4)%nat)
      (String.list_ascii_of_string passwordAlphabet) = true) by by vm_compute.
    rewrite forallb_forall in Hall. intros c Hc%contains_byte_iff. by apply Nat.eqb_eq, Hall.
Qed.

(** Every operation keeps the tables consistent, whichever calls fail: names,
    addresses and token hashes unique, roles known, every session with its user. *)
Theorem auth_keeps_tables {A} faulty (p : prog auth_call A) t a t' :
  runs (sem faulty) p t a t' -> tables_ok t -> tables_ok t'.
Proof. apply runs_invariant. intros X e s x s'. apply sem_ok. Qed.

(** ** Two ways around a block *)

Definition alice (active : bool) : User := {|
  ID := "u1"; Username := "alice"; Email := "alice@example.org"; Password := "hash"; Role_ := RoleOperator;
  IsActive := active; CreatedAt := 0; UpdatedAt := 0; LastLogin := None |}.

Definition alice_session : Session := {|
  s_ID := "s1"; UserID := "u1"; TokenHash := "token"; IPAddress := ""; UserAgent := "";
  ExpiresAt := 1000000000; s_CreatedAt := 0 |}.

Definition root : User := {|
  ID := "u0"; Username := "root"; Email := "root@example.org"; Password := "hash0"; Role_ := RoleAdmin;
  IsActive := true; CreatedAt := 0; UpdatedAt := 0; LastLogin := None |}.

Definition sample_tables : tables := {|
  users := <["u0" := root]> {["u1" := alice true]}; sessions := {["s1" := alice_session]} |}.

Definition sample_service : Service := {| accessTTL := 900; refreshTTL := 1000000000; has_audit := true |}.

(** For the examples, a digest that is the identity. *)
Definition sample_libs : AuthLibs := {| sha256Hex := fun s => s; mail_ok := fun _ => true |}.
#[local] Existing Instance sample_libs.
#[local] Existing Instance unicode_ascii.

Ltac sched_l x := eapply (par_left _ _ _ _ _ _ x); [left; vm_compute; reflexivity|cbn -[repo]].
Ltac sched_r x := eapply (par_right _ _ _ _ _ _ x); [left; vm_compute; reflexivity|cbn -[repo]].
Ltac free_l x := eapply (par_left _ _ _ _ _ _ x); [vm_compute; reflexivity|cbn -[repo]].
Ltac free_r x := eapply (par_right _ _ _ _ _ _ x); [vm_compute; reflexivity|cbn -[repo]].

(** A login that overlaps a block undoes it: [Login] writes back the whole row
    it read before the password was compared, so the account is active again and
    has a session after the administrator was told it is blocked. *)
Theorem login_undoes_block :
  exists pair blocked t',
    par (sem false) (Login sample_service "alice" "secret" "ip" "agent")
      (SetUserActive sample_service "u0" "u1" false) sample_tables (Ok pair) (Ok blocked) t' /\
    IsActive blocked = false /\
    (exists u, users t' !! "u1" = Some u /\ IsActive u = true) /\ ~ no_sessions "u1" t'.
Proof.
  eexists _, _, _. split.
  - unfold Login, SetUserActive. cbn -[repo].
    sched_l (Ok (E := error) (alice true)). free_l true.
    sched_r (Ok (E := error) (alice true)). free_r 5%Z. sched_r (Ok (E := error) ()).
    sched_r (Ok (E := error) ()). free_r tt.
    free_l 5%Z. free_l (Ok (E := error) "jwt"). free_l (Ok (E := error) [1%Z]).
    free_l 5%Z. free_l "s2". sched_l (Ok (E := error) ()). free_l 6%Z. sched_l (Ok (E := error) ()).
    apply par_done.
  - split; [done|]. split; [by eexists|]. intros Hn. by eapply (Hn "s2").
Qed.

(** Refreshing does not look at whether the account is active: when the
    deletion of its sessions fails, which blocking ignores, a blocked user keeps
    getting tokens. *)
Theorem blocked_user_refreshes :
  exists blocked t1 pair t2,
    runs (sem true) (SetUserActive sample_service "u0" "u1" false) sample_tables (Ok blocked) t1 /\
    runs (sem false) (Refresh sample_service "token" "ip" "agent") t1 (Ok pair) t2 /\
    exists u, users t2 !! "u1" = Some u /\ IsActive u = false.
Proof.
  eexists _, _, _, _. split_and!.
  - unfold SetUserActive. cbn -[repo].
    eexists (Ok (alice true)), _. split; [left; vm_compute; reflexivity|]. cbn -[repo].
    eexists 5%Z, _. split; [reflexivity|]. cbn -[repo].
    eexists (Ok ()), _. split; [left; vm_compute; reflexivity|]. cbn -[repo].
    eexists (Err (Plain "database is locked")), _. split; [right; split_and!; [done|by eexists|reflexivity]|].
    cbn -[repo]. eexists tt, _. split; [reflexivity|]. by split.
  - unfold Refresh. cbn -[repo].
    eexists (Ok alice_session), _. split; [left; vm_compute; reflexivity|]. cbn -[repo].
    eexists 5%Z, _. split; [reflexivity|]. cbn -[repo].
    eexists (Ok _), _. split; [left; vm_compute; reflexivity|]. cbn -[repo].
    eexists (Ok ()), _. split; [left; vm_compute; reflexivity|]. cbn -[repo].
    eexists 5%Z, _. split; [reflexivity|]. eexists (Ok "jwt"), _. split; [reflexivity|]. cbn -[repo].
    eexists (Ok [1%Z]), _. split; [reflexivity|]. cbn -[repo]. eexists 5%Z, _. split; [reflexivity|].
    eexists "s2", _. split; [reflexivity|]. eexists (Ok ()), _. split; [left; vm_compute; reflexivity|].
    by split.
  - by eexists.
Qed.

(** ** Witnesses *)

Lemma sample_users i u :
  users sample_tables !! i = Some u -> i = "u0" /\ u = root \/ i = "u1" /\ u = alice true.
Proof.
  simpl. intros [[<- <-]|[_ Hu]]%lookup_insert_Some; [by left|].
  apply lookup_singleton_Some in Hu as [<- <-]. by right.
Qed.

Lemma sample_sessions i s : sessions sample_tables !! i = Some s -> i = "s1" /\ s = alice_session.
Proof. simpl. by intros [<- <-]%lookup_singleton_Some. Qed.

Lemma sample_tables_ok : tables_ok sample_tables.
Proof.
  split.
  - by intros i u [[-> ->]|[-> ->]]%sample_users.
  - by intros i j u v [[-> ->]|[-> ->]]%sample_users [[-> ->]|[-> ->]]%sample_users.
  - by intros i j u v [[-> ->]|[-> ->]]%sample_users [[-> ->]|[-> ->]]%sample_users.
  - by intros i u [[-> ->]|[-> ->]]%sample_users.
  - by intros i s [-> ->]%sample_sessions.
  - by intros i j r s [-> ->]%sample_sessions [-> ->]%sample_sessions.
  - intros i s [-> ->]%sample_sessions. by eexists.
Qed.

Definition after_logout : tables := set_sessions (no_session_of "u1" (sessions sample_tables)) sample_tables.

Lemma logout_runs : runs (sem false) (Logout "u1") sample_tables (Ok ()) after_logout.
Proof. cbn. eexists (Ok ()), _. split; [by left|]. by split. Qed.

Lemma delete_runs :
  runs (sem false) (manage sample_service "u0" (OpDeleteUser "u1")) sample_tables (Ok ())
    (snd (repo_DeleteU sample_tables "u1")).
Proof.
  cbn -[repo]. eexists (Ok (alice true)), _. split; [left; vm_compute; reflexivity|]. cbn -[repo].
  eexists (Ok ()), _. split; [by left|]. cbn -[repo]. eexists tt, _. split; [reflexivity|]. by split.
Qed.

Lemma admin_survives_witness : active_admin (snd (repo_DeleteU sample_tables "u1")) "u0".
Proof.
  exact (admin_survives sample_service false "u0" (OpDeleteUser "u1") sample_tables (Ok ())
    (snd (repo_DeleteU sample_tables "u1")) sample_tables_ok
    (ex_intro _ root (conj eq_refl (conj eq_refl eq_refl))) delete_runs).
Defined.

Lemma sessions_revoked_witness : no_sessions "u1" after_logout.
Proof.
  exact (sessions_revoked sample_service "u1" (Logout "u1") sample_tables (Ok ()) after_logout
    (revoke_logout sample_service "u1") logout_runs eq_refl).
Defined.

Lemma auth_keeps_tables_witness : tables_ok after_logout.
Proof.
  exact (auth_keeps_tables false (Logout "u1") sample_tables (Ok ()) after_logout logout_runs sample_tables_ok).
Defined.

Definition sample_pair : TokenPair := token_pair sample_service "jwt" "01" 5.
Definition fresh_session : Session := {|
  s_ID := "s2"; UserID := "u1"; TokenHash := "01"; IPAddress := "ip"; UserAgent := "agent";
  ExpiresAt := 1000000000; s_CreatedAt := 0 |}.
Definition after_refresh : tables := {|
  users := users sample_tables; sessions := <["s2" := fresh_session]> (delete "s1" (sessions sample_tables)) |}.

Lemma refresh_runs :
  runs (clocked 5 false) (Refresh sample_service "token" "ip" "agent") sample_tables (Ok sample_pair) after_refresh.
Proof.
  unfold Refresh. cbn -[repo].
  eexists (Ok alice_session), _. split; [split; [left; vm_compute; reflexivity|done]|]. cbn -[repo].
  eexists 5%Z, _. split; [done|]. cbn -[repo].
  eexists (Ok _), _. split; [split; [left; vm_compute; reflexivity|done]|]. cbn -[repo].
  eexists (Ok ()), _. split; [split; [left; vm_compute; reflexivity|done]|]. cbn -[repo].
  eexists 5%Z, _. split; [done|]. eexists (Ok "jwt"), _. split; [done|]. cbn -[repo].
  eexists (Ok [1%Z]), _. split; [done|]. cbn -[repo]. eexists 5%Z, _. split; [done|].
  eexists "s2", _. split; [done|]. eexists (Ok ()), _. split; [split; [left; vm_compute; reflexivity|done]|].
  by split.
Qed.

Lemma refresh_rotates_witness :
  exists i s, sessions sample_tables !! i = Some s /\ TokenHash s = sha256Hex "token" /\
    (5 <= ExpiresAt s)%Z /\ rotated false sample_tables s "token" "01" after_refresh.
Proof.
  exact (refresh_rotates sample_service 5 false "token" "ip" "agent" sample_tables sample_pair after_refresh
    sample_tables_ok refresh_runs).
Defined.

Lemma generated_password_uniform_witness :
  exists random, [Act (RandRead 12) (Ok (repeat 0%Z 12))] = [Act (RandRead 12) (Ok random)] /\
    (12 <= 12)%Z /\ (List.length random = 12 -> len (password_chars (repeat 0%Z 12)) = 12%Z) /\
    str_forall (contains_byte passwordAlphabet) (password_chars (repeat 0%Z 12)) = true /\
    forall c, contains_byte passwordAlphabet c = true ->
      List.length (List.filter (fun v => Ascii.eqb (alphabet_char (Z.of_nat v)) c) (seq 0 256)) = 4.
Proof.
  apply (generated_password_uniform 12 [Act (RandRead 12) (Ok (repeat 0%Z 12))] (password_chars (repeat 0%Z 12))).
  exists (Ok (repeat 0%Z 12)), []. by split.
Defined.
