(* ===== verification/Cron.v ===== *)
(** * Scheduled jobs

    src/internal/agent/cron: validation of jobs, the discovery of the host's own
    crontabs, and the manager that keeps the job store and the crontab generated
    from it in step.

    The files jobs.json and /etc/cron.d/opendeploy are written by [atomicWrite];
    a file holds either text or the store its JSON decodes to.  What validation
    and discovery read of the host (users, directories, other crontabs) is a
    [host], fixed during an operation. *)

From S2P Require Import Prelude GoStrings GoStrconv GoPath GoRegexp Effects.
Local Open Scope string_scope.
Local Open Scope go_scope.

(** ** Data *)

(** source: internal/agent/cron/types.go:7-13 (JobType) *)
Definition JobTypeUnknown : string := "UNKNOWN".
Definition JobTypeSystem : string := "SYSTEM".
Definition JobTypePackage : string := "PACKAGE".
Definition JobTypeOpenDeploy : string := "OPENDEPLOY".
Definition JobTypeUser : string := "USER".

(** source: internal/agent/cron/types.go:15-36 (Job) *)
Record Job := {
  ID : string;
  Name : string;
  Description : string;
  Command : string;
  WorkingDir : string;
  User : string;
  Environment : gmap string string;
  Expression : string;
  Timezone : string;
  Enabled : bool;
  CreatedAt : Z;
  UpdatedAt : Z;
  Source : string;
  ReadOnly : bool;
  Type_ : string;
  PackageName : string;
  IsProtected : bool;
  CanEdit : bool;
  CanDelete : bool;
  LockReason : string;
}.

(** source: internal/agent/cron/types.go:38-49 (Run) *)
Record Run := {
  run_ID : string;
  JobID : string;
  StartedAt : Z;
  FinishedAt : Z;
  Duration : Z;
  ExitCode : Z;
  Stdout : string;
  Stderr : string;
  Triggered : string;
  Actor : string;
}.

(** source: internal/agent/cron/types.go:51-54 (Store) *)
Record Store := { Jobs : list Job; History_ : list Run }.

(** source: internal/agent/cron/types.go:56-59 (Validation) *)
Record Validation := { Valid : bool; Warnings : list string }.

Inductive cron_error :=
| BadID | BadName | FieldCount | BadCharacters (field : nat) | OutsideRange (field : nat) (value : string)
| BadCommand | Destructive | UserRequired | NoSuchUser (u : string)
| BadWorkingDir | NoWorkingDir | BadEnvKey (key : string) | BadEnvValue (key : string)
| BadTimezone | NoSuchTimezone (tz : string)
| AlreadyExists (id : string) | AlreadySystem (id : string)
| ProtectedJob (reason : string) | ProtectedOpenDeploy | NotExist
| ReadStateError (e : string) | DecodeStateError (e : string)
| InvalidStored (id : string) (e : cron_error)
| WriteError (operation e : string)
| ProcessError (e : string).

(** A directory entry: name, is a directory, is a symbolic link. *)
Record dir_entry := { de_name : string; de_dir : bool; de_symlink : bool }.

(** What validation and discovery read of the host.  [sha8] prints the first
    eight bytes of a SHA-256 sum. *)
Record host := {
  user_exists : string -> bool;
  is_dir : string -> bool;
  stat_ok : string -> bool;
  read_dir : string -> list dir_entry;
  read_file : string -> option string;
  dpkg_query : string -> option string;
  sha8 : string -> string;
}.

(** ** Validation *)

Definition nl : ascii := ascii_of_nat 10.
Definition cr : ascii := ascii_of_nat 13.
Definition nul : ascii := ascii_of_nat 0.
Definition line_breaks : string := String nul (String cr (String nl "")).

(** source: internal/agent/cron/validate.go:12-16 (jobIDPattern) *)
Definition jobIDPattern : re :=
  Cat (Cls r_alnum) (upto 63 (Cls (fun z => r_alnum z || one_of "_-" z))).
(** source: internal/agent/cron/validate.go:12-16 (envKeyPattern) *)
Definition envKeyPattern : re :=
  Cat (Cls (fun z => r_upper z || one_of "_" z))
      (upto 63 (Cls (fun z => r_upper z || r_digit z || one_of "_" z))).
(** source: internal/agent/cron/validate.go:12-16 (cronTokenPattern) *)
Definition cronTokenPattern : re := plus (Cls (fun z => r_digit z || one_of "*/?,LW#-" z)).

(** source: internal/agent/cron/validate.go:88-102 (validateCronField) *)
Definition validateCronField (index : nat) (field : string) (minimum maximum : Z) :
    result cron_error () :=
  for_each (fun part =>
    let base := fst (cut "/" part) in
    if String.eqb base "*" || String.eqb base "?" || contains_any base "LW#" then Ok ()
    else for_each (fun value =>
      match sscanf_d value with
      | None => Err (OutsideRange index value)
      | Some parsed =>
          if (parsed <? minimum)%Z || (maximum <? parsed)%Z then Err (OutsideRange index value)
          else Ok ()
      end) (split "-" base)) (split "," field).

Definition cron_ranges : list (Z * Z) := [(0, 59); (0, 23); (1, 31); (1, 12); (0, 7)]%Z.

(** source: internal/agent/cron/validate.go:69-86 (ValidateExpression) *)
Definition ValidateExpression (expression : string) : result cron_error () :=
  let fs := fields expression in
  if negb (length fs =? 5)%nat then Err FieldCount
  else
    for_each (fun '(index, field) =>
      fail_if (negb (match_string cronTokenPattern field)) (BadCharacters (S index))) (imap pair fs) ;?
    for_each (fun '(index, (field, (lo, hi))) => validateCronField (S index) field lo hi)
      (imap pair (zip fs cron_ranges)).

Section validation.
Context `{Unicode}.

Definition dangerous : list string :=
  ["rm -rf /"; "mkfs."; "dd if="; ":(){"; "shutdown"; "poweroff"; "reboot";
   "> /dev/sd"; "chmod -r 777 /"; "chown -r root /"].

(** source: internal/agent/cron/validate.go:104-120 (validateCommand) *)
Definition validateCommand (command : string) : result cron_error () :=
  let command := trim_space command in
  if String.eqb command "" || (8192 <? len command)%Z || contains_any command line_breaks
  then Err BadCommand
  else for_each (fun token => fail_if (contains (to_lower command) token) Destructive) dangerous.

(** source: internal/agent/cron/validate.go:50-57 (ValidateJob, the environment):
    Go iterates over the map in some order *)
Definition validateEnvironment (env : gmap string string) : result cron_error () :=
  for_each (fun '(key, value) =>
    fail_if (negb (match_string envKeyPattern key)) (BadEnvKey key) ;?
    fail_if (contains_any value line_breaks || (4096 <? len value)%Z) (BadEnvValue key))
    (map_to_list env).

(** source: internal/agent/cron/validate.go:18-67 (ValidateJob) *)
Definition ValidateJob (h : host) (job : Job) : result cron_error Validation :=
  fail_if (negb (match_string jobIDPattern (ID job))) BadID ;?
  fail_if (String.eqb (trim_space (Name job)) "" || (128 <? len (Name job))%Z) BadName ;?
  ValidateExpression (Expression job) ;?
  validateCommand (Command job) ;?
  fail_if (String.eqb (User job) "") UserRequired ;?
  fail_if (negb (user_exists h (User job))) (NoSuchUser (User job)) ;?
  let warnings := if String.eqb (User job) "root" then ["task runs with root privileges"] else [] in
  (if String.eqb (WorkingDir job) "" then Ok ()
   else
     fail_if (negb (is_abs (WorkingDir job)) || contains (WorkingDir job) "..") BadWorkingDir ;?
     fail_if (negb (is_dir h (WorkingDir job))) NoWorkingDir) ;?
  validateEnvironment (Environment job) ;?
  (if String.eqb (Timezone job) "" then Ok ()
   else
     fail_if (contains (Timezone job) ".." || contains_any (Timezone job) (line_breaks ++ " ")) BadTimezone ;?
     fail_if (negb (stat_ok h (path_join "/usr/share/zoneinfo" (Timezone job))))
       (NoSuchTimezone (Timezone job))) ;?
  Ok {| Valid := true; Warnings := warnings |}.
End validation.

(** ** Discovery of the host's crontabs *)

Section discovery.
Variable h : host.

(** source: internal/agent/cron/discover.go:35-45 (determinePackage) *)
Definition determinePackage (path : string) : string :=
  match dpkg_query h path with
  | None => ""
  | Some out => match cut ":" out with (p, Some _) => trim_space p | (_, None) => "" end
  end.

(** How a crontab's jobs are locked. *)
Record locking := {
  l_type : string; l_protected : bool; l_reason : string; l_package : string; l_edit : bool;
}.

(** source: internal/agent/cron/discover.go:55-76 (parseSystemFile, the job type) *)
Definition file_locking (path source : string) : locking :=
  if String.eqb source "User" then
    {| l_type := JobTypeUser; l_protected := false; l_reason := ""; l_package := ""; l_edit := true |}
  else if String.eqb source "System" then
    let pkg := determinePackage path in
    if negb (String.eqb pkg "") then
      {| l_type := JobTypePackage; l_protected := true;
         l_reason := "Managed by Package (" ++ pkg ++ ")"; l_package := pkg; l_edit := false |}
    else {| l_type := JobTypeSystem; l_protected := true; l_reason := "Managed by OS"; l_package := pkg;
            l_edit := false |}
  else {| l_type := JobTypeSystem; l_protected := false; l_reason := ""; l_package := ""; l_edit := false |}.

(** source: internal/agent/cron/discover.go:79-109 (parseSystemFile, one line) *)
Definition parse_line (path source : string) (hasUser : bool) (lk : locking)
    (lineNumber : nat) (raw : string) : option Job :=
  let line := trim_space raw in
  if String.eqb line "" || has_prefix line "#" || contains (hd "" (fields line)) "=" then None
  else
    let fs := fields line in
    let required := if hasUser then 7 else 6 in
    if (length fs <? required)%nat then None
    else
      let expression := join " " (take 5 fs) in
      if negb (is_ok (ValidateExpression expression)) then None
      else
        let '(user, commandStart) := if hasUser then (nth 5 fs "", 6) else (base path, 5) in
        Some {|
          ID := "external-" ++ sha8 h (path ++ String nul line);
          Name := base path ++ ":" ++ itoa (Z.of_nat lineNumber + 1);
          Description := ""; Command := join " " (drop commandStart fs); WorkingDir := "";
          User := user; Environment := empty; Expression := expression; Timezone := "";
          Enabled := true; CreatedAt := 0; UpdatedAt := 0; Source := source; ReadOnly := true;
          Type_ := l_type lk; PackageName := l_package lk; IsProtected := l_protected lk;
          CanEdit := l_edit lk; CanDelete := l_edit lk; LockReason := l_reason lk |}.

(** source: internal/agent/cron/discover.go:47-112 (parseSystemFile) *)
Definition parseSystemFile (path source : string) (hasUser : bool) : list Job :=
  match read_file h path with
  | None => []
  | Some content =>
      omap id (imap (parse_line path source hasUser (file_locking path source)) (split nl content))
  end.

(** source: internal/agent/cron/discover.go:12-33 (discoverSystemJobs) *)
Definition discoverSystemJobs (managedPath : string) : list Job :=
  (parseSystemFile "/etc/crontab" "System" true
   ++ concat ((fun entry =>
        let path := path_join "/etc/cron.d" (de_name entry) in
        if de_dir entry || de_symlink entry || String.eqb (clean path) (clean managedPath) then []
        else parseSystemFile path "System" true) <$> read_dir h "/etc/cron.d")
   ++ concat ((fun spool =>
        concat ((fun entry =>
          if de_dir entry || de_symlink entry then []
          else parseSystemFile (path_join spool (de_name entry)) "User" false) <$> read_dir h spool))
      <$> ["/var/spool/cron/crontabs"; "/var/spool/cron"]))%list.
End discovery.

(** ** Calls *)

Inductive content := Text (s : string) | Json (s : Store).

(** The answer to reading and decoding jobs.json. *)
Inductive state_read :=
| StateMissing
| StateUnreadable (e : string)
| StateCorrupt (e : string)
| StateIs (s : Store).

(** What a finished command reports: [ProcessState], stdout, stderr, error. *)
Record process := { p_exit : option Z; p_stdout : list string; p_stderr : list string; p_err : option string }.

Inductive cron_call : Set -> Set :=
| ReadState (path : string) : cron_call state_read
| Now : cron_call Z
| MkdirAll (path : string) (mode : Z) : cron_call (result string ())
| CreateTemp (directory pattern : string) : cron_call (result string string)
| TempChmod (name : string) (mode : Z) : cron_call (result string ())
| TempWrite (name : string) (c : content) : cron_call (result string ())
| TempSync (name : string) : cron_call (result string ())
| TempClose (name : string) : cron_call (result string ())
| TempRename (name path : string) : cron_call (result string ())
| TempRemove (name : string) : cron_call ()
| RunCommand (args : list string) (directory : string) (env : list string) : cron_call process.

(** ** The manager *)

(** source: internal/agent/cron/manager.go:26-32 (Manager) *)
Record Manager := { statePath : string; cronPath : string; retention : Z }.

(** source: internal/agent/cron/manager.go:38-40 (NewManagerWithPaths) *)
Definition NewManagerWithPaths (statePath cronPath : string) : Manager :=
  {| statePath := statePath; cronPath := cronPath; retention := 500 |}.

(** source: internal/agent/cron/manager.go:34-36 (NewManager) *)
Definition NewManager : Manager :=
  NewManagerWithPaths "/var/lib/opendeploy/cron/jobs.json" "/etc/cron.d/opendeploy".

(** source: internal/agent/cron/manager.go:19-24 (maxOutput) *)
Definition maxOutput : Z := 2 ^ 20.

(** source: internal/agent/cron/manager.go:390-400 (Write) *)
Definition buffer_Write (b value : string) : string :=
  let remaining := (maxOutput - len b)%Z in
  if (0 <? remaining)%Z then
    b ++ (if (remaining <? len value)%Z then take_bytes (Z.to_nat remaining) value else value)
  else b.

(** source: internal/agent/cron/manager.go:379-386 (sortedKeys) *)
Definition sortedKeys (values : gmap string string) : list string :=
  isort String.leb (elements (dom values)).

Definition default_environment : gmap string string :=
  list_to_map [("PATH", "/usr/local/sbin:/usr/local/bin:/usr/sbin:/usr/bin:/sbin:/bin");
               ("HOME", "/tmp"); ("SHELL", "/bin/sh"); ("LANG", "C.UTF-8")].

(** source: internal/agent/cron/manager.go:364-377 (buildEnvironment) *)
Definition buildEnvironment (job : Job) : list string :=
  let values := Environment job ∪ default_environment in
  (fun key => key ++ "=" ++ default "" (values !! key)) <$> sortedKeys values.

(** source: internal/agent/cron/manager.go:336-362 (atomicWrite); the deferred
    removal runs after the outcome is known *)
Definition atomicWrite (path : string) (c : content) (mode : Z) : prog cron_call (result cron_error ()) :=
  wrap! (WriteError "mkdir") of _ := call (MkdirAll (dir path) 488) in
  wrap! (WriteError "create temp") of temp := call (CreateTemp (dir path) ("." ++ base path ++ ".tmp-*")) in
  let! r :=
    (let! r := call (TempChmod temp mode) in
     match r with
     | Err e => ignore! (call (TempClose temp)) in Ret (Err (WriteError "chmod" e))
     | Ok _ =>
     let! r := call (TempWrite temp c) in
     match r with
     | Err e => ignore! (call (TempClose temp)) in Ret (Err (WriteError "write" e))
     | Ok _ =>
     let! r := call (TempSync temp) in
     match r with
     | Err e => ignore! (call (TempClose temp)) in Ret (Err (WriteError "sync" e))
     | Ok _ =>
     wrap! (WriteError "close") of _ := call (TempClose temp) in
     wrap! (WriteError "rename") of _ := call (TempRename temp path) in
     Ret (Ok ()) end end end) in
  ignore! (call (TempRemove temp)) in
  Ret r.

Definition by_id (a b : Job) : bool := String.leb (ID a) (ID b).
Definition by_name (a b : Job) : bool := String.leb (Name a) (Name b).

Definition header : string :=
  "# Managed by OpenDeploy. Manual changes will be overwritten." ++ String nl "".

Section manager.
Context `{Unicode} (m : Manager) (h : host).

(** source: internal/agent/cron/manager.go:288-301 (load) *)
Definition load : prog cron_call (result cron_error Store) :=
  let! data := call (ReadState (statePath m)) in
  Ret (match data with
       | StateMissing => Ok {| Jobs := []; History_ := [] |}
       | StateUnreadable e => Err (ReadStateError e)
       | StateCorrupt e => Err (DecodeStateError e)
       | StateIs s => Ok s
       end).

(** source: internal/agent/cron/manager.go:303-309 (writeState) *)
Definition writeState (store : Store) : prog cron_call (result cron_error ()) :=
  atomicWrite (statePath m) (Json store) 384.

(** source: internal/agent/cron/manager.go:316-331 (writeCron, one job): nothing for
    a disabled job *)
Definition job_text (job : Job) : result cron_error string :=
  if negb (Enabled job) then Ok ""
  else
    let? _ := map_err (InvalidStored (ID job)) (ValidateJob h job) in
    Ok ((if String.eqb (Timezone job) "" then "" else "CRON_TZ=" ++ Timezone job ++ String nl "")
        ++ String.concat "" ((fun key =>
             key ++ "=" ++ quote (default "" (Environment job !! key)) ++ String nl "")
           <$> sortedKeys (Environment job))
        ++ Expression job ++ " root /usr/bin/opendeploy-agent --cron-run=" ++ ID job
        ++ " # opendeploy:" ++ ID job ++ String nl "").

Fixpoint jobs_text (l : list Job) : result cron_error string :=
  match l with
  | [] => Ok ""
  | job :: l' => let? a := job_text job in let? b := jobs_text l' in Ok (a ++ b)
  end.

(** [sort.Slice] by ID, in place. *)
Definition sort_jobs (jobs : list Job) : list Job := isort by_id jobs.

Definition crontab_text (jobs : list Job) : result cron_error string :=
  let? text := jobs_text (sort_jobs jobs) in Ok (header ++ text).

(** source: internal/agent/cron/manager.go:311-334 (writeCron): sorts the slice of
    its caller, which [commit] then stores *)
Definition writeCron (jobs : list Job) : prog cron_call (result cron_error ()) :=
  match crontab_text jobs with
  | Err e => Ret (Err e)
  | Ok text => atomicWrite (cronPath m) (Text text) 384
  end.

(** source: internal/agent/cron/manager.go:280-286 (writeCronFromDisk) *)
Definition writeCronFromDisk : prog cron_call (result cron_error ()) :=
  try! store := load in writeCron (Jobs store).

(** source: internal/agent/cron/manager.go:269-278 (commit) *)
Definition commit (store : Store) : prog cron_call (result cron_error ()) :=
  try! _ := writeCron (Jobs store) in
  let! r := writeState {| Jobs := sort_jobs (Jobs store); History_ := History_ store |} in
  match r with
  | Err e => ignore! writeCronFromDisk in Ret (Err e)
  | Ok _ => Ret (Ok ())
  end.

(** A job with other bookkeeping fields. *)
Definition relabel (job : Job) (created updated : Z) (enabled : bool) (source : string) (ro : bool)
    (ty : string) (prot edit del : bool) (reason : string) : Job := {|
  ID := ID job; Name := Name job; Description := Description job; Command := Command job;
  WorkingDir := WorkingDir job; User := User job; Environment := Environment job;
  Expression := Expression job; Timezone := Timezone job; Enabled := enabled;
  CreatedAt := created; UpdatedAt := updated; Source := source; ReadOnly := ro; Type_ := ty;
  PackageName := PackageName job; IsProtected := prot; CanEdit := edit; CanDelete := del;
  LockReason := reason |}.

(** source: internal/agent/cron/manager.go:70-74 (Get, the label of untyped jobs) *)
Definition label_untyped (job : Job) : Job :=
  if String.eqb (Type_ job) "" then
    relabel job (CreatedAt job) (UpdatedAt job) (Enabled job) (Source job) (ReadOnly job)
      JobTypeOpenDeploy true (CanEdit job) (CanDelete job) "Managed by OpenDeploy"
  else job.

Definition from_opendeploy (job : Job) : Job :=
  relabel job (CreatedAt job) (UpdatedAt job) (Enabled job) "OpenDeploy" (ReadOnly job)
    (Type_ job) (IsProtected job) (CanEdit job) (CanDelete job) (LockReason job).

Definition has_id (id : string) (job : Job) : bool := String.eqb (ID job) id.

(** source: internal/agent/cron/manager.go:42-59 (List): [sort.Slice] may order jobs
    of equal name either way; here they keep the order of the store *)
Definition List_ : prog cron_call (result cron_error (list Job)) :=
  try! store := load in
  Ret (Ok (((fun job => label_untyped (from_opendeploy job)) <$> isort by_name (Jobs store))
           ++ discoverSystemJobs h (cronPath m))%list).

(** source: internal/agent/cron/manager.go:68-83 (Get, the search): the store first,
    then the host's own jobs *)
Definition find_job (store : Store) (id : string) : result cron_error Job :=
  match find (has_id id) (Jobs store) with
  | Some job => Ok (label_untyped job)
  | None => match find (has_id id) (discoverSystemJobs h (cronPath m)) with
            | Some job => Ok job
            | None => Err NotExist
            end
  end.

(** source: internal/agent/cron/manager.go:61-84 (Get) *)
Definition Get (id : string) : prog cron_call (result cron_error Job) :=
  try! store := load in Ret (find_job store id).

(** source: internal/agent/cron/manager.go:106-113 (Create, the stamped job) *)
Definition created_job (now : Z) (job : Job) : Job :=
  let untyped := String.eqb (Type_ job) "" in
  relabel job now now (Enabled job) "OpenDeploy" false
    (if untyped then JobTypeUser else Type_ job) (IsProtected job)
    (if untyped then true else CanEdit job) (if untyped then true else CanDelete job) (LockReason job).

(** source: internal/agent/cron/manager.go:86-119 (Create) *)
Definition Create (job : Job) : prog cron_call (result cron_error Job) :=
  match ValidateJob h job with
  | Err e => Ret (Err e)
  | Ok _ =>
      try! store := load in
      if existsb (has_id (ID job)) (Jobs store) then Ret (Err (AlreadyExists (ID job)))
      else if existsb (has_id (ID job)) (discoverSystemJobs h (cronPath m)) then
        Ret (Err (AlreadySystem (ID job)))
      else
        let! now := call Now in
        let job := created_job now job in
        try! _ := commit {| Jobs := Jobs store ++ [job]; History_ := History_ store |} in
        Ret (Ok job)
  end.

(** source: internal/agent/cron/manager.go:139-141 (Update, the guard) *)
Definition is_locked (job : Job) : bool := IsProtected job || String.eqb (Type_ job) JobTypeOpenDeploy.

(** source: internal/agent/cron/manager.go:142-147 (Update, the stamped job) *)
Definition updated_job (now : Z) (old job : Job) : Job :=
  relabel job (CreatedAt old) now (Enabled job) "OpenDeploy" false
    (if String.eqb (Type_ job) "" then Type_ old else Type_ job)
    (IsProtected job) (CanEdit job) (CanDelete job) (LockReason job).

(** The jobs before, at and after the first one with the identifier. *)
Fixpoint split_at_id (id : string) (l : list Job) : option (list Job * Job * list Job) :=
  match l with
  | [] => None
  | job :: l' =>
      if has_id id job then Some ([], job, l')
      else match split_at_id id l' with
           | Some (a, j, b) => Some (job :: a, j, b)
           | None => None
           end
  end.

(** source: internal/agent/cron/manager.go:121-160 (Update) *)
Definition Update (job : Job) : prog cron_call (result cron_error Job) :=
  match ValidateJob h job with
  | Err e => Ret (Err e)
  | Ok _ =>
      try! store := load in
      match find (fun existing => has_id (ID job) existing && IsProtected existing)
              (discoverSystemJobs h (cronPath m)) with
      | Some existing => Ret (Err (ProtectedJob (LockReason existing)))
      | None =>
          match split_at_id (ID job) (Jobs store) with
          | None => Ret (Err NotExist)
          | Some (before, old, after) =>
              if is_locked old then Ret (Err ProtectedOpenDeploy)
              else
                let! now := call Now in
                let job := updated_job now old job in
                try! _ := commit {| Jobs := before ++ job :: after; History_ := History_ store |} in
                Ret (Ok job)
          end
      end
  end.

(** source: internal/agent/cron/manager.go:162-191 (Delete) *)
Definition Delete (id : string) : prog cron_call (result cron_error ()) :=
  try! store := load in
  match find (fun job => has_id id job && IsProtected job) (discoverSystemJobs h (cronPath m)) with
  | Some job => Ret (Err (ProtectedJob (LockReason job)))
  | None =>
      if existsb (fun job => has_id id job && is_locked job) (Jobs store) then
        Ret (Err ProtectedOpenDeploy)
      else if negb (existsb (has_id id) (Jobs store)) then Ret (Err NotExist)
      else commit {| Jobs := List.filter (fun job => negb (has_id id job)) (Jobs store);
                     History_ := History_ store |}
  end.

Definition set_enabled (enabled : bool) (job : Job) : Job :=
  relabel job (CreatedAt job) (UpdatedAt job) enabled (Source job) (ReadOnly job) (Type_ job)
    (IsProtected job) (CanEdit job) (CanDelete job) (LockReason job).

(** source: internal/agent/cron/manager.go:193-203 (SetEnabled) *)
Definition SetEnabled (id : string) (enabled : bool) : prog cron_call (result cron_error Job) :=
  try! job := Get id in
  if IsProtected job then Ret (Err (ProtectedJob (LockReason job)))
  else Update (set_enabled enabled job).

(** source: internal/agent/cron/manager.go:236-253 (History): newest first *)
Definition History (id : string) (limit : Z) : prog cron_call (result cron_error (list Run)) :=
  try! store := load in
  let limit := if (limit <? 1)%Z || (retention m <? limit)%Z then 100%Z else limit in
  Ret (Ok (take (Z.to_nat limit)
    (List.filter (fun run => String.eqb id "" || String.eqb (JobID run) id) (rev (History_ store))))).

(** source: internal/agent/cron/manager.go:262-265 (appendHistory, the retained runs) *)
Definition retain (runs : list Run) : list Run :=
  if (retention m <? Z.of_nat (length runs))%Z
  then drop (Z.to_nat (Z.of_nat (length runs) - retention m)) runs else runs.

(** source: internal/agent/cron/manager.go:255-267 (appendHistory) *)
Definition appendHistory (run : Run) : prog cron_call (result cron_error ()) :=
  try! store := load in
  writeState {| Jobs := Jobs store; History_ := retain (History_ store ++ [run]) |}.

(** source: internal/agent/cron/manager.go:205-234 (Run): the run is returned also
    when recording it or the command failed *)
Definition Run_ (id trigger actor : string) : prog cron_call (option Run * option cron_error) :=
  let! got := Get id in
  match got with
  | Err e => Ret (None, Some e)
  | Ok job =>
      let! started := call Now in
      let! p := call (RunCommand ["runuser"; "-u"; User job; "--"; "/bin/sh"; "-c"; Command job]
                        (WorkingDir job) (buildEnvironment job)) in
      let! finished := call Now in
      let run := {|
        run_ID := id ++ "-" ++ itoa started; JobID := id; StartedAt := started;
        FinishedAt := finished; Duration := finished - started;
        ExitCode := match p_exit p, p_err p with
                    | Some c, _ => c | None, Some _ => -1 | None, None => 0 end;
        Stdout := fold_left buffer_Write (p_stdout p) "";
        Stderr := fold_left buffer_Write (p_stderr p) "";
        Triggered := trigger; Actor := actor |} in
      let! persisted := appendHistory run in
      Ret (Some run, match persisted with
                     | Err e => Some e
                     | Ok _ => option_map ProcessError (p_err p)
                     end)
  end.
End manager.

(** ** A disk

    A model of the callee: files by path, an oracle that makes any call fail
    without effect, and a clock. *)

Record cron_disk := {
  files : gmap string content;
  temps : gmap string content;
  faults : nat -> bool;
  ticks : nat;
  clock : nat -> Z;
  command : list string -> process;
}.

Definition set_files (f : gmap string content) (d : cron_disk) : cron_disk :=
  {| files := f; temps := temps d; faults := faults d; ticks := ticks d; clock := clock d;
     command := command d |}.
Definition set_temps (t : gmap string content) (d : cron_disk) : cron_disk :=
  {| files := files d; temps := t; faults := faults d; ticks := ticks d; clock := clock d;
     command := command d |}.
Definition tick (d : cron_disk) : cron_disk :=
  {| files := files d; temps := temps d; faults := faults d; ticks := S (ticks d); clock := clock d;
     command := command d |}.

Definition attempt {A} (d : cron_disk) (fault : A) (eff : cron_disk -> A * cron_disk) : A * cron_disk :=
  if faults d (ticks d) then (fault, tick d) else eff (tick d).

Definition read_state (files : gmap string content) (path : string) : state_read :=
  match files !! path with
  | None => StateMissing
  | Some (Text _) => StateCorrupt "invalid character"
  | Some (Json s) => StateIs s
  end.

Definition disk_call {X} (e : cron_call X) (d : cron_disk) : X * cron_disk :=
  match e in cron_call X return X * cron_disk with
  | ReadState p => attempt d (StateUnreadable "fault") (fun d => (read_state (files d) p, d))
  | Now => (clock d (ticks d), d)
  | MkdirAll _ _ | TempChmod _ _ | TempSync _ | TempClose _ =>
      attempt d (Err "fault") (fun d => (Ok (), d))
  | CreateTemp directory pattern => attempt d (Err "fault") (fun d =>
      let name := path_join directory pattern in (Ok name, set_temps (<[name := Text ""]> (temps d)) d))
  | TempWrite name c => attempt d (Err "fault") (fun d =>
      (Ok (), set_temps (<[name := c]> (temps d)) d))
  | TempRename name p => attempt d (Err "fault") (fun d =>
      match temps d !! name with
      | None => (Err "no such file", d)
      | Some c => (Ok (), set_temps (delete name (temps d)) (set_files (<[p := c]> (files d)) d))
      end)
  | TempRemove name => attempt d () (fun d => ((), set_temps (delete name (temps d)) d))
  | RunCommand args _ _ => (command d args, d)
  end.

Definition on_disk {A} (p : prog cron_call A) (d : cron_disk) : A * cron_disk := run (@disk_call) p d.

(** A fault happened between the two moments. *)
Definition faulted (d d' : cron_disk) : Prop :=
  exists n, ticks d <= n < ticks d' /\ faults d n = true.

(** The parts of the disk no call changes, and the direction of time. *)
Definition later (d d' : cron_disk) : Prop := faults d' = faults d /\ ticks d <= ticks d'.

#[export] Instance later_preorder : PreOrder later.
Proof.
  split; [by intros d; split|]. intros a b c [E1 T1] [E2 T2]. split; [by rewrite E2|lia].
Qed.

Ltac step_disk :=
  repeat first
    [ progress cbn [run bind bind_err bind_wrap call disk_call fst snd]
    | match goal with
      | |- context [attempt ?d _ _] => unfold attempt at 1; destruct (faults d (ticks d)) eqn:?
      | |- context [temps ?d !! ?k] => progress simplify_map_eq
      end ].

Ltac find_fault :=
  match goal with
  | H : ?f ?n = true |- exists n, _ /\ ?f n = true => exists n; split; [simpl; lia|exact H]
  end.

Lemma run_atomicWrite path c mode d :
  let '(r, d') := on_disk (atomicWrite path c mode) d in
  later d d' /\
  match r with
  | Ok _ => files d' = <[path := c]> (files d)
  | Err _ => files d' = files d /\ faulted d d'
  end.
Proof.
  unfold on_disk, atomicWrite, later, faulted. step_disk; simpl in *; simplify_map_eq; simpl;
    (split; [split; [done|lia]|]); try done; (split; [done|]); find_fault.
Qed.

(** ** The store the manager keeps *)

Section proofs.
Context `{Unicode} (m : Manager) (h : host) (Hpaths : statePath m <> cronPath m).

(** The store on the disk, as [load] reads it. *)
Definition stored (d : cron_disk) : option Store :=
  match read_state (files d) (statePath m) with
  | StateMissing => Some {| Jobs := []; History_ := [] |}
  | StateIs s => Some s
  | _ => None
  end.

Lemma stored_state d d' :
  files d' !! statePath m = files d !! statePath m -> stored d' = stored d.
Proof. unfold stored, read_state. by intros ->. Qed.

Lemma stored_cron d d' text : files d' = <[cronPath m := Text text]> (files d) -> stored d' = stored d.
Proof. intros E. apply stored_state. by rewrite E, lookup_insert_ne. Qed.

Lemma stored_json d s f : files d = <[statePath m := Json s]> f -> stored d = Some s.
Proof. intros E. unfold stored, read_state. by rewrite E, lookup_insert_eq. Qed.

Lemma faulted_trans d d' d'' :
  later d d' -> later d' d'' -> faulted d d' \/ faulted d' d'' -> faulted d d''.
Proof.
  intros [E T] [E' T'] [(n & Hn & Hf)|(n & Hn & Hf)]; exists n; (split; [lia|]); congruence.
Qed.

Lemma run_load d :
  let '(r, d') := on_disk (load m) d in
  later d d' /\ files d' = files d /\
  match r with Ok s => stored d = Some s | Err _ => stored d = None \/ faulted d d' end.
Proof.
  unfold on_disk, load, stored, later, faulted. step_disk.
  - split_and!; simpl; [done|lia|done|]. right. find_fault.
  - simpl. destruct (read_state _ _); repeat split; simpl; auto.
Qed.

Lemma run_writeCron jobs d :
  let '(r, d') := on_disk (writeCron m h jobs) d in
  later d d' /\
  match r with
  | Ok _ => exists text, crontab_text h jobs = Ok text /\ files d' = <[cronPath m := Text text]> (files d)
  | Err e => files d' = files d /\ (crontab_text h jobs = Err e \/ faulted d d')
  end.
Proof.
  unfold writeCron. destruct (crontab_text h jobs) as [text|e] eqn:Ht; [|by simpl; split; [|auto]].
  pose proof (run_atomicWrite (cronPath m) (Text text) 384 d) as Hw.
  destruct (on_disk _ d) as [[u|e] d']; naive_solver.
Qed.

Lemma sort_jobs_sorted l : Sorted (fun a b => by_id a b = true) (sort_jobs l).
Proof.
  apply isort_sorted. intros a b. unfold by_id.
  destruct (String.leb_total (ID a) (ID b)); auto.
Qed.

Lemma crontab_text_sort l : crontab_text h (sort_jobs l) = crontab_text h l.
Proof.
  unfold crontab_text. change (sort_jobs (sort_jobs l)) with (isort by_id (sort_jobs l)).
  by rewrite isort_id by apply sort_jobs_sorted.
Qed.

Definition sort_store (s : Store) : Store := {| Jobs := sort_jobs (Jobs s); History_ := History_ s |}.

(** The crontab is the one generated from the stored jobs; before the first job
    there may be none. *)
Definition in_sync (d : cron_disk) : Prop :=
  exists s text, stored d = Some s /\ crontab_text h (Jobs s) = Ok text /\
    (files d !! cronPath m = Some (Text text) \/ files d !! cronPath m = None /\ Jobs s = []).

Lemma run_writeCronFromDisk d :
  let '(_, d') := on_disk (writeCronFromDisk m h) d in
  later d d' /\ stored d' = stored d /\
  ((exists s text, stored d = Some s /\ crontab_text h (Jobs s) = Ok text) ->
   faulted d d' \/ in_sync d').
Proof.
  unfold writeCronFromDisk, bind_err, on_disk. rewrite run_bind.
  pose proof (run_load d) as Hl. unfold on_disk in Hl.
  destruct (run _ (load m) d) as [[s|e] d1]; destruct Hl as (L1 & F1 & Hl);
    [|simpl; split_and!; [done|by apply stored_state; rewrite F1|naive_solver]].
  pose proof (run_writeCron (Jobs s) d1) as Hw. unfold on_disk in Hw.
  assert (Hs1 : stored d1 = stored d) by (apply stored_state; by rewrite F1).
  destruct (run _ (writeCron m h (Jobs s)) d1) as [[[]|e] d2]; destruct Hw as [L2 Hw];
    (split; [by etrans|]).
  - destruct Hw as (text & Ht & Hf). rewrite <- Hs1. split; [by eapply stored_cron|].
    intros _. right. exists s, text. split_and!; [by erewrite stored_cron, Hs1|done|].
    left. by rewrite Hf, lookup_insert_eq.
  - destruct Hw as [Hf Hw]. split; [by apply stored_state; rewrite Hf, F1|].
    intros (s0 & text & Hs & Ht). left. destruct Hw as [Hw|Hw]; [congruence|].
    eapply faulted_trans; eauto.
Qed.

(** What [commit] leaves: on success both files are those of the new store; on
    failure the store is the old one, and the two files still agree unless two
    calls failed. *)
Lemma run_commit s d :
  let '(r, d') := on_disk (commit m h s) d in
  later d d' /\
  match r with
  | Ok _ => in_sync d' /\ stored d' = Some (sort_store s)
  | Err _ => stored d' = stored d /\
      (in_sync d -> in_sync d' \/ exists n n', n < n' /\ faults d n = true /\ faults d n' = true)
  end.
Proof.
  unfold commit, bind_err, on_disk. rewrite run_bind.
  pose proof (run_writeCron (Jobs s) d) as Hw. unfold on_disk in Hw.
  destruct (run _ (writeCron m h (Jobs s)) d) as [[[]|e] d1]; destruct Hw as [L1 Hw].
  2:{ destruct Hw as [Hw _]. assert (Hst : stored d1 = stored d) by (apply stored_state; by rewrite Hw).
      simpl. split_and!; [done..|]. unfold in_sync. rewrite Hst, Hw. auto. }
  destruct Hw as (text & Htext & Hf1). rewrite run_bind. unfold writeState.
  pose proof (run_atomicWrite (statePath m) (Json (sort_store s)) 384 d1) as Ha. unfold on_disk in Ha.
  change {| Jobs := _; History_ := _ |} with (sort_store s).
  destruct (run _ (atomicWrite _ _ _) d1) as [[[]|e] d2]; destruct Ha as [L2 Ha]; cbv iota.
  { split; [by etrans|]. assert (Hst : stored d2 = Some (sort_store s)) by by eapply stored_json.
    split; [|done]. exists (sort_store s), text. split_and!; [done|by rewrite <- Htext; apply crontab_text_sort|].
    left. by rewrite Ha, lookup_insert_ne, Hf1, lookup_insert_eq. }
  destruct Ha as [Hf2 (n & Hn & Fn)]. rewrite run_bind.
  pose proof (run_writeCronFromDisk d2) as Hr. unfold on_disk in Hr.
  destruct (run _ (writeCronFromDisk m h) d2) as [r d3]; destruct Hr as (L3 & Hst3 & Hsync). simpl.
  assert (Hst : stored d2 = stored d) by (rewrite (stored_state d1 d2) by (by rewrite Hf2); by eapply stored_cron).
  split_and!; [by etrans; [|etrans]|congruence|].
  intros (s0 & text0 & Hs0 & Ht0 & _). rewrite Hst in Hsync.
  destruct Hsync as [(n' & Hn' & Fn')|?]; [by eauto| |by left].
  right. destruct L1 as [E1 T1], L2 as [E2 T2]. exists n, n'. split_and!; [lia|congruence..].
Qed.

(** ** The operations refine steps of an abstract job table *)

Inductive operation :=
| OpCreate (job : Job)
| OpUpdate (job : Job)
| OpDelete (id : string)
| OpSetEnabled (id : string) (enabled : bool)
| OpRecord (run : Run).

Definition outcome {A} (p : prog cron_call (result cron_error A)) : prog cron_call (result cron_error ()) :=
  bind p (fun r => Ret (match r with Ok _ => Ok () | Err e => Err e end)).

Definition perform (o : operation) : prog cron_call (result cron_error ()) :=
  match o with
  | OpCreate job => outcome (Create m h job)
  | OpUpdate job => outcome (Update m h job)
  | OpDelete id => Delete m h id
  | OpSetEnabled id enabled => outcome (SetEnabled m h id enabled)
  | OpRecord run => appendHistory m run
  end.

Definition ids (s : Store) : list string := ID <$> Jobs s.

(** What a job says, without its bookkeeping. *)
Definition wording (j : Job) :=
  (ID j, Name j, Description j, Command j, WorkingDir j, User j, Environment j, Expression j, Timezone j, PackageName j).

(** [new] is the job of the request [job], filed with these stamps, type and rights. *)
Record filed (job : Job) (created updated : Z) (ty : string) (edit del : bool) (new : Job) : Prop := {
  filed_content : wording new = wording job; filed_enabled : Enabled new = Enabled job;
  filed_created : CreatedAt new = created; filed_updated : UpdatedAt new = updated;
  filed_source : Source new = "OpenDeploy" /\ ReadOnly new = false; filed_type : Type_ new = ty;
  filed_rights : CanEdit new = edit /\ CanDelete new = del;
  filed_lock : IsProtected new = IsProtected job /\ LockReason new = LockReason job }.

(** [s'] has [new] in the place of the first job [old] with the identifier, which is not locked. *)
Definition replaces (s s' : Store) (id : string) (old new : Job) : Prop :=
  ID old = id /\ IsProtected old = false /\ Type_ old <> JobTypeOpenDeploy /\
  exists before after, Jobs s = (before ++ old :: after)%list /\ id ∉ ID <$> before /\ Jobs s' ≡ₚ (before ++ new :: after)%list.

(** The step an operation takes on the table of jobs and the history. *)
Definition job_step (o : operation) (s s' : Store) : Prop :=
  match o with
  | OpCreate job =>
      is_ok (ValidateJob h job) = true /\ ID job ∉ ids s /\ ID job ∉ ID <$> discoverSystemJobs h (cronPath m) /\ History_ s' = History_ s /\
      exists now new, Jobs s' ≡ₚ new :: Jobs s /\
        if decide (Type_ job = "") then filed job now now JobTypeUser true true new
        else filed job now now (Type_ job) (CanEdit job) (CanDelete job) new
  | OpUpdate job =>
      is_ok (ValidateJob h job) = true /\ History_ s' = History_ s /\
      exists now old new, replaces s s' (ID job) old new /\
        filed job (CreatedAt old) now (if decide (Type_ job = "") then Type_ old else Type_ job) (CanEdit job) (CanDelete job) new
  | OpDelete id =>
      id ∈ ids s /\ (forall job, job ∈ Jobs s -> ID job = id -> IsProtected job = false /\ Type_ job <> JobTypeOpenDeploy) /\
      Jobs s' ≡ₚ filter (fun job => ID job <> id) (Jobs s) /\ History_ s' = History_ s
  | OpSetEnabled id enabled =>
      History_ s' = History_ s /\
      exists now old new, replaces s s' id old new /\
        wording new = wording old /\ Enabled new = enabled /\ CreatedAt new = CreatedAt old /\ UpdatedAt new = now /\
        Type_ new = Type_ old /\ CanEdit new = CanEdit old /\ CanDelete new = CanDelete old /\
        IsProtected new = IsProtected old /\ LockReason new = LockReason old
  | OpRecord run =>
      Jobs s' = Jobs s /\ exists dropped, (History_ s ++ [run])%list = (dropped ++ History_ s')%list /\
        ((0 <= retention m)%Z -> Z.of_nat (length (History_ s')) = Z.min (retention m) (Z.of_nat (length (History_ s)) + 1))
  end.

(** A run from [d] to [d'] that reports [ok] keeps the store when it fails and
    takes one step when it succeeds, and keeps the crontab in step unless two
    calls failed. *)
Definition refines {A} (o : operation) (d : cron_disk) (out : result cron_error A * cron_disk) : Prop :=
  let '(r, d') := out in
  later d d' /\
  (if is_ok r then exists s s', stored d = Some s /\ job_step o s s' /\ stored d' = Some s'
   else stored d' = stored d) /\
  (in_sync d -> in_sync d' \/ exists n n', n < n' /\ faults d n = true /\ faults d n' = true).

Lemma refines_outcome {A} o (p : prog cron_call (result cron_error A)) d :
  refines o d (on_disk p d) -> refines o d (on_disk (outcome p) d).
Proof.
  unfold on_disk, outcome. rewrite run_bind. by destruct (run _ p d) as [[a|e] d'].
Qed.

Lemma refines_error {A} o (e : cron_error) d d' :
  later d d' -> files d' = files d -> refines o d (Err (A := A) e, d').
Proof.
  intros L F. assert (stored d' = stored d) as Hst by (apply stored_state; by rewrite F).
  split_and!; [done..|]. unfold in_sync. rewrite Hst, F. auto.
Qed.

(** Loading the store, then going on. *)
Lemma refines_load {A} o (k : Store -> prog cron_call (result cron_error A)) d :
  (forall s d', later d d' -> files d' = files d -> stored d = Some s -> refines o d (on_disk (k s) d')) ->
  refines o d (on_disk (try! store := load m in k store) d).
Proof.
  intros Hk. unfold bind_err, on_disk. rewrite run_bind. pose proof (run_load d) as Hl.
  unfold on_disk in Hl. destruct (run _ (load m) d) as [[s|e] d1]; destruct Hl as (L1 & F1 & Hl).
  - by apply Hk.
  - by apply refines_error.
Qed.

(** Reads before an operation change nothing. *)
Lemma refines_from {A} o d d' (out : result cron_error A * cron_disk) :
  later d d' -> files d' = files d -> refines o d' out -> refines o d out.
Proof.
  intros L F. destruct out as [r d2]. unfold refines.
  assert (Hst : stored d' = stored d) by (apply stored_state; by rewrite F).
  assert (Hsy : in_sync d -> in_sync d') by (unfold in_sync; by rewrite Hst, F).
  rewrite Hst. intros (L2 & Hr & Hsync). split_and!; [by etrans|done|]. destruct L as [<- _]. auto.
Qed.

(** Committing the store a step leads to. *)
Lemma refines_commit o s s' d :
  stored d = Some s -> job_step o s (sort_store s') -> refines o d (on_disk (commit m h s') d).
Proof.
  intros Hs Hstep. pose proof (run_commit s' d) as Hc. unfold refines.
  destruct (on_disk _ d) as [[[]|e] d2]; destruct Hc as [L2 Hc]; simpl; split; [done| |done|done].
  destruct Hc as [Hsync Hst2]. split; [by exists s, (sort_store s')|by left].
Qed.

Lemma refines_then {A B} o (p : prog cron_call (result cron_error A)) (b : B) d :
  refines o d (on_disk p d) -> refines o d (on_disk (try! _ := p in Ret (Ok b)) d).
Proof. unfold on_disk, bind_err. rewrite run_bind. by destruct (run _ p d) as [[a|e] d']. Qed.

Lemma has_id_spec id job : has_id id job = true <-> ID job = id.
Proof. apply String.eqb_eq. Qed.

Lemma existsb_ids id s : existsb (has_id id) (Jobs s) = true <-> id ∈ ids s.
Proof.
  unfold ids. rewrite existsb_exists, list_elem_of_fmap. split.
  - intros (j & Hj & <-%has_id_spec). exists j. by rewrite list_elem_of_In.
  - intros (j & -> & Hj). exists j. by rewrite <- list_elem_of_In, has_id_spec.
Qed.

Lemma split_at_id_some id l before old after :
  split_at_id id l = Some (before, old, after) -> l = (before ++ old :: after)%list /\ ID old = id /\ id ∉ ID <$> before.
Proof.
  revert before; induction l as [|j l IH]; intros before; simpl; [done|].
  destruct (has_id id j) eqn:Hj; [intros [= <- <- <-]; apply has_id_spec in Hj; split_and!; [done..|set_solver]|].
  destruct (split_at_id id l) as [[[a o] b]|]; [|done]. intros [= <- <- <-].
  destruct (IH a eq_refl) as (-> & -> & Hn). split_and!; [done..|]. cbn. intros [Heq|?]%elem_of_cons; [|done]. unfold has_id in Hj. by rewrite <- Heq, String.eqb_refl in Hj.
Qed.

Lemma not_locked job : is_locked job = false <-> IsProtected job = false /\ Type_ job <> JobTypeOpenDeploy.
Proof. unfold is_locked. by rewrite orb_false_iff, String.eqb_neq. Qed.

Lemma jobs_perm s : Jobs (sort_store s) ≡ₚ Jobs s.
Proof. unfold sort_store, sort_jobs. cbn [Jobs]. by rewrite (isort_perm by_id (Jobs s)). Qed.

Lemma create_step job now s v :
  ValidateJob h job = Ok v -> existsb (has_id (ID job)) (Jobs s) = false -> existsb (has_id (ID job)) (discoverSystemJobs h (cronPath m)) = false ->
  job_step (OpCreate job) s (sort_store {| Jobs := Jobs s ++ [created_job now job]; History_ := History_ s |}).
Proof.
  intros Hv He Hsys. cbn [job_step]. split_and!; [by rewrite Hv|intros Hin%existsb_ids; congruence| |done|].
  - rewrite list_elem_of_fmap. intros (j & Hj & Hin). apply not_true_iff_false in Hsys. apply Hsys, existsb_exists. exists j.
    by rewrite <- list_elem_of_In, has_id_spec.
  - exists now, (created_job now job). split; [rewrite jobs_perm; cbn [Jobs]; by rewrite Permutation_app_comm|].
    unfold created_job. destruct (decide (Type_ job = "")) as [Ht|Ht%String.eqb_neq]; [rewrite Ht|rewrite Ht]; by split.
Qed.

Lemma replace_step s before old after new :
  Jobs s = (before ++ old :: after)%list -> ID old ∉ ID <$> before -> is_locked old = false ->
  replaces s (sort_store {| Jobs := before ++ new :: after; History_ := History_ s |}) (ID old) old new.
Proof. intros Hj Hb [Hp Ht]%not_locked. unfold replaces. split_and!; [done..|]. exists before, after. by rewrite jobs_perm. Qed.

Lemma updated_filed now old job :
  filed job (CreatedAt old) now (if decide (Type_ job = "") then Type_ old else Type_ job) (CanEdit job) (CanDelete job) (updated_job now old job).
Proof. unfold updated_job. destruct (decide (Type_ job = "")) as [Ht|Ht%String.eqb_neq]; [rewrite Ht|rewrite Ht]; by split. Qed.

Ltac reject := by apply refines_error.

Lemma refines_Create job d : refines (OpCreate job) d (on_disk (Create m h job) d).
Proof.
  unfold Create. destruct (ValidateJob h job) as [v|e] eqn:Hv; [|reject].
  apply refines_load. intros s d' L F Hs.
  destruct (existsb _ (Jobs s)) eqn:He; [reject|].
  destruct (existsb _ (discoverSystemJobs h (cronPath m))) eqn:Hsys; [reject|].
  unfold on_disk. cbn [run bind call disk_call]. apply (refines_from _ d d'); [done..|]. apply refines_then.
  eapply refines_commit; [by erewrite stored_state; [|by rewrite F]|].
  by eapply create_step.
Qed.

Lemma refines_Update job d : refines (OpUpdate job) d (on_disk (Update m h job) d).
Proof.
  unfold Update. destruct (ValidateJob h job) as [v|e] eqn:Hv; [|reject].
  apply refines_load. intros s d' L F Hs. destruct (find _ _); [reject|].
  destruct (split_at_id _ _) as [[[before old] after]|] eqn:Hsp; [|reject].
  apply split_at_id_some in Hsp as (Hj & Hid & Hfirst).
  destruct (is_locked old) eqn:Hlock; [reject|].
  unfold on_disk. cbn [run bind call disk_call]. apply (refines_from _ d d'); [done..|]. apply refines_then.
  eapply refines_commit; [by erewrite stored_state; [|by rewrite F]|].
  split_and!; [by rewrite Hv|done|]. eexists _, old, _. split; [rewrite <- Hid in Hfirst |- *; by apply replace_step|]. apply updated_filed.
Qed.

Lemma filter_ids id l : List.filter (fun job => negb (has_id id job)) l = filter (fun job => ID job <> id) l.
Proof.
  induction l as [|j l IH]; [done|]. rewrite filter_cons. cbn [List.filter]. rewrite IH. unfold has_id. by destruct (String.eqb_spec (ID j) id), (decide (ID j <> id)).
Qed.

Lemma refines_Delete id d : refines (OpDelete id) d (on_disk (Delete m h id) d).
Proof.
  unfold Delete. apply refines_load. intros s d' L F Hs. destruct (find _ _); [reject|].
  destruct (existsb (fun job => _ && _) _) eqn:Hl; [reject|].
  destruct (existsb (has_id id) _) eqn:He; cbn [negb]; [|reject].
  apply (refines_from _ d d'); [done..|].
  eapply refines_commit; [by erewrite stored_state; [|by rewrite F]|].
  cbn [job_step]. split_and!; [by apply existsb_ids| |rewrite jobs_perm; cbn [Jobs]; by rewrite filter_ids|done]. intros job Hin Hid. apply not_locked.
  destruct (is_locked job) eqn:Hlk; [|done]. apply not_true_iff_false in Hl. destruct Hl.
  apply existsb_exists. exists job. by rewrite <- list_elem_of_In, Hlk, (proj2 (has_id_spec _ _) Hid).
Qed.

(** [find] finds the job [split_at_id] splits at. *)
Lemma find_split id l before old after : split_at_id id l = Some (before, old, after) -> find (has_id id) l = Some old.
Proof.
  revert before. induction l as [|j l IH]; intros before; cbn; [done|]. destruct (has_id id j); [by intros [= <- <- <-]|].
  destruct (split_at_id id l) as [[[a o] b]|]; [|done]. intros [= <- <- <-]. by apply (IH a).
Qed.

Lemma refines_SetEnabled id enabled d : refines (OpSetEnabled id enabled) d (on_disk (SetEnabled m h id enabled) d).
Proof.
  unfold SetEnabled, Get, bind_err at 2. unfold bind_err. unfold on_disk. rewrite !run_bind.
  pose proof (run_load d) as Hl. unfold on_disk in Hl.
  destruct (run _ (load m) d) as [[s|e] d1]; destruct Hl as (L & F & Hl); [|reject]. cbv iota.
  cbn [run]. destruct (find_job m h s id) as [job|e] eqn:Hfind; [|reject].
  destruct (IsProtected job) eqn:Hprot; [reject|]. apply (refines_from _ d d1); [done..|]. fold (on_disk (Update m h (set_enabled enabled job)) d1).
  unfold Update. destruct (ValidateJob h _) as [v|e] eqn:Hv; [|reject]. apply refines_load. intros s' d' L' F' Hs'.
  assert (s' = s) as ->.
  { assert (stored d1 = stored d) as Hst by (apply stored_state; by rewrite F). congruence. }
  destruct (find _ (discoverSystemJobs _ _)); [reject|]. change (ID (set_enabled enabled job)) with (ID job).
  destruct (split_at_id _ _) as [[[before old] after]|] eqn:Hsp; [|reject]. pose proof (find_split _ _ _ _ _ Hsp) as Hold.
  apply split_at_id_some in Hsp as (Hj & Hid & Hfirst). destruct (is_locked old) eqn:Hlock; [reject|].
  assert (job = old /\ ID old = id) as [-> Hid'].
  { unfold find_job in Hfind. destruct (find (has_id id) (Jobs s)) as [j|] eqn:Hf.
    - injection Hfind as <-. assert (ID j = id) as Hji by (by apply find_some in Hf as [_ Hf%has_id_spec]). unfold label_untyped in *.
      destruct (String.eqb (Type_ j) ""); [done|]. rewrite Hji, Hf in Hold. by injection Hold as <-.
    - exfalso. destruct (find (has_id id) (discoverSystemJobs h (cronPath m))) as [j|] eqn:Hf2; [|done]. injection Hfind as <-.
      apply find_some in Hf2 as [_ Hji%has_id_spec]. rewrite Hji in Hold. congruence. }
  unfold on_disk. cbn [run bind call disk_call]. apply (refines_from _ d1 d'); [done..|]. apply refines_then.
  eapply refines_commit; [by erewrite stored_state; [|by rewrite F']|]. cbn [job_step]. split; [done|]. eexists _, old, _.
  split; [rewrite <- Hid'; by apply replace_step|]. unfold updated_job, set_enabled. cbn. destruct (String.eqb_spec (Type_ old) ""); by split_and!.
Qed.

Lemma record_step s run : job_step (OpRecord run) s {| Jobs := Jobs s; History_ := retain m (History_ s ++ [run]) |}.
Proof.
  cbn [job_step Jobs History_]. split; [done|]. unfold retain. set (l := (History_ s ++ [run])%list).
  assert (Z.of_nat (length l) = Z.of_nat (length (History_ s)) + 1)%Z as Hl by (subst l; rewrite length_app; cbn; lia).
  destruct (Z.ltb_spec (retention m) (Z.of_nat (length l))); [|exists []; split; [done|lia]].
  exists (take (Z.to_nat (Z.of_nat (length l) - retention m)) l). split; [by rewrite take_drop|]. intros Hr. rewrite length_drop. lia.
Qed.

Lemma refines_appendHistory run d : refines (OpRecord run) d (on_disk (appendHistory m run) d).
Proof.
  unfold appendHistory. apply refines_load. intros s d' L F Hs. apply (refines_from _ d d'); [done..|].
  unfold writeState. pose proof (run_atomicWrite (statePath m)
    (Json {| Jobs := Jobs s; History_ := retain m (History_ s ++ [run]) |}) 384 d') as Ha.
  destruct (on_disk _ d') as [[[]|e] d2]; destruct Ha as [L2 Ha]; [|by apply refines_error; destruct Ha].
  assert (Hst : stored d' = Some s) by (erewrite stored_state; [done|by rewrite F]).
  assert (Hst2 := stored_json _ _ _ Ha).
  split_and!; [done|eexists _, _; split_and!; [done|by apply record_step|done]|].
  intros (s0 & text & Hs0 & Ht & Hc). left. rewrite Hst in Hs0. injection Hs0 as <-.
  eexists _, text. split_and!; [done|done|]. by rewrite Ha, lookup_insert_ne.
Qed.

Lemma perform_refines o d : refines o d (on_disk (perform o) d).
Proof.
  destruct o; simpl; try apply refines_outcome; auto using refines_Create, refines_Update,
    refines_Delete, refines_SetEnabled, refines_appendHistory.
Qed.

End proofs.

(** ** Invariants of the job table *)

Section invariants.
Context `{Unicode} (m : Manager) (h : host) (Hpaths : statePath m <> cronPath m).

(** The identifiers are distinct and the history is within its retention. *)
Definition table_ok (s : Store) : Prop :=
  NoDup (ids s) /\ (Z.of_nat (length (History_ s)) <= retention m)%Z.

(** A replacement keeps the identifiers, and the jobs that are locked. *)
Lemma replaces_ids s s' id old new : replaces s s' id old new -> ID new = id -> ids s' ≡ₚ ids s.
Proof.
  intros (Hid & _ & _ & before & after & Hj & _ & Hp) Hn. unfold ids. rewrite Hp, Hj, !fmap_app, !fmap_cons. by rewrite Hid, Hn.
Qed.

Lemma replaces_locked s s' id old new job :
  replaces s s' id old new -> job ∈ Jobs s -> is_locked job = true -> job ∈ Jobs s'.
Proof.
  intros (_ & Hpr & Hty & before & after & Hj & _ & Hp) Hin Hl. rewrite Hp. rewrite Hj in Hin.
  apply elem_of_app in Hin as [?|[->|?]%elem_of_cons]; [set_solver| |set_solver]. by rewrite (proj2 (not_locked old)) in Hl.
Qed.

Lemma wording_id j j' : wording j = wording j' -> ID j = ID j'.
Proof. by intros [=]. Qed.

Lemma job_step_ok o s s' : (0 <= retention m)%Z -> job_step m h o s s' -> table_ok s -> table_ok s'.
Proof.
  intros Hr Hstep [Hnd Hh]. destruct o as [job|job|id|id enabled|run]; cbn [job_step] in Hstep.
  - destruct Hstep as (_ & Hfresh & _ & Hhist & now & new & Hp & Hf). split; [|by rewrite Hhist]. unfold ids. rewrite Hp. apply NoDup_cons.
    assert (ID new = ID job) as -> by (destruct (decide _); by apply wording_id, Hf). done.
  - destruct Hstep as (_ & Hhist & now & old & new & Hrep & Hf). split; [|by rewrite Hhist]. rewrite (replaces_ids _ _ _ _ _ Hrep); [done|]. by apply wording_id, Hf.
  - destruct Hstep as (_ & _ & Hp & Hhist). split; [|by rewrite Hhist]. unfold ids. rewrite Hp. eapply sublist_NoDup; [exact Hnd|]. apply fmap_sublist, sublist_filter.
  - destruct Hstep as (Hhist & now & old & new & Hrep & Hw & _). split; [|by rewrite Hhist]. rewrite (replaces_ids _ _ _ _ _ Hrep); [done|].
    rewrite (wording_id _ _ Hw). by destruct Hrep.
  - destruct Hstep as (Hj & dropped & _ & Hlen). unfold table_ok, ids. rewrite Hj, Hlen by done. split; [done|lia].
Qed.

(** A locked job survives every step. *)
Lemma job_step_locked o s s' job :
  job_step m h o s s' -> job ∈ Jobs s -> is_locked job = true -> job ∈ Jobs s'.
Proof.
  intros Hstep Hin Hlock. destruct o as [j|j|id|id enabled|run]; cbn [job_step] in Hstep.
  - destruct Hstep as (_ & _ & _ & _ & now & new & Hp & _). rewrite Hp. set_solver.
  - destruct Hstep as (_ & _ & now & old & new & Hrep & _). by eapply replaces_locked.
  - destruct Hstep as (_ & Hl & Hp & _). rewrite Hp, list_elem_of_filter. split; [|done]. intros Hid.
    apply (Hl _ Hin), not_locked in Hid. congruence.
  - destruct Hstep as (_ & now & old & new & Hrep & _). by eapply replaces_locked.
  - destruct Hstep as (-> & _). done.
Qed.

(** A sequence of operations, each after the other as the mutex makes them. *)
Fixpoint perform_all (l : list operation) (d : cron_disk) : cron_disk :=
  match l with
  | [] => d
  | o :: l' => perform_all l' (snd (on_disk (perform m h o) d))
  end.

(** Over any sequence of operations, with any system calls failing, the job
    identifiers stay distinct, the history within its retention, and no locked
    job is changed or removed. *)
Theorem job_table_invariant l d s :
  (0 <= retention m)%Z -> stored m d = Some s -> table_ok s ->
  exists s', stored m (perform_all l d) = Some s' /\ table_ok s' /\
    forall job, job ∈ Jobs s -> is_locked job = true -> job ∈ Jobs s'.
Proof.
  intros Hr. revert d s; induction l as [|o l IH]; intros d s Hs Hok; simpl; [by eauto|].
  pose proof (perform_refines m h Hpaths o d) as Href. unfold refines in Href.
  destruct (on_disk (perform m h o) d) as [r d1]. destruct Href as (_ & Hstep & _). simpl.
  destruct (is_ok r).
  - destruct Hstep as (s0 & s1 & Hs0 & Hstep & Hs1). rewrite Hs in Hs0. injection Hs0 as <-.
    destruct (IH d1 s1 Hs1 (job_step_ok _ _ _ Hr Hstep Hok)) as (s' & Hs' & Hok' & Hlock).
    exists s'. split_and!; [done..|]. intros job Hin Hl. apply Hlock; [|done]. by eapply job_step_locked.
  - apply IH; congruence.
Qed.
End invariants.

(** ** The generated crontab *)

Section crontab.
Context `{Unicode} (h : host).

(** The lines of a job: its time zone, its environment, its schedule. *)
Definition schedule_line (job : Job) : string :=
  Expression job ++ " root /usr/bin/opendeploy-agent --cron-run=" ++ ID job ++ " # opendeploy:" ++ ID job.

Definition env_line (job : Job) (key : string) : string :=
  key ++ "=" ++ quote (default "" (Environment job !! key)).

Definition zone_lines (job : Job) : list string :=
  if String.eqb (Timezone job) "" then [] else ["CRON_TZ=" ++ Timezone job].

Definition job_lines (job : Job) : list string :=
  (zone_lines job ++ (env_line job <$> sortedKeys (Environment job)) ++ [schedule_line job])%list.

Definition unlines (l : list string) : string :=
  String.concat "" ((fun x => x ++ String nl "") <$> l).

Lemma unlines_cons x l : unlines (x :: l) = x ++ String nl (unlines l).
Proof.
  unfold unlines. rewrite fmap_cons, concat_cons, str_app_assoc. done.
Qed.

Lemma unlines_app l k : unlines (l ++ k)%list = unlines l ++ unlines k.
Proof.
  induction l as [|x l IH]; [done|]. cbn [app]. rewrite !unlines_cons, IH, str_app_assoc. done.
Qed.

Lemma split_unlines l : Forall (no_byte nl) l -> split nl (unlines l) = (l ++ [""])%list.
Proof.
  induction 1 as [|x l Hx Hl IH]; [done|]. rewrite unlines_cons, split_app_sep, IH by done. done.
Qed.

Lemma job_text_lines job :
  is_ok (ValidateJob h job) = true -> job_text h job = Ok (if Enabled job then unlines (job_lines job) else "").
Proof.
  intros Hv. unfold job_text. destruct (Enabled job); [cbn [negb]|done].
  destruct (ValidateJob h job); [|done]. cbn [map_err bind_result]. f_equal.
  unfold job_lines. rewrite !unlines_app. f_equal; [|f_equal].
  - unfold zone_lines. destruct (String.eqb _ _); [done|]. unfold unlines. simpl. by rewrite ?str_app_assoc.
  - unfold unlines. rewrite <- list_fmap_compose. f_equal. apply list_fmap_ext. intros _ key _.
    unfold env_line, compose. by rewrite !str_app_assoc.
  - unfold unlines, schedule_line. cbn [fmap list_fmap String.concat]. by rewrite !str_app_assoc.
Qed.

Lemma jobs_text_lines l text :
  jobs_text h l = Ok text -> text = unlines (concat (job_lines <$> List.filter Enabled l)).
Proof.
  revert text; induction l as [|job l IH]; intros text; [by intros [= <-]|].
  cbn [jobs_text]. intros (a & Ha & (b & Hb & [= <-])%bind_result_ok)%bind_result_ok.
  rewrite (IH b Hb). cbn [List.filter]. destruct (Enabled job) eqn:He.
  - cbn [fmap list_fmap concat]. rewrite unlines_app. f_equal.
    assert (Hv : is_ok (ValidateJob h job) = true).
    { unfold job_text in Ha. rewrite He in Ha. by destruct (ValidateJob h job). }
    rewrite job_text_lines, He in Ha by done. by injection Ha as <-.
  - unfold job_text in Ha. rewrite He in Ha. by injection Ha as <-.
Qed.

(** *** A valid job writes whole lines *)

Definition visible (z : Z) : bool := in_range 32 126 z.

Lemma visible_no_nl s : str_forall (fun c => visible (byte_val c)) s = true -> no_byte nl s.
Proof.
  apply str_forall_mono. intros c Hc. apply negb_true_iff, Ascii.eqb_neq. intros <-. discriminate.
Qed.

Lemma text_no_nl s : str_forall is_text s = true -> no_byte nl s.
Proof.
  apply str_forall_mono. intros c Hc. apply negb_true_iff, Ascii.eqb_neq. intros <-. discriminate.
Qed.

Ltac visible_class :=
  intros z Hz; unfold visible, r_alnum, r_alpha, r_upper, r_lower, r_digit, in_range in *;
  change (one_of "_-" z) with ((95 =? z) || ((45 =? z) || false))%Z in *;
  change (one_of "_" z) with ((95 =? z) || false)%Z in *; lia.

Lemma id_no_nl id : match_string jobIDPattern id = true -> no_byte nl id.
Proof.
  intros Hm. apply visible_no_nl. eapply (match_over visible); [| |exact Hm];
    [unfold visible, in_range; lia|]. unfold jobIDPattern; cbn [over].
  split; [|apply over_upto]; visible_class.
Qed.

Lemma key_no_nl key : match_string envKeyPattern key = true -> no_byte nl key.
Proof.
  intros Hm. apply visible_no_nl. eapply (match_over visible); [| |exact Hm];
    [unfold visible, in_range; lia|]. unfold envKeyPattern; cbn [over].
  split; [|apply over_upto]; visible_class.
Qed.

(** What validation says about the fields that reach the crontab. *)
Lemma ValidateJob_fields job v :
  ValidateJob h job = Ok v ->
  match_string jobIDPattern (ID job) = true /\ validateEnvironment (Environment job) = Ok () /\
  (Timezone job = "" \/ contains_any (Timezone job) (line_breaks ++ " ") = false).
Proof.
  unfold ValidateJob. cbv zeta. rewrite !bind_result_ok.
  intros ([] & Hid%fail_if_ok & Hv). repeat setoid_rewrite bind_result_ok in Hv.
  destruct Hv as (_ & _ & _ & _ & _ & _ & _ & _ & _ & _ & _ & _ & [] & Henv & [] & Htz & _).
  split_and!; [by apply negb_false_iff|done|].
  destruct (String.eqb_spec (Timezone job) ""); [by left|right].
  apply bind_result_ok in Htz as ([] & Htz%fail_if_ok & _). by propify.
Qed.

Lemma validateEnvironment_key env key :
  validateEnvironment env = Ok () -> is_Some (env !! key) -> match_string envKeyPattern key = true.
Proof.
  unfold validateEnvironment. rewrite for_each_ok, Forall_forall. intros Hf [v Hv].
  apply elem_of_map_to_list, Hf in Hv. simpl in Hv.
  apply bind_result_ok in Hv as ([] & Hk%fail_if_ok & _). by apply negb_false_iff.
Qed.

Lemma sortedKeys_elem env key : key ∈ sortedKeys env <-> is_Some (env !! key).
Proof.
  unfold sortedKeys. rewrite (isort_perm String.leb), elem_of_elements, elem_of_dom. done.
Qed.

Lemma job_lines_whole job v :
  ValidateJob h job = Ok v -> no_byte nl (Expression job) -> Forall (no_byte nl) (job_lines job).
Proof.
  intros Hv He. apply ValidateJob_fields in Hv as (Hid%id_no_nl & Henv & Htz).
  unfold job_lines. rewrite !Forall_app. split_and!.
  - unfold zone_lines. destruct (String.eqb_spec (Timezone job) ""); [constructor|].
    apply Forall_singleton. apply (no_byte_app nl "CRON_TZ="); split; [done|]. destruct Htz as [?|Htz]; [done|].
    eapply contains_any_no_byte; [|exact Htz]. done.
  - apply Forall_fmap, Forall_forall. intros key Hkey%sortedKeys_elem. unfold compose, env_line.
    apply no_byte_app; split; [by eapply key_no_nl, validateEnvironment_key|].
    apply (no_byte_app _ "="); split; [done|]. apply text_no_nl, quote_text.
  - apply Forall_singleton. unfold schedule_line. do 4 (apply no_byte_app; split; [done|]). done.
Qed.

(** When no schedule holds a line break, the generated crontab consists of
    the header and, for each enabled job in the order of the identifiers, its time
    zone line if it has one, its environment lines, and one schedule line. *)
Theorem crontab_lines jobs text :
  crontab_text h jobs = Ok text ->
  (forall job, job ∈ jobs -> Enabled job = true -> no_byte nl (Expression job)) ->
  split nl text =
    ("# Managed by OpenDeploy. Manual changes will be overwritten."
     :: concat (job_lines <$> List.filter Enabled (sort_jobs jobs)) ++ [""])%list.
Proof.
  intros (body & Hb & [= <-])%bind_result_ok Hexpr.
  rewrite (jobs_text_lines _ _ Hb).
  assert (Hh : no_byte nl "# Managed by OpenDeploy. Manual changes will be overwritten.") by done.
  etrans; [exact (split_app_sep nl _ _ Hh)|]. f_equal. apply split_unlines.
  apply Forall_concat, Forall_fmap, Forall_forall. intros job Hin.
  apply list_elem_of_In, filter_In in Hin as [Hin%list_elem_of_In He].
  assert (Hj : job ∈ jobs) by (by rewrite <- (isort_perm by_id jobs)).
  assert (Hv : exists v, ValidateJob h job = Ok v).
  { clear -Hb Hin He. revert body Hb. induction (sort_jobs jobs) as [|j l IH]; [by inversion Hin|].
    intros body (a & Ha & (b & Hbb & _)%bind_result_ok)%bind_result_ok.
    apply elem_of_cons in Hin as [<-|Hin]; [|by eapply IH].
    unfold job_text in Ha. rewrite He in Ha. destruct (ValidateJob h job); [by eexists|done]. }
  destruct Hv as [v Hv]. by eapply job_lines_whole; [|apply Hexpr].
Qed.
End crontab.

(** ** Schedules *)

Section schedules.

(** The standard forms of an element of a field: every value, one value, or a
    range, possibly with a step. *)
Inductive span := Every | One (n : Z) | Between (a b : Z).
Definition element : Type := span * option Z.

Definition print_span (s : span) : string :=
  match s with Every => "*" | One n => itoa n | Between a b => itoa a ++ "-" ++ itoa b end.
Definition print_element (e : element) : string :=
  match snd e with None => print_span (fst e) | Some n => print_span (fst e) ++ "/" ++ itoa n end.
Definition print_field (l : list element) : string := join "," (print_element <$> l).

Definition span_within (lo hi : Z) (s : span) : Prop :=
  match s with
  | Every => True
  | One n => (lo <= n <= hi)%Z
  | Between a b => (lo <= a <= hi)%Z /\ (lo <= b <= hi)%Z
  end.

(** A step up to 59. *)
Definition element_within (lo hi : Z) (e : element) : Prop :=
  span_within lo hi (fst e) /\ match snd e with None => True | Some n => (0 <= n <= 59)%Z end.

Definition field_within (r : Z * Z) (l : list element) : Prop :=
  l <> [] /\ Forall (element_within (fst r) (snd r)) l.

Lemma small_numbers n :
  (0 <= n <= 59)%Z ->
  str_forall is_digit (itoa n) = true /\ itoa n <> "" /\ sscanf_d (itoa n) = Some n.
Proof.
  intros Hn.
  assert (Hall : forallb (fun k => str_forall is_digit (itoa (Z.of_nat k))
    && negb (String.eqb (itoa (Z.of_nat k)) "")
    && match sscanf_d (itoa (Z.of_nat k)) with Some z => (z =? Z.of_nat k)%Z | None => false end) (seq 0 60) = true)
    by by vm_compute.
  rewrite forallb_forall in Hall. specialize (Hall (Z.to_nat n)). rewrite Z2Nat.id in Hall by lia.
  destruct (sscanf_d (itoa n)) as [z|]; rewrite ?andb_false_r in Hall.
  - assert (Hin : In (Z.to_nat n) (seq 0 60)) by (apply in_seq; lia). specialize (Hall Hin). propify.
    split_and!; [done|by apply String.eqb_neq|]. f_equal. by apply Z.eqb_eq.
  - exfalso. enough (false = true) by done. apply Hall, in_seq. lia.
Qed.

(** Characters of a printed element. *)
Definition is_element_byte (c : ascii) : bool := is_digit c || contains_byte "*/-" c.

Lemma digits_element s : str_forall is_digit s = true -> str_forall is_element_byte s = true.
Proof. apply str_forall_mono. unfold is_element_byte. intros c ->. done. Qed.

Lemma digits_no_byte b s : is_digit b = false -> str_forall is_digit s = true -> no_byte b s.
Proof.
  intros Hb. apply str_forall_mono. intros c Hc. apply negb_true_iff, Ascii.eqb_neq. congruence.
Qed.

Section range.
Variables (lo hi : Z).
Hypothesis Hrange : (0 <= lo /\ hi <= 59)%Z.

Lemma print_span_bytes s :
  span_within lo hi s ->
  str_forall is_element_byte (print_span s) = true /\ print_span s <> "" /\ no_byte "/" (print_span s).
Proof.
  destruct s as [|n|a b]; cbn [print_span span_within]; intros Hw; [done| |].
  - destruct (small_numbers n) as (Hd & Hne & _); [lia|].
    split_and!; [by apply digits_element|done|by apply digits_no_byte].
  - destruct (small_numbers a) as (Hda & Hne & _); [lia|]. destruct (small_numbers b) as (Hdb & _ & _); [lia|].
    split_and!.
    + rewrite !str_forall_app, (digits_element (itoa a)), (digits_element (itoa b)) by done. done.
    + by destruct (itoa a).
    + apply no_byte_app; split; [by apply digits_no_byte|].
      apply (no_byte_app _ "-"); split; [done|by apply digits_no_byte].
Qed.

Lemma print_element_bytes e :
  element_within lo hi e ->
  str_forall is_element_byte (print_element e) = true /\ print_element e <> "".
Proof.
  destruct e as [s [n|]]; intros [Hs Hn]; simpl in *;
    destruct (print_span_bytes s Hs) as (Hb & Hne & _); unfold print_element; simpl; [|done].
  destruct (small_numbers n) as (Hd & _ & _); [lia|].
  rewrite str_forall_app, Hb. cbn [str_forall]. rewrite digits_element by done. split; [done|]. by destruct (print_span s).
Qed.

Definition value_ok (index : nat) (value : string) : result cron_error () :=
  match sscanf_d value with
  | None => Err (OutsideRange index value)
  | Some parsed => if (parsed <? lo)%Z || (hi <? parsed)%Z then Err (OutsideRange index value) else Ok ()
  end.

Lemma number_ok index n : (lo <= n <= hi)%Z -> value_ok index (itoa n) = Ok ().
Proof.
  intros Hn. unfold value_ok. destruct (small_numbers n) as (_ & _ & ->); [lia|].
  by assert (((n <? lo) || (hi <? n))%Z = false) as -> by lia.
Qed.

Lemma element_base e : element_within lo hi e -> fst (cut "/" (print_element e)) = print_span (fst e).
Proof.
  destruct e as [s [n|]]; intros [Hs Hn]; simpl in *; destruct (print_span_bytes s Hs) as (_ & _ & Hsl);
    unfold print_element; simpl; [by rewrite cut_app_sep|by rewrite cut_id].
Qed.

Lemma span_values index s :
  span_within lo hi s -> s <> Every -> for_each (value_ok index) (split "-" (print_span s)) = Ok ().
Proof.
  destruct s as [|n|a b]; cbn [print_span span_within]; intros Hw Hne; [done| |].
  - destruct (small_numbers n) as (Hd & _ & _); [lia|]. rewrite split_id by by apply digits_no_byte.
    cbn [for_each]. by rewrite number_ok.
  - destruct (small_numbers a) as (Hda & _ & _); [lia|]. destruct (small_numbers b) as (Hdb & _ & _); [lia|].
    change ("-" ++ itoa b) with (String "-" (itoa b)).
    rewrite split_app_sep, split_id by by apply digits_no_byte.
    cbn [for_each]. by rewrite !number_ok by tauto.
Qed.

Lemma field_accepted index l :
  l <> [] -> Forall (element_within lo hi) l -> validateCronField index (print_field l) lo hi = Ok ().
Proof.
  intros Hne Hl. unfold validateCronField, print_field. rewrite split_join.
  - apply for_each_ok, Forall_fmap. eapply Forall_impl; [exact Hl|]. intros e He. unfold compose.
    rewrite element_base by done. destruct (String.eqb (print_span (fst e)) "*") eqn:Hstar; [done|].
    change (for_each _ (split "-" _)) with (for_each (value_ok index) (split "-" (print_span (fst e)))).
    rewrite span_values; [by destruct (_ || _)|by apply He|]. intros Hev. by rewrite Hev in Hstar.
  - by destruct l.
  - apply Forall_fmap. eapply Forall_impl; [exact Hl|]. intros e He. unfold compose.
    destruct (print_element_bytes e He) as [Hb _]. revert Hb. apply str_forall_mono. intros c Hc.
    apply negb_true_iff, Ascii.eqb_neq. intros <-. discriminate.
Qed.
End range.

Lemma element_byte_word c : is_element_byte c = true -> is_word_byte c = true.
Proof.
  unfold is_element_byte, is_word_byte. intros [Hd|Hc]%orb_true_iff.
  - unfold is_digit, byte_in, in_range in *. change (byte_val "0") with 48%Z in *.
    change (byte_val "9") with 57%Z in *. lia.
  - apply contains_byte_iff in Hc. simpl in Hc. destruct Hc as [<-|[<-|[<-|[]]]]; done.
Qed.

Definition is_field_byte (c : ascii) : bool := is_element_byte c || Ascii.eqb c ",".

Lemma field_bytes lo hi l :
  (0 <= lo /\ hi <= 59)%Z -> l <> [] -> Forall (element_within lo hi) l ->
  str_forall is_field_byte (print_field l) = true /\ print_field l <> "".
Proof.
  intros Hr Hne Hl. unfold print_field. induction Hl as [|e l He Hl IH]; [done|].
  destruct (print_element_bytes lo hi Hr e He) as [Hb Hn].
  assert (Hf : str_forall is_field_byte (print_element e) = true).
  { revert Hb. apply str_forall_mono. unfold is_field_byte. by intros c ->. }
  destruct l as [|e' l]; [done|]. rewrite !fmap_cons. cbn [join]. split; [|by destruct (print_element e)].
  rewrite str_forall_app, Hf. cbn [str_forall String.append]. by apply IH.
Qed.

Lemma field_token s :
  s <> "" -> str_forall is_field_byte s = true -> match_string cronTokenPattern s = true.
Proof.
  intros Hne Hs. apply match_plus_ascii.
  - intros r Hr. unfold r_digit, in_range in Hr. change (one_of "*/?,LW#-" r) with
      ((42 =? r) || ((47 =? r) || ((63 =? r) || ((44 =? r) || ((76 =? r) || ((87 =? r) ||
       ((35 =? r) || ((45 =? r) || false))))))))%Z in Hr. lia.
  - split; [done|]. revert Hs. apply str_forall_mono. intros c Hc. rewrite one_of_byte.
    unfold is_field_byte, is_element_byte in Hc. change (r_digit (byte_val c)) with (is_digit c).
    destruct (is_digit c); [done|]. simpl in Hc. apply orb_true_iff in Hc as [Hc|Hc];
      [|by apply Ascii.eqb_eq in Hc as ->].
    apply contains_byte_iff in Hc. simpl in Hc. destruct Hc as [<-|[<-|[<-|[]]]]; done.
Qed.

Lemma ranges_small r : In r cron_ranges -> (0 <= fst r /\ snd r <= 59)%Z.
Proof. simpl. intros [<-|[<-|[<-|[<-|[<-|[]]]]]]; simpl; lia. Qed.

(** Every standard schedule is accepted: five fields, each a list of "*",
    numbers and ranges within the bounds of its field, with or without steps. *)
Theorem standard_schedules_accepted fs :
  Forall2 field_within cron_ranges fs -> ValidateExpression (join " " (print_field <$> fs)) = Ok ().
Proof.
  intros Hfs. unfold ValidateExpression.
  assert (Hok : forall r f, In r cron_ranges -> field_within r f ->
    print_field f <> "" /\ str_forall is_field_byte (print_field f) = true).
  { intros r f Hr [Hne Hf]. apply and_comm. eapply field_bytes; [by apply ranges_small|done..]. }
  assert (Hall : Forall (fun w => w <> "" /\ str_forall is_field_byte w = true) (print_field <$> fs)).
  { apply Forall_fmap. unfold compose. revert Hok.
    induction Hfs as [|r f rs fs Hf _ IH]; intros Hok; constructor; [by eapply Hok; [left|]|].
    apply IH. intros r' f' Hin. apply Hok. by right. }
  assert (Hfields : fields (join " " (print_field <$> fs)) = print_field <$> fs).
  { apply fields_join. eapply Forall_impl; [exact Hall|]. intros w [Hw Hb]. split; [done|].
    revert Hb. apply str_forall_mono. intros c Hc. apply orb_true_iff in Hc as [Hc|Hc].
    - by apply element_byte_word.
    - apply Ascii.eqb_eq in Hc as ->. done. }
  rewrite Hfields, length_fmap, <- (Forall2_length _ _ _ Hfs). cbn [length cron_ranges Nat.eqb negb].
  apply bind_result_ok. exists (). split; apply for_each_ok, Forall_lookup; intros i x;
    rewrite list_lookup_imap, fmap_Some; intros (y & Hy & ->); simpl.
  - rewrite field_token; [done|by eapply Forall_lookup_1 in Hall as [? ?]..].
  - destruct y as [f [lo hi]]. apply lookup_zip_Some in Hy as [Hf Hr].
    rewrite list_lookup_fmap, fmap_Some in Hf. destruct Hf as (l & Hl & ->).
    destruct (Forall2_lookup_lr _ _ _ _ _ _ Hfs Hr Hl) as [Hne Hw].
    apply field_accepted; [|done..]. apply (ranges_small (lo, hi)). by eapply list_elem_of_In, list_elem_of_lookup_2.
Qed.
End schedules.

(** ** Concrete runs *)

(** A host with one service user and no other crontabs. *)
Definition sample_host : host := {|
  user_exists := String.eqb "www-data"; is_dir := fun _ => false; stat_ok := fun _ => true;
  read_dir := fun _ => []; read_file := fun _ => None; dpkg_query := fun _ => None; sha8 := fun _ => "" |}.

Definition sample_job (expression command : string) : Job := {|
  ID := "backup"; Name := "Backup"; Description := ""; Command := command; WorkingDir := "";
  User := "www-data"; Environment := empty; Expression := expression; Timezone := "";
  Enabled := true; CreatedAt := 0; UpdatedAt := 0; Source := "OpenDeploy"; ReadOnly := false;
  Type_ := "USER"; PackageName := ""; IsProtected := false; CanEdit := true; CanDelete := true;
  LockReason := "" |}.

Definition sample_disk (jobs : list Job) : cron_disk := {|
  files := {[statePath NewManager := Json {| Jobs := jobs; History_ := [] |}]};
  temps := empty; faults := fun _ => false; ticks := 0; clock := fun _ => 1%Z;
  command := fun _ => {| p_exit := Some 0%Z; p_stdout := []; p_stderr := []; p_err := None |} |}.

#[local] Existing Instance unicode_ascii.

(** A schedule may hold line breaks, since its fields are split at any white
    space: the job is accepted and the crontab gets a line that is only the first
    field. *)
Theorem schedule_line_break :
  let job := sample_job ("5" ++ String nl "* * * *") "true" in
  is_ok (ValidateJob sample_host job) = true /\
  exists text, crontab_text sample_host [job] = Ok text /\ "5" ∈ split nl text.
Proof.
  cbv zeta. split; [by vm_compute|]. eexists. split; [by vm_compute|]. vm_compute. set_solver.
Qed.

(** [SetEnabled] reads and writes the job in two critical sections: an update
    that completes in between is silently undone. *)
Theorem set_enabled_loses_update :
  let m := NewManager in
  let h := sample_host in
  let old := sample_job "0 1 * * *" "old" in
  let d0 := sample_disk [old] in
  let '(got, d1) := on_disk (Get m h "backup") d0 in
  let '(updated, d2) := on_disk (Update m h (sample_job "0 2 * * *" "new")) d1 in
  let '(final, d3) := on_disk (Update m h (set_enabled false old)) d2 in
  got = Ok old /\ is_ok updated = true /\ is_ok final = true /\
  option_map (fun s => Command <$> Jobs s) (stored m d2) = Some ["new"] /\
  option_map (fun s => Command <$> Jobs s) (stored m d3) = Some ["old"].
Proof. vm_compute. done. Qed.

Definition one_job : cron_disk := sample_disk [sample_job "0 1 * * *" "true"].


Lemma job_table_invariant_witness :
  exists s', stored NewManager (perform_all NewManager sample_host [OpDelete "backup"] one_job) = Some s' /\ table_ok NewManager s' /\
    forall job, job ∈ [sample_job "0 1 * * *" "true"] -> is_locked job = true -> job ∈ Jobs s'.
Proof.
  apply (job_table_invariant NewManager sample_host ltac:(discriminate) [OpDelete "backup"] one_job
    {| Jobs := [sample_job "0 1 * * *" "true"]; History_ := [] |});
    [by vm_compute|by vm_compute|split; [apply NoDup_singleton|by vm_compute]].
Defined.

Lemma crontab_lines_witness :
  let job := sample_job "0 1 * * *" "true" in
  split nl (header ++ unlines [schedule_line job]) =
    ["# Managed by OpenDeploy. Manual changes will be overwritten."; schedule_line job; ""].
Proof.
  apply (crontab_lines sample_host [sample_job "0 1 * * *" "true"]); [by vm_compute|].
  intros job ->%list_elem_of_singleton _. by vm_compute.
Defined.

Lemma standard_schedules_accepted_witness : ValidateExpression "*/15 1,3 1-7 * *" = Ok ().
Proof.
  apply (standard_schedules_accepted
    [[(Every, Some 15%Z)]; [(One 1, None); (One 3, None)]; [(Between 1 7, None)]; [(Every, None)]; [(Every, None)]]).
  repeat constructor; done.
Defined.
