(* ===== verification/SiteDomain.v ===== *)
(** * Sites: data and validation

    src/internal/core/site/domain.go and validation.go: the site aggregate and
    the checks on domains, document roots, certificate paths, versions and proxies
    that stand between a request and a generated web server configuration.

    A Go function that cleans an argument through its pointer returns the cleaned
    value here. *)

From S2P Require Import Prelude GoStrings GoPath GoRegexp GoTime AppErrors.
Local Open Scope string_scope.
Local Open Scope go_scope.

(** ** Data *)

(** source: internal/core/site/domain.go:12-19 (State) *)
Inductive State := StateActive | StateDisabled | StateError.

#[export] Instance State_eq_dec : EqDecision State.
Proof. solve_decision. Defined.

(** source: internal/core/site/domain.go:39-45 (DomainType) *)
Inductive DomainType := DomainPrimary | DomainAlias | DomainRedirect.

Definition is_primary (t : DomainType) : bool := match t with DomainPrimary => true | _ => false end.

(** source: internal/core/site/domain.go:47-53 (Domain) *)
Record Domain := { d_ID : string; d_SiteID : string; d_Domain : string; d_Type : DomainType }.

(** source: internal/core/site/domain.go:55-61 (App) *)
Record App := {
  a_SiteID : string; AppType : string; AppVersion : option string; ProxyTarget : option string;
  CustomConfig : option string;
}.

(** source: internal/core/site/domain.go:63-72 (SSL) *)
Record SSL := {
  ssl_ID : string; ssl_SiteID : string; Provider : string; CertPath : option string;
  KeyPath : option string; ForceHTTPS : bool; AutoRenew : bool; ssl_ExpiresAt : option time;
}.

(** source: internal/core/site/domain.go:21-37 (Site): [SSL_] is a pointer, here the
    address of a cell; see [Site.v] *)
Record Site := {
  ID : string; Name : string; ModuleID : string; RootPath : string; State_ : State;
  OwnerID : option string; Domains : list Domain; App_ : App; SSL_ : option nat;
  ProxyEnabled : bool; ProxyHost : string; ProxyPort : Z;
}.

(** source: internal/core/site/domain.go:74-90 (CreateRequest) *)
Record CreateRequest := {
  c_Name : string; c_Domain : string; c_ModuleID : string; c_RootPath : string; c_AppType : string;
  c_AppVersion : option string; c_ProxyTarget : option string; c_SSLEnabled : bool;
  c_SSLProvider : option string; c_SSLCert : option string; c_SSLKey : option string;
  c_ProxyEnabled : bool; c_ProxyHost : option string; c_ProxyPort : option Z;
}.

(** source: internal/core/site/domain.go:92-108 (UpdateRequest) *)
Record UpdateRequest := {
  u_Name : option string; u_ModuleID : option string; u_RootPath : option string;
  u_AppType : option string; u_AppVersion : option string; u_ProxyTarget : option string;
  u_SSLEnabled : option bool; u_SSLProvider : option string; u_SSLCert : option string;
  u_SSLKey : option string; u_ForceHTTPS : option bool; u_ProxyEnabled : option bool;
  u_ProxyHost : option string; u_ProxyPort : option Z;
}.

(** ** Validation *)

Definition hyphen : ascii := "-".

Fixpoint last_byte (s : string) : option ascii :=
  match s with
  | EmptyString => None
  | String c EmptyString => Some c
  | String _ s' => last_byte s'
  end.
Definition first_byte (s : string) : option ascii :=
  match s with EmptyString => None | String c _ => Some c end.

(** source: internal/core/site/validation.go:22-35 (validateDomain, one label) *)
Definition validate_label (label : string) : result error () :=
  if String.eqb label "" || (63 <? len label)%Z then
    Err (InvalidInput "domain contains an invalid DNS label")
  else if bool_decide (first_byte label = Some hyphen) || bool_decide (last_byte label = Some hyphen) then
    Err (InvalidInput "domain labels cannot start or end with a hyphen")
  else if negb (forallb (fun r => r_lower r || r_upper r || r_digit r || (r =? byte_val hyphen)%Z) (runes label))
  then Err (InvalidInput "domain contains invalid character")
  else Ok ().

(** source: internal/core/site/validation.go:11-37 (validateDomain) *)
Definition validateDomain (domain : string) : result error () :=
  let domain := trim_space domain in
  if String.eqb domain "" then Err (InvalidInput "domain is required")
  else if (253 <? len domain)%Z then Err (InvalidInput "domain must be at most 253 characters")
  else
    let domain := if has_suffix domain "." then trim_suffix domain "." else domain in
    for_each validate_label (split "." domain).

(** source: internal/core/site/validation.go:109-121 (isSafeLinuxPath) *)
Definition isSafeLinuxPath (value : string) : bool :=
  rooted value &&
  forallb (fun r => r_lower r || r_upper r || r_digit r || one_of "/._-" r) (runes value).

Definition backslash : ascii := ascii_of_nat 92.

Definition web_roots : list string := ["/var/www/"; "/srv/"].

(** source: internal/core/site/validation.go:39-57 (normalizeRootPath) *)
Definition normalizeRootPath (root : string) : result error string :=
  let root := trim_space root in
  if String.eqb root "" then Err (InvalidInput "root_path is required")
  else if contains_byte root backslash || negb (has_prefix root "/") then
    Err (InvalidInput "root_path must be an absolute Linux path")
  else
    let c := clean root in
    if negb (isSafeLinuxPath c) then Err (InvalidInput "root_path contains unsupported characters")
    else if existsb (fun prefix =>
              negb (String.eqb c (trim_suffix prefix "/")) && has_prefix (c ++ "/") prefix) web_roots
    then Ok c
    else Err (InvalidInput "root_path must be located below /var/www or /srv").

(** source: internal/core/site/validation.go:123-133 (allDigits) *)
Definition allDigits (value : string) : bool :=
  negb (String.eqb value "") && forallb r_digit (runes value).

(** source: internal/core/site/validation.go:59-70 (validatePHPVersion) *)
Definition validatePHPVersion (version : option string) : result error (option string) :=
  match version with
  | None => Ok None
  | Some v =>
      let value := trim_space v in
      match split "." value with
      | [a; b] => if allDigits a && allDigits b then Ok (Some value)
                  else Err (InvalidInput "php_version must use major.minor format")
      | _ => Err (InvalidInput "php_version must use major.minor format")
      end
  end.

Definition certificate_roots : list string := ["/etc/letsencrypt/"; "/var/lib/opendeploy/"].

(** source: internal/core/site/validation.go:93-107 (normalizeCertificatePath) *)
Definition normalizeCertificatePath (value : string) : result error string :=
  if contains_byte value backslash || negb (has_prefix value "/") then
    Err (Plain "not an absolute Linux path")
  else
    let c := clean (trim_space value) in
    if negb (isSafeLinuxPath c) then Err (Plain "path contains unsupported characters")
    else if existsb (has_prefix c) certificate_roots then Ok c
    else Err (Plain "path is outside managed certificate roots").

Definition bad_certificate (name : string) : error :=
  InvalidInput (name ++ " must be an absolute path below /etc/letsencrypt or /var/lib/opendeploy").

(** source: internal/core/site/validation.go:72-91 (validateSSL): Go visits the two
    paths in either order, which shows only when both are bad *)
Definition validateSSL (enabled : bool) (cert key : option string) :
    result error (option string * option string) :=
  if negb enabled then Ok (cert, key)
  else match cert, key with
  | Some c, Some k =>
      if String.eqb (trim_space c) "" || String.eqb (trim_space k) "" then
        Err (InvalidInput "ssl_cert and ssl_key are required when SSL is enabled")
      else
        let? c := map_err (fun _ => bad_certificate "ssl_cert") (normalizeCertificatePath c) in
        let? k := map_err (fun _ => bad_certificate "ssl_key") (normalizeCertificatePath k) in
        Ok (Some c, Some k)
  | _, _ => Err (InvalidInput "ssl_cert and ssl_key are required when SSL is enabled")
  end.

(** source: internal/core/site/validation.go:135-150 (validateProxy): the host, trimmed *)
Definition validateProxy (enabled : bool) (host : option string) (port : option Z) :
    result error (option string) :=
  if negb enabled then Ok host
  else if match port with None => true | Some p => (p <? 1)%Z || (65535 <? p)%Z end then
    Err (InvalidInput "proxy_port must be between 1 and 65535")
  else match host with
  | None => Ok None
  | Some h =>
      let h := trim_space h in
      if String.eqb h "" then Err (InvalidInput "proxy_host cannot be empty when provided")
      else Ok (Some h)
  end.

(** ** What accepted values look like *)

Lemma rooted_of_clean p : rooted (clean p) = true -> rooted p = true.
Proof. destruct (rooted p) eqn:Hr; [done|]. by rewrite clean_unrooted. Qed.

(** A cleaned path that extends [abs l] textually is below it. *)
Lemma clean_prefix_below l p :
  Forall good_comp l -> l <> [] -> rooted p = true -> has_prefix (clean p) (abs l ++ "/") = true ->
  below (abs l) (clean p).
Proof.
  intros Hl Hne Hr Hp. rewrite clean_rooted in Hp |- * by done. pose proof (clean_comps_good _ Hr) as Hg.
  apply has_prefix_abs in Hp as (k & Hk & Hc); [|done..]. eapply below_abs; [apply abs_rooted| |exact Hk|].
  - rewrite Hc in Hg. by apply Forall_app in Hg as [_ ?].
  - by rewrite Hc, clean_comps_abs.
Qed.

(** The same with a slash appended, when the path is not [abs l] itself. *)
Lemma clean_slash_prefix_below l p :
  Forall good_comp l -> l <> [] -> rooted p = true -> clean p <> abs l ->
  has_prefix (clean p ++ "/") (abs l ++ "/") = true -> below (abs l) (clean p).
Proof.
  intros Hl Hne Hr Hneq Hp. pose proof (clean_comps_good _ Hr) as Hg. rewrite clean_rooted in * by done.
  destruct (decide (clean_comps p = [])) as [He|Hne'].
  { rewrite He in Hp. apply has_prefix_iff in Hp as [t Ht]. destruct l as [|x l]; [done|].
    inversion Hl as [|?? (Hx & _ & _ & Hs) _]; subst. destruct x as [|c x]; [done|]. unfold abs in Ht.
    assert (Hcs : c = slash) by (unfold slash; destruct l; simpl in Ht; congruence).
    subst c. unfold no_byte in Hs. simpl in Hs. discriminate. }
  apply has_prefix_iff in Hp as [t Ht].
  apply (f_equal (split slash)) in Ht. rewrite split_abs_slash in Ht by done.
  rewrite <- (str_app_nil_r (_ ++ "/")), split_abs_slash in Ht by done. injection Ht as Ht.
  change (split slash "") with [""] in Ht. pose proof (split_nonnil slash t) as Hsn.
  destruct (exists_last Hsn) as (k & x & Hk). rewrite Hk, app_assoc in Ht.
  apply app_inj_tail in Ht as [Hc _]. eapply below_abs; [apply abs_rooted| | |by rewrite clean_comps_abs, Hc].
  - rewrite Hc in Hg. by apply Forall_app in Hg as [_ ?].
  - intros ->. apply Hneq. by rewrite Hc, app_nil_r.
Qed.

Lemma good_comps (l : list string) :
  forallb (fun c => negb (String.eqb c "") && negb (String.eqb c ".") && negb (String.eqb c "..")
    && str_forall (fun b => negb (Ascii.eqb slash b)) c) l = true -> Forall good_comp l.
Proof.
  rewrite forallb_forall. intros Hl. apply Forall_forall. intros c Hc%list_elem_of_In%Hl. propify.
  by split_and!; try apply String.eqb_neq.
Qed.

Definition path_byte (c : ascii) : bool := is_alnum c || contains_byte "/._-" c.

Lemma safe_path_bytes p : isSafeLinuxPath p = true -> str_forall path_byte p = true.
Proof.
  unfold isSafeLinuxPath. intros [_ Hb]%andb_true_iff.
  set (q := fun z => r_lower z || r_upper z || r_digit z || one_of "/._-" z) in Hb.
  assert (Hq : str_forall (fun c => q (byte_val c)) p = true).
  { apply runes_forall_ascii.
    - intros r Hr. unfold q, r_lower, r_upper, r_digit, in_range in Hr. change (one_of "/._-" r) with
        ((47 =? r) || ((46 =? r) || ((95 =? r) || ((45 =? r) || false))))%Z in Hr. lia.
    - apply Forall_forall. intros r Hr%list_elem_of_In. rewrite forallb_forall in Hb. by apply Hb. }
  revert Hq. apply str_forall_mono. intros c. unfold q, path_byte. rewrite one_of_byte, <- r_alnum_byte.
  unfold r_alnum, r_alpha. destruct (r_lower _), (r_upper _), (r_digit _); done.
Qed.

(** What a document root is after normalisation. *)
Lemma normalizeRootPath_below root c :
  normalizeRootPath root = Ok c ->
  (below "/var/www" c \/ below "/srv" c) /\ str_forall path_byte c = true.
Proof.
  unfold normalizeRootPath. destruct (String.eqb _ ""); [done|]. destruct (_ || _); [done|].
  destruct (isSafeLinuxPath _) eqn:Hsafe; cbn [negb]; [|done]. destruct (existsb _ _) eqn:Hex; [|done].
  intros [= <-]. split; [|by apply safe_path_bytes].
  apply andb_true_iff in Hsafe as [Hrc%rooted_of_clean _].
  apply existsb_exists in Hex as (prefix & [<-|[<-|[]]] & Hp); apply andb_true_iff in Hp as [Hn Hp];
    apply negb_true_iff, String.eqb_neq in Hn.
  - left. apply (clean_slash_prefix_below ["var"; "www"]); [by apply good_comps|done..].
  - right. apply (clean_slash_prefix_below ["srv"]); [by apply good_comps|done..].
Qed.

Lemma normalizeCertificatePath_below value c :
  normalizeCertificatePath value = Ok c ->
  (below "/etc/letsencrypt" c \/ below "/var/lib/opendeploy" c) /\ str_forall path_byte c = true.
Proof.
  unfold normalizeCertificatePath. destruct (_ || _); [done|].
  destruct (isSafeLinuxPath _) eqn:Hsafe; cbn [negb]; [|done]. destruct (existsb _ _) eqn:Hex; [|done].
  intros [= <-]. split; [|by apply safe_path_bytes].
  apply andb_true_iff in Hsafe as [Hrc%rooted_of_clean _].
  apply existsb_exists in Hex as (prefix & [<-|[<-|[]]] & Hp).
  - left. apply (clean_prefix_below ["etc"; "letsencrypt"]); [by apply good_comps|done..].
  - right. apply (clean_prefix_below ["var"; "lib"; "opendeploy"]); [by apply good_comps|done..].
Qed.

(** The paths a site configuration is generated from are confined and
    harmless: a normalised document root lies strictly below /var/www or /srv, a
    normalised certificate path strictly below /etc/letsencrypt or
    /var/lib/opendeploy, and neither holds anything but letters, digits, '/', '.',
    '_' and '-'. *)
Theorem site_paths_confined value c :
  (normalizeRootPath value = Ok c ->
     (below "/var/www" c \/ below "/srv" c) /\ str_forall path_byte c = true) /\
  (normalizeCertificatePath value = Ok c ->
     (below "/etc/letsencrypt" c \/ below "/var/lib/opendeploy" c) /\ str_forall path_byte c = true).
Proof. split; [apply normalizeRootPath_below|apply normalizeCertificatePath_below]. Qed.

(** *** Domains *)

Definition label_byte (c : ascii) : bool := is_alnum c || Ascii.eqb c hyphen.
Definition domain_byte (c : ascii) : bool := label_byte c || Ascii.eqb c ".".

(** A DNS label. *)
Definition dns_label (l : string) : Prop :=
  (1 <= len l <= 63)%Z /\ str_forall label_byte l = true /\
  first_byte l <> Some hyphen /\ last_byte l <> Some hyphen.

Lemma len_pos s : s <> "" -> (1 <= len s)%Z.
Proof. destruct s as [|c s]; [done|]. intros _. rewrite len_String. pose proof (len_nonneg s). lia. Qed.

Lemma validate_label_ok l : validate_label l = Ok () <-> dns_label l.
Proof.
  unfold validate_label, dns_label.
  set (q := fun z => r_lower z || r_upper z || r_digit z || (z =? byte_val hyphen)%Z).
  assert (Hq : forallb q (runes l) = true <-> str_forall label_byte l = true).
  { rewrite <- (str_forall_ext (fun c => q (byte_val c)) label_byte).
    - rewrite <- runes_forall_ascii, Forall_forall, forallb_forall.
      + split; intros Hall r Hr%list_elem_of_In; by apply Hall.
      + intros r Hr. unfold q, r_lower, r_upper, r_digit, in_range in Hr.
        change (byte_val hyphen) with 45%Z in Hr. lia.
    - intros c. unfold q, label_byte. rewrite <- r_alnum_byte. unfold r_alnum, r_alpha.
      destruct (Ascii.eqb_spec c hyphen) as [->|Hne].
      + by rewrite Z.eqb_refl, !orb_true_r.
      + assert ((byte_val c =? byte_val hyphen)%Z = false) as ->.
        { apply Z.eqb_neq. intros ?%byte_val_inj. done. }
        by destruct (r_lower _), (r_upper _), (r_digit _). }
  destruct (String.eqb_spec l "") as [->|Hne]; cbn [orb].
  { split; [done|]. intros [Hl _]. change (len "") with 0%Z in Hl. lia. }
  pose proof (len_pos l Hne). destruct (Z.ltb_spec 63 (len l)); [split; [done|intros [? _]; lia]|].
  destruct (bool_decide_reflect (first_byte l = Some hyphen)), (bool_decide_reflect (last_byte l = Some hyphen));
    cbn [orb]; try (split; [done|naive_solver]).
  destruct (forallb q (runes l)) eqn:Hf; cbn [negb]; [|split; [done|]; rewrite <- Hq; naive_solver].
  split; [|done]. intros _. split_and!; [lia..|by apply Hq|done|done].
Qed.

Lemma trim_suffix_dot s : has_suffix s "." = true -> s = trim_suffix s "." ++ ".".
Proof.
  intros Hs. unfold trim_suffix. rewrite Hs. apply has_suffix_iff in Hs as [t ->]. f_equal.
  rewrite str_length_app, take_bytes_app. replace (_ - _ - _) with 0 by (simpl; lia). simpl.
  rewrite str_app_nil_r. symmetry. apply take_bytes_all. simpl. lia.
Qed.

Lemma join_dot_bytes l :
  Forall (fun x => str_forall label_byte x = true) l -> str_forall domain_byte (join "." l) = true.
Proof.
  assert (Hl : forall x, str_forall label_byte x = true -> str_forall domain_byte x = true).
  { intros x. apply str_forall_mono. unfold domain_byte. by intros c ->. }
  induction 1 as [|x l Hx Hf IH]; [done|]. destruct l as [|y l]; [by apply Hl|].
  cbn [join]. rewrite str_forall_app, Hl by done. cbn [str_forall String.append]. done.
Qed.

Lemma validateDomain_iff domain :
  let d := trim_space domain in
  let n := if has_suffix d "." then trim_suffix d "." else d in
  validateDomain domain = Ok () <-> d <> "" /\ (len d <= 253)%Z /\ Forall dns_label (split "." n).
Proof.
  cbv zeta. set (d := trim_space domain). set (n := if has_suffix d "." then _ else _).
  unfold validateDomain. fold d. fold n. destruct (String.eqb_spec d ""); [split; [done|naive_solver]|].
  destruct (Z.ltb_spec 253 (len d)); [split; [done|lia]|]. rewrite for_each_ok.
  split; [intros Hf|intros (_ & _ & Hf)]; [split_and!; [done|lia|]|];
    (eapply Forall_impl; [exact Hf|]; intros l; apply validate_label_ok).
Qed.

Lemma validateDomain_bytes domain :
  validateDomain domain = Ok () -> str_forall domain_byte (trim_space domain) = true.
Proof.
  intros (_ & _ & Hf)%validateDomain_iff. set (d := trim_space domain) in *.
  set (n := if has_suffix d "." then _ else _) in Hf.
  assert (Hn : str_forall domain_byte n = true).
  { rewrite <- (join_split "." n). apply join_dot_bytes. eapply Forall_impl; [exact Hf|]. by intros l (_ & ? & _). }
  unfold n in Hn. destruct (has_suffix d ".") eqn:Hs; [|done].
  rewrite (trim_suffix_dot d Hs), str_forall_app, Hn. done.
Qed.

(** An accepted domain is a host name: after trimming, at most 253 bytes,
    letters, digits, '-' and '.' only, and every label a DNS label, a trailing dot
    apart; and every such name is accepted. *)
Theorem validateDomain_spec domain :
  let d := trim_space domain in
  let n := if has_suffix d "." then trim_suffix d "." else d in
  (validateDomain domain = Ok () <->
     d <> "" /\ (len d <= 253)%Z /\ Forall dns_label (split "." n)) /\
  (validateDomain domain = Ok () -> str_forall domain_byte d = true).
Proof. split; [apply validateDomain_iff|apply validateDomain_bytes]. Qed.
