(* ===== verification/SiteFiles.v ===== *)
(** * The file manager of a site

    src/internal/core/site/filesystem_service.go: paths relative to a site are
    resolved against its document root and handed to the Agent, whose own checks
    are those of [Filesystem.v] and [Archive.v].

    [find] is the site repository during one request. *)

From S2P Require Import Prelude GoStrings GoPath AppErrors Effects SiteDomain.
Local Open Scope string_scope.
Local Open Scope go_scope.

(** The calls of [contract.AgentClient] the service makes. *)
Inductive agent_call : Set -> Set :=
| DirList (path : string) : agent_call (result error (list string))
| FileRead (path : string) : agent_call (result error string)
| FileWrite (path content : string) (mode : Z) : agent_call (result error ())
| DirCreate (path : string) (mode : Z) : agent_call (result error ())
| FileDelete (path : string) : agent_call (result error ())
| FileRename (oldPath newPath : string) : agent_call (result error ())
| FileCopy (source destination : string) : agent_call (result error ())
| FileChmod (path : string) (mode : Z) : agent_call (result error ())
| FileChown (path : string) (uid gid : Z) : agent_call (result error ())
| ArchiveCreate (sources : list string) (destination : string) : agent_call (result error ())
| ArchiveExtract (source destination : string) : agent_call (result error ()).

Section files.
Context (find : string -> result error Site) (has_agent : bool).

Definition agent_unavailable : error := Plain "agent is unavailable".

(** source: internal/core/site/filesystem_service.go:22-27 (ensureAgent) *)
Definition ensureAgent : result error () := if has_agent then Ok () else Err agent_unavailable.

(** source: internal/core/site/filesystem_service.go:29-40 (resolvePath) *)
Definition resolvePath (siteID relativePath : string) : result error string :=
  let? current := find siteID in
  let cleanRelative := clean ("/" ++ relativePath) in
  let absolutePath := path_join (RootPath current) cleanRelative in
  if negb (String.eqb absolutePath (RootPath current))
     && negb (has_prefix absolutePath (RootPath current ++ "/"))
  then Err (InvalidInput "invalid file path")
  else Ok absolutePath.

(** Go on with a value, or return its error. *)
Definition with_ok {A B} (r : result error A) (k : A -> prog agent_call (result error B)) :
    prog agent_call (result error B) :=
  match r with Ok a => k a | Err e => Ret (Err e) end.

(** source: internal/core/site/filesystem_service.go:42-51 (List) *)
Definition List (siteID relativePath : string) : prog agent_call (result error (list string)) :=
  with_ok (resolvePath siteID relativePath) (fun p =>
  with_ok ensureAgent (fun _ => call (DirList p))).

(** source: internal/core/site/filesystem_service.go:53-62 (Read) *)
Definition Read (siteID relativePath : string) : prog agent_call (result error string) :=
  with_ok (resolvePath siteID relativePath) (fun p =>
  with_ok ensureAgent (fun _ => call (FileRead p))).

(** source: internal/core/site/filesystem_service.go:64-73 (Write) *)
Definition Write (siteID relativePath content : string) : prog agent_call (result error ()) :=
  with_ok (resolvePath siteID relativePath) (fun p =>
  with_ok ensureAgent (fun _ => call (FileWrite p content 420))).

(** source: internal/core/site/filesystem_service.go:75-84 (CreateDirectory) *)
Definition CreateDirectory (siteID relativePath : string) : prog agent_call (result error ()) :=
  with_ok (resolvePath siteID relativePath) (fun p =>
  with_ok ensureAgent (fun _ => call (DirCreate p 493))).

(** source: internal/core/site/filesystem_service.go:86-102 (Delete) *)
Definition Delete (siteID relativePath : string) : prog agent_call (result error ()) :=
  with_ok (resolvePath siteID relativePath) (fun p =>
  with_ok (find siteID) (fun current =>
  if String.eqb p (RootPath current) then Ret (Err (InvalidInput "cannot delete site root directory"))
  else with_ok ensureAgent (fun _ => call (FileDelete p)))).

(** source: internal/core/site/filesystem_service.go:104-117 (Rename) *)
Definition Rename (siteID oldPath newPath : string) : prog agent_call (result error ()) :=
  with_ok ensureAgent (fun _ =>
  with_ok (resolvePath siteID oldPath) (fun old =>
  with_ok (resolvePath siteID newPath) (fun new => call (FileRename old new)))).

(** source: internal/core/site/filesystem_service.go:119-132 (Copy) *)
Definition Copy (siteID sourcePath destinationPath : string) : prog agent_call (result error ()) :=
  with_ok ensureAgent (fun _ =>
  with_ok (resolvePath siteID sourcePath) (fun source =>
  with_ok (resolvePath siteID destinationPath) (fun destination => call (FileCopy source destination)))).

(** source: internal/core/site/filesystem_service.go:134-143 (Chmod) *)
Definition Chmod (siteID relativePath : string) (mode : Z) : prog agent_call (result error ()) :=
  with_ok ensureAgent (fun _ =>
  with_ok (resolvePath siteID relativePath) (fun p => call (FileChmod p mode))).

(** source: internal/core/site/filesystem_service.go:145-154 (Chown) *)
Definition Chown (siteID relativePath : string) (uid gid : Z) : prog agent_call (result error ()) :=
  with_ok ensureAgent (fun _ =>
  with_ok (resolvePath siteID relativePath) (fun p => call (FileChown p uid gid))).

Fixpoint resolve_all (siteID : string) (l : list string) : result error (list string) :=
  match l with
  | [] => Ok []
  | r :: l' => let? p := resolvePath siteID r in let? ps := resolve_all siteID l' in Ok (p :: ps)
  end.

(** source: internal/core/site/filesystem_service.go:156-176 (CreateArchive) *)
Definition CreateArchive (siteID : string) (relativePaths : list string) (destinationPath : string) :
    prog agent_call (result error ()) :=
  with_ok ensureAgent (fun _ =>
  if (length relativePaths =? 0)%nat then
    Ret (Err (InvalidInput "at least one archive source is required"))
  else
    with_ok (resolve_all siteID relativePaths) (fun sources =>
    with_ok (resolvePath siteID destinationPath) (fun destination =>
      call (ArchiveCreate sources destination)))).

(** source: internal/core/site/filesystem_service.go:178-191 (ExtractArchive) *)
Definition ExtractArchive (siteID sourcePath destinationPath : string) : prog agent_call (result error ()) :=
  with_ok ensureAgent (fun _ =>
  with_ok (resolvePath siteID sourcePath) (fun source =>
  with_ok (resolvePath siteID destinationPath) (fun destination => call (ArchiveExtract source destination)))).

(** ** Resolution *)

(** A stored document root is one [normalizeRootPath] returned. *)
Definition root_normal (root : string) : Prop := exists raw, normalizeRootPath raw = Ok root.

Lemma root_normal_clean root :
  root_normal root -> rooted root = true /\ clean root = root /\ clean_comps root <> [].
Proof.
  intros [raw [Hb _]%normalizeRootPath_below].
  destruct Hb as [(Hr & l & Hl & Hc & Hcl)|(Hr & l & Hl & Hc & Hcl)]; split_and!; try done; by rewrite Hc.
Qed.

(** Resolution joins the cleaned components: it never fails on a stored root, and
    a relative path cannot climb above it. *)
Lemma resolvePath_ok siteID site rel :
  find siteID = Ok site -> root_normal (RootPath site) ->
  resolvePath siteID rel = Ok (abs (clean_comps (RootPath site) ++ clean_comps ("/" ++ rel))%list).
Proof.
  intros Hf Hn. destruct (root_normal_clean _ Hn) as (Hr & Hcl & Hne). unfold resolvePath. rewrite Hf.
  cbn [bind_result]. assert (Hrel : rooted ("/" ++ rel) = true) by (apply has_prefix_iff; by exists rel).
  rewrite (clean_rooted ("/" ++ rel)) by done.
  pose proof (clean_comps_good _ Hrel) as Hg. pose proof (clean_comps_good _ Hr) as Hgr.
  rewrite path_join_abs by done. set (l := clean_comps ("/" ++ rel)) in *.
  assert (Hroot : RootPath site = abs (clean_comps (RootPath site)))
    by (rewrite <- Hcl at 1; by apply clean_rooted).
  destruct (decide (l = [])) as [->|Hl].
  { rewrite app_nil_r, <- Hroot, String.eqb_refl. reflexivity. }
  assert (Hp : has_prefix (abs (clean_comps (RootPath site) ++ l)%list) (RootPath site ++ "/") = true).
  { rewrite Hroot at 2. apply has_prefix_abs; [done|by apply Forall_app|done|]. eauto. }
  by rewrite Hp, andb_false_r.
Qed.

Lemma resolvePath_under siteID site rel p :
  find siteID = Ok site -> root_normal (RootPath site) -> resolvePath siteID rel = Ok p ->
  at_or_below (RootPath site) p /\ (p <> RootPath site -> below (RootPath site) p).
Proof.
  intros Hf Hn Hp. rewrite (resolvePath_ok _ _ _ Hf Hn) in Hp. revert Hp.
  destruct (root_normal_clean _ Hn) as (Hr & Hcl & Hne).
  assert (Hrel : rooted ("/" ++ rel) = true) by (apply has_prefix_iff; by exists rel).
  pose proof (clean_comps_good _ Hrel) as Hg. pose proof (clean_comps_good _ Hr) as Hgr.
  revert Hg. generalize (clean_comps ("/" ++ rel)). intros l Hg [= <-].
  assert (Hall : Forall good_comp (clean_comps (RootPath site) ++ l)%list) by (apply Forall_app; done).
  split.
  - split; [apply abs_rooted|]. rewrite clean_comps_abs by done. by apply prefix_app_r.
  - intros Hneq. apply (below_abs _ l); [done|done| |done]. intros Hl. apply Hneq.
    by rewrite Hl, app_nil_r, <- clean_rooted.
Qed.

(** ** Confinement *)

(** The requests of the file manager. *)
Inductive file_request :=
| ReqList (p : string) | ReqRead (p : string) | ReqWrite (p content : string) | ReqMkdir (p : string)
| ReqDelete (p : string) | ReqRename (p q : string) | ReqCopy (p q : string)
| ReqChmod (p : string) (mode : Z) | ReqChown (p : string) (uid gid : Z)
| ReqArchive (ps : list string) (q : string) | ReqExtract (p q : string).

Definition finish {A} (p : prog agent_call (result error A)) : prog agent_call (result error ()) :=
  bind p (fun r => Ret (match r with Ok _ => Ok () | Err e => Err e end)).

Definition serve (siteID : string) (r : file_request) : prog agent_call (result error ()) :=
  match r with
  | ReqList p => finish (List siteID p)
  | ReqRead p => finish (Read siteID p)
  | ReqWrite p c => Write siteID p c
  | ReqMkdir p => CreateDirectory siteID p
  | ReqDelete p => Delete siteID p
  | ReqRename p q => Rename siteID p q
  | ReqCopy p q => Copy siteID p q
  | ReqChmod p mode => Chmod siteID p mode
  | ReqChown p uid gid => Chown siteID p uid gid
  | ReqArchive ps q => CreateArchive siteID ps q
  | ReqExtract p q => ExtractArchive siteID p q
  end.

(** What the Agent may be asked for the site with the root. *)
Definition asked_within (root : string) X (e : agent_call X) : Prop :=
  match e with
  | DirList p | FileRead p | FileWrite p _ _ | DirCreate p _ | FileChmod p _ | FileChown p _ _ =>
      at_or_below root p
  | FileDelete p => below root p
  | FileRename p q | FileCopy p q | ArchiveExtract p q => at_or_below root p /\ at_or_below root q
  | ArchiveCreate ps q => Forall (at_or_below root) ps /\ at_or_below root q
  end.

Section confinement.
Context (siteID : string) (site : Site).
Hypothesis Hfind : find siteID = Ok site.
Hypothesis Hroot : root_normal (RootPath site).
Notation ok := (always (asked_within (RootPath site)) (fun _ => True)).

Lemma ok_resolve {B} rel (k : string -> prog agent_call (result error B)) :
  (forall p, at_or_below (RootPath site) p -> (p <> RootPath site -> below (RootPath site) p) -> ok (k p)) ->
  ok (with_ok (resolvePath siteID rel) k).
Proof.
  intros Hk. destruct (resolvePath siteID rel) as [p|e] eqn:Hp; [|done].
  destruct (resolvePath_under _ _ _ _ Hfind Hroot Hp). by apply Hk.
Qed.

Lemma ok_agent {B} (k : () -> prog agent_call (result error B)) :
  ok (k ()) -> ok (with_ok ensureAgent k).
Proof. unfold ensureAgent. by destruct has_agent. Qed.

Lemma resolve_all_under l ps : resolve_all siteID l = Ok ps -> Forall (at_or_below (RootPath site)) ps.
Proof.
  revert ps; induction l as [|r l IH]; intros ps; simpl; [by intros [= <-]|].
  intros (p & Hp & (qs & Hqs & [= <-])%bind_result_ok)%bind_result_ok. constructor; [|auto].
  by eapply resolvePath_under.
Qed.

Lemma ok_finish {A} (p : prog agent_call (result error A)) : ok p -> ok (finish p).
Proof. intros Hp. by eapply always_bind. Qed.

(** Every request asks only for paths of the site. *)
Lemma served_within r : ok (serve siteID r).
Proof.
  destruct r; cbn [serve]; try apply ok_finish;
    unfold List, Read, Write, CreateDirectory, Delete, Rename, Copy, Chmod, Chown, CreateArchive, ExtractArchive;
    repeat first [apply ok_agent | apply ok_resolve; intros ? ? ?]; try (by simpl).
  - rewrite Hfind. cbn [with_ok]. destruct (String.eqb_spec p0 (RootPath site)); [done|].
    apply ok_agent. simpl. by split; [auto|].
  - destruct (_ =? _)%nat; [done|]. destruct (resolve_all siteID ps) as [l|e] eqn:Hps; [|done].
    apply resolve_all_under in Hps. cbn [with_ok]. apply ok_resolve. by intros.
Qed.

(** C14. Whatever path a request names, the Agent is asked only for paths at or
    below the document root of the site, and to delete only what is strictly below
    it; and no path is refused. *)
Theorem site_files_confined r :
  always (asked_within (RootPath site)) (fun _ => True) (serve siteID r) /\
  forall rel, is_ok (resolvePath siteID rel) = true.
Proof.
  split; [apply served_within|]. intros rel. by rewrite (resolvePath_ok _ _ _ Hfind Hroot).
Qed.
End confinement.
End files.

(** ** Witnesses *)

Definition sample_site : Site := {|
  ID := "s1"; Name := "Example"; ModuleID := "nginx"; RootPath := "/var/www/example"; State_ := StateActive;
  OwnerID := None; Domains := [{| d_ID := "d1"; d_SiteID := "s1"; d_Domain := "example.org"; d_Type := DomainPrimary |}];
  App_ := {| a_SiteID := "s1"; AppType := "static"; AppVersion := None; ProxyTarget := None; CustomConfig := None |};
  SSL_ := None; ProxyEnabled := false; ProxyHost := ""; ProxyPort := 0 |}.

Lemma site_files_confined_witness :
  always (asked_within "/var/www/example") (fun _ => True)
    (serve (fun _ => Ok sample_site) true "s1" (ReqDelete "../../etc/passwd")) /\
  forall rel, is_ok (resolvePath (fun _ => Ok sample_site) "s1" rel) = true.
Proof.
  exact (site_files_confined (fun _ => Ok sample_site) true "s1" sample_site eq_refl
    (ex_intro _ "/var/www/example" eq_refl) (ReqDelete "../../etc/passwd")).
Defined.

Example climbing_is_harmless :
  resolvePath (fun _ => Ok sample_site) "s1" "../../etc/passwd" = Ok "/var/www/example/etc/passwd".
Proof. vm_compute. reflexivity. Qed.
