(* ===== verification/Site.v ===== *)
(** * The site service

    src/internal/core/site: service.go, lifecycle_service.go, deploy_service.go,
    operations.go and reconcile.go.  A request is validated, the web server and
    application server modules are told to apply a [SiteSpec], the site is probed,
    the repository is updated, and a failure on the way is compensated.

    [Site.SSL] is a pointer, and [previous := *site] copies it: the SSL records
    live in a [heap] and a site holds an address.  What the repository, the Agent,
    the modules and the host do are calls; the registry of modules is a function
    from identifiers to what a module implements. *)

From S2P Require Import Prelude GoStrings GoStrconv GoPath AppErrors Effects SiteDomain.
Local Open Scope string_scope.
Local Open Scope go_scope.

Definition heap : Set := gmap nat SSL.

(** source: pkg/contract/module.go:504-511 (SiteAction) *)
Inductive SiteAction := SiteUpsert | SiteDelete | SiteEnable | SiteDisable.

#[export] Instance SiteAction_eq_dec : EqDecision SiteAction.
Proof. solve_decision. Defined.

(** source: pkg/contract/module.go:513-529 (SiteSpec) *)
Record SiteSpec := {
  sp_ID : string; sp_Name : string; PrimaryDomain : string; Aliases : list string; sp_RootPath : string;
  sp_AppType : string; sp_AppVersion : string; sp_ProxyTarget : string; SSLEnabled : bool;
  SSLCert : string; SSLKey : string; sp_ForceHTTPS : bool; sp_ProxyEnabled : bool; sp_ProxyHost : string;
  sp_ProxyPort : Z;
}.

(** What a registered module implements. *)
Record plugin := { is_web : bool; is_app : bool; is_certbot : bool }.

Inductive site_call : Set -> Set :=
| Backup (operation : string) : site_call (result error ())
| SettingGet (key : string) : site_call (result error string)
| RepoFind (id : string) : site_call (result error (Site * heap))
| RepoListAll : site_call (result error (list (Site * heap)))
| RepoCreate (s : Site) (h : heap) : site_call (Site * option error)
| RepoUpdate (s : Site) (h : heap) : site_call (result error ())
| RepoDelete (id : string) : site_call (result error ())
| DirCreate (path : string) (mode : Z) : site_call (result error ())
| SiteRootPrepare (path : string) : site_call (result error ())
| FileDelete (path : string) : site_call (result error ())
| FileChown (path : string) (uid gid : Z) : site_call (result error ())
| WebUser : site_call (result error string)
| UserLookup (name : string) : site_call (result error (string * string))
| ApplySite (moduleID : string) (action : SiteAction) (spec : SiteSpec) : site_call (result error ())
| ApplyApp (appType : string) (action : SiteAction) (spec : SiteSpec) : site_call (result error ())
| ObtainCert (domain rootPath : string) : site_call (result error ())
| CommandExecute (command : string) (args : list string) : site_call (Z * string * string * option error)
| SiteHTTPProbe (domain : string) : site_call (Z * option error)
| WaitOrDone : site_call (option error)
| Sleep : site_call ()
| AuditRecord (action resource : string) : site_call ()
| Publish (event : string) : site_call ()
| Panic : site_call Empty_set.

Notation site_prog A := (prog site_call (result error A)).

(** source: internal/core/site/service.go:22-37 (Service): which collaborators are
    set, whether the selected server is remote with a typed Agent, the registry *)
Record Service := {
  has_backup : bool; has_settings : bool; has_audit : bool; has_events : bool;
  remote : bool; registry : string -> option plugin;
}.

Section service.
Context `{Unicode} (svc : Service).

(** ** Collaborators *)

Definition primary_of (l : list Domain) : option string :=
  d_Domain <$> List.find (fun d => is_primary (d_Type d)) l.

(** source: internal/core/site/deploy_service.go:56-91 (siteSpec): the last primary
    domain wins *)
Definition siteSpec (h : heap) (current : Site) : SiteSpec :=
  let ssl := SSL_ current ≫= fun a => h !! a in {|
  sp_ID := ID current; sp_Name := Name current;
  PrimaryDomain := default "" (d_Domain <$> last (List.filter (fun d => is_primary (d_Type d)) (Domains current)));
  Aliases := d_Domain <$> List.filter (fun d => negb (is_primary (d_Type d))) (Domains current);
  sp_RootPath := RootPath current; sp_AppType := AppType (App_ current);
  sp_AppVersion := default "" (AppVersion (App_ current));
  sp_ProxyTarget := default "" (ProxyTarget (App_ current));
  SSLEnabled := match SSL_ current with Some _ => true | None => false end;
  SSLCert := default "" (ssl ≫= CertPath); SSLKey := default "" (ssl ≫= KeyPath);
  sp_ForceHTTPS := default false (ForceHTTPS <$> ssl);
  sp_ProxyEnabled := ProxyEnabled current; sp_ProxyHost := ProxyHost current;
  sp_ProxyPort := ProxyPort current |}.

(** source: internal/core/site/deploy_service.go:20-30 (Apply) *)
Definition Apply (moduleID : string) (action : SiteAction) (h : heap) (current : Site) : site_prog () :=
  match registry svc moduleID with
  | None => Ret (Err (Plain ("module not found: " ++ moduleID)))
  | Some p => if is_web p then call (ApplySite moduleID action (siteSpec h current))
              else Ret (Err (Plain ("module " ++ moduleID ++ " does not implement WebServerPlugin")))
  end.

(** source: internal/core/site/deploy_service.go:32-42 (ObtainCertificate) *)
Definition ObtainCertificate (domain rootPath : string) : site_prog () :=
  match registry svc "certbot" with
  | None => Ret (Err (AppErrors.App (New 500 CodeInternal "certbot module is not installed")))
  | Some p => if is_certbot p then call (ObtainCert domain rootPath)
              else Ret (Err (AppErrors.App (New 500 CodeInternal "certbot module does not implement CertbotPlugin")))
  end.

(** source: internal/core/site/deploy_service.go:44-54 (ApplyApp) *)
Definition DeployApp (appType : string) (action : SiteAction) (h : heap) (current : Site) : site_prog () :=
  match registry svc appType with
  | None => Ret (Err (Plain ("app module not found: " ++ appType)))
  | Some p => if is_app p then call (ApplyApp appType action (siteSpec h current))
              else Ret (Err (Plain ("module " ++ appType ++ " does not implement AppServerPlugin")))
  end.

(** source: internal/core/site/operations.go:15-17 (applySiteConfig) *)
Definition applySiteConfig := Apply.
(** source: internal/core/site/operations.go:19-21 (applyAppConfig) *)
Definition applyAppConfig := DeployApp.
(** source: internal/core/site/operations.go:23-25 (obtainCertbotSSL) *)
Definition obtainCertbotSSL := ObtainCertificate.

(** source: internal/core/site/operations.go:27-35 (recordAudit) *)
Definition recordAudit (action resource : string) : prog site_call () :=
  if has_audit svc then call (AuditRecord action resource) else Ret ().

(** source: internal/core/site/operations.go:37-46 (publishLifecycle): a failed
    delivery is only logged *)
Definition publishLifecycle (event : string) : prog site_call () :=
  if has_events svc then call (Publish event) else Ret ().

(** source: internal/core/site/service.go:53-62 (backupCritical) *)
Definition backupCritical (operation : string) : site_prog () :=
  if has_backup svc then
    wrap! (fun e => AppErrors.App (Internal "mandatory pre-change backup" e)) of _ := call (Backup operation) in
    Ret (Ok ())
  else Ret (Ok ()).

(** source: internal/core/site/reconcile.go:11-13 (managesAppServer) *)
Definition managesAppServer (appType : string) : bool :=
  negb (String.eqb appType "") && negb (String.eqb appType "static") && negb (String.eqb appType "proxy").

(** source: internal/core/site/reconcile.go:15-28 (appConfigurationChanged) *)
Definition appConfigurationChanged (previous current : Site) : bool :=
  negb (String.eqb (AppType (App_ previous)) (AppType (App_ current)))
  || negb (String.eqb (default "" (AppVersion (App_ previous))) (default "" (AppVersion (App_ current)))).

(** ** Health *)

(** source: internal/core/site/operations.go:108-110 (acceptedHealthStatus) *)
Definition acceptedHealthStatus (status : Z) : bool :=
  existsb (Z.eqb status) [200; 301; 302; 403; 404]%Z.

Definition accepted_stdout (stdout : string) : bool :=
  existsb (String.eqb stdout) ["200"; "301"; "302"; "403"; "404"].

Definition curl_args (domain : string) : list string :=
  ["-s"; "-o"; "/dev/null"; "-w"; "%{http_code}"; "-H"; "Host: " ++ domain; "http://127.0.0.1/"].

(** source: internal/core/site/operations.go:64-79 (verifySiteHealth, remote) *)
Fixpoint probe_remote (n : nat) (domain : string) (lastStatus : Z) (lastErr : option error) : site_prog () :=
  match n with
  | 0 => let msg := "health check failed for " ++ domain ++ ": received HTTP " ++ itoa lastStatus in
         Ret (Err match lastErr with
                  | Some e => Wrapped msg e
                  | None => Plain (msg ++ ": %!w(<nil>)")
                  end)
  | S n' =>
      let! (status, err) := call (SiteHTTPProbe domain) in
      if match err with None => acceptedHealthStatus status | Some _ => false end then Ret (Ok ())
      else
        let! done := call WaitOrDone in
        match done with
        | Some e => Ret (Err e)
        | None => probe_remote n' domain status err
        end
  end.

(** source: internal/core/site/operations.go:81-105 (verifySiteHealth, local) *)
Fixpoint probe_local (n : nat) (domain stdout stderr : string) (err : option error) : site_prog () :=
  match n with
  | 0 => Ret (Err match err with
                  | Some e => Wrapped "health check execution failed" e
                  | None => Plain ("health check failed for " ++ domain ++ ": received HTTP " ++ stdout ++
                                   ". Error: " ++ stderr)
                  end)
  | S n' =>
      let! (exitCode, stdout, stderr, err) := call (CommandExecute "curl" (curl_args domain)) in
      if match err with None => (exitCode =? 0)%Z && accepted_stdout stdout | Some _ => false end
      then Ret (Ok ())
      else
        let! done := call WaitOrDone in
        match done with
        | Some e => Ret (Err e)
        | None => probe_local n' domain stdout stderr err
        end
  end.

(** source: internal/core/site/operations.go:48-106 (verifySiteHealth): the first
    primary domain, or the first domain; without domains the index panics *)
Definition verifySiteHealth (site : Site) : site_prog () :=
  match Domains site with
  | [] => Call Panic (fun never : Empty_set => match never with end)
  | d :: _ =>
      let domain := default (d_Domain d) (primary_of (Domains site)) in
      if remote svc then probe_remote 10 domain 0 None else probe_local 10 domain "" "" None
  end.

(** ** Creation *)

Definition internal (msg : string) (e : error) : error := AppErrors.App (Internal msg e).

Definition set_version (v : option string) (r : CreateRequest) : CreateRequest := {|
  c_Name := c_Name r; c_Domain := c_Domain r; c_ModuleID := c_ModuleID r; c_RootPath := c_RootPath r;
  c_AppType := c_AppType r; c_AppVersion := v; c_ProxyTarget := c_ProxyTarget r;
  c_SSLEnabled := c_SSLEnabled r; c_SSLProvider := c_SSLProvider r; c_SSLCert := c_SSLCert r;
  c_SSLKey := c_SSLKey r; c_ProxyEnabled := c_ProxyEnabled r; c_ProxyHost := c_ProxyHost r;
  c_ProxyPort := c_ProxyPort r |}.

(** source: internal/core/site/service.go:254-267 (applyDefaultPHP) *)
Definition applyDefaultPHP (req : CreateRequest) : site_prog CreateRequest :=
  if negb (String.eqb (c_AppType req) "php")
     || match c_AppVersion req with Some v => negb (String.eqb (trim_space v) "") | None => false end
     || negb (has_settings svc)
  then Ret (Ok req)
  else
    wrap! (internal "failed to resolve the default PHP version") of value :=
      call (SettingGet "core.default_php") in
    let value := trim_space value in
    Ret (Ok (if String.eqb value "" then req else set_version (Some value) req)).

(** What validation leaves of a request. *)
Record checked := {
  k_root : string; k_version : option string; k_cert : option string; k_key : option string;
  k_host : option string;
}.

(** source: internal/core/site/service.go:93-111 (Create, validation) *)
Definition check_request (req : CreateRequest) : result error checked :=
  validateDomain (c_Domain req) ;?
  let? rootPath := normalizeRootPath (c_RootPath req) in
  let? version := match validatePHPVersion (c_AppVersion req) with
                  | Ok v => Ok v
                  | Err e => if String.eqb (c_AppType req) "php" then Err e else Ok (c_AppVersion req)
                  end in
  fail_if (String.eqb (c_ModuleID req) "") (InvalidInput "module_id is required") ;?
  let? (cert, key) := validateSSL (c_SSLEnabled req) (c_SSLCert req) (c_SSLKey req) in
  let? host := validateProxy (c_ProxyEnabled req) (c_ProxyHost req) (c_ProxyPort req) in
  Ok {| k_root := rootPath; k_version := version; k_cert := cert; k_key := key; k_host := host |}.

(** source: internal/core/site/service.go:143-158 (Create, the SSL record) *)
Definition new_ssl (req : CreateRequest) (k : checked) : SSL := {|
  ssl_ID := ""; ssl_SiteID := "";
  Provider := match c_SSLProvider req with
              | Some p => if String.eqb p "" then
                            if match k_cert k with Some c => has_prefix c "/etc/letsencrypt" | None => false end
                            then "certbot" else "custom"
                          else p
              | None => if match k_cert k with Some c => has_prefix c "/etc/letsencrypt" | None => false end
                        then "certbot" else "custom"
              end;
  CertPath := k_cert k; KeyPath := k_key k; ForceHTTPS := false; AutoRenew := true; ssl_ExpiresAt := None |}.

(** source: internal/core/site/service.go:116-158 (Create, the site) *)
Definition new_site (req : CreateRequest) (k : checked) (userID : string) : Site * heap :=
  ({| ID := ""; Name := c_Name req; ModuleID := c_ModuleID req; RootPath := k_root k;
      State_ := StateActive; OwnerID := Some userID;
      Domains := [{| d_ID := ""; d_SiteID := ""; d_Domain := to_lower (trim_space (c_Domain req));
                     d_Type := DomainPrimary |}];
      App_ := {| a_SiteID := ""; AppType := c_AppType req; AppVersion := k_version k;
                 ProxyTarget := c_ProxyTarget req; CustomConfig := None |};
      SSL_ := if c_SSLEnabled req then Some 0 else None;
      ProxyEnabled := c_ProxyEnabled req;
      ProxyHost := if c_ProxyEnabled req then default "127.0.0.1" (k_host k) else "";
      ProxyPort := if c_ProxyEnabled req then default 0%Z (c_ProxyPort req) else 0%Z |},
   if c_SSLEnabled req then {[0 := new_ssl req k]} else empty).

Definition drop_ssl (s : Site) : Site := {|
  ID := ID s; Name := Name s; ModuleID := ModuleID s; RootPath := RootPath s; State_ := State_ s;
  OwnerID := OwnerID s; Domains := Domains s; App_ := App_ s; SSL_ := None;
  ProxyEnabled := ProxyEnabled s; ProxyHost := ProxyHost s; ProxyPort := ProxyPort s |}.

(** source: internal/core/site/service.go:160-192 (Create, the document root) *)
Definition prepare_root (root : string) : site_prog () :=
  wrap! (internal "failed to create site root directory") of _ :=
    (if remote svc then call (SiteRootPrepare root) else call (DirCreate root 493)) in
  let! provider := call WebUser in
  if remote svc then Ret (Ok ())
  else match provider with
  | Err _ => Ret (Ok ())
  | Ok web =>
      let! account := call (UserLookup web) in
      match account with
      | Err e => ignore! (call (FileDelete root)) in Ret (Err (internal "failed to resolve the OS web user" e))
      | Ok (uid, gid) =>
          match atoi uid, atoi gid with
          | Some uid, Some gid =>
              let! r := call (FileChown root uid gid) in
              match r with
              | Err e => ignore! (call (FileDelete root)) in
                         Ret (Err (internal "failed to assign site root ownership" e))
              | Ok _ => Ret (Ok ())
              end
          | _, _ => ignore! (call (FileDelete root)) in
                    Ret (Err (internal "invalid OS web user identity" (Plain "strconv.Atoi")))
          end
      end
  end.

Definition ssl_of (h : heap) (s : Site) : option SSL := SSL_ s ≫= fun a => h !! a.

Definition needs_certbot (h : heap) (s : Site) : bool :=
  match ssl_of h s with Some ssl => String.eqb (Provider ssl) "certbot" | None => false end.

(** An error that is itself an [AppError] is returned as it is, another one wrapped. *)
Definition certificate_error (e : error) : error :=
  match e with AppErrors.App _ => e | _ => internal "failed to obtain SSL certificate" e end.

Definition acme_root : string := "/var/www/_opendeploy_acme".

(** source: internal/core/site/service.go:194-212 (Create, the certificate) *)
Definition create_certificate (domain : string) (h : heap) (site : Site) : site_prog () :=
  if negb (needs_certbot h site) then Ret (Ok ())
  else
    wrap! (internal "failed to provision temp web server for certbot") of _ :=
      applySiteConfig (ModuleID site) SiteUpsert h (drop_ssl site) in
    ignore! (call Sleep) in
    let! r := obtainCertbotSSL domain acme_root in
    match r with
    | Err e => ignore! (applySiteConfig (ModuleID site) SiteDelete h site) in Ret (Err (certificate_error e))
    | Ok _ => Ret (Ok ())
    end.

(** Only if the application type has a server of its own. *)
Definition if_managed (appType : string) (p : site_prog ()) : site_prog () :=
  if managesAppServer appType then p else Ret (Ok ()).

(** source: internal/core/site/service.go:214-252 (Create, from provisioning on): the
    repository assigns identifiers to the site, also when it fails *)
Definition create_provision (domain : string) (h : heap) (site : Site) : site_prog Site :=
  let app := AppType (App_ site) in
  let remove_app := if_managed app (applyAppConfig app SiteDelete h site) in
  let remove_web := applySiteConfig (ModuleID site) SiteDelete h site in
  let! r := if_managed app (applyAppConfig app SiteUpsert h site) in
  match r with
  | Err e =>
      ignore! (call (FileDelete (RootPath site))) in
      ignore! (recordAudit "site.create" domain) in
      Ret (Err (Wrapped "site service: provision app server" e))
  | Ok _ =>
  let! r := applySiteConfig (ModuleID site) SiteUpsert h site in
  match r with
  | Err e =>
      ignore! remove_app in
      ignore! (call (FileDelete (RootPath site))) in
      ignore! (recordAudit "site.create" domain) in
      Ret (Err (Wrapped "site service: provision web server" e))
  | Ok _ =>
  let! r := verifySiteHealth site in
  match r with
  | Err e =>
      ignore! remove_web in
      ignore! remove_app in
      ignore! (call (FileDelete (RootPath site))) in
      ignore! (recordAudit "site.create" domain) in
      Ret (Err (Wrapped "site service: health check failed" e))
  | Ok _ =>
  let! (site, err) := call (RepoCreate site h) in
  match err with
  | Some e =>
      ignore! (applySiteConfig (ModuleID site) SiteDelete h site) in
      ignore! (if_managed (AppType (App_ site)) (applyAppConfig (AppType (App_ site)) SiteDelete h site)) in
      Ret (Err e)
  | None => ignore! (publishLifecycle "site.created") in Ret (Ok site)
  end end end end.

(** source: internal/core/site/service.go:87-252 (Create) *)
Definition Create (req : CreateRequest) (userID : string) : site_prog Site :=
  try! req := applyDefaultPHP req in
  match check_request req with
  | Err e => Ret (Err e)
  | Ok k =>
      try! _ := backupCritical "create" in
      let '(site, h) := new_site req k userID in
      try! _ := prepare_root (RootPath site) in
      try! _ := create_certificate (c_Domain req) h site in
      create_provision (c_Domain req) h site
  end.

(** ** Update *)

Definition set_site (s : Site) (name root : string) (app : App) (ssl : option nat) (enabled : bool)
    (host : string) (port : Z) : Site := {|
  ID := ID s; Name := name; ModuleID := ModuleID s; RootPath := root; State_ := State_ s;
  OwnerID := OwnerID s; Domains := Domains s; App_ := app; SSL_ := ssl; ProxyEnabled := enabled;
  ProxyHost := host; ProxyPort := port |}.

(** source: internal/core/site/service.go:283-294 (Update, the document root) *)
Definition update_root (req : UpdateRequest) (previous : Site) : site_prog string :=
  match u_RootPath req with
  | None => Ret (Ok (RootPath previous))
  | Some raw =>
      match normalizeRootPath raw with
      | Err e => Ret (Err e)
      | Ok rootPath =>
          if String.eqb rootPath (RootPath previous) then Ret (Ok rootPath)
          else
            wrap! (internal "failed to create new site root directory") of _ :=
              call (DirCreate rootPath 493) in
            Ret (Ok rootPath)
      end
  end.

(** source: internal/core/site/service.go:295-314 (Update, the application) *)
Definition update_app (req : UpdateRequest) (app : App) : result error App :=
  let '(ty, version, target) :=
    match u_AppType req with
    | None => (AppType app, AppVersion app, ProxyTarget app)
    | Some ty => (ty, if String.eqb ty "php" then AppVersion app else None,
                  if String.eqb ty "proxy" then ProxyTarget app else None)
    end in
  let? version :=
    match u_AppVersion req with
    | None => Ok version
    | Some v =>
        if match u_AppType req with Some ty => String.eqb ty "php" | None => false end
        then validatePHPVersion (Some v) else Ok (Some v)
    end in
  Ok {| a_SiteID := a_SiteID app; AppType := ty; AppVersion := version;
        ProxyTarget := match u_ProxyTarget req with Some t => Some t | None => target end;
        CustomConfig := CustomConfig app |}.

Definition set_ssl (s : SSL) (provider : string) (cert key : option string) (force : bool) : SSL := {|
  ssl_ID := ssl_ID s; ssl_SiteID := ssl_SiteID s; Provider := provider; CertPath := cert; KeyPath := key;
  ForceHTTPS := force; AutoRenew := AutoRenew s; ssl_ExpiresAt := ssl_ExpiresAt s |}.

(** source: internal/core/site/service.go:342-363 (Update, the fields of the SSL record) *)
Definition update_ssl_fields (req : UpdateRequest) (s : SSL) : result error SSL :=
  let provider :=
    match u_SSLProvider req with
    | Some p => p
    | None => if match u_SSLCert req with Some c => has_prefix c "/etc/letsencrypt" | None => false end
                 && String.eqb (Provider s) "custom" then "certbot" else Provider s
    end in
  let? cert := match u_SSLCert req with
               | None => Ok (CertPath s)
               | Some c => let? c := map_err (fun _ => bad_certificate "ssl_cert") (normalizeCertificatePath c) in
                           Ok (Some c)
               end in
  let? key := match u_SSLKey req with
              | None => Ok (KeyPath s)
              | Some k => let? k := map_err (fun _ => bad_certificate "ssl_key") (normalizeCertificatePath k) in
                          Ok (Some k)
              end in
  Ok (set_ssl s provider cert key (default (ForceHTTPS s) (u_ForceHTTPS req))).

Definition blank_ssl : SSL := {|
  ssl_ID := ""; ssl_SiteID := ""; Provider := "custom"; CertPath := None; KeyPath := None;
  ForceHTTPS := false; AutoRenew := true; ssl_ExpiresAt := None |}.

(** An address that holds nothing. *)
Definition fresh_cell (h : heap) : nat := fresh (dom h).

(** source: internal/core/site/service.go:329-364 (Update, SSL): the record is changed
    through the pointer, so where [previous] points to it too, it changes there *)
Definition update_ssl (req : UpdateRequest) (h : heap) (ssl : option nat) : result error (heap * option nat) :=
  let '(h, ssl) :=
    match u_SSLEnabled req with
    | Some true => match ssl with
                   | None => let a := fresh_cell h in (<[a := blank_ssl]> h, Some a)
                   | Some a => (h, Some a)
                   end
    | Some false => (h, None)
    | None => (h, ssl)
    end in
  match ssl with
  | None => Ok (h, None)
  | Some a =>
      match h !! a with
      | None => Ok (h, Some a)
      | Some s => let? s := update_ssl_fields req s in Ok (<[a := s]> h, Some a)
      end
  end.

(** source: internal/core/site/service.go:366-371 (Update, needsCertbot) *)
Definition update_needs_certbot (h : heap) (previous site : Site) : bool :=
  needs_certbot h site && negb (needs_certbot h previous).

(** source: internal/core/site/service.go:373-395 (Update, the certificate) *)
Definition update_certificate (h : heap) (previous site : Site) : site_prog () :=
  if negb (update_needs_certbot h previous site) then Ret (Ok ())
  else
    wrap! (internal "failed to provision temp web server for certbot") of _ :=
      applySiteConfig (ModuleID site) SiteUpsert h (drop_ssl site) in
    ignore! (call Sleep) in
    let! r := obtainCertbotSSL (default "" (primary_of (Domains site))) acme_root in
    match r with
    | Err e => ignore! (applySiteConfig (ModuleID previous) SiteUpsert h previous) in
               Ret (Err (certificate_error e))
    | Ok _ => Ret (Ok ())
    end.

(** source: internal/core/site/service.go:397-442 (Update, from provisioning on) *)
Definition update_apply (h : heap) (previous site : Site) : site_prog Site :=
  let app := AppType (App_ site) in
  let old_app := AppType (App_ previous) in
  let restore_web := applySiteConfig (ModuleID previous) SiteUpsert h previous in
  let restore_app := if_managed old_app (applyAppConfig old_app SiteUpsert h previous) in
  let remove_new_app := if_managed app (applyAppConfig app SiteDelete h site) in
  wrap! (Wrapped "site service: re-provision app server") of _ :=
    if_managed app (applyAppConfig app SiteUpsert h site) in
  let! r := applySiteConfig (ModuleID site) SiteUpsert h site in
  match r with
  | Err e => ignore! restore_app in Ret (Err (Wrapped "site service: re-provision web server" e))
  | Ok _ =>
  let! r := verifySiteHealth site in
  match r with
  | Err e => ignore! restore_web in ignore! restore_app in
             Ret (Err (Wrapped "site service: health check failed" e))
  | Ok _ =>
  let! r := if appConfigurationChanged previous site
            then if_managed old_app (applyAppConfig old_app SiteDelete h previous) else Ret (Ok ()) in
  match r with
  | Err e => ignore! restore_web in ignore! restore_app in ignore! remove_new_app in
             Ret (Err (Wrapped "site service: remove previous app server config" e))
  | Ok _ =>
  let! r := call (RepoUpdate site h) in
  match r with
  | Err e => ignore! restore_web in ignore! restore_app in
             ignore! (if appConfigurationChanged previous site then remove_new_app else Ret (Ok ())) in
             Ret (Err e)
  | Ok _ => ignore! (publishLifecycle "site.updated") in Ret (Ok site)
  end end end end.

(** source: internal/core/site/service.go:278-443 (Update, once the site is found) *)
Definition update_found (req : UpdateRequest) (previous : Site) (h : heap) : site_prog Site :=
  let name := default (Name previous) (u_Name req) in
  try! root := update_root req previous in
  match update_app req (App_ previous) with
  | Err e => Ret (Err e)
  | Ok app =>
  let enabled := default (ProxyEnabled previous) (u_ProxyEnabled req) in
  let host := default (ProxyHost previous) (u_ProxyHost req) in
  let port := default (ProxyPort previous) (u_ProxyPort req) in
  match validateProxy enabled (Some host) (Some port) with
  | Err e => Ret (Err e)
  | Ok host' =>
  match update_ssl req h (SSL_ previous) with
  | Err e => Ret (Err e)
  | Ok (h, ssl) =>
  let site := set_site previous name root app ssl enabled (default host host') port in
  try! _ := update_certificate h previous site in
  update_apply h previous site
  end end end.

(** source: internal/core/site/service.go:269-277 (Update) *)
Definition Update (id : string) (req : UpdateRequest) : site_prog Site :=
  try! _ := backupCritical "update" in
  try! found := call (RepoFind id) in
  update_found req (fst found) (snd found).

(** ** Lifecycle *)

(** source: internal/core/site/lifecycle_service.go:9-36 (Delete): module errors are
    only logged *)
Definition Delete (id : string) : site_prog () :=
  try! _ := backupCritical "delete" in
  try! found := call (RepoFind id) in
  let '(site, h) := found in
  let app := AppType (App_ site) in
  ignore! (if_managed app (applyAppConfig app SiteDelete h site)) in
  ignore! (applySiteConfig (ModuleID site) SiteDelete h site) in
  let! r := call (RepoDelete id) in
  match r with
  | Err e =>
      ignore! (applySiteConfig (ModuleID site) SiteUpsert h site) in
      ignore! (if_managed app (applyAppConfig app SiteUpsert h site)) in
      Ret (Err e)
  | Ok _ => ignore! (publishLifecycle "site.deleted") in Ret (Ok ())
  end.

Definition with_state (st : State) (s : Site) : Site := {|
  ID := ID s; Name := Name s; ModuleID := ModuleID s; RootPath := RootPath s; State_ := st;
  OwnerID := OwnerID s; Domains := Domains s; App_ := App_ s; SSL_ := SSL_ s;
  ProxyEnabled := ProxyEnabled s; ProxyHost := ProxyHost s; ProxyPort := ProxyPort s |}.

(** source: internal/core/site/lifecycle_service.go:71-87 (setState, rollback) *)
Definition rollback (h : heap) (original : Site) (e : error) : site_prog () :=
  let app := AppType (App_ original) in
  let revert := if bool_decide (State_ original = StateActive) then SiteEnable else SiteDisable in
  ignore! (call (RepoUpdate original h)) in
  ignore! (applySiteConfig (ModuleID original) revert h original) in
  ignore! (if_managed app (applyAppConfig app revert h original)) in
  Ret (Err e).

(** source: internal/core/site/lifecycle_service.go:52-114 (setState) *)
Definition setState (id : string) (state : State) (action : SiteAction) (event : string) : site_prog () :=
  try! found := call (RepoFind id) in
  let '(original, h) := found in
  let site := with_state state original in
  let app := AppType (App_ site) in
  try! _ := call (RepoUpdate site h) in
  let! r := if_managed app (applyAppConfig app action h site) in
  match r with
  | Err e => rollback h original e
  | Ok _ =>
  let! r := applySiteConfig (ModuleID site) action h site in
  match r with
  | Err e => rollback h original e
  | Ok _ =>
  let! r := if bool_decide (action = SiteEnable) then verifySiteHealth site else Ret (Ok ()) in
  match r with
  | Err e => rollback h original e
  | Ok _ => ignore! (publishLifecycle event) in Ret (Ok ())
  end end end.

(** source: internal/core/site/lifecycle_service.go:38-43 (Enable) *)
Definition Enable (id : string) : site_prog () :=
  try! _ := backupCritical "enable" in setState id StateActive SiteEnable "site.enabled".

(** source: internal/core/site/lifecycle_service.go:45-50 (Disable) *)
Definition Disable (id : string) : site_prog () :=
  try! _ := backupCritical "disable" in setState id StateDisabled SiteDisable "site.disabled".

(** ** Reconciliation *)

(** source: internal/core/site/reconcile.go:38-53 (ReconcileActive, the loop) *)
Fixpoint reconcile_sites (l : list (Site * heap)) (errors : list error) : prog site_call (list error) :=
  match l with
  | [] => Ret errors
  | (current, h) :: l' =>
      if negb (bool_decide (State_ current = StateActive)) then reconcile_sites l' errors
      else
        let app := AppType (App_ current) in
        let! r := if_managed app (applyAppConfig app SiteUpsert h current) in
        match r with
        | Err e => reconcile_sites l' (errors ++ [Wrapped ("site " ++ ID current ++ " app config") e])%list
        | Ok _ =>
            let! r := applySiteConfig (ModuleID current) SiteUpsert h current in
            match r with
            | Err e => reconcile_sites l' (errors ++ [Wrapped ("site " ++ ID current ++ " web config") e])%list
            | Ok _ => reconcile_sites l' errors
            end
        end
  end.

(** source: internal/core/site/reconcile.go:30-55 (ReconcileActive) *)
Definition ReconcileActive : site_prog () :=
  wrap! (Wrapped "list sites for reconciliation") of sites := call RepoListAll in
  let! errors := reconcile_sites sites [] in
  Ret match errors with
      | [] => Ok ()
      | _ => Err (Plain (String.concat (String (ascii_of_nat 10) "") (map error_text errors)))
      end.
End service.

(** ** Switching a site on and off

    The world of a lifecycle operation: the repository, which sites the web server
    and the application servers serve, by primary domain, the number of calls to
    the repository and the modules that failed, and whether a health probe did. *)

Record world := {
  db : gmap string (Site * heap);
  web : gmap string bool;
  apps : gmap string bool;
  failures : nat;
  unhealthy : bool;
}.

(** What a module does to what it serves: the contract of [WebServerPlugin] and
    [AppServerPlugin]. *)
Definition served (a : SiteAction) (key : string) (m : gmap string bool) : gmap string bool :=
  match a with
  | SiteUpsert | SiteEnable => <[key := true]> m
  | SiteDisable => <[key := false]> m
  | SiteDelete => delete key m
  end.

Definition set_db (d : gmap string (Site * heap)) (w : world) : world :=
  {| db := d; web := web w; apps := apps w; failures := failures w; unhealthy := unhealthy w |}.
Definition set_web (m : gmap string bool) (w : world) : world :=
  {| db := db w; web := m; apps := apps w; failures := failures w; unhealthy := unhealthy w |}.
Definition set_apps (m : gmap string bool) (w : world) : world :=
  {| db := db w; web := web w; apps := m; failures := failures w; unhealthy := unhealthy w |}.
Definition fail (w : world) : world :=
  {| db := db w; web := web w; apps := apps w; failures := S (failures w); unhealthy := unhealthy w |}.
Definition sick (w : world) : world :=
  {| db := db w; web := web w; apps := apps w; failures := failures w; unhealthy := true |}.

(** A call that succeeds with an effect, or fails and is counted. *)
Definition may_fail (x : result error ()) (w : world) (done w' : world) : Prop :=
  x = Ok () /\ w' = done \/ is_ok x = false /\ w' = fail w.

(** What storing a site keeps of it: identifiers are assigned. *)
Definition stored_as (s s' : Site) : Prop :=
  State_ s' = State_ s /\ ModuleID s' = ModuleID s /\ AppType (App_ s') = AppType (App_ s) /\
  map (fun d => (d_Domain d, d_Type d)) (Domains s') = map (fun d => (d_Domain d, d_Type d)) (Domains s).

Definition site_sem X (e : site_call X) (w : world) (x : X) (w' : world) : Prop :=
  match e in site_call X return X -> Prop with
  | RepoFind id => fun x =>
      match x with Ok found => db w !! id = Some found | Err _ => True end /\ w' = w
  | RepoCreate s h => fun x =>
      stored_as s (fst x) /\
      match snd x with
      | None => exists h', w' = set_db (<[ID (fst x) := (fst x, h')]> (db w)) w
      | Some _ => w' = fail w
      end
  | RepoUpdate s h => fun x => may_fail x w (set_db (<[ID s := (s, h)]> (db w)) w) w'
  | ApplySite _ a spec => fun x => may_fail x w (set_web (served a (PrimaryDomain spec) (web w)) w) w'
  | ApplyApp _ a spec => fun x => may_fail x w (set_apps (served a (PrimaryDomain spec) (apps w)) w) w'
  | WaitOrDone => fun _ => w' = sick w
  | _ => fun _ => w' = w
  end x.

(** The site is stored, and served exactly when it is active. *)
Definition consistent (w : world) (s : Site) (h : heap) : Prop :=
  let key := PrimaryDomain (siteSpec h s) in
  let on := bool_decide (State_ s = StateActive) in
  db w !! ID s = Some (s, h) /\ web w !! key = Some on /\
  (managesAppServer (AppType (App_ s)) = true -> apps w !! key = Some on).

Section lifecycle.
Context `{Unicode} (svc : Service).
Notation runs := (runs site_sem).

Lemma runs_Apply m a h s w r w' :
  runs (applySiteConfig svc m a h s) w r w' ->
  r = Ok () /\ w' = set_web (served a (PrimaryDomain (siteSpec h s)) (web w)) w
  \/ is_ok r = false /\ w' = fail w
  \/ is_ok r = false /\ w' = w /\ forall a s, exists e, applySiteConfig svc m a h s = Ret (Err e).
Proof.
  unfold applySiteConfig, Apply. destruct (registry svc m) as [p|].
  - destruct (is_web p).
    + intros (x & w1 & Hs & -> & ->). destruct Hs as [[-> ->]|[Hx ->]]; auto.
    + intros [-> ->]. right. right. eauto.
  - intros [-> ->]. right. right. eauto.
Qed.

Lemma runs_App t a h s w r w' :
  runs (if_managed t (applyAppConfig svc t a h s)) w r w' ->
  managesAppServer t = false /\ r = Ok () /\ w' = w
  \/ managesAppServer t = true /\
     (r = Ok () /\ w' = set_apps (served a (PrimaryDomain (siteSpec h s)) (apps w)) w
      \/ is_ok r = false /\ w' = fail w
      \/ is_ok r = false /\ w' = w /\ forall a s, exists e, applyAppConfig svc t a h s = Ret (Err e)).
Proof.
  unfold if_managed, applyAppConfig, DeployApp. destruct (managesAppServer t); [|intros [-> ->]; auto].
  intros Hr. right. split; [done|]. destruct (registry svc t) as [p|].
  - destruct (is_app p).
    + destruct Hr as (x & w1 & Hs & -> & ->). destruct Hs as [[-> ->]|[Hx ->]]; auto.
    + destruct Hr as [-> ->]. right. right. eauto.
  - destruct Hr as [-> ->]. right. right. eauto.
Qed.

(** Health probes change nothing, and one that fails is noticed. *)
Lemma runs_probe_remote n d status last w r w' :
  runs (probe_remote (S n) d status last) w r w' -> r = Ok () /\ w' = w \/ w' = sick w.
Proof.
  revert status last w; induction n as [|n IH]; intros status last w;
    intros ([status' err] & w1 & -> & Hr); cbn [bind call] in Hr;
    (destruct (match err with None => _ | Some _ => _ end); [destruct Hr; auto|]);
    destruct Hr as (d1 & w1 & -> & Hr); (destruct d1; [destruct Hr as [_ ->]; auto|]).
  - destruct Hr as [_ ->]. auto.
  - right. by destruct (IH _ _ _ Hr) as [[_ ->]| ->].
Qed.

Lemma runs_probe_local n d o e last w r w' :
  runs (probe_local (S n) d o e last) w r w' -> r = Ok () /\ w' = w \/ w' = sick w.
Proof.
  revert o e last w; induction n as [|n IH]; intros o e last w;
    intros ([[[code out] se] err] & w1 & -> & Hr); cbn [bind call] in Hr;
    (destruct (match err with None => _ | Some _ => _ end); [destruct Hr; auto|]);
    destruct Hr as (d1 & w1 & -> & Hr); (destruct d1; [destruct Hr as [_ ->]; auto|]).
  - destruct Hr as [_ ->]. auto.
  - right. by destruct (IH _ _ _ _ Hr) as [[_ ->]| ->].
Qed.

Lemma runs_health s w r w' :
  runs (verifySiteHealth svc s) w r w' -> r = Ok () /\ w' = w \/ w' = sick w.
Proof.
  unfold verifySiteHealth. destruct (Domains s); [by intros ([] & _)|].
  destruct (remote svc); [apply runs_probe_remote|apply runs_probe_local].
Qed.

Lemma runs_publish event w r w' : runs (publishLifecycle svc event) w r w' -> w' = w.
Proof. unfold publishLifecycle. destruct (has_events svc); [by intros (? & ? & -> & _ & ->)|by intros [_ ->]]. Qed.

Lemma runs_backup op w r w' : runs (backupCritical svc op) w r w' -> w' = w.
Proof.
  unfold backupCritical. destruct (has_backup svc); [|by intros [_ ->]].
  intros (x & w1 & -> & Hr). by destruct x; destruct Hr as [_ ->].
Qed.

(** The rollback puts the site back, if nothing fails in it: [web] and [apps] may
    have been changed before by modules that are there. *)
Lemma runs_rollback s h e w r w' :
  let key := PrimaryDomain (siteSpec h s) in
  let on := bool_decide (State_ s = StateActive) in
  ((exists a s' e, applySiteConfig svc (ModuleID s) a h s' = Ret (Err e)) -> web w !! key = Some on) ->
  (managesAppServer (AppType (App_ s)) = true ->
   (exists a s' e, applyAppConfig svc (AppType (App_ s)) a h s' = Ret (Err e)) -> apps w !! key = Some on) ->
  runs (rollback svc h s e) w r w' ->
  is_ok r = false /\ failures w <= failures w' /\ unhealthy w' = unhealthy w /\
  (failures w' = failures w -> consistent w' s h).
Proof.
  cbv zeta. intros Hweb Happ Hr. unfold rollback in Hr.
  apply runs_bind in Hr as (x1 & w1 & (y & w1' & Hu & -> & ->) & Hr).
  apply runs_bind in Hr as (x2 & w2 & Ha%runs_Apply & Hr).
  apply runs_bind in Hr as (x3 & w3 & Hp%runs_App & [-> ->]).
  set (revert := if bool_decide (State_ s = StateActive) then SiteEnable else SiteDisable) in *.
  assert (Hserved : forall k m, served revert k m = <[k := bool_decide (State_ s = StateActive)]> m)
    by (intros; unfold revert; by destruct (bool_decide _)).
  split; [done|].
  destruct Hu as [[_ ->]|[_ ->]], Ha as [[_ ->]|[[_ ->]|(_ & -> & Hnw)]],
    Hp as [(Hm & _ & ->)|(Hm & [[_ ->]|[[_ ->]|(_ & -> & Hna)]])]; simpl; split_and!; try lia; try done;
    intros Hf; try lia; unfold consistent; simpl; rewrite ?Hserved;
    (split_and!; [by rewrite lookup_insert_eq| |intros Hm'; try congruence]);
    rewrite ?lookup_insert_eq; try done;
    first [ apply Hweb; destruct (Hnw SiteEnable s) as [e' He']; by exists SiteEnable, s, e'
          | apply Happ; [done|]; destruct (Hna SiteEnable s) as [e' He']; by exists SiteEnable, s, e' ].
Qed.

(** The action that brings a state about. *)
Definition brings (action : SiteAction) (state : State) : Prop :=
  action = SiteEnable /\ state = StateActive \/ action = SiteDisable /\ state = StateDisabled.

Lemma brings_served action state k m :
  brings action state -> served action k m = <[k := bool_decide (state = StateActive)]> m.
Proof. by intros [[-> ->]|[-> ->]]. Qed.

(** The modules for a site are registered and of the right kind. *)
Definition registered (moduleID appType : string) : Prop :=
  (exists p, registry svc moduleID = Some p /\ is_web p = true) /\
  (managesAppServer appType = true -> exists p, registry svc appType = Some p /\ is_app p = true).

(** So they are called. *)
Definition modules_ready (s : Site) : Prop :=
  (forall a h s', exists spec, applySiteConfig svc (ModuleID s) a h s' = call (ApplySite (ModuleID s) a spec)) /\
  (managesAppServer (AppType (App_ s)) = true -> forall a h s', exists spec,
     applyAppConfig svc (AppType (App_ s)) a h s' = call (ApplyApp (AppType (App_ s)) a spec)).

Lemma registered_ready s : registered (ModuleID s) (AppType (App_ s)) -> modules_ready s.
Proof.
  intros [(p & Hp & Hw) Ha]. split.
  - intros a h s'. exists (siteSpec h s'). unfold applySiteConfig, Apply. by rewrite Hp, Hw.
  - intros Hm a h s'. destruct (Ha Hm) as (q & Hq & Hqa). exists (siteSpec h s').
    unfold applyAppConfig, DeployApp. by rewrite Hq, Hqa.
Qed.

(** At most one thing failed since [w0]: a call, or the health check. *)
Definition one_failure (w0 w : world) : Prop := failures w + Nat.b2n (unhealthy w) <= failures w0 + 1.

(** A failure that was counted is undone, if it is the only one. *)
Lemma rollback_settles w0 s h e w r w' :
  modules_ready s -> failures w0 + 1 <= failures w + Nat.b2n (unhealthy w) ->
  runs (rollback svc h s e) w r w' -> one_failure w0 w' -> is_ok r = false /\ consistent w' s h.
Proof.
  intros [Hw Ha] Hcount Hr Hone. apply runs_rollback in Hr as (Hok & Hmono & Hu & Hc).
  - split; [done|]. apply Hc. unfold one_failure in Hone. rewrite Hu in Hone. lia.
  - intros (a & s' & e' & He). destruct (Hw a h s') as [spec Hs]. by rewrite Hs in He.
  - intros Hm (a & s' & e' & He). destruct (Ha Hm a h s') as [spec Hs]. by rewrite Hs in He.
Qed.

(** With the modules there, an action takes effect or fails and is counted. *)
Lemma ready_web s a h s' w r w' :
  modules_ready s -> runs (applySiteConfig svc (ModuleID s) a h s') w r w' ->
  r = Ok () /\ w' = set_web (served a (PrimaryDomain (siteSpec h s')) (web w)) w \/ is_ok r = false /\ w' = fail w.
Proof.
  intros [Hready _] [?|[?|(_ & _ & Hno)]]%runs_Apply; [auto..|].
  destruct (Hready SiteEnable h s) as [spec Hs]. destruct (Hno SiteEnable s) as [e He]. by rewrite Hs in He.
Qed.

Lemma ready_app s a h s' w r w' :
  modules_ready s -> runs (if_managed (AppType (App_ s)) (applyAppConfig svc (AppType (App_ s)) a h s')) w r w' ->
  managesAppServer (AppType (App_ s)) = false /\ r = Ok () /\ w' = w
  \/ managesAppServer (AppType (App_ s)) = true /\ r = Ok () /\
     w' = set_apps (served a (PrimaryDomain (siteSpec h s')) (apps w)) w
  \/ is_ok r = false /\ w' = fail w.
Proof.
  intros [_ Hready] [?|(Hm & [[? ?]|[?|(_ & _ & Hno)]])]%runs_App; [auto..|].
  destruct (Hready Hm SiteEnable h s) as [spec Hs]. destruct (Hno SiteEnable s) as [e He]. by rewrite Hs in He.
Qed.

(** Switching a site found in the repository. *)
Lemma switch_settles state action event w s h r w' :
  let site := with_state state s in
  let app := AppType (App_ s) in
  brings action state -> modules_ready s -> db w !! ID s = Some (site, h) ->
  forall w0, failures w0 = failures w -> unhealthy w = false ->
  runs (let! r := if_managed app (applyAppConfig svc app action h site) in
        match r with
        | Err e => rollback svc h s e
        | Ok _ =>
        let! r := applySiteConfig svc (ModuleID s) action h site in
        match r with
        | Err e => rollback svc h s e
        | Ok _ =>
        let! r := if bool_decide (action = SiteEnable) then verifySiteHealth svc site else Ret (Ok ()) in
        match r with
        | Err e => rollback svc h s e
        | Ok _ => ignore! (publishLifecycle svc event) in Ret (Ok ())
        end end end) w r w' -> one_failure w0 w' ->
  if is_ok r then consistent w' site h else consistent w' s h.
Proof.
  cbv zeta. intros Hb Hready Hdb w0 Hw0 Hsick Hr Hone.
  assert (Hback : forall e w1, failures w0 + 1 <= failures w1 + Nat.b2n (unhealthy w1) ->
    runs (rollback svc h s e) w1 r w' ->
    if is_ok r then consistent w' (with_state state s) h else consistent w' s h).
  { intros e w1 Hc Hrun. by destruct (rollback_settles w0 s h e w1 r w' Hready Hc Hrun Hone) as [-> ?]. }
  apply runs_bind in Hr as (r1 & w1 & Ha & Hr). apply ready_app in Ha; [|done]. destruct r1 as [[]|e].
  2:{ apply (Hback e w1); [|done]. destruct Ha as [(_ & ? & _)|[(_ & ? & _)|[_ ->]]]; [done..|]. simpl. lia. }
  assert (Hw1 : db w1 = db w /\ failures w1 = failures w /\ unhealthy w1 = false) by
    (by destruct Ha as [(_ & _ & ->)|[(_ & _ & ->)|[? _]]]).
  destruct Hw1 as (Hdb1 & Hf1 & Hu1).
  apply runs_bind in Hr as (r2 & w2 & Hw & Hr). apply ready_web in Hw; [|done]. destruct r2 as [[]|e].
  2:{ apply (Hback e w2); [|done]. destruct Hw as [[? _]|[_ ->]]; [done|]. simpl. lia. }
  destruct Hw as [[_ ->]|[? _]]; [|done].
  assert (Hnew : consistent (set_web (served action (PrimaryDomain (siteSpec h (with_state state s))) (web w1)) w1)
    (with_state state s) h).
  { unfold consistent. change (siteSpec h (with_state state s)) with (siteSpec h s). cbn [db set_web web apps].
    rewrite (brings_served _ _ _ _ Hb), lookup_insert_eq, Hdb1. split_and!; [done..|]. intros Hm.
    destruct Ha as [(Hm' & _)|[(_ & _ & ->)|[? _]]]; [simpl in Hm; congruence| |done].
    cbn [apps set_apps]. by rewrite (brings_served _ _ _ _ Hb), lookup_insert_eq. }
  apply runs_bind in Hr as (r3 & w3 & Hh & Hr).
  assert (Hh3 : r3 = Ok () /\ w3 = set_web (served action (PrimaryDomain (siteSpec h (with_state state s))) (web w1)) w1
    \/ w3 = sick (set_web (served action (PrimaryDomain (siteSpec h (with_state state s))) (web w1)) w1)).
  { destruct (bool_decide (action = SiteEnable)); [by apply runs_health in Hh|]. destruct Hh; auto. }
  destruct r3 as [[]|e].
  - apply runs_bind in Hr as (x & w4 & ->%runs_publish & -> & ->). simpl. by destruct Hh3 as [[_ ->]| ->].
  - apply (Hback e w3); [|done]. destruct Hh3 as [[? _]| ->]; [done|]. simpl. lia.
Qed.

Lemma setState_settles id state action event w s h r w' :
  brings action state -> ID s = id -> unhealthy w = false ->
  modules_ready s -> consistent w s h ->
  runs (setState svc id state action event) w r w' -> one_failure w w' ->
  if is_ok r then consistent w' (with_state state s) h else consistent w' s h.
Proof.
  intros Hb Hid Hsick Hready Hcons. pose proof Hcons as (Hdb & _). unfold setState.
  intros (x & w1 & Hf & Hr)%runs_bind. destruct Hf as (y & w2 & [Hfound ->] & -> & ->).
  destruct y as [[s0 h0]|e]; [|by destruct Hr as [-> ->]]. rewrite <- Hid, Hdb in Hfound.
  injection Hfound as <- <-. clear Hid.
  apply runs_bind in Hr as (x & w1 & (y & w2 & Hu & -> & ->) & Hr).
  destruct Hu as [[-> ->]|[Hx ->]]; [|destruct y; [done|]; by destruct Hr as [-> ->]].
  intros Hone. refine (switch_settles state action event (set_db (<[ID s := (with_state state s, h)]> (db w)) w) s h r w' Hb Hready _ w
    eq_refl Hsick Hr Hone).
  simpl. by rewrite lookup_insert_eq.
Qed.

(** C7. Enabling and disabling a site keep what is served in step with what is
    stored: if at most one thing fails, a call to the repository or a module or the
    health check, then on success the new state is stored and served, and on
    failure the old state is stored and served again. *)
Theorem lifecycle_consistent id (enable : bool) w s h r w' :
  ID s = id -> unhealthy w = false -> registered (ModuleID s) (AppType (App_ s)) -> consistent w s h ->
  runs (if enable then Enable svc id else Disable svc id) w r w' -> one_failure w w' ->
  if is_ok r then consistent w' (with_state (if enable then StateActive else StateDisabled) s) h
  else consistent w' s h.
Proof.
  intros Hid Hsick Hready%registered_ready Hcons Hr Hone.
  destruct enable; apply runs_bind in Hr as (x & w1 & ->%runs_backup & Hr);
    (destruct x as [[]|e]; [|by destruct Hr as [-> ->]]);
    eapply setState_settles in Hr; eauto; [by left|by right].
Qed.
End lifecycle.

(** ** Creation leaves nothing behind *)

Section creation.
Context `{Unicode} (svc : Service).
Notation runs := (runs site_sem).

(** The configuration of a site that is not there. *)
Definition unserved (w : world) (key : string) : Prop := web w !! key = None /\ apps w !! key = None.

Lemma runs_prepare root w r w' : runs (prepare_root svc root) w r w' -> w' = w.
Proof.
  unfold prepare_root, bind_wrap. intros (x & w1 & Hx & Hr)%runs_bind.
  assert (w1 = w) as -> by (destruct (remote svc); by destruct Hx as (? & ? & -> & _ & ->)).
  destruct x; [|by destruct Hr as [_ ->]]. destruct Hr as (provider & w1 & -> & Hr). cbn [bind call] in Hr.
  destruct (remote svc); [by destruct Hr as [_ ->]|]. destruct provider; [|by destruct Hr as [_ ->]].
  destruct Hr as (account & w1 & -> & Hr). cbn [bind call] in Hr.
  destruct account as [[uid gid]|]; [|by destruct Hr as (? & ? & -> & _ & ->)].
  destruct (atoi uid), (atoi gid); try (by destruct Hr as (? & ? & -> & _ & ->)).
  destruct Hr as (c & w1 & -> & Hr). cbn [bind call] in Hr.
  destruct c; [by destruct Hr as [_ ->]|by destruct Hr as (? & ? & -> & _ & ->)].
Qed.

Lemma runs_default req w r w' :
  runs (applyDefaultPHP svc req) w r w' ->
  w' = w /\ match r with Ok req' => exists v, req' = set_version v req | Err _ => True end.
Proof.
  unfold applyDefaultPHP.
  assert (Hsame : exists v, req = set_version v req) by (exists (c_AppVersion req); by destruct req).
  destruct (_ || _); [by intros [-> ->]|].
  intros (x & w1 & -> & Hr). destruct x; destruct Hr as [-> ->]; [|done].
  split; [done|]. destruct (String.eqb _ _); eauto.
Qed.

Lemma runs_audit a b w r w' : runs (recordAudit svc a b) w r w' -> w' = w.
Proof. unfold recordAudit. destruct (has_audit svc); [by intros (? & ? & -> & _ & ->)|by intros [_ ->]]. Qed.

Lemma runs_delete_audit path a b e w r w' :
  runs (ignore! (call (FileDelete path)) in ignore! (recordAudit svc a b) in Ret (Err e) : site_prog Site) w r w' ->
  r = Err e /\ w' = w.
Proof.
  intros (x & w1 & -> & Hr). cbn [bind] in Hr. by apply runs_bind in Hr as (y & w2 & ->%runs_audit & Hr).
Qed.

(** Removing what was applied, when nothing fails any more. *)
Lemma runs_remove_app s h w r w' :
  modules_ready svc s ->
  runs (if_managed (AppType (App_ s)) (applyAppConfig svc (AppType (App_ s)) SiteDelete h s)) w r w' ->
  (managesAppServer (AppType (App_ s)) = false -> apps w !! PrimaryDomain (siteSpec h s) = None) ->
  web w' = web w /\ failures w <= failures w' /\ unhealthy w' = unhealthy w /\
  (failures w' = failures w -> apps w' !! PrimaryDomain (siteSpec h s) = None).
Proof.
  intros [_ Hready] Ha%runs_App Hnone.
  destruct Ha as [(Hm & _ & ->)|(Hm & [[_ ->]|[[_ ->]|(_ & -> & Hna)]])].
  - repeat split; auto.
  - simpl. repeat split; auto. intros _. apply lookup_delete_eq.
  - simpl. repeat split; auto. intros; lia.
  - destruct (Hready Hm SiteDelete h s) as [spec Hs]. destruct (Hna SiteDelete s) as [e He]. by rewrite Hs in He.
Qed.

Lemma runs_remove_web s h w r w' :
  modules_ready svc s -> runs (applySiteConfig svc (ModuleID s) SiteDelete h s) w r w' ->
  apps w' = apps w /\ failures w <= failures w' /\ unhealthy w' = unhealthy w /\
  (failures w' = failures w -> web w' !! PrimaryDomain (siteSpec h s) = None).
Proof.
  intros [Hready _] [[_ ->]|[[_ ->]|(_ & -> & Hnw)]]%runs_Apply; simpl.
  - repeat split; auto. intros _. apply lookup_delete_eq.
  - repeat split; auto. intros; lia.
  - destruct (Hready SiteDelete h s) as [spec Hs]. destruct (Hnw SiteDelete s) as [e He]. by rewrite Hs in He.
Qed.

Lemma runs_remove_both s h w0 w x1 w1 x2 w' :
  let key := PrimaryDomain (siteSpec h s) in
  modules_ready svc s -> failures w0 + 1 <= failures w + Nat.b2n (unhealthy w) ->
  (managesAppServer (AppType (App_ s)) = false -> apps w !! key = None) ->
  runs (applySiteConfig svc (ModuleID s) SiteDelete h s) w x1 w1 ->
  runs (if_managed (AppType (App_ s)) (applyAppConfig svc (AppType (App_ s)) SiteDelete h s)) w1 x2 w' ->
  one_failure w0 w' -> unserved w' key.
Proof.
  cbv zeta. unfold one_failure. intros Hready Hc Ha Hx1 Hx2 Hone.
  apply runs_remove_web in Hx1 as (Ha4 & Hf4 & Hu4 & Hn4); [|done].
  apply runs_remove_app in Hx2 as (Hw5 & Hf5 & Hu5 & Hn5); [|done|by rewrite Ha4].
  rewrite Hu5, Hu4 in Hone. split; [rewrite Hw5; apply Hn4|apply Hn5]; lia.
Qed.

Lemma stored_key s s' h h' : stored_as s s' -> PrimaryDomain (siteSpec h' s') = PrimaryDomain (siteSpec h s).
Proof.
  assert (Hkey : forall l, d_Domain <$> last (List.filter (fun d => is_primary (d_Type d)) l) =
    fst <$> last (List.filter (fun p => is_primary (snd p)) (map (fun d => (d_Domain d, d_Type d)) l))).
  { intros l. rewrite filter_map_swap. etrans; [|symmetry; apply (f_equal (fmap fst)), fmap_last]. by destruct (last _). }
  intros (_ & _ & _ & Hd). unfold siteSpec. cbn [PrimaryDomain]. by rewrite !Hkey, Hd.
Qed.

Lemma stored_ready s s' : stored_as s s' -> modules_ready svc s -> modules_ready svc s'.
Proof. intros (_ & Hm & Ha & _). unfold modules_ready. by rewrite Hm, Ha. Qed.

Lemma provision_cleans domain h s w r w' :
  let key := PrimaryDomain (siteSpec h s) in
  modules_ready svc s -> unhealthy w = false -> unserved w key ->
  runs (create_provision svc domain h s) w r w' -> one_failure w w' -> is_ok r = false -> unserved w' key.
Proof.
  cbv zeta. intros Hready Hsick [Hweb Happ] Hr Hone Herr. unfold create_provision in Hr.
  apply runs_bind in Hr as (r1 & w1 & Ha & Hr). apply ready_app in Ha; [|done]. destruct r1 as [[]|e].
  2:{ apply runs_delete_audit in Hr as [_ ->].
      by destruct Ha as [(_ & ? & _)|[(_ & ? & _)|[_ ->]]]. }
  assert (Ha' : web w1 = web w /\ failures w1 = failures w /\ unhealthy w1 = false /\
    (managesAppServer (AppType (App_ s)) = false -> apps w1 !! PrimaryDomain (siteSpec h s) = None)).
  { destruct Ha as [(Hm & _ & ->)|[(Hm & _ & ->)|[? _]]]; [done| |done]. simpl. repeat split; auto. congruence. }
  destruct Ha' as (Hw1 & Hf1 & Hu1 & Ha1).
  apply runs_bind in Hr as (r2 & w2 & Hw & Hr). apply ready_web in Hw; [|done]. destruct r2 as [[]|e].
  2:{ destruct Hw as [[? _]|[_ ->]]; [done|].
      apply runs_bind in Hr as (x & w3 & Hx & Hr). apply runs_delete_audit in Hr as [-> ->].
      apply runs_remove_app in Hx as (Hw3 & Hf3 & Hu3 & Ha3); [|done|done]. simpl in *.
      split; [by rewrite Hw3, Hw1|]. apply Ha3. unfold one_failure in Hone. lia. }
  destruct Hw as [[_ ->]|[? _]]; [|done].
  apply runs_bind in Hr as (r3 & w3 & Hh%runs_health & Hr). destruct r3 as [[]|e].
  2:{ destruct Hh as [[? _]| ->]; [done|].
      apply runs_bind in Hr as (x1 & w4 & Hx1 & Hr). apply runs_bind in Hr as (x2 & w5 & Hx2 & Hr).
      apply runs_delete_audit in Hr as [-> ->]. eapply (runs_remove_both _ _ w); [done| | |exact Hx1|exact Hx2|done]; simpl; [lia|done]. }
  assert (Hw3 : apps w3 = apps w1 /\ failures w3 = failures w) by (by destruct Hh as [[_ ->]| ->]).
  destruct Hw3 as [Ha3 Hf3].
  apply runs_bind in Hr as (r4 & w4 & (y & w4' & [Hst Hc] & -> & ->) & Hr). destruct y as [s' [e|]].
  2:{ apply runs_bind in Hr as (? & ? & _ & [-> _]). done. }
  simpl in Hc, Hst. subst w4'. apply runs_bind in Hr as (x1 & w5 & Hx1 & Hr).
  apply runs_bind in Hr as (x2 & w6 & Hx2 & [-> ->]). rewrite <- (stored_key s s' h h Hst).
  eapply (runs_remove_both _ _ w); [by eapply stored_ready| | |exact Hx1|exact Hx2|done];
    [simpl; lia|]. cbn [apps fail].
  rewrite Ha3, (stored_key s s' h h Hst). destruct Hst as (_ & _ & -> & _). done.
Qed.

(** What a successful creation leaves. *)
Lemma provision_stores domain h s w s' w' :
  State_ s = StateActive -> runs (create_provision svc domain h s) w (Ok s') w' ->
  stored_as s s' /\ exists h', consistent w' s' h'.
Proof.
  intros Hactive Hr. unfold create_provision in Hr.
  apply runs_bind in Hr as (r1 & w1 & Ha%runs_App & Hr).
  destruct r1; [|by apply runs_delete_audit in Hr as [? _]].
  apply runs_bind in Hr as (r2 & w2 & Hw%runs_Apply & Hr). destruct r2.
  2:{ apply runs_bind in Hr as (? & ? & _ & Hr). by apply runs_delete_audit in Hr as [? _]. }
  apply runs_bind in Hr as (r3 & w3 & Hh%runs_health & Hr). destruct r3.
  2:{ apply runs_bind in Hr as (? & ? & _ & Hr). apply runs_bind in Hr as (? & ? & _ & Hr).
      by apply runs_delete_audit in Hr as [? _]. }
  apply runs_bind in Hr as (r4 & w4 & (y & w4' & [Hst Hc] & -> & ->) & Hr). destruct y as [s1 [e|]].
  { apply runs_bind in Hr as (? & ? & _ & Hr). by apply runs_bind in Hr as (? & ? & _ & [? _]). }
  apply runs_bind in Hr as (x & w5 & ->%runs_publish & [[= <-] ->]).
  cbn [fst snd] in *. destruct Hc as (h' & ->). split; [done|]. exists h'. pose proof Hst as (Hs & _ & Happ & _).
  unfold consistent. rewrite (stored_key s s' h h' Hst), Hs, Hactive, Happ. cbn [db set_db web apps].
  rewrite lookup_insert_eq.
  assert (web w3 = web w2 /\ apps w3 = apps w2) as [-> ->] by (by destruct Hh as [[_ ->]| ->]).
  destruct Hw as [[_ ->]|[[? _]|(? & _)]]; [|done..]. simpl. rewrite lookup_insert_eq.
  split; [done|]. split; [done|]. intros Hm.
  destruct Ha as [(Hm' & _)|(_ & [[_ ->]|[[? _]|(? & _)]])]; [congruence| |done..].
  simpl. by rewrite lookup_insert_eq.
Qed.

(** The request does not ask for a certificate from Let's Encrypt. *)
Definition no_certbot (req : CreateRequest) : Prop :=
  c_SSLEnabled req = false \/ exists p, c_SSLProvider req = Some p /\ p <> "" /\ p <> "certbot".

Lemma no_certificate req k userID domain w r w' :
  no_certbot req ->
  runs (let '(s, h) := new_site req k userID in create_certificate svc domain h s) w r w' -> r = Ok () /\ w' = w.
Proof.
  intros Hno. destruct (new_site req k userID) as [s h] eqn:Hnew. unfold create_certificate.
  assert (needs_certbot h s = false) as ->; [|by intros [-> ->]]. injection Hnew as <- <-.
  cbv [needs_certbot ssl_of mbind option_bind SSL_]. destruct Hno as [->|(p & Hp & He & Hc)]; [done|].
  destruct (c_SSLEnabled req); [|done]. change (String.eqb (Provider (new_ssl req k)) "certbot" = false).
  cbn [Provider new_ssl]. rewrite Hp.
  destruct (String.eqb_spec p ""); [done|]. by apply String.eqb_neq.
Qed.

(** C6. A site without a Let's Encrypt certificate is created as a whole or not at all.
    Suppose the web server and the application server of the request are registered, no
    certificate of Let's Encrypt is requested ([no_certbot]; with one, the configuration
    made for certbot stays when the application server cannot be provisioned), no health
    probe fails, nothing was served under the domain before, and at most one call to the
    repository and the modules fails.  Then on
    success the site is stored under its domain, active, and served by the web server and
    its application server; on failure nothing is served under its domain. *)
Theorem create_consistent req userID w r w' :
  let key := to_lower (trim_space (c_Domain req)) in
  registered svc (c_ModuleID req) (c_AppType req) -> no_certbot req ->
  unhealthy w = false -> unserved w key ->
  runs (Create svc req userID) w r w' -> one_failure w w' ->
  match r with
  | Ok s => map d_Domain (Domains s) = [key] /\ State_ s = StateActive /\ exists h, consistent w' s h
  | Err _ => unserved w' key
  end.
Proof.
  cbv zeta. intros Hreg Hno Hsick Hun Hr Hone. unfold Create in Hr.
  apply runs_bind in Hr as (x & w1 & [-> Hx]%runs_default & Hr).
  destruct x as [req'|]; [|by destruct Hr as [-> ->]]. destruct Hx as [v ->].
  destruct (check_request (set_version v req)) as [k|]; [|by destruct Hr as [-> ->]].
  apply runs_bind in Hr as (x & w1 & ->%runs_backup & Hr). destruct x; [|by destruct Hr as [-> ->]].
  destruct (new_site (set_version v req) k userID) as [s h] eqn:Hnew.
  apply runs_bind in Hr as (x & w1 & ->%runs_prepare & Hr). destruct x; [|by destruct Hr as [-> ->]].
  apply runs_bind in Hr as (x & w1 & Hc & Hr).
  destruct (no_certificate (set_version v req) k userID (c_Domain (set_version v req)) w x w1) as [-> ->];
    [done|by rewrite Hnew|].
  assert (Hs : ModuleID s = c_ModuleID req /\ AppType (App_ s) = c_AppType req /\ State_ s = StateActive /\
    map d_Domain (Domains s) = [to_lower (trim_space (c_Domain req))] /\
    PrimaryDomain (siteSpec h s) = to_lower (trim_space (c_Domain req))) by (by injection Hnew as <- <-).
  destruct Hs as (Hm & Ha & Hactive & Hd & Hkey). destruct r as [s'|e].
  - apply provision_stores in Hr as [(Hst & _ & _ & Hdom) Hcons]; [|done]. split_and!; [|congruence|done].
    apply (f_equal (map fst)) in Hdom. rewrite !map_map in Hdom. etrans; [apply Hdom|]. exact Hd.
  - rewrite <- Hkey in Hun |- *. rewrite <- Hm, <- Ha in Hreg. apply registered_ready in Hreg.
    by eapply provision_cleans.
Qed.
End creation.

(** ** Updates *)

Section update.
Context `{Unicode} (svc : Service).
Notation runs := (runs site_sem).

Lemma runs_root req s w r w' : runs (update_root req s) w r w' -> w' = w.
Proof.
  unfold update_root. destruct (u_RootPath req); [|by intros [_ ->]].
  destruct (normalizeRootPath _); [|by intros [_ ->]]. destruct (String.eqb _ _); [by intros [_ ->]|].
  intros (x & w1 & -> & Hr). by destruct x; destruct Hr as [_ ->].
Qed.

(** The repository is written only by [RepoUpdate]. *)
Lemma Apply_keeps_db m a h s w r w' : runs (applySiteConfig svc m a h s) w r w' -> db w' = db w.
Proof. by intros [[_ ->]|[[_ ->]|(_ & -> & _)]]%runs_Apply. Qed.

Lemma App_keeps t a h s w r w' :
  runs (if_managed t (applyAppConfig svc t a h s)) w r w' -> db w' = db w /\ web w' = web w.
Proof. by intros [(_ & _ & ->)|(_ & [[_ ->]|[[_ ->]|(_ & -> & _)]])]%runs_App. Qed.

(** Applying an update either fails or stores the site and serves it. *)
Lemma runs_update_apply h previous s w s' w' :
  runs (update_apply svc h previous s) w (Ok s') w' ->
  s' = s /\ db w' = <[ID s := (s, h)]> (db w) /\ web w' !! PrimaryDomain (siteSpec h s) = Some true.
Proof.
  unfold update_apply. intros (r1 & w1 & [Hd1 _]%App_keeps & Hr)%runs_bind.
  destruct r1; [|by destruct Hr].
  apply runs_bind in Hr as (r2 & w2 & Hw%runs_Apply & Hr). destruct r2.
  2:{ by apply runs_bind in Hr as (? & ? & _ & [? _]). }
  destruct Hw as [[_ ->]|[[? _]|(? & _)]]; [|done..].
  apply runs_bind in Hr as (r3 & w3 & Hh%runs_health & Hr). destruct r3.
  2:{ apply runs_bind in Hr as (? & ? & _ & Hr). by apply runs_bind in Hr as (? & ? & _ & [? _]). }
  apply runs_bind in Hr as (r4 & w4 & Ho & Hr). destruct r4.
  2:{ do 3 (apply runs_bind in Hr as (? & ? & _ & Hr)). by destruct Hr. }
  assert (db w4 = db w3 /\ web w4 = web w3) as [Hd4 Hw4].
  { destruct (appConfigurationChanged _ _); [by apply App_keeps in Ho|]. by destruct Ho as [_ ->]. }
  apply runs_bind in Hr as (r5 & w5 & (y & w5' & Hu & -> & ->) & Hr). destruct y.
  2:{ do 3 (apply runs_bind in Hr as (? & ? & _ & Hr)). by destruct Hr. }
  apply runs_bind in Hr as (x & w6 & ->%runs_publish & [[= <-] ->]).
  destruct Hu as [[_ ->]|[? _]]; [|done]. cbn [db set_db web]. rewrite Hd4, Hw4.
  destruct Hh as [[_ ->]| ->]; cbn [db set_web web sick]; rewrite Hd1;
    (split_and!; [done|done|]); cbn [served]; by rewrite lookup_insert_eq.
Qed.

Lemma runs_update_certificate h previous s w r w' :
  runs (update_certificate svc h previous s) w r w' -> db w' = db w.
Proof.
  unfold update_certificate. destruct (negb _); [by intros [_ ->]|].
  intros (r1 & w1 & Ha%Apply_keeps_db & Hr)%runs_bind. destruct r1; [|by destruct Hr as [_ ->]].
  destruct Hr as (? & ? & -> & Hr). cbn [bind call] in Hr.
  apply runs_bind in Hr as (r2 & w2 & Ho & Hr).
  assert (w2 = w1) as ->.
  { unfold obtainCertbotSSL, ObtainCertificate in Ho. destruct (registry svc "certbot"); [|by destruct Ho].
    destruct (is_certbot _); [|by destruct Ho]. by destruct Ho as (? & ? & -> & _ & ->). }
  destruct r2; [by destruct Hr as [_ ->]|].
  apply runs_bind in Hr as (? & ? & Hb%Apply_keeps_db & [_ ->]). congruence.
Qed.

(** C15. An update that succeeds is stored and served: the site keeps its
    identifier, domains and state, the repository holds it and no other row
    changed, and the web server serves it. *)
Theorem update_stored_and_served id req w s' w' :
  runs (Update svc id req) w (Ok s') w' ->
  exists s h h', db w !! id = Some (s, h) /\
    ID s' = ID s /\ Domains s' = Domains s /\ State_ s' = State_ s /\
    db w' = <[ID s := (s', h')]> (db w) /\ web w' !! PrimaryDomain (siteSpec h' s') = Some true.
Proof.
  unfold Update. intros (r1 & w1 & ->%runs_backup & Hr)%runs_bind. destruct r1; [|by destruct Hr].
  apply runs_bind in Hr as (r2 & w2 & (y & w2' & [Hf ->] & -> & ->) & Hr).
  destruct y as [[s h]|]; [|by destruct Hr]. cbn [fst snd] in Hr. unfold update_found in Hr.
  apply runs_bind in Hr as (r3 & w3 & ->%runs_root & Hr). destruct r3 as [root|]; [|by destruct Hr].
  destruct (update_app req (App_ s)) as [app|]; [|by destruct Hr].
  destruct (validateProxy _ _ _) as [host|]; [|by destruct Hr].
  destruct (update_ssl req h (SSL_ s)) as [[h' ssl]|]; [|by destruct Hr].
  apply runs_bind in Hr as (r4 & w4 & Hc%runs_update_certificate & Hr). destruct r4; [|by destruct Hr].
  apply runs_update_apply in Hr as (-> & Hd & Hw). exists s, h, h'. rewrite Hd, Hc. by split_and!.
Qed.
End update.

(** ** A shared SSL record *)

Section aliasing.
Context `{Unicode} (svc : Service).

(** The call is not a request for a certificate. *)
Definition no_certificate_request X (e : site_call X) : Prop :=
  match e with ObtainCert _ _ => False | _ => True end.
Notation quiet p := (always no_certificate_request (fun _ => True) p).

Lemma quiet_bind {A B} (p : prog site_call A) (f : A -> prog site_call B) :
  quiet p -> (forall a, quiet (f a)) -> quiet (bind p f).
Proof. intros Hp Hf. eapply always_bind; [done|]. intros a _. apply Hf. Qed.

Lemma quiet_Apply m a h s : quiet (applySiteConfig svc m a h s).
Proof. unfold applySiteConfig, Apply. destruct (registry svc m) as [p|]; [destruct (is_web p)|]; by simpl. Qed.

Lemma quiet_App t a h s : quiet (if_managed t (applyAppConfig svc t a h s)).
Proof.
  unfold if_managed, applyAppConfig, DeployApp. destruct (managesAppServer t); [|done].
  destruct (registry svc t) as [p|]; [destruct (is_app p)|]; by simpl.
Qed.

Ltac quiet_probe IH :=
  simpl; (try done); (split; [done|]); intros x; repeat destruct x as [x ?];
  (case_match; [done|]); (split; [done|]); intros [|]; (done || apply IH).

Lemma quiet_probe_remote n d status last : quiet (probe_remote n d status last).
Proof. revert status last; induction n as [|n IH]; intros; quiet_probe IH. Qed.

Lemma quiet_probe_local n d o e last : quiet (probe_local n d o e last).
Proof. revert o e last; induction n as [|n IH]; intros; quiet_probe IH. Qed.

Lemma quiet_health s : quiet (verifySiteHealth svc s).
Proof.
  unfold verifySiteHealth. destruct (Domains s); [split; [done|by intros []]|].
  destruct (remote svc); [apply quiet_probe_remote|apply quiet_probe_local].
Qed.

Lemma quiet_publish e : quiet (publishLifecycle svc e).
Proof. unfold publishLifecycle. by destruct (has_events svc). Qed.

Lemma quiet_update_apply h previous s : quiet (update_apply svc h previous s).
Proof.
  unfold update_apply, bind_wrap.
  repeat first [ apply quiet_Apply | apply quiet_App | apply quiet_health | apply quiet_publish
               | apply quiet_bind; [|intros ?] | done | case_match ].
Qed.

(** Changing the record through the pointer changes it for both holders. *)
Lemma shared_ssl_no_certbot req h a h' ssl previous name root app enabled host port :
  SSL_ previous = Some a -> update_ssl req h (Some a) = Ok (h', ssl) ->
  update_needs_certbot h' previous (set_site previous name root app ssl enabled host port) = false.
Proof.
  intros Hp Hu. assert (ssl = None \/ ssl = Some a) as Hssl.
  { unfold update_ssl in Hu. destruct (u_SSLEnabled req) as [[]|]; simpl in Hu;
      try (destruct (h !! a); [apply bind_result_ok in Hu as (? & _ & Hu)|]); simplify_eq; auto. }
  unfold update_needs_certbot, needs_certbot at 1, ssl_of. cbn [SSL_ set_site].
  destruct Hssl as [-> | ->]; [done|]. unfold needs_certbot, ssl_of. rewrite Hp.
  cbn [mbind option_bind]. destruct (h' !! a); [|done]. apply andb_negb_r.
Qed.

(** Once a site has an SSL record, no update requests a certificate, not even one
    that changes the provider from custom to certbot: [previous] shares the record
    with the site being changed, so the comparison with the previous provider sees
    the new one. *)
Theorem existing_ssl_never_certbot req previous h a :
  SSL_ previous = Some a -> always no_certificate_request (fun _ => True) (update_found svc req previous h).
Proof.
  intros Ha. unfold update_found, bind_err. apply quiet_bind.
  { unfold update_root, bind_wrap. destruct (u_RootPath req); [|done].
    destruct (normalizeRootPath _); [|done]. destruct (String.eqb _ _); [done|].
    apply quiet_bind; [done|]. by intros []. }
  intros [root|]; [|done]. destruct (update_app req (App_ previous)) as [app|]; [|done].
  destruct (validateProxy _ _ _) as [host|]; [|done].
  destruct (update_ssl req h (SSL_ previous)) as [[h' ssl]|] eqn:Hu; [|done]. rewrite Ha in Hu.
  apply quiet_bind.
  - unfold update_certificate. by rewrite (shared_ssl_no_certbot _ _ _ _ _ _ _ _ _ _ _ _ Ha Hu).
  - intros [|]; [apply quiet_update_apply|done].
Qed.
End aliasing.

(** ** Runs *)

#[local] Existing Instance unicode_ascii.

(** A remote server with nginx and nothing else. *)
Definition nginx_service : Service := {|
  has_backup := false; has_settings := false; has_audit := false; has_events := false; remote := true;
  registry := fun m => if String.eqb m "nginx" then Some {| is_web := true; is_app := false; is_certbot := false |}
                       else None |}.

Definition static_request : CreateRequest := {|
  c_Name := "Example"; c_Domain := "Example.org"; c_ModuleID := "nginx"; c_RootPath := "/var/www/example";
  c_AppType := "static"; c_AppVersion := None; c_ProxyTarget := None; c_SSLEnabled := false;
  c_SSLProvider := None; c_SSLCert := None; c_SSLKey := None; c_ProxyEnabled := false; c_ProxyHost := None;
  c_ProxyPort := None |}.

Definition static_site (id : string) : Site := {|
  ID := id; Name := "Example"; ModuleID := "nginx"; RootPath := "/var/www/example"; State_ := StateActive;
  OwnerID := Some "u1";
  Domains := [{| d_ID := ""; d_SiteID := ""; d_Domain := "example.org"; d_Type := DomainPrimary |}];
  App_ := {| a_SiteID := ""; AppType := "static"; AppVersion := None; ProxyTarget := None; CustomConfig := None |};
  SSL_ := None; ProxyEnabled := false; ProxyHost := ""; ProxyPort := 0 |}.

Definition empty_world : world := {| db := empty; web := empty; apps := empty; failures := 0; unhealthy := false |}.

(** The world with the site stored and served. *)
Definition served_world : world :=
  set_web {["example.org" := true]} (set_db {["s1" := (static_site "s1", empty)]} empty_world).

(** The next call answers [x] and leaves [w]. *)
Ltac answers x w :=
  exists x, w; split; [first [reflexivity | by left | by right | by split | by repeat esplit]|].

Lemma nginx_registered : registered nginx_service "nginx" "static".
Proof. split; [|done]. by eexists. Qed.

Lemma create_run (w : world) :
  runs site_sem (Create nginx_service static_request "u1") w (Ok (static_site "s1"))
    (set_db (<["s1" := (static_site "s1", empty)]> (db w)) (set_web (<["example.org" := true]> (web w)) w)).
Proof.
  answers (Ok () : result error ()) w. answers (Ok "www-data" : result error string) w.
  answers (Ok () : result error ()) (set_web (<["example.org" := true]> (web w)) w).
  answers (200%Z, @None error) (set_web (<["example.org" := true]> (web w)) w).
  exists (static_site "s1", None). eexists. split; [|by split]. split; [by split_and!|by eexists].
Qed.

Lemma create_consistent_witness :
  map d_Domain (Domains (static_site "s1")) = ["example.org"] /\ State_ (static_site "s1") = StateActive /\
  exists h, consistent served_world (static_site "s1") h.
Proof.
  refine (create_consistent nginx_service static_request "u1" empty_world (Ok (static_site "s1")) served_world
            nginx_registered (or_introl eq_refl) eq_refl (conj eq_refl eq_refl) (create_run empty_world) _).
  by vm_compute; auto.
Defined.

(** Creation looks for another site with the same domain only when it stores the
    row, after the configuration was written: the repository refuses the duplicate,
    and the compensation removes the configuration of the domain, which was that
    of the site that is stored and stays so. *)
Theorem duplicate_domain_unserves :
  consistent served_world (static_site "s1") empty /\
  exists e w', runs site_sem (Create nginx_service static_request "u2") served_world (Err e) w' /\
    failures w' = 1 /\ db w' = db served_world /\ web w' !! "example.org" = None.
Proof.
  split; [by split_and!|]. exists (AppErrors.App (New 409 CodeSiteAlreadyExists "domain already exists: example.org")).
  eexists. split; [|split_and!].
  - set (w := served_world). answers (Ok () : result error ()) w. answers (Ok "www-data" : result error string) w.
    answers (Ok () : result error ()) (set_web (<["example.org" := true]> (web w)) w).
    answers (200%Z, @None error) (set_web (<["example.org" := true]> (web w)) w).
    exists (static_site "s2", Some (AppErrors.App (New 409 CodeSiteAlreadyExists "domain already exists: example.org"))),
      (fail (set_web (<["example.org" := true]> (web w)) w)). split; [by repeat split|].
    exists (Ok ()). eexists. split; [by left|]. by split.
  - done.
  - done.
  - simpl. apply lookup_delete_eq.
Qed.

Lemma lifecycle_consistent_witness :
  consistent (set_web {["example.org" := false]}
    (set_db {["s1" := (with_state StateDisabled (static_site "s1"), empty)]} empty_world))
    (with_state StateDisabled (static_site "s1")) empty.
Proof.
  refine (lifecycle_consistent nginx_service "s1" false served_world (static_site "s1") empty (Ok ()) _
            eq_refl eq_refl nginx_registered _ _ _).
  - by split_and!.
  - answers (Ok (static_site "s1", empty) : result error (Site * heap)) served_world.
    exists (Ok ()). eexists. split; [by left|]. exists (Ok ()). eexists. split; [by left|]. by split.
  - by vm_compute; auto.
Defined.

Definition rename : UpdateRequest := {|
  u_Name := Some "Renamed"; u_ModuleID := None; u_RootPath := None; u_AppType := None; u_AppVersion := None;
  u_ProxyTarget := None; u_SSLEnabled := None; u_SSLProvider := None; u_SSLCert := None; u_SSLKey := None;
  u_ForceHTTPS := None; u_ProxyEnabled := None; u_ProxyHost := None; u_ProxyPort := None |}.

(** The world with the site stored as disabled, and not served. *)
Definition disabled_world : world :=
  set_web {["example.org" := false]}
    (set_db {["s1" := (with_state StateDisabled (static_site "s1"), empty)]} empty_world).

(** Renaming a disabled site serves it, and it is still stored as disabled. *)
Lemma update_stored_and_served_witness :
  exists s' w' s h h', runs site_sem (Update nginx_service "s1" rename) disabled_world (Ok s') w' /\
    db disabled_world !! "s1" = Some (s, h) /\
    ID s' = ID s /\ Domains s' = Domains s /\ State_ s' = State_ s /\
    db w' = <[ID s := (s', h')]> (db disabled_world) /\ web w' !! PrimaryDomain (siteSpec h' s') = Some true /\
    State_ s = StateDisabled.
Proof.
  set (off := with_state StateDisabled (static_site "s1")).
  set (s' := set_site off "Renamed" (RootPath off) (App_ off) None false "" 0).
  set (w' := set_db (<["s1" := (s', empty)]> (db disabled_world)) (set_web (<["example.org" := true]> (web disabled_world)) disabled_world)).
  assert (Hr : runs site_sem (Update nginx_service "s1" rename) disabled_world (Ok s') w').
  { answers (Ok (off, empty) : result error (Site * heap)) disabled_world.
    exists (Ok ()). eexists. split; [by left|]. answers (200%Z, @None error) (set_web (<["example.org" := true]> (web disabled_world)) disabled_world).
    exists (Ok ()), w'. split; [by left|]. by split. }
  destruct (update_stored_and_served nginx_service "s1" rename disabled_world s' w' Hr)
    as (s & h & h' & Hs & H1 & H2 & H3 & H4 & H5).
  exists s', w', s, h, h'. injection Hs as <- <-. by split_and!.
Defined.

Definition ssl_site : Site :=
  set_site (static_site "s1") "Example" "/var/www/example" (App_ (static_site "s1")) (Some 0) false "" 0.

Definition to_certbot : UpdateRequest := {|
  u_Name := None; u_ModuleID := None; u_RootPath := None; u_AppType := None; u_AppVersion := None;
  u_ProxyTarget := None; u_SSLEnabled := None; u_SSLProvider := Some "certbot"; u_SSLCert := None; u_SSLKey := None;
  u_ForceHTTPS := None; u_ProxyEnabled := None; u_ProxyHost := None; u_ProxyPort := None |}.

Lemma existing_ssl_never_certbot_witness :
  always no_certificate_request (fun _ => True) (update_found nginx_service to_certbot ssl_site {[0 := blank_ssl]}).
Proof. exact (existing_ssl_never_certbot nginx_service to_certbot ssl_site {[0 := blank_ssl]} 0 eq_refl). Defined.
