(* ===== verification/Nginx.v ===== *)
(** * The nginx module

    src/modules/nginx/sites.go with its template templates/site.conf.tmpl, the check
    of domains in data_grid_service.go, and src/internal/agent/nginxsite/manager.go,
    the part of the Agent that does the same on a remote server.

    [ApplySite] writes two files per site, one under sites-available and one under
    sites-enabled, tests the configuration, reloads nginx, and puts the files back
    when something fails.  [WebServerPlugin] is what the site service relies on; the
    module is an instance of it. *)

From S2P Require Import Prelude GoStrings GoStrconv GoRegexp AppErrors Effects SiteDomain Site.
Local Open Scope string_scope.
Local Open Scope go_scope.

(** ** The template *)

Section template.
Context (site : SiteSpec).

Definition php : bool := String.eqb (sp_AppType site) "php".

Definition quoted (s : string) : string := String dquote s ++ String dquote "".

(** source: modules/nginx/templates/site.conf.tmpl:7-7 (server_name) *)
Definition server_name : string :=
  "    server_name " ++ PrimaryDomain site ++ String.concat "" (map (fun a => " " ++ a) (Aliases site)) ++ ";".

(** source: modules/nginx/templates/site.conf.tmpl:135-167 (location /) *)
Definition location : list string :=
  if sp_ProxyEnabled site then
    [ "    location / {";
      "        proxy_pass http://" ++ sp_ProxyHost site ++ ":" ++ itoa (sp_ProxyPort site) ++ ";";
      "        proxy_http_version 1.1;";
      "        proxy_set_header Host $host;";
      "        proxy_set_header X-Real-IP $remote_addr;";
      "        proxy_set_header X-Forwarded-For $proxy_add_x_forwarded_for;";
      "        proxy_set_header X-Forwarded-Proto $scheme;";
      "        proxy_set_header Upgrade $http_upgrade;";
      "        proxy_set_header Connection " ++ quoted "upgrade" ++ ";";
      "    }" ]
  else if php then
    [ "    location / {";
      "        try_files $uri $uri/ /index.php?$query_string;";
      "    }";
      "";
      "    location ~ \.php$ {";
      "        include snippets/fastcgi-php.conf;";
      "        fastcgi_pass unix:/run/php/php" ++ sp_AppVersion site ++ "-fpm-" ++ PrimaryDomain site ++ ".sock;";
      "    }" ]
  else if String.eqb (sp_AppType site) "proxy" then
    [ "    location / {";
      "        proxy_pass " ++ sp_ProxyTarget site ++ ";";
      "        proxy_http_version 1.1;";
      "        proxy_set_header Upgrade $http_upgrade;";
      "        proxy_set_header Connection 'upgrade';";
      "        proxy_set_header Host $host;";
      "        proxy_cache_bypass $http_upgrade;";
      "    }" ]
  else
    [ "    location / {";
      "        try_files $uri $uri/ =404;";
      "    }" ].

(** source: modules/nginx/templates/site.conf.tmpl:123-167 (the body of a server) *)
Definition server_body : list string :=
  [ "    root " ++ sp_RootPath site ++ ";";
    (if php then "    index index.php index.html index.htm;" else "    index index.html index.htm;");
    "";
    "    location /.well-known/acme-challenge/ {";
    "        root /var/www/_opendeploy_acme;";
    "        allow all;";
    "    }" ] ++ location.

Definition listen_80 : list string := ["server {"; "    listen 80;"; "    listen [::]:80;"; server_name].

(** source: modules/nginx/templates/site.conf.tmpl:1-170 (site.conf.tmpl): [{{-] removes
    the white space before it, so every block starts with its line break *)
Definition site_lines : list string :=
  [ "# Managed by OpenDeploy Nginx Module."; "# Manual changes will be overwritten." ] ++
  if SSLEnabled site then
    listen_80 ++
    (if sp_ForceHTTPS site then ["    return 301 https://$host$request_uri;"] else server_body) ++
    [ "}"; ""; "server {"; "    listen 443 ssl;"; "    listen [::]:443 ssl;"; server_name; "";
      "    ssl_certificate " ++ SSLCert site ++ ";";
      "    ssl_certificate_key " ++ SSLKey site ++ ";";
      "    ssl_protocols TLSv1.2 TLSv1.3;";
      "    ssl_ciphers HIGH:!aNULL:!MD5;"; "" ] ++ server_body ++ ["}"]
  else listen_80 ++ [""] ++ server_body ++ ["}"].

(** source: modules/nginx/sites.go:126-132 (renderNginx) *)
Definition renderNginx : string :=
  String.concat "" (map (fun l => l ++ String (ascii_of_nat 10) "") site_lines).
End template.

(** ** Applying a site *)

(** The calls to the Agent.  [NginxTest] is the run of nginx -t: the exit code and
    the outputs, or none when the command was not run, and an error. *)
Inductive nginx_call : Set -> Set :=
| FileRead (path : string) : nginx_call (result error string)
| FileWrite (path content : string) (mode : Z) : nginx_call (result error ())
| FileRemove (path : string) : nginx_call (result error ())
| FileCopy (src dst : string) : nginx_call (result error ())
| NginxTest : nginx_call (option (Z * string * string) * option error)
| ServiceReload (name : string) : nginx_call (result error ()).

Notation nginx_prog A := (prog nginx_call A).

(** source: modules/nginx/data_grid_service.go:206-222 (validManagedDomain) *)
Definition validManagedDomain (domain : string) : bool :=
  negb (String.eqb domain "" || (253 <? len domain)%Z || contains_any domain ("/:@" ++ String backslash "")) &&
  forallb (fun label =>
    negb (String.eqb label "" || (63 <? len label)%Z || has_prefix label "-" || has_suffix label "-") &&
    forallb (fun r => r_lower r || r_upper r || r_digit r || (r =? 45)%Z) (runes label))
    (split "." domain).

Definition available (domain : string) : string := "/etc/nginx/sites-available/opendeploy-" ++ domain ++ ".conf".
Definition enabled (domain : string) : string := "/etc/nginx/sites-enabled/opendeploy-" ++ domain ++ ".conf".

(** source: modules/nginx/sites.go:97-100 (fileSnapshot): the content, if the file exists *)
Definition fileSnapshot : Set := option string.

(** source: modules/nginx/sites.go:102-105 (readSnapshot) *)
Definition readSnapshot (path : string) : nginx_prog fileSnapshot :=
  let! r := call (FileRead path) in Ret match r with Ok c => Some c | Err _ => None end.

(** source: modules/nginx/sites.go:107-113 (restoreSnapshot) *)
Definition restoreSnapshot (path : string) (snapshot : fileSnapshot) : nginx_prog () :=
  match snapshot with
  | Some content => ignore! (call (FileWrite path content 420)) in Ret ()
  | None => ignore! (call (FileRemove path)) in Ret ()
  end.

Definition test_failed (t : option (Z * string * string) * option error) : bool :=
  match t with (Some (code, _, _), None) => negb (code =? 0)%Z | _ => true end.

Definition test_error (t : option (Z * string * string) * option error) : error :=
  match t with
  | (Some (_, out, err), _) => Plain ("nginx config test failed: " ++ out ++ String (ascii_of_nat 10) err)
  | _ => Plain ("nginx config test failed: " ++ String (ascii_of_nat 10) "")
  end.

(** Testing the configuration and reloading; [ApplySite] writes this out for an upsert,
    with another message. *)
Definition test_reload (msg : string) : nginx_prog (result error ()) :=
  let! t := call NginxTest in
  if test_failed t then Ret (Err (test_error t))
  else wrap! (Wrapped msg) of _ := call (ServiceReload "nginx") in Ret (Ok ()).

(** source: modules/nginx/sites.go:115-124 (validateAndReload) *)
Definition validateAndReload : nginx_prog (result error ()) := test_reload "nginx: reload".

(** source: modules/nginx/sites.go:41-51 (ApplySite, the files of an upsert) *)
Definition write_files (msg1 msg2 content configPath enabledPath : string) (configSnapshot : fileSnapshot) :
    nginx_prog (result error ()) :=
  wrap! (Wrapped msg1) of _ := call (FileWrite configPath content 420) in
  let! r := call (FileWrite enabledPath content 420) in
  match r with
  | Err e => ignore! (restoreSnapshot configPath configSnapshot) in Ret (Err (Wrapped msg2 e))
  | Ok _ => Ret (Ok ())
  end.

(** source: modules/nginx/sites.go:80-86 (ApplySite, the files of a deletion) *)
Definition remove_files (msg1 msg2 configPath enabledPath : string) (enabledSnapshot : fileSnapshot) :
    nginx_prog (result error ()) :=
  wrap! (Wrapped msg1) of _ := call (FileRemove enabledPath) in
  let! r := call (FileRemove configPath) in
  match r with
  | Err e => ignore! (restoreSnapshot enabledPath enabledSnapshot) in Ret (Err (Wrapped msg2 e))
  | Ok _ => Ret (Ok ())
  end.

(** The files are changed, the result is checked, and a check that fails undoes the
    change. *)
Definition checked_change (change check : nginx_prog (result error ())) (undo : nginx_prog ()) :
    nginx_prog (result error ()) :=
  try! _ := change in
  let! r := check in
  match r with
  | Err e => ignore! undo in Ret (Err e)
  | Ok _ => Ret (Ok ())
  end.

Definition restore_both (configPath enabledPath : string) (configSnapshot enabledSnapshot : fileSnapshot) :
    nginx_prog () :=
  ignore! (restoreSnapshot configPath configSnapshot) in restoreSnapshot enabledPath enabledSnapshot.

(** source: modules/nginx/sites.go:34-95 (ApplySite, on the local server) *)
Definition ApplySite_local (action : SiteAction) (site : SiteSpec) : nginx_prog (result error ()) :=
  let configPath := available (PrimaryDomain site) in
  let enabledPath := enabled (PrimaryDomain site) in
  match action with
  | SiteUpsert =>
      let! configSnapshot := readSnapshot configPath in
      let! enabledSnapshot := readSnapshot enabledPath in
      checked_change
        (write_files "nginx: write config" "nginx: enable site" (renderNginx site) configPath enabledPath configSnapshot)
        (test_reload "nginx: reload after site change")
        (restore_both configPath enabledPath configSnapshot enabledSnapshot)
  | SiteEnable =>
      let! configSnapshot := readSnapshot configPath in
      let! enabledSnapshot := readSnapshot enabledPath in
      checked_change
        (wrap! (Wrapped "nginx: enable site") of _ := call (FileCopy configPath enabledPath) in Ret (Ok ()))
        (test_reload "nginx: reload after site change")
        (restore_both configPath enabledPath configSnapshot enabledSnapshot)
  | SiteDisable =>
      let! enabledSnapshot := readSnapshot enabledPath in
      checked_change
        (wrap! (Wrapped "nginx: disable site") of _ := call (FileRemove enabledPath) in Ret (Ok ()))
        validateAndReload (restoreSnapshot enabledPath enabledSnapshot)
  | SiteDelete =>
      let! configSnapshot := readSnapshot configPath in
      let! enabledSnapshot := readSnapshot enabledPath in
      checked_change
        (remove_files "nginx: delete enabled site" "nginx: delete site config" configPath enabledPath enabledSnapshot)
        validateAndReload (restore_both configPath enabledPath configSnapshot enabledSnapshot)
  end.

(** ** The Agent's manager *)

(** source: internal/agent/nginxsite/manager.go:15-15 (managedDomainPattern) *)
Definition managedDomainPattern : re :=
  let inner := Cls (fun r => r_alnum r || one_of ".-" r) in
  Cat (Cls r_alnum) (opt (Cat (upto 251 inner) (Cls r_alnum))).

(** source: internal/agent/nginxsite/manager.go:88-92 (validDomain) *)
Definition validDomain (domain : string) : bool :=
  (len domain <=? 253)%Z && match_string managedDomainPattern domain && negb (contains domain "..").

(** source: internal/agent/nginxsite/manager.go:107-119 (validateAndReload) *)
Definition agent_validateAndReload : nginx_prog (result error ()) :=
  let! t := call NginxTest in
  if test_failed t then
    Ret (Err match t with
             | (None, Some e) => Wrapped "nginx configuration validation failed" e
             | (None, None) => Plain "nginx configuration validation failed: %!w(<nil>)"
             | (Some (_, _, err), _) => Plain ("nginx configuration validation failed: " ++ trim_space err)
             end)
  else wrap! (Wrapped "reload nginx") of _ := call (ServiceReload "nginx") in Ret (Ok ()).

(** source: internal/agent/nginxsite/manager.go:45-78 (Apply, the files) *)
Definition agent_files (action : SiteAction) (content configPath enabledPath : string)
    (configSnapshot enabledSnapshot : fileSnapshot) : nginx_prog (result error ()) :=
  match action with
  | SiteUpsert =>
      if String.eqb content "" then Ret (Err (Plain "nginx site content is required"))
      else
      write_files "write nginx site config" "enable nginx site" content configPath enabledPath configSnapshot
  | SiteEnable =>
      match configSnapshot with
      | None => Ret (Err (Plain "nginx site config does not exist"))
      | Some content =>
          wrap! (Wrapped "enable nginx site") of _ := call (FileWrite enabledPath content 420) in Ret (Ok ())
      end
  | SiteDisable => wrap! (Wrapped "disable nginx site") of _ := call (FileRemove enabledPath) in Ret (Ok ())
  | SiteDelete =>
      remove_files "delete enabled nginx site" "delete nginx site config" configPath enabledPath enabledSnapshot
  end.

(** source: internal/agent/nginxsite/manager.go:32-86 (Apply): all managers are set *)
Definition agent_Apply (action : SiteAction) (domain content : string) : nginx_prog (result error ()) :=
  if negb (validDomain domain) then Ret (Err (Plain "invalid managed nginx domain"))
  else
    let configPath := available domain in
    let enabledPath := enabled domain in
    let! configSnapshot := readSnapshot configPath in
    let! enabledSnapshot := readSnapshot enabledPath in
    checked_change (agent_files action content configPath enabledPath configSnapshot enabledSnapshot)
      agent_validateAndReload (restore_both configPath enabledPath configSnapshot enabledSnapshot).

(** source: modules/nginx/sites.go:19-95 (ApplySite): on a remote server with a typed
    Agent the request goes to the Agent's manager *)
Definition ApplySite (remote : bool) (action : SiteAction) (site : SiteSpec) : nginx_prog (result error ()) :=
  if negb (validManagedDomain (PrimaryDomain site)) then Ret (Err (Plain "nginx: invalid primary domain"))
  else if remote then
    agent_Apply action (PrimaryDomain site) (if bool_decide (action = SiteUpsert) then renderNginx site else "")
  else ApplySite_local action site.

(** ** What the site service relies on

    A web server plugin runs actions on a world of its own, of which the service sees
    only which domains are served.  A run with at most one fault brings about what
    the service expects of the action, or fails and leaves what is served as it was. *)

Definition served_view (a : SiteAction) (key : string) (v : string -> option bool) (k : string) : option bool :=
  if String.eqb k key then
    match a with SiteUpsert | SiteEnable => Some true | SiteDisable => Some false | SiteDelete => None end
  else v k.

Class WebServerPlugin (W : Type) := {
  ws_run : SiteAction -> SiteSpec -> W -> result error () -> W -> Prop;
  ws_view : W -> string -> option bool;
  ws_inv : W -> Prop;
  ws_faults : W -> nat;
  (** faults only add up *)
  ws_mono a spec w r w' : ws_run a spec w r w' -> ws_faults w <= ws_faults w';
  ws_law a spec w r w' :
    ws_inv w -> (a = SiteDisable -> ws_view w (PrimaryDomain spec) <> None) ->
    ws_run a spec w r w' -> ws_faults w' <= ws_faults w + 1 ->
    ws_inv w' /\
    forall k, ws_view w' k = if is_ok r then served_view a (PrimaryDomain spec) (ws_view w) k else ws_view w k;
}.

Lemma served_lookup a key m k : served a key m !! k = served_view a key (fun k => m !! k) k.
Proof.
  unfold served, served_view. destruct (String.eqb_spec k key) as [->|Hne].
  - destruct a; by rewrite ?lookup_insert_eq, ?lookup_delete_eq.
  - destruct a; by rewrite ?lookup_insert_ne, ?lookup_delete_ne by done.
Qed.

(** The step of [Site.site_sem] for a web server, on the map of served domains. *)
Definition web_step (a : SiteAction) (key : string) (r : result error ()) (m m' : gmap string bool) : Prop :=
  r = Ok () /\ m' = served a key m \/ is_ok r = false /\ m' = m.

Lemma plugin_simulates `{WebServerPlugin W} a spec w r w' m :
  ws_inv w -> (forall k, ws_view w k = m !! k) -> (a = SiteDisable -> m !! PrimaryDomain spec <> None) ->
  ws_run a spec w r w' -> ws_faults w' <= ws_faults w + 1 ->
  exists m', web_step a (PrimaryDomain spec) r m m' /\ ws_inv w' /\ forall k, ws_view w' k = m' !! k.
Proof.
  intros Hinv Hm Hk Hr Hf. destruct (ws_law a spec w r w') as [Hinv' Hv]; [done|by rewrite Hm|done..|].
  destruct r as [[]|e]; [exists (served a (PrimaryDomain spec) m)|exists m].
  - split; [by left|]. split; [done|]. intros k. rewrite Hv, served_lookup. unfold served_view. simpl.
    destruct (String.eqb k _); [done|apply Hm].
  - split; [by right|]. split; [done|]. intros k. by rewrite Hv, <- Hm.
Qed.

(** ** Files, faults, and what the module does to them *)

Record nginx_world := { files : gmap string string; faults : nat }.

Definition with_files (m : gmap string string) (w : nginx_world) : nginx_world := {| files := m; faults := faults w |}.
Definition with_faults (n : nat) (w : nginx_world) : nginx_world := {| files := files w; faults := n + faults w |}.

(** A file gets a content, or is gone. *)
Definition put (p : string) (c : option string) (m : gmap string string) : gmap string string :=
  partial_alter (fun _ => c) p m.

(** A call that changes a file, or fails and changes nothing. *)
Definition may_fault (x : result error ()) (w done w' : nginx_world) : Prop :=
  x = Ok () /\ w' = done \/ is_ok x = false /\ w' = with_faults 1 w.

(** The Agent's files: removing a file that is not there succeeds, a copy without a source
    fails, and a call that fails changes nothing.  [torn_sem] has the other failures. *)
Definition nginx_sem X (e : nginx_call X) (w : nginx_world) (x : X) (w' : nginx_world) : Prop :=
  match e in nginx_call X return X -> Prop with
  | FileRead p => fun x =>
      match x with
      | Ok c => files w !! p = Some c /\ w' = w
      | Err _ => files w !! p = None /\ w' = w \/ w' = with_faults 1 w
      end
  | FileWrite p c _ => fun x => may_fault x w (with_files (put p (Some c) (files w)) w) w'
  | FileRemove p => fun x => may_fault x w (with_files (put p None (files w)) w) w'
  | FileCopy src dst => fun x =>
      match x with
      | Ok _ => exists c, files w !! src = Some c /\ w' = with_files (put dst (Some c) (files w)) w
      | Err _ => files w !! src = None /\ w' = w \/ w' = with_faults 1 w
      end
  | NginxTest => fun t => w' = if test_failed t then with_faults 1 w else w
  | ServiceReload _ => fun x => may_fault x w w w'
  end x.

(** With failures that come after the file was changed: a copy that breaks off leaves any content, and
    a file is written although the sync of its directory fails. *)
Definition torn_sem X (e : nginx_call X) (w : nginx_world) (x : X) (w' : nginx_world) : Prop :=
  nginx_sem X e w x w' \/
  match e in nginx_call X return X -> Prop with
  | FileWrite p c _ => fun x => is_ok x = false /\ w' = with_faults 1 (with_files (put p (Some c) (files w)) w)
  | FileCopy _ dst => fun x => is_ok x = false /\ exists c, w' = with_faults 1 (with_files (put dst (Some c) (files w)) w)
  | _ => fun _ => False
  end x.

Create HintDb nginx.

Section atomic.
Notation runs := (runs nginx_sem).

Lemma lookup_put_eq p c m : put p c m !! p = c.
Proof. apply lookup_partial_alter_eq. Qed.
Lemma lookup_put_ne p q c m : p <> q -> put p c m !! q = m !! q.
Proof. intros. by apply lookup_partial_alter_ne. Qed.

Lemma runs_restore p s w r w' :
  runs (restoreSnapshot p s) w r w' ->
  faults w <= faults w' /\ (faults w' = faults w -> files w' = put p s (files w)).
Proof.
  destruct s; intros (x & w1 & [[-> ->]|[_ ->]] & [-> ->]); simpl; (split; [lia|]); done || lia.
Qed.

(** Putting both files back. *)
Lemma runs_restore_both c e sc se w r w' :
  runs (restore_both c e sc se) w r w' ->
  faults w <= faults w' /\ (faults w' = faults w -> files w' = put e se (put c sc (files w))).
Proof.
  intros (x & w1 & [Hf1 H1]%runs_restore & [Hf2 H2]%runs_restore)%runs_bind.
  split; [lia|]. intros Hf. rewrite H2, H1 by lia. done.
Qed.

(** A check leaves the files alone, and one that fails is a fault. *)
Definition only_checks (p : nginx_prog (result error ())) : Prop :=
  forall w r w', runs p w r w' -> files w' = files w /\ faults w' = if is_ok r then faults w else S (faults w).

Lemma test_reload_checks msg : only_checks (test_reload msg).
Proof.
  intros w r w' (t & w1 & Ht & Hr); simpl in Ht; subst w1; cbn [bind call] in Hr; destruct (test_failed t);
    (try by destruct Hr as [-> ->]); destruct Hr as (x & w1 & [[-> ->]|[Hx ->]] & Hr); (try destruct x);
    by destruct Hr as [-> ->].
Qed.

Lemma agent_validateAndReload_checks : only_checks agent_validateAndReload.
Proof.
  intros w r w' (t & w1 & Ht & Hr); simpl in Ht; subst w1; cbn [bind call] in Hr; destruct (test_failed t);
    (try by destruct Hr as [-> ->]); destruct Hr as (x & w1 & [[-> ->]|[Hx ->]] & Hr); (try destruct x);
    by destruct Hr as [-> ->].
Qed.

(** Where [pre] holds, [p] changes the files by [eff], if [can] holds, or fails; a failure without a
    fault changes nothing, and one with a single fault neither, if the snapshots are
    [right]. *)
Definition changes (pre right can : gmap string string -> Prop) (eff : gmap string string -> gmap string string)
    (p : nginx_prog (result error ())) : Prop :=
  forall w r w', pre (files w) -> runs p w r w' ->
  faults w <= faults w' /\
  if is_ok r then faults w' = faults w /\ files w' = eff (files w) /\ can (files w)
  else (faults w' = faults w -> files w' = files w) /\
       (right (files w) -> faults w' <= faults w + 1 -> files w' = files w).

Definition undoes (right : gmap string string -> Prop) (eff : gmap string string -> gmap string string)
    (p : nginx_prog ()) : Prop :=
  forall w r w' m, runs p w r w' -> files w = eff m ->
  faults w <= faults w' /\ (right m -> faults w' = faults w -> files w' = m).

Lemma checked_change_changes pre right can eff p q u :
  changes pre right can eff p -> only_checks q -> undoes right eff u -> changes pre right can eff (checked_change p q u).
Proof.
  intros Hp Hq Hu w r w' Hpre (r1 & w1 & Hr1%Hp & Hr)%runs_bind; [|done]. destruct Hr1 as [Hm1 Hr1]. destruct r1 as [[]|].
  2:{ destruct Hr as [-> ->]. by split. }
  destruct Hr1 as (Hf1 & Hfiles & Hcan).
  apply runs_bind in Hr as (r2 & w2 & [Hf2 Hn2]%Hq & Hr). destruct r2 as [[]|e].
  - destruct Hr as [-> ->]. simpl in *. rewrite Hf2. split; [lia|]. by split; [lia|].
  - apply runs_bind in Hr as (x & w3 & Hx & [-> ->]). simpl in *.
    apply (Hu _ _ _ (files w)) in Hx as [Hm3 Hx]; [|congruence]. split; [lia|]. split; [lia|].
    intros Hright Hle. apply Hx; [done|lia].
Qed.

Section site_files.
Context (c e : string) (Hce : c <> e) (sc se : fileSnapshot).

(** The snapshots are those of the files. *)
Definition right (m : gmap string string) : Prop := sc = m !! c /\ se = m !! e.

(** A snapshot that says there was no file may be wrong, one with a content is not. *)
Definition sound (m : gmap string string) : Prop := sc = m !! c \/ sc = None.

(** Only [c] and [e] change. *)
Definition local (eff : gmap string string -> gmap string string) : Prop :=
  forall m i, i <> c -> i <> e -> eff m !! i = m !! i.

Lemma restore_both_undoes eff : local eff -> undoes right eff (restore_both c e sc se).
Proof using Hce.
  intros Hloc w r w' m [Hf Hx]%runs_restore_both Hw. split; [done|]. intros [-> ->] Hsame.
  rewrite Hx, Hw by done. apply map_eq. intros i.
  destruct (decide (i = e)) as [->|]; [by rewrite lookup_put_eq|]. rewrite lookup_put_ne by done.
  destruct (decide (i = c)) as [->|]; [by rewrite lookup_put_eq|]. rewrite lookup_put_ne by done. auto.
Qed.

Definition upserted (content : string) (m : gmap string string) := put e (Some content) (put c (Some content) m).
Definition enabled_from (m : gmap string string) := put e (m !! c) m.
Definition disabled (m : gmap string string) := put e None m.
Definition deleted (m : gmap string string) := put c None (put e None m).

Lemma put_back p x m : put p (m !! p) (put p x m) = m.
Proof.
  apply map_eq. intros i. destruct (decide (i = p)) as [->|]; [by rewrite lookup_put_eq|].
  by rewrite !lookup_put_ne by done.
Qed.

Lemma write_files_changes m1 m2 content :
  changes sound right (fun _ => True) (upserted content) (write_files m1 m2 content c e sc).
Proof.
  intros w r w' _ (x & w1 & Hx & Hr). destruct Hx as [[-> ->]|[Hx ->]].
  2:{ destruct x; [done|]. destruct Hr as [-> ->]. simpl. split; [lia|]. by split; [lia|]. }
  destruct Hr as (y & w2 & Hy & Hr). destruct Hy as [[-> ->]|[Hy ->]].
  - destruct Hr as [-> ->]. simpl. by split; [lia|].
  - destruct y; [done|]. cbn [bind call] in Hr. apply runs_bind in Hr as (z & w3 & [Hf Hz]%runs_restore & [-> ->]).
    simpl in *. split; [lia|]. split; [lia|]. intros [-> _] Hle. rewrite Hz by lia. apply put_back.
Qed.

Lemma remove_files_changes m1 m2 :
  changes sound right (fun _ => True) deleted (remove_files m1 m2 c e se).
Proof.
  intros w r w' _ (x & w1 & Hx & Hr). destruct Hx as [[-> ->]|[Hx ->]].
  2:{ destruct x; [done|]. destruct Hr as [-> ->]. simpl. split; [lia|]. by split; [lia|]. }
  destruct Hr as (y & w2 & Hy & Hr). destruct Hy as [[-> ->]|[Hy ->]].
  - destruct Hr as [-> ->]. simpl. by split; [lia|].
  - destruct y; [done|]. cbn [bind call] in Hr. apply runs_bind in Hr as (z & w3 & [Hf Hz]%runs_restore & [-> ->]).
    simpl in *. split; [lia|]. split; [lia|]. intros [_ ->] Hle. rewrite Hz by lia. apply put_back.
Qed.

Lemma remove_changes pre rt msg :
  changes pre rt (fun _ => True) disabled
    (wrap! (Wrapped msg) of _ := call (FileRemove e) in Ret (Ok ()) : nginx_prog (result error ())).
Proof.
  intros w r w' _ (x & w1 & Hx & Hr). destruct Hx as [[-> ->]|[Hx ->]]; [|destruct x; [done|]];
    destruct Hr as [-> ->]; simpl; (split; [lia|]); [done|]. by split; [lia|].
Qed.

Lemma copy_changes msg :
  changes sound right (fun m => m !! c <> None) enabled_from
    (wrap! (Wrapped msg) of _ := call (FileCopy c e) in Ret (Ok ()) : nginx_prog (result error ())).
Proof.
  intros w r w' _ (x & w1 & Hx & Hr). destruct x as [[]|].
  - destruct Hx as (content & Hc & ->). destruct Hr as [-> ->]. unfold enabled_from. simpl. rewrite Hc.
    by split_and!; try lia.
  - destruct Hr as [-> ->]. destruct Hx as [[_ ->]| ->]; simpl; (split; [lia|]); split; try done; lia.
Qed.

(** What an action does to the files of a site, and when. *)
Definition action_files (a : SiteAction) (content : string) : gmap string string -> gmap string string :=
  match a with
  | SiteUpsert => upserted content | SiteEnable => enabled_from
  | SiteDisable => disabled | SiteDelete => deleted
  end.
Definition action_can (a : SiteAction) (m : gmap string string) : Prop :=
  match a with SiteEnable => m !! c <> None | _ => True end.

Lemma action_files_local a content : local (action_files a content).
Proof. intros m i Hc He. destruct a; simpl; unfold upserted, enabled_from, disabled, deleted;
  rewrite ?lookup_put_ne by done; done. Qed.

Lemma agent_files_changes a content :
  changes sound right (action_can a) (action_files a content) (agent_files a content c e sc se).
Proof.
  destruct a; cbn [agent_files].
  - destruct (String.eqb content ""); [|apply write_files_changes]. intros w r w' _ [-> ->]. by split.
  - apply remove_files_changes.
  - intros w r w' Hsound Hr. unfold sound in Hsound. destruct sc as [content'|]; [|by destruct Hr as [-> ->]].
    destruct Hsound as [Hsc|]; [|done]. destruct Hr as (x & w1 & Hx & Hr). unfold action_files, action_can, enabled_from.
    rewrite <- Hsc.
    destruct Hx as [[-> ->]|[Hx ->]]; [|destruct x; [done|]]; destruct Hr as [-> ->]; simpl; (split; [lia|]); [done|].
    by split; [lia|].
  - apply remove_changes.
Qed.
End site_files.

(** With at most one fault: the change, or nothing. *)
Definition atomic (can : gmap string string -> Prop) (eff : gmap string string -> gmap string string)
    (p : nginx_prog (result error ())) : Prop :=
  forall w r w', runs p w r w' ->
  faults w <= faults w' /\
  if is_ok r then files w' = eff (files w) /\ can (files w)
  else faults w' <= faults w + 1 -> files w' = files w.

Lemma runs_snapshot_sound p w s w' :
  runs (readSnapshot p) w s w' ->
  files w' = files w /\ faults w <= faults w' /\ (s = files w !! p \/ s = None /\ faults w < faults w').
Proof.
  intros (x & w1 & Hx & [-> ->]). destruct x.
  - destruct Hx as [Hx ->]. rewrite Hx. auto.
  - destruct Hx as [[Hx ->]| ->]; [rewrite Hx; auto|]. simpl. split_and!; [done|lia|]. right. split; [done|lia].
Qed.

Lemma snapshots_atomic c e can eff body :
  (forall sc se, changes (sound c sc) (right c e sc se) can eff (body sc se)) ->
  atomic can eff (let! sc := readSnapshot c in let! se := readSnapshot e in body sc se).
Proof.
  intros Hbody w r w' Hr.
  apply runs_bind in Hr as (sc & w1 & (Hf1 & Hm1 & Hs1)%runs_snapshot_sound & Hr).
  apply runs_bind in Hr as (se & w2 & (Hf2 & Hm2 & Hs2)%runs_snapshot_sound & Hr).
  rewrite Hf1 in *. apply Hbody in Hr as [Hm3 Hr].
  2:{ unfold sound. rewrite Hf2. destruct Hs1 as [?|[? _]]; auto. }
  rewrite Hf2 in *. split; [lia|]. destruct (is_ok r); [by destruct Hr as (_ & ? & ?)|].
  intros Hle. destruct Hr as [Hnone Hright].
  destruct Hs1 as [Hs1|[_ Hlt]]; [|apply Hnone; lia]. destruct Hs2 as [Hs2|[_ Hlt]]; [|apply Hnone; lia].
  apply Hright; [by split|lia].
Qed.

Lemma snapshot_atomic e can eff body :
  (forall se, changes (fun _ => True) (fun m => se = m !! e) can eff (body se)) ->
  atomic can eff (let! se := readSnapshot e in body se).
Proof.
  intros Hbody w r w' Hr.
  apply runs_bind in Hr as (se & w2 & (Hf2 & Hm2 & Hs2)%runs_snapshot_sound & Hr).
  apply Hbody in Hr as [Hm3 Hr]; [|done]. rewrite Hf2 in *.
  split; [lia|]. destruct (is_ok r); [by destruct Hr as (_ & ? & ?)|].
  intros Hle. destruct Hr as [Hnone Hright]. destruct Hs2 as [Hs2|[_ Hlt]]; [|apply Hnone; lia].
  apply Hright; [done|lia].
Qed.

Lemma refused_atomic can eff err : atomic can eff (Ret (Err err)).
Proof. by intros w r w' [-> ->]. Qed.

Lemma restore_undoes_disabled e se :
  undoes (fun m => se = m !! e) (disabled e) (restoreSnapshot e se).
Proof.
  intros w r w' m [Hf Hx]%runs_restore Hw. split; [done|]. intros -> Hsame. rewrite Hx, Hw by done. apply put_back.
Qed.

Lemma available_enabled d d' : available d <> enabled d'.
Proof. by unfold available, enabled. Qed.

#[local] Hint Resolve checked_change_changes test_reload_checks agent_validateAndReload_checks restore_both_undoes
  write_files_changes remove_files_changes copy_changes remove_changes agent_files_changes action_files_local
  available_enabled : nginx.

(** The content that is written. *)
Definition site_effect (a : SiteAction) (site : SiteSpec) : gmap string string -> gmap string string :=
  action_files (available (PrimaryDomain site)) (enabled (PrimaryDomain site)) a (renderNginx site).

Lemma ApplySite_local_atomic a site :
  atomic (action_can (available (PrimaryDomain site)) a) (site_effect a site) (ApplySite_local a site).
Proof.
  unfold site_effect, ApplySite_local.
  assert (Hloc : forall a, local (available (PrimaryDomain site)) (enabled (PrimaryDomain site))
    (action_files (available (PrimaryDomain site)) (enabled (PrimaryDomain site)) a (renderNginx site)))
    by (intros; apply action_files_local).
  destruct a; cbn [action_files action_can].
  - apply snapshots_atomic. intros sc se. apply checked_change_changes; auto with nginx.
    apply restore_both_undoes; [auto with nginx|]. apply (Hloc SiteUpsert).
  - apply snapshots_atomic. intros sc se. apply checked_change_changes; unfold validateAndReload; auto with nginx.
    apply restore_both_undoes; [auto with nginx|]. apply (Hloc SiteDelete).
  - apply snapshots_atomic. intros sc se. apply checked_change_changes; auto with nginx.
    apply restore_both_undoes; [auto with nginx|]. apply (Hloc SiteEnable).
  - apply snapshot_atomic. intros se. apply checked_change_changes; unfold validateAndReload; auto with nginx.
    apply restore_undoes_disabled.
Qed.

Lemma ApplySite_atomic remote a site :
  atomic (action_can (available (PrimaryDomain site)) a) (site_effect a site) (ApplySite remote a site).
Proof.
  unfold ApplySite. destruct (negb _); [apply refused_atomic|]. destruct remote; [|apply ApplySite_local_atomic].
  unfold agent_Apply. destruct (negb _); [apply refused_atomic|]. apply snapshots_atomic. intros sc se.
  assert (Hsame : site_effect a site = action_files (available (PrimaryDomain site)) (enabled (PrimaryDomain site)) a
    (if bool_decide (a = SiteUpsert) then renderNginx site else "")) by (by destruct a).
  rewrite Hsame. apply checked_change_changes; auto with nginx.
Qed.
End atomic.

(** ** The module is a web server plugin *)

(** A domain is served if its enabled file exists, and known if its other file does. *)
Definition nginx_view (w : nginx_world) (d : string) : option bool :=
  match files w !! enabled d, files w !! available d with
  | Some _, _ => Some true
  | None, Some _ => Some false
  | None, None => None
  end.

Definition nginx_inv (w : nginx_world) : Prop :=
  forall d, files w !! enabled d <> None -> files w !! available d <> None.

Lemma str_app_inj_r s t u : s ++ u = t ++ u -> s = t.
Proof.
  revert t; induction s as [|c s IH]; intros [|d t] Heq; [done| | |].
  - apply (f_equal String.length) in Heq. cbn [String.append String.length] in Heq. rewrite str_length_app in Heq. lia.
  - apply (f_equal String.length) in Heq. cbn [String.append String.length] in Heq. rewrite str_length_app in Heq. lia.
  - injection Heq as -> Heq. f_equal. by apply IH.
Qed.

Lemma available_inj d d' : available d = available d' -> d = d'.
Proof. unfold available. intros Heq%(inj (String.append _)). by apply str_app_inj_r in Heq. Qed.
Lemma enabled_inj d d' : enabled d = enabled d' -> d = d'.
Proof. unfold enabled. intros Heq%(inj (String.append _)). by apply str_app_inj_r in Heq. Qed.

(** The two files of a domain after an action on a domain. *)
Lemma site_effect_other a site m d :
  d <> PrimaryDomain site ->
  site_effect a site m !! available d = m !! available d /\ site_effect a site m !! enabled d = m !! enabled d.
Proof.
  intros Hne. pose proof (available_enabled d (PrimaryDomain site)). pose proof (available_enabled (PrimaryDomain site) d).
  assert (available d <> available (PrimaryDomain site)) by (by intros ?%available_inj).
  assert (enabled d <> enabled (PrimaryDomain site)) by (by intros ?%enabled_inj).
  split; apply action_files_local; congruence.
Qed.

Lemma site_effect_self a site m :
  let d := PrimaryDomain site in
  site_effect a site m !! available d =
    match a with SiteUpsert => Some (renderNginx site) | SiteDelete => None | _ => m !! available d end /\
  site_effect a site m !! enabled d =
    match a with
    | SiteUpsert => Some (renderNginx site) | SiteEnable => m !! available d | _ => None
    end.
Proof.
  cbv zeta. pose proof (available_enabled (PrimaryDomain site) (PrimaryDomain site)) as Hne.
  unfold site_effect. destruct a; cbn [action_files]; unfold upserted, deleted, enabled_from, disabled;
    rewrite ?lookup_put_eq, ?(lookup_put_ne _ _ _ _ Hne), ?(lookup_put_ne _ _ _ _ (not_eq_sym Hne)), ?lookup_put_eq;
    done.
Qed.

#[export, program] Instance nginx_plugin (remote : bool) : WebServerPlugin nginx_world := {|
  ws_run a spec w r w' := runs nginx_sem (ApplySite remote a spec) w r w';
  ws_view := nginx_view; ws_inv := nginx_inv; ws_faults := faults |}.
Next Obligation. intros remote a spec w r w' Hr. by apply ApplySite_atomic in Hr as [? _]. Qed.
Next Obligation.
  cbn beta. intros remote a spec w r w' Hinv Hknown Hr Hle. apply ApplySite_atomic in Hr as [_ Hr].
  destruct r as [[]|err]; cbn [is_ok] in *.
  2:{ unfold nginx_inv, nginx_view. rewrite Hr by done. done. }
  destruct Hr as [Hfiles Hcan]. destruct (site_effect_self a spec (files w)) as [Ha He]. rewrite <- Hfiles in Ha, He.
  assert (Hother : forall d, d <> PrimaryDomain spec ->
    files w' !! available d = files w !! available d /\ files w' !! enabled d = files w !! enabled d).
  { intros d Hne. rewrite Hfiles. by apply site_effect_other. }
  split.
  - intros d. destruct (decide (d = PrimaryDomain spec)) as [->|Hne].
    + rewrite Ha, He. destruct a; try done.
    + destruct (Hother d Hne) as [-> ->]. apply Hinv.
  - intros d. unfold nginx_view, served_view. destruct (String.eqb_spec d (PrimaryDomain spec)) as [->|Hne].
    + rewrite Ha, He. destruct a; try done.
      * simpl in Hcan. by destruct (files w !! _).
      * specialize (Hknown eq_refl). specialize (Hinv (PrimaryDomain spec)). unfold nginx_view in Hknown.
        destruct (files w !! available _); [done|]. destruct (files w !! enabled _); [|done].
        by destruct Hinv.
    + by destruct (Hother d Hne) as [-> ->].
Qed.

(** *** Histories of requests *)

(** Requests one after the other, each with at most one fault, and none to disable a
    domain that is not known. *)
Inductive history `{WebServerPlugin W} : list (SiteAction * SiteSpec) -> W -> list (result error ()) -> W -> Prop :=
| history_nil w : history [] w [] w
| history_cons a spec l w r w1 rs w' :
    (a = SiteDisable -> ws_view w (PrimaryDomain spec) <> None) ->
    ws_run a spec w r w1 -> ws_faults w1 <= ws_faults w + 1 ->
    history l w1 rs w' -> history ((a, spec) :: l) w (r :: rs) w'.

(** The same on the map of served domains, as [Site.site_sem] has it. *)
Inductive web_history : list (SiteAction * SiteSpec) -> gmap string bool -> list (result error ()) ->
    gmap string bool -> Prop :=
| web_history_nil m : web_history [] m [] m
| web_history_cons a spec l m r m1 rs m' :
    web_step a (PrimaryDomain spec) r m m1 -> web_history l m1 rs m' ->
    web_history ((a, spec) :: l) m (r :: rs) m'.

Lemma plugin_history `{WebServerPlugin W} l (w : W) rs w' m :
  ws_inv w -> (forall k, ws_view w k = m !! k) -> history l w rs w' ->
  exists m', web_history l m rs m' /\ ws_inv w' /\ forall k, ws_view w' k = m' !! k.
Proof.
  intros Hinv Hm Hh. revert m Hinv Hm. induction Hh as [w|a spec l w r w1 rs w' Hk Hr Hf Hh IH]; intros m Hinv Hm.
  { exists m. by repeat split; [constructor|..]. }
  destruct (plugin_simulates a spec w r w1 m) as (m1 & Hs & Hinv1 & Hm1); [done|done|by rewrite <- Hm|done..|].
  destruct (IH m1 Hinv1 Hm1) as (m' & Hw & ? & ?). exists m'. by repeat split; [econstructor|..].
Qed.

(** C9. The nginx module keeps what the site service relies on, on the local server and
    through a remote Agent: over any history of requests, in each of which at most one call fails, and
    fails without having changed its file, the domains served are those of the service's own map of
    served domains, where a request that succeeded took effect and one that failed changed nothing.
    A copy that breaks off and a write whose directory cannot be synced are outside: see
    [torn_copy_served]. *)
Theorem nginx_serves_as_told remote l w rs w' m :
  nginx_inv w -> (forall k, nginx_view w k = m !! k) -> history (H := nginx_plugin remote) l w rs w' ->
  exists m', web_history l m rs m' /\ nginx_inv w' /\ forall k, nginx_view w' k = m' !! k.
Proof. apply (plugin_history (H := nginx_plugin remote)). Qed.

(** A copy that breaks off while a disabled site is enabled: one call failed, the request fails, and
    the site is served, with any content. *)
Theorem torn_copy_served site content w :
  validManagedDomain (PrimaryDomain site) = true ->
  files w !! available (PrimaryDomain site) <> None -> nginx_view w (PrimaryDomain site) = Some false ->
  exists r w', Effects.runs torn_sem (ApplySite false SiteEnable site) w r w' /\ is_ok r = false /\ faults w' = faults w + 1 /\
    nginx_view w' (PrimaryDomain site) = Some true /\ files w' !! enabled (PrimaryDomain site) = Some content.
Proof.
  intros Hv Ha Hn. destruct (files w !! available (PrimaryDomain site)) as [c|] eqn:Hc; [|done].
  assert (files w !! enabled (PrimaryDomain site) = None) as He by (unfold nginx_view in Hn; by destruct (files w !! enabled _)).
  unfold ApplySite. rewrite Hv. cbn [negb].
  exists (Err (Wrapped "nginx: enable site" (Plain ""))), (with_faults 1 (with_files (put (enabled (PrimaryDomain site)) (Some content) (files w)) w)).
  split; [|unfold nginx_view, with_faults, with_files; cbn [files faults]; rewrite !lookup_put_eq; split_and!; [done|lia|done|done]].
  unfold ApplySite_local. cbn. exists (Ok c), w. split; [by left|]. cbn. exists (Err (Plain "")), w. split; [left; by left|]. cbn.
  eexists (Err (Plain "")), _. split; [by right; split; [|by exists content]|]. by split.
Qed.

Definition sample_spec : SiteSpec := siteSpec empty (static_site "s1").

Lemma nginx_serves_as_told_witness :
  exists w' m', history (H := nginx_plugin false) [(SiteUpsert, sample_spec)] {| files := empty; faults := 0 |} [Ok ()] w' /\
    web_history [(SiteUpsert, sample_spec)] empty [Ok ()] m' /\ nginx_inv w' /\ forall k, nginx_view w' k = m' !! k.
Proof.
  set (c := renderNginx sample_spec). set (w0 := {| files := empty; faults := 0 |}).
  set (w1 := with_files (put (available "example.org") (Some c) empty) w0).
  set (w2 := with_files (put (enabled "example.org") (Some c) (put (available "example.org") (Some c) empty)) w0).
  assert (Hh : history (H := nginx_plugin false) [(SiteUpsert, sample_spec)] w0 [Ok ()] w2).
  { eapply history_cons; [done| | |constructor]; [|by apply (Nat.le_succ_diag_r 0)].
    exists (Err (Plain "")), w0. split; [by left|]. exists (Err (Plain "")), w0. split; [by left|].
    exists (Ok ()), w1. split; [by left|]. exists (Ok ()), w2. split; [by left|].
    exists (Some (0%Z, "", ""), None), w2. split; [done|]. exists (Ok ()), w2. split; [by left|]. by split. }
  assert (Hi : nginx_inv w0) by (intros d Hd; by destruct Hd).
  assert (Hv : forall k, nginx_view w0 k = (empty : gmap string bool) !! k)
    by (intros k; unfold nginx_view; simpl; by rewrite !lookup_empty).
  destruct (nginx_serves_as_told false [(SiteUpsert, sample_spec)] w0 [Ok ()] w2 empty Hi Hv Hh) as (m' & ? & ? & ?).
  exists w2, m'. auto.
Defined.

(** ** Values do not change the structure of the configuration

    [path_byte] is a letter, a digit, '/', '.', '_' or '-': no white space, quotes,
    braces, semicolons, '#' or '$'.  The skeleton of a text is the rest of it. *)

Definition skeleton (s : string) : list ascii := List.filter (fun c => negb (path_byte c)) (String.list_ascii_of_string s).

Lemma skeleton_app s t : skeleton (s ++ t) = (skeleton s ++ skeleton t)%list.
Proof. unfold skeleton. rewrite <- List.filter_app. f_equal. induction s; simpl; congruence. Qed.

Lemma skeleton_plain s : str_forall path_byte s = true -> skeleton s = [].
Proof.
  unfold skeleton. induction s as [|c s IH]; simpl; [done|]. intros [Hc Hs]%andb_true_iff. rewrite Hc. by apply IH.
Qed.

Lemma skeleton_concat l : skeleton (String.concat "" l) = List.concat (map skeleton l).
Proof.
  induction l as [|x l IH]; [done|]. cbn [List.concat map]. rewrite <- IH, <- skeleton_app. f_equal.
  destruct l; simpl; [by rewrite str_app_nil_r|done].
Qed.

(** The site without its values. *)
Definition blank_spec (s : SiteSpec) : SiteSpec := {|
  sp_ID := ""; sp_Name := ""; PrimaryDomain := ""; Aliases := map (fun _ => "") (Aliases s); sp_RootPath := "";
  sp_AppType := sp_AppType s; sp_AppVersion := ""; sp_ProxyTarget := ""; SSLEnabled := SSLEnabled s;
  SSLCert := ""; SSLKey := ""; sp_ForceHTTPS := sp_ForceHTTPS s; sp_ProxyEnabled := sp_ProxyEnabled s;
  sp_ProxyHost := ""; sp_ProxyPort := 0 |}.

(** The values that are written are plain, and nothing is proxied. *)
Record plain_spec (s : SiteSpec) : Prop := {
  plain_domain : str_forall path_byte (PrimaryDomain s) = true;
  plain_aliases : Forall (fun a => str_forall path_byte a = true) (Aliases s);
  plain_root : str_forall path_byte (sp_RootPath s) = true;
  plain_version : php s = true -> str_forall path_byte (sp_AppVersion s) = true;
  plain_cert : str_forall path_byte (SSLCert s) = true;
  plain_key : str_forall path_byte (SSLKey s) = true;
  not_proxied : sp_ProxyEnabled s = false /\ sp_AppType s <> "proxy";
}.

Lemma server_name_skeleton s : plain_spec s -> skeleton (server_name s) = skeleton (server_name (blank_spec s)).
Proof.
  intros Hs. unfold server_name. rewrite !skeleton_app, (skeleton_plain _ (plain_domain s Hs)), !skeleton_concat, !map_map.
  cbn [PrimaryDomain Aliases blank_spec]. rewrite map_map. do 4 f_equal. apply map_ext_in. intros a Ha.
  destruct Hs as [_ Hall _ _ _ _ _]. rewrite Forall_forall in Hall.
  by rewrite !skeleton_app, (skeleton_plain a) by (by apply Hall, list_elem_of_In).
Qed.

Lemma location_skeleton s : plain_spec s -> map skeleton (location s) = map skeleton (location (blank_spec s)).
Proof.
  intros Hs. unfold location. cbn [blank_spec sp_ProxyEnabled sp_AppType]. change (php (blank_spec s)) with (php s).
  destruct (not_proxied s Hs) as [-> Hp]. destruct (php s) eqn:Hphp.
  - cbn [map]. rewrite !skeleton_app, (skeleton_plain _ (plain_domain s Hs)), (skeleton_plain _ (plain_version s Hs Hphp)).
    done.
  - by rewrite (proj2 (String.eqb_neq _ _) Hp).
Qed.

Lemma server_body_skeleton s : plain_spec s -> map skeleton (server_body s) = map skeleton (server_body (blank_spec s)).
Proof.
  intros Hs. unfold server_body. rewrite !map_app, (location_skeleton s Hs). f_equal. cbn [map].
  rewrite !skeleton_app, (skeleton_plain _ (plain_root s Hs)). done.
Qed.

Lemma site_lines_skeleton s : plain_spec s -> map skeleton (site_lines s) = map skeleton (site_lines (blank_spec s)).
Proof.
  intros Hs.
  assert (H80 : map skeleton (listen_80 s) = map skeleton (listen_80 (blank_spec s))).
  { unfold listen_80. cbn [map]. by rewrite (server_name_skeleton s Hs). }
  assert (Hfirst : map skeleton (if sp_ForceHTTPS s then ["    return 301 https://$host$request_uri;"] else server_body s) =
    map skeleton (if sp_ForceHTTPS s then ["    return 301 https://$host$request_uri;"] else server_body (blank_spec s))).
  { destruct (sp_ForceHTTPS s); [done|]. by apply server_body_skeleton. }
  unfold site_lines. change (SSLEnabled (blank_spec s)) with (SSLEnabled s).
  change (sp_ForceHTTPS (blank_spec s)) with (sp_ForceHTTPS s).
  destruct (SSLEnabled s); rewrite !map_app, H80, (server_body_skeleton s Hs); [|reflexivity].
  rewrite Hfirst. cbn [map]. rewrite (server_name_skeleton s Hs), !skeleton_app, (skeleton_plain _ (plain_cert s Hs)),
    (skeleton_plain _ (plain_key s Hs)). reflexivity.
Qed.

Lemma config_skeleton s : plain_spec s -> skeleton (renderNginx s) = skeleton (renderNginx (blank_spec s)).
Proof.
  intros Hs. unfold renderNginx. rewrite !skeleton_concat, !map_map. f_equal.
  assert (Hl : forall l, map (fun x => skeleton (x ++ String (ascii_of_nat 10) "")) l =
    map (fun x => x ++ skeleton (String (ascii_of_nat 10) ""))%list (map skeleton l)).
  { intros l. rewrite map_map. apply map_ext. intros x. apply skeleton_app. }
  by rewrite !Hl, (site_lines_skeleton s Hs).
Qed.

(** *** The sites the service creates *)

Lemma domain_path_byte c : domain_byte c = true -> path_byte c = true.
Proof.
  unfold domain_byte, label_byte, path_byte. intros [[->|Hh]%orb_true_iff|Hd]%orb_true_iff; [done|..].
  - apply Ascii.eqb_eq in Hh as ->. done.
  - apply Ascii.eqb_eq in Hd as ->. done.
Qed.

Lemma lower_path_byte c : path_byte c = true -> path_byte (lower_byte c) = true /\ (byte_val c <? 128)%Z = true.
Proof. destruct c as [[] [] [] [] [] [] [] []]; vm_compute; auto. Qed.

Lemma to_lower_path `{Unicode} s : str_forall path_byte s = true -> str_forall path_byte (to_lower s) = true.
Proof.
  intros Hs. unfold to_lower. assert (is_ascii s = true) as ->.
  { revert Hs. apply str_forall_mono. intros c Hc. by apply lower_path_byte. }
  induction s as [|c s IH]; simpl in *; [done|]. apply andb_true_iff in Hs as [Hc Hs].
  apply andb_true_iff. split; [by apply lower_path_byte|by apply IH].
Qed.

Lemma allDigits_path s : allDigits s = true -> str_forall path_byte s = true.
Proof.
  unfold allDigits. intros [_ Hd]%andb_true_iff.
  assert (Hb : str_forall (fun c => r_digit (byte_val c)) s = true).
  { apply runes_forall_ascii; [unfold r_digit, in_range; lia|].
    apply Forall_forall. intros r Hr%list_elem_of_In. rewrite forallb_forall in Hd. by apply Hd. }
  revert Hb. apply str_forall_mono. intros c Hc. unfold path_byte. rewrite <- r_alnum_byte. unfold r_alnum.
  by rewrite Hc, orb_true_r.
Qed.

Lemma php_version_path v v' :
  validatePHPVersion v = Ok v' -> str_forall path_byte (default "" v') = true.
Proof.
  unfold validatePHPVersion. destruct v as [v|]; [|by intros [= <-]].
  destruct (split "." (trim_space v)) as [|a [|b [|]]] eqn:Hv; try done.
  destruct (allDigits a) eqn:Ha, (allDigits b) eqn:Hb; try done. intros [= <-]. cbn [default].
  change (str_forall path_byte (trim_space v) = true).
  rewrite <- (join_split "." (trim_space v)), Hv.
  change (str_forall path_byte (a ++ "." ++ b) = true).
  by rewrite !str_forall_app, (allDigits_path a Ha), (allDigits_path b Hb).
Qed.

Lemma validateSSL_paths cert key c k :
  validateSSL true cert key = Ok (c, k) ->
  str_forall path_byte (default "" c) = true /\ str_forall path_byte (default "" k) = true.
Proof.
  unfold validateSSL. simpl. destruct cert as [cert|]; [|done]. destruct key as [key|]; [|done].
  destruct (_ || _); [done|].
  intros (c' & Hc & (k' & Hk & [= <- <-])%bind_result_ok)%bind_result_ok.
  unfold map_err in Hc, Hk. destruct (normalizeCertificatePath cert) eqn:Hc'; [|done].
  destruct (normalizeCertificatePath key) eqn:Hk'; [|done]. injection Hc as ->. injection Hk as ->.
  apply normalizeCertificatePath_below in Hc' as [_ Hc'], Hk' as [_ Hk']. by split.
Qed.

(** C12. The nginx configuration of a site that was created has the structure of the
    template: if the request is accepted and nothing is proxied, the values fill in
    letters, digits, '/', '.', '_' and '-' only, and everything else, white space,
    quotes, braces and semicolons included, is that of the configuration without
    values. *)
Theorem created_config_structure `{Unicode} req k userID :
  check_request req = Ok k -> c_ProxyEnabled req = false -> c_AppType req <> "proxy" ->
  let '(s, h) := new_site req k userID in
  skeleton (renderNginx (siteSpec h s)) = skeleton (renderNginx (blank_spec (siteSpec h s))).
Proof.
  intros Hk Hproxy Htype. destruct (new_site req k userID) as [s h] eqn:Hnew. apply config_skeleton.
  unfold check_request in Hk. apply bind_result_ok in Hk as ([] & Hdom%validateDomain_bytes & Hk).
  apply bind_result_ok in Hk as (root & Hroot%normalizeRootPath_below & Hk).
  apply bind_result_ok in Hk as (version & Hver & Hk). apply bind_result_ok in Hk as ([] & _ & Hk).
  apply bind_result_ok in Hk as ([cert key] & Hssl & Hk). apply bind_result_ok in Hk as (host & _ & Hk).
  injection Hk as <-. injection Hnew as <- <-.
  assert (Hd : str_forall path_byte (to_lower (trim_space (c_Domain req))) = true).
  { apply to_lower_path. revert Hdom. apply str_forall_mono, domain_path_byte. }
  split; cbn; try done.
  - apply Hroot.
  - intros Hphp. change (String.eqb (c_AppType req) "php" = true) in Hphp. rewrite Hphp in Hver.
    destruct (validatePHPVersion (c_AppVersion req)) eqn:Hv; [|done]. injection Hver as <-.
    by apply php_version_path in Hv.
  - destruct (c_SSLEnabled req); [|done]. by apply validateSSL_paths in Hssl as [? _].
  - destruct (c_SSLEnabled req); [|done]. by apply validateSSL_paths in Hssl as [_ ?].
Qed.

#[local] Existing Instance unicode_ascii.

Definition static_checked : checked := {|
  k_root := "/var/www/example"; k_version := None; k_cert := None; k_key := None; k_host := None |}.

Lemma created_config_structure_witness :
  skeleton (renderNginx (siteSpec empty (static_site ""))) = skeleton (renderNginx (blank_spec (siteSpec empty (static_site "")))).
Proof.
  refine (created_config_structure static_request static_checked "u1" _ eq_refl _); [vm_compute; reflexivity|discriminate].
Defined.

(** A request whose proxy host ends the directive it is written into. *)
Definition proxy_request (host : string) : CreateRequest := {|
  c_Name := "Example"; c_Domain := "example.org"; c_ModuleID := "nginx"; c_RootPath := "/var/www/example";
  c_AppType := "static"; c_AppVersion := None; c_ProxyTarget := None; c_SSLEnabled := false;
  c_SSLProvider := None; c_SSLCert := None; c_SSLKey := None; c_ProxyEnabled := true; c_ProxyHost := Some host;
  c_ProxyPort := Some 80%Z |}.

Definition proxy_spec (host : string) : SiteSpec :=
  match check_request (proxy_request host) with
  | Ok k => let '(s, h) := new_site (proxy_request host) k "u1" in siteSpec h s
  | Err _ => sample_spec
  end.

(** The proxy host is not checked beyond being there, and is copied into the
    configuration: an accepted request can add directives of its own to the server
    block. *)
Theorem proxy_host_injects :
  let host := "127.0.0.1; } location /x { alias /etc/; } #" in
  is_ok (check_request (proxy_request host)) = true /\
  contains (renderNginx (proxy_spec host)) "location /x { alias /etc/; }" = true /\
  skeleton (renderNginx (proxy_spec host)) <> skeleton (renderNginx (proxy_spec "127.0.0.1")).
Proof. cbv zeta. split; [vm_compute; reflexivity|]. split; [vm_compute; reflexivity|]. vm_compute. discriminate. Qed.
