(* ===== verification/Modules.v ===== *)
(** * Modules and their jobs

    src/internal/core/module: the registry and its loader (registry.go), the lifecycle
    operations (service.go), the background jobs (job_service.go, external_tasks.go)
    and their administration (jobs.go), with the records of domain.go and what the
    repositories of sqlite_repository.go do to them.

    Installing and removing run in the background: an operation stores a job, starts a
    thread for it and returns.  [Go] is that start; [job_thread] is what the thread
    does.  The context of a job is cancelled by [CancelJob]; calls made with it may
    fail then, as any call may. *)

From S2P Require Import Prelude GoStrings AppErrors Effects.
Local Open Scope string_scope.
Local Open Scope go_scope.

(** ** Data *)

(** source: internal/core/module/domain.go:12-23 (State) *)
Inductive State :=
| StateAvailable | StateInstalling | StateInstalled | StateEnabled | StateDisabled | StateRemoving | StateError.

#[export] Instance State_eq_dec : EqDecision State.
Proof. solve_decision. Defined.

(** source: internal/core/module/domain.go:25-36 (Record) *)
Record record := {
  r_ID : string; r_Name : string; r_State : State; Version : option string; Config : string;
  InstalledAt : option Z;
}.

(** source: internal/core/module/domain.go:38-47 (JobType): other modules add their own *)
Inductive JobType := JobInstall | JobUninstall | JobEnable | JobDisable | JobRestart | JobOther (name : string).

(** source: internal/core/module/domain.go:49-58 (JobState) *)
Inductive JobState := JobPending | JobRunning | JobSuccess | JobError | JobCanceled.

#[export] Instance JobState_eq_dec : EqDecision JobState.
Proof. solve_decision. Defined.

(** source: internal/core/module/domain.go:60-73 (Job): [Payload] is the JSON object with
    the module identifier, or something else *)
Record Job := {
  j_ID : string; j_Name : string; j_Type : JobType; Payload : option string; j_State : JobState;
  Progress : Z; Output : string; j_Error : string; CreatedAt : Z; StartedAt : option Z; FinishedAt : option Z;
}.

Definition set_job (j : Job) (st : JobState) (progress : Z) (output err : string) (started finished : option Z) : Job := {|
  j_ID := j_ID j; j_Name := j_Name j; j_Type := j_Type j; Payload := Payload j; j_State := st; Progress := progress;
  Output := output; j_Error := err; CreatedAt := CreatedAt j; StartedAt := started; FinishedAt := finished |}.

(** source: internal/core/module/sqlite_repository.go:142-164 (UpdateState): the row *)
Definition job_update (st : JobState) (output err : string) (now : Z) (j : Job) : Job :=
  match st with
  | JobRunning => set_job j st 10 (Output j) (j_Error j) (Some now) (FinishedAt j)
  | JobSuccess => set_job j st 100 output err (StartedAt j) (Some now)
  | JobError | JobCanceled => set_job j st (Progress j) output err (StartedAt j) (Some now)
  | JobPending => set_job j st (Progress j) (Output j) (j_Error j) (StartedAt j) (FinishedAt j)
  end.

(** source: internal/core/module/sqlite_repository.go:232-242 (Delete): which jobs may be
    deleted *)
Definition finished (st : JobState) : bool :=
  match st with JobSuccess | JobError | JobCanceled => true | _ => false end.

(** What a module reports of its software. *)
Record status := { installed : bool; running : bool; SoftwareVersion : string }.

(** A registered module: its name, and whether it has a service. *)
Record module_info := { m_Name : string; SupportsService : bool }.

(** What a thread does when its work succeeded. *)
Inductive on_success := InstallDone | UninstallDone | RetryInstallDone | RetryUninstallDone.

Inductive work := WorkInstall | WorkUninstall.

Inductive module_call : Set -> Set :=
| FindRecord (id : string) : module_call (result error record)
| Upsert (r : record) : module_call (result error ())
| UpdateState (id : string) (st : State) : module_call (result error ())
| NewID : module_call string
| Now : module_call Z
| JobCreate (j : Job) : module_call (result error ())
| JobFind (id : string) : module_call (result error Job)
| JobUpdate (id : string) (st : JobState) (output err : string) : module_call (result error ())
| JobDelete (id : string) : module_call (result error ())
| JobList (st : JobState) : module_call (result error (list Job))
| PutCancel (id : string) : module_call ()
| HasCancel (id : string) : module_call bool
| DropCancel (id : string) : module_call ()
| CancelContext (id : string) : module_call ()
| ContextErr (id : string) : module_call (option error)
| Go (id moduleID : string) (w : work) (k : on_success) : module_call ()
| GoTask (id : string) : module_call ()
| RunTask (id : string) : module_call (string * option error)
| ModuleInstall (id : string) : module_call (option error)
| ModuleUninstall (id : string) : module_call (option error)
| ModuleEnable (id : string) : module_call (option error)
| ModuleDisable (id : string) : module_call (option error)
| ModuleRestart (id : string) : module_call (option error)
| ModuleBootstrap (id : string) : module_call (option error)
| ModuleStatus (id : string) : module_call (result error (option status))
| Backup (reason : string) : module_call (result error ())
| Publish (event id : string) : module_call ()
| Audit (action id : string) : module_call ().

Notation module_prog A := (prog module_call (result error A)).

(** [errors.Is(err, context.Canceled)]: the error at the end of the chain. *)
Fixpoint is_canceled (e : error) : bool :=
  match e with
  | Plain msg => String.eqb msg "context canceled"
  | Wrapped _ cause => is_canceled cause
  | App (mkAppError _ _ _ cause _ _ _) => match cause with Some c => is_canceled c | None => false end
  end.

Section service.
Context (registry : string -> option module_info) (has_backup : bool).

Definition internal (msg : string) (e : error) : error := App (Internal msg e).
Definition refuse (status : Z) (code : ErrorCode) (msg : string) : error := App (New status code msg).

(** source: internal/core/module/service.go:41-50 (backupCritical) *)
Definition backupCritical (operation id : string) : module_prog () :=
  if has_backup then
    wrap! (internal "mandatory pre-change backup") of _ :=
      call (Backup ("critical-module-" ++ operation ++ "-" ++ id)) in
    Ret (Ok ())
  else Ret (Ok ()).

(** ** Jobs *)

(** source: internal/core/module/job_service.go:24-29 (startJob, the job) *)
Definition new_job (id : string) (ty : JobType) (name moduleID : string) (now : Z) : Job := {|
  j_ID := id; j_Name := name ++ " " ++ moduleID; j_Type := ty; Payload := Some moduleID; j_State := JobPending;
  Progress := 0; Output := ""; j_Error := ""; CreatedAt := now; StartedAt := None; FinishedAt := None |}.

(** source: internal/core/module/job_service.go:15-75 (startJob, the request) *)
Definition startJob (ty : JobType) (name moduleID : string) (w : work) (k : on_success) : module_prog string :=
  let! id := call NewID in
  let! now := call Now in
  wrap! (internal "create job") of _ := call (JobCreate (new_job id ty name moduleID now)) in
  ignore! (call (PutCancel id)) in
  ignore! (call (Go id moduleID w k)) in
  Ret (Ok id).

Definition do_work (w : work) (moduleID : string) : prog module_call (option error) :=
  match w with
  | WorkInstall => call (ModuleInstall moduleID)
  | WorkUninstall => call (ModuleUninstall moduleID)
  end.

Definition module_name (id : string) : string := default "" (m_Name <$> registry id).

(** source: internal/core/module/service.go:208-221 (Install, on success) and what
    [Uninstall] and [RetryJob] pass *)
Definition run_on_success (k : on_success) (moduleID : string) : prog module_call () :=
  match k with
  | InstallDone =>
      let! now := call Now in
      let! st := call (ModuleStatus moduleID) in
      let version := match st with
                     | Ok (Some s) => if String.eqb (SoftwareVersion s) "" then None else Some (SoftwareVersion s)
                     | _ => None
                     end in
      ignore! (call (Upsert {| r_ID := moduleID; r_Name := module_name moduleID; r_State := StateInstalled;
                               Version := version; Config := ""; InstalledAt := Some now |})) in
      call (Publish "module.installed" moduleID)
  | RetryInstallDone =>
      let! now := call Now in
      ignore! (call (Upsert {| r_ID := moduleID; r_Name := module_name moduleID; r_State := StateInstalled;
                               Version := None; Config := ""; InstalledAt := Some now |})) in
      Ret ()
  | UninstallDone =>
      ignore! (call (UpdateState moduleID StateAvailable)) in
      call (Publish "module.uninstalled" moduleID)
  | RetryUninstallDone => ignore! (call (UpdateState moduleID StateAvailable)) in Ret ()
  end.

(** source: internal/core/module/job_service.go:39-73 (startJob, the thread): the
    deferred function runs last *)
Definition job_thread (id moduleID : string) (w : work) (k : on_success) : prog module_call () :=
  ignore! (call (JobUpdate id JobRunning "" "")) in
  let! r := do_work w moduleID in
  ignore! (match r with
    | Some e =>
        ignore! (call (JobUpdate id (if is_canceled e then JobCanceled else JobError) "" (error_text e))) in
        call (Publish "job.error" id)
    | None =>
        let! c := call (ContextErr id) in
        match c with
        | Some e =>
            ignore! (call (JobUpdate id JobCanceled "" (error_text e))) in
            call (Publish "job.canceled" id)
        | None =>
            ignore! (run_on_success k moduleID) in
            ignore! (call (JobUpdate id JobSuccess "" "")) in
            call (Publish "job.done" id)
        end
    end) in
  ignore! (call (CancelContext id)) in
  call (DropCancel id).

(** source: internal/core/module/external_tasks.go:13-57 (StartTask, the request) *)
Definition StartTask (name : string) (ty : JobType) (payload : option string) : module_prog string :=
  let! id := call NewID in
  let! now := call Now in
  try! _ := call (JobCreate {| j_ID := id; j_Name := name; j_Type := ty; Payload := payload; j_State := JobPending;
                               Progress := 0; Output := ""; j_Error := ""; CreatedAt := now; StartedAt := None;
                               FinishedAt := None |}) in
  ignore! (call (PutCancel id)) in
  ignore! (call (GoTask id)) in
  Ret (Ok id).

(** source: internal/core/module/external_tasks.go:32-55 (StartTask, the thread) *)
Definition task_thread (id : string) : prog module_call () :=
  ignore! (call (JobUpdate id JobRunning "" "")) in
  let! (output, err) := call (RunTask id) in
  ignore! (match err with
    | Some e => call (JobUpdate id (if is_canceled e then JobCanceled else JobError) output (error_text e))
    | None => call (JobUpdate id JobSuccess output "")
    end) in
  ignore! (call (CancelContext id)) in
  call (DropCancel id).

(** ** Lifecycle *)

Definition not_found (id : string) : error := refuse 404 CodeModuleNotFound ("module not found: " ++ id).

(** source: internal/core/module/service.go:189-229 (Install) *)
Definition Install (id : string) : module_prog string :=
  match registry id with
  | None => Ret (Err (not_found id))
  | Some _ =>
      let! rec := call (FindRecord id) in
      match match rec with Ok r => Some (r_State r) | Err _ => None end with
      | Some (StateInstalled | StateEnabled) =>
          Ret (Err (refuse 409 CodeModuleInstalled "module already installed"))
      | Some (StateInstalling | StateRemoving) =>
          Ret (Err (refuse 409 CodeModuleBusy "module operation in progress"))
      | _ =>
          try! _ := backupCritical "install" id in
          try! jobID := startJob JobInstall "install_module" id WorkInstall InstallDone in
          ignore! (call (UpdateState id StateInstalling)) in
          ignore! (call (Audit "module.install" id)) in
          Ret (Ok jobID)
      end
  end.

(** source: internal/core/module/service.go:231-258 (Uninstall) *)
Definition Uninstall (id : string) : module_prog string :=
  match registry id with
  | None => Ret (Err (not_found id))
  | Some _ =>
      let! rec := call (FindRecord id) in
      if match rec with Ok r => bool_decide (r_State r = StateAvailable) | Err _ => true end then
        Ret (Err (refuse 409 CodeModuleNotInstalled "module is not installed"))
      else
        try! _ := backupCritical "uninstall" id in
        try! jobID := startJob JobUninstall "uninstall_module" id WorkUninstall UninstallDone in
        ignore! (call (UpdateState id StateRemoving)) in
        ignore! (call (Audit "module.uninstall" id)) in
        Ret (Ok jobID)
  end.

(** A module operation that reports an error. *)
Definition wrap_err (msg : string) (p : prog module_call (option error)) : module_prog () :=
  let! e := p in Ret match e with Some e => Err (internal msg e) | None => Ok () end.

(** source: internal/core/module/service.go:260-283 (Enable) *)
Definition Enable (id : string) : module_prog () :=
  match registry id with
  | None => Ret (Err (not_found id))
  | Some _ =>
      let! rec := call (FindRecord id) in
      if match rec with Ok r => bool_decide (r_State r = StateInstalled) || bool_decide (r_State r = StateDisabled)
                   | Err _ => false end then
        try! _ := backupCritical "enable" id in
        try! _ := wrap_err "enable module" (call (ModuleEnable id)) in
        wrap! (internal "update module state") of _ := call (UpdateState id StateEnabled) in
        ignore! (call (Publish "module.enabled" id)) in
        ignore! (call (Audit "module.enable" id)) in
        Ret (Ok ())
      else Ret (Err (refuse 409 CodeModuleNotInstalled "module must be installed before enabling"))
  end.

(** source: internal/core/module/service.go:285-303 (Disable) *)
Definition Disable (id : string) : module_prog () :=
  match registry id with
  | None => Ret (Err (not_found id))
  | Some _ =>
      try! _ := backupCritical "disable" id in
      try! _ := wrap_err "disable module" (call (ModuleDisable id)) in
      wrap! (internal "update module state") of _ := call (UpdateState id StateDisabled) in
      ignore! (call (Publish "module.disabled" id)) in
      ignore! (call (Audit "module.disable" id)) in
      Ret (Ok ())
  end.

(** source: internal/core/module/service.go:305-316 (Restart) *)
Definition Restart (id : string) : module_prog () :=
  match registry id with
  | None => Ret (Err (not_found id))
  | Some _ =>
      try! _ := wrap_err "restart module" (call (ModuleRestart id)) in
      ignore! (call (Audit "module.restart" id)) in
      Ret (Ok ())
  end.

(** ** Administration of jobs *)

(** source: internal/core/module/jobs.go:15-23 (ListJobs, the page) *)
Definition page (limit offset : Z) : Z * Z :=
  ((if (limit <=? 0) || (100 <? limit) then 25 else limit)%Z, (if offset <? 0 then 0 else offset)%Z).

(** source: internal/core/module/jobs.go:25-41 (CancelJob) *)
Definition CancelJob (id : string) : module_prog () :=
  try! job := call (JobFind id) in
  if negb (bool_decide (j_State job = JobPending)) && negb (bool_decide (j_State job = JobRunning)) then
    Ret (Err (refuse 409 CodeConflict "only pending or running tasks can be canceled"))
  else
    let! attached := call (HasCancel id) in
    if negb attached then Ret (Err (refuse 409 CodeConflict "task is no longer attached to this process"))
    else
      ignore! (call (CancelContext id)) in
      call (JobUpdate id JobCanceled (Output job) "canceled by user").

(** source: internal/core/module/jobs.go:43-48 (DeleteJob) *)
Definition DeleteJob (id : string) : module_prog () :=
  try! _ := call (JobFind id) in call (JobDelete id).

(** source: internal/core/module/jobs.go:50-81 (RetryJob) *)
Definition RetryJob (id : string) : module_prog string :=
  try! job := call (JobFind id) in
  if negb (bool_decide (j_State job = JobError)) && negb (bool_decide (j_State job = JobCanceled)) then
    Ret (Err (refuse 409 CodeConflict "only failed or canceled tasks can be retried"))
  else match Payload job with
  | None | Some "" => Ret (Err (InvalidInput "task payload cannot be retried"))
  | Some moduleID =>
      match registry moduleID with
      | None => Ret (Err (refuse 404 CodeModuleNotFound "task module is no longer available"))
      | Some _ =>
          match j_Type job with
          | JobInstall => startJob JobInstall "install_module" moduleID WorkInstall RetryInstallDone
          | JobUninstall => startJob JobUninstall "uninstall_module" moduleID WorkUninstall RetryUninstallDone
          | _ => Ret (Err (InvalidInput "task type does not support retry"))
          end
      end
  end.

Definition interrupted : string := "operation interrupted by Core restart; runtime state will be reconciled".

(** source: internal/core/module/jobs.go:89-95 (RecoverInterruptedJobs, one state) *)
Fixpoint recover_jobs (l : list Job) : module_prog () :=
  match l with
  | [] => Ret (Ok ())
  | job :: l' =>
      wrap! (Wrapped ("mark interrupted job " ++ j_ID job)) of _ :=
        call (JobUpdate (j_ID job) JobError (Output job) interrupted) in
      recover_jobs l'
  end.

(** source: internal/core/module/jobs.go:83-98 (RecoverInterruptedJobs) *)
Definition RecoverInterruptedJobs : module_prog () :=
  wrap! (Wrapped "list interrupted pending jobs") of pending := call (JobList JobPending) in
  try! _ := recover_jobs pending in
  wrap! (Wrapped "list interrupted running jobs") of started := call (JobList JobRunning) in
  recover_jobs started.

(** ** The loader *)

(** source: internal/core/module/registry.go:82-116 (Bootstrap), the modules sorted by
    identifier *)
Fixpoint Bootstrap (modules : list (string * module_info)) : module_prog () :=
  match modules with
  | [] => Ret (Ok ())
  | (id, m) :: modules' =>
      let! existing := call (FindRecord id) in
      try! _ := match existing with
                | Ok _ => Ret (Ok ())
                | Err e =>
                    if negb match find_app e with Some a => bool_decide (Code a = CodeNotFound) | None => false end
                    then Ret (Err (Wrapped ("module loader: find record " ++ id) e))
                    else
                      wrap! (Wrapped ("module loader: upsert record " ++ id)) of _ :=
                        call (Upsert {| r_ID := id; r_Name := m_Name m; r_State := StateAvailable; Version := None;
                                        Config := "{}"; InstalledAt := None |}) in
                      Ret (Ok ())
                end in
      let! e := call (ModuleBootstrap id) in
      ignore! (match e with
        | Some _ => ignore! (call (UpdateState id StateError)) in Ret ()
        | None => Ret ()
        end) in
      Bootstrap modules'
  end.

(** source: internal/core/module/registry.go:146-156 (syncRuntimeState, the state that is
    detected) *)
Definition detected (m : module_info) (s : status) : State :=
  if installed s then
    if SupportsService m then if running s then StateEnabled else StateDisabled else StateInstalled
  else StateAvailable.

(** source: internal/core/module/registry.go:132-172 (syncRuntimeState) *)
Definition syncRuntimeState (id : string) (m : module_info) : prog module_call () :=
  let! existing := call (FindRecord id) in
  match existing with
  | Err _ => Ret ()
  | Ok r =>
      if bool_decide (r_State r = StateAvailable) || match Version r with None | Some "" => true | _ => false end then
        let! s := call (ModuleStatus id) in
        match s with
        | Ok (Some s) =>
            match detected m s with
            | (StateInstalled | StateEnabled | StateDisabled) as st =>
                ignore! (call (Upsert {| r_ID := r_ID r; r_Name := r_Name r; r_State := st;
                  Version := if String.eqb (SoftwareVersion s) "" then Version r else Some (SoftwareVersion s);
                  Config := Config r; InstalledAt := InstalledAt r |})) in
                Ret ()
            | _ => Ret ()
            end
        | _ => Ret ()
        end
      else Ret ()
  end.

(** source: internal/core/module/registry.go:118-130 (SyncRuntimeStates): the loop ends
    when the context of the start-up is done *)
Fixpoint SyncRuntimeStates (modules : list (string * module_info)) : prog module_call () :=
  match modules with
  | [] => Ret ()
  | (id, m) :: modules' =>
      let! done := call (ContextErr "startup") in
      match done with
      | Some _ => Ret ()
      | None => ignore! (syncRuntimeState id m) in SyncRuntimeStates modules'
      end
  end.
End service.

(** ** The stored state

    The records and jobs, the jobs that can be cancelled, the threads that were
    started, and the number of failed database calls. *)

Record world := {
  records : gmap string record; jobs : gmap string Job; cancels : gset string;
  started : list (string * string * work * on_success); failed : nat;
}.

Definition set_records (m : gmap string record) (w : world) : world :=
  {| records := m; jobs := jobs w; cancels := cancels w; started := started w; failed := failed w |}.
Definition set_jobs (m : gmap string Job) (w : world) : world :=
  {| records := records w; jobs := m; cancels := cancels w; started := started w; failed := failed w |}.
Definition set_cancels (s : gset string) (w : world) : world :=
  {| records := records w; jobs := jobs w; cancels := s; started := started w; failed := failed w |}.
Definition start (t : string * string * work * on_success) (w : world) : world :=
  {| records := records w; jobs := jobs w; cancels := cancels w; started := t :: started w; failed := failed w |}.
Definition fail (w : world) : world :=
  {| records := records w; jobs := jobs w; cancels := cancels w; started := started w; failed := S (failed w) |}.

Definition set_state (st : State) (r : record) : record := {|
  r_ID := r_ID r; r_Name := r_Name r; r_State := st; Version := Version r; Config := Config r;
  InstalledAt := InstalledAt r |}.

(** A write that takes effect, or fails. *)
Definition writes (x : result error ()) (w done w' : world) : Prop :=
  x = Ok () /\ w' = done \/ is_ok x = false /\ w' = fail w.

(** A read finds the row, or there is none, or it fails. *)
Definition reads {A} (row : option A) (x : result error A) (w w' : world) : Prop :=
  match x with
  | Ok a => row = Some a /\ w' = w
  | Err _ => row = None /\ w' = w \/ w' = fail w
  end.

(** The repositories of sqlite_repository.go, as relations on the tables of a server,
    and the map of cancel functions. *)
Definition module_sem X (e : module_call X) (w : world) (x : X) (w' : world) : Prop :=
  match e in module_call X return X -> Prop with
  | FindRecord id => fun x => reads (records w !! id) x w w'
  | Upsert r => fun x => writes x w (set_records (<[r_ID r := r]> (records w)) w) w'
  | UpdateState id st => fun x => writes x w (set_records (alter (set_state st) id (records w)) w) w'
  | JobCreate j => fun x =>
      x = Ok () /\ jobs w !! j_ID j = None /\ w' = set_jobs (<[j_ID j := j]> (jobs w)) w
      \/ is_ok x = false /\ w' = fail w
  | JobFind id => fun x => reads (jobs w !! id) x w w'
  | JobUpdate id st output err => fun x =>
      exists now, writes x w (set_jobs (alter (job_update st output err now) id (jobs w)) w) w'
  | JobDelete id => fun x =>
      x = Ok () /\ (exists j, jobs w !! id = Some j /\ finished (j_State j) = true) /\ w' = set_jobs (delete id (jobs w)) w
      \/ is_ok x = false /\ (w' = w /\ (forall j, jobs w !! id = Some j -> finished (j_State j) = false) \/ w' = fail w)
  | JobList st => fun x =>
      match x with
      | Ok l => w' = w /\ length l <= 100 /\
          (forall j, In j l -> j_State j = st /\ jobs w !! j_ID j = Some j) /\
          (length l < 100 -> forall i j, jobs w !! i = Some j -> j_State j = st -> In j l)
      | Err _ => w' = fail w
      end
  | PutCancel id => fun _ => w' = set_cancels ({[id]} ∪ cancels w) w
  | HasCancel id => fun x => x = bool_decide (id ∈ cancels w) /\ w' = w
  | DropCancel id => fun _ => w' = set_cancels (cancels w ∖ {[id]}) w
  | Go id m wk k => fun _ => w' = start (id, m, wk, k) w
  | _ => fun _ => w' = w
  end x.

Section jobs.
Context (registry : string -> option module_info) (has_backup : bool).
Notation runs := (runs module_sem).

(** The state of a module after its job. *)
Definition done_state (k : on_success) : State :=
  match k with InstallDone | RetryInstallDone => StateInstalled | UninstallDone | RetryUninstallDone => StateAvailable end.

(** Failed calls are counted, whatever is run. *)
Lemma runs_failed {A} (p : prog module_call A) w a w' : runs p w a w' -> failed w <= failed w'.
Proof.
  intros Hr. eapply (runs_invariant module_sem (fun w1 => failed w <= failed w1)); [|exact Hr|done].
  intros X e w1 x w2 Hs Hle.
  assert (Hmono : failed w1 <= failed w2); [|lia].
  destruct e; simpl in Hs; unfold reads, writes in Hs;
    repeat match goal with
    | H : match ?x with Ok _ => _ | Err _ => _ end |- _ => destruct x
    | H : _ \/ _ |- _ => destruct H
    | H : _ /\ _ |- _ => destruct H
    | H : exists _, _ |- _ => destruct H
    end; subst; simpl; lia.
Qed.

(** Writes that do not fail. *)
Lemma runs_JobUpdate {A} id st o e (q : prog module_call A) w a w' :
  runs (ignore! (call (JobUpdate id st o e)) in q) w a w' -> failed w' = failed w ->
  exists now, runs q (set_jobs (alter (job_update st o e now) id (jobs w)) w) a w'.
Proof.
  intros (x & w1 & (now & [[_ ->]|[_ ->]]) & Hr) Hf; [by exists now|]. apply runs_failed in Hr. simpl in Hr. lia.
Qed.

Lemma runs_UpdateState {A} id st (q : prog module_call A) w a w' :
  runs (ignore! (call (UpdateState id st)) in q) w a w' -> failed w' = failed w ->
  runs q (set_records (alter (set_state st) id (records w)) w) a w'.
Proof. intros (x & w1 & [[_ ->]|[_ ->]] & Hr) Hf; [done|]. apply runs_failed in Hr. simpl in Hr. lia. Qed.

Lemma runs_Upsert {A} rc (q : prog module_call A) w a w' :
  runs (ignore! (call (Upsert rc)) in q) w a w' -> failed w' = failed w ->
  runs q (set_records (<[r_ID rc := rc]> (records w)) w) a w'.
Proof. intros (x & w1 & [[_ ->]|[_ ->]] & Hr) Hf; [done|]. apply runs_failed in Hr. simpl in Hr. lia. Qed.

(** What is recorded when the work of a job succeeded. *)
Lemma runs_on_success k m w a w' rc :
  records w !! m = Some rc -> runs (run_on_success registry k m) w a w' -> failed w' = failed w ->
  exists rc', w' = set_records (<[m := rc']> (records w)) w /\ r_State rc' = done_state k.
Proof.
  intros Hm Hr Hf. destruct k; cbn [run_on_success] in Hr.
  - destruct Hr as (now & w1 & -> & st & w2 & -> & Hr). cbn [bind call] in Hr.
    apply runs_Upsert in Hr; [|done]. destruct Hr as (? & ? & -> & _ & ->). eauto.
  - apply runs_UpdateState in Hr; [|done]. destruct Hr as (? & ? & -> & _ & ->).
    exists (set_state StateAvailable rc). split; [|done]. f_equal. apply map_eq. intros i.
    destruct (decide (i = m)) as [->|Hne]; [by rewrite lookup_alter_eq, Hm, lookup_insert_eq|].
    by rewrite lookup_alter_ne, lookup_insert_ne.
  - destruct Hr as (now & w1 & -> & Hr). cbn [bind call] in Hr.
    apply runs_Upsert in Hr; [|done]. destruct Hr as [_ ->]. eauto.
  - apply runs_UpdateState in Hr; [|done]. destruct Hr as [_ ->].
    exists (set_state StateAvailable rc). split; [|done]. f_equal. apply map_eq. intros i.
    destruct (decide (i = m)) as [->|Hne]; [by rewrite lookup_alter_eq, Hm, lookup_insert_eq|].
    by rewrite lookup_alter_ne, lookup_insert_ne.
Qed.

(** The last steps of a thread. *)
Lemma runs_detach id w a w' :
  runs (ignore! (call (CancelContext id)) in call (DropCancel id)) w a w' ->
  w' = set_cancels (cancels w ∖ {[id]}) w.
Proof. by intros (x & w1 & -> & y & w2 & -> & _ & ->). Qed.

Lemma runs_module_publish e i w a w' : runs (call (Publish e i)) w a w' -> w' = w.
Proof. by intros (x & w1 & -> & _ & ->). Qed.

Lemma runs_do_work wk m w r w' : runs (do_work wk m) w r w' -> w' = w.
Proof. destruct wk; by intros (x & w1 & -> & _ & ->). Qed.

Lemma alter_twice {A} (f g : A -> A) i (m : gmap string A) x :
  m !! i = Some x -> alter g i (alter f i m) = <[i := g (f x)]> m.
Proof.
  intros Hx. apply map_eq. intros k. destruct (decide (k = i)) as [->|Hne].
  - by rewrite !lookup_alter_eq, Hx, lookup_insert_eq.
  - by rewrite !lookup_alter_ne, lookup_insert_ne.
Qed.

Lemma job_ends id m wk k w j rc a w' :
  jobs w !! id = Some j -> records w !! m = Some rc ->
  runs (job_thread registry id m wk k) w a w' -> failed w' = failed w ->
  exists j', jobs w' = <[id := j']> (jobs w) /\ finished (j_State j') = true /\ id ∉ cancels w' /\
    if bool_decide (j_State j' = JobSuccess)
    then exists rc', records w' = <[m := rc']> (records w) /\ r_State rc' = done_state k
    else records w' = records w.
Proof.
  intros Hj Hm Hr Hf. unfold job_thread in Hr. apply runs_JobUpdate in Hr as (now & Hr); [|done].
  apply runs_bind in Hr as (r & w1 & ->%runs_do_work & Hr).
  apply runs_bind in Hr as (x & w2 & Hbody & Hd%runs_detach). subst w'. simpl in Hf.
  assert (Hend : exists st o e now' w3, w2 = set_jobs (alter (job_update st o e now') id (jobs w3)) w3 /\
    jobs w3 = alter (job_update JobRunning "" "" now) id (jobs w) /\ finished st = true /\
    if bool_decide (st = JobSuccess)
    then exists rc', records w3 = <[m := rc']> (records w) /\ r_State rc' = done_state k
    else records w3 = records w).
  { destruct r as [e|].
    - apply runs_JobUpdate in Hbody as (now' & ->%runs_module_publish); [|done].
      eexists _, _, _, now', _. split; [done|]. split; [done|]. by destruct (is_canceled e).
    - destruct Hbody as (c & w3 & -> & Hbody). cbn [bind call] in Hbody. destruct c as [e|].
      + apply runs_JobUpdate in Hbody as (now' & ->%runs_module_publish); [|done].
        by eexists _, _, _, now', _.
      + apply runs_bind in Hbody as (y & w3 & Hs & Hbody). pose proof (runs_failed _ _ _ _ Hs) as Hf3.
        pose proof (runs_failed _ _ _ _ Hbody) as Hf4. simpl in Hf3.
        apply (runs_on_success k m _ _ _ rc) in Hs as (rc' & -> & Hst); [|done|simpl in *; lia].
        apply runs_JobUpdate in Hbody as (now' & ->%runs_module_publish); [|done].
        eexists JobSuccess, _, _, now', _. split; [done|]. split; [done|]. split; [done|]. simpl. eauto. }
  destruct Hend as (st & o & e & now' & w3 & -> & Hj3 & Hfin & Hrec). simpl.
  exists (job_update st o e now' (job_update JobRunning "" "" now j)). split; [by rewrite Hj3, (alter_twice _ _ _ _ j Hj)|].
  assert (j_State (job_update st o e now' (job_update JobRunning "" "" now j)) = st) as -> by (by destruct st).
  split; [done|]. split; [set_solver|]. done.
Qed.

(** C13. A job that was started ends in a final state: when no database call fails and
    nothing else touches the job, it is stored as succeeded, failed or cancelled,
    no other job changes, it can no longer be cancelled, and the record of its
    module is moved to the new state exactly when the job succeeded. *)
Theorem job_outcome id m wk k w j rc a w' :
  jobs w !! id = Some j -> records w !! m = Some rc ->
  runs (job_thread registry id m wk k) w a w' -> failed w' = failed w ->
  exists j', jobs w' = <[id := j']> (jobs w) /\ finished (j_State j') = true /\ id ∉ cancels w' /\
    if bool_decide (j_State j' = JobSuccess)
    then exists rc', records w' = <[m := rc']> (records w) /\ r_State rc' = done_state k
    else records w' = records w.
Proof. apply job_ends. Qed.

Lemma runs_module_backup op i w r w' : runs (backupCritical has_backup op i) w r w' -> w' = w.
Proof.
  unfold backupCritical. destruct has_backup; [|by intros [_ ->]].
  intros (x & w1 & -> & Hr). by destruct x; destruct Hr as [_ ->].
Qed.

Lemma runs_startJob ty name m wk k w jid w' :
  runs (startJob ty name m wk k) w (Ok jid) w' ->
  records w' = records w /\ failed w' = failed w /\ is_Some (jobs w' !! jid) /\
  started w' = (jid, m, wk, k) :: started w.
Proof.
  intros (i & w1 & -> & now & w2 & -> & x & w3 & Hx & Hr). destruct x as [[]|e]; [|by destruct Hr].
  destruct Hx as [(_ & _ & ->)|[? _]]; [|done]. destruct Hr as (? & ? & -> & ? & ? & -> & [= <-] & ->).
  simpl. rewrite lookup_insert_eq. by split_and!.
Qed.

(** What a successful request to install leaves. *)
Lemma runs_Install id w jid w' :
  runs (Install registry has_backup id) w (Ok jid) w' -> failed w' = failed w ->
  registry id <> None /\ is_Some (jobs w' !! jid) /\ records w' = alter (set_state StateInstalling) id (records w).
Proof.
  unfold Install. destruct (registry id); [|by intros [? _]].
  intros (rec & w1 & Hrec & Hr) Hf. cbn [bind call] in Hr.
  assert (Hw1 : w1 = w \/ failed w < failed w1).
  { destruct rec; [by destruct Hrec as [_ ->]; left|]. destruct Hrec as [[_ ->]| ->]; [by left|]. right. simpl. lia. }
  assert (Hgo : runs (try! _ := backupCritical has_backup "install" id in
          try! jobID := startJob JobInstall "install_module" id WorkInstall InstallDone in
          ignore! (call (UpdateState id StateInstalling)) in
          ignore! (call (Audit "module.install" id)) in
          Ret (Ok jobID)) w1 (Ok jid) w').
  { destruct rec as [r|e]; [|exact Hr]. destruct (r_State r); (exact Hr || by destruct Hr). }
  pose proof (runs_failed _ _ _ _ Hgo). destruct Hw1 as [->|]; [|lia]. clear Hr Hrec.
  apply runs_bind in Hgo as (x & w1 & ->%runs_module_backup & Hr). destruct x; [|by destruct Hr].
  apply runs_bind in Hr as (x & w1 & Hs & Hr). destruct x as [jid'|e]; [|by destruct Hr].
  apply runs_startJob in Hs as (Hrec & Hf1 & Hjob & _).
  apply runs_UpdateState in Hr; [|congruence]. destruct Hr as (? & ? & -> & [= ->] & ->). simpl. by rewrite Hrec.
Qed.

(** A module whose installation failed cannot be installed again: its record stays
    in the installing state, and every later request to install it is refused as
    busy, although no operation is in progress. *)
Theorem failed_install_blocks id w jid w1 a w2 j r w3 :
  records w !! id <> None ->
  runs (Install registry has_backup id) w (Ok jid) w1 ->
  runs (job_thread registry jid id WorkInstall InstallDone) w1 a w2 ->
  jobs w2 !! jid = Some j -> j_State j <> JobSuccess ->
  runs (Install registry has_backup id) w2 r w3 -> failed w3 = failed w ->
  r = Err (refuse 409 CodeModuleBusy "module operation in progress").
Proof.
  intros Hknown Hi Ht Hj Hst Hagain Hf. destruct (records w !! id) as [rc|] eqn:Hrc; [|done].
  pose proof (runs_failed _ _ _ _ Hi). pose proof (runs_failed _ _ _ _ Ht). pose proof (runs_failed _ _ _ _ Hagain).
  apply runs_Install in Hi as (Hreg & [j1 Hj1] & Hrec1); [|lia].
  assert (Hrc1 : records w1 !! id = Some (set_state StateInstalling rc)) by (by rewrite Hrec1, lookup_alter_eq, Hrc).
  eapply job_ends in Ht as (j' & Hjobs & _ & _ & Hrec); [|done|done|lia].
  rewrite Hjobs, lookup_insert_eq in Hj. injection Hj as ->. rewrite bool_decide_eq_false_2 in Hrec by done.
  unfold Install in Hagain. destruct (registry id); [|done].
  destruct Hagain as (x & w4 & Hx & Hr). cbn [bind call] in Hr. unfold module_sem, reads in Hx.
  rewrite Hrec, Hrc1 in Hx. destruct x as [rc'|e].
  - destruct Hx as [[= <-] ->]. by destruct Hr.
  - destruct Hx as [[? _]| ->]; [done|]. apply runs_failed in Hr. simpl in Hr. lia.
Qed.
End jobs.

(** ** Witnesses *)

Definition sample_registry (id : string) : option module_info :=
  if String.eqb id "nginx" then Some {| m_Name := "Nginx"; SupportsService := true |} else None.

Definition sample_record : record := {|
  r_ID := "nginx"; r_Name := "Nginx"; r_State := StateAvailable; Version := None; Config := "{}"; InstalledAt := None |}.

Definition world0 : world := {|
  records := {["nginx" := sample_record]}; jobs := empty; cancels := empty; started := []; failed := 0 |}.

Definition sample_job : Job := new_job "j1" JobInstall "install_module" "nginx" 0.

(** After the request to install. *)
Definition world1 : world := {|
  records := alter (set_state StateInstalling) "nginx" {["nginx" := sample_record]};
  jobs := {["j1" := sample_job]}; cancels := {["j1"]} ∪ ∅; started := [("j1", "nginx", WorkInstall, InstallDone)];
  failed := 0 |}.

(** After its thread, when the work failed. *)
Definition world2 : world :=
  set_cancels (({["j1"]} ∪ ∅) ∖ {["j1"]})
    (set_jobs (alter (job_update JobError "" "apt-get failed" 2) "j1" (alter (job_update JobRunning "" "" 1) "j1" {["j1" := sample_job]})) world1).

Lemma install_run : runs module_sem (Install sample_registry false "nginx") world0 (Ok "j1") world1.
Proof.
  exists (Ok sample_record), world0. split; [by split|]. exists "j1", world0. split; [done|]. exists 0%Z, world0.
  split; [done|]. exists (Ok ()). eexists. split; [left; by split_and!|]. exists (). eexists. split; [done|].
  exists (). eexists. split; [done|]. exists (Ok ()). eexists. split; [by left|]. exists (). eexists. split; [done|]. by split.
Qed.

Lemma thread_run : runs module_sem (job_thread sample_registry "j1" "nginx" WorkInstall InstallDone) world1 () world2.
Proof.
  exists (Ok ()). eexists. split; [exists 1%Z; by left|]. exists (Some (Plain "apt-get failed")). eexists. split; [done|].
  exists (Ok ()). eexists. split; [exists 2%Z; by left|]. exists (). eexists. split; [done|].
  exists (). eexists. split; [done|]. exists (). eexists. split; [done|]. by split.
Qed.

Lemma job_outcome_witness :
  exists j', jobs world2 = <["j1" := j']> (jobs world1) /\ finished (j_State j') = true /\ "j1" ∉ cancels world2 /\
    if bool_decide (j_State j' = JobSuccess)
    then exists rc', records world2 = <["nginx" := rc']> (records world1) /\ r_State rc' = StateInstalled
    else records world2 = records world1.
Proof.
  exact (job_outcome sample_registry "j1" "nginx" WorkInstall InstallDone world1 sample_job
    (set_state StateInstalling sample_record) () world2 eq_refl eq_refl thread_run eq_refl).
Defined.

Lemma failed_install_blocks_witness :
  runs module_sem (Install sample_registry false "nginx") world2
    (Err (refuse 409 CodeModuleBusy "module operation in progress")) world2 /\
  (Err (refuse 409 CodeModuleBusy "module operation in progress") : result error string) =
    Err (refuse 409 CodeModuleBusy "module operation in progress").
Proof.
  assert (Hr : runs module_sem (Install sample_registry false "nginx") world2
    (Err (refuse 409 CodeModuleBusy "module operation in progress")) world2).
  { exists (Ok (set_state StateInstalling sample_record)), world2. split; [by split|]. by split. }
  split; [exact Hr|].
  refine (failed_install_blocks sample_registry false "nginx" world0 "j1" world1 () world2 _ _ world2
    _ install_run thread_run eq_refl _ Hr eq_refl); discriminate.
Defined.
