(* ===== verification/System.v ===== *)
(** * Properties across components

    The site service and the module service promise the same: when a backup guard is
    set, a backup is made, and has succeeded, before anything is changed.  This file
    states what that means for any program and proves it of both services. *)

From S2P Require Import Prelude GoStrings AppErrors Effects SiteDomain Site Modules.
Local Open Scope string_scope.
Local Open Scope go_scope.

(** ** Guards *)

Section guards.
Context {E : Set -> Set} (changes : forall X, E X -> bool) (passed : forall X, E X -> X -> bool).

(** Until a call passed the guard nothing is changed, and a program that ends without
    one ends with [Q]. *)
Fixpoint guarded {A} (Q : A -> Prop) (p : prog E A) : Prop :=
  match p with
  | Ret a => Q a
  | @Call _ _ X e k => changes X e = false /\ forall x, passed X e x = true \/ guarded Q (k x)
  end.

Lemma guarded_bind {A B} (Q : A -> Prop) (R : B -> Prop) (p : prog E A) f :
  guarded Q p -> (forall a, Q a -> guarded R (f a)) -> guarded R (bind p f).
Proof.
  intros Hp Hf. induction p as [a|X e k IH]; simpl in *; [by apply Hf|].
  destruct Hp as [He Hk]. split; [done|]. intros x. destruct (Hk x); auto.
Qed.

(** A call that changes something comes after one that passed the guard. *)
Definition guards {A} (p : prog E A) : Prop :=
  forall tr a, exec p tr a -> forall tr1 X (e : E X) (x : X) tr2, tr = (tr1 ++ Act e x :: tr2)%list ->
  changes X e = true -> Exists (fun ac => match ac with Act e x => passed _ e x = true end) tr1.

Lemma guarded_guards {A} (Q : A -> Prop) (p : prog E A) : guarded Q p -> guards p.
Proof.
  intros Hp tr. revert Hp. revert tr. induction p as [b|X e k IH]; intros tr Hp a Hexec tr1 Y c y tr2 Htr Hc; simpl in *.
  { destruct Hexec as [-> _]. by destruct tr1. }
  destruct Hp as [He Hk], Hexec as (x & tr' & -> & Hexec). destruct tr1 as [|ac tr1].
  - apply (f_equal (fun l => match l with Act e _ :: _ => changes _ e | [] => false end)) in Htr. simpl in Htr. congruence.
  - assert (Hhead : Act e x = ac) by (by apply (f_equal (fun l => default (Act e x) (head l))) in Htr).
    apply (f_equal tail) in Htr. simpl in Htr. subst ac.
    destruct (Hk x) as [Hpass|Hg]; [by constructor|]. apply Exists_cons_tl. by eapply IH.
Qed.
End guards.

(** ** The site service *)

(** Only looking up settings and sites changes nothing. *)
Definition site_changes X (e : site_call X) : bool :=
  match e with
  | Site.Backup _ | SettingGet _ | RepoFind _ | RepoListAll => false
  | _ => true
  end.

Definition site_backed_up X (e : site_call X) : X -> bool :=
  match e in site_call X return X -> bool with Site.Backup _ => fun x => is_ok x | _ => fun _ => false end.

Notation site_guarded p := (guarded site_changes site_backed_up (fun _ => True) p).

Lemma site_backup_guarded svc op :
  Site.has_backup svc = true ->
  guarded site_changes site_backed_up (fun r => is_ok r = false) (Site.backupCritical svc op).
Proof.
  unfold Site.backupCritical. intros ->. split; [done|]. intros [[]|e]; [by left|by right].
Qed.

Lemma site_after_backup svc op {A} (k : () -> site_prog A) :
  Site.has_backup svc = true -> site_guarded (bind_err (Site.backupCritical svc op) k).
Proof.
  intros Hb. eapply guarded_bind; [by apply site_backup_guarded|]. by intros [[]|e].
Qed.

Lemma Create_guarded `{Unicode} svc req user :
  Site.has_backup svc = true -> site_guarded (Create svc req user).
Proof.
  intros Hb. unfold Create. eapply (guarded_bind _ _ (fun _ => True)).
  - unfold applyDefaultPHP. destruct (_ || _); [done|]. split; [done|]. intros [v|e]; by right.
  - intros [req'|e] _; [|done]. destruct (check_request req'); [|done]. by apply site_after_backup.
Qed.

(** ** The module service *)

Definition module_changes X (e : module_call X) : bool :=
  match e with
  | Modules.Backup _ | FindRecord _ | JobFind _ | JobList _ | HasCancel _ | NewID | Now | ContextErr _
  | ModuleStatus _ => false
  | _ => true
  end.

Definition module_backed_up X (e : module_call X) : X -> bool :=
  match e in module_call X return X -> bool with Modules.Backup _ => fun x => is_ok x | _ => fun _ => false end.

Notation module_guarded p := (guarded module_changes module_backed_up (fun _ => True) p).

Lemma module_after_backup op id {A} (k : () -> module_prog A) :
  module_guarded (bind_err (Modules.backupCritical true op id) k).
Proof.
  eapply (guarded_bind _ _ (fun r => is_ok r = false)).
  - split; [done|]. intros [[]|e]; [by left|by right].
  - by intros [[]|e].
Qed.

Lemma Install_guarded registry id : module_guarded (Install registry true id).
Proof.
  unfold Install. destruct (registry id); [|done]. split; [done|]. intros r. right. cbn [bind].
  destruct r as [r|e]; [destruct (r_State r)|]; try done; by apply module_after_backup.
Qed.

Lemma Uninstall_guarded registry id : module_guarded (Uninstall registry true id).
Proof.
  unfold Uninstall. destruct (registry id); [|done]. split; [done|]. intros r. right. cbn [bind].
  destruct (match r with Ok _ => _ | Err _ => _ end); [done|]. by apply module_after_backup.
Qed.

Lemma Enable_guarded registry id : module_guarded (Modules.Enable registry true id).
Proof.
  unfold Modules.Enable. destruct (registry id); [|done]. split; [done|]. intros r. right. cbn [bind].
  destruct (match r with Ok _ => _ | Err _ => _ end); [|done]. by apply module_after_backup.
Qed.

Lemma Disable_guarded registry id : module_guarded (Modules.Disable registry true id).
Proof. unfold Modules.Disable. destruct (registry id); [|done]. by apply module_after_backup. Qed.

(** C8. With a backup guard set, nine operations make a backup before they change
    anything: Create, Update, Delete, Enable and Disable of a site, and Install,
    Uninstall, Enable and Disable of a module.  In every execution of one of them, each
    call that changes anything, of the host, the repositories, the jobs or the audit log,
    comes after a backup that succeeded.  The other operations make none: a job that is
    retried ([retry_without_backup]), Restart of a module and ReconcileActive. *)
Theorem changes_after_backup `{Unicode} svc registry :
  Site.has_backup svc = true ->
  (forall req user, guards site_changes site_backed_up (Create svc req user)) /\
  (forall id req, guards site_changes site_backed_up (Update svc id req)) /\
  (forall id, guards site_changes site_backed_up (Delete svc id)) /\
  (forall id, guards site_changes site_backed_up (Site.Enable svc id)) /\
  (forall id, guards site_changes site_backed_up (Site.Disable svc id)) /\
  (forall id, guards module_changes module_backed_up (Install registry true id)) /\
  (forall id, guards module_changes module_backed_up (Uninstall registry true id)) /\
  (forall id, guards module_changes module_backed_up (Modules.Enable registry true id)) /\
  (forall id, guards module_changes module_backed_up (Modules.Disable registry true id)).
Proof.
  intros Hb. split_and!; intros; eapply guarded_guards.
  - by apply Create_guarded.
  - by apply site_after_backup.
  - by apply site_after_backup.
  - by apply site_after_backup.
  - by apply site_after_backup.
  - apply Install_guarded.
  - apply Uninstall_guarded.
  - apply Enable_guarded.
  - apply Disable_guarded.
Qed.

#[local] Existing Instance unicode_ascii.

Definition backed_up_service : Service := {|
  Site.has_backup := true; has_settings := false; has_audit := true; has_events := true; remote := false;
  registry := fun _ => None |}.

Lemma changes_after_backup_witness :
  guards site_changes site_backed_up (Create backed_up_service static_request "u1") /\
  guards module_changes module_backed_up (Install sample_registry true "nginx").
Proof.
  destruct (changes_after_backup backed_up_service sample_registry eq_refl) as (Hc & _ & _ & _ & _ & Hi & _).
  split; [apply Hc|apply Hi].
Defined.

(** A failed job that is retried starts its work without a backup. *)
Definition failed_job : Job := job_update JobError "" "apt failed" 1 sample_job.

Definition retry_answer X (c : module_call X) : option X :=
  match c in module_call X return option X with
  | JobFind _ => Some (Ok failed_job)
  | NewID => Some "j2"
  | Now => Some 2%Z
  | JobCreate _ => Some (Ok ())
  | PutCancel _ | Go _ _ _ _ => Some ()
  | _ => None
  end.

Theorem retry_without_backup : ~ guards module_changes module_backed_up (RetryJob sample_registry "j1").
Proof.
  intros Hg.
  assert (Hx := traced_exec retry_answer (RetryJob sample_registry "j1") _ _ eq_refl).
  specialize (Hg _ _ Hx [_; _; _] _ (JobCreate _) _ _ eq_refl eq_refl).
  repeat (apply Exists_cons in Hg as [Hg|Hg]; [done|]). by apply Exists_nil in Hg.
Qed.
