(* ===== verification/Ufw.v ===== *)
(** * The Agent's firewall

    src/internal/agent/firewall/ufw.go: the manager of ufw rules, with the part of the gRPC
    service (src/internal/agent/server/server.go) and of the client
    (src/internal/agentclient/client.go) between it and the Core.  Commands go through the
    executor of src/internal/agent/executor/shell.go. *)

From S2P Require Import Prelude GoStrings GoStrconv GoPath GoRegexp GoJson Effects Executor.
Local Open Scope string_scope.
Local Open Scope go_scope.

(** ** Messages *)

Inductive FirewallAction := FIREWALL_ACTION_UNSPECIFIED | FIREWALL_ACTION_ALLOW | FIREWALL_ACTION_DENY | FIREWALL_ACTION_REJECT.
Inductive FirewallDirection :=
| FIREWALL_DIRECTION_UNSPECIFIED | FIREWALL_DIRECTION_IN | FIREWALL_DIRECTION_OUT | FIREWALL_DIRECTION_ROUTED.
Inductive FirewallIPVersion :=
| FIREWALL_IP_VERSION_UNSPECIFIED | FIREWALL_IP_VERSION_V4 | FIREWALL_IP_VERSION_V6 | FIREWALL_IP_VERSION_BOTH.

#[export] Instance FirewallAction_eq_dec : EqDecision FirewallAction.
Proof. solve_decision. Defined.
#[export] Instance FirewallDirection_eq_dec : EqDecision FirewallDirection.
Proof. solve_decision. Defined.
#[export] Instance FirewallIPVersion_eq_dec : EqDecision FirewallIPVersion.
Proof. solve_decision. Defined.

(** A rule as the Agent is asked for it, and as the Agent lists it. *)
Record rule := mkRule {
  Id : string; Port : string; Protocol : string; Action : FirewallAction; Direction : FirewallDirection;
  Source : string; Destination : string; Comment : string; IpVersion : FirewallIPVersion }.

#[export] Instance rule_eq_dec : EqDecision rule.
Proof. solve_decision. Defined.

Record FirewallStatusResponse := {
  Active : bool; DefaultIncoming : string; DefaultOutgoing : string; DefaultRouted : string; Ipv6Enabled : bool;
  Logging : string; RuleCount : Z; ProfileName : string }.

Inductive fw_error :=
| FwMsg (s : string)
| FwShell (what : string) (e : shell_error)
| FwWrap (what : string) (e : fw_error)
| FwJoin (l : list fw_error).

(** ** Parsing the output of ufw *)

Definition line_feed : ascii := ascii_of_nat 10.

(** The conversion to int32. *)
Definition wrap32 (z : Z) : Z := ((z + 2 ^ 31) mod 2 ^ 32 - 2 ^ 31)%Z.

(** [strings.ToUpper] of a word that is compared with ALLOW, DENY and REJECT: the upper case
    of a character outside ASCII is I, S or outside ASCII, so it is left alone. *)
Definition upper_byte (c : ascii) : ascii := if is_lower c then ascii_of_N (N_of_ascii c - 32) else c.
Definition to_upper (s : string) : string := str_map upper_byte s.

(** source: internal/agent/firewall/ufw.go:281-297 (parseUFWStatus, the search for the action) *)
Fixpoint find_action (parts : list string) : FirewallAction :=
  match parts with
  | [] => FIREWALL_ACTION_UNSPECIFIED
  | p :: parts' =>
      let p := to_upper p in
      if String.eqb p "ALLOW" then FIREWALL_ACTION_ALLOW
      else if String.eqb p "DENY" then FIREWALL_ACTION_DENY
      else if String.eqb p "REJECT" then FIREWALL_ACTION_REJECT
      else find_action parts'
  end.

(** source: internal/agent/firewall/ufw.go:258-319 (parseUFWStatus, one line) *)
Definition parse_line (line : string) : option rule :=
  let line := trim_space line in
  match line with
  | String "[" _ =>
      match cut "]" line with
      | (_, None) => None
      | (before, Some after) =>
          let idStr := trim_space (drop_bytes 1 before) in
          let rest := trim_space after in
          match fields rest with
          | destination :: ((_ :: _ :: _) as parts) =>
              let action := find_action parts in
              let direction :=
                if contains rest " IN " then FIREWALL_DIRECTION_IN
                else if contains rest " OUT " then FIREWALL_DIRECTION_OUT
                else FIREWALL_DIRECTION_IN in
              let '(port, protocol, destination) :=
                match cut "/" destination with
                | (port, Some protocol) => (port, protocol, "Anywhere")
                | (_, None) => ("", "", destination)
                end in
              let version := if contains rest "(v6)" then FIREWALL_IP_VERSION_V6 else FIREWALL_IP_VERSION_V4 in
              Some (mkRule idStr port protocol action direction "" destination "" version)
          | _ => None
          end
      end
  | _ => None
  end.

(** source: internal/agent/firewall/ufw.go:255-322 (parseUFWStatus) *)
Definition parseUFWStatus (output : string) : list rule := omap parse_line (split line_feed output).

(** source: internal/agent/firewall/ufw.go:72-84 (extractPolicy) *)
Definition extractPolicy (line direction : string) : string :=
  match List.find (fun p => contains p ("(" ++ direction ++ ")")) (split "," line) with
  | Some p => trim_prefix (trim_space (fst (cut "(" p))) "Default: "
  | None => ""
  end.

(** source: internal/agent/firewall/ufw.go:40-59 (Status, one line) *)
Definition status_line (status : FirewallStatusResponse) (line : string) : FirewallStatusResponse :=
  let line := trim_space line in
  if has_prefix line "Status:" then {|
    Active := String.eqb (trim_space (trim_prefix line "Status:")) "active"; DefaultIncoming := DefaultIncoming status;
    DefaultOutgoing := DefaultOutgoing status; DefaultRouted := DefaultRouted status; Ipv6Enabled := Ipv6Enabled status;
    Logging := Logging status; RuleCount := RuleCount status; ProfileName := ProfileName status |}
  else if has_prefix line "Logging:" then
    match split " " line with
    | _ :: logging :: _ => {|
        Active := Active status; DefaultIncoming := DefaultIncoming status; DefaultOutgoing := DefaultOutgoing status;
        DefaultRouted := DefaultRouted status; Ipv6Enabled := Ipv6Enabled status; Logging := logging;
        RuleCount := RuleCount status; ProfileName := ProfileName status |}
    | _ => status
    end
  else if has_prefix line "Default:" then {|
    Active := Active status;
    DefaultIncoming := if contains line "(incoming)" then extractPolicy line "incoming" else DefaultIncoming status;
    DefaultOutgoing := if contains line "(outgoing)" then extractPolicy line "outgoing" else DefaultOutgoing status;
    DefaultRouted := if contains line "(routed)" then extractPolicy line "routed" else DefaultRouted status;
    Ipv6Enabled := Ipv6Enabled status; Logging := Logging status; RuleCount := RuleCount status;
    ProfileName := ProfileName status |}
  else status.

(** ** Operations *)

Section ufw.
Context `{HUnicode : Unicode}.

(** The deadline of the caller's context, if it has one. *)
Variable deadline : option Z.

Definition ufw (args : list string) : prog exec_call (result shell_error Result) :=
  let! (res, err) := Run deadline "ufw" args in
  Ret (match err with
       | Some e => Err e
       | None => Ok (default {| Stdout := ""; Stderr := ""; ExitCode := 0; Duration := 0 |} res)
       end).

(** source: internal/agent/firewall/ufw.go:87-93 (List) *)
Definition List_ : prog exec_call (result fw_error (list rule)) :=
  wrap! (FwShell "ufw: list") of result := ufw ["status"; "numbered"] in
  Ret (Ok (parseUFWStatus (Stdout result))).

(** source: internal/agent/firewall/ufw.go:28-70 (Status) *)
Definition Status : prog exec_call (result fw_error FirewallStatusResponse) :=
  wrap! (FwShell "ufw: status") of res := ufw ["status"; "verbose"] in
  let status := fold_left status_line (split line_feed (Stdout res)) {|
    Active := false; DefaultIncoming := ""; DefaultOutgoing := ""; DefaultRouted := ""; Ipv6Enabled := false; Logging := "";
    RuleCount := 0; ProfileName := "ufw" |} in
  let! rules := List_ in
  Ret (Ok {|
    Active := Active status; DefaultIncoming := DefaultIncoming status; DefaultOutgoing := DefaultOutgoing status;
    DefaultRouted := DefaultRouted status; Ipv6Enabled := true; Logging := Logging status;
    RuleCount := match rules with Ok l => wrap32 (Z.of_nat (length l)) | Err _ => RuleCount status end;
    ProfileName := ProfileName status |}).

(** source: internal/agent/firewall/ufw.go:104-153 (addRule, the arguments) *)
Definition rule_args (req : rule) : option (list string) :=
  action ← match Action req with
    | FIREWALL_ACTION_ALLOW => Some "allow"
    | FIREWALL_ACTION_DENY => Some "deny"
    | FIREWALL_ACTION_REJECT => Some "reject"
    | FIREWALL_ACTION_UNSPECIFIED => None
    end;
  let direction := match Direction req with
    | FIREWALL_DIRECTION_IN => ["in"] | FIREWALL_DIRECTION_OUT => ["out"] | _ => [] end in
  let with_protocol := negb (String.eqb (Protocol req) "") && negb (String.eqb (Protocol req) "any") in
  let target :=
    if String.eqb (Source req) "" && String.eqb (Destination req) "" && bool_decide (IpVersion req = FIREWALL_IP_VERSION_BOTH)
    then [if with_protocol then Port req ++ "/" ++ Protocol req else Port req]
    else ((if with_protocol then ["proto"; Protocol req] else [])
          ++ ["from"; if String.eqb (Source req) "" then "any" else Source req]
          ++ ["to"; if String.eqb (Destination req) "" then "any" else Destination req]
          ++ (if String.eqb (Port req) "" then [] else ["port"; Port req]))%list in
  let comment := if String.eqb (Comment req) "" then [] else ["comment"; Comment req] in
  Some (action :: direction ++ target ++ comment)%list.

(** source: internal/agent/firewall/ufw.go:103-161 (addRule) *)
Definition addRule (req : rule) : prog exec_call (result fw_error ()) :=
  match rule_args req with
  | None => Ret (Err (FwMsg "unsupported action"))
  | Some args =>
      wrap! (FwShell ("ufw: rule [" ++ join " " args ++ "]")) of _ := ufw args in
      Ret (Ok ())
  end.

(** source: internal/agent/firewall/ufw.go:163 (ruleIDPattern) *)
Definition ruleIDPattern : re := Cat (Cls (in_range 49 57)) (upto 5 (Cls (in_range 48 57))).

(** source: internal/agent/firewall/ufw.go:214-224 (DeleteRule) *)
Definition DeleteRule (id : string) : prog exec_call (result fw_error ()) :=
  if negb (match_string ruleIDPattern id) then Ret (Err (FwMsg "ufw: invalid rule id"))
  else
    wrap! (FwShell ("ufw: delete " ++ id ++ " failed")) of _ := ufw ["--force"; "delete"; id] in
    Ret (Ok ()).

(** source: internal/agent/firewall/ufw.go:202-209 (deleteMatchingReplacement, the rule it looks for) *)
Definition is_replacement (originalID : string) (replacement r : rule) : bool :=
  negb (String.eqb (Id r) originalID) && String.eqb (Port r) (Port replacement) && String.eqb (Protocol r) (Protocol replacement)
  && bool_decide (Action r = Action replacement) && bool_decide (Direction r = Direction replacement).

(** source: internal/agent/firewall/ufw.go:197-211 (deleteMatchingReplacement) *)
Definition deleteMatchingReplacement (originalID : string) (replacement : rule) : prog exec_call (result fw_error ()) :=
  try! rules := List_ in
  match List.find (is_replacement originalID replacement) (rev rules) with
  | Some r => DeleteRule (Id r)
  | None => Ret (Err (FwMsg "ufw: replacement rollback rule was not found"))
  end.

Definition without_id (req : rule) : rule :=
  mkRule "" (Port req) (Protocol req) (Action req) (Direction req) (Source req) (Destination req) (Comment req) (IpVersion req).

(** source: internal/agent/firewall/ufw.go:165-195 (updateRule) *)
Definition updateRule (req : rule) : prog exec_call (result fw_error ()) :=
  let id := Id req in
  if negb (match_string ruleIDPattern id) then Ret (Err (FwMsg "ufw: invalid rule id"))
  else
    try! rules := List_ in
    if negb (existsb (fun r => String.eqb (Id r) id) rules) then Ret (Err (FwMsg ("ufw: rule " ++ id ++ " does not exist")))
    else
      let replacement := without_id req in
      wrap! (FwWrap ("ufw: validate replacement for rule " ++ id)) of _ := addRule replacement in
      let! deleted := DeleteRule id in
      match deleted with
      | Err err =>
          let! undone := deleteMatchingReplacement id replacement in
          Ret (Err (FwWrap ("ufw: replace rule " ++ id)
            (FwJoin (err :: match undone with Err e => [e] | Ok _ => [] end))))
      | Ok _ => Ret (Ok ())
      end.

(** source: internal/agent/firewall/ufw.go:96-101 (AddRule) *)
Definition AddRule (req : rule) : prog exec_call (result fw_error ()) :=
  if negb (String.eqb (Id req) "") then updateRule req else addRule req.

(** source: internal/agent/firewall/ufw.go:227-244 (Toggle) *)
Definition Toggle (enable : bool) : prog exec_call (result fw_error ()) :=
  let action := if enable then "enable" else "disable" in
  wrap! (FwShell ("ufw: " ++ action ++ " failed")) of _ := ufw ["--force"; action] in
  wrap! (FwWrap ("ufw: verify " ++ action)) of status := Status in
  if Bool.eqb (Active status) enable then Ret (Ok ())
  else Ret (Err (FwMsg ("ufw: " ++ action ++ " did not reach requested state"))).

(** source: internal/agent/firewall/ufw.go:247-253 (Reset) *)
Definition Reset : prog exec_call (result fw_error ()) :=
  wrap! (FwShell "ufw: reset failed") of _ := ufw ["--force"; "reset"] in Ret (Ok ()).
End ufw.

(** ** From the Core to the manager *)

Section boundary.
Context `{HUnicode : Unicode}.
Variable deadline : option Z.

(** source: internal/agent/server/server.go:451-454 (internalError), as the client's error reads *)
Definition internalError : string := "rpc error: code = Internal desc = agent operation failed".

(** source: internal/agent/server/server.go:351-356 (FirewallRule) *)
Definition server_FirewallRule (req : rule) : prog exec_call (result string ()) :=
  let! r := AddRule deadline req in Ret (map_err (fun _ => internalError) r).

(** source: internal/agent/server/server.go:358-363 (FirewallDelete) *)
Definition server_FirewallDelete (id : string) : prog exec_call (result string ()) :=
  let! r := DeleteRule deadline id in Ret (map_err (fun _ => internalError) r).

(** source: internal/agent/server/server.go:365-371 (FirewallList) *)
Definition server_FirewallList : prog exec_call (result string (list rule)) :=
  let! r := List_ deadline in Ret (map_err (fun _ => internalError) r).

(** source: internal/agent/server/server.go:373-379 (FirewallStatus) *)
Definition server_FirewallStatus : prog exec_call (result string FirewallStatusResponse) :=
  let! r := Status deadline in Ret (map_err (fun _ => internalError) r).

(** source: internal/agent/server/server.go:381-386 (FirewallToggle) *)
Definition server_FirewallToggle (enable : bool) : prog exec_call (result string ()) :=
  let! r := Toggle deadline enable in Ret (map_err (fun _ => internalError) r).

(** source: internal/agent/server/server.go:388-393 (FirewallReset) *)
Definition server_FirewallReset : prog exec_call (result string ()) :=
  let! r := Reset deadline in Ret (map_err (fun _ => internalError) r).

(** source: internal/agent/server/server.go:177-190 (CommandExecute): a command that ran and
    failed is no error *)
Definition server_CommandExecute (command : string) (args : list string) : prog exec_call (result string (Z * string * string)) :=
  if String.eqb command "" then Ret (Err "rpc error: code = InvalidArgument desc = command is required")
  else
    let! (res, _) := Run deadline command args in
    Ret (match res with
         | None => Err internalError
         | Some r => Ok (wrap32 (ExitCode r), Stdout r, Stderr r)
         end).
End boundary.

(** source: pkg/contract/module.go:565-588 (FirewallRuleRequest, FirewallRule): a rule in
    the words of the Core *)
Record contract_rule := mkContract {
  c_ID : string; c_Port : string; c_Protocol : string; c_Action : string; c_Direction : string; c_Source : string;
  c_Destination : string; c_Comment : string; c_IPVersion : string }.

(** source: pkg/contract/module.go:553-562 (FirewallStatus) *)
Record FirewallStatus := {
  fs_Active : bool; fs_DefaultIncoming : string; fs_DefaultOutgoing : string; fs_DefaultRouted : string; fs_IPv6Enabled : bool;
  fs_Logging : string; fs_RuleCount : Z; fs_ProfileName : string }.

(** source: internal/agentclient/client.go:314-347 (FirewallRule, the message) *)
Definition to_message (req : contract_rule) : rule :=
  mkRule (c_ID req) (c_Port req) (c_Protocol req)
    (if String.eqb (c_Action req) "deny" then FIREWALL_ACTION_DENY
     else if String.eqb (c_Action req) "reject" then FIREWALL_ACTION_REJECT else FIREWALL_ACTION_ALLOW)
    (if String.eqb (c_Direction req) "out" then FIREWALL_DIRECTION_OUT
     else if String.eqb (c_Direction req) "routed" then FIREWALL_DIRECTION_ROUTED else FIREWALL_DIRECTION_IN)
    (c_Source req) (c_Destination req) (c_Comment req)
    (if String.eqb (c_IPVersion req) "ipv4" then FIREWALL_IP_VERSION_V4
     else if String.eqb (c_IPVersion req) "ipv6" then FIREWALL_IP_VERSION_V6
     else if String.eqb (c_IPVersion req) "both" then FIREWALL_IP_VERSION_BOTH else FIREWALL_IP_VERSION_UNSPECIFIED).

(** source: internal/agentclient/client.go:363-394 (FirewallList, one rule) *)
Definition of_message (r : rule) : contract_rule :=
  mkContract (Id r) (Port r) (Protocol r)
    (match Action r with FIREWALL_ACTION_DENY => "deny" | FIREWALL_ACTION_REJECT => "reject" | _ => "allow" end)
    (match Direction r with FIREWALL_DIRECTION_OUT => "out" | FIREWALL_DIRECTION_ROUTED => "routed" | _ => "in" end)
    (Source r) (Destination r) (Comment r)
    (match IpVersion r with FIREWALL_IP_VERSION_V4 => "ipv4" | FIREWALL_IP_VERSION_V6 => "ipv6" | _ => "both" end).

(** source: internal/agentclient/client.go:301-310 (FirewallStatus, the translation) *)
Definition of_status (s : FirewallStatusResponse) : FirewallStatus := {|
  fs_Active := Active s; fs_DefaultIncoming := DefaultIncoming s; fs_DefaultOutgoing := DefaultOutgoing s;
  fs_DefaultRouted := DefaultRouted s; fs_IPv6Enabled := Ipv6Enabled s; fs_Logging := Logging s; fs_RuleCount := RuleCount s;
  fs_ProfileName := ProfileName s |}.

(** What the Core may ask of the Agent about the firewall. *)
Inductive fw_call : Set -> Set :=
| FirewallStatus_ : fw_call (result string FirewallStatus)
| FirewallRule_ (req : contract_rule) : fw_call (result string ())
| FirewallDelete_ (id : string) : fw_call (result string ())
| FirewallList_ : fw_call (result string (list contract_rule))
| FirewallToggle_ (enable : bool) : fw_call (result string ())
| FirewallReset_ : fw_call (result string ())
| CommandExecute_ (binary : string) (args : list string) : fw_call (result string (Z * string * string))
| PackageInstalled_ (name : string) : fw_call (bool * string).

(** source: internal/agentclient/client.go:296-407 (the firewall methods): how the client, the
    service and the manager answer; [installed] is the Agent's answer about a package *)
Definition agent `{Unicode} (deadline : option Z)
    (installed : string -> prog exec_call (bool * string)) X (c : fw_call X) : prog exec_call X :=
  match c in fw_call X return prog exec_call X with
  | FirewallStatus_ => try! s := server_FirewallStatus deadline in Ret (Ok (of_status s))
  | FirewallRule_ req => server_FirewallRule deadline (to_message req)
  | FirewallDelete_ id => server_FirewallDelete deadline id
  | FirewallList_ => try! l := server_FirewallList deadline in Ret (Ok (of_message <$> l))
  | FirewallToggle_ enable => server_FirewallToggle deadline enable
  | FirewallReset_ => server_FirewallReset deadline
  | CommandExecute_ binary args => server_CommandExecute deadline binary args
  | PackageInstalled_ name => installed name
  end.

Definition sample_listing : string :=
  "Status: active" ++ String line_feed ("     To                         Action      From" ++ String line_feed
  ("[ 1] 22/tcp                     ALLOW IN    Anywhere" ++ String line_feed
  ("[ 2] 443                        DENY OUT    Anywhere (v6)               # web" ++ String line_feed ""))).
Example sample_parsed : parseUFWStatus sample_listing = [
  mkRule "1" "22" "tcp" FIREWALL_ACTION_ALLOW FIREWALL_DIRECTION_IN "" "Anywhere" "" FIREWALL_IP_VERSION_V4;
  mkRule "2" "" "" FIREWALL_ACTION_DENY FIREWALL_DIRECTION_OUT "" "443" "" FIREWALL_IP_VERSION_V6 ].
Proof. vm_compute. reflexivity. Qed.
