(* ===== verification/Firewall.v ===== *)
(** * The firewall module

    src/modules/firewall/module.go and validation.go: the rules the Core accepts, and the
    HTTP handlers that list, add, change and delete them through the Agent. *)

From S2P Require Import Prelude GoStrings GoStrconv GoPath GoRegexp GoTime GoJson GoStruct GoNet Effects AppErrors Executor Ufw.
Local Open Scope string_scope.
Local Open Scope go_scope.

(** ** Validation *)

(** source: modules/firewall/validation.go:15 (servicePortPattern) *)
Definition servicePortPattern : re :=
  Cat (Cls (in_range 97 122)) (upto 31 (Cls (fun z => in_range 97 122 z || in_range 48 57 z || (z =? 45)%Z))).

(** source: modules/firewall/validation.go:133-140 (oneOf) *)
Definition oneOf (value : string) (allowed : list string) : bool := existsb (String.eqb value) allowed.

(** source: modules/firewall/validation.go:104-111 (validatePort, the loop) *)
Fixpoint port_numbers (parts : list string) : option (list Z) :=
  match parts with
  | [] => Some []
  | part :: parts' =>
      match atoi part with
      | Some n => if (n <? 1)%Z || (65535 <? n)%Z then None else l ← port_numbers parts'; Some (n :: l)
      | None => None
      end
  end.

(** source: modules/firewall/validation.go:92-116 (validatePort): the text of the error *)
Definition validatePort (value : string) : option string :=
  if match_string servicePortPattern value then None
  else
    let parts := split (if contains_byte value "-" then "-"%char else ":"%char) value in
    if (2 <? length parts)%nat then Some "port must be a number or a start:end range"
    else match port_numbers parts with
    | None => Some "port values must be between 1 and 65535"
    | Some [first; last] => if (last <=? first)%Z then Some "port range start must be lower than its end" else None
    | Some _ => None
    end.

(** source: modules/firewall/validation.go:72-90 (validateAddress) *)
Definition validateAddress (field value ipVersion : string) : result error () :=
  if String.eqb value "" then Ok ()
  else if bool_decide (parse_ip value = None) && negb (parse_cidr value)
  then Err (InvalidInput (field ++ " must be an IPv4/IPv6 address or CIDR"))
  else if String.eqb ipVersion "both" then Ok ()
  else
    let isV4 := match parse_ip (fst (cut "/" value)) with Some ip => is_ipv4 ip | None => false end in
    if (String.eqb ipVersion "ipv4" && negb isV4) || (String.eqb ipVersion "ipv6" && isV4)
    then Err (InvalidInput (field ++ " does not match ip_version"))
    else Ok ().

Definition or_default (value fallback : string) : string := if String.eqb value "" then fallback else value.

Section validation.
Context `{HUnicode : Unicode}.

(** source: modules/firewall/validation.go:16 (commentPattern) *)
Definition commentPattern : re := upto 128 (Cls safeCommentClass).

(** source: modules/firewall/validation.go:20-40 (validateRule, the normal form) *)
Definition normalize (req : contract_rule) : contract_rule :=
  mkContract (c_ID req) (trim_space (c_Port req))
    (or_default (to_lower (trim_space (c_Protocol req))) "any")
    (or_default (to_lower (trim_space (c_Action req))) "allow")
    (or_default (to_lower (trim_space (c_Direction req))) "in")
    (trim_space (c_Source req)) (trim_space (c_Destination req)) (trim_space (c_Comment req))
    (or_default (to_lower (trim_space (c_IPVersion req))) "both").

(** The order in which the map of the two addresses is visited. *)
Variable source_first : bool.

(** source: modules/firewall/validation.go:41-69 (validateRule, the checks) *)
Definition check_rule (req : contract_rule) : result error () :=
  fail_if (negb (oneOf (c_Action req) ["allow"; "deny"; "reject"])) (InvalidInput "action must be allow, deny, or reject") ;?
  fail_if (negb (oneOf (c_Protocol req) ["tcp"; "udp"; "any"])) (InvalidInput "protocol must be tcp, udp, or any") ;?
  fail_if (negb (oneOf (c_Direction req) ["in"; "out"])) (InvalidInput "direction must be in or out") ;?
  fail_if (negb (oneOf (c_IPVersion req) ["ipv4"; "ipv6"; "both"])) (InvalidInput "ip_version must be ipv4, ipv6, or both") ;?
  fail_if (String.eqb (c_Port req) "" && String.eqb (c_Source req) "" && String.eqb (c_Destination req) "")
    (InvalidInput "port, source, or destination is required") ;?
  (if String.eqb (c_Port req) "" then Ok ()
   else match validatePort (c_Port req) with Some e => Err (InvalidInput e) | None => Ok () end) ;?
  (let source := validateAddress "source" (c_Source req) (c_IPVersion req) in
   let destination := validateAddress "destination" (c_Destination req) (c_IPVersion req) in
   if source_first then source ;? destination else destination ;? source) ;?
  fail_if (negb (match_string commentPattern (c_Comment req)))
    (InvalidInput "comment contains unsupported characters or exceeds 128 characters").

(** source: modules/firewall/validation.go:19-70 (validateRule): the request is changed in
    place *)
Definition validateRule (req : contract_rule) : result error contract_rule :=
  let req := normalize req in check_rule req ;? Ok req.

(** source: modules/firewall/validation.go:119-126 (sameRule, the addresses of a listed rule) *)
Definition listed_address (a : string) : string :=
  let a := trim_space a in if has_prefix (to_lower a) "anywhere" then "" else a.

(** source: modules/firewall/validation.go:118-131 (sameRule) *)
Definition sameRule (left right : contract_rule) : bool :=
  String.eqb (c_Port left) (c_Port right) && String.eqb (c_Protocol left) (c_Protocol right)
  && String.eqb (c_Action left) (c_Action right) && String.eqb (c_Direction left) (c_Direction right)
  && String.eqb (listed_address (c_Source left)) (c_Source right)
  && String.eqb (listed_address (c_Destination left)) (c_Destination right)
  && String.eqb (c_IPVersion left) (c_IPVersion right).
End validation.

(** ** Handlers *)

(** What a handler answers: a message, a value, or an error. *)
Inductive reply :=
| Message_ (status : Z) (message : string)
| StatusReply (s : FirewallStatus)
| RulesReply (rules : list contract_rule)
| Failed (e : error).

Notation fw_prog A := (prog fw_call A).

(** source: modules/firewall/module.go:389-396 (writeError): the error that is written *)
Definition writeError (e : error) : reply :=
  Failed (match find_app e with Some _ => e | None => App (Internal "firewall operation failed" e) end).

Definition conflict (message : string) : error := App (New 409 CodeConflict message).

(** source: pkg/contract/module.go:565-575 (FirewallRuleRequest, its JSON tags) *)
Definition rule_fields : fields_of contract_rule := [
  ("id", set_string (fun s '(mkContract _ p r a d o t c v) => mkContract s p r a d o t c v));
  ("port", set_string (fun s '(mkContract i _ r a d o t c v) => mkContract i s r a d o t c v));
  ("protocol", set_string (fun s '(mkContract i p _ a d o t c v) => mkContract i p s a d o t c v));
  ("action", set_string (fun s '(mkContract i p r _ d o t c v) => mkContract i p r s d o t c v));
  ("direction", set_string (fun s '(mkContract i p r a _ o t c v) => mkContract i p r a s o t c v));
  ("source", set_string (fun s '(mkContract i p r a d _ t c v) => mkContract i p r a d s t c v));
  ("destination", set_string (fun s '(mkContract i p r a d o _ c v) => mkContract i p r a d o s c v));
  ("comment", set_string (fun s '(mkContract i p r a d o t _ v) => mkContract i p r a d o t s v));
  ("ip_version", set_string (fun s '(mkContract i p r a d o t c _) => mkContract i p r a d o t c s)) ].

Definition zero_rule : contract_rule := mkContract "" "" "" "" "" "" "" "" "".
Definition decode_rule (body : string) : option contract_rule := decode_first false rule_fields zero_rule body.

(** source: modules/firewall/module.go:298-300 (deleteRequest) *)
Definition decode_delete (body : string) : option string := decode_first false [("id", set_string (fun s _ => s))] "" body.

(** source: modules/firewall/module.go:339-341 (toggleRequest) *)
Definition decode_toggle (body : string) : option bool := decode_first false [("enable", set_bool (fun b _ => b))] false body.

(** source: modules/firewall/module.go:275 (handleUpdate, the protected ports) *)
Definition protected_port (rule : contract_rule) : bool := String.eqb (c_Port rule) "443" || String.eqb (c_Port rule) "5888".

Section module.
Context `{HUnicode : Unicode}.
Variable source_first : bool.

(** source: modules/firewall/module.go:44-52 (ensureCriticalPorts, the ports) *)
Definition criticalPorts : list (string * string) := [("22", "tcp"); ("80", "tcp"); ("443", "tcp"); ("5888", "tcp")].

(** source: modules/firewall/module.go:54-63 (ensureCriticalPorts, the loop): a failure is
    logged only *)
Fixpoint ensure_ports (ports : list (string * string)) : fw_prog () :=
  match ports with
  | [] => Ret ()
  | (port, proto) :: ports' =>
      ignore! call (FirewallRule_ (mkContract "" port proto "allow" "" "" "" "" "")) in
      ensure_ports ports'
  end.
Definition ensureCriticalPorts : fw_prog () := ensure_ports criticalPorts.

(** source: modules/firewall/module.go:98-102 (Enable) *)
Definition Enable : fw_prog (result string ()) := let! _ := ensureCriticalPorts in call (FirewallToggle_ true).

(** source: modules/firewall/module.go:104-107 (Disable) *)
Definition Disable : fw_prog (result string ()) := call (FirewallToggle_ false).

(** source: modules/firewall/module.go:109-113 (Restart) *)
Definition Restart : fw_prog (result string ()) :=
  let! r := call (CommandExecute_ "ufw" ["reload"]) in
  Ret (match r with Ok _ => Ok () | Err e => Err e end).

(** source: modules/firewall/module.go:115-132 (handleReload) *)
Definition handleReload : fw_prog reply :=
  let! status := call FirewallStatus_ in
  match status with
  | Err err => Ret (writeError (App (Internal "failed to inspect firewall state" (Plain err))))
  | Ok status =>
      if negb (fs_Active status) then Ret (writeError (conflict "cannot reload an inactive firewall"))
      else
        let! r := call (CommandExecute_ "ufw" ["reload"]) in
        match r with
        | Err err => Ret (writeError (App (Internal "failed to reload firewall" (Plain err))))
        | Ok _ => Ret (Message_ 200 "firewall reloaded successfully")
        end
  end.

Inductive ServiceStatus := ServiceStopped | ServiceRunning | ServiceFailed.

(** source: modules/firewall/module.go:144-167 (Status): the package, the service and the
    version *)
Definition Status : fw_prog (bool * ServiceStatus * string) :=
  let! st := call FirewallStatus_ in
  let srvStatus := match st with Ok s => if fs_Active s then ServiceRunning else ServiceStopped | Err _ => ServiceFailed end in
  let! (installed, version) := call (PackageInstalled_ "ufw") in
  Ret (installed, srvStatus, version).

Inductive health := HealthOK | HealthWarning (message : string) | HealthError (message : string).

(** source: modules/firewall/module.go:169-178 (HealthCheck) *)
Definition HealthCheck : fw_prog health :=
  let! st := call FirewallStatus_ in
  Ret (match st with
       | Err _ => HealthError "Cannot query firewall state"
       | Ok s => if fs_Active s then HealthOK else HealthWarning "Firewall is not running"
       end).

(** source: modules/firewall/module.go:182-204 (handleStatus) *)
Definition handleStatus : fw_prog reply :=
  let! status := call FirewallStatus_ in
  Ret (match status with Err err => writeError (Plain err) | Ok s => StatusReply s end).

(** source: modules/firewall/module.go:206-215 (handleList) *)
Definition handleList : fw_prog reply :=
  let! rules := call FirewallList_ in
  Ret (match rules with Err err => writeError (Plain err) | Ok l => RulesReply l end).

(** source: modules/firewall/module.go:217-247 (handleAdd) *)
Definition handleAdd (body : string) : fw_prog reply :=
  match decode_rule body with
  | None => Ret (writeError (Plain "invalid json body"))
  | Some req =>
      match validateRule source_first req with
      | Err err => Ret (writeError err)
      | Ok req =>
          let! rules := call FirewallList_ in
          match rules with
          | Err err => Ret (writeError (App (Internal "failed to inspect firewall rules" (Plain err))))
          | Ok rules =>
              if existsb (fun rule => sameRule rule req) rules
              then Ret (writeError (conflict "an equivalent firewall rule already exists"))
              else
                let! r := call (FirewallRule_ req) in
                match r with
                | Err err => Ret (writeError (Plain err))
                | Ok _ => Ret (Message_ 200 "rule added successfully")
                end
          end
      end
  end.

(** source: modules/firewall/module.go:271-285 (handleUpdate, the loop): whether the rule was
    found, or why the change is refused *)
Fixpoint check_update (id : string) (req : contract_rule) (found : bool) (rules : list contract_rule) : result error bool :=
  match rules with
  | [] => Ok found
  | rule :: rules' =>
      if String.eqb (c_ID rule) id then
        if protected_port rule then Err (conflict "protected panel and HTTPS rules cannot be edited")
        else check_update id req true rules'
      else if sameRule rule req then Err (conflict "an equivalent firewall rule already exists")
      else check_update id req found rules'
  end.

Definition with_id (id : string) (r : contract_rule) : contract_rule :=
  mkContract id (c_Port r) (c_Protocol r) (c_Action r) (c_Direction r) (c_Source r) (c_Destination r) (c_Comment r) (c_IPVersion r).

(** source: modules/firewall/module.go:249-296 (handleUpdate) *)
Definition handleUpdate (id body : string) : fw_prog reply :=
  if String.eqb id "" then Ret (writeError (InvalidInput "rule id is required"))
  else
    match decode_rule body with
    | None => Ret (writeError (InvalidInput "malformed JSON body"))
    | Some req =>
        match validateRule source_first req with
        | Err err => Ret (writeError err)
        | Ok req =>
            let! rules := call FirewallList_ in
            match rules with
            | Err err => Ret (writeError (App (Internal "failed to inspect firewall rules" (Plain err))))
            | Ok rules =>
                match check_update id req false rules with
                | Err err => Ret (writeError err)
                | Ok false => Ret (writeError (NotFound "firewall rule"))
                | Ok true =>
                    let! r := call (FirewallRule_ (with_id id req)) in
                    match r with
                    | Err err => Ret (writeError (App (Internal "failed to update firewall rule" (Plain err))))
                    | Ok _ => Ret (Message_ 200 "rule updated successfully")
                    end
                end
            end
        end
    end.

(** source: modules/firewall/module.go:332-336 (handleDelete, once the rule may be deleted) *)
Definition delete_it (id : string) : fw_prog reply :=
  let! r := call (FirewallDelete_ id) in
  match r with
  | Err err => Ret (writeError (Plain err))
  | Ok _ => Ret (Message_ 200 "rule deleted successfully")
  end.

(** source: modules/firewall/module.go:302-337 (handleDelete) *)
Definition handleDelete (body : string) : fw_prog reply :=
  match decode_delete body with
  | None => Ret (writeError (Plain "invalid json body"))
  | Some id =>
      if String.eqb id "" then Ret (writeError (Plain "rule id is required"))
      else
        let! rules := call FirewallList_ in
        match rules with
        | Ok rules =>
            match List.find (fun rule => String.eqb (c_ID rule) id) rules with
            | Some rule =>
                if protected_port rule
                then Ret (writeError (Plain ("deleting rule for port " ++ c_Port rule ++ " is forbidden")))
                else delete_it id
            | None => delete_it id
            end
        | Err _ => delete_it id
        end
  end.

(** source: modules/firewall/module.go:343-370 (handleToggle) *)
Definition handleToggle (body : string) : fw_prog reply :=
  match decode_toggle body with
  | None => Ret (writeError (Plain "invalid json body"))
  | Some enable =>
      let! _ := if enable then ensureCriticalPorts else Ret () in
      let! r := call (FirewallToggle_ enable) in
      match r with
      | Err err => Ret (writeError (Plain err))
      | Ok _ =>
          let! status := call FirewallStatus_ in
          match status with
          | Err err => Ret (writeError (App (Internal "firewall changed but status verification failed" (Plain err))))
          | Ok status =>
              if Bool.eqb (fs_Active status) enable then Ret (Message_ 200 "firewall toggled successfully")
              else Ret (writeError (conflict "firewall did not reach the requested state"))
          end
      end
  end.

(** source: modules/firewall/module.go:372-381 (handleReset) *)
Definition handleReset : fw_prog reply :=
  let! r := call FirewallReset_ in
  match r with
  | Err err => Ret (writeError (Plain err))
  | Ok _ => Ret (Message_ 200 "firewall reset successfully")
  end.
End module.
