(* ===== verification/FirewallSpec.v ===== *)
(** * What the firewall module promises

    The rules the Core accepts are rules the Agent runs, protected rules are not touched by
    the handlers that check them, and what ufw prints is read back; with the cases in which
    another rule than the one asked for is replaced. *)

From S2P Require Import Prelude GoStrings GoStrconv GoPath GoRegexp GoTime GoJson GoStruct GoNet Effects AppErrors Executor Ufw Firewall.
Local Open Scope string_scope.
Local Open Scope go_scope.

(** ** Runes and bytes *)

Lemma runes_chunks s : runes s = (fun c => default rune_error (fst c)) <$> chunks s.
Proof.
  induction s as [s IH] using (induction_ltof1 _ String.length). unfold ltof in IH.
  destruct s as [|a s1]; [done|]. cbn [runes chunks]. destruct (byte_val a <? 128)%Z; [cbn; f_equal; apply IH; cbn; lia|].
  destruct s1 as [|b s2]; [done|]. destruct (valid2 a b); [cbn; f_equal; apply IH; cbn; lia|].
  destruct s2 as [|c s3]; [cbn [fmap list_fmap]; f_equal; apply IH; cbn; lia|].
  destruct (valid3 a b c); [cbn [fmap list_fmap]; f_equal; apply IH; cbn; lia|].
  destruct s3 as [|d s4]; [cbn [fmap list_fmap]; f_equal; apply IH; cbn; lia|].
  destruct (valid4 a b c d); cbn [fmap list_fmap]; f_equal; apply IH; cbn; lia.
Qed.

(** Every byte of a sequence of several is outside ASCII; a rune has at most four. *)
Lemma chunk_bytes (p : Z -> bool) r raw : utf8_chunk r raw -> p r = true ->
  String.length raw <= 4 /\ str_forall (fun c => (128 <=? byte_val c)%Z || p (byte_val c)) raw = true.
Proof.
  intros [a Ha|a b H|a b c H|a b c d H] Hp; cbn [String.length]; (split; [lia|]); cbn [str_forall].
  { by rewrite Hp, orb_true_r. }
  all: utf8_bounds; split_and!; try done; left; lia.
Qed.

Lemma runes_bytes (p : Z -> bool) s : Forall (fun r => p r = true) (runes s) ->
  str_forall (fun c => (128 <=? byte_val c)%Z || p (byte_val c)) s = true /\ (len s <= 4 * Z.of_nat (length (runes s)))%Z.
Proof.
  rewrite runes_chunks. induction s as [|r raw t Hc IH|a t Ha Heq IH] using chunks_ind; [done| |].
  - rewrite (chunks_cons _ _ _ Hc). cbn [fmap list_fmap fst default id]. intros [Hr Ht]%Forall_cons. specialize (IH Ht) as [IH1 IH2].
    destruct (chunk_bytes p _ _ Hc Hr) as [Hlen Hb]. split; [by rewrite str_forall_app, Hb|].
    unfold len in *. rewrite str_length_app. cbn [length]. lia.
  - rewrite Heq. cbn [fmap list_fmap fst default id]. intros [_ Ht]%Forall_cons. specialize (IH Ht) as [IH1 IH2]. split.
    + cbn [str_forall]. by assert ((128 <=? byte_val a)%Z = true) as -> by lia.
    + unfold len in *. cbn [String.length length]. lia.
Qed.

(** ** The text of an address *)

Definition addr_byte (c : ascii) : bool := bool_decide (is_Some (hex_val c)) || Ascii.eqb c "." || Ascii.eqb c ":" || Ascii.eqb c "/".

(** An argument that is no option: what the executor takes for any command. *)
Definition operand_text (s : string) : Prop :=
  s <> "" /\ has_prefix s "-" = false /\ str_forall safe_byte s = true /\ contains s ".." = false.

Definition dotted (s : string) : Prop := str_forall addr_byte s = true /\ contains s ".." = false.

Lemma double_dot_split s : Forall (fun p => p <> "") (split "." s) -> contains s ".." = false.
Proof.
  intros Hp. apply not_true_iff_false. intros (pre & post & ->)%contains_iff.
  change (".." ++ post) with (String "." (String "." post)) in Hp. rewrite split_app in Hp. apply Forall_app in Hp as [_ Hp].
  change (split "." (String "." post)) with ("" :: split "." post) in Hp. by inversion Hp.
Qed.

Lemma contains_dots_skip a b : no_byte "." a -> contains (a ++ b) ".." = contains b "..".
Proof.
  unfold no_byte. induction a as [|c a IH]; [done|]. cbn [str_forall String.append]. intros [Hc Ha]%andb_true_iff.
  change (contains (String c (a ++ b)) "..") with (has_prefix (String c (a ++ b)) ".." || contains (a ++ b) "..").
  rewrite IH by done. assert (has_prefix (String c (a ++ b)) ".." = false) as ->; [|done].
  apply not_true_iff_false. intros [r Hr]%has_prefix_iff. injection Hr as -> _. done.
Qed.

Lemma contains_dots_stop a b : no_byte "." b -> contains (a ++ b) ".." = contains a "..".
Proof.
  intros Hb. induction a as [|c a IH].
  { cbn [String.append]. rewrite <- (str_app_nil_r b), contains_dots_skip; done. }
  change (has_prefix (String c (a ++ b)) ".." || contains (a ++ b) ".." = has_prefix (String c a) ".." || contains a "..").
  rewrite IH. f_equal. apply eq_true_iff_eq. rewrite !has_prefix_iff. split; intros [r Hr].
  - cbn [String.append] in Hr. injection Hr as -> Hr. destruct a as [|c2 a].
    + cbn [String.append] in Hr. subst b. unfold no_byte in Hb. by cbn [str_forall] in Hb.
    + injection Hr as -> _. by exists a.
  - cbn [String.append] in Hr. injection Hr as -> ->. by exists (r ++ b).
Qed.

Lemma digit_addr c : is_digit c = true -> addr_byte c = true /\ c <> "."%char.
Proof. destruct c as [[] [] [] [] [] [] [] []]; intros H; try discriminate H; done. Qed.

Lemma addr_safe c : addr_byte c = true -> safe_byte c = true.
Proof. destruct c as [[] [] [] [] [] [] [] []]; intros H; try discriminate H; done. Qed.

Lemma hex_addr c : is_Some (hex_val c) -> addr_byte c = true /\ c <> "."%char.
Proof. intros Hc. split; [unfold addr_byte; by rewrite (bool_decide_eq_true_2 _ Hc)|]. intros ->. by destruct Hc. Qed.

Lemma parse_octet_text s z : parse_octet s = Some z -> s <> "" /\ str_forall is_digit s = true.
Proof.
  unfold parse_octet. destruct (String.eqb_spec s ""); [done|]. destruct (str_forall is_digit s); [done|]. by destruct (_ && _).
Qed.

Lemma parse_ipv4_text s l : parse_ipv4 s = Some l -> s <> "" /\ dotted s /\ length l = 4.
Proof.
  unfold parse_ipv4. destruct (split "." s) as [|a [|b [|c [|d [|]]]]] eqn:Hs; try done.
  destruct (parse_octet a) as [za|] eqn:Ha; [|done]. destruct (parse_octet b) as [zb|] eqn:Hb; [|done].
  destruct (parse_octet c) as [zc|] eqn:Hc; [|done]. destruct (parse_octet d) as [zd|] eqn:Hd; [|done]. intros [= <-].
  apply parse_octet_text in Ha as [Hna Ha], Hb as [Hnb Hb], Hc as [Hnc Hc], Hd as [Hnd Hd].
  assert (Hall : Forall (fun p => p <> "" /\ str_forall is_digit p = true) (split "." s)).
  { rewrite Hs. repeat apply Forall_cons_2; try apply Forall_nil_2; done. }
  split_and!; [by intros ->| |done]. split.
  - rewrite <- (join_split "." s). apply join_forall; [done|]. eapply Forall_impl; [exact Hall|].
    intros p [_ Hp]. revert Hp. apply str_forall_mono. intros x Hx. by apply digit_addr.
  - apply double_dot_split. eapply Forall_impl; [exact Hall|]. by intros p [Hp _].
Qed.

Notation hex_text := (str_forall (fun c => bool_decide (is_Some (hex_val c)))).

Lemma hex_group_text s n acc k z rest : hex_group s n acc = Some (k, z, rest) -> exists h, s = h ++ rest /\ hex_text h = true.
Proof.
  revert n acc. induction s as [|c s IH]; intros n acc; cbn [hex_group].
  { intros [= <- _ <-]. by exists "". }
  destruct (hex_val c) as [d|] eqn:Hd.
  - destruct (3 <? n)%nat; [done|]. intros (h & -> & Hh)%IH. exists (String c h). cbn [String.append str_forall].
    rewrite Hd, Hh. done.
  - intros [= <- _ <-]. by exists "".
Qed.

Lemma hex_text_dotted h s : hex_text h = true -> dotted s -> dotted (h ++ s).
Proof.
  intros Hh [Hs Hd]. split.
  - rewrite str_forall_app, Hs, andb_true_r. revert Hh. apply str_forall_mono. intros c Hc%bool_decide_eq_true. by apply hex_addr.
  - rewrite contains_dots_skip; [done|]. revert Hh. apply str_forall_mono. intros c Hc%bool_decide_eq_true.
    apply negb_true_iff, Ascii.eqb_neq. intros <-. by destruct (hex_addr _ Hc).
Qed.

Lemma colon_dotted s : dotted s -> dotted (String ":" s).
Proof. intros [Hs Hd]. split; [by cbn [str_forall]; rewrite Hs|]. change (String ":" s) with (":" ++ s). by rewrite contains_dots_skip. Qed.

Lemma ipv6_loop_text fuel s bytes e b' e' : ipv6_loop fuel s bytes e = Some (b', e', "") -> dotted s.
Proof.
  revert s bytes e. induction fuel as [|fuel IH]; intros s bytes e; cbn [ipv6_loop]; [by intros [= _ _ ->]|].
  destruct (hex_group s 0 0) as [[[k acc] rest]|] eqn:Hg; [|done]. apply hex_group_text in Hg as (h & -> & Hh).
  destruct k; [done|]. destruct (has_prefix rest ".") eqn:Hp.
  { destruct (_ && _); [done|]. destruct (_ <? _)%nat; [done|]. destruct (parse_ipv4 _) as [four|] eqn:H4; [|done].
    intros _. by apply parse_ipv4_text in H4 as (_ & ? & _). }
  destruct rest as [|c rest]; [intros _; by apply hex_text_dotted|].
  destruct (Ascii.eqb_spec c ":") as [->|]; [|done]. cbn [negb orb]. destruct (String.eqb_spec rest ""); [done|].
  intros Hloop. apply hex_text_dotted; [done|]. apply colon_dotted.
  destruct rest as [|c2 rest]; [done|].
  assert (Hc2 : (exists r, rest = r /\ c2 = ":"%char) \/ ipv6_loop fuel (String c2 rest) (bytes ++ [Z.shiftr acc 8; Z.land acc 255]) e = Some (b', e', "")).
  { destruct (Ascii.eqb_spec c2 ":") as [->|Hne]; [left; by exists rest|right].
    destruct c2 as [[] [] [] [] [] [] [] []]; first [exact Hloop|by destruct Hne]. }
  destruct Hc2 as [(r & -> & ->)|Hc2]; [|by eapply IH]. apply colon_dotted. destruct e as [|]; [done|].
  destruct (String.eqb_spec r "") as [->|]; [done|]. by eapply IH.
Qed.

Lemma parse_addr_text s l : parse_addr s = Some l -> s <> "" /\ dotted s.
Proof.
  unfold parse_addr. destruct (first_mark s) as [c|] eqn:Hm; [|done]. assert (Hne : s <> "") by by intros ->.
  destruct (Ascii.eqb_spec c ".") as [->|]; [by intros (? & ? & _)%parse_ipv4_text|].
  destruct (Ascii.eqb_spec c ":") as [->|]; [|intros H; destruct c as [[] [] [] [] [] [] [] []]; done].
  destruct (contains_byte s "%"); [done|]. intros H. split; [done|]. unfold parse_ipv6 in H.
  assert (Hs : (exists r, s = "::" ++ r /\ (r = "" \/ exists b e b' e', ipv6_loop 8 r b e = Some (b', e', "")))
    \/ exists b e b' e', ipv6_loop 8 s b e = Some (b', e', "")).
  { destruct (has_prefix s "::") eqn:Hp.
    - apply has_prefix_iff in Hp as [r ->]. left. exists r. split; [done|]. cbn [String.append] in H.
      destruct (String.eqb_spec r "") as [->|]; [by left|right]. cbn [bool_decide andb] in H. rewrite andb_false_r in H.
      destruct (ipv6_loop 8 r [] (Some 0)) as [[[b e] [|]]|] eqn:Hl; try done. eauto 6.
    - right. assert (Hsame : (match s with String ":" (String ":" s') => (s', Some 0) | _ => (s, None) end) = (s, None : option nat)).
      { destruct s as [|c1 [|c2 s]]; [done| |]; destruct c1 as [[] [] [] [] [] [] [] []]; try done.
        destruct c2 as [[] [] [] [] [] [] [] []]; try done. by rewrite (proj2 (has_prefix_iff _ _)) in Hp by by exists s. }
      rewrite Hsame in H. cbn [bool_decide andb] in H. destruct (ipv6_loop 8 s [] None) as [[[b e] [|]]|] eqn:Hl; try done. eauto 6. }
  destruct Hs as [(r & -> & [->|(b & e & b' & e' & Hr)])|(b & e & b' & e' & Hr)]; [done| |by eapply ipv6_loop_text].
  apply colon_dotted, colon_dotted. by eapply ipv6_loop_text.
Qed.

(** ** Accepted addresses and ports are operands *)

Lemma first_not_dash (p : ascii -> bool) s : p "-"%char = false -> s <> "" -> str_forall p s = true -> has_prefix s "-" = false.
Proof.
  intros Hp Hne Hs. apply not_true_iff_false. intros [r ->]%has_prefix_iff. cbn in Hs. by rewrite Hp in Hs.
Qed.

Lemma no_dots s : no_byte "." s -> contains s ".." = false.
Proof. intros Hs. rewrite <- (str_app_nil_r s), contains_dots_skip; done. Qed.

Lemma dotted_operand s : s <> "" -> dotted s -> operand_text s.
Proof.
  intros Hne [Hs Hd]. split_and!; [done| | |done].
  - by apply (first_not_dash addr_byte).
  - revert Hs. apply str_forall_mono. apply addr_safe.
Qed.

Lemma validateAddress_operand field value v : validateAddress field value v = Ok () -> value = "" \/ operand_text value.
Proof.
  unfold validateAddress. destruct (String.eqb_spec value ""); [by left|]. intros H. right. apply dotted_operand; [done|].
  destruct (parse_ip value) as [ip|] eqn:Hip.
  { unfold parse_ip in Hip. destruct (parse_addr value) as [l|] eqn:Hp; [|done]. by apply parse_addr_text in Hp as [_ ?]. }
  destruct (parse_cidr value) eqn:Hc; [|done]. unfold parse_cidr in Hc. destruct (cut "/" value) as [a [mask|]] eqn:Hcut; [|done].
  apply cut_some in Hcut as ->. destruct (parse_addr a) as [l|] eqn:Hp; [|done]. apply parse_addr_text in Hp as [_ [Ha Hd]].
  apply andb_true_iff in Hc as [[_ Hm]%andb_true_iff _].
  assert (Hmask : str_forall addr_byte mask = true).
  { revert Hm. apply str_forall_mono. intros c Hc. by apply digit_addr. }
  split; [by rewrite str_forall_app, Ha; cbn [str_forall]; rewrite Hmask|].
  rewrite contains_dots_stop; [done|]. apply (str_forall_mono is_digit) with (q := fun c => negb (Ascii.eqb "." c)) in Hm.
  - by unfold no_byte; cbn [str_forall]; rewrite Hm.
  - intros c Hc. apply negb_true_iff, Ascii.eqb_neq. intros <-. discriminate.
Qed.

(** Lower-case letters, digits, plus, minus and colon. *)
Definition port_byte (c : ascii) : bool := is_lower c || is_digit c || Ascii.eqb c "-" || Ascii.eqb c "+" || Ascii.eqb c ":".

Definition port_text (s : string) : Prop := s <> "" /\ has_prefix s "-" = false /\ str_forall port_byte s = true.

Lemma port_byte_safe c : port_byte c = true -> safe_byte c = true /\ negb (Ascii.eqb "." c) = true.
Proof. destruct c as [[] [] [] [] [] [] [] []]; intros H; try discriminate H; done. Qed.

Lemma digit_prefix_split s : str_forall is_digit (fst (digit_prefix s)) = true /\ s = fst (digit_prefix s) ++ snd (digit_prefix s).
Proof.
  induction s as [|c s [IH1 IH2]]; [done|]. cbn [digit_prefix]. destruct (is_digit c) eqn:Hc; [|done].
  destruct (digit_prefix s) as [d r]. cbn [fst snd] in *. cbn [str_forall String.append]. rewrite Hc, IH1. split; [done|congruence].
Qed.

Lemma atoi_text s z : atoi s = Some z -> s <> "" /\ str_forall port_byte s = true.
Proof.
  unfold atoi. intros H.
  assert (Hs : exists sign, s = sign ++ snd (take_sign s) /\ str_forall port_byte sign = true).
  { destruct s as [|c s]; [by exists ""|]. destruct (Ascii.eqb_spec c "-") as [->|]; [by exists "-"|].
    destruct (Ascii.eqb_spec c "+") as [->|]; [by exists "+"|]. exists "". split; [|done].
    destruct c as [[] [] [] [] [] [] [] []]; done. }
  destruct Hs as (sign & Hs & Hsign). destruct (take_sign s) as [neg t]. cbn [snd] in Hs.
  destruct (digit_prefix_split t) as [Hd Ht]. destruct (digit_prefix t) as [d r]. cbn [fst snd] in *.
  destruct (String.eqb_spec d ""); [done|]. destruct (String.eqb_spec r ""); [|done]. subst r t s. rewrite str_app_nil_r. split.
  - destruct sign; [done|]. by intros [=].
  - rewrite str_forall_app, Hsign. revert Hd. apply str_forall_mono. intros c Hc. unfold port_byte. rewrite Hc. by destruct (is_lower c).
Qed.

Lemma port_numbers_text parts l : port_numbers parts = Some l -> Forall (fun p => p <> "" /\ str_forall port_byte p = true) parts.
Proof.
  revert l. induction parts as [|p parts IH]; intros l; cbn [port_numbers]; [intros _; apply Forall_nil_2|].
  destruct (atoi p) as [n|] eqn:Hn; [|done]. destruct (_ || _); [done|]. destruct (port_numbers parts) as [l'|]; [|done]. intros _.
  apply Forall_cons_2; [by eapply atoi_text|by eapply IH].
Qed.

Lemma service_port_text s : match_string servicePortPattern s = true -> port_text s.
Proof.
  intros H.
  assert (Hq : str_forall (fun c => in_range 97 122 (byte_val c) || in_range 48 57 (byte_val c) || (byte_val c =? 45)%Z) s = true).
  { apply (match_over (fun z => in_range 97 122 z || in_range 48 57 z || (z =? 45)%Z) servicePortPattern); [| |exact H].
    - intros z. unfold in_range. lia.
    - split; [intros z Hz; by rewrite Hz|]. apply over_upto. intros z Hz. exact Hz. }
  assert (Hb : str_forall port_byte s = true).
  { revert Hq. apply str_forall_mono. intros c. by destruct c as [[] [] [] [] [] [] [] []]. }
  apply match_string_lang in H. unfold servicePortPattern in H. apply lang_cat in H as (w1 & w2 & Hw & (z & -> & Hz)%lang_cls & _).
  split_and!; [by intros ->| |done]. apply not_true_iff_false. intros [r ->]%has_prefix_iff. cbn in Hw. by injection Hw as <- _.
Qed.

Lemma validatePort_text v : validatePort v = None -> port_text v.
Proof.
  unfold validatePort. destruct (match_string servicePortPattern v) eqn:Hsvc; [intros _; by apply service_port_text|].
  set (sep := if contains_byte v "-" then "-"%char else ":"%char). cbv zeta. destruct (_ <? _)%nat; [done|].
  destruct (port_numbers (split sep v)) as [l|] eqn:Hl; [|done]. intros _. apply port_numbers_text in Hl.
  assert (Hv : str_forall port_byte v = true).
  { rewrite <- (join_split sep v). apply join_forall; [subst sep; by destruct (contains_byte v "-")|].
    eapply Forall_impl; [exact Hl|]. by intros p [_ ?]. }
  split_and!; [|..|done].
  - intros ->. cbn in Hl. inversion Hl as [|? ? [H _] _]. done.
  - apply not_true_iff_false. intros [r ->]%has_prefix_iff. subst sep. change (contains_byte ("-" ++ r) "-") with true in Hl.
    cbn iota in Hl. change ("-" ++ r) with (String "-" r) in Hl. change (split "-" (String "-" r)) with ("" :: split "-" r) in Hl.
    inversion Hl as [|? ? [H _] _]. done.
Qed.

Lemma port_operand v t : port_text v -> str_forall safe_byte t = true -> no_byte "." t -> operand_text (v ++ t).
Proof.
  intros (Hne & Hd & Hv) Ht Hdot. assert (Hsafe : str_forall safe_byte v = true).
  { revert Hv. apply str_forall_mono. intros c Hc. by apply port_byte_safe. }
  assert (Hnd : no_byte "." v) by (revert Hv; apply str_forall_mono; intros c Hc; by apply port_byte_safe).
  split_and!.
  - destruct v; [done|]. by intros [=].
  - destruct v as [|c v]; [done|]. apply not_true_iff_false. intros [r Hr]%has_prefix_iff. injection Hr as -> _.
    by rewrite (proj2 (has_prefix_iff _ _)) in Hd by by exists v.
  - by rewrite str_forall_app, Hsafe.
  - rewrite contains_dots_skip by done. by apply no_dots.
Qed.

(** ** Accepted rules are permitted commands *)

Section permitted.
Context `{HUnicode : Unicode}.

Definition operand (s : string) : Prop := operand_text s /\ (len s <= maxCommandArgument)%Z.

#[local] Instance operand_dec s : Decision (operand s).
Proof. unfold operand, operand_text. apply _. Defined.

Lemma operand_permitted allowed prev s : operand s -> validateArg "ufw" allowed prev s = Ok ().
Proof.
  intros [(Hne & Hd & Hs & Hdd) Hlen]. unfold validateArg. destruct (String.eqb_spec s ""); [done|].
  assert ((maxCommandArgument <? len s)%Z = false) as -> by lia.
  assert (contains_any s control_bytes = false) as ->.
  { unfold contains_any. apply str_exists_false. revert Hs. apply str_forall_mono. intros c Hc. by rewrite safe_byte_no_control. }
  cbn [orb]. destruct (_ && _); [done|]. unfold isAllowedArg. rewrite Hd. cbn [negb].
  rewrite (proj2 (safeOperand_spec s)) by done. by rewrite Hdd.
Qed.

Lemma comment_class_byte c : safeCommentClass (byte_val c) = true -> (byte_val c < 128)%Z -> contains_byte control_bytes c = false.
Proof.
  unfold safeCommentClass. intros H Hc. assert ((byte_val c <? 128)%Z = true) as Hlt by lia. rewrite Hlt in H. clear Hc Hlt.
  destruct c as [[] [] [] [] [] [] [] []]; vm_compute in H |- *; congruence.
Qed.

Lemma comment_permitted allowed s : match_string commentPattern s = true -> s <> "" -> validateArg "ufw" allowed (Some "comment") s = Ok ().
Proof.
  intros Hm Hne. apply match_string_lang in Hm as Hl. apply lang_upto_cls in Hl as [Hall Hn].
  destruct (runes_bytes safeCommentClass s Hall) as [Hb Hlen]. unfold validateArg. destruct (String.eqb_spec s ""); [done|].
  assert ((maxCommandArgument <? len s)%Z = false) as -> by (unfold maxCommandArgument; lia).
  assert (contains_any s control_bytes = false) as ->.
  { unfold contains_any. apply str_exists_false. revert Hb. apply str_forall_mono. intros c Hc. apply negb_true_iff.
    apply orb_true_iff in Hc as [Hc|Hc].
    - apply not_true_iff_false. rewrite contains_byte_iff. simpl. intros [<-|[<-|[<-|[]]]]; vm_compute in Hc; congruence.
    - destruct (Z.lt_ge_cases (byte_val c) 128); [by apply comment_class_byte|].
      apply not_true_iff_false. rewrite contains_byte_iff. simpl. intros [<-|[<-|[<-|[]]]]; vm_compute in H; congruence. }
  cbn [orb String.eqb Ascii.eqb Bool.eqb andb]. rewrite bool_decide_eq_true_2 by done. cbn [andb].
  rewrite (proj2 (match_string_lang safeComment s)); [done|]. unfold safeComment. apply lang_cat.
  destruct (runes s) as [|r w] eqn:Hr; [by apply runes_nil in Hr|]. apply Forall_cons in Hall as [Hr1 Hw].
  exists [r], w. split_and!; [done|apply lang_cls; eauto|]. apply lang_upto_cls. split; [done|]. cbn [length] in Hn. lia.
Qed.

Definition ufw_words : list string :=
  ["allow"; "deny"; "reject"; "delete"; "status"; "numbered"; "enable"; "disable"; "reload"; "reset"; "--force"].

Lemma ufw_validated args : Validate "ufw" args = for_each_prev None (validateArg "ufw" ufw_words) args.
Proof.
  change (Validate "ufw" args) with (for_each_prev None (validateArg "ufw" ufw_words) args ;? Ok ()).
  by destruct (for_each_prev _ _ _) as [[]|].
Qed.

Lemma args_permitted l c : Forall operand l -> (c = [] \/ exists s, c = ["comment"; s] /\ match_string commentPattern s = true /\ s <> "") ->
  Validate "ufw" (l ++ c)%list = Ok ().
Proof.
  intros Hl Hc.
  assert (Hgo : forall allowed prev, for_each_prev prev (validateArg "ufw" allowed) (l ++ c)%list = Ok ()).
  { intros allowed. induction Hl as [|x l Hx Hl IH]; intros prev.
    - destruct Hc as [->|(s & -> & Hm & Hne)]; [done|]. cbn [app for_each_prev].
      rewrite operand_permitted by (by apply (bool_decide_unpack _)). cbn [bind_result]. by rewrite comment_permitted.
    - cbn [app for_each_prev]. rewrite operand_permitted by done. cbn [bind_result]. apply IH. }
  by rewrite ufw_validated, Hgo.
Qed.

(** What [validateRule] has checked. *)
Record checked (r : contract_rule) : Prop := {
  ck_action : oneOf (c_Action r) ["allow"; "deny"; "reject"] = true;
  ck_protocol : oneOf (c_Protocol r) ["tcp"; "udp"; "any"] = true;
  ck_direction : oneOf (c_Direction r) ["in"; "out"] = true;
  ck_version : oneOf (c_IPVersion r) ["ipv4"; "ipv6"; "both"] = true;
  ck_some : c_Port r <> "" \/ c_Source r <> "" \/ c_Destination r <> "";
  ck_port : c_Port r = "" \/ port_text (c_Port r);
  ck_source : c_Source r = "" \/ operand_text (c_Source r);
  ck_destination : c_Destination r = "" \/ operand_text (c_Destination r);
  ck_comment : match_string commentPattern (c_Comment r) = true }.

Lemma fail_if_then {E A} (b : bool) (e : E) (k : result E A) a : (fail_if b e ;? k) = Ok a <-> b = false /\ k = Ok a.
Proof. destruct b; cbn; naive_solver. Qed.

Lemma validateRule_checked sf req r : validateRule sf req = Ok r -> checked r.
Proof.
  unfold validateRule. intros H. assert (Hc : check_rule sf r = Ok ()).
  { cbv zeta in H. destruct (check_rule sf (normalize req)) as [[]|] eqn:Hc; [|done]. by injection H as <-. }
  clear H. unfold check_rule in Hc. rewrite !fail_if_then in Hc. destruct Hc as (H1 & H2 & H3 & H4 & H5 & Hc).
  apply negb_false_iff in H1, H2, H3, H4.
  destruct (if String.eqb (c_Port r) "" then Ok () else _) as [[]|] eqn:Hp; [|done]. cbn [bind_result] in Hc. cbv zeta in Hc.
  destruct (validateAddress "source" _ _) as [[]|] eqn:Hs; [|by destruct sf; [|destruct (validateAddress "destination" _ _)]].
  destruct (validateAddress "destination" _ _) as [[]|] eqn:Hd; [|by destruct sf].
  assert (Hcm : fail_if (negb (match_string commentPattern (c_Comment r)))
    (InvalidInput "comment contains unsupported characters or exceeds 128 characters") = Ok ()) by by destruct sf.
  split; try done.
  - destruct (String.eqb_spec (c_Port r) ""), (String.eqb_spec (c_Source r) ""), (String.eqb_spec (c_Destination r) ""); auto; done.
  - destruct (String.eqb_spec (c_Port r) "") as [|]; [by left|right]. apply validatePort_text. by destruct (validatePort _).
  - by eapply validateAddress_operand.
  - by eapply validateAddress_operand.
  - by destruct (match_string commentPattern _).
Qed.

Lemma oneOf_in v l : oneOf v l = true -> v ∈ l.
Proof. unfold oneOf. intros (x & Hx & ->%String.eqb_eq)%existsb_exists. by apply list_elem_of_In. Qed.

(** The words after the action and the direction. *)
Definition target_words (r : contract_rule) : list string :=
  let with_protocol := negb (String.eqb (c_Protocol r) "any") in
  if String.eqb (c_Source r) "" && String.eqb (c_Destination r) "" && String.eqb (c_IPVersion r) "both"
  then [if with_protocol then c_Port r ++ "/" ++ c_Protocol r else c_Port r]
  else ((if with_protocol then ["proto"; c_Protocol r] else [])
        ++ ["from"; or_default (c_Source r) "any"; "to"; or_default (c_Destination r) "any"]
        ++ (if String.eqb (c_Port r) "" then [] else ["port"; c_Port r]))%list.

Definition comment_words (r : contract_rule) : list string := if String.eqb (c_Comment r) "" then [] else ["comment"; c_Comment r].

Lemma rule_args_words id r : checked r ->
  rule_args (to_message (with_id id r)) = Some (c_Action r :: c_Direction r :: target_words r ++ comment_words r)%list.
Proof.
  intros Hc. unfold rule_args, to_message, with_id, target_words, comment_words, or_default.
  cbn [c_ID c_Port c_Protocol c_Action c_Direction c_Source c_Destination c_Comment c_IPVersion
       Id Port Protocol Action Direction Source Destination Comment IpVersion].
  pose proof (oneOf_in _ _ (ck_action _ Hc)) as Ha. pose proof (oneOf_in _ _ (ck_direction _ Hc)) as Hd.
  pose proof (oneOf_in _ _ (ck_protocol _ Hc)) as Hp. pose proof (oneOf_in _ _ (ck_version _ Hc)) as Hv.
  repeat rewrite ?elem_of_cons, ?elem_of_nil in *.
  assert (Hproto : negb (String.eqb (c_Protocol r) "") = true) by (destruct Hp as [->|[->|[->|[]]]]; done). rewrite Hproto. cbn [andb].
  assert (Hver : bool_decide ((if String.eqb (c_IPVersion r) "ipv4" then FIREWALL_IP_VERSION_V4
     else if String.eqb (c_IPVersion r) "ipv6" then FIREWALL_IP_VERSION_V6
     else if String.eqb (c_IPVersion r) "both" then FIREWALL_IP_VERSION_BOTH else FIREWALL_IP_VERSION_UNSPECIFIED) = FIREWALL_IP_VERSION_BOTH)
     = String.eqb (c_IPVersion r) "both") by (destruct Hv as [->|[->|[->|[]]]]; done). rewrite Hver.
  destruct Ha as [->|[->|[->|[]]]], Hd as [->|[->|[]]]; cbn [String.eqb Ascii.eqb Bool.eqb mbind option_bind]; done.
Qed.

Lemma operand_of s : operand_text s -> (len s <= 4096)%Z -> operand s.
Proof. by split. Qed.

Lemma target_operands r : checked r -> (len (c_Port r) <= 4000)%Z -> (len (c_Source r) <= 4096)%Z -> (len (c_Destination r) <= 4096)%Z ->
  Forall operand (target_words r).
Proof.
  intros Hc Hlp Hls Hld. unfold target_words.
  assert (Hany : operand "any") by (by apply (bool_decide_unpack _)).
  assert (Haddr : forall a, a = "" \/ operand_text a -> (len a <= 4096)%Z -> operand (or_default a "any")).
  { intros a Ha Hl. unfold or_default. destruct (String.eqb_spec a ""); [done|]. destruct Ha; [done|by split]. }
  pose proof (oneOf_in _ _ (ck_protocol _ Hc)) as Hp. repeat rewrite ?elem_of_cons, ?elem_of_nil in Hp.
  assert (Hpo : c_Port r <> "" -> operand (c_Port r)).
  { intros Hne. destruct (ck_port _ Hc) as [|Ht]; [done|]. apply operand_of; [|lia]. rewrite <- (str_app_nil_r (c_Port r)). by apply port_operand. }
  destruct (String.eqb_spec (c_Source r) "") as [Hs|Hs], (String.eqb_spec (c_Destination r) "") as [Hd|Hd]; cbn [andb];
    [destruct (String.eqb (c_IPVersion r) "both")|..].
  { assert (Hne : c_Port r <> "") by (destruct (ck_some _ Hc) as [|[]]; done). apply Forall_singleton.
    destruct (ck_port _ Hc) as [|Ht]; [done|]. destruct Hp as [->|[->|[->|[]]]]; cbn [String.eqb Ascii.eqb Bool.eqb negb]; [..|by apply Hpo].
    all: apply operand_of; [by apply port_operand|]; unfold len in *; rewrite str_length_app; cbn; lia. }
  all: apply Forall_app; split; [destruct Hp as [->|[->|[->|[]]]]; cbn [String.eqb Ascii.eqb Bool.eqb negb]; try apply Forall_nil_2;
      by repeat apply Forall_cons_2; try apply Forall_nil_2; apply (bool_decide_unpack _)|].
  all: apply Forall_app; split;
    [apply Forall_cons_2; [by apply (bool_decide_unpack _)|]; apply Forall_cons_2; [apply Haddr; [apply (ck_source _ Hc)|done]|];
     apply Forall_cons_2; [by apply (bool_decide_unpack _)|]; apply Forall_singleton, Haddr; [apply (ck_destination _ Hc)|done]|].
  all: destruct (String.eqb_spec (c_Port r) ""); [apply Forall_nil_2|];
    apply Forall_cons_2; [by apply (bool_decide_unpack _)|]; apply Forall_singleton; by apply Hpo.
Qed.

(** What the text of a field asks for: one of the words, in any case and between any white
    space, or the fallback when it is blank. *)
Definition asks (words : list string) (fallback raw word : string) : Prop :=
  (to_lower (trim_space raw) = "" /\ word = fallback) \/ (to_lower (trim_space raw) = word /\ word ∈ words).

(** The rule [r] is what the request [req] asks for. *)
Record understood (req r : contract_rule) : Prop := {
  un_action : asks ["allow"; "deny"; "reject"] "allow" (c_Action req) (c_Action r);
  un_direction : asks ["in"; "out"] "in" (c_Direction req) (c_Direction r);
  un_protocol : asks ["tcp"; "udp"; "any"] "any" (c_Protocol req) (c_Protocol r);
  un_version : asks ["ipv4"; "ipv6"; "both"] "both" (c_IPVersion req) (c_IPVersion r);
  un_port : c_Port r = trim_space (c_Port req);
  un_source : c_Source r = trim_space (c_Source req);
  un_destination : c_Destination r = trim_space (c_Destination req);
  un_comment : c_Comment r = trim_space (c_Comment req);
  un_id : c_ID r = c_ID req }.

Lemma or_default_asks words fallback raw :
  oneOf (or_default (to_lower (trim_space raw)) fallback) words = true ->
  asks words fallback raw (or_default (to_lower (trim_space raw)) fallback).
Proof.
  unfold or_default. destruct (String.eqb_spec (to_lower (trim_space raw)) "") as [He|He]; [by left|].
  intros Hin%oneOf_in. by right.
Qed.

Lemma validateRule_understood sf req r : validateRule sf req = Ok r -> understood req r.
Proof.
  intros H. pose proof (validateRule_checked _ _ _ H) as Hc. unfold validateRule in H. cbv zeta in H.
  destruct (check_rule sf (normalize req)); [|done]. injection H as <-.
  split; try reflexivity; apply or_default_asks; apply Hc.
Qed.

(** C37. The Core and the Agent agree on firewall rules.  Take any request the module accepts
    whose trimmed port has at most 4000 bytes and whose trimmed addresses have at most 4096.
    The rule that is sent says what the request says: its action, direction, protocol and IP
    version are the words of the request, in lower case, or allow, in, any and both where
    the request is silent; its port, addresses and comment are those of the request without
    the white space around them.  For this rule, new or as the replacement of rule [id], the
    Agent builds a ufw command whose first words are this action and this direction,
    followed by the protocol, addresses and port and the comment, and its executor permits
    this command, so that it is run. *)
Theorem accepted_rule_permitted source_first req r id :
  validateRule source_first req = Ok r ->
  (len (c_Port r) <= 4000)%Z -> (len (c_Source r) <= 4096)%Z -> (len (c_Destination r) <= 4096)%Z ->
  understood req r /\
  rule_args (to_message (with_id id r)) = Some (c_Action r :: c_Direction r :: target_words r ++ comment_words r)%list /\
  Validate "ufw" (c_Action r :: c_Direction r :: target_words r ++ comment_words r)%list = Ok ().
Proof.
  intros Hv Hp Hs Hd. split; [by eapply validateRule_understood|]. apply validateRule_checked in Hv. split; [by apply rule_args_words|].
  change (c_Action r :: c_Direction r :: target_words r ++ comment_words r)%list
    with (([c_Action r; c_Direction r] ++ target_words r) ++ comment_words r)%list. apply args_permitted.
  - apply Forall_app. split; [|by apply target_operands].
    pose proof (oneOf_in _ _ (ck_action _ Hv)) as Ha. pose proof (oneOf_in _ _ (ck_direction _ Hv)) as Hdir.
    repeat rewrite ?elem_of_cons, ?elem_of_nil in *.
    apply Forall_cons_2; [destruct Ha as [->|[->|[->|[]]]]|apply Forall_singleton; destruct Hdir as [->|[->|[]]]];
      by apply (bool_decide_unpack _).
  - unfold comment_words. destruct (String.eqb_spec (c_Comment r) ""); [by left|right]. eexists. split_and!; [done|apply (ck_comment _ Hv)|done].
Qed.
End permitted.

Section witness.
#[local] Existing Instance unicode_ascii.

Definition office_rule : contract_rule := mkContract "" " 8000:8100 " "TCP" "" "" "2001:db8::/32" "" "office (vpn)" "ipv6".

Lemma accepted_rule_permitted_witness :
  understood office_rule (mkContract "" "8000:8100" "tcp" "allow" "in" "2001:db8::/32" "" "office (vpn)" "ipv6") /\
  Validate "ufw" ["allow"; "in"; "proto"; "tcp"; "from"; "2001:db8::/32"; "to"; "any"; "port"; "8000:8100"; "comment"; "office (vpn)"] = Ok ().
Proof.
  destruct (accepted_rule_permitted true office_rule
    (mkContract "" "8000:8100" "tcp" "allow" "in" "2001:db8::/32" "" "office (vpn)" "ipv6") "3") as (Hu & _ & Hv);
    [vm_compute; congruence..|]. split; [exact Hu|exact Hv].
Defined.
End witness.

(** ** Protected rules *)

Section protection.
Context `{HUnicode : Unicode}.

Lemma check_update_ok id req found rules : check_update id req found rules = Ok true ->
  (found = true \/ exists rule, rule ∈ rules /\ c_ID rule = id) /\
  forall rule, rule ∈ rules -> (c_ID rule = id -> protected_port rule = false) /\ (c_ID rule <> id -> sameRule rule req = false).
Proof.
  revert found. induction rules as [|x rules IH]; intros found; cbn [check_update].
  { intros [= ->]. split; [by left|]. intros rule []%elem_of_nil. }
  destruct (String.eqb_spec (c_ID x) id) as [Hid|Hid].
  - destruct (protected_port x) eqn:Hp; [done|]. intros [_ Hall]%IH. split; [right; exists x; rewrite elem_of_cons; tauto|].
    intros rule [->|Hin]%elem_of_cons; [done|by apply Hall].
  - destruct (sameRule x req) eqn:Hs; [done|]. intros [Hf Hall]%IH. split.
    + destruct Hf as [->|(y & Hy & Hyid)]; [by left|]. right. exists y. rewrite elem_of_cons. tauto.
    + intros rule [->|Hin]%elem_of_cons; [done|by apply Hall].
Qed.

(** The calls that change the firewall. *)
Definition changes (ac : action fw_call) : Prop :=
  match ac with
  | Act (FirewallRule_ _) _ | Act (FirewallDelete_ _) _ | Act FirewallReset_ _ | Act (FirewallToggle_ _) _ | Act (CommandExecute_ _ _) _ => True
  | _ => False
  end.
Notation harmless := (Forall (fun ac => ~ changes ac)).

Lemma harmless_list x : harmless [Act FirewallList_ x].
Proof. apply Forall_singleton. by intros []. Qed.
#[local] Hint Resolve harmless_list Forall_nil_2 : core.

Lemma handleUpdate_exec source_first id body tr rep : exec (handleUpdate source_first id body) tr rep ->
  harmless tr \/ exists rules req r x, tr = [Act FirewallList_ (Ok rules); Act (FirewallRule_ (with_id id r)) x] /\
    decode_rule body = Some req /\ validateRule source_first req = Ok r /\ check_update id r false rules = Ok true.
Proof.
  unfold handleUpdate. intros Hx. destruct (String.eqb id ""); [destruct Hx as [-> _]; by left; auto|].
  destruct (decode_rule body) as [req|]; [|destruct Hx as [-> _]; by left; auto].
  destruct (validateRule source_first req) as [r|] eqn:Hv; [|destruct Hx as [-> _]; by left; auto].
  destruct Hx as (x & t & -> & Hx). cbn [bind] in Hx. destruct x as [rules|err]; [|destruct Hx as [-> _]; by left; auto].
  destruct (check_update id r false rules) as [[]|] eqn:Hc; [|destruct Hx as [-> _]; by left; auto..].
  destruct Hx as (y & t2 & -> & Hx). right. exists rules, req, r, y.
  assert (t2 = []) as -> by (cbn [bind] in Hx; destruct y; by destruct Hx as [-> _]). done.
Qed.

Lemma handleDelete_exec body tr rep : exec (handleDelete body) tr rep ->
  harmless tr \/ exists listing i x, tr = [Act FirewallList_ listing; Act (FirewallDelete_ i) x] /\ decode_delete body = Some i /\
    forall rules rule, listing = Ok rules -> List.find (fun rule => String.eqb (c_ID rule) i) rules = Some rule ->
      protected_port rule = false.
Proof.
  unfold handleDelete. intros Hx. destruct (decode_delete body) as [i|]; [|destruct Hx as [-> _]; by left; auto].
  destruct (String.eqb i ""); [destruct Hx as [-> _]; by left; auto|]. destruct Hx as (x & t & -> & Hx). cbn [bind] in Hx.
  assert (Hdel : exec (delete_it i) t rep -> exists y, t = [Act (FirewallDelete_ i) y]).
  { intros (y & t2 & -> & Hy). exists y. cbn [bind] in Hy. destruct y; by destruct Hy as [-> _]. }
  destruct x as [rules|err].
  - destruct (List.find _ rules) as [rule|] eqn:Hf.
    + destruct (protected_port rule) eqn:Hp; [destruct Hx as [-> _]; by left; auto|]. apply Hdel in Hx as [y ->]. right.
      exists (Ok rules), i, y. split_and!; [done..|]. intros rules' rule' [= <-]. congruence.
    + apply Hdel in Hx as [y ->]. right. exists (Ok rules), i, y. split_and!; [done..|]. intros rules' rule' [= <-]. congruence.
  - apply Hdel in Hx as [y ->]. right. exists (Err err), i, y. by split_and!.
Qed.

Lemma handleAdd_exec source_first body tr rep : exec (handleAdd source_first body) tr rep ->
  harmless tr \/ exists rules req r x, tr = [Act FirewallList_ (Ok rules); Act (FirewallRule_ r) x] /\
    decode_rule body = Some req /\ validateRule source_first req = Ok r /\ existsb (fun rule => sameRule rule r) rules = false.
Proof.
  unfold handleAdd. intros Hx. destruct (decode_rule body) as [req|]; [|destruct Hx as [-> _]; by left; auto].
  destruct (validateRule source_first req) as [r|] eqn:Hv; [|destruct Hx as [-> _]; by left; auto].
  destruct Hx as (x & t & -> & Hx). cbn [bind] in Hx. destruct x as [rules|err]; [|destruct Hx as [-> _]; by left; auto].
  destruct (existsb _ rules) eqn:He; [destruct Hx as [-> _]; by left; auto|].
  destruct Hx as (y & t2 & -> & Hx). right. exists rules, req, r, y.
  assert (t2 = []) as -> by (cbn [bind] in Hx; destruct y; by destruct Hx as [-> _]). done.
Qed.

(** C38. What the handlers that add, change and delete one rule may do to the firewall.
    A change asks the Agent for nothing, or it lists the rules first, the listing has the
    rule with the requested number, no listed rule of this number has the port 443 or 5888,
    no other rule is the same, and then this rule is replaced by the validated one.
    A deletion asks for nothing, or it lists the rules, and if the listing succeeds and has
    the rule, its port is not 443 or 5888, and then this rule is deleted; if the listing
    fails the rule is deleted unchecked.  An addition asks for nothing, or it lists the
    rules, none is the same, and the validated rule is sent with the number in the request,
    which is not checked: with one the Agent replaces the rule of this number
    ([add_replaces_protected]).  A rule for 443 without a protocol is listed without its
    port and is not protected; a reset removes every rule. *)
Theorem protected_rules_kept source_first id body tr rep :
  (exec (handleUpdate source_first id body) tr rep ->
   harmless tr \/ exists rules req r x, tr = [Act FirewallList_ (Ok rules); Act (FirewallRule_ (with_id id r)) x] /\
     decode_rule body = Some req /\ validateRule source_first req = Ok r /\
     (exists rule, rule ∈ rules /\ c_ID rule = id) /\
     forall rule, rule ∈ rules -> (c_ID rule = id -> protected_port rule = false) /\ (c_ID rule <> id -> sameRule rule r = false)) /\
  (exec (handleDelete body) tr rep ->
   harmless tr \/ exists listing i x, tr = [Act FirewallList_ listing; Act (FirewallDelete_ i) x] /\ decode_delete body = Some i /\
     forall rules rule, listing = Ok rules -> List.find (fun rule => String.eqb (c_ID rule) i) rules = Some rule ->
       protected_port rule = false) /\
  (exec (handleAdd source_first body) tr rep ->
   harmless tr \/ exists rules req r x, tr = [Act FirewallList_ (Ok rules); Act (FirewallRule_ r) x] /\
     decode_rule body = Some req /\ validateRule source_first req = Ok r /\ c_ID r = c_ID req /\
     forall rule, rule ∈ rules -> sameRule rule r = false).
Proof.
  split_and!.
  - intros [Hh|(rules & req & r & x & -> & Hd & Hv & [[?|Hf] Hall]%check_update_ok)]%handleUpdate_exec; [by left|done|].
    right. by exists rules, req, r, x.
  - apply handleDelete_exec.
  - intros [Hh|(rules & req & r & x & -> & Hd & Hv & He)]%handleAdd_exec; [by left|]. right. exists rules, req, r, x.
    split_and!; [done..|apply (un_id _ _ (validateRule_understood _ _ _ Hv))|]. intros rule Hin%list_elem_of_In.
    apply not_true_iff_false. intros Hs. apply not_true_iff_false in He. apply He, existsb_exists. eauto.
Qed.

(** Not so the handler that adds a rule: a number in its request makes the Agent replace the
    rule of that number, whatever it is for. *)
Theorem add_replaces_protected source_first :
  let body := "{" ++ String dquote "id" ++ String dquote ":" ++ String dquote "1" ++ String dquote ","
    ++ String dquote "port" ++ String dquote ":" ++ String dquote "8080" ++ String dquote "}" in
  let panel := mkContract "1" "5888" "tcp" "allow" "in" "" "Anywhere" "" "ipv4" in
  let replacement := mkContract "1" "8080" "any" "allow" "in" "" "" "" "both" in
  protected_port panel = true /\
  exec (handleAdd source_first body) [Act FirewallList_ (Ok [panel]); Act (FirewallRule_ replacement) (Ok ())]
    (Message_ 200 "rule added successfully") /\
  AddRule None (to_message replacement) = updateRule None (to_message replacement).
Proof.
  intros body panel replacement. split; [done|]. split; [|reflexivity]. unfold handleAdd.
  assert (Hd : decode_rule body = Some (mkContract "1" "8080" "" "" "" "" "" "" "")) by (vm_compute; reflexivity).
  assert (Hv : validateRule source_first (mkContract "1" "8080" "" "" "" "" "" "" "") = Ok replacement)
    by (destruct source_first; vm_compute; reflexivity).
  assert (Hs : sameRule panel replacement = false) by (vm_compute; reflexivity).
  rewrite Hd, Hv. eexists _, _. split; [reflexivity|]. cbn [bind existsb]. rewrite Hs. cbn [orb].
  eexists _, _. split; [reflexivity|]. done.
Qed.
End protection.

Section protection_witness.
#[local] Existing Instance unicode_ascii.

Definition panel_rule : contract_rule := mkContract "1" "5888" "tcp" "allow" "in" "" "Anywhere" "" "ipv4".
Definition web_rule : contract_rule := mkContract "2" "8080" "tcp" "allow" "in" "" "Anywhere" "" "ipv4".
Definition delete_body : string := print_json (JObj (str_member "id" "2")).

Lemma protected_rules_kept_witness : exists listing i x,
  [Act FirewallList_ (Ok [panel_rule; web_rule]); Act (FirewallDelete_ "2") (Ok ())] = [Act FirewallList_ listing; Act (FirewallDelete_ i) x] /\
  decode_delete delete_body = Some i /\
  forall rules rule, listing = Ok rules -> List.find (fun rule => String.eqb (c_ID rule) i) rules = Some rule ->
    protected_port rule = false.
Proof.
  destruct (protected_rules_kept true "" delete_body [Act FirewallList_ (Ok [panel_rule; web_rule]); Act (FirewallDelete_ "2") (Ok ())]
    (Message_ 200 "rule deleted successfully")) as (_ & Hdel & _).
  destruct Hdel as [Hno|H]; [|exfalso|exact H].
  - unfold handleDelete. assert (Hd : decode_delete delete_body = Some "2") by (vm_compute; reflexivity). rewrite Hd.
    eexists _, _. split; [reflexivity|]. eexists _, _. split; [reflexivity|]. split; reflexivity.
  - apply Forall_cons in Hno as [_ Hno]. apply Forall_cons in Hno as [Hno _]. exact (Hno I).
Defined.
End protection_witness.
