(* ===== verification/AgentApi.v ===== *)
(** * The Agent behind its local boundary

    What the Core may ask of an Agent ([agent_op], the interface AgentClient), what the
    managers of the Agent are asked in turn ([host_call]), and the way between them on the
    same host: the client of internal/agentclient and the service of internal/agent/server.
    The transport of gRPC is taken to deliver messages unchanged.  The managers themselves are
    the other files on the Agent; here each is one call.  Requests for statistics, processes
    and directory listings, and the streams of logs, are not part of [agent_op]. *)

From S2P Require Import Prelude GoStrings GoStrconv GoTime GoJson Effects AppErrors Filesystem Cron Ufw.
Local Open Scope string_scope.
Local Open Scope go_scope.

(** ** The managers *)

(** An error of a manager: its text, and what [errors.Is] finds in it. *)
Record host_error := { he_text : string; he_not_exist : bool; he_protected : bool }.

(** source: internal/agent/systemd/manager.go:15-26 (ServiceStatus): the fields the manager
    sets *)
Record service_status := {
  ss_Name : string; ss_Active : bool; ss_Enabled : bool; ss_SubState : string; ss_Description : string;
  ss_Since : option time; ss_MainPID : Z }.

Inductive verb := VStart | VStop | VRestart | VEnable | VDisable | VReload.

Record command_result := { cr_exit : Z; cr_stdout : string; cr_stderr : string }.

Inductive host_call : Set -> Set :=
| SystemdVerb (v : verb) (name : string) : host_call (result host_error ())
| SystemdStatus (name : string) : host_call (result host_error service_status)
| SystemdLogs (name : string) (lines : Z) : host_call (result host_error (list string))
| ShellRun (binary : string) (args : list string) : host_call (option command_result * option host_error)
| PkgInstall (pkg : string) : host_call (result host_error (list string))
| PkgRemove (pkg : string) : host_call (result host_error (list string))
| PkgUpdate (pkg : string) : host_call (result host_error (list string))
| PkgInstalled (pkg : string) : host_call (result host_error (bool * string))
| FsRead (path : string) : host_call (result host_error string)
| FsWrite (path content : string) (mode : Z) : host_call (result host_error ())
| FsDelete (path : string) : host_call (result host_error ())
| FsRename (old new : string) : host_call (result host_error ())
| FsCopy (src dst : string) : host_call (result host_error ())
| FsChmod (path : string) (mode : Z) : host_call (result host_error ())
| FsChown (path : string) (uid gid : Z) : host_call (result host_error ())
| FsMkdirAll (path : string) (mode : Z) : host_call (result host_error ())
| FsList (path : string) : host_call (result host_error (list FileEntry))
| FsResolve (path : string) : host_call (result host_error string)
| ArchiveCreate_ (format dest : string) (paths : list string) : host_call (result host_error ())
| ArchiveExtract_ (src dst : string) : host_call (result host_error ())
| FwStatus : host_call (result host_error FirewallStatusResponse)
| FwList : host_call (result host_error (list rule))
| FwAddRule (r : rule) : host_call (result host_error ())
| FwDeleteRule (id : string) : host_call (result host_error ())
| FwToggle (enable : bool) : host_call (result host_error ())
| FwReset : host_call (result host_error ())
| CronList_ : host_call (result host_error (list Job))
| CronGet_ (id : string) : host_call (result host_error Job)
| CronCreate_ (job : Job) : host_call (result host_error Job)
| CronUpdate_ (job : Job) : host_call (result host_error Job)
| CronValidate_ (job : Job) : host_call (result host_error Validation)
| CronDelete_ (id : string) : host_call (result host_error ())
| CronSetEnabled (id : string) (enabled : bool) : host_call (result host_error Job)
| CronRun_ (id trigger actor : string) : host_call (Run * option host_error)
| CronHistory_ (id : string) (limit : Z) : host_call (result host_error (list Run))
| NginxApply (action domain content : string) : host_call (result host_error ())
| SitePrepareRoot (path : string) : host_call (result host_error ())
| SiteSocketExists (path : string) : host_call (result host_error bool)
| SiteProbe (domain : string) : host_call (result host_error Z)
| SiteCertificate (domain webroot email : string) : host_call (result host_error ())
| StatsCollect : host_call (result host_error json)
| StatsProcesses : host_call (result host_error json)
| StatsKill (pid : Z) (force : bool) : host_call (result host_error ()).

Notation host_prog A := (prog host_call A).

(** ** The operations of the Core *)

(** source: pkg/contract/module.go:532-538 (ServiceStatus) *)
Record ServiceStatus := {
  cs_Name : string; cs_Active : bool; cs_Enabled : bool; cs_Description : string; cs_SubState : string }.

(** source: pkg/contract/module.go:381-444 (AgentClient, NginxSiteAgentClient, SiteRuntimeAgentClient):
    the methods but the streams of logs, [DirList], [SystemStats] and [ProcessList]; the cron
    jobs have an interface of their own (CronRpc) *)
Inductive agent_op : Set -> Set :=
| ServiceAct (v : verb) (name : string) : agent_op (result error ())
| ServiceStatus_ (name : string) : agent_op (result error ServiceStatus)
| ServiceLogs_ (name : string) (lines : Z) : agent_op (result error (list string))
| FileLogs_ (path : string) (lines : Z) : agent_op (result error (list string))
| CommandExecute_ (command : string) (args : list string) : agent_op (result error (Z * string * string))
| PackageInstall_ (pkg : string) : agent_op (result error (list string))
| PackageRemove_ (pkg : string) : agent_op (result error (list string))
| PackageUpdate_ (pkg : string) : agent_op (result error (list string))
| PackageInstalled_ (pkg : string) : agent_op (result error (bool * string))
| FileRead_ (path : string) : agent_op (result error string)
| FileWrite_ (path content : string) (mode : Z) : agent_op (result error ())
| FileDelete_ (path : string) : agent_op (result error ())
| FileRename_ (old new : string) : agent_op (result error ())
| FileCopy_ (src dst : string) : agent_op (result error ())
| FileChmod_ (path : string) (mode : Z) : agent_op (result error ())
| FileChown_ (path : string) (uid gid : Z) : agent_op (result error ())
| DirCreate_ (path : string) (mode : Z) : agent_op (result error ())
| ArchiveCreateOp (paths : list string) (dst : string) : agent_op (result error ())
| ArchiveExtractOp (src dst : string) : agent_op (result error ())
| FirewallStatusOp : agent_op (result error FirewallStatus)
| FirewallRuleOp (req : contract_rule) : agent_op (result error ())
| FirewallDeleteOp (id : string) : agent_op (result error ())
| FirewallListOp : agent_op (result error (list contract_rule))
| FirewallToggleOp (enable : bool) : agent_op (result error ())
| FirewallResetOp : agent_op (result error ())
| ProcessKill_ (pid : Z) (force : bool) : agent_op (result error ())
| NginxSiteApply_ (action domain content : string) : agent_op (result error ())
| SiteRootPrepare_ (path : string) : agent_op (result error ())
| UnixSocketExists_ (path : string) : agent_op (result error bool)
| SiteHTTPProbe_ (domain : string) : agent_op (result error Z)
| CertificateObtain_ (domain webroot email : string) : agent_op (result error ()).

(** ** The service of the Agent *)

Section server.
(** Whether a package manager was found when the Agent started. *)
Variable pkgs : bool.

Definition invalid (desc : string) : string := "rpc error: code = InvalidArgument desc = " ++ desc.

(** A call of a manager whose error is replaced by [internalError]. *)
Definition guarded_call {A : Set} (c : host_call (result host_error A)) : host_prog (result string A) :=
  let! r := call c in Ret (map_err (fun _ => internalError) r).

(** source: internal/agent/server/server.go:48-73 (ServiceAction) *)
Definition server_ServiceAction (name : string) (v : verb) : host_prog (result string ()) :=
  if String.eqb name "" then Ret (Err (invalid "service_name is required")) else guarded_call (SystemdVerb v name).

(** source: internal/agent/server/server.go:75-81 (ServiceStatus) *)
Definition server_ServiceStatus (name : string) : host_prog (result string ServiceStatus) :=
  try! r := guarded_call (SystemdStatus name) in
  Ret (Ok {| cs_Name := ss_Name r; cs_Active := ss_Active r; cs_Enabled := ss_Enabled r; cs_Description := ss_Description r;
             cs_SubState := ss_SubState r |}).

Definition line_count (lines : Z) : bool := ((lines <? 1) || (10000 <? lines))%Z.

(** source: internal/agent/server/server.go:83-98 (ServiceLogs) *)
Definition server_ServiceLogs (name : string) (lines : Z) : host_prog (result string (list string)) :=
  if line_count lines then Ret (Err (invalid "lines must be between 1 and 10000")) else guarded_call (SystemdLogs name lines).

(** source: internal/agent/server/server.go:121-136 (FileLogs, the loop) *)
Fixpoint log_lines (current s : string) : list string :=
  match s with
  | "" => if String.eqb current "" then [] else [current]
  | String c s' => if Ascii.eqb c line_feed then current :: log_lines "" s' else log_lines (current ++ String c "") s'
  end.

(** source: internal/agent/server/server.go:100-137 (FileLogs): [Run] always has a result when it
    has no error *)
Definition server_FileLogs (path : string) (lines : Z) : host_prog (result string (list string)) :=
  if line_count lines then Ret (Err (invalid "lines must be between 1 and 10000"))
  else if String.eqb path "" then Ret (Err (invalid "path is required"))
  else
    let! (res, err) := call (ShellRun "tail" ["-n"; itoa lines; path]) in
    Ret (match err, res with
         | None, Some r => Ok (log_lines "" (cr_stdout r))
         | _, _ => Err internalError
         end).

(** source: internal/agent/server/server.go:177-190 (CommandExecute) *)
Definition server_CommandExecute (command : string) (args : list string) : host_prog (result string (Z * string * string)) :=
  if String.eqb command "" then Ret (Err (invalid "command is required"))
  else
    let! (res, _) := call (ShellRun command args) in
    Ret (match res with
         | None => Err internalError
         | Some r => Ok (wrap32 (cr_exit r), cr_stdout r, cr_stderr r)
         end).

(** source: internal/agent/server/server.go:207-221 (streamPackage): the lines that are sent,
    and the error that ends the stream *)
Definition streamPackage (operation : host_call (result host_error (list string))) : host_prog (list string * option string) :=
  if negb pkgs then Ret ([], Some "rpc error: code = FailedPrecondition desc = no supported package manager is available")
  else
    let! output := call operation in
    Ret (match output with Err _ => ([], Some internalError) | Ok lines => (lines, None) end).

(** source: internal/agent/server/server.go:192-200 (PackageInstall, PackageRemove,
    PackageUpdate): the method of a nil manager is taken before streamPackage can look at it,
    a panic that the interceptor turns into an error *)
Definition server_package (operation : host_call (result host_error (list string))) : host_prog (list string * option string) :=
  if negb pkgs then Ret ([], Some "rpc error: code = Internal desc = internal agent error") else streamPackage operation.

(** source: internal/agent/server/server.go:223-232 (PackageStatus) *)
Definition server_PackageStatus (pkg : string) : host_prog (result string (bool * string)) :=
  if negb pkgs then Ret (Err "rpc error: code = FailedPrecondition desc = no supported package manager is available")
  else guarded_call (PkgInstalled pkg).

(** source: internal/agent/server/server.go:308-324 (ArchiveCreate, the format) *)
Definition archive_format (dest : string) : option string :=
  if has_suffix dest ".zip" then Some "zip"
  else if has_suffix dest ".tar.gz" || has_suffix dest ".tgz" then Some "tar.gz"
  else if has_suffix dest ".tar.xz" || has_suffix dest ".txz" then Some "tar.xz"
  else if has_suffix dest ".tar.bz2" || has_suffix dest ".tbz2" then Some "tar.bz2"
  else if has_suffix dest ".tar" then Some "tar"
  else if has_suffix dest ".7z" then Some "7z"
  else None.

(** source: internal/agent/server/server.go:300-307 (ArchiveCreate, the sources) *)
Fixpoint resolve_all (paths : list string) : host_prog (result string (list string)) :=
  match paths with
  | [] => Ret (Ok [])
  | p :: paths' =>
      wrap! (fun _ => invalid "invalid archive source") of resolved := call (FsResolve p) in
      try! rest := resolve_all paths' in
      Ret (Ok (resolved :: rest))
  end.

(** source: internal/agent/server/server.go:295-331 (ArchiveCreate) *)
Definition server_ArchiveCreate (paths : list string) (dst : string) : host_prog (result string ()) :=
  wrap! (fun _ => invalid "invalid archive destination") of dest := call (FsResolve dst) in
  try! resolved := resolve_all paths in
  match archive_format dest with
  | None => Ret (Err (invalid "unsupported archive format"))
  | Some format => guarded_call (ArchiveCreate_ format dest resolved)
  end.

(** source: internal/agent/server/server.go:332-346 (ArchiveExtract) *)
Definition server_ArchiveExtract (src dst : string) : host_prog (result string ()) :=
  wrap! (fun _ => invalid "invalid archive source") of source := call (FsResolve src) in
  wrap! (fun _ => invalid "invalid archive destination") of destination := call (FsResolve dst) in
  guarded_call (ArchiveExtract_ source destination).

(** source: internal/agent/server/server.go:441-449 (ProcessKill) *)
Definition server_ProcessKill (pid : Z) (force : bool) : host_prog (result string ()) :=
  let! r := call (StatsKill pid force) in
  Ret (map_err (fun e => if he_protected e
    then "rpc error: code = FailedPrecondition desc = process is protected; use service management for system services"
    else internalError) r).

(** source: internal/agent/server/server.go:234-240 (FileRead) *)
Definition server_FileRead (path : string) : host_prog (result string string) := guarded_call (FsRead path).

(** source: internal/agent/server/server.go:241-246 (FileWrite) *)
Definition server_FileWrite (path content : string) (mode : Z) : host_prog (result string ()) := guarded_call (FsWrite path content mode).

(** source: internal/agent/server/server.go:247-252 (FileDelete) *)
Definition server_FileDelete (path : string) : host_prog (result string ()) := guarded_call (FsDelete path).

(** source: internal/agent/server/server.go:253-258 (DirCreate) *)
Definition server_DirCreate (path : string) (mode : Z) : host_prog (result string ()) := guarded_call (FsMkdirAll path mode).

(** source: internal/agent/server/server.go:271-276 (FileRename) *)
Definition server_FileRename (old new : string) : host_prog (result string ()) := guarded_call (FsRename old new).

(** source: internal/agent/server/server.go:277-282 (FileCopy) *)
Definition server_FileCopy (src dst : string) : host_prog (result string ()) := guarded_call (FsCopy src dst).

(** source: internal/agent/server/server.go:283-288 (FileChmod) *)
Definition server_FileChmod (path : string) (mode : Z) : host_prog (result string ()) := guarded_call (FsChmod path mode).

(** source: internal/agent/server/server.go:289-294 (FileChown) *)
Definition server_FileChown (path : string) (uid gid : Z) : host_prog (result string ()) := guarded_call (FsChown path uid gid).

(** ** The client of the Core *)

(** source: internal/agentclient/client.go:466-471 (checkedInt32) *)
Definition checkedInt32 (value : Z) (field : string) : result string Z :=
  if ((value <? - 2 ^ 31) || (2 ^ 31 - 1 <? value))%Z then Err (field ++ " value " ++ itoa value ++ " is outside the int32 range")
  else Ok value.

(** source: internal/agentclient/client.go:85-105 (ServiceLogs) *)
Definition client_ServiceLogs (name : string) (lines : Z) : host_prog (result string (list string)) :=
  match checkedInt32 lines "lines" with Err e => Ret (Err e) | Ok lineCount => server_ServiceLogs name lineCount end.

(** source: internal/agentclient/client.go:107-127 (FileLogs) *)
Definition client_FileLogs (path : string) (lines : Z) : host_prog (result string (list string)) :=
  match checkedInt32 lines "lines" with Err e => Ret (Err e) | Ok lineCount => server_FileLogs path lineCount end.

(** source: internal/agentclient/client.go:201-217 (packageOutput): the channel ends at the first
    error, which nobody sees *)
Definition packageOutput (stream : host_prog (list string * option string)) : host_prog (result string (list string)) :=
  let! (lines, _) := stream in Ret (Ok lines).

(** source: internal/agentclient/client.go:273-284 (FileChown) *)
Definition client_FileChown (path : string) (uid gid : Z) : host_prog (result string ()) :=
  match checkedInt32 uid "uid", checkedInt32 gid "gid" with
  | Ok uid32, Ok gid32 => server_FileChown path uid32 gid32
  | Err e, _ => Ret (Err e)
  | _, Err e => Ret (Err e)
  end.

(** source: internal/agentclient/client.go:457-464 (ProcessKill) *)
Definition client_ProcessKill (pid : Z) (force : bool) : host_prog (result string ()) :=
  match checkedInt32 pid "pid" with Err e => Ret (Err e) | Ok pid32 => server_ProcessKill pid32 force end.

(** source: internal/agentclient/client.go:53-75 (ServiceStart to ServiceReload, serviceAction) *)
Definition client_serviceAction (name : string) (v : verb) : host_prog (result string ()) := server_ServiceAction name v.

(** source: internal/agentclient/client.go:77-83 (ServiceStatus) *)
Definition client_ServiceStatus (name : string) : host_prog (result string ServiceStatus) := server_ServiceStatus name.

(** source: internal/agentclient/client.go:173-182 (CommandExecute) *)
Definition client_CommandExecute (command : string) (args : list string) : host_prog (result string (Z * string * string)) :=
  server_CommandExecute command args.

(** source: internal/agentclient/client.go:184-195 (PackageInstall, PackageRemove, PackageUpdate) *)
Definition client_package (operation : host_call (result host_error (list string))) : host_prog (result string (list string)) :=
  packageOutput (server_package operation).

(** source: internal/agentclient/client.go:296-311 (FirewallStatus) *)
Definition client_FirewallStatus : host_prog (result string FirewallStatus) :=
  try! s := guarded_call FwStatus in Ret (Ok (of_status s)).

(** source: internal/agentclient/client.go:313-349 (FirewallRule) *)
Definition client_FirewallRule (req : contract_rule) : host_prog (result string ()) := guarded_call (FwAddRule (to_message req)).

(** source: internal/agentclient/client.go:356-397 (FirewallList) *)
Definition client_FirewallList : host_prog (result string (list contract_rule)) :=
  try! l := guarded_call FwList in Ret (Ok (of_message <$> l)).

Definition plainly {A : Set} (p : host_prog (result string A)) : host_prog (result error A) :=
  let! r := p in Ret (map_err Plain r).

(** source: internal/agentclient/client.go:219-294 (PackageInstalled, the files and archives);
    the methods above and those of the firewall are named with them.  The typed operations on
    sites have no method in the client: the router of the Core finds that the local Agent does
    not support them *)
Definition local (X : Set) (op : agent_op X) : host_prog X :=
  match op in agent_op X return host_prog X with
  | ServiceAct v name => plainly (client_serviceAction name v)
  | ServiceStatus_ name => plainly (client_ServiceStatus name)
  | ServiceLogs_ name lines => plainly (client_ServiceLogs name lines)
  | FileLogs_ path lines => plainly (client_FileLogs path lines)
  | CommandExecute_ command args => plainly (client_CommandExecute command args)
  | PackageInstall_ pkg => plainly (client_package (PkgInstall pkg))
  | PackageRemove_ pkg => plainly (client_package (PkgRemove pkg))
  | PackageUpdate_ pkg => plainly (client_package (PkgUpdate pkg))
  | PackageInstalled_ pkg => plainly (server_PackageStatus pkg)
  | FileRead_ path => plainly (server_FileRead path)
  | FileWrite_ path content mode => plainly (server_FileWrite path content mode)
  | FileDelete_ path => plainly (server_FileDelete path)
  | FileRename_ old new => plainly (server_FileRename old new)
  | FileCopy_ src dst => plainly (server_FileCopy src dst)
  | FileChmod_ path mode => plainly (server_FileChmod path mode)
  | FileChown_ path uid gid => plainly (client_FileChown path uid gid)
  | DirCreate_ path mode => plainly (server_DirCreate path mode)
  | ArchiveCreateOp paths dst => plainly (server_ArchiveCreate paths dst)
  | ArchiveExtractOp src dst => plainly (server_ArchiveExtract src dst)
  | FirewallStatusOp => plainly client_FirewallStatus
  | FirewallRuleOp req => plainly (client_FirewallRule req)
  | FirewallDeleteOp id => plainly (guarded_call (FwDeleteRule id))
  | FirewallListOp => plainly client_FirewallList
  | FirewallToggleOp enable => plainly (guarded_call (FwToggle enable))
  | FirewallResetOp => plainly (guarded_call FwReset)
  | ProcessKill_ pid force => plainly (client_ProcessKill pid force)
  | NginxSiteApply_ _ _ _ => Ret (Err (App (New 501 CodeCapabilityUnavailable "the local Agent does not support typed Nginx site operations")))
  | SiteRootPrepare_ _ => Ret (Err (Plain "local Agent does not support typed site root preparation"))
  | UnixSocketExists_ _ => Ret (Err (Plain "local Agent does not support typed socket inspection"))
  | SiteHTTPProbe_ _ => Ret (Err (Plain "local Agent does not support typed site health probes"))
  | CertificateObtain_ _ _ _ => Ret (Err (Plain "local Agent does not support typed certificate issuance"))
  end.
End server.
