(* ===== verification/AgentWire.v ===== *)
(** * The Agent behind the control plane

    A remote Agent is asked through a stream it opened itself: the router of the Core
    (internal/core/capability) turns an operation into the kind of a command and a JSON payload,
    and the Agent (internal/agent/app, executeStreamCommand) decodes the payload and calls the
    manager.  Here are both ends and the capability each kind of command needs
    (pkg/controlcapabilities).  The stream between them is in ControlPlane. *)

From S2P Require Import Prelude GoStrings GoStrconv GoRegexp GoTime GoJson GoStruct GoBase64 Effects AppErrors Filesystem Cron Ufw AgentApi.
Local Open Scope string_scope.
Local Open Scope go_scope.

(** ** Capabilities *)

(** source: pkg/controlcapabilities/registry.go:9-25 (names, Names) *)
Definition Names : list string :=
  ["dashboard"; "processes"; "services"; "files"; "firewall"; "cron"; "packages"; "nginx_sites"; "site_runtime"; "certificates"].

(** source: pkg/controlcapabilities/registry.go:27-56 (RequiredForCommand) *)
Definition RequiredForCommand (kind : string) : option string :=
  if String.eqb kind "system.stats" then Some "dashboard"
  else if has_prefix kind "process." then Some "processes"
  else if has_prefix kind "service." then Some "services"
  else if has_prefix kind "file." || has_prefix kind "directory." || has_prefix kind "archive." then Some "files"
  else if has_prefix kind "firewall." then Some "firewall"
  else if has_prefix kind "cron." then Some "cron"
  else if has_prefix kind "package." then Some "packages"
  else if has_prefix kind "nginx.site." then Some "nginx_sites"
  else if has_prefix kind "site." then Some "site_runtime"
  else if has_prefix kind "certificate." then Some "certificates"
  else None.

(** ** The request the Agent decodes *)

Inductive sfield :=
| FName | FAction | FPath | FOldPath | FNewPath | FSrcPath | FDstPath | FDstDir | FID | FPackage | FCommand | FTrigger | FActor
| FDomain | FWebroot | FEmail.
Inductive nfield := FPID | FLines | FLimit | FUID | FGID | FMode.
Inductive bfield := FForce | FEnable.
#[export] Instance sfield_eq_dec : EqDecision sfield.
Proof. solve_decision. Defined.
#[export] Instance nfield_eq_dec : EqDecision nfield.
Proof. solve_decision. Defined.
#[export] Instance bfield_eq_dec : EqDecision bfield.
Proof. solve_decision. Defined.

(** source: internal/agent/app/app.go:188-216 (executeStreamCommand, the request): the fields of
    one type together *)
Record request := mkRequest {
  r_str : sfield -> string; r_num : nfield -> Z; r_flag : bfield -> bool;
  r_content : string; r_paths : list string; r_args : list string }.

Definition zero_request : request := mkRequest (fun _ => "") (fun _ => 0%Z) (fun _ => false) "" [] [].

(** One field of a struct set. *)
Definition upd {F A : Type} `{EqDecision F} (f : F) (a : A) (g : F -> A) : F -> A := fun x => if decide (x = f) then a else g x.

Definition put_str (f : sfield) (s : string) (r : request) : request :=
  mkRequest (upd f s (r_str r)) (r_num r) (r_flag r) (r_content r) (r_paths r) (r_args r).
Definition put_num (f : nfield) (z : Z) (r : request) : request :=
  mkRequest (r_str r) (upd f z (r_num r)) (r_flag r) (r_content r) (r_paths r) (r_args r).
Definition put_flag (f : bfield) (b : bool) (r : request) : request :=
  mkRequest (r_str r) (r_num r) (upd f b (r_flag r)) (r_content r) (r_paths r) (r_args r).
Definition put_content (s : string) (r : request) : request :=
  mkRequest (r_str r) (r_num r) (r_flag r) s (r_paths r) (r_args r).
Definition put_paths (l : list string) (r : request) : request :=
  mkRequest (r_str r) (r_num r) (r_flag r) (r_content r) l (r_args r).
Definition put_args (l : list string) (r : request) : request :=
  mkRequest (r_str r) (r_num r) (r_flag r) (r_content r) (r_paths r) l.

Definition int64_min : Z := - 2 ^ 63.

(** source: internal/agent/app/app.go:188-216 (executeStreamCommand, the tags of the request) *)
Definition request_fields : fields_of request := [
  ("name", set_string (put_str FName)); ("action", set_string (put_str FAction)); ("path", set_string (put_str FPath));
  ("old_path", set_string (put_str FOldPath)); ("new_path", set_string (put_str FNewPath));
  ("src_path", set_string (put_str FSrcPath)); ("dst_path", set_string (put_str FDstPath)); ("dst_dir", set_string (put_str FDstDir));
  ("id", set_string (put_str FID)); ("package", set_string (put_str FPackage)); ("command", set_string (put_str FCommand));
  ("trigger", set_string (put_str FTrigger)); ("actor", set_string (put_str FActor));
  ("pid", set_int (- 2 ^ 31) (2 ^ 31 - 1) (put_num FPID)); ("force", set_bool (put_flag FForce)); ("enable", set_bool (put_flag FEnable));
  ("lines", set_int int64_min int_max (put_num FLines)); ("limit", set_int int64_min int_max (put_num FLimit));
  ("uid", set_int int64_min int_max (put_num FUID)); ("gid", set_int int64_min int_max (put_num FGID));
  ("mode", set_int 0 (2 ^ 32 - 1) (put_num FMode)); ("content", set_bytes put_content);
  ("paths", set_strings r_paths put_paths); ("args", set_strings r_args put_args);
  ("domain", set_string (put_str FDomain)); ("webroot", set_string (put_str FWebroot)); ("email", set_string (put_str FEmail)) ].

(** ** Cron jobs in JSON *)

Inductive jfield :=
| JID | JName | JDescription | JCommand | JWorkingDir | JUser | JExpression | JTimezone | JSource | JType | JPackageName | JLockReason.
Inductive jflag := JEnabled | JReadOnly | JIsProtected | JCanEdit | JCanDelete.
#[export] Instance jfield_eq_dec : EqDecision jfield.
Proof. solve_decision. Defined.
#[export] Instance jflag_eq_dec : EqDecision jflag.
Proof. solve_decision. Defined.

Record wire_job := mkWireJob {
  j_str : jfield -> string; j_flag : jflag -> bool; j_env : gmap string string; j_created : time; j_updated : time }.

Definition zero_job : wire_job := mkWireJob (fun _ => "") (fun _ => false) ∅ zero_time zero_time.

Definition put_jstr (f : jfield) (s : string) (j : wire_job) : wire_job :=
  mkWireJob (upd f s (j_str j)) (j_flag j) (j_env j) (j_created j) (j_updated j).
Definition put_jflag (f : jflag) (b : bool) (j : wire_job) : wire_job :=
  mkWireJob (j_str j) (upd f b (j_flag j)) (j_env j) (j_created j) (j_updated j).
Definition put_jenv (m : gmap string string) (j : wire_job) : wire_job :=
  mkWireJob (j_str j) (j_flag j) m (j_created j) (j_updated j).
Definition put_jcreated (t : time) (j : wire_job) : wire_job := mkWireJob (j_str j) (j_flag j) (j_env j) t (j_updated j).
Definition put_jupdated (t : time) (j : wire_job) : wire_job := mkWireJob (j_str j) (j_flag j) (j_env j) (j_created j) t.

(** A map of strings: members are added to the map that is there, a null makes it nil. *)
Fixpoint decode_map (l : list (string * json)) (m : gmap string string) : option (gmap string string) :=
  match l with
  | [] => Some m
  | (k, v) :: l' => key ← unquote k; s ← string_value v ""; decode_map l' (<[key := s]> m)
  end.
Definition set_map {R} (get : R -> gmap string string) (put : gmap string string -> R -> R) (v : json) (r : R) : option R :=
  match v with
  | JNull => Some (put ∅ r)
  | JObj l => m ← decode_map l (get r); Some (put m r)
  | _ => None
  end.

(** source: internal/agent/cron/types.go:15-36 (Job, its tags) *)
Definition job_fields : fields_of wire_job := [
  ("id", set_string (put_jstr JID)); ("name", set_string (put_jstr JName)); ("description", set_string (put_jstr JDescription));
  ("command", set_string (put_jstr JCommand)); ("working_dir", set_string (put_jstr JWorkingDir)); ("user", set_string (put_jstr JUser));
  ("environment", set_map j_env put_jenv); ("expression", set_string (put_jstr JExpression));
  ("timezone", set_string (put_jstr JTimezone)); ("enabled", set_bool (put_jflag JEnabled));
  ("created_at", set_time put_jcreated); ("updated_at", set_time put_jupdated); ("source", set_string (put_jstr JSource));
  ("read_only", set_bool (put_jflag JReadOnly)); ("type", set_string (put_jstr JType));
  ("package_name", set_string (put_jstr JPackageName)); ("is_protected", set_bool (put_jflag JIsProtected));
  ("can_edit", set_bool (put_jflag JCanEdit)); ("can_delete", set_bool (put_jflag JCanDelete));
  ("lock_reason", set_string (put_jstr JLockReason)) ].

Definition env_member (k : string) (m : gmap string string) : list (string * json) :=
  if bool_decide (m = ∅) then []
  else [(k, JObj ((fun key => (escape key, string_json (default "" (m !! key)))) <$> sortedKeys m))].

(** source: pkg/contract/module.go:462-483 (CronJob, its tags), which are those of the Agent *)
Definition job_members (j : wire_job) : list (string * json) :=
  (str_member "id" (j_str j JID) ++ str_member "name" (j_str j JName) ++ omit_string "description" (j_str j JDescription)
   ++ str_member "command" (j_str j JCommand) ++ omit_string "working_dir" (j_str j JWorkingDir) ++ str_member "user" (j_str j JUser)
   ++ env_member "environment" (j_env j) ++ str_member "expression" (j_str j JExpression)
   ++ omit_string "timezone" (j_str j JTimezone) ++ bool_member "enabled" (j_flag j JEnabled)
   ++ time_member "created_at" (j_created j) ++ time_member "updated_at" (j_updated j) ++ omit_string "source" (j_str j JSource)
   ++ omit_false "read_only" (j_flag j JReadOnly) ++ omit_string "type" (j_str j JType)
   ++ omit_string "package_name" (j_str j JPackageName) ++ omit_false "is_protected" (j_flag j JIsProtected)
   ++ omit_false "can_edit" (j_flag j JCanEdit) ++ omit_false "can_delete" (j_flag j JCanDelete)
   ++ omit_string "lock_reason" (j_str j JLockReason))%list.

(** ** The router of commands *)

Section agent.
Context `{HUnicode : Unicode}.

(** Instants as package time shows them: in UTC, as JSON has them, and in the zone of the host. *)
Variable wall : Z -> time.
Variable instant : time -> Z.
Variable local_time : Z -> time.
(** The text of an error of the decoder. *)
Variable json_error : string.
(** Whether a package manager was found when the Agent started. *)
Variable pkgs : bool.

Definition job_of (w : wire_job) : Job := {|
  ID := j_str w JID; Name := j_str w JName; Description := j_str w JDescription; Command := j_str w JCommand;
  WorkingDir := j_str w JWorkingDir; User := j_str w JUser; Environment := j_env w; Expression := j_str w JExpression;
  Timezone := j_str w JTimezone; Enabled := j_flag w JEnabled; CreatedAt := instant (j_created w); UpdatedAt := instant (j_updated w);
  Cron.Source := j_str w JSource; ReadOnly := j_flag w JReadOnly; Type_ := j_str w JType; PackageName := j_str w JPackageName;
  IsProtected := j_flag w JIsProtected; CanEdit := j_flag w JCanEdit; CanDelete := j_flag w JCanDelete;
  LockReason := j_str w JLockReason |}.

Definition wire_of (j : Job) : wire_job :=
  mkWireJob
    (fun f => match f with
      | JID => ID j | JName => Name j | JDescription => Description j | JCommand => Command j | JWorkingDir => WorkingDir j
      | JUser => User j | JExpression => Expression j | JTimezone => Timezone j | JSource => Cron.Source j | JType => Type_ j
      | JPackageName => PackageName j | JLockReason => LockReason j end)
    (fun f => match f with
      | JEnabled => Enabled j | JReadOnly => ReadOnly j | JIsProtected => IsProtected j | JCanEdit => CanEdit j
      | JCanDelete => CanDelete j end)
    (Environment j) (wall (CreatedAt j)) (wall (UpdatedAt j)).

Definition job_json (j : Job) : json := JObj (job_members (wire_of j)).

(** source: internal/agent/cron/types.go:38-49 (Run, its tags) *)
Definition run_json (r : Run) : json :=
  JObj (str_member "id" (run_ID r) ++ str_member "job_id" (JobID r) ++ time_member "started_at" (wall (StartedAt r))
    ++ time_member "finished_at" (wall (FinishedAt r)) ++ int_member "duration" (Duration r) ++ int_member "exit_code" (ExitCode r)
    ++ omit_string "stdout" (Stdout r) ++ omit_string "stderr" (Stderr r) ++ str_member "triggered" (Triggered r)
    ++ omit_string "actor" (Actor r))%list.

(** source: internal/agent/cron/types.go:56-59 (Validation, its tags) *)
Definition validation_json (v : Validation) : json :=
  JObj (bool_member "valid" (Valid v) ++ match Warnings v with [] => [] | l => strings_member "warnings" l end)%list.

Definition slice_json {A} (f : A -> json) (l : list A) : json := match l with [] => JNull | _ => JArr (f <$> l) end.

(** source: internal/agent/systemd/manager.go:15-26 (ServiceStatus): it has no tags, so that the
    members have the names of the fields; the last two are never set *)
Definition status_members (s : service_status) : list (string * json) :=
  (str_member "Name" (ss_Name s) ++ bool_member "Active" (ss_Active s) ++ bool_member "Enabled" (ss_Enabled s)
    ++ str_member "SubState" (ss_SubState s) ++ str_member "Description" (ss_Description s)
    ++ [("Since", match ss_Since s with Some t => JStr (rfc3339 t) | None => JNull end)]
    ++ int_member "MainPID" (ss_MainPID s) ++ int_member "MemoryBytes" 0 ++ int_member "CPUUsage" 0)%list.
Definition status_json (s : service_status) : json := JObj (status_members s).

(** source: internal/agent/app/app.go:288-296 (executeStreamCommand, the entries of a directory) *)
Definition file_json (e : FileEntry) : json :=
  JObj (str_member "name" (fe_Name e) ++ str_member "path" (fe_Path e) ++ bool_member "is_dir" (fe_IsDir e)
    ++ int_member "size" (fe_Size e) ++ int_member "mode" (fe_Mode e) ++ time_member "mod_time" (local_time (fe_ModTime e))
    ++ str_member "owner" (fe_Owner e) ++ str_member "group" (fe_Group e))%list.

(** source: pkg/contract/module.go:553-562 (FirewallStatus, its tags) *)
Definition firewall_status_members (s : FirewallStatus) : list (string * json) :=
  (bool_member "active" (fs_Active s) ++ str_member "default_incoming" (fs_DefaultIncoming s)
   ++ str_member "default_outgoing" (fs_DefaultOutgoing s) ++ str_member "default_routed" (fs_DefaultRouted s)
   ++ bool_member "ipv6_enabled" (fs_IPv6Enabled s) ++ str_member "logging" (fs_Logging s) ++ int_member "rule_count" (fs_RuleCount s)
   ++ str_member "profile_name" (fs_ProfileName s))%list.

(** source: pkg/contract/module.go:578-588 (FirewallRule, its tags) *)
Definition firewall_rule_members (r : contract_rule) : list (string * json) :=
  (str_member "id" (c_ID r) ++ str_member "port" (c_Port r) ++ str_member "protocol" (c_Protocol r) ++ str_member "action" (c_Action r)
   ++ str_member "direction" (c_Direction r) ++ str_member "source" (c_Source r) ++ str_member "destination" (c_Destination r)
   ++ str_member "comment" (c_Comment r) ++ str_member "ip_version" (c_IPVersion r))%list.

(** source: internal/agent/app/app.go:456-483 (firewallContractRule) *)
Definition firewallContractRule (r : rule) : contract_rule :=
  mkContract (Id r) (Port r) (Protocol r)
    (if bool_decide (Action r = FIREWALL_ACTION_REJECT) then "reject" else if bool_decide (Action r = FIREWALL_ACTION_DENY) then "deny" else "allow")
    (if bool_decide (Direction r = FIREWALL_DIRECTION_ROUTED) then "routed"
     else if bool_decide (Direction r = FIREWALL_DIRECTION_OUT) then "out" else "in")
    (Source r) (Destination r) (Comment r)
    (if bool_decide (IpVersion r = FIREWALL_IP_VERSION_V6) then "ipv6"
     else if bool_decide (IpVersion r = FIREWALL_IP_VERSION_V4) then "ipv4" else "both").

(** source: internal/agent/app/app.go:342-345 (executeStreamCommand, the fields of a rule): names
    that differ in case only are the same *)
Definition stream_rule_fields : fields_of contract_rule := [
  ("ID", set_string (fun s '(mkContract _ p r a d o t c v) => mkContract s p r a d o t c v));
  ("Port", set_string (fun s '(mkContract i _ r a d o t c v) => mkContract i s r a d o t c v));
  ("Protocol", set_string (fun s '(mkContract i p _ a d o t c v) => mkContract i p s a d o t c v));
  ("Action", set_string (fun s '(mkContract i p r _ d o t c v) => mkContract i p r s d o t c v));
  ("Direction", set_string (fun s '(mkContract i p r a _ o t c v) => mkContract i p r a s o t c v));
  ("Source", set_string (fun s '(mkContract i p r a d _ t c v) => mkContract i p r a d s t c v));
  ("Destination", set_string (fun s '(mkContract i p r a d o _ c v) => mkContract i p r a d o s c v));
  ("Comment", set_string (fun s '(mkContract i p r a d o t _ v) => mkContract i p r a d o t s v));
  ("ip_version", set_string (fun s '(mkContract i p r a d o t c _) => mkContract i p r a d o t c s)) ].

(** source: internal/agent/app/app.go:346-371 (executeStreamCommand, the message of a rule) *)
Definition stream_rule (r : contract_rule) : rule :=
  mkRule (c_ID r) (c_Port r) (c_Protocol r)
    (if String.eqb (c_Action r) "reject" then FIREWALL_ACTION_REJECT
     else if String.eqb (c_Action r) "deny" then FIREWALL_ACTION_DENY else FIREWALL_ACTION_ALLOW)
    (if String.eqb (c_Direction r) "routed" then FIREWALL_DIRECTION_ROUTED
     else if String.eqb (c_Direction r) "out" then FIREWALL_DIRECTION_OUT else FIREWALL_DIRECTION_IN)
    (c_Source r) (c_Destination r) (c_Comment r)
    (if String.eqb (c_IPVersion r) "ipv6" then FIREWALL_IP_VERSION_V6
     else if String.eqb (c_IPVersion r) "ipv4" then FIREWALL_IP_VERSION_V4 else FIREWALL_IP_VERSION_BOTH).

(** source: internal/agent/app/app.go:447-454 (archiveFormat) *)
Definition archiveFormat (path : string) : string :=
  match List.find (fun suffix => has_suffix (to_lower path) suffix) [".tar.gz"; ".tar.xz"; ".tar.bz2"; ".zip"; ".tar"; ".7z"] with
  | Some suffix => trim_prefix suffix "."
  | None => "tar.gz"
  end.

(** A call of a manager and the value json.Marshal is given of its answer. *)
Definition answer {A : Set} (enc : A -> json) (c : host_call (result host_error A)) : host_prog (result string json) :=
  let! r := call c in Ret (match r with Ok a => Ok (enc a) | Err e => Err (he_text e) end).
Definition nothing (_ : ()) : json := JNull.
Definition success (_ : ()) : json := JObj (bool_member "success" true).

Definition handlers : Type := list (string * (request -> string -> host_prog (result string json))).

Definition verb_text (v : verb) : string :=
  match v with VStart => "start" | VStop => "stop" | VRestart => "restart" | VEnable => "enable" | VDisable => "disable" | VReload => "reload" end.
Definition verb_of (s : string) : option verb :=
  List.find (fun v => String.eqb s (verb_text v)) [VStart; VStop; VRestart; VEnable; VDisable; VReload].

(** source: internal/agent/app/app.go:225-253 (executeStreamCommand, statistics, processes and
    services) *)
Definition service_handlers : handlers := [
  ("system.stats", fun _ _ => answer id StatsCollect);
  ("process.list", fun _ _ => answer id StatsProcesses);
  ("process.kill", fun r _ => answer success (StatsKill (r_num r FPID) (r_flag r FForce)));
  ("service.status", fun r _ => answer status_json (SystemdStatus (r_str r FName)));
  ("service.action", fun r _ =>
     match verb_of (r_str r FAction) with
     | Some v => answer success (SystemdVerb v (r_str r FName))
     | None => Ret (Err ("unsupported service action " ++ quote (r_str r FAction)))
     end);
  ("service.logs", fun r _ => answer strings_json (SystemdLogs (r_str r FName) (r_num r FLines))) ].

(** source: internal/agent/app/app.go:254-268 (executeStreamCommand, sites) *)
Definition site_handlers : handlers := [
  ("nginx.site.apply", fun r _ => answer success (NginxApply (r_str r FAction) (r_str r FName) (r_content r)));
  ("site.root.prepare", fun r _ => answer nothing (SitePrepareRoot (r_str r FPath)));
  ("site.socket.exists", fun r _ => answer (fun b => JObj (bool_member "exists" b)) (SiteSocketExists (r_str r FPath)));
  ("site.http.probe", fun r _ => answer (fun z => JObj (int_member "status_code" z)) (SiteProbe (r_str r FDomain)));
  ("certificate.obtain", fun r _ => answer nothing (SiteCertificate (r_str r FDomain) (r_str r FWebroot) (r_str r FEmail))) ].

(** source: internal/agent/app/app.go:299-308 (executeStreamCommand, file.logs) *)
Definition last_lines (n : Z) (content : string) : list string :=
  let lines := split line_feed content in
  if ((0 <? n) && (n <? Z.of_nat (length lines)))%Z then drop (length lines - Z.to_nat n) lines else lines.

(** source: internal/agent/app/app.go:269-312 (executeStreamCommand, files and archives) *)
Definition file_handlers : handlers :=
  let list_files := fun (r : request) (_ : string) => answer (fun l : list FileEntry => JArr (file_json <$> l)) (FsList (r_str r FPath)) in [
  ("file.read", fun r _ => answer bytes_json (FsRead (r_str r FPath)));
  ("file.write", fun r _ => answer nothing (FsWrite (r_str r FPath) (r_content r) (r_num r FMode)));
  ("file.delete", fun r _ => answer nothing (FsDelete (r_str r FPath)));
  ("file.rename", fun r _ => answer nothing (FsRename (r_str r FOldPath) (r_str r FNewPath)));
  ("file.copy", fun r _ => answer nothing (FsCopy (r_str r FSrcPath) (r_str r FDstPath)));
  ("file.chmod", fun r _ => answer nothing (FsChmod (r_str r FPath) (r_num r FMode)));
  ("file.chown", fun r _ => answer nothing (FsChown (r_str r FPath) (r_num r FUID) (r_num r FGID)));
  ("directory.create", fun r _ => answer nothing (FsMkdirAll (r_str r FPath) (r_num r FMode)));
  ("file.list", list_files); ("directory.list", list_files);
  ("file.logs", fun r _ => answer (fun content => strings_json (last_lines (r_num r FLines) content)) (FsRead (r_str r FPath)));
  ("archive.create", fun r _ => answer nothing (ArchiveCreate_ (archiveFormat (r_str r FDstPath)) (r_str r FDstPath) (r_paths r)));
  ("archive.extract", fun r _ => answer nothing (ArchiveExtract_ (r_str r FSrcPath) (r_str r FDstDir))) ].

(** source: internal/agent/app/app.go:313-372 (executeStreamCommand, the firewall) *)
Definition firewall_handlers : handlers := [
  ("firewall.status", fun _ _ => answer (fun s => JObj (firewall_status_members (of_status s))) FwStatus);
  ("firewall.list", fun _ _ => answer (fun l : list rule => JArr ((fun x => JObj (firewall_rule_members (firewallContractRule x))) <$> l)) FwList);
  ("firewall.delete", fun r _ => answer nothing (FwDeleteRule (r_str r FID)));
  ("firewall.toggle", fun r _ => answer nothing (FwToggle (r_flag r FEnable)));
  ("firewall.reset", fun _ _ => answer nothing FwReset);
  ("firewall.rule", fun _ payload =>
     match unmarshal stream_rule_fields (mkContract "" "" "" "" "" "" "" "" "") payload with
     | Some rule => answer nothing (FwAddRule (stream_rule rule))
     | None => Ret (Err json_error)
     end) ].

(** A command whose payload is a cron job. *)
Definition with_job (payload : string) (k : Job -> host_prog (result string json)) : host_prog (result string json) :=
  match unmarshal job_fields zero_job payload with
  | Some job => k (job_of job)
  | None => Ret (Err json_error)
  end.

(** source: internal/agent/app/app.go:373-400 (executeStreamCommand, cron) *)
Definition cron_handlers : handlers := [
  ("cron.list", fun _ _ => answer (slice_json job_json) CronList_);
  ("cron.get", fun r _ => answer job_json (CronGet_ (r_str r FID)));
  ("cron.create", fun _ payload => with_job payload (fun job => answer job_json (CronCreate_ job)));
  ("cron.update", fun _ payload => with_job payload (fun job => answer job_json (CronUpdate_ job)));
  ("cron.validate", fun _ payload => with_job payload (fun job => answer validation_json (CronValidate_ job)));
  ("cron.delete", fun r _ => answer nothing (CronDelete_ (r_str r FID)));
  ("cron.enable", fun r _ => answer job_json (CronSetEnabled (r_str r FID) true));
  ("cron.disable", fun r _ => answer job_json (CronSetEnabled (r_str r FID) false));
  ("cron.run", fun r _ =>
     let! (run, err) := call (CronRun_ (r_str r FID) (r_str r FTrigger) (r_str r FActor)) in
     Ret (match err with Some e => Err (he_text e) | None => Ok (run_json run) end));
  ("cron.history", fun r _ => answer (fun l : list Run => JArr (run_json <$> l)) (CronHistory_ (r_str r FID) (r_num r FLimit))) ].

Definition package_call (operation : host_call (result host_error (list string))) : host_prog (result string json) :=
  if negb pkgs then Ret (Err "package manager unavailable") else answer strings_json operation.

(** source: internal/agent/app/app.go:401-437 (executeStreamCommand, commands and packages) *)
Definition command_handlers : handlers := [
  ("command.execute", fun r _ =>
     let! (res, err) := call (ShellRun (r_str r FCommand) (r_args r)) in
     Ret (match err with
          | Some e => Err (he_text e)
          | None => Ok (match res with
              | Some c => JObj (int_member "exit_code" (cr_exit c) ++ str_member "stderr" (cr_stderr c) ++ str_member "stdout" (cr_stdout c))%list
              | None => JNull
              end)
          end));
  ("package.status", fun r _ =>
     if negb pkgs then Ret (Err "package manager unavailable")
     else answer (fun p : bool * string => JObj (bool_member "installed" (fst p) ++ str_member "version" (snd p))%list) (PkgInstalled (r_str r FPackage)));
  ("package.install", fun r _ => package_call (PkgInstall (r_str r FPackage)));
  ("package.remove", fun r _ => package_call (PkgRemove (r_str r FPackage)));
  ("package.update", fun r _ => package_call (PkgUpdate (r_str r FPackage)));
  ("ping", fun _ _ => Ret (Ok (JObj (str_member "version" "v1")))) ].

Definition find_handler (kind : string) : option (request -> string -> host_prog (result string json)) :=
  snd <$> List.find (fun h => String.eqb kind (fst h))
    (service_handlers ++ site_handlers ++ file_handlers ++ firewall_handlers ++ cron_handlers ++ command_handlers).

(** source: internal/agent/app/app.go:217-224 (executeStreamCommand, the payload) and 438-445 (the
    answer) *)
Definition executeStreamCommand (kind payload : string) : host_prog (result string string) :=
  match (if String.eqb payload "" then Some zero_request else unmarshal request_fields zero_request payload) with
  | None => Ret (Err ("decode " ++ kind ++ " command: " ++ json_error))
  | Some r =>
      match find_handler kind with
      | None => Ret (Err ("unsupported control-plane command " ++ quote kind))
      | Some handler => try! result := handler r payload in Ret (Ok (print_json result))
      end
  end.
End agent.

(** ** The router of the Core *)

(** Why a command was not carried out; [Remote] is the error of the Agent itself. *)
Inductive dispatch_error :=
| ErrAgentOffline | ErrConnectionClosed | ErrCapabilityAbsent (detail : string) | ContextDeadline | ContextCanceled | Remote (text : string).

(** source: internal/core/controlplane/manager.go:16-20 (the errors) and 267-276 (their wrapping) *)
Definition dispatch_text (e : dispatch_error) : string :=
  match e with
  | ErrAgentOffline => "agent is offline"
  | ErrConnectionClosed => "agent connection closed"
  | ErrCapabilityAbsent detail => "agent capability is unavailable: " ++ detail
  | ContextDeadline => "context deadline exceeded"
  | ContextCanceled => "context canceled"
  | Remote text => text
  end.

Definition explained (e : AppError) (details recommendation : string) (context : gmap string string) : error :=
  App (mkAppError (HTTPStatus e) (Code e) (Message e) (Cause e) details recommendation context).

Section router.
Context `{HUnicode : Unicode}.

(** source: internal/core/capability/client.go:27-65 (remoteError) *)
Definition remoteError (err : dispatch_error) (serverID capability : string) : error :=
  let context := list_to_map [("server_id", serverID); ("capability", capability); ("transport", "control_plane")] in
  let cause := Plain (dispatch_text err) in
  match err with
  | ErrAgentOffline | ErrConnectionClosed =>
      explained (AgentUnavailable cause) ("Agent " ++ serverID ++ " has no active Control Plane session for " ++ capability ++ ".")
        "Check the Agent service logs, TCP port 5889, and server diagnostics, then retry." context
  | ErrCapabilityAbsent _ =>
      explained (Wrap 501 CodeCapabilityUnavailable ("the selected Agent does not advertise capability " ++ quote capability) cause)
        ("Agent " ++ serverID ++ " is connected, but its handshake did not advertise " ++ capability ++ ".")
        "Upgrade Agent and Core to the same release, restart the Agent, and inspect the server capability diagnostics." context
  | ContextDeadline =>
      explained (Wrap 504 CodeAgentTimeout ("the selected Agent did not respond to " ++ quote capability ++ " before the deadline") cause)
        ("Command " ++ capability ++ " timed out while dispatching to Agent " ++ serverID ++ ".")
        "Check Agent load and logs, verify the Control Plane session is stable, and retry once." context
  | ContextCanceled | Remote _ => cause
  end.

(** source: internal/core/controlplane/manager.go:267-276 (requireCommandCapability) *)
Definition requireCommandCapability (capabilities : list string) (kind : string) : result dispatch_error () :=
  match RequiredForCommand kind with
  | None => Err (ErrCapabilityAbsent ("command " ++ quote kind ++ " is not registered"))
  | Some required => fail_if (negb (existsb (String.eqb required) capabilities)) (ErrCapabilityAbsent required)
  end.

(** The way of a command to an Agent, as the router sees it. *)
Context {E : Set -> Set}.
Variable dispatch : string -> string -> prog E (result dispatch_error string).
Variable serverID : string.
Variable json_error : string.

(** source: internal/core/capability/client.go:67-84 (call): [decode] is [None] when there is no
    response to fill, and starts from the zero value *)
Definition call_ {A : Set} (kind : string) (request : list (string * json)) (zero : A) (decode : option (string -> option A)) :
    prog E (result error A) :=
  wrap! (fun err => remoteError err serverID kind) of result := dispatch kind (print_json (JObj request)) in
  Ret (match decode with
       | None => Ok zero
       | Some dec => if String.eqb result "" then Ok zero else match dec result with Some a => Ok a | None => Err (Plain json_error) end
       end).

Definition act (kind : string) (request : list (string * json)) : prog E (result error ()) := call_ kind request () None.

(** source: pkg/contract/module.go:532-538 (ServiceStatus, its tags) *)
Definition service_status_fields : fields_of ServiceStatus := [
  ("name", set_string (fun s r => {| cs_Name := s; cs_Active := cs_Active r; cs_Enabled := cs_Enabled r; cs_Description := cs_Description r; cs_SubState := cs_SubState r |}));
  ("active", set_bool (fun b r => {| cs_Name := cs_Name r; cs_Active := b; cs_Enabled := cs_Enabled r; cs_Description := cs_Description r; cs_SubState := cs_SubState r |}));
  ("enabled", set_bool (fun b r => {| cs_Name := cs_Name r; cs_Active := cs_Active r; cs_Enabled := b; cs_Description := cs_Description r; cs_SubState := cs_SubState r |}));
  ("description", set_string (fun s r => {| cs_Name := cs_Name r; cs_Active := cs_Active r; cs_Enabled := cs_Enabled r; cs_Description := s; cs_SubState := cs_SubState r |}));
  ("sub_state", set_string (fun s r => {| cs_Name := cs_Name r; cs_Active := cs_Active r; cs_Enabled := cs_Enabled r; cs_Description := cs_Description r; cs_SubState := s |})) ].

Definition decode_strings (s : string) : option (list string) :=
  v ← parse_json s; set_strings (fun l => l) (fun l _ => l) v [].
Definition decode_bytes (s : string) : option string := v ← parse_json s; set_bytes (fun b _ => b) v "".

(** source: internal/core/capability/client.go:192-195 (CommandExecute, the result) *)
Definition command_fields : fields_of (Z * string * string) := [
  ("exit_code", set_int int64_min int_max (fun z '(_, o, e) => (z, o, e)));
  ("Stdout", set_string (fun s '(z, _, e) => (z, s, e))); ("Stderr", set_string (fun s '(z, o, _) => (z, o, s))) ].

(** source: internal/core/capability/client.go:288-291 (PackageInstalled, the result) *)
Definition installed_fields : fields_of (bool * string) :=
  [("installed", set_bool (fun b '(_, v) => (b, v))); ("version", set_string (fun s '(b, _) => (b, s)))].

Definition fw_status (a : bool) (i o r : string) (v : bool) (l : string) (n : Z) (p : string) : FirewallStatus :=
  {| fs_Active := a; fs_DefaultIncoming := i; fs_DefaultOutgoing := o; fs_DefaultRouted := r; fs_IPv6Enabled := v; fs_Logging := l;
     fs_RuleCount := n; fs_ProfileName := p |}.
Definition zero_status : FirewallStatus := fw_status false "" "" "" false "" 0 "".

(** source: pkg/contract/module.go:553-562 (FirewallStatus, its tags) *)
Definition firewall_status_fields : fields_of FirewallStatus := [
  ("active", set_bool (fun b '(Build_FirewallStatus _ i o r v l n p) => fw_status b i o r v l n p));
  ("default_incoming", set_string (fun s '(Build_FirewallStatus a _ o r v l n p) => fw_status a s o r v l n p));
  ("default_outgoing", set_string (fun s '(Build_FirewallStatus a i _ r v l n p) => fw_status a i s r v l n p));
  ("default_routed", set_string (fun s '(Build_FirewallStatus a i o _ v l n p) => fw_status a i o s v l n p));
  ("ipv6_enabled", set_bool (fun b '(Build_FirewallStatus a i o r _ l n p) => fw_status a i o r b l n p));
  ("logging", set_string (fun s '(Build_FirewallStatus a i o r v _ n p) => fw_status a i o r v s n p));
  ("rule_count", set_int int64_min int_max (fun z '(Build_FirewallStatus a i o r v l _ p) => fw_status a i o r v l z p));
  ("profile_name", set_string (fun s '(Build_FirewallStatus a i o r v l n _) => fw_status a i o r v l n s)) ].

(** source: pkg/contract/module.go:578-588 (FirewallRule, its tags) *)
Definition firewall_rule_fields : fields_of contract_rule := [
  ("id", set_string (fun s '(mkContract _ p r a d o t c v) => mkContract s p r a d o t c v));
  ("port", set_string (fun s '(mkContract i _ r a d o t c v) => mkContract i s r a d o t c v));
  ("protocol", set_string (fun s '(mkContract i p _ a d o t c v) => mkContract i p s a d o t c v));
  ("action", set_string (fun s '(mkContract i p r _ d o t c v) => mkContract i p r s d o t c v));
  ("direction", set_string (fun s '(mkContract i p r a _ o t c v) => mkContract i p r a s o t c v));
  ("source", set_string (fun s '(mkContract i p r a d _ t c v) => mkContract i p r a d s t c v));
  ("destination", set_string (fun s '(mkContract i p r a d o _ c v) => mkContract i p r a d o s c v));
  ("comment", set_string (fun s '(mkContract i p r a d o t _ v) => mkContract i p r a d o t s v));
  ("ip_version", set_string (fun s '(mkContract i p r a d o t c _) => mkContract i p r a d o t c s)) ].
Definition empty_rule : contract_rule := mkContract "" "" "" "" "" "" "" "" "".

Definition decode_rules (s : string) : option (list contract_rule) :=
  v ← parse_json s; set_list empty_rule (decode_struct false firewall_rule_fields) (fun l => l) (fun l _ => l) v [].

(** source: pkg/contract/module.go:565-575 (FirewallRuleRequest, its tags) *)
Definition rule_request_members (r : contract_rule) : list (string * json) :=
  (omit_string "id" (c_ID r) ++ str_member "port" (c_Port r) ++ str_member "protocol" (c_Protocol r) ++ str_member "action" (c_Action r)
   ++ omit_string "direction" (c_Direction r) ++ omit_string "source" (c_Source r) ++ omit_string "destination" (c_Destination r)
   ++ omit_string "comment" (c_Comment r) ++ omit_string "ip_version" (c_IPVersion r))%list.

(** source: internal/core/capability/client.go:261-265 (packageOperation) *)
Definition packageOperation (action pkg : string) : prog E (result error (list string)) :=
  call_ ("package." ++ action) (str_member "package" pkg) [] (Some decode_strings).

(** source: internal/core/capability/client.go:86-121 (ServiceStart to ServiceReload) *)
Definition remote_service (v : verb) (name : string) : prog E (result error ()) :=
  act "service.action" (str_member "action" (verb_text v) ++ str_member "name" name)%list.

Definition zero_service : ServiceStatus :=
  {| cs_Name := ""; cs_Active := false; cs_Enabled := false; cs_Description := ""; cs_SubState := "" |}.

(** source: internal/core/capability/client.go:122-129 (ServiceStatus) *)
Definition remote_ServiceStatus (name : string) : prog E (result error ServiceStatus) :=
  call_ "service.status" (str_member "name" name) zero_service (Some (unmarshal service_status_fields zero_service)).

(** source: internal/core/capability/client.go:130-137 (ServiceLogs) *)
Definition remote_ServiceLogs (name : string) (lines : Z) : prog E (result error (list string)) :=
  call_ "service.logs" (int_member "lines" lines ++ str_member "name" name)%list [] (Some decode_strings).

(** source: internal/core/capability/client.go:145-152 (FileLogs) *)
Definition remote_FileLogs (path : string) (lines : Z) : prog E (result error (list string)) :=
  call_ "file.logs" (int_member "lines" lines ++ str_member "path" path)%list [] (Some decode_strings).

(** source: internal/core/capability/client.go:188-198 (CommandExecute) *)
Definition remote_CommandExecute (command : string) (args : list string) : prog E (result error (Z * string * string)) :=
  call_ "command.execute" (strings_member "args" args ++ str_member "command" command)%list (0%Z, "", "")
    (Some (unmarshal command_fields (0%Z, "", ""))).

(** source: internal/core/capability/client.go:199-214 (NginxSiteApply) *)
Definition remote_NginxSiteApply (action domain content : string) : prog E (result error ()) :=
  act "nginx.site.apply" (str_member "action" action ++ bytes_member "content" content ++ str_member "name" domain)%list.

(** source: internal/core/capability/client.go:215-223 (SiteRootPrepare) *)
Definition remote_SiteRootPrepare (path : string) : prog E (result error ()) := act "site.root.prepare" (str_member "path" path).

(** source: internal/core/capability/client.go:224-236 (UnixSocketExists) *)
Definition remote_UnixSocketExists (path : string) : prog E (result error bool) :=
  call_ "site.socket.exists" (str_member "path" path) false (Some (unmarshal [("exists", set_bool (fun b _ => b))] false)).

(** source: internal/core/capability/client.go:237-249 (SiteHTTPProbe) *)
Definition remote_SiteHTTPProbe (domain : string) : prog E (result error Z) :=
  call_ "site.http.probe" (str_member "domain" domain) 0%Z (Some (unmarshal [("status_code", set_int int64_min int_max (fun z _ => z))] 0%Z)).

(** source: internal/core/capability/client.go:250-260 (CertificateObtain) *)
Definition remote_CertificateObtain (domain webroot email : string) : prog E (result error ()) :=
  act "certificate.obtain" (str_member "domain" domain ++ str_member "email" email ++ str_member "webroot" webroot)%list.

(** source: internal/core/capability/client.go:266-283 (PackageInstall, PackageRemove, PackageUpdate) *)
Definition remote_package (action pkg : string) : prog E (result error (list string)) := packageOperation action pkg.

(** source: internal/core/capability/client.go:284-426 (packages, files, the firewall, processes);
    the keys of a map are written in their order *)
Definition remote (X : Set) (op : agent_op X) : prog E X :=
  match op in agent_op X return prog E X with
  | ServiceAct v name => remote_service v name
  | ServiceStatus_ name => remote_ServiceStatus name
  | ServiceLogs_ name lines => remote_ServiceLogs name lines
  | FileLogs_ path lines => remote_FileLogs path lines
  | CommandExecute_ command args => remote_CommandExecute command args
  | PackageInstall_ pkg => remote_package "install" pkg
  | PackageRemove_ pkg => remote_package "remove" pkg
  | PackageUpdate_ pkg => remote_package "update" pkg
  | PackageInstalled_ pkg => call_ "package.status" (str_member "package" pkg) (false, "") (Some (unmarshal installed_fields (false, "")))
  | FileRead_ path => call_ "file.read" (str_member "path" path) "" (Some decode_bytes)
  | FileWrite_ path content mode =>
      act "file.write" (bytes_member "content" content ++ int_member "mode" mode ++ str_member "path" path)%list
  | FileDelete_ path => act "file.delete" (str_member "path" path)
  | FileRename_ old new => act "file.rename" (str_member "new_path" new ++ str_member "old_path" old)%list
  | FileCopy_ src dst => act "file.copy" (str_member "dst_path" dst ++ str_member "src_path" src)%list
  | FileChmod_ path mode => act "file.chmod" (int_member "mode" mode ++ str_member "path" path)%list
  | FileChown_ path uid gid => act "file.chown" (int_member "gid" gid ++ str_member "path" path ++ int_member "uid" uid)%list
  | DirCreate_ path mode => act "directory.create" (int_member "mode" mode ++ str_member "path" path)%list
  | ArchiveCreateOp paths dst => act "archive.create" (str_member "dst_path" dst ++ strings_member "paths" paths)%list
  | ArchiveExtractOp src dst => act "archive.extract" (str_member "dst_dir" dst ++ str_member "src_path" src)%list
  | FirewallStatusOp => call_ "firewall.status" [] zero_status (Some (unmarshal firewall_status_fields zero_status))
  | FirewallRuleOp req => act "firewall.rule" (rule_request_members req)
  | FirewallDeleteOp id => act "firewall.delete" (str_member "id" id)
  | FirewallListOp => call_ "firewall.list" [] [] (Some decode_rules)
  | FirewallToggleOp enable => act "firewall.toggle" (bool_member "enable" enable)
  | FirewallResetOp => act "firewall.reset" []
  | ProcessKill_ pid force => act "process.kill" (bool_member "force" force ++ int_member "pid" pid)%list
  | NginxSiteApply_ action domain content => remote_NginxSiteApply action domain content
  | SiteRootPrepare_ path => remote_SiteRootPrepare path
  | UnixSocketExists_ path => remote_UnixSocketExists path
  | SiteHTTPProbe_ domain => remote_SiteHTTPProbe domain
  | CertificateObtain_ domain webroot email => remote_CertificateObtain domain webroot email
  end.
(** source: internal/core/capability/cron.go:30-45 (CronCreate, CronUpdate) and 84-91 (CronValidate):
    the command of a job *)
Definition remote_job {A : Set} (kind : string) (job : wire_job) (zero : A) (decode : string -> option A) : prog E (result error A) :=
  call_ kind (job_members job) zero (Some decode).

(** source: internal/core/capability/cron.go:52-67 (CronEnable, CronDisable) and 22-29 (CronGet) *)
Definition remote_job_id (kind id : string) : prog E (result error wire_job) :=
  call_ kind (str_member "id" id) zero_job (Some (unmarshal job_fields zero_job)).

(** source: internal/core/capability/cron.go:46-51 (CronDelete) *)
Definition remote_CronDelete (id : string) : prog E (result error ()) := act "cron.delete" (str_member "id" id).
End router.
