(* ===== verification/AgentSpec.v ===== *)
(** * Local and remote Agents

    The router of the Core promises that its callers need not know where an Agent is.  This
    holds for the operations named in [transparent], and not for others, which are shown. *)

From Stdlib Require Import FunctionalExtensionality.
From S2P Require Import Prelude GoStrings GoStrconv GoRegexp GoTime GoJson GoStruct GoBase64 Effects AppErrors Filesystem Cron Ufw AgentApi AgentWire.
Local Open Scope string_scope.
Local Open Scope go_scope.

(** ** Decoding of requests *)

Lemma decode_unknown {R} (fs : fields_of R) k s r :
  unquote k = Some k -> find_field fs k = None -> decode_members false fs (str_member k s) r = Some r.
Proof. intros Hk Hf. cbn [str_member decode_members]. rewrite Hk. cbn [mbind option_bind]. by rewrite Hf. Qed.

Lemma decode_unknown_omit {R} (fs : fields_of R) k s r :
  unquote k = Some k -> find_field fs k = None -> decode_members false fs (omit_string k s) r = Some r.
Proof. intros Hk Hf. unfold omit_string. destruct (String.eqb s ""); [done|by apply decode_unknown]. Qed.

Ltac decode_member :=
  first [ erewrite decode_str_member by first [reflexivity | eassumption]
        | erewrite decode_omit_string by first [reflexivity | eassumption]
        | erewrite decode_bool_member by reflexivity
        | erewrite decode_bytes_member by reflexivity
        | erewrite decode_strings_member by first [reflexivity | eassumption]
        | erewrite decode_int_member by first [reflexivity | eassumption | unfold is_int64, int_max, int64_min in *; lia]
        | erewrite decode_time_member by first [reflexivity | eassumption]
        | erewrite decode_omit_false by reflexivity
        | rewrite decode_unknown by reflexivity
        | rewrite decode_unknown_omit by reflexivity ].

(** Members of an object read one after the other. *)
Ltac decode_all := repeat (rewrite decode_members_app; decode_member; cbn [mbind option_bind]); try decode_member.
Ltac wf_all := repeat apply wf_members_app; first [apply Forall_nil_2 | auto with opendeploy].

Section delivery.
Context `{HUnicode : Unicode}.
Variables (wall : Z -> time) (instant : time -> Z) (local_time : Z -> time) (json_error : string) (pkgs : bool) (serverID : string).

(** A command to an Agent that stays connected and has advertised [capabilities]. *)
Definition connected (capabilities : list string) (kind payload : string) : host_prog (result dispatch_error string) :=
  match requireCommandCapability capabilities kind with
  | Err e => Ret (Err e)
  | Ok _ => let! r := executeStreamCommand wall instant local_time json_error pkgs kind payload in Ret (map_err Remote r)
  end.

Notation execute := (executeStreamCommand wall instant local_time json_error pkgs).
Notation handler_of := (find_handler wall instant local_time json_error pkgs).

Lemma executed kind m r handler :
  wf_members m -> decode_members false request_fields m zero_request = Some r -> handler_of kind = Some handler ->
  execute kind (print_json (JObj m)) = (try! v := handler r (print_json (JObj m)) in Ret (Ok (print_json v))).
Proof.
  intros Hw Hd Hh. unfold executeStreamCommand.
  assert (String.eqb (print_json (JObj m)) "" = false) as -> by done.
  rewrite <- (str_app_nil_r (print_json (JObj m))) at 1. rewrite (unmarshal_print _ _ m "" r) by done. by rewrite Hh.
Qed.

(** What the router returns for the answer of a manager. *)
Definition returned {A B : Set} (kind : string) (enc : B -> json) (zero : A) (dec : option (string -> option A)) (x : result host_error B) :
    result error A :=
  match x with
  | Err e => Err (remoteError (Remote (he_text e)) serverID kind)
  | Ok b => match dec with
      | None => Ok zero
      | Some d => match d (print_json (enc b)) with Some a => Ok a | None => Err (Plain json_error) end
      end
  end.

Lemma print_not_empty v : wf_json v -> String.eqb (print_json v) "" = false.
Proof. intros (c & r & -> & _)%print_head. done. Qed.

Lemma call_exec {A B : Set} kind m r (c : host_call (result host_error B)) enc handler (zero : A) dec tr a :
  requireCommandCapability Names kind = Ok () -> wf_members m -> decode_members false request_fields m zero_request = Some r ->
  handler_of kind = Some handler -> handler r (print_json (JObj m)) = answer enc c -> (forall b, wf_json (enc b)) ->
  exec (call_ (connected Names) serverID json_error kind m zero dec) tr a <->
  exists x, tr = [Act c x] /\ a = returned kind enc zero dec x.
Proof.
  intros Hc Hw Hd Hh Ha He. unfold call_, connected. rewrite Hc, (executed _ _ _ _ Hw Hd Hh), Ha. cbn [answer call bind bind_err bind_wrap].
  split.
  - intros (x & t & -> & Hx). exists x. destruct x as [b|e]; cbn in Hx; destruct Hx as [-> ->]; (split; [done|]); cbn [returned]; [|done].
    destruct dec; [|done]. by rewrite print_not_empty.
  - intros (x & -> & ->). exists x, []. split; [done|]. destruct x as [b|e]; cbn; (split; [done|]); [|done].
    destruct dec; [|done]. by rewrite print_not_empty.
Qed.

(** ** Decoding of answers *)

Notation utf8 s := (valid_utf8 s = true).

Lemma parse_printed v : wf_json v -> parse_json (print_json v) = Some v.
Proof. intros Hv. rewrite <- (str_app_nil_r (print_json v)). by apply parse_print. Qed.

Lemma strings_read_back l : Forall (fun s => utf8 s) l -> decode_strings (print_json (strings_json l)) = Some l.
Proof.
  intros Hl. unfold decode_strings. rewrite parse_printed by apply wf_strings_json. cbn [mbind option_bind].
  unfold set_strings, set_list, strings_json. destruct l as [|s l]; [done|]. by rewrite (decode_string_list (s :: l)).
Qed.

Lemma bytes_read_back s : decode_bytes (print_json (bytes_json s)) = Some s.
Proof.
  unfold decode_bytes. rewrite parse_printed by apply wf_bytes_json. cbn [mbind option_bind set_bytes bytes_json].
  rewrite unquote_b64. cbn [mbind option_bind]. by rewrite b64_round_trip.
Qed.

Lemma object_read_back {R} (fs : fields_of R) zero m r :
  wf_members m -> decode_members false fs m zero = Some r -> unmarshal fs zero (print_json (JObj m)) = Some r.
Proof. intros Hw Hd. rewrite <- (str_app_nil_r (print_json (JObj m))). by apply unmarshal_print. Qed.

Definition rule_texts (r : contract_rule) : list string :=
  [c_ID r; c_Port r; c_Protocol r; c_Action r; c_Direction r; c_Source r; c_Destination r; c_Comment r; c_IPVersion r].

Lemma rule_decoded r : Forall (fun s => utf8 s) (rule_texts r) ->
  decode_struct false firewall_rule_fields (JObj (firewall_rule_members r)) empty_rule = Some r.
Proof.
  destruct r as [i p t a d s e c v]. unfold rule_texts. cbn [c_ID c_Port c_Protocol c_Action c_Direction c_Source c_Destination c_Comment c_IPVersion].
  rewrite !Forall_cons. intros (? & ? & ? & ? & ? & ? & ? & ? & ? & _).
  cbn [decode_struct]. unfold firewall_rule_members. cbn [c_ID c_Port c_Protocol c_Action c_Direction c_Source c_Destination c_Comment c_IPVersion].
  decode_all. done.
Qed.

Lemma wf_rule r : wf_json (JObj (firewall_rule_members r)).
Proof. apply wf_obj. unfold firewall_rule_members. wf_all. Qed.

Lemma rules_read_back (l : list rule) :
  Forall (fun x => Forall (fun s => utf8 s) (rule_texts (of_message x))) l ->
  decode_rules (print_json (JArr ((fun x => JObj (firewall_rule_members (firewallContractRule x))) <$> l))) = Some (of_message <$> l).
Proof.
  intros Hl. assert (Hsame : forall x, firewallContractRule x = of_message x).
  { intros [i p t a d s e c v]. by destruct a, d, v. }
  unfold decode_rules. rewrite parse_printed.
  2: { apply wf_arr, Forall_fmap, Forall_forall. intros x _. cbn [compose]. apply wf_rule. }
  cbn [mbind option_bind set_list].
  assert (Hd : decode_list empty_rule (decode_struct false firewall_rule_fields) []
    ((fun x => JObj (firewall_rule_members (firewallContractRule x))) <$> l) = Some (of_message <$> l)); [|by rewrite Hd].
  induction Hl as [|x l Hx Hl IH]; [done|]. rewrite !fmap_cons. cbn [decode_list head default].
  change (default empty_rule None) with empty_rule. rewrite Hsame, rule_decoded by done. cbn [mbind option_bind tail]. by rewrite IH.
Qed.

Definition status_texts (s : FirewallStatus) : list string :=
  [fs_DefaultIncoming s; fs_DefaultOutgoing s; fs_DefaultRouted s; fs_Logging s; fs_ProfileName s].

Lemma firewall_status_read_back s : Forall (fun x => utf8 x) (status_texts s) -> is_int64 (fs_RuleCount s) ->
  unmarshal firewall_status_fields zero_status (print_json (JObj (firewall_status_members s))) = Some s.
Proof.
  destruct s as [a i o r v l n p]. unfold status_texts. cbn [fs_DefaultIncoming fs_DefaultOutgoing fs_DefaultRouted fs_Logging fs_ProfileName fs_RuleCount].
  rewrite !Forall_cons. intros (? & ? & ? & ? & ? & _) Hn. apply object_read_back; unfold firewall_status_members;
    cbn [fs_Active fs_DefaultIncoming fs_DefaultOutgoing fs_DefaultRouted fs_IPv6Enabled fs_Logging fs_RuleCount fs_ProfileName]; [wf_all|].
  assert (Hb : (int64_min <= n <= int_max)%Z) by (unfold is_int64, int64_min, int_max in *; lia). decode_all. done.
Qed.

Lemma installed_read_back (p : bool * string) : utf8 (snd p) ->
  unmarshal installed_fields (false, "") (print_json (JObj (bool_member "installed" (fst p) ++ str_member "version" (snd p))%list)) = Some p.
Proof. destruct p as [b v]. intros Hv. cbn [fst snd] in *. apply object_read_back; [wf_all|]. decode_all. done. Qed.

(** ** Transparency *)

(** The same answer, or errors on both sides that the Core answers alike. *)
Definition same_result {A : Type} (a b : result error A) : Prop :=
  match a, b with Ok x, Ok y => x = y | Err e, Err e' => forall id, WriteHTTP id e = WriteHTTP id e' | _, _ => False end.

Definition agree (X : Set) (op : agent_op X) : X -> X -> Prop :=
  match op in agent_op X return X -> X -> Prop with
  | ServiceAct _ _ | ServiceStatus_ _ | ServiceLogs_ _ _ | FileLogs_ _ _ | CommandExecute_ _ _ | PackageInstall_ _ | PackageRemove_ _
  | PackageUpdate_ _ | PackageInstalled_ _ | FileRead_ _ | FileWrite_ _ _ _ | FileDelete_ _ | FileRename_ _ _ | FileCopy_ _ _
  | FileChmod_ _ _ | FileChown_ _ _ _ | DirCreate_ _ _ | ArchiveCreateOp _ _ | ArchiveExtractOp _ _ | FirewallStatusOp | FirewallRuleOp _
  | FirewallDeleteOp _ | FirewallListOp | FirewallToggleOp _ | FirewallResetOp | ProcessKill_ _ _ | NginxSiteApply_ _ _ _
  | SiteRootPrepare_ _ | UnixSocketExists_ _ | SiteHTTPProbe_ _ | CertificateObtain_ _ _ _ => same_result
  end.

Definition int32 (z : Z) : Prop := (- 2 ^ 31 <= z <= 2 ^ 31 - 1)%Z.
Definition uint32 (z : Z) : Prop := (0 <= z <= 2 ^ 32 - 1)%Z.

(** The operations, and their arguments, for which the place of the Agent does not matter. *)
Definition transparent (X : Set) (op : agent_op X) : Prop :=
  match op with
  | ServiceAct _ name => name <> "" /\ utf8 name
  | ServiceLogs_ name lines => (1 <= lines <= 10000)%Z /\ utf8 name
  | PackageInstalled_ pkg => utf8 pkg
  | FileRead_ path | FileDelete_ path => utf8 path
  | FileWrite_ path _ mode | FileChmod_ path mode | DirCreate_ path mode => utf8 path /\ uint32 mode
  | FileRename_ a b | FileCopy_ a b => utf8 a /\ utf8 b
  | FileChown_ path uid gid => utf8 path /\ int32 uid /\ int32 gid
  | FirewallRuleOp req => Forall (fun s => utf8 s) (rule_texts req) /\ c_IPVersion req ∈ ["ipv4"; "ipv6"; "both"]
  | FirewallDeleteOp id => utf8 id
  | FirewallStatusOp | FirewallListOp | FirewallToggleOp _ | FirewallResetOp => True
  | ProcessKill_ pid _ => is_int64 pid
  | _ => False
  end.

(** Answers of managers whose texts can be sent.  That a process is protected is only told
    by a local Agent ([protected_process_told_locally]). *)
Definition sendable (ac : action host_call) : Prop :=
  match ac with
  | Act (SystemdLogs _ _) (Ok l) => Forall (fun s => utf8 s) l
  | Act (PkgInstalled _) (Ok p) => utf8 (snd p)
  | Act FwStatus (Ok s) => Forall (fun x => utf8 x) (status_texts (of_status s)) /\ is_int64 (RuleCount s)
  | Act FwList (Ok l) => Forall (fun x => Forall (fun s => utf8 s) (rule_texts (of_message x))) l
  | Act (StatsKill _ _) (Err e) => he_protected e = false
  | _ => True
  end.

Lemma guarded_exec {A : Set} (c : host_call (result host_error A)) tr a :
  exec (plainly (guarded_call c)) tr a <-> exists x, tr = [Act c x] /\ a = map_err Plain (map_err (fun _ => internalError) x).
Proof.
  unfold plainly, guarded_call. cbn [call bind]. split.
  - intros (x & t & -> & -> & ->). by exists x.
  - intros (x & -> & ->). by exists x, [].
Qed.

(** Two programs that make the same calls and answer alike. *)
Definition alike {X : Type} (R : X -> X -> Prop) (p q : host_prog X) : Prop :=
  forall tr, Forall sendable tr ->
    (forall a, exec p tr a -> exists b, exec q tr b /\ R a b) /\ (forall b, exec q tr b -> exists a, exec p tr a /\ R a b).

Lemma alike_call {X : Type} {B : Set} (R : X -> X -> Prop) (c : host_call B) (p q : host_prog X) (f g : B -> X) :
  (forall tr a, exec p tr a <-> exists x, tr = [Act c x] /\ a = f x) ->
  (forall tr b, exec q tr b <-> exists x, tr = [Act c x] /\ b = g x) ->
  (forall x, sendable (Act c x) -> R (f x) (g x)) -> alike R p q.
Proof.
  intros Hp Hq HR tr Hs. split.
  - intros a (x & -> & ->)%Hp. exists (g x). split; [apply Hq; eauto|]. apply HR. exact (proj1 (Forall_singleton _ _) Hs).
  - intros b (x & -> & ->)%Hq. exists (f x). split; [apply Hp; eauto|]. apply HR. exact (proj1 (Forall_singleton _ _) Hs).
Qed.

Lemma alike_ret {X : Type} (R : X -> X -> Prop) (a b : X) : R a b -> alike R (Ret a) (Ret b).
Proof. intros HR tr _. split; intros x [-> ->]; eexists; (split; [split; reflexivity|done]). Qed.

(** An operation without a result, guarded locally and carried out remotely. *)
Lemma alike_act kind m r (c : host_call (result host_error ())) enc handler :
  requireCommandCapability Names kind = Ok () -> wf_members m -> decode_members false request_fields m zero_request = Some r ->
  handler_of kind = Some handler -> handler r (print_json (JObj m)) = answer enc c -> (forall b, wf_json (enc b)) ->
  alike same_result (plainly (guarded_call c)) (act (connected Names) serverID json_error kind m).
Proof.
  intros Hc Hw Hd Hh Ha He. eapply alike_call; [apply guarded_exec|intros tr b; by eapply (call_exec kind m r c enc)|].
  intros [[]|e] _; done.
Qed.

Definition read_locally {A B : Set} (f : B -> A) (x : result host_error B) : result error A :=
  match x with Ok b => Ok (f b) | Err e => map_err Plain (map_err (fun _ => internalError) (Err e : result host_error A)) end.

Lemma guarded_map_exec {A B : Set} (c : host_call (result host_error B)) (f : B -> A) tr a :
  exec (plainly (try! b := guarded_call c in Ret (Ok (f b)))) tr a <-> exists x, tr = [Act c x] /\ a = read_locally f x.
Proof.
  unfold plainly, guarded_call. cbn [call bind bind_err]. split.
  - intros (x & t & -> & Hx). exists x. destruct x; cbn in Hx; by destruct Hx as [-> ->].
  - intros (x & -> & ->). exists x, []. split; [done|]. by destruct x.
Qed.

Lemma guarded_read_exec {B : Set} (c : host_call (result host_error B)) tr a :
  exec (plainly (guarded_call c)) tr a <-> exists x, tr = [Act c x] /\ a = read_locally id x.
Proof. rewrite guarded_exec. split; intros (x & -> & ->); exists x; (split; [done|]); by destruct x. Qed.

(** An operation whose answer is read back. *)
Lemma alike_read {A B : Set} kind m r (c : host_call (result host_error B)) enc handler (zero : A) dec (f : B -> A) (p : host_prog (result error A)) :
  (forall tr a, exec p tr a <-> exists x, tr = [Act c x] /\
     a = read_locally f x) ->
  requireCommandCapability Names kind = Ok () -> wf_members m -> decode_members false request_fields m zero_request = Some r ->
  handler_of kind = Some handler -> handler r (print_json (JObj m)) = answer enc c -> (forall b, wf_json (enc b)) ->
  (forall b, sendable (Act c (Ok b)) -> dec (print_json (enc b)) = Some (f b)) ->
  alike same_result p (call_ (connected Names) serverID json_error kind m zero (Some dec)).
Proof.
  intros Hp Hc Hw Hd Hh Ha He Hdec. eapply alike_call; [exact Hp|intros tr b; by eapply (call_exec kind m r c enc)|].
  intros [b|e] Hs; [|done]. cbn [returned]. by rewrite Hdec.
Qed.

Lemma wf_success b : wf_json (success b).
Proof. apply wf_obj. unfold success. wf_all. Qed.
Lemma wf_nothing b : wf_json (nothing b).
Proof. done. Qed.

Ltac acting := eapply alike_act; [reflexivity|wf_all|decode_all; reflexivity|reflexivity|reflexivity|first [apply wf_success|apply wf_nothing]].

Lemma rule_request_decoded req : Forall (fun s => utf8 s) (rule_texts req) -> exists r,
  wf_members (rule_request_members req) /\ decode_members false request_fields (rule_request_members req) zero_request = Some r /\
  unmarshal stream_rule_fields empty_rule (print_json (JObj (rule_request_members req))) = Some req.
Proof.
  destruct req as [i p t a d s e c v]. unfold rule_texts. cbn [c_ID c_Port c_Protocol c_Action c_Direction c_Source c_Destination c_Comment c_IPVersion].
  rewrite !Forall_cons. intros (? & ? & ? & ? & ? & ? & ? & ? & ? & _).
  assert (Hw : wf_members (rule_request_members (mkContract i p t a d s e c v))) by (unfold rule_request_members; wf_all).
  assert (Hid : exists r1, decode_members false request_fields (omit_string "id" i) zero_request = Some r1).
  { unfold omit_string. destruct (String.eqb i ""); [by eexists|]. eexists. by decode_member. }
  destruct Hid as [r1 Hid]. eexists. split; [done|]. split; [|apply object_read_back; [done|]];
    unfold rule_request_members; cbn [c_ID c_Port c_Protocol c_Action c_Direction c_Source c_Destination c_Comment c_IPVersion].
  - rewrite decode_members_app, Hid. cbn [mbind option_bind]. decode_all. reflexivity.
  - decode_all. reflexivity.
Qed.

Lemma firewall_rule_handler : handler_of "firewall.rule" = Some (fun _ payload =>
  match unmarshal stream_rule_fields empty_rule payload with
  | Some rule => answer nothing (FwAddRule (stream_rule rule))
  | None => Ret (Err json_error)
  end).
Proof. reflexivity. Qed.

Lemma messages_agree req : c_IPVersion req ∈ ["ipv4"; "ipv6"; "both"] -> stream_rule req = to_message req.
Proof.
  destruct req as [i p t a d s e c v]. unfold stream_rule, to_message.
  cbn [c_ID c_Port c_Protocol c_Action c_Direction c_Source c_Destination c_Comment c_IPVersion]. intros Hv. f_equal.
  - destruct (String.eqb_spec a "reject") as [->|]; [done|]. by destruct (String.eqb a "deny").
  - destruct (String.eqb_spec d "routed") as [->|]; [done|]. by destruct (String.eqb d "out").
  - repeat rewrite elem_of_cons in Hv. rewrite elem_of_nil in Hv. destruct Hv as [->|[->|[->|[]]]]; done.
Qed.

Lemma kill_exec pid force tr b : (- 2 ^ 31 <= pid <= 2 ^ 31 - 1)%Z ->
  exec (act (connected Names) serverID json_error "process.kill" (bool_member "force" force ++ int_member "pid" pid)%list) tr b <->
  exists x, tr = [Act (StatsKill pid force) x] /\ b = returned "process.kill" success () None x.
Proof.
  intros Hb. assert (H64 : is_int64 pid) by (unfold is_int64; lia).
  eapply (call_exec "process.kill" _ _ (StatsKill pid force) success);
    [reflexivity|wf_all|decode_all; reflexivity|reflexivity|reflexivity|apply wf_success].
Qed.

Lemma kill_alike pid force : is_int64 pid ->
  alike same_result (plainly (client_ProcessKill pid force))
    (act (connected Names) serverID json_error "process.kill" (bool_member "force" force ++ int_member "pid" pid)%list).
Proof.
  intros H64. unfold client_ProcessKill, checkedInt32. destruct ((pid <? - 2 ^ 31) || (2 ^ 31 - 1 <? pid))%Z eqn:Hr.
  - unfold act, call_, connected, executeStreamCommand. change (requireCommandCapability Names "process.kill") with (Ok () : result dispatch_error ()).
    assert (Hn : unmarshal request_fields zero_request (print_json (JObj (bool_member "force" force ++ int_member "pid" pid)%list)) = None).
    { unfold unmarshal. rewrite parse_printed by (apply wf_obj; wf_all). cbn [mbind option_bind decode_struct].
      rewrite decode_members_app, (decode_bool_member _ _ _ (put_flag FForce)) by reflexivity. cbn [mbind option_bind].
      cbn [int_member decode_members]. change (unquote "pid") with (Some "pid"). cbn [mbind option_bind].
      change (find_field request_fields "pid") with (Some (set_int (- 2 ^ 31) (2 ^ 31 - 1) (put_num FPID))). cbn [set_int].
      rewrite atoi_itoa by done. cbn [mbind option_bind].
      assert (((- 2 ^ 31 <=? pid) && (pid <=? 2 ^ 31 - 1))%Z = false) as -> by lia. done. }
    rewrite Hn. apply alike_ret. done.
  - assert (Hb : (- 2 ^ 31 <= pid <= 2 ^ 31 - 1)%Z) by lia. eapply alike_call with (c := StatsKill pid force).
    + intros tr a. unfold plainly, server_ProcessKill. cbn [call bind]. split.
      * intros (x & t & -> & -> & ->). by exists x.
      * intros (x & -> & ->). by exists x, [].
    + intros tr b. by apply kill_exec.
    + intros [[]|e] _; done.
Qed.

(** An operation of the service that is one call, whose answer the router reads back; what is
    written and read is left. *)
Ltac reading kind c enc g :=
  eapply (alike_read kind _ _ c enc) with (f := g);
  [first [apply guarded_read_exec | apply guarded_map_exec] | reflexivity | wf_all | first [reflexivity | decode_all; reflexivity]
  | reflexivity | try reflexivity | | ].

Lemma installed_alike pkg : utf8 pkg ->
  alike same_result (plainly (server_PackageStatus pkgs pkg))
    (call_ (connected Names) serverID json_error "package.status" (str_member "package" pkg) (false, "") (Some (unmarshal installed_fields (false, "")))).
Proof.
  intros Hu. assert (Hd : exists r, decode_members false request_fields (str_member "package" pkg) zero_request = Some r /\ r_str r FPackage = pkg).
  { eexists. split; [by decode_member|done]. }
  destruct Hd as (r & Hd & Hr). pose (enc := fun p : bool * string => JObj (bool_member "installed" (fst p) ++ str_member "version" (snd p))%list).
  destruct (bool_dec pkgs true) as [Hp|Hp%not_true_iff_false].
  - unfold server_PackageStatus. rewrite Hp. cbn [negb].
    eapply (alike_read "package.status" _ r (PkgInstalled pkg) enc) with (f := id);
      [apply guarded_read_exec|reflexivity|wf_all|exact Hd|reflexivity|by cbn; rewrite Hp, Hr|intros p; apply wf_obj; wf_all|].
    intros p Hs. by apply installed_read_back.
  - unfold server_PackageStatus. rewrite Hp. cbn [negb]. unfold call_, connected.
    change (requireCommandCapability Names "package.status") with (Ok () : result dispatch_error ()).
    erewrite executed; [|wf_all|exact Hd|reflexivity]. cbn. rewrite Hp. apply alike_ret. done.
Qed.


(** ** Cron jobs *)

Lemma decode_map_keys (m0 : gmap string string) ks m :
  NoDup ks -> Forall (fun k => utf8 k /\ utf8 (default "" (m0 !! k))) ks -> (forall k, k ∈ ks -> m !! k = None) ->
  decode_map ((fun key => (escape key, string_json (default "" (m0 !! key)))) <$> ks) m =
  Some (list_to_map ((fun k => (k, default "" (m0 !! k))) <$> ks) ∪ m).
Proof.
  intros Hnd Hf. revert m. induction Hf as [|k ks [Hk Hv] Hf IH]; intros m Hm; [cbn; by rewrite map_empty_union|].
  apply NoDup_cons in Hnd as [Hnin Hnd]. rewrite !fmap_cons. cbn [decode_map string_json string_value set_string].
  rewrite (unquote_escape k Hk). cbn [mbind option_bind]. rewrite (unquote_escape _ Hv). cbn [mbind option_bind].
  rewrite IH; [|done|].
  - f_equal. rewrite list_to_map_cons, <- insert_union_r, insert_union_l; [done|].
    apply not_elem_of_list_to_map_1. rewrite <- list_fmap_compose. by rewrite (list_fmap_ext _ id) , list_fmap_id by done.
  - intros k' Hk'. rewrite lookup_insert_ne by (intros ->; done). apply Hm. by right.
Qed.

Lemma sorted_pairs (m : gmap string string) : list_to_map ((fun k => (k, default "" (m !! k))) <$> sortedKeys m) = m.
Proof.
  apply map_eq. intros k. destruct (m !! k) as [v|] eqn:Hk.
  - apply elem_of_list_to_map_1.
    + rewrite <- list_fmap_compose, (list_fmap_ext _ id), list_fmap_id by done. unfold sortedKeys. rewrite (isort_perm String.leb). apply NoDup_elements.
    + apply list_elem_of_fmap. exists k. rewrite Hk. split; [done|]. apply sortedKeys_elem. eauto.
  - apply not_elem_of_list_to_map_1. rewrite <- list_fmap_compose, (list_fmap_ext _ id), list_fmap_id by done.
    intros [v Hv]%sortedKeys_elem. congruence.
Qed.

Definition env_texts (m : gmap string string) : Prop := map_Forall (fun k v => utf8 k /\ utf8 v) m.

Lemma decode_env m j : env_texts m -> j_env j = ∅ -> put_jenv ∅ j = j ->
  decode_members false job_fields (env_member "environment" m) j = Some (put_jenv m j).
Proof.
  intros Hm Hj Hput. unfold env_member. case_bool_decide as He; [subst m; cbn [decode_members]; by rewrite Hput|].
  cbn [decode_members]. change (unquote "environment") with (Some "environment"). cbn [mbind option_bind].
  change (find_field job_fields "environment") with (Some (set_map j_env put_jenv)). cbn [set_map]. rewrite Hj, decode_map_keys.
  - cbn [mbind option_bind]. by rewrite sorted_pairs, map_union_empty.
  - unfold sortedKeys. rewrite (isort_perm String.leb). apply NoDup_elements.
  - apply Forall_forall. intros k [v Hk]%sortedKeys_elem. rewrite Hk. apply (Hm _ _ Hk).
  - intros k _. apply lookup_empty.
Qed.

Lemma wf_env_member m : wf_members (env_member "environment" m).
Proof.
  unfold env_member. case_bool_decide; [apply Forall_nil_2|]. apply wf_member; [done|]. apply wf_obj, Forall_fmap, Forall_forall.
  intros k _. split; apply lexical_escape.
Qed.

(** A field that holds its value is not changed by setting it. *)
Lemma upd_same {F A : Type} `{EqDecision F} (f : F) (a : A) (g : F -> A) : g f = a -> upd f a g = g.
Proof. intros Hg. extensionality x. unfold upd. case_decide; [by subst|done]. Qed.
Lemma put_jstr_same f s j : j_str j f = s -> put_jstr f s j = j.
Proof. destruct j as [a b c d e]. cbn. intros Hs. unfold put_jstr. cbn. by rewrite upd_same. Qed.
Lemma put_jflag_same f s j : j_flag j f = s -> put_jflag f s j = j.
Proof. destruct j as [a b c d e]. cbn. intros Hs. unfold put_jflag. cbn. by rewrite upd_same. Qed.

Ltac decode_job_member :=
  lazymatch goal with
  | |- context [decode_members _ _ (str_member ?k ?s) ?r] =>
      erewrite (decode_str_member _ _ k) by first [reflexivity | eassumption]
  | |- context [decode_members _ _ (omit_string ?k ?s) ?r] =>
      erewrite (decode_omit_string _ _ k) by first [eassumption | (apply put_jstr_same; reflexivity) | reflexivity]
  | |- context [decode_members _ _ (bool_member ?k ?s) ?r] => erewrite (decode_bool_member _ _ k) by reflexivity
  | |- context [decode_members _ _ (time_member ?k ?s) ?r] => erewrite (decode_time_member _ _ k) by first [eassumption | reflexivity]
  | |- context [decode_members _ _ (omit_false ?k ?s) ?r] =>
      erewrite (decode_omit_false _ _ k) by first [(apply put_jflag_same; reflexivity) | reflexivity]
  | |- context [decode_members _ _ (env_member ?k ?s) ?r] => rewrite decode_env by first [eassumption | reflexivity]
  end; cbn [mbind option_bind].
Ltac decode_job := repeat (rewrite decode_members_app; decode_job_member); decode_job_member.

Definition job_texts (w : wire_job) : Prop := (forall f, utf8 (j_str w f)) /\ env_texts (j_env w) /\ valid_time (j_created w) /\ valid_time (j_updated w).

Lemma wire_job_ext w w' : (forall f, j_str w f = j_str w' f) -> (forall f, j_flag w f = j_flag w' f) ->
  j_env w = j_env w' -> j_created w = j_created w' -> j_updated w = j_updated w' -> w = w'.
Proof.
  destruct w, w'. cbn. intros Hs Hf -> -> ->. f_equal; by extensionality x.
Qed.

Lemma job_read_back w : job_texts w -> unmarshal job_fields zero_job (print_json (JObj (job_members w))) = Some w.
Proof.
  destruct w as [str flag env c u]. intros (Ht & He & Hc & Hu). cbn [j_str j_env j_created j_updated] in *.
  pose proof (Ht JID); pose proof (Ht JName); pose proof (Ht JDescription); pose proof (Ht JCommand); pose proof (Ht JWorkingDir);
    pose proof (Ht JUser); pose proof (Ht JExpression); pose proof (Ht JTimezone); pose proof (Ht JSource); pose proof (Ht JType);
    pose proof (Ht JPackageName); pose proof (Ht JLockReason).
  apply object_read_back; unfold job_members; cbn [j_str j_flag j_env j_created j_updated].
  { repeat (apply wf_members_app; [first [apply wf_env_member | auto with opendeploy]|]). auto with opendeploy. }
  decode_job. f_equal. apply wire_job_ext; [intros []; reflexivity|intros []; reflexivity|reflexivity..].
Qed.

Definition unknown_to {R} (fs : fields_of R) (kv : string * json) : Prop := unquote (fst kv) = Some (fst kv) /\ find_field fs (fst kv) = None.

Lemma decode_skipped {R} (fs : fields_of R) l r : Forall (unknown_to fs) l -> decode_members false fs l r = Some r.
Proof.
  induction 1 as [|[k v] l [Hk Hf] Hl IH]; [done|]. cbn [fst] in *. cbn [decode_members]. rewrite Hk. cbn [mbind option_bind]. by rewrite Hf.
Qed.

Ltac skip_member :=
  rewrite decode_skipped; [|unfold omit_string, omit_false, env_member, str_member, bool_member, time_member;
    repeat case_match; first [apply Forall_nil_2 | apply Forall_singleton; split; reflexivity]].

Lemma job_request_decoded w : (forall f, utf8 (j_str w f)) ->
  exists r, decode_members false request_fields (job_members w) zero_request = Some r.
Proof.
  intros Ht. pose proof (Ht JID); pose proof (Ht JName); pose proof (Ht JCommand). unfold job_members. eexists.
  repeat (rewrite decode_members_app; first [erewrite decode_str_member by first [reflexivity | eassumption] | skip_member]; cbn [mbind option_bind]).
  skip_member. reflexivity.
Qed.

Lemma wf_job_members w : wf_members (job_members w).
Proof. unfold job_members. repeat (apply wf_members_app; [first [apply wf_env_member | auto with opendeploy]|]). auto with opendeploy. Qed.

(** A command about a job, carried out. *)
Lemma job_command {A B : Set} kind (c : Job -> host_call (result host_error B)) enc (zero : A) dec j tr a :
  requireCommandCapability Names kind = Ok () ->
  handler_of kind = Some (fun _ payload => with_job instant json_error payload (fun job => answer enc (c job))) ->
  job_texts (wire_of wall j) -> instant (wall (CreatedAt j)) = CreatedAt j -> instant (wall (UpdatedAt j)) = UpdatedAt j ->
  (forall b, wf_json (enc b)) ->
  exec (remote_job (connected Names) serverID json_error kind (wire_of wall j) zero dec) tr a <->
  exists x, tr = [Act (c j) x] /\ a = returned kind enc zero (Some dec) x.
Proof.
  intros Hc Hh Ht H1 H2 He. destruct (job_request_decoded (wire_of wall j)) as [r Hr]; [apply Ht|].
  eapply (call_exec kind _ r (c j) enc); [done|apply wf_job_members|exact Hr|exact Hh| |done].
  unfold with_job. rewrite (job_read_back _ Ht). f_equal. f_equal. destruct j. unfold job_of, wire_of. cbn in *. by rewrite H1, H2.
Qed.

Lemma wf_job_json j : wf_json (job_json wall j).
Proof. apply wf_obj, wf_job_members. Qed.

Lemma wf_validation v : wf_json (validation_json v).
Proof. apply wf_obj. unfold validation_json. apply wf_members_app; [auto with opendeploy|]. destruct (Warnings v); [apply Forall_nil_2|auto with opendeploy]. Qed.

Definition read_job (s : string) : option wire_job := unmarshal job_fields zero_job s.

(** A cron job that is created or changed on a remote server reaches its manager with every
    field as the Core has it, and the job the manager returns comes back with every field. *)
Theorem cron_job_delivered j j' tr a :
  let sent := fun job => job_texts (wire_of wall job) in
  let instants := fun job => instant (wall (CreatedAt job)) = CreatedAt job /\ instant (wall (UpdatedAt job)) = UpdatedAt job in
  sent j -> instants j ->
  (exec (remote_job (connected Names) serverID json_error "cron.create" (wire_of wall j) zero_job read_job) tr a ->
   exists x, tr = [Act (CronCreate_ j) x] /\
     (x = Ok j' -> sent j' -> instants j' -> exists w, a = Ok w /\ job_of instant w = j')) /\
  (exec (remote_job (connected Names) serverID json_error "cron.update" (wire_of wall j) zero_job read_job) tr a ->
   exists x, tr = [Act (CronUpdate_ j) x] /\
     (x = Ok j' -> sent j' -> instants j' -> exists w, a = Ok w /\ job_of instant w = j')).
Proof.
  intros sent instants Hj [H1 H2].
  assert (Hback : sent j' -> instants j' -> forall kind, exists w, returned kind (job_json wall) zero_job (Some read_job) (Ok j') = Ok w /\ job_of instant w = j').
  { intros Hs [H3 H4] kind. exists (wire_of wall j'). cbn [returned]. unfold job_json, read_job. rewrite (job_read_back _ Hs). split; [done|].
    destruct j'. unfold job_of, wire_of. cbn in *. by rewrite H3, H4. }
  split; intros Hx.
  - apply (job_command "cron.create" CronCreate_ (job_json wall)) in Hx as (x & -> & ->); [|reflexivity..|exact Hj|exact H1|exact H2|apply wf_job_json].
    exists x. split; [done|]. intros -> Hs Hi. by apply Hback.
  - apply (job_command "cron.update" CronUpdate_ (job_json wall)) in Hx as (x & -> & ->); [|reflexivity..|exact Hj|exact H1|exact H2|apply wf_job_json].
    exists x. split; [done|]. intros -> Hs Hi. by apply Hback.
Qed.

(** ** Where the place of an Agent does matter *)

(** The paths in a call that writes or reads an archive. *)
Definition archive_paths (ac : action host_call) : option (list string) :=
  match ac with
  | Act (ArchiveCreate_ _ dest paths) _ => Some (dest :: paths)
  | Act (ArchiveExtract_ src dst) _ => Some [src; dst]
  | _ => None
  end.
Definition resolved_in (tr : list (action host_call)) (p : string) : Prop := exists q, In (Act (FsResolve q) (Ok p)) tr.

Lemma resolve_all_exec paths tr r : exec (resolve_all paths) tr r ->
  Forall (fun ac => archive_paths ac = None) tr /\ forall l, r = Ok l -> Forall (resolved_in tr) l.
Proof.
  revert tr r. induction paths as [|p paths IH]; intros tr r; cbn [resolve_all].
  { intros [-> ->]. split; [apply Forall_nil_2|]. intros l [= <-]. apply Forall_nil_2. }
  intros (x & t & -> & Hx). destruct x as [q|e].
  - cbn in Hx. apply exec_bind in Hx as (t1 & t2 & rest & -> & H1 & H2). apply IH in H1 as [Hn Hr].
    assert (t2 = [] /\ r = match rest with Ok l => Ok (q :: l) | Err e => Err e end) as [-> ->] by (by destruct rest, H2 as [-> ->]).
    rewrite app_nil_r. split; [apply Forall_cons_2; [done|done]|]. intros l Hl. destruct rest as [l'|]; [|done]. injection Hl as <-.
    apply Forall_cons_2; [exists p; by left|]. eapply Forall_impl; [by apply Hr|]. intros y [z Hz]. exists z. by right.
  - destruct Hx as [-> ->]. split; [by apply Forall_singleton|done].
Qed.

Lemma plainly_exec {A : Set} (p : host_prog (result string A)) tr a : exec (plainly p) tr a -> exists r, exec p tr r /\ a = map_err Plain r.
Proof. intros (t1 & t2 & r & -> & Hr & [-> ->])%exec_bind. rewrite app_nil_r. eauto. Qed.

(** Archive calls of a local operation name only resolved paths. *)
Definition confined (tr : list (action host_call)) : Prop :=
  forall ac ps, In ac tr -> archive_paths ac = Some ps -> Forall (resolved_in tr) ps.

Lemma confined_none tr : Forall (fun ac => archive_paths ac = None) tr -> confined tr.
Proof. intros Hn ac ps Hin Hp. rewrite List.Forall_forall in Hn. by rewrite (Hn _ Hin) in Hp. Qed.

Lemma confined_last tr ac : Forall (fun ac => archive_paths ac = None) tr ->
  (forall ps, archive_paths ac = Some ps -> Forall (resolved_in tr) ps) -> confined (tr ++ [ac])%list.
Proof.
  intros Hn Ha ac' ps Hin Hp. apply in_app_or in Hin as [Hin|[<-|[]]].
  - rewrite List.Forall_forall in Hn. by rewrite (Hn _ Hin) in Hp.
  - eapply Forall_impl; [by apply Ha|]. intros p [q Hq]. exists q. apply in_or_app. by left.
Qed.

Lemma guarded_one {A : Set} (c : host_call (result host_error A)) tr r : exec (guarded_call c) tr r -> exists x, tr = [Act c x].
Proof. intros (x & t & -> & -> & ->). by exists x. Qed.

Lemma create_confined paths dst tr r : exec (server_ArchiveCreate paths dst) tr r -> confined tr.
Proof.
  intros (x & t & -> & Hx). destruct x as [dest|e]; [|destruct Hx as [-> ->]; apply confined_none; by apply Forall_singleton].
  cbn in Hx. apply exec_bind in Hx as (t1 & t2 & res & -> & H1 & H2). apply resolve_all_exec in H1 as [Hn Hr].
  change (Act (FsResolve dst) (Ok dest) :: t1 ++ t2)%list with ((Act (FsResolve dst) (Ok dest) :: t1) ++ t2)%list.
  assert (Hn' : Forall (fun ac => archive_paths ac = None) (Act (FsResolve dst) (Ok dest : result host_error string) :: t1)) by by apply Forall_cons_2.
  destruct res as [l|e]; [|destruct H2 as [-> ->]; rewrite app_nil_r; by apply confined_none].
  destruct (archive_format dest) as [format|]; [|destruct H2 as [-> ->]; rewrite app_nil_r; by apply confined_none].
  apply guarded_one in H2 as [x ->]. apply confined_last; [done|]. intros ps [= <-].
  apply Forall_cons_2; [exists dst; by left|]. eapply Forall_impl; [by apply Hr|]. intros p [q Hq]. exists q. by right.
Qed.

Lemma extract_resolved src dst tr r : exec (server_ArchiveExtract src dst) tr r -> confined tr.
Proof.
  intros (x & t & -> & Hx). destruct x as [source|e]; [|destruct Hx as [-> ->]; apply confined_none; by apply Forall_singleton].
  cbn in Hx. destruct Hx as (y & t2 & -> & Hy). destruct y as [dest|e].
  2: { destruct Hy as [-> ->]. apply confined_none. by repeat apply Forall_cons_2. }
  apply guarded_one in Hy as [x ->].
  change [Act (FsResolve src) (Ok source : result host_error string); Act (FsResolve dst) (Ok dest : result host_error string); Act (ArchiveExtract_ source dest) x]
    with ([Act (FsResolve src) (Ok source : result host_error string); Act (FsResolve dst) (Ok dest : result host_error string)] ++ [Act (ArchiveExtract_ source dest) x])%list.
  apply confined_last; [by repeat apply Forall_cons_2|]. intros ps [= <-].
  repeat apply Forall_cons_2; [exists src; by left|exists dst; right; by left|apply Forall_nil_2].
Qed.

(** The boundaries of the file system hold for archives on the local Agent only.  There,
    every path of an archive that is written or extracted is one the file manager resolved below
    its roots, in every execution; over the control plane, the paths of the request go to the
    archive manager as they are, whatever they name. *)
Theorem archives_confined_locally_only paths src dst :
  (forall tr a, exec (local pkgs _ (ArchiveCreateOp paths dst)) tr a -> confined tr) /\
  (forall tr a, exec (local pkgs _ (ArchiveExtractOp src dst)) tr a -> confined tr) /\
  (utf8 src -> utf8 dst -> Forall (fun p => utf8 p) paths -> forall x : result host_error (),
   (exists a, exec (remote (connected Names) serverID json_error _ (ArchiveExtractOp src dst)) [Act (ArchiveExtract_ src dst) x] a) /\
   (exists a, exec (remote (connected Names) serverID json_error _ (ArchiveCreateOp paths dst))
      [Act (ArchiveCreate_ (archiveFormat dst) dst paths) x] a)).
Proof.
  split; [|split].
  - intros tr a (r & Hr & _)%plainly_exec. by eapply create_confined.
  - intros tr a (r & Hr & _)%plainly_exec. by eapply extract_resolved.
  - intros Hs Hd Hp x. split; eexists.
    + eapply (call_exec "archive.extract" _ _ (ArchiveExtract_ src dst) nothing);
        [reflexivity|wf_all|decode_all; reflexivity|reflexivity|reflexivity|apply wf_nothing|exists x; split; reflexivity].
    + eapply (call_exec "archive.create" _ _ (ArchiveCreate_ (archiveFormat dst) dst paths) nothing);
        [reflexivity|wf_all|decode_all; reflexivity|reflexivity|reflexivity|apply wf_nothing|exists x; split; reflexivity].
Qed.

(** A command for a remote Agent is refused before it is sent: no capability is registered for
    it. *)
Theorem remote_command_refused capabilities command args tr a :
  exec (remote (connected capabilities) serverID json_error _ (CommandExecute_ command args)) tr a ->
  tr = [] /\ exists e, a = Err (App e) /\ HTTPStatus e = 501%Z /\ Code e = CodeCapabilityUnavailable.
Proof.
  cbn [remote remote_CommandExecute]. unfold remote_CommandExecute, call_, connected. intros [-> ->]. split; [done|]. eexists. split; [done|]. done.
Qed.

(** The package operations of the local Agent never fail: the error that ends the stream is not
    looked at.  A remote Agent reports it. *)
Theorem failed_installation_hidden pkg e : utf8 pkg -> pkgs = true ->
  exec (local pkgs _ (PackageInstall_ pkg)) [Act (PkgInstall pkg) (Err e)] (Ok []) /\
  exists err, exec (remote (connected Names) serverID json_error _ (PackageInstall_ pkg)) [Act (PkgInstall pkg) (Err e)] (Err err).
Proof.
  intros Hu Hp. split.
  - cbn [local]. unfold plainly, client_package, packageOutput, server_package, streamPackage. rewrite Hp. cbn. by exists (Err e), [].
  - eexists. cbn [remote]. unfold remote_package, packageOperation.
    eapply (call_exec "package.install" _ _ (PkgInstall pkg) strings_json);
      [reflexivity|wf_all|decode_all; reflexivity|reflexivity|by cbn; rewrite Hp|apply wf_strings_json|].
    exists (Err e). split; [done|]. reflexivity.
Qed.

Definition kill_answer (tr : list (action host_call)) : option (result host_error ()) :=
  match tr with Act (StatsKill _ _) x :: _ => Some x | _ => None end.

Lemma local_kill_exec pid force tr a : (- 2 ^ 31 <= pid <= 2 ^ 31 - 1)%Z ->
  exec (plainly (client_ProcessKill pid force)) tr a -> exists x, tr = [Act (StatsKill pid force) x] /\
    a = map_err Plain (map_err (fun e => if he_protected e
      then "rpc error: code = FailedPrecondition desc = process is protected; use service management for system services"
      else internalError) x).
Proof.
  intros Hb. unfold client_ProcessKill, checkedInt32.
  assert (((pid <? - 2 ^ 31) || (2 ^ 31 - 1 <? pid))%Z = false) as -> by lia.
  unfold plainly, server_ProcessKill. cbn [call bind]. intros (x & t & -> & -> & ->). by exists x.
Qed.

(** That a process is protected, which the Core answers as a conflict, is only told by a local
    Agent: it returns the status FailedPrecondition, a remote one the text of the manager's
    error. *)
Theorem protected_process_told_locally pid force e a b :
  (- 2 ^ 31 <= pid <= 2 ^ 31 - 1)%Z -> he_protected e = true ->
  exec (local pkgs _ (ProcessKill_ pid force)) [Act (StatsKill pid force) (Err e)] a ->
  exec (remote (connected Names) serverID json_error _ (ProcessKill_ pid force)) [Act (StatsKill pid force) (Err e)] b ->
  a = Err (Plain "rpc error: code = FailedPrecondition desc = process is protected; use service management for system services") /\
  b = Err (Plain (he_text e)).
Proof.
  cbn [local remote]. intros Hb He (x & Hx & ->)%local_kill_exec (y & Hy & ->)%kill_exec; [|done..].
  apply (f_equal kill_answer) in Hx as [= <-], Hy as [= <-]. cbn [map_err returned]. by rewrite He.
Qed.

(** The sub-state of a service is lost on the way from a remote Agent: it is sent under the name
    of the field and read under the tag of another struct. *)
Theorem remote_status_without_substate name s :
  utf8 name -> Forall (fun x => utf8 x) [ss_Name s; ss_Description s; ss_SubState s] -> is_int64 (ss_MainPID s) ->
  exec (remote (connected Names) serverID json_error _ (ServiceStatus_ name)) [Act (SystemdStatus name) (Ok s)]
    (Ok {| cs_Name := ss_Name s; cs_Active := ss_Active s; cs_Enabled := ss_Enabled s; cs_Description := ss_Description s; cs_SubState := "" |}).
Proof.
  rewrite !Forall_cons. intros Hu (Hn & Hd & Hs & _) H64. cbn [remote]. unfold remote_ServiceStatus.
  assert (Hw : forall b, wf_members (status_members b)).
  { intros b. unfold status_members. do 5 (apply wf_members_app; [auto with opendeploy|]).
    apply wf_members_app; [apply wf_member; [done|]; destruct (ss_Since b); [apply time_lexical|done]|]. wf_all. }
  eapply (call_exec "service.status" _ _ (SystemdStatus name) status_json);
    [reflexivity|wf_all|decode_all; reflexivity|reflexivity|reflexivity|intros b; apply wf_obj, Hw|].
  exists (Ok s). split; [done|]. cbn [returned]. unfold status_json. erewrite object_read_back; [reflexivity|apply Hw|].
  unfold status_members. do 5 (rewrite decode_members_app; decode_member; cbn [mbind option_bind]).
  rewrite decode_skipped; [reflexivity|]. repeat apply Forall_cons_2; try apply Forall_nil_2; split; reflexivity.
Qed.
End delivery.

Section witness.
#[local] Existing Instance unicode_ascii.

Notation a_wall := (fun _ : Z => zero_time).
Notation an_instant := (fun _ : time => 0%Z).


Definition nightly : Job := {|
  ID := "nightly"; Name := "Nightly <backup>"; Description := ""; Command := "/usr/bin/true"; WorkingDir := "/srv"; User := "root";
  Environment := {[ "LANG" := "C"; "PATH" := "/usr/bin" ]}; Expression := "0 3 * * *"; Timezone := "UTC"; Enabled := true;
  CreatedAt := 0; UpdatedAt := 0; Cron.Source := ""; ReadOnly := false; Type_ := "USER"; PackageName := ""; IsProtected := false;
  CanEdit := true; CanDelete := false; LockReason := "" |}.

Lemma nightly_texts : job_texts (wire_of a_wall nightly).
Proof.
  split; [intros []; reflexivity|]. split; [|split; by apply (bool_decide_unpack _)].
  apply map_Forall_insert_2; [done|]. by apply map_Forall_singleton.
Qed.

Definition created_answer (tr : list (action host_call)) : option (result host_error Job) :=
  match tr with Act (CronCreate_ _) x :: _ => Some x | _ => None end.

Lemma nightly_created : exists a,
  exec (remote_job (connected a_wall an_instant a_wall "bad" true Names) "server-1" "bad" "cron.create" (wire_of a_wall nightly) zero_job read_job)
    [Act (CronCreate_ nightly) (Ok nightly)] a.
Proof.
  eexists. eapply (job_command a_wall an_instant a_wall "bad" true "server-1" "cron.create" CronCreate_ (job_json a_wall));
    [reflexivity|reflexivity|apply nightly_texts|reflexivity|reflexivity|apply wf_job_json|]. by exists (Ok nightly).
Qed.

Lemma cron_job_delivered_witness : exists w,
  exec (remote_job (connected a_wall an_instant a_wall "bad" true Names) "server-1" "bad" "cron.create" (wire_of a_wall nightly) zero_job read_job)
    [Act (CronCreate_ nightly) (Ok nightly)] (Ok w) /\ job_of an_instant w = nightly.
Proof.
  destruct nightly_created as [a Ha].
  destruct (cron_job_delivered a_wall an_instant a_wall "bad" true "server-1" nightly nightly [Act (CronCreate_ nightly) (Ok nightly)] a) as [H _].
  - apply nightly_texts.
  - split; reflexivity.
  - destruct (H Ha) as (x & Htr & Hx). apply (f_equal created_answer) in Htr. injection Htr as <-.
    destruct (Hx eq_refl nightly_texts (conj eq_refl eq_refl)) as (w & -> & Hw). exists w. split; [exact Ha|exact Hw].
Defined.
End witness.
