(* ===== verification/Host.v ===== *)
(** * The Agent's managers of the host

    Services (internal/agent/systemd), packages (internal/agent/packages), the streams of
    long commands (executor/shell.go), the runtime of sites (internal/agent/siteruntime) and
    the end of processes (internal/agent/stats).  Every command goes through [Run] or
    [Stream] of the executor, which refuse what the validator refuses; what a started process
    does, and what the kernel answers, is arbitrary. *)

From S2P Require Import Prelude GoStrings GoStrconv GoPath GoRegexp GoTime Effects Executor Filesystem AgentApi.
Local Open Scope string_scope.
Local Open Scope go_scope.

(** ** Calls *)

(** What a started process writes and how it ends: the chunks its two pipes deliver, the
    error of [cmd.Wait], the messages of each reader that are taken before the context is done,
    the order in which the two readers send, and whether the channel has room at the end. *)
Record running := {
  rn_stdout : list string; rn_stderr : list string; rn_wait : option string;
  rn_take_out : nat -> bool; rn_take_err : nat -> bool; rn_order : list bool; rn_room : bool }.

Inductive stat_answer := StatMode (socket : bool) | StatNotExist | StatFailed (e : string).

(** An account of the host: [user.User]. *)
Record account := { Uid : string; Gid : string }.

Inductive os_call : Set -> Set :=
| SysStdoutPipe : os_call (result string ())
| SysStderrPipe : os_call (result string ())
| SysStart (deadline : Z) (binary : string) (args env : list string) : os_call (result string running)
| SysLookPath (name : string) : os_call bool
| SysUserLookup (name : string) : os_call (option account)
| SysStat (path : string) : os_call stat_answer
| SysParseAddress (text : string) : os_call (option string)
| SysGet (url host : string) : os_call (result string (Z * option string))
| SysGetpid : os_call Z
| SysNewProcess (pid : Z) : os_call (result string ())
| SysProcName (pid : Z) : os_call string
| SysProcCmdline (pid : Z) : os_call string
| SysReadCgroup (pid : Z) : os_call (option string)
| SysSignal (pid : Z) (force : bool) : os_call (result string ()).

(** A call of any of the three: the executor, the file manager, or one of the above. *)
Definition host_sys (X : Set) : Set := (exec_call X + fs_call X + os_call X)%type.

Definition sys_exec {X : Set} (c : exec_call X) : host_sys X := inl (inl c).
Definition sys_file {X : Set} (c : fs_call X) : host_sys X := inl (inr c).
Definition sys_os {X : Set} (c : os_call X) : host_sys X := inr c.

Notation sys_prog A := (prog host_sys A).

Definition shell {A} (p : prog exec_call A) : sys_prog A := interp (fun X c => call (sys_exec c)) p.
Definition files {A} (p : prog fs_call A) : sys_prog A := interp (fun X c => call (sys_file c)) p.

(** ** Streams of a command *)

(** Messages of two senders, [order] saying whose turn is next while both have some. *)
Fixpoint merged (order : list bool) (a b : list string) : list string :=
  match order, a, b with
  | true :: order', x :: a', _ => x :: merged order' a' b
  | false :: order', _, y :: b' => y :: merged order' a b'
  | _ :: order', [], _ | _ :: order', _, [] => merged order' a b
  | [], _, _ => (a ++ b)%list
  end.

(** What the channel of a stream delivers before it is closed. *)
Definition delivered (r : running) : list string :=
  (merged (rn_order r)
     (streamLines (rn_take_out r) "" (rn_stdout r))
     (streamLines (rn_take_err r) "[stderr] " (rn_stderr r)) ++
   match rn_wait r with
   | Some _ => if rn_room r then ["[stderr] process exited unsuccessfully"] else []
   | None => []
   end)%list.

Inductive stream_error :=
| StreamRejected (e : validator_error)
| StdoutPipeError (e : string)
| StderrPipeError (e : string)
| StartError (binary e : string).

Section host.
Context `{Unicode}.
(** The deadline of the request. *)
Context (ctx : option Z).

(** source: internal/agent/executor/shell.go:291-336 (Stream): the result is what the channel
    delivers *)
Definition Stream (binary : string) (args : list string) : sys_prog (result stream_error (list string)) :=
  match Validate binary args with
  | Err e => Ret (Err (StreamRejected e))
  | Ok _ =>
      let! now := call (sys_exec TimeNow) in
      let deadline := withCommandTimeout ctx now binary in
      wrap! StdoutPipeError of _ := call (sys_os SysStdoutPipe) in
      wrap! StderrPipeError of _ := call (sys_os SysStderrPipe) in
      wrap! (StartError binary) of r :=
        call (sys_os (SysStart deadline binary args (restrictedEnvironment restrictedPath))) in
      Ret (Ok (delivered r))
  end.

Definition run_shell (binary : string) (args : list string) : sys_prog (option Result * option shell_error) :=
  shell (Executor.Run ctx binary args).

(** ** Services *)

Inductive systemd_error := SystemdFailed (action name : string) (e : shell_error).

(** One command, its error wrapped. *)
Definition systemctl_once (action name : string) : sys_prog (result systemd_error ()) :=
  let! (_, err) := run_shell "systemctl" [action; name] in
  Ret (match err with None => Ok () | Some e => Err (SystemdFailed action name e) end).

(** A command that is tried again after a reload of the units. *)
Definition systemctl_retry (action name : string) : sys_prog (result systemd_error ()) :=
  let! (_, err) := run_shell "systemctl" [action; name] in
  match err with
  | None => Ret (Ok ())
  | Some _ =>
      ignore! run_shell "systemctl" ["daemon-reload"] in
      let! (_, errRetry) := run_shell "systemctl" [action; name] in
      Ret (match errRetry with None => Ok () | Some e => Err (SystemdFailed action name e) end)
  end.

(** source: internal/agent/systemd/manager.go:40-51 (Start) *)
Definition Start (name : string) := systemctl_retry "start" name.
(** source: internal/agent/systemd/manager.go:54-60 (Stop) *)
Definition Stop (name : string) := systemctl_once "stop" name.
(** source: internal/agent/systemd/manager.go:63-73 (Restart) *)
Definition Restart (name : string) := systemctl_retry "restart" name.
(** source: internal/agent/systemd/manager.go:76-82 (Reload) *)
Definition Reload (name : string) := systemctl_once "reload" name.
(** source: internal/agent/systemd/manager.go:85-95 (Enable) *)
Definition Enable (name : string) := systemctl_retry "enable" name.
(** source: internal/agent/systemd/manager.go:98-104 (Disable) *)
Definition Disable (name : string) := systemctl_once "disable" name.
(** source: internal/agent/systemd/manager.go:107-113 (Mask) *)
Definition Mask (name : string) := systemctl_once "mask" name.
(** source: internal/agent/systemd/manager.go:116-122 (Unmask) *)
Definition Unmask (name : string) := systemctl_once "unmask" name.

(** One line of [systemctl show]: [SplitN(line, "=", 2)] and the switch on the key. *)
Section show.
(** [time.Parse] with the layout of systemd, which depends on the zone of the host. *)
Context (parse_stamp : string -> option time).

(** source: internal/agent/systemd/manager.go:145-161 (Status, one line of the properties) *)
Definition show_line (st : string * Z * option time) (line : string) : string * Z * option time :=
  let '(subState, mainPID, since) := st in
  match cut "=" line with
  | (_, None) => st
  | (k, Some v) =>
      let key := trim_space k in
      let val := trim_space v in
      if String.eqb key "SubState" then (val, mainPID, since)
      else if String.eqb key "MainPID" then
        (subState, match atoi val with Some pid => pid | None => mainPID end, since)
      else if String.eqb key "ActiveEnterTimestamp" then
        (subState, mainPID, match parse_stamp val with Some t => Some t | None => since end)
      else st
  end.

(** source: internal/agent/systemd/manager.go:125-173 (Status) *)
Definition Status (name : string) : sys_prog (result systemd_error service_status) :=
  let! (activeResult, _) := run_shell "systemctl" ["is-active"; name] in
  let! (enabledResult, _) := run_shell "systemctl" ["is-enabled"; name] in
  let! (showResult, _) := run_shell "systemctl" ["show"; "-p"; "SubState,MainPID,ActiveEnterTimestamp"; name] in
  let active := match activeResult with
    | Some r => String.eqb (trim_space (Stdout r)) "active" | None => false end in
  let enabled := match enabledResult with
    | Some r => String.eqb (trim_space (Stdout r)) "enabled" | None => false end in
  let '(subState, mainPID, since) :=
    match showResult with
    | Some r => fold_left show_line (split nl (Stdout r)) ("", 0%Z, None)
    | None => ("", 0%Z, None)
    end in
  Ret (Ok {| ss_Name := name; ss_Active := active; ss_Enabled := enabled; ss_SubState := subState;
             ss_Description := ""; ss_Since := since; ss_MainPID := mainPID |}).
End show.

(** source: internal/agent/systemd/manager.go:176-187 (Logs) *)
Definition Logs (name : string) (lines : Z) : sys_prog (result systemd_error (list string)) :=
  let! (res, err) := run_shell "journalctl" ["-u"; name; "-n"; itoa lines; "--no-pager"; "-o"; "short"] in
  Ret (match err, res with
       | Some e, _ => Err (SystemdFailed "logs" name e)
       | None, Some r => Ok (split nl (trim_space (Stdout r)))
       | None, None => Ok []
       end).

(** ** Packages *)

Inductive package_error :=
| PackageStream (tool action pkg : string) (e : stream_error)
| PackageShell (tool action pkg : string) (e : shell_error)
| PackageBare (e : shell_error)
| VersionNotFound (pkg : string)
| NoPackageManager.

Notation pkg_prog A := (sys_prog (result package_error A)).

(** source: internal/agent/packages/manager.go:16-25 (Manager) *)
Record Manager := {
  Install : string -> pkg_prog (list string);
  Remove : string -> pkg_prog (list string);
  Purge : string -> pkg_prog (list string);
  Update : string -> pkg_prog (list string);
  Upgrade : pkg_prog (list string);
  Search : string -> pkg_prog string;
  Installed : string -> pkg_prog (bool * string);
  LatestVersion : string -> pkg_prog string;
}.

Definition streaming (tool action pkg binary : string) (args : list string) : pkg_prog (list string) :=
  wrap! (PackageStream tool action pkg) of ch := Stream binary args in Ret (Ok ch).

(** The output of a command that returned no error. *)
Definition output_of (r : option Result) : string := match r with Some r => Stdout r | None => "" end.

Definition asking (tool action pkg binary : string) (args : list string) : pkg_prog string :=
  let! (res, err) := run_shell binary args in
  Ret (match err with
       | Some e => Err (PackageShell tool action pkg e)
       | None => Ok (output_of res)
       end).

(** source: internal/agent/packages/manager.go:61-67 (aptManager.Install) *)
Definition apt_Install (pkg : string) := streaming "apt" "install" pkg "apt-get" ["install"; "-y"; "-q"; pkg].
(** source: internal/agent/packages/manager.go:69-75 (aptManager.Remove) *)
Definition apt_Remove (pkg : string) := streaming "apt" "remove" pkg "apt-get" ["remove"; "-y"; pkg].
(** source: internal/agent/packages/manager.go:77-83 (aptManager.Update) *)
Definition apt_Update (pkg : string) := streaming "apt" "update" pkg "apt-get" ["install"; "-y"; "--upgrade"; pkg].
(** source: internal/agent/packages/manager.go:85-91 (aptManager.Purge) *)
Definition apt_Purge (pkg : string) := streaming "apt" "purge" pkg "apt-get" ["remove"; "--purge"; "-y"; pkg].
(** source: internal/agent/packages/manager.go:93-99 (aptManager.Upgrade) *)
Definition apt_Upgrade : pkg_prog (list string) := streaming "apt" "upgrade" "" "apt-get" ["upgrade"; "-y"; "-q"].
(** source: internal/agent/packages/manager.go:101-107 (aptManager.Search) *)
Definition apt_Search (pkg : string) := asking "apt" "search" pkg "apt" ["search"; pkg].

(** source: internal/agent/packages/manager.go:109-120 (aptManager.LatestVersion) *)
Definition apt_LatestVersion (pkg : string) : pkg_prog string :=
  try! out := asking "apt" "show" pkg "apt" ["show"; pkg] in
  Ret (match List.find (fun line => has_prefix line "Version: ") (split nl out) with
       | Some line => Ok (trim_prefix line "Version: ")
       | None => Err (VersionNotFound pkg)
       end).

(** The first line of a listing that names [pkg], and the version on it. *)
Definition listed_version (sep : string) (pkg out : string) : option string :=
  match List.find (fun line => has_prefix line (pkg ++ sep) || has_prefix line (pkg ++ " ")) (split nl out) with
  | Some line => Some (match fields line with _ :: version :: _ => version | _ => "" end)
  | None => None
  end.

(** The last part of both [Installed]: Node.js is also looked for outside the packages. *)
Definition installed_node (pkg : string) : pkg_prog (bool * string) :=
  if String.eqb pkg "nodejs" then
    let! (res, err) := run_shell "node" ["--version"] in
    Ret (Ok (match err with
             | None => (true, trim_space (trim_prefix (output_of res) "v"))
             | Some _ => (false, "")
             end))
  else Ret (Ok (false, "")).

(** source: internal/agent/packages/manager.go:122-142 (aptManager.Installed) *)
Definition apt_Installed (pkg : string) : pkg_prog (bool * string) :=
  let! (res, err) := run_shell "apt" ["list"; "--installed"; pkg] in
  match err with
  | Some e => Ret (Err (PackageBare e))
  | None =>
      match listed_version "/" pkg (output_of res) with
      | Some version => Ret (Ok (true, version))
      | None => installed_node pkg
      end
  end.

(** source: internal/agent/packages/manager.go:57-59 (NewAPT) *)
Definition NewAPT : Manager := {|
  Install := apt_Install; Remove := apt_Remove; Purge := apt_Purge; Update := apt_Update;
  Upgrade := apt_Upgrade; Search := apt_Search; Installed := apt_Installed; LatestVersion := apt_LatestVersion |}.

Section dnf.
(** "dnf" or "yum" *)
Context (bin : string).

(** source: internal/agent/packages/manager.go:162-168 (dnfManager.Install) *)
Definition dnf_Install (pkg : string) := streaming bin "install" pkg bin ["install"; "-y"; pkg].
(** source: internal/agent/packages/manager.go:170-176 (dnfManager.Remove) *)
Definition dnf_Remove (pkg : string) := streaming bin "remove" pkg bin ["remove"; "-y"; pkg].
(** source: internal/agent/packages/manager.go:178-184 (dnfManager.Update) *)
Definition dnf_Update (pkg : string) := streaming bin "update" pkg bin ["update"; "-y"; pkg].
(** source: internal/agent/packages/manager.go:186-188 (dnfManager.Purge) *)
Definition dnf_Purge (pkg : string) := dnf_Remove pkg.
(** source: internal/agent/packages/manager.go:190-196 (dnfManager.Upgrade) *)
Definition dnf_Upgrade : pkg_prog (list string) := streaming bin "upgrade" "" bin ["upgrade"; "-y"].
(** source: internal/agent/packages/manager.go:198-204 (dnfManager.Search) *)
Definition dnf_Search (pkg : string) := asking bin "search" pkg bin ["search"; pkg].

(** source: internal/agent/packages/manager.go:210-218 (dnfManager.LatestVersion, the loop) *)
Fixpoint dnf_version (lines : list string) : option string :=
  match lines with
  | [] => None
  | line :: rest =>
      if has_prefix line "Version" then
        match split ":" line with
        | [_; v] => Some (trim_space v)
        | _ => dnf_version rest
        end
      else dnf_version rest
  end.

(** source: internal/agent/packages/manager.go:206-220 (dnfManager.LatestVersion) *)
Definition dnf_LatestVersion (pkg : string) : pkg_prog string :=
  try! out := asking bin "info" pkg bin ["info"; pkg] in
  Ret (match dnf_version (split nl out) with Some v => Ok v | None => Err (VersionNotFound pkg) end).

(** source: internal/agent/packages/manager.go:222-242 (dnfManager.Installed) *)
Definition dnf_Installed (pkg : string) : pkg_prog (bool * string) :=
  let! (res, err) := run_shell bin ["list"; "--installed"] in
  match err with
  | Some e => Ret (Err (PackageBare e))
  | None =>
      match listed_version "." pkg (output_of res) with
      | Some version => Ret (Ok (true, version))
      | None => installed_node pkg
      end
  end.

Definition dnf_manager : Manager := {|
  Install := dnf_Install; Remove := dnf_Remove; Purge := dnf_Purge; Update := dnf_Update;
  Upgrade := dnf_Upgrade; Search := dnf_Search; Installed := dnf_Installed; LatestVersion := dnf_LatestVersion |}.
End dnf.

(** source: internal/agent/packages/manager.go:153-155 (NewDNF) *)
Definition NewDNF : Manager := dnf_manager "dnf".
(** source: internal/agent/packages/manager.go:158-160 (NewYUM) *)
Definition NewYUM : Manager := dnf_manager "yum".

(** source: internal/agent/packages/manager.go:28-42 (Detect) *)
Definition Detect : pkg_prog Manager :=
  let! apt := call (sys_os (SysLookPath "apt-get")) in
  if apt then Ret (Ok NewAPT) else
  let! dnf := call (sys_os (SysLookPath "dnf")) in
  if dnf then Ret (Ok NewDNF) else
  let! yum := call (sys_os (SysLookPath "yum")) in
  if yum then Ret (Ok NewYUM) else Ret (Err NoPackageManager).

(** ** The runtime of sites *)

Inductive runtime_error :=
| RootOutside | NoWebAccount | InvalidWebAccount | SocketOutside | StatError (e : string)
| InvalidProbeDomain | ProbeFailed (e : string)
| InvalidCertificateDomain | WebrootOutside | InvalidEmail | CertbotFailed
| RuntimeFiles (e : fs_error).

(** source: internal/agent/siteruntime/manager.go:138-141 (below) *)
Definition path_below (candidate root : string) : bool :=
  let c := clean candidate in
  negb (String.eqb c root) && has_prefix c (root ++ "/").

(** source: internal/agent/siteruntime/manager.go:21 (domainPattern): the pattern of the executor *)
Definition domainPattern : re := safeHost.

(** source: internal/agent/siteruntime/manager.go:134-136 (validDomain) *)
Definition validDomain (domain : string) : bool :=
  (len domain <=? 253)%Z && match_string domainPattern domain && negb (contains domain "..").

Section runtime.
Context (m : Filesystem.Manager) (v : fs_view).

Fixpoint first_account (names : list string) : sys_prog (result runtime_error account) :=
  match names with
  | [] => Ret (Err NoWebAccount)
  | name :: rest =>
      let! found := call (sys_os (SysUserLookup name)) in
      match found with Some a => Ret (Ok a) | None => first_account rest end
  end.

(** source: internal/agent/siteruntime/manager.go:61-69 (lookupWebAccount) *)
Definition lookupWebAccount : sys_prog (result runtime_error account) :=
  first_account ["www-data"; "nginx"; "apache"].

(** source: internal/agent/siteruntime/manager.go:42-59 (PrepareRoot) *)
Definition PrepareRoot (path : string) : sys_prog (result runtime_error ()) :=
  if negb (path_below path "/var/www") then Ret (Err RootOutside) else
  wrap! RuntimeFiles of _ := files (MkdirAll m v path 493) in
  try! a := lookupWebAccount in
  match atoi (Uid a), atoi (Gid a) with
  | Some uid, Some gid => wrap! RuntimeFiles of _ := files (Chown m v path uid gid) in Ret (Ok ())
  | _, _ => Ret (Err InvalidWebAccount)
  end.

(** source: internal/agent/siteruntime/manager.go:71-83 (SocketExists) *)
Definition SocketExists (path : string) : sys_prog (result runtime_error bool) :=
  if negb (path_below path "/run/php") then Ret (Err SocketOutside) else
  let! info := call (sys_os (SysStat path)) in
  Ret (match info with
       | StatNotExist => Ok false
       | StatFailed e => Err (StatError e)
       | StatMode socket => Ok socket
       end).

(** source: internal/agent/siteruntime/manager.go:85-103 (HTTPProbe): the request of a constant
    address cannot fail to be built; the answer is the status and the error of closing the body *)
Definition HTTPProbe (domain : string) : sys_prog (result runtime_error Z) :=
  if negb (validDomain domain) then Ret (Err InvalidProbeDomain) else
  let! response := call (sys_os (SysGet "http://127.0.0.1/" domain)) in
  Ret (match response with
       | Err e => Err (ProbeFailed e)
       | Ok (_, Some e) => Err (ProbeFailed e)
       | Ok (statusCode, None) => Ok statusCode
       end).

(** source: internal/agent/siteruntime/manager.go:121-126 (ObtainCertificate, the arguments) *)
Definition certbot_args (domain webroot email : string) : list string :=
  (["certonly"; "--webroot"; "-w"; webroot; "-d"; domain; "--agree-tos"; "-n"] ++
   if String.eqb email "" then ["--register-unsafely-without-email"] else ["-m"; email])%list.

(** source: internal/agent/siteruntime/manager.go:105-132 (ObtainCertificate) *)
Definition ObtainCertificate (domain webroot email : string) : sys_prog (result runtime_error ()) :=
  if negb (validDomain domain) then Ret (Err InvalidCertificateDomain) else
  if negb (path_below webroot "/var/www") then Ret (Err WebrootOutside) else
  let! address := if String.eqb email "" then Ret (Some email) else call (sys_os (SysParseAddress email)) in
  if negb (bool_decide (address = Some email)) then Ret (Err InvalidEmail) else
  wrap! RuntimeFiles of _ := files (MkdirAll m v webroot 493) in
  let! (res, err) := run_shell "certbot" (certbot_args domain webroot email) in
  Ret (match err, res with
       | None, Some r => if (ExitCode r =? 0)%Z then Ok () else Err CertbotFailed
       | _, _ => Err CertbotFailed
       end).
End runtime.

(** ** Processes *)

Inductive kill_error := Protected (reason : string) | KillFailed (e : string).

(** source: internal/agent/stats/process_protection.go:16-27 (protectedProcessNames) *)
Definition protectedProcessNames : list string :=
  ["init"; "systemd"; "systemd-journald"; "systemd-logind"; "systemd-networkd"; "systemd-resolved";
   "sshd"; "opendeploy-agent"; "opendeploy-core"; "opendeploy-update"].

(** source: internal/agent/stats/process_protection.go:62-72 (protectedNameReason) *)
Definition protectedNameReason (name : string) : string :=
  let name := trim_space (trim_suffix name ".service") in
  if existsb (String.eqb name) protectedProcessNames then name ++ " is a critical process"
  else if has_prefix name "kworker" || has_prefix name "migration/" || has_prefix name "watchdog/" then
    "Linux kernel processes are protected"
  else "".

Definition protected_command (cmdline : string) : bool :=
  contains cmdline "/opendeploy-agent" || contains cmdline "/opendeploy-core" ||
  contains cmdline "opendeploy update --apply".

(** source: internal/agent/stats/process_protection.go:29-60 (protectedProcessReason) *)
Definition protectedProcessReason (pid : Z) : sys_prog string :=
  if (pid <=? 0)%Z then Ret "PID must be positive" else
  if (pid =? 1)%Z then Ret "PID 1 is the init process" else
  let! self := call (sys_os SysGetpid) in
  if (pid =? self)%Z then Ret "the Agent cannot terminate itself" else
  let! proc := call (sys_os (SysNewProcess pid)) in
  match proc with
  | Err _ => Ret ""
  | Ok _ =>
      let! name := call (sys_os (SysProcName pid)) in
      let reason := protectedNameReason name in
      if negb (String.eqb reason "") then Ret reason else
      let! cmdline := call (sys_os (SysProcCmdline pid)) in
      if protected_command cmdline then Ret "OpenDeploy processes are protected" else
      let! cgroup := call (sys_os (SysReadCgroup pid)) in
      match cgroup with
      | Some text =>
          if contains text ".service" then Ret "systemd-managed processes must be controlled through Services"
          else Ret ""
      | None => Ret ""
      end
  end.

(** source: internal/agent/stats/collector.go:433-445 (KillProcess) *)
Definition KillProcess (pid : Z) (force : bool) : sys_prog (result kill_error ()) :=
  let! reason := protectedProcessReason pid in
  if negb (String.eqb reason "") then Ret (Err (Protected reason)) else
  wrap! KillFailed of _ := call (sys_os (SysNewProcess pid)) in
  wrap! KillFailed of _ := call (sys_os (SysSignal pid force)) in
  Ret (Ok ()).
End host.
