(* ===== verification/HostSpec.v ===== *)
(** * The managers of the host: what they keep to

    Every request to a manager, whatever the host answers, starts only commands the validator
    accepts and touches only files and processes it may.  The status of a service never has
    the properties it asks for, as the command that reads them is refused. *)

From S2P Require Import Prelude GoStrings GoStrconv GoPath GoRegexp GoTime Effects Executor Filesystem AgentApi Host.
Local Open Scope string_scope.
Local Open Scope go_scope.

(** ** Every call of every manager *)

(** The requests to the managers. *)
Inductive host_request :=
| ReqService (action : string) (retry : bool) (name : string)
| ReqStatus (name : string)
| ReqLogs (name : string) (lines : Z)
| ReqInstall (pkg : string) | ReqRemove (pkg : string) | ReqPurge (pkg : string)
| ReqUpdate (pkg : string) | ReqUpgrade | ReqSearch (pkg : string)
| ReqInstalled (pkg : string) | ReqLatest (pkg : string)
| ReqPrepareRoot (path : string) | ReqSocket (path : string) | ReqProbe (domain : string)
| ReqCertificate (domain webroot email : string)
| ReqKill (pid : Z) (force : bool).

Create HintDb guarded.

(** Through the parts of a manager's operation. *)
Ltac as_calls := match goal with |- always ?P (fun _ => True) ?p => change (calls P p) end.
Ltac walk_guarded := repeat (calls_walk; cbn -[calls Validate Stream run_shell files]; auto with guarded).

Section requests.
Context `{Unicode}.
Context (ctx : option Z) (parse_stamp : string -> option time).
Context (m : Filesystem.Manager) (v : fs_view).

Definition done_ {E A} (p : sys_prog (result E A)) : sys_prog () := ignore! p in Ret ().

(** A request to a package manager goes to the one that is detected. *)
Definition with_manager {A} (f : Manager -> sys_prog (result package_error A)) : sys_prog () :=
  done_ (bind_err (Detect ctx) f).

Definition handle (r : host_request) : sys_prog () :=
  match r with
  | ReqService action retry name =>
      done_ (if retry then systemctl_retry ctx action name else systemctl_once ctx action name)
  | ReqStatus name => done_ (Status ctx parse_stamp name)
  | ReqLogs name lines => done_ (Logs ctx name lines)
  | ReqInstall pkg => with_manager (fun pm => Install pm pkg)
  | ReqRemove pkg => with_manager (fun pm => Remove pm pkg)
  | ReqPurge pkg => with_manager (fun pm => Purge pm pkg)
  | ReqUpdate pkg => with_manager (fun pm => Update pm pkg)
  | ReqUpgrade => with_manager Upgrade
  | ReqSearch pkg => with_manager (fun pm => Search pm pkg)
  | ReqInstalled pkg => with_manager (fun pm => Installed pm pkg)
  | ReqLatest pkg => with_manager (fun pm => LatestVersion pm pkg)
  | ReqPrepareRoot path => done_ (PrepareRoot m v path)
  | ReqSocket path => done_ (SocketExists path)
  | ReqProbe domain => done_ (HTTPProbe domain)
  | ReqCertificate domain webroot email => done_ (ObtainCertificate ctx m v domain webroot email)
  | ReqKill pid force => done_ (KillProcess pid force)
  end.

(** [p] is rooted, and strictly below [root] once it is cleaned. *)
Definition strictly_below (root : list string) (p : string) : Prop :=
  rooted p = true /\ exists l, l <> [] /\ clean_comps p = (root ++ l)%list.

Definition started (binary : string) (args env : list string) : Prop :=
  Validate binary args = Ok () /\ env = restrictedEnvironment "/usr/sbin:/usr/bin:/sbin:/bin".

(** What each call of a manager may be. *)
Definition sys_guarded (X : Set) (c : host_sys X) : Prop :=
  match c with
  | inl (inl TimeNow) => True
  | inl (inl (CmdRun _ binary args env)) => started binary args env
  | inl (inr e) => safe_call m v e
  | inr (SysStart _ binary args env) => started binary args env
  | inr (SysStat path) => strictly_below ["run"; "php"] path
  | inr (SysGet url host) => url = "http://127.0.0.1/" /\ plain_host host
  | inr (SysSignal pid _) => (1 < pid)%Z
  | inr _ => True
  end.

Lemma run_shell_guarded binary args : calls sys_guarded (run_shell ctx binary args).
Proof.
  eapply calls_interp; [|exact (always_mono _ _ _ (fun _ => True) _ (fun X e H => H) (fun _ _ => I) (run_guarded ctx binary args))].
  intros X c Hc. apply calls_call. destruct c as [|deadline b a env]; [exact I|]. cbn in *. unfold started. naive_solver.
Qed.

Lemma Stream_guarded binary args : calls sys_guarded (Stream ctx binary args).
Proof.
  unfold Stream. destruct (Validate binary args) as [[]|e] eqn:Hv; [|exact I].
  calls_walk; cbn; try exact I. all: apply calls_call; by split.
Qed.

Lemma path_below_comps root l p :
  root = abs l -> Forall good_comp l -> l <> [] -> path_below p root = true -> strictly_below l p.
Proof.
  intros -> Hl Hne. unfold path_below. intros [Hn%negb_true_iff%String.eqb_neq Hp]%andb_true_iff.
  destruct (rooted p) eqn:Hr.
  - rewrite (clean_rooted p Hr) in Hp. pose proof (clean_comps_good p Hr) as Hg.
    split; [done|]. by apply (has_prefix_abs l (clean_comps p) Hl Hg Hne).
  - apply clean_unrooted in Hr. apply has_prefix_iff in Hp as [t Ht]. rewrite Ht in Hr. unfold rooted, abs in Hr. by rewrite !str_app_assoc, has_prefix_app in Hr.
Qed.

Lemma files_guarded {A} (p : prog fs_call A) : calls (@safe_call m v) p -> calls sys_guarded (files p).
Proof. apply calls_interp. intros X c Hc. by apply calls_call. Qed.

Lemma validDomain_plain domain : validDomain domain = true -> plain_host domain.
Proof.
  unfold validDomain. intros [[_ (Hne & Hlen & Hb)%safeHost_spec]%andb_true_iff Hdd%negb_true_iff]%andb_true_iff. by split_and!.
Qed.

Lemma mkdir_guarded path mode : calls sys_guarded (files (MkdirAll m v path mode)).
Proof.
  apply files_guarded, always_mode; [done|]. intros Hm Hw. apply always_secure; [done|]. intros c Hc. split; [|by intros []].
  split; [by left|done].
Qed.

Lemma chown_guarded path uid gid : calls sys_guarded (files (Chown m v path uid gid)).
Proof.
  apply files_guarded, always_secure; [done|]. intros c Hc. destruct (_ || _) eqn:Hid; [exact I|].
  split; [|by intros []]. split; [done|]. cbn. lia.
Qed.

Lemma lookup_guarded : calls sys_guarded lookupWebAccount.
Proof. unfold lookupWebAccount. cbn [first_account]. calls_walk. Qed.

Hint Resolve run_shell_guarded Stream_guarded mkdir_guarded chown_guarded lookup_guarded : guarded.

(** What every package manager keeps to. *)
Record manager_ok (pm : Manager) : Prop := {
  Install_ok pkg : calls sys_guarded (Install pm pkg);
  Remove_ok pkg : calls sys_guarded (Remove pm pkg);
  Purge_ok pkg : calls sys_guarded (Purge pm pkg);
  Update_ok pkg : calls sys_guarded (Update pm pkg);
  Upgrade_ok : calls sys_guarded (Upgrade pm);
  Search_ok pkg : calls sys_guarded (Search pm pkg);
  Installed_ok pkg : calls sys_guarded (Installed pm pkg);
  LatestVersion_ok pkg : calls sys_guarded (LatestVersion pm pkg);
}.

Lemma asking_guarded tool action pkg binary args : calls sys_guarded (asking ctx tool action pkg binary args).
Proof. unfold asking. walk_guarded. Qed.

Lemma node_guarded pkg : calls sys_guarded (installed_node ctx pkg).
Proof. unfold installed_node. walk_guarded. Qed.
Hint Resolve asking_guarded node_guarded : guarded.

Lemma apt_ok : manager_ok (NewAPT ctx).
Proof.
  split; intros; cbn [NewAPT Install Remove Purge Update Upgrade Search Installed LatestVersion];
    unfold apt_Install, apt_Remove, apt_Purge, apt_Update, apt_Upgrade, apt_Search, apt_Installed, apt_LatestVersion, streaming;
    walk_guarded.
Qed.

Lemma dnf_ok bin : manager_ok (dnf_manager ctx bin).
Proof.
  split; intros; cbn [dnf_manager Install Remove Purge Update Upgrade Search Installed LatestVersion];
    unfold dnf_Purge, dnf_Install, dnf_Remove, dnf_Update, dnf_Upgrade, dnf_Search, dnf_Installed, dnf_LatestVersion, streaming;
    walk_guarded.
Qed.

Lemma Detect_ok : always sys_guarded (fun r => forall pm, r = Ok pm -> manager_ok pm) (Detect ctx).
Proof.
  split; [exact I|]. intros []; [intros pm [= <-]; apply apt_ok|].
  do 2 (split; [exact I|]; intros []; [intros pm [= <-]; apply dnf_ok|]). done.
Qed.

Lemma with_manager_guarded {A} (f : Manager -> sys_prog (result package_error A)) :
  (forall pm, manager_ok pm -> calls sys_guarded (f pm)) -> calls sys_guarded (with_manager f).
Proof.
  intros Hf. apply calls_bind; [|by intros]. eapply always_bind; [apply Detect_ok|]. intros [pm|e] Hpm; [|exact I]. by apply Hf, Hpm.
Qed.

Lemma reason_guarded pid : always sys_guarded (fun reason => reason = "" -> (1 < pid)%Z) (protectedProcessReason pid).
Proof.
  unfold protectedProcessReason. destruct (pid <=? 0)%Z eqn:H0; [done|]. destruct (pid =? 1)%Z eqn:H1; [done|].
  assert (Hp : (1 < pid)%Z) by lia. apply (always_mono sys_guarded _ (fun _ => True)); [done|done|].
  as_calls. walk_guarded.
Qed.

(** Every request to a manager makes only guarded calls, whatever the host answers. *)
Theorem host_confined r : calls sys_guarded (handle r).
Proof.
  destruct r as [action [] name|name|name lines|pkg|pkg|pkg|pkg| |pkg|pkg|pkg|path|path|domain|domain webroot email|pid force];
    cbn [handle]; try (by apply with_manager_guarded; intros pm []; auto); unfold done_.
  - unfold systemctl_retry. walk_guarded.
  - unfold systemctl_once. walk_guarded.
  - unfold Status. walk_guarded.
  - unfold Logs. walk_guarded.
  - unfold PrepareRoot. walk_guarded.
  - unfold SocketExists. destruct (path_below path _) eqn:Hp; cbn [negb]; [|exact I]. walk_guarded. apply calls_call.
    by eapply path_below_comps; [|repeat constructor|..|exact Hp].
  - unfold HTTPProbe. destruct (validDomain domain) eqn:Hd; cbn [negb]; [|exact I]. walk_guarded. apply calls_call.
    split; [done|by apply validDomain_plain].
  - unfold ObtainCertificate. walk_guarded.
  - unfold KillProcess. apply calls_bind; [|by intros]. eapply always_bind; [apply reason_guarded|].
    intros reason Hr. destruct (String.eqb_spec reason "") as [->|]; [|exact I]. as_calls. walk_guarded. apply calls_call. by apply Hr.
Qed.

(** ** Services *)

(** The command that reads the properties of a unit is refused: its operand has commas. *)
Lemma show_refused name : exists e, Validate "systemctl" ["show"; "-p"; "SubState,MainPID,ActiveEnterTimestamp"; name] = Err e.
Proof.
  destruct (Validate _ _) as [[]|e] eqn:Hv; [|by exists e].
  apply validate_general in Hv as (a & _ & _ & _ & Ho); [|done..].
  apply for_each_ok in Ho. apply Forall_inv_tail, Forall_inv_tail, Forall_inv in Ho. discriminate Ho.
Qed.

Theorem status_without_substate name :
  always (fun _ _ => True)
    (fun r => exists active enabled, r = Ok {|
       ss_Name := name; ss_Active := active; ss_Enabled := enabled; ss_SubState := ""; ss_Description := "";
       ss_Since := None; ss_MainPID := 0 |})
    (Status ctx parse_stamp name).
Proof.
  unfold Status, run_shell. destruct (show_refused name) as [e He].
  assert (Hall : forall b a, always (fun _ _ => True) (fun _ => True) (shell (Executor.Run ctx b a))).
  { intros b a. apply (calls_interp _ _ (fun _ _ => True)); [intros; by apply calls_call|].
    eapply always_mono; [| |apply run_guarded]; done. }
  eapply always_bind; [apply Hall|]. intros [active ?] _. eapply always_bind; [apply Hall|]. intros [enabled ?] _.
  unfold Executor.Run. rewrite He. cbn. eauto.
Qed.

(** ** Processes *)

(** The process a call signals, and whether it is killed. *)
Definition signal_of (ac : action host_sys) : option (Z * bool) :=
  match ac with
  | Act (inr (SysSignal pid force)) _ => Some (pid, force)
  | _ => None
  end.

(** What is known when nothing protects a process, by the calls that were made. *)
Definition unprotected (pid : Z) (tr : list (action host_sys)) : Prop :=
  (1 < pid)%Z /\
  (exists self, In (Act (sys_os SysGetpid) self) tr /\ self <> pid) /\
  ((exists e, In (Act (sys_os (SysNewProcess pid)) (Err e)) tr) \/
   exists name cmdline cgroup,
     In (Act (sys_os (SysProcName pid)) name) tr /\ protectedNameReason name = "" /\
     In (Act (sys_os (SysProcCmdline pid)) cmdline) tr /\ protected_command cmdline = false /\
     In (Act (sys_os (SysReadCgroup pid)) cgroup) tr /\
     (forall text, cgroup = Some text -> contains text ".service" = false)).

Lemma reason_exec pid tr reason :
  exec (protectedProcessReason pid) tr reason ->
  Forall (fun ac => signal_of ac = None) tr /\ (reason = "" -> unprotected pid tr).
Proof.
  unfold protectedProcessReason, unprotected.
  destruct (pid <=? 0)%Z eqn:H0; [intros [-> ->]; by split|].
  destruct (pid =? 1)%Z eqn:H1; [intros [-> ->]; by split|]. cbn.
  intros (self & tr1 & -> & Hx). destruct (pid =? self)%Z eqn:H2; [destruct Hx as [-> ->]; split; [by repeat constructor|done]|].
  assert (Hself : exists self', In (Act (sys_os SysGetpid) self') (Act (sys_os SysGetpid) self :: tr1) /\ self' <> pid)
    by (exists self; split; [by left|lia]).
  destruct Hx as ([[]|e] & tr2 & -> & Hx); [|destruct Hx as [-> ->]].
  2:{ split; [by repeat constructor|]. intros _. split_and!; [lia|done|]. left. exists e. right. by left. }
  destruct Hx as (name & tr3 & -> & Hx). destruct (String.eqb_spec (protectedNameReason name) "") as [Hn|Hn].
  2:{ destruct Hx as [-> ->]. split; [by repeat constructor|done]. }
  destruct Hx as (cmdline & tr4 & -> & Hx). destruct (protected_command cmdline) eqn:Hc.
  { destruct Hx as [-> ->]. split; [by repeat constructor|done]. }
  destruct Hx as (cgroup & tr5 & -> & Hx).
  assert (Ht : tr5 = []) by (destruct cgroup as [text|]; [destruct (contains text _)|]; by destruct Hx).
  subst tr5. split; [by repeat constructor|]. intros ->. split_and!; [lia|done|]. right. exists name, cmdline, cgroup. cbn.
  split_and!; auto 8. intros text ->. by destruct (contains text ".service"); [destruct Hx|].
Qed.

Theorem kill_spares pid force tr r ac pid' force' :
  exec (KillProcess pid force) tr r -> In ac tr -> signal_of ac = Some (pid', force') ->
  pid' = pid /\ force' = force /\ unprotected pid tr.
Proof.
  unfold KillProcess. intros (t1 & t2 & reason & -> & H1 & H2)%exec_bind Hin Hs.
  apply reason_exec in H1 as [Hquiet Hr]. destruct (String.eqb_spec reason "") as [->|]; [|].
  2:{ destruct H2 as [-> _]. rewrite app_nil_r in Hin. rewrite List.Forall_forall in Hquiet. by rewrite (Hquiet _ Hin) in Hs. }
  specialize (Hr eq_refl).
  assert (Hs' : pid' = pid /\ force' = force).
  { apply in_app_iff in Hin as [Hin|Hin].
    - rewrite List.Forall_forall in Hquiet. by rewrite (Hquiet _ Hin) in Hs.
    - set (P := fun X (c : host_sys X) => match c with inr (SysSignal p f) => p = pid /\ f = force | _ => True end).
      apply (always_exec P (fun _ => True)) in H2 as [_ H2]; [|as_calls; calls_walk; apply calls_call; done].
      rewrite List.Forall_forall in H2. specialize (H2 _ Hin). destruct ac as [X c x].
      destruct c as [c|c]; [done|]. destruct c; cbn in Hs; try done. by injection Hs as <- <-. }
  destruct Hs' as [-> ->]. split_and!; [done|done|]. unfold unprotected in *. setoid_rewrite in_app_iff. naive_solver.
Qed.

(** ** Certificates *)

(** The command a call starts. *)
Definition command_of (ac : action host_sys) : option (string * list string) :=
  match ac with
  | Act (inl (inl (CmdRun _ binary args _))) _ | Act (inr (SysStart _ binary args _)) _ => Some (binary, args)
  | _ => None
  end.

(** Every call that starts a command starts this one, which the validator accepts. *)
Definition starts_only (binary : string) (args : list string) (X : Set) (c : host_sys X) : Prop :=
  forall x, command_of (Act c x) = None \/ command_of (Act c x) = Some (binary, args) /\ Validate binary args = Ok ().

Lemma run_shell_starts binary args : calls (starts_only binary args) (run_shell ctx binary args).
Proof.
  eapply calls_interp; [|exact (always_mono _ _ _ (fun _ => True) _ (fun X e H => H) (fun _ _ => I) (run_guarded ctx binary args))].
  intros X c Hc. apply calls_call. intros x. destruct c as [|deadline b a env]; [by left|]. right. cbn. naive_solver.
Qed.

Lemma files_starts binary args {A} (p : prog fs_call A) : calls (starts_only binary args) (files p).
Proof.
  apply (calls_interp _ _ (fun _ _ => True)).
  - intros X c _. apply calls_call. intros x. by left.
  - induction p as [|X c k IH]; [exact I|]. split; [done|]. apply IH.
Qed.

Lemma certbot_operand args i arg :
  Validate "certbot" args = Ok () -> args !! i = Some arg -> plain_operand arg \/ listed_flag "certbot" arg.
Proof.
  intros Hv Hi. apply validate_general in Hv as (a & Ha & Hb & Hf & _); [|done..].
  pose proof (proj1 (for_each_prev_ok _ _ _) Hf i arg Hi) as Harg.
  destruct (validateArg_spec _ _ _ _ Ha Hb Harg) as [_ [(? & _)|[?|?]]]; [done|by right|by left].
Qed.

Lemma rooted_not_flag binary arg : rooted arg = true -> ~ listed_flag binary arg.
Proof. intros Hr [Hp _]. apply has_prefix_iff in Hr as [t ->]. apply has_prefix_iff in Hp as [u [=]]. Qed.

(** The one command the manager of site runtimes starts. *)
Theorem certificate_command domain webroot email tr r ac binary args :
  exec (ObtainCertificate ctx m v domain webroot email) tr r -> In ac tr -> command_of ac = Some (binary, args) ->
  binary = "certbot" /\ args = certbot_args domain webroot email /\ plain_host domain /\
  strictly_below ["var"; "www"] webroot /\ plain_operand webroot /\
  (email = "" \/ In (Act (sys_os (SysParseAddress email)) (Some email)) tr /\
   (plain_operand email \/ listed_flag "certbot" email)).
Proof.
  unfold ObtainCertificate. destruct (validDomain domain) eqn:Hd; [|by intros [-> _]].
  destruct (path_below webroot _) eqn:Hw; [|by intros [-> _]]. cbn [negb]. rewrite exec_bind.
  intros (t1 & t2 & address & -> & Ha & Hx) Hin Hac.
  assert (H1 : In ac t1 -> False).
  { intros Hi. destruct (String.eqb email ""); [by destruct Ha as [-> _]|]. apply Effects.exec_call in Ha as ->.
    by destruct Hi as [<-|[]]. }
  case_bool_decide as Heq; [|destruct Hx as [-> _]; rewrite app_nil_r in Hin; tauto]. subst address.
  apply (always_exec (starts_only "certbot" (certbot_args domain webroot email)) (fun _ => True)) in Hx as [_ Hx].
  2:{ as_calls. calls_walk; auto using files_starts, run_shell_starts. }
  apply in_app_iff in Hin as [Hin|Hin]; [tauto|]. rewrite List.Forall_forall in Hx. specialize (Hx _ Hin).
  destruct ac as [X c x]. destruct (Hx x) as [Hn|[Hs Hv]]; [congruence|]. rewrite Hs in Hac. injection Hac as <- <-.
  apply validDomain_plain in Hd. apply (path_below_comps _ ["var"; "www"]) in Hw; [|by repeat constructor..].
  split_and!; [done..| |].
  { destruct (certbot_operand _ 3 webroot Hv eq_refl) as [|Hl]; [done|]. by apply rooted_not_flag in Hl; [|apply Hw]. }
  destruct (String.eqb_spec email "") as [->|Hne]; [by left|]. right. apply Effects.exec_call in Ha as ->.
  split; [by left|]. apply (certbot_operand _ 9 email Hv). unfold certbot_args. by rewrite (proj2 (String.eqb_neq _ _) Hne).
Qed.
End requests.

#[export] Hint Resolve run_shell_guarded Stream_guarded : guarded.

(** ** Streams *)

(** The list is made of the two others, each in its order. *)
Inductive shuffle {A} : list A -> list A -> list A -> Prop :=
| shuffle_nil : shuffle [] [] []
| shuffle_left x a b c : shuffle a b c -> shuffle (x :: a) b (x :: c)
| shuffle_right x a b c : shuffle a b c -> shuffle a (x :: b) (x :: c).

Lemma shuffle_app {A} (a b : list A) : shuffle a b (a ++ b).
Proof. induction a as [|x a IH]; simpl; [|by constructor]. induction b; by constructor. Qed.

Lemma merged_shuffle order a b : shuffle a b (merged order a b).
Proof.
  revert a b. induction order as [|[] order IH]; intros a b; cbn [merged]; [apply shuffle_app|..].
  - destruct a as [|x a]; [apply IH|]. constructor. apply IH.
  - destruct b as [|x b]; [destruct a; apply IH|]. destruct a; constructor; apply IH.
Qed.

Lemma streamLines_ext f g prefix chunks :
  (forall n, f n = g n) -> streamLines f prefix chunks = streamLines g prefix chunks.
Proof.
  intros Hfg. assert (Hsend : forall sent msg, try_send f sent msg = try_send g sent msg)
    by (intros; unfold try_send; by rewrite Hfg).
  assert (Hbyte : forall st b, stream_byte f prefix st b = stream_byte g prefix st b)
    by (intros [] b; unfold stream_byte; by rewrite ?Hsend).
  assert (Hbytes : forall l st, fold_left (stream_byte f prefix) l st = fold_left (stream_byte g prefix) l st).
  { induction l as [|b l IH]; intros st; cbn; [done|]. by rewrite Hbyte, IH. }
  unfold streamLines. generalize (Reading "" 0 []). induction chunks as [|c chunks IH]; intros st; cbn.
  - unfold stream_eof. destruct st; by rewrite ?Hsend.
  - by rewrite Hbytes, IH.
Qed.

(** The messages of a command that is streamed to a receiver that keeps up. *)
Theorem stream_delivers `{Unicode} ctx binary args tr ch :
  exec (Stream ctx binary args) tr (Ok ch) ->
  exists deadline env r, In (Act (sys_os (SysStart deadline binary args env)) (Ok r)) tr /\
    ((forall n, rn_take_out r n = true) -> (forall n, rn_take_err r n = true) ->
     (len (concat_all (rn_stdout r)) <= maxCommandOutput)%Z -> (len (concat_all (rn_stderr r)) <= maxCommandOutput)%Z ->
     exists mixed, shuffle (lines (concat_all (rn_stdout r)))
                     (String.append "[stderr] " <$> lines (concat_all (rn_stderr r))) mixed /\
       (ch = mixed \/ ch = (mixed ++ ["[stderr] process exited unsuccessfully"])%list /\ is_Some (rn_wait r))).
Proof.
  unfold Stream. destruct (Validate binary args) as [[]|e]; [|by intros [_ [=]]]. cbn.
  intros (now & tr1 & -> & Hx). do 2 (destruct Hx as ([[]|e] & ? & -> & Hx); [|by destruct Hx as [_ [=]]]).
  destruct Hx as ([r|e] & tr4 & -> & Hx); [|by destruct Hx as [_ [=]]]. destruct Hx as [-> [= ->]].
  eexists _, _, r. split; [by right; right; right; left|]. intros Ho He Hlo Hle.
  unfold delivered. rewrite (streamLines_ext _ (fun _ => true) "" _ Ho), (streamLines_ext _ (fun _ => true) _ _ He).
  rewrite !stream_lines_exact by done. eexists. split; [apply merged_shuffle|].
  replace (String.append "" <$> lines _) with (lines (concat_all (rn_stdout r))) by (symmetry; apply list_fmap_id).
  destruct (rn_wait r) as [e|]; [destruct (rn_room r)|]; rewrite ?app_nil_r; [by right|by left..].
Qed.
