(* ===== verification/AgentHost.v ===== *)
(** * A request of the Core, down to the host

    The client, the service and the managers of the Agent put together: what an operation of
    [agent_op] makes the machine do when the Agent is on the same host.  [answer] gives each
    call of the service to the manager that serves it; cron jobs, nginx sites and statistics,
    which the local client does not ask for, stay calls. *)

From S2P Require Import Prelude GoStrings GoStrconv GoPath GoTime GoJson Effects AppErrors Executor Filesystem Archive Ufw AgentApi Host HostSpec.
Local Open Scope string_scope.
Local Open Scope go_scope.

(** What the machine is asked: calls of the managers of Host, of the archive manager, and the
    requests that are not followed further. *)
Definition machine (X : Set) : Set := (host_sys X + ar_call X + host_call X)%type.

Definition of_host {A} (p : sys_prog A) : prog machine A := interp (fun X c => call (inl (inl c) : machine X)) p.
Definition of_archive {A} (p : prog ar_call A) : prog machine A := interp (fun X c => call (inl (inr c) : machine X)) p.

Section answer.
Context `{Unicode}.
(** The deadline of the request, [time.Parse], the file manager and the links it finds. *)
Context (ctx : option Z) (parse_stamp : string -> option time) (m : Filesystem.Manager) (v : fs_view).
(** The package manager that was found when the Agent started. *)
Context (pm : option Manager).
(** The texts of errors, and which mean that a file does not exist. *)
Context (error_text : forall E : Type, E -> string) (not_exist : fs_error -> bool).

Definition failed {E} (e : E) : host_error := {| he_text := error_text E e; he_not_exist := false; he_protected := false |}.
Definition fs_failed (e : fs_error) : host_error :=
  {| he_text := error_text fs_error e; he_not_exist := not_exist e; he_protected := false |}.
Definition kill_failed (e : kill_error) : host_error :=
  {| he_text := error_text kill_error e; he_not_exist := false;
     he_protected := match e with Protected _ => true | KillFailed _ => false end |}.

Definition served {E A} (f : E -> host_error) (p : sys_prog (result E A)) : prog machine (result host_error A) :=
  let! r := of_host p in Ret (map_err f r).

Definition on_files {A} (p : prog fs_call (result fs_error A)) : prog machine (result host_error A) :=
  served fs_failed (files p).

Definition firewalled {A} (p : prog exec_call (result fw_error A)) : prog machine (result host_error A) :=
  served failed (shell p).

Definition of_manager {A : Set} (c : host_call (result host_error A)) (f : Manager -> sys_prog (result package_error A)) :
    prog machine (result host_error A) :=
  match pm with Some pm => served failed (f pm) | None => call (inr c : machine _) end.

Definition answer (X : Set) (c : host_call X) : prog machine X :=
  match c in host_call X return prog machine X with
  | SystemdVerb VStart name => served failed (Start ctx name)
  | SystemdVerb VStop name => served failed (Stop ctx name)
  | SystemdVerb VRestart name => served failed (Restart ctx name)
  | SystemdVerb VEnable name => served failed (Enable ctx name)
  | SystemdVerb VDisable name => served failed (Disable ctx name)
  | SystemdVerb VReload name => served failed (Reload ctx name)
  | SystemdStatus name => served failed (Host.Status ctx parse_stamp name)
  | SystemdLogs name lines => served failed (Logs ctx name lines)
  | ShellRun binary args =>
      let! (res, err) := of_host (run_shell ctx binary args) in
      Ret ((fun r => {| cr_exit := ExitCode r; cr_stdout := Stdout r; cr_stderr := Stderr r |}) <$> res, failed <$> err)
  | PkgInstall pkg => of_manager (PkgInstall pkg) (fun pm => Install pm pkg)
  | PkgRemove pkg => of_manager (PkgRemove pkg) (fun pm => Remove pm pkg)
  | PkgUpdate pkg => of_manager (PkgUpdate pkg) (fun pm => Update pm pkg)
  | PkgInstalled pkg => of_manager (PkgInstalled pkg) (fun pm => Installed pm pkg)
  | FsRead path => on_files (Filesystem.Read m v path)
  | FsWrite path content mode => on_files (Write m v path content mode)
  | FsDelete path => on_files (Filesystem.Delete m v path)
  | FsRename old new => on_files (Rename m v old new)
  | FsCopy src dst => on_files (Copy m v src dst)
  | FsChmod path mode => on_files (Chmod m v path mode)
  | FsChown path uid gid => on_files (Chown m v path uid gid)
  | FsMkdirAll path mode => on_files (MkdirAll m v path mode)
  | FsList path => on_files (Filesystem.List m v path)
  | FsResolve path => Ret (map_err fs_failed (Resolve m v path))
  | ArchiveCreate_ format dest paths => let! r := of_archive (Archive.Create format dest paths) in Ret (map_err failed r)
  | ArchiveExtract_ src dst => let! r := of_archive (Extract src dst) in Ret (map_err failed r)
  | FwStatus => firewalled (Ufw.Status ctx)
  | FwList => firewalled (Ufw.List_ ctx)
  | FwAddRule r => firewalled (AddRule ctx r)
  | FwDeleteRule id => firewalled (DeleteRule ctx id)
  | FwToggle enable => firewalled (Toggle ctx enable)
  | FwReset => firewalled (Reset ctx)
  | SitePrepareRoot path => served failed (PrepareRoot m v path)
  | SiteSocketExists path => served failed (SocketExists path)
  | SiteProbe domain => served failed (HTTPProbe domain)
  | SiteCertificate domain webroot email => served failed (ObtainCertificate ctx m v domain webroot email)
  | StatsKill pid force => served kill_failed (KillProcess pid force)
  | c => call (inr c : machine _)
  end.

(** An operation of the Core on the Agent of the same host. *)
Definition performed {X : Set} (op : agent_op X) : prog machine X :=
  interp answer (local (bool_decide (is_Some pm)) X op).
End answer.

(** ** What a request of the Core can make the host do

    The theorems on the validator, the file manager, the archives and the managers of the host,
    put together along the whole way of a request. *)

(** *** Programs inside programs *)

Lemma always_bind_inv {E : Set -> Set} {A B} (P : forall X, E X -> Prop) (Q : B -> Prop) (p : prog E A) (f : A -> prog E B) :
  always P Q (bind p f) -> always P (fun a => always P Q (f a)) p.
Proof. induction p as [a|X c k IH]; cbn [bind always]; [done|]. intros [Hc Hk]. split; [done|]. intros x. apply IH, Hk. Qed.

Lemma always_interp_bind {E F : Set -> Set} {A B} (h : forall X, E X -> prog F X) (P : forall X, F X -> Prop)
    (Q : A -> Prop) (R : B -> Prop) (p : prog E A) (f : A -> prog E B) :
  always P Q (interp h p) -> (forall a, Q a -> always P R (interp h (f a))) -> always P R (interp h (bind p f)).
Proof.
  intros Hp Hf. induction p as [a|X c k IH]; cbn [bind interp] in *; [by apply Hf|].
  eapply always_bind; [exact (always_bind_inv _ _ _ _ Hp)|]. cbn. intros x Hx. by apply IH.
Qed.

Lemma interp_call_always {E F : Set -> Set} {X : Set} (h : forall X, E X -> prog F X) (P : forall X, F X -> Prop)
    (Q : X -> Prop) (c : E X) :
  always P Q (h X c) -> always P Q (interp h (call c)).
Proof. intros Hc. cbn [call interp]. eapply always_bind; [exact Hc|]. done. Qed.

Lemma always_of_host {A} (Q : A -> Prop) (p : sys_prog A) :
  always (fun _ _ => True) Q p -> always (fun _ _ => True) Q (of_host p).
Proof. induction p as [a|X c k IH]; [done|]. intros [_ Hk]. split; [done|]. intros x. apply IH, Hk. Qed.

Section confined.
Context `{Unicode}.
Context (ctx : option Z) (parse_stamp : string -> option time) (m : Filesystem.Manager) (v : fs_view).
Context (pm : option Manager) (error_text : forall E : Type, E -> string) (not_exist : fs_error -> bool).

Notation inside := (within (resolvedRoots m v)).
Notation guarded := (sys_guarded m v).
Notation answer := (answer ctx parse_stamp m v pm error_text not_exist).
Notation performed := (performed ctx parse_stamp m v pm error_text not_exist).

(** The tools that make archives get a destination and sources inside the allowed roots;
    an extraction stays below a destination inside them. *)
Definition archive_guarded {X : Set} (c : ar_call X) : Prop :=
  match c with
  | CmdOutput command args _ =>
      exists format dest paths, create_command format dest paths = Some (command, args) /\ inside dest /\ Forall inside paths
  | _ => exists destination, inside destination /\ extract_call_ok destination c
  end.

Definition machine_guarded (X : Set) (c : machine X) : Prop :=
  match c with
  | inl (inl c) => guarded X c
  | inl (inr c) => archive_guarded c
  | inr _ => False
  end.

Lemma of_host_guarded {A} (p : sys_prog A) : calls guarded p -> calls machine_guarded (of_host p).
Proof. apply calls_interp. intros X c Hc. by apply calls_call. Qed.

Lemma served_guarded {E A} (f : E -> host_error) (p : sys_prog (result E A)) :
  calls guarded p -> calls machine_guarded (served f p).
Proof. intros Hp. apply calls_bind; [by apply of_host_guarded|]. by intros. Qed.

Lemma shell_guarded {A} (p : prog exec_call A) :
  calls (fun X c => guarded X (sys_exec c)) p -> calls guarded (shell p).
Proof. apply calls_interp. intros X c Hc. by apply calls_call. Qed.

Lemma request_guarded (r : host_request) {E A} (p : sys_prog (result E A)) :
  handle ctx parse_stamp m v r = done_ p -> calls guarded p.
Proof.
  intros Heq. pose proof (host_confined ctx parse_stamp m v r) as Hh. rewrite Heq in Hh. clear Heq. revert Hh. unfold done_.
  induction p as [a|X c k IH]; [intros _; exact I|]. intros [Hc Hk]. split; [done|]. intros x. apply IH, Hk.
Qed.

(** *** The firewall *)

Notation exec_guarded := (fun (X : Set) (c : exec_call X) => guarded X (sys_exec c)).

Lemma ufw_guarded args : calls exec_guarded (ufw ctx args).
Proof.
  unfold ufw. apply calls_bind; [|by intros [? ?]]. eapply always_mono; [| |apply run_guarded]; [|done].
  intros X [|deadline b a env]; [done|]. intros (-> & -> & Hv & ->). by split.
Qed.
Hint Resolve ufw_guarded : guarded.

Lemma List_guarded : calls exec_guarded (Ufw.List_ ctx).
Proof. unfold Ufw.List_. walk_guarded. Qed.
Lemma DeleteRule_guarded id : calls exec_guarded (DeleteRule ctx id).
Proof. unfold DeleteRule. walk_guarded. Qed.
Lemma addRule_guarded r : calls exec_guarded (addRule ctx r).
Proof. unfold addRule. walk_guarded. Qed.
Hint Resolve List_guarded DeleteRule_guarded addRule_guarded : guarded.
Lemma Status_guarded : calls exec_guarded (Ufw.Status ctx).
Proof. unfold Ufw.Status. walk_guarded. Qed.
Hint Resolve Status_guarded : guarded.
Lemma AddRule_guarded r : calls exec_guarded (AddRule ctx r).
Proof. unfold AddRule, updateRule, deleteMatchingReplacement. walk_guarded. Qed.
Lemma Toggle_guarded enable : calls exec_guarded (Toggle ctx enable).
Proof. unfold Toggle. walk_guarded. Qed.
Lemma Reset_guarded : calls exec_guarded (Reset ctx).
Proof. unfold Reset. walk_guarded. Qed.

Lemma firewalled_guarded {A} (p : prog exec_call (result fw_error A)) :
  calls exec_guarded p -> calls machine_guarded (firewalled error_text p).
Proof. intros Hp. by apply served_guarded, shell_guarded. Qed.

(** *** Files *)

Lemma on_files_guarded {A} (p : prog fs_call (result fs_error A)) :
  calls (@safe_call m v) p -> calls machine_guarded (on_files error_text not_exist p).
Proof. intros Hp. by apply served_guarded, files_guarded. Qed.

Lemma outcome_safe {A} (p : prog fs_call (result fs_error A)) : calls (@safe_call m v) (outcome p) -> calls (@safe_call m v) p.
Proof.
  unfold outcome. induction p as [a|X c k IH]; [intros _; exact I|]. intros [Hc Hk]. split; [done|]. intros x. apply IH, Hk.
Qed.

(** *** Every request *)

(** The package manager is the one [Detect] found. *)
Hypothesis Hdetected : forall p, pm = Some p -> exists tr, exec (Detect ctx) tr (Ok p).

Lemma detected_ok p : pm = Some p -> manager_ok m v p.
Proof.
  intros Hp. destruct (Hdetected _ Hp) as [tr Hd].
  destruct (always_exec _ _ _ _ _ (Detect_ok ctx m v) Hd) as [Hq _]. by apply Hq.
Qed.

(** The calls of the service that are guarded whatever their arguments. *)
Definition asked (X : Set) (c : host_call X) : Prop :=
  match c with
  | PkgInstall _ | PkgRemove _ | PkgUpdate _ | PkgInstalled _ => is_Some pm
  | ArchiveCreate_ _ _ _ | ArchiveExtract_ _ _ | NginxApply _ _ _ | StatsCollect | StatsProcesses => False
  | CronList_ | CronGet_ _ | CronCreate_ _ | CronUpdate_ _ | CronValidate_ _ | CronDelete_ _ | CronSetEnabled _ _
  | CronRun_ _ _ _ | CronHistory_ _ _ => False
  | _ => True
  end.

Lemma of_manager_guarded {A : Set} (c : host_call (result host_error A)) f :
  is_Some pm -> (forall p, manager_ok m v p -> calls guarded (f p)) -> calls machine_guarded (of_manager pm error_text c f).
Proof. intros [p Hp] Hf. unfold of_manager. rewrite Hp. by apply served_guarded, Hf, detected_ok. Qed.

Lemma answer_guarded X (c : host_call X) : asked X c -> calls machine_guarded (answer X c).
Proof.
  destruct c; cbn [asked AgentHost.answer]; intros Ha; try done;
    try (apply of_manager_guarded; [done|]; by intros p []);
    try (apply firewalled_guarded; auto using AddRule_guarded, Toggle_guarded, Reset_guarded with guarded).
  all: try apply on_files_guarded.
  - destruct v0; apply served_guarded; unfold Start, Stop, Restart, Enable, Disable, Reload, systemctl_retry, systemctl_once; walk_guarded.
  - apply served_guarded, (request_guarded (ReqStatus name)). done.
  - apply served_guarded, (request_guarded (ReqLogs name lines)). done.
  - apply calls_bind; [by apply of_host_guarded, run_shell_guarded|]. by intros [? ?].
  - apply outcome_safe. exact (perform_safe m v (OpRead path)).
  - exact (perform_safe m v (OpWrite path content mode)).
  - exact (perform_safe m v (OpDelete path)).
  - exact (perform_safe m v (OpRename old new)).
  - exact (perform_safe m v (OpCopy src dst)).
  - exact (perform_safe m v (OpChmod path mode)).
  - exact (perform_safe m v (OpChown path uid gid)).
  - exact (perform_safe m v (OpMkdirAll path mode)).
  - apply outcome_safe. exact (perform_safe m v (OpList path)).
  - apply served_guarded, (request_guarded (ReqPrepareRoot path)). done.
  - apply served_guarded, (request_guarded (ReqSocket path)). done.
  - apply served_guarded, (request_guarded (ReqProbe domain)). done.
  - apply served_guarded, (request_guarded (ReqCertificate domain webroot email)). done.
  - apply served_guarded, (request_guarded (ReqKill pid force)). done.
Qed.

(** *** Archives *)

Notation within_host := (always machine_guarded).

Lemma resolve_guarded path :
  within_host (fun r => forall p, r = Ok p -> inside p) (interp answer (call (FsResolve path))).
Proof.
  apply interp_call_always. cbn [AgentHost.answer]. intros p. unfold Resolve.
  destruct (securePath m v path) as [q|e] eqn:Hs; [|done]. intros [= <-]. by eapply securePath_spec.
Qed.

Lemma resolve_all_guarded paths :
  within_host (fun r => forall l, r = Ok l -> Forall inside l) (interp answer (resolve_all paths)).
Proof.
  induction paths as [|path paths IH]; cbn [resolve_all]; [intros l [= <-]; constructor|].
  eapply always_interp_bind; [apply resolve_guarded|]. intros [q|e] Hq; [|done].
  eapply always_interp_bind; [apply IH|]. intros [l|e] Hl; [|done]. intros l' [= <-]. by constructor; auto.
Qed.

Lemma archive_Create_guarded format dest paths :
  inside dest -> Forall inside paths -> calls machine_guarded (of_archive (Archive.Create format dest paths)).
Proof.
  intros Hd Hp. unfold Archive.Create. destruct (_ || _); [exact I|].
  destruct (create_command format dest paths) as [[command args]|] eqn:Hc; [|exact I].
  split; [by exists format, dest, paths|]. by intros [writes [e|]].
Qed.

Lemma Extract_guarded src dst : inside dst -> calls machine_guarded (of_archive (Extract src dst)).
Proof.
  intros Hd. eapply calls_interp; [|apply Extract_ok; apply Hd]. cbn. intros X c Hc. apply calls_call.
  destruct c; by try exists dst.
Qed.

Lemma archive_create_guarded paths dst : calls machine_guarded (interp answer (server_ArchiveCreate paths dst)).
Proof.
  unfold server_ArchiveCreate. eapply always_interp_bind; [apply resolve_guarded|]. intros [dest|e] Hd; [|exact I].
  eapply always_interp_bind; [apply resolve_all_guarded|]. intros [l|e] Hl; [|exact I].
  destruct (archive_format dest) as [format|]; [|exact I]. unfold guarded_call. cbn [call bind interp].
  apply calls_bind; [|by intros]. cbn [AgentHost.answer]. apply calls_bind; [|by intros]. by apply archive_Create_guarded; auto.
Qed.

Lemma archive_extract_guarded src dst : calls machine_guarded (interp answer (server_ArchiveExtract src dst)).
Proof.
  unfold server_ArchiveExtract. eapply always_interp_bind; [apply resolve_guarded|]. intros [source|e] Hs; [|exact I].
  eapply always_interp_bind; [apply resolve_guarded|]. intros [dest|e] Hd; [|exact I].
  unfold guarded_call. cbn [call bind interp]. apply calls_bind; [|by intros]. cbn [AgentHost.answer].
  apply calls_bind; [|by intros]. by apply Extract_guarded; auto.
Qed.

Lemma asked_guarded {A} (p : host_prog A) : calls asked p -> calls machine_guarded (interp answer p).
Proof. apply calls_interp. intros X c. apply answer_guarded. Qed.

Lemma plainly_guarded {A : Set} (p : host_prog (result string A)) :
  calls machine_guarded (interp answer p) -> calls machine_guarded (interp answer (plainly p)).
Proof. intros Hp. eapply always_interp_bind; [exact Hp|]. by intros. Qed.

(** C3. For every request of [agent_op] to the Agent of the same host (services, logs, commands,
    packages, files, archives, the firewall, processes, the runtime of sites), with the package
    manager the Agent detected, and whatever the host answers on the way: every process that is
    started is one the validator accepts, with the fixed environment, or a tool that makes an
    archive of paths inside the allowed roots into a path inside them; every file call is confined
    as [call_confined] says, with safe modes and owners, or stays below the destination of an
    extraction that lies inside the roots; only processes above 1 are signalled, only sockets below
    /run/php are looked at, and only the local web server is probed.  Cron jobs, statistics,
    directory listings, uploads and log streams are not among these requests. *)
Theorem agent_confined X (op : agent_op X) : calls machine_guarded (performed op).
Proof.
  unfold AgentHost.performed. set (pkgs := bool_decide (is_Some pm)).
  assert (Hpk : pkgs = true -> is_Some pm) by (intros Hp; by apply bool_decide_eq_true in Hp).
  destruct op; cbn [local]; try exact I; apply plainly_guarded; auto using archive_create_guarded, archive_extract_guarded.
  all: apply asked_guarded;
    unfold client_serviceAction, client_ServiceStatus, client_ServiceLogs, client_FileLogs, client_CommandExecute, client_package,
      client_FileChown, client_FirewallStatus, client_FirewallRule, client_FirewallList, client_ProcessKill, packageOutput,
      server_ServiceAction, server_ServiceStatus, server_ServiceLogs, server_FileLogs, server_CommandExecute, server_package,
      streamPackage, server_PackageStatus, server_FileRead, server_FileWrite, server_FileDelete, server_FileRename, server_FileCopy,
      server_FileChmod, server_FileChown, server_DirCreate, server_ProcessKill, guarded_call;
    clearbody pkgs; destruct pkgs; cbn [negb]; calls_walk; apply calls_call; cbn; auto.
Qed.

(** *** Service status *)

(** The status of a service that the Core gets never has a sub-state: the command that asks
    systemd for it is refused by the validator of the Agent itself. *)
Theorem substate_never_reported name :
  always (fun _ _ => True) (fun r => exists s, r = Ok s /\ cs_Name s = name /\ cs_SubState s = "")
    (performed (ServiceStatus_ name)).
Proof.
  unfold AgentHost.performed. cbn [local]. unfold plainly, client_ServiceStatus, server_ServiceStatus, guarded_call.
  cbn [call bind bind_err interp AgentHost.answer]. unfold served.
  eapply always_bind; [eapply always_bind; [apply always_of_host, status_without_substate|]|].
  - cbn. intros r (active & enabled & ->).
    instantiate (1 := fun r => exists s, r = Ok s /\ ss_Name s = name /\ ss_SubState s = ""). eexists. by split_and!.
  - cbn. intros r (st & -> & Hn & Hs). cbn. eexists. by split_and!.
Qed.

(** *** Refused commands *)

(** A command that the validator refuses is answered with an error, and nothing is started. *)
Lemma refused_command binary args e :
  Validate binary args = Err e ->
  always (fun _ _ => False) (fun r => exists err, r = Err err) (performed (CommandExecute_ binary args)).
Proof.
  intros Hv. unfold AgentHost.performed. cbn [local]. unfold plainly, client_CommandExecute, server_CommandExecute.
  destruct (String.eqb binary ""); [cbn; by eauto|]. cbn [call bind interp AgentHost.answer].
  unfold run_shell, Executor.Run. rewrite Hv. cbn. eauto.
Qed.
End confined.

(** *** Witnesses *)

Module OneHost.
Definition apt : Manager := @NewAPT unicode_ascii None.

(** Installing a package on a host with apt. *)
Lemma agent_confined_witness :
  calls (@machine_guarded unicode_ascii Filesystem.NewManager sample_view)
    (@performed unicode_ascii None (fun _ => None) Filesystem.NewManager sample_view (Some apt)
       (fun _ _ => "") (fun _ => false) _ (PackageInstall_ "nginx")).
Proof.
  apply (@agent_confined unicode_ascii None (fun _ => None) Filesystem.NewManager sample_view (Some apt) (fun _ _ => "") (fun _ => false)).
  intros p [= <-]. exists [Act (sys_os (SysLookPath "apt-get")) true]. exists true, []. by split.
Defined.
End OneHost.
