(* ===== verification/Presets.v ===== *)
(** * Protection presets of Fail2Ban

    The data of modules/fail2ban: the presets, the text of a jail, the settings it holds and
    their validation.  A setting is a value of Go's [any]; a JSON number, array or object is
    given by the text [fmt.Sprint] prints for it. *)

From S2P Require Import Prelude GoStrings GoStrconv GoRegexp GoNet.
Local Open Scope string_scope.
Local Open Scope go_scope.

Definition lf : ascii := ascii_of_nat 10.

(** Lines of a file. *)
Definition text (lines : list string) : string := String.concat "" (map (fun l => l ++ String lf "") lines).

(** A line in which a tilde stands for a double quotation mark. *)
Definition quoted (line : string) : string := str_map (fun c => if Ascii.eqb c "~" then dquote else c) line.

(** source: modules/fail2ban/presets.go:8-13 (protectionPreset) *)
Record protectionPreset := {
  filterPath : string; filterContent : string; jailPath : string; jailContent : string }.

(** source: modules/fail2ban/presets.go:16-34 (protectionPresets, manual) *)
Definition manual_preset : protectionPreset := {|
  filterPath := "/etc/fail2ban/filter.d/opendeploy-manual.conf";
  filterContent := text ["[Definition]"; "failregex = ^<HOST> OPENDEPLOY_MANUAL_BAN$"; "ignoreregex ="];
  jailPath := "/etc/fail2ban/jail.d/opendeploy-manual.local";
  jailContent := text [
    "[opendeploy-manual]"; "enabled = true"; "filter = opendeploy-manual"; "banaction = %(banaction_allports)s";
    "logpath = /var/log/fail2ban.log"; "backend = polling"; "maxretry = 1"; "findtime = 10m"; "bantime = -1"; "usedns = no"] |}.

(** source: modules/fail2ban/presets.go:35-47 (protectionPresets, sshd) *)
Definition sshd_preset : protectionPreset := {|
  filterPath := ""; filterContent := "";
  jailPath := "/etc/fail2ban/jail.d/opendeploy-sshd.local";
  jailContent := text [
    "[opendeploy-sshd]"; "enabled = true"; "filter = sshd"; "backend = systemd"; "port = ssh"; "maxretry = 5";
    "findtime = 10m"; "bantime = 24h"; "usedns = no"] |}.

(** source: modules/fail2ban/presets.go:48-66 (protectionPresets, nginx_scanners) *)
Definition nginx_scanners_preset : protectionPreset := {|
  filterPath := "/etc/fail2ban/filter.d/opendeploy-nginx-scanners.conf";
  filterContent := text [
    "[Definition]";
    quoted "failregex = ^<HOST> \S+ \S+ \[[^]]+\] ~(?:GET|HEAD|POST) [^~]*(?:/wp-login\.php|/wp-admin(?:[/?\s]|$)|/xmlrpc\.php|/\.env(?:[/?\s]|$)|/\.git(?:[/?\s]|$)|/vendor(?:[/?\s]|$)|/composer\.(?:json|lock)|/phpinfo\.php|/cgi-bin(?:[/?\s]|$)|/admin\.php|(?:\.\./|%%2e%%2e(?:%%2f|/)))[^~]* HTTP/[^~]+~ (?:400|401|403|404) .*$";
    "ignoreregex ="];
  jailPath := "/etc/fail2ban/jail.d/opendeploy-nginx-scanners.local";
  jailContent := text [
    "[opendeploy-nginx-scanners]"; "enabled = true"; "filter = opendeploy-nginx-scanners"; "port = http,https";
    "logpath = /var/log/nginx/access.log"; "backend = auto"; "maxretry = 5"; "findtime = 10m"; "bantime = 24h"; "usedns = no"] |}.

(** source: modules/fail2ban/presets.go:67-80 (protectionPresets, nginx_auth) *)
Definition nginx_auth_preset : protectionPreset := {|
  filterPath := ""; filterContent := "";
  jailPath := "/etc/fail2ban/jail.d/opendeploy-nginx-auth.local";
  jailContent := text [
    "[opendeploy-nginx-auth]"; "enabled = true"; "filter = nginx-http-auth"; "port = http,https";
    "logpath = /var/log/nginx/error.log"; "backend = auto"; "maxretry = 5"; "findtime = 10m"; "bantime = 24h"; "usedns = no"] |}.

(** source: modules/fail2ban/presets.go:81-99 (protectionPresets, nginx_bad_bots) *)
Definition nginx_bad_bots_preset : protectionPreset := {|
  filterPath := "/etc/fail2ban/filter.d/opendeploy-nginx-bad-bots.conf";
  filterContent := text [
    "[Definition]";
    quoted "failregex = ^<HOST> \S+ \S+ \[[^]]+\] ~[^~]+~ \d{3} \S+ ~[^~]*~ ~[^~]*(?i:foda-scanner|masscan|zgrab|sqlmap|nikto)[^~]*~$";
    "ignoreregex ="];
  jailPath := "/etc/fail2ban/jail.d/opendeploy-nginx-bad-bots.local";
  jailContent := text [
    "[opendeploy-nginx-bad-bots]"; "enabled = true"; "filter = opendeploy-nginx-bad-bots"; "port = http,https";
    "logpath = /var/log/nginx/access.log"; "backend = auto"; "maxretry = 1"; "findtime = 10m"; "bantime = 24h"; "usedns = no"] |}.

(** source: modules/fail2ban/presets.go:100-119 (protectionPresets, php_probes) *)
Definition php_probes_preset : protectionPreset := {|
  filterPath := "/etc/fail2ban/filter.d/opendeploy-php-probes.conf";
  filterContent := text [
    "[Definition]";
    quoted "failregex = ^<HOST> \S+ \S+ \[[^]]+\] ~(?:GET|HEAD|POST) [^~]*(?:/\.env(?:[/?\s]|$)|/wp-(?:admin|content|includes)(?:[/?\s]|$)|/wp-login\.php(?:[?\s]|$)|/xmlrpc\.php(?:[?\s]|$)|/(?:phpmyadmin|pma)(?:[/?\s]|$)|/phpinfo(?:\.php|=1)|/vendor/phpunit(?:[/?\s]|$)|/cgi-bin(?:[/?\s]|$)|/(?:eval|shell|upload|installer)\.php(?:[?\s]|$)|/artisan(?:[/?\s]|$)|/composer\.lock(?:[?\s]|$)|/database\.sql(?:[?\s]|$)|/(?:backup|site|www)\.zip(?:[?\s]|$))[^~]* HTTP/[^~]+~ (?:400|401|403|404) .*$";
    quoted "            ^<HOST> \S+ \S+ \[[^]]+\] ~(?:GET|HEAD|POST) /+[^~]*\.php(?:[/?][^~]*)? HTTP/[^~]+~ 404 .*$";
    "ignoreregex ="];
  jailPath := "/etc/fail2ban/jail.d/opendeploy-php-probes.local";
  jailContent := text [
    "[opendeploy-php-probes]"; "enabled = true"; "filter = opendeploy-php-probes"; "port = http,https";
    "logpath = /var/log/nginx/access.log"; "backend = auto"; "maxretry = 5"; "findtime = 10m"; "bantime = 24h"; "usedns = no"] |}.

(** source: modules/fail2ban/presets.go:15-120 (protectionPresets) *)
Definition protectionPresets : list (string * protectionPreset) := [
  ("manual", manual_preset); ("sshd", sshd_preset); ("nginx_scanners", nginx_scanners_preset);
  ("nginx_auth", nginx_auth_preset); ("nginx_bad_bots", nginx_bad_bots_preset); ("php_probes", php_probes_preset)].

Definition preset_of (id : string) : option protectionPreset :=
  snd <$> List.find (fun p => String.eqb (fst p) id) protectionPresets.

(** ** Values *)

Inductive any := AnyNil | AnyBool (b : bool) | AnyStr (s : string) | AnyInt (z : Z) | AnyOther (printed : string).

#[export] Instance any_eq_dec : EqDecision any.
Proof. solve_decision. Defined.

(** [fmt.Sprint] *)
Definition sprint (a : any) : string :=
  match a with
  | AnyNil => "<nil>"
  | AnyBool b => if b then "true" else "false"
  | AnyStr s => s
  | AnyInt z => itoa z
  | AnyOther printed => printed
  end.

(** [strconv.ParseBool] *)
Definition parse_bool (s : string) : option bool :=
  if existsb (String.eqb s) ["1"; "t"; "T"; "TRUE"; "true"; "True"] then Some true
  else if existsb (String.eqb s) ["0"; "f"; "F"; "FALSE"; "false"; "False"] then Some false
  else None.

Notation values := (gmap string any).

(** source: modules/fail2ban/preset_api.go:97-111 (boolValue) *)
Definition boolValue (value : option any) (fallback : bool) : result string bool :=
  match value with
  | None | Some AnyNil => Ok fallback
  | Some (AnyBool typed) => Ok typed
  | Some (AnyStr typed) => match parse_bool typed with Some parsed => Ok parsed | None => Err "must be a boolean" end
  | Some _ => Err "must be a boolean"
  end.

(** source: modules/fail2ban/preset_api.go:113-119 (stringValue) *)
Definition stringValue (settings : values) (key fallback : string) : string :=
  match settings !! key with
  | None | Some AnyNil => fallback
  | Some value => trim_space (sprint value)
  end.

(** ** The text of a jail *)

Section unicode.
Context `{Unicode}.

Definition comment_line (line : string) : bool :=
  String.eqb line "" || has_prefix line "#" || has_prefix line ";".

(** source: modules/fail2ban/preset_api.go:81-93 (parseJail, one line) *)
Definition parse_line (st : string * gmap string string) (raw : string) : string * gmap string string :=
  let '(jail, vals) := st in
  let line := trim_space raw in
  if comment_line line then st
  else if has_prefix line "[" && has_suffix line "]" then (trim_suffix (trim_prefix line "[") "]", vals)
  else match cut "=" line with
  | (key, Some value) => (jail, <[trim_space (to_lower key) := trim_space value]> vals)
  | (_, None) => st
  end.

(** source: modules/fail2ban/preset_api.go:78-95 (parseJail) *)
Definition parseJail (content : string) : string * gmap string string :=
  fold_left parse_line (split lf content) ("", empty).

(** The value of a key, or Go's zero value. *)
Definition value_of (vals : gmap string string) (key : string) : string := default "" (vals !! key).

(** source: modules/fail2ban/preset_api.go:64 (durationPattern) *)
Definition durationPattern : re :=
  Alt (lit "-1") (Cat (Cls (in_range 49 57)) (Cat (Star (Cls r_digit)) (opt (Cls (one_of "smhdwy"))))).
(** source: modules/fail2ban/preset_api.go:65 (backendPattern) *)
Definition backendPattern : re := Alt (lit "auto") (Alt (lit "systemd") (lit "polling")).
Definition action_class (z : Z) : bool := r_alnum z || one_of "_()%.,:+-" z.
(** source: modules/fail2ban/preset_api.go:66 (actionPattern) *)
Definition actionPattern : re := plus (Cls action_class).
Definition port_item : re :=
  Alt (Cat (Cls r_alpha) (Star (Cls (fun z => r_alnum z || one_of "_-" z))))
      (Cat (Cls (in_range 49 57)) (upto 4 (Cls r_digit))).
(** source: modules/fail2ban/preset_api.go:67 (portPattern) *)
Definition portPattern : re := Cat port_item (Star (Cat (lit ",") port_item)).

(** source: modules/fail2ban/preset_api.go:186-198 (validatePresetPort) *)
Definition validatePresetPort (result : values) : Prelude.result string values :=
  let port := stringValue result "port" "" in
  if negb (String.eqb port "") && negb (match_string portPattern port)
  then Err "port must be a service name, port number or comma-separated list"
  else if existsb (fun part => match atoi part with Some number => (65535 <? number)%Z | None => false end) (split "," port)
  then Err "port must be between 1 and 65535"
  else Ok (<["port" := AnyStr port]> result).

(** source: modules/fail2ban/preset_api.go:200-211 (validatePresetIgnoreIP) *)
Definition validatePresetIgnoreIP (result : values) : Prelude.result string values :=
  let ignoreIP := fields (stringValue result "ignoreip" "") in
  for_each (fun address =>
    fail_if (bool_decide (parse_ip address = None) && negb (parse_cidr address))
      ("ignoreip contains invalid address or network " ++ quote address)) ignoreIP ;?
  Ok (<["ignoreip" := AnyStr (join " " ignoreIP)]> result).

(** source: modules/fail2ban/preset_api.go:143-149 (validatePresetSettings, a duration) *)
Definition validateDuration (key : string) (result : values) : Prelude.result string values :=
  let value := stringValue result key "" in
  if negb (match_string durationPattern value) || (String.eqb key "findtime" && String.eqb value "-1")
  then Err (key ++ " must be a positive Fail2Ban duration")
  else Ok (<[key := AnyStr value]> result).

(** source: modules/fail2ban/preset_api.go:176-182 (validatePresetSettings, a flag) *)
Definition validateFlag (key : string) (result : values) : Prelude.result string values :=
  let? value := map_err (fun e => key ++ " " ++ e) (boolValue (result !! key) true) in
  Ok (<[key := AnyBool value]> result).

(** source: modules/fail2ban/preset_api.go:142-184 (validatePresetSettings) *)
Definition validatePresetSettings (result : values) : Prelude.result string values :=
  let? result := validateDuration "bantime" result in
  let? result := validateDuration "findtime" result in
  let? result := match atoi (stringValue result "maxretry" "") with
    | Some maxRetry =>
        if ((maxRetry <? 1) || (1000 <? maxRetry))%Z then Err "maxretry must be between 1 and 1000"
        else Ok (<["maxretry" := AnyInt maxRetry]> result)
    | None => Err "maxretry must be between 1 and 1000"
    end in
  let backend := stringValue result "backend" "" in
  fail_if (negb (match_string backendPattern backend)) "backend must be auto, systemd or polling" ;?
  let result := <["backend" := AnyStr backend]> result in
  let logPath := stringValue result "logpath" "" in
  fail_if (negb (String.eqb logPath "") &&
           (negb (has_prefix logPath "/var/log/") || contains logPath ".." ||
            contains_any logPath (String (ascii_of_nat 13) (String lf ""))))
    "logpath must be a safe path below /var/log" ;?
  let result := <["logpath" := AnyStr logPath]> result in
  let action := stringValue result "banaction" "" in
  fail_if (negb (String.eqb action "") && negb (match_string actionPattern action)) "banaction contains unsupported characters" ;?
  let result := <["banaction" := AnyStr action]> result in
  let? result := validatePresetPort result in
  let? result := validatePresetIgnoreIP result in
  let? result := validateFlag "ipv6" result in
  validateFlag "auto_reload" result.

(** source: modules/fail2ban/preset_api.go:122-130 (normalizedPresetSettings, the defaults): an
    unreadable number is 0 *)
Definition default_settings (base : string) : values :=
  let '(_, defaults) := parseJail base in
  list_to_map [
    ("bantime", AnyStr (value_of defaults "bantime")); ("findtime", AnyStr (value_of defaults "findtime"));
    ("maxretry", AnyInt (default 0%Z (atoi (value_of defaults "maxretry")))); ("backend", AnyStr (value_of defaults "backend"));
    ("logpath", AnyStr (value_of defaults "logpath")); ("ignoreip", AnyStr (value_of defaults "ignoreip"));
    ("banaction", AnyStr (value_of defaults "banaction")); ("port", AnyStr (value_of defaults "port"));
    ("ipv6", AnyBool true); ("auto_reload", AnyBool true)].

(** source: modules/fail2ban/preset_api.go:121-140 (normalizedPresetSettings): only the known
    keys of the input are taken *)
Definition normalizedPresetSettings (base : string) (input : values) : result string values :=
  let defaults := default_settings base in
  validatePresetSettings (filter (fun kv => is_Some (defaults !! fst kv)) input ∪ defaults).

(** [strings.TrimRight(s, "\n")] *)
Fixpoint drop_lf (s : string) : string :=
  match s with String c s' => if Ascii.eqb c lf then drop_lf s' else s | "" => "" end.
Definition trim_right_lf (s : string) : string := str_rev (drop_lf (str_rev s)).

Definition managed_keys : list string :=
  ["bantime"; "findtime"; "maxretry"; "backend"; "logpath"; "ignoreip"; "banaction"; "port"].

(** source: modules/fail2ban/preset_api.go:215-220 (renderPresetJail, updates) *)
Definition update_of (settings : values) (key : string) : option string :=
  if existsb (String.eqb key) managed_keys then Some (sprint (default AnyNil (settings !! key))) else None.

(** The key of a line, if it sets one. *)
Definition line_key (raw : string) : option string :=
  match cut "=" (trim_space raw) with
  | (key, Some _) => Some (to_lower (trim_space key))
  | (_, None) => None
  end.

(** source: modules/fail2ban/preset_api.go:222-235 (renderPresetJail, one line) *)
Definition render_line (settings : values) (raw : string) : string :=
  match line_key raw with
  | Some key =>
      match update_of settings key with
      | Some value => if String.eqb value "" then "" else key ++ " = " ++ value
      | None => raw
      end
  | None => raw
  end.

(** source: modules/fail2ban/preset_api.go:213-248 (renderPresetJail) *)
Definition renderPresetJail (base : string) (settings : values) : string :=
  let lines := split lf (trim_right_lf base) in
  let seen key := existsb (fun raw => bool_decide (line_key raw = Some key)) lines in
  let extra := List.flat_map (fun key =>
    match update_of settings key with
    | Some value => if negb (String.eqb value "") && negb (seen key) then [key ++ " = " ++ value] else []
    | None => []
    end) ["banaction"; "ignoreip"; "logpath"; "port"] in
  let compact := List.filter (fun line => negb (String.eqb (trim_space line) "")) (map (render_line settings) lines ++ extra)%list in
  join (String lf "") compact ++ String lf "".

(** source: modules/fail2ban/preset_api.go:250-259 (filterRuleCount) *)
Definition filterRuleCount (content : string) : Z :=
  Z.of_nat (length (List.filter (fun line =>
    let line := trim_space line in has_prefix line "failregex =" || has_prefix line "^") (split lf content))).
End unicode.
