(* ===== verification/PresetsSpec.v ===== *)
(** * Protection presets: what a jail file holds is what was set

    The settings that validation accepts are read back from the jail file that is rendered for
    them, except the two that no jail file holds. *)

From S2P Require Import Prelude GoStrings GoStrconv GoPath GoRegexp GoJson GoNet Presets.
Local Open Scope string_scope.

(** ** Trimming *)

Section trimming.
Context (sp2 : ascii -> ascii -> bool) (sp3 : ascii -> ascii -> ascii -> bool).
Notation trim := (trim_leading sp2 sp3).

(** A trimmed text is the text, or a shorter one that is trimmed. *)
Lemma trim_leading_cases s : trim s = s \/ (String.length (trim s) < String.length s)%nat /\ trim (trim s) = trim s.
Proof.
  induction s as [s IH] using (induction_ltof1 _ String.length). unfold ltof in IH.
  destruct s as [|a s1]; [by left|]. cbn [trim_leading].
  assert (Hrest : forall r, (String.length r < String.length (String a s1))%nat ->
    (String.length (trim r) < String.length (String a s1))%nat /\ trim (trim r) = trim r).
  { intros r Hr. destruct (IH r Hr) as [Heq|[Hl Heq]]; [rewrite Heq; by split|]. split; [lia|done]. }
  destruct (space1 a) eqn:H1; [right; apply Hrest; simpl; lia|].
  destruct s1 as [|b s2]; [by left|]. destruct (sp2 a b) eqn:H2; [right; apply Hrest; simpl; lia|].
  destruct s2 as [|c s3]; [by left|]. destruct (sp3 a b c) eqn:H3; [right; apply Hrest; simpl; lia|by left].
Qed.

Lemma trim_leading_idemp s : trim (trim s) = trim s.
Proof. destruct (trim_leading_cases s) as [H|[_ H]]; [by rewrite !H|done]. Qed.

Lemma trim_leading_length s : (String.length (trim s) <= String.length s)%nat.
Proof. destruct (trim_leading_cases s) as [->|[? _]]; lia. Qed.

Lemma trim_leading_three a b c u :
  trim (String a (String b (String c u))) =
  if space1 a then trim (String b (String c u)) else if sp2 a b then trim (String c u) else
  if sp3 a b c then trim u else String a (String b (String c u)).
Proof. done. Qed.

(** What follows three bytes that are not trimmed does not matter. *)
Lemma trim_leading_app u v : (3 <= String.length u)%nat -> trim u = u -> trim (u ++ v) = u ++ v.
Proof.
  intros Hl Hu. destruct u as [|a [|b [|c u]]]; simpl in Hl; try lia.
  rewrite trim_leading_three in Hu. cbn [String.append]. rewrite trim_leading_three.
  assert (Hno : forall r, (String.length r < String.length (String a (String b (String c u))))%nat ->
    trim r <> String a (String b (String c u))).
  { intros r Hr Heq. pose proof (trim_leading_length r) as Hlen. rewrite Heq in Hlen. lia. }
  destruct (space1 a); [by apply Hno in Hu; simpl; lia|].
  destruct (sp2 a b); [by apply Hno in Hu; simpl; lia|].
  destruct (sp3 a b c); [by apply Hno in Hu; simpl; lia|done].
Qed.
End trimming.

(** A value that stays what it is in a line: it has no line break and no space at its ends. *)
Definition clean_value (t : string) : Prop :=
  t <> "" /\ no_byte lf t /\ trim_left t = t /\ forall p, trim_right (p ++ t) = p ++ t.

Lemma trim_left_word a s : is_word_byte a = true -> trim_left (String a s) = String a s.
Proof.
  intros Ha. unfold trim_left. cbn [trim_leading]. destruct (word_not_space a a a Ha) as (-> & _ & _).
  destruct s as [|b s]; [done|]. destruct (word_not_space a b b Ha) as (_ & -> & _).
  destruct s as [|c s]; [done|]. by destruct (word_not_space a b c Ha) as (_ & _ & ->).
Qed.

Lemma trim_right_word p a : is_word_byte a = true -> trim_right (p ++ String a "") = p ++ String a "".
Proof.
  intros Ha. unfold trim_right. rewrite str_rev_app. cbn [str_rev String.append].
  assert (Hs : trim_leading (fun b a => space2 a b) (fun c b a => space3 a b c) (String a (str_rev p)) = String a (str_rev p)).
  { cbn [trim_leading]. destruct (word_not_space a a a Ha) as (-> & _ & _). unfold is_word_byte, in_range in Ha.
    destruct (str_rev p) as [|b s]; [done|]. assert (space2 b a = false) as -> by (unfold space2; lia).
    destruct s as [|c s]; [done|]. by assert (space3 c b a = false) as -> by (unfold space3, in_range; lia). }
  rewrite Hs. change (String a (str_rev p)) with (String a "" ++ str_rev p). by rewrite str_rev_app, str_rev_involutive.
Qed.

Lemma str_last s : s <> "" -> exists s' c, s = s' ++ String c "".
Proof.
  induction s as [|a s IH]; [done|]. intros _. destruct (decide (s = "")) as [->|Hs]; [by exists "", a|].
  destruct (IH Hs) as (s' & c & ->). by exists (String a s'), c.
Qed.

(** Words, with single spaces between them. *)
Lemma clean_words l :
  l <> [] -> Forall (fun w => w <> "" /\ str_forall is_word_byte w = true) l -> clean_value (join " " l).
Proof.
  intros Hne Hl. destruct l as [|w l]; [done|]. clear Hne.
  assert (Hhead : exists a s, join " " (w :: l) = String a s /\ is_word_byte a = true).
  { apply Forall_inv in Hl as [Hw Hb]. destruct w as [|a w]; [done|]. cbn in Hb. apply andb_true_iff in Hb as [Ha _].
    destruct l; cbn [join String.append]; eauto. }
  assert (Hlast : exists s c, join " " (w :: l) = s ++ String c "" /\ is_word_byte c = true).
  { clear Hhead. revert w Hl. induction l as [|v l IH]; intros w Hl.
    - apply Forall_inv in Hl as [Hw Hb]. destruct (str_last w Hw) as (s & c & ->). exists s, c. split; [done|].
      rewrite str_forall_app in Hb. apply andb_true_iff in Hb as [_ Hb]. cbn in Hb. by apply andb_true_iff in Hb as [? _].
    - apply Forall_inv_tail in Hl. destruct (IH v Hl) as (s & c & Hs & Hc). exists (w ++ " " ++ s), c. split; [|done].
      change (join " " (w :: v :: l)) with (w ++ String " " (join " " (v :: l))). rewrite Hs.
      by rewrite !str_app_assoc. }
  destruct Hhead as (a & s & Ha & Hwa). destruct Hlast as (s' & c & Hc & Hwc). split_and!.
  - by rewrite Ha.
  - unfold no_byte. clear Ha Hc. induction Hl as [|x l' [_ Hx] Hl IH]; [done|].
    assert (Hx' : str_forall (fun c => negb (Ascii.eqb lf c)) x = true).
    { revert Hx. apply str_forall_mono. intros d Hd. apply negb_true_iff, Ascii.eqb_neq. by intros <-. }
    destruct l' as [|y l']; [done|].
    change (join " " (x :: y :: l')) with (x ++ String " " (join " " (y :: l'))).
    rewrite str_forall_app, Hx'. cbn [str_forall]. by rewrite IH.
  - rewrite Ha. by apply trim_left_word.
  - intros p. rewrite Hc, <- str_app_assoc. by apply trim_right_word.
Qed.

Lemma clean_word t : t <> "" -> str_forall is_word_byte t = true -> clean_value t.
Proof. intros Hne Ht. apply (clean_words [t]); [done|]. by repeat constructor. Qed.

(** A path below /var/log that was trimmed. *)
Lemma clean_log_path w t :
  t = trim_space w -> has_prefix t "/var/log/" = true -> contains_any t (String (ascii_of_nat 13) (String lf "")) = false ->
  clean_value t.
Proof.
  intros Ht Hp Hc. apply has_prefix_iff in Hp as [r Hr]. split_and!.
  - by rewrite Hr.
  - by eapply contains_any_no_byte; [|exact Hc].
  - rewrite Hr. by apply trim_left_word.
  - assert (Hrt : trim_right t = t).
    { rewrite Ht. unfold trim_space, trim_right. rewrite str_rev_involutive. f_equal. apply trim_leading_idemp. }
    intros p. unfold trim_right in *. rewrite str_rev_app, trim_leading_app.
    + rewrite str_rev_app, !str_rev_involutive. done.
    + rewrite Hr, str_rev_app, str_length_app. cbn. lia.
    + rewrite <- (str_rev_involutive (trim_leading _ _ (str_rev t))). by rewrite Hrt.
Qed.

(** ** Lines *)

Section lines.
Context `{Unicode}.

(** A line that sets one of the managed keys. *)
Lemma parse_setting st key t :
  In key managed_keys -> clean_value t ->
  parse_line st (key ++ " = " ++ t) = (fst st, <[key := t]> (snd st)).
Proof.
  intros Hk (Hne & Hlf & Hl & Hr). destruct st as [jail vals]. unfold parse_line, trim_space.
  assert (Hword : forall a s, is_word_byte a = true -> trim_right (trim_left (String a s ++ " = " ++ t)) = String a s ++ " = " ++ t).
  { intros a s Ha. cbn [String.append]. rewrite trim_left_word by done.
    change (String a (s ++ String " " (String "=" (String " " t)))) with (String a s ++ " = " ++ t).
    rewrite <- (str_app_assoc (String a s) " = " t). apply Hr. }
  assert (Hv : trim_right (trim_left (String " " t)) = t).
  { change (trim_left (String " " t)) with (trim_left t). rewrite Hl. apply (Hr ""). }
  repeat (destruct Hk as [<-|Hk]; [rewrite Hword by done; cbn -[trim_right trim_left to_lower]; rewrite Hv; reflexivity|]). done.
Qed.

Lemma parse_blank st raw : trim_space raw = "" -> parse_line st raw = st.
Proof. intros Hr. unfold parse_line. destruct st. by rewrite Hr. Qed.

Lemma parse_compact ls st :
  fold_left parse_line (List.filter (fun line => negb (String.eqb (trim_space line) "")) ls) st = fold_left parse_line ls st.
Proof.
  revert st. induction ls as [|l ls IH]; intros st; cbn; [done|].
  destruct (String.eqb_spec (trim_space l) "") as [He|He]; cbn; rewrite IH; [by rewrite parse_blank|done].
Qed.

Lemma parse_joined ls :
  Forall (no_byte lf) ls -> parseJail (join (String lf "") ls ++ String lf "") = fold_left parse_line ls ("", empty).
Proof.
  intros Hls. unfold parseJail.
  assert (Hs : split lf (join (String lf "") ls ++ String lf "") = (ls ++ [""])%list \/ ls = []).
  { destruct ls as [|l ls]; [by right|left]. pose proof (split_app lf (join (String lf "") (l :: ls)) "") as Hsp.
    rewrite split_join in Hsp by done. exact Hsp. }
  destruct Hs as [->| ->]; [|done]. rewrite fold_left_app. cbn [fold_left]. by rewrite parse_blank.
Qed.

(** A key set to a value, when there is one. *)
Definition put (key t : string) (st : string * gmap string string) : string * gmap string string :=
  if String.eqb t "" then st else (fst st, <[key := t]> (snd st)).

Lemma value_put key t st key' :
  value_of (snd (put key t st)) key' =
  if String.eqb t "" then value_of (snd st) key' else if String.eqb key key' then t else value_of (snd st) key'.
Proof.
  unfold put, value_of. destruct (String.eqb t ""); [done|]. cbn. destruct (String.eqb_spec key key') as [->|Hne].
  - by rewrite lookup_insert_eq.
  - by rewrite lookup_insert_ne.
Qed.

Definition setting_line (key t : string) : string := if String.eqb t "" then "" else key ++ " = " ++ t.

Lemma parse_put st key t :
  In key managed_keys -> t = "" \/ clean_value t -> parse_line st (setting_line key t) = put key t st.
Proof.
  intros Hk Ht. unfold setting_line, put. destruct (String.eqb_spec t "") as [He|He]; [by apply parse_blank|].
  destruct Ht as [?|Ht]; [done|]. by apply parse_setting.
Qed.

Lemma setting_line_lf key t : In key managed_keys -> t = "" \/ clean_value t -> no_byte lf (setting_line key t).
Proof.
  intros Hk Ht. unfold setting_line. destruct (String.eqb_spec t "") as [He|He]; [done|]. destruct Ht as [?|(_ & Hlf & _)]; [done|].
  unfold no_byte in *. rewrite !str_forall_app, Hlf. by repeat (destruct Hk as [<-|Hk]; [done|]).
Qed.

(** ** Rendering *)

(** The printed settings of a jail. *)
Definition printed (s : values) (key : string) : string := sprint (default AnyNil (s !! key)).

Definition printable (s : values) : Prop :=
  forall key, In key managed_keys -> printed s key = "" \/ clean_value (printed s key).

Lemma update_printed s key : In key managed_keys -> update_of s key = Some (printed s key).
Proof.
  intros Hk. unfold update_of. assert (existsb (String.eqb key) managed_keys = true) as ->; [|done].
  apply existsb_exists. exists key. by rewrite String.eqb_refl.
Qed.

(** The lines of a jail with settings: those of the preset, and those it does not have. *)
Definition rendered (lines : list string) (s : values) : list string :=
  (map (render_line s) lines ++
   List.flat_map (fun key => if existsb (fun raw => bool_decide (line_key raw = Some key)) lines then []
                        else [setting_line key (printed s key)]) ["banaction"; "ignoreip"; "logpath"; "port"])%list.

Lemma render_rendered base s :
  Forall (no_byte lf) (rendered (split lf (trim_right_lf base)) s) ->
  parseJail (renderPresetJail base s) = fold_left parse_line (rendered (split lf (trim_right_lf base)) s) ("", empty).
Proof.
  intros Hlf. unfold renderPresetJail. set (lines := split lf (trim_right_lf base)) in *. set (keep := fun line => _).
  assert (Hsame : forall key, In key managed_keys ->
    List.filter keep (match update_of s key with
      | Some value => if negb (String.eqb value "") && negb (existsb (fun raw => bool_decide (line_key raw = Some key)) lines)
                      then [key ++ " = " ++ value] else []
      | None => [] end) =
    List.filter keep (if existsb (fun raw => bool_decide (line_key raw = Some key)) lines then []
                        else [setting_line key (printed s key)])).
  { intros key Hk. rewrite update_printed by done. unfold setting_line.
    destruct (existsb _ lines), (String.eqb (printed s key) ""); done. }
  cbn [List.flat_map]. rewrite !List.filter_app, !Hsame, <- !List.filter_app by (cbn; tauto).
  rewrite parse_joined; [apply parse_compact|]. revert Hlf. fold (rendered lines s).
  rewrite !List.Forall_forall. intros Hlf x [Hx _]%List.filter_In. by apply Hlf.
Qed.

(** The lines of a rendered jail, the settings left open: a line of the preset, or the line of
    a managed key. *)
Definition line_plan (raw : string) : string + string :=
  match line_key raw with
  | Some key => if existsb (String.eqb key) managed_keys then inr key else inl raw
  | None => inl raw
  end.
Definition jail_plan (lines : list string) : list (string + string) :=
  (map line_plan lines ++
   List.flat_map (fun key : string => if existsb (fun raw => bool_decide (line_key raw = Some key)) lines then [] else [inr key])
     ["banaction"; "ignoreip"; "logpath"; "port"])%list.

Definition plan_line (s : values) (x : string + string) : string :=
  match x with inl raw => raw | inr key => setting_line key (printed s key) end.

Lemma rendered_plan lines s : rendered lines s = map (plan_line s) (jail_plan lines).
Proof.
  unfold rendered, jail_plan. rewrite map_app, map_map. f_equal.
  - apply map_ext. intros raw. unfold render_line, line_plan, update_of. destruct (line_key raw) as [key|]; [|done].
    by destruct (existsb _ managed_keys).
  - cbn [List.flat_map]. by repeat destruct (existsb _ lines).
Qed.

(** The key a line of a file sets. *)
Definition set_key (raw : string) : option string :=
  let line := trim_space raw in
  if comment_line line then None
  else if has_prefix line "[" && has_suffix line "]" then None
  else match cut "=" line with (key, Some _) => Some (trim_space (to_lower key)) | _ => None end.

Lemma value_kept st raw key : set_key raw <> Some key -> value_of (snd (parse_line st raw)) key = value_of (snd st) key.
Proof.
  unfold set_key, parse_line. destruct st as [jail vals]. destruct (comment_line _); [done|]. destruct (_ && _); [done|].
  destruct (cut _ _) as [k [v|]]; [|done]. intros Hne. unfold value_of. cbn. rewrite lookup_insert_ne; [done|]. congruence.
Qed.

(** A plan gives [key] its setting when it has the line, and no other line sets it. *)
Definition plan_sets (plan : list (string + string)) (key : string) : bool :=
  existsb (fun x => match x with inr k => String.eqb k key | inl _ => false end) plan &&
  forallb (fun x => match x with inl raw => negb (bool_decide (set_key raw = Some key)) | inr _ => true end) plan.

Lemma plan_value s plan st key :
  printable s -> Forall (fun x => match x with inr k => In k managed_keys | inl _ => True end) plan ->
  forallb (fun x => match x with inl raw => negb (bool_decide (set_key raw = Some key)) | inr _ => true end) plan = true ->
  let v := value_of (snd (fold_left parse_line (map (plan_line s) plan) st)) key in
  (value_of (snd st) key = printed s key -> v = printed s key) /\
  (existsb (fun x => match x with inr k => String.eqb k key | inl _ => false end) plan = true ->
   value_of (snd st) key = "" -> v = printed s key).
Proof.
  intros Hs. revert st. induction plan as [|x plan IH]; intros st Hm Hf; cbn [map fold_left forallb existsb] in *; [done|].
  apply Forall_cons in Hm as [Hx Hm]. apply andb_true_iff in Hf as [Hfx Hf].
  destruct (IH (parse_line st (plan_line s x)) Hm Hf) as [IH1 IH2]. destruct x as [raw|k]; cbn [plan_line] in *.
  - apply negb_true_iff, bool_decide_eq_false in Hfx. rewrite value_kept in IH1, IH2 by done. by split.
  - rewrite parse_put in IH1, IH2 |- * by auto. rewrite value_put in IH1, IH2.
    destruct (String.eqb_spec (printed s k) "") as [He|He]; destruct (String.eqb_spec k key) as [->|Hk]; cbn; split; auto.
    intros _ Hv. apply IH1. by rewrite He.
Qed.

Definition plan_of (p : protectionPreset) : list (string + string) := jail_plan (split lf (trim_right_lf (jailContent p))).

(** The plans of the presets have every managed key once, and no line break in their lines. *)
Lemma presets_planned :
  forallb (fun ip => forallb (plan_sets (plan_of (snd ip))) managed_keys &&
     forallb (fun x => match x with inr k => existsb (String.eqb k) managed_keys
                                | inl raw => str_forall (fun c => negb (Ascii.eqb lf c)) raw end) (plan_of (snd ip)))
    protectionPresets = true.
Proof. vm_compute. reflexivity. Qed.

Lemma preset_value id p s key :
  preset_of id = Some p -> printable s -> In key managed_keys ->
  value_of (snd (parseJail (renderPresetJail (jailContent p) s))) key = printed s key.
Proof.
  intros Hp Hs Hk. assert (Hin : exists ip, In ip protectionPresets /\ snd ip = p).
  { unfold preset_of in Hp. destruct (List.find _ _) as [ip|] eqn:Hf; [|done]. apply List.find_some in Hf as [Hf _].
    exists ip. split; [done|]. by injection Hp. }
  destruct Hin as (ip & Hin & <-). pose proof presets_planned as Hpl. rewrite forallb_forall in Hpl.
  specialize (Hpl ip Hin). apply andb_true_iff in Hpl as [Hsets Hlines]. rewrite forallb_forall in Hsets, Hlines.
  specialize (Hsets key Hk). apply andb_true_iff in Hsets as [Hex Hno].
  assert (Hm : Forall (fun x => match x with inr k => In k managed_keys | inl _ => True end) (plan_of (snd ip))).
  { apply List.Forall_forall. intros [raw|k] Hx; [done|]. specialize (Hlines _ Hx).
    apply existsb_exists in Hlines as (k' & Hk' & ->%String.eqb_eq). done. }
  rewrite render_rendered, rendered_plan.
  - by apply (plan_value s _ _ key Hs Hm Hno).
  - rewrite rendered_plan. apply List.Forall_forall. intros l (x & <- & Hx)%in_map_iff. specialize (Hlines _ Hx).
    destruct x as [raw|k]; [done|]. apply existsb_exists in Hlines as (k' & Hk' & ->%String.eqb_eq).
    apply setting_line_lf; auto.
Qed.

(** ** Validation *)

(** What validation asks of the settings. *)
Record accepted (bantime findtime : string) (maxretry : Z) (backend logpath ignoreip banaction port : string) : Prop := {
  ac_bantime : match_string durationPattern bantime = true;
  ac_findtime : match_string durationPattern findtime = true /\ findtime <> "-1";
  ac_maxretry : (1 <= maxretry <= 1000)%Z;
  ac_backend : match_string backendPattern backend = true;
  ac_logpath : logpath = "" \/ (exists w, logpath = trim_space w) /\ has_prefix logpath "/var/log/" = true /\
    contains logpath ".." = false /\ contains_any logpath (String (ascii_of_nat 13) (String lf "")) = false;
  ac_ignoreip : exists l, ignoreip = join " " l /\ Forall (fun a => parse_ip a <> None \/ parse_cidr a = true) l;
  ac_banaction : banaction = "" \/ match_string actionPattern banaction = true;
  ac_port : (port = "" \/ match_string portPattern port = true) /\
    existsb (fun part => match atoi part with Some number => (65535 <? number)%Z | None => false end) (split "," port) = false;
}.

(** The settings, as one map. *)
Definition settings_map (bantime findtime : string) (maxretry : Z) (backend logpath ignoreip banaction port : string)
    (ipv6 auto_reload : bool) : values :=
  list_to_map [
    ("bantime", AnyStr bantime); ("findtime", AnyStr findtime); ("maxretry", AnyInt maxretry); ("backend", AnyStr backend);
    ("logpath", AnyStr logpath); ("ignoreip", AnyStr ignoreip); ("banaction", AnyStr banaction); ("port", AnyStr port);
    ("ipv6", AnyBool ipv6); ("auto_reload", AnyBool auto_reload)].

Definition setting_keys : list string :=
  ["bantime"; "findtime"; "maxretry"; "backend"; "logpath"; "ignoreip"; "banaction"; "port"; "ipv6"; "auto_reload"].

Lemma base_keys base input key :
  let defaults := default_settings base in
  is_Some ((filter (fun kv => is_Some (defaults !! fst kv)) input ∪ defaults) !! key) -> In key setting_keys.
Proof.
  cbv zeta. intros Hs. assert (Hd : is_Some (default_settings base !! key)).
  { apply lookup_union_is_Some in Hs as [[v Hv]|Hs]; [|done]. by apply map_lookup_filter_Some in Hv as [_ Hv]. }
  unfold default_settings in Hd. destruct (parseJail base) as [jail defaults]. cbn [list_to_map foldr uncurry fst snd] in Hd.
  repeat (apply lookup_insert_is_Some in Hd as [<-|[_ Hd]]; [cbn; tauto|]). destruct Hd as [v Hv]. by rewrite lookup_empty in Hv.
Qed.

Lemma stringValue_trim m key : stringValue m key "" = "" \/ exists w, stringValue m key "" = trim_space w.
Proof. unfold stringValue. destruct (m !! key) as [[]|]; eauto. Qed.

(** Inserting every setting leaves nothing of the map it started from. *)
Lemma inserted_settings (r : values) bantime findtime maxretry backend logpath ignoreip banaction port ipv6 auto_reload :
  (forall key, is_Some (r !! key) -> In key setting_keys) ->
  <["auto_reload" := AnyBool auto_reload]> (<["ipv6" := AnyBool ipv6]> (<["ignoreip" := AnyStr ignoreip]>
    (<["port" := AnyStr port]> (<["banaction" := AnyStr banaction]> (<["logpath" := AnyStr logpath]>
    (<["backend" := AnyStr backend]> (<["maxretry" := AnyInt maxretry]> (<["findtime" := AnyStr findtime]>
    (<["bantime" := AnyStr bantime]> r))))))))) =
  settings_map bantime findtime maxretry backend logpath ignoreip banaction port ipv6 auto_reload.
Proof.
  intros Hr. apply map_eq. intros key. unfold settings_map. cbn [list_to_map foldr uncurry fst snd].
  destruct (decide (In key setting_keys)) as [Hk|Hk].
  - cbn in Hk. repeat (destruct Hk as [<-|Hk]; [by simplify_map_eq|]). done.
  - assert (r !! key = None) as Hn by (apply eq_None_not_Some; auto).
    cbn in Hk. rewrite !lookup_insert_ne by (intros <-; tauto). by rewrite lookup_empty.
Qed.

Lemma validate_accepted r s :
  (forall key, is_Some (r !! key) -> In key setting_keys) -> validatePresetSettings r = Ok s ->
  exists bantime findtime maxretry backend logpath ignoreip banaction port ipv6 auto_reload,
    accepted bantime findtime maxretry backend logpath ignoreip banaction port /\
    s = settings_map bantime findtime maxretry backend logpath ignoreip banaction port ipv6 auto_reload.
Proof.
  intros Hr. unfold validatePresetSettings.
  intros (r1 & H1 & (r2 & H2 & (r3 & H3 & ([] & H4 & ([] & H5 & ([] & H6 & (r7 & H7 & (r8 & H8 & (r9 & H9 & H10)%bind_result_ok)%bind_result_ok)%bind_result_ok)%bind_result_ok)%bind_result_ok)%bind_result_ok)%bind_result_ok)%bind_result_ok)%bind_result_ok.
  unfold validateDuration in H1, H2. cbn [String.eqb Ascii.eqb Bool.eqb andb] in H1.
  destruct (_ || _) eqn:E1 in H1; [done|]. destruct (_ || _) eqn:E2 in H2; [done|]. injection H1 as <-. injection H2 as <-.
  destruct (atoi _) as [mr|]; [|done]. destruct ((mr <? 1)%Z || _) eqn:E3; [done|]. injection H3 as <-.
  apply fail_if_ok in H4, H5, H6. unfold validatePresetPort in H7. destruct (_ && _) eqn:E7 in H7; [done|].
  destruct (existsb _ _) eqn:E8 in H7; [done|]. injection H7 as <-. unfold validatePresetIgnoreIP in H8.
  apply bind_result_ok in H8 as ([] & H8 & [= <-]). unfold validateFlag in H9, H10.
  apply bind_result_ok in H9 as (i6 & _ & [= <-]). apply bind_result_ok in H10 as (ar & _ & [= <-]).
  eexists _, _, mr, _, _, _, _, _, i6, ar. rewrite inserted_settings by done. split; [|reflexivity].
  repeat match goal with |- context [stringValue ?m ?k ""] => let t := fresh "t" in pose proof (stringValue_trim m k); set (t := stringValue m k "") in * end.
  clearbody t t0 t1 t2 t3 t4 t5. cbn in E2. propify.
  split; try (by auto); try lia.
  - split; [done|]. by apply String.eqb_neq.
  - apply andb_false_iff in H5 as [He%negb_false_iff%String.eqb_eq|Hok]; [by left|]. destruct (decide (t2 = "")) as [|Hne]; [by left|right].
    propify. split_and!; [|done..]. by destruct H3.
  - exists (fields t3). split; [done|]. apply for_each_ok in H8. eapply Forall_impl; [exact H8|]. cbn. intros a Ha.
    apply fail_if_ok, andb_false_iff in Ha as [Ha%bool_decide_eq_false|Ha%negb_false_iff]; auto.
  - apply andb_false_iff in H6 as [He%negb_false_iff%String.eqb_eq|Hok%negb_false_iff]; auto.
  - split; [|done]. apply andb_false_iff in E7 as [He%negb_false_iff%String.eqb_eq|Hok%negb_false_iff]; auto.
Qed.

(** *** Addresses are words *)

Definition address_byte (c : ascii) : bool := is_alnum c || contains_byte ".:/" c.

Lemma address_word s : str_forall address_byte s = true -> str_forall is_word_byte s = true.
Proof.
  apply str_forall_mono. intros c. unfold address_byte. destruct c as [[] [] [] [] [] [] [] []]; vm_compute; congruence.
Qed.

Lemma digits_address s : str_forall is_digit s = true -> str_forall address_byte s = true.
Proof. apply str_forall_mono. intros c Hc. unfold address_byte, is_alnum. by rewrite Hc, !orb_true_r. Qed.

Lemma split_address sep s :
  address_byte sep = true -> Forall (fun x => str_forall address_byte x = true) (split sep s) -> str_forall address_byte s = true.
Proof.
  intros Hsep. rewrite <- (join_split sep s) at 2. generalize (split sep s). induction l as [|x l IH]; [done|].
  intros [Hx Hl]%Forall_cons. specialize (IH Hl). destruct l as [|y l]; [done|].
  change (join (String sep "") (x :: y :: l)) with (x ++ String sep (join (String sep "") (y :: l))).
  rewrite str_forall_app, Hx. cbn [str_forall]. by rewrite Hsep, IH.
Qed.

Lemma ipv4_address s b : parse_ipv4 s = Some b -> str_forall address_byte s = true.
Proof.
  assert (Ho : forall o z, parse_octet o = Some z -> str_forall address_byte o = true).
  { intros o z. unfold parse_octet. destruct (_ || _) eqn:E; [done|]. intros _. apply digits_address. by propify. }
  unfold parse_ipv4. intros Hs. apply (split_address "."); [done|].
  destruct (split "." s) as [|o1 [|o2 [|o3 [|o4 [|]]]]]; try done.
  destruct (parse_octet o1) eqn:E1; [|done]. destruct (parse_octet o2) eqn:E2; [|done].
  destruct (parse_octet o3) eqn:E3; [|done]. destruct (parse_octet o4) eqn:E4; [|done]. repeat constructor; eauto.
Qed.

Lemma hex_group_address s n acc n' acc' rest :
  hex_group s n acc = Some (n', acc', rest) -> exists pre, s = pre ++ rest /\ str_forall address_byte pre = true.
Proof.
  revert n acc. induction s as [|c s IH]; intros n acc; cbn [hex_group]; [intros [= <- <- <-]; by exists ""|].
  destruct (hex_val c) as [d|] eqn:Hc; [|intros [= <- <- <-]; by exists ""].
  destruct (3 <? n)%nat; [done|]. intros (pre & -> & Hp)%IH. exists (String c pre). split; [done|]. cbn. rewrite Hp, andb_true_r.
  revert Hc. unfold address_byte. destruct c as [[] [] [] [] [] [] [] []]; vm_compute; congruence.
Qed.

Lemma ipv6_loop_address fuel s bytes ellipsis bytes' ellipsis' :
  ipv6_loop fuel s bytes ellipsis = Some (bytes', ellipsis', "") -> str_forall address_byte s = true.
Proof.
  revert s bytes ellipsis. induction fuel as [|fuel IH]; intros s bytes ellipsis; cbn [ipv6_loop]; [by intros [= _ _ ->]|].
  destruct (hex_group s 0 0) as [[[[|n] acc] rest]|] eqn:Hg; [done| |done].
  apply hex_group_address in Hg as (pre & Hs & Hp). destruct (has_prefix rest ".").
  { destruct (_ && _); [done|]. destruct (_ <? _)%nat; [done|]. destruct (parse_ipv4 s) eqn:H4; [|done]. intros _. by eapply ipv4_address. }
  rewrite Hs, str_forall_app, Hp. destruct rest as [|c s']; [done|]. cbn [str_forall andb].
  destruct (Ascii.eqb_spec c ":") as [->|]; [|done]. cbn [negb orb]. destruct (String.eqb s' ""); [done|].
  intros Hl. change (address_byte ":") with true. cbn [andb].
  destruct s' as [|c s'']; [by apply IH in Hl|]. destruct (Ascii.eqb_spec c ":") as [->|Hne].
  - destruct ellipsis; [done|]. cbn [str_forall]. change (address_byte ":") with true.
    destruct (String.eqb_spec s'' "") as [->|]; [done|]. by apply IH in Hl.
  - assert (Hl' : ipv6_loop fuel (String c s'') (bytes ++ [Z.shiftr acc 8; Z.land acc 255])%list ellipsis = Some (bytes', ellipsis', "")).
    { by destruct c as [[] [] [] [] [] [] [] []]. }
    by apply IH in Hl'.
Qed.

Lemma parse_addr_address s b : parse_addr s = Some b -> str_forall address_byte s = true.
Proof.
  unfold parse_addr. destruct (first_mark s) as [c|]; [|done].
  destruct (Ascii.eqb_spec c ".") as [->|]; [apply ipv4_address|].
  destruct (Ascii.eqb_spec c ":") as [->|]; [|by destruct c as [[] [] [] [] [] [] [] []]].
  destruct (contains_byte s "%"); [done|]. unfold parse_ipv6.
  assert (Hloop : forall t e, (match ipv6_loop 8 t [] e with Some (bytes, ellipsis, "") => expand_ellipsis bytes ellipsis | _ => None end)
    = Some b -> str_forall address_byte t = true).
  { intros t e. destruct (ipv6_loop 8 t [] e) as [[[bytes el] [|]]|] eqn:Hl; try done. intros _. by eapply ipv6_loop_address. }
  destruct (has_prefix s "::") eqn:Hcc; [apply has_prefix_iff in Hcc as [s' ->]; cbn [String.append]|].
  - cbn [str_forall]. change (address_byte ":") with true. destruct (_ && _) eqn:E; [|by intros ?%Hloop].
    apply andb_true_iff in E as [_ ->%String.eqb_eq]. done.
  - assert (Hs : match s with String ":" (String ":" s') => (s', Some 0) | _ => (s, None) end = (s, None)).
    { destruct s as [|c1 s]; [done|]. destruct (Ascii.eqb_spec c1 ":") as [->|]; [|by destruct c1 as [[] [] [] [] [] [] [] []]].
      destruct s as [|c2 s]; [done|]. destruct (Ascii.eqb_spec c2 ":") as [->|]; [|by destruct c2 as [[] [] [] [] [] [] [] []]].
      pose proof (has_prefix_app "::" s) as Hp. cbn [String.append] in Hp. congruence. }
    rewrite Hs. rewrite bool_decide_eq_false_2 by done. cbn [andb]. apply Hloop.
Qed.

Lemma valid_address a : parse_ip a <> None \/ parse_cidr a = true -> a <> "" /\ str_forall is_word_byte a = true.
Proof.
  intros Ha. split; [intros ->; by destruct Ha|]. apply address_word. destruct Ha as [Ha|Ha].
  - unfold parse_ip in Ha. destruct (parse_addr a) as [b|] eqn:Hp; [|done]. by eapply parse_addr_address.
  - unfold parse_cidr in Ha. destruct (cut "/" a) as [addr [mask|]] eqn:Hc; [|done]. apply cut_some in Hc as ->.
    destruct (parse_addr addr) as [b|] eqn:Hp; [|done]. propify. rewrite str_forall_app, (parse_addr_address _ _ Hp).
    cbn [str_forall andb]. by apply digits_address.
Qed.

(** *** The printed settings *)

Lemma match_word (r : re) t : over (in_range 33 126) r -> match_string r t = true -> str_forall is_word_byte t = true.
Proof. intros Ho. apply match_over; [|done]. unfold in_range. lia. Qed.

Ltac in_class := unfold r_alnum, r_alpha, r_upper, r_lower, r_digit, in_range in *; lia.

Lemma one_of_word s z : str_forall is_word_byte s = true -> one_of s z = true -> in_range 33 126 z = true.
Proof.
  intros Hs [c [Hc <-%Z.eqb_eq]]%existsb_exists. rewrite str_forall_forall in Hs. by apply Hs.
Qed.

Lemma duration_word t : match_string durationPattern t = true -> t <> "" /\ str_forall is_word_byte t = true.
Proof.
  intros Ht. split; [by intros ->|]. revert Ht. apply match_word. unfold durationPattern, opt. cbn [over lit].
  split_and!; try done; try (intros z Hz; by in_class). 1-2: by intros z <-%Z.eqb_eq.
  intros z. by apply one_of_word.
Qed.

Lemma backend_word t : match_string backendPattern t = true -> t <> "" /\ str_forall is_word_byte t = true.
Proof.
  intros Ht. split; [by intros ->|]. revert Ht. apply match_word. unfold backendPattern. cbn [over]. by split_and!; apply over_lit.
Qed.

Lemma action_word t : match_string actionPattern t = true -> t <> "" /\ str_forall is_word_byte t = true.
Proof.
  intros Ht. split; [by intros ->|]. revert Ht. apply match_word. unfold actionPattern, plus, action_class. cbn [over].
  split; intros z [Hz|Hz]%orb_true_iff; [by in_class|by refine (one_of_word _ _ _ Hz)|by in_class|by refine (one_of_word _ _ _ Hz)].
Qed.

Lemma port_word t : match_string portPattern t = true -> t <> "" /\ str_forall is_word_byte t = true.
Proof.
  intros Ht. split; [by intros ->|]. revert Ht. apply match_word.
  assert (Hi : over (in_range 33 126) port_item).
  { unfold port_item. cbn [over]. split_and!; try (intros z Hz; by in_class).
    - intros z [Hz|Hz]%orb_true_iff; [by in_class|by refine (one_of_word _ _ _ Hz)].
    - apply over_upto. cbn. intros z Hz. by in_class. }
  unfold portPattern. cbn [over]. split_and!; [done|by apply over_lit|done].
Qed.

Lemma settings_printable bantime findtime maxretry backend logpath ignoreip banaction port ipv6 auto_reload :
  accepted bantime findtime maxretry backend logpath ignoreip banaction port ->
  printable (settings_map bantime findtime maxretry backend logpath ignoreip banaction port ipv6 auto_reload).
Proof.
  intros [Hbt [Hft _] Hmr Hbe Hlp (l & -> & Hig) Hba [Hpo _]] key Hk. unfold printed, settings_map.
  cbn [list_to_map foldr uncurry fst snd]. cbn in Hk.
  assert (Hword : forall t, t <> "" /\ str_forall is_word_byte t = true -> t = "" \/ clean_value t)
    by (intros t [? ?]; right; by apply clean_word).
  repeat (destruct Hk as [<-|Hk]; [simplify_map_eq; cbn [sprint default]|]); [..|done].
  - by apply Hword, duration_word.
  - by apply Hword, duration_word.
  - apply Hword. destruct (itoa_numeral maxretry ltac:(lia)) as (Hd & _ & c & r & Hi & _).
    split; [by rewrite Hi|]. by apply address_word, digits_address.
  - by apply Hword, backend_word.
  - destruct Hlp as [->|((w & Hw) & Hp & _ & Hc)]; [by left|right]. by eapply clean_log_path.
  - destruct l as [|a l]; [by left|right]. apply clean_words; [done|]. eapply Forall_impl; [exact Hig|]. apply valid_address.
  - destruct Hba as [->|Hba]; [by left|]. by apply Hword, action_word.
  - destruct Hpo as [->|Hpo]; [by left|]. by apply Hword, port_word.
Qed.

Lemma clean_trim t : t = "" \/ clean_value t -> trim_space t = t.
Proof. intros [->|(_ & _ & Hl & Hr)]; [done|]. unfold trim_space. rewrite Hl. apply (Hr ""). Qed.

Lemma stringValue_clean m key v :
  m !! key = Some (AnyStr v) -> v = "" \/ clean_value v -> stringValue m key "" = v.
Proof. intros Hm Hv. unfold stringValue. rewrite Hm. by apply clean_trim. Qed.

Lemma duration_valid key m v :
  m !! key = Some (AnyStr v) -> match_string durationPattern v = true -> key <> "findtime" \/ v <> "-1" ->
  validateDuration key m = Ok m.
Proof.
  intros Hm Hv Hne. unfold validateDuration, stringValue. rewrite Hm. cbn [sprint].
  rewrite trim_space_word by (by apply duration_word). rewrite Hv. cbn [negb orb].
  assert (String.eqb key "findtime" && String.eqb v "-1" = false) as ->.
  { apply andb_false_iff. destruct Hne as [Hn|Hn]; [left|right]; by apply String.eqb_neq. }
  by rewrite insert_id.
Qed.

(** Validating settings that were accepted changes nothing. *)
Lemma validate_idempotent bantime findtime maxretry backend logpath ignoreip banaction port ipv6 auto_reload :
  accepted bantime findtime maxretry backend logpath ignoreip banaction port ->
  let s := settings_map bantime findtime maxretry backend logpath ignoreip banaction port ipv6 auto_reload in
  validatePresetSettings s = Ok s.
Proof.
  intros [Hbt [Hft Hft1] Hmr Hbe Hlp (l & Hl & Hig) Hba [Hpo Hnum]] s. unfold validatePresetSettings.
  assert (Hs : s !! "bantime" = Some (AnyStr bantime) /\ s !! "findtime" = Some (AnyStr findtime) /\
    s !! "maxretry" = Some (AnyInt maxretry) /\ s !! "backend" = Some (AnyStr backend) /\ s !! "logpath" = Some (AnyStr logpath) /\
    s !! "ignoreip" = Some (AnyStr ignoreip) /\ s !! "banaction" = Some (AnyStr banaction) /\ s !! "port" = Some (AnyStr port) /\
    s !! "ipv6" = Some (AnyBool ipv6) /\ s !! "auto_reload" = Some (AnyBool auto_reload))
    by (unfold s, settings_map; cbn [list_to_map foldr uncurry fst snd]; by simplify_map_eq).
  destruct Hs as (S1 & S2 & S3 & S4 & S5 & S6 & S7 & S8 & S9 & S10).
  rewrite (duration_valid "bantime" s bantime) by (done || by left). cbn [bind_result].
  rewrite (duration_valid "findtime" s findtime) by (done || by right). cbn [bind_result].
  assert (Hm : stringValue s "maxretry" "" = itoa maxretry).
  { unfold stringValue. rewrite S3. cbn. destruct (itoa_numeral maxretry ltac:(lia)) as (Hd & _).
    by apply trim_space_word, address_word, digits_address. }
  rewrite Hm, atoi_itoa by (unfold is_int64; lia).
  assert ((maxretry <? 1)%Z || (1000 <? maxretry)%Z = false) as -> by lia. cbn [bind_result]. rewrite insert_id by done.
  pose proof (settings_printable bantime findtime maxretry backend logpath ignoreip banaction port ipv6 auto_reload
    ltac:(split; eauto)) as Hpr. fold s in Hpr. unfold printable, printed in Hpr.
  assert (Hv : forall key v, In key managed_keys -> s !! key = Some (AnyStr v) -> stringValue s key "" = v).
  { intros key v Hk Hsk. apply stringValue_clean; [done|]. specialize (Hpr key Hk). by rewrite Hsk in Hpr. }
  rewrite (Hv "backend" backend) by (done || cbn; tauto). rewrite Hbe. cbn [negb fail_if bind_result]. rewrite insert_id by done.
  rewrite (Hv "logpath" logpath) by (done || cbn; tauto). rewrite (insert_id s "logpath") by done.
  assert (fail_if (E := string) (negb (String.eqb logpath "") && (negb (has_prefix logpath "/var/log/") || contains logpath ".." ||
    contains_any logpath (String (ascii_of_nat 13) (String lf "")))) "logpath must be a safe path below /var/log" = Ok ()) as ->.
  { apply fail_if_ok. destruct Hlp as [->|(_ & -> & -> & ->)]; [done|]. by rewrite andb_false_r. }
  cbn [bind_result]. rewrite (Hv "banaction" banaction) by (done || cbn; tauto). rewrite (insert_id s "banaction") by done.
  assert (fail_if (E := string) (negb (String.eqb banaction "") && negb (match_string actionPattern banaction))
    "banaction contains unsupported characters" = Ok ()) as ->.
  { apply fail_if_ok. destruct Hba as [->| ->]; [done|]. by rewrite andb_false_r. }
  cbn [bind_result]. unfold validatePresetPort. rewrite (Hv "port" port) by (done || cbn; tauto).
  assert (negb (String.eqb port "") && negb (match_string portPattern port) = false) as ->.
  { destruct Hpo as [->| ->]; [done|]. by rewrite andb_false_r. }
  rewrite Hnum, (insert_id s "port") by done. cbn [bind_result]. unfold validatePresetIgnoreIP.
  rewrite (Hv "ignoreip" ignoreip) by (done || cbn; tauto).
  assert (Hf : fields ignoreip = l) by (rewrite Hl; apply fields_join; eapply Forall_impl; [exact Hig|apply valid_address]).
  rewrite Hf. clear Hf.
  assert (Hfe : forall f, (forall a : string, parse_ip a <> None \/ parse_cidr a = true -> f a = Ok ()) -> for_each (E := string) f l = Ok ()).
  { intros f Hf. apply for_each_ok. eapply Forall_impl; [exact Hig|]. done. }
  rewrite Hfe; [|intros a Ha; apply fail_if_ok; destruct Ha as [Ha| ->]; [by rewrite bool_decide_eq_false_2|by rewrite andb_false_r]].
  cbn [bind_result]. rewrite <- Hl, (insert_id s "ignoreip") by done. unfold validateFlag. rewrite S9. cbn [boolValue map_err bind_result].
  rewrite (insert_id s "ipv6"), S10 by done. cbn [boolValue map_err bind_result]. by rewrite (insert_id s "auto_reload").
Qed.


(** The settings that validation accepts are read back from the jail file rendered for them,
    except for the two that no jail file holds, which are read as true. *)
Lemma preset_settings_again id p base input s :
  preset_of id = Some p -> normalizedPresetSettings base input = Ok s ->
  normalizedPresetSettings (renderPresetJail (jailContent p) s) ∅ =
  Ok (<["ipv6" := AnyBool true]> (<["auto_reload" := AnyBool true]> s)).
Proof.
  intros Hp Hs. apply validate_accepted in Hs; [|apply base_keys].
  destruct Hs as (bt & ft & mr & be & lp & ig & ba & po & i6 & ar & Hac & ->).
  pose proof (settings_printable _ _ _ _ _ _ _ _ i6 ar Hac) as Hpr.
  assert (Hsame : <["ipv6" := AnyBool true]> (<["auto_reload" := AnyBool true]> (settings_map bt ft mr be lp ig ba po i6 ar)) =
    settings_map bt ft mr be lp ig ba po true true).
  { apply map_eq. intros key. unfold settings_map. cbn [list_to_map foldr uncurry fst snd].
    destruct (decide (In key setting_keys)) as [Hk|Hk]; cbn in Hk.
    - repeat (destruct Hk as [<-|Hk]; [by simplify_map_eq|]). done.
    - by rewrite !lookup_insert_ne by (intros <-; tauto). }
  rewrite Hsame. rewrite <- (validate_idempotent _ _ _ _ _ _ _ _ true true Hac). unfold normalizedPresetSettings. f_equal.
  rewrite map_filter_empty, (left_id_L ∅ (∪)). unfold default_settings.
  set (s := settings_map bt ft mr be lp ig ba po i6 ar) in *.
  pose proof (fun key => preset_value id p s key Hp Hpr) as Hv. destruct (parseJail _) as [jail vals]. cbn [snd] in Hv.
  rewrite !Hv by (cbn; tauto). unfold printed, s, settings_map. cbn [list_to_map foldr uncurry fst snd]. simplify_map_eq.
  cbn [sprint default]. rewrite atoi_itoa by (destruct Hac; unfold is_int64; lia). done.
Qed.
End lines.
