(* ===== verification/Fail2ban.v ===== *)
(** * The Fail2Ban module

    modules/fail2ban: the lifecycle of the package, the protection presets (which files they
    write, and what is undone when a step fails), the jails and the banned addresses.  The
    module asks the Agent through [agent_op], and for the list of a directory. *)

From S2P Require Import Prelude GoStrings GoStrconv GoPath GoRegexp GoNet Effects AppErrors AgentApi Presets.
Local Open Scope string_scope.
Local Open Scope go_scope.

(** A file of a listing: [contract.FileInfo], the fields the module reads. *)
Record FileInfo := { fi_Name : string; fi_Path : string; fi_ModTime : Z }.

Inductive dir_call : Set -> Set :=
| DirList_ (path : string) : dir_call (result error (list FileInfo)).

Definition f2b_call (X : Set) : Set := (agent_op X + dir_call X)%type.
Notation f2b_prog A := (prog f2b_call A).

Definition ask {X : Set} (op : agent_op X) : f2b_prog X := call (inl op : f2b_call X).
Definition list_dir (path : string) : f2b_prog (result error (list FileInfo)) := call (inr (DirList_ path) : f2b_call _).

Definition fail2ban : string := "fail2ban".

(** ** Snapshots of files *)

(** source: modules/fail2ban/presets.go:136-140 (configSnapshot): the content, if it was read *)
Record configSnapshot := { snap_path : string; snap_content : option string }.

(** source: modules/fail2ban/presets.go:205-211 (snapshotConfig) *)
Definition snapshotConfig (path : string) : f2b_prog configSnapshot :=
  if String.eqb path "" then Ret {| snap_path := ""; snap_content := None |} else
  let! content := ask (FileRead_ path) in
  Ret {| snap_path := path; snap_content := match content with Ok c => Some c | Err _ => None end |}.

(** source: modules/fail2ban/presets.go:213-222 (restoreConfig) *)
Definition restoreConfig (snapshot : configSnapshot) : f2b_prog () :=
  if String.eqb (snap_path snapshot) "" then Ret () else
  match snap_content snapshot with
  | Some content => ignore! ask (FileWrite_ (snap_path snapshot) content 420) in Ret ()
  | None => ignore! ask (FileDelete_ (snap_path snapshot)) in Ret ()
  end.

(** source: modules/fail2ban/presets.go:122-134 (presetNeedsUpdate) *)
Definition presetNeedsUpdate (preset : protectionPreset) : f2b_prog bool :=
  let! jail := ask (FileRead_ (jailPath preset)) in
  match jail with
  | Err _ => Ret true
  | Ok content =>
      if negb (String.eqb content (jailContent preset)) then Ret true
      else if String.eqb (filterPath preset) "" then Ret false
      else
        let! flt := ask (FileRead_ (filterPath preset)) in
        Ret (match flt with Err _ => true | Ok c => negb (String.eqb c (filterContent preset)) end)
  end.

(** What is done after the files were written: both snapshots are restored, and the service
    restarted with them. *)
Definition undo (filterSnapshot jailSnapshot : configSnapshot) : f2b_prog () :=
  ignore! restoreConfig filterSnapshot in
  ignore! restoreConfig jailSnapshot in
  ignore! ask (ServiceAct VRestart fail2ban) in
  Ret ().

(** source: modules/fail2ban/preset_api.go:410-414 (applyPresetFiles, the filter) *)
Definition write_filter (id : string) (preset : protectionPreset) : f2b_prog (result error ()) :=
  if String.eqb (filterPath preset) "" then Ret (Ok ()) else
  wrap! (Wrapped ("write " ++ id ++ " filter")) of _ := ask (FileWrite_ (filterPath preset) (filterContent preset) 420) in
  Ret (Ok ()).

(** source: modules/fail2ban/preset_api.go:436-441 (applyPresetFiles, the start at boot) *)
Definition enable_at_boot (filterSnapshot jailSnapshot : configSnapshot) : f2b_prog (result error ()) :=
  let! enabled := ask (ServiceAct VEnable fail2ban) in
  match enabled with
  | Err err => ignore! undo filterSnapshot jailSnapshot in Ret (Err (Wrapped "enable fail2ban at boot" err))
  | Ok _ => Ret (Ok ())
  end.

(** source: modules/fail2ban/preset_api.go:428-435 (applyPresetFiles, the restart) *)
Definition restart_or_undo (id : string) (filterSnapshot jailSnapshot : configSnapshot) : f2b_prog (result error ()) :=
  let! restarted := ask (ServiceAct VRestart fail2ban) in
  match restarted with
  | Err err => ignore! undo filterSnapshot jailSnapshot in Ret (Err (Wrapped ("apply " ++ id ++ " protection") err))
  | Ok _ => Ret (Ok ())
  end.

(** source: modules/fail2ban/preset_api.go:407-443 (applyPresetFiles) *)
Definition applyPresetFiles (id : string) (preset : protectionPreset) (jail_path jail_content : string)
    (reload autoReload : bool) : f2b_prog (result error ()) :=
  let! filterSnapshot := snapshotConfig (filterPath preset) in
  let! jailSnapshot := snapshotConfig jail_path in
  try! _ := write_filter id preset in
  let! written := ask (FileWrite_ jail_path jail_content 420) in
  match written with
  | Err err => ignore! restoreConfig filterSnapshot in Ret (Err (Wrapped ("write " ++ id ++ " jail") err))
  | Ok _ =>
      if negb reload then Ret (Ok ()) else
      let! tested := ask (CommandExecute_ "fail2ban-server" ["-t"]) in
      let invalid stderr :=
        ignore! restoreConfig filterSnapshot in
        ignore! restoreConfig jailSnapshot in
        Ret (Err (Plain ("validate " ++ id ++ " protection: " ++ trim_space stderr))) in
      match tested with
      | Err _ => invalid ""
      | Ok (exitCode, _, stderr) =>
          if negb (exitCode =? 0)%Z then invalid stderr else
          try! _ := (if autoReload then restart_or_undo id filterSnapshot jailSnapshot else Ret (Ok ())) in
          enable_at_boot filterSnapshot jailSnapshot
      end
  end.

(** ** The current state of a preset *)

Definition disabled_path (preset : protectionPreset) : string := jailPath preset ++ ".disabled".

Definition unknown_preset {A} (id : string) : result error A := Err (Plain ("unknown protection preset: " ++ id)).

(** source: modules/fail2ban/preset_api.go:261-285 (currentPreset): the preset, the content of
    its jail, whether it is enabled, and when it was changed *)
Definition currentPreset (id : string) : f2b_prog (result error (protectionPreset * string * bool * option Z)) :=
  match preset_of id with
  | None => Ret (unknown_preset id)
  | Some preset =>
      if String.eqb id "manual" then Ret (unknown_preset id) else
      let! active := ask (FileRead_ (jailPath preset)) in
      let enabled := is_ok active in
      let! content := if enabled then Ret active else ask (FileRead_ (disabled_path preset)) in
      let content := match content with Ok c => c | Err _ => jailContent preset end in
      let! entries := list_dir (dir (jailPath preset)) in
      let modified := match entries with
        | Ok l => fi_ModTime <$> List.find (fun entry =>
            String.eqb (fi_Path entry) (jailPath preset) || String.eqb (fi_Path entry) (disabled_path preset) ||
            String.eqb (fi_Name entry) (base (jailPath preset))) l
        | Err _ => None
        end in
      Ret (Ok (preset, content, enabled, modified))
  end.

Section unicode.
Context `{Unicode}.

Definition settled (r : result string values) : result error values := map_err Plain r.

(** source: modules/fail2ban/presets.go:179-203 (disableProtectionPreset) *)
Definition disableProtectionPreset (presetID : string) : f2b_prog (result error ()) :=
  match preset_of presetID with
  | None => Ret (unknown_preset presetID)
  | Some preset =>
      let! jailSnapshot := snapshotConfig (jailPath preset) in
      let! disabledSnapshot := snapshotConfig (disabled_path preset) in
      try! _ := match snap_content jailSnapshot with
        | Some content =>
            if String.eqb presetID "manual" then Ret (Ok ()) else
            wrap! (Wrapped ("preserve " ++ presetID ++ " settings")) of _ :=
              ask (FileWrite_ (disabled_path preset) content 420) in Ret (Ok ())
        | None => Ret (Ok ())
        end in
      let! deleted := ask (FileDelete_ (jailPath preset)) in
      match deleted with
      | Err err => ignore! restoreConfig disabledSnapshot in Ret (Err (Wrapped ("remove " ++ presetID ++ " jail") err))
      | Ok _ =>
          let! restarted := ask (ServiceAct VRestart fail2ban) in
          match restarted with
          | Err err =>
              ignore! undo jailSnapshot disabledSnapshot in
              Ret (Err (Wrapped ("disable " ++ presetID ++ " protection") err))
          | Ok _ => Ret (Ok ())
          end
      end
  end.

(** source: modules/fail2ban/preset_api.go:389-405 (SetProtectionPresetEnabled) *)
Definition SetProtectionPresetEnabled (id : string) (enabled : bool) : f2b_prog (result error ()) :=
  try! (preset, current, currentEnabled, _) := currentPreset id in
  if Bool.eqb enabled currentEnabled then Ret (Ok ())
  else if enabled then
    match settled (normalizedPresetSettings current ∅) with
    | Err e => Ret (Err e)
    | Ok settings =>
        applyPresetFiles id preset (jailPath preset) (renderPresetJail (jailContent preset) settings) true true
    end
  else disableProtectionPreset id.

(** source: modules/fail2ban/preset_api.go:361-375 (SaveProtectionPreset) *)
Definition SaveProtectionPreset (id : string) (input : values) : f2b_prog (result error ()) :=
  try! (preset, current, enabled, _) := currentPreset id in
  match settled (normalizedPresetSettings current input) with
  | Err e => Ret (Err e)
  | Ok settings =>
      let target := if enabled : bool then jailPath preset else disabled_path preset in
      applyPresetFiles id preset target (renderPresetJail (jailContent preset) settings) enabled
        (bool_decide (settings !! "auto_reload" = Some (AnyBool true)))
  end.

(** source: modules/fail2ban/preset_api.go:377-387 (ResetProtectionPreset) *)
Definition ResetProtectionPreset (id : string) : f2b_prog (result error ()) :=
  try! (preset, _, enabled, _) := currentPreset id in
  let target := if enabled : bool then jailPath preset else disabled_path preset in
  applyPresetFiles id preset target (jailContent preset) enabled true.

(** source: modules/fail2ban/presets.go:142-177 (enableProtectionPreset) *)
Definition enableProtectionPreset (presetID : string) : f2b_prog (result error ()) :=
  match preset_of presetID with
  | None => Ret (unknown_preset presetID)
  | Some preset =>
      if negb (String.eqb presetID "manual") then SetProtectionPresetEnabled presetID true else
      let! filterSnapshot := snapshotConfig (filterPath preset) in
      let! jailSnapshot := snapshotConfig (jailPath preset) in
      try! _ := write_filter presetID preset in
      let! written := ask (FileWrite_ (jailPath preset) (jailContent preset) 420) in
      match written with
      | Err err => ignore! restoreConfig filterSnapshot in Ret (Err (Wrapped ("write " ++ presetID ++ " jail") err))
      | Ok _ =>
          try! _ := restart_or_undo presetID filterSnapshot jailSnapshot in
          enable_at_boot filterSnapshot jailSnapshot
      end
  end.

(** ** The pages of the presets *)

(** source: modules/fail2ban/preset_api.go:318-324 (mapStringAny) *)
Definition mapStringAny (input : gmap string string) : values := AnyStr <$> input.

(** source: modules/fail2ban/preset_api.go:326-331 (compactStrings) *)
Definition compactStrings (value : string) : list string := if String.eqb (trim_space value) "" then [] else [value].

(** source: modules/fail2ban/preset_api.go:333-338 (displayBanActions) *)
Definition displayBanActions (value : string) : list string :=
  if String.eqb (trim_space value) "" then ["Fail2Ban default"] else [value].

(** source: modules/fail2ban/preset_api.go:69-76 (managedPresetIDs): the sorted keys of the
    metadata *)
Definition managedPresetIDs : list string := ["nginx_auth"; "nginx_bad_bots"; "nginx_scanners"; "php_probes"; "sshd"].

(** source: modules/fail2ban/preset_api.go:298-313 (contract.ProtectionPreset): without the
    texts of the metadata *)
Record ProtectionPreset := {
  pp_ID : string; pp_Enabled : bool; pp_NeedsUpdate : bool; pp_Jails : list string; pp_RuleCount : Z;
  pp_LastModified : option Z; pp_Settings : values; pp_Defaults : values; pp_Files : list string; pp_Filters : list string;
  pp_LogPaths : list string; pp_Actions : list string }.

(** A map that was not returned. *)
Definition or_nil (r : result string values) : values := match r with Ok s => s | Err _ => ∅ end.

Definition preset_files (preset : protectionPreset) : list string :=
  jailPath preset :: if String.eqb (filterPath preset) "" then [] else [filterPath preset].

(** source: modules/fail2ban/preset_api.go:290-313 (ProtectionPresets, one preset) *)
Definition describe (id : string) : f2b_prog (result error ProtectionPreset) :=
  try! (preset, content, enabled, modified) := currentPreset id in
  let '(jail, raw) := parseJail content in
  let settings := match normalizedPresetSettings (jailContent preset) (mapStringAny raw) with
    | Ok s => s
    | Err _ => or_nil (normalizedPresetSettings (jailContent preset) ∅)
    end in
  let! needsUpdate := if enabled : bool then presetNeedsUpdate {|
      filterPath := filterPath preset; filterContent := filterContent preset; jailPath := jailPath preset;
      jailContent := renderPresetJail (jailContent preset) settings |} else Ret false in
  Ret (Ok {|
    pp_ID := id; pp_Enabled := enabled; pp_NeedsUpdate := needsUpdate; pp_Jails := [jail];
    pp_RuleCount := Z.max 1 (filterRuleCount (filterContent preset)); pp_LastModified := modified; pp_Settings := settings;
    pp_Defaults := or_nil (normalizedPresetSettings (jailContent preset) ∅); pp_Files := preset_files preset;
    pp_Filters := [value_of raw "filter"]; pp_LogPaths := compactStrings (value_of raw "logpath");
    pp_Actions := displayBanActions (value_of raw "banaction") |}).

Fixpoint describe_all (ids : list string) : f2b_prog (result error (list ProtectionPreset)) :=
  match ids with
  | [] => Ret (Ok [])
  | id :: rest => try! p := describe id in try! l := describe_all rest in Ret (Ok (p :: l))
  end.

(** source: modules/fail2ban/preset_api.go:287-316 (ProtectionPresets) *)
Definition ProtectionPresets : f2b_prog (result error (list ProtectionPreset)) := describe_all managedPresetIDs.

(** source: modules/fail2ban/preset_api.go:354-358 (contract.ProtectionPresetPreview) *)
Record Preview := {
  pv_Jails : list string; pv_Parameters : values; pv_Files : list string; pv_Services : list string;
  pv_Configuration : string; pv_Filter : string }.

(** source: modules/fail2ban/preset_api.go:340-359 (PreviewProtectionPreset) *)
Definition PreviewProtectionPreset (id : string) (input : values) : f2b_prog (result error Preview) :=
  try! (preset, current, _, _) := currentPreset id in
  Ret (let? settings := settled (normalizedPresetSettings current input) in
       Ok {| pv_Jails := [fst (parseJail (jailContent preset))]; pv_Parameters := settings; pv_Files := preset_files preset;
             pv_Services := [fail2ban]; pv_Configuration := renderPresetJail (jailContent preset) settings;
             pv_Filter := filterContent preset |}).

(** ** The client of Fail2Ban *)

(** source: modules/fail2ban/module.go:521-540 (fail2BanClientOutput) *)
Definition fail2BanClientOutput (args : list string) : f2b_prog (result error string) :=
  let! r := ask (CommandExecute_ "fail2ban-client" args) in
  Ret (match r with
       | Err err =>
           if contains (error_text err) "executable file not found"
           then Err (App (AgentUnavailable (Plain "Fail2Ban is not installed")))
           else Err (App (Internal "failed to execute fail2ban-client" err))
       | Ok (exitCode, stdout, stderr) =>
           if (exitCode =? 0)%Z then Ok stdout else
           let errText := trim_space stderr in
           if contains errText "Failed to access socket" || contains errText "Connection refused" ||
              contains errText "No such file" || contains errText "server is not running"
           then Err (App (New 503 CodeAgentUnavailable "Fail2Ban service is not running"))
           else if contains errText "Permission denied" then Err (Forbidden "Permission denied to access Fail2Ban")
           else Err (App (New 422 CodeInvalidInput ("fail2ban-client failed: " ++ errText)))
       end).

(** source: modules/fail2ban/module.go:542-545 (runFail2BanClient) *)
Definition runFail2BanClient (args : list string) : f2b_prog (result error ()) :=
  try! _ := fail2BanClientOutput args in Ret (Ok ()).

(** What follows the first [label] of a line. *)
Fixpoint after_label (label line : string) : option string :=
  if has_prefix line label then Some (drop_bytes (String.length label) line)
  else match line with "" => None | String _ rest => after_label label rest end.

Fixpoint first_after (label : string) (lines : list string) : option string :=
  match lines with
  | [] => None
  | line :: rest => match after_label label line with Some v => Some v | None => first_after label rest end
  end.

(** source: modules/fail2ban/module.go:547-565 (parseFail2BanList) *)
Definition parseFail2BanList (output label : string) : list string :=
  match first_after label (split lf output) with
  | None => []
  | Some value =>
      let value := trim_space value in
      if String.eqb value "" then [] else List.flat_map (fun part => fields (trim_space part)) (split "," value)
  end.

(** source: modules/fail2ban/module.go:505-511 (activeJails) *)
Definition activeJails : f2b_prog (result error (list string)) :=
  try! output := fail2BanClientOutput ["status"] in Ret (Ok (parseFail2BanList output "Jail list:")).

(** source: modules/fail2ban/module.go:513-519 (bannedIPs) *)
Definition bannedIPs (jail : string) : f2b_prog (result error (list string)) :=
  try! output := fail2BanClientOutput ["status"; jail] in Ret (Ok (parseFail2BanList output "Banned IP list:")).

(** ** The tables of jails and addresses *)

Inductive row := JailRow (name : string) (banned : Z) | BannedRow (ip jail : string).

Fixpoint each_jail (jails : list string) (rows : string -> list string -> list row) : f2b_prog (result error (list row)) :=
  match jails with
  | [] => Ret (Ok [])
  | jail :: rest =>
      try! banned := bannedIPs jail in
      try! more := each_jail rest rows in
      Ret (Ok (rows jail banned ++ more)%list)
  end.

(** source: modules/fail2ban/module.go:411-445 (DataGridData): the jails are read first, also
    for a page that is not known *)
Definition DataGridData (pageID : string) : f2b_prog (result error (list row)) :=
  try! jails := activeJails in
  if String.eqb pageID "jails" then each_jail jails (fun jail banned => [JailRow jail (Z.of_nat (length banned))])
  else if String.eqb pageID "banned_ips" then each_jail jails (fun jail banned => (fun ip => BannedRow ip jail) <$> banned)
  else Ret (Err (Plain ("unknown datagrid page: " ++ pageID))).

Definition manualJail : string := "opendeploy-manual".

Definition text_of (payload : values) (key : string) : option string :=
  match payload !! key with Some (AnyStr s) => Some s | _ => None end.

Definition invalid_ip {A} : result error A := Err (Plain "invalid IP address").

(** source: modules/fail2ban/module.go:451-475 (DataGridAction, ban_permanently) *)
Definition ban_permanently (payload : values) : f2b_prog (result error ()) :=
  match text_of payload "ip" with
  | None => Ret invalid_ip
  | Some ip =>
      match parse_ip (trim_space ip) with
      | None => Ret invalid_ip
      | Some parsedIP =>
          let! outdated := presetNeedsUpdate manual_preset in
          try! _ := (if outdated : bool then enableProtectionPreset "manual" else Ret (Ok ())) in
          try! banned := bannedIPs manualJail in
          if existsb (fun bannedIP => bool_decide (parse_ip bannedIP = Some parsedIP)) banned then Ret (Ok ())
          else runFail2BanClient ["set"; manualJail; "banip"; ip_string parsedIP]
      end
  end.

(** source: modules/fail2ban/module.go:476-499 (DataGridAction, unban) *)
Definition unban (payload : values) : f2b_prog (result error ()) :=
  match text_of payload "ip", text_of payload "jail" with
  | Some ip, Some jail =>
      if String.eqb (trim_space ip) "" || String.eqb (trim_space jail) ""
      then Ret (Err (Plain "jail and IP address are required"))
      else if bool_decide (parse_ip ip = None) then Ret invalid_ip
      else
        try! jails := activeJails in
        if existsb (String.eqb jail) jails then runFail2BanClient ["set"; jail; "unbanip"; ip]
        else Ret (Err (Plain ("unknown jail: " ++ jail)))
  | _, _ => Ret (Err (Plain "jail and IP address are required"))
  end.

(** source: modules/fail2ban/module.go:447-503 (DataGridAction) *)
Definition DataGridAction (pageID actionID : string) (payload : values) : f2b_prog (result error ()) :=
  if String.eqb pageID "jails" && String.eqb actionID "unban_all" then runFail2BanClient ["unban"; "--all"]
  else if String.eqb pageID "banned_ips" && String.eqb actionID "ban_permanently" then ban_permanently payload
  else if String.eqb pageID "banned_ips" && String.eqb actionID "unban" then unban payload
  else Ret (Err (Plain ("unknown datagrid action " ++ actionID ++ " for page " ++ pageID))).

(** ** The module *)

(** source: modules/fail2ban/module.go:56-64 (Install): the output is read to its end *)
Definition Install : f2b_prog (result error ()) := try! _ := ask (PackageInstall_ fail2ban) in Ret (Ok ()).
(** source: modules/fail2ban/module.go:66-74 (Uninstall) *)
Definition Uninstall : f2b_prog (result error ()) := try! _ := ask (PackageRemove_ fail2ban) in Ret (Ok ()).
(** source: modules/fail2ban/module.go:76-78 (Enable) *)
Definition Enable : f2b_prog (result error ()) := ask (ServiceAct VEnable fail2ban).
(** source: modules/fail2ban/module.go:80-82 (Disable) *)
Definition Disable : f2b_prog (result error ()) := ask (ServiceAct VDisable fail2ban).
(** source: modules/fail2ban/module.go:84-86 (Restart) *)
Definition Restart : f2b_prog (result error ()) := ask (ServiceAct VRestart fail2ban).

(** The word after the first that is "fail2ban", in any case. *)
Fixpoint version_word (words : list string) : option string :=
  match words with
  | w :: rest =>
      match rest with
      | v :: _ => if equal_fold w fail2ban then Some v else version_word rest
      | [] => None
      end
  | [] => None
  end.

Fixpoint version_line (lines : list string) : option string :=
  match lines with
  | [] => None
  | line :: rest => match version_word (fields line) with Some v => Some v | None => version_line rest end
  end.

(** source: modules/fail2ban/module.go:116-134 (normalizeFail2BanVersion) *)
Definition normalizeFail2BanVersion (output : string) : string :=
  match version_line (split lf output) with
  | Some v => "Fail2Ban " ++ v
  | None =>
      let version := trim_space output in
      if String.eqb version "" then "unknown"
      else if negb (contains_any version (String " " (String (ascii_of_nat 9) (String (ascii_of_nat 13) (String lf "")))))
      then "Fail2Ban v" ++ trim_prefix version "v"
      else version
  end.

(** source: modules/fail2ban/module.go:109-113 (contract.RuntimeStatus): whether it is installed
    and runs, and the version *)
Record RuntimeStatus := { rs_Installed : bool; rs_Running : bool; rs_SoftwareVersion : string }.

(** source: modules/fail2ban/module.go:88-114 (Status) *)
Definition Status : f2b_prog (result error RuntimeStatus) :=
  try! status := ask (ServiceStatus_ fail2ban) in
  let! r := ask (CommandExecute_ "fail2ban-client" ["-V"]) in
  let '(stdout, stderr) := match r with Ok (_, stdout, stderr) => (stdout, stderr) | Err _ => ("", "") end in
  let versionOutput := if String.eqb (trim_space stdout) "" then stderr else stdout in
  Ret (Ok {| rs_Installed := cs_Active status || cs_Enabled status; rs_Running := cs_Active status;
             rs_SoftwareVersion := normalizeFail2BanVersion versionOutput |}).

Inductive health := HealthOK (message : string) | HealthWarning (message : string) | HealthError (message : string).

(** source: modules/fail2ban/module.go:136-145 (HealthCheck) *)
Definition HealthCheck : f2b_prog health :=
  let! st := Status in
  Ret (match st with
       | Err err => HealthError (error_text err)
       | Ok st => if rs_Running st then HealthOK "Fail2Ban is running perfectly" else HealthWarning "Fail2Ban is not active"
       end).

(** source: modules/fail2ban/module.go:258-263 (ActionAvailability, the loop) *)
Fixpoint availability (presets : list (string * protectionPreset)) : f2b_prog (list (string * bool)) :=
  match presets with
  | [] => Ret []
  | (id, preset) :: rest =>
      let! jail := ask (FileRead_ (jailPath preset)) in
      let! more := availability rest in
      Ret (("enable_preset_" ++ id, negb (is_ok jail)) :: ("disable_preset_" ++ id, is_ok jail) :: more)
  end.

(** source: modules/fail2ban/module.go:256-268 (ActionAvailability): the map is filled in an
    order of its own, which does not show *)
Definition ActionAvailability : f2b_prog (list (string * bool)) :=
  let! l := availability protectionPresets in
  let! jail := ask (FileRead_ (jailPath php_probes_preset)) in
  let! outdated := if is_ok jail then presetNeedsUpdate php_probes_preset else Ret false in
  Ret (l ++ [("update_preset_php_probes", outdated)])%list.

(** source: modules/fail2ban/module.go:270-302 (ExecuteAction) *)
Definition ExecuteAction (actionID : string) : f2b_prog (result error ()) :=
  if String.eqb actionID "enable_preset_sshd" then enableProtectionPreset "sshd"
  else if String.eqb actionID "enable_preset_nginx_scanners" then enableProtectionPreset "nginx_scanners"
  else if String.eqb actionID "enable_preset_nginx_auth" then enableProtectionPreset "nginx_auth"
  else if String.eqb actionID "enable_preset_nginx_bad_bots" then enableProtectionPreset "nginx_bad_bots"
  else if String.eqb actionID "enable_preset_php_probes" then enableProtectionPreset "php_probes"
  else if String.eqb actionID "update_preset_php_probes" then enableProtectionPreset "php_probes"
  else if String.eqb actionID "disable_preset_sshd" then disableProtectionPreset "sshd"
  else if String.eqb actionID "disable_preset_nginx_scanners" then disableProtectionPreset "nginx_scanners"
  else if String.eqb actionID "disable_preset_nginx_auth" then disableProtectionPreset "nginx_auth"
  else if String.eqb actionID "disable_preset_nginx_bad_bots" then disableProtectionPreset "nginx_bad_bots"
  else if String.eqb actionID "disable_preset_php_probes" then disableProtectionPreset "php_probes"
  else if String.eqb actionID "reload" then
    try! _ := ask (CommandExecute_ "fail2ban-client" ["reload"]) in Ret (Ok ())
  else if String.eqb actionID "restart" then Restart
  else Ret (Err (Plain ("unknown action: " ++ actionID))).

(** source: modules/fail2ban/module.go:311-320 (ReadLog) *)
Definition ReadLog (logID : string) (lines : Z) : f2b_prog (result error (list string)) :=
  if String.eqb logID "systemd" then ask (ServiceLogs_ fail2ban lines)
  else if String.eqb logID "fail2ban_log" then ask (FileLogs_ "/var/log/fail2ban.log" lines)
  else Ret (Err (Plain ("log " ++ logID ++ " not found"))).

(** source: modules/fail2ban/module.go:322-330 (ClearLog) *)
Definition ClearLog (logID : string) : f2b_prog (result error ()) :=
  if String.eqb logID "systemd" then Ret (Err (Plain "cannot clear systemd service logs directly"))
  else if negb (String.eqb logID "fail2ban_log") then Ret (Err (Plain ("log " ++ logID ++ " not found")))
  else ask (FileWrite_ "/var/log/fail2ban.log" "" 416).

(** source: modules/fail2ban/settings.go:8-30 (SaveSettings): the settings are not used *)
Definition SaveSettings (settings : values) : f2b_prog (result error ()) :=
  wrap! (Wrapped "configuration validation failed") of _ := ask (CommandExecute_ "fail2ban-server" ["-t"]) in
  try! _ := ask (CommandExecute_ "fail2ban-client" ["reload"]) in Ret (Ok ()).
End unicode.
