(* ===== verification/Fail2banSpec.v ===== *)
(** * The Fail2Ban module: what its operations guarantee

    Against a host with files and a running server: a preset is switched completely or not at
    all, its settings survive, and addresses are banned and released as the tables say.  The
    Agent may fail at any call that changes something. *)

From S2P Require Import Prelude GoStrings GoStrconv GoPath GoRegexp GoNet Effects AppErrors Executor AgentApi Host HostSpec AgentHost Presets PresetsSpec Fail2ban.
Local Open Scope string_scope.
Local Open Scope go_scope.

(** ** A host with Fail2Ban *)

(** The files, what the running server has loaded ([None] when it does not run), and the number
    of calls and tests that have failed. *)
Record host := { files : gmap string string; loaded : option (gmap string string); failures : nat }.

Definition set_files (f : gmap string string) (h : host) : host :=
  {| files := f; loaded := loaded h; failures := failures h |}.
Definition set_loaded (l : option (gmap string string)) (h : host) : host :=
  {| files := files h; loaded := l; failures := failures h |}.
Definition failed (h : host) : host := {| files := files h; loaded := loaded h; failures := S (failures h) |}.

(** A change is made, or fails and leaves everything. *)
Definition change (f : host -> host) (h : host) (x : result error ()) (h' : host) : Prop :=
  x = Ok () /\ h' = f h \/ (exists e, x = Err e) /\ h' = failed h.

(** What the Agent answers, and how the host changes.  A restart loads the files; one that fails
    may leave the server with anything, or stopped.  A file that exists is read, and a change that
    fails leaves the file as it was; [flaky_sem] has reads that fail. *)
Definition f2b_sem (X : Set) (c : f2b_call X) (h : host) : X -> host -> Prop :=
  match c with
  | inl op =>
      match op in agent_op Y return Y -> host -> Prop with
      | FileRead_ path => fun x h' => h' = h /\
          match files h !! path with Some content => x = Ok content | None => exists e, x = Err e end
      | FileWrite_ path content _ => change (fun h => set_files (<[path := content]> (files h)) h) h
      | FileDelete_ path => change (fun h => set_files (delete path (files h)) h) h
      | ServiceAct VRestart _ => fun x h' =>
          x = Ok () /\ h' = set_loaded (Some (files h)) h \/ exists e l, x = Err e /\ h' = failed (set_loaded l h)
      | ServiceAct _ _ => change (fun h => h) h
      | CommandExecute_ command _ => fun x h' =>
          if String.eqb command "fail2ban-server" then
            (exists out err, x = Ok (0%Z, out, err)) /\ h' = h \/
            ((exists e, x = Err e) \/ exists code out err, x = Ok (code, out, err) /\ code <> 0%Z) /\ h' = failed h
          else h' = h
      | _ => fun _ h' => h' = h
      end
  | inr _ => fun _ h' => h' = h
  end.

(** With reads that fail although the file exists. *)
Definition flaky_sem (X : Set) (c : f2b_call X) (h : host) (x : X) (h' : host) : Prop :=
  f2b_sem X c h x h' \/
  match c with
  | inl op => match op in agent_op Y return Y -> Prop with FileRead_ _ => fun x => is_ok x = false /\ h' = failed h | _ => fun _ => False end x
  | inr _ => False
  end.

Notation runs := (runs f2b_sem).
Notation wp := (wp f2b_sem).

(** The server runs with what is stored. *)
Definition in_step (h : host) : Prop := loaded h = Some (files h).

Ltac host_simpl := cbn [files loaded failures set_files set_loaded failed] in *.

(** One call after another. *)
Lemma wp_ask {X : Set} {B} (Q : B -> host -> Prop) (op : agent_op X) (k : X -> f2b_prog B) h :
  (forall x h', f2b_sem X (inl op) h x h' -> wp Q (k x) h') -> wp Q (bind (ask op) k) h.
Proof. done. Qed.

Lemma wp_snapshot {B} (Q : B -> host -> Prop) path (k : configSnapshot -> f2b_prog B) h :
  wp Q (k {| snap_path := path; snap_content := if String.eqb path "" then None else files h !! path |}) h ->
  wp Q (bind (snapshotConfig path) k) h.
Proof.
  unfold snapshotConfig. destruct (String.eqb_spec path "") as [->|Hne]; [done|]. intros Hk x h' [-> Hx].
  destruct (files h !! path) as [c|]; [by subst x|]. by destruct Hx as [e ->].
Qed.

(** The files with a snapshot put back. *)
Definition restored (s : configSnapshot) (f : gmap string string) : gmap string string :=
  if String.eqb (snap_path s) "" then f else
  match snap_content s with Some c => <[snap_path s := c]> f | None => delete (snap_path s) f end.

Lemma wp_restore {B} (Q : B -> host -> Prop) s (k : f2b_prog B) h :
  wp Q k (set_files (restored s (files h)) h) -> wp Q k (failed h) ->
  wp Q (bind (restoreConfig s) (fun _ => k)) h.
Proof.
  unfold restoreConfig, restored. intros Hok Herr. destruct (String.eqb (snap_path s) ""); [by destruct h|].
  destruct (snap_content s) as [c|]; intros x h' [[-> ->]|[[e ->] ->]]; done.
Qed.

Definition with_filter (p : protectionPreset) (f : gmap string string) : gmap string string :=
  if String.eqb (filterPath p) "" then f else <[filterPath p := filterContent p]> f.

Definition snapshot_of (path : string) (f : gmap string string) : configSnapshot :=
  {| snap_path := path; snap_content := if String.eqb path "" then None else f !! path |}.

(** A snapshot undoes what was written to its file. *)
Lemma restored_insert path c (f : gmap string string) :
  restored (snapshot_of path f) (<[path := c]> f) = if String.eqb path "" then <[path := c]> f else f.
Proof.
  unfold restored, snapshot_of. cbn. destruct (String.eqb path ""); [done|].
  destruct (f !! path) as [old|] eqn:Hf; [by rewrite insert_insert_eq, insert_id|by rewrite delete_insert_eq, delete_id].
Qed.

Lemma restored_filter p f : restored (snapshot_of (filterPath p) f) (with_filter p f) = f.
Proof.
  unfold with_filter. destruct (String.eqb (filterPath p) "") eqn:He; [|by rewrite restored_insert, He].
  unfold restored, snapshot_of. cbn. by rewrite He.
Qed.

Lemma restored_comm s path c f :
  snap_path s <> path -> restored s (<[path := c]> f) = <[path := c]> (restored s f).
Proof.
  intros Hne. unfold restored. destruct (String.eqb (snap_path s) ""); [done|].
  destruct (snap_content s); [by rewrite insert_insert_ne|by rewrite delete_insert_ne].
Qed.

Lemma restored_delete path (g f : gmap string string) :
  path <> "" -> g !! path = f !! path -> restored (snapshot_of path f) (delete path g) = g.
Proof.
  intros Hne%String.eqb_neq Hg. unfold restored, snapshot_of. cbn. rewrite Hne. destruct (f !! path) as [c|].
  - by rewrite insert_delete_eq, insert_id.
  - by rewrite delete_delete_eq, delete_id.
Qed.

(** Both files as they were. *)
Lemma restored_both p path c f :
  path <> "" -> path <> filterPath p ->
  restored (snapshot_of path f) (restored (snapshot_of (filterPath p) f) (<[path := c]> (with_filter p f))) = f.
Proof.
  intros Hp Hne. rewrite restored_comm, restored_filter by (cbn; congruence). rewrite restored_insert.
  by destruct (String.eqb_spec path "").
Qed.

(** What a preset's files become: written and loaded, or left and still loaded. *)
Definition applied (p : protectionPreset) (path content : string) (load : bool) (h : host) (r : result error ()) (h' : host) : Prop :=
  (failures h' <= S (failures h))%nat ->
  match r with
  | Ok _ => files h' = <[path := content]> (with_filter p (files h)) /\ loaded h' = if load then Some (files h') else loaded h
  | Err _ => files h' = files h /\ in_step h' /\ (failures h < failures h')%nat
  end.

Section applying.
Context (p : protectionPreset) (path content : string) (Hpath : path <> "") (Hne : path <> filterPath p).

Lemma wp_write_filter {B} (Q : B -> host -> Prop) id (k : result error () -> f2b_prog B) h :
  wp Q (k (Ok ())) (set_files (with_filter p (files h)) h) -> (forall e, wp Q (k (Err e)) (failed h)) ->
  wp Q (bind (write_filter id p) k) h.
Proof.
  intros Hok Herr. unfold write_filter, with_filter in *. destruct (String.eqb (filterPath p) ""); [by destruct h|].
  intros x h' [[-> ->]|[[e ->] ->]]; [done|apply Herr].
Qed.

(** The last steps of all operations: they succeed, or everything is put back. *)
Lemma wp_undo {B} (Q : B -> host -> Prop) s1 s2 (k : f2b_prog B) h :
  (forall h', (failures h <= failures h')%nat ->
     (failures h' = failures h -> files h' = restored s2 (restored s1 (files h)) /\ in_step h') -> wp Q k h') ->
  wp Q (bind (undo s1 s2) (fun _ => k)) h.
Proof.
  intros Hk. unfold undo. apply wp_bind, wp_restore; apply wp_restore; intros x h' Hx;
    destruct Hx as [[-> ->]|(e & l & -> & ->)]; apply Hk; cbn; try lia; try done.
Qed.

(** The service is made to start at boot, or everything is put back. *)
Lemma wp_enable h h0 (Q : result error () -> host -> Prop) :
  files h = <[path := content]> (with_filter p (files h0)) ->
  (forall h', files h' = files h -> loaded h' = loaded h -> Q (Ok ()) h') ->
  (forall e h', (failures h < failures h')%nat ->
     (failures h' = S (failures h) -> files h' = files h0 /\ in_step h') -> Q (Err e) h') ->
  wp Q (enable_at_boot (snapshot_of (filterPath p) (files h0)) (snapshot_of path (files h0))) h.
Proof.
  intros Hf Hok Herr x h' [[-> ->]|[[e ->] ->]]; [by apply Hok|]. apply wp_undo. intros h' Hle Heq. apply Herr; [cbn in Hle; lia|].
  intros Hn. destruct (Heq Hn) as [-> ?]. split; [|done]. cbn [files failed]. by rewrite Hf, restored_both.
Qed.

Lemma wp_restart id h h0 (Q : result error () -> host -> Prop) :
  files h = <[path := content]> (with_filter p (files h0)) ->
  Q (Ok ()) (set_loaded (Some (files h)) h) ->
  (forall e h', (failures h < failures h')%nat ->
     (failures h' = S (failures h) -> files h' = files h0 /\ in_step h') -> Q (Err e) h') ->
  wp Q (restart_or_undo id (snapshot_of (filterPath p) (files h0)) (snapshot_of path (files h0))) h.
Proof.
  intros Hf Hok Herr x h' [[-> ->]|(e & l & -> & ->)]; [done|]. apply wp_undo. intros h' Hle Heq. apply Herr; [cbn in Hle; lia|].
  intros Hn. destruct (Heq Hn) as [-> ?]. split; [|done]. cbn [files failed set_loaded]. by rewrite Hf, restored_both.
Qed.

Lemma wp_apply id reload auto h :
  in_step h -> wp (applied p path content (reload && auto) h) (applyPresetFiles id p path content reload auto) h.
Proof.
  intros Hstep. unfold applyPresetFiles. apply wp_snapshot, wp_snapshot. fold (snapshot_of (filterPath p) (files h)) (snapshot_of path (files h)).
  apply wp_write_filter; [|intros e Hn; host_simpl; split_and!; [done|done|lia]].
  intros x h' [[-> ->]|[[e ->] ->]].
  2:{ apply wp_restore; intros Hn; host_simpl; [|lia]. rewrite restored_filter. split_and!; [done|done|lia]. }
  set (h1 := set_files _ _). assert (Hf1 : files h1 = <[path := content]> (with_filter p (files h))) by done.
  assert (Hl1 : loaded h1 = Some (files h)) by done. assert (Hn1 : failures h1 = failures h) by done. clearbody h1.
  destruct reload; cbn [negb andb]; [|intros Hn; split; [done|]; unfold in_step in Hstep; congruence].
  apply wp_ask. intros x h' Hx.
  assert (Hinvalid : forall e : error, wp (applied p path content auto h) (ignore! restoreConfig (snapshot_of (filterPath p) (files h)) in
    ignore! restoreConfig (snapshot_of path (files h)) in Ret (Err e)) (failed h1)).
  { intros e. apply wp_restore; apply wp_restore; intros Hn; host_simpl; try lia.
    rewrite Hf1, restored_both by done. split_and!; [done|by unfold in_step|lia]. }
  destruct Hx as [[(out & err & ->) ->]|[[(e & ->)|(code & out & err & -> & Hc)] ->]]; [cbn [negb Z.eqb]|apply Hinvalid|].
  2:{ rewrite (proj2 (Z.eqb_neq code 0) Hc). apply Hinvalid. }
  destruct auto.
  - apply wp_bind, (wp_restart id h1 h); [done| |].
    + apply (wp_enable _ h); [done|intros h' Hf Hl _; split; [by rewrite Hf|by rewrite Hl, Hf]|]. intros e h' Hlt Heq Hn. host_simpl. destruct (Heq ltac:(lia)). split_and!; [done|done|lia].
    + intros e h' Hlt Heq Hn. destruct (Heq ltac:(lia)). split_and!; [done|done|lia].
  - apply (wp_enable _ h); [done|intros h' Hf Hl _; split; [by rewrite Hf|unfold in_step in Hstep; congruence]|]. intros e h' Hlt Heq Hn. destruct (Heq ltac:(lia)). split_and!; [done|done|lia].
Qed.
End applying.

(** ** The presets *)

Lemma preset_in id p : preset_of id = Some p -> exists ip, In ip protectionPresets /\ fst ip = id /\ snd ip = p.
Proof.
  unfold preset_of. destruct (List.find _ _) as [ip|] eqn:Hf; [|done]. apply List.find_some in Hf as [Hin Hid%String.eqb_eq].
  intros [= <-]. eauto.
Qed.

(** The paths of a preset differ. *)
Lemma preset_paths id p : preset_of id = Some p ->
  jailPath p <> "" /\ jailPath p <> filterPath p /\ disabled_path p <> "" /\ disabled_path p <> filterPath p /\ jailPath p <> disabled_path p.
Proof.
  intros (ip & Hin & _ & <-)%preset_in. repeat (destruct Hin as [<-|Hin]; [by split_and!|]). done.
Qed.

(** What the module reads as the current state of a preset. *)
Definition current_of (p : protectionPreset) (f : gmap string string) : string * bool :=
  match f !! jailPath p with
  | Some c => (c, true)
  | None => (default (jailContent p) (f !! disabled_path p), false)
  end.

Lemma wp_current {B} (Q : B -> host -> Prop) id p (k : result error (protectionPreset * string * bool * option Z) -> f2b_prog B) h :
  preset_of id = Some p -> id <> "manual" ->
  (forall modified, wp Q (k (Ok (p, fst (current_of p (files h)), snd (current_of p (files h)), modified))) h) ->
  wp Q (bind (currentPreset id) k) h.
Proof.
  intros Hp Hm%String.eqb_neq Hk. unfold currentPreset. rewrite Hp, Hm. apply wp_ask. intros x h' [-> Hx]. unfold current_of in Hk.
  destruct (files h !! jailPath p) as [c|].
  - subst x. cbn. intros entries h' ->. apply Hk.
  - destruct Hx as [e ->]. cbn. intros x h' [-> Hx]. destruct (files h !! disabled_path p) as [c|].
    + subst x. cbn. intros entries h' ->. apply Hk.
    + destruct Hx as [e' ->]. cbn. intros entries h' ->. apply Hk.
Qed.

Section switching.
Context `{Unicode}.
Context (id : string) (p : protectionPreset) (Hp : preset_of id = Some p) (Hm : id <> "manual").

Lemma wp_disable h :
  in_step h -> wp (fun r h' => (failures h' <= S (failures h))%nat -> in_step h' /\
    match r with
    | Ok _ => files h' = delete (jailPath p) (match files h !! jailPath p with
                | Some c => <[disabled_path p := c]> (files h) | None => files h end)
    | Err _ => files h' = files h /\ (failures h < failures h')%nat
    end) (disableProtectionPreset id) h.
Proof.
  intros Hstep. destruct (preset_paths id p Hp) as (Hj & Hjf & Hd & Hdf & Hjd).
  unfold disableProtectionPreset. rewrite Hp. apply wp_snapshot, wp_snapshot.
  fold (snapshot_of (jailPath p) (files h)) (snapshot_of (disabled_path p) (files h)).
  assert (Hc : snap_content (snapshot_of (jailPath p) (files h)) = files h !! jailPath p)
    by (unfold snapshot_of; cbn; by destruct (String.eqb_spec (jailPath p) "")).
  rewrite Hc. rewrite (proj2 (String.eqb_neq id "manual") Hm).
  set (kept := match files h !! jailPath p with Some c => <[disabled_path p := c]> (files h) | None => files h end).
  assert (Hrest : forall h1, files h1 = kept -> loaded h1 = Some (files h) -> failures h1 = failures h ->
    restored (snapshot_of (disabled_path p) (files h)) kept = files h -> 
    wp (fun r h' => (failures h' <= S (failures h))%nat -> in_step h' /\
      match r with Ok _ => files h' = delete (jailPath p) kept | Err _ => files h' = files h /\ (failures h < failures h')%nat end)
      (let! deleted := ask (FileDelete_ (jailPath p)) in
       match deleted with
       | Err err => ignore! restoreConfig (snapshot_of (disabled_path p) (files h)) in Ret (Err (Wrapped ("remove " ++ id ++ " jail") err))
       | Ok _ =>
          let! restarted := ask (ServiceAct VRestart fail2ban) in
          match restarted with
          | Err err =>
              ignore! undo (snapshot_of (jailPath p) (files h)) (snapshot_of (disabled_path p) (files h)) in
              Ret (Err (Wrapped ("disable " ++ id ++ " protection") err))
          | Ok _ => Ret (Ok ())
          end
       end) h1).
  { intros h1 Hf1 Hl1 Hn1 Hr. apply wp_ask. intros x h' [[-> ->]|[[e ->] ->]].
    - apply wp_ask. intros x h' [[-> ->]|(e & l & -> & ->)].
      + intros _. unfold in_step. host_simpl. by rewrite Hf1.
      + apply wp_undo. intros h' Hle Heq Hn. host_simpl. destruct (Heq ltac:(lia)) as [-> ?]. split_and!; [done| |lia].
        rewrite Hf1, restored_delete; [done..|]. unfold kept. destruct (files h !! jailPath p) eqn:Hjl; [|done].
        by rewrite lookup_insert_ne.
    - apply wp_restore; intros Hn; host_simpl; [|lia]. unfold in_step. host_simpl. rewrite Hf1, Hr, Hl1. split_and!; [done|done|lia]. }
  unfold kept in Hrest. destruct (files h !! jailPath p) as [c|] eqn:Hjl.
  - intros x h' [[-> ->]|[[e ->] ->]]; [|intros _; host_simpl; split_and!; [done|done|lia]]. apply Hrest; [done..|]. rewrite restored_insert.
    by rewrite (proj2 (String.eqb_neq _ _) Hd).
  - apply Hrest; [done..|]. unfold restored, snapshot_of. cbn [snap_path snap_content]. rewrite (proj2 (String.eqb_neq _ _) Hd).
    destruct (files h !! disabled_path p) as [c|] eqn:Hdl; [by rewrite insert_id|by rewrite delete_id].
Qed.

(** A request that leaves the server in step with the files: it is carried out, or the files
    are as they were. *)
Definition switched (en : bool) (h : host) (r : result error ()) (h' : host) : Prop :=
  in_step h' /\
  match r with
  | Ok _ => (is_Some (files h' !! jailPath p) <-> en = true) /\
            forall path, path <> jailPath p -> path <> disabled_path p -> path <> filterPath p -> files h' !! path = files h !! path
  | Err _ => files h' = files h
  end.

Lemma with_filter_other f path : path <> filterPath p -> with_filter p f !! path = f !! path.
Proof. intros Hne. unfold with_filter. destruct (String.eqb (filterPath p) ""); [done|]. by rewrite lookup_insert_ne. Qed.

Lemma wp_set_enabled en h :
  in_step h -> wp (fun r h' => (failures h' <= S (failures h))%nat -> switched en h r h') (SetProtectionPresetEnabled id en) h.
Proof.
  intros Hstep. destruct (preset_paths id p Hp) as (Hj & Hjf & Hd & Hdf & Hjd).
  unfold SetProtectionPresetEnabled. apply (wp_current _ id p); [done..|]. intros modified. unfold switched.
  destruct (Bool.eqb_spec en (snd (current_of p (files h)))) as [Heq|Hneq].
  { intros _. split; [done|]. split; [|done]. rewrite Heq. unfold current_of. destruct (files h !! jailPath p); cbn; [by eauto|].
    split; [by intros []|done]. }
  destruct en.
  - destruct (settled _) as [s|e]; [|intros _; by split].
    eapply wp_mono; [|by apply wp_apply]. intros r h' Ha Hn. specialize (Ha Hn). destruct r as [[]|e]; [|tauto].
    destruct Ha as [Hf Hl]. split; [done|]. rewrite Hf. split.
    + rewrite lookup_insert_eq. by eauto.
    + intros path H1 H2 H3. by rewrite lookup_insert_ne, with_filter_other by done.
  - eapply wp_mono; [|by apply wp_disable]. intros r h' Ha Hn. destruct (Ha Hn) as [? Hf]. split; [done|]. destruct r as [[]|e]; [|tauto].
    rewrite Hf. split.
    + rewrite lookup_delete_eq. split; [by intros []|done].
    + intros path H1 H2 H3. rewrite lookup_delete_ne by done. destruct (files h !! jailPath p); [|done]. by rewrite lookup_insert_ne.
Qed.

(** C11. Switching a protection preset on or off is all or nothing, if files that exist can be read and
    calls that fail leave the files as they were: started with the server in step with the stored
    files, and with at most one write, deletion, restart or configuration test that fails, the server
    ends in step with them again; a reported success means that the jail exists exactly if it was to
    be enabled and that no file but the preset's has changed, a reported failure that every file is as
    it was.  With a read that fails it is not so: see [failed_read_keeps_jail]. *)
Theorem preset_switched en h r h' :
  in_step h -> runs (SetProtectionPresetEnabled id en) h r h' -> (failures h' <= S (failures h))%nat -> switched en h r h'.
Proof. intros Hstep Hrun. pose proof (proj1 (wp_runs _ _ _ _) (wp_set_enabled en h Hstep)) as Hw. by apply Hw. Qed.

(** One read that fails: disabling a preset reports success, and its jail is still there. *)
Theorem failed_read_keeps_jail content h :
  files h !! jailPath p = Some content ->
  exists h', Effects.runs flaky_sem (SetProtectionPresetEnabled id false) h (Ok ()) h' /\
    files h' = files h /\ failures h' = S (failures h).
Proof using Hp Hm.
  intros Hj. exists (failed h). split; [|done]. unfold SetProtectionPresetEnabled, currentPreset. rewrite Hp, (proj2 (String.eqb_neq id "manual") Hm).
  exists (Err (Plain "")), (failed h). split; [by right|]. cbn [is_ok].
  assert (exists x, f2b_sem _ (inl (FileRead_ (disabled_path p))) (failed h) x (failed h)) as [x Hx].
  { destruct (files h !! disabled_path p) as [c|] eqn:Hd; [exists (Ok c)|exists (Err (Plain ""))]; cbn; rewrite Hd; eauto. }
  exists x, (failed h). split; [by left|]. exists (Ok []), (failed h). split; [by left|]. by split.
Qed.

(** Saving or resetting a preset, likewise. *)
Lemma wp_save input h :
  in_step h -> wp (fun r h' => (failures h' <= S (failures h))%nat ->
    match r with
    | Ok _ => exists s, normalizedPresetSettings (fst (current_of p (files h))) input = Ok s /\
        files h' !! (if snd (current_of p (files h)) then jailPath p else disabled_path p) = Some (renderPresetJail (jailContent p) s)
    | Err _ => files h' = files h /\ in_step h'
    end) (SaveProtectionPreset id input) h.
Proof.
  intros Hstep. destruct (preset_paths id p Hp) as (Hj & Hjf & Hd & Hdf & Hjd).
  unfold SaveProtectionPreset. apply (wp_current _ id p); [done..|]. intros modified.
  destruct (normalizedPresetSettings _ input) as [s|e]; cbn [settled map_err]; [|intros _; by split].
  eapply wp_mono; [|apply wp_apply; [by destruct (snd _)..|done]]. intros r h' Ha Hn. specialize (Ha Hn).
  destruct r as [[]|e]; [|tauto]. exists s. split; [done|]. destruct Ha as [-> _]. by rewrite lookup_insert_eq.
Qed.

(** What is rendered does not depend on the two settings no jail file holds. *)
Lemma render_flags base s a b : renderPresetJail base (<["ipv6" := a]> (<["auto_reload" := b]> s)) = renderPresetJail base s.
Proof.
  assert (Hu : forall key, update_of (<["ipv6" := a]> (<["auto_reload" := b]> s)) key = update_of s key).
  { intros key. unfold update_of. destruct (existsb (String.eqb key) managed_keys) eqn:Hk; [|done].
    apply existsb_exists in Hk as (k & Hk & ->%String.eqb_eq). cbn in Hk.
    repeat (destruct Hk as [<-|Hk]; [by rewrite !lookup_insert_ne by done|]). done. }
  unfold renderPresetJail. rewrite !(map_ext _ (render_line s)) by (intros raw; unfold render_line; destruct (line_key raw); [by rewrite Hu|done]).
  cbn [List.flat_map]. by rewrite !Hu.
Qed.

Lemma failures_grow A (q : f2b_prog A) h r h' : runs q h r h' -> (failures h <= failures h')%nat.
Proof.
  intros Hr. apply (runs_invariant f2b_sem (fun s => failures h <= failures s)%nat) in Hr; [done| |done].
  clear. intros X [op|d] s x s'; [|by intros ->]. destruct op; cbn [f2b_sem]; try (by intros ->); try (by intros [-> _]).
  all: try (by intros [[_ ->]|[_ ->]]; host_simpl; lia).
  - destruct v; intros [[_ ->]|Hx]; host_simpl; try lia; try (destruct Hx as [_ ->]; host_simpl; lia).
    destruct Hx as (e & l & _ & ->). host_simpl. lia.
  - destruct (String.eqb command "fail2ban-server"); [|by intros ->]. intros [[_ ->]|[_ ->]]; host_simpl; lia.
Qed.

(** C23. The settings of a preset survive being switched off and on again: when its jail file
    holds what some settings were rendered to, then after both requests, without a failure in
    between, both have succeeded and the file has the same content again. *)
Theorem settings_survive base input s h r1 r2 h' :
  normalizedPresetSettings base input = Ok s -> files h !! jailPath p = Some (renderPresetJail (jailContent p) s) -> in_step h ->
  runs (let! a := SetProtectionPresetEnabled id false in let! b := SetProtectionPresetEnabled id true in Ret (a, b)) h (r1, r2) h' ->
  failures h' = failures h ->
  r1 = Ok () /\ r2 = Ok () /\ files h' !! jailPath p = Some (renderPresetJail (jailContent p) s) /\ in_step h'.
Proof.
  intros Hs Hjail Hstep Hrun Hn. destruct (preset_paths id p Hp) as (Hj & Hjf & Hd & Hdf & Hjd).
  apply runs_bind in Hrun as (a & h1 & Hoff & Hrun). apply runs_bind in Hrun as (b & h2 & Hon & Hrun). destruct Hrun as [[= -> ->] ->].
  pose proof (failures_grow _ _ _ _ _ Hoff) as Hm1. pose proof (failures_grow _ _ _ _ _ Hon) as Hm2.
  assert (Hw1 : wp (fun r h1 => (failures h1 <= S (failures h))%nat -> in_step h1 /\
    match r with Ok _ => files h1 = delete (jailPath p) (<[disabled_path p := renderPresetJail (jailContent p) s]> (files h))
    | Err _ => files h1 = files h /\ (failures h < failures h1)%nat end) (SetProtectionPresetEnabled id false) h).
  { unfold SetProtectionPresetEnabled. apply (wp_current _ id p); [done..|]. intros modified. unfold current_of. rewrite Hjail.
    cbn [snd Bool.eqb]. eapply wp_mono; [|by apply wp_disable]. cbn. intros r h1' Hr. by rewrite Hjail in Hr. }
  destruct (proj1 (wp_runs _ _ _ _) Hw1 _ _ Hoff ltac:(lia)) as [Hstep1 Hr1]. destruct a as [[]|e]; [|lia].
  assert (Hdis : files h1 !! disabled_path p = Some (renderPresetJail (jailContent p) s) /\ files h1 !! jailPath p = None)
    by (rewrite Hr1, lookup_delete_eq, lookup_delete_ne, lookup_insert_eq by done; done).
  assert (Hw2 : wp (fun r h2 => (failures h2 <= S (failures h1))%nat ->
    match r with Ok _ => files h2 !! jailPath p = Some (renderPresetJail (jailContent p) s) /\ in_step h2
    | Err _ => (failures h1 < failures h2)%nat end) (SetProtectionPresetEnabled id true) h1).
  { unfold SetProtectionPresetEnabled. apply (wp_current _ id p); [done..|]. intros modified. unfold current_of.
    destruct Hdis as [-> ->]. cbn [fst snd Bool.eqb].
    change (default (jailContent p) (Some ?x)) with x. rewrite (preset_settings_again id p base input s Hp Hs). cbn [settled map_err].
    eapply wp_mono; [|by apply wp_apply]. intros r h2' Ha Hn2. specialize (Ha Hn2). destruct r as [[]|e]; [|tauto].
    destruct Ha as [Hf Hl]. rewrite render_flags in Hf. split; [by rewrite Hf, lookup_insert_eq|done]. }
  specialize (proj1 (wp_runs _ _ _ _) Hw2 _ _ Hon ltac:(lia)) as Hr2. destruct b as [[]|e]; [|lia]. by destruct Hr2.
Qed.
End switching.

(** ** Lists printed by the client *)

Definition listed_word (w : string) : Prop := w <> "" /\ str_forall (fun c => is_word_byte c && negb (Ascii.eqb c ",")) w = true.

Lemma listed_plain w : listed_word w -> (w <> "" /\ str_forall is_word_byte w = true) /\ no_byte "," w.
Proof.
  intros [Hne Hw]. split_and!; [done| |]; revert Hw; apply str_forall_mono; intros c [Hc Hn]%andb_true_iff; [done|].
  by rewrite Ascii.eqb_sym.
Qed.

Lemma first_after_skip label l rest :
  Forall (fun x => after_label label x = None) l -> first_after label (l ++ rest) = first_after label rest.
Proof. induction 1 as [|x l Hx Hl IH]; cbn; [done|]. by rewrite Hx. Qed.

Lemma join_no_byte b sep l : no_byte b sep -> Forall (no_byte b) l -> no_byte b (join sep l).
Proof.
  unfold no_byte. intros Hs. induction 1 as [|x [|y l] Hx Hl IH]; [done|done|].
  change (join sep (x :: y :: l)) with (x ++ sep ++ join sep (y :: l)). by rewrite !str_forall_app, Hx, Hs, IH.
Qed.

(** The addresses Fail2Ban prints are read back: after lines without the label, a line with the
    label and addresses separated by spaces gives exactly those addresses. *)
Theorem banned_list_read label before lead items after :
  Forall (fun x => no_byte lf x /\ after_label label x = None) before -> Forall (no_byte lf) after -> no_byte lf lead -> no_byte lf label ->
  after_label label (lead ++ label ++ " " ++ join " " items) = Some (" " ++ join " " items) -> Forall listed_word items ->
  parseFail2BanList (join (String lf "") (before ++ (lead ++ label ++ " " ++ join " " items)%string :: after)%list) label = items.
Proof.
  intros Hb Ha Hl Hlab Hafter Hit. unfold parseFail2BanList.
  assert (Hwords : Forall (fun w => w <> "" /\ str_forall is_word_byte w = true) items)
    by (eapply Forall_impl; [exact Hit|]; intros w Hw; by apply listed_plain).
  assert (Hcomma : Forall (no_byte ",") items) by (eapply Forall_impl; [exact Hit|]; intros w Hw; by apply listed_plain).
  assert (Hlf : no_byte lf (join " " items)).
  { destruct items as [|i items]; [done|]. by apply clean_words. }
  rewrite split_join.
  - rewrite first_after_skip by (eapply Forall_impl; [exact Hb|]; by intros ? []). cbn [first_after]. rewrite Hafter.
    destruct items as [|i items]; [done|]. destruct (clean_words (i :: items) ltac:(done) Hwords) as (Hne & _ & Htl & Htr).
    assert (Ht : trim_space (" " ++ join " " (i :: items)) = join " " (i :: items)).
    { unfold trim_space. change (trim_left (" " ++ ?x)) with (trim_left x). rewrite Htl. apply (Htr ""). }
    rewrite Ht, (proj2 (String.eqb_neq _ _) Hne). rewrite split_id by (by apply join_no_byte). cbn [List.flat_map].
    rewrite app_nil_r, clean_trim by (by right; split_and!; auto). by apply fields_join.
  - by destruct before.
  - rewrite Forall_app, Forall_cons. split_and!; [eapply Forall_impl; [exact Hb|]; by intros ? []| |done].
    unfold no_byte in *. by rewrite !str_forall_app, Hl, Hlab, Hlf.
Qed.

(** ** What reaches the client *)

(** The commands of an execution. *)
Definition client_args (ac : action f2b_call) : option (string * list string) :=
  match ac with
  | Act (inl (CommandExecute_ command args)) _ => Some (command, args)
  | _ => None
  end.

Lemma client_exec args tr r :
  exec (fail2BanClientOutput args) tr r ->
  exists x, tr = [Act (inl (CommandExecute_ "fail2ban-client" args) : f2b_call _) x] /\
    forall out, r = Ok out -> exists err, x = Ok (0%Z, out, err).
Proof.
  intros (x & tr' & -> & -> & Hr). exists x. split; [done|]. intros out ->.
  destruct x as [[[code out'] err]|e]; [|by destruct (contains _ _)].
  destruct (Z.eqb_spec code 0) as [->|]; [injection Hr as ->; by eauto|]. cbv zeta in Hr.
  destruct (_ || _) in Hr; [done|]. by destruct (contains _ _).
Qed.

Lemma run_exec_client args tr r :
  exec (runFail2BanClient args) tr r -> exists x, tr = [Act (inl (CommandExecute_ "fail2ban-client" args) : f2b_call _) x].
Proof.
  intros (t1 & t2 & a & -> & (x & -> & _)%client_exec & Hr)%exec_bind. exists x. destruct a; by destruct Hr as [-> _].
Qed.

Lemma jails_exec tr r :
  exec activeJails tr r -> exists x, tr = [Act (inl (CommandExecute_ "fail2ban-client" ["status"]) : f2b_call _) x] /\
    forall jails, r = Ok jails -> exists out err, x = Ok (0%Z, out, err) /\ jails = parseFail2BanList out "Jail list:".
Proof.
  intros (t1 & t2 & a & -> & (x & -> & Hx)%client_exec & Hr)%exec_bind. exists x. destruct a as [out|e].
  - destruct Hr as [-> ->]. split; [done|]. intros jails [= <-]. destruct (Hx out eq_refl) as [err ->]. eauto.
  - destruct Hr as [-> ->]. by split.
Qed.

(** Releasing an address sends one command that changes something: it names a jail that the
    client has just listed as active and the text of a valid address. *)
Theorem unban_checked payload tr r ac command args :
  exec (unban payload) tr r -> In ac tr -> client_args ac = Some (command, args) ->
  command = "fail2ban-client" /\
  (args = ["status"] \/
   exists ip jail out err, text_of payload "ip" = Some ip /\ text_of payload "jail" = Some jail /\ parse_ip ip <> None /\
     In (Act (inl (CommandExecute_ "fail2ban-client" ["status"]) : f2b_call _) (Ok (0%Z, out, err))) tr /\
     In jail (parseFail2BanList out "Jail list:") /\ args = ["set"; jail; "unbanip"; ip]).
Proof.
  unfold unban. destruct (text_of payload "ip") as [ip|] eqn:Hip; [|by intros [-> _]].
  destruct (text_of payload "jail") as [jail|] eqn:Hjail; [|by intros [-> _]].
  destruct (_ || _); [by intros [-> _]|]. case_bool_decide as Hparse; [by intros [-> _]|].
  intros (t1 & t2 & a & -> & (x & -> & Hx)%jails_exec & Hr)%exec_bind Hin Hac.
  assert (Hstatus : ac = Act (inl (CommandExecute_ "fail2ban-client" ["status"]) : f2b_call _) x ->
    command = "fail2ban-client" /\ args = ["status"]) by (intros ->; by injection Hac).
  apply in_app_iff in Hin as [[<-|[]]|Hin]; [destruct (Hstatus eq_refl); auto|].
  destruct a as [jails|e]; [|by destruct Hr as [-> _]]. destruct (existsb (String.eqb jail) jails) eqn:Hj; [|by destruct Hr as [-> _]].
  apply run_exec_client in Hr as (y & ->). destruct Hin as [<-|[]]. injection Hac as <- <-. split; [done|]. right.
  destruct (Hx jails eq_refl) as (out & err & -> & ->). exists ip, jail, out, err. split_and!; [done..|by left| |done].
  apply existsb_exists in Hj as (j & Hj & ->%String.eqb_eq). done.
Qed.

(** The action that releases all addresses fails: its flag is not on the list of the Agent, so
    that the command is refused and nothing is started. *)
Theorem unban_all_refused `{Unicode} payload tr r ctx parse_stamp m v pm error_text not_exist :
  exec (DataGridAction "jails" "unban_all" payload) tr r ->
  (exists x, tr = [Act (inl (CommandExecute_ "fail2ban-client" ["unban"; "--all"]) : f2b_call _) x] /\
     forall e, x = Err e -> exists e', r = Err e') /\
  always (fun _ _ => False) (fun x => exists e, x = Err e)
    (performed ctx parse_stamp m v pm error_text not_exist (CommandExecute_ "fail2ban-client" ["unban"; "--all"])).
Proof.
  intros Hx. split; [|eapply refused_command; vm_compute; reflexivity].
  change (exec (runFail2BanClient ["unban"; "--all"]) tr r) in Hx.
  apply exec_bind in Hx as (t1 & t2 & a & -> & (x & -> & Ha)%client_exec & Hr). exists x. destruct a as [out|e].
  - destruct Hr as [-> ->]. split; [done|]. intros e ->. by destruct (Ha out eq_refl).
  - destruct Hr as [-> ->]. split; [done|]. eauto.
Qed.

(** ** A host where nothing fails *)

Definition smooth (X : Set) (c : f2b_call X) (h : host) : X * host :=
  match c with
  | inl op =>
      match op in agent_op Y return Y * host with
      | FileRead_ path => (match files h !! path with Some content => Ok content | None => Err (Plain "not found") end, h)
      | FileWrite_ path content _ => (Ok (), set_files (<[path := content]> (files h)) h)
      | FileDelete_ path => (Ok (), set_files (delete path (files h)) h)
      | ServiceAct VRestart _ => (Ok (), set_loaded (Some (files h)) h)
      | ServiceAct _ _ => (Ok (), h)
      | CommandExecute_ _ _ => (Ok (0%Z, "", ""), h)
      | ServiceStatus_ _ => (Err (Plain ""), h) | ServiceLogs_ _ _ => (Err (Plain ""), h) | FileLogs_ _ _ => (Err (Plain ""), h)
      | PackageInstall_ _ => (Err (Plain ""), h) | PackageRemove_ _ => (Err (Plain ""), h) | PackageUpdate_ _ => (Err (Plain ""), h)
      | PackageInstalled_ _ => (Err (Plain ""), h) | FileRename_ _ _ => (Err (Plain ""), h) | FileCopy_ _ _ => (Err (Plain ""), h)
      | FileChmod_ _ _ => (Err (Plain ""), h) | FileChown_ _ _ _ => (Err (Plain ""), h) | DirCreate_ _ _ => (Err (Plain ""), h)
      | ArchiveCreateOp _ _ => (Err (Plain ""), h) | ArchiveExtractOp _ _ => (Err (Plain ""), h) | FirewallStatusOp => (Err (Plain ""), h)
      | FirewallRuleOp _ => (Err (Plain ""), h) | FirewallDeleteOp _ => (Err (Plain ""), h) | FirewallListOp => (Err (Plain ""), h)
      | FirewallToggleOp _ => (Err (Plain ""), h) | FirewallResetOp => (Err (Plain ""), h) | ProcessKill_ _ _ => (Err (Plain ""), h)
      | NginxSiteApply_ _ _ _ => (Err (Plain ""), h) | SiteRootPrepare_ _ => (Err (Plain ""), h) | UnixSocketExists_ _ => (Err (Plain ""), h)
      | SiteHTTPProbe_ _ => (Err (Plain ""), h) | CertificateObtain_ _ _ _ => (Err (Plain ""), h)
      end
  | inr d => match d in dir_call Y return Y * host with DirList_ _ => (Ok [], h) end
  end.

Lemma smooth_sem X (c : f2b_call X) h : f2b_sem X c h (fst (smooth X c h)) (snd (smooth X c h)).
Proof.
  destruct c as [op|d]; [|by destruct d]. destruct op; cbn [smooth f2b_sem fst snd]; try done; try (by left).
  - destruct v; by left.
  - destruct (String.eqb command "fail2ban-server"); [|done]. left. eauto.
  - split; [done|]. destruct (files h !! path); eauto.
Qed.

Lemma smooth_runs {A} (q : f2b_prog A) h : runs q h (fst (run smooth q h)) (snd (run smooth q h)).
Proof.
  revert h. induction q as [a|X c k IH]; intros h; cbn [run]; [done|]. pose proof (smooth_sem X c h) as Hs.
  destruct (smooth X c h) as [x h']. cbn. by exists x, h'.
Qed.

Module ExampleHost.
Definition fresh : host := {| files := ∅; loaded := Some ∅; failures := 0 |}.

(** Switching SSH protection on. *)
Lemma preset_switched_witness :
  let run := run smooth (@SetProtectionPresetEnabled unicode_ascii "sshd" true) fresh in
  fst run = Ok () /\ switched sshd_preset true fresh (fst run) (snd run).
Proof.
  cbv zeta. split; [vm_compute; reflexivity|].
  apply (@preset_switched unicode_ascii "sshd" sshd_preset); [reflexivity|discriminate|reflexivity|apply smooth_runs|].
  vm_compute. repeat constructor.
Defined.

(** Settings of the Nginx preset: a longer ban, no port. *)
Definition chosen : values := {[ "bantime" := AnyStr "48h"; "port" := AnyStr "" ]}.
Definition chosen_settings : values :=
  Eval vm_compute in or_nil (@normalizedPresetSettings unicode_ascii (jailContent nginx_auth_preset) chosen).
Definition custom_jail : string := Eval vm_compute in @renderPresetJail unicode_ascii (jailContent nginx_auth_preset) chosen_settings.
Definition protected_host : host :=
  let f := {[ jailPath nginx_auth_preset := custom_jail ]} in {| files := f; loaded := Some f; failures := 0 |}.

Lemma settings_survive_witness :
  let off_on := let! a := @SetProtectionPresetEnabled unicode_ascii "nginx_auth" false in
                let! b := @SetProtectionPresetEnabled unicode_ascii "nginx_auth" true in Ret (a, b) in
  files (snd (run smooth off_on protected_host)) !! jailPath nginx_auth_preset = Some custom_jail.
Proof.
  intros off_on.
  refine (proj1 (proj2 (proj2 (@settings_survive unicode_ascii "nginx_auth" nginx_auth_preset eq_refl ltac:(discriminate)
    (jailContent nginx_auth_preset) chosen chosen_settings protected_host
    (fst (fst (run smooth off_on protected_host))) (snd (fst (run smooth off_on protected_host))) (snd (run smooth off_on protected_host))
    _ _ _ _ _)))).
  - vm_compute. reflexivity.
  - vm_compute. reflexivity.
  - reflexivity.
  - rewrite <- surjective_pairing. apply smooth_runs.
  - vm_compute. reflexivity.
Defined.

(** The page of the presets shows the port of the preset where the jail has none, and asks for
    an update that saving the same settings does not make unnecessary. *)
Theorem cleared_port_shown :
  exists shown, fst (run smooth (@describe unicode_ascii "nginx_auth") protected_host) = Ok shown /\
    value_of (snd (@parseJail unicode_ascii custom_jail)) "port" = "" /\
    pp_Settings shown !! "port" = Some (AnyStr "http,https") /\ pp_NeedsUpdate shown = true.
Proof. eexists. split; [vm_compute; reflexivity|]. vm_compute. done. Qed.
End ExampleHost.
