(* ===== verification/ControlPlane.v ===== *)
(** * The control plane

    internal/core/controlplane: the sessions of remote Agents and the commands sent over them,
    as they interleave.  HTTP requests that dispatch commands, viewers of logs, and for each
    session a goroutine that sends and a loop that receives run concurrently; every section under
    a lock and every operation on a channel is one action, and [apply] is what an action does, if
    it can happen.  A session is a heap object, known by an identity, that outlives its entry in
    the map of the manager. *)

From S2P Require Import Prelude GoStrings GoStrconv Effects AppErrors AgentApi AgentWire.
Local Open Scope string_scope.

Notation sid := nat.
Notation cid := nat.
Notation tid := nat.

(** ** Messages *)

Record AgentHello := {
  h_server : string; h_fingerprint : string; h_protocol : Z; h_api : string; h_version : string; h_capabilities : list string }.

Record CommandResult := { cr_id : cid; cr_success : bool; cr_error : string; cr_payload : string }.
Record StreamChunk := { ch_stream : cid; ch_sequence : Z; ch_data : string; ch_eof : bool }.

(** What an Agent sends after its hello: the result of a command, a piece of a stream, or
    something that only shows that it lives (heartbeats, events, progress, pongs). *)
Inductive agent_message := MResult (r : CommandResult) | MChunk (c : StreamChunk) | MOther.

(** What the Core sends after its welcome. *)
Inductive core_message :=
| CCommand (id : cid) (kind payload : string) (deadline : Z)
| CSubscribe (id : cid) (kind payload : string)
| CCancel (id : cid).

(** source: internal/agent/remote/stream.go:233-237 (execute): the result of a command from what
    its handler returned; the payload of a failure, which nobody reads, is left out *)
Definition execute_result (id : cid) (r : result string string) : CommandResult :=
  match r with
  | Ok payload => {| cr_id := id; cr_success := true; cr_error := ""; cr_payload := payload |}
  | Err e => {| cr_id := id; cr_success := false; cr_error := e; cr_payload := "" |}
  end.

(** ** State *)

(** source: internal/core/controlplane/manager.go:24-27 (pendingResult) *)
Inductive pendingResult := PResult (r : CommandResult) | PError (e : dispatch_error).

(** The loop of Connect: between messages, about to hand a chunk to the channel of a stream it
    has looked up, or returned. *)
Inductive loop_state := Receiving | Handing (c : StreamChunk) | Stopped.

(** source: internal/core/controlplane/manager.go:29-42 (session): [s_peer] is the digest of the
    certificate the peer showed, [s_sending] whether the goroutine that sends still runs *)
Record session := {
  s_server : string; s_fingerprint : string; s_peer : string; s_api : string; s_version : string; s_capabilities : list string;
  s_done : bool; s_send : list core_message; s_pending : gset cid; s_streams : gset cid; s_loop : loop_state; s_sending : bool }.

(** How far a call of Dispatch is. *)
Inductive dispatch_state :=
| DStart
| DFound (x : sid)
| DPending
| DWaiting
| DLeaving (r : result dispatch_error string)
| DReturned (r : result dispatch_error string).

(** A call of Dispatch: its arguments, the error of its context once it is done, its session and
    identifier once it has them. *)
Record dispatcher := {
  d_server : string; d_kind : string; d_payload : string; d_deadline : option Z; d_expired : option dispatch_error;
  d_at : option (sid * cid); d_state : dispatch_state }.

(** How far a call of Subscribe and the goroutine it starts are. *)
Inductive viewer_state :=
| VFound
| VAdded
| VReading
| VEmitting (data : string)
| VLeaving
| VCancelling
| VEnded (e : option dispatch_error).

(** A call of Subscribe: its arguments and session, the channel of its chunks, its output and what
    was read from the output; [v_handed] is all that the loop put into the channel. *)
Record viewer := {
  v_kind : string; v_payload : string; v_session : sid; v_expired : option dispatch_error; v_state : viewer_state;
  v_chunks : list StreamChunk; v_output : list string; v_seen : list string; v_handed : list StreamChunk }.

(** source: internal/core/controlplane/manager.go:46-49 (Manager), with the objects that are
    reached through it: sessions, channels of waiters (of one place), calls, viewers, and the
    messages that were handed to the streams *)
Record state := {
  sessions : gmap string sid; store : gmap sid session; waiters : gmap cid (option pendingResult);
  threads : gmap tid dispatcher; viewers : gmap cid viewer; delivered : list (sid * core_message) }.

Definition init : state :=
  {| sessions := ∅; store := ∅; waiters := ∅; threads := ∅; viewers := ∅; delivered := [] |}.

Definition set_session (x : sid) (s : session) (st : state) : state :=
  {| sessions := sessions st; store := <[x := s]> (store st); waiters := waiters st; threads := threads st;
     viewers := viewers st; delivered := delivered st |}.
Definition set_sessions (m : gmap string sid) (st : state) : state :=
  {| sessions := m; store := store st; waiters := waiters st; threads := threads st; viewers := viewers st; delivered := delivered st |}.
Definition set_waiters (w : gmap cid (option pendingResult)) (st : state) : state :=
  {| sessions := sessions st; store := store st; waiters := w; threads := threads st; viewers := viewers st; delivered := delivered st |}.
Definition set_thread (t : tid) (d : dispatcher) (st : state) : state :=
  {| sessions := sessions st; store := store st; waiters := waiters st; threads := <[t := d]> (threads st);
     viewers := viewers st; delivered := delivered st |}.
Definition set_viewer (id : cid) (v : viewer) (st : state) : state :=
  {| sessions := sessions st; store := store st; waiters := waiters st; threads := threads st;
     viewers := <[id := v]> (viewers st); delivered := delivered st |}.
Definition hand (x : sid) (m : core_message) (st : state) : state :=
  {| sessions := sessions st; store := store st; waiters := waiters st; threads := threads st; viewers := viewers st;
     delivered := (delivered st ++ [(x, m)])%list |}.

(** The part of a session that changes. *)
Definition with_live (done : bool) (send : list core_message) (pending streams : gset cid) (loop : loop_state) (sending : bool)
    (s : session) : session :=
  {| s_server := s_server s; s_fingerprint := s_fingerprint s; s_peer := s_peer s; s_api := s_api s; s_version := s_version s;
     s_capabilities := s_capabilities s; s_done := done; s_send := send; s_pending := pending; s_streams := streams; s_loop := loop;
     s_sending := sending |}.
Definition with_send (l : list core_message) (s : session) : session :=
  with_live (s_done s) l (s_pending s) (s_streams s) (s_loop s) (s_sending s) s.
Definition with_pending (p : gset cid) (s : session) : session :=
  with_live (s_done s) (s_send s) p (s_streams s) (s_loop s) (s_sending s) s.
Definition with_streams (p : gset cid) (s : session) : session :=
  with_live (s_done s) (s_send s) (s_pending s) p (s_loop s) (s_sending s) s.
Definition with_loop (l : loop_state) (s : session) : session :=
  with_live (s_done s) (s_send s) (s_pending s) (s_streams s) l (s_sending s) s.
Definition with_state (x : dispatch_state) (d : dispatcher) : dispatcher :=
  {| d_server := d_server d; d_kind := d_kind d; d_payload := d_payload d; d_deadline := d_deadline d; d_expired := d_expired d;
     d_at := d_at d; d_state := x |}.
Definition with_at (place : sid * cid) (d : dispatcher) : dispatcher :=
  {| d_server := d_server d; d_kind := d_kind d; d_payload := d_payload d; d_deadline := d_deadline d; d_expired := d_expired d;
     d_at := Some place; d_state := DPending |}.
Definition with_expired (e : dispatch_error) (d : dispatcher) : dispatcher :=
  {| d_server := d_server d; d_kind := d_kind d; d_payload := d_payload d; d_deadline := d_deadline d; d_expired := Some e;
     d_at := d_at d; d_state := d_state d |}.

Definition with_view (s : viewer_state) (chunks : list StreamChunk) (output seen : list string) (handed : list StreamChunk) (v : viewer) : viewer :=
  {| v_kind := v_kind v; v_payload := v_payload v; v_session := v_session v; v_expired := v_expired v; v_state := s;
     v_chunks := chunks; v_output := output; v_seen := seen; v_handed := handed |}.
Definition with_vstate (s : viewer_state) (v : viewer) : viewer := with_view s (v_chunks v) (v_output v) (v_seen v) (v_handed v) v.
Definition with_vexpired (e : dispatch_error) (v : viewer) : viewer :=
  {| v_kind := v_kind v; v_payload := v_payload v; v_session := v_session v; v_expired := Some e; v_state := v_state v;
     v_chunks := v_chunks v; v_output := v_output v; v_seen := v_seen v; v_handed := v_handed v |}.

(** ** Operations *)

(** The capacity of the channels of a session. *)
Definition capacity : nat := 64.

(** A send that does not wait, on a channel of one place. *)
Definition try_send (o : pendingResult) (id : cid) (w : gmap cid (option pendingResult)) : gmap cid (option pendingResult) :=
  match w !! id with Some None => <[id := Some o]> w | _ => w end.

(** source: internal/core/controlplane/manager.go:145-165 (close) *)
Definition close (err : dispatch_error) (x : sid) (st : state) : state :=
  match store st !! x with
  | Some s =>
      if s_done s then st
      else set_waiters (set_fold (try_send (PError err)) (waiters st) (s_pending s))
             (set_session x (with_live true (s_send s) ∅ ∅ (s_loop s) (s_sending s) s) st)
  | None => st
  end.

Section manager.
Context `{HUnicode : Unicode}.

(** source: internal/core/controlplane/manager.go:55-86 (register) *)
Definition register (peer : string) (hello : AgentHello) (x : sid) (st : state) : result string state :=
  if negb (h_protocol hello =? 1)%Z then Err ("unsupported control-plane protocol " ++ itoa (h_protocol hello))
  else if negb (String.eqb (h_api hello) "") && negb (String.eqb (h_api hello) "v1")
  then Err ("unsupported Agent API version " ++ quote (h_api hello))
  else
    let s := {| s_server := h_server hello; s_fingerprint := h_fingerprint hello; s_peer := peer;
                s_api := if String.eqb (h_api hello) "" then "v1" else h_api hello; s_version := h_version hello;
                s_capabilities := h_capabilities hello; s_done := false; s_send := []; s_pending := ∅; s_streams := ∅;
                s_loop := Receiving; s_sending := true |} in
    let st1 := match sessions st !! h_server hello with Some previous => close ErrConnectionClosed previous st | None => st end in
    Ok (set_sessions (<[h_server hello := x]> (sessions st)) (set_session x s st1)).

(** source: internal/core/controlplane/manager.go:127-131 (unregister, the map) *)
Definition forget (x : sid) (st : state) : state :=
  let server := match store st !! x with Some s => s_server s | None => "" end in
  if bool_decide (sessions st !! server = Some x) then set_sessions (delete server (sessions st)) st else st.

(** source: internal/core/controlplane/manager.go:126-133 (unregister), undisturbed *)
Definition unregister (x : sid) (st : state) : state := close ErrConnectionClosed x (forget x st).

(** source: internal/core/controlplane/manager.go:135-143 (Disconnect), undisturbed *)
Definition Disconnect (server : string) (st : state) : state :=
  let st1 := set_sessions (delete server (sessions st)) st in
  match sessions st !! server with Some x => close ErrConnectionClosed x st1 | None => st1 end.

(** source: internal/core/controlplane/manager.go:250-254 (IsOnline) *)
Definition IsOnline (server : string) (st : state) : bool := match sessions st !! server with Some _ => true | None => false end.

(** source: internal/core/controlplane/manager.go:256-265 (HasCapability) *)
Definition HasCapability (server capability : string) (st : state) : bool :=
  match sessions st !! server with
  | Some x => match store st !! x with Some s => existsb (String.eqb capability) (s_capabilities s) | None => false end
  | None => false
  end.

(** source: internal/core/controlplane/manager.go:278-291 (Capabilities): the set, sorted; nil
    when the Agent is not connected *)
Definition Capabilities (server : string) (st : state) : list string :=
  match sessions st !! server with
  | Some x => match store st !! x with Some s => isort String.leb (elements (list_to_set (s_capabilities s) : gset string)) | None => [] end
  | None => []
  end.

(** source: internal/core/controlplane/manager.go:343-354 (resolve) *)
Definition resolve (x : sid) (r : CommandResult) (st : state) : state :=
  match store st !! x with
  | Some s => if decide (cr_id r ∈ s_pending s) then set_waiters (try_send (PResult r) (cr_id r) (waiters st)) st else st
  | None => st
  end.

(** source: internal/core/controlplane/manager.go:294-301 (Dispatch, the session and its
    capability; Subscribe begins likewise) *)
Definition find_session (server kind : string) (st : state) : result dispatch_error sid :=
  match sessions st !! server with
  | None => Err ErrAgentOffline
  | Some x =>
      match requireCommandCapability (match store st !! x with Some s => s_capabilities s | None => [] end) kind with
      | Err e => Err e
      | Ok _ => Ok x
      end
  end.

(** source: internal/core/controlplane/manager.go:327-334 (Dispatch, the outcome) *)
Definition outcome_of (o : pendingResult) : result dispatch_error string :=
  match o with
  | PError e => Err e
  | PResult r => if cr_success r then Ok (cr_payload r) else Err (Remote (cr_error r))
  end.

(** source: internal/core/controlplane/server.go:66-82 (Connect, the identity of the Agent):
    [peer] is the digest of the certificate the peer showed, if it showed one, and [verified] the
    answer of the registry of servers *)
Definition authenticate (hello : option AgentHello) (peer : option string) (verified : result string bool) : result string (AgentHello * string) :=
  match hello with
  | None => Err "the first control-plane message must authenticate the agent"
  | Some h =>
      if String.eqb (h_server h) "" || String.eqb (h_fingerprint h) ""
      then Err "the first control-plane message must authenticate the agent"
      else match peer with
      | None => Err "agent client certificate is required"
      | Some fingerprint =>
          if negb (equal_fold fingerprint (h_fingerprint h)) then Err "agent certificate fingerprint does not match the authenticated peer"
          else match verified with Ok true => Ok (h, fingerprint) | _ => Err "agent identity rejected" end
      end
  end.

(** ** Actions *)

(** What a call of Dispatch does next. *)
Inductive dispatch_action :=
| Lookup
| Pend (id : cid)
| SendCommand (now : Z)
| SendClosed
| SendExpired
| TakeOutcome
| WaitClosed
| WaitExpired
| Leave.

Definition advance (t : tid) (d : dispatcher) (x : dispatch_state) (st : state) : option state := Some (set_thread t (with_state x d) st).

(** An identifier that was not given out before, as [uuid.NewString] makes them. *)
Definition fresh_id (id : cid) (st : state) : bool := bool_decide (waiters st !! id = None /\ viewers st !! id = None).

(** source: internal/core/controlplane/manager.go:293-341 (Dispatch): the session and its
    capability are looked up, a waiter is registered, the command is queued, or the session or
    the context is found done, and likewise for the answer; the waiter is removed at last *)
Definition dispatch_step (t : tid) (a : dispatch_action) (st : state) : option state :=
  d ← threads st !! t;
  match d_state d, a with
  | DStart, Lookup => advance t d (match find_session (d_server d) (d_kind d) st with Ok x => DFound x | Err e => DReturned (Err e) end) st
  | DFound x, Pend id =>
      s ← store st !! x;
      if fresh_id id st
      then Some (set_thread t (with_at (x, id) d)
                   (set_waiters (<[id := None]> (waiters st)) (set_session x (with_pending ({[id]} ∪ s_pending s) s) st)))
      else None
  | DPending, SendCommand now =>
      '(x, id) ← d_at d; s ← store st !! x;
      if (length (s_send s) <? capacity)%nat
      then advance t d DWaiting
             (set_session x (with_send (s_send s ++ [CCommand id (d_kind d) (d_payload d) (default (now + 30000)%Z (d_deadline d))])%list s) st)
      else None
  | DPending, SendClosed | DWaiting, WaitClosed =>
      '(x, _) ← d_at d; s ← store st !! x;
      if s_done s then advance t d (DLeaving (Err ErrConnectionClosed)) st else None
  | DPending, SendExpired | DWaiting, WaitExpired => e ← d_expired d; advance t d (DLeaving (Err e)) st
  | DWaiting, TakeOutcome =>
      '(_, id) ← d_at d; w ← waiters st !! id; o ← w;
      advance t d (DLeaving (outcome_of o)) (set_waiters (<[id := None]> (waiters st)) st)
  | DLeaving r, Leave =>
      '(x, id) ← d_at d; s ← store st !! x;
      advance t d (DReturned r) (set_session x (with_pending (s_pending s ∖ {[id]}) s) st)
  | _, _ => None
  end.

(** What a call of Subscribe, its goroutine or the reader of its output does next. *)
Inductive view_action :=
| AddStream
| SendSubscription
| GiveUp
| TakeChunk
| Emit
| StopViewing
| RemoveStream
| SendCancel
| Expire (e : dispatch_error)
| Read.

(** Why the goroutine of a viewer stops, if it may. *)
Definition stop_cause (v : viewer) (s : session) : option dispatch_error :=
  if s_done s then Some ErrConnectionClosed else v_expired v.

(** source: internal/core/controlplane/manager.go:167-236 (Subscribe) *)
Definition view_step (id : cid) (a : view_action) (st : state) : option state :=
  v ← viewers st !! id; s ← store st !! v_session v;
  let go (y : viewer_state) := set_viewer id (with_vstate y v) in
  let put (s' : session) := set_session (v_session v) s' in
  match v_state v, a with
  | VFound, AddStream =>
      Some (if s_done s then go (VEnded (Some ErrConnectionClosed)) st
            else go VAdded (put (with_streams ({[id]} ∪ s_streams s) s) st))
  | VAdded, SendSubscription =>
      if (length (s_send s) <? capacity)%nat
      then Some (go VReading (put (with_send (s_send s ++ [CSubscribe id (v_kind v) (v_payload v)])%list s) st)) else None
  | VAdded, GiveUp =>
      e ← stop_cause v s; Some (go (VEnded (Some e)) (put (with_streams (s_streams s ∖ {[id]}) s) st))
  | VReading, TakeChunk =>
      match v_chunks v with
      | [] => None
      | c :: rest =>
          Some (set_viewer id (with_view (if ch_eof c then VLeaving else VEmitting (ch_data c)) rest (v_output v) (v_seen v) (v_handed v) v) st)
      end
  | VEmitting data, Emit =>
      if (length (v_output v) <? capacity)%nat
      then Some (set_viewer id (with_view VReading (v_chunks v) (v_output v ++ [data])%list (v_seen v) (v_handed v) v) st) else None
  | VReading, StopViewing | VEmitting _, StopViewing => _ ← stop_cause v s; Some (go VLeaving st)
  | VLeaving, RemoveStream => Some (go VCancelling (put (with_streams (s_streams s ∖ {[id]}) s) st))
  | VCancelling, SendCancel =>
      Some (go (VEnded None) (if (length (s_send s) <? capacity)%nat then put (with_send (s_send s ++ [CCancel id])%list s) st else st))
  | _, Expire e => match v_expired v with None => Some (set_viewer id (with_vexpired e v) st) | Some _ => None end
  | y, Read =>
      match v_output v with
      | [] => None
      | data :: rest => Some (set_viewer id (with_view y (v_chunks v) rest (v_seen v ++ [data])%list (v_handed v) v) st)
      end
  | _, _ => None
  end.

(** source: internal/core/controlplane/server.go:158-187 (Connect, the messages): what the loop
    does with a message; for a chunk, the lookup of resolveChunk, lines 239-242 of manager.go *)
Definition receive (x : sid) (m : agent_message) (st : state) : option state :=
  s ← store st !! x;
  match s_loop s with
  | Receiving =>
      match m with
      | MResult r => Some (resolve x r st)
      | MChunk c => Some (if decide (ch_stream c ∈ s_streams s) then set_session x (with_loop (Handing c) s) st else st)
      | MOther => Some st
      end
  | _ => None
  end.

(** source: internal/core/controlplane/manager.go:242-247 (resolveChunk, the channel) *)
Definition hand_chunk (x : sid) (st : state) : option state :=
  s ← store st !! x;
  match s_loop s with
  | Handing c =>
      v ← viewers st !! ch_stream c;
      if (length (v_chunks v) <? capacity)%nat
      then Some (set_viewer (ch_stream c) (with_view (v_state v) (v_chunks v ++ [c])%list (v_output v) (v_seen v) (v_handed v ++ [c])%list v)
                   (set_session x (with_loop Receiving s) st))
      else None
  | _ => None
  end.

(** All that can happen.  [AStop] is the return of Connect after an error, the end of the stream,
    a missed heartbeat or a second hello, up to the map; its call of [close], and the one of
    Disconnect, is [AClose]. *)
Inductive action :=
| AConnect (hello : option AgentHello) (peer : option string) (verified : result string bool) (x : sid)
| AReceive (x : sid) (m : agent_message)
| AHand (x : sid)
| AHandClosed (x : sid)
| AStop (x : sid)
| ADisconnect (server : string)
| AClose (x : sid)
| ADeliver (x : sid)
| AStopSending (x : sid) (lost : bool)
| ACall (t : tid) (server kind payload : string) (deadline : option Z)
| AExpire (t : tid) (e : dispatch_error)
| ADispatch (t : tid) (a : dispatch_action)
| ASubscribe (id : cid) (server kind payload : string)
| AView (id : cid) (a : view_action).

(** source: internal/core/controlplane/server.go:48-188 (Connect), with the operations of the
    manager it and the requests call *)
Definition apply (a : action) (st : state) : option state :=
  match a with
  | AConnect hello peer verified x =>
      match store st !! x, authenticate hello peer verified with
      | None, Ok (h, fingerprint) => match register fingerprint h x st with Ok st' => Some st' | Err _ => Some st end
      | None, Err _ => Some st
      | Some _, _ => None
      end
  | AReceive x m => receive x m st
  | AHand x => hand_chunk x st
  | AHandClosed x =>
      s ← store st !! x;
      match s_loop s with Handing _ => if s_done s then Some (set_session x (with_loop Receiving s) st) else None | _ => None end
  | AStop x =>
      s ← store st !! x;
      match s_loop s with Receiving => Some (forget x (set_session x (with_loop Stopped s) st)) | _ => None end
  | ADisconnect server => Some (set_sessions (delete server (sessions st)) st)
  | AClose x =>
      s ← store st !! x;
      if bool_decide (sessions st !! s_server s = Some x) then None else Some (close ErrConnectionClosed x st)
  | ADeliver x =>
      s ← store st !! x;
      match s_sending s, s_send s with true, m :: rest => Some (hand x m (set_session x (with_send rest s) st)) | _, _ => None end
  | AStopSending x lost =>
      s ← store st !! x;
      if s_sending s then Some (set_session x (with_live (s_done s) (if lost then tail (s_send s) else s_send s) (s_pending s) (s_streams s) (s_loop s) false s) st)
      else None
  | ACall t server kind payload deadline =>
      match threads st !! t with
      | Some _ => None
      | None => Some (set_thread t {| d_server := server; d_kind := kind; d_payload := payload; d_deadline := deadline; d_expired := None;
                                      d_at := None; d_state := DStart |} st)
      end
  | AExpire t e =>
      d ← threads st !! t;
      match d_expired d with None => Some (set_thread t (with_expired e d) st) | Some _ => None end
  | ADispatch t a => dispatch_step t a st
  | ASubscribe id server kind payload =>
      if fresh_id id st then
        Some (match find_session server kind st with
              | Ok x => set_viewer id {| v_kind := kind; v_payload := payload; v_session := x; v_expired := None; v_state := VFound;
                                         v_chunks := []; v_output := []; v_seen := []; v_handed := [] |} st
              | Err _ => st
              end)
      else None
  | AView id a => view_step id a st
  end.
End manager.
