(* ===== verification/ControlPlaneSpec.v ===== *)
(** * The control plane: what its callers may rely on

    Over every interleaving of the actions of ControlPlane: an answer that Dispatch returns comes
    from the Agent it was asked for ([dispatch_authentic]), calls end when their context or their
    session does ([dispatch_ends]), viewers see streams in order ([stream_in_order]), and what an
    abandoned stream does to its session ([abandoned_stream_blocks]). *)

From S2P Require Import Prelude GoStrings GoStrconv Effects AppErrors AgentApi AgentWire ControlPlane.
Local Open Scope string_scope.

Create HintDb control.

(** The branch of an action that was taken. *)
Ltac branch H :=
  repeat match type of H with
  | None = Some _ => discriminate H
  | Err _ = Ok _ => discriminate H
  | context [Some _ ≫= _] => progress cbn [mbind option_bind] in H
  | context [?o ≫= _] => destruct o eqn:?; cbn [mbind option_bind] in H
  | context [match ?u with _ => _ end] => is_var u; destruct u
  | context [match ?u with _ => _ end] => destruct u eqn:?
  end.

Section manager.
Context `{HUnicode : Unicode}.

(** [registered] is what the registry of servers confirms, [trusted] says which servers run the
    Agent of the repository, and [answers] relates a command on a server to what its handler
    returns.  Nothing is supposed of the Agents of the other servers. *)
Variables (registered : string -> string -> Prop) (trusted : string -> bool)
          (answers : string -> string -> string -> result string string -> Prop).

(** An Agent answers only commands that were handed to its stream, with the result of its
    handler; the registry confirms only what is registered. *)
Definition honest (a : action) (st : state) : Prop :=
  match a with
  | AConnect (Some h) _ (Ok true) _ => registered (h_server h) (h_fingerprint h)
  | AReceive x (MResult r) =>
      forall s, store st !! x = Some s -> trusted (s_server s) = true ->
      exists kind payload deadline res,
        (x, CCommand (cr_id r) kind payload deadline) ∈ delivered st /\ answers (s_server s) kind payload res /\ r = execute_result (cr_id r) res
  | _ => True
  end.

Definition step (a : action) (st st' : state) : Prop := honest a st /\ apply a st = Some st'.

Inductive reachable : state -> Prop :=
| reachable_init : reachable init
| reachable_step a st st' : reachable st -> step a st st' -> reachable st'.

Inductive steps : list action -> state -> state -> Prop :=
| steps_none st : steps [] st st
| steps_more a l st st1 st2 : step a st st1 -> steps l st1 st2 -> steps (a :: l) st st2.

Fixpoint run (l : list action) (st : state) : option state :=
  match l with [] => Some st | a :: l => st' ← apply a st; run l st' end.

Lemma run_steps l st st' : Forall (fun a => forall st, honest a st) l -> run l st = Some st' -> steps l st st'.
Proof.
  intros Hf. revert st. induction Hf as [|a l Ha _ IH]; intros st H; [simplify_eq/=; constructor|].
  cbn in H. destruct (apply a st) as [st1|] eqn:E; [|done]. by apply (steps_more _ _ _ st1); [|apply IH].
Qed.

Lemma steps_reachable l st st' : steps l st st' -> reachable st -> reachable st'.
Proof. induction 1; eauto using reachable_step. Qed.

(** ** The invariant *)

(** Two states of one session; two states of one call. *)
Definition same_peer (s s' : session) : Prop :=
  s_server s' = s_server s /\ s_fingerprint s' = s_fingerprint s /\ s_peer s' = s_peer s /\ s_capabilities s' = s_capabilities s.
Definition same_call (d d' : dispatcher) : Prop :=
  d_server d' = d_server d /\ d_kind d' = d_kind d /\ d_payload d' = d_payload d /\ (forall p, d_at d = Some p -> d_at d' = Some p).

Definition authentic (s : session) : Prop :=
  registered (s_server s) (s_fingerprint s) /\ equal_fold (s_peer s) (s_fingerprint s) = true.

(** [x] is a session of the server of a call, with the capability of its command. *)
Definition placed (st : state) (d : dispatcher) (x : sid) : Prop :=
  exists s, store st !! x = Some s /\ s_server s = d_server d /\ requireCommandCapability (s_capabilities s) (d_kind d) = Ok ().

(** Some call has sent this command with this identifier to this session. *)
Definition dispatched (st : state) (x : sid) (id : cid) (kind payload : string) : Prop :=
  exists t d, threads st !! t = Some d /\ d_at d = Some (x, id) /\ d_kind d = kind /\ d_payload d = payload.

(** A result that the Agent of the session gave for the command with this identifier. *)
Definition answered (st : state) (x : sid) (id : cid) (r : CommandResult) : Prop :=
  exists s kind payload, store st !! x = Some s /\ dispatched st x id kind payload /\
    (trusted (s_server s) = true -> exists res, answers (s_server s) kind payload res /\ r = execute_result id res).

Definition returns (d : dispatcher) (r : result dispatch_error string) : Prop :=
  forall p, r = Ok p -> trusted (d_server d) = true -> answers (d_server d) (d_kind d) (d_payload d) (Ok p).
Definition at_session (st : state) (d : dispatcher) : Prop := exists x id, d_at d = Some (x, id) /\ placed st d x.

Definition thread_ok (st : state) (d : dispatcher) : Prop :=
  match d_state d with
  | DStart => d_at d = None
  | DFound x => d_at d = None /\ placed st d x
  | DPending | DWaiting => at_session st d
  | DLeaving r => at_session st d /\ returns d r
  | DReturned r => (is_ok r = true -> at_session st d) /\ returns d r
  end.

Record invariant (st : state) : Prop := {
  inv_map server x : sessions st !! server = Some x -> exists s, store st !! x = Some s /\ s_server s = server;
  inv_auth x s : store st !! x = Some s -> authentic s;
  inv_threads t d : threads st !! t = Some d -> thread_ok st d;
  inv_known t d x id : threads st !! t = Some d -> d_at d = Some (x, id) -> is_Some (waiters st !! id);
  inv_unique t t' d d' x x' id :
    threads st !! t = Some d -> threads st !! t' = Some d' -> d_at d = Some (x, id) -> d_at d' = Some (x', id) -> t = t';
  inv_pending x s id : store st !! x = Some s -> id ∈ s_pending s -> exists kind payload, dispatched st x id kind payload;
  inv_queued x s id k p n : store st !! x = Some s -> CCommand id k p n ∈ s_send s -> dispatched st x id k p;
  inv_delivered x id k p n : (x, CCommand id k p n) ∈ delivered st -> dispatched st x id k p;
  inv_waiters id r : waiters st !! id = Some (Some (PResult r)) -> exists x, answered st x id r }.

(** ** States that grow *)

Definition grows (st st' : state) : Prop :=
  (forall x s, store st !! x = Some s -> exists s', store st' !! x = Some s' /\ same_peer s s') /\
  (forall t d, threads st !! t = Some d -> exists d', threads st' !! t = Some d' /\ same_call d d').

Lemma placed_grows st st' d d' x : grows st st' -> same_call d d' -> placed st d x -> placed st' d' x.
Proof.
  intros [Hs _] (Hd1 & Hd2 & _ & _) (s & Hx & E & Hc).
  destruct (Hs _ _ Hx) as (s' & Hx' & E1 & _ & _ & E4). exists s'. split; [done|]. by rewrite E1, E4, Hd1, Hd2.
Qed.

Lemma dispatched_grows st st' x id k p : grows st st' -> dispatched st x id k p -> dispatched st' x id k p.
Proof.
  intros [_ Ht] (t & d & Hd & Ha & <- & <-). destruct (Ht _ _ Hd) as (d' & Hd' & _ & E2 & E3 & E4).
  exists t, d'. repeat split; try done. by apply E4.
Qed.

Lemma answered_grows st st' x id r : grows st st' -> answered st x id r -> answered st' x id r.
Proof.
  intros Hg (s & k & p & Hx & Hd & Hr). destruct (proj1 Hg _ _ Hx) as (s' & Hx' & E & _).
  exists s', k, p. rewrite E. eauto using dispatched_grows.
Qed.

Lemma at_session_grows st st' d d' : grows st st' -> same_call d d' -> at_session st d -> at_session st' d'.
Proof.
  intros Hg Hc (x & id & Ha & Hp). exists x, id. split; [by apply Hc|by eapply placed_grows].
Qed.

Lemma same_call_refl d : same_call d d.
Proof. by repeat split. Qed.
Lemma same_peer_refl s : same_peer s s.
Proof. by repeat split. Qed.
Lemma same_peer_live s done send pending streams loop sending : same_peer s (with_live done send pending streams loop sending s).
Proof. by repeat split. Qed.

Hint Resolve same_call_refl same_peer_refl same_peer_live : control.

Lemma thread_grows st st' d : grows st st' -> thread_ok st d -> thread_ok st' d.
Proof.
  intros Hg. unfold thread_ok. destruct (d_state d) as [| x | | | r | r];
    intuition (eauto using placed_grows, at_session_grows with control).
Qed.

Lemma grows_same st st' : store st' = store st -> threads st' = threads st -> grows st st'.
Proof. intros E1 E2. split; rewrite ?E1, ?E2; eauto with control. Qed.

Lemma grows_session st x s s' : store st !! x = Some s -> same_peer s s' -> grows st (set_session x s' st).
Proof.
  intros Hx Hp. split; cbn [store threads set_session]; [|eauto with control].
  intros y u Hy. destruct (decide (x = y)) as [<-|Hne].
  - rewrite lookup_insert_eq. exists s'. split; [done|]. by simplify_eq.
  - rewrite lookup_insert_ne by done. eauto with control.
Qed.

Lemma grows_thread st t d' : (forall d, threads st !! t = Some d -> same_call d d') -> grows st (set_thread t d' st).
Proof.
  intros Hp. split; cbn [store threads set_thread]; [eauto with control|].
  intros y u Hy. destruct (decide (t = y)) as [<-|Hne].
  - rewrite lookup_insert_eq. exists d'. auto.
  - rewrite lookup_insert_ne by done. eauto with control.
Qed.

(** ** What keeps the invariant *)

Lemma keep_rest st st' :
  grows st st' -> store st' = store st -> threads st' = threads st -> waiters st' = waiters st ->
  (forall server x, sessions st' !! server = Some x -> sessions st !! server = Some x) ->
  (forall x id k p n, (x, CCommand id k p n) ∈ delivered st' -> dispatched st x id k p) -> invariant st -> invariant st'.
Proof.
  intros Hg E1 E2 E3 Hm Hd [].
  constructor; rewrite ?E1, ?E2, ?E3; try done; intros;
    repeat match goal with H : _ |- _ => progress (try rewrite E1 in H; try rewrite E2 in H; try rewrite E3 in H) end;
    naive_solver eauto using thread_grows, dispatched_grows, answered_grows.
Qed.

Lemma keep_session st x s s' :
  store st !! x = Some s -> same_peer s s' ->
  (forall id, id ∈ s_pending s' -> exists k p, dispatched st x id k p) ->
  (forall id k p n, CCommand id k p n ∈ s_send s' -> dispatched st x id k p) ->
  invariant st -> invariant (set_session x s' st).
Proof.
  intros Hx Hp H1 H2 []. pose proof (grows_session st x s s' Hx Hp) as Hg.
  assert (forall y u, (<[x := s']> (store st) : gmap sid session) !! y = Some u -> (y = x /\ u = s') \/ (y <> x /\ store st !! y = Some u)) as Hl.
  { intros y u. rewrite lookup_insert_Some. naive_solver. }
  constructor; cbn [sessions store waiters threads delivered set_session]; try done.
  - intros server y Hy. destruct (inv_map0 _ _ Hy) as (u & Hu & <-). destruct (proj1 Hg _ _ Hu) as (u' & ? & ? & _). eauto.
  - intros y u [[-> ->]|[_ Hu]]%Hl; [|eauto]. destruct Hp as (E1 & E2 & E3 & _). unfold authentic. rewrite E1, E2, E3. by apply (inv_auth0 x).
  - eauto using thread_grows.
  - intros y u id [[-> ->]|[_ Hu]]%Hl Hid; [destruct (H1 _ Hid) as (?&?&?)|destruct (inv_pending0 _ _ _ Hu Hid) as (?&?&?)]; eauto using dispatched_grows.
  - intros y u id k p n [[-> ->]|[_ Hu]]%Hl Hid; eauto using dispatched_grows.
  - intros id r Hw. destruct (inv_waiters0 _ _ Hw) as (?&?). eauto using answered_grows.
Qed.

Lemma keep_waiters st w :
  (forall id, is_Some (waiters st !! id) -> is_Some (w !! id)) ->
  (forall id r, w !! id = Some (Some (PResult r)) -> exists x, answered st x id r) ->
  invariant st -> invariant (set_waiters w st).
Proof.
  intros H1 H2 []. assert (grows st (set_waiters w st)) as Hg by by apply grows_same.
  constructor; cbn [sessions store waiters threads delivered set_waiters]; try done; eauto using thread_grows.
Qed.

Lemma keep_thread st t d' :
  (forall d, threads st !! t = Some d -> same_call d d') ->
  (forall x id, d_at d' = Some (x, id) -> exists d, threads st !! t = Some d /\ d_at d = Some (x, id)) ->
  thread_ok st d' -> invariant st -> invariant (set_thread t d' st).
Proof.
  intros Hc Ha Hok []. pose proof (grows_thread st t d' Hc) as Hg.
  assert (forall y u, (<[t := d']> (threads st) : gmap tid dispatcher) !! y = Some u ->
            (y = t /\ u = d') \/ (y <> t /\ threads st !! y = Some u)) as Hl.
  { intros y u. rewrite lookup_insert_Some. naive_solver. }
  constructor; cbn [sessions store waiters threads delivered set_thread]; try done.
  - intros y u [[-> ->]|[_ Hu]]%Hl; eauto using thread_grows.
  - intros y u x id [[-> ->]|[_ Hu]]%Hl Hx; [destruct (Ha _ _ Hx) as (d & ? & ?)|]; eauto.
  - intros y y' u u' x x' id [[-> ->]|[_ Hu]]%Hl [[-> ->]|[_ Hu']]%Hl Hx Hx';
      repeat match goal with H : d_at d' = Some _ |- _ => destruct (Ha _ _ H) as (? & ? & ?); clear H end; eauto.
  - intros x s id Hs Hid. destruct (inv_pending0 _ _ _ Hs Hid) as (?&?&?). eauto using dispatched_grows.
  - eauto using dispatched_grows.
  - eauto using dispatched_grows.
  - intros id r Hw. destruct (inv_waiters0 _ _ Hw) as (?&?). eauto using answered_grows.
Qed.

(** Registering a waiter. *)
Lemma keep_pend st t d x s id :
  threads st !! t = Some d -> d_at d = None -> placed st d x -> store st !! x = Some s -> waiters st !! id = None -> invariant st ->
  invariant (set_thread t (with_at (x, id) d) (set_waiters (<[id := None]> (waiters st)) (set_session x (with_pending ({[id]} ∪ s_pending s) s) st))).
Proof.
  intros Ht Hn Hp Hx Hw [].
  set (d' := with_at (x, id) d). set (s' := with_pending _ s). set (st' := set_thread _ _ _).
  assert (same_call d d') as Hc by (repeat split; cbn; congruence).
  assert (grows st st') as Hg.
  { split; [exact (proj1 (grows_session st x s s' Hx (same_peer_live _ _ _ _ _ _ _)))|refine (proj2 (grows_thread st t d' _)); congruence]. }
  assert (dispatched st' x id (d_kind d) (d_payload d)) as Hd.
  { exists t, d'. cbn [threads st' set_thread]. by rewrite lookup_insert_eq. }
  assert (forall y u, threads st' !! y = Some u -> (y = t /\ u = d') \/ (y <> t /\ threads st !! y = Some u)) as Hl.
  { intros y u. cbn [threads st' set_thread]. rewrite lookup_insert_Some. naive_solver. }
  assert (forall y u, store st' !! y = Some u -> (y = x /\ u = s') \/ (y <> x /\ store st !! y = Some u)) as Hm.
  { intros y u. cbn [store st' set_thread set_waiters set_session]. rewrite lookup_insert_Some. naive_solver. }
  constructor.
  - intros server y Hy. destruct (inv_map0 _ _ Hy) as (u & Hu & <-). destruct (proj1 Hg _ _ Hu) as (u' & ? & ? & _). eauto.
  - intros y u [[-> ->]|[_ Hu]]%Hm; [exact (inv_auth0 _ _ Hx)|eauto].
  - intros y u [[-> ->]|[_ Hu]]%Hl; [|eauto using thread_grows]. exists x, id. split; [done|by eapply placed_grows].
  - intros y u z i [[-> ->]|[_ Hu]]%Hl Hz; cbn [waiters st' set_thread set_waiters]; rewrite lookup_insert_is_Some'; [cbn in Hz; left; congruence|].
    right. eauto.
  - assert (forall y u z i, y <> t -> threads st !! y = Some u -> d_at u = Some (z, i) -> i <> id) as Hne.
    { intros y u z i _ Hu Hz ->. destruct (inv_known0 _ _ _ _ Hu Hz). congruence. }
    intros y y' u u' z z' i [[-> ->]|[? Hu]]%Hl [[-> ->]|[? Hu']]%Hl E E';
      [done| |  |eauto]; exfalso; cbn in E, E'; simplify_eq; eapply Hne; eauto.
  - intros y u i [[-> ->]|[_ Hu]]%Hm Hi.
    + cbn in Hi. apply elem_of_union in Hi as [->%elem_of_singleton|Hi]; [eauto|]. destruct (inv_pending0 _ _ _ Hx Hi) as (?&?&?). eauto using dispatched_grows.
    + destruct (inv_pending0 _ _ _ Hu Hi) as (?&?&?). eauto using dispatched_grows.
  - intros y u i k p n [[-> ->]|[_ Hu]]%Hm Hi; eauto using dispatched_grows.
  - intros y i k p n Hi. eauto using dispatched_grows.
  - intros i r. cbn [waiters st' set_thread set_waiters]. rewrite lookup_insert_Some. intros [[_ ?]|[_ Hi]]; [done|].
    destruct (inv_waiters0 _ _ Hi) as (?&?). eauto using answered_grows.
Qed.

(** ** The operations keep the invariant *)

Lemma try_send_lookup o id w i :
  try_send o id w !! i = w !! i \/ (i = id /\ w !! i = Some None /\ try_send o id w !! i = Some (Some o)).
Proof.
  unfold try_send. destruct (w !! id) as [[q|]|] eqn:E; eauto.
  destruct (decide (i = id)) as [->|Hne]; [rewrite lookup_insert_eq|rewrite lookup_insert_ne by done]; auto.
Qed.

Lemma try_send_known o id w i : is_Some (w !! i) -> is_Some (try_send o id w !! i).
Proof. intros H. destruct (try_send_lookup o id w i) as [->|(_ & _ & ->)]; eauto. Qed.

(** Closing writes errors into empty waiters and nothing else. *)
Lemma close_waiters err (p : gset cid) w :
  let w' := set_fold (try_send (PError err)) w p in
  (forall i, is_Some (w !! i) -> is_Some (w' !! i)) /\ (forall i r, w' !! i = Some (Some (PResult r)) -> w !! i = Some (Some (PResult r))).
Proof.
  apply (set_fold_ind_L (fun w' _ => (forall i, is_Some (w !! i) -> is_Some (w' !! i)) /\
    (forall i r, w' !! i = Some (Some (PResult r)) -> w !! i = Some (Some (PResult r))))); [done|].
  intros id X w1 _ [H1 H2]. split; intros i; [eauto using try_send_known|].
  intros r Hr. destruct (try_send_lookup (PError err) id w1 i) as [E|(_ & _ & E)]; rewrite E in Hr; [auto|congruence].
Qed.

Lemma keep_close err x st : invariant st -> invariant (close err x st).
Proof.
  intros Hi. unfold close. destruct (store st !! x) as [s|] eqn:Hx; [|done]. destruct (s_done s); [done|].
  destruct (close_waiters err (s_pending s) (waiters st)) as [H1 H2].
  apply keep_waiters; [done| |].
  - intros id r Hr. destruct (inv_waiters _ Hi _ _ (H2 _ _ Hr)) as (y & Hy). exists y.
    eapply answered_grows; [|exact Hy]. eapply grows_session; eauto with control.
  - eapply keep_session; eauto with control; cbn; [set_solver|]. intros. by eapply inv_queued.
Qed.

Lemma keep_forget x st : invariant st -> invariant (forget x st).
Proof.
  intros Hi. unfold forget. case_bool_decide; [|done].
  apply (keep_rest st); try done; [by apply grows_same| |exact (inv_delivered _ Hi)].
  cbn. intros ? ? [_ ?]%lookup_delete_Some. done.
Qed.

Lemma keep_resolve x r st : honest (AReceive x (MResult r)) st -> invariant st -> invariant (resolve x r st).
Proof.
  intros Hh Hi. unfold resolve. destruct (store st !! x) as [s|] eqn:Hx; [|done]. case_decide as Hp; [|done].
  apply keep_waiters; [by eauto using try_send_known| |done].
  intros id r' Hw. destruct (try_send_lookup (PResult r) (cr_id r) (waiters st) id) as [E|(-> & _ & E)];
    rewrite E in Hw; [by eapply inv_waiters|]. simplify_eq. exists x.
  destruct (trusted (s_server s)) eqn:Ht.
  - destruct (Hh s Hx Ht) as (k & p & n & res & Hd & Ha & Hr). exists s, k, p. split; [done|]. split; [exact (inv_delivered _ Hi _ _ _ _ _ Hd)|]. by exists res.
  - destruct (inv_pending _ Hi _ _ _ Hx Hp) as (k & p & Hd). exists s, k, p. split; [done|]. split; [done|]. intros ?. congruence.
Qed.

Lemma keep_register peer h x st st' :
  store st !! x = None -> register peer h x st = Ok st' -> registered (h_server h) (h_fingerprint h) ->
  equal_fold peer (h_fingerprint h) = true -> invariant st -> invariant st'.
Proof.
  intros Hx Hr Hreg Hf Hi. unfold register in Hr. destruct (negb _); [done|]. destruct (negb _ && negb _); [done|]. simplify_eq.
  set (st1 := match sessions st !! h_server h with Some y => close ErrConnectionClosed y st | None => st end).
  assert (invariant st1) as [] by (unfold st1; destruct (sessions st !! h_server h); auto using keep_close).
  assert (store st1 !! x = None /\ sessions st1 = sessions st) as [Hx1 Hm1].
  { unfold st1, close. destruct (sessions st !! h_server h) as [y|]; [|done]. destruct (store st !! y) as [u|] eqn:Hy; [|done].
    destruct (s_done u); [done|]. split; [|done]. cbn. rewrite lookup_insert_ne; congruence. }
  set (s := {| s_server := h_server h |}). set (st2 := set_sessions _ _).
  assert (grows st1 st2) as Hg.
  { split; cbn; [|eauto with control]. intros y u Hy. rewrite lookup_insert_ne by congruence. eauto with control. }
  assert (forall y u, store st2 !! y = Some u -> (y = x /\ u = s) \/ (y <> x /\ store st1 !! y = Some u)) as Hl.
  { intros y u. cbn [store st2 set_sessions set_session]. rewrite lookup_insert_Some. naive_solver. }
  constructor.
  - intros server y. cbn [sessions st2 set_sessions]. rewrite lookup_insert_Some. intros [[<- <-]|[_ Hy]].
    + exists s. split; [|done]. cbn [store st2 set_sessions set_session]. by rewrite lookup_insert_eq.
    + rewrite <- Hm1 in Hy. destruct (inv_map0 _ _ Hy) as (u & Hu & <-). destruct (proj1 Hg _ _ Hu) as (u' & ? & ? & _). eauto.
  - intros y u [[-> ->]|[_ Hu]]%Hl; [done|eauto].
  - eauto using thread_grows.
  - done.
  - done.
  - intros y u id [[-> ->]|[_ Hu]]%Hl Hid; [cbn in Hid; set_solver|]. destruct (inv_pending0 _ _ _ Hu Hid) as (?&?&?). eauto using dispatched_grows.
  - intros y u id k p n [[-> ->]|[_ Hu]]%Hl Hid; [cbn in Hid; set_solver|]. eauto using dispatched_grows.
  - intros y id k p n Hid. eauto using dispatched_grows.
  - intros id r Hw. destruct (inv_waiters0 _ _ Hw) as (?&?). eauto using answered_grows.
Qed.

Lemma find_session_placed d x st : invariant st -> find_session (d_server d) (d_kind d) st = Ok x -> placed st d x.
Proof.
  intros Hi. unfold find_session. destruct (sessions st !! d_server d) as [y|] eqn:Hy; [|done].
  destruct (inv_map _ Hi _ _ Hy) as (s & Hs & E). rewrite Hs.
  destruct (requireCommandCapability (s_capabilities s) (d_kind d)) as [[]|] eqn:Hc; [|done]. intros [= <-]. by exists s.
Qed.

Lemma keep_advance st t d x st' :
  threads st !! t = Some d -> advance t d x st = Some st' ->
  thread_ok st (with_state x d) -> invariant st -> invariant st'.
Proof.
  intros Ht [= <-] Hok Hi. apply keep_thread; [|cbn; eauto|done..]. intros d' Hd'. assert (d' = d) as -> by congruence. by repeat split.
Qed.

(** A session of which only what the theorem does not depend on changes. *)
Lemma keep_live st x s done send pending streams loop sending :
  store st !! x = Some s -> pending ⊆ s_pending s -> (forall id k p n, CCommand id k p n ∈ send -> CCommand id k p n ∈ s_send s \/ dispatched st x id k p) ->
  invariant st -> invariant (set_session x (with_live done send pending streams loop sending s) st).
Proof.
  intros Hx Hp Hm Hi. apply (keep_session st x s _ Hx); [apply same_peer_live| | |exact Hi].
  - intros id Hid. apply (inv_pending _ Hi _ _ _ Hx). by apply Hp.
  - intros id k p n Hq. destruct (Hm _ _ _ _ Hq) as [Hs|Hd]; [exact (inv_queued _ Hi _ _ _ _ _ _ Hx Hs)|exact Hd].
Qed.

Lemma keep_queue st x s m :
  store st !! x = Some s -> (forall id k p n, m = CCommand id k p n -> dispatched st x id k p) -> invariant st ->
  invariant (set_session x (with_send (s_send s ++ [m])%list s) st).
Proof.
  intros Hx Hm Hi. apply keep_live; try done. intros id k p n. rewrite elem_of_app, list_elem_of_singleton. naive_solver.
Qed.

Lemma keep_viewer st id v : invariant st -> invariant (set_viewer id v st).
Proof. intros Hi. apply (keep_rest st); try done; [by apply grows_same|exact (inv_delivered _ Hi)]. Qed.

(** What a call takes from its waiter is an answer to its own command. *)
Lemma outcome_returns st t d x id o :
  invariant st -> threads st !! t = Some d -> d_at d = Some (x, id) -> placed st d x -> waiters st !! id = Some (Some o) -> returns d (outcome_of o).
Proof.
  intros Hi Ht Ha (s & Hs & Es & _) Hw p Hp Htr. destruct o as [r|e]; [|done].
  destruct (inv_waiters _ Hi _ _ Hw) as (y & u & k & q & Hu & (t' & d' & Ht' & Ha' & <- & <-) & Hans).
  assert (t' = t) as -> by exact (inv_unique _ Hi _ _ _ _ _ _ _ Ht' Ht Ha' Ha).
  assert (d' = d) as -> by congruence. assert (y = x) as -> by congruence. assert (u = s) as -> by congruence. rewrite Es in Hans. destruct (Hans Htr) as (res & Hres & ->).
  destruct res; cbn in Hp; by simplify_eq.
Qed.

Lemma at_session_state st d y : at_session st (with_state y d) <-> at_session st d.
Proof. done. Qed.
Lemma returns_err d e : returns d (Err e).
Proof. by intros p. Qed.
Lemma returns_state d y r : returns (with_state y d) r <-> returns d r.
Proof. done. Qed.
Hint Resolve returns_err : control.

Lemma keep_dispatch t a st st' : dispatch_step t a st = Some st' -> invariant st -> invariant st'.
Proof.
  intros H Hi. unfold dispatch_step in H. destruct (threads st !! t) as [d|] eqn:Ht; [|done]. cbn [mbind option_bind] in H.
  pose proof (inv_threads _ Hi _ _ Ht) as Hok. unfold thread_ok in Hok.
  destruct (d_state d) as [|x| | |r|r] eqn:Hs, a as [|id|now| | | | | |]; try discriminate H.
  - (* Lookup *)
    eapply (keep_advance _ _ _ _ _ Ht H); [|done]. destruct (find_session _ _ _) as [x|e] eqn:Hf; [|by split].
    split; [done|]. by apply find_session_placed.
  - (* Pend *)
    destruct Hok as [Hn Hp]. branch H. simplify_eq. unfold fresh_id in *. case_bool_decide; naive_solver eauto using keep_pend.
  - (* SendCommand *)
    destruct Hok as (x & id & Ha & Hp). rewrite Ha in H. branch H. rename select (store st !! x = Some _) into Hx.
    assert (dispatched st x id (d_kind d) (d_payload d)) by by exists t, d.
    eapply (keep_advance (set_session _ _ st) t d); [done|exact H| |].
    + apply (thread_grows st); [eapply grows_session; [done|apply same_peer_live]|]. by exists x, id.
    + apply keep_queue; [done| |done]. intros ? ? ? ? [= <- <- <- <-]. done.
  - (* SendClosed *)
    destruct Hok as (x & id & Ha & Hp). rewrite Ha in H. branch H.
    eapply (keep_advance _ _ _ _ _ Ht H); [|done]. split; [by exists x, id|auto with control].
  - (* SendExpired *)
    branch H. eapply (keep_advance _ _ _ _ _ Ht H); [|done]. split; [done|auto with control].
  - (* TakeOutcome *)
    destruct Hok as (x & id & Ha & Hp). rewrite Ha in H. branch H. rename select (waiters st !! id = Some _) into Hw.
    eapply (keep_advance (set_waiters _ st) t d); [done|exact H| |].
    + split; [by exists x, id|]. eapply (outcome_returns st t d x id _ Hi Ht Ha Hp); by rewrite Hw; subst.
    + apply keep_waiters; [intros i; rewrite lookup_insert_is_Some'; auto| |done].
      intros i r. rewrite lookup_insert_Some. intros [[_ ?]|[_ ?]]; [done|by apply inv_waiters].
  - (* WaitClosed *)
    destruct Hok as (x & id & Ha & Hp). rewrite Ha in H. branch H.
    eapply (keep_advance _ _ _ _ _ Ht H); [|done]. split; [by exists x, id|auto with control].
  - (* WaitExpired *)
    branch H. eapply (keep_advance _ _ _ _ _ Ht H); [|done]. split; [done|auto with control].
  - (* Leave *)
    destruct Hok as ((x & id & Ha & Hp) & Hr). rewrite Ha in H. branch H.
    eapply (keep_advance (set_session _ _ st) t d); [done|exact H| |].
    + apply (thread_grows st); [eapply grows_session; [done|apply same_peer_live]|]. split; [|done]. by exists x, id.
    + apply keep_live; [done|set_solver|by auto|done].
Qed.

Lemma keep_view id a st st' : view_step id a st = Some st' -> invariant st -> invariant st'.
Proof.
  intros H Hi. unfold view_step in H. destruct (viewers st !! id) as [v|]; [|done]. cbn [mbind option_bind] in H.
  destruct (store st !! v_session v) as [s|] eqn:Hx; [|done]. cbn [mbind option_bind] in H.
  assert (forall p, invariant (set_session (v_session v) (with_streams p s) st)) by (intros; apply keep_live; auto).
  assert (forall m, (forall i k p n, m <> CCommand i k p n) -> invariant (set_session (v_session v) (with_send (s_send s ++ [m])%list s) st))
    by (intros m Hm; apply keep_queue; [done|intros; by exfalso; eapply Hm|done]).
  destruct (v_state v), a; try discriminate H; branch H; simplify_eq;
    repeat first [apply keep_viewer | progress auto | case_match].
Qed.

Lemma keep_apply a st st' : step a st st' -> invariant st -> invariant st'.
Proof.
  intros [Hh H] Hi. destruct a; cbn [apply] in H.
  - destruct (store st !! x) eqn:Hx; [done|]. destruct (authenticate hello peer verified) as [[h f]|] eqn:Ha; [|by simplify_eq].
    destruct (register f h x st) eqn:Hr; [|by simplify_eq]. simplify_eq.
    unfold authenticate in Ha. branch Ha. simplify_eq. eapply keep_register; eauto. by apply negb_false_iff.
  - unfold receive in H. branch H; simplify_eq; auto using keep_resolve. apply keep_live; auto.
  - unfold hand_chunk in H. branch H. simplify_eq. apply keep_viewer, keep_live; auto.
  - branch H. simplify_eq. apply keep_live; auto.
  - branch H. simplify_eq. apply keep_forget, keep_live; auto.
  - simplify_eq. apply (keep_rest st); try done; [by apply grows_same| |exact (inv_delivered _ Hi)].
    cbn. intros ? ? [_ ?]%lookup_delete_Some. done.
  - branch H. simplify_eq. by apply keep_close.
  - branch H. simplify_eq. rename select (s_send _ = _) into Hq. rename select (store st !! x = Some _) into Hx.
    eapply keep_rest with (st := set_session x _ st); try done; [by apply grows_same| |].
    + intros y id k p n. cbn. rewrite elem_of_app, list_elem_of_singleton. intros [Hd|[= -> Hm]].
      * exact (inv_delivered _ Hi _ _ _ _ _ Hd).
      * eapply (inv_queued _ Hi _ _ _ _ _ _ Hx). rewrite Hq, <- Hm. by left.
    + apply keep_live; auto. intros. left. rewrite Hq. by right.
  - branch H; simplify_eq; apply keep_live; auto; intros id k p n Hin; left.
    rename select session into s. destruct (s_send s); [done|by right].
  - branch H. simplify_eq.
    apply keep_thread; [congruence|done..].
  - branch H. simplify_eq. rename select (threads st !! t = Some _) into Ht.
    apply keep_thread; [|cbn; eauto|exact (inv_threads _ Hi _ _ Ht)|done]. intros d' Hd'. simplify_eq. by repeat split.
  - by eapply keep_dispatch.
  - branch H; simplify_eq; auto using keep_viewer.
  - by eapply keep_view.
Qed.

Lemma reachable_invariant st : reachable st -> invariant st.
Proof. 
  induction 1; [|by eapply keep_apply]. constructor; intros *; cbn; rewrite ?lookup_empty; try done. by intros ?%elem_of_nil.
Qed.

(** The two operations that end a session are two actions each. *)
Lemma unregister_run x s st :
  store st !! x = Some s -> s_loop s = Receiving ->
  run [AStop x; AClose x] st = Some (unregister x (set_session x (with_loop Stopped s) st)).
Proof.
  intros Hx Hl. cbn [run apply]. rewrite Hx. cbn [mbind option_bind]. rewrite Hl. cbn [mbind option_bind]. unfold unregister.
  set (st1 := set_session x _ st). assert (store st1 !! x = Some (with_loop Stopped s)) as Hx1 by apply lookup_insert_eq.
  assert (store (forget x st1) = store st1) as -> by (unfold forget; by case_bool_decide).
  rewrite Hx1. cbn [mbind option_bind]. rewrite bool_decide_false; [done|].
  unfold forget. rewrite Hx1. case_bool_decide as Hb; [|done]. cbn [sessions set_sessions]. by rewrite lookup_delete_eq.
Qed.

Lemma Disconnect_run server x st :
  invariant st -> sessions st !! server = Some x -> run [ADisconnect server; AClose x] st = Some (Disconnect server st).
Proof.
  intros Hi Hm. destruct (inv_map _ Hi _ _ Hm) as (s & Hx & Es). unfold Disconnect. rewrite Hm. cbn [run apply mbind option_bind].
  cbn [store set_sessions]. rewrite Hx. cbn [mbind option_bind]. rewrite bool_decide_false; [done|].
  cbn [sessions set_sessions]. by rewrite Es, lookup_delete_eq.
Qed.

(** C32. Over every interleaving of requests, connections, messages and failures: a call of Dispatch
    that returned a payload sent its command to a session of the server it was asked for, whose
    Agent had shown the certificate registered for that server and had advertised the capability
    of the command; and the payload is what the handler of that Agent returned for that command,
    whatever the Agents of other servers send, or how often and how late results come. *)
Theorem dispatch_authentic st t d payload :
  reachable st -> threads st !! t = Some d -> d_state d = DReturned (Ok payload) ->
  exists x id s, d_at d = Some (x, id) /\ store st !! x = Some s /\ s_server s = d_server d /\
    registered (s_server s) (s_fingerprint s) /\ equal_fold (s_peer s) (s_fingerprint s) = true /\
    requireCommandCapability (s_capabilities s) (d_kind d) = Ok () /\
    (trusted (d_server d) = true -> answers (d_server d) (d_kind d) (d_payload d) (Ok payload)).
Proof.
  intros Hr Ht Hd. pose proof (reachable_invariant _ Hr) as Hi. pose proof (inv_threads _ Hi _ _ Ht) as Hok.
  unfold thread_ok in Hok. rewrite Hd in Hok. destruct Hok as [Ha Hp]. destruct (Ha eq_refl) as (x & id & Hx & s & Hs & E & Hc).
  destruct (inv_auth _ Hi _ _ Hs). exists x, id, s. repeat split; try done. by apply Hp.
Qed.

(** ** Calls end *)

Definition rank (d : dispatcher) : nat :=
  match d_state d with DStart => 5 | DFound _ => 4 | DPending => 3 | DWaiting => 2 | DLeaving _ => 1 | DReturned _ => 0 end.

Definition own (t : tid) (a : action) : bool := match a with ADispatch t' _ => bool_decide (t' = t) | _ => false end.

(** What no action takes back: sessions stay, and stay done; calls stay, with their identifier and
    the end of their context. *)
Definition evolves (st st' : state) : Prop :=
  forall x s, store st !! x = Some s -> exists s', store st' !! x = Some s' /\ (s_done s = true -> s_done s' = true).
Definition persists (d d' : dispatcher) : Prop :=
  (forall p, d_at d = Some p -> d_at d' = Some p) /\ (forall e, d_expired d = Some e -> d_expired d' = Some e).

Lemma evolves_same st st' : store st' = store st -> evolves st st'.
Proof. intros E x s. rewrite E. eauto. Qed.

Lemma evolves_trans st1 st2 st3 : evolves st1 st2 -> evolves st2 st3 -> evolves st1 st3.
Proof. intros H1 H2 x s Hx. destruct (H1 _ _ Hx) as (s2 & Hx2 & E2). destruct (H2 _ _ Hx2) as (s3 & Hx3 & E3). eauto. Qed.

Lemma evolves_session st x s s' : store st !! x = Some s -> (s_done s = true -> s_done s' = true) -> evolves st (set_session x s' st).
Proof.
  intros Hx Hd y u Hy. cbn. destruct (decide (x = y)) as [<-|Hne];
    [rewrite lookup_insert_eq|rewrite lookup_insert_ne by done]; [|eauto]. exists s'. split; [done|]. by simplify_eq.
Qed.

Lemma evolves_close err x st : evolves st (close err x st).
Proof.
  unfold close. destruct (store st !! x) as [s|] eqn:Hx; [|by apply evolves_same]. destruct (s_done s); [by apply evolves_same|].
  by apply (evolves_session st x s).
Qed.

Lemma threads_close err x st : threads (close err x st) = threads st.
Proof. unfold close. destruct (store st !! x) as [s|]; [|done]. by destruct (s_done s). Qed.

Lemma register_evolves peer h x st st' :
  store st !! x = None -> register peer h x st = Ok st' -> evolves st st' /\ threads st' = threads st.
Proof.
  intros Hx H. unfold register in H. destruct (negb _); [done|]. destruct (negb _ && negb _); [done|].
  destruct (sessions st !! h_server h) as [y|]; simplify_eq; (split; [|cbn; by rewrite ?threads_close]).
  - intros z s Hz. destruct (evolves_close ErrConnectionClosed y st z s Hz) as (s' & Hz' & E).
    exists s'. split; [|done]. cbn. rewrite lookup_insert_ne; congruence.
  - intros z s Hz. exists s. split; [|done]. cbn. rewrite lookup_insert_ne; congruence.
Qed.

Lemma view_evolves id a st st' : view_step id a st = Some st' -> evolves st st' /\ threads st' = threads st.
Proof.
  intros H. unfold view_step in H. destruct (viewers st !! id) as [v|]; [|done]. cbn [mbind option_bind] in H.
  destruct (store st !! v_session v) as [s|] eqn:Hx; [|done]. cbn [mbind option_bind] in H.
  destruct (v_state v), a; try discriminate H; branch H; simplify_eq; (split; [|done]);
    first [by apply evolves_same | by apply (evolves_session st _ _ _ Hx)].
Qed.

Lemma dispatch_evolves t a st st' : invariant st -> dispatch_step t a st = Some st' ->
  evolves st st' /\
  exists d d', threads st !! t = Some d /\ threads st' = <[t := d']> (threads st) /\ rank d' < rank d /\ persists d d'.
Proof.
  intros Hi H. unfold dispatch_step, advance in H. destruct (threads st !! t) as [d|] eqn:Ht; [|done]. cbn [mbind option_bind] in H.
  pose proof (inv_threads _ Hi _ _ Ht) as Hok. unfold thread_ok in Hok.
  destruct (d_state d) as [|x| | |r|r] eqn:Hs, a as [|id|now| | | | | |]; try discriminate H; branch H; simplify_eq.
  all: split; [first [by apply evolves_same | by eapply (evolves_session st); eauto]|].
  all: exists d; eexists; split; [done|]; split; [done|]; split; [unfold rank; rewrite Hs; cbn; first [lia | case_match; lia]|].
  all: split; cbn [d_at d_expired with_state with_at]; [|done]; first [done | destruct Hok; congruence].
Qed.

Definition moves (a : action) (st st' : state) : Prop :=
  evolves st st' /\
  forall t d, threads st !! t = Some d -> exists d', threads st' !! t = Some d' /\ persists d d' /\
    (if own t a then rank d' < rank d else d_state d' = d_state d).

Lemma moves_other a st st' : (forall t, own t a = false) -> evolves st st' -> threads st' = threads st -> moves a st st'.
Proof. intros Ho He Et. split; [done|]. intros t d Ht. exists d. rewrite Et, Ho. by repeat split. Qed.

Lemma moves_thread a st t d d' :
  threads st !! t = Some d -> persists d d' -> (forall u, own u a = false) -> d_state d' = d_state d -> moves a st (set_thread t d' st).
Proof.
  intros Ht Hp Ho Hs. split; [by apply evolves_same|]. intros u e Hu. cbn. rewrite Ho.
  destruct (decide (t = u)) as [<-|Hne]; [rewrite lookup_insert_eq|rewrite lookup_insert_ne by done; by exists e].
  exists d'. by simplify_eq.
Qed.

(** Every action of another leaves a call where it is, and its own actions bring it nearer to its
    end. *)
Lemma apply_moves a st st' : invariant st -> apply a st = Some st' -> moves a st st'.
Proof.
  intros Hi H. destruct a; cbn [apply] in H.
  - destruct (store st !! x) eqn:Hx; [done|]. destruct (authenticate hello peer verified) as [[h f]|];
      [|simplify_eq; by apply moves_other; [|apply evolves_same|]].
    destruct (register f h x st) eqn:Hr; simplify_eq; [|by apply moves_other; [|apply evolves_same|]].
    destruct (register_evolves _ _ _ _ _ Hx Hr). by apply moves_other.
  - unfold receive, resolve in H. branch H; simplify_eq; (apply moves_other; [done| |done]);
      first [by apply evolves_same | by eapply (evolves_session st); eauto].
  - unfold hand_chunk in H. branch H. simplify_eq. apply moves_other; [done| |done]. by eapply (evolves_session st); eauto.
  - branch H. simplify_eq. apply moves_other; [done| |done]. by eapply (evolves_session st); eauto.
  - branch H. simplify_eq. unfold forget. case_bool_decide; (apply moves_other; [done| |done]); by eapply (evolves_session st); eauto.
  - simplify_eq. by apply moves_other; [|apply evolves_same|].
  - branch H. simplify_eq. apply moves_other; [done|apply evolves_close|apply threads_close].
  - branch H. simplify_eq. apply moves_other; [done| |done]. by eapply (evolves_session st); eauto.
  - branch H; simplify_eq; (apply moves_other; [done| |done]); by eapply (evolves_session st); eauto.
  - branch H. simplify_eq. split; [by apply evolves_same|]. intros u d Hu. cbn. rewrite lookup_insert_ne by congruence. by exists d.
  - branch H. simplify_eq. rename select (threads st !! t = Some _) into Ht. apply (moves_thread _ _ _ _ _ Ht); [|done..].
    split; [done|]. cbn. congruence.
  - destruct (dispatch_evolves _ _ _ _ Hi H) as (He & d & d' & Ht & Et & Hr & Hp). split; [done|]. intros u e Hu. rewrite Et. cbn [own].
    case_bool_decide as Eu; [subst u; rewrite lookup_insert_eq|rewrite lookup_insert_ne by done; by exists e]. exists d'. by simplify_eq.
  - branch H; simplify_eq; by apply moves_other; [|apply evolves_same|].
  - destruct (view_evolves _ _ _ _ H). by apply moves_other.
Qed.

(** A call that has nothing to wait for: its context is done, or its session is. *)
Definition released (st : state) (d : dispatcher) : Prop :=
  is_Some (d_expired d) \/ exists x id s, d_at d = Some (x, id) /\ store st !! x = Some s /\ s_done s = true.

Lemma released_moves st st' d d' : evolves st st' -> persists d d' -> released st d -> released st' d'.
Proof.
  intros He [Hp1 Hp2] [[e Hd]|(x & id & s & Ha & Hs & Hd)]; [left; eauto|].
  destruct (He _ _ Hs) as (s' & Hs' & E). right. exists x, id, s'. auto.
Qed.

Lemma released_can_move st t d :
  invariant st -> threads st !! t = Some d -> released st d -> (exists r, d_state d = DReturned r) \/ exists a st', dispatch_step t a st = Some st'.
Proof.
  intros Hi Ht Hr. pose proof (inv_threads _ Hi _ _ Ht) as Hok. unfold thread_ok in Hok. unfold dispatch_step. rewrite Ht. cbn [mbind option_bind].
  destruct (d_state d) as [|x| | |r|r] eqn:Hs; [right..|left; eauto].
  - by exists Lookup; eexists.
  - destruct Hok as (_ & s & Hx & _). exists (Pend (fresh (dom (waiters st) ∪ dom (viewers st)))). rewrite Hx. cbn [mbind option_bind].
    unfold fresh_id. rewrite bool_decide_true; [eauto|].
    pose proof (is_fresh (dom (waiters st) ∪ dom (viewers st))) as Hf. rewrite not_elem_of_union, !not_elem_of_dom in Hf. done.
  - destruct Hr as [[e He]|(x & id & s & Ha & Hx & Hd)]; [exists SendExpired; rewrite He|exists SendClosed; rewrite Ha; cbn; rewrite Hx; cbn; rewrite Hd]; by eexists.
  - destruct Hr as [[e He]|(x & id & s & Ha & Hx & Hd)]; [exists WaitExpired; rewrite He|exists WaitClosed; rewrite Ha; cbn; rewrite Hx; cbn; rewrite Hd]; by eexists.
  - destruct Hok as ((x & id & Ha & s & Hx & _) & _). exists Leave. rewrite Ha. cbn. rewrite Hx. by eexists.
Qed.

(** C33. Once the context of a call of Dispatch is done or its session is closed, the call is never
    stuck and ends after at most five more actions of its own: it has returned or one of its
    actions is possible; this stays so whatever happens; each of its own actions brings it nearer
    to its end and those of others leave it where it is. *)
Theorem dispatch_ends st t d :
  reachable st -> threads st !! t = Some d -> released st d ->
  rank d <= 5 /\
  ((exists r, d_state d = DReturned r) \/ exists a st', dispatch_step t a st = Some st') /\
  forall a st', step a st st' ->
    exists d', threads st' !! t = Some d' /\ released st' d' /\ if own t a then rank d' < rank d else rank d' = rank d.
Proof.
  intros Hr Ht Hrel. pose proof (reachable_invariant _ Hr) as Hi. split; [unfold rank; case_match; lia|].
  split; [by apply released_can_move|]. intros a st' [_ Ha]. destruct (apply_moves _ _ _ Hi Ha) as [He Hm].
  destruct (Hm _ _ Ht) as (d' & Hd' & Hp & Ho). exists d'. split; [done|]. split; [by eapply released_moves|].
  destruct (own t a); [done|]. unfold rank. by rewrite Ho.
Qed.

(** Before that, a call whose command is sent waits for the Agent without a limit of its own: the
    thirty seconds that Dispatch computes are only sent along. *)
Theorem dispatch_waits st t d x id s :
  threads st !! t = Some d -> d_state d = DWaiting -> d_expired d = None -> d_at d = Some (x, id) -> store st !! x = Some s ->
  s_done s = false -> waiters st !! id = Some None -> forall a, dispatch_step t a st = None.
Proof.
  intros Ht Hs He Ha Hx Hd Hw a. unfold dispatch_step. rewrite Ht. cbn [mbind option_bind]. rewrite Hs.
  destruct a; try done; rewrite ?He, ?Ha; cbn [mbind option_bind]; rewrite ?Hx, ?Hw; cbn [mbind option_bind]; by rewrite ?Hd.
Qed.
End manager.

(** ** An example *)

Module Example.
Definition hello : AgentHello :=
  {| h_server := "web"; h_fingerprint := "AB12"; h_protocol := 1; h_api := ""; h_version := "1.0"; h_capabilities := Names |}.
Definition everywhere (_ _ : string) : Prop := True.
Definition all (_ : string) : bool := true.
Definition empties (_ _ _ : string) (r : result string string) : Prop := r = Ok "{}".
Definition start : list action :=
  [AConnect (Some hello) (Some "ab12") (Ok true) 0; ACall 0 "web" "service.start" "{}" None; ADispatch 0 Lookup; ADispatch 0 (Pend 0);
   ADispatch 0 (SendCommand 0); ADeliver 0].
Definition answer : action := AReceive 0 (MResult (execute_result 0 (Ok "{}"))).
Definition finish : list action := [ADispatch 0 TakeOutcome; ADispatch 0 Leave].

#[local] Instance unicode : Unicode := unicode_ascii.
Definition started : state := default init (run start init).
Definition answered : state := default init (apply answer started).
Definition finished : state := default init (run finish answered).

Lemma started_reachable : reachable everywhere all empties started.
Proof.
  eapply steps_reachable; [|apply reachable_init]. apply (run_steps _ _ _ start); [|vm_compute; reflexivity].
  repeat (apply Forall_cons_2; [by intros|]). apply Forall_nil_2.
Qed.

Lemma answered_reachable : reachable everywhere all empties answered.
Proof.
  apply (reachable_step _ _ _ answer started); [exact started_reachable|]. split; [|vm_compute; reflexivity].
  intros s Hs _. exists "service.start", "{}", 30000%Z, (Ok "{}"). split; [|split]; [|done|done].
  assert (delivered started = [(0, CCommand 0 "service.start" "{}" 30000%Z)]) as -> by (vm_compute; reflexivity). by left.
Qed.

Lemma finished_reachable : reachable everywhere all empties finished.
Proof.
  eapply steps_reachable; [|exact answered_reachable]. apply (run_steps _ _ _ finish); [|vm_compute; reflexivity].
  repeat (apply Forall_cons_2; [by intros|]). apply Forall_nil_2.
Qed.

Definition call (x : dispatch_state) : dispatcher :=
  {| d_server := "web"; d_kind := "service.start"; d_payload := "{}"; d_deadline := None; d_expired := None; d_at := Some (0, 0); d_state := x |}.

Lemma dispatch_authentic_witness :
  exists x id s, Some (0, 0) = Some (x, id) /\ store finished !! x = Some s /\ s_server s = "web" /\
    everywhere (s_server s) (s_fingerprint s) /\ equal_fold (s_peer s) (s_fingerprint s) = true /\
    requireCommandCapability (s_capabilities s) "service.start" = Ok () /\
    (all "web" = true -> empties "web" "service.start" "{}" (Ok "{}")).
Proof.
  apply (dispatch_authentic everywhere all empties finished 0 (call (DReturned (Ok "{}"))) "{}");
    [exact finished_reachable|vm_compute; reflexivity|reflexivity].
Defined.

(** The administrator disconnects the server while a call waits for its answer. *)
Definition closing : list action := [ADisconnect "web"; AClose 0].
Definition closed : state := default init (run closing started).

Lemma closed_reachable : reachable everywhere all empties closed.
Proof.
  eapply steps_reachable; [|exact started_reachable]. apply (run_steps _ _ _ closing); [|vm_compute; reflexivity].
  repeat (apply Forall_cons_2; [by intros|]). apply Forall_nil_2.
Qed.

Lemma dispatch_ends_witness :
  rank (call DWaiting) <= 5 /\ ((exists r, DWaiting = DReturned r) \/ exists a st', dispatch_step 0 a closed = Some st').
Proof.
  destruct (dispatch_ends everywhere all empties closed 0 (call DWaiting) closed_reachable) as (H1 & H2 & _).
  - vm_compute; reflexivity.
  - right. eexists 0, 0, _. split; [reflexivity|]. split; vm_compute; reflexivity.
  - exact (conj H1 H2).
Defined.
End Example.
