(* ===== verification/ControlPlaneStreams.v ===== *)
(** * The control plane: streams

    Viewers read, in order and without gaps, what the Agent of their session sent for them, from
    channels of bounded size ([stream_in_order]).  The price is that a receiving loop which waits
    for a viewer that has left waits for good ([abandoned_stream_blocks]). *)

From S2P Require Import Prelude GoStrings GoStrconv Effects AppErrors AgentApi AgentWire ControlPlane ControlPlaneSpec.
Local Open Scope string_scope.

Section manager.
Context `{HUnicode : Unicode}.
Variables (registered : string -> string -> Prop) (trusted : string -> bool)
          (answers : string -> string -> string -> result string string -> Prop).

(** What was handed to a viewer is what it has passed on and a rest, of which it holds the next
    chunk while it waits for the output, and which is in its channel while it reads. *)
Definition splits (v : viewer) (passed rest : list StreamChunk) : Prop :=
  v_handed v = (passed ++ rest)%list /\ (v_seen v ++ v_output v)%list = map ch_data passed /\ Forall (fun c => ch_eof c = false) passed /\
  match v_state v with
  | VFound | VAdded | VReading => rest = v_chunks v
  | VEmitting data => exists c, rest = c :: v_chunks v /\ ch_data c = data /\ ch_eof c = false
  | VLeaving | VCancelling | VEnded _ => True
  end.

Definition viewer_ok (id : cid) (v : viewer) : Prop :=
  Forall (fun c => ch_stream c = id) (v_handed v) /\ length (v_chunks v) <= capacity /\ length (v_output v) <= capacity /\
  exists passed rest, splits v passed rest.

(** [id] is the stream of a viewer of the session [x]. *)
Definition views (st : state) (id : cid) (x : sid) : Prop := exists v, viewers st !! id = Some v /\ v_session v = x.

Record streams_ok (st : state) : Prop := {
  ok_viewer id v : viewers st !! id = Some v -> viewer_ok id v;
  ok_streams x s id : store st !! x = Some s -> id ∈ s_streams s -> views st id x;
  ok_loop x s c : store st !! x = Some s -> s_loop s = Handing c -> views st (ch_stream c) x }.

Lemma ok_rest st st' : store st' = store st -> viewers st' = viewers st -> streams_ok st -> streams_ok st'.
Proof. intros E1 E2 []. constructor; unfold views; rewrite ?E1, ?E2; done. Qed.

Lemma ok_session st x s' :
  (forall id, id ∈ s_streams s' -> views st id x) -> (forall c, s_loop s' = Handing c -> views st (ch_stream c) x) ->
  streams_ok st -> streams_ok (set_session x s' st).
Proof.
  intros H1 H2 []. constructor; [done| |]; intros y s ?; cbn; rewrite lookup_insert_Some; intros [[<- <-]|[_ Hy]]; eauto.
Qed.

(** The part of a session that streams depend on shrinks. *)
Lemma ok_live st x s done send pending streams loop sending :
  store st !! x = Some s -> streams ⊆ s_streams s -> loop = s_loop s \/ (forall c, loop <> Handing c) ->
  streams_ok st -> streams_ok (set_session x (with_live done send pending streams loop sending s) st).
Proof.
  intros Hx Hs Hl Hok. apply ok_session; [| |done].
  - intros id Hid. apply (ok_streams _ Hok _ _ _ Hx). by apply Hs.
  - intros c Hc. cbn in Hc. subst loop. destruct Hl as [Hl|Hl]; [by apply (ok_loop _ Hok _ _ _ Hx)|by exfalso; eapply Hl].
Qed.

Lemma ok_set_viewer st id v v' :
  viewers st !! id = Some v -> v_session v' = v_session v -> viewer_ok id v' -> streams_ok st -> streams_ok (set_viewer id v' st).
Proof.
  intros Hv Es Hok []. assert (forall i x, views st i x -> views (set_viewer id v' st) i x) as Hw.
  { intros i x (u & Hu & <-). unfold views. cbn. destruct (decide (id = i)) as [<-|Hne];
      [rewrite lookup_insert_eq|rewrite lookup_insert_ne by done; eauto]. exists v'. split; [done|]. congruence. }
  constructor; [|eauto..]. intros i u. cbn. rewrite lookup_insert_Some. intros [[<- <-]|[_ Hu]]; eauto.
Qed.

Lemma ok_close err x st : streams_ok st -> streams_ok (close err x st).
Proof.
  intros Hok. unfold close. destruct (store st !! x) as [s|] eqn:Hx; [|done]. destruct (s_done s); [done|].
  eapply ok_rest; [| |eapply (ok_live st x s); [done| |by left|done]]; [done..|set_solver].
Qed.

Lemma ok_register peer h x st st' : store st !! x = None -> register peer h x st = Ok st' -> streams_ok st -> streams_ok st'.
Proof.
  intros Hx H Hok. unfold register in H. destruct (negb _); [done|]. destruct (negb _ && negb _); [done|]. simplify_eq.
  eapply ok_rest; [| |apply ok_session]; [done|done|cbn; set_solver|done|]. destruct (sessions st !! h_server h); auto using ok_close.
Qed.

(** ** What a viewer does *)

Definition reads (y : viewer_state) : bool := match y with VFound | VAdded | VReading => true | _ => false end.
Definition gone (y : viewer_state) : bool := match y with VLeaving | VCancelling | VEnded _ => true | _ => false end.

Lemma view_state_ok id v y : gone y || reads y && reads (v_state v) = true -> viewer_ok id v -> viewer_ok id (with_vstate y v).
Proof.
  intros Hy (Hf & Hc & Ho & p & r & E & Em & Ee & Hm). split_and!; try done. exists p, r. split_and!; try done.
  cbn. destruct y, (v_state v); done.
Qed.

Lemma take_chunk_ok id v c rest y :
  v_state v = VReading -> v_chunks v = c :: rest -> y = (if ch_eof c then VLeaving else VEmitting (ch_data c)) -> viewer_ok id v ->
  viewer_ok id (with_view y rest (v_output v) (v_seen v) (v_handed v) v).
Proof.
  intros Hs Hch -> (Hf & Hc & Ho & p & r & E & Em & Ee & Hm). rewrite Hs in Hm. subst r. rewrite Hch in *. cbn [length] in Hc.
  split_and!; cbn; [done|lia|done|]. exists p, (c :: rest). split_and!; try done. cbn. destruct (ch_eof c) eqn:He; [done|by exists c].
Qed.

Lemma emit_ok id v data :
  v_state v = VEmitting data -> length (v_output v) < capacity -> viewer_ok id v ->
  viewer_ok id (with_view VReading (v_chunks v) (v_output v ++ [data])%list (v_seen v) (v_handed v) v).
Proof.
  intros Hs Hlt (Hf & Hc & Ho & p & r & E & Em & Ee & Hm). rewrite Hs in Hm. destruct Hm as (c & -> & <- & He).
  split_and!; cbn; [done|done|rewrite length_app; cbn; lia|]. exists (p ++ [c])%list, (v_chunks v). split_and!; cbn; [| | |done].
  - by rewrite E, <- app_assoc.
  - by rewrite map_app, <- Em, app_assoc.
  - apply Forall_app. by rewrite Forall_singleton.
Qed.

Lemma read_ok id v data rest :
  v_output v = data :: rest -> viewer_ok id v ->
  viewer_ok id (with_view (v_state v) (v_chunks v) rest (v_seen v ++ [data])%list (v_handed v) v).
Proof.
  intros Hout (Hf & Hc & Ho & p & r & E & Em & Ee & Hm). rewrite Hout in *. cbn [length] in Ho.
  split_and!; cbn; [done|done|lia|]. exists p, r. split_and!; cbn; try done. by rewrite <- app_assoc.
Qed.

Lemma hand_ok id v c :
  ch_stream c = id -> length (v_chunks v) < capacity -> viewer_ok id v ->
  viewer_ok id (with_view (v_state v) (v_chunks v ++ [c])%list (v_output v) (v_seen v) (v_handed v ++ [c])%list v).
Proof.
  intros Hid Hlt (Hf & Hc & Ho & p & r & E & Em & Ee & Hm).
  split_and!; cbn; [apply Forall_app; by rewrite Forall_singleton|rewrite length_app; cbn; lia|done|].
  exists p, (r ++ [c])%list. split_and!; cbn; [by rewrite E, app_assoc|done|done|].
  destruct (v_state v); try done; [by rewrite Hm..|]. destruct Hm as (c' & -> & ? & ?). by exists c'.
Qed.

Lemma ok_view id a st st' : view_step id a st = Some st' -> streams_ok st -> streams_ok st'.
Proof.
  intros H Hok. unfold view_step in H. destruct (viewers st !! id) as [v|] eqn:Hv; [|done]. cbn [mbind option_bind] in H.
  destruct (store st !! v_session v) as [s|] eqn:Hx; [|done]. cbn [mbind option_bind] in H.
  pose proof (ok_viewer _ Hok _ _ Hv) as Hvo.
  assert (forall done send pending streams, streams ⊆ {[id]} ∪ s_streams s ->
            streams_ok (set_session (v_session v) (with_live done send pending streams (s_loop s) (s_sending s) s) st)) as Hput.
  { intros done send pending streams Hsub. apply ok_session; [|intros c; apply (ok_loop _ Hok _ _ _ Hx)|done].
    intros i Hi%Hsub%elem_of_union. destruct Hi as [->%elem_of_singleton|Hi]; [by exists v|by apply (ok_streams _ Hok _ _ _ Hx)]. }
  assert (forall y st1, streams_ok st1 -> viewers st1 = viewers st -> gone y || reads y && reads (v_state v) = true ->
            streams_ok (set_viewer id (with_vstate y v) st1)) as Hgo.
  { intros y st1 Hok1 E Hy. apply (ok_set_viewer _ _ v); [by rewrite E|done|by apply view_state_ok|done]. }
  destruct (v_state v) eqn:Hs, a; try discriminate H; branch H; simplify_eq.
  all: first
    [ apply Hgo; [first [done | apply Hput; set_solver]|done|done]
    | apply (ok_set_viewer _ _ v); [done|done| |done] ].
  all: first
    [ done
    | rewrite <- Hs; by apply read_ok
    | eapply take_chunk_ok; [done|done| |done]; case_match; congruence
    | apply emit_ok; [done|by apply Nat.ltb_lt|done] ].
Qed.

Lemma ok_apply a st st' : apply a st = Some st' -> streams_ok st -> streams_ok st'.
Proof.
  intros H Hok.
  assert (forall x s done send pending sending, store st !! x = Some s ->
            streams_ok (set_session x (with_live done send pending (s_streams s) (s_loop s) sending s) st)) as Hput
    by (intros; apply ok_live; auto).
  destruct a; cbn [apply] in H.
  - destruct (store st !! x) eqn:Hx; [done|]. destruct (authenticate hello peer verified) as [[h f]|]; [|by simplify_eq].
    destruct (register f h x st) eqn:Hr; simplify_eq; eauto using ok_register.
  - unfold receive, resolve in H. branch H; simplify_eq; try done; try by apply (ok_rest st).
    rename select (store st !! x = Some _) into Hx. apply ok_session; [intros id; apply (ok_streams _ Hok _ _ _ Hx)| |done].
    cbn. intros ? [= <-]. by apply (ok_streams _ Hok _ _ _ Hx).
  - unfold hand_chunk in H. branch H. simplify_eq. eapply ok_set_viewer; [done|done| |apply ok_live; auto].
    apply hand_ok; [done|by apply Nat.ltb_lt|by apply (ok_viewer _ Hok)].
  - branch H. simplify_eq. apply ok_live; auto.
  - branch H. simplify_eq. unfold forget. case_bool_decide; [eapply (ok_rest (set_session _ _ _)); [done|done|]|]; apply ok_live; auto.
  - simplify_eq. by apply (ok_rest st).
  - branch H. simplify_eq. by apply ok_close.
  - branch H. simplify_eq. by eapply (ok_rest (set_session _ _ _)); [done|done|apply Hput].
  - branch H; simplify_eq; by apply Hput.
  - branch H. simplify_eq. by apply (ok_rest st).
  - branch H. simplify_eq. by apply (ok_rest st).
  - unfold dispatch_step, advance in H. branch H; simplify_eq; first [by apply (ok_rest st) | by eapply (ok_rest (set_session _ _ _)); [done|done|apply Hput]].
  - unfold fresh_id in H. branch H; simplify_eq; [|done]. rename select (bool_decide _ = true) into Hf. apply bool_decide_eq_true in Hf as [_ Hn].
    assert (forall i y, views st i y -> forall v, views (set_viewer id v st) i y) as Hw.
    { intros i y (u & Hu & <-) v. exists u. cbn. rewrite lookup_insert_ne; [done|congruence]. }
    destruct Hok. constructor; [|eauto..]. intros i u. cbn. rewrite lookup_insert_Some. intros [[<- <-]|[_ Hu]]; [|eauto].
    split_and!; cbn; [done|lia..|]. by exists [], [].
  - by eapply ok_view.
Qed.

Lemma reachable_streams st : reachable registered trusted answers st -> streams_ok st.
Proof. induction 1 as [|a st st' _ IH [_ H]]; [constructor; intros *; cbn; by rewrite lookup_empty|by eapply ok_apply]. Qed.

Lemma viewers_close err x st : viewers (close err x st) = viewers st.
Proof. unfold close. destruct (store st !! x) as [s|]; [|done]. by destruct (s_done s). Qed.

Lemma viewers_register peer h x st st' : register peer h x st = Ok st' -> viewers st' = viewers st.
Proof.
  intros H. unfold register in H. destruct (negb _); [done|]. destruct (negb _ && negb _); [done|]. simplify_eq. cbn.
  destruct (sessions st !! h_server h); [apply viewers_close|done].
Qed.

(** What an action of a viewer leaves of it. *)
Lemma view_keeps id a st st' : view_step id a st = Some st' ->
  exists v v', viewers st !! id = Some v /\ viewers st' = <[id := v']> (viewers st) /\ v_session v' = v_session v /\ v_handed v' = v_handed v /\
    (gone (v_state v) = true -> gone (v_state v') = true /\ v_chunks v' = v_chunks v).
Proof.
  intros H. unfold view_step in H. destruct (viewers st !! id) as [v|]; [|done]. cbn [mbind option_bind] in H.
  destruct (store st !! v_session v) as [s|]; [|done]. cbn [mbind option_bind] in H.
  destruct (v_state v) eqn:Hs, a; try discriminate H; branch H; simplify_eq; cbn [gone]; exists v; eexists; split_and!;
    first [done | reflexivity | by cbn; rewrite Hs | idtac]; cbn; by rewrite ?Hs.
Qed.

(** An action either leaves all viewers, or adds one, or is of one viewer or of the loop that hands
    it a chunk. *)
Lemma apply_viewers a st st' : apply a st = Some st' ->
  viewers st' = viewers st \/
  (exists id v, viewers st !! id = None /\ viewers st' = <[id := v]> (viewers st)) \/
  (exists id b, a = AView id b /\ view_step id b st = Some st') \/
  (exists x s c v, a = AHand x /\ store st !! x = Some s /\ s_loop s = Handing c /\ viewers st !! ch_stream c = Some v /\ length (v_chunks v) < capacity /\
     viewers st' = <[ch_stream c := with_view (v_state v) (v_chunks v ++ [c])%list (v_output v) (v_seen v) (v_handed v ++ [c])%list v]> (viewers st)).
Proof.
  intros H. destruct a; cbn [apply] in H; try (by left; branch H; simplify_eq).
  - left. destruct (store st !! x); [done|]. destruct (authenticate hello peer verified) as [[h f]|]; [|by simplify_eq].
    destruct (register f h x st) eqn:Hr; simplify_eq; [by eapply viewers_register|done].
  - left. unfold receive, resolve in H. branch H; by simplify_eq.
  - unfold hand_chunk in H. branch H. simplify_eq. do 3 right. do 4 eexists. split_and!; try done. by apply Nat.ltb_lt.
  - left. unfold forget in H. branch H; by simplify_eq.
  - left. branch H. simplify_eq. apply viewers_close.
  - left. unfold dispatch_step, advance in H. branch H; by simplify_eq.
  - unfold fresh_id in H. branch H; simplify_eq; [|by left]. right. left. rename select (bool_decide _ = true) into Hf.
    apply bool_decide_eq_true in Hf as [_ Hn]. by do 2 eexists.
  - do 2 right. left. by exists id, a.
Qed.

(** The loop of the session of a viewer is the only one that hands it chunks. *)
Lemma handed_by a st st' id v v' :
  streams_ok st -> apply a st = Some st' -> viewers st !! id = Some v -> viewers st' !! id = Some v' ->
  v_handed v' = v_handed v \/
  exists s c, a = AHand (v_session v) /\ store st !! v_session v = Some s /\ s_loop s = Handing c /\ v_handed v' = (v_handed v ++ [c])%list.
Proof.
  intros Hok H Hv Hv'. destruct (apply_viewers _ _ _ H) as [E|[(i & u & Hn & E)|[(i & b & -> & Hb)|(x & s & c & u & -> & Hx & Hl & Hu & _ & E)]]].
  - left. rewrite E in Hv'. congruence.
  - left. rewrite E, lookup_insert_ne in Hv' by congruence. congruence.
  - destruct (view_keeps _ _ _ _ Hb) as (u & u' & Hu & E & _ & Eh & _). left. rewrite E in Hv'.
    apply lookup_insert_Some in Hv' as [[-> ->]|[_ Hv']]; congruence.
  - rewrite E in Hv'. apply lookup_insert_Some in Hv' as [[Ei Ev]|[_ Hv']]; [|left; congruence]. right.
    destruct (ok_loop _ Hok _ _ _ Hx Hl) as (w & Hw & Es). rewrite Ei in Hu, Hw. simplify_eq. by exists s, c.
Qed.

(** C34. What was read from a subscription, and what waits in its output, is the data of the chunks
    that were handed to it, in order, from the first on and without gaps, and of none after the
    end of the stream; all of them carry its identifier, no channel holds more than its capacity,
    and only the loop of the session it subscribed to ever hands it a chunk, the one it has just
    received. *)
Theorem stream_in_order st id v :
  reachable registered trusted answers st -> viewers st !! id = Some v ->
  (exists passed rest, v_handed v = (passed ++ rest)%list /\ (v_seen v ++ v_output v)%list = map ch_data passed /\
     Forall (fun c => ch_eof c = false) passed) /\
  Forall (fun c => ch_stream c = id) (v_handed v) /\ length (v_chunks v) <= capacity /\ length (v_output v) <= capacity /\
  forall a st' v', step registered trusted answers a st st' -> viewers st' !! id = Some v' ->
    v_handed v' = v_handed v \/
    exists s c, a = AHand (v_session v) /\ store st !! v_session v = Some s /\ s_loop s = Handing c /\ v_handed v' = (v_handed v ++ [c])%list.
Proof.
  intros Hr Hv. pose proof (reachable_streams _ Hr) as Hok. destruct (ok_viewer _ Hok _ _ Hv) as (Hf & Hc & Ho & p & r & E & Em & Ee & _).
  split_and!; try done; [by exists p, r|]. intros a st' v' [_ Ha] Hv'. by eapply handed_by.
Qed.

(** ** Abandoned streams *)

(** The loop of [x] waits for room in the channel of a viewer that reads no more. *)
Definition blocked (server : string) (x : sid) (st : state) : Prop :=
  exists s c v, sessions st !! server = Some x /\ store st !! x = Some s /\ s_server s = server /\ s_done s = false /\ s_loop s = Handing c /\
    viewers st !! ch_stream c = Some v /\ gone (v_state v) = true /\ capacity <= length (v_chunks v).

(** Nobody disconnects or connects the server. *)
Definition leaves (server : string) (a : action) : bool :=
  match a with
  | AConnect (Some h) _ _ _ => negb (String.eqb (h_server h) server)
  | ADisconnect server' => negb (String.eqb server' server)
  | _ => true
  end.

(** A session whose loop, end and server are as before. *)
Definition keeps (x : sid) (s : session) (st : state) : Prop :=
  exists s', store st !! x = Some s' /\ s_server s' = s_server s /\ s_done s' = s_done s /\ s_loop s' = s_loop s.

Lemma keeps_same x s st : store st !! x = Some s -> keeps x s st.
Proof. by exists s. Qed.

Lemma keeps_other x s y u st : store st !! x = Some s -> y <> x -> keeps x s (set_session y u st).
Proof. intros Hx Hne. apply keeps_same. cbn. by rewrite lookup_insert_ne. Qed.

Lemma keeps_live x s y u send pending streams sending st :
  store st !! x = Some s -> store st !! y = Some u ->
  keeps x s (set_session y (with_live (s_done u) send pending streams (s_loop u) sending u) st).
Proof.
  intros Hx Hy. destruct (decide (y = x)) as [->|Hne]; [|by apply keeps_other].
  assert (u = s) as -> by congruence. eexists. cbn [store set_session]. rewrite lookup_insert_eq. by repeat split.
Qed.

Lemma keeps_close err x s y st : store st !! x = Some s -> y <> x -> keeps x s (close err y st).
Proof.
  intros Hx Hne. unfold close. destruct (store st !! y) as [u|]; [|by apply keeps_same].
  destruct (s_done u); [by apply keeps_same|]. by apply (keeps_other x s y).
Qed.

Lemma sessions_close err y st : sessions (close err y st) = sessions st.
Proof. unfold close. destruct (store st !! y) as [s|]; [|done]. by destruct (s_done s). Qed.

(** The session of a waiting loop stays as it is, unless its server connects or is disconnected. *)
Lemma waiting_kept a st st' server x s c v :
  invariant registered trusted answers st -> apply a st = Some st' -> leaves server a = true ->
  sessions st !! server = Some x -> store st !! x = Some s -> s_server s = server -> s_done s = false -> s_loop s = Handing c ->
  viewers st !! ch_stream c = Some v -> capacity <= length (v_chunks v) ->
  sessions st' !! server = Some x /\ keeps x s st'.
Proof.
  intros Hi H Hlv Hm Hx Es Hd Hl Hv Hfull. pose proof (keeps_same _ _ _ Hx) as Hk.
  destruct a; cbn [apply] in H.
  - destruct (store st !! x0) eqn:Hx0; [done|]. destruct (authenticate hello peer verified) as [[h f]|] eqn:Ha; [|by simplify_eq].
    destruct (register f h x0 st) eqn:Hr; [|by simplify_eq]. simplify_eq.
    unfold authenticate in Ha. branch Ha. simplify_eq. cbn in Hlv. apply negb_true_iff, String.eqb_neq in Hlv.
    unfold register in Hr. destruct (negb (h_protocol h =? 1)%Z); [done|]. destruct (negb (String.eqb (h_api h) "") && _); [done|]. simplify_eq.
    split; [cbn; by rewrite lookup_insert_ne|].
    destruct (sessions st !! h_server h) as [y|] eqn:Hy; [|apply (keeps_other x s x0); congruence].
    destruct (inv_map _ _ _ _ Hi _ _ Hy) as (u & Hu & Eu).
    destruct (keeps_close ErrConnectionClosed x s y st Hx) as (s' & Hs' & ? & ? & ?); [intros ->; congruence|].
    exists s'. split_and!; try done. cbn. rewrite lookup_insert_ne; congruence.
  - unfold receive, resolve in H. branch H; simplify_eq; try done.
    split; [done|]. apply keeps_other; [done|]. intros ->. congruence.
  - unfold hand_chunk in H. branch H. simplify_eq. split; [done|]. apply (keeps_other x s); [done|]. intros ->. simplify_eq.
    rename select ((_ <? _)%nat = true) into Hlt. apply Nat.ltb_lt in Hlt. rewrite Hl in *. simplify_eq. lia.
  - branch H. simplify_eq. split; [done|]. apply keeps_other; [done|]. intros ->. congruence.
  - branch H. simplify_eq. rename select session into u. rename select (store st !! _ = Some u) into Hu.
    assert (x0 <> x) as Hne by (intros ->; congruence).
    unfold forget. cbn. rewrite lookup_insert_eq. case_bool_decide as Hb; (split; [|by apply (keeps_other x s x0)]); [|done].
    cbn. rewrite lookup_delete_ne; [done|]. cbn in Hb. intros E. rewrite E in Hb. congruence.
  - simplify_eq. cbn in Hlv. apply negb_true_iff, String.eqb_neq in Hlv. split; [|done]. cbn. by rewrite lookup_delete_ne.
  - branch H. simplify_eq. rename select (bool_decide _ = false) into Hb. apply bool_decide_eq_false in Hb.
    split; [by rewrite sessions_close|]. apply keeps_close; [done|]. intros ->. simplify_eq.
  - branch H. simplify_eq. split; [done|]. by apply (keeps_live x s).
  - branch H; simplify_eq; (split; [done|]); by apply (keeps_live x s).
  - branch H. by simplify_eq.
  - branch H. by simplify_eq.
  - unfold dispatch_step, advance in H. branch H; simplify_eq; try done; (split; [done|]); by apply (keeps_live x s).
  - branch H; by simplify_eq.
  - unfold view_step in H. branch H; simplify_eq; try done; (split; [done|]); by apply (keeps_live x s).
Qed.

Lemma blocked_step a st st' server x :
  invariant registered trusted answers st -> apply a st = Some st' -> leaves server a = true -> blocked server x st -> blocked server x st'.
Proof.
  intros Hi H Hlv (s & c & v & Hm & Hx & Es & Hd & Hl & Hv & Hg & Hfull).
  destruct (waiting_kept _ _ _ _ _ _ _ _ Hi H Hlv Hm Hx Es Hd Hl Hv Hfull) as (Hm' & s' & Hx' & Es' & Hd' & Hl').
  assert (exists v', viewers st' !! ch_stream c = Some v' /\ gone (v_state v') = true /\ capacity <= length (v_chunks v')) as (v' & ? & ? & ?).
  { destruct (apply_viewers _ _ _ H) as [E|[(i & u & Hn & E)|[(i & b & -> & Hb)|(y & u & c' & w & -> & _ & _ & Hw & Hlt & E)]]]; rewrite ?E.
    - by exists v.
    - exists v. by rewrite lookup_insert_ne by congruence.
    - destruct (view_keeps _ _ _ _ Hb) as (u & u' & Hu & -> & _ & _ & Hk).
      destruct (decide (i = ch_stream c)) as [->|Hne]; [rewrite lookup_insert_eq|rewrite lookup_insert_ne by done; by exists v].
      simplify_eq. destruct (Hk Hg) as [? E]. exists u'. by rewrite E.
    - exists v. rewrite lookup_insert_ne; [done|]. intros E'. rewrite E' in Hw. simplify_eq. lia. }
  exists s', c, v'. by rewrite Es', Hd', Hl'.
Qed.

(** C35. A viewer that leaves while the receiving loop waits for room in its channel blocks the loop:
    whatever then happens, as long as the server is neither disconnected nor connects anew, the
    server counts as online, no message of its Agent is received, and Connect does not return,
    although the heartbeats of the Agent are due every 45 seconds. *)
Theorem abandoned_stream_blocks st l st' server x :
  reachable registered trusted answers st -> blocked server x st ->
  steps registered trusted answers l st st' -> Forall (fun a => leaves server a = true) l ->
  IsOnline server st' = true /\ (forall m, apply (AReceive x m) st' = None) /\ apply (AStop x) st' = None.
Proof.
  intros Hr Hb Hs. induction Hs as [st|a l st st1 st2 Ha Hs IH]; intros Hf.
  - destruct Hb as (s & c & v & Hm & Hx & _ & _ & Hl & _). unfold IsOnline. rewrite Hm.
    split; [done|]. cbn. unfold receive. rewrite Hx. cbn. by rewrite Hl.
  - inversion_clear Hf. apply IH; [by eapply reachable_step| |done].
    eapply blocked_step; [by eapply reachable_invariant|exact (proj2 Ha)|done|done].
Qed.
End manager.

(** ** An example *)

Module Slow.
Import Example.
#[local] Instance unicode : Unicode := unicode_ascii.

Definition chunk (n : nat) : StreamChunk := {| ch_stream := 7; ch_sequence := Z.of_nat n; ch_data := "line"; ch_eof := false |}.
Definition open : list action :=
  [AConnect (Some hello) (Some "ab12") (Ok true) 0; ASubscribe 7 "web" "service.logs" "{}"; AView 7 AddStream; AView 7 SendSubscription;
   AReceive 0 (MChunk (chunk 1)); AHand 0; AView 7 TakeChunk; AView 7 Emit; AReceive 0 (MChunk (chunk 2)); AHand 0; AView 7 Read].
Definition viewing : state := default init (run open init).

(** A reader that takes nothing more: the channel fills up, another chunk comes, the reader leaves. *)
Definition fill (n : nat) : list action := concat (replicate n [AReceive 0 (MChunk (chunk 3)); AHand 0]).
Definition abandon : list action :=
  (fill 63 ++ [AReceive 0 (MChunk (chunk 4)); AView 7 (Expire ContextCanceled); AView 7 StopViewing; AView 7 RemoveStream; AView 7 SendCancel])%list.
Definition abandoned : state := default init (run abandon viewing).

Ltac quiet := repeat (apply Forall_cons_2; [by intros|]); apply Forall_nil_2.

Lemma viewing_reachable : reachable everywhere all empties viewing.
Proof.
  eapply steps_reachable; [|apply reachable_init]. apply (run_steps _ _ _ open); [quiet|vm_compute; reflexivity].
Qed.

Lemma abandoned_reachable : reachable everywhere all empties abandoned.
Proof.
  eapply steps_reachable; [|exact viewing_reachable]. apply (run_steps _ _ _ abandon); [cbn; quiet|vm_compute; reflexivity].
Qed.

Definition reader : viewer :=
  {| v_kind := "service.logs"; v_payload := "{}"; v_session := 0; v_expired := None; v_state := VReading; v_chunks := [chunk 2]; v_output := [];
     v_seen := ["line"]; v_handed := [chunk 1; chunk 2] |}.

Lemma stream_in_order_witness :
  exists passed rest, v_handed reader = (passed ++ rest)%list /\ (v_seen reader ++ v_output reader)%list = map ch_data passed /\
    Forall (fun c => ch_eof c = false) passed.
Proof.
  apply (stream_in_order everywhere all empties viewing 7 reader); [exact viewing_reachable|vm_compute; reflexivity].
Defined.

Definition later : list action := [ACall 0 "web" "service.start" "{}" None; ADispatch 0 Lookup; ADispatch 0 (Pend 0); ADispatch 0 (SendCommand 0); ADeliver 0].
Definition stuck : state := default init (run later abandoned).

Lemma abandoned_stream_blocks_witness :
  IsOnline "web" stuck = true /\ (forall m, apply (AReceive 0 m) stuck = None) /\ apply (AStop 0) stuck = None.
Proof.
  apply (abandoned_stream_blocks everywhere all empties abandoned later stuck "web" 0).
  - exact abandoned_reachable.
  - eexists _, (chunk 4), _. split_and!; vm_compute; first [reflexivity | lia].
  - apply run_steps; [quiet|vm_compute; reflexivity].
  - repeat (apply Forall_cons_2; [reflexivity|]). apply Forall_nil_2.
Defined.
End Slow.
