(* ===== verification/Http.v ===== *)
(** * Requests, middleware and the handlers of accounts

    internal/core/server/middleware, internal/core/servercontext and
    internal/core/auth/handler.go.  A middleware is a function from the handler behind it to a
    handler; what a handler returns is a parameter, so that the same definitions serve to say
    what a request reaches and what is then done. *)

From S2P Require Import Prelude GoStrings GoStrconv GoJson GoStruct AppErrors Effects Auth.
Local Open Scope string_scope.
Local Open Scope go_scope.

(** ** Requests *)

(** A request: [Header] and [Query] are the [Get] methods of its headers and of its query. *)
Record request := {
  Method : string; Path : string; Header : string -> string; Query : string -> string; RemoteAddr : string; Body : string }.

Definition with_body (b : string) (r : request) : request :=
  {| Method := Method r; Path := Path r; Header := Header r; Query := Query r; RemoteAddr := RemoteAddr r; Body := b |}.

(** source: internal/core/auth/handler.go:218-222 (Principal) *)
Record Principal := { p_ID : string; p_Username : string; p_Role : Role }.

(** The values a request carries in its context. *)
Record context := { ctx_principal : option Principal; ctx_server : option string }.

Definition background : context := {| ctx_principal := None; ctx_server := None |}.

(** source: internal/core/auth/handler.go:225-227 (WithPrincipal) *)
Definition WithPrincipal (c : context) (p : Principal) : context := {| ctx_principal := Some p; ctx_server := ctx_server c |}.
(** source: internal/core/auth/handler.go:231-236 (PrincipalFromContext) *)
Definition PrincipalFromContext (c : context) : option Principal := ctx_principal c.

(** The last occurrence of a byte: what is before and after it. *)
Fixpoint cut_last (sep : ascii) (s : string) : option (string * string) :=
  match s with
  | EmptyString => None
  | String c s' =>
      match cut_last sep s' with
      | Some (a, b) => Some (String c a, b)
      | None => if Ascii.eqb c sep then Some ("", s') else None
      end
  end.

(** [net.SplitHostPort], the host: the port is after the last colon; a host in brackets ends before
    it, and one without brackets has no colon; no other bracket is left. *)
Definition split_host_port (hostport : string) : option string :=
  '(front, port) ← cut_last ":" hostport;
  match hostport with
  | String "[" inner =>
      match cut "]" inner with
      | (host, Some after) =>
          if (String.length after =? S (String.length port))%nat && negb (contains_byte inner "[") && negb (contains_byte after "]")
          then Some host else None
      | _ => None
      end
  | _ => if contains_byte front ":" || contains_byte hostport "[" || contains_byte hostport "]" then None else Some front
  end.

(** source: internal/core/auth/handler.go:266-272 (realIP) *)
Definition realIP (r : request) : string := match split_host_port (RemoteAddr r) with Some host => host | None => RemoteAddr r end.
(** source: internal/core/server/middleware/ratelimit.go:140-146 (clientIP) *)
Definition clientIP (r : request) : string := match split_host_port (RemoteAddr r) with Some host => host | None => RemoteAddr r end.

(** ** Middleware *)

Section middleware.
Context `{HUnicode : Unicode} `{HLibs : AuthLibs}.

(** [ParseWithClaims] of the JWT library with the secret and options of the source: the claims of
    a token, if they have the expected type, and whether it is valid. *)
Variable ParseWithClaims : string -> result string (option Claims * bool).

(** source: internal/core/auth/jwt.go:56-78 (Validate) *)
Definition Validate (tokenStr : string) : result error Claims :=
  match ParseWithClaims tokenStr with
  | Err e => Err (Wrapped "jwt: validate" (Plain e))
  | Ok (Some claims, true) => Ok claims
  | Ok _ => Err (Plain "jwt: invalid token claims")
  end.

(** source: internal/core/server/middleware/auth.go:60-70 (extractBearerToken) *)
Definition extractBearerToken (r : request) : string :=
  let header := Header r "Authorization" in
  if String.eqb header "" then ""
  else match cut " " header with
       | (scheme, Some rest) => if equal_fold scheme "bearer" then trim_space rest else ""
       | _ => ""
       end.

Context {R : Type}.
Variable writeError : error -> R.
Notation handler := (request -> context -> R).

(** source: internal/core/server/middleware/auth.go:14-38 (Auth) *)
Definition AuthMiddleware (next : handler) : handler := fun r ctx =>
  let tokenStr := extractBearerToken r in
  if String.eqb tokenStr "" then writeError (Unauthorized "missing or malformed Authorization header")
  else match Validate tokenStr with
       | Err _ => writeError (App (New 401 CodeTokenInvalid "invalid or expired token"))
       | Ok claims => next r (WithPrincipal ctx {| p_ID := c_UserID claims; p_Username := c_Username claims; p_Role := c_Role claims |})
       end.

(** source: internal/core/server/middleware/auth.go:42-57 (RequirePermission) *)
Definition RequirePermission (perm : Permission) (next : handler) : handler := fun r ctx =>
  match PrincipalFromContext ctx with
  | None => writeError (Unauthorized "not authenticated")
  | Some principal => if negb (HasPermission (p_Role principal) perm) then writeError (Forbidden "insufficient permissions") else next r ctx
  end.

Definition LocalID : string := "local".

(** source: internal/core/servercontext/context.go:75-80 (WithID) *)
Definition WithID (ctx : context) (serverID : string) : context :=
  {| ctx_principal := ctx_principal ctx; ctx_server := Some (if String.eqb (trim_space serverID) "" then LocalID else serverID) |}.

(** source: internal/core/servercontext/context.go:68-73 (ID) *)
Definition ServerID (ctx : context) : string :=
  match ctx_server ctx with Some value => if String.eqb value "" then LocalID else value | None => LocalID end.

(** source: internal/core/servercontext/context.go:82-84 (IsLocal) *)
Definition IsLocal (ctx : context) : bool := String.eqb (ServerID ctx) LocalID.

(** source: internal/core/servercontext/context.go:17-27 (Middleware) *)
Definition ServerMiddleware (next : handler) : handler := fun r ctx =>
  let serverID := trim_space (Header r "X-Server-ID") in
  next r {| ctx_principal := ctx_principal ctx; ctx_server := Some (if String.eqb serverID "" then LocalID else serverID) |}.

(** source: internal/core/servercontext/context.go:54-66 (remotePathAvailable) *)
Definition remotePathAvailable (r : request) : bool :=
  let path := trim_prefix (Path r) "/api/v1" in
  has_prefix path "/servers" || has_prefix path "/auth"
  || (String.eqb (Method r) "GET" && String.eqb path "/dashboard")
  || has_prefix path "/system/processes" || has_prefix path "/services" || has_prefix path "/modules/firewall"
  || has_prefix path "/modules/cron".

(** source: internal/core/servercontext/context.go:31-52 (RequireMigratedCapability) *)
Definition RequireMigratedCapability (next : handler) : handler := fun r ctx =>
  if IsLocal ctx || remotePathAvailable r then next r ctx
  else writeError (App (WithContext
    (mkAppError 501 CodeCapabilityUnavailable "this capability is not available through the remote control plane yet" None
       "The selected remote server cannot safely execute this HTTP route."
       "Select Localhost or use a route explicitly supported by the remote Agent." ∅)
    (list_to_map [("server_id", ServerID ctx); ("method", Method r); ("path", Path r); ("transport", "control_plane")]))).

(** source: internal/core/server/server.go:327-336 (limitRequestBody): what follows the limit
    cannot be read *)
Definition limitRequestBody (limit : Z) (next : handler) : handler := fun r ctx =>
  next (if has_prefix (Path r) "/api/" && (limit <? len (Body r))%Z then with_body (take_bytes (Z.to_nat limit) (Body r)) r else r) ctx.

(** source: internal/core/server/server.go:341-348 (csrfExemptRequest) *)
Definition csrfExemptRequest (r : request) : bool :=
  existsb (String.eqb (Path r)) ["/api/v1/auth/login"; "/api/v1/auth/refresh"; "/api/v1/agents/register"; "/api/v1/agents/heartbeat"]
  || has_prefix (to_lower (trim_space (Header r "Authorization"))) "bearer ".

(** source: internal/core/server/middleware/ratelimit.go:116-123 (clientKey) *)
Definition clientKey (r : request) (ip : string) : string :=
  let authorization := trim_space (Header r "Authorization") in
  if (7 <? String.length authorization)%nat && equal_fold (take_bytes 7 authorization) "Bearer "
  then "session:" ++ sha256Hex (trim_space (drop_bytes 7 authorization))
  else "ip:" ++ ip.

(** source: internal/core/server/middleware/ratelimit.go:34-50 (RateLimit): whether the buckets of
    an address and of a client have a token is given *)
Definition RateLimit (ip_allowed client_allowed : string -> bool) (next : handler) : handler := fun r ctx =>
  let ip := clientIP r in
  let key := clientKey r ip in
  if negb (ip_allowed ip) || negb (client_allowed key)
  then writeError (App (New 429 CodeRateLimited "rate limit exceeded, please slow down"))
  else next r ctx.

(** source: internal/core/server/server.go:151-163 (buildRouter, the CSRF wrapper): the check of
    the library, which gets whether it is to be skipped and whether the request came without TLS *)
Definition csrfMiddleware (secure : bool) (check : bool -> bool -> request -> bool) (next : handler) : handler := fun r ctx =>
  if check (csrfExemptRequest r) (negb secure) r then next r ctx else writeError (Forbidden "CSRF token invalid or missing").
End middleware.

(** ** The handlers of accounts *)

Inductive payload :=
| PNone
| PMessage (text : string)
| PError (code : ErrorCode) (message : string)
| PPair (pair : TokenPair)
| PUser (user : User)
| PPage (page : UserPage)
| PAudit (entries : list string).

Record reply := { reply_status : Z; reply_payload : payload }.

(** source: internal/core/auth/handler.go:241-249 (respond), before the encoding *)
Definition respond (status : Z) (data : payload) : reply := {| reply_status := status; reply_payload := data |}.

(** source: internal/core/auth/handler.go:252-262 (respondError) *)
Definition respondError (err : error) : reply :=
  let ae := AsAppError err in {| reply_status := HTTPStatus ae; reply_payload := PError (Code ae) (Message ae) |}.

(** source: internal/core/server/middleware/ratelimit.go:152-168 (Recover): the answer after a panic *)
Definition recovered : reply := respondError (App (mkAppError 500 CodeInternal "an unexpected error occurred" None "an unexpected error occurred"
  (recommendation 500) ∅)).

(** The value [strconv.Atoi] returns beside an error: none for a number that is not one, the nearest
    one for a number out of range. *)
Definition atoi_value (s : string) : Z :=
  let '(neg, s) := take_sign s in
  let '(d, r) := digit_prefix s in
  if String.eqb d "" || negb (String.eqb r "") then 0
  else Z.max (- 2 ^ 63) (Z.min int_max (if neg then - digits_val 0 d else digits_val 0 d)).

(** source: internal/core/auth/handler.go:31-34 (loginRequest) *)
Record loginRequest := { lr_Username : string; lr_Password : string }.
Definition login_fields : fields_of loginRequest :=
  [("username", set_string (fun s r => {| lr_Username := s; lr_Password := lr_Password r |}));
   ("password", set_string (fun s r => {| lr_Username := lr_Username r; lr_Password := s |}))].

(** source: internal/core/auth/handler.go:36-38 (refreshRequest) *)
Definition refresh_fields : fields_of string := [("refresh_token", set_string (fun s _ => s))].
(** source: internal/core/auth/handler.go:40-42 (passwordRequest) *)
Definition password_fields : fields_of string := [("password", set_string (fun s _ => s))].

Definition create_fields : fields_of CreateUserInput :=
  [("username", set_string (fun s r => {| ci_Username := s; ci_Email := ci_Email r; ci_Password := ci_Password r; ci_Role := ci_Role r |}));
   ("email", set_string (fun s r => {| ci_Username := ci_Username r; ci_Email := s; ci_Password := ci_Password r; ci_Role := ci_Role r |}));
   ("password", set_string (fun s r => {| ci_Username := ci_Username r; ci_Email := ci_Email r; ci_Password := s; ci_Role := ci_Role r |}));
   ("role", set_string (fun s r => {| ci_Username := ci_Username r; ci_Email := ci_Email r; ci_Password := ci_Password r; ci_Role := s |}))].

Definition update_fields : fields_of UpdateUserInput :=
  [("username", set_string (fun s r => {| ui_Username := s; ui_Email := ui_Email r; ui_Role := ui_Role r |}));
   ("email", set_string (fun s r => {| ui_Username := ui_Username r; ui_Email := s; ui_Role := ui_Role r |}));
   ("role", set_string (fun s r => {| ui_Username := ui_Username r; ui_Email := ui_Email r; ui_Role := s |}))].

Section handlers.
Context `{HUnicode : Unicode} `{HLibs : AuthLibs} (svc : Service).

(** The body of a request as a structure, and what is done with it. *)
Definition decoding {A} (fs : fields_of A) (zero : A) (r : request) (k : A -> prog auth_call reply) : prog auth_call reply :=
  match decode_first false fs zero (Body r) with
  | None => Ret (respondError (InvalidInput "malformed JSON body"))
  | Some a => k a
  end.

(** The reply to what a service returned. *)
Definition answering {A} (ok : A -> reply) (p : prog auth_call (result error A)) : prog auth_call reply :=
  let! out := p in Ret (match out with Ok a => ok a | Err e => respondError e end).

(** The identifier of the principal of a request; without one the handler panics. *)
Definition acting (ctx : context) (k : string -> prog auth_call reply) : prog auth_call reply :=
  match PrincipalFromContext ctx with Some p => k (p_ID p) | None => Ret recovered end.

(** source: internal/core/auth/handler.go:47-68 (Login) *)
Definition HandleLogin (r : request) : prog auth_call reply :=
  decoding login_fields {| lr_Username := ""; lr_Password := "" |} r (fun req =>
    if String.eqb (lr_Username req) "" || String.eqb (lr_Password req) ""
    then Ret (respondError (InvalidInput "username and password are required"))
    else answering (fun pair => respond 200 (PPair pair))
           (Login svc (lr_Username req) (lr_Password req) (realIP r) (Header r "User-Agent"))).

(** source: internal/core/auth/handler.go:71-84 (Logout) *)
Definition HandleLogout (ctx : context) : prog auth_call reply :=
  match PrincipalFromContext ctx with
  | None => Ret (respondError (Unauthorized "not authenticated"))
  | Some p => answering (fun _ => respond 200 (PMessage "logged out")) (Logout (p_ID p))
  end.

(** source: internal/core/auth/handler.go:87-105 (Refresh) *)
Definition HandleRefresh (r : request) : prog auth_call reply :=
  decoding refresh_fields "" r (fun token =>
    if String.eqb token "" then Ret (respondError (InvalidInput "refresh_token is required"))
    else answering (fun pair => respond 200 (PPair pair)) (Refresh svc token (realIP r) (Header r "User-Agent"))).

(** source: internal/core/auth/handler.go:108-122 (Me) *)
Definition HandleMe (ctx : context) : prog auth_call reply :=
  match PrincipalFromContext ctx with
  | None => Ret (respondError (Unauthorized "not authenticated"))
  | Some p => answering (fun user => respond 200 (PUser user)) (GetUser (p_ID p))
  end.

(** source: internal/core/auth/handler.go:126-129 (CSRFToken) *)
Definition HandleCSRFToken : prog auth_call reply := Ret (respond 204 PNone).

(** source: internal/core/auth/handler.go:131-143 (ListUsers) *)
Definition HandleListUsers (r : request) : prog auth_call reply :=
  answering (fun page => respond 200 (PPage page))
    (ListUsers {| f_Query := Query r "q"; f_Role := Query r "role"; f_Status := Query r "status";
                  f_Limit := atoi_value (Query r "limit"); f_Offset := atoi_value (Query r "offset") |}).

(** source: internal/core/auth/handler.go:145-157 (CreateUser) *)
Definition HandleCreateUser (r : request) (ctx : context) : prog auth_call reply :=
  decoding create_fields {| ci_Username := ""; ci_Email := ""; ci_Password := ""; ci_Role := "" |} r (fun input =>
    acting ctx (fun actor => answering (fun user => respond 201 (PUser user)) (CreateUser svc actor input))).

(** source: internal/core/auth/handler.go:159-171 (UpdateUser) *)
Definition HandleUpdateUser (r : request) (ctx : context) (id : string) : prog auth_call reply :=
  decoding update_fields {| ui_Username := ""; ui_Email := ""; ui_Role := "" |} r (fun input =>
    acting ctx (fun actor => answering (fun user => respond 200 (PUser user)) (UpdateUser svc actor id input))).

(** source: internal/core/auth/handler.go:173-184 (ChangeUserPassword) *)
Definition HandleChangeUserPassword (r : request) (ctx : context) (id : string) : prog auth_call reply :=
  decoding password_fields "" r (fun password =>
    acting ctx (fun actor => answering (fun _ => respond 200 (PMessage "password changed")) (SetPassword svc actor id password))).

(** source: internal/core/auth/handler.go:186-194 (SetUserActive) *)
Definition HandleSetUserActive (ctx : context) (id action : string) : prog auth_call reply :=
  acting ctx (fun actor => answering (fun user => respond 200 (PUser user)) (SetUserActive svc actor id (String.eqb action "unblock"))).

(** source: internal/core/auth/handler.go:196-202 (DeleteUser) *)
Definition HandleDeleteUser (ctx : context) (id : string) : prog auth_call reply :=
  acting ctx (fun actor => answering (fun _ => respond 204 PNone) (DeleteUser svc actor id)).

(** source: internal/core/auth/handler.go:204-213 (UserAudit) *)
Definition HandleUserAudit (r : request) (id : string) : prog auth_call reply :=
  answering (fun entries => respond 200 (PAudit entries)) (UserAudit id (atoi_value (Query r "limit")) (atoi_value (Query r "offset"))).
End handlers.
