(* ===== verification/Router.v ===== *)
(** * The router of the Core

    internal/core/server/server.go: the routes, who may use them, and the way of a request through
    the middleware to a handler.  How chi finds the route of a request is a parameter. *)

From S2P Require Import Prelude GoStrings GoStrconv GoJson GoStruct AppErrors Effects Auth Http.
Local Open Scope string_scope.
Local Open Scope go_scope.

(** ** Routes *)

(** The handlers of internal/core/auth. *)
Inductive auth_endpoint :=
| ACSRFToken | ALogin | ARefresh | ALogout | AMe | AListUsers | ACreateUser | AUpdateUser | AChangeUserPassword | AUserAudit
| ASetUserActive | ADeleteUser.

(** A handler: one of accounts, another one of the Core, or one of a module. *)
Inductive endpoint :=
| AuthEndpoint (a : auth_endpoint)
| Other (name : string)
| Custom (module_ name : string).

(** Who may use a route: anyone, or who has a valid token and, if one is named, a permission. *)
Inductive guard := Public | Signed (permission : option Permission).

Record route := { rt_method : string; rt_pattern : string; rt_guard : guard; rt_endpoint : endpoint }.

Definition public (method pattern : string) (e : endpoint) : route :=
  {| rt_method := method; rt_pattern := "/api/v1" ++ pattern; rt_guard := Public; rt_endpoint := e |}.
Definition signed (method pattern : string) (permission : option Permission) (e : endpoint) : route :=
  {| rt_method := method; rt_pattern := "/api/v1" ++ pattern; rt_guard := Signed permission; rt_endpoint := e |}.

(** source: internal/core/server/server.go:176-178 (buildRouter, public endpoints) *)
Definition public_routes : list route := [
  public "GET" "/auth/csrf" (AuthEndpoint ACSRFToken);
  public "POST" "/auth/login" (AuthEndpoint ALogin);
  public "POST" "/auth/refresh" (AuthEndpoint ARefresh)].

(** source: internal/core/server/server.go:180-182 (buildRouter, endpoints of Agents) *)
Definition agent_routes : list route := [
  public "POST" "/agents/register" (Other "RemoteHandler.Register");
  public "POST" "/agents/heartbeat" (Other "RemoteHandler.Heartbeat");
  public "GET" "/agents/control-plane" (Other "RemoteHandler.AgentConnectionProfile")].

(** source: internal/core/server/server.go:191-199 (buildRouter, accounts) *)
Definition account_routes : list route := [
  signed "POST" "/auth/logout" None (AuthEndpoint ALogout);
  signed "GET" "/auth/me" None (AuthEndpoint AMe);
  signed "GET" "/users" (Some PermUserManage) (AuthEndpoint AListUsers);
  signed "POST" "/users" (Some PermUserManage) (AuthEndpoint ACreateUser);
  signed "PUT" "/users/{id}" (Some PermUserManage) (AuthEndpoint AUpdateUser);
  signed "PUT" "/users/{id}/password" (Some PermUserManage) (AuthEndpoint AChangeUserPassword);
  signed "GET" "/users/{id}/audit" (Some PermUserManage) (AuthEndpoint AUserAudit);
  signed "POST" "/users/{id}/{action:block|unblock}" (Some PermUserManage) (AuthEndpoint ASetUserActive);
  signed "DELETE" "/users/{id}" (Some PermUserManage) (AuthEndpoint ADeleteUser)].

(** source: internal/core/server/server.go:203-231 (buildRouter, modules and tasks) *)
Definition module_routes : list route := [
  signed "GET" "/modules" (Some PermModuleView) (Other "ModuleHandler.List");
  signed "GET" "/modules/{id}" (Some PermModuleView) (Other "ModuleHandler.Get");
  signed "GET" "/modules/{id}/status" (Some PermModuleView) (Other "ModuleHandler.Status");
  signed "POST" "/modules/{id}/install" (Some PermModuleInstall) (Other "ModuleHandler.Install");
  signed "POST" "/modules/{id}/uninstall" (Some PermModuleUninstall) (Other "ModuleHandler.Uninstall");
  signed "POST" "/modules/{id}/enable" (Some PermModuleEnable) (Other "ModuleHandler.Enable");
  signed "POST" "/modules/{id}/disable" (Some PermModuleDisable) (Other "ModuleHandler.Disable");
  signed "POST" "/modules/{id}/restart" (Some PermModuleConfigure) (Other "ModuleHandler.Restart");
  signed "GET" "/modules/{id}/datagrid/{pageId}/schema" (Some PermModuleView) (Other "ModuleHandler.HandleGetDataGridSchema");
  signed "GET" "/modules/{id}/datagrid/{pageId}/data" (Some PermModuleView) (Other "ModuleHandler.HandleGetDataGridData");
  signed "POST" "/modules/{id}/datagrid/{pageId}/action/{actionId}" (Some PermModuleConfigure) (Other "ModuleHandler.HandleExecuteDataGridAction");
  signed "POST" "/modules/{id}/settings" (Some PermModuleConfigure) (Other "ModuleHandler.HandleSaveSettings");
  signed "GET" "/modules/{id}/presets" (Some PermModuleView) (Other "ModuleHandler.ProtectionPresets");
  signed "POST" "/modules/{id}/presets/{presetId}/preview" (Some PermModuleView) (Other "ModuleHandler.PreviewProtectionPreset");
  signed "PUT" "/modules/{id}/presets/{presetId}" (Some PermModuleConfigure) (Other "ModuleHandler.SaveProtectionPreset");
  signed "POST" "/modules/{id}/presets/{presetId}/reset" (Some PermModuleConfigure) (Other "ModuleHandler.ResetProtectionPreset");
  signed "POST" "/modules/{id}/presets/{presetId}/toggle" (Some PermModuleConfigure) (Other "ModuleHandler.ToggleProtectionPreset");
  signed "GET" "/modules/{id}/logs/{logId}/read" (Some PermModuleView) (Other "ModuleHandler.HandleReadLog");
  signed "POST" "/modules/{id}/logs/{logId}/clear" (Some PermModuleConfigure) (Other "ModuleHandler.HandleClearLog");
  signed "POST" "/modules/{id}/actions/{actionId}" (Some PermModuleConfigure) (Other "ModuleHandler.ExecuteAction");
  signed "GET" "/jobs/{id}" (Some PermModuleView) (Other "ModuleHandler.GetJob");
  signed "GET" "/tasks" (Some PermModuleView) (Other "ModuleHandler.ListJobs");
  signed "POST" "/tasks/{id}/cancel" (Some PermModuleConfigure) (Other "ModuleHandler.CancelJob");
  signed "POST" "/tasks/{id}/retry" (Some PermModuleConfigure) (Other "ModuleHandler.RetryJob");
  signed "DELETE" "/tasks/{id}" (Some PermModuleConfigure) (Other "ModuleHandler.DeleteJob")].

(** source: internal/core/server/server.go:248-254 (buildRouter, dashboard) *)
Definition dashboard_routes : list route := [
  signed "GET" "/dashboard" (Some PermDashboardView) (Other "DashboardHandler.Overview");
  signed "GET" "/dashboard/snapshots" (Some PermDashboardView) (Other "DashboardHandler.Snapshots");
  signed "POST" "/dashboard/ws-ticket" (Some PermDashboardView) (Other "DashboardHandler.IssueWebSocketTicket");
  signed "GET" "/system/processes" (Some PermDashboardView) (Other "DashboardHandler.ListProcesses");
  signed "POST" "/system/processes/{pid}/kill" (Some PermProcessManage) (Other "DashboardHandler.KillProcess")].

(** source: internal/core/server/server.go:259-271 (buildRouter, sites) *)
Definition site_routes : list route := [
  signed "GET" "/sites" (Some PermSiteView) (Other "SiteHandler.List");
  signed "POST" "/sites" (Some PermSiteCreate) (Other "SiteHandler.Create");
  signed "GET" "/sites/{id}" (Some PermSiteView) (Other "SiteHandler.Get");
  signed "PUT" "/sites/{id}" (Some PermSiteUpdate) (Other "SiteHandler.Update");
  signed "DELETE" "/sites/{id}" (Some PermSiteDelete) (Other "SiteHandler.Delete");
  signed "POST" "/sites/{id}/enable" (Some PermSiteUpdate) (Other "SiteHandler.Enable");
  signed "POST" "/sites/{id}/disable" (Some PermSiteUpdate) (Other "SiteHandler.Disable");
  signed "GET" "/sites/{id}/files" (Some PermSiteView) (Other "SiteHandler.ListFiles");
  signed "GET" "/sites/{id}/file" (Some PermSiteView) (Other "SiteHandler.ReadFile");
  signed "POST" "/sites/{id}/file" (Some PermSiteUpdate) (Other "SiteHandler.WriteFile");
  signed "DELETE" "/sites/{id}/file" (Some PermSiteUpdate) (Other "SiteHandler.DeleteFile");
  signed "POST" "/sites/{id}/directory" (Some PermSiteUpdate) (Other "SiteHandler.CreateDirectory");
  signed "POST" "/sites/{id}/files/batch" (Some PermSiteUpdate) (Other "SiteHandler.BatchOperations")].

(** source: internal/core/server/server.go:275-284 (buildRouter, servers) *)
Definition server_routes : list route := [
  signed "GET" "/servers" (Some PermServerView) (Other "RemoteHandler.List");
  signed "POST" "/servers" (Some PermServerManage) (Other "RemoteHandler.Create");
  signed "GET" "/servers/{id}" (Some PermServerView) (Other "RemoteHandler.Get");
  signed "GET" "/servers/{id}/capabilities" (Some PermServerView) (Other "RemoteHandler.Capabilities");
  signed "POST" "/servers/{id}/enrollment" (Some PermServerManage) (Other "RemoteHandler.ReissueEnrollment");
  signed "DELETE" "/servers/{id}" (Some PermServerManage) (Other "RemoteHandler.Delete");
  signed "POST" "/servers/{id}/actions/{action}" (Some PermServerManage) (Other "RemoteHandler.Action");
  signed "GET" "/servers/{id}/events" (Some PermServerView) (Other "RemoteHandler.Events");
  signed "GET" "/servers/{id}/heartbeats" (Some PermServerView) (Other "RemoteHandler.Heartbeats");
  signed "GET" "/servers/{id}/tasks" (Some PermServerView) (Other "RemoteHandler.Tasks")].

(** source: internal/core/server/server.go:289-296 (buildRouter, services) *)
Definition service_routes : list route := [
  signed "GET" "/services" (Some PermServiceView) (Other "ServiceHandler.List");
  signed "POST" "/services" (Some PermServiceManage) (Other "ServiceHandler.Add");
  signed "POST" "/services/{id}/start" (Some PermServiceManage) (Other "ServiceHandler.Start");
  signed "POST" "/services/{id}/stop" (Some PermServiceManage) (Other "ServiceHandler.Stop");
  signed "POST" "/services/{id}/restart" (Some PermServiceManage) (Other "ServiceHandler.Restart");
  signed "GET" "/services/{id}/logs" (Some PermServiceView) (Other "ServiceHandler.Logs");
  signed "GET" "/services/{id}/logs/stream" (Some PermServiceView) (Other "ServiceHandler.StreamLogs");
  signed "DELETE" "/services/{id}" (Some PermServiceManage) (Other "ServiceHandler.Remove")].

(** source: internal/core/server/server.go:301-310 (buildRouter, settings, updates and backups) *)
Definition settings_routes : list route := [
  signed "GET" "/settings" (Some PermSettingsView) (Other "SettingsHandler.List");
  signed "GET" "/settings/specs" (Some PermSettingsView) (Other "SettingsHandler.Specs");
  signed "PUT" "/settings" (Some PermSettingsUpdate) (Other "SettingsHandler.Update");
  signed "GET" "/updates" (Some PermSettingsView) (Other "SettingsHandler.UpdateStatus");
  signed "GET" "/updates/history" (Some PermSettingsView) (Other "SettingsHandler.UpdateHistory");
  signed "POST" "/updates/apply" (Some PermSettingsSecurity) (Other "SettingsHandler.ApplyUpdate");
  signed "POST" "/updates/rollback" (Some PermSettingsSecurity) (Other "SettingsHandler.RollbackUpdate");
  signed "GET" "/backups/history" (Some PermSettingsView) (Other "SettingsHandler.BackupHistory");
  signed "POST" "/backups" (Some PermSettingsSecurity) (Other "SettingsHandler.CreateBackup");
  signed "POST" "/backups/restore" (Some PermSettingsSecurity) (Other "SettingsHandler.RestoreBackup")].

(** source: internal/core/logs/handler.go:23-28 (Routes), mounted with the permission of line 315
    of server.go *)
Definition log_routes : list route := [
  signed "GET" "/logs/" (Some PermDashboardView) (Other "LogsHandler.SearchLogs");
  signed "GET" "/logs/{id}" (Some PermDashboardView) (Other "LogsHandler.GetLog")].

(** A route a module asks for: its method, pattern and handler. *)
Record module_route := { mr_method : string; mr_pattern : string; mr_name : string }.

(** source: internal/core/server/server.go:61-79 (chiRouterWrapper): reading needs [PermModuleView],
    everything else [PermModuleConfigure] *)
Definition wrap_route (id : string) (m : module_route) : route :=
  signed (mr_method m) ("/modules/" ++ id ++ mr_pattern m)
    (Some (if String.eqb (mr_method m) "GET" then PermModuleView else PermModuleConfigure)) (Custom id (mr_name m)).

(** source: internal/core/server/server.go:46-59 (Dependencies): which handlers there are, and the
    modules with the routes they register *)
Record Dependencies := {
  has_module : bool; has_dashboard : bool; has_site : bool; has_remote : bool; has_service : bool; has_settings : bool; has_logs : bool;
  registry : list (string * list module_route) }.

Definition when {A} (b : bool) (l : list A) : list A := if b then l else [].

(** source: internal/core/server/server.go:166-322 (buildRouter, the routes) *)
Definition routes (deps : Dependencies) : list route :=
  ([{| rt_method := "GET"; rt_pattern := "/health"; rt_guard := Public; rt_endpoint := Other "healthHandler" |}]
   ++ when (has_dashboard deps)
        [{| rt_method := "GET"; rt_pattern := "/api/v1/dashboard/ws"; rt_guard := Public; rt_endpoint := Other "DashboardHandler.WebSocket" |}]
   ++ public_routes ++ when (has_remote deps) agent_routes
   ++ account_routes ++ when (has_module deps) module_routes
   ++ concat (map (fun '(id, l) => map (wrap_route id) l) (registry deps))
   ++ when (has_dashboard deps) dashboard_routes ++ when (has_site deps) site_routes ++ when (has_remote deps) server_routes
   ++ when (has_service deps) service_routes ++ when (has_settings deps) settings_routes ++ when (has_logs deps) log_routes
   ++ [{| rt_method := "*"; rt_pattern := "/*"; rt_guard := Public; rt_endpoint := Other "webui.Handler" |}])%list.

(** ** Serving *)

(** What becomes of a request: an error, no route, or a handler with the values of the pattern, the
    request as it then is, and its context. *)
Inductive served :=
| Rejected (e : error)
| Unrouted
| Reached (rt : route) (params : string -> string) (r : request) (ctx : context).

Section serving.
Context `{HUnicode : Unicode} `{HLibs : AuthLibs}.
Variable ParseWithClaims : string -> result string (option Claims * bool).
Variable deps : Dependencies.

(** chi: the route of a method and a path, and the values of the pattern. *)
Variable find_route : list route -> string -> string -> option (route * (string -> string)).
(** The buckets of the rate limiter, if it is enabled, and the check of the CSRF library. *)
Variables (limiter : option ((string -> bool) * (string -> bool))) (secure : bool) (csrf_check : bool -> bool -> request -> bool).

(** source: internal/core/server/server.go:185-189 (buildRouter, the protected group) *)
Definition guarded (rt : route) (next : request -> context -> served) : request -> context -> served :=
  match rt_guard rt with
  | Public => next
  | Signed permission =>
      AuthMiddleware ParseWithClaims Rejected
        (ServerMiddleware
           (RequireMigratedCapability Rejected
              (match permission with Some p => RequirePermission Rejected p next | None => next end)))
  end.

Definition dispatch_route (r : request) (ctx : context) : served :=
  match find_route (routes deps) (Method r) (Path r) with
  | None => Unrouted
  | Some (rt, params) => guarded rt (fun r ctx => Reached rt params r ctx) r ctx
  end.

(** source: internal/core/server/server.go:115-164 (buildRouter, the middleware) *)
Definition serve (r : request) : served :=
  limitRequestBody (Z.shiftl 2 20)
    ((match limiter with Some (ip, client) => RateLimit Rejected ip client | None => fun next => next end)
       (csrfMiddleware Rejected secure csrf_check dispatch_route)) r background.

(** What the handlers of accounts do with a request. *)
Definition auth_handler (svc : Service) (a : auth_endpoint) (params : string -> string) (r : request) (ctx : context) : prog auth_call reply :=
  match a with
  | ACSRFToken => HandleCSRFToken
  | ALogin => HandleLogin svc r
  | ARefresh => HandleRefresh svc r
  | ALogout => HandleLogout ctx
  | AMe => HandleMe ctx
  | AListUsers => HandleListUsers r
  | ACreateUser => HandleCreateUser svc r ctx
  | AUpdateUser => HandleUpdateUser svc r ctx (params "id")
  | AChangeUserPassword => HandleChangeUserPassword svc r ctx (params "id")
  | AUserAudit => HandleUserAudit r (params "id")
  | ASetUserActive => HandleSetUserActive svc ctx (params "id") (params "action")
  | ADeleteUser => HandleDeleteUser svc ctx (params "id")
  end.
End serving.
