(* ===== verification/RouterSpec.v ===== *)
(** * Who may do what

    Every handler that is not public is reached only with a valid token of a role that has the
    permission of its route, a remote server is only selected where the route allows it, and
    accounts are changed by administrators only, who survive what they do. *)

From S2P Require Import Prelude GoStrings GoStrconv GoJson GoStruct AppErrors Effects Auth Http Router.
Local Open Scope string_scope.
Local Open Scope go_scope.

Section router.
Context `{HUnicode : Unicode} `{HLibs : AuthLibs}.
Variables (ParseWithClaims : string -> result string (option Claims * bool)) (deps : Dependencies)
          (find_route : list route -> string -> string -> option (route * (string -> string)))
          (limiter : option ((string -> bool) * (string -> bool))) (secure : bool) (csrf_check : bool -> bool -> request -> bool).

Notation serve := (serve ParseWithClaims deps find_route limiter secure csrf_check).
Notation Validate := (Validate ParseWithClaims).

(** chi answers with a route that was registered, for the method of the request. *)
Hypothesis routed : forall l method path rt params,
  find_route l method path = Some (rt, params) -> In rt l /\ (rt_method rt = method \/ rt_method rt = "*").

Definition principal_of (claims : Claims) : Principal :=
  {| p_ID := c_UserID claims; p_Username := c_Username claims; p_Role := c_Role claims |}.

(** The request is from someone with a valid token, whose role has the permission, for the Core's
    own host or on a path that may be used with a remote server. *)
Definition entitled (permission : option Permission) (r : request) (ctx : context) : Prop :=
  exists claims, extractBearerToken r <> "" /\ Validate (extractBearerToken r) = Ok claims /\ PrincipalFromContext ctx = Some (principal_of claims) /\
    (forall p, permission = Some p -> HasPermission (c_Role claims) p = true) /\
    (IsLocal ctx = true \/ remotePathAvailable r = true).

Lemma guarded_reached rt next r ctx rt' params r' ctx' :
  guarded ParseWithClaims rt next r ctx = Reached rt' params r' ctx' ->
  match rt_guard rt with
  | Public => next r ctx = Reached rt' params r' ctx'
  | Signed permission => exists ctx1, entitled permission r ctx1 /\ next r ctx1 = Reached rt' params r' ctx'
  end.
Proof.
  unfold guarded. destruct (rt_guard rt) as [|permission]; [done|]. unfold AuthMiddleware, ServerMiddleware, RequireMigratedCapability.
  destruct (String.eqb_spec (extractBearerToken r) "") as [|Hne]; [done|]. destruct (Validate _) as [claims|] eqn:Hv; [|done].
  set (ctx1 := {| ctx_principal := _ |}). destruct (IsLocal ctx1 || remotePathAvailable r) eqn:Hl; [|done]. apply orb_true_iff in Hl.
  destruct permission as [p|].
  - unfold RequirePermission. cbn [PrincipalFromContext ctx_principal ctx1 WithPrincipal p_Role].
    destruct (HasPermission (c_Role claims) p) eqn:Hp; [|done]. cbn [negb]. intros Hn. exists ctx1. split; [|done].
    exists claims. split_and!; try done. by intros ? [= <-].
  - intros Hn. exists ctx1. split; [|done]. by exists claims.
Qed.

(** The request as the handler sees it differs in its body only. *)
Definition same_request (r r' : request) : Prop := r' = r \/ exists b, r' = with_body b r.

Lemma limit_body limit (next : request -> context -> served) r ctx :
  exists r', same_request r r' /\ limitRequestBody limit next r ctx = next r' ctx.
Proof.
  unfold limitRequestBody. destruct (_ && _).
  - exists (with_body (take_bytes (Z.to_nat limit) (Body r)) r). split; [right; by eexists|reflexivity].
  - exists r. split; [by left|reflexivity].
Qed.

Lemma serve_reached r rt params r' ctx :
  serve r = Reached rt params r' ctx ->
  In rt (routes deps) /\ (rt_method rt = Method r \/ rt_method rt = "*") /\
  csrf_check (csrfExemptRequest r') (negb secure) r' = true /\ same_request r r' /\
  match rt_guard rt with Public => ctx = background | Signed permission => entitled permission r' ctx end.
Proof.
  unfold Router.serve. generalize (Z.shiftl 2 20). intros limit H.
  destruct (limit_body limit
    (match limiter with Some (ip, client) => RateLimit Rejected ip client | None => fun next => next end
       (csrfMiddleware Rejected secure csrf_check (dispatch_route ParseWithClaims deps find_route))) r background) as (r1 & Hr1 & E).
  rewrite E in H. clear E.
  assert (csrfMiddleware Rejected secure csrf_check (dispatch_route ParseWithClaims deps find_route) r1 background = Reached rt params r' ctx) as Hc.
  { destruct limiter as [[ip client]|]; [|done]. unfold RateLimit in H. by destruct (negb _ || negb _). }
  unfold csrfMiddleware in Hc. destruct (csrf_check _ _ _) eqn:Hk; [|done]. unfold dispatch_route in Hc.
  destruct (find_route _ _ _) as [[rt0 ps]|] eqn:Hf; [|done]. apply routed in Hf as [Hin Hm].
  assert (Method r1 = Method r) as Em by by destruct Hr1 as [->|[b ->]]. rewrite Em in Hm.
  apply guarded_reached in Hc. destruct (rt_guard rt0) as [|permission] eqn:Hg.
  - injection Hc as -> -> <- <-. by rewrite Hg.
  - destruct Hc as (ctx1 & He & [= -> -> <- <-]). by rewrite Hg.
Qed.

(** C29. A request reaches a handler only through a registered route of its method, after the CSRF
    check, and, unless the route is public, with a token that validates, whose role has the
    permission of the route and whose claims are the principal the handler sees, and with a remote
    server selected only on the paths open to one. *)
Theorem handlers_guarded r rt params r' ctx permission :
  serve r = Reached rt params r' ctx -> rt_guard rt = Signed permission ->
  In rt (routes deps) /\ csrf_check (csrfExemptRequest r') (negb secure) r' = true /\
  exists claims, Validate (extractBearerToken r) = Ok claims /\ PrincipalFromContext ctx = Some (principal_of claims) /\
    (forall p, permission = Some p -> HasPermission (c_Role claims) p = true) /\
    (ServerID ctx = LocalID \/ remotePathAvailable r = true).
Proof.
  intros H Hg. apply serve_reached in H as (Hin & _ & Hk & Hr & He). rewrite Hg in He. destruct He as (claims & _ & Hv & Hp & Hperm & Hl).
  split; [done|]. split; [done|]. exists claims.
  assert (extractBearerToken r' = extractBearerToken r /\ remotePathAvailable r' = remotePathAvailable r) as [E1 E2].
  { destruct Hr as [->|[b ->]]; done. }
  rewrite <- E1, <- E2. split_and!; try done. destruct Hl as [Hl|]; [left; by apply String.eqb_eq|by right].
Qed.

(** ** Roles *)

(** What only administrators may do. *)
Definition admin_only : list endpoint :=
  (map AuthEndpoint [AListUsers; ACreateUser; AUpdateUser; AChangeUserPassword; AUserAudit; ASetUserActive; ADeleteUser]
   ++ map Other ["ModuleHandler.Install"; "ModuleHandler.Uninstall"; "SettingsHandler.Update"; "SettingsHandler.ApplyUpdate";
                 "SettingsHandler.RollbackUpdate"; "SettingsHandler.CreateBackup"; "SettingsHandler.RestoreBackup"])%list.

(** What viewers may do beyond reading: a preview, a ticket for the live dashboard, logging out. *)
Definition viewer_writes : list endpoint :=
  [AuthEndpoint ALogout; Other "ModuleHandler.PreviewProtectionPreset"; Other "DashboardHandler.IssueWebSocketTicket"].

(** What needs no token. *)
Definition public_endpoints : list endpoint :=
  (map AuthEndpoint [ACSRFToken; ALogin; ARefresh]
   ++ map Other ["healthHandler"; "DashboardHandler.WebSocket"; "RemoteHandler.Register"; "RemoteHandler.Heartbeat";
                 "RemoteHandler.AgentConnectionProfile"; "webui.Handler"])%list.

#[local] Instance auth_endpoint_eq_dec : EqDecision auth_endpoint.
Proof. solve_decision. Defined.
#[local] Instance endpoint_eq_dec : EqDecision endpoint.
Proof. solve_decision. Defined.

Definition admin_permission (p : Permission) : bool := negb (HasPermission RoleOperator p) && negb (HasPermission RoleViewer p).

(** The rules a route keeps. *)
Definition disciplined (rt : route) : bool :=
  match rt_guard rt with
  | Public => bool_decide (rt_endpoint rt ∈ public_endpoints)
  | Signed None => bool_decide (rt_endpoint rt ∈ map AuthEndpoint [ALogout; AMe]) && (String.eqb (rt_method rt) "GET" || bool_decide (rt_endpoint rt = AuthEndpoint ALogout))
  | Signed (Some p) =>
      negb (bool_decide (rt_endpoint rt ∈ public_endpoints))
      && (negb (bool_decide (rt_endpoint rt ∈ admin_only)) || admin_permission p)
      && (String.eqb (rt_method rt) "GET" || negb (HasPermission RoleViewer p) || bool_decide (rt_endpoint rt ∈ viewer_writes))
  end.

Lemma routes_disciplined rt : In rt (routes deps) -> disciplined rt = true.
Proof.
  assert (forall b l, forallb disciplined l = true -> In rt (when b l) -> disciplined rt = true) as Hwhen.
  { intros [] l Hl; cbn; [|done]. by apply forallb_forall. }
  assert (forall l, forallb disciplined l = true -> In rt l -> disciplined rt = true) as Hall by (intros l Hl; by apply forallb_forall).
  unfold routes. rewrite !in_app_iff.
  intros [H|[H|[H|[H|[H|[H|[H|[H|[H|[H|[H|[H|[H|H]]]]]]]]]]]]];
    try (revert H; first [apply Hwhen | apply Hall]; vm_compute; reflexivity).
  apply in_concat in H as (l & Hl & Hrt). apply in_map_iff in Hl as ([id ms] & <- & _). apply in_map_iff in Hrt as (m & <- & _).
  unfold disciplined, wrap_route, signed. cbn [rt_guard rt_endpoint rt_method].
  rewrite !bool_decide_false by (intros Hin; apply list_elem_of_In in Hin; cbn in Hin; intuition discriminate).
  by destruct (String.eqb (mr_method m) "GET").
Qed.

Lemma role_cases role p : HasPermission role p = true -> role = RoleAdmin \/ role = RoleOperator \/ role = RoleViewer.
Proof.
  unfold HasPermission, rolePermissions. intros H%bool_decide_eq_true.
  destruct (String.eqb_spec role RoleAdmin); [auto|]. destruct (String.eqb_spec role RoleOperator); [auto|].
  destruct (String.eqb_spec role RoleViewer); [auto|]. by apply elem_of_nil in H.
Qed.

Lemma admin_permission_role role p : HasPermission role p = true -> admin_permission p = true -> role = RoleAdmin.
Proof.
  intros H [Ho%negb_true_iff Hv%negb_true_iff]%andb_true_iff. destruct (role_cases _ _ H) as [->|[->| ->]]; [done|congruence..].
Qed.

(** Roles are kept apart: user management, the installation and removal of modules, settings,
    updates, backups and restorations are reached by administrators only; nothing but reading, a
    preview, a dashboard ticket and logging out is reached by a viewer; a token with another role
    reaches its own account only; and what needs no token is the login, the registration and
    heartbeats of Agents, the live dashboard with its ticket, health and the web interface. *)
Theorem roles_kept_apart r rt params r' ctx :
  serve r = Reached rt params r' ctx ->
  (rt_guard rt = Public <-> In (rt_endpoint rt) public_endpoints) /\
  (forall permission, rt_guard rt = Signed permission ->
     exists p, PrincipalFromContext ctx = Some p /\
       (In (rt_endpoint rt) admin_only -> p_Role p = RoleAdmin) /\
       (p_Role p = RoleViewer -> Method r <> "GET" -> In (rt_endpoint rt) viewer_writes) /\
       (p_Role p <> RoleAdmin -> p_Role p <> RoleOperator -> p_Role p <> RoleViewer -> In (rt_endpoint rt) [AuthEndpoint ALogout; AuthEndpoint AMe])).
Proof.
  intros (Hin & Hm & _ & _ & He)%serve_reached. pose proof (routes_disciplined _ Hin) as Hd. unfold disciplined in Hd.
  destruct (rt_guard rt) as [|[p|]] eqn:Hg.
  - split; [|done]. apply bool_decide_eq_true, list_elem_of_In in Hd. done.
  - rewrite !andb_true_iff in Hd. destruct Hd as ((Hpub & Hadm) & Hview).
    split. { split; [done|]. intros Hp%list_elem_of_In. by rewrite bool_decide_true in Hpub. }
    intros ? _. destruct He as (claims & _ & _ & Hpr & Hperm & _). specialize (Hperm p eq_refl).
    exists (principal_of claims). split; [done|]. cbn [p_Role principal_of]. split; [|split].
    + intros Ha%list_elem_of_In. rewrite bool_decide_true in Hadm by done. by eapply admin_permission_role.
    + intros Er Hget. rewrite Er in Hperm. rewrite Hperm in Hview. cbn [negb] in Hview. rewrite orb_false_r in Hview.
      apply orb_true_iff in Hview as [Hget'%String.eqb_eq|Hv%bool_decide_eq_true]; [|by apply list_elem_of_In].
      destruct Hm as [Hm|Hm]; [congruence|]. rewrite Hm in Hget'. discriminate.
    + intros ? ? ?. destruct (role_cases _ _ Hperm) as [?|[?|?]]; congruence.
  - apply andb_true_iff in Hd as [Hself%bool_decide_eq_true Hget].
    assert (In (rt_endpoint rt) [AuthEndpoint ALogout; AuthEndpoint AMe]) as Hs by by apply list_elem_of_In.
    split. { split; [done|]. destruct Hs as [<-|[<-|[]]]; cbn; intuition discriminate. }
    intros ? _. destruct He as (claims & _ & _ & Hpr & _). exists (principal_of claims). split; [done|]. split; [|split]; [| |done].
    + destruct Hs as [<-|[<-|[]]]; cbn; intuition discriminate.
    + intros _ Hne. apply orb_true_iff in Hget as [Hget%String.eqb_eq|Hl%bool_decide_eq_true]; [|rewrite Hl; by left].
      destruct Hm as [Hm|Hm]; [congruence|]. rewrite Hm in Hget. discriminate.
Qed.

(** ** Accounts *)

(** The same accounts: who exists, with which name, address, password, role and state. *)
Definition account (u : User) : string * string * string * string * Role * bool * Z :=
  (ID u, Username u, Email u, Password u, Role_ u, IsActive u, CreatedAt u).
Definition same_accounts (t t' : tables) : Prop := account <$> users t' = account <$> users t.

(** A call that is not one on users leaves them. *)
Definition no_user_call {X} (e : auth_call X) : Prop :=
  match e with CreateU _ | UpdateU _ | DeleteU _ => False | _ => True end.

Lemma sem_users faulty X (e : auth_call X) t x t' : no_user_call e -> sem faulty X e t x t' -> users t' = users t.
Proof.
  intros Hn [->|Hr]%sem_cases; [done|]. apply (f_equal (option_map snd)) in Hr.
  destruct e; try done; cbn [repo option_map reading snd] in Hr; injection Hr as <-; try done.
  unfold repo_CreateS. destruct (_ || _); [done|]. by destruct (negb _).
Qed.

Section accounts.
Variables (svc : Service) (faulty : bool).
Notation wp := (wp (sem faulty)).
Notation runs := (runs (sem faulty)).

Lemma wp_users {A X} (Q : tables -> Prop) m (e : auth_call X) (k : X -> prog auth_call A) t :
  no_user_call e -> users t = m -> (forall x t', users t' = m -> wp (fun _ t' => Q t') (k x) t') -> wp (fun _ t' => Q t') (Call e k) t.
Proof. intros Hn Ht Hk x t' Hs. apply Hk. by rewrite (sem_users _ _ _ _ _ _ Hn Hs). Qed.

Lemma wp_answering {A} (Q : tables -> Prop) ok (p : prog auth_call (result error A)) t :
  wp (fun _ t' => Q t') p t -> wp (fun _ t' => Q t') (answering ok p) t.
Proof. intros Hp. by apply wp_bind. Qed.

Lemma wp_finish {A} (Q : tables -> Prop) (p : prog auth_call (result error A)) t :
  wp (fun _ t' => Q t') (finish p) t -> wp (fun _ t' => Q t') p t.
Proof. unfold finish. revert t. induction p as [a|X e k IH]; intros t H; [done|]. intros x t' Hs. by apply IH, H. Qed.

(** Programs that make no call on users. *)
Lemma wp_no_user {A} (p : prog auth_call A) t :
  calls (fun X e => no_user_call e) p -> wp (fun _ t' => users t' = users t) p t.
Proof.
  intros Hc. generalize (eq_refl (users t)). generalize (users t) at 2 3. intros m. revert t.
  induction p as [a|X e k IH]; intros t Ht; [done|]. destruct Hc as [Hn Hk]. intros x t' Hs. apply IH; [apply Hk|].
  by rewrite (sem_users _ _ _ _ _ _ Hn Hs).
Qed.

(** Logging in stamps the row of the user and changes no other. *)
Definition login_call (u : User) {X} (e : auth_call X) : Prop :=
  match e with UpdateU v => exists now, v = touch_login now u | CreateU _ | DeleteU _ => False | _ => True end.

Lemma sem_login u t X (e : auth_call X) t1 x t2 :
  users t !! ID u = Some u -> login_call u e -> sem faulty X e t1 x t2 -> same_accounts t t1 -> same_accounts t t2.
Proof.
  intros Hu Hl Hs Ht1.
  assert (no_user_call e -> same_accounts t t2) as Hrest.
  { intros Hn. unfold same_accounts. rewrite (sem_users _ _ _ _ _ _ Hn Hs). exact Ht1. }
  destruct e; try (exact (Hrest I)); try (exfalso; exact Hl). clear Hrest.
  destruct Hl as [now ->]. apply sem_cases in Hs as [->|Hr]; [done|]. apply (f_equal (option_map snd)) in Hr.
  cbn [repo option_map snd] in Hr. injection Hr as <-. unfold repo_UpdateU.
  destruct (users t1 !! ID (touch_login now u)) as [old|] eqn:Ho; [|done]. destruct (user_conflict _ _); [done|]. destruct (negb _); [done|].
  unfold same_accounts in *. cbn [snd users set_users]. rewrite fmap_insert, <- Ht1. apply insert_id.
  rewrite lookup_fmap. cbn [ID touch_login] in *. rewrite Ho. cbn. f_equal.
  assert (Some (account old) = Some (account u)) as [= E1 E2 E3 E4 E5 E6 E7].
  { apply (f_equal (fun m => m !! ID u)) in Ht1. rewrite !lookup_fmap, Ho, Hu in Ht1. exact Ht1. }
  unfold account. cbn. congruence.
Qed.

Lemma wp_login {A} u t (p : prog auth_call A) t1 :
  users t !! ID u = Some u -> calls (fun X e => login_call u e) p -> same_accounts t t1 -> wp (fun _ t' => same_accounts t t') p t1.
Proof.
  intros Hu. revert t1. induction p as [a|X e k IH]; intros t1 Hc Ht1; [done|]. destruct Hc as [He Hk]. intros x t2 Hs.
  apply IH; [apply Hk|]. by eapply sem_login.
Qed.

Lemma calls_next {A X} (P : forall X, auth_call X -> Prop) (e : auth_call X) (k : X -> prog auth_call A) :
  P X e -> (forall x, calls P (k x)) -> calls P (Call e k).
Proof. by split. Qed.

Ltac each_call :=
  repeat first
    [ apply calls_next; [exact I|intros ?] | apply calls_wrap; [|intros ?] | apply calls_try; [|intros ?] | apply calls_bind; [|intros ?]
    | apply calls_call; exact I | exact I
    | match goal with |- calls _ (match ?b with _ => _ end) => destruct b end ].

Lemma Login_accounts username password ip agent t :
  tables_ok t -> wp (fun _ t' => same_accounts t t') (Login svc username password ip agent) t.
Proof.
  intros Hok x t1 Hs. apply sem_FindByUsername in Hs as [-> Hx]. destruct x as [u|e]; [|done]. cbn [bind call].
  destruct (Hx u eq_refl) as (i & Hi & _). assert (users t !! ID u = Some u) as Hu by by rewrite (ok_user_key _ Hok _ _ Hi).
  apply (wp_login u); [done| |done]. unfold Generate, generateSecureToken. each_call. apply calls_call. by eexists.
Qed.

(** Handlers that make no call on users. *)
Lemma reads_accounts (p : prog auth_call reply) t : calls (fun X e => no_user_call e) p -> wp (fun _ t' => same_accounts t t') p t.
Proof. intros Hc. eapply wp_mono; [|by apply wp_no_user]. intros ? t' E. cbn in E. unfold same_accounts. by rewrite E. Qed.

Definition manages (a : auth_endpoint) : bool :=
  match a with ACreateUser | AUpdateUser | AChangeUserPassword | ASetUserActive | ADeleteUser => true | _ => false end.

Lemma other_handlers a params r ctx t :
  tables_ok t -> manages a = false -> wp (fun _ t' => same_accounts t t') (auth_handler svc a params r ctx) t.
Proof.
  intros Hok Ha. destruct a; try discriminate Ha; cbn [auth_handler].
  - done.
  - unfold HandleLogin, decoding. destruct (decode_first _ _ _ _) as [req|]; [|done]. destruct (_ || _); [done|].
    by apply wp_answering, Login_accounts.
  - apply reads_accounts. unfold HandleRefresh, decoding, answering, Refresh, Generate, generateSecureToken. each_call.
  - apply reads_accounts. unfold HandleLogout, answering, Logout. each_call.
  - apply reads_accounts. unfold HandleMe, answering, GetUser. each_call.
  - apply reads_accounts. unfold HandleListUsers, answering, ListUsers. each_call.
  - apply reads_accounts. unfold HandleUserAudit, answering, UserAudit. each_call.
Qed.

Lemma managing_handlers a params r ctx p t :
  tables_ok t -> manages a = true -> PrincipalFromContext ctx = Some p -> active_admin t (p_ID p) ->
  wp (fun _ t' => active_admin t' (p_ID p)) (auth_handler svc a params r ctx) t.
Proof.
  intros Hok Ha Hp Had. pose proof (manage_spares svc faulty (p_ID p)) as Hm.
  destruct a; try discriminate Ha; cbn [auth_handler];
    unfold HandleCreateUser, HandleUpdateUser, HandleChangeUserPassword, HandleSetUserActive, HandleDeleteUser, decoding, acting; rewrite Hp;
    try (destruct (decode_first _ _ _ _) as [input|]; [|done]); apply wp_answering.
  - apply wp_finish. exact (Hm (OpCreateUser input) t Hok Had).
  - apply wp_finish. exact (Hm (OpUpdateUser (params "id") input) t Hok Had).
  - exact (Hm (OpSetPassword (params "id") input) t Hok Had).
  - apply wp_finish. exact (Hm (OpSetActive (params "id") _) t Hok Had).
  - exact (Hm (OpDeleteUser (params "id")) t Hok Had).
Qed.

(** C28. From the wire to the tables: whatever a client sends, a request that reaches a handler of
    accounts leaves every account as it is (name, address, password, role, state and existence),
    or it carries a valid token with the role of an administrator, and then this administrator, if
    active, still is one afterwards; whichever database calls fail. *)
Theorem accounts_changed_by_admins r rt params r' ctx a t rep t' :
  tables_ok t -> serve r = Reached rt params r' ctx -> rt_endpoint rt = AuthEndpoint a -> runs (auth_handler svc a params r' ctx) t rep t' ->
  same_accounts t t' \/
  exists claims, Validate (extractBearerToken r) = Ok claims /\ c_Role claims = RoleAdmin /\
    (active_admin t (c_UserID claims) -> active_admin t' (c_UserID claims)).
Proof.
  intros Hok Hs He Hr. destruct (manages a) eqn:Ha.
  - right. apply serve_reached in Hs as (Hin & _ & _ & Hsame & Hg). pose proof (routes_disciplined _ Hin) as Hd. unfold disciplined in Hd.
    assert (In (rt_endpoint rt) admin_only /\ ~ In (rt_endpoint rt) public_endpoints /\ ~ In (rt_endpoint rt) (map AuthEndpoint [ALogout; AMe])) as (H1 & H2 & H3).
    { rewrite He. destruct a; try discriminate Ha; (split; [cbn; tauto|]); cbn; intuition discriminate. }
    rewrite <- list_elem_of_In in H1, H2, H3.
    destruct (rt_guard rt) as [|[p|]]; [by rewrite bool_decide_false in Hd| |by rewrite bool_decide_false in Hd].
    rewrite (bool_decide_true _ H1), !andb_true_iff in Hd. destruct Hd as ((_ & Hadm) & _).
    destruct Hg as (claims & _ & Hv & Hp & Hperm & _). exists claims.
    assert (extractBearerToken r' = extractBearerToken r) as Et by (destruct Hsame as [->|[b ->]]; done). rewrite Et in Hv.
    split; [done|]. split; [by eapply admin_permission_role; [apply Hperm|]|]. intros Hact.
    exact (proj1 (wp_runs (sem faulty) _ _ _) (managing_handlers a params r' ctx _ t Hok Ha Hp Hact) _ _ Hr).
  - left. exact (proj1 (wp_runs (sem faulty) _ _ _) (other_handlers a params r' ctx t Hok Ha) _ _ Hr).
Qed.
End accounts.
End router.

(** ** An example *)

Module Example.
#[local] Existing Instance unicode_ascii.
#[local] Existing Instance sample_libs.

Definition root_claims : Claims :=
  {| Issuer := "opendeploy"; Subject := "u0"; IssuedAt := 0; c_ExpiresAt := 900; c_UserID := "u0"; c_Username := "root"; c_Role := RoleAdmin |}.
Definition parse (token : string) : result string (option Claims * bool) :=
  if String.eqb token "good" then Ok (Some root_claims, true) else Err "signature is invalid".
Definition everything : Dependencies :=
  {| has_module := true; has_dashboard := true; has_site := true; has_remote := true; has_service := true; has_settings := true; has_logs := true;
     registry := [("firewall", [{| mr_method := "POST"; mr_pattern := "/rules"; mr_name := "addRule" |}])] |}.

(** A router that finds patterns literally. *)
Definition literal (l : list route) (method path : string) : option (route * (string -> string)) :=
  (fun rt => (rt, fun _ => "u1")) <$> List.find (fun rt => String.eqb (rt_method rt) method && String.eqb (rt_pattern rt) path) l.

Lemma literal_routed l method path rt params :
  literal l method path = Some (rt, params) -> In rt l /\ (rt_method rt = method \/ rt_method rt = "*").
Proof.
  unfold literal. destruct (List.find _ l) as [rt'|] eqn:Hf; [|done]. intros [= <- <-]. apply find_some in Hf as [Hin Hb].
  apply andb_true_iff in Hb as [Hm _]. split; [done|]. left. by apply String.eqb_eq.
Qed.

Definition removal : request :=
  {| Method := "DELETE"; Path := "/api/v1/users/{id}"; Header := fun k => if String.eqb k "Authorization" then "Bearer good" else "";
     Query := fun _ => ""; RemoteAddr := "192.0.2.7:5000"; Body := "" |}.
Definition removal_route : route := signed "DELETE" "/users/{id}" (Some PermUserManage) (AuthEndpoint ADeleteUser).
Definition removal_context : context := {| ctx_principal := Some (principal_of root_claims); ctx_server := Some "local" |}.
Definition serve_ := serve parse everything literal None true (fun skip _ _ => skip).

Lemma removal_reached : serve_ removal = Reached removal_route (fun _ => "u1") removal removal_context.
Proof. vm_compute. reflexivity. Qed.

Lemma handlers_guarded_witness :
  exists claims, Validate parse (extractBearerToken removal) = Ok claims /\ PrincipalFromContext removal_context = Some (principal_of claims) /\
    (forall p, Some PermUserManage = Some p -> HasPermission (c_Role claims) p = true) /\
    (ServerID removal_context = LocalID \/ remotePathAvailable removal = true).
Proof.
  apply (handlers_guarded parse everything literal None true (fun skip _ _ => skip) literal_routed removal removal_route (fun _ => "u1") removal
           removal_context (Some PermUserManage)); [exact removal_reached|reflexivity].
Defined.

Lemma roles_kept_apart_witness :
  exists p, PrincipalFromContext removal_context = Some p /\ p_Role p = RoleAdmin.
Proof.
  destruct (proj2 (roles_kept_apart parse everything literal None true (fun skip _ _ => skip) literal_routed removal removal_route (fun _ => "u1")
    removal removal_context removal_reached) (Some PermUserManage) eq_refl) as (p & Hp & Ha & _).
  exists p. split; [exact Hp|]. apply Ha. cbn. do 6 right. left. reflexivity.
Defined.

Lemma removal_runs :
  runs (sem false) (auth_handler sample_service ADeleteUser (fun _ => "u1") removal removal_context) sample_tables (respond 204 PNone)
    (snd (repo_DeleteU sample_tables "u1")).
Proof.
  cbn [auth_handler]. unfold HandleDeleteUser, acting, answering. cbn [PrincipalFromContext ctx_principal removal_context p_ID principal_of].
  apply runs_bind. exists (Ok ()), (snd (repo_DeleteU sample_tables "u1")). split; [exact delete_runs|]. by split.
Qed.

Lemma accounts_changed_by_admins_witness :
  same_accounts sample_tables (snd (repo_DeleteU sample_tables "u1")) \/
  exists claims, Validate parse (extractBearerToken removal) = Ok claims /\ c_Role claims = RoleAdmin /\
    (active_admin sample_tables (c_UserID claims) -> active_admin (snd (repo_DeleteU sample_tables "u1")) (c_UserID claims)).
Proof.
  apply (accounts_changed_by_admins parse everything literal None true (fun skip _ _ => skip) literal_routed sample_service false removal
    removal_route (fun _ => "u1") removal removal_context ADeleteUser sample_tables (respond 204 PNone));
    [exact sample_tables_ok|exact removal_reached|reflexivity|exact removal_runs].
Defined.
End Example.
