(* ===== verification/Servers.v ===== *)
(** * The registry of servers

    internal/core/remote: servers, the tokens with which their Agents enroll, the certificates
    they get, their heartbeats and tasks.  The service is a program over the calls of its
    repository; the repository is given as operations on tables, with the schema of migrations 010
    and 012 (unique token hashes, unique certificate identifiers and fingerprints, rows of a server
    going with it).  Times are in nanoseconds. *)

From S2P Require Import Prelude GoStrings GoStrconv GoRegexp GoBase64 AppErrors Effects.
Local Open Scope string_scope.
Local Open Scope go_scope.

(** ** Data *)

(** source: internal/core/remote/domain.go:5-37 (Server), the columns of the table *)
Record Server := {
  ID : string; Name : string; Hostname : string; Description : string; MachineID : string; Status : string; AgentVersion : string;
  APIVersion : string; OS : string; Distribution : string; OSVersion : string; Kernel : string; Architecture : string; CPUModel : string;
  CPUCores : Z; RAMTotal : Z; DiskTotal : Z; PublicIP : string; PrivateIP : string; Uptime : Z; LatencyMS : Z; Tags : list string;
  UpdateChannel : string; HealthStatus : string; Maintenance : bool; LastHeartbeat : option Z; CreatedAt : Z; UpdatedAt : Z }.

(** source: internal/core/remote/domain.go:39-45 (CreateRequest) *)
Record CreateRequest := { c_Name : string; c_Description : string; c_Tags : list string; c_OperatingSystem : string; c_UpdateChannel : string }.

(** source: internal/core/remote/domain.go:47-53 (Enrollment) *)
Record Enrollment := { e_Server : Server; RegistrationToken : string; RegistrationCode : string; e_ExpiresAt : Z; InstallationCommand : string }.

(** source: internal/core/remote/domain.go:55-72 (RegistrationRequest) *)
Record RegistrationRequest := {
  r_Token : string; r_MachineID : string; r_Hostname : string; r_OS : string; r_Distribution : string; r_OSVersion : string; r_Kernel : string;
  r_Architecture : string; r_CPUModel : string; r_CPUCores : Z; r_RAMTotal : Z; r_DiskTotal : Z; r_PublicIP : string; r_PrivateIP : string;
  r_AgentVersion : string; r_CSRPEM : string }.

(** source: internal/core/remote/domain.go:74-84 (RegistrationResponse), what the service fills *)
Record RegistrationResponse := {
  rr_ServerID : string; CertificatePEM : string; Fingerprint : string; rr_HeartbeatInterval : Z; rr_UpdateChannel : string; AllowedFeatures : list string }.

(** source: internal/core/remote/domain.go:117-122 (TaskResult) *)
Record TaskResult := { tr_ID : string; tr_State : string; tr_Output : string; tr_Error : string }.

(** source: internal/core/remote/domain.go:93-102 (HeartbeatRequest); of the usages only whether
    they are at least 95 per cent matters here *)
Record HeartbeatRequest := {
  hb_State : string; hb_CPU95 : bool; hb_Memory95 : bool; hb_Disk95 : bool; hb_Uptime : Z; hb_RunningTasks : Z; hb_AgentVersion : string;
  hb_TaskResults : list TaskResult }.

(** source: internal/core/remote/domain.go:104-115 (Task) *)
Record Task := {
  t_ID : string; t_ServerID : string; t_Action : string; t_Payload : string; t_State : string; t_Output : string; t_Error : string;
  t_CreatedAt : Z; t_StartedAt : option Z; t_FinishedAt : option Z }.

(** source: internal/core/remote/domain.go:124-127 (HeartbeatResponse) *)
Record HeartbeatResponse := { hr_HeartbeatInterval : Z; hr_Tasks : list Task }.

(** Rows of server_tokens and server_certificates. *)
Record Token := { tk_ServerID : string; tk_Hash : string; tk_ExpiresAt : Z; tk_UsedAt : option Z; tk_CreatedAt : Z }.
Record Certificate := { cert_ServerID : string; cert_Fingerprint : string; cert_PEM : string; cert_ExpiresAt : Z; cert_RevokedAt : option Z; cert_CreatedAt : Z }.

(** source: internal/core/remote/repository.go:17-20 (the errors), and those with only a text *)
Inductive remote_error := ErrServerNotFound | ErrServerNotPending | ErrText (text : string).

Definition remote_text (e : remote_error) : string :=
  match e with ErrServerNotFound => "server not found" | ErrServerNotPending => "server is not pending" | ErrText t => t end.

(** ** Tables *)

Record tables := {
  servers : gmap string Server; tokens : gmap string Token; certificates : gmap string Certificate; tasks : gmap string Task;
  heartbeats : list (string * Z); events : list (string * string * Z) }.

Definition set_servers (m : gmap string Server) (t : tables) : tables :=
  {| servers := m; tokens := tokens t; certificates := certificates t; tasks := tasks t; heartbeats := heartbeats t; events := events t |}.
Definition set_tokens (m : gmap string Token) (t : tables) : tables :=
  {| servers := servers t; tokens := m; certificates := certificates t; tasks := tasks t; heartbeats := heartbeats t; events := events t |}.
Definition set_certificates (m : gmap string Certificate) (t : tables) : tables :=
  {| servers := servers t; tokens := tokens t; certificates := m; tasks := tasks t; heartbeats := heartbeats t; events := events t |}.
Definition set_tasks (m : gmap string Task) (t : tables) : tables :=
  {| servers := servers t; tokens := tokens t; certificates := certificates t; tasks := m; heartbeats := heartbeats t; events := events t |}.
Definition add_event (e : string * string * Z) (t : tables) : tables :=
  {| servers := servers t; tokens := tokens t; certificates := certificates t; tasks := tasks t; heartbeats := heartbeats t; events := (events t ++ [e])%list |}.
Definition add_heartbeat (h : string * Z) (t : tables) : tables :=
  {| servers := servers t; tokens := tokens t; certificates := certificates t; tasks := tasks t; heartbeats := (heartbeats t ++ [h])%list; events := events t |}.

Definition some_row {A} (p : A -> bool) (m : gmap string A) : bool := existsb (fun '(_, a) => p a) (map_to_list m).
Definition find_row {A} (p : A -> bool) (m : gmap string A) : option (string * A) := List.find (fun '(_, a) => p a) (map_to_list m).

(** The answer of a statement that violates a constraint. *)
Definition constraint {A} (t : tables) : result remote_error A * tables := (Err (ErrText "constraint failed"), t).

(** The row changes, if there is one. *)
Definition update_row {A} (id : string) (f : A -> A) (m : gmap string A) : gmap string A := alter f id m.

(** source: internal/core/remote/repository.go:65-74 (Create) *)
Definition repo_Create (s : Server) (t : tables) : result remote_error () * tables :=
  match servers t !! ID s with Some _ => constraint t | None => (Ok (), set_servers (<[ID s := s]> (servers t)) t) end.

(** source: internal/core/remote/repository.go:76-82 (Get) *)
Definition repo_Get (id : string) (t : tables) : result remote_error (option Server) := Ok (servers t !! id).

(** A row of server_tokens: its identifier and hash are new and its server exists. *)
Definition insert_token (id serverID hash : string) (expires created : Z) (t : tables) : option tables :=
  match tokens t !! id, servers t !! serverID with
  | None, Some _ =>
      if some_row (fun k => String.eqb (tk_Hash k) hash) (tokens t) then None
      else Some (set_tokens (<[id := {| tk_ServerID := serverID; tk_Hash := hash; tk_ExpiresAt := expires; tk_UsedAt := None; tk_CreatedAt := created |}]> (tokens t)) t)
  | _, _ => None
  end.

(** source: internal/core/remote/repository.go:126-129 (SaveToken) *)
Definition repo_SaveToken (id serverID hash : string) (expires created : Z) (t : tables) : result remote_error () * tables :=
  match insert_token id serverID hash expires created t with Some t' => (Ok (), t') | None => constraint t end.

Definition used_at (now : Z) (k : Token) : Token :=
  {| tk_ServerID := tk_ServerID k; tk_Hash := tk_Hash k; tk_ExpiresAt := tk_ExpiresAt k; tk_UsedAt := Some now; tk_CreatedAt := tk_CreatedAt k |}.
Definition unused (k : Token) : bool := match tk_UsedAt k with None => true | Some _ => false end.

(** source: internal/core/remote/repository.go:131-154 (ReplaceToken) *)
Definition repo_ReplaceToken (id serverID hash : string) (expires created : Z) (t : tables) : result remote_error () * tables :=
  match servers t !! serverID with
  | None => (Err ErrServerNotFound, t)
  | Some s =>
      if negb (String.eqb (Status s) "pending") then (Err ErrServerNotPending, t)
      else
        let t1 := set_tokens ((fun k => if String.eqb (tk_ServerID k) serverID && unused k then used_at created k else k) <$> tokens t) t in
        match insert_token id serverID hash expires created t1 with Some t' => (Ok (), t') | None => constraint t end
  end.

(** source: internal/core/remote/repository.go:156-181 (ConsumeToken) *)
Definition repo_ConsumeToken (hash : string) (now : Z) (t : tables) : result remote_error string * tables :=
  match find_row (fun k => String.eqb (tk_Hash k) hash && unused k) (tokens t) with
  | None => (Err (ErrText "sql: no rows in result set"), t)
  | Some (id, k) =>
      if negb (now <? tk_ExpiresAt k)%Z then (Err (ErrText "registration token expired"), t)
      else (Ok (tk_ServerID k), set_tokens (<[id := used_at now k]> (tokens t)) t)
  end.

(** source: internal/core/remote/repository.go:189-195 (Register, the server) *)
Definition registered (req : RegistrationRequest) (now : Z) (s : Server) : Server :=
  {| ID := ID s; Name := Name s; Hostname := r_Hostname req; Description := Description s; MachineID := r_MachineID req; Status := "online";
     AgentVersion := r_AgentVersion req; APIVersion := APIVersion s; OS := r_OS req; Distribution := r_Distribution req; OSVersion := r_OSVersion req;
     Kernel := r_Kernel req; Architecture := r_Architecture req; CPUModel := r_CPUModel req; CPUCores := r_CPUCores req; RAMTotal := r_RAMTotal req;
     DiskTotal := r_DiskTotal req; PublicIP := r_PublicIP req; PrivateIP := r_PrivateIP req; Uptime := Uptime s; LatencyMS := LatencyMS s;
     Tags := Tags s; UpdateChannel := UpdateChannel s; HealthStatus := "healthy"; Maintenance := Maintenance s; LastHeartbeat := Some now;
     CreatedAt := CreatedAt s; UpdatedAt := now |}.

(** source: internal/core/remote/repository.go:183-208 (Register): the certificate row is named
    after the server, and its server must exist *)
Definition repo_Register (id : string) (req : RegistrationRequest) (fingerprint cert : string) (certExpiry now : Z) (t : tables) :
    result remote_error () * tables :=
  match servers t !! id, certificates t !! (id ++ "-cert") with
  | Some _, None =>
      if some_row (fun c => String.eqb (cert_Fingerprint c) fingerprint) (certificates t) then constraint t
      else
        (Ok (), add_event (id, "registered", now)
                  (set_certificates (<[id ++ "-cert" := {| cert_ServerID := id; cert_Fingerprint := fingerprint; cert_PEM := cert; cert_ExpiresAt := certExpiry;
                                                          cert_RevokedAt := None; cert_CreatedAt := now |}]> (certificates t))
                     (set_servers (update_row id (registered req now) (servers t)) t)))
  | _, _ => constraint t
  end.

(** source: internal/core/remote/repository.go:210-215 (VerifyCertificate), at the time it asks *)
Definition repo_VerifyCertificate (serverID fingerprint : string) (now : Z) (t : tables) : bool :=
  (length (List.filter (fun '(_, c) => String.eqb (cert_ServerID c) serverID && String.eqb (cert_Fingerprint c) fingerprint
                            && match cert_RevokedAt c with None => true | Some _ => false end && (now <? cert_ExpiresAt c)%Z)
             (map_to_list (certificates t))) =? 1)%nat.

(** The columns that a heartbeat or a connection changes. *)
Definition seen (health version api : string) (uptime latency : option Z) (now : Z) (s : Server) : Server :=
  {| ID := ID s; Name := Name s; Hostname := Hostname s; Description := Description s; MachineID := MachineID s; Status := "online";
     AgentVersion := if String.eqb version "" then AgentVersion s else version; APIVersion := if String.eqb api "" then APIVersion s else api;
     OS := OS s; Distribution := Distribution s; OSVersion := OSVersion s; Kernel := Kernel s; Architecture := Architecture s; CPUModel := CPUModel s;
     CPUCores := CPUCores s; RAMTotal := RAMTotal s; DiskTotal := DiskTotal s; PublicIP := PublicIP s; PrivateIP := PrivateIP s;
     Uptime := default (Uptime s) uptime; LatencyMS := default (LatencyMS s) latency; Tags := Tags s; UpdateChannel := UpdateChannel s;
     HealthStatus := health; Maintenance := Maintenance s; LastHeartbeat := Some now; CreatedAt := CreatedAt s; UpdatedAt := now |}.

(** source: internal/core/remote/repository.go:217-226 (UpdateConnectionMetadata) *)
Definition repo_UpdateConnectionMetadata (serverID agentVersion apiVersion : string) (now : Z) (t : tables) : result remote_error () * tables :=
  (Ok (), set_servers (update_row serverID (seen "healthy" agentVersion apiVersion None None now) (servers t)) t).

(** source: internal/core/remote/repository.go:259-264 (healthFromHeartbeat) *)
Definition healthFromHeartbeat (h : HeartbeatRequest) : string :=
  if negb (String.eqb (hb_State h) "online") || hb_CPU95 h || hb_Memory95 h || hb_Disk95 h then "warning" else "healthy".

Definition finish_task (state output error : string) (finished : option Z) (k : Task) : Task :=
  {| t_ID := t_ID k; t_ServerID := t_ServerID k; t_Action := t_Action k; t_Payload := t_Payload k; t_State := state; t_Output := output; t_Error := error;
     t_CreatedAt := t_CreatedAt k; t_StartedAt := t_StartedAt k; t_FinishedAt := finished |}.

(** An update of a task that is one of the server. *)
Definition update_task (serverID id : string) (f : Task -> Task) (m : gmap string Task) : gmap string Task :=
  alter (fun k => if String.eqb (t_ServerID k) serverID then f k else k) id m.

(** source: internal/core/remote/repository.go:246-255 (Heartbeat, the results) *)
Definition task_result (serverID : string) (now : Z) (m : gmap string Task) (r : TaskResult) : gmap string Task :=
  if negb (String.eqb (tr_State r) "success") && negb (String.eqb (tr_State r) "error") then m
  else update_task serverID (tr_ID r) (finish_task (tr_State r) (tr_Output r) (tr_Error r) (Some now)) m.

(** source: internal/core/remote/repository.go:228-257 (Heartbeat): the row of the heartbeat needs
    its server *)
Definition repo_Heartbeat (serverID : string) (hb : HeartbeatRequest) (latency now : Z) (t : tables) : result remote_error () * tables :=
  match servers t !! serverID with
  | None => constraint t
  | Some _ =>
      (Ok (), set_tasks (foldl (task_result serverID now) (tasks t) (hb_TaskResults hb))
                (set_servers (update_row serverID (seen (healthFromHeartbeat hb) (hb_AgentVersion hb) "" (Some (hb_Uptime hb)) (Some latency) now) (servers t))
                   (add_heartbeat (serverID, now) t)))
  end.

(** source: internal/core/remote/repository.go:267-271 (PendingTasks, the query) *)
Definition repo_PendingRows (serverID : string) (t : tables) : list Task :=
  take 10 (isort (fun a b => (t_CreatedAt a <=? t_CreatedAt b)%Z)
    (List.filter (fun k => String.eqb (t_ServerID k) serverID && String.eqb (t_State k) "pending") (map snd (map_to_list (tasks t))))).

Definition running (now : Z) (k : Task) : Task :=
  {| t_ID := t_ID k; t_ServerID := t_ServerID k; t_Action := t_Action k; t_Payload := t_Payload k; t_State := "running"; t_Output := t_Output k;
     t_Error := t_Error k; t_CreatedAt := t_CreatedAt k; t_StartedAt := Some now; t_FinishedAt := t_FinishedAt k |}.

(** source: internal/core/remote/repository.go:293-293 (PendingTasks, the update) *)
Definition repo_StartTask (id : string) (now : Z) (t : tables) : result remote_error () * tables :=
  (Ok (), set_tasks (update_row id (running now) (tasks t)) t).

(** source: internal/core/remote/repository.go:300-304 (CreateTask) *)
Definition repo_CreateTask (k : Task) (t : tables) : result remote_error () * tables :=
  match tasks t !! t_ID k, servers t !! t_ServerID k with
  | None, Some _ => (Ok (), set_tasks (<[t_ID k := k]> (tasks t)) t)
  | _, _ => constraint t
  end.

(** source: internal/core/remote/repository.go:306-309 (Delete), with the rows that go with it *)
Definition repo_Delete (id : string) (t : tables) : result remote_error () * tables :=
  (Ok (), {| servers := delete id (servers t); tokens := filter (fun '(_, k) => tk_ServerID k <> id) (tokens t);
             certificates := filter (fun '(_, c) => cert_ServerID c <> id) (certificates t); tasks := filter (fun '(_, k) => t_ServerID k <> id) (tasks t);
             heartbeats := List.filter (fun '(s, _) => negb (String.eqb s id)) (heartbeats t);
             events := List.filter (fun '(s, _, _) => negb (String.eqb s id)) (events t) |}).

Definition with_maintenance (b : bool) (now : Z) (s : Server) : Server :=
  {| ID := ID s; Name := Name s; Hostname := Hostname s; Description := Description s; MachineID := MachineID s; Status := Status s;
     AgentVersion := AgentVersion s; APIVersion := APIVersion s; OS := OS s; Distribution := Distribution s; OSVersion := OSVersion s; Kernel := Kernel s;
     Architecture := Architecture s; CPUModel := CPUModel s; CPUCores := CPUCores s; RAMTotal := RAMTotal s; DiskTotal := DiskTotal s;
     PublicIP := PublicIP s; PrivateIP := PrivateIP s; Uptime := Uptime s; LatencyMS := LatencyMS s; Tags := Tags s; UpdateChannel := UpdateChannel s;
     HealthStatus := HealthStatus s; Maintenance := b; LastHeartbeat := LastHeartbeat s; CreatedAt := CreatedAt s; UpdatedAt := now |}.

(** source: internal/core/remote/repository.go:311-314 (SetMaintenance) *)
Definition repo_SetMaintenance (id : string) (enabled : bool) (now : Z) (t : tables) : result remote_error () * tables :=
  (Ok (), set_servers (update_row id (with_maintenance enabled now) (servers t)) t).

(** source: internal/core/remote/repository.go:316-320 (RecordEvent) *)
Definition repo_RecordEvent (serverID eventType : string) (now : Z) (t : tables) : result remote_error () * tables :=
  match servers t !! serverID with None => constraint t | Some _ => (Ok (), add_event (serverID, eventType, now) t) end.

(** source: internal/core/remote/repository.go:322-333 (UpdateTaskProgress) *)
Definition repo_UpdateTaskProgress (serverID taskID state message result_ : string) (now : Z) (t : tables) : result remote_error () * tables :=
  let state := if existsb (String.eqb state) ["success"; "error"; "running"] then state else "running" in
  let finished := if existsb (String.eqb state) ["success"; "error"] then Some now else None in
  (Ok (), set_tasks (update_task serverID taskID (finish_task state result_ message finished) (tasks t)) t).

Definition with_status (status health : string) (now : Z) (s : Server) : Server :=
  {| ID := ID s; Name := Name s; Hostname := Hostname s; Description := Description s; MachineID := MachineID s; Status := status;
     AgentVersion := AgentVersion s; APIVersion := APIVersion s; OS := OS s; Distribution := Distribution s; OSVersion := OSVersion s; Kernel := Kernel s;
     Architecture := Architecture s; CPUModel := CPUModel s; CPUCores := CPUCores s; RAMTotal := RAMTotal s; DiskTotal := DiskTotal s;
     PublicIP := PublicIP s; PrivateIP := PrivateIP s; Uptime := Uptime s; LatencyMS := LatencyMS s; Tags := Tags s; UpdateChannel := UpdateChannel s;
     HealthStatus := health; Maintenance := Maintenance s; LastHeartbeat := LastHeartbeat s; CreatedAt := CreatedAt s; UpdatedAt := now |}.

(** source: internal/core/remote/repository.go:401-406 (MarkStale): a comparison with no heartbeat
    does not hold *)
Definition repo_MarkStale (warningBefore offlineBefore now : Z) (t : tables) : result remote_error () * tables :=
  let before (limit : Z) (s : Server) := match LastHeartbeat s with Some h => (h <? limit)%Z | None => false end in
  let stale (s : Server) :=
    if String.eqb (Status s) "pending" then s
    else if before offlineBefore s then with_status "offline" "critical" now s
    else if before warningBefore s then with_status "warning" "warning" now s
    else with_status (Status s) (HealthStatus s) now s in
  (Ok (), set_servers (stale <$> servers t) t).

(** ** Calls *)

(** What the service calls: its repository, the clock, random bytes, identifiers, and the parts of
    the certificate authority (the public key of a signing request, if it is one; a certificate
    with its fingerprint and expiry). *)
Inductive remote_call : Set -> Set :=
| RCreate (s : Server) : remote_call (result remote_error ())
| RGet (id : string) : remote_call (result remote_error (option Server))
| RSaveToken (id serverID hash : string) (expires created : Z) : remote_call (result remote_error ())
| RReplaceToken (id serverID hash : string) (expires created : Z) : remote_call (result remote_error ())
| RConsumeToken (hash : string) (now : Z) : remote_call (result remote_error string)
| RRegister (id : string) (req : RegistrationRequest) (fingerprint cert : string) (certExpiry now : Z) : remote_call (result remote_error ())
| RVerifyCertificate (serverID fingerprint : string) : remote_call (result remote_error bool)
| RUpdateConnectionMetadata (serverID agentVersion apiVersion : string) (now : Z) : remote_call (result remote_error ())
| RHeartbeat (serverID : string) (hb : HeartbeatRequest) (latency now : Z) : remote_call (result remote_error ())
| RPendingRows (serverID : string) : remote_call (result remote_error (list Task))
| RStartTask (id : string) (now : Z) : remote_call (result remote_error ())
| RCreateTask (k : Task) : remote_call (result remote_error ())
| RDelete (id : string) : remote_call (result remote_error ())
| RSetMaintenance (id : string) (enabled : bool) (now : Z) : remote_call (result remote_error ())
| RRecordEvent (serverID eventType : string) (now : Z) : remote_call (result remote_error ())
| RUpdateTaskProgress (serverID taskID state message result_ : string) (now : Z) : remote_call (result remote_error ())
| RMarkStale (warningBefore offlineBefore now : Z) : remote_call (result remote_error ())
| CDisconnect (serverID : string) : remote_call ()
| Now : remote_call Z
| NewUUID : remote_call string
| RandRead32 : remote_call (result remote_error string)
| ParseCSR (pem : string) : remote_call (option string)
| IssueClient (serverID hostname key : string) (now : Z) : remote_call (result remote_error (string * string * Z)).

(** The SHA-256 digest, as bytes. *)
Class Digest := { sha256 : string -> string }.

Definition hex_encode (s : string) : string := str_concat_map (fun c => hex_pad 2 (byte_val c)) s.

(** [base64.RawURLEncoding] *)
Definition raw_url (s : string) : string :=
  str_concat_map (fun c => if Ascii.eqb c "=" then "" else if Ascii.eqb c "+" then "-" else if Ascii.eqb c "/" then "_" else String c "") (b64_encode s).

(** [base32.StdEncoding] without padding, of eight bytes: thirteen digits. *)
Definition base32_8 (s : string) : string :=
  let v := (foldl (fun a c => a * 256 + byte_val c) 0 (String.list_ascii_of_string s) * 2)%Z in
  String.concat "" (map (fun i => String (default "A"%char (String.get (Z.to_nat (v / 32 ^ (12 - Z.of_nat i) mod 32)) "ABCDEFGHIJKLMNOPQRSTUVWXYZ234567")) "")
                        (seq 0 13)).

(** The bytes of a string without those at its end that are [c], [strings.TrimRight]. *)
Fixpoint drop_leading (c : ascii) (s : string) : string :=
  match s with String a s' => if Ascii.eqb a c then drop_leading c s' else s | "" => "" end.
Definition trim_right_byte (c : ascii) (s : string) : string := str_rev (drop_leading c (str_rev s)).

(** ** The service *)

Section service.
Context `{HUnicode : Unicode} `{HDigest : Digest}.

Definition letter_or_number (z : Z) : bool := if (z <? 128)%Z then r_alnum z else uni_letter_or_number z.

(** source: internal/core/remote/service.go:28-28 (namePattern) *)
Definition namePattern : re := Cat (Cls letter_or_number) (upto 79 (Cls (fun z => letter_or_number z || one_of " ._-" z))).

(** source: internal/core/remote/service.go:29-33 (allowedActions) *)
Definition allowedActions : list string :=
  ["reconnect"; "restart_agent"; "stop_agent"; "update_agent"; "restart_server"; "shutdown"; "health_check"; "refresh_information"].

(** source: internal/core/remote/service.go:25-25 (heartbeatInterval) *)
Definition heartbeatInterval : Z := 30.

Definition minute : Z := 60 * 1000000000.

(** source: internal/core/remote/service.go:148-160 (sanitizeTags) *)
Fixpoint sanitizeTags (seen : list string) (tags : list string) : list string :=
  match tags with
  | [] => []
  | tag :: rest =>
      let tag := trim_space tag in
      if String.eqb tag "" || (32 <? len tag)%Z || existsb (String.eqb tag) seen then sanitizeTags seen rest
      else tag :: sanitizeTags (tag :: seen) rest
  end.

(** source: internal/core/remote/service.go:125-146 (createEnrollment) *)
Definition createEnrollment (server : Server) (coreURL : string) (replace : bool) : prog remote_call (result remote_error Enrollment) :=
  let! now := call Now in
  try! raw := call RandRead32 in
  let token := "odreg_" ++ raw_url raw in
  let hash := hex_encode (sha256 token) in
  let expires := (now + 30 * minute)%Z in
  let! id := call NewUUID in
  try! _ := call (if replace then RReplaceToken id (ID server) hash expires now else RSaveToken id (ID server) hash expires now) in
  let code := base32_8 (take_bytes 8 (sha256 token)) in
  let code := "OD-" ++ take_bytes 4 code ++ "-" ++ take_bytes 4 (drop_bytes 4 code) ++ "-" ++ take_bytes 4 (drop_bytes 8 code) in
  let command := "curl -fsSL https://raw.githubusercontent.com/anrted/opendeploy/main/install-agent.sh | sudo bash -s -- --server "
                 ++ trim_right_byte "/" coreURL ++ " --token " ++ token in
  Ret (Ok {| e_Server := server; RegistrationToken := token; RegistrationCode := code; e_ExpiresAt := expires; InstallationCommand := command |}).

(** source: internal/core/remote/service.go:80-109 (Create) *)
Definition Create (req : CreateRequest) (coreURL : string) : prog remote_call (result remote_error Enrollment) :=
  let name := trim_space (c_Name req) in
  if negb (match_string namePattern name) then Ret (Err (ErrText "server name is invalid"))
  else
    let channel := if String.eqb (c_UpdateChannel req) "" then "stable" else c_UpdateChannel req in
    if negb (existsb (String.eqb channel) ["stable"; "beta"; "nightly"]) then Ret (Err (ErrText "update channel is invalid"))
    else if (20 <? Z.of_nat (length (c_Tags req)))%Z then Ret (Err (ErrText "too many tags"))
    else
      let! now := call Now in
      let! id := call NewUUID in
      let server := {|
        ID := id; Name := name; Hostname := ""; Description := trim_space (c_Description req); MachineID := ""; Status := "pending"; AgentVersion := "";
        APIVersion := ""; OS := c_OperatingSystem req; Distribution := ""; OSVersion := ""; Kernel := ""; Architecture := ""; CPUModel := "";
        CPUCores := 0; RAMTotal := 0; DiskTotal := 0; PublicIP := ""; PrivateIP := ""; Uptime := 0; LatencyMS := 0; Tags := sanitizeTags [] (c_Tags req);
        UpdateChannel := channel; HealthStatus := "unknown"; Maintenance := false; LastHeartbeat := None; CreatedAt := now; UpdatedAt := now |} in
      try! _ := call (RCreate server) in
      let! enrollment := createEnrollment server coreURL false in
      match enrollment with
      | Err e => ignore! (call (RDelete (ID server))) in Ret (Err e)
      | Ok enrollment => Ret (Ok enrollment)
      end.

(** source: internal/core/remote/service.go:111-123 (ReissueEnrollment) *)
Definition ReissueEnrollment (serverID coreURL : string) : prog remote_call (result remote_error Enrollment) :=
  try! server := call (RGet serverID) in
  match server with
  | None => Ret (Err ErrServerNotFound)
  | Some server =>
      if negb (String.eqb (Status server) "pending") then Ret (Err ErrServerNotPending)
      else createEnrollment server coreURL true
  end.

(** source: internal/core/remote/service.go:190-201 (issueClientCertificate), with the issuer that the
    Core configures *)
Definition issueClientCertificate (serverID hostname csrPEM : string) (now : Z) : prog remote_call (result remote_error (string * string * Z)) :=
  let! key := call (ParseCSR csrPEM) in
  match key with
  | None => Ret (Err (ErrText "invalid certificate signing request"))
  | Some key => call (IssueClient serverID hostname key now)
  end.

(** source: internal/core/remote/service.go:162-188 (Register): [Get] finds the server, or the code
    dereferences nil, which is recovered *)
Definition Register (req : RegistrationRequest) : prog remote_call (result remote_error RegistrationResponse) :=
  if String.eqb (r_Token req) "" || String.eqb (r_MachineID req) "" || String.eqb (r_Hostname req) "" || String.eqb (r_CSRPEM req) ""
  then Ret (Err (ErrText "token, machine_id, hostname and csr are required"))
  else
    let! now := call Now in
    let! consumed := call (RConsumeToken (hex_encode (sha256 (r_Token req))) now) in
    match consumed with
    | Err _ => Ret (Err (ErrText "registration token is invalid, expired, or already used"))
    | Ok serverID =>
        try! issued := issueClientCertificate serverID (r_Hostname req) (r_CSRPEM req) now in
        let '(cert, fingerprint, expires) := issued in
        try! _ := call (RRegister serverID req fingerprint cert expires now) in
        try! server := call (RGet serverID) in
        match server with
        | None => Ret (Err (ErrText "nil pointer dereference"))
        | Some server =>
            Ret (Ok {| rr_ServerID := serverID; CertificatePEM := cert; Fingerprint := fingerprint; rr_HeartbeatInterval := heartbeatInterval;
                       rr_UpdateChannel := UpdateChannel server; AllowedFeatures := ["heartbeat"; "tasks"; "health"; "updates"] |})
        end
    end.

(** source: internal/core/remote/repository.go:292-297 (PendingTasks, the loop): the error of an
    update is dropped *)
Fixpoint start_tasks (now : Z) (l : list Task) : prog remote_call (list Task) :=
  match l with
  | [] => Ret []
  | k :: l => ignore! (call (RStartTask (t_ID k) now)) in let! rest := start_tasks now l in Ret (running now k :: rest)
  end.

(** source: internal/core/remote/repository.go:266-298 (PendingTasks) *)
Definition PendingTasks (serverID : string) (now : Z) : prog remote_call (result remote_error (list Task)) :=
  try! rows := call (RPendingRows serverID) in
  let! started := start_tasks now rows in
  Ret (Ok started).

Definition with_hb_state (s : string) (h : HeartbeatRequest) : HeartbeatRequest :=
  {| hb_State := s; hb_CPU95 := hb_CPU95 h; hb_Memory95 := hb_Memory95 h; hb_Disk95 := hb_Disk95 h; hb_Uptime := hb_Uptime h;
     hb_RunningTasks := hb_RunningTasks h; hb_AgentVersion := hb_AgentVersion h; hb_TaskResults := hb_TaskResults h |}.

(** source: internal/core/remote/service.go:237-254 (Heartbeat) *)
Definition Heartbeat (serverID fingerprint : string) (req : HeartbeatRequest) (latency : Z) : prog remote_call (result remote_error HeartbeatResponse) :=
  let! valid := call (RVerifyCertificate serverID fingerprint) in
  match valid with
  | Ok true =>
      let! now := call Now in
      let req := if String.eqb (hb_State req) "" then with_hb_state "online" req else req in
      try! _ := call (RHeartbeat serverID req latency now) in
      try! tasks := PendingTasks serverID now in
      Ret (Ok {| hr_HeartbeatInterval := heartbeatInterval; hr_Tasks := tasks |})
  | _ => Ret (Err (ErrText "agent certificate is invalid"))
  end.

(** source: internal/core/remote/service.go:256-271 (CreateTask) *)
Definition CreateTask (serverID action payload : string) : prog remote_call (result remote_error Task) :=
  if negb (existsb (String.eqb action) allowedActions) then Ret (Err (ErrText "unsupported server action"))
  else
    try! server := call (RGet serverID) in
    match server with
    | None => Ret (Err (ErrText "server not found"))
    | Some _ =>
        let! id := call NewUUID in
        let! now := call Now in
        let task := {| t_ID := id; t_ServerID := serverID; t_Action := action; t_Payload := payload; t_State := "pending"; t_Output := ""; t_Error := "";
                       t_CreatedAt := now; t_StartedAt := None; t_FinishedAt := None |} in
        try! _ := call (RCreateTask task) in
        Ret (Ok task)
    end.

(** source: internal/core/remote/service.go:273-275 (SetMaintenance) *)
Definition SetMaintenance (serverID : string) (enabled : bool) : prog remote_call (result remote_error ()) :=
  let! now := call Now in call (RSetMaintenance serverID enabled now).

(** source: internal/core/remote/service.go:277-280 (MarkStale) *)
Definition MarkStale : prog remote_call (result remote_error ()) :=
  let! now := call Now in call (RMarkStale (now - minute) (now - 5 * minute) now).

(** source: internal/core/remote/service.go:52-54 (ControlPlaneConnected) *)
Definition ControlPlaneConnected (serverID agentVersion apiVersion : string) : prog remote_call (result remote_error ()) :=
  let! now := call Now in call (RUpdateConnectionMetadata serverID agentVersion apiVersion now).

(** source: internal/core/remote/service.go:58-66 (ControlPlaneHeartbeat) *)
Definition ControlPlaneHeartbeat (serverID agentVersion : string) (cpu memory disk : bool) (uptime runningTasks : Z) : prog remote_call (result remote_error ()) :=
  let! now := call Now in
  call (RHeartbeat serverID {| hb_State := "online"; hb_CPU95 := cpu; hb_Memory95 := memory; hb_Disk95 := disk; hb_Uptime := uptime;
                               hb_RunningTasks := runningTasks; hb_AgentVersion := agentVersion; hb_TaskResults := [] |} 0 now).

(** source: internal/core/remote/service.go:68-70 (ControlPlaneEvent) *)
Definition ControlPlaneEvent (serverID eventType : string) : prog remote_call (result remote_error ()) :=
  let! now := call Now in call (RRecordEvent serverID eventType now).

(** source: internal/core/remote/service.go:72-74 (ControlPlaneTaskProgress) *)
Definition ControlPlaneTaskProgress (serverID taskID state message result_ : string) : prog remote_call (result remote_error ()) :=
  let! now := call Now in call (RUpdateTaskProgress serverID taskID state message result_ now).

(** ** Handlers *)

(** source: internal/core/remote/handler.go:74-74 (LocalServerID) *)
Definition LocalServerID : string := "local".

(** source: internal/core/remote/handler.go:276-289 (Delete) *)
Definition HandleDelete (id : string) : prog remote_call (result error ()) :=
  if String.eqb id LocalServerID then Ret (Err (InvalidInput "the local server cannot be deleted"))
  else
    let! deleted := call (RDelete id) in
    match deleted with
    | Err e => Ret (Err (App (Internal "delete remote server" (Plain (remote_text e)))))
    | Ok _ => ignore! (call (CDisconnect id)) in Ret (Ok ())
    end.

(** source: internal/core/remote/handler.go:318-334 (Action) *)
Definition HandleAction (id action : string) : prog remote_call (result error (option Task)) :=
  if String.eqb action "maintenance_on" || String.eqb action "maintenance_off" then
    let! out := SetMaintenance id (String.eqb action "maintenance_on") in
    Ret (match out with Err e => Err (App (Internal "set maintenance mode" (Plain (remote_text e)))) | Ok _ => Ok None end)
  else
    let! out := CreateTask id action "{}" in
    Ret (match out with Err e => Err (InvalidInput (remote_text e)) | Ok task => Ok (Some task) end).

(** source: internal/core/remote/handler.go:163-182 (Heartbeat): the identity is what the headers
    say *)
Definition HandleHeartbeat (header : string -> string) (body : option HeartbeatRequest) (latency : Z) : prog remote_call (result error HeartbeatResponse) :=
  let serverID := trim_space (header "X-OpenDeploy-Agent-ID") in
  let fingerprint := trim_space (header "X-OpenDeploy-Cert-Fingerprint") in
  if String.eqb serverID "" || String.eqb fingerprint "" then Ret (Err (Unauthorized "agent certificate identity is required"))
  else match body with
       | None => Ret (Err (InvalidInput "invalid heartbeat request"))
       | Some req =>
           let! out := Heartbeat serverID fingerprint req latency in
           Ret (match out with Err e => Err (Unauthorized (remote_text e)) | Ok r => Ok r end)
       end.

(** source: internal/core/remote/handler.go:117-136 (ReissueEnrollment) *)
Definition HandleReissueEnrollment (id coreURL : string) : prog remote_call (result error Enrollment) :=
  let! out := ReissueEnrollment id coreURL in
  Ret (match out with
       | Ok e => Ok e
       | Err ErrServerNotFound => Err (NotFound (remote_text ErrServerNotFound))
       | Err ErrServerNotPending => Err (InvalidInput "enrollment can only be regenerated for a pending server")
       | Err e => Err (App (Internal "regenerate server enrollment" (Plain (remote_text e))))
       end).

(** source: internal/core/remote/handler.go:361-370 (intQuery) *)
Definition intQuery (value : string) (fallback max : Z) : Z :=
  match atoi value with
  | None => fallback
  | Some v => if (v <? 0)%Z then fallback else if (max <? v)%Z then max else v
  end.
End service.
