(* ===== verification/ServersSpec.v ===== *)
(** * The registry of servers: what it promises

    A certificate is given only for an unused, unexpired token, and a token gives one certificate
    ([enrollment_single_use]); the heartbeat of a server touches no other one
    ([heartbeat_isolated]); and a certificate is never renewed ([certificate_never_renewed]). *)

From S2P Require Import Prelude GoStrings GoStrconv GoRegexp GoBase64 AppErrors Effects Servers.
Local Open Scope string_scope.
Local Open Scope go_scope.

Lemma append_inj_tail a b c : a ++ c = b ++ c -> a = b.
Proof.
  intros E. pose proof (f_equal String.length E) as El. rewrite !str_length_app in El.
  assert (String.length a = String.length b) as Eab by lia. clear El. revert b E Eab.
  induction a as [|x a IH]; intros [|y b] E Eab; try done. cbn in *. injection E as -> E. injection Eab as Eab. by rewrite (IH b).
Qed.

(** ** Semantics of the calls *)

Definition reading {A} (t : tables) (a : A) : A * tables := (a, t).

(** The answer of a repository call and the tables after it; the clock of the certificate check is
    [now]. *)
Definition repo {X} (now : Z) (e : remote_call X) (t : tables) : option (X * tables) :=
  match e in remote_call X return option (X * tables) with
  | RCreate s => Some (repo_Create s t)
  | RGet id => Some (reading t (repo_Get id t))
  | RSaveToken id server hash expires created => Some (repo_SaveToken id server hash expires created t)
  | RReplaceToken id server hash expires created => Some (repo_ReplaceToken id server hash expires created t)
  | RConsumeToken hash now => Some (repo_ConsumeToken hash now t)
  | RRegister id req fingerprint cert expiry now => Some (repo_Register id req fingerprint cert expiry now t)
  | RVerifyCertificate server fingerprint => Some (reading t (Ok (repo_VerifyCertificate server fingerprint now t)))
  | RUpdateConnectionMetadata server version api now => Some (repo_UpdateConnectionMetadata server version api now t)
  | RHeartbeat server hb latency now => Some (repo_Heartbeat server hb latency now t)
  | RPendingRows server => Some (reading t (Ok (repo_PendingRows server t)))
  | RStartTask id now => Some (repo_StartTask id now t)
  | RCreateTask k => Some (repo_CreateTask k t)
  | RDelete id => Some (repo_Delete id t)
  | RSetMaintenance id enabled now => Some (repo_SetMaintenance id enabled now t)
  | RRecordEvent server type now => Some (repo_RecordEvent server type now t)
  | RUpdateTaskProgress server task state message result_ now => Some (repo_UpdateTaskProgress server task state message result_ now t)
  | RMarkStale warning offline now => Some (repo_MarkStale warning offline now t)
  | _ => None
  end.

(** A database error. *)
Definition failed {X} (e : remote_call X) (x : X) : Prop :=
  match e in remote_call X return X -> Prop with
  | RCreate _ | RSaveToken _ _ _ _ _ | RReplaceToken _ _ _ _ _ | RRegister _ _ _ _ _ _ | RUpdateConnectionMetadata _ _ _ _ | RHeartbeat _ _ _ _
  | RStartTask _ _ | RCreateTask _ | RDelete _ | RSetMaintenance _ _ _ | RRecordEvent _ _ _ | RUpdateTaskProgress _ _ _ _ _ _ | RMarkStale _ _ _ =>
      fun x => exists m, x = Err (ErrText m)
  | RGet _ => fun x => exists m, x = Err (ErrText m)
  | RConsumeToken _ _ => fun x => exists m, x = Err (ErrText m)
  | RVerifyCertificate _ _ => fun x => exists m, x = Err (ErrText m)
  | RPendingRows _ => fun x => exists m, x = Err (ErrText m)
  | _ => fun _ => False
  end x.

(** One call: a repository call is answered from the tables, at some time, or fails without effect;
    any other call is answered arbitrarily. *)
Definition sem X (e : remote_call X) (t : tables) (x : X) (t' : tables) : Prop :=
  exists now, match repo now e t with Some out => out = (x, t') \/ failed e x /\ t' = t | None => t' = t end.

Notation runs := (runs sem).
Notation wp := (wp sem).

Lemma registry_sem_cases X (e : remote_call X) t x t' : sem X e t x t' -> t' = t \/ exists now, repo now e t = Some (x, t').
Proof. intros [now H]. destruct (repo now e t) as [out|] eqn:E; [|by left]. destruct H as [->|[_ ->]]; [right; by exists now|by left]. Qed.

(** ** The invariant *)

Record registry_ok (t : tables) : Prop := {
  ok_server i s : servers t !! i = Some s -> ID s = i;
  ok_hash i j k l : tokens t !! i = Some k -> tokens t !! j = Some l -> tk_Hash k = tk_Hash l -> i = j;
  ok_token i k : tokens t !! i = Some k -> is_Some (servers t !! tk_ServerID k);
  ok_certificate i c : certificates t !! i = Some c ->
    i = cert_ServerID c ++ "-cert" /\ exists s, servers t !! cert_ServerID c = Some s /\ Status s <> "pending";
  ok_task i k : tasks t !! i = Some k -> t_ID k = i /\ is_Some (servers t !! t_ServerID k) }.

Lemma some_row_false {A} (p : A -> bool) (m : gmap string A) i a : some_row p m = false -> m !! i = Some a -> p a = false.
Proof.
  unfold some_row. intros Hf Hi. destruct (p a) eqn:Hp; [|done]. assert (existsb (fun '(_, a) => p a) (map_to_list m) = true); [|congruence].
  apply existsb_exists. exists (i, a). split; [|done]. by apply list_elem_of_In, elem_of_map_to_list.
Qed.

Lemma find_row_some {A} (p : A -> bool) (m : gmap string A) i a : find_row p m = Some (i, a) -> m !! i = Some a /\ p a = true.
Proof. unfold find_row. intros [Hin Hp]%find_some. split; [|done]. by apply elem_of_map_to_list, list_elem_of_In. Qed.

(** A change of servers that keeps who they are, and does not make one pending. *)
Definition keeps_servers (m m' : gmap string Server) : Prop :=
  forall i s, m !! i = Some s -> exists s', m' !! i = Some s' /\ ID s' = ID s /\ (Status s <> "pending" -> Status s' <> "pending").

Lemma change_servers_ok t m :
  keeps_servers (servers t) m -> (forall i, is_Some (m !! i) -> is_Some (servers t !! i)) -> registry_ok t -> registry_ok (set_servers m t).
Proof.
  intros Hk Hd []. assert (forall i, is_Some (servers t !! i) -> is_Some (m !! i)) as Hup.
  { intros i [s Hs]. destruct (Hk _ _ Hs) as (s' & -> & _). by eexists. }
  constructor; cbn [servers tokens certificates tasks set_servers]; try done.
  - intros i s' Hs'. destruct (Hd i (mk_is_Some _ _ Hs')) as [s Hs]. destruct (Hk _ _ Hs) as (u & Hu & E & _). simplify_eq. rewrite E. eauto.
  - eauto.
  - intros i c Hc. destruct (ok_certificate0 _ _ Hc) as (E & s & Hs & Hp). destruct (Hk _ _ Hs) as (s' & Hs' & _ & Hp'). eauto.
  - intros i k Hi. destruct (ok_task0 _ _ Hi). eauto.
Qed.

Lemma alter_keeps id f (m : gmap string Server) :
  (forall s, ID (f s) = ID s) -> (forall s, Status s <> "pending" -> Status (f s) <> "pending") ->
  keeps_servers m (update_row id f m) /\ forall i, is_Some (update_row id f m !! i) -> is_Some (m !! i).
Proof.
  intros Hid Hst. unfold update_row. split.
  - intros i s Hs. destruct (decide (id = i)) as [->|Hne]; [rewrite lookup_alter_eq, Hs|rewrite lookup_alter_ne, Hs by done]; eexists; split_and!; eauto.
  - intros i. destruct (decide (id = i)) as [->|Hne]; [rewrite lookup_alter_eq|by rewrite lookup_alter_ne]. by rewrite fmap_is_Some.
Qed.

Lemma insert_token_ok id server hash expires created t t' :
  insert_token id server hash expires created t = Some t' -> registry_ok t ->
  registry_ok t' /\ servers t' = servers t /\ certificates t' = certificates t /\ tasks t' = tasks t.
Proof.
  unfold insert_token. destruct (tokens t !! id) eqn:Hid; [done|]. destruct (servers t !! server) eqn:Hs; [|done].
  destruct (some_row _ _) eqn:Hr; [done|]. intros [= <-] []. split; [|done].
  constructor; cbn [servers tokens certificates tasks set_tokens]; try done.
  - assert (forall j l, tokens t !! j = Some l -> tk_Hash l <> hash) as Hne.
    { intros j l Hj. apply String.eqb_neq. exact (some_row_false _ _ _ _ Hr Hj). }
    intros i j k l [[<- <-]|[_ Hi]]%lookup_insert_Some [[<- <-]|[_ Hj]]%lookup_insert_Some E; cbn in E; [done| | |eauto]; exfalso; eapply Hne; eauto.
  - intros i k [[<- <-]|[_ Hi]]%lookup_insert_Some; [cbn; by rewrite Hs|eauto].
Qed.

(** The hashes and servers of tokens stay. *)
Lemma change_tokens_ok t m :
  (forall i k, m !! i = Some k -> exists k', tokens t !! i = Some k' /\ tk_Hash k' = tk_Hash k /\ tk_ServerID k' = tk_ServerID k) ->
  registry_ok t -> registry_ok (set_tokens m t).
Proof.
  intros Hm []. constructor; cbn [servers tokens certificates tasks set_tokens]; try done.
  - intros i j k l Hi Hj E. destruct (Hm _ _ Hi) as (k' & Hk' & E1 & _), (Hm _ _ Hj) as (l' & Hl' & E2 & _). eapply ok_hash0; eauto. congruence.
  - intros i k Hi. destruct (Hm _ _ Hi) as (k' & Hk' & _ & <-). eauto.
Qed.

(** The identifiers and servers of tasks stay. *)
Lemma change_tasks_ok t m :
  (forall i k, m !! i = Some k -> exists k', tasks t !! i = Some k' /\ t_ID k' = t_ID k /\ t_ServerID k' = t_ServerID k) ->
  registry_ok t -> registry_ok (set_tasks m t).
Proof.
  intros Hm []. constructor; cbn [servers tokens certificates tasks set_tasks]; try done.
  intros i k Hi. destruct (Hm _ _ Hi) as (k' & Hk' & <- & <-). eauto.
Qed.

(** Updates of tasks keep their identifiers and servers. *)
Definition same_tasks (m m' : gmap string Task) : Prop :=
  forall i k, m' !! i = Some k -> exists k', m !! i = Some k' /\ t_ID k' = t_ID k /\ t_ServerID k' = t_ServerID k.

Lemma same_tasks_refl m : same_tasks m m.
Proof. by intros i k ?; exists k. Qed.

Lemma same_tasks_trans m1 m2 m3 : same_tasks m1 m2 -> same_tasks m2 m3 -> same_tasks m1 m3.
Proof. intros H1 H2 i k Hk. destruct (H2 _ _ Hk) as (k2 & Hk2 & E1 & E2). destruct (H1 _ _ Hk2) as (k1 & Hk1 & E3 & E4). exists k1. split_and!; congruence. Qed.

Lemma alter_tasks id f (m : gmap string Task) :
  (forall k, t_ID (f k) = t_ID k /\ t_ServerID (f k) = t_ServerID k) -> same_tasks m (alter f id m).
Proof.
  intros Hf i k. destruct (decide (id = i)) as [->|Hne]; [rewrite lookup_alter_eq|rewrite lookup_alter_ne by done; eauto].
  destruct (m !! i) as [k'|]; [|done]. cbn. intros [= <-]. exists k'. destruct (Hf k') as [-> ->]. done.
Qed.

Lemma update_task_same server id state output error finished m :
  same_tasks m (update_task server id (finish_task state output error finished) m).
Proof. apply alter_tasks. intros k. by destruct (String.eqb _ _). Qed.

Lemma results_same server now l m : same_tasks m (foldl (task_result server now) m l).
Proof.
  revert m. induction l as [|r l IH]; intros m; [apply same_tasks_refl|]. cbn [foldl]. eapply same_tasks_trans; [|apply IH].
  unfold task_result. destruct (_ && _); [apply same_tasks_refl|apply update_task_same].
Qed.

Lemma stale_keeps (f : Server -> Server) (m : gmap string Server) :
  (forall s, ID (f s) = ID s) -> (forall s, Status s <> "pending" -> Status (f s) <> "pending") ->
  keeps_servers m (f <$> m) /\ forall i, is_Some ((f <$> m) !! i) -> is_Some (m !! i).
Proof.
  intros Hid Hst. split; [|intros i; by rewrite lookup_fmap, fmap_is_Some].
  intros i s Hs. rewrite lookup_fmap, Hs. eexists. split_and!; [done|apply Hid|apply Hst].
Qed.

Lemma register_ok id req fingerprint cert expiry now t :
  registry_ok t -> registry_ok (snd (repo_Register id req fingerprint cert expiry now t)).
Proof.
  intros Hok. unfold repo_Register. destruct (servers t !! id) as [s|] eqn:Hs; [|done].
  destruct (certificates t !! (id ++ "-cert")) eqn:Hc; [done|]. destruct (some_row _ _); [done|].
  destruct (alter_keeps id (registered req now) (servers t)) as [Hk Hd]; [done|done|].
  pose proof (change_servers_ok _ _ Hk Hd Hok) as [].
  constructor; cbn [servers tokens certificates tasks set_servers set_certificates add_event snd]; try done.
  intros i c [[<- <-]|[_ Hi]]%lookup_insert_Some; [|eauto]. cbn. split; [done|]. unfold update_row. rewrite lookup_alter_eq, Hs. by eexists.
Qed.

Lemma delete_ok id t : registry_ok t -> registry_ok (snd (repo_Delete id t)).
Proof.
  intros []. assert (forall i, i <> id -> is_Some (servers t !! i) -> is_Some (delete id (servers t) !! i)) as Hd by (intros i Hne; by rewrite lookup_delete_ne).
  constructor; cbn [servers tokens certificates tasks repo_Delete snd].
  - intros i s [_ Hs]%lookup_delete_Some. eauto.
  - intros i j k l [Hi _]%map_lookup_filter_Some [Hj _]%map_lookup_filter_Some. eauto.
  - intros i k [Hi Hne]%map_lookup_filter_Some. eauto.
  - intros i c [Hi Hne]%map_lookup_filter_Some. destruct (ok_certificate0 _ _ Hi) as (E & s & Hs & Hp). split; [done|]. exists s. by rewrite lookup_delete_ne.
  - intros i k [Hi Hne]%map_lookup_filter_Some. destruct (ok_task0 _ _ Hi). eauto.
Qed.

Lemma rest_ok t t' : servers t' = servers t -> tokens t' = tokens t -> certificates t' = certificates t -> tasks t' = tasks t -> registry_ok t -> registry_ok t'.
Proof. intros E1 E2 E3 E4 []. constructor; rewrite ?E1, ?E2, ?E3, ?E4; done. Qed.

Lemma create_ok s t : registry_ok t -> registry_ok (snd (repo_Create s t)).
Proof.
  intros Hok. unfold repo_Create. destruct (servers t !! ID s) eqn:Hs; [done|]. destruct Hok.
  assert (forall i, is_Some (servers t !! i) -> is_Some (<[ID s := s]> (servers t) !! i)) as Hup by (intros i ?; apply lookup_insert_is_Some'; auto).
  constructor; cbn [servers tokens certificates tasks set_servers snd]; try done.
  - intros i u [[<- <-]|[_ Hu]]%lookup_insert_Some; eauto.
  - eauto.
  - intros i c Hc. destruct (ok_certificate0 _ _ Hc) as (E & u & Hu & Hp). split; [done|]. exists u. rewrite lookup_insert_ne; [done|congruence].
  - intros i k Hk. destruct (ok_task0 _ _ Hk). eauto.
Qed.

Lemma repo_ok X (e : remote_call X) now t x t' : repo now e t = Some (x, t') -> registry_ok t -> registry_ok t'.
Proof.
  intros Hr Hok. apply (f_equal (option_map snd)) in Hr.
  destruct e; try discriminate Hr; cbn [repo option_map snd reading] in Hr; injection Hr as <-; try done.
  - by apply create_ok.
  - unfold repo_SaveToken. destruct (insert_token _ _ _ _ _ _) eqn:E; [|done]. by apply (insert_token_ok _ _ _ _ _ _ _ E).
  - unfold repo_ReplaceToken. destruct (servers t !! serverID); [|done]. destruct (negb _); [done|].
    destruct (insert_token _ _ _ _ _ _) eqn:E; [|done]. apply (insert_token_ok _ _ _ _ _ _ _ E). apply change_tokens_ok; [|done].
    intros i k. rewrite lookup_fmap. destruct (tokens t !! i) as [k'|]; [|done]. intros [= <-]. exists k'. by destruct (_ && _).
  - unfold repo_ConsumeToken. destruct (find_row _ _) as [[i k]|] eqn:E; [|done]. destruct (negb _); [done|].
    apply find_row_some in E as [Hk _]. apply change_tokens_ok; [|done]. intros j l [[<- <-]|[_ Hj]]%lookup_insert_Some; eauto.
  - by apply register_ok.
  - apply change_servers_ok; [apply alter_keeps..|done]; done.
  - unfold repo_Heartbeat. destruct (servers t !! serverID); [|done]. apply change_tasks_ok; [apply results_same|].
    apply change_servers_ok; [apply alter_keeps..|]; try done. by apply (rest_ok t).
  - apply change_tasks_ok; [by apply alter_tasks|done].
  - unfold repo_CreateTask. destruct (tasks t !! t_ID k); [done|]. destruct (servers t !! t_ServerID k) eqn:Hs; [|done]. destruct Hok.
    constructor; cbn [servers tokens certificates tasks set_tasks snd]; try done.
    intros i u [[<- <-]|[_ Hu]]%lookup_insert_Some; [by rewrite Hs|eauto].
  - by apply delete_ok.
  - apply change_servers_ok; [apply alter_keeps..|done]; done.
  - unfold repo_RecordEvent. destruct (servers t !! serverID); [by apply (rest_ok t)|done].
  - apply change_tasks_ok; [apply update_task_same|done].
  - apply change_servers_ok; [apply stale_keeps..|done]; intros s; repeat case_match; try done; by apply String.eqb_neq.
Qed.

(** Every operation of the service keeps the registry consistent. *)
Lemma registry_kept A (p : prog remote_call A) t a t' : runs p t a t' -> registry_ok t -> registry_ok t'.
Proof. apply runs_invariant. intros X e s x s' [->|[now Hr]]%registry_sem_cases Hok; [done|]. by eapply repo_ok. Qed.

(** ** Enrollment *)

Section service.
Context `{HUnicode : Unicode} `{HDigest : Digest}.

Definition token_hash (token : string) : string := hex_encode (sha256 token).

(** A certificate for the server of a token that was unused and not expired, and is used now. *)
Definition enrolled (hash : string) (t t' : tables) : Prop :=
  exists id k now c, tokens t !! id = Some k /\ tk_Hash k = hash /\ tk_UsedAt k = None /\ (now < tk_ExpiresAt k)%Z /\ tokens t' !! id = Some (used_at now k) /\
    certificates t !! (tk_ServerID k ++ "-cert") = None /\ certificates t' = <[tk_ServerID k ++ "-cert" := c]> (certificates t) /\ cert_ServerID c = tk_ServerID k.

Lemma consume_cases hash now t x t' :
  sem _ (RConsumeToken hash now) t x t' ->
  match x with
  | Err _ => t' = t
  | Ok server => exists id k, tokens t !! id = Some k /\ tk_Hash k = hash /\ tk_UsedAt k = None /\ (now < tk_ExpiresAt k)%Z /\ server = tk_ServerID k /\
                   t' = set_tokens (<[id := used_at now k]> (tokens t)) t
  end.
Proof.
  intros [now' [Ho|[[m ->] ->]]]; [|done]. cbn [repo repo_ConsumeToken] in Ho. unfold repo_ConsumeToken in Ho.
  destruct (find_row _ _) as [[id k]|] eqn:Hf; [|by injection Ho as <- <-]. apply find_row_some in Hf as [Hk [Hh%String.eqb_eq Hu]%andb_true_iff].
  destruct (now <? tk_ExpiresAt k)%Z eqn:He; cbn [negb] in Ho; injection Ho as <- <-; [|done].
  exists id, k. split_and!; try done; [|by apply Z.ltb_lt]. unfold unused in Hu. by destruct (tk_UsedAt k).
Qed.

Lemma register_cases id req fingerprint cert expiry now t x t' :
  sem _ (RRegister id req fingerprint cert expiry now) t x t' ->
  match x with
  | Err _ => t' = t
  | Ok _ => exists c, certificates t !! (id ++ "-cert") = None /\ certificates t' = <[id ++ "-cert" := c]> (certificates t) /\ cert_ServerID c = id /\ tokens t' = tokens t
  end.
Proof.
  intros [now' [Ho|[[m ->] ->]]]; [|done]. cbn [repo] in Ho. unfold repo_Register in Ho.
  destruct (servers t !! id); [|by injection Ho as <- <-]. destruct (certificates t !! (id ++ "-cert")) eqn:Hc; [by injection Ho as <- <-|].
  destruct (some_row _ _); injection Ho as <- <-; [done|]. eexists. by split_and!.
Qed.

Lemma registry_sem_keeps X (e : remote_call X) t x t' : (forall now, option_map snd (repo now e t) = Some t \/ repo now e t = None) -> sem X e t x t' -> t' = t.
Proof.
  intros He [->|[now Hr]]%registry_sem_cases; [done|]. destruct (He now) as [E|E]; rewrite Hr in E; [|done]. by injection E.
Qed.

Ltac quiet_call y :=
  let Hq := fresh in intros y ? Hq; apply registry_sem_keeps in Hq; [subst|intros ?; first [left; reflexivity | right; reflexivity]].

Lemma Register_enrolls req t :
  wp (fun _ t' => certificates t' = certificates t \/ enrolled (token_hash (r_Token req)) t t') (Register req) t.
Proof.
  unfold Register. destruct (_ || _); [by left|]. cbn [bind call Effects.wp]. quiet_call now.
  intros x t1 Hs. apply consume_cases in Hs. destruct x as [server|e]; [|subst; by left].
  destruct Hs as (id & k & Hk & Hh & Hu & He & -> & ->). cbn [bind bind_err call]. unfold issueClientCertificate. cbn [bind call Effects.wp].
  quiet_call key. destruct key as [key|]; [|by left]. cbn [bind call Effects.wp]. quiet_call issued.
  destruct issued as [[[cert fingerprint] expires]|e]; [|by left]. cbn [bind bind_err call Effects.wp].
  intros x t2 Hs. apply register_cases in Hs. destruct x as [[]|e]; [|subst; by left].
  destruct Hs as (c & Hn & Ec & Es & Et). cbn [certificates set_tokens tokens] in *. cbn [bind bind_err call Effects.wp].
  assert (enrolled (token_hash (r_Token req)) t t2) as Hen.
  { exists id, k, now, c. split_and!; try done. rewrite Et. apply lookup_insert_eq. }
  quiet_call server. destruct server as [[server|]|e]; by right.
Qed.

Definition spent (hash : string) (t : tables) : Prop := exists id k, tokens t !! id = Some k /\ tk_Hash k = hash /\ tk_UsedAt k <> None.

Lemma Register_spent req t :
  registry_ok t -> spent (token_hash (r_Token req)) t -> wp (fun r t' => t' = t /\ exists e, r = Err e) (Register req) t.
Proof.
  intros Hok (i & l & Hi & Hh & Hu). unfold Register. destruct (_ || _); [split; [done|by eexists]|].
  cbn [bind call Effects.wp]. quiet_call now.
  intros x t1 Hs. apply consume_cases in Hs. destruct x as [server|e]; [|subst; split; [done|by eexists]].
  exfalso. destruct Hs as (id & k & Hk & Hh' & Hu' & _). assert (id = i) as -> by exact (ok_hash _ Hok _ _ _ _ Hk Hi (eq_trans Hh' (eq_sym Hh))).
  congruence.
Qed.

(** C30. Whoever registers, with whatever request and however the database answers: the certificates
    stay as they are, or there is one more, for the server of a token that was unused and not
    expired, that the request knew, and that is used up by this; and with a token that was used
    before, the registration fails and changes nothing. *)
Theorem enrollment_single_use req t r t' :
  registry_ok t -> runs (Register req) t r t' ->
  (certificates t' = certificates t \/ enrolled (token_hash (r_Token req)) t t') /\
  (spent (token_hash (r_Token req)) t -> t' = t /\ exists e, r = Err e).
Proof.
  intros Hok Hr. split; [exact (proj1 (wp_runs sem _ _ _) (Register_enrolls req t) _ _ Hr)|].
  intros Hs. exact (proj1 (wp_runs sem _ _ _) (Register_spent req t Hok Hs) _ _ Hr).
Qed.

(** ** Certificates are not renewed *)

(** The call does not delete the server. *)
Definition keeps_server (server : string) {X} (e : remote_call X) : Prop := match e with RDelete id => id <> server | _ => True end.

Lemma sem_certificate server X (e : remote_call X) t x t' c :
  keeps_server server e -> sem X e t x t' -> registry_ok t -> certificates t !! (server ++ "-cert") = Some c ->
  registry_ok t' /\ certificates t' !! (server ++ "-cert") = Some c.
Proof.
  intros He Hs Hok Hc. assert (registry_ok t') as Hok' by (apply registry_sem_cases in Hs as [->|[now Hr]]; [done|by eapply repo_ok]).
  split; [done|]. apply registry_sem_cases in Hs as [->|[now Hr]]; [done|]. apply (f_equal (option_map snd)) in Hr.
  destruct (ok_certificate _ Hok _ _ Hc) as (Ek & _).
  destruct e; try discriminate Hr; cbn [repo option_map snd reading] in Hr; injection Hr as <-; try done.
  - unfold repo_Create. by destruct (servers t !! _).
  - unfold repo_SaveToken, insert_token. destruct (tokens t !! id); [done|]. destruct (servers t !! serverID); [|done]. by destruct (some_row _ _).
  - unfold repo_ReplaceToken, insert_token. destruct (servers t !! serverID) eqn:E; [|done]. destruct (negb _); [done|].
    cbn [tokens servers set_tokens]. destruct ((_ <$> tokens t) !! id); [done|]. rewrite E. by destruct (some_row _ _).
  - unfold repo_ConsumeToken. destruct (find_row _ _) as [[i k]|]; [|done]. by destruct (negb _).
  - unfold repo_Register. destruct (servers t !! id); [|done]. destruct (certificates t !! (id ++ "-cert")) eqn:E; [done|]. destruct (some_row _ _); [done|].
    cbn. rewrite lookup_insert_ne; [done|congruence].
  - unfold repo_Heartbeat. by destruct (servers t !! serverID).
  - unfold repo_CreateTask. destruct (tasks t !! _); [done|]. by destruct (servers t !! _).
  - cbn. apply map_lookup_filter_Some. split; [done|]. apply append_inj_tail in Ek. subst server. by apply not_eq_sym.
  - unfold repo_RecordEvent. by destruct (servers t !! serverID).
Qed.

Lemma runs_certificate A (p : prog remote_call A) server t a t' c :
  calls (fun X e => keeps_server server e) p -> runs p t a t' -> registry_ok t -> certificates t !! (server ++ "-cert") = Some c ->
  registry_ok t' /\ certificates t' !! (server ++ "-cert") = Some c.
Proof.
  revert t. induction p as [b|X e k IH]; intros t Hc Hr Hok Hcert; cbn in Hr; [by destruct Hr as [_ ->]|].
  destruct Hc as [He Hk]. destruct Hr as (x & t1 & Hs & Hr). destruct (sem_certificate _ _ _ _ _ _ _ He Hs Hok Hcert). by apply (IH x t1 (Hk x) Hr).
Qed.

(** Only the certificate of a server verifies for it, and only before it expires. *)
Lemma expired_rejected server fingerprint now t c :
  registry_ok t -> certificates t !! (server ++ "-cert") = Some c -> (cert_ExpiresAt c <= now)%Z -> repo_VerifyCertificate server fingerprint now t = false.
Proof.
  intros Hok Hc Hexp. unfold repo_VerifyCertificate. set (p := fun '(_, _) => _). destruct (List.filter p _) as [|[i d] l] eqn:Hf; [done|]. exfalso.
  assert (In (i, d) (List.filter p (map_to_list (certificates t)))) as [Hin Hp]%filter_In by (rewrite Hf; by left).
  apply list_elem_of_In, elem_of_map_to_list in Hin. destruct (ok_certificate _ Hok _ _ Hin) as (Ei & _). cbn in Hp.
  rewrite !andb_true_iff in Hp. destruct Hp as (((Hs%String.eqb_eq & _) & _) & Hn%Z.ltb_lt). subst server. rewrite <- Ei in Hc. simplify_eq. lia.
Qed.

Lemma reissue_refused server coreURL t c :
  registry_ok t -> certificates t !! (server ++ "-cert") = Some c -> cert_ServerID c = server ->
  wp (fun r t' => t' = t /\ exists e, r = Err e) (ReissueEnrollment server coreURL) t.
Proof.
  intros Hok Hc Es. destruct (ok_certificate _ Hok _ _ Hc) as (_ & s & Hs & Hp). rewrite Es in Hs. unfold ReissueEnrollment. cbn [bind_err bind call].
  intros x t1 [now [Ho|[[m ->] ->]]]; [|split; [done|by eexists]]. cbn [repo] in Ho. unfold reading, repo_Get in Ho. rewrite Hs in Ho. injection Ho as <- <-. cbn [bind].
  apply String.eqb_neq in Hp as ->. split; [done|by eexists].
Qed.

(** Certificates are not renewed: once a server has one, whatever the service is asked to do
    short of deleting the server, the server keeps that certificate, which is rejected once it has
    expired, ninety days after the enrollment, and no further enrollment is issued for it. *)
Theorem certificate_never_renewed A (p : prog remote_call A) server t a t' c :
  registry_ok t -> certificates t !! (server ++ "-cert") = Some c -> calls (fun X e => keeps_server server e) p -> runs p t a t' ->
  certificates t' !! (server ++ "-cert") = Some c /\
  (forall fingerprint now, (cert_ExpiresAt c <= now)%Z -> repo_VerifyCertificate server fingerprint now t' = false) /\
  (forall coreURL r t'', runs (ReissueEnrollment server coreURL) t' r t'' -> t'' = t' /\ exists e, r = Err e).
Proof.
  intros Hok Hc Hp Hr. destruct (runs_certificate _ _ _ _ _ _ _ Hp Hr Hok Hc) as [Hok' Hc']. split; [done|]. split.
  - intros fingerprint now. by apply expired_rejected.
  - intros coreURL. apply (wp_runs sem (fun r t'' => t'' = t' /\ exists e, r = Err e)). apply (reissue_refused _ _ _ c); [done|done|].
    destruct (ok_certificate _ Hok' _ _ Hc') as (E & _). by apply append_inj_tail in E.
Qed.

(** ** Heartbeats *)

(** Nothing of another server has changed. *)
Record apart (server : string) (t t' : tables) : Prop := {
  apart_servers i s : servers t !! i = Some s -> i <> server -> servers t' !! i = Some s;
  apart_tasks i k : tasks t !! i = Some k -> t_ServerID k <> server -> tasks t' !! i = Some k;
  apart_tokens : tokens t' = tokens t;
  apart_certificates : certificates t' = certificates t }.

Lemma apart_refl server t : apart server t t.
Proof. by constructor. Qed.
Lemma apart_trans server t1 t2 t3 : apart server t1 t2 -> apart server t2 t3 -> apart server t1 t3.
Proof. intros [] []. constructor; eauto; congruence. Qed.

Lemma results_apart server now l m i k : m !! i = Some k -> t_ServerID k <> server -> foldl (task_result server now) m l !! i = Some k.
Proof.
  intros Hi Hne. revert m Hi. induction l as [|r l IH]; intros m Hi; [done|]. cbn [foldl]. apply IH. unfold task_result.
  destruct (_ && _); [done|]. unfold update_task. destruct (decide (tr_ID r = i)) as [->|Hd]; [|by rewrite lookup_alter_ne].
  rewrite lookup_alter_eq, Hi. cbn. by apply String.eqb_neq in Hne as ->.
Qed.

Lemma heartbeat_apart server hb latency now t x t' : sem _ (RHeartbeat server hb latency now) t x t' -> apart server t t'.
Proof.
  intros [now' [Ho|[_ ->]]]; [|apply apart_refl]. cbn [repo] in Ho. unfold repo_Heartbeat in Ho.
  destruct (servers t !! server) as [s0|]; [|injection Ho as _ <-; apply apart_refl]. injection Ho as _ <-.
  constructor; cbn; [|intros; by apply results_apart|done|done]. intros i s Hs Hne. unfold update_row. by rewrite lookup_alter_ne.
Qed.

(** The tasks of a list belong to the server. *)
Definition mine (server : string) (l : list Task) (t : tables) : Prop :=
  forall k k', In k l -> tasks t !! t_ID k = Some k' -> t_ServerID k' = server.

Lemma start_tasks_wp server now l t :
  mine server l t -> wp (fun r t' => r = map (running now) l /\ apart server t t') (start_tasks now l) t.
Proof.
  revert t. induction l as [|k l IH]; intros t Hm; [by split; [|apply apart_refl]|]. cbn [start_tasks]. cbn [bind call Effects.wp]. intros x t1 Hs.
  assert (apart server t t1 /\ mine server l t1) as [Hap Hm1].
  { destruct Hs as [now' [Ho|[_ ->]]]; [|split; [apply apart_refl|]; intros a b Ha; apply Hm; by right]. cbn [repo] in Ho. injection Ho as _ <-. split.
    - constructor; cbn; try done. intros i u Hu Hne. unfold update_row. destruct (decide (t_ID k = i)) as [<-|Hd]; [|by rewrite lookup_alter_ne].
      exfalso. apply Hne. apply (Hm k); [by left|done].
    - intros a b Ha Hb. destruct (alter_tasks (t_ID k) (running now) (tasks t) (fun _ => conj eq_refl eq_refl) _ _ Hb) as (b' & Hb' & _ & <-).
      apply (Hm a); [by right|done]. }
  apply wp_bind. eapply wp_mono; [|by apply IH]. intros r t2 [-> Hap2]. split; [done|]. by eapply apart_trans.
Qed.

Lemma pending_rows server t k : registry_ok t -> In k (repo_PendingRows server t) ->
  t_ServerID k = server /\ t_State k = "pending" /\ tasks t !! t_ID k = Some k.
Proof.
  intros Hok Hin. unfold repo_PendingRows in Hin. apply list_elem_of_In, elem_of_take in Hin as (n & Hn%list_elem_of_lookup_2 & _).
  rewrite isort_perm in Hn. apply list_elem_of_In, filter_In in Hn as [Hn [Hs%String.eqb_eq Hp%String.eqb_eq]%andb_true_iff].
  apply in_map_iff in Hn as ([i k'] & <- & Hi). apply list_elem_of_In, elem_of_map_to_list in Hi. cbn [snd].
  destruct (ok_task _ Hok _ _ Hi) as [<- _]. done.
Qed.

Lemma Heartbeat_wp server fingerprint req latency t :
  registry_ok t ->
  wp (fun r t' => apart server t t' /\
        forall resp, r = Ok resp ->
          (exists now, repo_VerifyCertificate server fingerprint now t = true) /\ length (hr_Tasks resp) <= 10 /\
          Forall (fun k => t_ServerID k = server /\ t_State k = "running") (hr_Tasks resp))
    (Heartbeat server fingerprint req latency) t.
Proof.
  intros Hok. unfold Heartbeat. cbn [bind call Effects.wp]. intros x t1 [clock Hx].
  assert (t1 = t /\ (x = Ok true -> repo_VerifyCertificate server fingerprint clock t = true)) as [-> Hv].
  { destruct Hx as [Ho|[[m ->] ->]]; [|done]. cbn [repo] in Ho. injection Ho as <- <-. split; [done|]. congruence. }
  destruct x as [[]|e]; [|split; [apply apart_refl|done]..]. cbn [bind call Effects.wp]. quiet_call now. intros x t1 Hs.
  pose proof (heartbeat_apart _ _ _ _ _ _ _ Hs) as Hap.
  assert (registry_ok t1) as Hok1 by (apply registry_sem_cases in Hs as [->|[n Hr]]; [done|by eapply repo_ok]).
  destruct x as [[]|e]; [|by split]. cbn [bind bind_err]. unfold PendingTasks. cbn [bind bind_err call Effects.wp]. intros x t2 [n Hx2].
  assert (t2 = t1 /\ (forall rows, x = Ok rows -> rows = repo_PendingRows server t1)) as [-> Hrows].
  { destruct Hx2 as [Ho|[[m ->] ->]]; [|done]. cbn [repo] in Ho. injection Ho as <- <-. split; [done|]. congruence. }
  destruct x as [rows|e]; [|by split]. rewrite (Hrows rows eq_refl). set (l := repo_PendingRows server t1). cbn [bind]. apply wp_bind, wp_bind. eapply wp_mono.
  2:{ apply (start_tasks_wp server now l t1). intros k k' Hk Hk'. destruct (pending_rows _ _ _ Hok1 Hk) as (<- & _ & E). congruence. }
  intros r t2 [-> Hap2]. cbn. split; [by eapply apart_trans|]. intros resp [= <-]. cbn [hr_Tasks]. split; [by eexists; apply Hv|]. split.
  - rewrite length_map. unfold l, repo_PendingRows. rewrite length_take. lia.
  - apply Forall_map, Forall_forall. intros k Hk%list_elem_of_In. cbn. by destruct (pending_rows _ _ _ Hok1 Hk) as (-> & _).
Qed.

(** A heartbeat for a server, whoever sends it and however the database answers, changes
    nothing of another server: neither its row, nor its tasks, nor any token or certificate; it is
    answered only if the certificate of the server with that fingerprint is valid, and then with at
    most ten tasks, all of that server and marked as running. *)
Theorem heartbeat_isolated server fingerprint req latency t r t' :
  registry_ok t -> runs (Heartbeat server fingerprint req latency) t r t' ->
  apart server t t' /\
  forall resp, r = Ok resp ->
    (exists now, repo_VerifyCertificate server fingerprint now t = true) /\ length (hr_Tasks resp) <= 10 /\
    Forall (fun k => t_ServerID k = server /\ t_State k = "running") (hr_Tasks resp).
Proof. intros Hok Hr. exact (proj1 (wp_runs sem _ _ _) (Heartbeat_wp server fingerprint req latency t Hok) _ _ Hr). Qed.
End service.

(** ** An example *)

Module Example.
#[local] Instance digest : Digest := {| sha256 := fun s => s |}.

Definition web : Server := {|
  ID := "s1"; Name := "web"; Hostname := ""; Description := ""; MachineID := ""; Status := "pending"; AgentVersion := ""; APIVersion := ""; OS := "linux";
  Distribution := ""; OSVersion := ""; Kernel := ""; Architecture := ""; CPUModel := ""; CPUCores := 0; RAMTotal := 0; DiskTotal := 0; PublicIP := "";
  PrivateIP := ""; Uptime := 0; LatencyMS := 0; Tags := []; UpdateChannel := "stable"; HealthStatus := "unknown"; Maintenance := false;
  LastHeartbeat := None; CreatedAt := 0; UpdatedAt := 0 |}.
Definition invitation : Token := {| tk_ServerID := "s1"; tk_Hash := token_hash "odreg_x"; tk_ExpiresAt := 100; tk_UsedAt := None; tk_CreatedAt := 0 |}.
Definition invited : tables := {| servers := {["s1" := web]}; tokens := {["t1" := invitation]}; certificates := ∅; tasks := ∅; heartbeats := []; events := [] |}.
Definition request_ : RegistrationRequest := {|
  r_Token := "odreg_x"; r_MachineID := "m"; r_Hostname := "web.example.org"; r_OS := "linux"; r_Distribution := ""; r_OSVersion := ""; r_Kernel := "";
  r_Architecture := ""; r_CPUModel := ""; r_CPUCores := 1; r_RAMTotal := 1; r_DiskTotal := 1; r_PublicIP := ""; r_PrivateIP := ""; r_AgentVersion := "1.0";
  r_CSRPEM := "csr" |}.
Definition consumed : tables := set_tokens (<["t1" := used_at 5 invitation]> (tokens invited)) invited.
Definition joined : tables := snd (repo_Register "s1" request_ "ab12" "pem" 90 5 consumed).
Definition response : RegistrationResponse := {|
  rr_ServerID := "s1"; CertificatePEM := "pem"; Fingerprint := "ab12"; rr_HeartbeatInterval := 30; rr_UpdateChannel := "stable";
  AllowedFeatures := ["heartbeat"; "tasks"; "health"; "updates"] |}.

Ltac answered_from x t := exists x, t; split; [exists 0%Z; first [reflexivity | left; vm_compute; reflexivity]|].

Lemma invited_ok : registry_ok invited.
Proof.
  constructor; cbn.
  - intros i s. rewrite lookup_singleton_Some. by intros [<- <-].
  - intros i j k l. rewrite !lookup_singleton_Some. by intros [<- _] [<- _].
  - intros i k. rewrite lookup_singleton_Some. intros [_ <-]. by eexists.
  - intros i c. by rewrite lookup_empty.
  - intros i k. by rewrite lookup_empty.
Qed.

Lemma joining : runs (Register request_) invited (Ok response) joined.
Proof.
  unfold Register. cbn [r_Token r_MachineID r_Hostname r_CSRPEM request_ String.eqb orb]. cbn [bind call Effects.runs].
  answered_from 5%Z invited. answered_from (Ok (E := remote_error) "s1") consumed. cbn [bind bind_err call issueClientCertificate Effects.runs].
  answered_from (Some "key") consumed. cbn [bind bind_err call Effects.runs]. answered_from (Ok (E := remote_error) ("pem", "ab12", 90%Z)) consumed.
  cbn [bind bind_err call Effects.runs]. answered_from (Ok (E := remote_error) ()) joined. cbn [bind bind_err call Effects.runs].
  answered_from (Ok (E := remote_error) (servers joined !! "s1")) joined. vm_compute. by split.
Qed.

Lemma enrollment_single_use_witness :
  certificates joined = certificates invited \/ enrolled (token_hash "odreg_x") invited joined.
Proof. exact (proj1 (enrollment_single_use request_ invited (Ok response) joined invited_ok joining)). Defined.

Lemma joined_ok : registry_ok joined.
Proof. exact (registry_kept _ _ _ _ _ joining invited_ok). Qed.

Definition certificate : Certificate := {|
  cert_ServerID := "s1"; cert_Fingerprint := "ab12"; cert_PEM := "pem"; cert_ExpiresAt := 90; cert_RevokedAt := None; cert_CreatedAt := 5 |}.
Definition rested : tables := snd (repo_SetMaintenance "s1" true 95 joined).

Lemma certificate_never_renewed_witness :
  forall fingerprint now, (90 <= now)%Z -> repo_VerifyCertificate "s1" fingerprint now rested = false.
Proof.
  apply (certificate_never_renewed _ (SetMaintenance "s1" true) "s1" joined (Ok ()) rested certificate joined_ok).
  - vm_compute. reflexivity.
  - repeat split.
  - unfold SetMaintenance. cbn [bind call Effects.runs]. answered_from 95%Z joined. answered_from (Ok (E := remote_error) ()) rested. by split.
Defined.

Definition beat : HeartbeatRequest := {|
  hb_State := "online"; hb_CPU95 := false; hb_Memory95 := false; hb_Disk95 := false; hb_Uptime := 7; hb_RunningTasks := 0; hb_AgentVersion := "1.1"; hb_TaskResults := [] |}.
Definition beaten : tables := snd (repo_Heartbeat "s1" beat 3 20 joined).

Lemma heartbeat_isolated_witness : apart "s1" joined beaten.
Proof.
  apply (heartbeat_isolated "s1" "ab12" beat 3 joined (Ok {| hr_HeartbeatInterval := 30; hr_Tasks := [] |}) beaten joined_ok).
  unfold Heartbeat. cbn [bind call Effects.runs]. answered_from (Ok (E := remote_error) true) joined. cbn [bind call Effects.runs].
  answered_from 20%Z joined. cbn [hb_State beat String.eqb]. cbn [bind bind_err call Effects.runs]. answered_from (Ok (E := remote_error) ()) beaten.
  unfold PendingTasks. cbn [bind bind_err call Effects.runs]. answered_from (Ok (E := remote_error) ([] : list Task)) beaten. by split.
Defined.
End Example.
