(* ===== verification/UpdateManifest.v ===== *)
(** * Release manifests and update requests

    src/internal/update/manifest.go: the signed manifest of a release, the request the
    Core leaves for the privileged worker, and the history entries of engine.go, with
    their JSON forms. *)

From S2P Require Import Prelude GoStrings GoStrconv GoPath GoRegexp GoTime GoJson GoStruct.
Local Open Scope string_scope.
Local Open Scope go_scope.

(** ** Patterns *)

Definition number_re : re := plus (Cls r_digit).

(** source: internal/update/manifest.go:16-20 (versionPattern) *)
Definition versionPattern : re :=
  Cat (opt (lit "v")) (Cat number_re (Cat (lit ".") (Cat number_re (Cat (lit ".") (Cat number_re
    (opt (Cat (lit "-") (plus (Cls (fun z => r_alnum z || one_of ".-" z)))))))))).

Definition is_hex_rune (z : Z) : bool := r_digit z || in_range 97 102 z.

(** [c{n}] *)
Fixpoint exactly (n : nat) (r : re) : re :=
  match n with O => Eps | S n' => Cat r (exactly n' r) end.

(** source: internal/update/manifest.go:16-20 (commitPattern) *)
Definition commitPattern : re := exactly 40 (Cls is_hex_rune).
(** source: internal/update/manifest.go:16-20 (shaPattern) *)
Definition shaPattern : re := exactly 64 (Cls is_hex_rune).

(** ** Manifests *)

(** source: internal/update/manifest.go:31-37 (Artifact) *)
Record Artifact := { a_OS : string; a_Arch : string; a_Name : string; a_SHA256 : string; a_Size : Z }.

(** source: internal/update/manifest.go:22-29 (Manifest) *)
Record Manifest := {
  m_Schema : string; m_Version : string; m_Tag : string; m_Commit : string;
  m_PublishedAt : time; m_Artifacts : list Artifact }.

Definition zero_artifact : Artifact :=
  {| a_OS := ""; a_Arch := ""; a_Name := ""; a_SHA256 := ""; a_Size := 0 |}.
Definition zero_manifest : Manifest :=
  {| m_Schema := ""; m_Version := ""; m_Tag := ""; m_Commit := ""; m_PublishedAt := zero_time; m_Artifacts := [] |}.

Definition artifact_fields : fields_of Artifact := [
  ("os", set_string (fun s a => {| a_OS := s; a_Arch := a_Arch a; a_Name := a_Name a; a_SHA256 := a_SHA256 a; a_Size := a_Size a |}));
  ("arch", set_string (fun s a => {| a_OS := a_OS a; a_Arch := s; a_Name := a_Name a; a_SHA256 := a_SHA256 a; a_Size := a_Size a |}));
  ("name", set_string (fun s a => {| a_OS := a_OS a; a_Arch := a_Arch a; a_Name := s; a_SHA256 := a_SHA256 a; a_Size := a_Size a |}));
  ("sha256", set_string (fun s a => {| a_OS := a_OS a; a_Arch := a_Arch a; a_Name := a_Name a; a_SHA256 := s; a_Size := a_Size a |}));
  ("size", set_int (- 2 ^ 63) int_max (fun z a => {| a_OS := a_OS a; a_Arch := a_Arch a; a_Name := a_Name a; a_SHA256 := a_SHA256 a; a_Size := z |})) ].

Definition manifest_fields (strict : bool) : fields_of Manifest := [
  ("schema", set_string (fun s m => {| m_Schema := s; m_Version := m_Version m; m_Tag := m_Tag m; m_Commit := m_Commit m; m_PublishedAt := m_PublishedAt m; m_Artifacts := m_Artifacts m |}));
  ("version", set_string (fun s m => {| m_Schema := m_Schema m; m_Version := s; m_Tag := m_Tag m; m_Commit := m_Commit m; m_PublishedAt := m_PublishedAt m; m_Artifacts := m_Artifacts m |}));
  ("tag", set_string (fun s m => {| m_Schema := m_Schema m; m_Version := m_Version m; m_Tag := s; m_Commit := m_Commit m; m_PublishedAt := m_PublishedAt m; m_Artifacts := m_Artifacts m |}));
  ("commit", set_string (fun s m => {| m_Schema := m_Schema m; m_Version := m_Version m; m_Tag := m_Tag m; m_Commit := s; m_PublishedAt := m_PublishedAt m; m_Artifacts := m_Artifacts m |}));
  ("published_at", set_time (fun t m => {| m_Schema := m_Schema m; m_Version := m_Version m; m_Tag := m_Tag m; m_Commit := m_Commit m; m_PublishedAt := t; m_Artifacts := m_Artifacts m |}));
  ("artifacts", set_list zero_artifact (decode_struct strict artifact_fields) m_Artifacts
    (fun l m => {| m_Schema := m_Schema m; m_Version := m_Version m; m_Tag := m_Tag m; m_Commit := m_Commit m; m_PublishedAt := m_PublishedAt m; m_Artifacts := l |})) ].

Inductive manifest_error :=
| DecodeManifest
| UnsupportedSchema (schema : string)
| InvalidVersionTag
| InvalidCommit
| IncompleteManifest
| InvalidArtifact (key : string)
| DuplicateArtifact (key : string)
| NoArtifact (goos goarch : string).

(** source: internal/update/manifest.go:14 (ManifestSchema) *)
Definition ManifestSchema : string := "opendeploy.release/v1".

Definition artifact_key (a : Artifact) : string := a_OS a ++ "/" ++ a_Arch a.

(** source: internal/update/manifest.go:61-63 (ParseManifest, the checks of an artifact) *)
Definition bad_artifact (a : Artifact) : bool :=
  String.eqb (a_OS a) "" || String.eqb (a_Arch a) "" || String.eqb (a_Name a) ""
  || contains_any (a_Name a) ("/" ++ String backslash "") || negb (match_string shaPattern (a_SHA256 a))
  || (a_Size a <=? 0)%Z || (512 * 2 ^ 20 <? a_Size a)%Z.

(** source: internal/update/manifest.go:58-70 (ParseManifest, the loop) *)
Fixpoint check_artifacts (seen : gset string) (l : list Artifact) : result manifest_error () :=
  match l with
  | [] => Ok ()
  | a :: l' =>
      let key := artifact_key a in
      if bad_artifact a then Err (InvalidArtifact key)
      else if bool_decide (key ∈ seen) then Err (DuplicateArtifact key)
      else check_artifacts ({[key]} ∪ seen) l'
  end.

(** source: internal/update/manifest.go:39-72 (ParseManifest) *)
Definition ParseManifest (data : string) : result manifest_error Manifest :=
  match decode_first true (manifest_fields true) zero_manifest data with
  | None => Err DecodeManifest
  | Some m =>
      fail_if (negb (String.eqb (m_Schema m) ManifestSchema)) (UnsupportedSchema (m_Schema m)) ;?
      fail_if (negb (match_string versionPattern (m_Version m)) || negb (String.eqb (m_Tag m) (m_Version m)))
        InvalidVersionTag ;?
      fail_if (negb (match_string commitPattern (m_Commit m))) InvalidCommit ;?
      fail_if (is_zero (m_PublishedAt m) || (length (m_Artifacts m) =? 0)%nat) IncompleteManifest ;?
      check_artifacts ∅ (m_Artifacts m) ;?
      Ok m
  end.

(** source: internal/update/manifest.go:78-85 (ArtifactFor) *)
Definition ArtifactFor (m : Manifest) (goos goarch : string) : result manifest_error Artifact :=
  match List.find (fun a => String.eqb (a_OS a) goos && String.eqb (a_Arch a) goarch) (m_Artifacts m) with
  | Some a => Ok a
  | None => Err (NoArtifact goos goarch)
  end.

(** The platform the binary was compiled for, [runtime.GOOS] and [runtime.GOARCH]. *)
Class Platform := { GOOS : string; GOARCH : string }.

(** source: internal/update/manifest.go:74-76 (ArtifactForCurrentPlatform) *)
Definition ArtifactForCurrentPlatform `{Platform} (m : Manifest) : result manifest_error Artifact :=
  ArtifactFor m GOOS GOARCH.

(** ** Requests *)

(** source: internal/update/manifest.go:87-95 (UpdateRequest) *)
Record UpdateRequest := {
  r_Schema : string; r_Operation : string; r_Tag : string; r_TransactionID : string;
  r_Archive : string; r_Reason : string; r_RequestedAt : time }.

Definition zero_request : UpdateRequest := {|
  r_Schema := ""; r_Operation := ""; r_Tag := ""; r_TransactionID := ""; r_Archive := ""; r_Reason := "";
  r_RequestedAt := zero_time |}.

Definition control_bytes : string :=
  String (ascii_of_nat 0) (String (ascii_of_nat 13) (String (ascii_of_nat 10) "")).

(** source: internal/update/manifest.go:117-121 (validBackupArchiveName) *)
Definition validBackupArchiveName (name : string) : bool :=
  String.eqb name (base name) && has_prefix name "opendeploy-" && has_suffix name ".tar.gz"
  && (len name <=? 160)%Z && negb (contains_any name ("/" ++ String backslash control_bytes)).

(** source: internal/update/manifest.go:97-115 (Validate): the error is always the same *)
Definition Validate (r : UpdateRequest) : bool :=
  if negb (String.eqb (r_Schema r) "opendeploy.update-request/v1") || is_zero (r_RequestedAt r) then false
  else if String.eqb (r_Operation r) "apply" && match_string versionPattern (r_Tag r) then true
  else if String.eqb (r_Operation r) "rollback" && String.eqb (r_Tag r) "" then true
  else if String.eqb (r_Operation r) "backup" && String.eqb (r_Tag r) "" && String.eqb (r_Archive r) ""
    && (len (r_Reason r) <=? 128)%Z && negb (contains_any (r_Reason r) control_bytes) then true
  else if String.eqb (r_Operation r) "restore" && String.eqb (r_Tag r) "" && validBackupArchiveName (r_Archive r)
  then true
  else false.

(** source: internal/update/manifest.go:87-95 (UpdateRequest, its JSON tags): what
    [json.Marshal] writes *)
Definition request_members (r : UpdateRequest) : list (string * json) :=
  (str_member "schema" (r_Schema r) ++ str_member "operation" (r_Operation r) ++ omit_string "tag" (r_Tag r)
   ++ omit_string "transaction_id" (r_TransactionID r) ++ omit_string "archive" (r_Archive r)
   ++ omit_string "reason" (r_Reason r) ++ time_member "requested_at" (r_RequestedAt r))%list.

(** source: internal/update/manifest.go:87-95 (UpdateRequest, its JSON tags): what
    [json.Unmarshal] sets *)
Definition request_fields : fields_of UpdateRequest := [
  ("schema", set_string (fun s r => {| r_Schema := s; r_Operation := r_Operation r; r_Tag := r_Tag r; r_TransactionID := r_TransactionID r; r_Archive := r_Archive r; r_Reason := r_Reason r; r_RequestedAt := r_RequestedAt r |}));
  ("operation", set_string (fun s r => {| r_Schema := r_Schema r; r_Operation := s; r_Tag := r_Tag r; r_TransactionID := r_TransactionID r; r_Archive := r_Archive r; r_Reason := r_Reason r; r_RequestedAt := r_RequestedAt r |}));
  ("tag", set_string (fun s r => {| r_Schema := r_Schema r; r_Operation := r_Operation r; r_Tag := s; r_TransactionID := r_TransactionID r; r_Archive := r_Archive r; r_Reason := r_Reason r; r_RequestedAt := r_RequestedAt r |}));
  ("transaction_id", set_string (fun s r => {| r_Schema := r_Schema r; r_Operation := r_Operation r; r_Tag := r_Tag r; r_TransactionID := s; r_Archive := r_Archive r; r_Reason := r_Reason r; r_RequestedAt := r_RequestedAt r |}));
  ("archive", set_string (fun s r => {| r_Schema := r_Schema r; r_Operation := r_Operation r; r_Tag := r_Tag r; r_TransactionID := r_TransactionID r; r_Archive := s; r_Reason := r_Reason r; r_RequestedAt := r_RequestedAt r |}));
  ("reason", set_string (fun s r => {| r_Schema := r_Schema r; r_Operation := r_Operation r; r_Tag := r_Tag r; r_TransactionID := r_TransactionID r; r_Archive := r_Archive r; r_Reason := s; r_RequestedAt := r_RequestedAt r |}));
  ("requested_at", set_time (fun t r => {| r_Schema := r_Schema r; r_Operation := r_Operation r; r_Tag := r_Tag r; r_TransactionID := r_TransactionID r; r_Archive := r_Archive r; r_Reason := r_Reason r; r_RequestedAt := t |})) ].

(** [json.Marshal(request)]; it fails only on a time no JSON string can hold. *)
Definition marshal_request (r : UpdateRequest) : option string :=
  if time_marshals (r_RequestedAt r) then Some (print_json (JObj (request_members r))) else None.

Definition unmarshal_request (s : string) : option UpdateRequest := unmarshal request_fields zero_request s.

(** ** History *)

(** source: internal/update/engine.go:59-71 (HistoryEntry) *)
Record HistoryEntry := {
  h_ID : string; h_StartedAt : time; h_CompletedAt : time; h_FromVersion : string; h_ToVersion : string;
  h_Commit : string; h_Status : string; h_Automatic : bool; h_Error : string; h_BackupDir : string;
  h_SystemBackup : string }.

Definition zero_entry : HistoryEntry := {|
  h_ID := ""; h_StartedAt := zero_time; h_CompletedAt := zero_time; h_FromVersion := ""; h_ToVersion := "";
  h_Commit := ""; h_Status := ""; h_Automatic := false; h_Error := ""; h_BackupDir := ""; h_SystemBackup := "" |}.

(** source: internal/update/engine.go:59-71 (HistoryEntry, its JSON tags): what
    [json.Marshal] writes *)
Definition entry_members (e : HistoryEntry) : list (string * json) :=
  (str_member "id" (h_ID e) ++ time_member "started_at" (h_StartedAt e)
   ++ time_member "completed_at" (h_CompletedAt e) ++ omit_string "from_version" (h_FromVersion e)
   ++ str_member "to_version" (h_ToVersion e) ++ str_member "commit" (h_Commit e)
   ++ str_member "status" (h_Status e) ++ omit_false "automatic_rollback" (h_Automatic e)
   ++ omit_string "error" (h_Error e) ++ omit_string "backup_dir" (h_BackupDir e)
   ++ omit_string "system_backup" (h_SystemBackup e))%list.

(** source: internal/update/engine.go:59-71 (HistoryEntry, its JSON tags): what
    [json.Unmarshal] sets *)
Definition entry_fields : fields_of HistoryEntry := [
  ("id", set_string (fun s e => {| h_ID := s; h_StartedAt := h_StartedAt e; h_CompletedAt := h_CompletedAt e; h_FromVersion := h_FromVersion e; h_ToVersion := h_ToVersion e; h_Commit := h_Commit e; h_Status := h_Status e; h_Automatic := h_Automatic e; h_Error := h_Error e; h_BackupDir := h_BackupDir e; h_SystemBackup := h_SystemBackup e |}));
  ("started_at", set_time (fun t e => {| h_ID := h_ID e; h_StartedAt := t; h_CompletedAt := h_CompletedAt e; h_FromVersion := h_FromVersion e; h_ToVersion := h_ToVersion e; h_Commit := h_Commit e; h_Status := h_Status e; h_Automatic := h_Automatic e; h_Error := h_Error e; h_BackupDir := h_BackupDir e; h_SystemBackup := h_SystemBackup e |}));
  ("completed_at", set_time (fun t e => {| h_ID := h_ID e; h_StartedAt := h_StartedAt e; h_CompletedAt := t; h_FromVersion := h_FromVersion e; h_ToVersion := h_ToVersion e; h_Commit := h_Commit e; h_Status := h_Status e; h_Automatic := h_Automatic e; h_Error := h_Error e; h_BackupDir := h_BackupDir e; h_SystemBackup := h_SystemBackup e |}));
  ("from_version", set_string (fun s e => {| h_ID := h_ID e; h_StartedAt := h_StartedAt e; h_CompletedAt := h_CompletedAt e; h_FromVersion := s; h_ToVersion := h_ToVersion e; h_Commit := h_Commit e; h_Status := h_Status e; h_Automatic := h_Automatic e; h_Error := h_Error e; h_BackupDir := h_BackupDir e; h_SystemBackup := h_SystemBackup e |}));
  ("to_version", set_string (fun s e => {| h_ID := h_ID e; h_StartedAt := h_StartedAt e; h_CompletedAt := h_CompletedAt e; h_FromVersion := h_FromVersion e; h_ToVersion := s; h_Commit := h_Commit e; h_Status := h_Status e; h_Automatic := h_Automatic e; h_Error := h_Error e; h_BackupDir := h_BackupDir e; h_SystemBackup := h_SystemBackup e |}));
  ("commit", set_string (fun s e => {| h_ID := h_ID e; h_StartedAt := h_StartedAt e; h_CompletedAt := h_CompletedAt e; h_FromVersion := h_FromVersion e; h_ToVersion := h_ToVersion e; h_Commit := s; h_Status := h_Status e; h_Automatic := h_Automatic e; h_Error := h_Error e; h_BackupDir := h_BackupDir e; h_SystemBackup := h_SystemBackup e |}));
  ("status", set_string (fun s e => {| h_ID := h_ID e; h_StartedAt := h_StartedAt e; h_CompletedAt := h_CompletedAt e; h_FromVersion := h_FromVersion e; h_ToVersion := h_ToVersion e; h_Commit := h_Commit e; h_Status := s; h_Automatic := h_Automatic e; h_Error := h_Error e; h_BackupDir := h_BackupDir e; h_SystemBackup := h_SystemBackup e |}));
  ("automatic_rollback", set_bool (fun b e => {| h_ID := h_ID e; h_StartedAt := h_StartedAt e; h_CompletedAt := h_CompletedAt e; h_FromVersion := h_FromVersion e; h_ToVersion := h_ToVersion e; h_Commit := h_Commit e; h_Status := h_Status e; h_Automatic := b; h_Error := h_Error e; h_BackupDir := h_BackupDir e; h_SystemBackup := h_SystemBackup e |}));
  ("error", set_string (fun s e => {| h_ID := h_ID e; h_StartedAt := h_StartedAt e; h_CompletedAt := h_CompletedAt e; h_FromVersion := h_FromVersion e; h_ToVersion := h_ToVersion e; h_Commit := h_Commit e; h_Status := h_Status e; h_Automatic := h_Automatic e; h_Error := s; h_BackupDir := h_BackupDir e; h_SystemBackup := h_SystemBackup e |}));
  ("backup_dir", set_string (fun s e => {| h_ID := h_ID e; h_StartedAt := h_StartedAt e; h_CompletedAt := h_CompletedAt e; h_FromVersion := h_FromVersion e; h_ToVersion := h_ToVersion e; h_Commit := h_Commit e; h_Status := h_Status e; h_Automatic := h_Automatic e; h_Error := h_Error e; h_BackupDir := s; h_SystemBackup := h_SystemBackup e |}));
  ("system_backup", set_string (fun s e => {| h_ID := h_ID e; h_StartedAt := h_StartedAt e; h_CompletedAt := h_CompletedAt e; h_FromVersion := h_FromVersion e; h_ToVersion := h_ToVersion e; h_Commit := h_Commit e; h_Status := h_Status e; h_Automatic := h_Automatic e; h_Error := h_Error e; h_BackupDir := h_BackupDir e; h_SystemBackup := s |})) ].

Definition marshal_entry (e : HistoryEntry) : option string :=
  if time_marshals (h_StartedAt e) && time_marshals (h_CompletedAt e)
  then Some (print_json (JObj (entry_members e))) else None.

Definition unmarshal_entry (s : string) : option HistoryEntry := unmarshal entry_fields zero_entry s.

(** ** Round trips *)

Definition valid_request (r : UpdateRequest) : Prop :=
  Forall (fun s => valid_utf8 s = true)
    [r_Schema r; r_Operation r; r_Tag r; r_TransactionID r; r_Archive r; r_Reason r] /\ valid_time (r_RequestedAt r).

Lemma request_members_wf r : wf_members (request_members r).
Proof. unfold request_members. repeat apply wf_members_app; auto with opendeploy. Qed.

(** A request is read back as it was written, whatever white space follows it. *)
Lemma request_read_back r s :
  valid_request r -> skip_ws s = "" -> exists data, marshal_request r = Some data /\
    unmarshal_request (data ++ s) = Some r /\ object_line data.
Proof.
  intros [Hutf Ht] Hs. repeat (apply Forall_cons in Hutf as [? Hutf]). unfold marshal_request.
  rewrite time_marshals_valid by done. eexists. split; [done|].
  split; [|apply print_obj_line, request_members_wf].
  apply unmarshal_print; [apply request_members_wf|done|]. unfold request_members.
  do 6 (decode_step; cbn [r_Schema r_Operation r_Tag r_TransactionID r_Archive r_Reason r_RequestedAt zero_request]).
  erewrite decode_time_member by first [reflexivity|done]. by destruct r.
Qed.

Definition valid_entry (e : HistoryEntry) : Prop :=
  Forall (fun s => valid_utf8 s = true)
    [h_ID e; h_FromVersion e; h_ToVersion e; h_Commit e; h_Status e; h_Error e; h_BackupDir e; h_SystemBackup e]
  /\ valid_time (h_StartedAt e) /\ valid_time (h_CompletedAt e).

Lemma entry_members_wf e : wf_members (entry_members e).
Proof. unfold entry_members. repeat apply wf_members_app; auto with opendeploy. Qed.

Lemma entry_read_back e :
  valid_entry e -> exists data, marshal_entry e = Some data /\ unmarshal_entry data = Some e /\ object_line data.
Proof.
  intros [Hutf [Ht1 Ht2]]. repeat (apply Forall_cons in Hutf as [? Hutf]). unfold marshal_entry.
  rewrite !time_marshals_valid by done. eexists. split; [done|].
  split; [|apply print_obj_line, entry_members_wf].
  unfold unmarshal_entry. rewrite <- (str_app_nil_r (print_json _)).
  apply unmarshal_print; [apply entry_members_wf|done|]. unfold entry_members.
  do 10 (decode_step; cbn [h_ID h_StartedAt h_CompletedAt h_FromVersion h_ToVersion h_Commit h_Status h_Automatic
    h_Error h_BackupDir h_SystemBackup zero_entry]). erewrite decode_omit_string by first [reflexivity|done]. by destruct e.
Qed.

(** ** What the patterns accept *)

Definition is_version_byte (c : ascii) : bool := is_alnum c || Ascii.eqb c "." || Ascii.eqb c "-".

Definition digits (s : string) : Prop := s <> "" /\ str_forall is_digit s = true.

(** [v1.2.3] or [1.2.3], with an optional pre-release part after a dash. *)
Definition is_version (s : string) : Prop :=
  exists v a b c pre, s = v ++ a ++ "." ++ b ++ "." ++ c ++ pre /\ (v = "" \/ v = "v") /\
    digits a /\ digits b /\ digits c /\
    (pre = "" \/ exists t, pre = "-" ++ t /\ t <> "" /\ str_forall is_version_byte t = true).

Lemma r_digit_byte c : r_digit (byte_val c) = is_digit c.
Proof. done. Qed.

Lemma version_class_byte c : r_alnum (byte_val c) || one_of ".-" (byte_val c) = is_version_byte c.
Proof.
  rewrite r_alnum_byte, one_of_byte. unfold is_version_byte. rewrite <- orb_assoc. f_equal.
  unfold contains_byte, str_exists. simpl. by destruct c as [[] [] [] [] [] [] [] []].
Qed.

Lemma versionPattern_ascii : over (fun z => z <? 128)%Z versionPattern.
Proof.
  assert (Hd : forall z, r_digit z = true -> (z <? 128)%Z = true) by (unfold r_digit, in_range; lia).
  assert (Hc : forall z, r_alnum z || one_of ".-" z = true -> (z <? 128)%Z = true).
  { intros z H. apply Z.ltb_lt. revert z H. solve_class_ascii. }
  unfold versionPattern, number_re, plus, opt. cbn [over]. split_and!; try done; by apply over_lit.
Qed.

Lemma versionPattern_iff s : match_string versionPattern s = true <-> is_version s.
Proof.
  rewrite (slang_match (fun z => z <? 128)%Z) by (lia || apply versionPattern_ascii).
  unfold versionPattern, number_re, is_version, digits.
  assert (Hpl : forall p q t, (forall c, p (byte_val c) = q c) ->
    slang (plus (Cls p)) t <-> t <> "" /\ str_forall q t = true).
  { intros p q t Hpq. rewrite slang_plus. by rewrite (str_forall_ext _ q). }
  rewrite slang_cat. setoid_rewrite slang_opt. setoid_rewrite slang_lit. split.
  - intros (v & s1 & -> & Hv & H). exists v.
    apply slang_cat in H as (a & s2 & -> & Ha & H). apply slang_cat in H as (d1 & s3 & -> & Hd1%slang_lit & H).
    apply slang_cat in H as (b & s4 & -> & Hb & H). apply slang_cat in H as (d2 & s5 & -> & Hd2%slang_lit & H).
    apply slang_cat in H as (c & pre & -> & Hc & H). subst d1 d2. exists a, b, c, pre.
    rewrite (Hpl _ is_digit) in Ha, Hb, Hc by apply r_digit_byte. split_and!; try tauto; try done.
    apply slang_opt in H as [->|H]; [by left|right].
    apply slang_cat in H as (d & t & -> & ->%slang_lit & H).
    rewrite (Hpl _ is_version_byte) in H by apply version_class_byte. eauto.
  - intros (v & a & b & c & pre & -> & Hv & Ha & Hb & Hc & Hpre). exists v. eexists. split; [done|]. split; [done|].
    apply slang_cat. exists a. eexists. split; [done|]. split; [by apply (Hpl _ is_digit _ r_digit_byte)|].
    apply slang_cat. exists ".". eexists. split; [done|]. split; [by apply slang_lit|].
    apply slang_cat. exists b. eexists. split; [done|]. split; [by apply (Hpl _ is_digit _ r_digit_byte)|].
    apply slang_cat. exists ".". eexists. split; [done|]. split; [by apply slang_lit|].
    apply slang_cat. exists c, pre. split; [done|]. split; [by apply (Hpl _ is_digit _ r_digit_byte)|].
    apply slang_opt. destruct Hpre as [->|(t & -> & Ht)]; [by left|right].
    apply slang_cat. exists "-", t. split; [done|]. split; [by apply slang_lit|].
    by apply (Hpl _ is_version_byte _ version_class_byte).
Qed.

Definition is_hex_byte (c : ascii) : bool := is_hex_rune (byte_val c).

Lemma match_exactly n s :
  match_string (exactly n (Cls is_hex_rune)) s = true <-> String.length s = n /\ str_forall is_hex_byte s = true.
Proof.
  assert (Hascii : forall z, is_hex_rune z = true -> (z < 128)%Z)
    by (unfold is_hex_rune, r_digit, in_range; lia).
  rewrite (slang_match is_hex_rune); [|done|by induction n; simpl; auto].
  revert s; induction n as [|n IH]; intros s; simpl.
  - unfold slang. rewrite lang_eps. destruct s; simpl; naive_solver.
  - rewrite slang_cat. split.
    + intros (s1 & s2 & -> & H1 & [<- H2]%IH). unfold slang in H1. apply lang_cls in H1 as (z & Hz & Hp).
      destruct s1 as [|c [|]]; try done. simpl in Hz. injection Hz as <-. simpl. unfold is_hex_byte at 1. by rewrite Hp.
    + destruct s as [|c s]; [by intros [? _]|]. simpl. intros [[= Hl] [Hc Hs]%andb_true_iff].
      exists (String c ""), s. split; [done|]. split; [|by apply IH]. apply lang_cls. by exists (byte_val c).
Qed.

(** ** Well-formed manifests *)

Definition wf_artifact (a : Artifact) : Prop :=
  a_OS a <> "" /\ a_Arch a <> "" /\ a_Name a <> "" /\
  (forall c, In c (String.list_ascii_of_string (a_Name a)) -> c <> slash /\ c <> backslash) /\
  String.length (a_SHA256 a) = 64 /\ str_forall is_hex_byte (a_SHA256 a) = true /\
  (0 < a_Size a <= 512 * 2 ^ 20)%Z.

Definition wf_manifest (m : Manifest) : Prop :=
  m_Schema m = ManifestSchema /\ is_version (m_Version m) /\ m_Tag m = m_Version m /\
  String.length (m_Commit m) = 40 /\ str_forall is_hex_byte (m_Commit m) = true /\
  instant (m_PublishedAt m) <> 0%Z /\ m_Artifacts m <> [] /\
  Forall wf_artifact (m_Artifacts m) /\ NoDup (artifact_key <$> m_Artifacts m).

Lemma eqb_empty s : String.eqb s "" = false <-> s <> "".
Proof. destruct (String.eqb_spec s ""); naive_solver. Qed.

Lemma bad_artifact_iff a : bad_artifact a = false <-> wf_artifact a.
Proof.
  unfold bad_artifact, wf_artifact. rewrite !orb_false_iff, !eqb_empty, negb_false_iff.
  unfold shaPattern. rewrite match_exactly, Z.leb_gt, Z.ltb_ge. unfold contains_any. rewrite str_exists_false, str_forall_forall.
  setoid_rewrite negb_true_iff.
  assert (Hc : (forall c, In c (String.list_ascii_of_string (a_Name a)) -> contains_byte ("/" ++ String backslash "") c = false)
    <-> (forall c, In c (String.list_ascii_of_string (a_Name a)) -> c <> slash /\ c <> backslash)).
  { split; intros H c Hin; specialize (H c Hin).
    - split; intros ->; vm_compute in H; done.
    - destruct (contains_byte _ c) eqn:Hb; [|done]. apply contains_byte_iff in Hb as [<-|[<-|[]]];
        destruct H as [H1 H2]; exfalso; first [by apply H1|by apply H2]. }
  rewrite Hc. tauto.
Qed.

Lemma check_artifacts_iff l seen :
  check_artifacts seen l = Ok () <->
  Forall wf_artifact l /\ NoDup (artifact_key <$> l) /\ Forall (fun a => artifact_key a ∉ seen) l.
Proof.
  revert seen; induction l as [|a l IH]; intros seen; cbn [check_artifacts].
  { split; [|done]. intros _. repeat constructor. }
  rewrite fmap_cons, !Forall_cons, NoDup_cons, <- bad_artifact_iff.
  destruct (bad_artifact a); [naive_solver|]. case_bool_decide as Hin; [naive_solver|].
  rewrite IH, !Forall_forall, list_elem_of_fmap. setoid_rewrite not_elem_of_union. setoid_rewrite not_elem_of_singleton.
  naive_solver.
Qed.

Lemma fail_then {E A} (b : bool) (e : E) (k : result E A) x :
  (fail_if b e ;? k) = Ok x <-> b = false /\ k = Ok x.
Proof. unfold fail_if. destruct b; simpl; naive_solver. Qed.

Lemma ParseManifest_iff data m :
  ParseManifest data = Ok m <->
  decode_first true (manifest_fields true) zero_manifest data = Some m /\ wf_manifest m.
Proof.
  unfold ParseManifest. destruct (decode_first _ _ _ _) as [m'|]; [|naive_solver].
  assert (Hl : (length (m_Artifacts m') =? 0)%nat = false <-> m_Artifacts m' <> []).
  { rewrite Nat.eqb_neq. by destruct (m_Artifacts m'). }
  rewrite !fail_then, bind_result_ok, !orb_false_iff, !negb_false_iff, !String.eqb_eq, versionPattern_iff, Hl.
  unfold commitPattern. rewrite match_exactly. unfold is_zero. rewrite Z.eqb_neq. unfold wf_manifest.
  assert (Ha : check_artifacts ∅ (m_Artifacts m') = Ok () <->
    Forall wf_artifact (m_Artifacts m') /\ NoDup (artifact_key <$> m_Artifacts m')).
  { rewrite check_artifacts_iff. split; [tauto|]. intros [H1 H2]. split_and!; [done..|].
    apply Forall_forall. intros a _. apply not_elem_of_empty. }
  split.
  - intros (Hs & [Hv Ht] & [Hc1 Hc2] & [Hz Hne] & [] & Hok & [= ->]). apply Ha in Hok. tauto.
  - intros [[= ->] (Hs & Hv & Ht & Hc1 & Hc2 & Hz & Hne & Hall & Hnd)]. split_and!; try done.
    exists (). by split; [apply Ha|].
Qed.

Lemma ArtifactFor_iff m goos goarch a :
  NoDup (artifact_key <$> m_Artifacts m) ->
  ArtifactFor m goos goarch = Ok a <-> a ∈ m_Artifacts m /\ a_OS a = goos /\ a_Arch a = goarch.
Proof.
  intros Hnd. unfold ArtifactFor. set (p := fun a => String.eqb (a_OS a) goos && String.eqb (a_Arch a) goarch).
  assert (Hp : forall a, p a = true <-> a_OS a = goos /\ a_Arch a = goarch).
  { intros x. unfold p. by rewrite andb_true_iff, !String.eqb_eq. }
  destruct (List.find p (m_Artifacts m)) as [b|] eqn:Hf.
  - apply List.find_some in Hf as [Hin Hb]. apply list_elem_of_In in Hin. split.
    + intros [= ->]. split; [done|]. by apply Hp.
    + intros (Ha & Hos & Harch). f_equal.
      apply list_elem_of_lookup in Hin as [i Hi], Ha as [j Hj].
      assert (i = j) as ->; [|congruence].
      eapply NoDup_lookup; [exact Hnd|by rewrite list_lookup_fmap, Hi|].
      rewrite list_lookup_fmap, Hj. simpl. f_equal. unfold artifact_key.
      apply Hp in Hb as [-> ->]. by rewrite Hos, Harch.
  - split; [done|]. intros (Ha & Hpa). exfalso. apply list_elem_of_In in Ha.
    pose proof (List.find_none _ _ Hf a Ha) as Hn. apply Hp in Hpa. congruence.
Qed.

(** C26. A manifest is accepted exactly when its JSON, without unknown fields, is a
    well-formed manifest: the known schema, a version that is also the tag, a full commit
    hash, a time of publication, at least one artifact, and for each platform at most
    one, with a name that is not empty and has no slash or backslash ([..] passes,
    [parent_name_accepted]), a SHA-256 and a size from 1 byte to 512 MiB; the artifact for
    a platform is then the only one. *)
Theorem manifest_well_formed data m :
  (ParseManifest data = Ok m <->
   decode_first true (manifest_fields true) zero_manifest data = Some m /\ wf_manifest m) /\
  (ParseManifest data = Ok m -> forall goos goarch a,
   ArtifactFor m goos goarch = Ok a <->
   a ∈ m_Artifacts m /\ a_OS a = goos /\ a_Arch a = goarch).
Proof.
  assert (Hiff : ParseManifest data = Ok m <->
    decode_first true (manifest_fields true) zero_manifest data = Some m /\ wf_manifest m) by apply ParseManifest_iff.
  split; [done|]. intros Hp. apply Hiff in Hp as [_ Hwf]. intros goos goarch a.
  destruct Hwf as (_ & _ & _ & _ & _ & _ & _ & _ & Hnd). by apply ArtifactFor_iff.
Qed.

(** A manifest with one artifact. *)
Definition sample_json : string := print_json (JObj
  (str_member "schema" ManifestSchema ++ str_member "version" "v1.2.3" ++ str_member "tag" "v1.2.3"
   ++ str_member "commit" "0123456789abcdef0123456789abcdef01234567"
   ++ time_member "published_at" {| t_year := 2026; t_month := 1; t_day := 31; t_hour := 8; t_min := 0; t_sec := 0; t_nsec := 0; t_off := 0 |}
   ++ [("artifacts", JArr [JObj (str_member "os" "linux" ++ str_member "arch" "amd64" ++ str_member "name" "opendeploy.tar.gz"
     ++ str_member "sha256" "0123456789abcdef0123456789abcdef0123456789abcdef0123456789abcdef" ++ int_member "size" 4096)])])%list).

Definition sample_artifact : Artifact := {|
  a_OS := "linux"; a_Arch := "amd64"; a_Name := "opendeploy.tar.gz";
  a_SHA256 := "0123456789abcdef0123456789abcdef0123456789abcdef0123456789abcdef"; a_Size := 4096 |}.

Definition sample_manifest : Manifest := {|
  m_Schema := ManifestSchema; m_Version := "v1.2.3"; m_Tag := "v1.2.3";
  m_Commit := "0123456789abcdef0123456789abcdef01234567";
  m_PublishedAt := {| t_year := 2026; t_month := 1; t_day := 31; t_hour := 8; t_min := 0; t_sec := 0; t_nsec := 0; t_off := 0 |};
  m_Artifacts := [sample_artifact] |}.

Lemma sample_parses : ParseManifest sample_json = Ok sample_manifest.
Proof. vm_compute. reflexivity. Qed.

Lemma manifest_well_formed_witness :
  ParseManifest sample_json = Ok sample_manifest /\
  (ArtifactFor sample_manifest "linux" "amd64" = Ok sample_artifact <->
   sample_artifact ∈ m_Artifacts sample_manifest /\ a_OS sample_artifact = "linux" /\ a_Arch sample_artifact = "amd64").
Proof.
  split; [exact sample_parses|].
  exact (proj2 (manifest_well_formed sample_json sample_manifest) sample_parses "linux" "amd64" sample_artifact).
Defined.

(** A name of dots has no separator and passes. *)
Example parent_name_accepted :
  bad_artifact {| a_OS := "linux"; a_Arch := "amd64"; a_Name := ".."; a_SHA256 := a_SHA256 sample_artifact; a_Size := 1 |} = false.
Proof. vm_compute. reflexivity. Qed.
