(* ===== verification/Update.v ===== *)
(** * The update engine

    src/internal/update: the release API client (github.go), signature verification
    (verify.go), restart and health checks (runtime.go), the lock (lock_unix.go) and the
    transaction that installs a release or rolls one back (engine.go).  Every operation
    on the file system, the network, the clock or another program is a call, in the
    order of the source; deferred calls run where the source returns. *)

From S2P Require Import Prelude GoStrings GoStrconv GoPath GoRegexp GoTime GoJson GoStruct Effects UpdateManifest.
Local Open Scope string_scope.
Local Open Scope go_scope.

(** ** Errors *)

(** [Wrap s e] is [fmt.Errorf(s + ": %w", e)], [Joined] is [errors.Join]. *)
Inductive up_error :=
| Msg (s : string)
| Os (e : string)
| Wrap (s : string) (e : up_error)
| Joined (l : list up_error)
| BadManifest (e : manifest_error).

(** The text of the errors of [ParseManifest], which includes the decoder's. *)
Class ManifestText := { manifest_text : manifest_error -> string }.

Fixpoint error_text `{ManifestText} (e : up_error) : string :=
  match e with
  | Msg s | Os s => s
  | Wrap s e => s ++ ": " ++ error_text e
  | Joined l => join (String newline "") (error_text <$> l)
  | BadManifest e => manifest_text e
  end.

(** The errors that are not nil. *)
Definition errors_join (l : list (option up_error)) : option up_error :=
  match omap id l with [] => None | l' => Some (Joined l') end.

(** ** Calls *)

(** The context of a call: the caller's, or a detached one with a timeout. *)
Inductive ctx := Caller | Timeout (ns : Z).

Inductive read_error := NotExist | ReadFailed (e : string).

(** A tar stream: its headers, and how it ends. *)
Record rel_header := { rh_name : string; rh_regular : bool; rh_size : Z }.

Inductive up_call : Set -> Set :=
| Now : up_call time
| MkdirAll (path : string) (mode : Z) : up_call (result string ())
| Mkdir (path : string) (mode : Z) : up_call (result string ())
| MkdirTemp (dir pattern : string) : up_call (result string string)
| RemoveAll (path : string) : up_call (result string ())
| OpenLock (path : string) : up_call (result string ())
| Flock (path : string) : up_call (result string ())
| Funlock (path : string) : up_call ()
| NewRequest (url : string) : up_call (result string ())
| HttpDo (url : string) (headers : list (string * string)) : up_call (result string (Z * string))
| OpenExcl (path : string) (mode : Z) : up_call (result string ())
| OpenTrunc (path : string) (mode : Z) : up_call (result string ())
| OpenAppend (path : string) (mode : Z) : up_call (result string ())
| OpenRead (path : string) : up_call (result string ())
| CopyBody (path body : string) (limit : Z) : up_call (Z * option string)
| CopyAll (dst src : string) : up_call (option string)
| CopyEntry (path : string) (name : string) (size : Z) : up_call (option string)
| ReadAll (path : string) : up_call (result string string)
| WriteData (path data : string) : up_call (result string ())
| SyncFile (path : string) : up_call (result string ())
| ChmodFile (path : string) (mode : Z) : up_call (result string ())
| CloseFile (path : string) : up_call (result string ())
| ReadFile (path : string) : up_call (result read_error string)
| WriteFile (path data : string) (mode : Z) : up_call (result string ())
| Stat (path : string) : up_call (result string Z)
| StatMode (path : string) : up_call (result string Z)
| GzipReader (path : string) : up_call (result string ())
| TarStream (path : string) : up_call (list rel_header * option string)
| CreateTemp (dir pattern : string) : up_call (result string string)
| Rename (old new : string) : up_call (result string ())
| Remove (path : string) : up_call (result string ())
| Command (c : ctx) (path : string) (args env : list string) : up_call (string * option string)
| SystemBackup (reason : string) : up_call (result string string)
| HealthGet (c : ctx) (endpoint : string) : up_call (result string Z)
| WaitSecond (c : ctx) : up_call (option string)
| NilDereference : up_call Empty_set.

Notation up_prog A := (prog up_call A).

Definition os {A} (p : up_prog (result string A)) : up_prog (result up_error A) :=
  bind p (fun r => Ret (map_err Os r)).

Definition panic {A} : up_prog A := Call NilDereference (fun never : Empty_set => match never with end).

(** ** Release metadata *)

(** source: internal/update/github.go:16-21 (Release) *)
Record Release := { rl_Tag : string; rl_Draft : bool; rl_Prerelease : bool; rl_Assets : gmap string string }.

(** source: internal/update/github.go:58-63 (GitHubClient) *)
Record GitHubClient := { APIBase : string; Owner : string; Repo : string }.

(** source: internal/update/github.go:14 (defaultGitHubAPI) *)
Definition defaultGitHubAPI : string := "https://api.github.com".

(** source: internal/update/github.go:65-70 (NewGitHubClient) *)
Definition NewGitHubClient : GitHubClient :=
  {| APIBase := defaultGitHubAPI; Owner := "anrted"; Repo := "opendeploy" |}.

(** source: internal/update/github.go:72-92 (secureHTTPClient, [CheckRedirect]) *)
Definition check_redirect (via : nat) (scheme host : string) : result up_error () :=
  if (5 <=? via)%nat then Err (Msg "update: too many HTTP redirects")
  else if negb (String.eqb scheme "https") then Err (Msg "update: insecure HTTP redirect")
  else if existsb (String.eqb host)
    ["github.com"; "api.github.com"; "objects.githubusercontent.com"; "release-assets.githubusercontent.com"]
  then Ok () else Err (Msg ("update: redirect to untrusted host " ++ host)).

(** [url.PathEscape] *)
Definition path_escape_byte (c : ascii) : string :=
  if is_alnum c || contains_byte "-_.~$&+=:@" c then String c ""
  else "%" ++ String (byte_of (48 + byte_val c / 16 + if (byte_val c / 16 <? 10)%Z then 0 else 7))
         (String (byte_of (48 + byte_val c mod 16 + if (byte_val c mod 16 <? 10)%Z then 0 else 7)) "").
Definition path_escape (s : string) : string :=
  String.concat "" (path_escape_byte <$> String.list_ascii_of_string s).

Definition trim_right_slash (s : string) : string :=
  let fix go (r : string) : string := match r with String c r' => if Ascii.eqb c slash then go r' else r | _ => r end in
  str_rev (go (str_rev s)).

(** [io.LimitReader(body, n)] *)
Definition limit_reader (n : Z) (body : string) : string :=
  if (len body <=? n)%Z then body else take_bytes (Z.to_nat n) body.

(** What [url.Parse] finds in a URL: scheme, host and path. *)
Class UrlParser := { url_parse : string -> option (string * string * string) }.

Section github.
Variable c : GitHubClient.

(** source: internal/update/github.go:138-158 (getJSON): [decode] is the decoder of the
    destination's type *)
Definition getJSON {A} (decode : string -> option A) (endpoint : string) : up_prog (result up_error A) :=
  try! _ := os (call (NewRequest endpoint)) in
  wrap! (fun e => Wrap "update: query GitHub release" (Os e)) of (status, body) :=
    call (HttpDo endpoint [("Accept", "application/vnd.github+json"); ("User-Agent", "OpenDeploy-Updater")]) in
  if negb (status =? 200)%Z then Ret (Err (Msg ("update: GitHub release returned HTTP " ++ itoa status)))
  else match decode (limit_reader (2 * 2 ^ 20) body) with
       | Some a => Ret (Ok a)
       | None => Ret (Err (Msg "update: decode GitHub release"))
       end.

(** The object a reference or an annotated tag points to. *)
Record git_object := { o_Type : string; o_SHA : string }.
Definition zero_object : git_object := {| o_Type := ""; o_SHA := "" |}.
Definition object_fields : fields_of git_object := [
  ("type", set_string (fun s o => {| o_Type := s; o_SHA := o_SHA o |}));
  ("sha", set_string (fun s o => {| o_Type := o_Type o; o_SHA := s |})) ].
Definition decode_object (s : string) : option git_object :=
  decode_first false [("object", decode_struct false object_fields)] zero_object s.

Definition repo_endpoint : string :=
  trim_right_slash (APIBase c) ++ "/repos/" ++ path_escape (Owner c) ++ "/" ++ path_escape (Repo c).

(** source: internal/update/github.go:23-56 (TagCommit) *)
Definition TagCommit (tag : string) : up_prog (result up_error string) :=
  try! reference := getJSON decode_object (repo_endpoint ++ "/git/ref/tags/" ++ path_escape tag) in
  if String.eqb (o_Type reference) "commit" && match_string commitPattern (o_SHA reference)
  then Ret (Ok (o_SHA reference))
  else if negb (String.eqb (o_Type reference) "tag") || negb (match_string commitPattern (o_SHA reference))
  then Ret (Err (Msg "update: release tag has an invalid Git object"))
  else
    try! annotated := getJSON decode_object (repo_endpoint ++ "/git/tags/" ++ o_SHA reference) in
    if negb (String.eqb (o_Type annotated) "commit") || negb (match_string commitPattern (o_SHA annotated))
    then Ret (Err (Msg "update: annotated tag does not resolve to a commit"))
    else Ret (Ok (o_SHA annotated)).

Record asset := { as_Name : string; as_URL : string }.
Record release_payload := { p_Tag : string; p_Draft : bool; p_Prerelease : bool; p_Assets : list asset }.
Definition zero_payload : release_payload := {| p_Tag := ""; p_Draft := false; p_Prerelease := false; p_Assets := [] |}.
Definition asset_fields : fields_of asset := [
  ("name", set_string (fun s a => {| as_Name := s; as_URL := as_URL a |}));
  ("browser_download_url", set_string (fun s a => {| as_Name := as_Name a; as_URL := s |})) ].
Definition payload_fields : fields_of release_payload := [
  ("tag_name", set_string (fun s p => {| p_Tag := s; p_Draft := p_Draft p; p_Prerelease := p_Prerelease p; p_Assets := p_Assets p |}));
  ("draft", set_bool (fun b p => {| p_Tag := p_Tag p; p_Draft := b; p_Prerelease := p_Prerelease p; p_Assets := p_Assets p |}));
  ("prerelease", set_bool (fun b p => {| p_Tag := p_Tag p; p_Draft := p_Draft p; p_Prerelease := b; p_Assets := p_Assets p |}));
  ("assets", set_list {| as_Name := ""; as_URL := "" |} (decode_struct false asset_fields) p_Assets
    (fun l p => {| p_Tag := p_Tag p; p_Draft := p_Draft p; p_Prerelease := p_Prerelease p; p_Assets := l |})) ].

(** source: internal/update/github.go:117-134 (Release, one asset): the parsed URL is
    used before its error is looked at *)
Definition check_asset `{UrlParser} `{Unicode} (tag : string) (a : asset) (known : gmap string string) :
    up_prog (result up_error (gmap string string)) :=
  match url_parse (as_URL a) with
  | None => panic
  | Some (scheme, host, path) =>
      let default_api := String.eqb (APIBase c) defaultGitHubAPI in
      let! trustedHost :=
        if default_api then Ret (String.eqb host "github.com")
        else match url_parse (APIBase c) with
             | Some (_, api_host, _) => Ret (String.eqb host api_host)
             | None => panic
             end in
      if (negb (String.eqb scheme "https") && default_api) || negb trustedHost
      then Ret (Err (Msg "update: release contains an untrusted asset URL"))
      else if default_api
        && negb (has_prefix path ("/" ++ Owner c ++ "/" ++ Repo c ++ "/releases/download/" ++ tag ++ "/"))
      then Ret (Err (Msg "update: release contains an untrusted asset path"))
      else match known !! as_Name a with
           | Some _ => Ret (Err (Msg ("update: release contains duplicate asset " ++ quote (as_Name a))))
           | None => Ret (Ok (<[as_Name a := as_URL a]> known))
           end
  end.

(** source: internal/update/github.go:115-135 (Release, the loop) *)
Fixpoint check_assets `{UrlParser} `{Unicode} (tag : string) (l : list asset) (known : gmap string string) :
    up_prog (result up_error (gmap string string)) :=
  match l with
  | [] => Ret (Ok known)
  | a :: l' => try! known := check_asset tag a known in check_assets tag l' known
  end.

(** source: internal/update/github.go:94-136 (Release) *)
Definition get_release `{UrlParser} `{Unicode} (tag : string) : up_prog (result up_error Release) :=
  if negb (match_string versionPattern tag) then Ret (Err (Msg "update: invalid release tag"))
  else
    try! payload := getJSON (decode_first false payload_fields zero_payload)
      (repo_endpoint ++ "/releases/tags/" ++ path_escape tag) in
    if negb (String.eqb (p_Tag payload) tag) || p_Draft payload || p_Prerelease payload
    then Ret (Err (Msg "update: release is not a published stable release"))
    else
      try! assets := check_assets tag (p_Assets payload) ∅ in
      Ret (Ok {| rl_Tag := p_Tag payload; rl_Draft := p_Draft payload; rl_Prerelease := p_Prerelease payload;
                 rl_Assets := assets |}).
End github.

(** ** Signatures *)

(** source: internal/update/verify.go:11-21 (SignatureVerifier, SigstoreVerifier, GPGVerifier) *)
Inductive SignatureVerifier :=
| SigstoreVerifier (cosignPath identityRegexp oidcIssuer : string)
| GPGVerifier (gpgPath keyring : string).

(** source: internal/update/verify.go:23-29 (DefaultSigstoreVerifier) *)
Definition DefaultSigstoreVerifier : SignatureVerifier :=
  SigstoreVerifier "/usr/bin/cosign"
    ("^https://github" ++ esc "." ++ "com/anrted/opendeploy/" ++ esc "."
     ++ "github/workflows/(release|build-binaries)" ++ esc "." ++ "yml@refs/tags/v[0-9].*$")
    "https://token.actions.githubusercontent.com".

(** source: internal/update/verify.go:31-55 (SigstoreVerifier.Verify) *)
Definition sigstore_Verify (cosignPath identityRegexp oidcIssuer manifestPath bundlePath : string) :
    up_prog (result up_error ()) :=
  if String.eqb cosignPath "" then Ret (Err (Msg "update: absolute cosign path is required"))
  else if negb (is_abs cosignPath) then Ret (Err (Msg "update: cosign path must be absolute"))
  else
    let! (output, err) := call (Command Caller cosignPath
      ["verify-blob"; "--bundle"; bundlePath; "--certificate-identity-regexp"; identityRegexp;
       "--certificate-oidc-issuer"; oidcIssuer; manifestPath]
      ["PATH=/usr/sbin:/usr/bin:/sbin:/bin"; "HOME=/var/lib/opendeploy/updates"; "LANG=C.UTF-8"; "LC_ALL=C.UTF-8"]) in
    match err with
    | Some e => Ret (Err (Wrap ("update: Sigstore verification failed: " ++ output) (Os e)))
    | None => Ret (Ok ())
    end.

(** source: internal/update/verify.go:64-83 (GPGVerifier.Verify) *)
Definition gpg_Verify (gpgPath keyring manifestPath signaturePath : string) : up_prog (result up_error ()) :=
  if String.eqb keyring "" then Ret (Err (Msg "update: trusted GPG keyring is not configured"))
  else
    let! info := call (StatMode keyring) in
    if match info with Err _ => true | Ok mode => negb (Z.land (Z.land mode 511) 18 =? 0)%Z end
    then Ret (Err (Msg "update: trusted GPG keyring is missing or writable by group/others"))
    else
      let path := if String.eqb gpgPath "" then "/usr/bin/gpgv" else gpgPath in
      if negb (is_abs path) then Ret (Err (Msg "update: gpgv path must be absolute"))
      else
        let! (output, err) := call (Command Caller path ["--keyring"; keyring; signaturePath; manifestPath] []) in
        match err with
        | Some e => Ret (Err (Wrap ("update: GPG verification failed: " ++ output) (Os e)))
        | None => Ret (Ok ())
        end.

Definition Verify (v : SignatureVerifier) (manifestPath signaturePath : string) : up_prog (result up_error ()) :=
  match v with
  | SigstoreVerifier cosign identity issuer => sigstore_Verify cosign identity issuer manifestPath signaturePath
  | GPGVerifier gpg keyring => gpg_Verify gpg keyring manifestPath signaturePath
  end.

(** ** Restart and health *)

(** source: internal/update/runtime.go:18-21 (SystemRuntime) *)
Record SystemRuntime := { CoreHealthURL : string }.

(** source: internal/update/runtime.go:23-31 (Restart, the loop) *)
Fixpoint restart_units (c : ctx) (units : list string) : up_prog (result up_error ()) :=
  match units with
  | [] => Ret (Ok ())
  | unit :: rest =>
      let! (output, err) := call (Command c "systemctl" ["restart"; unit] []) in
      match err with
      | Some e => Ret (Err (Wrap ("update: restart " ++ unit ++ ": " ++ trim_space output) (Os e)))
      | None => restart_units c rest
      end
  end.

(** source: internal/update/runtime.go:23-31 (Restart) *)
Definition Restart (c : ctx) : up_prog (result up_error ()) :=
  restart_units c ["opendeploy-agent.service"; "opendeploy-core.service"].

(** source: internal/update/runtime.go:34-39 (Healthy, the units) *)
Fixpoint units_active (c : ctx) (units : list string) : up_prog (result up_error ()) :=
  match units with
  | [] => Ret (Ok ())
  | unit :: rest =>
      let! (output, err) := call (Command c "systemctl" ["is-active"; "--quiet"; unit] []) in
      match err with
      | Some e => Ret (Err (Msg ("update: service " ++ unit ++ " is unhealthy: " ++ trim_space output)))
      | None => units_active c rest
      end
  end.

(** source: internal/update/runtime.go:48-68 (Healthy, the attempts); [attempts] are left *)
Fixpoint probe (c : ctx) (endpoint : string) (attempts : nat) (lastErr : string) : up_prog (result up_error ()) :=
  match attempts with
  | 0 => Ret (Err (Wrap "update: core health check failed" (Os lastErr)))
  | S n =>
      let! response := call (HealthGet c endpoint) in
      match response with
      | Ok status =>
          if ((200 <=? status) && (status <? 300))%Z then Ret (Ok ())
          else
            let! done := call (WaitSecond c) in
            match done with Some e => Ret (Err (Os e)) | None => probe c endpoint n ("HTTP " ++ itoa status) end
      | Err e =>
          let! done := call (WaitSecond c) in
          match done with Some e => Ret (Err (Os e)) | None => probe c endpoint n e end
      end
  end.

(** source: internal/update/runtime.go:33-69 (Healthy) *)
Definition Healthy (r : SystemRuntime) (c : ctx) : up_prog (result up_error ()) :=
  try! _ := units_active c ["opendeploy-agent.service"; "opendeploy-core.service"] in
  let endpoint :=
    if String.eqb (CoreHealthURL r) "" then "http://127.0.0.1:5888/health" else CoreHealthURL r in
  probe c endpoint 10 "".

(** ** The engine *)

(** source: internal/update/engine.go:22-26 (manifestAsset, sigstoreAsset, maxMetadata) *)
Definition manifestAsset : string := "release-manifest.json".
Definition sigstoreAsset : string := "release-manifest.json.bundle".
Definition maxMetadata : Z := 4 * 2 ^ 20.

(** source: internal/update/engine.go:28-36 (Config) *)
Record Config := {
  StateDir : string; ReleaseDir : string; BinaryDir : string; cfg_GOOS : string; cfg_GOARCH : string;
  Signature : string; HealthTimeout : Z }.

(** source: internal/update/engine.go:38-43 (DefaultConfig) *)
Definition DefaultConfig : Config := {|
  StateDir := "/var/lib/opendeploy/updates"; ReleaseDir := "/opt/opendeploy/releases"; BinaryDir := "/usr/bin";
  cfg_GOOS := ""; cfg_GOARCH := ""; Signature := sigstoreAsset; HealthTimeout := 45 * 10 ^ 9 |}.

(** source: internal/update/engine.go:45-53 (Engine) *)
Record Engine := {
  config : Config; github : GitHubClient; verifier : option SignatureVerifier; runtime : option SystemRuntime;
  has_backup : bool }.

(** source: internal/update/engine.go:73-79 (NewEngine) *)
Definition NewEngine (cfg : Config) (gh : option GitHubClient) (v : option SignatureVerifier)
    (r : option SystemRuntime) : Engine := {|
  config := cfg; github := match gh with Some g => g | None => NewGitHubClient end; verifier := v; runtime := r;
  has_backup := false |}.

(** source: internal/update/lock_unix.go:11-24 (acquireUpdateLock) *)
Definition acquireUpdateLock (path : string) : up_prog (result up_error ()) :=
  try! _ := os (call (OpenLock path)) in
  let! r := call (Flock path) in
  match r with
  | Err _ =>
      ignore! call (CloseFile path) in
      Ret (Err (Msg "update: another update or rollback is in progress"))
  | Ok _ => Ret (Ok ())
  end.

(** source: internal/update/lock_unix.go:20-23 (acquireUpdateLock, the function it returns) *)
Definition unlock (path : string) : up_prog () :=
  ignore! call (Funlock path) in ignore! call (CloseFile path) in Ret ().

Definition combine_errors (l : list (option up_error)) : result up_error () :=
  match errors_join l with None => Ok () | Some e => Err e end.

Definition os_err (e : option string) : option up_error := Os <$> e.
Definition failed {A} (r : result string A) : option up_error :=
  match r with Ok _ => None | Err e => Some (Os e) end.

(** source: internal/update/engine.go:550-567 (copyFile) *)
Definition copyFile (source destination : string) (mode : Z) : up_prog (result up_error ()) :=
  try! _ := os (call (OpenRead source)) in
  let! r :=
    try! _ := os (call (MkdirAll (dir destination) 488)) in
    try! _ := os (call (OpenTrunc destination mode)) in
    let! copyErr := call (CopyAll destination source) in
    let! syncErr := call (SyncFile destination) in
    let! closeErr := call (CloseFile destination) in
    Ret (combine_errors [os_err copyErr; failed syncErr; failed closeErr]) in
  ignore! call (CloseFile source) in
  Ret r.

(** source: internal/update/engine.go:579-595 (atomicCopy, once the temporary file is open) *)
Definition copy_through (temp source destination : string) (mode : Z) : up_prog (result up_error ()) :=
  let! opened := call (OpenRead source) in
  match opened with
  | Err e => ignore! call (CloseFile temp) in Ret (Err (Os e))
  | Ok _ =>
      let! copyErr := call (CopyAll temp source) in
      let! closeInputErr := call (CloseFile source) in
      let! chmodErr := call (ChmodFile temp mode) in
      let! syncErr := call (SyncFile temp) in
      let! closeErr := call (CloseFile temp) in
      match errors_join [os_err copyErr; failed closeInputErr; failed chmodErr; failed syncErr; failed closeErr] with
      | Some e => Ret (Err e)
      | None =>
          wrap! (fun e => Wrap ("update: atomically replace " ++ destination) (Os e)) of _ :=
            call (Rename temp destination) in
          Ret (Ok ())
      end
  end.

(** source: internal/update/engine.go:569-596 (atomicCopy) *)
Definition atomicCopy (source destination : string) (mode : Z) : up_prog (result up_error ()) :=
  try! _ := os (call (MkdirAll (dir destination) 488)) in
  try! temp := os (call (CreateTemp (dir destination) ("." ++ base destination ++ ".update-*"))) in
  let! r := copy_through temp source destination mode in
  ignore! call (Remove temp) in
  Ret r.

(** source: internal/update/engine.go:449-463 (verifySHA256) *)
Definition verifySHA256 `{Digest} `{Unicode} (path expected : string) : up_prog (result up_error ()) :=
  try! _ := os (call (OpenRead path)) in
  let! data := call (ReadAll path) in
  ignore! call (CloseFile path) in
  match data with
  | Err e => Ret (Err (Os e))
  | Ok content =>
      let actual := sha256_hex content in
      if negb (String.eqb actual (to_lower expected))
      then Ret (Err (Msg ("update: SHA256 mismatch: got " ++ actual ++ ", want " ++ expected)))
      else Ret (Ok ())
  end.

(** ** Extraction *)

Definition release_names : list string := ["opendeploy-core"; "opendeploy-agent"; "opendeploy-cli"].

(** source: internal/update/engine.go:530-548 (confinedReleaseTarget); the destination is
    absolute, so [filepath.Abs] only cleans it *)
Definition confinedReleaseTarget `{Unicode} (destination name : string) : result up_error string :=
  if String.eqb name "" || contains name ".." || is_abs name || negb (String.eqb (clean name) name)
     || contains name (String backslash "")
  then Err (Msg ("update: unsafe archive target " ++ quote name))
  else
    let root := clean destination in
    let target := clean (path_join root name) in
    match rel root target with
    | Some relative =>
        if String.eqb relative ".." || has_prefix relative "../"
        then Err (Msg ("update: archive entry " ++ quote name ++ " escapes extraction root"))
        else Ok target
    | None => Err (Msg ("update: archive entry " ++ quote name ++ " escapes extraction root"))
    end.

(** source: internal/update/engine.go:482-516 (extractRelease, the loop): [total] and the
    names [found] so far *)
Fixpoint extract_entries `{Unicode} (destination : string) (total : Z) (found : gset string) (l : list rel_header) :
    up_prog (result up_error (gset string)) :=
  match l with
  | [] => Ret (Ok found)
  | header :: l' =>
      let name := rh_name header in
      if contains name ".." || is_abs name || negb (String.eqb (clean name) name)
         || contains name (String backslash "")
      then Ret (Err (Msg ("update: unsafe archive entry " ++ quote name)))
      else if negb (existsb (String.eqb name) release_names) || negb (rh_regular header)
         || (rh_size header <=? 0)%Z || (256 * 2 ^ 20 <? rh_size header)%Z
      then Ret (Err (Msg ("update: unexpected archive entry " ++ quote name)))
      else
        let total := add64 total (rh_size header) in
        if (512 * 2 ^ 20 <? total)%Z then Ret (Err (Msg "update: extracted release exceeds size limit"))
        else match confinedReleaseTarget destination name with
        | Err e => Ret (Err e)
        | Ok target =>
            try! _ := os (call (OpenExcl target 448)) in
            let! copyErr := call (CopyEntry target name (rh_size header)) in
            let! closeErr := call (CloseFile target) in
            match errors_join [os_err copyErr; failed closeErr] with
            | Some e => Ret (Err e)
            | None => extract_entries destination total ({[name]} ∪ found) l'
            end
        end
  end.

(** source: internal/update/engine.go:465-528 (extractRelease) *)
Definition extractRelease `{Unicode} (archivePath destination : string) : up_prog (result up_error ()) :=
  try! _ := os (call (MkdirAll destination 448)) in
  try! _ := os (call (OpenRead archivePath)) in
  let! r :=
    wrap! (fun e => Wrap "update: open release archive" (Os e)) of _ := call (GzipReader archivePath) in
    let! (headers, ending) := call (TarStream archivePath) in
    try! found := extract_entries destination 0 ∅ headers in
    match ending with
    | Some e => Ret (Err (Wrap "update: read release archive" (Os e)))
    | None =>
        match isort String.leb (List.filter (fun n => negb (bool_decide (n ∈ found))) release_names) with
        | [] => Ret (Ok ())
        | missing => Ret (Err (Msg ("update: release archive is missing " ++ join ", " missing)))
        end
    end in
  ignore! call (CloseFile archivePath) in
  Ret r.

(** ** History *)

Section engine.
Context `{HUnicode : Unicode} `{HUrl : UrlParser} `{HDigest : Digest} `{HText : ManifestText} `{HPlatform : Platform}.
Variable e : Engine.

Definition history_path : string := path_join (StateDir (config e)) "history.jsonl".

(** source: internal/update/engine.go:413-427 (appendHistory) *)
Definition appendHistory (entry : HistoryEntry) : up_prog (result up_error ()) :=
  match marshal_entry entry with
  | None => Ret (Err (Msg "json: error calling MarshalJSON for type time.Time"))
  | Some data =>
      try! _ := os (call (OpenAppend history_path 384)) in
      let! r :=
        try! _ := os (call (WriteData history_path (line_of data))) in
        os (call (SyncFile history_path)) in
      ignore! call (CloseFile history_path) in
      Ret r
  end.

(** source: internal/update/engine.go:286-297 (History, once the file is read) *)
Definition parse_history (data : string) : result up_error (list HistoryEntry) :=
  match read_jsonl (fun line => String.eqb (trim_space line) "") unmarshal_entry data with
  | Ok entries => Ok entries
  | Err line => Err (Msg ("update: corrupt history line " ++ itoa (Z.of_nat line)))
  end.

(** source: internal/update/engine.go:278-298 (History) *)
Definition History : up_prog (result up_error (list HistoryEntry)) :=
  let! data := call (ReadFile history_path) in
  match data with
  | Err NotExist => Ret (Ok [])
  | Err (ReadFailed err) => Ret (Err (Os err))
  | Ok data => Ret (parse_history data)
  end.

(** source: internal/update/engine.go:434-439 (findHistory, the loop): the last entry
    that matches *)
Definition find_entry (id : string) (entries : list HistoryEntry) : option HistoryEntry :=
  List.find (fun h => (String.eqb id "" && String.eqb (h_Status h) "succeeded") || String.eqb (h_ID h) id)
    (rev entries).

(** source: internal/update/engine.go:429-440 (findHistory) *)
Definition findHistory (id : string) : up_prog (result up_error HistoryEntry) :=
  try! entries := History in
  match find_entry id entries with
  | Some entry => Ret (Ok entry)
  | None => Ret (Err (Msg "update: rollback transaction not found"))
  end.

(** ** Steps *)

(** source: internal/update/engine.go:300-305 (artifact) *)
Definition artifact (m : Manifest) : result manifest_error Artifact :=
  if negb (String.eqb (cfg_GOOS (config e)) "") || negb (String.eqb (cfg_GOARCH (config e)) "")
  then ArtifactFor m (cfg_GOOS (config e)) (cfg_GOARCH (config e))
  else ArtifactForCurrentPlatform m.

(** source: internal/update/engine.go:308-319 (prepareDirectories, the loop) *)
Fixpoint prepare_each (l : list string) : up_prog (result up_error ()) :=
  match l with
  | [] => Ret (Ok ())
  | directory :: l' =>
      if String.eqb directory "" || negb (is_abs directory)
      then Ret (Err (Msg "update: all configured directories must be absolute"))
      else
        wrap! (fun err => Wrap ("update: create directory " ++ directory) (Os err)) of _ :=
          call (MkdirAll directory 448) in
        prepare_each l'
  end.

(** source: internal/update/engine.go:307-320 (prepareDirectories) *)
Definition prepareDirectories : up_prog (result up_error ()) :=
  let c := config e in
  prepare_each [StateDir c; path_join (StateDir c) "staging"; path_join (StateDir c) "backups"; ReleaseDir c].

(** source: internal/update/engine.go:322-351 (download) *)
Definition download (sourceURL destination : string) (limit : Z) : up_prog (result up_error ()) :=
  if (limit <=? 0)%Z || (512 * 2 ^ 20 <? limit)%Z then Ret (Err (Msg "update: invalid download limit"))
  else
    try! _ := os (call (NewRequest sourceURL)) in
    wrap! (fun err => Wrap ("update: download " ++ base destination) (Os err)) of (status, body) :=
      call (HttpDo sourceURL []) in
    if negb (status =? 200)%Z then
      Ret (Err (Msg ("update: download " ++ base destination ++ " returned HTTP " ++ itoa status)))
    else
      try! _ := os (call (OpenExcl destination 384)) in
      let! (written, copyErr) := call (CopyBody destination body (limit + 1)) in
      let! closeErr := call (CloseFile destination) in
      match errors_join [os_err copyErr; failed closeErr] with
      | Some err => Ret (Err err)
      | None =>
          if (limit <? written)%Z
          then Ret (Err (Msg ("update: download " ++ base destination ++ " exceeds signed size limit")))
          else Ret (Ok ())
      end.

(** source: internal/update/engine.go:362 (install, [names]) *)
Definition names : list (string * string) := [
  ("opendeploy-core", "opendeploy-core"); ("opendeploy-agent", "opendeploy-agent"); ("opendeploy-cli", "opendeploy") ].

Definition live (name : string) : string := path_join (BinaryDir (config e)) name.

(** source: internal/update/engine.go:366-376 (install, the body of the first loop) *)
Definition prepare_one (payload releaseDir backupDir sourceName targetName : string) : up_prog (result up_error ()) :=
  try! _ := copyFile (path_join payload sourceName) (path_join releaseDir targetName) 493 in
  wrap! (fun err => Wrap ("update: live binary " ++ targetName ++ " is unavailable") (Os err)) of _ :=
    call (Stat (live targetName)) in
  copyFile (live targetName) (path_join backupDir targetName) 493.

(** source: internal/update/engine.go:365-377 (install, the first loop) *)
Fixpoint prepare_release (payload releaseDir backupDir : string) (l : list (string * string)) :
    up_prog (result up_error ()) :=
  match l with
  | [] => Ret (Ok ())
  | (sourceName, targetName) :: l' =>
      try! _ := prepare_one payload releaseDir backupDir sourceName targetName in
      prepare_release payload releaseDir backupDir l'
  end.

(** source: internal/update/engine.go:378-383 (install, the second loop) *)
Fixpoint replace_live (releaseDir : string) (l : list (string * string)) : up_prog (result up_error ()) :=
  match l with
  | [] => Ret (Ok ())
  | (_, targetName) :: l' =>
      try! _ := atomicCopy (path_join releaseDir targetName) (live targetName) 493 in
      replace_live releaseDir l'
  end.

Definition current_state (m : Manifest) : string :=
  print_json (JObj (str_member "commit" (m_Commit m) ++ str_member "version" (m_Version m))%list).

(** source: internal/update/engine.go:357-358 (install, [releaseDir]) *)
Definition release_dir (m : Manifest) (backupDir : string) : string :=
  path_join (ReleaseDir (config e))
    (trim_prefix (m_Version m) "v" ++ "-" ++ take_bytes 12 (m_Commit m) ++ "-" ++ base backupDir).

(** source: internal/update/engine.go:353-386 (install): a loop over a map visits it in
    any order, here [order1] and [order2] *)
Definition install (order1 order2 : list (string * string)) (payload : string) (m : Manifest) (backupDir : string) :
    up_prog (result up_error ()) :=
  try! _ := os (call (MkdirAll backupDir 448)) in
  let releaseDir := release_dir m backupDir in
  try! _ := os (call (Mkdir releaseDir 488)) in
  try! _ := prepare_release payload releaseDir backupDir order1 in
  try! _ := replace_live releaseDir order2 in
  os (call (WriteFile (path_join (StateDir (config e)) "current.json") (current_state m) 384)).

Definition live_names : list string := ["opendeploy-core"; "opendeploy-agent"; "opendeploy"].

(** source: internal/update/engine.go:389-397 (restore, the loop) *)
Fixpoint restore_each (backupDir : string) (l : list string) : up_prog (result up_error ()) :=
  match l with
  | [] => Ret (Ok ())
  | name :: l' =>
      let backup := path_join backupDir name in
      wrap! (fun err => Wrap ("update: rollback snapshot missing " ++ name) (Os err)) of _ := call (Stat backup) in
      try! _ := atomicCopy backup (live name) 493 in
      restore_each backupDir l'
  end.

(** source: internal/update/engine.go:388-399 (restore) *)
Definition restore (backupDir : string) : up_prog (result up_error ()) := restore_each backupDir live_names.

(** source: internal/update/engine.go:405-409 (snapshotLive, the loop) *)
Fixpoint snapshot_each (destination : string) (l : list string) : up_prog (result up_error ()) :=
  match l with
  | [] => Ret (Ok ())
  | name :: l' =>
      wrap! (fun err => Wrap ("update: snapshot live binary " ++ name) err) of _ :=
        copyFile (live name) (path_join destination name) 493 in
      snapshot_each destination l'
  end.

(** source: internal/update/engine.go:401-411 (snapshotLive) *)
Definition snapshotLive (destination : string) : up_prog (result up_error ()) :=
  try! _ := os (call (MkdirAll destination 448)) in
  snapshot_each destination live_names.

(** source: internal/update/engine.go:442-447 (healthTimeout) *)
Definition healthTimeout : Z :=
  if (HealthTimeout (config e) <=? 0)%Z then 45 * 10 ^ 9 else HealthTimeout (config e).

Definition err_of {A} (r : result up_error A) : option up_error :=
  match r with Ok _ => None | Err err => Some err end.

(** Restart, and when that succeeded the health check. *)
Definition restart_healthy (r : SystemRuntime) (c : ctx) : up_prog (result up_error ()) :=
  try! _ := Restart c in Healthy r c.

(** Entry updates: [entry.Status, entry.Automatic, entry.Error, entry.CompletedAt = ...] *)
Definition complete (h : HistoryEntry) (status : string) (automatic : bool) (error : string) (at_ : time) : HistoryEntry := {|
  h_ID := h_ID h; h_StartedAt := h_StartedAt h; h_CompletedAt := at_; h_FromVersion := h_FromVersion h;
  h_ToVersion := h_ToVersion h; h_Commit := h_Commit h; h_Status := status; h_Automatic := automatic;
  h_Error := error; h_BackupDir := h_BackupDir h; h_SystemBackup := h_SystemBackup h |}.

(** The text of [errors.Join] of errors not all nil. *)
Definition joined_text (l : list (option up_error)) : string :=
  match errors_join l with Some err => error_text err | None => "" end.

(** source: internal/update/engine.go:191-222 (Apply, from the installation on) *)
Definition install_or_roll_back (order1 order2 : list (string * string)) (r : SystemRuntime) (payloadDir : string)
    (m : Manifest) (entry : HistoryEntry) : up_prog (HistoryEntry * option up_error) :=
  let! installed := install order1 order2 payloadDir m (h_BackupDir entry) in
  match installed with
  | Err err =>
      let! rollbackErr := restore (h_BackupDir entry) in
      let combined := Joined (omap id [Some err; err_of rollbackErr]) in
      let! now := call Now in
      let entry := complete entry "rolled_back" true (error_text combined) now in
      ignore! appendHistory entry in
      Ret (entry, Some (Wrap "update: installation failed and rollback executed" combined))
  | Ok _ =>
      let! runtimeErr := restart_healthy r (Timeout healthTimeout) in
      match runtimeErr with
      | Err err =>
          let! rollbackErr := restore (h_BackupDir entry) in
          let! restartErr := Restart (Timeout healthTimeout) in
          let! healthErr := Healthy r (Timeout healthTimeout) in
          let combined := Joined (omap id [Some err; err_of rollbackErr; err_of restartErr; err_of healthErr]) in
          let! now := call Now in
          let entry := complete entry "rolled_back" true (error_text combined) now in
          ignore! appendHistory entry in
          Ret (entry, Some (Wrap "update: health gate failed and rollback executed" combined))
      | Ok _ =>
          let! now := call Now in
          let entry := complete entry "succeeded" (h_Automatic entry) (h_Error entry) now in
          let! appended := appendHistory entry in
          Ret (entry, err_of appended)
      end
  end.

(** [if err != nil { return entry, err }] *)
Definition bind_entry {A} (entry : HistoryEntry) (p : up_prog (result up_error A))
    (k : A -> up_prog (HistoryEntry * option up_error)) : up_prog (HistoryEntry * option up_error) :=
  bind p (fun r => match r with Ok a => k a | Err err => Ret (entry, Some err) end).
Notation "'or!' h 'of' x ':=' p 'in' k" := (bind_entry h p (fun x => k))
  (at level 10, h at level 9, x pattern, p at level 150, k at level 200).

(** [entry.Commit = ...; entry.ID += "-" + manifest.Commit[:12]] *)
Definition with_commit (h : HistoryEntry) (commit : string) : HistoryEntry := {|
  h_ID := h_ID h ++ "-" ++ take_bytes 12 commit; h_StartedAt := h_StartedAt h; h_CompletedAt := h_CompletedAt h;
  h_FromVersion := h_FromVersion h; h_ToVersion := h_ToVersion h; h_Commit := commit; h_Status := h_Status h;
  h_Automatic := h_Automatic h; h_Error := h_Error h; h_BackupDir := h_BackupDir h; h_SystemBackup := h_SystemBackup h |}.

(** [entry.SystemBackup = ...; entry.Status = "installing"; entry.BackupDir = ...] *)
Definition with_backup (h : HistoryEntry) (archive : string) : HistoryEntry := {|
  h_ID := h_ID h; h_StartedAt := h_StartedAt h; h_CompletedAt := h_CompletedAt h; h_FromVersion := h_FromVersion h;
  h_ToVersion := h_ToVersion h; h_Commit := h_Commit h; h_Status := "installing"; h_Automatic := h_Automatic h;
  h_Error := h_Error h; h_BackupDir := path_join (path_join (StateDir (config e)) "backups") (h_ID h);
  h_SystemBackup := archive |}.

(** source: internal/update/engine.go:139-190 (Apply, from the signed manifest to the
    system backup) *)
Definition verified_install (order1 order2 : list (string * string)) (r : SystemRuntime) (release : Release)
    (stage manifestPath : string) (entry : HistoryEntry) : up_prog (HistoryEntry * option up_error) :=
  or! entry of manifestBytes := bind (call (ReadFile manifestPath)) (fun x => Ret (match x with
    | Ok data => Ok data | Err NotExist => Err (Os "file does not exist") | Err (ReadFailed s) => Err (Os s) end)) in
  or! entry of m := Ret (map_err BadManifest (ParseManifest manifestBytes)) in
  if negb (String.eqb (m_Tag m) (rl_Tag release))
  then Ret (entry, Some (Msg "update: signed manifest tag does not match GitHub release"))
  else
  or! entry of tagCommit := TagCommit (github e) (rl_Tag release) in
  if negb (String.eqb tagCommit (m_Commit m))
  then Ret (entry, Some (Msg "update: signed manifest commit does not match release tag"))
  else
  let entry := with_commit entry (m_Commit m) in
  or! entry of art := Ret (map_err BadManifest (artifact m)) in
  match rl_Assets release !! a_Name art with
  | None => Ret (entry, Some (Msg ("update: signed artifact " ++ quote (a_Name art) ++ " is missing from release")))
  | Some artifactURL =>
  let archivePath := path_join stage (a_Name art) in
  or! entry of _ := download artifactURL archivePath (a_Size art) in
  let! info := call (Stat archivePath) in
  if match info with Err _ => true | Ok size => negb (size =? a_Size art)%Z end
  then Ret (entry, Some (Msg "update: artifact size does not match signed manifest"))
  else
  or! entry of _ := verifySHA256 archivePath (a_SHA256 art) in
  let payloadDir := path_join stage "payload" in
  or! entry of _ := extractRelease archivePath payloadDir in
  if negb (has_backup e) then Ret (entry, Some (Msg "update: full system backup provider is required"))
  else
  let! archive := call (SystemBackup ("before-update-" ++ m_Tag m)) in
  match archive with
  | Err err => Ret (entry, Some (Wrap "update: pre-update system backup" (Os err)))
  | Ok archive => install_or_roll_back order1 order2 r payloadDir m (with_backup entry archive)
  end
  end.

(** source: internal/update/engine.go:106-138 (Apply, up to the verified signature) *)
Definition apply_locked (order1 order2 : list (string * string)) (v : SignatureVerifier) (r : SystemRuntime)
    (tag : string) (entry : HistoryEntry) : up_prog (HistoryEntry * option up_error) :=
  or! entry of release := get_release (github e) tag in
  match rl_Assets release !! manifestAsset with
  | None => Ret (entry, Some (Msg "update: release manifest asset is missing"))
  | Some manifestURL =>
  let signatureName := if String.eqb (Signature (config e)) "" then sigstoreAsset else Signature (config e) in
  match rl_Assets release !! signatureName with
  | None => Ret (entry, Some (Msg ("update: manifest signature asset " ++ quote signatureName ++ " is missing")))
  | Some signatureURL =>
  or! entry of stage := bind (call (MkdirTemp (path_join (StateDir (config e)) "staging") "update-*"))
    (fun x => Ret (map_err (fun s => Wrap "update: create staging directory" (Os s)) x)) in
  let manifestPath := path_join stage manifestAsset in
  let signaturePath := path_join stage (base signatureName) in
  let! out :=
    or! entry of _ := download manifestURL manifestPath maxMetadata in
    or! entry of _ := download signatureURL signaturePath maxMetadata in
    or! entry of _ := Verify v manifestPath signaturePath in
    verified_install order1 order2 r release stage manifestPath entry in
  ignore! call (RemoveAll stage) in
  Ret out
  end end.

(** source: internal/update/engine.go:83-105 (Apply, before and after the lock is held):
    the deferred function completes the entry of a failed update *)
Definition Apply (order1 order2 : list (string * string)) (tag currentVersion : string) :
    up_prog (HistoryEntry * option up_error) :=
  match verifier e, runtime e with
  | Some v, Some r =>
      or! zero_entry of _ := prepareDirectories in
      let lock := path_join (StateDir (config e)) "update.lock" in
      or! zero_entry of _ := acquireUpdateLock lock in
      let! requestedAt := call Now in
      let entry := {|
        h_ID := stamp requestedAt; h_StartedAt := requestedAt; h_CompletedAt := zero_time;
        h_FromVersion := currentVersion; h_ToVersion := tag; h_Commit := ""; h_Status := "verifying";
        h_Automatic := false; h_Error := ""; h_BackupDir := ""; h_SystemBackup := "" |} in
      let! (entry, err) := apply_locked order1 order2 v r tag entry in
      let! entry :=
        match err with
        | Some failure =>
            if is_zero (h_CompletedAt entry) then
              let! now := call Now in
              let entry := complete entry "failed" (h_Automatic entry) (error_text failure) now in
              ignore! appendHistory entry in
              Ret entry
            else Ret entry
        | None => Ret entry
        end in
      ignore! unlock lock in
      Ret (entry, err)
  | _, _ => Ret (zero_entry, Some (Msg "update: verifier and runtime controller are required"))
  end.

(** ** Rollback *)

Definition rollback_failed (entry : HistoryEntry) (err : up_error) : up_prog (HistoryEntry * option up_error) :=
  let! now := call Now in
  let entry := complete entry "rollback_failed" (h_Automatic entry) (error_text err) now in
  ignore! appendHistory entry in
  Ret (entry, Some err).

(** source: internal/update/engine.go:237-276 (Rollback, once the transaction is found); the runtime
    controller is used without a check *)
Definition rollback_entry (original : HistoryEntry) : up_prog (HistoryEntry * option up_error) :=
  if String.eqb (h_BackupDir original) "" then Ret (zero_entry, Some (Msg "update: transaction has no rollback snapshot"))
  else
    let! now := call Now in
    let entry := {|
      h_ID := "rollback-" ++ stamp now; h_StartedAt := now; h_CompletedAt := zero_time;
      h_FromVersion := h_ToVersion original; h_ToVersion := h_FromVersion original; h_Commit := h_Commit original;
      h_Status := "rolling_back"; h_Automatic := false; h_Error := ""; h_BackupDir := h_BackupDir original;
      h_SystemBackup := "" |} in
    let safetySnapshot := path_join (path_join (StateDir (config e)) "backups") (h_ID entry) in
    let! snapped := snapshotLive safetySnapshot in
    match snapped with
    | Err err => rollback_failed entry err
    | Ok _ =>
        let! restored := restore (h_BackupDir original) in
        match restored with
        | Err err => rollback_failed entry err
        | Ok _ =>
            match runtime e with None => panic | Some r =>
            let! runtimeErr := restart_healthy r (Timeout healthTimeout) in
            match runtimeErr with
            | Err err =>
                let! restoreErr := restore safetySnapshot in
                let! restartErr := Restart (Timeout healthTimeout) in
                let! healthErr := Healthy r (Timeout healthTimeout) in
                let combined := Joined (omap id [Some err; err_of restoreErr; err_of restartErr; err_of healthErr]) in
                let! now := call Now in
                let entry := complete entry "rollback_failed" (h_Automatic entry) (error_text combined) now in
                ignore! appendHistory entry in
                Ret (entry, Some (Wrap "update: rollback health gate failed; current version restored" combined))
            | Ok _ =>
                let! now := call Now in
                let entry := complete entry "manual_rollback" (h_Automatic entry) (h_Error entry) now in
                let! appended := appendHistory entry in
                Ret (entry, err_of appended)
            end end
        end
    end.

(** source: internal/update/engine.go:224-236 (Rollback) *)
Definition Rollback (transactionID : string) : up_prog (HistoryEntry * option up_error) :=
  or! zero_entry of _ := prepareDirectories in
  let lock := path_join (StateDir (config e)) "update.lock" in
  or! zero_entry of _ := acquireUpdateLock lock in
  let! out :=
    or! zero_entry of original := findHistory transactionID in
    rollback_entry original in
  ignore! unlock lock in
  Ret out.
End engine.
