(* ===== verification/UpdateGates.v ===== *)
(** * The security gates of an update

    In every execution of [Apply], whatever the network, the file system and the tools
    answer, a live binary is replaced only after the gates were passed in their order. *)

From S2P Require Import Prelude GoStrings GoStrconv GoPath GoRegexp GoTime GoJson GoStruct Effects UpdateManifest Update.
Local Open Scope string_scope.
Local Open Scope go_scope.

(** A call that changes or takes away a file that exists. [OpenExcl] fails on an existing
    file, [OpenAppend] only opens the history, and [RemoveAll] is only called on the
    staging directory that the update made. *)
Definition replaces X (c : up_call X) : Prop :=
  match c with Rename _ _ | OpenTrunc _ _ | WriteFile _ _ _ | Remove _ => True | _ => False end.
Definition replacing (a : action up_call) : Prop := match a with Act c _ => replaces _ c end.

Notation quiet := (calls (fun X (c : up_call X) => ~ replaces X c)).

(** The programs before the installation replace nothing. *)

Ltac quiet_walk :=
  repeat first
    [ progress calls_walk
    | match goal with
      | |- quiet (os _) => unfold os
      | |- quiet panic => split; [intros []|intros []]
      end ].

Lemma getJSON_quiet {A} (dec : string -> option A) url : quiet (getJSON dec url).
Proof. unfold getJSON. quiet_walk. Qed.

Lemma TagCommit_quiet c tag : quiet (TagCommit c tag).
Proof. unfold TagCommit. quiet_walk; apply getJSON_quiet. Qed.

Lemma Verify_quiet v m s : quiet (Verify v m s).
Proof. destruct v; cbn [Verify]; unfold sigstore_Verify, gpg_Verify; quiet_walk. Qed.

Section gates.
Context `{HUnicode : Unicode} `{HUrl : UrlParser} `{HDigest : Digest} `{HText : ManifestText} `{HPlatform : Platform}.

Lemma check_assets_quiet c tag l known : quiet (check_assets c tag l known).
Proof.
  revert known; induction l as [|a l IH]; intros known; cbn [check_assets]; [done|]. unfold check_asset.
  quiet_walk; apply IH.
Qed.

Lemma get_release_quiet c tag : quiet (get_release c tag).
Proof. unfold get_release. quiet_walk; auto using getJSON_quiet, check_assets_quiet. Qed.

Lemma download_quiet url dst limit : quiet (download url dst limit).
Proof. unfold download. quiet_walk. Qed.

Lemma verifySHA256_quiet path expected : quiet (verifySHA256 path expected).
Proof. unfold verifySHA256. quiet_walk. Qed.

Lemma extract_entries_quiet dst total found l : quiet (extract_entries dst total found l).
Proof.
  revert total found; induction l as [|h l IH]; intros total found; cbn [extract_entries]; [done|].
  quiet_walk. apply IH.
Qed.

Lemma extractRelease_quiet archive dst : quiet (extractRelease archive dst).
Proof. unfold extractRelease. quiet_walk. apply extract_entries_quiet. Qed.

Variable e : Engine.

Lemma appendHistory_quiet entry : quiet (appendHistory e entry).
Proof. unfold appendHistory. quiet_walk. Qed.

Lemma prepareDirectories_quiet : quiet (prepareDirectories e).
Proof.
  unfold prepareDirectories. set (l := [_; _; _; _]). generalize l. clear l. intros l.
  induction l as [|d l IH]; cbn [prepare_each]; quiet_walk. apply IH.
Qed.

Lemma acquire_quiet path : quiet (acquireUpdateLock path).
Proof. unfold acquireUpdateLock. quiet_walk. Qed.

(** A quiet program makes no replacing call. *)
Lemma quiet_exec {A} (p : up_prog A) tr a : quiet p -> exec p tr a -> Forall (fun x => ~ replacing x) tr.
Proof.
  intros Hp Hx. eapply always_exec in Hx as [_ Hx]; [|exact Hp]. eapply Forall_impl; [exact Hx|]. by intros [].
Qed.

Lemma exec_or {A} h (p : up_prog (result up_error A)) k tr out :
  exec (bind_entry h p k) tr out -> exists t1 t2 r, tr = (t1 ++ t2)%list /\ exec p t1 r /\
    match r with Ok a => exec (k a) t2 out | Err err => t2 = [] /\ out = (h, Some err) end.
Proof.
  unfold bind_entry. intros (t1 & t2 & r & -> & H1 & H2)%exec_bind. exists t1, t2, r.
  split; [done|]. split; [done|]. by destruct r.
Qed.

(** ** What each gate saw *)

(** The command a verifier runs. *)
Definition verify_command (v : SignatureVerifier) (manifestPath signaturePath : string) :
    string * list string * list string :=
  match v with
  | SigstoreVerifier cosign identity issuer =>
      (cosign, ["verify-blob"; "--bundle"; signaturePath; "--certificate-identity-regexp"; identity;
                "--certificate-oidc-issuer"; issuer; manifestPath],
       ["PATH=/usr/sbin:/usr/bin:/sbin:/bin"; "HOME=/var/lib/opendeploy/updates"; "LANG=C.UTF-8"; "LC_ALL=C.UTF-8"])
  | GPGVerifier gpg keyring =>
      ((if String.eqb gpg "" then "/usr/bin/gpgv" else gpg), ["--keyring"; keyring; signaturePath; manifestPath], [])
  end.

Definition verification (v : SignatureVerifier) (manifestPath signaturePath output : string) : action up_call :=
  let '(path, args, env) := verify_command v manifestPath signaturePath in
  Act (Command Caller path args env) (output, None).

Lemma Verify_exec v m s tr :
  exec (Verify v m s) tr (Ok ()) -> exists output, [verification v m s output] `sublist_of` tr.
Proof.
  destruct v as [cosign identity issuer|gpg keyring]; cbn [Verify].
  - unfold sigstore_Verify. destruct (String.eqb cosign ""); [by intros []|].
    destruct (negb (is_abs cosign)); [by intros []|].
    intros (t1 & t2 & [output err] & -> & ->%exec_call & Hx)%exec_bind. destruct err; [by destruct Hx|].
    exists output. by apply sublist_skip, sublist_nil_l.
  - unfold gpg_Verify. destruct (String.eqb keyring ""); [by intros []|].
    intros (t1 & t2 & info & -> & ->%exec_call & Hx)%exec_bind. destruct (match info with Ok _ => _ | Err _ => _ end); [by destruct Hx|].
    destruct (negb (is_abs _)); [by destruct Hx|].
    apply exec_bind in Hx as (t3 & t4 & [output err] & -> & ->%exec_call & Hx). destruct err; [by destruct Hx|].
    exists output. by apply sublist_cons, sublist_skip, sublist_nil_l.
Qed.

(** A question to GitHub that was answered with status 200. *)
Definition answered (url body : string) : action up_call :=
  Act (HttpDo url [("Accept", "application/vnd.github+json"); ("User-Agent", "OpenDeploy-Updater")])
    (Ok (200%Z, body)).

Definition object_of (body : string) : option git_object := decode_object (limit_reader (2 * 2 ^ 20) body).

(** The questions by which GitHub names the commit of a tag: the reference of this tag is
    a commit, or a tag object, which is asked for next and points to a commit. *)
Inductive tag_names (c : GitHubClient) (tag commit : string) : list (action up_call) -> Prop :=
| lightweight_tag body reference :
    object_of body = Some reference -> o_Type reference = "commit" -> o_SHA reference = commit ->
    tag_names c tag commit [answered (repo_endpoint c ++ "/git/ref/tags/" ++ path_escape tag) body]
| annotated_tag body reference body' o :
    object_of body = Some reference -> o_Type reference = "tag" ->
    object_of body' = Some o -> o_Type o = "commit" -> o_SHA o = commit ->
    tag_names c tag commit [answered (repo_endpoint c ++ "/git/ref/tags/" ++ path_escape tag) body;
                            answered (repo_endpoint c ++ "/git/tags/" ++ o_SHA reference) body'].

Lemma getJSON_exec {A} (dec : string -> option A) url tr a :
  exec (getJSON dec url) tr (Ok a) ->
  exists body, [answered url body] `sublist_of` tr /\ dec (limit_reader (2 * 2 ^ 20) body) = Some a.
Proof.
  unfold getJSON. intros (t1 & t2 & [] & -> & _ & Hx)%exec_try.
  apply exec_wrap in Hx as (t3 & t4 & [status body] & -> & ->%exec_call & Hx). cbv beta zeta in Hx.
  destruct (Z.eqb_spec status 200) as [->|]; [|by destruct Hx]. simpl negb in Hx. cbn iota in Hx.
  destruct (dec _) as [a'|] eqn:Hd; [|by destruct Hx]. destruct Hx as [-> [= ->]].
  exists body. split; [|done]. by apply sublist_inserts_l, sublist_skip, sublist_nil_l.
Qed.

Lemma TagCommit_exec c tag tr sha :
  exec (TagCommit c tag) tr (Ok sha) -> exists l, l `sublist_of` tr /\ tag_names c tag sha l.
Proof.
  unfold TagCommit. intros (t1 & t2 & reference & -> & (body & Hs & Hd)%getJSON_exec & Hx)%exec_try.
  destruct (_ && _) eqn:Hc.
  - destruct Hx as [-> [= ->]]. apply andb_true_iff in Hc as [Hc%String.eqb_eq _].
    eexists. split; [apply sublist_inserts_r, Hs|]. by eapply lightweight_tag.
  - destruct (_ || _) eqn:Ho; [by destruct Hx|].
    apply orb_false_iff in Ho as [Ho%negb_false_iff%String.eqb_eq _].
    apply exec_try in Hx as (t3 & t4 & annotated & -> & (body' & Hs' & Hd')%getJSON_exec & Hx).
    destruct (_ || _) eqn:Hb; [by destruct Hx|]. destruct Hx as [-> [= ->]].
    apply orb_false_iff in Hb as [Hb%negb_false_iff%String.eqb_eq _].
    eexists. split; [|by apply (annotated_tag _ _ _ body reference body' annotated)].
    apply (sublist_app [_] _ [_] _); [done|]. by apply sublist_inserts_r.
Qed.

Lemma verifySHA256_exec path expected tr :
  exec (verifySHA256 path expected) tr (Ok ()) ->
  exists content, [Act (ReadAll path) (Ok content)] `sublist_of` tr /\ sha256_hex content = to_lower expected.
Proof.
  unfold verifySHA256. intros (t1 & t2 & [] & -> & _ & Hx)%exec_try.
  apply exec_bind in Hx as (t3 & t4 & data & -> & ->%exec_call & Hx).
  apply exec_bind in Hx as (t5 & t6 & ? & -> & ->%exec_call & Hx).
  destruct data as [content|err]; [|by destruct Hx]. cbv zeta in Hx.
  destruct (String.eqb_spec (sha256_hex content) (to_lower expected)) as [He|]; [|by destruct Hx].
  exists content. split; [|done]. by apply sublist_inserts_l, sublist_skip, sublist_nil_l.
Qed.

Lemma extractRelease_exec archive dst tr :
  exec (extractRelease archive dst) tr (Ok ()) ->
  exists headers, [Act (TarStream archive) (headers, None)] `sublist_of` tr.
Proof.
  unfold extractRelease. intros (t1 & t2 & [] & -> & _ & Hx)%exec_try.
  apply exec_try in Hx as (t3 & t4 & [] & -> & _ & Hx).
  apply exec_bind in Hx as (t5 & t6 & r & -> & Hr & Hx).
  apply exec_bind in Hx as (t7 & t8 & ? & -> & _ & [_ <-]).
  apply exec_wrap in Hr as (t9 & t10 & [] & -> & _ & Hr).
  apply exec_bind in Hr as (t11 & t12 & [headers ending] & -> & ->%exec_call & Hr).
  apply exec_try in Hr as (t13 & t14 & found & -> & _ & Hr). destruct ending; [by destruct Hr|].
  exists headers. do 2 apply sublist_inserts_l. apply sublist_inserts_r, sublist_inserts_l.
  apply (sublist_app [_] _ [] _); [done|apply sublist_nil_l].
Qed.

Lemma get_release_exec c tag tr release : exec (get_release c tag) tr (Ok release) -> rl_Tag release = tag.
Proof.
  unfold get_release. destruct (negb _); [by intros []|].
  intros (t1 & t2 & payload & -> & _ & Hx)%exec_try. destruct (_ || _) eqn:Hb; [by destruct Hx|].
  apply exec_try in Hx as (t3 & t4 & assets & -> & _ & [_ [= ->]]). simpl.
  rewrite !orb_false_iff, negb_false_iff, String.eqb_eq in Hb. tauto.
Qed.

(** ** The gates in order *)

(** Everything that must have happened, in this order, before a file is replaced: the
    manifest read, GitHub asked for the commit of the tag, the size and the hash of the
    archive checked, this same archive extracted, and a full backup made; and what the
    answers must have been. *)
Definition manifest_gates (tag stage manifestPath : string) (pre : list (action up_call)) : Prop :=
  exists data m asked art content headers archive,
    let archivePath := path_join stage (a_Name art) in
    ([Act (ReadFile manifestPath) (Ok data)] ++ asked
     ++ [Act (Stat archivePath) (Ok (a_Size art)); Act (ReadAll archivePath) (Ok content);
         Act (TarStream archivePath) (headers, None);
         Act (SystemBackup ("before-update-" ++ tag)) (Ok archive)])%list `sublist_of` pre /\
    ParseManifest data = Ok m /\ m_Tag m = tag /\ tag_names (github e) tag (m_Commit m) asked /\
    artifact e m = Ok art /\ sha256_hex content = to_lower (a_SHA256 art).

Lemma sublist_gate {A} (l1 l2 k1 k2 : list A) :
  l1 `sublist_of` k1 -> l2 `sublist_of` k2 -> (l1 ++ l2)%list `sublist_of` (k1 ++ k2)%list.
Proof. apply sublist_app. Qed.

Lemma calm_one X (c : up_call X) x : ~ replaces X c -> Forall (fun a => ~ replacing a) [Act c x].
Proof. intros Hc. by apply List.Forall_cons; [|apply List.Forall_nil]. Qed.

Ltac quiet_end H :=
  destruct H as [-> _]; left; rewrite ?app_nil_r, ?Forall_app;
  repeat match goal with |- _ /\ _ => split end; try done;
  repeat (apply List.Forall_cons; [by intros []|]); apply List.Forall_nil.

Lemma verified_install_exec order1 order2 r release stage manifestPath entry tr out :
  exec (verified_install e order1 order2 r release stage manifestPath entry) tr out ->
  Forall (fun x => ~ replacing x) tr \/
  exists pre post, tr = (pre ++ post)%list /\ Forall (fun x => ~ replacing x) pre /\
    manifest_gates (rl_Tag release) stage manifestPath pre.
Proof.
  unfold verified_install.
  intros (t1 & t2 & data & -> & Hdata & Hx)%exec_or.
  assert (Hq1 : Forall (fun x => ~ replacing x) t1) by (eapply quiet_exec; [|exact Hdata]; quiet_walk).
  apply exec_bind in Hdata as (t1' & ? & x & -> & ->%exec_call & [-> Hdata]).
  rewrite app_nil_r in *.
  destruct data as [data|err]; [|quiet_end Hx].
  destruct x as [data'|[|s]]; [injection Hdata as <-|done..].
  apply exec_or in Hx as (t3 & t4 & m & -> & [-> Hm] & Hx). rewrite app_nil_l.
  destruct m as [m|err]; [|quiet_end Hx].
  destruct (ParseManifest data) as [m'|] eqn:Hparse; [injection Hm as <-|done].
  destruct (String.eqb_spec (m_Tag m) (rl_Tag release)) as [Htag|]; [|quiet_end Hx].
  simpl negb in Hx. cbn iota in Hx.
  apply exec_or in Hx as (t5 & t6 & tc & -> & Htc & Hx).
  assert (Hq5 : Forall (fun x => ~ replacing x) t5) by (eapply quiet_exec; [apply TagCommit_quiet|done]).
  destruct tc as [tc|err]; [|quiet_end Hx].
  destruct (String.eqb_spec tc (m_Commit m)) as [->|]; [|quiet_end Hx].
  simpl negb in Hx. cbn iota zeta in Hx.
  apply TagCommit_exec in Htc as (asked & Hs5 & Hnames).
  apply exec_or in Hx as (t7 & t8 & ar & -> & [-> Har] & Hx). rewrite app_nil_l.
  destruct ar as [art|err]; [|quiet_end Hx].
  destruct (artifact e m) as [art'|] eqn:Hart; [injection Har as <-|done].
  destruct (rl_Assets release !! a_Name art) as [artifactURL|];
    [|quiet_end Hx].
  apply exec_or in Hx as (t9 & t10 & dl & -> & Hdl & Hx).
  assert (Hq9 : Forall (fun x => ~ replacing x) t9) by (eapply quiet_exec; [apply download_quiet|done]).
  destruct dl as [[]|err]; [|quiet_end Hx].
  apply exec_bind in Hx as (t11 & t12 & info & -> & ->%exec_call & Hx).
  destruct (match info with Ok _ => _ | Err _ => _ end) eqn:Hinfo;
    [quiet_end Hx|].
  destruct info as [size|]; [|done]. apply negb_false_iff, Z.eqb_eq in Hinfo as ->.
  apply exec_or in Hx as (t13 & t14 & sh & -> & Hsh & Hx).
  assert (Hq13 : Forall (fun x => ~ replacing x) t13) by (eapply quiet_exec; [apply verifySHA256_quiet|done]).
  assert (Hq11 : Forall (fun x => ~ replacing x) [Act (Stat (path_join stage (a_Name art))) (Ok (a_Size art))])
    by (apply calm_one; by intros []).
  destruct sh as [[]|err]; [|quiet_end Hx].
  apply verifySHA256_exec in Hsh as (content & Hs13 & Hsum).
  apply exec_or in Hx as (t15 & t16 & ex & -> & Hex & Hx).
  assert (Hq15 : Forall (fun x => ~ replacing x) t15) by (eapply quiet_exec; [apply extractRelease_quiet|done]).
  destruct ex as [[]|err]; [|quiet_end Hx]. apply extractRelease_exec in Hex as [headers Hs15].
  destruct (negb (has_backup e)); [quiet_end Hx|].
  apply exec_bind in Hx as (t17 & t18 & archive & -> & ->%exec_call & Hx). rewrite Htag in *.
  assert (Hq17 : Forall (fun x => ~ replacing x) [Act (SystemBackup ("before-update-" ++ rl_Tag release)) archive])
    by (apply calm_one; by intros []).
  destruct archive as [archive|err]; [|quiet_end Hx].
  right. set (E1 := [Act (ReadFile manifestPath) (Ok data)]). set (E11 := [Act (Stat _) _]). set (E17 := [Act (SystemBackup _) _]).
  exists (E1 ++ t5 ++ t9 ++ E11 ++ t13 ++ t15 ++ E17)%list, t18.
  split; [by rewrite <- !app_assoc|]. split; [by rewrite !Forall_app|].
  exists data, m, asked, art, content, headers, archive. split_and!; try done.
  apply sublist_app; [reflexivity|]. apply sublist_app; [done|]. apply sublist_inserts_l.
  apply (sublist_app [_]); [reflexivity|]. apply (sublist_app [_]); [done|].
  apply (sublist_app [_]); [done|reflexivity].
Qed.

Definition signature_name : string :=
  if String.eqb (Signature (config e)) "" then sigstoreAsset else Signature (config e).

(** The gates of a whole update: before those on the manifest, its signature, with both
    files in the staging directory the archive is in. *)
Definition cleared (v : SignatureVerifier) (tag : string) (pre : list (action up_call)) : Prop :=
  exists stage output pre1 pre2,
    let manifestPath := path_join stage manifestAsset in
    pre = (pre1 ++ pre2)%list /\
    [verification v manifestPath (path_join stage (base signature_name)) output] `sublist_of` pre1 /\
    manifest_gates tag stage manifestPath pre2.

Lemma manifest_gates_mono tag stage path pre k : manifest_gates tag stage path pre -> manifest_gates tag stage path (pre ++ k).
Proof.
  intros (data & m & asked & art & content & headers & archive & Hs & Hrest).
  exists data, m, asked, art, content, headers, archive. split; [by apply sublist_inserts_r|done].
Qed.

(** What [p] replaces, it replaces after the gates. *)
Definition gated {A} (v : SignatureVerifier) (tag : string) (p : up_prog A) : Prop :=
  forall tr a, exec p tr a -> Forall (fun x => ~ replacing x) tr \/
    exists pre post, tr = (pre ++ post)%list /\ Forall (fun x => ~ replacing x) pre /\ cleared v tag pre.

Lemma gated_quiet {A} v tag (p : up_prog A) : quiet p -> gated v tag p.
Proof. intros Hp tr a Hx. left. by eapply quiet_exec. Qed.

Lemma cleared_after v tag pre0 pre : cleared v tag pre -> cleared v tag (pre0 ++ pre).
Proof.
  intros (stage & output & pre1 & pre2 & -> & Hv & Hm). exists stage, output, (pre0 ++ pre1)%list, pre2.
  split; [by rewrite app_assoc|]. split; [by apply sublist_inserts_l|done].
Qed.

Lemma gated_then {A B} v tag (p : up_prog A) (f : A -> up_prog B) :
  quiet p -> (forall a, gated v tag (f a)) -> gated v tag (bind p f).
Proof.
  intros Hp Hf tr b (t1 & t2 & a & -> & H1 & H2)%exec_bind.
  pose proof (quiet_exec _ _ _ Hp H1) as Hq. destruct (Hf a _ _ H2) as [Hq2|(pre & post & -> & Hq2 & Hc)].
  - left. by apply Forall_app.
  - right. exists (t1 ++ pre)%list, post. split; [by rewrite app_assoc|]. split; [by apply Forall_app|].
    by apply cleared_after.
Qed.

Lemma gated_before {A B} v tag (p : up_prog A) (f : A -> up_prog B) :
  gated v tag p -> (forall a, quiet (f a)) -> gated v tag (bind p f).
Proof.
  intros Hp Hf tr b (t1 & t2 & a & -> & H1 & H2)%exec_bind.
  pose proof (quiet_exec _ _ _ (Hf a) H2) as Hq. destruct (Hp _ _ H1) as [Hq2|(pre & post & -> & Hq2 & Hc)].
  - left. by apply Forall_app.
  - right. exists pre, (post ++ t2)%list. by rewrite <- app_assoc.
Qed.

Lemma gated_or {A} v tag h (p : up_prog (result up_error A)) k :
  quiet p -> (forall a, gated v tag (k a)) -> gated v tag (bind_entry h p k).
Proof. intros Hp Hk. apply gated_then; [done|]. intros [a|err]; [done|]. by apply gated_quiet. Qed.

Lemma gated_signed order1 order2 v r release stage entry :
  let mp := path_join stage manifestAsset in
  gated v (rl_Tag release) (bind_entry entry (Verify v mp (path_join stage (base signature_name)))
    (fun _ => verified_install e order1 order2 r release stage mp entry)).
Proof.
  intros mp tr out (t1 & t2 & x & -> & Hv & Hx)%exec_or.
  assert (Hq : Forall (fun x => ~ replacing x) t1) by (eapply quiet_exec; [apply Verify_quiet|done]).
  destruct x as [[]|err]; [|destruct Hx as [-> _]; left; by rewrite app_nil_r].
  apply Verify_exec in Hv as [output Hs].
  apply verified_install_exec in Hx as [Hq2|(pre & post & -> & Hq2 & Hg)]; [left; by apply Forall_app|right].
  exists (t1 ++ pre)%list, post. split; [by rewrite app_assoc|]. split; [by apply Forall_app|].
  by exists stage, output, t1, pre.
Qed.

Lemma gated_locked order1 order2 v r tag entry : gated v tag (apply_locked e order1 order2 v r tag entry).
Proof.
  unfold apply_locked. intros tr out (t1 & t2 & x & -> & Hr & Hx)%exec_or.
  pose proof (quiet_exec _ _ _ (get_release_quiet (github e) tag) Hr) as Hq.
  destruct x as [release|err]; [|destruct Hx as [-> _]; left; by rewrite app_nil_r].
  apply get_release_exec in Hr as <-. revert Hx.
  match goal with |- exec ?p t2 out -> _ => assert (Hp : gated v (rl_Tag release) p) end.
  { destruct (rl_Assets release !! manifestAsset) as [manifestURL|]; [|by apply gated_quiet].
    destruct (rl_Assets release !! _) as [signatureURL|]; [|by apply gated_quiet].
    apply gated_or; [quiet_walk|]. intros stage. cbv zeta. apply gated_before; [|intro; quiet_walk].
    apply gated_or; [apply download_quiet|]. intros _. apply gated_or; [apply download_quiet|]. intros _.
    apply gated_signed. }
  intros Hx. destruct (Hp _ _ Hx) as [Hq2|(pre & post & -> & Hq2 & Hc)]; [left; by apply Forall_app|right].
  exists (t1 ++ pre)%list, post. split; [by rewrite app_assoc|]. split; [by apply Forall_app|]. by apply cleared_after.
Qed.

Lemma gated_Apply order1 order2 v tag currentVersion :
  verifier e = Some v -> gated v tag (Apply e order1 order2 tag currentVersion).
Proof.
  intros Hv. unfold Apply. rewrite Hv. destruct (runtime e) as [r|]; [|by apply gated_quiet].
  apply gated_or; [apply prepareDirectories_quiet|]. intros _. cbv zeta.
  apply gated_or; [apply acquire_quiet|]. intros _. apply gated_then; [by apply calls_call; intros []|].
  intros now. apply gated_before; [apply gated_locked|]. intros [entry err]. unfold unlock.
  quiet_walk; apply appendHistory_quiet.
Qed.

Lemma first_replacement {A} (P : A -> Prop) l r p a q :
  Forall (fun x => ~ P x) l -> P a -> (l ++ r = p ++ a :: q)%list -> exists p', p = (l ++ p')%list.
Proof.
  intros Hl Ha. revert p. induction Hl as [|x l Hx Hl IH]; intros p Heq; [by exists p|].
  destruct p as [|y p]; simpl in Heq; injection Heq as -> Heq; [done|].
  destruct (IH p Heq) as [p' ->]. by exists p'.
Qed.

End gates.

(** ** A release that is installed *)

#[local] Existing Instance unicode_ascii.

Definition sample_url : UrlParser := {| url_parse := fun s =>
  if has_prefix s "https://" then
    let '(host, path) := cut slash (drop_bytes 8 s) in Some ("https", host, "/" ++ default "" path)
  else None |}.
Definition sample_digest : Digest := {| sha256_hex := fun _ => a_SHA256 sample_artifact |}.
Definition sample_text : ManifestText := {| manifest_text := fun _ => "" |}.
Definition sample_platform : Platform := {| GOOS := "linux"; GOARCH := "amd64" |}.
#[local] Existing Instance sample_url.
#[local] Existing Instance sample_digest.
#[local] Existing Instance sample_text.
#[local] Existing Instance sample_platform.

Definition sample_engine : Engine := {|
  config := DefaultConfig; github := NewGitHubClient; verifier := Some DefaultSigstoreVerifier;
  runtime := Some {| CoreHealthURL := "" |}; has_backup := true |}.

Definition sample_asset (name : string) : json := JObj
  (str_member "name" name
   ++ str_member "browser_download_url" ("https://github.com/anrted/opendeploy/releases/download/v1.2.3/" ++ name))%list.

Definition sample_release : string := print_json (JObj
  (str_member "tag_name" "v1.2.3" ++ [("assets", JArr (sample_asset <$> [manifestAsset; sigstoreAsset; "opendeploy.tar.gz"]))])%list).

Definition sample_reference : string := print_json (JObj
  [("object", JObj (str_member "type" "commit" ++ str_member "sha" (m_Commit sample_manifest))%list)]).

Definition sample_now : time :=
  {| t_year := 2026; t_month := 2; t_day := 1; t_hour := 9; t_min := 30; t_sec := 0; t_nsec := 7; t_off := 0 |}.

(** Answers of a host and a network where every step succeeds. *)
Definition sample_answer X (c : up_call X) : option X :=
  match c in up_call X return option X with
  | Now => Some sample_now
  | MkdirAll _ _ | Mkdir _ _ | RemoveAll _ | OpenLock _ | Flock _ | NewRequest _ | OpenExcl _ _ | OpenTrunc _ _
  | OpenAppend _ _ | OpenRead _ | WriteData _ _ | SyncFile _ | ChmodFile _ _ | CloseFile _ | WriteFile _ _ _
  | GzipReader _ | Rename _ _ | Remove _ => Some (Ok ())
  | MkdirTemp d _ => Some (Ok (d ++ "/update-1"))
  | CreateTemp d _ => Some (Ok (d ++ "/.update-2"))
  | Funlock _ => Some ()
  | HttpDo url _ => Some (Ok (200%Z,
      if contains url "/releases/tags/" then sample_release
      else if contains url "/git/ref/tags/" then sample_reference else "data"))
  | CopyBody _ _ _ => Some (4%Z, None)
  | CopyAll _ _ | CopyEntry _ _ _ | WaitSecond _ => Some None
  | ReadAll _ => Some (Ok "archive")
  | ReadFile _ => Some (Ok sample_json)
  | Stat _ => Some (Ok 4096%Z)
  | StatMode _ => Some (Ok 384%Z)
  | TarStream _ => Some ((fun n => {| rh_name := n; rh_regular := true; rh_size := 10 |}) <$> release_names, None)
  | Command _ _ _ _ => Some ("", None)
  | SystemBackup _ => Some (Ok "/var/lib/opendeploy/backups/b.tar.gz")
  | HealthGet _ _ => Some (Ok 200%Z)
  | NilDereference => None
  end.

Definition sample_update : option (list (action up_call) * (HistoryEntry * option up_error)) :=
  traced sample_answer (Apply sample_engine names names "v1.2.3" "v1.2.2").

Definition sample_trace : list (action up_call) := match sample_update with Some (tr, _) => tr | None => [] end.
Definition sample_outcome : HistoryEntry * option up_error :=
  match sample_update with Some (_, out) => out | None => (zero_entry, None) end.

Definition is_rename (a : action up_call) : bool := match a with Act (Rename _ _) _ => true | _ => false end.
Definition first_rename : nat := match list_find is_rename sample_trace with Some (i, _) => i | None => 0 end.

Example sample_succeeds : h_Status (fst sample_outcome) = "succeeded" /\ snd sample_outcome = None.
Proof. vm_compute. done. Qed.

Lemma sample_exec : exec (Apply sample_engine names names "v1.2.3" "v1.2.2") sample_trace sample_outcome.
Proof.
  apply (traced_exec sample_answer). unfold sample_trace, sample_outcome.
  destruct sample_update as [[tr out]|] eqn:Hs; [exact Hs|]. exfalso.
  assert (Hn : match sample_update with Some _ => true | None => false end = true) by (vm_compute; reflexivity).
  by rewrite Hs in Hn.
Qed.

