(* ===== verification/UpdateDisk.v ===== *)
(** * Updates on a disk

    A disk on which the calls of the update engine run: files by path, the number of
    calls that failed although they could have succeeded, and the files a copy broke off
    in.  On it an installation is all or nothing, a rollback restores what it should,
    and the history returns what was appended. *)

From S2P Require Import Prelude GoStrings GoStrconv GoPath GoRegexp GoTime GoJson GoStruct Effects UpdateManifest Update.
Local Open Scope string_scope.
Local Open Scope go_scope.

Record disk := { d_files : gmap string string; d_faults : nat; d_torn : gset string }.

Definition put (p c : string) (d : disk) : disk :=
  {| d_files := <[p := c]> (d_files d); d_faults := d_faults d; d_torn := d_torn d |}.
Definition erase (p : string) (d : disk) : disk :=
  {| d_files := delete p (d_files d); d_faults := d_faults d; d_torn := d_torn d |}.
Definition fault (d : disk) : disk :=
  {| d_files := d_files d; d_faults := S (d_faults d); d_torn := d_torn d |}.
Definition tear (p : string) (d : disk) : disk :=
  {| d_files := d_files d; d_faults := d_faults d; d_torn := {[p]} ∪ d_torn d |}.

Definition content (d : disk) (p : string) : string := default "" (d_files d !! p).

(** [x] is an error. *)
Definition is_err {E A} (x : result E A) : Prop := match x with Ok _ => False | Err _ => True end.

(** A call without effect on the files may always fail. *)
Definition benign {A} (d : disk) (x : result string A) (d' : disk) : Prop :=
  (~ is_err x /\ d' = d) \/ (is_err x /\ d' = fault d).

(** What a call may answer on a disk, and the disk it leaves.  [os.CreateTemp] with a
    pattern that starts with a dot makes a new file with such a name.  A copy that fails
    leaves a part of the source; rename(2) is atomic.  Restarts, health checks, the
    network and the clock answer anything. *)
Definition up_sem X (c : up_call X) (d : disk) : X -> disk -> Prop :=
  match c in up_call X return X -> disk -> Prop with
  | MkdirAll _ _ | SyncFile _ | ChmodFile _ _ | CloseFile _ => fun x d' => benign d x d'
  | Mkdir _ _ => fun _ d' => d' = d
  | OpenRead p => fun x d' =>
      (x = Ok () /\ is_Some (d_files d !! p) /\ d' = d) \/ (is_err x /\ d_files d !! p = None /\ d' = d)
      \/ (is_err x /\ d' = fault d)
  | OpenTrunc p _ => fun x d' => (x = Ok () /\ d' = put p "" d) \/ (is_err x /\ d' = fault d)
  | CopyAll dst src => fun x d' =>
      (x = None /\ d' = put dst (content d src) d)
      \/ (is_Some x /\ exists n, d' = tear dst (fault (put dst (take_bytes n (content d src)) d)))
  | Stat p => fun x d' =>
      (~ is_err x /\ is_Some (d_files d !! p) /\ d' = d) \/ (is_err x /\ d_files d !! p = None /\ d' = d)
      \/ (is_err x /\ d' = fault d)
  | CreateTemp dir _ => fun x d' =>
      (exists n, has_prefix n "." = true /\ good_comp n /\ d_files d !! path_join dir n = None /\
         x = Ok (path_join dir n) /\ d' = put (path_join dir n) "" d)
      \/ (is_err x /\ d' = fault d)
  | Rename a b => fun x d' =>
      (exists c, d_files d !! a = Some c /\ x = Ok () /\ d' = put b c (erase a d))
      \/ (is_err x /\ d_files d !! a = None /\ d' = d) \/ (is_err x /\ d' = fault d)
  | Remove p => fun x d' =>
      (x = Ok () /\ d' = erase p d) \/ (is_err x /\ d_files d !! p = None /\ d' = d) \/ (is_err x /\ d' = fault d)
  | OpenAppend p _ => fun x d' =>
      (x = Ok () /\ d' = put p (content d p) d) \/ (is_err x /\ d' = fault d)
  | WriteData p data => fun x d' =>
      (x = Ok () /\ d' = put p (content d p ++ data) d)
      \/ (is_err x /\ exists n, d' = fault (put p (content d p ++ take_bytes n data) d))
  | WriteFile p data _ => fun x d' =>
      (x = Ok () /\ d' = put p data d) \/ (is_err x /\ (d' = fault d \/ exists n, d' = fault (put p (take_bytes n data) d)))
  | ReadFile p => fun x d' =>
      (x = match d_files d !! p with Some c => Ok c | None => Err NotExist end /\ d' = d)
      \/ (exists s, x = Err (ReadFailed s) /\ d' = fault d)
  | ReadAll p => fun x d' => (x = Ok (content d p) /\ d' = d) \/ (is_err x /\ d' = fault d)
  | OpenExcl p _ => fun x d' =>
      (x = Ok () /\ d_files d !! p = None /\ d' = put p "" d) \/ (is_err x /\ is_Some (d_files d !! p) /\ d' = d)
      \/ (is_err x /\ d' = fault d)
  | CopyBody p _ _ | CopyEntry p _ _ => fun _ d' => exists s, d' = put p s d
  | RemoveAll p => fun _ d' => d' = {| d_files := filter (fun kv => ~ at_or_below p (fst kv)) (d_files d);
                                       d_faults := d_faults d; d_torn := d_torn d |}
  | MkdirTemp dir _ => fun x d' => (exists n, good_comp n /\ x = Ok (path_join dir n) /\ d' = d) \/ (is_err x /\ d' = fault d)
  | NilDereference => fun _ _ => False
  | _ => fun _ d' => d' = d
  end.

Notation on_disk p d x d' := (runs (@up_sem) p d x d').

(** ** Copies *)

(** Faults and torn files are never forgotten. *)
Definition later (d d' : disk) : Prop := d_faults d <= d_faults d' /\ d_torn d ⊆ d_torn d'.

#[export] Instance later_refl : Reflexive later.
Proof. by intros d. Qed.
#[export] Instance later_trans : Transitive later.
Proof. intros d1 d2 d3 [? ?] [? ?]. split; [lia|set_solver]. Qed.

Lemma later_fault d : later d (fault d).
Proof. split; simpl; [lia|done]. Qed.
Lemma later_put p c d : later d (put p c d).
Proof. by split. Qed.

Lemma benign_inv {A} d (x : result string A) d' :
  benign d x d' -> d_files d' = d_files d /\ d_torn d' = d_torn d /\ d_faults d <= d_faults d' /\
    (is_err x -> d_faults d < d_faults d').
Proof. intros [[? ->]|[? ->]]; simpl; split_and!; auto. by intros. Qed.

(** The disk after a program: its files but for [dst], and what became of [dst]. *)
Definition only (dst : string) (d d' : disk) : Prop :=
  later d d' /\ forall p, p <> dst -> d_files d' !! p = d_files d !! p /\ (p ∈ d_torn d' -> p ∈ d_torn d).

(** A part of [src] is in [dst], and this is on record. *)
Definition torn_copy (src dst : string) (d d' : disk) : Prop :=
  dst ∈ d_torn d' /\ exists c n, d_files d !! src = Some c /\ d_files d' !! dst = Some (take_bytes n c).

Ltac inv_runs H :=
  repeat match type of H with
  | runs _ (Ret _) _ _ _ => destruct H as [-> ->]
  | runs _ (bind_err _ _) _ _ _ => unfold bind_err in H at 1
  | runs _ (bind_wrap _ _ _) _ _ _ => unfold bind_wrap in H at 1
  end.

Lemma runs_os {A} (p : up_prog (result string A)) d x d' :
  on_disk (os p) d x d' <-> exists y, on_disk p d y d' /\ x = map_err Os y.
Proof.
  unfold os. rewrite runs_bind. split.
  - intros (y & d1 & Hy & -> & ->). eauto.
  - intros (y & Hy & ->). exists y, d'. done.
Qed.

Lemma runs_os_call {A} (c : up_call (result string A)) d x d' :
  on_disk (os (call c)) d x d' -> exists y, up_sem _ c d y d' /\ x = map_err Os y.
Proof. intros (y & Hy & ->)%runs_os. apply runs_call in Hy. eauto. Qed.

(** The end of a copy: its error, and the errors of syncing and closing. *)
Lemma copied_ends src dst d x d' :
  on_disk (let! copyErr := call (CopyAll dst src) in let! syncErr := call (SyncFile dst) in
           let! closeErr := call (CloseFile dst) in
           Ret (combine_errors [os_err copyErr; failed syncErr; failed closeErr])) d x d' ->
  is_Some (d_files d !! src) -> src <> dst ->
  only dst d d' /\ (d_files d' !! dst = d_files d !! src \/ (is_err x /\ torn_copy src dst d d')) /\
  (is_err x -> d_faults d < d_faults d').
Proof.
  intros (copyErr & d1 & Hc%runs_call & H)%runs_bind [c Hsrc] Hne.
  apply runs_bind in H as (syncErr & d2 & Hs%runs_call%benign_inv & H).
  apply runs_bind in H as (closeErr & d3 & Hcl%runs_call%benign_inv & [-> ->]).
  destruct Hs as (Hf2 & Ht2 & Hl2 & He2), Hcl as (Hf3 & Ht3 & Hl3 & He3).
  cbn [up_sem] in Hc. unfold content in Hc. rewrite Hsrc in Hc. simpl in Hc.
  destruct Hc as [[-> ->]|[[s ->] [n ->]]]; unfold put, tear, fault in *; simpl in *.
  - split; [split; [split; simpl in *; [lia|by rewrite Ht3, Ht2]|]|].
    { intros p Hp. rewrite Hf3, Hf2, lookup_insert_ne, Ht3, Ht2 by done. done. }
    rewrite Hf3, Hf2, lookup_insert_eq, Hsrc. split; [by left|].
    destruct syncErr, closeErr; simpl; try done; intros _; specialize (He2 I) || specialize (He3 I); lia.
  - split; [split; [split; simpl in *; [lia|rewrite Ht3, Ht2; set_solver]|]|].
    { intros p Hp. rewrite Hf3, Hf2, lookup_insert_ne, Ht3, Ht2 by done. set_solver. }
    split; [|intros _; lia]. right. split; [done|]. split; [rewrite Ht3, Ht2; set_solver|].
    exists c, n. split; [done|]. by rewrite Hf3, Hf2, lookup_insert_eq.
Qed.

(** [copyFile]: on success the destination is the source; a failure is a failed call, or
    the source is missing, and the destination is as before, complete, or torn. *)
Lemma copyFile_runs src dst mode d x d' :
  on_disk (copyFile src dst mode) d x d' -> src <> dst ->
  only dst d d' /\
  (~ is_err x -> is_Some (d_files d !! src) /\ d_files d' !! dst = d_files d !! src) /\
  (is_err x -> (d_faults d < d_faults d' \/ d_files d !! src = None) /\
    (d_files d' !! dst = d_files d !! dst \/ d_files d' !! dst = d_files d !! src \/ torn_copy src dst d d' \/
     d_files d !! src = None)).
Proof.
  unfold copyFile. intros [(a & d1 & Ho & H)|(err & Ho & ->)]%runs_try Hne.
  2:{ apply runs_os_call in Ho as ([|s] & Ho & [= ->]). simpl in Ho.
      destruct Ho as [(? & _)|[(_ & Hn & ->)|(_ & ->)]]; [done| |].
      - split; [done|]. split; [done|]. auto.
      - split; [by split; [apply later_fault|]|]. split; [done|]. intros _. simpl. auto. }
  apply runs_os_call in Ho as ([u|s] & Ho & [= ->]). simpl in Ho.
  destruct Ho as [(_ & Hsome & ->)|[([] & _)|([] & _)]].
  apply runs_bind in H as (r & d2 & H & Hend). apply runs_bind in Hend as (y & d3 & Hy%runs_call%benign_inv & [-> ->]).
  destruct Hy as (Hf3 & Ht3 & Hl3 & _).
  assert (Hmid : only dst d d2 /\ (~ is_err r -> d_files d2 !! dst = d_files d !! src) /\
    (is_err r -> d_faults d < d_faults d2 /\
       (d_files d2 !! dst = d_files d !! dst \/ d_files d2 !! dst = d_files d !! src \/ torn_copy src dst d d2))).
  { apply runs_try in H as [(u1 & d4 & Hm & H)|(err & Hm & ->)].
    2:{ apply runs_os_call in Hm as ([|s] & Hm%benign_inv & [= ->]). destruct Hm as (Hf & Ht & Hl & He).
        split; [split; [split; [lia|by rewrite Ht]|by intros; rewrite Hf, Ht]|]. split; [done|]. intros _.
        split; [by apply He|]. left. by rewrite Hf. }
    apply runs_os_call in Hm as ([u2|s] & Hm%benign_inv & [= ->]). destruct Hm as (Hf4 & Ht4 & Hl4 & _).
    apply runs_try in H as [(u3 & d5 & Hm & H)|(err & Hm & ->)].
    2:{ apply runs_os_call in Hm as ([|s] & Hm & [= ->]). destruct Hm as [[? _]|[_ ->]]; [done|]. simpl in *.
        split; [split; [split; simpl; [lia|by rewrite Ht4]|by intros; simpl; rewrite Hf4, Ht4]|]. split; [done|]. intros _.
        split; [simpl; lia|]. left. simpl. by rewrite Hf4. }
    apply runs_os_call in Hm as ([u4|s] & Hm & [= ->]). destruct Hm as [[_ ->]|[[] _]].
    assert (Hsrc5 : d_files (put dst "" d4) !! src = d_files d !! src)
      by (simpl; rewrite lookup_insert_ne by done; by rewrite Hf4).
    destruct (copied_ends _ _ _ _ _ H) as ([[Hl5 Ht5] Hother] & Hdst & Herr); [by rewrite Hsrc5|done|].
    simpl in Hl5, Ht5, Herr. rewrite Hsrc5 in Hdst.
    split; [split; [split; [lia|set_solver]|]|].
    { intros p Hp. destruct (Hother p Hp) as [Hp1 Hp2]. rewrite Hp1. simpl in *.
      rewrite lookup_insert_ne, Hf4 by done. split; [done|]. rewrite <- Ht4. done. }
    split; [intros Hok; by destruct Hdst as [?|[? _]]|]. intros Hbad. split; [specialize (Herr Hbad); lia|].
    destruct Hdst as [?|[_ (Ht & c & n & Hc & Hd)]]; [auto|]. right. right. split; [done|].
    rewrite Hsrc5 in Hc. eauto. }
  destruct Hmid as ([[Hl Ht] Ho] & Hok & Herr).
  split; [split; [split; [lia|by rewrite Ht3]|intros; rewrite Hf3, Ht3; auto]|].
  split; [intros Hx; by rewrite Hf3; auto|]. intros Hx. destruct (Herr Hx) as [Hlt Hd]. rewrite Hf3.
  split; [left; lia|]. unfold torn_copy in *. rewrite Hf3, Ht3. tauto.
Qed.

(** ** Atomic replacement *)

(** The temporary files of a directory. *)
Definition temp_in (dir p : string) : Prop := exists n, has_prefix n "." = true /\ good_comp n /\ p = path_join dir n.

(** The disk after [dst] was replaced, or not: temporary files apart. *)
Definition apart (dst : string) (d d' : disk) : Prop :=
  later d d' /\ forall p, ~ temp_in (dir dst) p ->
    (p <> dst -> d_files d' !! p = d_files d !! p) /\ (p ∈ d_torn d' -> p ∈ d_torn d).

(** Filling the temporary file and putting it in place. *)
Lemma copy_through_runs temp src dst mode d x d' :
  on_disk (copy_through temp src dst mode) d x d' -> src <> temp -> dst <> temp ->
  later d d' /\
  (forall p, p <> temp -> (p <> dst -> d_files d' !! p = d_files d !! p) /\ (p ∈ d_torn d' -> p ∈ d_torn d)) /\
  (~ is_err x -> is_Some (d_files d !! src) /\ d_files d' !! dst = d_files d !! src) /\
  (is_err x -> d_files d' !! dst = d_files d !! dst /\ (d_faults d < d_faults d' \/ d_files d !! src = None)).
Proof.
  unfold copy_through. intros (opened & d1 & Ho%runs_call & H)%runs_bind Hst Hdt. cbn [up_sem] in Ho.
  destruct opened as [u|s].
  2:{ apply runs_bind in H as (y & d2 & (Hf & Ht & Hl & _)%runs_call%benign_inv & [-> ->]).
      destruct Ho as [([=] & _)|[(_ & Hn & ->)|(_ & ->)]]; unfold fault in *; simpl in *.
      - split; [split; [lia|by rewrite Ht]|]. split; [intros; by rewrite Hf, Ht|]. split; [done|]. intros _. rewrite Hf. auto.
      - split; [split; [simpl; lia|by rewrite Ht]|]. split; [intros; by rewrite Hf, Ht|]. split; [done|]. intros _.
        rewrite Hf. split; [done|left; lia]. }
  destruct Ho as [(_ & [c Hc] & ->)|[([] & _)|([] & _)]].
  apply runs_bind in H as (copyErr & d2 & Hcp%runs_call & H). cbn [up_sem] in Hcp.
  apply runs_bind in H as (e3 & d3 & (Hf3 & Ht3 & Hl3 & He3)%runs_call%benign_inv & H).
  apply runs_bind in H as (e4 & d4 & (Hf4 & Ht4 & Hl4 & He4)%runs_call%benign_inv & H).
  apply runs_bind in H as (e5 & d5 & (Hf5 & Ht5 & Hl5 & He5)%runs_call%benign_inv & H).
  apply runs_bind in H as (e6 & d6 & (Hf6 & Ht6 & Hl6 & He6)%runs_call%benign_inv & H).
  assert (Hcopy : later d d2 /\ (forall p, p <> temp -> d_files d2 !! p = d_files d !! p /\ (p ∈ d_torn d2 -> p ∈ d_torn d)) /\
    (copyErr = None -> d_files d2 !! temp = Some c) /\ (is_Some copyErr -> d_faults d < d_faults d2)).
  { unfold content in Hcp. rewrite Hc in Hcp. simpl in Hcp.
    destruct Hcp as [[-> ->]|[[s ->] [n ->]]]; unfold put, tear, fault; simpl.
    - split; [done|]. split; [intros p Hp; by rewrite lookup_insert_ne|]. split; [by rewrite lookup_insert_eq|by intros []].
    - split; [split; simpl; [lia|set_solver]|]. split; [|by split; [|lia]].
      intros p Hp. rewrite lookup_insert_ne by done. split; [done|]. set_solver. }
  destruct Hcopy as ([Hl2 Ht2] & Hother & Hok2 & Hbad2).
  assert (Hf26 : d_files d6 = d_files d2) by congruence. assert (Ht26 : d_torn d6 = d_torn d2) by congruence.
  assert (Hl26 : d_faults d2 <= d_faults d6) by lia.
  destruct (errors_join _) as [err|] eqn:Hj.
  - destruct H as [-> ->]. split; [split; [lia|by rewrite Ht26]|].
    split; [intros p Hp; rewrite Hf26, Ht26; destruct (Hother p Hp); split; auto|]. split; [done|]. intros _.
    rewrite Hf26. split; [by apply Hother|]. left.
    destruct copyErr; [specialize (Hbad2 ltac:(by eexists)); lia|].
    destruct e3; [|specialize (He3 I); lia]. destruct e4; [|specialize (He4 I); lia].
    destruct e5; [|specialize (He5 I); lia]. destruct e6; [|specialize (He6 I); lia]. done.
  - destruct copyErr; [done|]. specialize (Hok2 eq_refl).
    apply runs_wrap in H as [(u' & d7 & Hr%runs_call & [-> ->])|(err & Hr%runs_call & ->)]; cbn [up_sem] in Hr.
    + destruct Hr as [(c' & Hc' & _ & ->)|[([] & _)|([] & _)]].
      assert (c' = c) as -> by congruence. unfold put, erase; simpl.
      split; [split; simpl; [lia|by rewrite Ht26]|]. split.
      * intros p Hp. rewrite Ht26. destruct (Hother p Hp) as [Hp1 Hp2]. split; [|done]. intros Hpd.
        by rewrite lookup_insert_ne, lookup_delete_ne, Hf26.
      * split; [|by intros []]. intros _. rewrite lookup_insert_eq, Hc. eauto.
    + destruct Hr as [(c' & _ & [=] & _)|[(_ & Hn & ->)|(_ & ->)]]; [congruence|]. unfold fault; simpl.
      split; [split; simpl; [lia|by rewrite Ht26]|]. rewrite Hf26, Ht26.
      split; [intros p Hp; destruct (Hother p Hp); split; auto|]. split; [done|]. intros _.
      split; [by apply Hother|]. left. lia.
Qed.

(** [atomicCopy]: on success the destination is the source; on failure it is untouched,
    and a call failed or the source is missing. *)
Lemma atomicCopy_runs src dst mode d x d' :
  on_disk (atomicCopy src dst mode) d x d' -> ~ temp_in (dir dst) src -> ~ temp_in (dir dst) dst ->
  apart dst d d' /\
  (~ is_err x -> is_Some (d_files d !! src) /\ d_files d' !! dst = d_files d !! src) /\
  (is_err x -> d_files d' !! dst = d_files d !! dst /\ (d_faults d < d_faults d' \/ d_files d !! src = None)).
Proof.
  unfold atomicCopy. intros [(u & d1 & Hm & H)|(err & Hm & ->)]%runs_try Hsrc Hdst.
  2:{ apply runs_os_call in Hm as ([|s] & (Hf & Ht & Hl & He)%benign_inv & [= ->]). specialize (He I).
      split; [split; [split; [lia|by rewrite Ht]|intros; by rewrite Hf, Ht]|]. split; [done|]. intros _. rewrite Hf. auto. }
  apply runs_os_call in Hm as ([u'|s] & (Hf1 & Ht1 & Hl1 & _)%benign_inv & [= ->]).
  apply runs_try in H as [(temp & d2 & Hm & H)|(err & Hm & ->)].
  2:{ apply runs_os_call in Hm as ([|s] & Hm & [= ->]). cbn [up_sem] in Hm.
      destruct Hm as [(n & _ & _ & _ & [=] & _)|(_ & ->)]. unfold fault. simpl.
      split; [split; [split; simpl; [lia|by rewrite Ht1]|intros; simpl; by rewrite Hf1, Ht1]|]. split; [done|]. intros _.
      rewrite Hf1. split; [done|left; lia]. }
  apply runs_os_call in Hm as ([t|s] & Hm & [= ->]). cbn [up_sem] in Hm.
  destruct Hm as [(n & Hn & Hg & Hfresh & [= ->] & ->)|([] & _)].
  assert (Htemp : temp_in (dir dst) (path_join (dir dst) n)) by (by exists n).
  revert Htemp Hfresh H. generalize (path_join (dir dst) n) as tmp. intros tmp Htemp Hfresh H.
  assert (Hst : src <> tmp) by congruence. assert (Hdt : dst <> tmp) by congruence.
  apply runs_bind in H as (r & d3 & H & Hend). apply runs_bind in Hend as (y & d4 & Hy%runs_call & [-> ->]).
  destruct (copy_through_runs _ _ _ _ _ _ _ H Hst Hdt) as ([Hl3 Ht3] & Hother & Hok & Herr).
  simpl in Hl3, Ht3, Hother, Hok, Herr.
  rewrite !lookup_insert_ne in Hok by done. rewrite !lookup_insert_ne in Herr by done. rewrite !Hf1 in Hok, Herr.
  assert (Hd4 : d_torn d4 = d_torn d3 /\ d_faults d3 <= d_faults d4 /\ forall p, p <> tmp -> d_files d4 !! p = d_files d3 !! p).
  { cbn [up_sem] in Hy. destruct Hy as [(_ & ->)|[(_ & _ & ->)|(_ & ->)]]; simpl; split_and!; try done; try lia.
    intros p Hp. by rewrite lookup_delete_ne. }
  destruct Hd4 as (Ht4 & Hl4 & Hf4).
  split.
  - split; [split; [lia|rewrite Ht4; set_solver]|]. intros p Hp. assert (Hpt : p <> tmp) by congruence.
    destruct (Hother p Hpt) as [Ho1 Ho2]. rewrite Ht4, Hf4 by done. rewrite Ht1 in Ho2.
    split; [|done]. intros Hpd. rewrite Ho1 by done. by rewrite lookup_insert_ne, Hf1.
  - rewrite Hf4 by done. split; [done|]. intros Hx. destruct (Herr Hx) as [H1 H2]. split; [done|].
    destruct H2; [left; lia|by right].
Qed.

(** ** Installation *)

Definition targets (l : list (string * string)) : list string := snd <$> l.

Lemma names_good s t : (s, t) ∈ names -> good_comp s /\ good_comp t /\ has_prefix t "." = false.
Proof.
  intros H. unfold names in H. rewrite !elem_of_cons, elem_of_nil in H.
  destruct H as [[= -> ->]|[[= -> ->]|[[= -> ->]|[]]]]; repeat split; done.
Qed.

Lemma targets_names : targets names = live_names.
Proof. done. Qed.

(** ** Replacing live binaries

    What the loops of an installation and of a restoration do, one atomic copy after the
    other. *)

Section swapping.
Context `{HUnicode : Unicode} `{HUrl : UrlParser} `{HDigest : Digest} `{HText : ManifestText} `{HPlatform : Platform}.
Variable e : Engine.
Hypothesis Hbin : rooted (BinaryDir (config e)) = true.

(** The temporary files of an atomic copy onto a live binary. *)
Lemma live_temp t p :
  good_comp t -> temp_in (dir (live e t)) p -> exists n, has_prefix n "." = true /\ good_comp n /\ p = path_join (BinaryDir (config e)) n.
Proof.
  intros Ht (n & Hn & Hg & ->). exists n. split_and!; [done..|].
  unfold live. rewrite dir_join_one by done. rewrite !path_join_one by (done || apply abs_rooted).
  by rewrite clean_comps_abs by by apply clean_comps_good.
Qed.

Lemma not_temp_dir d t n :
  rooted d = true -> good_comp t -> good_comp n -> clean_comps (BinaryDir (config e)) <> clean_comps d ->
  ~ temp_in (dir (live e t)) (path_join d n).
Proof.
  intros Hd Ht Hn Hne Htemp. apply live_temp in Htemp as (m & _ & Hm & Heq); [|done].
  apply path_join_one_inj in Heq as [Heq _]; try done; congruence.
Qed.

Lemma not_temp_live t t' :
  good_comp t -> good_comp t' -> has_prefix t' "." = false -> ~ temp_in (dir (live e t)) (live e t').
Proof.
  intros Ht Ht' Hp Htemp. apply live_temp in Htemp as (m & Hm & Hgm & Heq); [|done].
  apply path_join_one_inj in Heq as [_ ->]; try done; congruence.
Qed.

Definition bin_temp (p : string) : Prop :=
  exists n, has_prefix n "." = true /\ good_comp n /\ p = path_join (BinaryDir (config e)) n.

(** Live binaries [ts] were replaced by the files of directory [D], up to the first
    that failed. *)
Definition swapped (D : string) (ts : list string) (d : disk) (x : result up_error ()) (d' : disk) : Prop :=
  later d d' /\
  (forall p, p ∉ (live e <$> ts) -> ~ bin_temp p -> d_files d' !! p = d_files d !! p /\ (p ∈ d_torn d' -> p ∈ d_torn d)) /\
  (forall t, t ∈ ts -> d_files d' !! live e t = d_files d !! live e t \/
     (is_Some (d_files d !! path_join D t) /\ d_files d' !! live e t = d_files d !! path_join D t)) /\
  (~ is_err x -> forall t, t ∈ ts ->
     is_Some (d_files d !! path_join D t) /\ d_files d' !! live e t = d_files d !! path_join D t) /\
  (is_err x -> d_faults d < d_faults d' \/ exists t, t ∈ ts /\ d_files d !! path_join D t = None).

Definition live_name (t : string) : Prop := good_comp t /\ has_prefix t "." = false.

Lemma live_not_bin_temp t : live_name t -> ~ bin_temp (live e t).
Proof.
  intros [Ht Hp] (n & Hn & Hg & Heq).
  apply path_join_one_inj in Heq as [_ ->]; try done; congruence.
Qed.

Section swaps.
Variables (D : string) (HD : rooted D = true) (Hne : clean_comps (BinaryDir (config e)) <> clean_comps D).

Lemma source_kept t ts : good_comp t -> Forall live_name ts -> path_join D t ∉ (live e <$> ts) /\ ~ bin_temp (path_join D t).
Proof.
  intros Ht Hts. split.
  - intros (t' & Heq & Hin)%list_elem_of_fmap. eapply Forall_forall in Hts as [Hg _]; [|done].
    apply path_join_one_inj in Heq as [? _]; try done; congruence.
  - intros (n & _ & Hg & Heq). apply path_join_one_inj in Heq as [? _]; try done; congruence.
Qed.

Lemma atomicCopy_swaps t mode d x d' :
  on_disk (atomicCopy (path_join D t) (live e t) mode) d x d' -> live_name t -> swapped D [t] d x d'.
Proof.
  intros H Ht. pose proof Ht as [Hg Hdot].
  apply atomicCopy_runs in H as ((Hl & Ho) & Hok & Herr); [|by apply not_temp_dir|by apply not_temp_live].
  assert (Htemp : forall p, temp_in (dir (live e t)) p -> bin_temp p) by (intros p; by apply live_temp).
  unfold swapped. rewrite list_fmap_singleton. setoid_rewrite list_elem_of_singleton. split_and!; [done|..].
  - intros p Hp Hb. destruct (Ho p) as [Ho1 Ho2]; [by intros ?%Htemp|]. split; [by apply Ho1|done].
  - intros t' ->. destruct x as [u|err]; [right; by apply Hok; intros []|]. left. by apply Herr.
  - intros Hx t' ->. by apply Hok.
  - intros Hx. destruct (Herr Hx) as [_ [?|?]]; eauto.
Qed.

Lemma swapped_nil d : swapped D [] d (Ok ()) d.
Proof.
  split_and!; [done|done|by intros ? ?%elem_of_nil| |by intros []]. by intros _ ? ?%elem_of_nil.
Qed.

Lemma swapped_stop t ts d err d' : Forall live_name (t :: ts) ->
  swapped D [t] d (Err err) d' -> swapped D (t :: ts) d (Err err) d'.
Proof.
  intros Hall (Hl & Ho & Hb & _ & Herr). split_and!; [done| | |done|].
  - intros p Hp. apply Ho. rewrite fmap_cons in Hp. set_solver.
  - intros t' [->|Hin]%elem_of_cons; [apply Hb; set_solver|].
    destruct (decide (t' = t)) as [->|Hnt]; [apply Hb; set_solver|]. left. apply Ho.
    + rewrite list_fmap_singleton. intros Heq%list_elem_of_singleton.
      rewrite Forall_cons, Forall_forall in Hall. destruct Hall as [[Hg _] Hall]. destruct (Hall t' Hin) as [Hg' _].
      apply path_join_one_inj in Heq as [_ ?]; done.
    + apply live_not_bin_temp. rewrite Forall_forall in Hall. apply Hall. by right.
  - intros _. destruct (Herr I) as [?|(t' & Hin & ?)]; [by left|right]. exists t'. split; [set_solver|done].
Qed.

Lemma swapped_step t ts d u d1 x d' : Forall live_name (t :: ts) ->
  swapped D [t] d (Ok u) d1 -> swapped D ts d1 x d' -> swapped D (t :: ts) d x d'.
Proof.
  intros Hall (Hl1 & Ho1 & _ & Hok1 & _) (Hl2 & Ho2 & Hb2 & Hok2 & Herr2).
  assert (Hkeep : forall t', t' ∈ ts -> d_files d1 !! path_join D t' = d_files d !! path_join D t').
  { intros t' Hin. rewrite Forall_forall in Hall. destruct (Hall t') as [Hg _]; [by right|].
    destruct (source_kept t' [t] Hg) as [Hs1 Hs2]; [apply Forall_forall; intros ? ->%list_elem_of_singleton; apply Hall; by left|].
    by apply Ho1. }
  destruct (Hok1 ltac:(by intros []) t) as [Hsome Hlive]; [by apply list_elem_of_singleton|].
  assert (Hother : forall t', t' ∈ t :: ts -> t' <> t -> d_files d1 !! live e t' = d_files d !! live e t').
  { intros t' Hin Hnt. rewrite Forall_forall in Hall. destruct (Hall t' Hin) as [Hg Hd].
    destruct (Hall t) as [Hgt _]; [by left|]. apply Ho1; [|by apply live_not_bin_temp].
    rewrite list_fmap_singleton. intros Heq%list_elem_of_singleton.
    apply path_join_one_inj in Heq as [_ ?]; done. }
  split_and!; [by etrans| | | |].
  - intros p Hp Htmp. rewrite fmap_cons in Hp. destruct (Ho2 p) as [? ?]; [set_solver|done|].
    destruct (Ho1 p) as [? ?]; [set_solver|done|]. split; [congruence|auto].
  - intros t' Hin. destruct (decide (t' ∈ ts)) as [Hts|Hts].
    + destruct (Hb2 t' Hts) as [Heq|[Hs Heq]]; rewrite ?Hkeep in * by done; [|by right].
      destruct (decide (t' = t)) as [->|Hnt]; [right; by rewrite Heq|]. left. rewrite Heq. by apply Hother.
    + assert (t' = t) as -> by set_solver. right. split; [done|]. rewrite <- Hlive. apply Ho2.
      * intros (t' & Heq & Hin')%list_elem_of_fmap. rewrite Forall_forall in Hall.
        destruct (Hall t) as [Hg _]; [by left|]. destruct (Hall t') as [Hg' _]; [by right|].
        apply path_join_one_inj in Heq as [_ ->]; done.
      * apply live_not_bin_temp. rewrite Forall_forall in Hall. apply Hall. by left.
  - intros Hx t' Hin. destruct (decide (t' ∈ ts)) as [Hts|Hts].
    + destruct (Hok2 Hx t' Hts). rewrite Hkeep in * by done. done.
    + assert (t' = t) as -> by set_solver. split; [done|]. rewrite <- Hlive. apply Ho2.
      * intros (t' & Heq & Hin')%list_elem_of_fmap. rewrite Forall_forall in Hall.
        destruct (Hall t) as [Hg _]; [by left|]. destruct (Hall t') as [Hg' _]; [by right|].
        apply path_join_one_inj in Heq as [_ ->]; done.
      * apply live_not_bin_temp. rewrite Forall_forall in Hall. apply Hall. by left.
  - intros Hx. destruct (Herr2 Hx) as [?|(t' & Hin & Hn)]; [left; destruct Hl1; lia|right].
    exists t'. rewrite Hkeep in Hn by done. split; [by right|done].
Qed.
End swaps.

Lemma targets_live l : (forall s t, (s, t) ∈ l -> (s, t) ∈ names) -> Forall live_name (targets l).
Proof.
  intros Hl. apply Forall_forall. intros t ([s t'] & -> & Hin)%list_elem_of_fmap.
  by apply Hl, names_good in Hin as (_ & ? & ?).
Qed.

Lemma live_names_ok : Forall live_name live_names.
Proof. repeat constructor; done. Qed.

Lemma restore_each_runs D ts d x d' :
  rooted D = true -> clean_comps (BinaryDir (config e)) <> clean_comps D -> Forall live_name ts ->
  on_disk (restore_each e D ts) d x d' -> swapped D ts d x d'.
Proof.
  intros HD Hne. revert d. induction ts as [|t ts IH]; intros d Hall H; cbn [restore_each] in H.
  { destruct H as [-> ->]. apply swapped_nil. }
  pose proof Hall as [Ht Hts]%Forall_cons.
  apply runs_wrap in H as [(z & d0 & Hst%runs_call & H)|(err & Hst%runs_call & ->)]; cbn [up_sem] in Hst.
  2:{ destruct Hst as [(Hn & _)|[(_ & Hn & ->)|(_ & ->)]]; [by destruct Hn| |].
      - split_and!; [done|done|by left|done|]. intros _. right. exists t. split; [by left|done].
      - split_and!; [apply later_fault|done|by left|done|]. intros _. left. simpl. lia. }
  destruct Hst as [(_ & _ & ->)|[([] & _)|([] & _)]].
  apply runs_try in H as [(u & d1 & H1 & H2)|(err & H1 & ->)]; apply atomicCopy_swaps in H1; try done.
  - eapply swapped_step; [done..|]. by apply IH.
  - by apply swapped_stop.
Qed.
End swapping.

Section install.
Context `{HUnicode : Unicode} `{HUrl : UrlParser} `{HDigest : Digest} `{HText : ManifestText} `{HPlatform : Platform}.
Variables (e : Engine) (payload releaseDir backupDir : string).

Local Notation payload_of s := (path_join payload s).
Local Notation release_of t := (path_join releaseDir t).
Local Notation backup_of t := (path_join backupDir t).

(** The directories of an installation are rooted and differ. *)
Record layout : Prop := {
  bin_rooted : rooted (BinaryDir (config e)) = true;
  state_rooted : rooted (StateDir (config e)) = true;
  payload_rooted : rooted payload = true;
  release_rooted : rooted releaseDir = true;
  backup_rooted : rooted backupDir = true;
  dirs_differ : NoDup (clean_comps <$> [BinaryDir (config e); payload; releaseDir; backupDir]);
  state_differs : Forall (fun d => clean_comps (StateDir (config e)) <> clean_comps d)
    [BinaryDir (config e); payload; releaseDir; backupDir] }.

Hypothesis Hlayout : layout.

Lemma dirs_ne :
  let b := clean_comps (BinaryDir (config e)) in let p := clean_comps payload in
  let r := clean_comps releaseDir in let k := clean_comps backupDir in
  b <> p /\ b <> r /\ b <> k /\ p <> r /\ p <> k /\ r <> k.
Proof.
  pose proof (dirs_differ Hlayout) as Hd. simpl in Hd. rewrite !NoDup_cons, !elem_of_cons in Hd. naive_solver.
Qed.


(** Nothing but the release and the snapshot of [l] changes while they are prepared. *)
Definition prepared (l : list (string * string)) (d d' : disk) : Prop :=
  later d d' /\
  (forall p, (forall t, t ∈ targets l -> p <> release_of t /\ p <> backup_of t) ->
     d_files d' !! p = d_files d !! p /\ (p ∈ d_torn d' -> p ∈ d_torn d)) /\
  (forall t, t ∈ targets l ->
     d_files d' !! backup_of t = d_files d !! backup_of t \/ d_files d' !! backup_of t = d_files d !! live e t \/
     torn_copy (live e t) (backup_of t) d d').

Lemma live_kept l t :
  (forall s t, (s, t) ∈ l -> (s, t) ∈ names) -> good_comp t ->
  forall t', t' ∈ targets l -> live e t <> release_of t' /\ live e t <> backup_of t'.
Proof.
  intros Hl Ht t' ([s t''] & -> & Hin)%list_elem_of_fmap. apply Hl, names_good in Hin as (_ & Ht' & _).
  destruct dirs_ne as (_ & H1 & H2 & _). destruct Hlayout.
  split; intros Heq; apply path_join_one_inj in Heq; try done; naive_solver.
Qed.

Lemma payload_kept l s :
  (forall s t, (s, t) ∈ l -> (s, t) ∈ names) -> good_comp s ->
  forall t', t' ∈ targets l -> payload_of s <> release_of t' /\ payload_of s <> backup_of t'.
Proof.
  intros Hl Hs t' ([s' t''] & -> & Hin)%list_elem_of_fmap. apply Hl, names_good in Hin as (_ & Ht' & _).
  destruct dirs_ne as (_ & _ & _ & H1 & H2 & _). destruct Hlayout.
  split; intros Heq; apply path_join_one_inj in Heq; try done; naive_solver.
Qed.

Lemma copy_paths_differ s t t' :
  good_comp s -> good_comp t -> good_comp t' ->
  payload_of s <> release_of t /\ live e t <> backup_of t' /\ release_of t <> backup_of t' /\
  live e t <> release_of t' /\ payload_of s <> backup_of t.
Proof.
  intros Hs Ht Ht'. destruct dirs_ne as (Hbp & Hbr & Hbk & Hpr & Hpk & Hrk). destruct Hlayout.
  split_and!; intros Heq; apply path_join_one_inj in Heq as [Heq _]; done.
Qed.

Lemma prepare_one_runs s t d x d' :
  on_disk (prepare_one e payload releaseDir backupDir s t) d x d' -> good_comp s -> good_comp t ->
  prepared [(s, t)] d d' /\
  (~ is_err x -> is_Some (d_files d !! payload_of s) /\ d_files d' !! release_of t = d_files d !! payload_of s /\
     is_Some (d_files d !! live e t) /\ d_files d' !! backup_of t = d_files d !! live e t) /\
  (is_err x -> d_faults d < d_faults d' \/ d_files d !! payload_of s = None \/ d_files d !! live e t = None).
Proof.
  intros H Hs Ht. destruct (copy_paths_differ s t t Hs Ht Ht) as (Hpr & Hlb & Hrb & Hlr & Hpb).
  unfold prepared. change (targets [(s, t)]) with [t]. setoid_rewrite list_elem_of_singleton. unfold prepare_one in H.
  apply runs_try in H as [(u & d1 & Hc & H)|(err & Hc & ->)].
  2:{ apply copyFile_runs in Hc as ((Hl & Ho) & _ & Herr); [|done]. destruct (Herr I) as [Hf _].
      split_and!; [done| | |done|].
      - intros p Hp. destruct (Hp t eq_refl). by apply Ho.
      - intros t' ->. left. by apply Ho.
      - intros _. destruct Hf; auto. }
  apply copyFile_runs in Hc as ((Hl1 & Ho1) & Hok1 & _); [|done]. destruct (Hok1 ltac:(by intros [])) as [Hsome Hrel].
  assert (Hlive1 : d_files d1 !! live e t = d_files d !! live e t) by (by apply Ho1).
  assert (Hback1 : d_files d1 !! backup_of t = d_files d !! backup_of t) by (by apply Ho1).
  apply runs_wrap in H as [(z & d2 & Hst%runs_call & H)|(err & Hst%runs_call & ->)]; cbn [up_sem] in Hst.
  2:{ assert (Hd' : d_files d' = d_files d1 /\ d_torn d' = d_torn d1 /\ d_faults d1 <= d_faults d' /\
        (d_faults d1 < d_faults d' \/ d_files d1 !! live e t = None)).
      { destruct Hst as [(Hn & _)|[(_ & Hn & ->)|(_ & ->)]]; simpl; [by destruct Hn| |]; split_and!; auto. }
      destruct Hd' as (Hf & Htn & Hlt & Hwhy). destruct Hl1 as [Hl1 Ht1]. rewrite Hlive1 in Hwhy.
      split_and!; [split; [lia|by rewrite Htn]| | |done|].
      - intros p Hp. destruct (Hp t eq_refl). rewrite Hf, Htn. by apply Ho1.
      - intros t' ->. left. by rewrite Hf.
      - intros _. destruct Hwhy; [left; lia|auto]. }
  destruct Hst as [(_ & Hsl & ->)|[([] & _)|([] & _)]].
  apply copyFile_runs in H as ((Hl2 & Ho2) & Hok2 & Herr2); [|done]. rewrite Hlive1 in *.
  split; [split_and!; [by etrans| |]|].
  - intros p Hp. destruct (Hp t eq_refl) as [Hp1 Hp2]. destruct (Ho1 p Hp1), (Ho2 p Hp2). split; [congruence|auto].
  - intros t' ->. destruct x as [u'|err]; [right; left; by apply Hok2; intros []|].
    destruct (Herr2 I) as [_ [Hb|[Hb|[(Htorn & c & n & Hc & Hb)|Hb]]]].
    + left. by rewrite Hb.
    + by right; left.
    + right; right. split; [done|]. rewrite Hlive1 in Hc. eauto.
    + rewrite Hb in Hsl. by destruct Hsl.
  - split.
    + intros Hx. destruct (Hok2 Hx) as [? ?]. split_and!; try done. rewrite <- Hrel. by apply Ho2.
    + intros Hx. destruct (Herr2 Hx) as [[Hlt|Hn] _]; [left; destruct Hl1; lia|auto].
Qed.

Lemma prepare_release_runs l d x d' :
  on_disk (prepare_release e payload releaseDir backupDir l) d x d' ->
  (forall s t, (s, t) ∈ l -> (s, t) ∈ names) -> NoDup (targets l) ->
  prepared l d d' /\
  (~ is_err x -> forall s t, (s, t) ∈ l ->
     is_Some (d_files d !! payload_of s) /\ d_files d' !! release_of t = d_files d !! payload_of s /\
     is_Some (d_files d !! live e t) /\ d_files d' !! backup_of t = d_files d !! live e t) /\
  (is_err x -> d_faults d < d_faults d' \/
     exists s t, (s, t) ∈ l /\ (d_files d !! payload_of s = None \/ d_files d !! live e t = None)).
Proof.
  revert d. induction l as [|[s t] l IH]; intros d H Hsub Hnd; cbn [prepare_release] in H.
  { destruct H as [-> ->]. split; [|split; [|by intros []]].
    - split_and!; [done|done|]. by intros t Ht%elem_of_nil.
    - by intros _ s t Ht%elem_of_nil. }
  unfold targets in Hnd. rewrite fmap_cons in Hnd. apply NoDup_cons in Hnd as [Hnotin Hnd]. simpl in Hnotin.
  destruct (names_good s t) as (Hs & Ht & Hdot); [apply Hsub; by left|].
  assert (Hsub' : forall s t, (s, t) ∈ l -> (s, t) ∈ names) by (intros; apply Hsub; by right).
  assert (Hfresh : forall t', t' ∈ targets l -> good_comp t' /\ t <> t').
  { intros t' Hin. split; [|by intros ->]. apply list_elem_of_fmap in Hin as ([s' t''] & -> & Hin).
    by apply Hsub', names_good in Hin as (_ & ? & _). }
  apply runs_try in H as [(u & d1 & H1 & H2)|(err & H1 & ->)]; apply prepare_one_runs in H1 as ((Hl1 & Ho1 & Hb1) & Hok1 & Herr1); try done.
  2:{ split; [split_and!; [done| |]|split; [done|]].
      - intros p Hp. apply Ho1. intros t' ->%list_elem_of_singleton. apply Hp. by left.
      - intros t' Ht'. unfold targets in Ht'. rewrite fmap_cons in Ht'. apply elem_of_cons in Ht' as [->|Ht'].
        + apply Hb1. by left.
        + left. apply Ho1. intros t'' ->%list_elem_of_singleton. destruct (Hfresh t' Ht') as [Hg Hne].
          destruct (copy_paths_differ s t t' Hs Ht Hg) as (_ & _ & Hrb & _). split; [done|]. intros Heq.
          destruct Hlayout. apply path_join_one_inj in Heq as [_ ?]; done.
      - intros _. destruct (Herr1 I) as [?|?]; [by left|right]. exists s, t. split; [by left|done]. }
  destruct (Hok1 ltac:(by intros [])) as (Hps & Hrel & Hls & Hback).
  destruct (IH d1 H2 Hsub' Hnd) as ((Hl2 & Ho2 & Hb2) & Hok2 & Herr2). clear IH.
  assert (Hkeep1 : forall p, p <> release_of t -> p <> backup_of t -> d_files d1 !! p = d_files d !! p /\ (p ∈ d_torn d1 -> p ∈ d_torn d)).
  { intros p Hp1 Hp2. apply Ho1. by intros t' ->%list_elem_of_singleton. }
  assert (Hlive1 : forall t', good_comp t' -> d_files d1 !! live e t' = d_files d !! live e t').
  { intros t' Ht'. apply Hkeep1; by apply (live_kept [(s, t)] t'); [|done|left]; try (intros ? ? Hin; apply Hsub; set_solver). }
  assert (Hpay1 : forall s', good_comp s' -> d_files d1 !! payload_of s' = d_files d !! payload_of s').
  { intros s' Hs'. apply Hkeep1; by apply (payload_kept [(s, t)] s'); [|done|left]; try (intros ? ? Hin; apply Hsub; set_solver). }
  assert (Hkept : d_files d' !! release_of t = d_files d1 !! release_of t /\
    d_files d' !! backup_of t = d_files d1 !! backup_of t /\ (backup_of t ∈ d_torn d' -> backup_of t ∈ d_torn d1)).
  { assert (Hdiff : forall t', t' ∈ targets l -> (release_of t <> release_of t' /\ release_of t <> backup_of t') /\
      (backup_of t <> release_of t' /\ backup_of t <> backup_of t')).
    { intros t' Hin. destruct (Hfresh t' Hin) as [Hg Hne]. destruct dirs_ne as (_ & _ & _ & _ & _ & Hrk). destruct Hlayout.
      split_and!; intros Heq; apply path_join_one_inj in Heq as [? ?]; try done; congruence. }
    destruct (Ho2 (release_of t)) as [? _]; [intros; by apply Hdiff|].
    destruct (Ho2 (backup_of t)) as [? ?]; [intros; by apply Hdiff|]. done. }
  destruct Hkept as (Hk1 & Hk2 & Hk3).
  split; [split_and!|split].
  - by etrans.
  - intros p Hp. destruct (Ho2 p) as [Hp1 Hp2]; [intros t' Ht'; apply Hp; by right|].
    destruct (Hkeep1 p) as [Hp3 Hp4]; [apply Hp; by left..|]. split; [congruence|auto].
  - intros t' Ht'. unfold targets in Ht'. rewrite fmap_cons in Ht'. apply elem_of_cons in Ht' as [->|Ht'].
    + right. left. simpl. by rewrite Hk2.
    + destruct (Hfresh t' Ht') as [Hg Hne]. destruct (Hb2 t' Ht') as [Hb|[Hb|Hb]].
      * left. rewrite Hb. apply Hkeep1; destruct (copy_paths_differ s t t' Hs Ht Hg) as (_ & _ & ? & _); [done|].
        intros Heq. destruct Hlayout. apply path_join_one_inj in Heq as [_ ?]; done.
      * right. left. by rewrite Hb, Hlive1.
      * right. right. destruct Hb as (Htorn & c & n & Hc & Hb). split; [done|]. rewrite Hlive1 in Hc by done. eauto.
  - intros Hx s' t' [[= -> ->]|Hin]%elem_of_cons; [by rewrite Hk1, Hk2|].
    destruct (names_good s' t' (Hsub' _ _ Hin)) as (Hs' & Ht' & _).
    destruct (Hok2 Hx s' t' Hin) as (? & ? & ? & ?). rewrite Hpay1, Hlive1 in * by done. done.
  - intros Hx. destruct (Herr2 Hx) as [Hlt|(s' & t' & Hin & Hn)]; [left; destruct Hl1; lia|right].
    destruct (names_good s' t' (Hsub' _ _ Hin)) as (Hs' & Ht' & _). exists s', t'.
    rewrite <- Hpay1, <- Hlive1 by done. split; [by right|done].
Qed.

Lemma replace_live_runs l d x d' :
  on_disk (replace_live e releaseDir l) d x d' -> (forall s t, (s, t) ∈ l -> (s, t) ∈ names) ->
  swapped e releaseDir (targets l) d x d'.
Proof.
  destruct dirs_ne as (_ & Hbr & _). pose proof (release_rooted Hlayout) as Hrr. pose proof (bin_rooted Hlayout) as Hbin.
  revert d. induction l as [|[s t] l IH]; intros d H Hsub; cbn [replace_live] in H.
  { destruct H as [-> ->]. apply swapped_nil. }
  pose proof (targets_live _ Hsub) as Hall. change (targets ((s, t) :: l)) with (t :: targets l) in *.
  assert (Ht : live_name t) by (by apply Forall_cons in Hall as [? _]).
  apply runs_try in H as [(u & d1 & H1 & H2)|(err & H1 & ->)]; apply atomicCopy_swaps in H1; try done.
  - eapply swapped_step; [done..|]. apply IH; [done|]. intros; apply Hsub; by right.
  - by apply swapped_stop.
Qed.

End install.

(** ** What the other steps leave alone *)

Section calm.
Context `{HUnicode : Unicode} `{HUrl : UrlParser} `{HDigest : Digest} `{HText : ManifestText} `{HPlatform : Platform}.
Variable e : Engine.

Definition idle X (c : up_call X) : Prop :=
  match c with Command _ _ _ _ | HealthGet _ _ | WaitSecond _ | Now => True | _ => False end.

Lemma idle_runs {A} (p : up_prog A) d a d' : always idle (fun _ => True) p -> on_disk p d a d' -> d' = d.
Proof.
  revert d. induction p as [b|X c k IH]; intros d; simpl; [by intros _ [_ ->]|].
  intros [Hc Hk] (x & d1 & Hs & Hr). assert (d1 = d) as -> by (by destruct c). by eapply IH.
Qed.

Lemma always_try {A B} (P : forall X, up_call X -> Prop) (p : up_prog (result up_error A)) (f : A -> up_prog (result up_error B)) :
  always P (fun _ => True) p -> (forall a, always P (fun _ => True) (f a)) -> always P (fun _ => True) (bind_err p f).
Proof. intros Hp Hf. eapply always_bind; [done|]. by intros [a|err] _. Qed.

Lemma Restart_idle c : always idle (fun _ => True) (Restart c).
Proof.
  unfold Restart. generalize ["opendeploy-agent.service"; "opendeploy-core.service"]. intros l.
  induction l as [|u l IH]; [done|]. cbn [restart_units]. split; [done|]. by intros [output [err|]].
Qed.

Lemma Healthy_idle r c : always idle (fun _ => True) (Healthy r c).
Proof.
  unfold Healthy. apply always_try.
  - generalize ["opendeploy-agent.service"; "opendeploy-core.service"]. intros l.
    induction l as [|u l IH]; [done|]. cbn [units_active]. split; [done|]. by intros [output [err|]].
  - intros _. cbv zeta. generalize (if String.eqb (CoreHealthURL r) "" then "http://127.0.0.1:5888/health" else CoreHealthURL r).
    intros endpoint. generalize "". generalize 10. intros n. induction n as [|n IH]; intros last; [done|].
    cbn [probe]. split; [done|]. intros [status|err]; cbn [bind call].
    + destruct (_ && _); [done|]. split; [done|]. intros [?|]; [done|]. apply IH.
    + split; [done|]. intros [?|]; [done|]. apply IH.
Qed.

Lemma restart_healthy_idle r c : always idle (fun _ => True) (restart_healthy r c).
Proof. apply always_try; [apply Restart_idle|]. intros _. apply Healthy_idle. Qed.

(** Appending to the history changes no other file. *)
Lemma appendHistory_runs entry d x d' :
  on_disk (appendHistory e entry) d x d' -> only (history_path e) d d' /\
  (~ is_err x -> exists data, marshal_entry entry = Some data /\
     d_files d' !! history_path e = Some (content d (history_path e) ++ line_of data)).
Proof.
  unfold appendHistory. destruct (marshal_entry entry) as [data|]; [|intros [-> ->]; by split].
  intros [(u & d1 & H1 & H)|(err & H1 & ->)]%runs_try.
  2:{ apply runs_os_call in H1 as ([|s] & [[? _]|[_ ->]] & [= ->]); [done|].
      split; [by split; [apply later_fault|]|by intros []]. }
  apply runs_os_call in H1 as ([|s] & [[_ ->]|[[] _]] & [= ->]).
  apply runs_bind in H as (r & d2 & H & Hend).
  apply runs_bind in Hend as (y & d3 & (Hf3 & Ht3 & Hl3 & _)%runs_call%benign_inv & [-> ->]).
  assert (Hmid : only (history_path e) d d2 /\ (~ is_err r ->
    d_files d2 !! history_path e = Some (content d (history_path e) ++ line_of data))).
  { apply runs_try in H as [(u1 & d4 & H4 & H)|(err & H4 & ->)].
    - apply runs_os_call in H4 as ([|s] & [[_ ->]|[[] _]] & [= ->]).
      apply runs_os_call in H as (z & (Hf & Ht & Hl & _)%benign_inv & ->). simpl in Hl.
      split.
      + split; [split; [lia|by rewrite Ht]|]. intros p Hp. rewrite Hf, Ht. simpl.
        by rewrite !lookup_insert_ne by done.
      + intros _. rewrite Hf. simpl. unfold content at 1. simpl. by rewrite !lookup_insert_eq.
    - apply runs_os_call in H4 as ([|s] & [[? _]|[_ [n ->]]] & [= ->]); [done|]. split; [|by intros []].
      split; [split; simpl; [lia|done]|]. intros p Hp. simpl. by rewrite !lookup_insert_ne by done. }
  destruct Hmid as ([[Hl Ht] Ho] & Hok). split.
  - split; [split; [lia|by rewrite Ht3]|]. intros p Hp. rewrite Hf3, Ht3. by apply Ho.
  - intros Hx. exists data. split; [done|]. rewrite Hf3. by apply Hok.
Qed.
End calm.

(** ** All or nothing *)

Section transaction.
Context `{HUnicode : Unicode} `{HUrl : UrlParser} `{HDigest : Digest} `{HText : ManifestText} `{HPlatform : Platform}.
Variables (e : Engine) (payload backupDir : string) (m : Manifest).
Hypothesis Hlayout : layout e payload (release_dir e m backupDir) backupDir.

(** The disk an installation starts from: the new binaries are unpacked, the live ones
    are there, and the snapshot does not exist yet. *)
Definition ready (d : disk) : Prop :=
  forall s t, (s, t) ∈ names ->
    is_Some (d_files d !! path_join payload s) /\ is_Some (d_files d !! live e t) /\
    d_files d !! path_join backupDir t = None.

(** A snapshot is missing, complete, or torn. *)
Definition snapshot_state (d d' : disk) (t : string) : Prop :=
  d_files d' !! path_join backupDir t = None \/ d_files d' !! path_join backupDir t = d_files d !! live e t \/
  torn_copy (live e t) (path_join backupDir t) d d'.

Lemma in_targets t : t ∈ live_names <-> exists s, (s, t) ∈ names.
Proof.
  rewrite <- targets_names. unfold targets. rewrite list_elem_of_fmap. split.
  - intros ([s t'] & -> & Hin). eauto.
  - intros [s Hin]. by exists (s, t).
Qed.

Lemma perm_targets l t : l ≡ₚ names -> t ∈ targets l <-> exists s, (s, t) ∈ names.
Proof. intros Hl. rewrite <- in_targets, <- targets_names. unfold targets. by rewrite Hl. Qed.

Lemma perm_sub l : l ≡ₚ names -> forall s t, (s, t) ∈ l -> (s, t) ∈ names.
Proof. intros Hl s t. by rewrite Hl. Qed.

Lemma perm_NoDup l : l ≡ₚ names -> NoDup (targets l).
Proof.
  intros Hl. unfold targets. rewrite Hl. change (snd <$> names) with live_names.
  apply (bool_decide_unpack _). vm_compute. exact I.
Qed.

(** [install]: on success every live binary is the new one and every snapshot the old
    one.  After a failure the live binaries are untouched, or they are old or new, a call
    failed, and the snapshot is complete. *)
Lemma install_runs order1 order2 d x d' :
  order1 ≡ₚ names -> order2 ≡ₚ names -> ready d -> on_disk (install e order1 order2 payload m backupDir) d x d' ->
  later d d' /\
  (~ is_err x -> forall s t, (s, t) ∈ names ->
     d_files d' !! live e t = d_files d !! path_join payload s /\
     d_files d' !! path_join backupDir t = d_files d !! live e t) /\
  (is_err x ->
    (forall s t, (s, t) ∈ names -> d_files d' !! live e t = d_files d !! live e t /\ snapshot_state d d' t) \/
    (d_faults d < d_faults d' /\ forall s t, (s, t) ∈ names ->
       d_files d' !! path_join backupDir t = d_files d !! live e t /\
       (d_files d' !! live e t = d_files d !! live e t \/ d_files d' !! live e t = d_files d !! path_join payload s))).
Proof.
  intros Ho1 Ho2 Hready H. unfold install in H.
  apply runs_try in H as [(u & d1 & H1 & H)|(err & H1 & ->)].
  2:{ apply runs_os_call in H1 as ([|s] & (Hf & Ht & Hl & _)%benign_inv & [= ->]).
      split; [split; [done|by rewrite Ht]|]. split; [done|]. intros _. left. intros s' t Hin.
      destruct (Hready s' t Hin) as (_ & _ & Hb). rewrite Hf. split; [done|]. left. by rewrite Hf. }
  apply runs_os_call in H1 as ([|s] & (Hf1 & Ht1 & Hl1 & _)%benign_inv & [= ->]).
  apply runs_try in H as [(u1 & d2 & H2 & H)|(err & H2 & ->)]; apply runs_os_call in H2 as (y0 & Hd2 & _);
    cbn [up_sem] in Hd2; [subst d2|subst d'].
  2:{ split; [split; [done|by rewrite Ht1]|]. split; [done|]. intros _. left. intros s' t Hin.
      destruct (Hready s' t Hin) as (_ & _ & Hb). rewrite Hf1. split; [done|]. left. by rewrite Hf1. }
  set (rel := release_dir e m backupDir) in *.
  assert (Hlive_kept : forall t, good_comp t -> forall t', t' ∈ targets order1 -> live e t <> path_join rel t' /\ live e t <> path_join backupDir t').
  { intros t Ht. apply (live_kept e payload rel backupDir Hlayout); [by apply perm_sub|done]. }
  apply runs_try in H as [(u2 & d3 & H3 & H)|(err & H3 & ->)];
    apply (prepare_release_runs e payload rel backupDir Hlayout) in H3 as ((Hl3 & Hk3 & Hb3) & Hok3 & _);
    try by (apply perm_sub || apply perm_NoDup).
  2:{ split; [split; [destruct Hl3; lia|destruct Hl3; set_solver]|]. split; [done|]. intros _. left. intros s' t Hin.
      destruct (names_good s' t Hin) as (_ & Hg & _). destruct (Hready s' t Hin) as (_ & _ & Hb).
      destruct (Hk3 (live e t) (Hlive_kept t Hg)) as [Hlt _]. rewrite Hlt, Hf1. split; [done|].
      destruct (Hb3 t) as [Hx|[Hx|(Htorn & c & n & Hc & Hx)]]; [by apply perm_targets; eauto|..].
      - left. by rewrite Hx, Hf1.
      - right. left. by rewrite Hx, Hf1.
      - right. right. split; [done|]. exists c, n. by rewrite <- Hf1. }
  specialize (Hok3 ltac:(by intros [])).
  assert (Hfacts : forall s t, (s, t) ∈ names ->
    d_files d3 !! path_join rel t = d_files d !! path_join payload s /\ is_Some (d_files d !! path_join payload s) /\
    d_files d3 !! path_join backupDir t = d_files d !! live e t /\ d_files d3 !! live e t = d_files d !! live e t).
  { intros s t Hin. destruct (names_good s t Hin) as (_ & Hg & _).
    destruct (Hok3 s t) as (Hp & Hr & _ & Hb); [by rewrite Ho1|].
    destruct (Hk3 (live e t) (Hlive_kept t Hg)) as [Hlt _]. rewrite Hf1 in *. done. }
  destruct (dirs_ne e payload rel backupDir Hlayout) as (_ & Hbr & Hbk & _).
  assert (Hback : forall t d4 y, good_comp t -> swapped e rel (targets order2) d3 y d4 ->
    d_files d4 !! path_join backupDir t = d_files d3 !! path_join backupDir t).
  { intros t d4 y Hg (_ & Ho & _).
    destruct (source_kept e (bin_rooted _ _ _ _ Hlayout) backupDir (backup_rooted _ _ _ _ Hlayout) Hbk t (targets order2)) as [? ?];
      [done|by apply targets_live, perm_sub|]. by apply Ho. }
  apply runs_try in H as [(u3 & d4 & H4 & H)|(err & H4 & ->)];
    apply (replace_live_runs e payload rel backupDir Hlayout) in H4; try by apply perm_sub.
  2:{ pose proof H4 as (Hl4 & Ho4 & Hb4 & Hok4 & Herr4).
      split; [split; [destruct Hl3, Hl4; lia|destruct Hl3, Hl4; set_solver]|]. split; [done|]. intros _. right.
      split.
      - destruct (Herr4 I) as [Hlt|(t & Hin & Hn)]; [destruct Hl3; lia|]. exfalso.
        apply (perm_targets _ _ Ho2) in Hin as [s Hin]. destruct (Hfacts s t Hin) as (Hr & [c Hc] & _). congruence.
      - intros s t Hin. destruct (names_good s t Hin) as (_ & Hg & _). destruct (Hfacts s t Hin) as (Hr & _ & Hb & Hlt).
        rewrite (Hback t _ _ Hg H4), Hb. split; [done|].
        destruct (Hb4 t) as [Hx|[_ Hx]]; [by apply perm_targets; eauto|..]; rewrite Hx; [left|right]; done. }
  pose proof H4 as (Hl4 & Ho4 & Hb4 & Hok4 & _). specialize (Hok4 ltac:(by intros [])).
  apply runs_os_call in H as (y & Hw & ->). cbn [up_sem] in Hw.
  assert (Hcur : forall s t, (s, t) ∈ names -> path_join (StateDir (config e)) "current.json" <> live e t /\
    path_join (StateDir (config e)) "current.json" <> path_join backupDir t).
  { intros s t Hin. destruct (names_good s t Hin) as (_ & Hg & _).
    pose proof (state_differs _ _ _ _ Hlayout) as Hsd. rewrite !Forall_cons in Hsd. destruct Hsd as (Hs1 & _ & _ & Hs2 & _).
    destruct Hlayout. assert (good_comp "current.json") by done.
    split; intros Heq; apply path_join_one_inj in Heq as [Heq _]; done. }
  assert (Hd' : d_torn d' = d_torn d4 /\ d_faults d4 <= d_faults d' /\ (is_err y -> d_faults d4 < d_faults d') /\
    forall p, p <> path_join (StateDir (config e)) "current.json" -> d_files d' !! p = d_files d4 !! p).
  { destruct Hw as [[-> ->]|[Hy [->|[n ->]]]]; simpl; split_and!; try done; try lia;
      intros p Hp; by rewrite ?lookup_insert_ne by done. }
  destruct Hd' as (Htd & Hld & Hed & Hfd).
  assert (Hfinal : forall s t, (s, t) ∈ names -> d_files d' !! live e t = d_files d !! path_join payload s /\
    d_files d' !! path_join backupDir t = d_files d !! live e t).
  { intros s t Hin. destruct (names_good s t Hin) as (_ & Hg & _). destruct (Hfacts s t Hin) as (Hr & _ & Hb & _).
    destruct (Hcur s t Hin) as [Hc1 Hc2]. rewrite !Hfd by done.
    destruct (Hok4 t) as [_ Hx]; [by apply perm_targets; eauto|]. by rewrite Hx, Hr, (Hback t _ _ Hg H4), Hb. }
  split; [split; [destruct Hl3, Hl4; lia|rewrite Htd; destruct Hl3, Hl4; set_solver]|]. split; [done|].
  intros Hx. right. split; [destruct Hl3, Hl4; destruct y; simpl in Hx; [done|specialize (Hed I); lia]|].
  intros s t Hin. destruct (Hfinal s t Hin) as [-> ->]. auto.
Qed.

(** A live binary is the old one, the new one, or a torn copy of the old one. *)
Definition live_state (d d' : disk) (s t : string) : Prop :=
  d_files d' !! live e t = d_files d !! live e t \/ d_files d' !! live e t = d_files d !! path_join payload s \/
  (path_join backupDir t ∈ d_torn d' /\
   exists c n, d_files d !! live e t = Some c /\ d_files d' !! live e t = Some (take_bytes n c)).

Definition untorn (d : disk) : Prop := forall t, t ∈ live_names -> path_join backupDir t ∉ d_torn d.

Definition all_old (d d' : disk) : Prop := forall s t, (s, t) ∈ names -> d_files d' !! live e t = d_files d !! live e t.
Definition all_new (d d' : disk) : Prop := forall s t, (s, t) ∈ names -> d_files d' !! live e t = d_files d !! path_join payload s.

(** [restore] from the snapshot after a failed or an unhealthy installation. *)
Lemma restore_runs d d1 x d2 :
  on_disk (restore e backupDir) d1 x d2 ->
  (forall s t, (s, t) ∈ names -> snapshot_state d d1 t /\ live_state d d1 s t) ->
  later d1 d2 /\
  (forall s t, (s, t) ∈ names -> live_state d d2 s t) /\
  ((forall s t, (s, t) ∈ names -> d_files d1 !! path_join backupDir t = d_files d !! live e t /\ is_Some (d_files d !! live e t)) ->
     d_faults d2 = d_faults d1 -> all_old d d2) /\
  (all_old d d1 -> untorn d2 -> all_old d d2).
Proof.
  intros H Hst. destruct (dirs_ne e payload _ backupDir Hlayout) as (_ & _ & Hbk & _).
  apply (restore_each_runs e (bin_rooted _ _ _ _ Hlayout)) in H as (Hl & Ho & Hb & Hok & Herr);
    [|apply Hlayout|done|apply live_names_ok].
  split; [done|]. split; [|split].
  - intros s t Hin. destruct (Hst s t Hin) as [Hsnap Hlive]. destruct Hl as [_ Htorn].
    destruct (Hb t) as [Hx|[[c Hc] Hx]]; [apply in_targets; eauto|..]; unfold live_state in *; rewrite Hx.
    + destruct Hlive as [?|[?|[? ?]]]; eauto 10.
    + destruct Hsnap as [Hn|[Hn|(Ht & c' & n & Hc' & Hn)]]; [congruence|by left|]. right. right.
      split; [by apply Htorn|]. eauto.
  - intros Hfull Hf s t Hin. destruct x as [u|err].
    + destruct (Hok ltac:(by intros []) t) as [_ Hx]; [apply in_targets; eauto|]. rewrite Hx. by apply (Hfull s t).
    + exfalso. destruct (Herr I) as [?|(t' & Hin' & Hn)]; [lia|]. apply in_targets in Hin' as [s' Hin'].
      destruct (Hfull s' t' Hin') as [Hx [c Hc]]. congruence.
  - intros Hold Hun s t Hin. destruct (Hst s t Hin) as [Hsnap _].
    destruct (Hb t) as [Hx|[[c Hc] Hx]]; [apply in_targets; eauto|..]; rewrite Hx; [by apply (Hold s t)|].
    destruct Hsnap as [Hn|[Hn|(Ht & _)]]; [congruence|done|]. exfalso.
    apply (Hun t); [apply in_targets; eauto|]. by apply Hl.
Qed.

(** The history is not among the files an installation works on. *)
Lemma history_kept d d' s t : (s, t) ∈ names -> only (history_path e) d d' ->
  d_files d' !! live e t = d_files d !! live e t /\ (path_join backupDir t ∈ d_torn d' <-> path_join backupDir t ∈ d_torn d).
Proof.
  intros Hin [[_ Htorn] Ho]. destruct (names_good s t Hin) as (_ & Hg & _).
  pose proof (state_differs _ _ _ _ Hlayout) as Hsd. rewrite !Forall_cons in Hsd. destruct Hsd as (Hs1 & _ & _ & Hs2 & _).
  assert (Hd : live e t <> history_path e /\ path_join backupDir t <> history_path e).
  { destruct Hlayout. assert (good_comp "history.jsonl") by done.
    split; intros Heq; apply path_join_one_inj in Heq as [Heq _]; congruence || done. }
  destruct Hd as [Hd1 Hd2]. split; [by apply Ho|]. split; [by apply Ho|apply Htorn].
Qed.

(** The end of a failed transaction: the history. *)
Lemma rolled_back_end d d1 d' :
  only (history_path e) d1 d' ->
  (forall s t, (s, t) ∈ names -> live_state d d1 s t -> live_state d d' s t) /\
  (all_old d d1 -> all_old d d') /\ (untorn d' -> untorn d1) /\ (all_new d d1 -> all_new d d').
Proof.
  intros Ho. assert (Hk := fun s t Hin => history_kept d1 d' s t Hin Ho). split_and!.
  - intros s t Hin. destruct (Hk s t Hin) as [Hlt Htn]. unfold live_state. rewrite Hlt, Htn. done.
  - intros Hold s t Hin. destruct (Hk s t Hin) as [-> _]. by apply (Hold s).
  - intros Hun t Hin Ht. apply (Hun t Hin). apply in_targets in Hin as [s Hin]. by apply (Hk s t Hin).
  - intros Hnew s t Hin. destruct (Hk s t Hin) as [-> _]. by apply Hnew.
Qed.
End transaction.

Definition installation_failed (err : option up_error) : Prop :=
  exists c, err = Some (Wrap "update: installation failed and rollback executed" c).

Section theorem.
Context `{HUnicode : Unicode} `{HUrl : UrlParser} `{HDigest : Digest} `{HText : ManifestText} `{HPlatform : Platform}.

Lemma runs_now d x d' : on_disk (call Now) d x d' -> d' = d.
Proof. by intros ?%runs_call. Qed.

(** However the installation ended, each snapshot is absent, whole or torn, and each live
    binary is the old or the new one. *)
Lemma install_leaves (e : Engine) order1 order2 payload back m d x d' :
  layout e payload (release_dir e m back) back -> order1 ≡ₚ names -> order2 ≡ₚ names -> ready e payload back d ->
  on_disk (install e order1 order2 payload m back) d x d' ->
  forall s t, (s, t) ∈ names -> snapshot_state e back d d' t /\ live_state e payload back d d' s t.
Proof.
  intros Hlay Ho1 Ho2 Hready H s t Hin.
  apply (install_runs e payload back m Hlay order1 order2) in H as (_ & Hok & Herr); [|done..].
  destruct x as [u|err].
  - destruct (Hok ltac:(by intros []) s t Hin) as [H1 H2]. split; by right; left.
  - destruct (Herr I) as [Hx|[_ Hx]]; destruct (Hx s t Hin) as [H1 H2].
    + split; [done|by left].
    + split; [by right; left|]. destruct H2; [by left|by right; left].
Qed.

(** C18. An installation is all or nothing.  It ends as succeeded or rolled back.  If it
    succeeded, all three live binaries are the new ones.  If it was rolled back, they are
    all the old ones, as long as no snapshot was torn and at most one call failed in a
    failed installation, or none when the health check failed.  In any case, whatever
    fails, each live binary is the old or the new one, or a part of the old one when the
    copy that made its snapshot broke off. *)
Theorem install_all_or_nothing (e : Engine) order1 order2 r payload m entry d out d' :
  order1 ≡ₚ names -> order2 ≡ₚ names ->
  layout e payload (release_dir e m (h_BackupDir entry)) (h_BackupDir entry) -> ready e payload (h_BackupDir entry) d ->
  on_disk (install_or_roll_back e order1 order2 r payload m entry) d out d' ->
  (forall s t, (s, t) ∈ names -> live_state e payload (h_BackupDir entry) d d' s t) /\
  ((h_Status (fst out) = "succeeded" /\ all_new e payload d d') \/
   (h_Status (fst out) = "rolled_back" /\
    (untorn (h_BackupDir entry) d' ->
     (installation_failed (snd out) /\ d_faults d' <= S (d_faults d)) \/ d_faults d' = d_faults d -> all_old e d d'))).
Proof.
  intros Ho1 Ho2 Hlay Hready H. unfold install_or_roll_back in H. set (back := h_BackupDir entry) in *.
  apply runs_bind in H as (x & d1 & Hi & H).
  assert (Hst := install_leaves e order1 order2 payload back m d x d1 Hlay Ho1 Ho2 Hready Hi).
  apply (install_runs e payload back m Hlay order1 order2) in Hi as (Hl1 & Hok & Herr); [|done..].
  assert (Hsome : forall s t, (s, t) ∈ names -> is_Some (d_files d !! live e t)) by (intros s t Hin; by apply (Hready s t)).
  destruct x as [u|err].
  - specialize (Hok ltac:(by intros [])). clear Herr.
    apply runs_bind in H as (y & d2 & Hr & H). apply idle_runs in Hr as ->; [|apply restart_healthy_idle].
    destruct y as [v|err].
    + apply runs_bind in H as (now & d2 & ->%runs_now & H). cbv zeta in H.
      apply runs_bind in H as (z & d2 & [Ha _]%appendHistory_runs & [-> ->]).
      destruct (rolled_back_end e payload back m Hlay d d1 d2 Ha) as (Hlive & _ & _ & Hnew).
      split; [intros s t Hin; apply Hlive; [done|]; by apply Hst|]. left. split; [done|].
      apply Hnew. intros s t Hin. by apply Hok.
    + apply runs_bind in H as (rb & d2 & Hrest & H).
      apply (restore_runs e payload back m Hlay d d1) in Hrest as (Hl2 & Hlive2 & Hfull & _); [|done].
      apply runs_bind in H as (rs & d3 & Hx & H). apply idle_runs in Hx as ->; [|apply Restart_idle].
      apply runs_bind in H as (hs & d3 & Hx & H). apply idle_runs in Hx as ->; [|apply Healthy_idle].
      cbv zeta in H. apply runs_bind in H as (now & d3 & ->%runs_now & H). cbv zeta in H.
      apply runs_bind in H as (z & d3 & [Ha _]%appendHistory_runs & [-> ->]).
      destruct (rolled_back_end e payload back m Hlay d d2 d3 Ha) as (Hlive & Hold & _ & _).
      split; [intros s t Hin; by apply Hlive, Hlive2|]. right. split; [done|].
      intros _ [[[c [=]] _]|Hf]. apply Hold, Hfull.
      * intros s t Hin. split; [by apply (Hok s t)|by apply (Hsome s t)].
      * destruct Hl1, Hl2, Ha as [[? _] _]. lia.
  - clear Hok. specialize (Herr I).
    apply runs_bind in H as (rb & d2 & Hrest & H). cbv zeta in H.
    apply runs_bind in H as (now & d3 & ->%runs_now & H). cbv zeta in H.
    apply runs_bind in H as (z & d3 & [Ha _]%appendHistory_runs & [-> ->]).
    destruct (rolled_back_end e payload back m Hlay d d2 d3 Ha) as (Hlive & Hold & Hun & _).
    apply (restore_runs e payload back m Hlay d d1) in Hrest as (Hl2 & Hlive2 & Hfull & Hkeep); [|done].
    split; [intros s t Hin; by apply Hlive, Hlive2|]. right. split; [done|].
    intros Huntorn Hf. apply Hold. destruct Herr as [Hx|[Hlt Hx]].
    + apply Hkeep; [|by apply Hun]. intros s t Hin. by apply (Hx s t).
    + apply Hfull.
      * intros s t Hin. split; [by apply (Hx s t)|by apply (Hsome s t)].
      * destruct Hl1, Hl2, Ha as [[? _] _]. destruct Hf as [[_ Hf]|Hf]; lia.
Qed.
End theorem.

(** ** Runs that can be computed

    Every call succeeds, except that copy or append number [torn] breaks off after two
    bytes and the services are healthy or not. *)

Section drive.
Variables (torn : option nat) (healthy : bool).

Definition answer X (c : up_call X) (d : disk) (n : nat) : option (X * disk * nat) :=
  match c in up_call X return option (X * disk * nat) with
  | Now => Some ({| t_year := 2026; t_month := 2; t_day := 1; t_hour := 9; t_min := 30; t_sec := 0; t_nsec := 7; t_off := 0 |}, d, n)
  | MkdirAll _ _ | SyncFile _ | ChmodFile _ _ | CloseFile _ | Mkdir _ _ => Some (Ok (), d, n)
  | OpenRead p => Some (match d_files d !! p with Some _ => Ok () | None => Err "missing" end, d, n)
  | OpenTrunc p _ => Some (Ok (), put p "" d, n)
  | CopyAll dst src =>
      if bool_decide (torn = Some n) then Some (Some "broken off", tear dst (fault (put dst (take_bytes 2 (content d src)) d)), S n)
      else Some (None, put dst (content d src) d, S n)
  | Stat p => Some (match d_files d !! p with Some s => Ok (len s) | None => Err "missing" end, d, n)
  | CreateTemp dir _ =>
      match d_files d !! path_join dir ".tmp" with
      | None => Some (Ok (path_join dir ".tmp"), put (path_join dir ".tmp") "" d, n)
      | Some _ => None
      end
  | Rename a b => match d_files d !! a with Some c => Some (Ok (), put b c (erase a d), n) | None => Some (Err "missing", d, n) end
  | Remove p => match d_files d !! p with Some _ => Some (Ok (), erase p d, n) | None => Some (Err "missing", d, n) end
  | OpenAppend p _ => Some (Ok (), put p (content d p) d, n)
  | WriteData p data =>
      if bool_decide (torn = Some n) then Some (Err "broken off", fault (put p (content d p ++ take_bytes 2 data) d), S n)
      else Some (Ok (), put p (content d p ++ data) d, S n)
  | WriteFile p data _ => Some (Ok (), put p data d, n)
  | ReadFile p => Some (match d_files d !! p with Some c => Ok c | None => Err NotExist end, d, n)
  | Command _ _ _ _ => Some (("", if healthy then None else Some "exit status 3"), d, n)
  | HealthGet _ _ => Some (Ok 200%Z, d, n)
  | WaitSecond _ => Some (None, d, n)
  | _ => None
  end.

Lemma answer_sem X (c : up_call X) d n x d' n' : answer X c d n = Some (x, d', n') -> up_sem X c d x d'.
Proof.
  destruct c; cbn [answer up_sem]; unfold benign; try done; intros Hx; repeat case_match; simplify_eq/=; try done.
  all: try (left; naive_solver).
  all: try (right; naive_solver).
  all: first [left; by exists ".tmp" | right; split; [by eexists|]; by exists 2 | right; split; [done|]; by exists 2].
Qed.

Fixpoint drive {A} (p : up_prog A) (d : disk) (n : nat) : option (A * disk) :=
  match p with
  | Ret a => Some (a, d)
  | Call c k => '(x, d', n') ← answer _ c d n; drive (k x) d' n'
  end.

Lemma drive_runs {A} (p : up_prog A) d n a d' : drive p d n = Some (a, d') -> on_disk p d a d'.
Proof.
  revert d n. induction p as [b|X c k IH]; intros d n; simpl; [by intros [= <- <-]|].
  destruct (answer X c d n) as [[[x d1] n1]|] eqn:Ha; simpl; [|done]. intros Hd.
  exists x, d1. split; [by eapply answer_sem|by eapply IH].
Qed.
End drive.

#[local] Existing Instance unicode_ascii.
Definition some_text : ManifestText := {| manifest_text := fun _ => "" |}.
#[local] Existing Instance some_text.

Definition an_engine : Engine := {|
  config := DefaultConfig; github := NewGitHubClient; verifier := Some DefaultSigstoreVerifier;
  runtime := Some {| CoreHealthURL := "" |}; has_backup := true |}.

Definition an_entry : HistoryEntry := {|
  h_ID := "t1"; h_StartedAt := zero_time; h_CompletedAt := zero_time; h_FromVersion := "v1.2.2"; h_ToVersion := "v1.2.3";
  h_Commit := m_Commit sample_manifest; h_Status := "installing"; h_Automatic := false; h_Error := "";
  h_BackupDir := "/var/lib/opendeploy/updates/backups/t1"; h_SystemBackup := "b" |}.

Definition a_disk : disk := {| d_files := list_to_map [
    ("/stage/payload/opendeploy-core", "new core"); ("/stage/payload/opendeploy-agent", "new agent");
    ("/stage/payload/opendeploy-cli", "new cli"); ("/usr/bin/opendeploy-core", "old core");
    ("/usr/bin/opendeploy-agent", "old agent"); ("/usr/bin/opendeploy", "old cli")];
  d_faults := 0; d_torn := ∅ |}.

Definition an_installation : up_prog (HistoryEntry * option up_error) :=
  install_or_roll_back an_engine names names {| CoreHealthURL := "" |} "/stage/payload" sample_manifest an_entry.

Lemma a_layout : layout an_engine "/stage/payload" (release_dir an_engine sample_manifest (h_BackupDir an_entry)) (h_BackupDir an_entry).
Proof. split; try (vm_compute; reflexivity); apply (bool_decide_unpack _); vm_compute; exact I. Qed.

Lemma a_disk_ready : ready an_engine "/stage/payload" (h_BackupDir an_entry) a_disk.
Proof.
  intros s t Hin. unfold names in Hin. rewrite !elem_of_cons, elem_of_nil in Hin.
  destruct Hin as [[= -> ->]|[[= -> ->]|[[= -> ->]|[]]]]; (split; [by eexists; vm_compute|split; [by eexists; vm_compute|by vm_compute]]).
Qed.

(** A run whose outcome passes a test. *)
Lemma drive_checked {A} torn healthy (p : up_prog A) d (P : A -> disk -> bool) :
  match drive torn healthy p d 0 with Some (a, d') => P a d' | None => false end = true ->
  exists a d', on_disk p d a d' /\ P a d' = true.
Proof.
  destruct (drive torn healthy p d 0) as [[a d']|] eqn:Hd; [|done]. intros HP. exists a, d'.
  split; [by eapply drive_runs|done].
Qed.

Lemma an_unhealthy_installation :
  exists out d', on_disk an_installation a_disk out d' /\ h_Status (fst out) = "rolled_back" /\
    d_faults d' = 0 /\ d_torn d' = ∅.
Proof.
  destruct (drive_checked None false an_installation a_disk (fun out d' =>
    String.eqb (h_Status (fst out)) "rolled_back" && (d_faults d' =? 0)%nat && bool_decide (d_torn d' = ∅)))
    as (out & d' & Hr & HP); [vm_compute; reflexivity|]. exists out, d'. split; [done|].
  propify. split_and!; [by apply String.eqb_eq|by apply Nat.eqb_eq|done].
Qed.

Lemma install_all_or_nothing_witness :
  exists out d', on_disk an_installation a_disk out d' /\ h_Status (fst out) = "rolled_back" /\
    all_old an_engine a_disk d'.
Proof.
  destruct an_unhealthy_installation as (out & d' & Hr & Hs & Hf & Ht). exists out, d'. split; [exact Hr|].
  split; [exact Hs|].
  destruct (install_all_or_nothing an_engine names names {| CoreHealthURL := "" |} "/stage/payload" sample_manifest an_entry
    a_disk out d' (Permutation_refl _) (Permutation_refl _) a_layout a_disk_ready Hr) as [_ [[Hbad _]|[_ Hold]]].
  - rewrite Hs in Hbad. discriminate Hbad.
  - apply Hold; [|right; rewrite Hf; reflexivity]. intros t _. rewrite Ht. apply not_elem_of_empty.
Defined.

(** One failed call can destroy a live binary: when the copy that makes the snapshot
    of a live binary breaks off, the update is reported as rolled back, and the rollback
    has put the part that was copied in place of the binary, which until then had not
    been touched. *)
Theorem torn_snapshot_restored :
  exists out d', on_disk an_installation a_disk out d' /\ d_faults d' = 1 /\
    h_Status (fst out) = "rolled_back" /\ d_files d' !! live an_engine "opendeploy-core" = Some "ol".
Proof.
  destruct (drive_checked (Some 1) true an_installation a_disk (fun out d' =>
    (d_faults d' =? 1)%nat && String.eqb (h_Status (fst out)) "rolled_back"
    && bool_decide (d_files d' !! live an_engine "opendeploy-core" = Some "ol")))
    as (out & d' & Hr & HP); [vm_compute; reflexivity|]. exists out, d'. split; [done|].
  propify. split_and!; [by apply Nat.eqb_eq|by apply String.eqb_eq|done].
Qed.
