(* ===== verification/UpdateHistory.v ===== *)
(** * History and rollback of updates

    On the disk of UpdateDisk: the history returns what was appended, a manual rollback
    puts the snapshot in place or leaves the binaries as they were, and what one failed
    call can do to either. *)

From S2P Require Import Prelude GoStrings GoStrconv GoPath GoRegexp GoTime GoJson GoStruct Effects UpdateManifest Update UpdateDisk.
Local Open Scope string_scope.
Local Open Scope go_scope.

(** ** The history file *)

Section history.
Context `{HUnicode : Unicode} `{HUrl : UrlParser} `{HDigest : Digest} `{HText : ManifestText} `{HPlatform : Platform}.
Variable e : Engine.

(** The line of an entry. *)
Definition entry_data (h : HistoryEntry) : string := default "" (marshal_entry h).
Definition history_text (es : list HistoryEntry) : string := lines_text entry_data es.

Lemma entry_line h : valid_entry h ->
  marshal_entry h = Some (entry_data h) /\ unmarshal_entry (entry_data h) = Some h /\ object_line (entry_data h).
Proof. intros (data & Hm & Hu & Ho)%entry_read_back. unfold entry_data. by rewrite Hm. Qed.

Lemma parse_history_text es : Forall valid_entry es -> parse_history (history_text es) = Ok es.
Proof.
  intros Hes. unfold parse_history, history_text, lines_text. rewrite read_jsonl_lines; [done|done|].
  eapply Forall_impl; [done|]. intros h (_ & Hu & Ho)%entry_line. split_and!; [done| |done].
  apply String.eqb_neq. by apply object_line_trim.
Qed.

(** The history on [d] holds [es]. *)
Definition recorded (d : disk) (es : list HistoryEntry) : Prop :=
  content d (history_path e) = history_text es.

Lemma appendHistory_records h es d x d' :
  on_disk (appendHistory e h) d x d' -> valid_entry h -> recorded d es -> d_faults d' = d_faults d ->
  x = Ok () /\ recorded d' (es ++ [h])%list.
Proof.
  intros H Hv Hr Hf. pose proof (entry_line h Hv) as (Hm & _).
  pose proof (appendHistory_runs e h d x d' H) as (_ & Hok). destruct x as [[]|err].
  - split; [done|]. destruct (Hok ltac:(by intros [])) as (data & Hd & Hc). rewrite Hm in Hd. injection Hd as <-.
    unfold recorded in *. unfold content at 1. unfold history_text in *. by rewrite Hc, Hr, lines_text_snoc.
  - exfalso. clear Hok. unfold appendHistory in H. rewrite Hm in H.
    apply runs_try in H as [(u & d1 & H1 & H)|(err' & H1 & [= ->])].
    2:{ apply runs_os_call in H1 as ([|s] & [[? _]|[_ ->]] & [= ->]); [done|]. simpl in Hf. lia. }
    apply runs_os_call in H1 as ([|s] & [[_ ->]|[[] _]] & [= ->]).
    apply runs_bind in H as (r & d2 & H & Hend).
    apply runs_bind in Hend as (y & d3 & (_ & _ & Hl3 & _)%runs_call%benign_inv & [<- ->]).
    apply runs_try in H as [(u1 & d4 & H4 & H)|(err' & H4 & [= ->])].
    + apply runs_os_call in H4 as ([|s] & [[_ ->]|[[] _]] & [= ->]).
      apply runs_os_call in H as ([|s] & (_ & _ & _ & Hlt)%benign_inv & [=]). specialize (Hlt I). simpl in Hlt. lia.
    + apply runs_os_call in H4 as ([|s] & [[? _]|[_ [n ->]]] & [= ->]); [done|]. simpl in Hl3. lia.
Qed.

(** Entries appended one after the other, until an append fails. *)
Fixpoint append_all (es : list HistoryEntry) : up_prog (result up_error ()) :=
  match es with
  | [] => Ret (Ok ())
  | h :: es' => try! _ := appendHistory e h in append_all es'
  end.

Lemma up_sem_later X (c : up_call X) d x d' : up_sem X c d x d' -> later d d'.
Proof.
  destruct c; cbn [up_sem]; unfold benign; intros Hs;
    repeat (match goal with
      | H : _ \/ _ |- _ => destruct H as [H|H]
      | H : exists _, _ |- _ => destruct H as [? H]
      | H : _ /\ _ |- _ => destruct H as [? H]
      end); subst; first [done | by split; simpl; [lia|] | by split; simpl; [lia|set_solver]].
Qed.

Lemma runs_later {A} (p : up_prog A) d a d' : on_disk p d a d' -> later d d'.
Proof.
  intros H. eapply (runs_invariant _ (later d)); [|exact H|done].
  intros X c s x s' Hs%up_sem_later Hd. by etrans.
Qed.

Lemma append_all_records es es0 d x d' :
  on_disk (append_all es) d x d' -> Forall valid_entry es -> recorded d es0 -> d_faults d' = d_faults d ->
  x = Ok () /\ recorded d' (es0 ++ es)%list.
Proof.
  revert es0 d. induction es as [|h es IH]; intros es0 d H Hv Hr Hf; cbn [append_all] in H.
  { destruct H as [-> ->]. by rewrite app_nil_r. }
  apply Forall_cons in Hv as [Hh Hv].
  apply runs_try in H as [(u & d1 & H1 & H2)|(err & H1 & ->)].
  - pose proof (runs_later _ _ _ _ H1) as [Hl1 _]. pose proof (runs_later _ _ _ _ H2) as [Hl2 _].
    eapply appendHistory_records in H1 as [_ Hr1]; [|done|done|lia].
    eapply IH in H2 as [-> Hr2]; [|done|done|lia]. by rewrite <- app_assoc in Hr2.
  - eapply appendHistory_records in H1 as [? _]; done.
Qed.

(** What is appended to the update history is read back: after any sequence of
    entries was appended to a history that did not exist, with no failing call, the
    history is exactly these entries, in this order, whatever quotes, line breaks or
    other characters their texts hold. *)
Theorem history_round_trip es d x d' :
  d_files d !! history_path e = None -> Forall valid_entry es ->
  on_disk (try! _ := append_all es in History e) d x d' -> d_faults d' = d_faults d ->
  x = Ok es.
Proof.
  intros Hnone Hv [(u & d1 & H1 & H2)|(err & H1 & ->)]%runs_try Hf.
  - pose proof (runs_later _ _ _ _ H1) as [Hl1 _]. pose proof (runs_later _ _ _ _ H2) as [Hl2 _].
    assert (He : d1 = d \/ is_Some (d_files d1 !! history_path e) \/ es <> []).
    { destruct es; [left; by destruct H1 as [_ ->]|auto]. }
    eapply (append_all_records es []) in H1 as [_ Hr]; [|done| |lia].
    2:{ unfold recorded, content. by rewrite Hnone. }
    unfold History in H2. apply runs_bind in H2 as (data & d2 & Hd%runs_call & H2). cbn [up_sem] in Hd.
    destruct Hd as [[-> ->]|(s & _ & ->)].
    + simpl in Hr. unfold recorded, content in Hr. destruct (d_files d1 !! history_path e) as [c|]; simpl in Hr.
      * destruct H2 as [-> _]. rewrite Hr. by apply parse_history_text.
      * destruct H2 as [-> _]. destruct es as [|h es]; [done|]. exfalso. unfold history_text, lines_text in Hr.
        rewrite !fmap_cons in Hr. unfold line_of in Hr at 1. cbn [String.concat] in Hr.
        destruct (entry_data h), (line_of <$> _); done.
    + pose proof (runs_later _ _ _ _ H2) as [Hl3 _]. simpl in Hl3. lia.
  - eapply (append_all_records es []) in H1 as [? _]; [done..| |done]. unfold recorded, content. by rewrite Hnone.
Qed.
End history.

(** ** Manual rollback *)

Section rollback.
Context `{HUnicode : Unicode} `{HUrl : UrlParser} `{HDigest : Digest} `{HText : ManifestText} `{HPlatform : Platform}.
Variables (e : Engine) (original : HistoryEntry).

Definition safety_dir (now : time) : string :=
  path_join (path_join (StateDir (config e)) "backups") ("rollback-" ++ stamp now).

(** The binaries are not among the files of the updater, and the snapshot to go back to
    was made by an update, not by a rollback. *)
Record rollback_layout : Prop := {
  rb_bin : rooted (BinaryDir (config e)) = true;
  rb_state : rooted (StateDir (config e)) = true;
  rb_back : rooted (h_BackupDir original) = true;
  rb_outside : forall l, clean_comps (BinaryDir (config e)) <> (clean_comps (StateDir (config e)) ++ l)%list;
  rb_apart : clean_comps (h_BackupDir original) <> clean_comps (BinaryDir (config e)) /\
    clean_comps (h_BackupDir original) <> clean_comps (StateDir (config e));
  rb_update : forall n, clean_comps (h_BackupDir original) <>
    (clean_comps (StateDir (config e)) ++ ["backups"; ("rollback-" ++ n)%string])%list }.

Hypothesis Hlay : rollback_layout.

Lemma stamp_good now : good_comp ("rollback-" ++ stamp now).
Proof.
  split_and!; try done. unfold no_byte. rewrite str_forall_app. apply andb_true_iff. split; [done|].
  assert (Hpad : forall n z, str_forall (fun c => negb (Ascii.eqb slash c)) (dec_pad n z) = true).
  { intros n z. eapply str_forall_mono; [|apply dec_pad_digits]. intros c Hc.
    destruct (Ascii.eqb_spec slash c) as [<-|]; done. }
  unfold stamp. rewrite !str_forall_app, !Hpad. done.
Qed.

Lemma safety_comps now :
  rooted (safety_dir now) = true /\
  clean_comps (safety_dir now) = (clean_comps (StateDir (config e)) ++ ["backups"; ("rollback-" ++ stamp now)%string])%list.
Proof.
  pose proof (stamp_good now) as Hg. pose proof (rb_state Hlay) as Hs. unfold safety_dir.
  assert (Hc : Forall good_comp (clean_comps (StateDir (config e)) ++ ["backups"])).
  { apply Forall_app. split; [by apply clean_comps_good|by repeat constructor]. }
  rewrite (path_join_one (StateDir (config e))) by done. rewrite path_join_one by (done || apply abs_rooted).
  rewrite clean_comps_abs by done. split; [apply abs_rooted|]. rewrite clean_comps_abs.
  - by rewrite <- app_assoc.
  - apply Forall_app. split; [done|by apply Forall_singleton].
Qed.

Lemma safety_apart now :
  clean_comps (BinaryDir (config e)) <> clean_comps (safety_dir now) /\
  clean_comps (h_BackupDir original) <> clean_comps (safety_dir now) /\
  clean_comps (StateDir (config e)) <> clean_comps (safety_dir now).
Proof.
  destruct (safety_comps now) as [_ ->]. destruct Hlay. split_and!; [done..|]. intros H.
  apply (f_equal length) in H. rewrite length_app in H. simpl in H. lia.
Qed.

(** The copies of a snapshot, up to the first that failed. *)
Lemma snapshot_each_runs S ts d x d' :
  rooted S = true -> clean_comps (BinaryDir (config e)) <> clean_comps S -> Forall live_name ts ->
  on_disk (snapshot_each e S ts) d x d' ->
  later d d' /\
  (forall q, q ∉ (path_join S <$> ts) -> d_files d' !! q = d_files d !! q) /\
  (~ is_err x -> forall t, t ∈ ts -> d_files d' !! path_join S t = d_files d !! live e t) /\
  (is_err x -> d_faults d < d_faults d' \/ exists t, t ∈ ts /\ d_files d !! live e t = None).
Proof.
  intros HS Hne. pose proof (rb_bin Hlay) as Hbin. revert d. induction ts as [|t ts IH]; intros d Hall H; cbn [snapshot_each] in H.
  { destruct H as [-> ->]. split_and!; [done|done|by intros _ ? ?%elem_of_nil|by intros []]. }
  pose proof Hall as [Hlt Hts]%Forall_cons. pose proof Hlt as [Ht _].
  assert (Hdiff : forall t', live_name t' -> live e t' <> path_join S t).
  { intros t' [Hg _] Heq. apply path_join_one_inj in Heq as [? _]; done. }
  apply runs_wrap in H as [(u & d1 & H1 & H)|(err & H1 & ->)];
    apply copyFile_runs in H1 as ((Hl1 & Ho1) & Hok1 & Herr1); try by apply Hdiff.
  2:{ split_and!; [done| |done|].
      - intros q Hq. rewrite fmap_cons, not_elem_of_cons in Hq. destruct Hq. by apply Ho1.
      - intros _. destruct (Herr1 I) as [[?|?] _]; [by left|right]. exists t. split; [by left|done]. }
  destruct (Hok1 ltac:(by intros [])) as [_ Hcopy].
  destruct (IH d1 Hts H) as (Hl2 & Ho2 & Hok2 & Herr2). rewrite Forall_forall in Hts.
  assert (Hlive : forall t', t' ∈ ts -> d_files d1 !! live e t' = d_files d !! live e t').
  { intros t' Hin. apply Ho1. by apply Hdiff, Hts. }
  split_and!; [by etrans| | |].
  - intros q Hq. rewrite fmap_cons, not_elem_of_cons in Hq. destruct Hq. rewrite Ho2 by done. by apply Ho1.
  - intros Hx t' Hin. destruct (decide (t' ∈ ts)) as [Hin'|Hnot].
    + rewrite Hok2 by done. by apply Hlive.
    + apply elem_of_cons in Hin as [->|?]; [|done]. rewrite Ho2; [done|].
      intros (t' & Heq & Hin')%list_elem_of_fmap. destruct (Hts t' Hin') as [Hg _].
      apply path_join_one_inj in Heq as [_ ->]; done.
  - intros Hx. destruct (Herr2 Hx) as [?|(t' & Hin' & Hn)]; [left; destruct Hl1; lia|right].
    exists t'. rewrite Hlive in Hn by done. split; [by right|done].
Qed.

Lemma snapshotLive_runs now d x d' :
  on_disk (snapshotLive e (safety_dir now)) d x d' ->
  (forall t, t ∈ live_names -> is_Some (d_files d !! live e t)) ->
  later d d' /\
  (forall q, q ∉ (path_join (safety_dir now) <$> live_names) -> d_files d' !! q = d_files d !! q) /\
  (~ is_err x -> forall t, t ∈ live_names -> d_files d' !! path_join (safety_dir now) t = d_files d !! live e t) /\
  (is_err x -> d_faults d < d_faults d').
Proof.
  intros H Hsome. destruct (safety_comps now) as [Hr _]. destruct (safety_apart now) as (Hb & _).
  unfold snapshotLive in H. apply runs_try in H as [(u & d1 & H1 & H)|(err & H1 & ->)];
    apply runs_os_call in H1 as (y & (Hf1 & Ht1 & Hl1 & Hlt1)%benign_inv & Hy).
  2:{ destruct y; [done|]. split_and!; [split; [done|by rewrite Ht1]|by intros; rewrite Hf1|by intros []|by intros; apply Hlt1]. }
  apply snapshot_each_runs in H as (Hl & Ho & Hok & Herr); [|done|done|apply live_names_ok]. rewrite Hf1 in *.
  split_and!; [destruct Hl; split; [lia|by rewrite <- Ht1]|done|done|].
  intros Hx. destruct (Herr Hx) as [?|(t & Hin & Hn)]; [lia|]. destruct (Hsome t Hin) as [c Hc]. congruence.
Qed.

(** Restoring from a directory outside the binaries: without a fault every binary is the
    copy there. *)
Lemma restore_from D d x d' :
  rooted D = true -> clean_comps (BinaryDir (config e)) <> clean_comps D ->
  (forall t, t ∈ live_names -> is_Some (d_files d !! path_join D t)) ->
  on_disk (restore e D) d x d' ->
  (~ is_err x -> forall t, t ∈ live_names -> d_files d' !! live e t = d_files d !! path_join D t) /\
  (is_err x -> d_faults d < d_faults d') /\
  (forall t D', t ∈ live_names -> rooted D' = true -> clean_comps (BinaryDir (config e)) <> clean_comps D' ->
     d_files d' !! path_join D' t = d_files d !! path_join D' t).
Proof.
  intros HD Hne Hfull H. pose proof (rb_bin Hlay) as Hbin. pose proof live_names_ok as Hln.
  apply (restore_each_runs e Hbin D live_names) in H as (_ & Ho & _ & Hok & Herr); [|done..]. split_and!.
  - intros Hx t Hin. by apply Hok.
  - intros Hx. destruct (Herr Hx) as [?|(t & Hin & Hn)]; [done|]. destruct (Hfull t Hin). congruence.
  - intros t D' Hin HD' Hne'. pose proof Hln as Hall. rewrite Forall_forall in Hall. destruct (Hall t Hin) as [Hg _].
    destruct (source_kept e Hbin D' HD' Hne' t live_names Hg Hln). by apply Ho.
Qed.

(** The history is not among the binaries. *)
Lemma live_not_history t : t ∈ live_names -> live e t <> history_path e.
Proof.
  intros Hin Heq. pose proof live_names_ok as Hall. rewrite Forall_forall in Hall. destruct (Hall t Hin) as [Hg _].
  destruct Hlay as [Hb Hs _ Ho _ _]. apply path_join_one_inj in Heq as [Heq _]; [|done..].
  apply (Ho []). by rewrite app_nil_r.
Qed.

Definition live_as (d d' : disk) (f : string -> string) : Prop :=
  forall t, t ∈ live_names -> d_files d' !! live e t = d_files d !! f t.

Lemma history_keeps_live h d x d' d0 f : on_disk (appendHistory e h) d x d' -> live_as d0 d f -> live_as d0 d' f.
Proof.
  intros [[_ Ho] _]%appendHistory_runs Hf t Hin. destruct (Ho (live e t)) as [-> _]; [by apply live_not_history|]. by apply Hf.
Qed.

Lemma rollback_failed_runs h err d out d' d0 f :
  on_disk (rollback_failed e h err) d out d' ->
  h_Status (fst out) = "rollback_failed" /\ (live_as d0 d f -> live_as d0 d' f) /\ d_faults d <= d_faults d'.
Proof.
  unfold rollback_failed. intros H. pose proof (runs_later _ _ _ _ H) as [Hl _].
  apply runs_bind in H as (now & d1 & ->%runs_now & H). cbv zeta in H.
  apply runs_bind in H as (x & d1 & Ha & [-> ->]). split_and!; [done| |done]. by eapply history_keeps_live.
Qed.

(** The binaries and the snapshot of [original] are there. *)
Definition complete_snapshot (d : disk) : Prop :=
  forall t, t ∈ live_names ->
    is_Some (d_files d !! live e t) /\ is_Some (d_files d !! path_join (h_BackupDir original) t).

Lemma snapshot_phase now d x d' :
  on_disk (snapshotLive e (safety_dir now)) d x d' -> complete_snapshot d ->
  d_faults d <= d_faults d' /\ live_as d d' (live e) /\
  (forall t, t ∈ live_names -> d_files d' !! path_join (h_BackupDir original) t = d_files d !! path_join (h_BackupDir original) t) /\
  (~ is_err x -> forall t, t ∈ live_names -> d_files d' !! path_join (safety_dir now) t = d_files d !! live e t).
Proof.
  intros H Hfull. apply snapshotLive_runs in H as ([Hl _] & Ho & Hok & _); [|by intros t Hin; apply Hfull].
  destruct (safety_comps now) as [Hsr _]. destruct (safety_apart now) as (Hsb & Hsk & _).
  pose proof live_names_ok as Hln. rewrite Forall_forall in Hln.
  assert (Hkeep : forall D t, t ∈ live_names -> rooted D = true -> clean_comps D <> clean_comps (safety_dir now) ->
    d_files d' !! path_join D t = d_files d !! path_join D t).
  { intros D t Hin HD Hc. apply Ho. intros (t' & Heq & Hin')%list_elem_of_fmap.
    apply path_join_one_inj in Heq as [? _]; try done; by apply Hln. }
  split_and!; [done| |by intros t Hin; apply Hkeep; [..|apply Hlay|]|done].
  intros t Hin. by apply (Hkeep _ t Hin (rb_bin Hlay)).
Qed.

(** The restored version is not healthy: back to the safety snapshot. *)
Lemma recover_runs now err r h d d2 out d' :
  on_disk (let! restoreErr := restore e (safety_dir now) in
           let! restartErr := Restart (Timeout (healthTimeout e)) in
           let! healthErr := Healthy r (Timeout (healthTimeout e)) in
           let combined := Joined (omap id [Some err; err_of restoreErr; err_of restartErr; err_of healthErr]) in
           let! now := call Now in
           let h := complete h "rollback_failed" (h_Automatic h) (error_text combined) now in
           ignore! appendHistory e h in
           Ret (h, Some (Wrap "update: rollback health gate failed; current version restored" combined))) d2 out d' ->
  (forall t, t ∈ live_names -> is_Some (d_files d !! live e t) /\
     d_files d2 !! path_join (safety_dir now) t = d_files d !! live e t) ->
  h_Status (fst out) = "rollback_failed" /\ (d_faults d' = d_faults d2 -> live_as d d' (live e)).
Proof.
  intros (again & d3 & Hres & H)%runs_bind Hsafe. pose proof (runs_later _ _ _ _ Hres) as [Hl3 _].
  destruct (safety_comps now) as [Hsr _]. destruct (safety_apart now) as (Hsb & _).
  eapply restore_from in Hres as (Hok3 & Herr3 & _); [|done|done|].
  2:{ intros t Hin. destruct (Hsafe t Hin) as [? ->]. done. }
  apply runs_bind in H as (rs & d4 & Hx & H). apply idle_runs in Hx as ->; [|apply Restart_idle].
  apply runs_bind in H as (hs & d4 & Hx & H). apply idle_runs in Hx as ->; [|apply Healthy_idle].
  cbv zeta in H. apply runs_bind in H as (now' & d4 & ->%runs_now & H). cbv zeta in H.
  apply runs_bind in H as (z & d4 & Ha & [-> ->]). split; [done|]. intros Hf.
  pose proof (runs_later _ _ _ _ Ha) as [Hl4 _]. destruct again as [u4|err4]; [|specialize (Herr3 I); lia].
  eapply history_keeps_live; [done|]. intros t Hin. rewrite Hok3; [|by intros []|done]. by apply Hsafe.
Qed.
End rollback.

Section rollback_theorem.
Context `{HUnicode : Unicode} `{HUrl : UrlParser} `{HDigest : Digest} `{HText : ManifestText} `{HPlatform : Platform}.

(** A manual rollback with a complete snapshot ends as done or as failed.  When it is
    done every live binary is the one in the snapshot.  When it failed and no call did,
    because the restored version is not healthy, every live binary is the one from
    before the rollback. *)
Theorem rollback_restores (e : Engine) original d out d' :
  rollback_layout e original -> complete_snapshot e original d ->
  on_disk (rollback_entry e original) d out d' ->
  (h_Status (fst out) = "manual_rollback" /\ live_as e d d' (path_join (h_BackupDir original))) \/
  (h_Status (fst out) = "rollback_failed" /\ (d_faults d' = d_faults d -> live_as e d d' (live e))).
Proof.
  intros Hlay Hfull H. unfold rollback_entry in H.
  destruct (String.eqb_spec (h_BackupDir original) "") as [Hb|_]; [pose proof (rb_back _ _ Hlay); by rewrite Hb in *|].
  apply runs_bind in H as (now & d0 & ->%runs_now & H). cbv zeta in H. cbn [h_ID] in H.
  fold (safety_dir e now) in H. destruct (safety_comps e original Hlay now) as [Hsr _].
  destruct (safety_apart e original Hlay now) as (Hsb & Hsk & Hss). destruct (rb_apart _ _ Hlay) as [Hbb _].
  apply runs_bind in H as (snapped & d1 & Hsnap & H).
  apply (snapshot_phase e original Hlay) in Hsnap as (Hl1 & Hlive1 & Hback1 & Hok1); [|done].
  destruct snapped as [u|err].
  2:{ right. apply (rollback_failed_runs e original Hlay _ _ _ _ _ d (live e)) in H as (Hs & Hf & _).
      split; [done|]. intros _. by apply Hf. }
  specialize (Hok1 ltac:(by intros [])).
  apply runs_bind in H as (restored & d2 & Hres & H). pose proof (runs_later _ _ _ _ Hres) as [Hl2 _].
  apply (restore_from e original Hlay) in Hres as (Hok2 & Herr2 & Hkeep2); [|by apply Hlay|by apply not_eq_sym|].
  2:{ intros t Hin. rewrite Hback1 by done. by apply Hfull. }
  destruct restored as [u2|err].
  2:{ right. apply (rollback_failed_runs e original Hlay _ _ _ _ _ d (live e)) in H as (Hs & _ & Hl).
      split; [done|]. intros Hft. specialize (Herr2 I). lia. }
  specialize (Hok2 ltac:(by intros [])).
  destruct (runtime e) as [r|]; [|by destruct H as (? & ? & [] & _)].
  apply runs_bind in H as (healthy & d3 & Hr & H). apply idle_runs in Hr as ->; [|apply restart_healthy_idle].
  destruct healthy as [u3|err].
  - left. apply runs_bind in H as (now' & d3 & ->%runs_now & H). cbv zeta in H.
    apply runs_bind in H as (z & d3 & Ha & [-> ->]). split; [done|]. eapply history_keeps_live; [done|done|].
    intros t Hin. rewrite Hok2 by done. by apply Hback1.
  - right. pose proof (runs_later _ _ _ _ H) as [Hl3 _].
    apply (recover_runs e original Hlay _ _ _ _ d) in H as [Hs Hf].
    + split; [done|]. intros Hft. apply Hf. lia.
    + intros t Hin. split; [by apply Hfull|]. rewrite Hkeep2 by done. by apply Hok1.
Qed.
End rollback_theorem.

(** ** Concrete runs *)

#[local] Existing Instance unicode_ascii.
#[local] Existing Instance some_text.

Definition done_entry : HistoryEntry := complete an_entry "succeeded" false ("an error" ++ String newline "with two lines \ and a tab")
  {| t_year := 2026; t_month := 2; t_day := 1; t_hour := 9; t_min := 30; t_sec := 0; t_nsec := 7; t_off := 0 |}.

Lemma done_entry_valid : valid_entry done_entry.
Proof.
  split; [|split; apply (bool_decide_unpack _); vm_compute; exact I].
  repeat (constructor; [vm_compute; reflexivity|]). constructor.
Qed.

Lemma a_history_run :
  exists x d', on_disk (try! _ := append_all an_engine [done_entry; done_entry] in History an_engine) a_disk x d' /\ d_faults d' = 0.
Proof.
  destruct (drive_checked None true (try! _ := append_all an_engine [done_entry; done_entry] in History an_engine) a_disk
    (fun _ d' => (d_faults d' =? 0)%nat)) as (x & d' & Hr & HP); [vm_compute; reflexivity|].
  exists x, d'. split; [done|by apply Nat.eqb_eq].
Qed.

Lemma history_round_trip_witness :
  exists d', on_disk (try! _ := append_all an_engine [done_entry; done_entry] in History an_engine) a_disk
    (Ok [done_entry; done_entry]) d'.
Proof.
  destruct a_history_run as (x & d' & Hr & Hf). exists d'.
  rewrite <- (history_round_trip an_engine [done_entry; done_entry] a_disk x d'); [exact Hr|vm_compute; reflexivity| |exact Hr|exact Hf].
  repeat (apply Forall_cons; split; [apply done_entry_valid|]). apply Forall_nil. exact I.
Defined.

(** A snapshot of another version. *)
Definition b_disk : disk := {| d_files := list_to_map [
    ("/usr/bin/opendeploy-core", "new core"); ("/usr/bin/opendeploy-agent", "new agent"); ("/usr/bin/opendeploy", "new cli");
    ("/var/lib/opendeploy/updates/backups/t1/opendeploy-core", "old core");
    ("/var/lib/opendeploy/updates/backups/t1/opendeploy-agent", "old agent");
    ("/var/lib/opendeploy/updates/backups/t1/opendeploy", "old cli")];
  d_faults := 0; d_torn := ∅ |}.

Lemma a_rollback_layout : rollback_layout an_engine an_entry.
Proof.
  split; try (vm_compute; reflexivity).
  - intros l H. discriminate H.
  - split; apply (bool_decide_unpack _); vm_compute; exact I.
  - intros n H. discriminate H.
Qed.

Lemma b_disk_complete : complete_snapshot an_engine an_entry b_disk.
Proof.
  intros t Hin. unfold live_names in Hin. rewrite !elem_of_cons, elem_of_nil in Hin.
  destruct Hin as [->|[->|[->|[]]]]; (split; [by eexists; vm_compute|by eexists; vm_compute]).
Qed.

Lemma a_rollback_run (healthy : bool) :
  exists out d', on_disk (rollback_entry an_engine an_entry) b_disk out d' /\
    h_Status (fst out) = (if healthy then "manual_rollback" else "rollback_failed") /\ d_faults d' = 0.
Proof.
  destruct (drive_checked None healthy (rollback_entry an_engine an_entry) b_disk
    (fun out d' => String.eqb (h_Status (fst out)) (if healthy then "manual_rollback" else "rollback_failed")
       && (d_faults d' =? 0)%nat)) as (out & d' & Hr & HP); [destruct healthy; vm_compute; reflexivity|].
  exists out, d'. propify. split_and!; [done|by apply String.eqb_eq|by apply Nat.eqb_eq].
Qed.

Lemma rollback_restores_witness :
  (exists out d', on_disk (rollback_entry an_engine an_entry) b_disk out d' /\
    live_as an_engine b_disk d' (path_join (h_BackupDir an_entry))) /\
  (exists out d', on_disk (rollback_entry an_engine an_entry) b_disk out d' /\
    h_Status (fst out) = "rollback_failed" /\ live_as an_engine b_disk d' (live an_engine)).
Proof.
  split.
  - destruct (a_rollback_run true) as (out & d' & Hr & Hs & Hf). exists out, d'. split; [exact Hr|].
    destruct (rollback_restores an_engine an_entry b_disk out d' a_rollback_layout b_disk_complete Hr) as [[_ Hl]|[Hbad _]];
      [exact Hl|rewrite Hs in Hbad; discriminate Hbad].
  - destruct (a_rollback_run false) as (out & d' & Hr & Hs & Hf). exists out, d'. split; [exact Hr|]. split; [exact Hs|].
    destruct (rollback_restores an_engine an_entry b_disk out d' a_rollback_layout b_disk_complete Hr) as [[Hbad _]|[_ Hl]];
      [rewrite Hs in Hbad; discriminate Hbad|apply Hl; rewrite Hf; reflexivity].
Defined.

(** One failed call in a rollback can leave binaries of two versions: when the copy of
    the second binary breaks off, the rollback ends as failed and does not go back to
    the safety snapshot it made. *)
Theorem rollback_leaves_mix :
  exists out d', on_disk (rollback_entry an_engine an_entry) b_disk out d' /\ d_faults d' = 1 /\
    h_Status (fst out) = "rollback_failed" /\
    d_files d' !! live an_engine "opendeploy-core" = Some "old core" /\
    d_files d' !! live an_engine "opendeploy-agent" = Some "new agent".
Proof.
  destruct (drive_checked (Some 4) true (rollback_entry an_engine an_entry) b_disk (fun out d' =>
    (d_faults d' =? 1)%nat && String.eqb (h_Status (fst out)) "rollback_failed"
    && bool_decide (d_files d' !! live an_engine "opendeploy-core" = Some "old core")
    && bool_decide (d_files d' !! live an_engine "opendeploy-agent" = Some "new agent")))
    as (out & d' & Hr & HP); [vm_compute; reflexivity|]. exists out, d'. split; [done|].
  propify. split_and!; [by apply Nat.eqb_eq|by apply String.eqb_eq|done..].
Qed.

(** One append that broke off makes the history unreadable from then on, although later
    entries are appended: no transaction can be rolled back any more. *)
Theorem torn_history_blocks :
  exists x d', on_disk (let! _ := appendHistory an_engine done_entry in
                        try! _ := appendHistory an_engine done_entry in findHistory an_engine (h_ID done_entry)) a_disk x d' /\
    x = Err (Msg "update: corrupt history line 1").
Proof.
  destruct (drive_checked (Some 0) true (let! _ := appendHistory an_engine done_entry in
                        try! _ := appendHistory an_engine done_entry in findHistory an_engine (h_ID done_entry)) a_disk (fun x d' =>
    match x with Err (Msg s) => String.eqb s "update: corrupt history line 1" | _ => false end))
    as (x & d' & Hr & HP); [vm_compute; reflexivity|]. exists x, d'. split; [done|].
  destruct x as [|[]]; try done. by apply String.eqb_eq in HP as ->.
Qed.
