(* ===== verification/BackupTypes.v ===== *)
(** * System backups: data

    src/internal/backup/types.go: sources, configuration, the manifest of an archive and
    the operations of the history, with their JSON forms. *)

From S2P Require Import Prelude GoStrings GoStrconv GoPath GoRegexp GoTime GoJson GoStruct.
Local Open Scope string_scope.
Local Open Scope go_scope.

(** ** Configuration *)

(** source: internal/backup/types.go:11 (Schema) *)
Definition Schema : string := "opendeploy.backup/v1".

(** source: internal/backup/types.go:13-19 (Source) *)
Record Source := { so_ID : string; so_Path : string; so_Required : bool; so_Database : bool; so_File : bool }.

(** source: internal/backup/types.go:21-27 (Config) *)
Record Config := { BackupDir : string; StateDir : string; Sources : list Source; MaxEntries : Z; MaxBytes : Z }.

Definition tree (id path : string) : Source :=
  {| so_ID := id; so_Path := path; so_Required := false; so_Database := false; so_File := false |}.
Definition one_file (id path : string) : Source :=
  {| so_ID := id; so_Path := path; so_Required := false; so_Database := false; so_File := true |}.

(** source: internal/backup/types.go:34-62 (DefaultConfig) *)
Definition DefaultConfig : Config := {|
  BackupDir := "/var/lib/opendeploy/backups";
  StateDir := "/var/lib/opendeploy/backup-state";
  MaxEntries := 1000000;
  MaxBytes := 500 * 2 ^ 30;
  Sources := [
    {| so_ID := "panel"; so_Path := "/etc/opendeploy"; so_Required := true; so_Database := false; so_File := false |};
    {| so_ID := "database"; so_Path := "/var/lib/opendeploy/data.db"; so_Required := true; so_Database := true; so_File := false |};
    tree "sites" "/var/www"; tree "ssl" "/etc/letsencrypt"; tree "nginx" "/etc/nginx"; tree "fail2ban" "/etc/fail2ban";
    one_file "cron" "/etc/cron.d/opendeploy"; tree "cron-state" "/var/lib/opendeploy/cron"; tree "ufw" "/etc/ufw";
    one_file "nftables" "/etc/nftables.conf"; tree "apache" "/etc/apache2"; tree "php" "/etc/php";
    tree "mysql" "/etc/mysql"; tree "postgresql" "/etc/postgresql";
    one_file "systemd-core" "/etc/systemd/system/opendeploy-core.service";
    one_file "systemd-agent" "/etc/systemd/system/opendeploy-agent.service";
    one_file "systemd-update" "/etc/systemd/system/opendeploy-update.service";
    one_file "systemd-update-path" "/etc/systemd/system/opendeploy-update.path" ] |}.

(** source: internal/backup/types.go:111-125 (safeSourceID) *)
Definition safeSourceID (value : string) : bool :=
  negb (String.eqb value "")
  && forallb (fun r => negb (((r <? 97) || (122 <? r)) && ((r <? 48) || (57 <? r)) && negb (r =? 45) && negb (r =? 95)))%Z
       (runes value).

Inductive config_error := RelativeDirectory | InvalidSource (id : string) | LimitsNotPositive.

(** source: internal/backup/types.go:99-104 (validate, the loop) *)
Fixpoint validate_sources (seen : gset string) (l : list Source) : result config_error () :=
  match l with
  | [] => Ok ()
  | source :: l' =>
      if negb (safeSourceID (so_ID source)) || bool_decide (so_ID source ∈ seen) || negb (is_abs (so_Path source))
      then Err (InvalidSource (so_ID source))
      else validate_sources ({[so_ID source]} ∪ seen) l'
  end.

(** source: internal/backup/types.go:94-109 (validate) *)
Definition validate (c : Config) : result config_error () :=
  fail_if (negb (is_abs (BackupDir c)) || negb (is_abs (StateDir c))) RelativeDirectory ;?
  validate_sources ∅ (Sources c) ;?
  fail_if ((MaxEntries c <=? 0) || (MaxBytes c <=? 0))%Z LimitsNotPositive.

(** ** Manifests *)

(** source: internal/backup/types.go:75-81 (Entry) *)
Record Entry := mkEntry { e_SourceID : string; e_Path : string; e_SHA256 : string; e_Size : Z; e_Mode : Z }.

(** source: internal/backup/types.go:64-73 (Manifest) *)
Record Manifest := mkManifest {
  m_Schema : string; m_ID : string; m_CreatedAt : time; m_Reason : string; m_Host : string; m_OpenDeploy : string;
  m_Entries : list Entry; m_TotalBytes : Z }.

Definition zero_entry : Entry := mkEntry "" "" "" 0 0.
Definition zero_manifest : Manifest := mkManifest "" "" zero_time "" "" "" [] 0.

#[export] Instance entry_eq_dec : EqDecision Entry.
Proof. solve_decision. Defined.

(** source: internal/backup/types.go:75-81 (Entry, its JSON tags): what [json.Marshal] writes *)
Definition entry_members (e : Entry) : list (string * json) :=
  (str_member "source_id" (e_SourceID e) ++ str_member "path" (e_Path e) ++ str_member "sha256" (e_SHA256 e)
   ++ int_member "size" (e_Size e) ++ int_member "mode" (e_Mode e))%list.

(** source: internal/backup/types.go:64-73 (Manifest, its JSON tags): what [json.Marshal] writes *)
Definition manifest_members (m : Manifest) : list (string * json) :=
  (str_member "schema" (m_Schema m) ++ str_member "id" (m_ID m) ++ time_member "created_at" (m_CreatedAt m)
   ++ str_member "reason" (m_Reason m) ++ omit_string "host" (m_Host m) ++ omit_string "opendeploy_version" (m_OpenDeploy m)
   ++ arr_member "entries" ((fun e => JObj (entry_members e)) <$> m_Entries m) ++ int_member "total_bytes" (m_TotalBytes m))%list.

Definition entry_fields : fields_of Entry := [
  ("source_id", set_string (fun s '(mkEntry _ p h z m) => mkEntry s p h z m));
  ("path", set_string (fun s '(mkEntry i _ h z m) => mkEntry i s h z m));
  ("sha256", set_string (fun s '(mkEntry i p _ z m) => mkEntry i p s z m));
  ("size", set_int (- 2 ^ 63) int_max (fun z '(mkEntry i p h _ m) => mkEntry i p h z m));
  ("mode", set_int 0 (2 ^ 32 - 1) (fun z '(mkEntry i p h s _) => mkEntry i p h s z)) ].

Definition manifest_fields : fields_of Manifest := [
  ("schema", set_string (fun s '(mkManifest _ i t r h o es n) => mkManifest s i t r h o es n));
  ("id", set_string (fun s '(mkManifest c _ t r h o es n) => mkManifest c s t r h o es n));
  ("created_at", set_time (fun t '(mkManifest c i _ r h o es n) => mkManifest c i t r h o es n));
  ("reason", set_string (fun s '(mkManifest c i t _ h o es n) => mkManifest c i t s h o es n));
  ("host", set_string (fun s '(mkManifest c i t r _ o es n) => mkManifest c i t r s o es n));
  ("opendeploy_version", set_string (fun s '(mkManifest c i t r h _ es n) => mkManifest c i t r h s es n));
  ("entries", set_list zero_entry (decode_struct true entry_fields) m_Entries
     (fun l '(mkManifest c i t r h o _ n) => mkManifest c i t r h o l n));
  ("total_bytes", set_int (- 2 ^ 63) int_max (fun z '(mkManifest c i t r h o es _) => mkManifest c i t r h o es z)) ].

Definition marshal_manifest (m : Manifest) : option string :=
  if time_marshals (m_CreatedAt m) then Some (print_json (JObj (manifest_members m))) else None.

(** [json.NewDecoder(...).Decode] with [DisallowUnknownFields]. *)
Definition decode_manifest (data : string) : option Manifest := decode_first true manifest_fields zero_manifest data.

(** ** Operations *)

(** source: internal/backup/types.go:83-93 (Operation) *)
Record Operation := mkOperation {
  o_ID : string; o_Type : string; o_BackupID : string; o_Archive : string; o_Reason : string; o_Status : string;
  o_StartedAt : time; o_FinishedAt : time; o_Error : string }.

Definition zero_operation : Operation := mkOperation "" "" "" "" "" "" zero_time zero_time "".

(** source: internal/backup/types.go:83-93 (Operation, its JSON tags): what [json.Marshal] writes *)
Definition operation_members (o : Operation) : list (string * json) :=
  (str_member "id" (o_ID o) ++ str_member "type" (o_Type o) ++ str_member "backup_id" (o_BackupID o)
   ++ str_member "archive" (o_Archive o) ++ omit_string "reason" (o_Reason o) ++ str_member "status" (o_Status o)
   ++ time_member "started_at" (o_StartedAt o) ++ time_member "finished_at" (o_FinishedAt o)
   ++ omit_string "error" (o_Error o))%list.

(** source: internal/backup/types.go:83-93 (Operation, its JSON tags): what [json.Unmarshal] sets *)
Definition operation_fields : fields_of Operation := [
  ("id", set_string (fun s '(mkOperation _ t b a r st x y e) => mkOperation s t b a r st x y e));
  ("type", set_string (fun s '(mkOperation i _ b a r st x y e) => mkOperation i s b a r st x y e));
  ("backup_id", set_string (fun s '(mkOperation i t _ a r st x y e) => mkOperation i t s a r st x y e));
  ("archive", set_string (fun s '(mkOperation i t b _ r st x y e) => mkOperation i t b s r st x y e));
  ("reason", set_string (fun s '(mkOperation i t b a _ st x y e) => mkOperation i t b a s st x y e));
  ("status", set_string (fun s '(mkOperation i t b a r _ x y e) => mkOperation i t b a r s x y e));
  ("started_at", set_time (fun t '(mkOperation i ty b a r st _ y e) => mkOperation i ty b a r st t y e));
  ("finished_at", set_time (fun t '(mkOperation i ty b a r st x _ e) => mkOperation i ty b a r st x t e));
  ("error", set_string (fun s '(mkOperation i t b a r st x y _) => mkOperation i t b a r st x y s)) ].

Definition marshal_operation (o : Operation) : option string :=
  if time_marshals (o_StartedAt o) && time_marshals (o_FinishedAt o)
  then Some (print_json (JObj (operation_members o))) else None.

Definition unmarshal_operation (s : string) : option Operation := unmarshal operation_fields zero_operation s.

(** ** Round trips *)

Definition valid_operation (o : Operation) : Prop :=
  Forall (fun s => valid_utf8 s = true)
    [o_ID o; o_Type o; o_BackupID o; o_Archive o; o_Reason o; o_Status o; o_Error o]
  /\ valid_time (o_StartedAt o) /\ valid_time (o_FinishedAt o).

Lemma operation_members_wf o : wf_members (operation_members o).
Proof. unfold operation_members. repeat apply wf_members_app; auto with opendeploy. Qed.

Lemma operation_read_back o :
  valid_operation o -> exists data, marshal_operation o = Some data /\ unmarshal_operation data = Some o /\ object_line data.
Proof.
  intros [Hutf [Ht1 Ht2]]. repeat (apply Forall_cons in Hutf as [? Hutf]). unfold marshal_operation.
  rewrite !time_marshals_valid by done. eexists. split; [done|].
  split; [|apply print_obj_line, operation_members_wf].
  unfold unmarshal_operation. rewrite <- (str_app_nil_r (print_json _)).
  apply unmarshal_print; [apply operation_members_wf|done|]. unfold operation_members, zero_operation.
  do 8 (decode_step). erewrite decode_omit_string by first [reflexivity|done]. by destruct o.
Qed.

Definition valid_manifest (m : Manifest) : Prop :=
  Forall (fun s => valid_utf8 s = true) [m_Schema m; m_ID m; m_Reason m; m_Host m; m_OpenDeploy m]
  /\ valid_time (m_CreatedAt m) /\ is_int64 (m_TotalBytes m)
  /\ Forall (fun e => Forall (fun s => valid_utf8 s = true) [e_SourceID e; e_Path e; e_SHA256 e]
       /\ is_int64 (e_Size e) /\ (0 <= e_Mode e < 2 ^ 32)%Z) (m_Entries m).

Lemma entry_decodes e :
  Forall (fun s => valid_utf8 s = true) [e_SourceID e; e_Path e; e_SHA256 e] -> is_int64 (e_Size e) ->
  (0 <= e_Mode e < 2 ^ 32)%Z -> decode_struct true entry_fields (JObj (entry_members e)) zero_entry = Some e.
Proof.
  intros Hutf Hsize Hmode. repeat (apply Forall_cons in Hutf as [? Hutf]). cbn [decode_struct].
  unfold entry_members, zero_entry. do 3 decode_step. unfold is_int64, int_max in *.
  rewrite decode_members_app. erewrite decode_int_member; [|reflexivity|reflexivity|unfold int_max; lia|done].
  cbn [mbind option_bind]. erewrite decode_int_member; [|reflexivity|reflexivity|lia|unfold is_int64; lia]. by destruct e.
Qed.

Lemma manifest_members_wf m : wf_members (manifest_members m).
Proof.
  unfold manifest_members. repeat apply wf_members_app; auto with opendeploy. apply wf_arr_member; [done|].
  apply Forall_fmap, Forall_true. intros e. apply wf_obj. unfold entry_members.
  repeat apply wf_members_app; auto with opendeploy.
Qed.

(** A manifest is read back as it was written. *)
Lemma manifest_read_back m s :
  valid_manifest m -> delimited s ->
  exists data, marshal_manifest m = Some data /\ decode_manifest (data ++ s) = Some m.
Proof.
  intros (Hutf & Ht & Htot & Hent) Hs. repeat (apply Forall_cons in Hutf as [? Hutf]). unfold marshal_manifest.
  rewrite time_marshals_valid by done. eexists. split; [done|].
  apply decode_first_print; [apply manifest_members_wf|done|]. unfold manifest_members, zero_manifest.
  do 6 decode_step. rewrite decode_members_app. erewrite decode_arr_member; [|reflexivity..|].
  2:{ eapply Forall_impl; [exact Hent|]. intros e (? & ? & ?). by apply entry_decodes. }
  cbn [mbind option_bind]. unfold is_int64 in Htot.
  erewrite decode_int_member; [|reflexivity|reflexivity|unfold int_max; lia|done]. by destruct m.
Qed.
