(* ===== verification/Backup.v ===== *)
(** * System backups: the engine

    src/internal/backup: the creation of an archive (engine.go), its verification and
    restoration (restore.go) and the services around a restoration (runtime.go).
    Operations on the file system, the database, the archive streams and other programs
    are calls, in the order of the source; deferred calls run where the source returns. *)

From S2P Require Import Prelude GoStrings GoStrconv GoPath GoRegexp GoTime GoJson GoStruct Effects BackupTypes.
Local Open Scope string_scope.
Local Open Scope go_scope.

(** ** Errors *)

(** [Wrap s e] is [fmt.Errorf(s + ": %w", e)], [Joined] is [errors.Join].  [RolledBack] is
    the error of a restoration that was undone: what failed, and what failed in undoing
    it.  [OutOfFuel] is no error of the program: [extraction_terminates] shows that it
    never occurs. *)
Inductive bk_error :=
| Msg (s : string)
| Os (e : string)
| BadConfig (e : config_error)
| Wrap (s : string) (e : bk_error)
| Joined (l : list bk_error)
| RolledBack (what : string) (cause : bk_error) (undo recovery : option bk_error)
| OutOfFuel.

Definition config_text `{Unicode} (e : config_error) : string :=
  match e with
  | RelativeDirectory => "backup: backup and state directories must be absolute"
  | InvalidSource id => "backup: invalid or duplicate source " ++ quote id
  | LimitsNotPositive => "backup: extraction limits must be positive"
  end.

Fixpoint error_text `{Unicode} (e : bk_error) : string :=
  match e with
  | Msg s | Os s => s
  | BadConfig e => config_text e
  | Wrap s e => s ++ ": " ++ error_text e
  | Joined l => join (String newline "") (error_text <$> l)
  | RolledBack what cause undo recovery =>
      what ++ ": " ++ join (String newline "")
        (error_text cause :: (match undo with Some e => [error_text e] | None => [] end)
          ++ (match recovery with Some e => [error_text e] | None => [] end))%list
  | OutOfFuel => ""
  end.

(** [errors.Join] of two errors. *)
Definition join_err (a b : option bk_error) : option bk_error :=
  match omap id [a; b] with [] => None | l => Some (Joined l) end.

Definition err_of {A} (r : result bk_error A) : option bk_error :=
  match r with Ok _ => None | Err e => Some e end.

(** ** Calls *)

Inductive ctx := Caller | Detached.

Inductive stat_error := NotExist | StatFailed (e : string).

Inductive file_kind := Regular | Directory | Symlink | OtherKind.
Record file_info := { fi_kind : file_kind; fi_perm : Z }.

#[export] Instance file_kind_eq_dec : EqDecision file_kind.
Proof. solve_decision. Defined.

Definition stat_text (e : stat_error) : string :=
  match e with NotExist => "file does not exist" | StatFailed s => s end.

(** The next header of a tar stream, or its end. *)
Record tar_header := { th_Name : string; th_Regular : bool; th_Size : Z }.
Inductive tar_next := NextHeader (h : tar_header) | NextEOF | NextError (e : string).

(** [Walk p] are the files [filepath.Walk] visits below [p], with their state; [HashFile]
    reads a file into a hash, [CopyN] the body of a tar entry into a hash and, if given, a
    file: both answer the bytes they read.  [TarBody] are the bytes of an entry up to a
    limit, [DecoderState] what a decoder that failed had decoded, and its error. *)
Inductive bk_call : Set -> Set :=
| Now : bk_call time
| CtxDone : bk_call (option string)
| MkdirAll (path : string) (mode : Z) : bk_call (result string ())
| MkdirTemp (dir pattern : string) : bk_call (result string string)
| RemoveAll (path : string) : bk_call (result string ())
| CreateTemp (dir pattern : string) : bk_call (result string string)
| Remove (path : string) : bk_call (result string ())
| Rename (old new : string) : bk_call (result string ())
| Lstat (path : string) : bk_call (result stat_error file_info)
| Stat (path : string) : bk_call (result stat_error file_info)
| EvalSymlinks (path : string) : bk_call (result string string)
| Walk (path : string) : bk_call (list (string * result string file_info))
| OpenRead (path : string) : bk_call (result string ())
| OpenExcl (path : string) (mode : Z) : bk_call (result string ())
| OpenAppend (path : string) (mode : Z) : bk_call (result string ())
| WriteData (path data : string) : bk_call (result string ())
| SyncFile (path : string) : bk_call (result string ())
| ChmodFile (path : string) (mode : Z) : bk_call (result string ())
| CloseFile (path : string) : bk_call (result string ())
| ReadFile (path : string) : bk_call (result stat_error string)
| HashFile (path : string) : bk_call (string * option string)
| CopyAll (dst src : string) : bk_call (option string)
| WriteHeader (out name : string) (mode size : Z) : bk_call (result string ())
| WriteTar (out data : string) : bk_call (result string ())
| CopyToTar (out src : string) : bk_call (Z * option string)
| CloseTar (out : string) : bk_call (result string ())
| CloseGzip (out : string) : bk_call (result string ())
| CloseReader (path : string) : bk_call (result string ())
| OpenGzip (path : string) : bk_call (result string ())
| TarNext (path : string) : bk_call tar_next
| TarBody (path : string) (limit : Z) : bk_call string
| DecoderState (data : string) : bk_call (Manifest * string)
| CopyN (path : string) (target : option string) (size : Z) : bk_call (string * option string)
| SqlOpen (dsn : string) : bk_call (result string ())
| SqlExec (dsn query : string) : bk_call (result string ())
| SqlScan (dsn query : string) : bk_call (result string string)
| SqlClose (dsn : string) : bk_call (result string ())
| Command (c : ctx) (args : list string) : bk_call (string * option string).

Notation bk_prog A := (prog bk_call A).

Definition os {A} (p : bk_prog (result string A)) : bk_prog (result bk_error A) :=
  bind p (fun r => Ret (map_err Os r)).

(** A deferred call: it runs after the body, whose result it does not change. *)
Definition defer {A B} (p : bk_prog B) (body : bk_prog A) : bk_prog A :=
  let! a := body in ignore! p in Ret a.
Notation "'defer!' p 'in' k" := (defer p k) (at level 10, p at level 150, k at level 200) : go_scope.

Section backup.
Context `{HUnicode : Unicode} `{HDigest : Digest}.

(** ** Services *)

(** source: internal/backup/runtime.go:14-21 (BeforeRestore, the loop) *)
Fixpoint stop_units (c : ctx) (units : list string) : bk_prog (result bk_error ()) :=
  match units with
  | [] => Ret (Ok ())
  | unit :: rest =>
      let! (output, err) := call (Command c ["systemctl"; "stop"; unit]) in
      match err with
      | Some e => Ret (Err (Wrap ("stop " ++ unit ++ ": " ++ trim_space output) (Os e)))
      | None => stop_units c rest
      end
  end.

(** source: internal/backup/runtime.go:14-21 (BeforeRestore) *)
Definition BeforeRestore (c : ctx) : bk_prog (result bk_error ()) :=
  stop_units c ["opendeploy-core.service"; "opendeploy-agent.service"].

(** source: internal/backup/runtime.go:27-34 (AfterRestore, the loop) *)
Fixpoint restart_units (c : ctx) (units : list string) : bk_prog (result bk_error ()) :=
  match units with
  | [] => Ret (Ok ())
  | unit :: rest =>
      let! (output, err) := call (Command c ["systemctl"; "restart"; unit]) in
      match err with
      | Some e => Ret (Err (Wrap ("restart " ++ unit ++ ": " ++ trim_space output) (Os e)))
      | None =>
          let! (output, err) := call (Command c ["systemctl"; "is-active"; "--quiet"; unit]) in
          match err with
          | Some e => Ret (Err (Wrap ("health check " ++ unit ++ ": " ++ trim_space output) (Os e)))
          | None => restart_units c rest
          end
      end
  end.

(** source: internal/backup/runtime.go:23-36 (AfterRestore) *)
Definition AfterRestore (c : ctx) : bk_prog (result bk_error ()) :=
  let! (output, err) := call (Command c ["systemctl"; "daemon-reload"]) in
  match err with
  | Some e => Ret (Err (Wrap ("systemd daemon-reload: " ++ trim_space output) (Os e)))
  | None => restart_units c ["opendeploy-agent.service"; "opendeploy-core.service"]
  end.

(** ** The engine *)

(** source: internal/backup/engine.go:25-30 (Engine): [has_runtime] says whether the field
    [Runtime] is set *)
Record Engine := { config : Config; version : string; has_runtime : bool }.

(** source: internal/backup/engine.go:37-39 (NewEngine) *)
Definition NewEngine (cfg : Config) (v : string) : Engine := {| config := cfg; version := v; has_runtime := false |}.

(** source: internal/backup/engine.go:32-35 (collectedFile) *)
Record collectedFile := { cf_entry : Entry; cf_path : string }.

Variable e : Engine.

(** source: internal/backup/engine.go:309-319 (prepare) *)
Definition prepare : bk_prog (result bk_error ()) :=
  try! _ := Ret (map_err BadConfig (validate (config e))) in
  wrap! (fun err => Wrap "backup: create directory" (Os err)) of _ := call (MkdirAll (BackupDir (config e)) 448) in
  wrap! (fun err => Wrap "backup: create directory" (Os err)) of _ := call (MkdirAll (StateDir (config e)) 448) in
  Ret (Ok ()).

Definition history_path : string := path_join (StateDir (config e)) "history.jsonl".

(** source: internal/backup/engine.go:321-338 (appendHistory) *)
Definition appendHistory (operation : Operation) : bk_prog (result bk_error ()) :=
  try! _ := os (call (MkdirAll (StateDir (config e)) 448)) in
  match marshal_operation operation with
  | None => Ret (Err (Msg "json: error calling MarshalJSON for type time.Time"))
  | Some data =>
      try! _ := os (call (OpenAppend history_path 384)) in
      defer! call (CloseFile history_path) in
      try! _ := os (call (WriteData history_path (line_of data))) in
      os (call (SyncFile history_path))
  end.

(** source: internal/backup/engine.go:348-359 (History, once the file is read) *)
Definition parse_history (data : string) : result bk_error (list Operation) :=
  match read_jsonl (fun line => String.eqb line "") unmarshal_operation data with
  | Ok operations => Ok operations
  | Err line => Err (Msg ("backup: corrupt history line " ++ itoa (Z.of_nat line)))
  end.

(** source: internal/backup/engine.go:340-360 (History) *)
Definition History : bk_prog (result bk_error (list Operation)) :=
  let! data := call (ReadFile history_path) in
  match data with
  | Err NotExist => Ret (Ok [])
  | Err (StatFailed err) => Ret (Err (Os err))
  | Ok data => Ret (parse_history data)
  end.

(** source: internal/backup/engine.go:284-307 (snapshotSQLite) *)
Definition snapshotSQLite (source destination : string) : bk_prog (result bk_error ()) :=
  wrap! (fun err => Wrap "backup: database source" (Os (stat_text err))) of _ := call (Stat source) in
  let db := source ++ "?_busy_timeout=10000" in
  wrap! (fun err => Wrap "backup: open database" (Os err)) of _ := call (SqlOpen db) in
  defer! call (SqlClose db) in
  let escaped := str_concat_map (fun c => if Ascii.eqb c "'" then "''" else String c "") destination in
  wrap! (fun err => Wrap "backup: consistent database snapshot" (Os err)) of _ :=
    call (SqlExec db ("VACUUM INTO '" ++ escaped ++ "'")) in
  let check := destination ++ "?mode=ro" in
  try! _ := os (call (SqlOpen check)) in
  defer! call (SqlClose check) in
  let! r := call (SqlScan check "PRAGMA integrity_check") in
  match r with
  | Err err => Ret (Err (Wrap "backup: database integrity check failed: " (Os err)))
  | Ok answer =>
      if String.eqb answer "ok" then Ret (Ok ())
      else Ret (Err (Msg ("backup: database integrity check failed: " ++ answer ++ ": %!w(<nil>)")))
  end.

(** ** Collecting *)

(** source: internal/backup/engine.go:213-231 (collectOne) *)
Definition collectOne (sourceID relative path : string) (info : file_info) : bk_prog (result bk_error collectedFile) :=
  try! _ := os (call (OpenRead path)) in
  defer! call (CloseFile path) in
  let! (data, err) := call (HashFile path) in
  match err with
  | Some err => Ret (Err (Os err))
  | None =>
      Ret (Ok {| cf_entry := mkEntry sourceID relative (sha256_hex data) (len data) (Z.land (fi_perm info) 511);
                 cf_path := path |})
  end.

Definition rel_error (base target : string) : bk_error :=
  Msg ("Rel: can't make " ++ target ++ " relative to " ++ base).

(** source: internal/backup/engine.go:193-201 (collect, a file of the tree) *)
Definition collect_relative (sourceID path current actual : string) (info : file_info) :
    bk_prog (result bk_error (option collectedFile)) :=
  match rel path current with
  | None => Ret (Err (rel_error path current))
  | Some relative => try! file := collectOne sourceID relative actual info in Ret (Ok (Some file))
  end.

(** source: internal/backup/engine.go:153-202 (collect, the function given to Walk) *)
Definition walk_one (sourceID path current : string) (info : result string file_info) :
    bk_prog (result bk_error (option collectedFile)) :=
  match info with
  | Err walkErr => Ret (Err (Os walkErr))
  | Ok currentInfo =>
      if String.eqb current path then Ret (Ok None)
      else if bool_decide (fi_kind currentInfo = Symlink) then
        let! resolved := call (EvalSymlinks current) in
        match resolved with
        | Err _ => Ret (Ok None)
        | Ok resolved =>
            match rel path resolved with
            | None => Ret (Ok None)
            | Some relativeTarget =>
                if String.eqb relativeTarget ".." || has_prefix relativeTarget "../" then Ret (Ok None)
                else
                  let! targetInfo := call (Stat resolved) in
                  match targetInfo with
                  | Err err => Ret (Err (Os (stat_text err)))
                  | Ok targetInfo =>
                      if negb (bool_decide (fi_kind targetInfo = Regular)) then Ret (Ok None)
                      else collect_relative sourceID path current resolved targetInfo
                  end
            end
        end
      else if negb (bool_decide (fi_kind currentInfo = Regular)) then Ret (Ok None)
      else collect_relative sourceID path current current currentInfo
  end.

(** source: internal/backup/engine.go:153-205 (collect, the walk) *)
Fixpoint walk_files (sourceID path : string) (l : list (string * result string file_info)) :
    bk_prog (result bk_error (list collectedFile)) :=
  match l with
  | [] => Ret (Ok [])
  | (current, info) :: l' =>
      try! file := walk_one sourceID path current info in
      try! files := walk_files sourceID path l' in
      Ret (Ok (option_list file ++ files)%list)
  end.

(** source: internal/backup/engine.go:135-205 (collect, a source once its path is known) *)
Definition collect_path (source : Source) (path : string) : bk_prog (result bk_error (list collectedFile)) :=
  let! info := call (Lstat path) in
  match info with
  | Err NotExist =>
      if so_Required source then Ret (Err (Wrap ("backup: inspect " ++ so_ID source) (Os (stat_text NotExist))))
      else Ret (Ok [])
  | Err err => Ret (Err (Wrap ("backup: inspect " ++ so_ID source) (Os (stat_text err))))
  | Ok info =>
      if bool_decide (fi_kind info = Symlink)
      then Ret (Err (Msg ("backup: source " ++ so_ID source ++ " must not be a symlink")))
      else if negb (bool_decide (fi_kind info = Directory)) then
        try! file := collectOne (so_ID source) (base (so_Path source)) path info in Ret (Ok [file])
      else
        let! visited := call (Walk path) in
        wrap! (Wrap ("backup: collect " ++ so_ID source)) of files := walk_files (so_ID source) path visited in
        Ret (Ok files)
  end.

(** source: internal/backup/engine.go:119-205 (collect, one source) *)
Definition collect_source (stage : string) (source : Source) : bk_prog (result bk_error (list collectedFile)) :=
  let! cancelled := call CtxDone in
  match cancelled with
  | Some err => Ret (Err (Os err))
  | None =>
      if so_Database source then
        let snapshot := path_join stage (so_ID source ++ ".db") in
        let! r := snapshotSQLite (so_Path source) snapshot in
        match r with
        | Err err => if so_Required source then Ret (Err err) else Ret (Ok [])
        | Ok _ => collect_path source snapshot
        end
      else collect_path source (so_Path source)
  end.

(** source: internal/backup/engine.go:118-206 (collect, the loop) *)
Fixpoint collect_sources (stage : string) (l : list Source) : bk_prog (result bk_error (list collectedFile)) :=
  match l with
  | [] => Ret (Ok [])
  | source :: l' =>
      try! files := collect_source stage source in
      try! rest := collect_sources stage l' in
      Ret (Ok (files ++ rest)%list)
  end.

Definition entry_key (en : Entry) : string := e_SourceID en ++ "/" ++ e_Path en.

(** source: internal/backup/engine.go:207-209 (collect, the comparison) *)
Definition key_le (a b : collectedFile) : bool := String.leb (entry_key (cf_entry a)) (entry_key (cf_entry b)).

(** source: internal/backup/engine.go:116-211 (collect) *)
Definition collect (stage : string) : bk_prog (result bk_error (list collectedFile)) :=
  try! files := collect_sources stage (Sources (config e)) in
  Ret (Ok (isort key_le files)).

(** ** Writing an archive *)

(** source: internal/backup/engine.go:23 (manifestName) *)
Definition manifestName : string := "manifest.json".

(** source: internal/backup/engine.go:257-263 (writeTarBytes) *)
Definition writeTarBytes (out name data : string) (mode : Z) : bk_prog (result bk_error ()) :=
  try! _ := os (call (WriteHeader out name mode (len data))) in
  os (call (WriteTar out data)).

(** source: internal/backup/engine.go:265-282 (writeTarFile) *)
Definition writeTarFile (out : string) (item : collectedFile) : bk_prog (result bk_error ()) :=
  try! _ := os (call (OpenRead (cf_path item))) in
  defer! call (CloseFile (cf_path item)) in
  let name := "data/" ++ e_SourceID (cf_entry item) ++ "/" ++ e_Path (cf_entry item) in
  try! _ := os (call (WriteHeader out name (e_Mode (cf_entry item)) (e_Size (cf_entry item)))) in
  let! (written, err) := call (CopyToTar out (cf_path item)) in
  match err with
  | Some err => Ret (Err (Wrap ("backup: archive " ++ name) (Joined [Os err; Msg "unexpected EOF"])))
  | None =>
      if (written =? e_Size (cf_entry item))%Z then Ret (Ok ())
      else Ret (Err (Wrap ("backup: archive " ++ name) (Joined [Msg "unexpected EOF"])))
  end.

(** source: internal/backup/engine.go:243-247 (writeArchive, the loop) *)
Fixpoint writeTarFiles (out : string) (files : list collectedFile) : bk_prog (result bk_error ()) :=
  match files with
  | [] => Ret (Ok ())
  | item :: files' => try! _ := writeTarFile out item in writeTarFiles out files'
  end.

(** source: internal/backup/engine.go:233-255 (writeArchive) *)
Definition writeArchive (out : string) (manifest : Manifest) (files : list collectedFile) : bk_prog (result bk_error ()) :=
  match marshal_manifest manifest with
  | None => Ret (Err (Msg "json: error calling MarshalJSON for type time.Time"))
  | Some data =>
      try! _ := writeTarBytes out manifestName data 384 in
      try! _ := writeTarFiles out files in
      wrap! (fun err => Wrap "backup: close tar" (Os err)) of _ := call (CloseTar out) in
      wrap! (fun err => Wrap "backup: close gzip" (Os err)) of _ := call (CloseGzip out) in
      Ret (Ok ())
  end.

(** ** Verifying an archive *)

(** source: internal/backup/restore.go:261-267 (safeRelative) *)
Definition safeRelative (path : string) : bool :=
  if String.eqb path "" || contains_byte path backslash || is_abs path then false
  else
    let c := clean path in
    String.eqb c path && negb (String.eqb c "..") && negb (has_prefix c "../").

(** What the first loop of [extractVerified] computes: [expected], [presentSources],
    [declaredBytes]. *)
Record declared := { d_expected : gmap string Entry; d_present : gset string; d_bytes : Z }.

(** source: internal/backup/restore.go:186-191 (extractVerified, the checks of an entry) *)
Definition bad_entry (d : declared) (entry : Entry) : bool :=
  bool_decide (is_Some (d_expected d !! entry_key entry)) || negb (safeSourceID (e_SourceID entry))
  || negb (safeRelative (e_Path entry)) || negb (len (e_SHA256 entry) =? 64)%Z
  || (e_Size entry <? 0)%Z || (to_int64 (MaxBytes (config e) - d_bytes d) <? e_Size entry)%Z || (511 <? e_Mode entry)%Z.

(** source: internal/backup/restore.go:185-195 (extractVerified, the loop over the manifest) *)
Fixpoint check_entries (d : declared) (l : list Entry) : result bk_error declared :=
  match l with
  | [] => Ok d
  | entry :: l' =>
      if bad_entry d entry then Err (Msg ("backup: invalid manifest entry " ++ quote (entry_key entry)))
      else check_entries {| d_expected := <[entry_key entry := entry]> (d_expected d);
                            d_present := {[e_SourceID entry]} ∪ d_present d;
                            d_bytes := add64 (d_bytes d) (e_Size entry) |} l'
  end.

(** source: internal/backup/restore.go:199-203 (extractVerified, the required sources) *)
Fixpoint check_required (present : gset string) (l : list Source) : result bk_error () :=
  match l with
  | [] => Ok ()
  | source :: l' =>
      if so_Required source && negb (bool_decide (so_ID source ∈ present))
      then Err (Msg ("backup: required source " ++ quote (so_ID source) ++ " is missing"))
      else check_required present l'
  end.

(** source: internal/backup/restore.go:178-203 (extractVerified, the checks of the manifest) *)
Definition check_manifest (manifest : Manifest) : result bk_error (gmap string Entry) :=
  fail_if (negb (String.eqb (m_Schema manifest) Schema) || String.eqb (m_ID manifest) "" || is_zero (m_CreatedAt manifest)
           || (MaxEntries (config e) <? Z.of_nat (length (m_Entries manifest)))%Z)
    (Msg "backup: unsupported or invalid manifest") ;?
  let? d := check_entries {| d_expected := ∅; d_present := ∅; d_bytes := 0 |} (m_Entries manifest) in
  fail_if (negb (d_bytes d =? m_TotalBytes manifest)%Z || (MaxBytes (config e) <? d_bytes d)%Z)
    (Msg "backup: declared size is invalid") ;?
  check_required (d_present d) (Sources (config e)) ;?
  Ok (d_expected d).

(** source: internal/backup/restore.go:227-238 (extractVerified, the file an entry is
    extracted to) *)
Definition out_of (destination key : string) : option string :=
  if String.eqb destination "" then None else Some (path_join destination key).

(** source: internal/backup/restore.go:226-251 (extractVerified, the body of an entry): the
    path of the extracted file *)
Definition extract_body (archivePath destination key : string) (entry : Entry) : bk_prog (result bk_error string) :=
  let output := out_of destination key in
  let target := default "" output in
  let! opened :=
    match output with
    | None => Ret (Ok ())
    | Some target =>
        try! _ := os (call (MkdirAll (dir target) 448)) in
        os (call (OpenExcl target 384))
    end in
  match opened with
  | Err err => Ret (Err err)
  | Ok _ =>
      let! (data, copyErr) := call (CopyN archivePath output (e_Size entry)) in
      let! closed := match output with None => Ret (Ok ()) | Some target => call (CloseFile target) end in
      let closeErr := match closed with Ok _ => None | Err err => Some (Os err) end in
      if bool_decide (copyErr = None) && bool_decide (closeErr = None) && (len data =? e_Size entry)%Z
         && String.eqb (sha256_hex data) (e_SHA256 entry)
      then Ret (Ok target)
      else Ret (Err (match join_err (Os <$> copyErr) closeErr with
                     | Some err => Wrap ("backup: integrity check failed for " ++ quote key) err
                     | None => Msg ("backup: integrity check failed for " ++ quote key ++ ": %!w(<nil>)")
                     end))
  end.

(** source: internal/backup/restore.go:205-258 (extractVerified, the loop over the archive):
    an entry that is accepted is taken out of [expected], so [n], the number of expected
    entries, bounds the loop *)
Fixpoint extract_entries (archivePath destination : string) (n : nat) (expected : gmap string Entry)
    (extracted : gmap string string) : bk_prog (result bk_error (gmap string string)) :=
  let! cancelled := call CtxDone in
  match cancelled with
  | Some err => Ret (Err (Os err))
  | None =>
      let! next := call (TarNext archivePath) in
      match next with
      | NextEOF =>
          if bool_decide (expected = ∅) then Ret (Ok extracted) else Ret (Err (Msg "backup: archive is incomplete"))
      | NextError err => Ret (Err (Wrap "backup: read archive" (Os err)))
      | NextHeader header =>
          if negb (th_Regular header) || negb (has_prefix (th_Name header) "data/")
          then Ret (Err (Msg ("backup: forbidden archive entry " ++ quote (th_Name header))))
          else
            let key := trim_prefix (th_Name header) "data/" in
            match expected !! key with
            | None => Ret (Err (Msg ("backup: unexpected entry " ++ quote key)))
            | Some entry =>
                if negb (th_Size header =? e_Size entry)%Z then Ret (Err (Msg ("backup: unexpected entry " ++ quote key)))
                else
                  try! target := extract_body archivePath destination key entry in
                  match n with
                  | 0 => Ret (Err OutOfFuel)
                  | S n' => extract_entries archivePath destination n' (delete key expected) (<[key := target]> extracted)
                  end
            end
      end
  end.

(** source: internal/backup/restore.go:168-177 (extractVerified, the manifest) *)
Definition read_manifest (archivePath : string) : bk_prog (Manifest * option bk_error) :=
  let! next := call (TarNext archivePath) in
  match next with
  | NextHeader header =>
      if negb (String.eqb (th_Name header) manifestName) || negb (th_Regular header) || (16 * 2 ^ 20 <? th_Size header)%Z
      then Ret (zero_manifest, Some (Msg "backup: manifest must be the first regular entry"))
      else
        let! data := call (TarBody archivePath (th_Size header)) in
        match decode_manifest data with
        | None =>
            let! (partial, err) := call (DecoderState data) in
            Ret (partial, Some (Wrap "backup: parse manifest" (Os err)))
        | Some manifest => Ret (manifest, None)
        end
  | _ => Ret (zero_manifest, Some (Msg "backup: manifest must be the first regular entry"))
  end.

(** source: internal/backup/restore.go:153-259 (extractVerified) *)
Definition extractVerified (archivePath destination : string) :
    bk_prog (Manifest * result bk_error (gmap string string)) :=
  match validate (config e) with
  | Err err => Ret (zero_manifest, Err (BadConfig err))
  | Ok _ =>
      let! opened := os (call (OpenRead archivePath)) in
      match opened with
      | Err err => Ret (zero_manifest, Err err)
      | Ok _ =>
          defer! call (CloseFile archivePath) in
          let! unzipped := call (OpenGzip archivePath) in
          match unzipped with
          | Err err => Ret (zero_manifest, Err (Wrap "backup: open gzip" (Os err)))
          | Ok _ =>
              defer! call (CloseReader archivePath) in
              let! (manifest, failed) := read_manifest archivePath in
              match failed with
              | Some err => Ret (manifest, Err err)
              | None =>
                  match check_manifest manifest with
                  | Err err => Ret (manifest, Err err)
                  | Ok expected =>
                      let! r := extract_entries archivePath destination (size expected) expected ∅ in
                      Ret (manifest, r)
                  end
              end
          end
      end
  end.

(** ** Creating a backup *)

(** source: internal/backup/engine.go:65-73 (Create, the operation that is recorded) *)
Definition finished (o : Operation) (now : time) (err : option bk_error) (archive backupID : string) : Operation :=
  mkOperation (o_ID o) (o_Type o) backupID archive (o_Reason o)
    (match err with Some _ => "failed" | None => "succeeded" end) (o_StartedAt o) now
    (match err with Some err => error_text err | None => "" end).

(** source: internal/backup/engine.go:95-113 (Create, once the temporary file is open) *)
Definition publish (tempPath archivePath : string) (manifest : Manifest) (files : list collectedFile) :
    bk_prog (result bk_error (Manifest * string)) :=
  let! written := writeArchive tempPath manifest files in
  match written with
  | Err err => ignore! call (CloseFile tempPath) in Ret (Err err)
  | Ok _ =>
      let! synced := call (SyncFile tempPath) in
      match synced with
      | Err err => ignore! call (CloseFile tempPath) in Ret (Err (Wrap "backup: sync archive" (Os err)))
      | Ok _ =>
          wrap! (fun err => Wrap "backup: close archive" (Os err)) of _ := call (CloseFile tempPath) in
          wrap! (fun err => Wrap "backup: publish archive" (Os err)) of _ := call (Rename tempPath archivePath) in
          let! (_, verified) := extractVerified archivePath "" in
          match verified with
          | Err err =>
              ignore! call (Remove archivePath) in
              Ret (Err (Wrap "backup: verify newly created archive" err))
          | Ok _ => Ret (Ok (manifest, archivePath))
          end
      end
  end.

(** source: internal/backup/engine.go:75-113 (Create, once the operation is recorded) *)
Definition create_archive (manifest : Manifest) : bk_prog (result bk_error (Manifest * string)) :=
  wrap! (fun err => Wrap "backup: create staging" (Os err)) of stage :=
    call (MkdirTemp (StateDir (config e)) "create-*") in
  defer! call (RemoveAll stage) in
  try! files := collect stage in
  let manifest := mkManifest (m_Schema manifest) (m_ID manifest) (m_CreatedAt manifest) (m_Reason manifest)
    (m_Host manifest) (m_OpenDeploy manifest) (cf_entry <$> files)
    (fold_left (fun n file => add64 n (e_Size (cf_entry file))) files 0%Z) in
  let archivePath := path_join (BackupDir (config e)) ("opendeploy-" ++ m_ID manifest ++ ".tar.gz") in
  wrap! (fun err => Wrap "backup: create archive" (Os err)) of tempPath :=
    call (CreateTemp (BackupDir (config e)) ".backup-*.tar.gz") in
  defer! call (Remove tempPath) in
  publish tempPath archivePath manifest files.

(** source: internal/backup/engine.go:49-114 (Create) *)
Definition Create (reason : string) : bk_prog (result bk_error (Manifest * string)) :=
  try! _ := prepare in
  let! now := call Now in
  let trimmed := trim_space reason in
  let manifest := mkManifest Schema (stamp now) now (if String.eqb trimmed "" then "manual" else trimmed) "" (version e) [] 0 in
  let operation := mkOperation ("create-" ++ m_ID manifest) "create" (m_ID manifest) "" (m_Reason manifest) "running" now
    zero_time "" in
  let! r := create_archive manifest in
  let! finishedAt := call Now in
  ignore! appendHistory (finished operation finishedAt (err_of r)
    (match r with Ok (_, archivePath) => archivePath | Err _ => "" end) (m_ID manifest)) in
  Ret r.

(** source: internal/backup/engine.go:42-45 (CreateBackup) *)
Definition CreateBackup (reason : string) : bk_prog (result bk_error string) :=
  let! r := Create reason in
  Ret (match r with Ok (_, archivePath) => Ok archivePath | Err err => Err err end).

(** source: internal/backup/restore.go:18-38 (Verify) *)
Definition Verify (archivePath : string) : bk_prog (Manifest * option bk_error) :=
  let! prepared := prepare in
  match prepared with
  | Err err => Ret (zero_manifest, Some err)
  | Ok _ =>
      let! started := call Now in
      let operation := mkOperation ("verify-" ++ stamp started) "verify" "" archivePath "" "running" started zero_time "" in
      let! (manifest, r) := extractVerified archivePath "" in
      let! finishedAt := call Now in
      ignore! appendHistory (finished operation finishedAt (err_of r) archivePath (m_ID manifest)) in
      Ret (manifest, err_of r)
  end.

(** ** Restoring *)

(** source: internal/backup/restore.go:284-299 (atomicCopy, once the temporary file is made) *)
Definition copy_and_rename (source tempPath destination : string) (mode : Z) : bk_prog (result bk_error ()) :=
  let! copyErr := call (CopyAll tempPath source) in
  match copyErr with
  | Some err => ignore! call (CloseFile tempPath) in Ret (Err (Os err))
  | None =>
      let! changed := call (ChmodFile tempPath (Z.land mode 511)) in
      match changed with
      | Err err => ignore! call (CloseFile tempPath) in Ret (Err (Os err))
      | Ok _ =>
          let! synced := call (SyncFile tempPath) in
          match synced with
          | Err err => ignore! call (CloseFile tempPath) in Ret (Err (Os err))
          | Ok _ =>
              try! _ := os (call (CloseFile tempPath)) in
              os (call (Rename tempPath destination))
          end
      end
  end.

(** source: internal/backup/restore.go:269-300 (atomicCopy) *)
Definition atomicCopy (source destination : string) (mode : Z) : bk_prog (result bk_error ()) :=
  try! _ := os (call (MkdirAll (dir destination) 488)) in
  try! _ := os (call (OpenRead source)) in
  defer! call (CloseFile source) in
  try! tempPath := os (call (CreateTemp (dir destination) ("." ++ base destination ++ ".restore-*"))) in
  defer! call (Remove tempPath) in
  copy_and_rename source tempPath destination mode.

(** source: internal/backup/restore.go:302-314 (removeRegular) *)
Definition removeRegular (path : string) : bk_prog (result bk_error ()) :=
  let! info := call (Lstat path) in
  match info with
  | Err NotExist => Ret (Ok ())
  | Err (StatFailed err) => Ret (Err (Os err))
  | Ok info =>
      if negb (bool_decide (fi_kind info = Regular))
      then Ret (Err (Msg ("backup: refusing to remove non-regular rollback target " ++ quote path)))
      else os (call (Remove path))
  end.

(** source: internal/backup/restore.go:88-93 (restoreTarget) *)
Record restoreTarget := { rt_path : string; rt_snapshot : string; rt_hadOriginal : bool; rt_mode : Z }.

(** source: internal/backup/restore.go:95-106 (Restore, the function rollback): [changed]
    has the last target first *)
Fixpoint rollback (changed : list restoreTarget) (rollbackErr : option bk_error) : bk_prog (option bk_error) :=
  match changed with
  | [] => Ret rollbackErr
  | item :: changed' =>
      let! r := if rt_hadOriginal item then atomicCopy (rt_snapshot item) (rt_path item) (rt_mode item)
                else removeRegular (rt_path item) in
      rollback changed' (join_err rollbackErr (err_of r))
  end.

(** source: internal/backup/restore.go:112-115 (Restore, the target of an entry) *)
Definition target_of (source : Source) (entry : Entry) : string :=
  if negb (so_Database source) && negb (so_File source) then path_join (so_Path source) (e_Path entry) else so_Path source.

(** source: internal/backup/restore.go:116-132 (Restore, the snapshot of a target): [n]
    targets were changed before *)
Definition snapshot_target (stage target : string) (n : nat) : bk_prog (result bk_error restoreTarget) :=
  let! info := call (Lstat target) in
  match info with
  | Err NotExist => Ret (Ok {| rt_path := target; rt_snapshot := ""; rt_hadOriginal := false; rt_mode := 0 |})
  | Err (StatFailed err) => Ret (Err (Os err))
  | Ok info =>
      let! info := if bool_decide (fi_kind info = Symlink) then call (Stat target) else Ret (Ok info) in
      match info with
      | Ok info =>
          if negb (bool_decide (fi_kind info = Regular))
          then Ret (Err (Msg ("backup: restore target " ++ quote target ++ " is not a regular file")))
          else
            let snapshot := path_join (path_join stage "rollback") (itoa (Z.of_nat n)) in
            wrap! (Wrap ("backup: snapshot current " ++ target)) of _ := atomicCopy target snapshot (fi_perm info) in
            Ret (Ok {| rt_path := target; rt_snapshot := snapshot; rt_hadOriginal := true; rt_mode := fi_perm info |})
      | Err _ => Ret (Err (Msg ("backup: restore target " ++ quote target ++ " is not a regular file")))
      end
  end.

(** source: internal/backup/restore.go:107-139 (Restore, the loop): the targets changed *)
Fixpoint restore_entries (stage : string) (sourceMap : gmap string Source) (extracted : gmap string string)
    (changed : list restoreTarget) (l : list Entry) : bk_prog (result bk_error (list restoreTarget)) :=
  match l with
  | [] => Ret (Ok changed)
  | entry :: l' =>
      match sourceMap !! e_SourceID entry with
      | None => Ret (Err (Msg ("backup: target mapping for source " ++ quote (e_SourceID entry) ++ " is missing")))
      | Some source =>
          try! item := snapshot_target stage (target_of source entry) (length changed) in
          let changed := item :: changed in
          let! copied := atomicCopy (default "" (extracted !! entry_key entry)) (rt_path item) (e_Mode entry) in
          match copied with
          | Err err =>
              let! rollbackErr := rollback changed None in
              Ret (Err (RolledBack ("backup: restore " ++ entry_key entry ++ "; transaction rolled back") err rollbackErr None))
          | Ok _ => restore_entries stage sourceMap extracted changed l'
          end
      end
  end.

(** source: internal/backup/restore.go:68-71 (Restore, the map of the sources) *)
Definition source_map (l : list Source) : gmap string Source :=
  fold_left (fun m source => <[so_ID source := source]> m) l ∅.

(** source: internal/backup/restore.go:72-76 (Restore, the check of the sources) *)
Fixpoint check_sources (sourceMap : gmap string Source) (l : list Entry) : result bk_error () :=
  match l with
  | [] => Ok ()
  | entry :: l' =>
      match sourceMap !! e_SourceID entry with
      | None => Err (Msg ("backup: target mapping for source " ++ quote (e_SourceID entry) ++ " is missing"))
      | Some _ => check_sources sourceMap l'
      end
  end.

(** source: internal/backup/restore.go:107-150 (Restore, the files and the health gate): the
    error, and whether the services still have to be restarted *)
Definition restore_files (stage : string) (extracted : gmap string string) (manifest : Manifest) :
    bk_prog (option bk_error * bool) :=
  let! r := restore_entries stage (source_map (Sources (config e))) extracted [] (m_Entries manifest) in
  match r with
  | Err err => Ret (Some err, has_runtime e)
  | Ok changed =>
      if has_runtime e then
        let! after := AfterRestore Caller in
        match after with
        | Err err =>
            let! rollbackErr := rollback changed None in
            let! recoveryErr := AfterRestore Detached in
            Ret (Some (RolledBack "backup: post-restore health gate failed; files rolled back" err rollbackErr
                         (err_of recoveryErr)), false)
        | Ok _ => Ret (None, false)
        end
      else Ret (None, false)
  end.

(** source: internal/backup/restore.go:64-150 (Restore, once the stage is made) *)
Definition restore_stage (archivePath stage : string) : bk_prog (Manifest * option bk_error) :=
  let! (manifest, r) := extractVerified archivePath stage in
  match r with
  | Err err => Ret (manifest, Some err)
  | Ok extracted =>
      match check_sources (source_map (Sources (config e))) (m_Entries manifest) with
      | Err err => Ret (manifest, Some err)
      | Ok _ =>
          let! prepared := if has_runtime e then BeforeRestore Caller else Ret (Ok ()) in
          match prepared with
          | Err err => Ret (manifest, Some (Wrap "backup: prepare services for restore" err))
          | Ok _ =>
              let! (err, runtimePrepared) := restore_files stage extracted manifest in
              match err, runtimePrepared with
              | Some err, true =>
                  let! after := AfterRestore Detached in
                  Ret (manifest, join_err (Some err) (err_of after))
              | _, _ => Ret (manifest, err)
              end
          end
      end
  end.

(** source: internal/backup/restore.go:40-151 (Restore) *)
Definition Restore (archivePath : string) : bk_prog (Manifest * option bk_error) :=
  let! prepared := prepare in
  match prepared with
  | Err err => Ret (zero_manifest, Some err)
  | Ok _ =>
      let! started := call Now in
      let operation := mkOperation ("restore-" ++ stamp started) "restore" "" archivePath "" "running" started zero_time "" in
      let! made := call (MkdirTemp (StateDir (config e)) "restore-*") in
      let! (manifest, err) :=
        match made with
        | Err err => Ret (zero_manifest, Some (Os err))
        | Ok stage => defer! call (RemoveAll stage) in restore_stage archivePath stage
        end in
      let! finishedAt := call Now in
      ignore! appendHistory (finished operation finishedAt err archivePath (m_ID manifest)) in
      Ret (manifest, err)
  end.
End backup.
