(* ===== verification/BackupVerify.v ===== *)
(** * What an archive that was verified is

    An archive accepted by [extractVerified] has a consistent manifest, every file it
    lists was read with its size and digest, extraction stays below the destination, and
    the loop over the archive ends. *)

From S2P Require Import Prelude GoStrings GoStrconv GoPath GoRegexp GoTime GoJson GoStruct Effects BackupTypes Backup.
Local Open Scope string_scope.
Local Open Scope go_scope.

(** ** Names *)

Lemma safeSourceID_good id : safeSourceID id = true -> good_comp id.
Proof.
  unfold safeSourceID. intros [Hne Hall]%andb_true_iff. apply negb_true_iff, String.eqb_neq in Hne.
  set (q := fun r : Z => (negb (((r <? 97) || (122 <? r)) && ((r <? 48) || (57 <? r)) && negb (r =? 45) && negb (r =? 95)))%Z) in *.
  assert (Hb : str_forall (fun c => q (byte_val c)) id = true).
  { rewrite <- runes_forall_ascii.
    - apply Forall_forall. intros r Hr%list_elem_of_In. rewrite forallb_forall in Hall. by apply Hall.
    - intros r Hr. unfold q in Hr. lia. }
  assert (Hno : forall c, q (byte_val c) = true -> Ascii.eqb slash c = false /\ c <> "."%char).
  { intros c Hc. split; [destruct (Ascii.eqb_spec slash c) as [<-|]; [done|done]|]. by intros ->. }
  split_and!; [done| | |].
  - intros ->. by apply (Hno "."%char).
  - intros ->. by apply (Hno "."%char).
  - unfold no_byte. eapply str_forall_mono; [|exact Hb]. intros c Hc. by destruct (Hno c Hc) as [-> _].
Qed.

Lemma safeRelative_inside p :
  safeRelative p = true -> p = "." \/ exists l, l <> [] /\ Forall good_comp l /\ p = join "/" l.
Proof.
  unfold safeRelative. destruct (_ || _) eqn:Hg; [done|]. intros H. propify.
  apply clean_relative_inside; [done|by apply String.eqb_eq| |].
  - apply String.eqb_eq in H as Hc. rewrite <- Hc. by apply String.eqb_neq.
  - apply String.eqb_eq in H as Hc. by rewrite <- Hc at 1.
Qed.

(** The components of a safe relative path. *)
Definition rel_comps (p : string) : list string := if String.eqb p "." then [] else split slash p.

Lemma rel_comps_good p : safeRelative p = true -> Forall good_comp (rel_comps p).
Proof.
  intros Hp. unfold rel_comps. destruct (String.eqb_spec p ".") as [|Hne]; [done|].
  destruct (safeRelative_inside p Hp) as [?|(l & Hl & Hg & ->)]; [done|].
  rewrite split_join; [done|done|]. by apply good_no_slash.
Qed.

Lemma rel_comps_inj p q : rel_comps p = rel_comps q -> p = q.
Proof.
  unfold rel_comps. intros H.
  destruct (String.eqb_spec p "."), (String.eqb_spec q "."); [congruence|..].
  - by pose proof (split_nonnil slash q).
  - by pose proof (split_nonnil slash p).
  - by rewrite <- (join_split slash p), H, join_split.
Qed.

Lemma path_join_relative d p : rooted d = true -> safeRelative p = true ->
  path_join d p = abs (clean_comps d ++ rel_comps p)%list.
Proof.
  intros Hd Hp. pose proof (rel_comps_good p Hp) as Hg. rewrite path_join_fold by done. f_equal. unfold rel_comps in *.
  destruct (String.eqb_spec p ".") as [->|].
  { change (fold_left (clean_step true) (split slash ".") ?st) with st. by rewrite rev_involutive, app_nil_r. }
  by rewrite clean_fold_id, rev_app_distr, !rev_involutive by done.
Qed.

(** The file an entry is extracted to. *)
Lemma path_join_key d id p : rooted d = true -> good_comp id -> safeRelative p = true ->
  path_join d (id ++ "/" ++ p) = abs (clean_comps d ++ id :: rel_comps p)%list.
Proof.
  intros Hd Hid Hp. pose proof (rel_comps_good p Hp) as Hg. rewrite path_join_fold by done. f_equal.
  change (id ++ "/" ++ p) with (id ++ String slash p). rewrite split_app, fold_left_app.
  rewrite (split_id slash id) by apply Hid. rewrite (clean_fold_id [id]) by by constructor.
  change (rev [id] ++ rev (clean_comps d))%list with (id :: rev (clean_comps d)).
  unfold rel_comps in *. destruct (String.eqb_spec p ".") as [->|].
  - change (fold_left (clean_step true) (split slash ".") ?st) with st. cbn [rev]. by rewrite rev_involutive.
  - rewrite clean_fold_id, rev_app_distr, rev_involutive by done. cbn [rev]. by rewrite rev_involutive, <- app_assoc.
Qed.

(** ** Consistent manifests *)

Definition good_entry (en : Entry) : Prop :=
  safeSourceID (e_SourceID en) = true /\ safeRelative (e_Path en) = true /\ len (e_SHA256 en) = 64%Z /\
  (0 <= e_Size en)%Z /\ (e_Mode en <= 511)%Z.

Definition total (l : list Entry) : Z := foldr (fun en n => (e_Size en + n)%Z) 0%Z l.

Section verify.
Context `{HUnicode : Unicode} `{HDigest : Digest}.
Variable e : Engine.

(** A field of type int64. *)
Hypothesis Hmax : is_int64 (MaxBytes (config e)).

Lemma check_entries_ok l d d' :
  check_entries e d l = Ok d' -> (0 <= d_bytes d <= MaxBytes (config e))%Z ->
  Forall good_entry l /\ d_bytes d' = (d_bytes d + total l)%Z /\ (d_bytes d' <= MaxBytes (config e))%Z /\
  NoDup (entry_key <$> l) /\ (forall en, en ∈ l -> d_expected d !! entry_key en = None) /\
  (forall k en, d_expected d' !! k = Some en <-> d_expected d !! k = Some en \/ (en ∈ l /\ entry_key en = k)) /\
  (forall id, id ∈ d_present d' <-> id ∈ d_present d \/ exists en, en ∈ l /\ e_SourceID en = id).
Proof.
  revert d. induction l as [|en l IH]; intros d H Hd; cbn [check_entries] in H.
  { injection H as <-. simpl. setoid_rewrite elem_of_nil. split_and!; try done; try lia; try constructor; naive_solver. }
  destruct (bad_entry e d en) eqn:Hbad; [done|]. unfold bad_entry in Hbad.
  rewrite !orb_false_iff, !negb_false_iff, bool_decide_eq_false in Hbad. destruct Hbad as ((((((Hnew & Hid) & Hp) & Hsha) & Hneg) & Hfit) & Hmode).
  unfold is_int64 in Hmax. rewrite to_int64_id in Hfit by (unfold is_int64; lia).
  assert (Hadd : add64 (d_bytes d) (e_Size en) = (d_bytes d + e_Size en)%Z) by (apply to_int64_id; unfold is_int64; lia).
  apply IH in H as (Hgood & Hb & Hle & Hnd & Hfresh & Hexp & Hpres); [|simpl; rewrite Hadd; lia].
  simpl in Hb, Hfresh, Hexp, Hpres. rewrite Hadd in Hb.
  assert (Hother : forall en', en' ∈ l -> entry_key en' <> entry_key en).
  { intros en' Hin Heq. specialize (Hfresh en' Hin). by rewrite Heq, lookup_insert_eq in Hfresh. }
  split_and!; [|simpl; lia|done| | | |].
  - constructor; [|done]. split_and!; try done; lia.
  - rewrite fmap_cons. constructor; [|done]. intros (en' & Heq & Hin)%list_elem_of_fmap. by apply (Hother en').
  - intros en' [->|Hin]%elem_of_cons; [by apply eq_None_not_Some|]. specialize (Hfresh en' Hin).
    rewrite lookup_insert_ne in Hfresh; [done|]. intros Heq. by apply (Hother en').
  - intros k en'. rewrite Hexp, elem_of_cons, lookup_insert_Some. split.
    + intros [[[<- ->]|[_ ?]]|[? ?]]; [right|left|right]; naive_solver.
    + intros [Hold|[[->|Hin] <-]]; [|by left; left|by right]. left. right. split; [|done].
      intros <-. apply Hnew. by rewrite Hold.
  - intros id. rewrite Hpres, elem_of_union, elem_of_singleton. setoid_rewrite elem_of_cons. naive_solver.
Qed.

(** What [check_manifest] accepts: sizes that add up, as integers, to the declared total
    within the limit; files that are listed once, with safe names; and every required
    source. *)
Record consistent (m : Manifest) : Prop := {
  c_schema : m_Schema m = Schema;
  c_id : m_ID m <> "";
  c_entries : Forall good_entry (m_Entries m);
  c_distinct : NoDup (entry_key <$> m_Entries m);
  c_total : m_TotalBytes m = total (m_Entries m);
  c_bounded : (0 <= m_TotalBytes m <= MaxBytes (config e))%Z;
  c_count : (Z.of_nat (length (m_Entries m)) <= MaxEntries (config e))%Z;
  c_required : forall s, s ∈ Sources (config e) -> so_Required s = true ->
    exists en, en ∈ m_Entries m /\ e_SourceID en = so_ID s }.

Lemma check_required_ok present l s :
  check_required present l = Ok () -> s ∈ l -> so_Required s = true -> so_ID s ∈ present.
Proof.
  induction l as [|s' l IH]; intros H Hin Hreq; [by apply elem_of_nil in Hin|]. cbn [check_required] in H.
  destruct (so_Required s' && _) eqn:Hb; [done|]. apply elem_of_cons in Hin as [<-|Hin]; [|by apply IH].
  rewrite Hreq in Hb. simpl in Hb. by apply negb_false_iff, bool_decide_eq_true in Hb.
Qed.

Lemma total_nonneg l : Forall good_entry l -> (0 <= total l)%Z.
Proof. induction 1 as [|en l (_ & _ & _ & ? & _) _ IH]; simpl; lia. Qed.

Lemma check_manifest_ok m expected :
  check_manifest e m = Ok expected -> (0 < MaxBytes (config e))%Z ->
  consistent m /\ forall k en, expected !! k = Some en <-> en ∈ m_Entries m /\ entry_key en = k.
Proof.
  unfold check_manifest. intros H Hpos. destruct (_ || _) eqn:Hhead; [done|]. cbn [fail_if bind_result] in H.
  rewrite !orb_false_iff, !negb_false_iff in Hhead. destruct Hhead as (((Hschema & Hid) & _) & Hcount).
  destruct (check_entries e _ (m_Entries m)) as [d|] eqn:Hc; [|done]. cbn [bind_result] in H.
  apply check_entries_ok in Hc as (Hgood & Hb & Hle & Hnd & _ & Hexp & Hpres); [|simpl; lia]. simpl in Hb, Hexp, Hpres.
  destruct (_ || _) eqn:Hsize; [done|]. cbn [fail_if bind_result] in H.
  rewrite !orb_false_iff, !negb_false_iff in Hsize. destruct Hsize as [Hsum _].
  destruct (check_required _ _) as [[]|] eqn:Hreq; [|done]. injection H as <-.
  apply Z.eqb_eq in Hsum. pose proof (total_nonneg _ Hgood). split.
  - split; [by apply String.eqb_eq|by apply String.eqb_neq|done|done|lia|lia|lia|].
    intros s Hs Hr. pose proof (check_required_ok _ _ _ Hreq Hs Hr) as Hin. apply Hpres in Hin as [?|?]; [set_solver|done].
  - intros k en. rewrite Hexp, lookup_empty. naive_solver.
Qed.

(** ** Extraction *)

(** The body of an entry was read with its size and digest. *)
Definition read_as (archivePath destination : string) (tr : list (action bk_call)) (en : Entry) : Prop :=
  exists data, Act (CopyN archivePath (out_of destination (entry_key en)) (e_Size en)) (data, None) ∈ tr /\
    len data = e_Size en /\ sha256_hex data = e_SHA256 en.

Lemma extract_body_exec a destination key en tr target :
  exec (extract_body a destination key en) tr (Ok target) ->
  (exists data, Act (CopyN a (out_of destination key) (e_Size en)) (data, None) ∈ tr /\
     len data = e_Size en /\ sha256_hex data = e_SHA256 en) /\ target = default "" (out_of destination key).
Proof.
  unfold extract_body. intros (t1 & t2 & opened & -> & _ & H)%exec_bind.
  destruct opened as [u|err]; [|by destruct H].
  apply exec_bind in H as (t3 & t4 & [data copyErr] & -> & ->%exec_call & H).
  apply exec_bind in H as (t5 & t6 & closed & -> & _ & H). cbv zeta in H.
  destruct (_ && _) eqn:Hok; [|by destruct H]. destruct H as [_ [= ->]]. propify.
  split; [|done]. exists data. simplify_eq.
  split_and!; [|by apply Z.eqb_eq|by apply String.eqb_eq]. rewrite !elem_of_app, list_elem_of_singleton. auto.
Qed.

(** Headers read. *)
Definition is_next (ac : action bk_call) : bool := match ac with Act (TarNext _) _ => true | _ => false end.
Definition reads (tr : list (action bk_call)) : nat := length (List.filter is_next tr).

Lemma reads_app t1 t2 : reads (t1 ++ t2) = reads t1 + reads t2.
Proof. unfold reads. by rewrite List.filter_app, length_app. Qed.

Lemma reads_none {A} (p : bk_prog A) tr a :
  always (fun X (c : bk_call X) => match c with TarNext _ => False | _ => True end) (fun _ => True) p -> exec p tr a -> reads tr = 0.
Proof.
  intros Hp Hx. eapply always_exec in Hx as [_ Hx]; [|exact Hp]. unfold reads. clear Hp.
  induction Hx as [|[X c x] tr Hc Htr IH]; [done|]. simpl. by destruct c.
Qed.

Lemma extract_body_reads a destination key en tr r :
  exec (extract_body a destination key en) tr r -> reads tr = 0 /\ r <> Err OutOfFuel.
Proof.
  intros Hx. split.
  - eapply reads_none; [|exact Hx]. unfold extract_body. fold (out_of destination key).
    destruct (out_of destination key); cbn; repeat (split; [done|]; intros ?; simpl);
      repeat (case_match || (split; [done|]; intros ?; simpl)); done.
  - unfold extract_body in Hx. apply exec_bind in Hx as (t1 & t2 & opened & -> & Ho & H).
    assert (Hopen : opened <> Err OutOfFuel).
    { destruct (out_of destination key); [|by destruct Ho as [_ ->]]. unfold bind_err, os in Ho.
      apply exec_bind in Ho as (? & ? & [] & _ & Hm & Ho); apply exec_bind in Hm as (? & ? & [] & _ & _ & [_ [= ]]); subst.
      - apply exec_bind in Ho as (? & ? & [] & _ & _ & [_ ->]); done.
      - by destruct Ho as [_ ->]. }
    destruct opened as [u|err]; [|destruct H as [_ ->]; congruence].
    apply exec_bind in H as (? & ? & [data copyErr] & -> & _ & H). apply exec_bind in H as (? & ? & closed & -> & _ & H).
    cbv zeta in H. destruct (_ && _); destruct H as [_ ->]; [done|]. by destruct (join_err _ _).
Qed.

(** The loop returns here. *)
Ltac stops H := destruct H as [-> ->]; split_and!; [change (reads []) with 0; lia|done|done].

(** One more turn of the loop: cancelled, at the end, refused, or an entry was taken. *)
Lemma extract_entries_exec a destination n expected extracted tr r :
  exec (extract_entries a destination n expected extracted) tr r ->
  reads tr <= S n /\ (size expected <= n -> r <> Err OutOfFuel) /\
  forall ex, r = Ok ex ->
    (forall k en, expected !! k = Some en -> k = entry_key en -> read_as a destination tr en) /\
    forall k, ex !! k = match expected !! k with Some _ => Some (default "" (out_of destination k)) | None => extracted !! k end.
Proof.
  revert expected extracted tr. induction n as [|n IH]; intros expected extracted tr; cbn [extract_entries].
  all: intros (t1 & t2 & cancelled & -> & ->%exec_call & H)%exec_bind.
  all: rewrite reads_app; change (reads [_]) with 0.
  all: destruct cancelled as [err|]; [stops H|].
  all: apply exec_bind in H as (t3 & t4 & next & -> & ->%exec_call & H); rewrite reads_app; change (reads [_]) with 1.
  all: destruct next as [header| |err]; [|destruct (bool_decide_reflect (expected = ∅)) as [->|]; destruct H as [-> ->];
    (split_and!; [change (reads []) with 0; lia|done|]); [intros ex [= <-]; split; [by intros ? ? ?%lookup_empty_Some|done]|done]
    |stops H].
  all: destruct (_ || _); [stops H|].
  all: cbv zeta in H; set (key := trim_prefix (th_Name header) "data/") in *.
  all: destruct (expected !! key) as [en|] eqn:Hkey; [|stops H].
  all: destruct (negb _); [stops H|].
  all: unfold bind_err in H; apply exec_bind in H as (t5 & t6 & body & -> & Hb & H); rewrite reads_app.
  all: assert (Hr5 : reads t5 = 0 /\ body <> Err OutOfFuel) by (by apply extract_body_reads in Hb).
  all: destruct Hr5 as [-> Hfuel]; destruct body as [target|err];
    [|destruct H as [-> ->]; split_and!; [change (reads []) with 0; lia|intros _ [= ->]; done|done]].
  - destruct H as [-> ->]. split_and!; [change (reads []) with 0; lia| |done].
    intros Hs. apply Nat.le_0_r, map_size_empty_inv in Hs. subst. by rewrite lookup_empty in Hkey.
  - apply extract_body_exec in Hb as [Hread ->]. apply IH in H as (Hreads & Hnf & Hok). split_and!.
    + lia.
    + intros Hs. apply Hnf. rewrite map_size_delete, Hkey. simpl. lia.
    + intros ex Hex. destruct (Hok ex Hex) as [Hall Hmap]. split.
      * intros k en' Hk Heq. destruct (decide (k = key)) as [->|Hne].
        -- assert (en' = en) as -> by congruence. destruct Hread as (data & Hin & ?). rewrite Heq in Hin.
           exists data. split; [|done]. rewrite !elem_of_app. eauto.
        -- assert (Hd : delete key expected !! k = Some en') by by rewrite lookup_delete_ne.
           destruct (Hall k en' Hd Heq) as (data & Hin & ?). exists data. split; [|done]. rewrite !elem_of_app. eauto.
      * intros k. rewrite Hmap. destruct (decide (k = key)) as [->|Hne].
        -- by rewrite lookup_delete_eq, lookup_insert_eq, Hkey.
        -- by rewrite lookup_delete_ne, lookup_insert_ne by done.
Qed.

Lemma check_entries_size l d d' :
  check_entries e d l = Ok d' -> size (d_expected d') <= size (d_expected d) + length l.
Proof.
  revert d. induction l as [|en l IH]; intros d H; cbn [check_entries] in H; [injection H as <-; simpl; lia|].
  destruct (bad_entry e d en); [done|]. apply IH in H. simpl in *. rewrite map_size_insert in H.
  destruct (d_expected d !! entry_key en); simpl in H; lia.
Qed.

Lemma check_manifest_fuel m : check_manifest e m <> Err OutOfFuel.
Proof.
  unfold check_manifest. destruct (_ || _); [done|]. cbn [fail_if bind_result].
  assert (Hc : forall l d, check_entries e d l <> Err OutOfFuel).
  { intros l. induction l as [|en l IH]; intros d; cbn [check_entries]; [done|]. by destruct (bad_entry e d en). }
  specialize (Hc (m_Entries m) {| d_expected := ∅; d_present := ∅; d_bytes := 0 |}).
  destruct (check_entries e _ _) as [d|err]; cbn [bind_result]; [|congruence].
  destruct (_ || _); [done|]. cbn [fail_if bind_result].
  assert (Hr : forall l, check_required (d_present d) l <> Err OutOfFuel).
  { intros l. induction l as [|s l IH]; cbn [check_required]; [done|]. by destruct (_ && _). }
  specialize (Hr (Sources (config e))). destruct (check_required _ _) as [|err]; cbn [bind_result]; congruence.
Qed.

Lemma read_manifest_exec a tr m failed :
  exec (read_manifest a) tr (m, failed) -> reads tr <= 1 /\ failed <> Some OutOfFuel.
Proof.
  unfold read_manifest. intros (t1 & t2 & next & -> & ->%exec_call & H)%exec_bind. rewrite reads_app.
  change (reads [_]) with 1. destruct next as [header| |err]; [|by destruct H as [-> [= -> ->]]..].
  destruct (_ || _); [by destruct H as [-> [= -> ->]]|].
  apply exec_bind in H as (t3 & t4 & data & -> & ->%exec_call & H). rewrite reads_app. change (reads [_]) with 0.
  destruct (decode_manifest data); [by destruct H as [-> [= -> ->]]|].
  by apply exec_bind in H as (t5 & t6 & [partial err] & -> & ->%exec_call & [-> [= -> ->]]).
Qed.

(** The run stops before the entries, or it is the loop over them. *)
Definition stopped_early (tr : list (action bk_call)) (r : result bk_error (gmap string string)) : Prop :=
  is_ok r = false /\ r <> Err OutOfFuel /\ reads tr <= 1.

Definition reached_entries (a destination : string) (tr : list (action bk_call)) (m : Manifest)
    (r : result bk_error (gmap string string)) : Prop :=
  exists expected t1 t2 t3, tr = (t1 ++ t2 ++ t3)%list /\ check_manifest e m = Ok expected /\
    exec (extract_entries a destination (size expected) expected ∅) t2 r /\ reads t1 <= 1 /\ reads t3 = 0.

Lemma extractVerified_exec a destination tr m r :
  exec (extractVerified e a destination) tr (m, r) ->
  stopped_early tr r \/ (validate (config e) = Ok () /\ reached_entries a destination tr m r).
Proof.
  unfold extractVerified, stopped_early. destruct (validate (config e)) as [[]|err] eqn:Hv.
  2:{ intros [-> [= -> ->]]. left. split_and!; [done|done|]. unfold reads. simpl. lia. }
  intros (t1 & t2 & opened & -> & Ho & H)%exec_bind. unfold os in Ho.
  apply exec_bind in Ho as (t1' & t1'' & y & -> & ->%exec_call & [-> ->]). rewrite app_nil_r.
  destruct y as [u|err]; [|left; destruct H as [-> [= -> ->]]; split_and!; [done|done|unfold reads; simpl; lia]].
  cbn [map_err] in H. apply exec_bind in H as (t3 & t4 & [m1 r1] & -> & H & Hend).
  apply exec_bind in Hend as (t5 & t6 & cl & -> & ->%exec_call & [-> [= -> ->]]).
  apply exec_bind in H as (t7 & t8 & unzipped & -> & ->%exec_call & H).
  destruct unzipped as [u2|err]; [|left; destruct H as [-> [= -> ->]]; split_and!; [done|done|unfold reads; simpl; lia]].
  apply exec_bind in H as (t9 & t10 & [m2 r2] & -> & H & Hend).
  apply exec_bind in Hend as (t11 & t12 & cl2 & -> & ->%exec_call & [-> [= -> ->]]).
  apply exec_bind in H as (t13 & t14 & [m3 failed] & -> & [Hr13 Hnf]%read_manifest_exec & H).
  rewrite !reads_app. change (reads [_]) with 0.
  destruct failed as [err|].
  { left. destruct H as [-> [= -> ->]]. change (reads []) with 0. split_and!; [done|congruence|lia]. }
  destruct (check_manifest e m3) as [expected|err] eqn:Hc.
  2:{ left. destruct H as [-> [= -> ->]]. change (reads []) with 0. split_and!; [done| |lia].
      intros [= ->]. by apply (check_manifest_fuel m3). }
  right. split; [done|]. apply exec_bind in H as (t15 & t16 & r3 & -> & H & [-> [= -> ->]]).
  exists expected, ([Act (OpenRead a) (Ok u)] ++ [Act (OpenGzip a) (Ok u2)] ++ t13)%list, t15,
    ([Act (CloseReader a) cl2] ++ [Act (CloseFile a) cl])%list.
  split_and!; [by rewrite !app_nil_r, <- !app_assoc|done|done| |done]. rewrite !reads_app. change (reads [_]) with 0. lia.
Qed.
End verify.

Lemma validate_positive c u : validate c = Ok u -> (0 < MaxBytes c)%Z.
Proof.
  unfold validate. intros Hv. destruct (_ || _); [done|]. cbn [fail_if bind_result] in Hv.
  destruct (validate_sources _ _); [|done]. cbn [bind_result] in Hv. destruct (_ || _) eqn:Hlim; [done|]. lia.
Qed.

Section theorems.
Context `{HUnicode : Unicode} `{HDigest : Digest}.

Lemma accepted_facts (e : Engine) archivePath destination tr m extracted :
  is_int64 (MaxBytes (config e)) ->
  exec (extractVerified e archivePath destination) tr (m, Ok extracted) ->
  consistent e m /\
  forall en, en ∈ m_Entries m -> read_as archivePath destination tr en /\
    extracted !! entry_key en = Some (default "" (out_of destination (entry_key en))).
Proof.
  intros Hmax [[Hbad _]|[Hv (expected & t1 & t2 & t3 & -> & Hc & Hx & _)]]%extractVerified_exec; [done|].
  apply (check_manifest_ok e Hmax) in Hc as [Hcons Hexp]; [|by eapply validate_positive]. split; [done|]. intros en Hin.
  assert (Hk : expected !! entry_key en = Some en) by (by apply Hexp).
  apply extract_entries_exec in Hx as (_ & _ & Hok). destruct (Hok extracted eq_refl) as [Hall Hmap]. split.
  - destruct (Hall _ en Hk eq_refl) as (data & Hd & ?). exists data. split; [|done]. rewrite !elem_of_app. eauto.
  - by rewrite Hmap, Hk.
Qed.

(** C21. An archive that was verified is what its manifest says: the manifest is
    consistent (sizes that add up to the declared total without overflow and within the
    limit, files listed once under safe names, every required source present), and every
    file it lists was read from the archive with its size and its SHA-256 digest and
    extracted to its place below the destination. *)
Theorem archive_accepted (e : Engine) archivePath destination tr m extracted :
  is_int64 (MaxBytes (config e)) ->
  exec (extractVerified e archivePath destination) tr (m, Ok extracted) ->
  consistent e m /\
  forall en, en ∈ m_Entries m -> read_as archivePath destination tr en /\
    extracted !! entry_key en = Some (default "" (out_of destination (entry_key en))).
Proof. apply accepted_facts. Qed.

(** The calls of an extraction: everything it creates is below the destination. *)
Definition stays_below (destination : string) X (c : bk_call X) : Prop :=
  match c with
  | OpenExcl p _ | CopyN _ (Some p) _ => below destination p
  | MkdirAll p _ => at_or_below destination p
  | CtxDone | OpenRead _ | CloseFile _ | OpenGzip _ | CloseReader _ | TarNext _ | TarBody _ _ | DecoderState _ | CopyN _ None _ => True
  | _ => False
  end.

Lemma key_below destination en : rooted destination = true -> good_entry en ->
  below destination (path_join destination (entry_key en)).
Proof.
  intros Hd (Hid & Hp & _). apply safeSourceID_good in Hid.
  apply (below_abs destination (e_SourceID en :: rel_comps (e_Path en))); [done| |done|by apply path_join_key].
  constructor; [done|]. by apply rel_comps_good.
Qed.

Lemma extract_body_below a destination en : rooted destination = true -> good_entry en ->
  always (stays_below destination) (fun _ => True) (extract_body a destination (entry_key en) en).
Proof.
  intros Hd Hg. pose proof (key_below destination en Hd Hg) as Hb. unfold extract_body.
  assert (Ho : out_of destination (entry_key en) = Some (path_join destination (entry_key en))).
  { unfold out_of. destruct (String.eqb_spec destination ""); [by subst|done]. }
  rewrite Ho. cbv zeta.
  apply always_bind with (Q := fun _ => True).
  - unfold bind_err. apply always_bind with (Q := fun _ => True).
    + split; [|done]. by apply below_dir.
    + intros [|] _; [|done]. by split.
  - intros [|err] _; [|done]. split; [done|]. intros [data copyErr]. cbn [bind call]. split; [done|]. intros closed.
    cbn [bind call]. by destruct (_ && _).
Qed.

Lemma extract_entries_below a destination n expected extracted : rooted destination = true ->
  (forall k en, expected !! k = Some en -> k = entry_key en /\ good_entry en) ->
  always (stays_below destination) (fun _ => True) (extract_entries a destination n expected extracted).
Proof.
  intros Hd. revert expected extracted. induction n as [|n IH]; intros expected extracted Hexp; cbn [extract_entries].
  all: split; [done|]; intros [err|]; [done|]; split; [done|]; intros [header| |err]; cbn [bind]; [|by case_bool_decide|done].
  all: destruct (_ || _); [done|]; cbv zeta; destruct (expected !! _) as [en|] eqn:Hk; [|done].
  all: destruct (negb _); [done|]; destruct (Hexp _ _ Hk) as [-> Hg]; unfold bind_err.
  all: eapply always_bind; [by apply extract_body_below|]; intros [target|err] _; try done.
  apply IH. intros k en' [_ Hk']%lookup_delete_Some. by apply Hexp.
Qed.

Lemma extractVerified_below (e : Engine) archivePath destination :
  rooted destination = true -> is_int64 (MaxBytes (config e)) ->
  always (stays_below destination) (fun _ => True) (extractVerified e archivePath destination).
Proof.
  intros Hd Hmax. unfold extractVerified. destruct (validate (config e)) eqn:Hv; [|done].
  eapply always_bind with (Q := fun _ => True); [by split|]. intros [|err] _; [|done]. unfold defer.
  eapply always_bind with (Q := fun _ => True); [|intros [m r] _; by split].
  eapply always_bind with (Q := fun _ => True); [by split|]. intros [|err] _; [|done].
  eapply always_bind with (Q := fun _ => True); [|intros [m r] _; by split].
  eapply always_bind with (Q := fun _ => True).
  { unfold read_manifest. split; [done|]. intros [header| |]; [|done..]. simpl. destruct (_ || _); [done|].
    split; [done|]. intros data. simpl. destruct (decode_manifest data); [done|]. split; [done|]. by intros []. }
  intros [m [err|]] _; [done|]. destruct (check_manifest e m) as [expected|] eqn:Hc; [|done].
  apply (check_manifest_ok e Hmax) in Hc as [Hcons Hexp]; [|by eapply validate_positive].
  eapply always_bind; [|done]. apply extract_entries_below; [done|].
  intros k en [Hin <-]%Hexp. split; [done|]. pose proof (c_entries _ _ Hcons) as Hg. rewrite Forall_forall in Hg. by apply Hg.
Qed.

(** Extraction of a backup stays below its destination, whatever the archive holds:
    every file and directory it creates is there, and it changes nothing else. *)
Theorem backup_extraction_confined (e : Engine) archivePath destination :
  rooted destination = true -> is_int64 (MaxBytes (config e)) ->
  always (stays_below destination) (fun _ => True) (extractVerified e archivePath destination).
Proof. apply extractVerified_below. Qed.

(** C22. The loop over an archive ends: whatever the archive holds, at most two headers
    more are read than the manifest has entries, and no result is due to a bound on the
    loop. *)
Theorem extraction_terminates (e : Engine) archivePath destination tr m r :
  exec (extractVerified e archivePath destination) tr (m, r) ->
  reads tr <= 2 + length (m_Entries m) /\ r <> Err OutOfFuel.
Proof.
  intros [(_ & Hf & Hr)|[_ (expected & t1 & t2 & t3 & -> & Hc & Hx & Hr1 & Hr3)]]%extractVerified_exec; [split; [lia|done]|].
  apply extract_entries_exec in Hx as (Hr2 & Hf & _). split; [|by apply Hf].
  rewrite !reads_app, Hr3. unfold check_manifest in Hc. destruct (_ || _); [done|]. cbn [fail_if bind_result] in Hc.
  destruct (check_entries e _ _) as [d|] eqn:Hd; [|done]. cbn [bind_result] in Hc. destruct (_ || _); [done|].
  cbn [fail_if bind_result] in Hc. destruct (check_required _ _); [|done]. injection Hc as <-.
  apply check_entries_size in Hd. simpl in Hd. rewrite map_size_empty in Hd. lia.
Qed.
End theorems.

(** ** A sample archive *)

#[local] Existing Instance unicode_ascii.
Definition length_digest : Digest := {| sha256_hex := fun s => dec_pad 64 (len s) |}.
#[local] Existing Instance length_digest.

Definition some_time : time :=
  {| t_year := 2026; t_month := 2; t_day := 1; t_hour := 9; t_min := 30; t_sec := 0; t_nsec := 7; t_off := 0 |}.

Definition small_config : Config := {|
  BackupDir := "/var/lib/opendeploy/backups"; StateDir := "/var/lib/opendeploy/backup-state"; MaxEntries := 10; MaxBytes := 100;
  Sources := [
    {| so_ID := "panel"; so_Path := "/etc/opendeploy"; so_Required := true; so_Database := false; so_File := false |};
    tree "nginx" "/etc/nginx" ] |}.
Definition small_engine : Engine := {| config := small_config; version := "v1.2.3"; has_runtime := false |}.

Definition an_entry (id path body : string) : Entry := mkEntry id path (sha256_hex body) (len body) 420.

Definition small_manifest : Manifest :=
  mkManifest Schema "20260201T093000.000000007Z" some_time "manual" "" "v1.2.3"
    [an_entry "nginx" "sites/a.conf" "old site"; an_entry "panel" "config.yaml" "old config"] 18.

Definition small_archive : list (tar_header * string) :=
  let data := default "" (marshal_manifest small_manifest) in
  [({| th_Name := manifestName; th_Regular := true; th_Size := len data |}, data);
   ({| th_Name := "data/nginx/sites/a.conf"; th_Regular := true; th_Size := 8 |}, "old site");
   ({| th_Name := "data/panel/config.yaml"; th_Regular := true; th_Size := 10 |}, "old config")].

(** A reader of an archive; the state has the body of the current entry first. *)
Definition reader (X : Set) (c : bk_call X) (st : string * list (tar_header * string)) :
    X * (string * list (tar_header * string)) :=
  match c in bk_call X return X * (string * list (tar_header * string)) with
  | Now => (some_time, st)
  | CtxDone => (None, st)
  | MkdirTemp d _ => (Ok (path_join d "restore-1"), st)
  | CreateTemp d _ => (Ok (path_join d ".tmp"), st)
  | Lstat _ | Stat _ => (Err NotExist, st)
  | EvalSymlinks p => (Ok p, st)
  | Walk _ => ([], st)
  | ReadFile _ => (Err NotExist, st)
  | HashFile _ => (("", None), st)
  | CopyAll _ _ => (None, st)
  | CopyToTar _ _ => ((0%Z, None), st)
  | TarNext _ =>
      match snd st with
      | [] => (NextEOF, st)
      | (h, body) :: rest => (NextHeader h, (body, rest))
      end
  | TarBody _ limit => (take_bytes (Z.to_nat limit) (fst st), st)
  | DecoderState _ => ((zero_manifest, ""), st)
  | CopyN _ _ n => ((take_bytes (Z.to_nat n) (fst st), None), st)
  | SqlScan _ _ => (Ok "ok", st)
  | Command _ _ => (("", None), st)
  | MkdirAll _ _ | RemoveAll _ | Remove _ | Rename _ _ | OpenRead _ | OpenExcl _ _ | OpenAppend _ _ | WriteData _ _ | SyncFile _
  | ChmodFile _ _ | CloseFile _ | WriteHeader _ _ _ _ | WriteTar _ _ | CloseTar _ | CloseGzip _ | CloseReader _ | OpenGzip _
  | SqlOpen _ | SqlExec _ _ | SqlClose _ => (Ok (), st)
  end.

Definition extraction : bk_prog (Manifest * result bk_error (gmap string string)) :=
  extractVerified small_engine "/backups/b.tar.gz" "/stage".

Definition extraction_ok (out : Manifest * result bk_error (gmap string string)) : bool :=
  match out with
  | (m, Ok ex) => bool_decide (m_Entries m = m_Entries small_manifest)
                  && bool_decide (ex !! "panel/config.yaml" = Some "/stage/panel/config.yaml")
  | _ => false
  end.

Lemma sample_extraction : exists tr m ex, exec extraction tr (m, Ok ex) /\ m_Entries m = m_Entries small_manifest.
Proof.
  destruct (run_exec reader extraction ("", small_archive)) as [tr Htr].
  assert (Hok : extraction_ok (fst (run reader extraction ("", small_archive))) = true) by (vm_compute; reflexivity).
  destruct (fst (run reader extraction ("", small_archive))) as [m [ex|err]]; [|done].
  exists tr, m, ex. split; [done|]. unfold extraction_ok in Hok. propify. done.
Qed.

Lemma archive_accepted_witness : exists tr m ex, exec extraction tr (m, Ok ex) /\
  total (m_Entries m) = m_TotalBytes m /\ read_as "/backups/b.tar.gz" "/stage" tr (an_entry "panel" "config.yaml" "old config").
Proof.
  destruct sample_extraction as (tr & m & ex & Hx & He). exists tr, m, ex.
  destruct (archive_accepted small_engine "/backups/b.tar.gz" "/stage" tr m ex) as [Hc Hall]; [split; vm_compute; congruence|exact Hx|].
  split; [exact Hx|]. split; [symmetry; apply Hc|]. apply Hall. rewrite He. right. left.
Defined.

Lemma extraction_terminates_witness : exists tr m ex, exec extraction tr (m, Ok ex) /\ reads tr <= 4.
Proof.
  destruct sample_extraction as (tr & m & ex & Hx & He). exists tr, m, ex. split; [exact Hx|].
  destruct (extraction_terminates small_engine "/backups/b.tar.gz" "/stage" tr m (Ok ex) Hx) as [Hr _].
  rewrite He in Hr. exact Hr.
Defined.

Lemma backup_extraction_confined_witness :
  always (stays_below "/stage") (fun _ => True) extraction.
Proof. apply backup_extraction_confined; [vm_compute; reflexivity|split; vm_compute; congruence]. Defined.
