(* ===== verification/BackupDisk.v ===== *)
(** * Restoring on a disk

    Files by path, without symbolic links.  A restoration ends with every file of the
    archive in its place, or it reports that it was undone and the files are as they
    were. *)

From S2P Require Import Prelude GoStrings GoStrconv GoPath GoRegexp GoTime GoJson GoStruct Effects BackupTypes Backup BackupVerify.
Local Open Scope string_scope.
Local Open Scope go_scope.

Notation files := (gmap string string).

(** [os.CreateTemp] and [os.MkdirTemp] put random characters for the last star. *)
Definition temp_name (pattern n : string) : Prop :=
  good_comp n /\ exists pre suf r, pattern = pre ++ "*" ++ suf /\ no_byte "*" suf /\ n = pre ++ r ++ suf.

Definition is_err {E A} (x : result E A) : Prop := match x with Ok _ => False | Err _ => True end.

(** What a file's state says about the files: there are no symbolic links. *)
Definition stat_sem (f : files) (p : string) (x : result stat_error file_info) : Prop :=
  match x with
  | Ok info => fi_kind info <> Symlink /\ (fi_kind info = Regular <-> is_Some (f !! p))
  | Err NotExist => f !! p = None
  | Err (StatFailed _) => True
  end.

(** What a call may answer, and the files it leaves.  Any call may fail.  A copy that
    fails leaves anything in its destination; rename(2) is atomic; removing a directory
    may stop halfway.  Services and the database are not among the files that matter. *)
Definition bk_sem X (c : bk_call X) (f : files) : X -> files -> Prop :=
  match c in bk_call X return X -> files -> Prop with
  | MkdirTemp d pattern => fun x f' => f' = f /\
      (is_err x \/ exists n, temp_name pattern n /\ x = Ok (path_join d n) /\
         forall p, at_or_below (path_join d n) p -> f !! p = None)
  | RemoveAll p => fun _ f' => forall q, ~ at_or_below p q -> f' !! q = f !! q
  | CreateTemp d pattern => fun x f' =>
      (exists n, temp_name pattern n /\ x = Ok (path_join d n) /\ f !! path_join d n = None /\ f' = <[path_join d n := ""]> f)
      \/ (is_err x /\ f' = f)
  | Remove p => fun x f' => (x = Ok () /\ f' = delete p f) \/ (is_err x /\ f' = f)
  | Rename a b => fun x f' => (x = Ok () /\ exists c, f !! a = Some c /\ f' = <[b := c]> (delete a f)) \/ (is_err x /\ f' = f)
  | Lstat p | Stat p => fun x f' => f' = f /\ stat_sem f p x
  | OpenRead p => fun x f' => f' = f /\ (is_err x \/ is_Some (f !! p))
  | OpenExcl p _ => fun x f' => (x = Ok () /\ f !! p = None /\ f' = <[p := ""]> f) \/ (is_err x /\ f' = f)
  | OpenAppend p _ => fun x f' => (x = Ok () /\ f' = <[p := default "" (f !! p)]> f) \/ (is_err x /\ f' = f)
  | WriteData p data => fun x f' =>
      (x = Ok () /\ f' = <[p := default "" (f !! p) ++ data]> f)
      \/ (is_err x /\ exists n, f' = <[p := default "" (f !! p) ++ take_bytes n data]> f)
  | ReadFile p => fun x f' => f' = f /\
      match x with Ok c => f !! p = Some c | Err NotExist => f !! p = None | Err (StatFailed _) => True end
  | HashFile p => fun x f' => f' = f /\ (is_Some (snd x) \/ f !! p = Some (fst x))
  | CopyAll dst src => fun x f' =>
      (x = None /\ exists c, f !! src = Some c /\ f' = <[dst := c]> f) \/ (is_Some x /\ exists c, f' = <[dst := c]> f)
  | CopyN _ (Some p) _ => fun x f' =>
      (snd x = None /\ f' = <[p := fst x]> f) \/ (is_Some (snd x) /\ exists c, f' = <[p := c]> f)
  | WriteHeader out _ _ _ | WriteTar out _ | CopyToTar out _ | CloseTar out | CloseGzip out => fun _ f' => exists c, f' = <[out := c]> f
  | SqlExec _ _ => fun _ _ => True
  | _ => fun _ f' => f' = f
  end.

Notation on_files p f x f' := (runs (@bk_sem) p f x f').

Lemma bk_runs_os {A} (c : bk_call (result string A)) f x f' :
  on_files (os (call c)) f x f' -> exists y, bk_sem _ c f y f' /\ x = map_err Os y.
Proof. unfold os. intros (y & f1 & Hy%runs_call & -> & ->)%runs_bind. eauto. Qed.

Lemma runs_defer {A B} (p : bk_prog B) (body : bk_prog A) f x f' :
  on_files (defer p body) f x f' -> exists f1 b, on_files body f x f1 /\ on_files p f1 b f'.
Proof. unfold defer. intros (a & f1 & Hb & H)%runs_bind. apply runs_bind in H as (b & f2 & Hp & [-> ->]). eauto. Qed.

(** ** Atomic copies *)

(** A path that names a file in a directory. *)
Definition named (p : string) : Prop := exists l x, Forall good_comp (l ++ [x])%list /\ p = abs (l ++ [x])%list.

(** Temporary files of atomic copies. *)
Definition restore_temp (p : string) : Prop := exists d b r, p = path_join d ("." ++ b ++ ".restore-" ++ r).

Lemma last_star p s q : p ++ String "*" s = q ++ "*" -> no_byte "*" s -> s = "" /\ p = q.
Proof.
  revert q. induction p as [|c p IH]; intros [|d q] H Hs; cbn [String.append] in H.
  - by injection H as ->.
  - injection H as <- ->. apply no_byte_app in Hs as [_ Hs]. by vm_compute in Hs.
  - injection H as -> H. by destruct p.
  - injection H as -> H. by destruct (IH q H Hs) as [-> ->].
Qed.

Lemma temp_name_star pre n : temp_name (pre ++ "*") n -> good_comp n /\ exists r, n = pre ++ r.
Proof.
  intros [Hg (pre' & suf & r & Heq & Hs & ->)]. split; [done|].
  destruct (last_star pre' suf pre) as [-> ->]; [done..|]. exists r. by rewrite str_app_nil_r.
Qed.

Lemma temp_differs dst n :
  named dst -> temp_name ("." ++ base dst ++ ".restore-*") n -> path_join (dir dst) n <> dst /\ restore_temp (path_join (dir dst) n).
Proof.
  intros (l & x & Hg & ->). rewrite base_abs_snoc, dir_abs_snoc by done.
  change (".restore-*") with (".restore-" ++ "*"). rewrite <- !str_app_assoc.
  intros [Hn [r ->]]%temp_name_star. split; [|by exists (abs l), x, r; rewrite !str_app_assoc].
  rewrite path_join_one by (done || apply abs_rooted). apply Forall_app in Hg as Hg'. destruct Hg' as [Hl _].
  rewrite clean_comps_abs by done. intros Heq. apply abs_inj in Heq; [|by apply Forall_app; split; [|constructor]|done].
  apply app_inj_tail in Heq as [_ Heq]. apply (f_equal String.length) in Heq. rewrite !str_length_app in Heq. simpl in Heq. lia.
Qed.

(** What an atomic copy leaves: the copy, or nothing but a temporary file that was new. *)
Lemma copy_and_rename_runs src tmp dst mode f x f' :
  on_files (copy_and_rename src tmp dst mode) f x f' -> src <> tmp ->
  (x = Ok () /\ exists c, f !! src = Some c /\ f' = <[dst := c]> (delete tmp f)) \/ (is_err x /\ exists c, f' = <[tmp := c]> f).
Proof.
  unfold copy_and_rename. intros (copyErr & f1 & Hc%runs_call & H)%runs_bind Hne. cbn [bk_sem] in Hc.
  destruct copyErr as [err|].
  { apply runs_bind in H as (y & f2 & ->%runs_call & [-> ->]). right. split; [done|].
    destruct Hc as [[? _]|[_ Hc]]; [done|exact Hc]. }
  destruct Hc as [(_ & c & Hsrc & ->)|[[? ?] _]]; [|done].
  apply runs_bind in H as (changed & f2 & ->%runs_call & H). destruct changed as [u|err].
  2:{ apply runs_bind in H as (y & f2 & ->%runs_call & [-> ->]). right. split; [done|]. by eexists. }
  apply runs_bind in H as (synced & f2 & ->%runs_call & H). destruct synced as [u2|err].
  2:{ apply runs_bind in H as (y & f2 & ->%runs_call & [-> ->]). right. split; [done|]. by eexists. }
  apply runs_try in H as [(u3 & f2 & (y & -> & _)%bk_runs_os & H)|(err & (y & -> & _)%bk_runs_os & ->)].
  2:{ right. split; [done|]. by eexists. }
  apply bk_runs_os in H as (z & [(-> & c' & Hc' & ->)|[Hy ->]] & ->).
  - left. split; [done|]. exists c. split; [done|]. rewrite lookup_insert_eq in Hc'. injection Hc' as <-.
    by rewrite delete_insert_eq.
  - right. split; [by destruct z|]. by eexists.
Qed.

Lemma bk_atomicCopy_runs src dst mode f x f' :
  on_files (atomicCopy src dst mode) f x f' -> named dst ->
  (x = Ok () /\ exists c, f !! src = Some c /\ f' = <[dst := c]> f) \/
  (is_err x /\ (f' = f \/ exists tmp c, restore_temp tmp /\ tmp <> dst /\ f !! tmp = None /\ f' = <[tmp := c]> f)).
Proof.
  unfold atomicCopy. intros H Hdst.
  apply runs_try in H as [(u & f1 & (y & -> & _)%bk_runs_os & H)|(err & (y & -> & _)%bk_runs_os & ->)]; [|right; by split; [|left]].
  apply runs_try in H as [(u2 & f1 & (y2 & [-> Hsrc] & Hy2)%bk_runs_os & H)|(err & (y2 & [-> _] & _)%bk_runs_os & ->)]; [|right; by split; [|left]].
  assert (Hex : is_Some (f !! src)) by (destruct y2; [by destruct Hsrc|done]).
  apply runs_defer in H as (f1 & cl & H & Hcl%runs_call). cbn [bk_sem] in Hcl. subst f1.
  apply runs_try in H as [(tmp & f2 & (y3 & Hm & Hy3)%bk_runs_os & H)|(err & (y3 & Hm & Hy3)%bk_runs_os & ->)]; cbn [bk_sem] in Hm.
  2:{ right. split; [done|]. left. destruct Hm as [(n & _ & -> & _)|[_ ->]]; done. }
  destruct y3 as [t|]; [|done]. injection Hy3 as ->. destruct Hm as [(n & Hn & [= ->] & Hfresh & ->)|[[] _]].
  destruct (temp_differs dst n Hdst Hn) as [Hd Ht]. revert Hfresh H Hd Ht. generalize (path_join (dir dst) n) as tmp.
  intros tmp Hfresh H Hd Ht. assert (Hst : src <> tmp) by (intros ->; rewrite Hfresh in Hex; by destruct Hex).
  apply runs_defer in H as (f3 & rm & H & Hrm%runs_call). cbn [bk_sem] in Hrm.
  apply copy_and_rename_runs in H as [(-> & c & Hc & ->)|(Hx & c & ->)]; [| |done].
  - left. split; [done|]. exists c. rewrite lookup_insert_ne in Hc by done. split; [done|].
    rewrite delete_insert_eq in Hrm. rewrite (delete_id f tmp) in Hrm by done.
    destruct Hrm as [[_ ->]|[_ ->]]; [|done]. by rewrite delete_insert_ne, delete_id.
  - right. split; [done|]. rewrite insert_insert_eq in Hrm. destruct Hrm as [[_ ->]|[_ ->]].
    + left. by rewrite delete_insert_id.
    + right. eauto 10.
Qed.

(** ** Undoing *)

(** What a rollback without errors does to the files. *)
Definition undo1 (f : files) (item : restoreTarget) : files :=
  if rt_hadOriginal item then match f !! rt_snapshot item with Some c => <[rt_path item := c]> f | None => f end
  else delete (rt_path item) f.
Definition undo (changed : list restoreTarget) (f : files) : files := fold_left undo1 changed f.

Section undoing.
Context `{HUnicode : Unicode} `{HDigest : Digest}.

Lemma removeRegular_runs p f x f' : on_files (removeRegular p) f x f' -> x = Ok () -> f' = delete p f.
Proof.
  unfold removeRegular. intros (info & f1 & [-> Hs]%runs_call & H)%runs_bind ->.
  destruct info as [info|[]]; [|destruct H as [_ ->]; by rewrite delete_id|by destruct H].
  destruct (negb _); [by destruct H|]. apply bk_runs_os in H as (y & [[_ ->]|[Hy _]] & Heq); [done|by destruct y].
Qed.

Lemma join_err_none a b : join_err a b = None -> a = None /\ b = None.
Proof. by destruct a, b. Qed.

Lemma rollback_runs changed acc f r f' :
  on_files (rollback changed acc) f r f' -> Forall (fun item => named (rt_path item)) changed -> r = None ->
  acc = None /\ f' = undo changed f.
Proof.
  revert acc f. induction changed as [|item changed IH]; intros acc f H Hn ->; cbn [rollback] in H; [by destruct H as [<- ->]|].
  apply Forall_cons in Hn as [Hi Hn]. apply runs_bind in H as (x & f1 & H1 & H). apply IH in H as [Hacc ->]; [|done..].
  apply join_err_none in Hacc as [-> Hx]. split; [done|]. unfold undo. simpl. f_equal.
  destruct x as [[]|]; [|done]. unfold undo1. destruct (rt_hadOriginal item).
  - apply bk_atomicCopy_runs in H1 as [(_ & c & Hc & ->)|[[] _]]; [by rewrite Hc|done].
  - by apply removeRegular_runs in H1.
Qed.

Lemma undo1_agree tmp item f g :
  (forall q, q <> tmp -> f !! q = g !! q) -> (rt_hadOriginal item = true -> rt_snapshot item <> tmp) ->
  forall q, q <> tmp -> undo1 f item !! q = undo1 g item !! q.
Proof.
  intros Hfg Hs q Hq. unfold undo1. destruct (rt_hadOriginal item).
  - rewrite (Hfg (rt_snapshot item)) by by apply Hs. destruct (g !! rt_snapshot item); [|by apply Hfg].
    destruct (decide (q = rt_path item)) as [->|]; [by rewrite !lookup_insert_eq|]. rewrite !lookup_insert_ne by done. by apply Hfg.
  - destruct (decide (q = rt_path item)) as [->|]; [by rewrite !lookup_delete_eq|]. rewrite !lookup_delete_ne by done. by apply Hfg.
Qed.

(** Undoing does not look at files that are no snapshots. *)
Lemma undo_agree tmp changed f g :
  (forall q, q <> tmp -> f !! q = g !! q) -> Forall (fun item => rt_hadOriginal item = true -> rt_snapshot item <> tmp) changed ->
  forall q, q <> tmp -> undo changed f !! q = undo changed g !! q.
Proof.
  intros Hfg Hs. revert f g Hfg. induction Hs as [|item changed Hi Hs IH]; intros f g Hfg q Hq; simpl; [by apply Hfg|].
  apply IH; [|done]. by apply undo1_agree.
Qed.

Lemma undo_other p changed f : Forall (fun item => rt_path item <> p) changed -> undo changed f !! p = f !! p.
Proof.
  intros Hp. revert f. induction Hp as [|item changed Hi Hp IH]; intros f; simpl; [done|]. rewrite IH. unfold undo1.
  destruct (rt_hadOriginal item); [|by rewrite lookup_delete_ne].
  destruct (f !! rt_snapshot item); [by rewrite lookup_insert_ne|done].
Qed.
End undoing.

(** ** The transaction *)

(** The error of a restoration that was undone without errors; the errors of restarting
    the services may be joined to it. *)
Definition undone (err : bk_error) : Prop := match err with RolledBack _ _ None _ => True | _ => False end.
Definition was_undone (err : bk_error) : Prop :=
  match err with Joined (err :: _) => undone err | _ => undone err end.

(** Errors of single steps. *)
Definition plain (err : bk_error) : Prop := match err with RolledBack _ _ _ _ | Joined _ => False | _ => True end.

Lemma plain_not_undone err : plain err -> ~ was_undone err.
Proof. intros Hp Hu. by destruct err. Qed.

Section transaction.
Context `{HUnicode : Unicode} `{HDigest : Digest}.
Variables (stage : string).
Hypothesis Hstage : rooted stage = true.

Definition snap (n : nat) : string := path_join (path_join stage "rollback") (itoa (Z.of_nat n)).

Lemma itoa_good n : good_comp (itoa (Z.of_nat n)).
Proof.
  destruct (itoa_numeral (Z.of_nat n)) as (Hd & _ & c & r & Heq & _); [lia|].
  assert (Hno : no_byte slash (itoa (Z.of_nat n))).
  { unfold no_byte. eapply str_forall_mono; [|exact Hd]. intros a Ha. by destruct (Ascii.eqb_spec slash a) as [<-|]. }
  rewrite Heq in *. simpl in Hd. apply andb_true_iff in Hd as [Hc _]. split_and!; try done; by intros [= -> _].
Qed.

Lemma snap_comps n : snap n = abs (clean_comps stage ++ ["rollback"; itoa (Z.of_nat n)])%list /\
  Forall good_comp (clean_comps stage ++ ["rollback"; itoa (Z.of_nat n)])%list.
Proof.
  pose proof (itoa_good n) as Hg. pose proof (clean_comps_good stage Hstage) as Hs.
  assert (Hr : good_comp "rollback") by done. split; [|apply Forall_app; split; [done|]; by repeat (apply Forall_cons_2; [done|])].
  unfold snap. rewrite (path_join_one stage), path_join_one by (done || apply abs_rooted).
  rewrite clean_comps_abs by (apply Forall_app; split; [done|]; by repeat (apply Forall_cons_2; [done|])). by rewrite <- app_assoc.
Qed.

Lemma snap_named n : named (snap n).
Proof.
  destruct (snap_comps n) as [-> Hg]. exists (clean_comps stage ++ ["rollback"])%list, (itoa (Z.of_nat n)).
  by rewrite <- app_assoc.
Qed.

Lemma snap_below n : at_or_below stage (snap n).
Proof. destruct (snap_comps n) as [-> Hg]. split; [apply abs_rooted|]. rewrite clean_comps_abs by done. by apply prefix_app_r. Qed.

Lemma snap_inj n m : snap n = snap m -> n = m.
Proof.
  destruct (snap_comps n) as [-> Hn], (snap_comps m) as [-> Hm]. intros H. apply abs_inj in H; [|done..].
  apply app_inv_head in H. injection H as H. apply itoa_inj in H. lia.
Qed.

(** Snapshots are numbered in the order of the changes; the last change comes first. *)
Fixpoint numbered (changed : list restoreTarget) : Prop :=
  match changed with
  | [] => True
  | item :: changed' => (rt_hadOriginal item = true -> rt_snapshot item = snap (length changed')) /\ numbered changed'
  end.

Lemma numbered_below changed item :
  numbered changed -> item ∈ changed -> rt_hadOriginal item = true -> exists n, n < length changed /\ rt_snapshot item = snap n.
Proof.
  induction changed as [|it changed IH]; intros Hn Hin Hh; [by apply elem_of_nil in Hin|]. destruct Hn as [Hi Hn].
  apply elem_of_cons in Hin as [->|Hin]; [exists (length changed); split; [simpl; lia|by apply Hi]|].
  destruct (IH Hn Hin Hh) as (n & Hlt & Heq). exists n. split; [simpl; lia|done].
Qed.

Definition outside (p : string) : Prop := ~ at_or_below stage p.

(** [f0] are the files before, [f] the files after [changed] were replaced. *)
Record kept (f0 f : files) (changed : list restoreTarget) : Prop := {
  k_undo : forall p, outside p -> undo changed f !! p = f0 !! p;
  k_paths : Forall (fun item => named (rt_path item) /\ outside (rt_path item) /\ is_Some (f !! rt_path item)) changed;
  k_snapshots : forall item, item ∈ changed -> rt_hadOriginal item = true -> is_Some (f !! rt_snapshot item);
  k_numbered : numbered changed }.

Lemma kept_start f : kept f f [].
Proof. split; [done|done|by intros ? ?%elem_of_nil|done]. Qed.

Lemma snap_fresh changed : numbered changed ->
  Forall (fun item => rt_hadOriginal item = true -> rt_snapshot item <> snap (length changed)) changed.
Proof.
  intros Hn. apply Forall_forall. intros item Hin Hh Heq.
  destruct (numbered_below _ _ Hn Hin Hh) as (n & Hlt & Hs). rewrite Hs in Heq. apply snap_inj in Heq. lia.
Qed.

Lemma snapshot_target_runs target n f x f' item :
  on_files (snapshot_target stage target n) f x f' -> x = Ok item ->
  rt_path item = target /\
  ((rt_hadOriginal item = false /\ f !! target = None /\ f' = f) \/
   (rt_hadOriginal item = true /\ rt_snapshot item = snap n /\ exists c, f !! target = Some c /\ f' = <[snap n := c]> f)).
Proof.
  unfold snapshot_target. intros (info & f1 & [-> Hs]%runs_call & H)%runs_bind ->.
  destruct info as [info|[]]; [|destruct H as [[= ->] ->]; split; [done|by left]|by destruct H].
  destruct Hs as [Hlink Hreg]. rewrite bool_decide_eq_false_2 in H by done.
  apply runs_bind in H as (info' & f1 & [-> ->] & H). destruct (negb _); [by destruct H|]. cbv zeta in H. fold (snap n) in H.
  apply runs_wrap in H as [(u & f1 & Hc & [[= ->] ->])|(err & _ & [=])]. split; [done|]. right. split_and!; [done..|].
  apply bk_atomicCopy_runs in Hc as [(_ & c & Hc & ->)|[[] _]]; [eauto|apply snap_named].
Qed.

Lemma snapshot_target_error target n f err f' :
  on_files (snapshot_target stage target n) f (Err err) f' -> plain err.
Proof.
  unfold snapshot_target. intros (info & f1 & _ & H)%runs_bind.
  destruct info as [info|[]]; [|by destruct H|by destruct H as [[= ->] _]].
  apply runs_bind in H as (info' & f2 & _ & H). destruct info' as [info'|]; [|by destruct H as [[= ->] _]].
  destruct (negb _); [by destruct H as [[= ->] _]|]. cbv zeta in H.
  by apply runs_wrap in H as [(u & f3 & _ & [[=] _])|(err' & _ & [= ->])].
Qed.

(** The snapshot of a target, and the copy over it. *)
Lemma kept_snapshot f0 f changed item target f1 :
  kept f0 f changed -> named target -> outside target -> rt_path item = target ->
  (rt_hadOriginal item = false /\ f !! target = None /\ f1 = f) \/
  (rt_hadOriginal item = true /\ rt_snapshot item = snap (length changed) /\
     exists c, f !! target = Some c /\ f1 = <[snap (length changed) := c]> f) ->
  numbered (item :: changed) /\
  (forall p, outside p -> f1 !! p = f !! p) /\
  (forall it, it ∈ item :: changed -> rt_hadOriginal it = true -> is_Some (f1 !! rt_snapshot it)) /\
  forall g, (forall p, p <> target -> g !! p = f1 !! p) ->
    forall p, outside p -> undo (item :: changed) g !! p = f0 !! p.
Proof.
  intros [Hundo Hpaths Hsnaps Hnum] Ht Hout Hp Hcase.
  assert (Hout_snap : forall n, target <> snap n) by (intros n ->; apply Hout, snap_below).
  destruct Hcase as [(Hh & Hnone & ->)|(Hh & Hs & c & Hc & ->)].
  - split; [split; [by rewrite Hh|done]|]. split; [done|]. split.
    { intros it [->|Hin]%elem_of_cons; [by rewrite Hh|by apply Hsnaps]. }
    intros g Hg p Hpo. rewrite <- Hundo by done. unfold undo. simpl. f_equal. f_equal.
    apply map_eq. intros q. unfold undo1. rewrite Hh, Hp. destruct (decide (q = target)) as [->|].
    + by rewrite lookup_delete_eq, Hnone.
    + rewrite lookup_delete_ne by done. by apply Hg.
  - split; [split; [by intros _|done]|]. split.
    { intros p Hpo. rewrite lookup_insert_ne; [done|]. intros <-. apply Hpo, snap_below. }
    split.
    { intros it Hin Hhad. destruct (decide (rt_snapshot it = snap (length changed))) as [->|Hne]; [by rewrite lookup_insert_eq|].
      rewrite lookup_insert_ne by done. apply elem_of_cons in Hin as [->|Hin]; [congruence|by apply Hsnaps]. }
    intros g Hg p Hpo. rewrite <- Hundo by done. unfold undo at 1. simpl. fold (undo changed (undo1 g item)).
    apply (undo_agree (snap (length changed))); [|by apply snap_fresh|intros ->; apply Hpo, snap_below].
    intros q Hq. unfold undo1. rewrite Hh, Hp, Hs, Hg, lookup_insert_eq by (apply not_eq_sym, Hout_snap).
    destruct (decide (q = target)) as [->|]; [by rewrite lookup_insert_eq|].
    rewrite lookup_insert_ne, Hg, lookup_insert_ne by done. done.
Qed.

(** [f] has the files of [f0] outside the stage, but for new temporary files. *)
Definition restored (f0 f : files) : Prop :=
  forall p, outside p -> f !! p = f0 !! p \/ (restore_temp p /\ f0 !! p = None).

Lemma undo_restores f0 f changed r f' :
  kept f0 f changed -> on_files (rollback changed None) f r f' -> r = None -> restored f0 f'.
Proof.
  intros [Hundo Hpaths _ _] H Hr. apply rollback_runs in H as [_ ->]; [|by eapply Forall_impl; [exact Hpaths|]; intros ? (? & _)|done].
  intros p Hp. left. by apply Hundo.
Qed.

(** Targets are files outside the stage. *)
Definition good_targets (sourceMap : gmap string Source) (l : list Entry) : Prop :=
  forall en source, en ∈ l -> sourceMap !! e_SourceID en = Some source ->
    named (target_of source en) /\ outside (target_of source en).

Lemma copy_failed f0 f changed item f1 c tmp r f2 :
  kept f0 f changed -> numbered (item :: changed) -> named (rt_path item) -> outside (rt_path item) ->
  (forall p, outside p -> f1 !! p = f !! p) ->
  (forall it, it ∈ item :: changed -> rt_hadOriginal it = true -> is_Some (f1 !! rt_snapshot it)) ->
  (forall g, (forall p, p <> rt_path item -> g !! p = f1 !! p) -> forall p, outside p -> undo (item :: changed) g !! p = f0 !! p) ->
  restore_temp tmp -> tmp <> rt_path item -> f1 !! tmp = None ->
  on_files (rollback (item :: changed) None) (<[tmp := c]> f1) r f2 -> r = None -> restored f0 f2.
Proof.
  intros [_ Hpaths _ _] Hnum Hn Ho Hsame Hsnaps Hundo Htmp Hne Hfresh H Hr.
  apply rollback_runs in H as [_ ->]; [| |done].
  2:{ constructor; [done|]. eapply Forall_impl; [exact Hpaths|]. by intros ? (? & _). }
  intros p Hp. destruct (decide (p = tmp)) as [->|Hpt].
  - right. split; [done|]. rewrite <- (Hundo f1) by done. rewrite undo_other; [done|]. constructor; [done|].
    eapply Forall_impl; [exact Hpaths|]. intros it (_ & Hout & Hsome) <-. rewrite <- Hsame in Hsome by done.
    rewrite Hfresh in Hsome. by destruct Hsome.
  - left. rewrite <- (Hundo f1) by done. apply (undo_agree tmp); [intros q Hq; by rewrite lookup_insert_ne| |done].
    apply Forall_forall. intros it Hin Hh Heq. specialize (Hsnaps it Hin Hh). rewrite Heq, Hfresh in Hsnaps. by destruct Hsnaps.
Qed.

Lemma kept_copied f0 f changed item f1 c :
  kept f0 f changed -> numbered (item :: changed) -> named (rt_path item) -> outside (rt_path item) ->
  (forall p, outside p -> f1 !! p = f !! p) ->
  (forall it, it ∈ item :: changed -> rt_hadOriginal it = true -> is_Some (f1 !! rt_snapshot it)) ->
  (forall g, (forall p, p <> rt_path item -> g !! p = f1 !! p) -> forall p, outside p -> undo (item :: changed) g !! p = f0 !! p) ->
  kept f0 (<[rt_path item := c]> f1) (item :: changed).
Proof.
  intros [_ Hpaths _ _] Hnum Hn Ho Hsame Hsnaps Hundo. split; [| | |done].
  - apply Hundo. intros p Hp. by rewrite lookup_insert_ne.
  - constructor; [by rewrite lookup_insert_eq|]. eapply Forall_impl; [exact Hpaths|]. intros it (? & Hout & Hsome).
    split_and!; [done..|]. destruct (decide (rt_path it = rt_path item)) as [->|]; [by rewrite lookup_insert_eq|].
    by rewrite lookup_insert_ne, Hsame.
  - intros it Hin Hh. destruct (numbered_below _ _ Hnum Hin Hh) as (n & _ & Hs). rewrite lookup_insert_ne; [by apply Hsnaps|].
    rewrite Hs. intros Heq. apply Ho. rewrite Heq. apply snap_below.
Qed.

(** The loop: every target is replaced, or what was replaced is undone. *)
Lemma restore_entries_runs sourceMap extracted f0 l : good_targets sourceMap l ->
  forall changed f x f', kept f0 f changed -> on_files (restore_entries stage sourceMap extracted changed l) f x f' ->
  match x with Ok changed' => kept f0 f' changed' | Err err => was_undone err -> restored f0 f' end.
Proof.
  intros Hgood. induction l as [|en l IH]; intros changed f x f' Hk H; cbn [restore_entries] in H; [by destruct H as [-> ->]|].
  destruct (sourceMap !! e_SourceID en) as [source|] eqn:Hs; [|destruct H as [-> ->]; by intros []].
  destruct (Hgood en source) as [Hn Ho]; [by left|done|].
  apply runs_try in H as [(item & f1 & Hsnap & H)|(err & Hsnap & ->)].
  2:{ intros Hu. by apply snapshot_target_error, plain_not_undone in Hsnap. }
  apply (snapshot_target_runs _ _ _ _ _ item) in Hsnap as [Hp Hcase]; [|done].
  destruct (kept_snapshot f0 f changed item (target_of source en) f1 Hk Hn Ho Hp Hcase) as (Hnum & Hsame & Hsnaps & Hundo).
  cbv zeta in H. rewrite <- Hp in *. apply runs_bind in H as (copied & f2 & Hc & H).
  apply bk_atomicCopy_runs in Hc as [(-> & c & _ & ->)|[Hx Hf]]; [| |done].
  - eapply IH; [|by eapply kept_copied|done]. intros en' source' Hin. apply Hgood. by right.
  - destruct copied as [|err]; [done|]. apply runs_bind in H as (rb & f3 & Hrb & [-> ->]).
    intros Hu. destruct rb; [done|]. destruct Hf as [->|(tmp & c & Htmp & Hne & Hfresh & ->)].
    + apply rollback_runs in Hrb as [_ ->]; [|constructor; [done|]; eapply Forall_impl; [exact (k_paths _ _ _ Hk)|]; by intros ? (? & _)|done].
      intros p Hpo. left. by apply Hundo.
    + by eapply copy_failed.
Qed.

Definition rollback_dir : string := path_join stage "rollback".

Lemma snap_in_rollback n : at_or_below rollback_dir (snap n).
Proof.
  destruct (snap_comps n) as [-> Hg]. split; [apply abs_rooted|]. rewrite clean_comps_abs by done. unfold rollback_dir.
  rewrite path_join_one by done. rewrite clean_comps_abs.
  - exists [itoa (Z.of_nat n)]. by rewrite <- app_assoc.
  - apply Forall_app. split; [by apply clean_comps_good|]. by apply Forall_singleton.
Qed.

Definition target_in (sourceMap : gmap string Source) (en : Entry) : string :=
  match sourceMap !! e_SourceID en with Some source => target_of source en | None => "" end.

Section content.
Variables (sourceMap : gmap string Source) (extracted : gmap string string).
Local Notation file_of en := (default "" (extracted !! entry_key en)).

(** The loop when it is done: every target is what was extracted, and nothing else but
    snapshots changed. *)
Lemma restore_entries_content l : good_targets sourceMap l -> NoDup (target_in sourceMap <$> l) ->
  (forall en, en ∈ l -> at_or_below stage (file_of en) /\ ~ at_or_below rollback_dir (file_of en)) ->
  forall changed f ch f', on_files (restore_entries stage sourceMap extracted changed l) f (Ok ch) f' ->
  (forall p, p ∉ (target_in sourceMap <$> l) -> ~ at_or_below rollback_dir p -> f' !! p = f !! p) /\
  (forall en, en ∈ l -> is_Some (f !! file_of en) /\ f' !! target_in sourceMap en = f !! file_of en).
Proof.
  intros Hgood Hnd Hfile. induction l as [|en l IH]; intros changed f ch f' H; cbn [restore_entries] in H.
  { destruct H as [_ ->]. split; [done|]. by intros ? ?%elem_of_nil. }
  assert (Hgood' : good_targets sourceMap l) by (intros en' source' Hin; apply Hgood; by right).
  rewrite fmap_cons in Hnd. apply NoDup_cons in Hnd as [Hnew Hnd].
  destruct (sourceMap !! e_SourceID en) as [source|] eqn:Hs; [|by destruct H].
  assert (Ht : target_in sourceMap en = target_of source en) by (unfold target_in; by rewrite Hs).
  destruct (Hgood en source) as [Hn Ho]; [by left|done|].
  apply runs_try in H as [(item & f1 & Hsnap & H)|(err & _ & [=])].
  apply (snapshot_target_runs _ _ _ _ _ item) in Hsnap as [Hp Hcase]; [|done]. cbv zeta in H. rewrite Hp in H.
  assert (Hf1 : forall p, ~ at_or_below rollback_dir p -> f1 !! p = f !! p).
  { intros p Hpr. destruct Hcase as [(_ & _ & ->)|(_ & _ & c & _ & ->)]; [done|].
    rewrite lookup_insert_ne; [done|]. intros <-. apply Hpr, snap_in_rollback. }
  apply runs_bind in H as (copied & f2 & Hc & H).
  apply bk_atomicCopy_runs in Hc as [(-> & c & Hc & ->)|[Hx _]]; [| |done].
  2:{ destruct copied as [|err]; [done|]. by apply runs_bind in H as (rb & f3 & _ & [[=] _]). }
  apply IH in H as [Hother Hdone]; [|done|done|intros en' Hin; apply Hfile; by right].
  assert (Hkeep : forall en', en' ∈ en :: l -> f1 !! file_of en' = f !! file_of en' /\ file_of en' <> target_of source en).
  { intros en' Hin. destruct (Hfile en' Hin) as [Hb Hr]. split; [by apply Hf1|]. intros Heq. apply Ho. by rewrite <- Heq. }
  assert (Htr : ~ at_or_below rollback_dir (target_of source en)).
  { intros [Hr Hpre]. apply Ho. split; [done|]. etrans; [|exact Hpre]. unfold rollback_dir. rewrite path_join_one by done.
    rewrite clean_comps_abs; [by apply prefix_app_r|]. apply Forall_app. split; [by apply clean_comps_good|]. by apply Forall_singleton. }
  split.
  - intros p Hp' Hpr. rewrite fmap_cons, not_elem_of_cons in Hp'. destruct Hp' as [Hne Hp'].
    rewrite Hother, lookup_insert_ne, Hf1 by (done || congruence). done.
  - intros en' Hin. destruct (Hkeep en' Hin) as [Hk1 Hk2]. apply elem_of_cons in Hin as [->|Hin].
    + rewrite Ht, Hother by (done || congruence). rewrite lookup_insert_eq, <- Hk1, Hc. done.
    + destruct (Hdone en' Hin) as [Hsome ->]. rewrite lookup_insert_ne in * by done. by rewrite <- Hk1.
Qed.
End content.
End transaction.

(** ** Extraction on the disk *)

Definition same_outside (d : string) (f f' : files) : Prop := forall p, ~ at_or_below d p -> f' !! p = f !! p.

#[export] Instance same_outside_refl d : Reflexive (same_outside d).
Proof. by intros f p. Qed.
#[export] Instance same_outside_trans d : Transitive (same_outside d).
Proof. intros f g h H1 H2 p Hp. by rewrite H2, H1. Qed.

Section extraction.
Context `{HUnicode : Unicode} `{HDigest : Digest}.

Lemma stays_below_same d X (c : bk_call X) f x f' : stays_below d X c -> bk_sem X c f x f' -> same_outside d f f'.
Proof.
  assert (Hput : forall p c, below d p -> same_outside d f (<[p := c]> f)).
  { intros p c' Hp q Hq. rewrite lookup_insert_ne; [done|]. intros <-. by apply Hq, below_at. }
  destruct c; cbn [stays_below bk_sem]; try done; try (by intros _ ->); try (by intros _ [-> _]).
  - intros Hb [(_ & _ & ->)|(_ & ->)]; [by apply Hput|done].
  - destruct target; [|by intros _ ->]. intros Hb [(_ & ->)|(_ & ? & ->)]; by apply Hput.
Qed.

Lemma extract_body_runs a destination key en f target f' :
  destination <> "" -> on_files (extract_body a destination key en) f (Ok target) f' ->
  f !! path_join destination key = None /\
  exists data, f' = <[path_join destination key := data]> f /\ len data = e_Size en /\ sha256_hex data = e_SHA256 en.
Proof.
  intros Hd. unfold extract_body. assert (Ho : out_of destination key = Some (path_join destination key)).
  { unfold out_of. destruct (String.eqb_spec destination ""); done. }
  rewrite Ho. cbv zeta. intros (opened & f1 & Hopen & H)%runs_bind. destruct opened as [u|err]; [|by destruct H].
  apply runs_try in Hopen as [(u1 & f2 & (y & -> & _)%bk_runs_os & Hopen)|(err & _ & [=])].
  apply bk_runs_os in Hopen as (y1 & [(-> & Hfresh & ->)|[Hy _]] & Heq); [|by destruct y1]. split; [done|].
  apply runs_bind in H as ([data copyErr] & f2 & Hc%runs_call & H). cbn [bk_sem fst snd] in Hc.
  apply runs_bind in H as (closed & f3 & ->%runs_call & H). cbv zeta in H.
  destruct (_ && _) eqn:Hok; [|by destruct H]. destruct H as [_ ->]. propify. exists data.
  split_and!; [|by apply Z.eqb_eq|by apply String.eqb_eq].
  destruct Hc as [[_ ->]|[[s Hs] _]]; [by rewrite insert_insert_eq|congruence].
Qed.

Lemma extract_entries_runs a destination n expected ex0 f ex f' :
  rooted destination = true -> on_files (extract_entries a destination n expected ex0) f (Ok ex) f' ->
  (forall p, is_Some (f !! p) -> f' !! p = f !! p) /\
  forall k en, expected !! k = Some en -> exists data, f' !! path_join destination k = Some data /\
    len data = e_Size en /\ sha256_hex data = e_SHA256 en.
Proof.
  intros Hd. assert (Hne : destination <> "") by by intros ->. revert expected ex0 f.
  induction n as [|n IH]; intros expected ex0 f; cbn [extract_entries].
  all: intros (cancelled & f1 & ->%runs_call & H)%runs_bind; destruct cancelled; [by destruct H|].
  all: apply runs_bind in H as (next & f1 & ->%runs_call & H); destruct next as [header| |err]; [| |by destruct H].
  2,4: destruct (bool_decide_reflect (expected = ∅)) as [->|]; [|by destruct H]; destruct H as [_ ->]; split; [done|];
    by intros ? ? ?%lookup_empty_Some.
  all: destruct (_ || _); [by destruct H|]; cbv zeta in H; set (key := trim_prefix (th_Name header) "data/") in *.
  all: destruct (expected !! key) as [en|] eqn:Hkey; [|by destruct H]; destruct (negb _); [by destruct H|].
  all: apply runs_try in H as [(target & f1 & Hb & H)|(err & _ & [=])].
  1: by destruct H.
  apply extract_body_runs in Hb as (Hfresh & data & -> & Hlen & Hsha); [|done]. apply IH in H as [Hkeep Hall]. split.
  - intros p Hp. assert (p <> path_join destination key) by (intros ->; rewrite Hfresh in Hp; by destruct Hp).
    rewrite Hkeep by by rewrite lookup_insert_ne. by rewrite lookup_insert_ne.
  - intros k en' Hk. destruct (decide (k = key)) as [->|Hkk].
    + assert (en' = en) as -> by congruence. exists data. rewrite Hkeep by by rewrite lookup_insert_eq. by rewrite lookup_insert_eq.
    + apply Hall. by rewrite lookup_delete_ne.
Qed.

Lemma extractVerified_runs (e : Engine) a destination f m ex f' :
  rooted destination = true -> is_int64 (MaxBytes (config e)) -> on_files (extractVerified e a destination) f (m, Ok ex) f' ->
  consistent e m /\ forall en, en ∈ m_Entries m ->
    ex !! entry_key en = Some (path_join destination (entry_key en)) /\
    exists data, f' !! path_join destination (entry_key en) = Some data /\ len data = e_Size en /\ sha256_hex data = e_SHA256 en.
Proof.
  intros Hd Hmax H. destruct (runs_exec _ _ _ _ _ H) as [tr Htr].
  destruct (accepted_facts e a destination tr m ex Hmax Htr) as [Hcons Hex]. split; [done|]. intros en Hin. split.
  { destruct (Hex en Hin) as [_ ->]. unfold out_of. destruct (String.eqb_spec destination ""); [by subst|done]. }
  unfold extractVerified in H. destruct (validate (config e)) eqn:Hv; [|by destruct H].
  apply runs_bind in H as (opened & f1 & _ & H). destruct opened; [|by destruct H].
  apply runs_defer in H as (f2 & cl & H & Hcl%runs_call). cbn [bk_sem] in Hcl. subst f2.
  apply runs_bind in H as (unzipped & f2 & _ & H). destruct unzipped; [|by destruct H].
  apply runs_defer in H as (f3 & cl2 & H & Hcl%runs_call). cbn [bk_sem] in Hcl. subst f3.
  apply runs_bind in H as ([m1 failed] & f3 & _ & H). destruct failed; [by destruct H|].
  destruct (check_manifest e m1) as [expected|] eqn:Hc; [|by destruct H].
  apply runs_bind in H as (r & f4 & H & [[= <- <-] ->]).
  apply (check_manifest_ok e Hmax) in Hc as [_ Hexp]; [|by eapply validate_positive].
  apply extract_entries_runs in H as [_ Hall]; [|done]. apply Hall. by apply Hexp.
Qed.
End extraction.

(** ** Restoration *)

Definition apart (a b : string) : Prop := ~ clean_comps a `prefix_of` clean_comps b /\ ~ clean_comps b `prefix_of` clean_comps a.

(** A valid configuration whose sources are clean paths away from the engine's own state;
    "rollback" is the directory of the snapshots in the stage. *)
Record restorable (e : Engine) : Prop := {
  rs_valid : validate (config e) = Ok ();
  rs_max : is_int64 (MaxBytes (config e));
  rs_sources : Forall (fun s => so_ID s <> "rollback" /\ clean (so_Path s) = so_Path s /\ apart (so_Path s) (StateDir (config e)))
    (Sources (config e)) }.

Lemma validate_sources_ok seen l : validate_sources seen l = Ok () -> Forall (fun s => rooted (so_Path s) = true) l.
Proof.
  revert seen. induction l as [|s l IH]; intros seen H; cbn [validate_sources] in H; [done|].
  destruct (_ || _) eqn:Hb; [done|]. apply orb_false_iff in Hb as [_ Hb%negb_false_iff]. constructor; [done|]. by eapply IH.
Qed.

Lemma validate_rooted c : validate c = Ok () ->
  rooted (StateDir c) = true /\ Forall (fun s => rooted (so_Path s) = true) (Sources c).
Proof.
  unfold validate. intros H. destruct (_ || _) eqn:Hd; [done|]. cbn [fail_if bind_result] in H.
  destruct (validate_sources _ _) as [[]|] eqn:Hs; [|done]. apply orb_false_iff in Hd as [_ Hd%negb_false_iff].
  split; [done|]. by eapply validate_sources_ok.
Qed.

Lemma source_map_in l id s : source_map l !! id = Some s -> s ∈ l /\ so_ID s = id.
Proof.
  unfold source_map.
  cut (forall k (m : gmap string Source), (forall id s, m !! id = Some s -> s ∈ l /\ so_ID s = id) -> (forall s, s ∈ k -> s ∈ l) ->
    forall id s, fold_left (fun m source => <[so_ID source := source]> m) k m !! id = Some s -> s ∈ l /\ so_ID s = id).
  { intros Hgen. apply Hgen; [by intros ? ? ?%lookup_empty_Some|done]. }
  intros k. induction k as [|x k IH]; intros m Hm Hk; simpl; [exact (Hm)|]. apply IH; [|intros; apply Hk; by right].
  intros id' s' [[<- ->]|[_ ?]]%lookup_insert_Some; [split; [apply Hk; by left|done]|by apply Hm].
Qed.

Section restore.
Context `{HUnicode : Unicode} `{HDigest : Digest}.
Variable e : Engine.
Hypothesis He : restorable e.

Lemma state_rooted : rooted (StateDir (config e)) = true.
Proof. apply validate_rooted, He. Qed.

(** Targets are files away from the state directory. *)
Lemma target_good en source :
  good_entry en -> source_map (Sources (config e)) !! e_SourceID en = Some source ->
  named (target_of source en) /\ ~ at_or_below (StateDir (config e)) (target_of source en).
Proof.
  intros (_ & Hp & _) [Hin _]%source_map_in. pose proof (rs_sources e He) as Hs. rewrite Forall_forall in Hs.
  destruct (Hs source Hin) as (_ & Hclean & Ha1 & Ha2).
  destruct (validate_rooted _ (rs_valid e He)) as [_ Hr]. rewrite Forall_forall in Hr. specialize (Hr source Hin).
  assert (Hl : exists l, target_of source en = abs (clean_comps (so_Path source) ++ l)%list /\ Forall good_comp l).
  { unfold target_of. destruct (_ && _).
    - exists (rel_comps (e_Path en)). split; [by apply path_join_relative|by apply rel_comps_good].
    - exists []. rewrite app_nil_r. split; [|done]. by rewrite <- clean_rooted. }
  destruct Hl as (l & -> & Hl).
  assert (Hg : Forall good_comp (clean_comps (so_Path source) ++ l)%list) by (apply Forall_app; split; [by apply clean_comps_good|done]).
  split.
  - destruct (exists_last (l := (clean_comps (so_Path source) ++ l)%list)) as (k & x & Hk).
    { intros [Hn _]%app_eq_nil. apply Ha1. rewrite Hn. apply prefix_nil. }
    rewrite Hk in *. by exists k, x.
  - intros [_ Hpre]. rewrite clean_comps_abs in Hpre by done.
    destruct (prefix_weak_total (clean_comps (so_Path source)) (clean_comps (StateDir (config e))) _ (prefix_app_r _ _ _ (reflexivity _)) Hpre); done.
Qed.

(** The stage of a restoration. *)
Definition is_stage (stage : string) : Prop := exists n, good_comp n /\ stage = path_join (StateDir (config e)) n.

Lemma stage_facts stage : is_stage stage ->
  rooted stage = true /\ forall p, at_or_below stage p -> at_or_below (StateDir (config e)) p.
Proof.
  intros (n & Hn & ->). rewrite path_join_one by (done || apply state_rooted). split; [apply abs_rooted|].
  intros p [Hp Hpre]. split; [done|]. etrans; [|exact Hpre]. rewrite clean_comps_abs; [by apply prefix_app_r|].
  apply Forall_app. split; [apply clean_comps_good, state_rooted|by apply Forall_singleton].
Qed.

Lemma good_targets_of stage m : is_stage stage -> consistent e m -> good_targets stage (source_map (Sources (config e))) (m_Entries m).
Proof.
  intros Hst Hc en source Hin Hs. pose proof (c_entries e m Hc) as Hg. rewrite Forall_forall in Hg.
  destruct (target_good en source (Hg en Hin) Hs) as [Hn Ho]. split; [done|]. intros Hb. apply Ho. by apply (stage_facts stage).
Qed.

Definition command_only X (c : bk_call X) : Prop := match c with Command _ _ => True | _ => False end.

Lemma command_runs {A} (p : bk_prog A) f a f' : always command_only (fun _ => True) p -> on_files p f a f' -> f' = f.
Proof.
  intros Hp H. symmetry. eapply (runs_always _ _ _ eq); [exact Hp| |exact H]. intros X c g x g' Hc Hs. by destruct c.
Qed.

Lemma AfterRestore_commands c : always command_only (fun _ => True) (AfterRestore c).
Proof.
  split; [done|]. intros [output [err|]]; [done|]. cbn [bind call].
  generalize ["opendeploy-agent.service"; "opendeploy-core.service"]. intros l.
  induction l as [|u l IH]; [done|]. cbn [restart_units]. split; [done|]. intros [o [er|]]; [done|]. split; [done|]. by intros [o' [er'|]].
Qed.

Lemma BeforeRestore_commands c : always command_only (fun _ => True) (BeforeRestore c).
Proof.
  unfold BeforeRestore. generalize ["opendeploy-core.service"; "opendeploy-agent.service"]. intros l.
  induction l as [|u l IH]; [done|]. cbn [stop_units]. split; [done|]. by intros [o [er|]].
Qed.

(** A restoration that is done: every target is the file of the archive. *)
Definition in_place (m : Manifest) (f f' : files) : Prop :=
  NoDup (target_in (source_map (Sources (config e))) <$> m_Entries m) ->
  (forall en, en ∈ m_Entries m -> ~ at_or_below (StateDir (config e)) (target_in (source_map (Sources (config e))) en) /\
     exists c, f' !! target_in (source_map (Sources (config e))) en = Some c /\ len c = e_Size en /\ sha256_hex c = e_SHA256 en) /\
  (forall p, ~ at_or_below (StateDir (config e)) p -> p ∉ (target_in (source_map (Sources (config e))) <$> m_Entries m) ->
     f' !! p = f !! p).

Section stage.
Variables (stage archivePath : string) (Hstage : is_stage stage).

(** What the extraction left in the stage. *)
Definition extracted_in (m : Manifest) (ex : gmap string string) (f : files) : Prop :=
  consistent e m /\ forall en, en ∈ m_Entries m -> ex !! entry_key en = Some (path_join stage (entry_key en)) /\
    exists data, f !! path_join stage (entry_key en) = Some data /\ len data = e_Size en /\ sha256_hex data = e_SHA256 en.

Lemma extracted_apart m en : consistent e m -> en ∈ m_Entries m ->
  is_Some (source_map (Sources (config e)) !! e_SourceID en) ->
  at_or_below stage (path_join stage (entry_key en)) /\ ~ at_or_below (rollback_dir stage) (path_join stage (entry_key en)).
Proof.
  intros Hc Hin [source [Hs Hid]%source_map_in]. destruct (stage_facts stage Hstage) as [Hr _].
  pose proof (c_entries e m Hc) as Hg. rewrite Forall_forall in Hg. pose proof (Hg en Hin) as (Hsafe & Hp & _).
  apply safeSourceID_good in Hsafe. split; [by apply below_at, key_below, Hg|]. intros [_ Hpre].
  unfold entry_key in Hpre. rewrite path_join_key in Hpre by done. unfold rollback_dir in Hpre. rewrite path_join_one in Hpre by done.
  pose proof (clean_comps_good stage Hr) as Hst. rewrite !clean_comps_abs in Hpre.
  - apply prefix_app_inv in Hpre. apply prefix_cons_inv_1 in Hpre.
    pose proof (rs_sources e He) as Hsrc. rewrite Forall_forall in Hsrc. destruct (Hsrc source Hs) as [Hne _]. congruence.
  - apply Forall_app. split; [done|]. constructor; [done|]. by apply rel_comps_good.
  - apply Forall_app. split; [done|by apply Forall_singleton].
Qed.

Lemma restore_entries_mapped m ex changed f ch f' l :
  on_files (restore_entries stage m ex changed l) f (Ok ch) f' -> forall en, en ∈ l -> is_Some (m !! e_SourceID en).
Proof.
  revert changed f. induction l as [|x l IH]; intros changed f H en Hin; [by apply elem_of_nil in Hin|]. cbn [restore_entries] in H.
  destruct (m !! e_SourceID x) as [source|] eqn:Hs; [|by destruct H].
  apply runs_try in H as [(item & f1 & _ & H)|(err & _ & [=])]. cbv zeta in H. apply runs_bind in H as (copied & f2 & _ & H).
  destruct copied as [|err]; [|by apply runs_bind in H as (rb & f3 & _ & [[=] _])].
  apply elem_of_cons in Hin as [->|Hin]; [by rewrite Hs|by eapply IH].
Qed.

Lemma restore_files_runs m ex f out f' :
  on_files (restore_files e stage ex m) f out f' -> extracted_in m ex f ->
  match fst out with
  | None => in_place m f f'
  | Some err => was_undone err -> restored stage f f'
  end.
Proof.
  unfold restore_files. intros (r & f1 & H1 & H)%runs_bind [Hcons Hex]. destruct (stage_facts stage Hstage) as [Hr Hsd].
  pose proof (good_targets_of stage m Hstage Hcons) as Hgood.
  pose proof (restore_entries_runs stage Hr _ ex f _ Hgood [] f r f1 (kept_start stage f) H1) as Hkept.
  destruct r as [ch|err]; [|by destruct H as [-> ->]].
  assert (Hplace : in_place m f f1).
  { intros Hnd. pose proof (restore_entries_mapped _ _ _ _ _ _ _ H1) as Hmap.
    destruct (restore_entries_content stage Hr _ ex _ Hgood Hnd) with (changed := @nil restoreTarget) (f := f) (ch := ch) (f' := f1) as [Hother Hdone]; [|done|].
    { intros en Hin. destruct (Hex en Hin) as [-> _]. apply (extracted_apart m); auto. }
    split.
    - intros en Hin. split.
      + destruct (Hmap en Hin) as [source Hs]. unfold target_in. rewrite Hs. apply target_good; [|done].
        pose proof (c_entries e m Hcons) as Hg. rewrite Forall_forall in Hg. by apply Hg.
      + destruct (Hdone en Hin) as [_ ->]. destruct (Hex en Hin) as [-> ?]. done.
    - intros p Hp Hnot. apply Hother; [done|]. intros Hb. apply Hp, Hsd. destruct Hb as [Hpr Hpre]. split; [done|].
      etrans; [|exact Hpre]. unfold rollback_dir. rewrite path_join_one by done. rewrite clean_comps_abs; [by apply prefix_app_r|].
      apply Forall_app. split; [by apply clean_comps_good|by apply Forall_singleton]. }
  destruct (has_runtime e); [|by destruct H as [-> ->]].
  apply runs_bind in H as (after & f2 & ->%command_runs & H); [|apply AfterRestore_commands].
  destruct after as [u|err]; [by destruct H as [-> ->]|].
  apply runs_bind in H as (rb & f2 & Hrb & H). apply runs_bind in H as (rec & f3 & ->%command_runs & H); [|apply AfterRestore_commands].
  destruct H as [-> ->]. intros Hu. destruct rb; [done|]. by eapply undo_restores.
Qed.

Definition outcome (m : Manifest) (err : option bk_error) (f f' : files) : Prop :=
  match err with
  | None => in_place m f f'
  | Some err => was_undone err -> forall p, ~ at_or_below (StateDir (config e)) p ->
      f' !! p = f !! p \/ (restore_temp p /\ f !! p = None)
  end.

Definition plain_out (out : Manifest * result bk_error (gmap string string)) : Prop :=
  match snd out with Err err => plain err | Ok _ => True end.
Definition plain_result {A} (r : result bk_error A) : Prop := match r with Err err => plain err | Ok _ => True end.
Definition any X (c : bk_call X) : Prop := True.

Lemma extract_entries_plain a n expected ex : always any plain_result (extract_entries a stage n expected ex).
Proof.
  revert expected ex. induction n as [|n IH]; intros expected ex; cbn [extract_entries].
  all: split; [done|]; intros [err|]; [done|]; split; [done|]; intros [header| |err]; cbn [bind call]; [|by case_bool_decide|done].
  all: destruct (_ || _); [done|]; cbv zeta; destruct (expected !! _) as [en|]; [|done]; destruct (negb _); [done|].
  all: apply always_bind with (Q := plain_result); [|intros [target|err] Hq; [try done; apply IH|exact Hq]].
  all: unfold extract_body; apply always_bind with (Q := plain_result).
  1,3: destruct (out_of _ _); [|done]; split; [done|]; intros [|]; [|done]; split; [done|]; by intros [|].
  all: intros [u|err] Hq; [|exact Hq]; split; [done|]; intros [data copyErr]; cbn [bind call].
  all: apply always_bind with (Q := fun _ => True); [by destruct (out_of _ _); [split|]|]; intros closed _; cbv zeta.
  all: destruct (_ && _); [done|]; unfold plain_result; simpl; by destruct (join_err _ _).
Qed.

Lemma check_manifest_plain m : plain_result (check_manifest e m).
Proof.
  unfold check_manifest. destruct (_ || _); [done|]. cbn [fail_if bind_result].
  assert (Hc : forall l d, plain_result (check_entries e d l)).
  { intros l. induction l as [|en l IH]; intros d; cbn [check_entries]; [done|]. by destruct (bad_entry e d en). }
  specialize (Hc (m_Entries m) {| d_expected := ∅; d_present := ∅; d_bytes := 0 |}).
  destruct (check_entries e _ _) as [d|err]; cbn [bind_result]; [|exact Hc]. destruct (_ || _); [done|]. cbn [fail_if bind_result].
  assert (Hr : forall l, plain_result (check_required (d_present d) l)).
  { intros l. induction l as [|s l IH]; cbn [check_required]; [done|]. by destruct (_ && _). }
  specialize (Hr (Sources (config e))). destruct (check_required _ _) as [|err]; cbn [bind_result]; [done|exact Hr].
Qed.

Lemma extract_error f m err f' : on_files (extractVerified e archivePath stage) f (m, Err err) f' -> plain err.
Proof.
  intros [tr Hx]%runs_exec. assert (Hp : always any plain_out (extractVerified e archivePath stage)).
  { unfold extractVerified. destruct (validate (config e)); [|done].
    apply always_bind with (Q := plain_result); [split; [done|]; by intros [|]|]. intros [|err'] Hq; [|exact Hq]. unfold defer.
    apply always_bind with (Q := plain_out); [|intros [] Hq'; by split].
    split; [done|]. intros [|err']; [|done]. cbn [bind call].
    apply always_bind with (Q := plain_out); [|intros [] Hq'; by split].
    apply always_bind with (Q := fun out => match snd out with Some err => plain err | None => True end).
    - split; [done|]. intros [header| |]; [|done..]. cbn [bind call]. destruct (_ || _); [done|]. split; [done|]. intros data.
      cbn [bind call]. destruct (decode_manifest data); [done|]. split; [done|]. by intros [].
    - intros [m1 [err1|]] Hq'; [exact Hq'|]. pose proof (check_manifest_plain m1) as Hc.
      destruct (check_manifest e m1); [|exact Hc]. eapply always_bind; [apply extract_entries_plain|]. intros r Hr'. exact Hr'. }
  destruct (always_exec _ _ _ _ _ Hp Hx) as [Hq _]. exact Hq.
Qed.

Lemma restore_stage_runs f m err f' :
  on_files (restore_stage e archivePath stage) f (m, err) f' -> outcome m err f f'.
Proof.
  destruct (stage_facts stage Hstage) as [Hr Hsd].
  unfold restore_stage. intros ([m1 r] & f1 & Hx & H)%runs_bind.
  assert (Hsame : same_outside stage f f1).
  { eapply (runs_always _ _ _ _ _ _ _ _ (extractVerified_below e archivePath stage Hr (rs_max e He))); [|exact Hx].
    intros X c g x g'. apply stays_below_same. }
  destruct r as [ex|err1]; [|destruct H as [[= -> ->] ->]; intros Hu; by apply extract_error, plain_not_undone in Hx].
  pose proof (extractVerified_runs e archivePath stage f m1 ex f1 Hr (rs_max e He) Hx) as Hin.
  destruct (check_sources _ _) eqn:Hcs.
  2:{ destruct H as [[= -> ->] ->]. intros Hu. exfalso. clear -Hcs Hu. revert Hcs.
      induction (m_Entries m1) as [|en l IH]; cbn [check_sources]; [done|]. destruct (_ !! _); [done|]. by intros [= <-]. }
  apply runs_bind in H as (prepared & f2 & Hp & H).
  assert (f2 = f1) as ->.
  { destruct (has_runtime e); [|by destruct Hp as [_ ->]]. eapply command_runs; [apply BeforeRestore_commands|exact Hp]. }
  destruct prepared as [u|err1]; [|destruct H as [[= -> ->] ->]; by intros []].
  apply runs_bind in H as ([err1 prep] & f2 & Hf & H). apply restore_files_runs in Hf; [|exact Hin]. cbn [fst] in Hf.
  assert (Hend : m = m1 /\ f' = f2 /\ (err = err1 \/ exists err0 l, err1 = Some err0 /\ err = Some (Joined (err0 :: l)))).
  { destruct err1 as [err1|]; [|by destruct H as [[= -> ->] ->]; auto]. destruct prep; [|by destruct H as [[= -> ->] ->]; auto].
    apply runs_bind in H as (after & f3 & ->%command_runs & [[= -> ->] ->]); [|apply AfterRestore_commands].
    split_and!; [done..|]. right. exists err1. destruct after; by eexists. }
  destruct Hend as (-> & -> & Herr). unfold outcome.
  assert (Hundo : forall err0, err1 = Some err0 -> was_undone err0 -> forall p, ~ at_or_below (StateDir (config e)) p ->
    f2 !! p = f !! p \/ (restore_temp p /\ f !! p = None)).
  { intros err0 -> Hu p Hpo. assert (Hps : outside stage p) by (intros Hb; by apply Hpo, Hsd).
    destruct (Hf Hu p Hps) as [->|[? ?]]; rewrite <- ?(Hsame p Hps); auto. }
  destruct Herr as [->|(err0 & l & -> & ->)]; [|intros Hu; apply (Hundo err0); [done|]; by destruct err0].
  destruct err1 as [err1|].
  - by apply Hundo.
  - intros Hnd. destruct (Hf Hnd) as [H1 H2]. split; [done|]. intros p Hpo Hnot. rewrite H2 by done. apply Hsame. intros Hb. by apply Hpo, Hsd.
Qed.
End stage.
End restore.

Section restore_theorem.
Context `{HUnicode : Unicode} `{HDigest : Digest}.

(** The history is in the state directory. *)
Definition touches_history (e : Engine) X (c : bk_call X) : Prop :=
  match c with
  | MkdirAll _ _ | SyncFile _ | CloseFile _ => True
  | OpenAppend p _ | WriteData p _ => p = history_path e
  | _ => False
  end.

Lemma appendHistory_same (e : Engine) o f x f' : rooted (StateDir (config e)) = true ->
  on_files (appendHistory e o) f x f' -> same_outside (StateDir (config e)) f f'.
Proof.
  intros Hr H. assert (Hb : at_or_below (StateDir (config e)) (history_path e)).
  { unfold history_path. rewrite path_join_one by done. split; [apply abs_rooted|]. rewrite clean_comps_abs; [by apply prefix_app_r|].
    apply Forall_app. split; [by apply clean_comps_good|by apply Forall_singleton]. }
  assert (Hp : always (touches_history e) (fun _ => True) (appendHistory e o)).
  { unfold appendHistory. split; [done|]. intros [|]; [|done]. cbn [bind call map_err]. destruct (marshal_operation o); [|done].
    split; [done|]. intros [|]; [|done]. cbn [bind call map_err]. split; [done|]. intros [|]; split; try done; intros [|]; by split. }
  eapply (runs_always _ _ _ _ _ _ _ _ Hp); [|exact H]. intros X c g y g' Hc Hs p Hpo.
  assert (Hput : forall c, (<[history_path e := c]> g) !! p = g !! p) by (intros c'; rewrite lookup_insert_ne; [done|]; by intros <-).
  destruct c; cbn [touches_history bk_sem] in *; try done; subst; try done.
  - destruct Hs as [[_ ->]|[_ ->]]; [apply Hput|done].
  - destruct Hs as [[_ ->]|[_ [n ->]]]; apply Hput.
Qed.

(** C19. A restoration is all or nothing.  When it succeeds and no two entries have the
    same target, every file of the archive is in its place with the size and the digest
    the manifest declares, and no other file changed.  When it reports that it was rolled
    back, and no error of the rollback, every file is as it was, whatever failed in
    between.  This is of a disk without symbolic links (restoring replaces a link by a
    file), and of the files outside the engine's own state directory that are not
    temporary files of a copy, one of which may be left over. *)
Theorem restore_all_or_nothing (e : Engine) archivePath f m err f' :
  restorable e -> on_files (Restore e archivePath) f (m, err) f' -> outcome e m err f f'.
Proof.
  intros He H. unfold Restore in H. apply runs_bind in H as (prepared & f1 & Hp & H).
  assert (f1 = f /\ plain_result prepared) as [-> Hplain].
  { unfold prepare in Hp. rewrite (rs_valid e He) in Hp. cbn [map_err] in Hp. apply runs_try in Hp as [(u & f2 & [_ ->] & Hp)|(err' & [[=] _] & _)].
    apply runs_wrap in Hp as [(u2 & f2 & ->%runs_call & Hp)|(err' & ->%runs_call & ->)]; [|done].
    by apply runs_wrap in Hp as [(u3 & f2 & ->%runs_call & [-> ->])|(err' & ->%runs_call & ->)]. }
  destruct prepared as [u|err1]; [|destruct H as [[= -> ->] ->]; intros Hu; by apply plain_not_undone in Hplain].
  apply runs_bind in H as (started & f1 & ->%runs_call & H). cbv zeta in H.
  apply runs_bind in H as (made & f1 & Hm%runs_call & H). cbn [bk_sem] in Hm. destruct Hm as [-> Hm].
  apply runs_bind in H as ([m1 err1] & f1 & Hr & H). apply runs_bind in H as (fin & f2 & ->%runs_call & H).
  apply runs_bind in H as (x & f2 & Ha & [[= -> ->] ->]). apply (appendHistory_same e) in Ha; [|by apply state_rooted].
  destruct made as [stage|err2]; [|destruct Hr as [[= -> ->] ->]; by intros []].
  destruct Hm as [[]|(n & Hn & [= ->] & _)].
  assert (Hst : is_stage e (path_join (StateDir (config e)) n)) by (exists n; split; [apply Hn|done]).
  destruct (stage_facts e He _ Hst) as [_ Hsd].
  apply runs_defer in Hr as (f3 & rm & Hr & Hrm%runs_call). cbn [bk_sem] in Hrm.
  apply (restore_stage_runs e He _ archivePath Hst) in Hr.
  assert (Hsame : same_outside (StateDir (config e)) f3 f2).
  { transitivity f1; [|done]. intros p Hpo. apply Hrm. intros Hb. by apply Hpo, Hsd. }
  destruct err1 as [err1|]; cbn [outcome] in *.
  - intros Hu p Hpo. rewrite (Hsame p Hpo). by apply Hr.
  - intros Hnd. destruct (Hr Hnd) as [Hin Hother]. split.
    + intros en Hin'. destruct (Hin en Hin') as (Hout & c & Hc & ?). split; [done|]. exists c. split; [|done]. by rewrite Hsame.
    + intros p Hpo Hnot. rewrite (Hsame p Hpo). by apply Hother.
Qed.
End restore_theorem.

(** ** Runs that can be computed

    Every call succeeds, except that copy number [broken] breaks off; [dirs] are
    directories. *)

Record host := { h_files : files; h_body : string; h_archive : list (tar_header * string); h_copies : nat }.

Definition set_files (h : host) (f : files) : host :=
  {| h_files := f; h_body := h_body h; h_archive := h_archive h; h_copies := h_copies h |}.

Section drive.
Variables (dirs : list string) (broken : option nat).

Definition stat_of (h : host) (p : string) : result stat_error file_info :=
  match h_files h !! p with
  | Some _ => Ok {| fi_kind := Regular; fi_perm := 420 |}
  | None => if existsb (String.eqb p) dirs then Ok {| fi_kind := Directory; fi_perm := 493 |} else Err NotExist
  end.

Definition answer X (c : bk_call X) (h : host) : option (X * host) :=
  let f := h_files h in
  match c in bk_call X return option (X * host) with
  | Now => Some (some_time, h)
  | CtxDone => Some (None, h)
  | MkdirAll _ _ | SyncFile _ | ChmodFile _ _ | CloseFile _ | OpenGzip _ | CloseReader _ => Some (Ok (), h)
  | MkdirTemp d "restore-*" =>
      if bool_decide (map_Forall (fun p _ => ~ at_or_below (path_join d "restore-1") p) f)
      then Some (Ok (path_join d "restore-1"), h) else None
  | RemoveAll d => Some (Ok (), set_files h (filter (fun kv => ~ at_or_below d (fst kv)) f))
  | CreateTemp d pattern =>
      let n := trim_suffix pattern "*" ++ "1" in
      let p := path_join d n in
      if negb (bool_decide (good_comp n) && String.eqb pattern (trim_suffix pattern "*" ++ "*")) then None else
      match f !! p with None => Some (Ok p, set_files h (<[p := ""]> f)) | Some _ => None end
  | Remove p => match f !! p with Some _ => Some (Ok (), set_files h (delete p f)) | None => Some (Err "missing", h) end
  | Rename a b => match f !! a with Some c => Some (Ok (), set_files h (<[b := c]> (delete a f))) | None => Some (Err "missing", h) end
  | Lstat p | Stat p => Some (stat_of h p, h)
  | OpenRead p => match f !! p with Some _ => Some (Ok (), h) | None => Some (Err "missing", h) end
  | OpenExcl p _ => match f !! p with None => Some (Ok (), set_files h (<[p := ""]> f)) | Some _ => Some (Err "exists", h) end
  | OpenAppend p _ => Some (Ok (), set_files h (<[p := default "" (f !! p)]> f))
  | WriteData p data => Some (Ok (), set_files h (<[p := default "" (f !! p) ++ data]> f))
  | CopyAll dst src =>
      match f !! src with
      | None => None
      | Some c =>
          let next := fun c => {| h_files := <[dst := c]> f; h_body := h_body h; h_archive := h_archive h; h_copies := S (h_copies h) |} in
          if bool_decide (broken = Some (h_copies h)) then Some (Some "broken off", next "part") else Some (None, next c)
      end
  | TarNext _ =>
      match h_archive h with
      | [] => Some (NextEOF, h)
      | (hdr, body) :: rest => Some (NextHeader hdr, {| h_files := f; h_body := body; h_archive := rest; h_copies := h_copies h |})
      end
  | TarBody _ limit => Some (take_bytes (Z.to_nat limit) (h_body h), h)
  | CopyN _ (Some p) n => let data := take_bytes (Z.to_nat n) (h_body h) in Some ((data, None), set_files h (<[p := data]> f))
  | CopyN _ None n => Some ((take_bytes (Z.to_nat n) (h_body h), None), h)
  | Command _ _ => Some (("", None), h)
  | _ => None
  end.

Fixpoint drive {A} (p : bk_prog A) (h : host) : option (A * host) :=
  match p with
  | Ret a => Some (a, h)
  | Call c k => '(x, h') ← answer _ c h; drive (k x) h'
  end.

Lemma trim_star pattern r n : pattern = trim_suffix pattern "*" ++ "*" -> n = trim_suffix pattern "*" ++ r -> good_comp n -> temp_name pattern n.
Proof.
  intros Hp -> Hg. split; [done|]. exists (trim_suffix pattern "*"), "", r.
  split_and!; [by rewrite Hp at 1|done|by rewrite str_app_nil_r].
Qed.

Lemma bk_answer_sem X (c : bk_call X) h x h' : answer X c h = Some (x, h') -> bk_sem X c (h_files h) x (h_files h').
Proof.
  assert (Hstat : forall p, stat_sem (h_files h) p (stat_of h p)).
  { intros p. unfold stat_of. destruct (h_files h !! p) as [s|] eqn:Hp; [by simpl; rewrite Hp|]. destruct (existsb _ _); [|done].
    simpl. rewrite Hp. split; [done|]. split; [done|]. by intros [? ?]. }
  destruct c; cbn [answer bk_sem]; try done; try (by intros [= <- <-]); intros H.
  - repeat (case_match; try done). case_bool_decide as Hnone; [|done]. injection H as <- <-. split; [done|]. right. exists "restore-1".
    split_and!; [by apply (trim_star _ "1")|done|]. intros p Hp. apply eq_None_not_Some. intros [c Hc]. by apply (Hnone p c).
  - injection H as <- <-. simpl. intros q Hq. rewrite map_lookup_filter. destruct (h_files h !! q); [|done]. simpl.
    by rewrite option_guard_True.
  - destruct (negb _) eqn:Hok; [done|]. apply negb_false_iff in Hok. propify. apply String.eqb_eq in H1.
    destruct (h_files h !! path_join dir (trim_suffix pattern "*" ++ "1")) eqn:Hp; [done|]. injection H as <- <-. left. simpl.
    exists (trim_suffix pattern "*" ++ "1"). split_and!; [by apply (trim_star _ "1")|done|done|done].
  - destruct (h_files h !! path); injection H as <- <-; [by left|by right].
  - destruct (h_files h !! old) eqn:Hp; injection H as <- <-; [|by right]. left. split; [done|]. by eexists.
  - destruct (h_files h !! path) eqn:Hp; injection H as <- <-; (split; [done|]); [|by left]. right. by eexists.
  - destruct (h_files h !! path) eqn:Hp; injection H as <- <-; [by right|by left].
  - injection H as <- <-. by left.
  - injection H as <- <-. by left.
  - destruct (h_files h !! src) eqn:Hp; [|done]. case_bool_decide; injection H as <- <-; simpl; [right; split; by eexists|].
    left. split; [done|]. by eexists.
  - destruct (h_archive h) as [|[hd b] rest]; by injection H as <- <-.
  - destruct target; injection H as <- <-; [by left|done].
Qed.

Lemma bk_drive_runs {A} (p : bk_prog A) h a h' : drive p h = Some (a, h') -> on_files p (h_files h) a (h_files h').
Proof.
  revert h. induction p as [b|X c k IH]; intros h; simpl; [by intros [= <- <-]|].
  destruct (answer X c h) as [[x h1]|] eqn:Ha; simpl; [|done]. intros Hd.
  exists x, (h_files h1). split; [by eapply bk_answer_sem|by eapply IH].
Qed.

Lemma bk_drive_checked {A} (p : bk_prog A) h (P : A -> files -> bool) :
  match drive p h with Some (a, h') => P a (h_files h') | None => false end = true ->
  exists a f', on_files p (h_files h) a f' /\ P a f' = true.
Proof.
  destruct (drive p h) as [[a h']|] eqn:Hd; [|done]. intros HP. exists a, (h_files h'). split; [by eapply bk_drive_runs|done].
Qed.
End drive.

#[local] Existing Instance unicode_ascii.
#[local] Existing Instance length_digest.

Definition small_host : host := {|
  h_files := list_to_map [("/backups/b.tar.gz", "archive"); ("/etc/nginx/sites/a.conf", "new site"); ("/etc/hosts", "localhost")];
  h_body := ""; h_archive := small_archive; h_copies := 0 |}.

Definition a_restoration : bk_prog (Manifest * option bk_error) := Restore small_engine "/backups/b.tar.gz".

Lemma small_restorable : restorable small_engine.
Proof.
  split; [vm_compute; reflexivity|split; vm_compute; congruence|].
  repeat (constructor; [split_and!; [discriminate|vm_compute; reflexivity|split; apply (bool_decide_unpack _); vm_compute; exact I]|]). constructor.
Qed.

Definition has_file (f : files) (p c : string) : bool := bool_decide (f !! p = Some c).

Lemma a_successful_restoration : exists m f', on_files a_restoration (h_files small_host) (m, None) f' /\
  m_Entries m = m_Entries small_manifest.
Proof.
  destruct (bk_drive_checked [] None a_restoration small_host (fun out f' =>
    match out with (m, None) => bool_decide (m_Entries m = m_Entries small_manifest) | _ => false end))
    as ([m [err|]] & f' & Hr & HP); [vm_compute; reflexivity|done|]. exists m, f'. split; [done|]. by apply bool_decide_eq_true in HP.
Qed.

Lemma a_broken_restoration : exists m err f', on_files a_restoration (h_files small_host) (m, Some err) f' /\ was_undone err.
Proof.
  destruct (bk_drive_checked [] (Some 2) a_restoration small_host (fun out f' =>
    match out with (m, Some (RolledBack _ _ None _)) => true | _ => false end))
    as ([m [err|]] & f' & Hr & HP); [vm_compute; reflexivity| |done]. exists m, err, f'. split; [done|].
  destruct err as [| | | | |? ? [|] ?|]; done.
Qed.

Lemma restore_all_or_nothing_witness :
  (exists m f', on_files a_restoration (h_files small_host) (m, None) f' /\ f' !! "/etc/hosts" = Some "localhost") /\
  (exists m err f', on_files a_restoration (h_files small_host) (m, Some err) f' /\ f' !! "/etc/nginx/sites/a.conf" = Some "new site").
Proof.
  split.
  - destruct a_successful_restoration as (m & f' & Hr & Hm). exists m, f'. split; [exact Hr|].
    pose proof (restore_all_or_nothing small_engine "/backups/b.tar.gz" (h_files small_host) m None f' small_restorable Hr) as Ho.
    cbn [outcome] in Ho. unfold in_place in Ho. rewrite Hm in Ho.
    destruct Ho as [_ Hother]; [apply (bool_decide_unpack _); vm_compute; exact I|].
    rewrite Hother; [vm_compute; reflexivity|apply (bool_decide_unpack _); vm_compute; exact I..].
  - destruct a_broken_restoration as (m & err & f' & Hr & Hu). exists m, err, f'. split; [exact Hr|].
    destruct (restore_all_or_nothing small_engine "/backups/b.tar.gz" (h_files small_host) m (Some err) f' small_restorable Hr Hu
      "/etc/nginx/sites/a.conf") as [->|[_ Hn]]; [apply (bool_decide_unpack _); vm_compute; exact I|vm_compute; reflexivity|].
    vm_compute in Hn. discriminate Hn.
Defined.

(** A target that cannot be replaced ends the restoration without undoing it: when a
    directory is where the second file belongs, the first file has been replaced and
    stays replaced, and the error does not speak of a rollback. *)
Theorem restore_leaves_half :
  exists m err f', on_files a_restoration (h_files small_host) (m, Some err) f' /\ ~ was_undone err /\
    h_files small_host !! "/etc/nginx/sites/a.conf" = Some "new site" /\ f' !! "/etc/nginx/sites/a.conf" = Some "old site".
Proof.
  destruct (bk_drive_checked ["/etc/opendeploy/config.yaml"] None a_restoration small_host (fun out f' =>
    match out with (m, Some (Msg _)) => has_file f' "/etc/nginx/sites/a.conf" "old site" | _ => false end))
    as ([m [err|]] & f' & Hr & HP); [vm_compute; reflexivity| |done]. exists m, err, f'. split; [done|].
  destruct err; try done. split_and!; [by intros []|vm_compute; reflexivity|]. by apply bool_decide_eq_true in HP.
Qed.

(** The configuration the program runs with can be restored. *)
Lemma default_restorable v runtime : restorable {| config := DefaultConfig; version := v; has_runtime := runtime |}.
Proof.
  split; [vm_compute; reflexivity|split; vm_compute; congruence|].
  repeat (constructor; [split_and!; [discriminate|vm_compute; reflexivity|split; apply (bool_decide_unpack _); vm_compute; exact I]|]). constructor.
Qed.
