(* ===== verification/Updater.v ===== *)
(** * The Core side of updates

    src/internal/core/updater/service.go: what the Core shows about releases and the
    requests it leaves for the privileged worker (the update command of
    src/cmd/cli/main.go).  Requests and histories travel through files that the Agent
    reads and writes. *)

From S2P Require Import Prelude GoStrings GoStrconv GoPath GoRegexp GoTime GoJson GoStruct Effects UpdateManifest BackupTypes.
Local Open Scope string_scope.
Local Open Scope go_scope.

(** ** Versions *)

(** source: internal/core/updater/service.go:320-323 (parsedVersion) *)
Record parsedVersion := { pv_numbers : Z * Z * Z; pv_pre : string }.

(** The characters of [0-9A-Za-z.-]. *)
Definition pre_byte (c : ascii) : bool := is_alnum c || Ascii.eqb c "." || Ascii.eqb c "-".

(** The longest prefix of bytes in a class, and the rest. *)
Fixpoint span (p : ascii -> bool) (s : string) : string * string :=
  match s with
  | String c s' => if p c then let '(a, r) := span p s' in (String c a, r) else ("", s)
  | "" => ("", "")
  end.

(** [(\d+)] *)
Definition digits_group (s : string) : option (string * string) :=
  match span is_digit s with ("", _) => None | (d, r) => Some (d, r) end.

Definition skip_byte (c : ascii) (s : string) : option string :=
  match s with String a s' => if Ascii.eqb a c then Some s' else None | "" => None end.

(** source: internal/core/updater/service.go:292 (versionPattern): the groups of the match
    at the start of a text, which may go on after it.  A run of digits and a point have no
    character in common, so there is one way to match. *)
Definition version_groups (s : string) : option (string * string * string * string) :=
  let s := match s with String "v" s' => s' | _ => s end in
  '(a, s) ← digits_group s; s ← skip_byte "." s;
  '(b, s) ← digits_group s; s ← skip_byte "." s;
  '(c, s) ← digits_group s;
  Some (a, b, c, match s with String "-" s' => fst (span pre_byte s') | _ => "" end).

(** source: internal/core/updater/service.go:325-340 (parseVersion) *)
Definition parseVersion (value : string) : option parsedVersion :=
  '(a, b, c, pre) ← version_groups (trim_space value);
  a ← atoi a; b ← atoi b; c ← atoi c;
  Some {| pv_numbers := (a, b, c); pv_pre := pre |}.

(** source: internal/core/updater/service.go:348-363 (comparePrerelease, the identifiers) *)
Definition compare_part (l r : string) : Z :=
  match atoi l, atoi r with
  | Some ln, Some rn => if (rn <? ln)%Z then 1 else -1
  | Some _, None => -1
  | None, Some _ => 1
  | None, None => match String.compare l r with Gt => 1 | _ => -1 end
  end.

(** source: internal/core/updater/service.go:344-371 (comparePrerelease, the loop) *)
Fixpoint compare_parts (l r : list string) : Z :=
  match l, r with
  | [], [] => 0
  | [], _ => -1
  | _, [] => 1
  | x :: l', y :: r' => if String.eqb x y then compare_parts l' r' else compare_part x y
  end.

(** source: internal/core/updater/service.go:342-372 (comparePrerelease) *)
Definition comparePrerelease (left right : string) : Z := compare_parts (split "." left) (split "." right).

(** source: internal/core/updater/service.go:300-307 (compareVersions, the numbers) *)
Definition compare_numbers (l r : Z * Z * Z) : Z :=
  let '(l1, l2, l3) := l in let '(r1, r2, r3) := r in
  if (r1 <? l1)%Z then 1 else if (l1 <? r1)%Z then -1
  else if (r2 <? l2)%Z then 1 else if (l2 <? r2)%Z then -1
  else if (r3 <? l3)%Z then 1 else if (l3 <? r3)%Z then -1 else 0.

(** source: internal/core/updater/service.go:294-318 (compareVersions) *)
Definition compareVersions (left right : string) : Z :=
  match parseVersion left, parseVersion right with
  | Some l, Some r =>
      let n := compare_numbers (pv_numbers l) (pv_numbers r) in
      if negb (n =? 0)%Z then n
      else if String.eqb (pv_pre l) (pv_pre r) then 0
      else if String.eqb (pv_pre l) "" then 1
      else if String.eqb (pv_pre r) "" then -1
      else comparePrerelease (pv_pre l) (pv_pre r)
  | _, _ => 0
  end.

(** ** Calls *)

(** [Select] is one turn of the loop that waits for a backup: the context ended, or the
    ticker ticked. *)
Inductive waited := Done (err : string) | Ticked.

Inductive core_call : Set -> Set :=
| Now : core_call time
| FileRead (path : string) : core_call (result string string)
| FileWrite (path content : string) (mode : Z) : core_call (result string ())
| NewRequest (url : string) : core_call (result string ())
| HttpDo (url : string) (headers : list (string * string)) : core_call (result string (Z * string))
| DecodeError (body : string) : core_call string
| Select : core_call waited.

Notation core_prog A := (prog core_call A).

Inductive core_error :=
| Failure (msg : string)
| Wrapped (msg : string) (err : string)
| ErrOperationQueued.

(** ** The service *)

(** source: internal/core/updater/service.go:30-39 (Status) *)
Record Status := {
  s_CurrentVersion : string; s_CurrentCommit : string; s_LatestVersion : string; s_LatestCommit : string;
  s_UpdateAvailable : bool; s_ReleaseURL : string; s_UpdateURL : string; s_PublishedAt : option time }.

(** source: internal/core/updater/service.go:46-54 (Service): [has_agent] says whether the
    field [agent] is set *)
Record Service := {
  currentVersion : string; currentCommit : string; has_agent : bool; cached : option Status; cachedAt : time }.

(** source: internal/core/updater/service.go:56-63 (NewService) *)
Definition NewService (v c : string) (agent : bool) : Service :=
  {| currentVersion := v; currentCommit := c; has_agent := agent; cached := None; cachedAt := zero_time |}.

(** source: internal/core/updater/service.go:21-24 (releasesURL, updateRequest) *)
Definition releasesURL : string := "https://api.github.com/repos/anrted/opendeploy/releases/latest".
(** source: internal/core/updater/service.go:21-24 (releasesURL, updateRequest) *)
Definition updateRequest : string := "/var/lib/opendeploy/update.request".

(** source: internal/core/updater/service.go:270-290 (getGitHub): [decode] is the decoder of
    the destination's type *)
Definition getGitHub {A} (s : Service) (decode : string -> option A) (url : string) : core_prog (result core_error A) :=
  wrap! (Wrapped "updates: create request") of _ := call (NewRequest url) in
  wrap! (Wrapped "updates: request GitHub") of (status, body) :=
    call (HttpDo url [("Accept", "application/vnd.github+json"); ("User-Agent", "OpenDeploy/" ++ currentVersion s)]) in
  if negb (status =? 200)%Z then Ret (Err (Failure ("updates: GitHub returned HTTP " ++ itoa status)))
  else
    let limited := take_bytes (Z.to_nat (2 ^ 20)) body in
    match decode limited with
    | Some a => Ret (Ok a)
    | None => let! err := call (DecodeError limited) in Ret (Err (Wrapped "updates: decode GitHub response" err))
    end.

(** source: internal/core/updater/service.go:73-82 (Check, the release it reads) *)
Record latest_release := mkLatest {
  l_TagName : string; l_HTMLURL : string; l_PublishedAt : time; l_Draft : bool; l_Prerelease : bool; l_Assets : list string }.
Definition latest_fields : fields_of latest_release := [
  ("tag_name", set_string (fun s '(mkLatest _ u p d r l) => mkLatest s u p d r l));
  ("html_url", set_string (fun s '(mkLatest t _ p d r l) => mkLatest t s p d r l));
  ("published_at", set_time (fun x '(mkLatest t u _ d r l) => mkLatest t u x d r l));
  ("draft", set_bool (fun b '(mkLatest t u p _ r l) => mkLatest t u p b r l));
  ("prerelease", set_bool (fun b '(mkLatest t u p d _ l) => mkLatest t u p d b l));
  ("assets", set_list "" (decode_struct false [("name", set_string (fun s _ => s))]) l_Assets
     (fun l '(mkLatest t u p d r _) => mkLatest t u p d r l)) ].
Definition decode_latest (s : string) : option latest_release :=
  decode_first false latest_fields (mkLatest "" "" zero_time false false []) s.

(** source: internal/core/updater/service.go:89-92 (Check, the map of required assets) *)
Definition required_assets : list string := ["release-manifest.json"; "release-manifest.json.bundle"].

(** source: internal/core/updater/service.go:98-102 (Check, the second loop): [order] is the
    order in which the map is visited *)
Fixpoint check_assets (order present : list string) (newer : bool) : result core_error () :=
  match order with
  | [] => Ok ()
  | name :: order' =>
      if negb (existsb (String.eqb name) present) && newer
      then Err (Failure ("updates: latest release is missing signed asset " ++ name))
      else check_assets order' present newer
  end.

Definition minute : Z := 60 * 10 ^ 9.

Section service.
Variable order : list string.

(** source: internal/core/updater/service.go:65-118 (Check): the service keeps the status it
    computed *)
Definition Check (s : Service) : core_prog (Service * result core_error Status) :=
  let! fresh :=
    match cached s with
    | None => Ret None
    | Some status => let! now := call Now in
        Ret (if (instant now - instant (cachedAt s) <? minute)%Z then Some status else None)
    end in
  match fresh with
  | Some status => Ret (s, Ok status)
  | None =>
      let! r := getGitHub s decode_latest releasesURL in
      match r with
      | Err err => Ret (s, Err err)
      | Ok latest =>
          if String.eqb (l_TagName latest) "" || l_Draft latest || l_Prerelease latest
          then Ret (s, Err (Failure "updates: no published stable release found"))
          else
            let newer := (0 <? compareVersions (l_TagName latest) (currentVersion s))%Z in
            match check_assets order (l_Assets latest) newer with
            | Err err => Ret (s, Err err)
            | Ok _ =>
                let status := {|
                  s_CurrentVersion := currentVersion s; s_CurrentCommit := currentCommit s;
                  s_LatestVersion := l_TagName latest; s_LatestCommit := ""; s_UpdateAvailable := newer;
                  s_ReleaseURL := l_HTMLURL latest; s_UpdateURL := l_HTMLURL latest;
                  s_PublishedAt := Some (l_PublishedAt latest) |} in
                let! now := call Now in
                Ret ({| currentVersion := currentVersion s; currentCommit := currentCommit s; has_agent := has_agent s;
                        cached := Some status; cachedAt := now |}, Ok status)
            end
      end
  end.

(** source: internal/core/updater/service.go:253-268 (writeRequest) *)
Definition writeRequest (s : Service) (request : UpdateRequest) : core_prog (result core_error ()) :=
  if negb (has_agent s) then Ret (Err (Failure "updates: Agent is unavailable"))
  else if negb (Validate request) then Ret (Err (Failure "update: invalid update request"))
  else
    let! current := call (FileRead updateRequest) in
    if match current with Ok data => negb (String.eqb (trim_space data) "") | Err _ => false end
    then Ret (Err ErrOperationQueued)
    else
      match marshal_request request with
      | None => Ret (Err (Failure "json: error calling MarshalJSON for type time.Time"))
      | Some content => wrap! Failure of _ := call (FileWrite updateRequest (line_of content) 384) in Ret (Ok ())
      end.

Definition request (operation tag transaction archive reason : string) (now : time) : UpdateRequest := {|
  r_Schema := "opendeploy.update-request/v1"; r_Operation := operation; r_Tag := tag; r_TransactionID := transaction;
  r_Archive := archive; r_Reason := reason; r_RequestedAt := now |}.

(** source: internal/core/updater/service.go:120-139 (Apply) *)
Definition Apply (s : Service) (updateType : string) : core_prog (Service * result core_error ()) :=
  if negb (has_agent s) then Ret (s, Err (Failure "updates: Agent is unavailable"))
  else if negb (String.eqb updateType "") && negb (String.eqb updateType "release") && negb (String.eqb updateType "stable")
  then Ret (s, Err (Failure "updates: only signed stable releases can be installed"))
  else
    let! (s, r) := Check s in
    match r with
    | Err err => Ret (s, Err err)
    | Ok status =>
        if negb (s_UpdateAvailable status) then Ret (s, Err (Failure "updates: OpenDeploy is already up to date"))
        else
          let! now := call Now in
          let! w := writeRequest s (request "apply" (s_LatestVersion status) "" "" "" now) in
          Ret (s, w)
    end.

(** source: internal/core/updater/service.go:149-160 (History, once the file is read) *)
Definition parse_updates (data : string) : result core_error (list HistoryEntry) :=
  match read_jsonl (fun line => String.eqb (trim_space line) "") unmarshal_entry data with
  | Ok entries => Ok entries
  | Err line => Err (Failure ("updates: invalid history line " ++ itoa (Z.of_nat line)))
  end.

(** source: internal/core/updater/service.go:141-161 (History) *)
Definition History (s : Service) : core_prog (result core_error (list HistoryEntry)) :=
  if negb (has_agent s) then Ret (Err (Failure "updates: Agent is unavailable"))
  else
    wrap! (Wrapped "updates: read history") of data := call (FileRead "/var/lib/opendeploy/updates/history.jsonl") in
    Ret (parse_updates data).

(** NUL, carriage return and line feed. *)
Definition control : string := String (ascii_of_nat 0) (String (ascii_of_nat 13) (String newline "")).

(** source: internal/core/updater/service.go:163-175 (Rollback) *)
Definition Rollback (s : Service) (transactionID : string) : core_prog (result core_error ()) :=
  if negb (has_agent s) then Ret (Err (Failure "updates: Agent is unavailable"))
  else if contains_any transactionID ("/" ++ String backslash control) || (128 <? len transactionID)%Z
  then Ret (Err (Failure "updates: invalid rollback transaction ID"))
  else
    let! now := call Now in
    writeRequest s (request "rollback" "" transactionID "" "" now).

(** source: internal/core/updater/service.go:177-185 (CreateBackup) *)
Definition CreateBackup (s : Service) (reason : string) : core_prog (result core_error ()) :=
  if (128 <? len reason)%Z || contains_any reason control then Ret (Err (Failure "backups: invalid reason"))
  else
    let! now := call Now in
    writeRequest s (request "backup" "" "" "" reason now).

(** source: internal/core/updater/service.go:239-250 (BackupHistory, once the file is read) *)
Definition parse_backups (data : string) : result core_error (list Operation) :=
  match read_jsonl (fun line => String.eqb (trim_space line) "") unmarshal_operation data with
  | Ok entries => Ok entries
  | Err line => Err (Failure ("backups: invalid history line " ++ itoa (Z.of_nat line)))
  end.

(** source: internal/core/updater/service.go:231-251 (BackupHistory) *)
Definition BackupHistory (s : Service) : core_prog (result core_error (list Operation)) :=
  if negb (has_agent s) then Ret (Err (Failure "backups: Agent is unavailable"))
  else
    wrap! (Wrapped "backups: read history") of data := call (FileRead "/var/lib/opendeploy/backup-state/history.jsonl") in
    Ret (parse_backups data).

(** source: internal/core/updater/service.go:206-210 (CreateBackupAndWait, the entry it looks for) *)
Definition awaited (reason : string) (requestedAt : time) (entry : Operation) : bool :=
  String.eqb (o_Type entry) "create" && String.eqb (o_Reason entry) reason && negb (before (o_StartedAt entry) requestedAt).

(** source: internal/core/updater/service.go:195-217 (CreateBackupAndWait, the loop): [ticks]
    are left before the deadline.  A ticker of 250 ms ticks 7200 times in the 30 minutes
    of the context; a tick that is due together with the deadline may be served first,
    which is one more. *)
Fixpoint await_backup (s : Service) (reason : string) (requestedAt : time) (ticks : nat) : core_prog (result core_error ()) :=
  match ticks with
  | 0 => Ret (Err (Wrapped "backups: wait for mandatory backup" "context deadline exceeded"))
  | S n =>
      let! w := call Select in
      match w with
      | Done err => Ret (Err (Wrapped "backups: wait for mandatory backup" err))
      | Ticked =>
          let! r := BackupHistory s in
          match r with
          | Err _ => await_backup s reason requestedAt n
          | Ok entries =>
              match List.find (awaited reason requestedAt) (rev entries) with
              | None => await_backup s reason requestedAt n
              | Some entry =>
                  if String.eqb (o_Status entry) "succeeded" then Ret (Ok ())
                  else Ret (Err (Failure ("backups: mandatory backup failed: " ++ o_Error entry)))
              end
          end
      end
  end.

Definition wait_ticks : nat := 7201.

(** source: internal/core/updater/service.go:188-218 (CreateBackupAndWait) *)
Definition CreateBackupAndWait (s : Service) (reason : string) : core_prog (result core_error ()) :=
  let! requestedAt := call Now in
  try! _ := CreateBackup s reason in
  await_backup s reason requestedAt wait_ticks.

(** source: internal/core/updater/service.go:220-229 (RestoreBackup) *)
Definition RestoreBackup (s : Service) (archive : string) : core_prog (result core_error ()) :=
  let! now := call Now in
  let r := request "restore" "" "" archive "" now in
  if negb (Validate r) then Ret (Err (Failure "backups: invalid archive name")) else writeRequest s r.
End service.

(** ** What the updater promises

    Versions are ordered as Semantic Versioning 2.0.0 says, requests reach the worker as
    they were made, and the wait for a backup is fail-closed and ends with the backup. *)

(** *** Semantic versions *)

Inductive ident := Num (n : Z) | Alnum (s : string).

Record semver := { sv_core : Z * Z * Z; sv_pre : list ident; sv_build : string }.

(** Precedence, clause 11 of the specification. *)
Definition ident_compare (x y : ident) : comparison :=
  match x, y with
  | Num n, Num m => (n ?= m)%Z
  | Num _, Alnum _ => Lt
  | Alnum _, Num _ => Gt
  | Alnum s, Alnum t => String.compare s t
  end.

Fixpoint pre_compare (l r : list ident) : comparison :=
  match l, r with
  | [], [] => Eq
  | [], _ => Lt
  | _, [] => Gt
  | x :: l', y :: r' => match ident_compare x y with Eq => pre_compare l' r' | c => c end
  end.

Definition core_compare (l r : Z * Z * Z) : comparison :=
  let '(l1, l2, l3) := l in let '(r1, r2, r3) := r in
  match (l1 ?= r1)%Z with Eq => match (l2 ?= r2)%Z with Eq => (l3 ?= r3)%Z | c => c end | c => c end.

Definition semver_compare (l r : semver) : comparison :=
  match core_compare (sv_core l) (sv_core r) with
  | Eq =>
      match sv_pre l, sv_pre r with
      | [], [] => Eq
      | [], _ => Gt
      | _, [] => Lt
      | p, q => pre_compare p q
      end
  | c => c
  end.

Definition sign (c : comparison) : Z := match c with Lt => -1 | Eq => 0 | Gt => 1 end.

(** Texts of versions, with or without the leading "v". *)
Definition print_ident (x : ident) : string := match x with Num n => itoa n | Alnum s => s end.
Definition print_semver (v : bool) (x : semver) : string :=
  let '(a, b, c) := sv_core x in
  (if v then "v" else "") ++ itoa a ++ "." ++ itoa b ++ "." ++ itoa c
  ++ (match sv_pre x with [] => "" | l => "-" ++ join "." (print_ident <$> l) end)
  ++ (if String.eqb (sv_build x) "" then "" else "+" ++ sv_build x).

Definition ident_byte (c : ascii) : bool := is_alnum c || Ascii.eqb c "-".

(** Numbers fit in 63 bits.  An alphanumeric identifier has a character that is no digit,
    and is not a hyphen followed by a number, which the program takes for a number. *)
Definition valid_ident (x : ident) : Prop :=
  match x with
  | Num n => (0 <= n < 2 ^ 63)%Z
  | Alnum s => str_forall ident_byte s = true /\ str_forall is_digit s = false /\ atoi s = None
  end.

Definition valid_semver (x : semver) : Prop :=
  (let '(a, b, c) := sv_core x in (0 <= a < 2 ^ 63)%Z /\ (0 <= b < 2 ^ 63)%Z /\ (0 <= c < 2 ^ 63)%Z)
  /\ Forall valid_ident (sv_pre x) /\ str_forall pre_byte (sv_build x) = true.

Lemma span_app p a r : str_forall p a = true -> match r with "" => True | String c _ => p c = false end -> span p (a ++ r) = (a, r).
Proof.
  intros Ha Hr. induction a as [|c a IH]; cbn [String.append span].
  - destruct r as [|c r]; [done|]. cbn [span]. by rewrite Hr.
  - cbn [str_forall] in Ha. apply andb_true_iff in Ha as [-> Ha]. by rewrite IH.
Qed.

Lemma itoa_digits n : (0 <= n)%Z -> str_forall is_digit (itoa n) = true /\ itoa n <> "".
Proof. intros Hn. destruct (itoa_numeral n Hn) as (Hd & _ & c & r & Heq & _). split; [done|]. by rewrite Heq. Qed.

Lemma digits_group_itoa n r : (0 <= n)%Z -> match r with "" => True | String c _ => is_digit c = false end ->
  digits_group (itoa n ++ r) = Some (itoa n, r).
Proof.
  intros Hn Hr. destruct (itoa_digits n Hn) as [Hd Hne]. unfold digits_group. rewrite span_app by done.
  by destruct (itoa n).
Qed.

Lemma skip_byte_eq c r : skip_byte c (String c r) = Some r.
Proof. unfold skip_byte. by rewrite Ascii.eqb_refl. Qed.

(** *** The text read back *)

Definition pre_text (l : list ident) : string := join "." (print_ident <$> l).

Lemma byte_classes c : (is_digit c = true -> ident_byte c = true) /\ (ident_byte c = true -> pre_byte c = true /\ c <> "."%char)
  /\ (pre_byte c = true -> is_word_byte c = true /\ c <> "+"%char).
Proof. destruct c as [[] [] [] [] [] [] [] []]; split_and!; intros H; try discriminate H; repeat split; try done. Qed.

Lemma print_ident_bytes x : valid_ident x -> str_forall ident_byte (print_ident x) = true /\ print_ident x <> "".
Proof.
  destruct x as [n|s]; cbn [valid_ident print_ident].
  - intros Hn. destruct (itoa_digits n ltac:(lia)) as [Hd Hne]. split; [|done].
    revert Hd. apply str_forall_mono. intros c. apply byte_classes.
  - intros (Hs & Hd & _). split; [done|]. intros ->. discriminate.
Qed.

Lemma pre_text_bytes l : Forall valid_ident l -> str_forall pre_byte (pre_text l) = true.
Proof.
  intros Hl. apply join_forall; [done|]. apply Forall_fmap, (Forall_impl _ _ _ Hl). intros x Hx.
  destruct (print_ident_bytes x Hx) as [Hb _]. revert Hb. apply str_forall_mono. intros c Hc. by apply byte_classes.
Qed.

Lemma pre_text_split l : l <> [] -> Forall valid_ident l -> split "." (pre_text l) = print_ident <$> l.
Proof.
  intros Hne Hl. apply split_join; [by destruct l|]. apply Forall_fmap, (Forall_impl _ _ _ Hl). intros x Hx.
  destruct (print_ident_bytes x Hx) as [Hb _]. revert Hb. apply str_forall_mono. intros c Hc.
  apply negb_true_iff, Ascii.eqb_neq. intros <-. by apply (byte_classes ".").
Qed.

Lemma pre_text_empty l : Forall valid_ident l -> pre_text l = "" <-> l = [].
Proof.
  intros Hl. split; [|by intros ->]. destruct l as [|x l]; [done|]. intros Heq. inversion Hl as [|? ? Hx _]; subst.
  destruct (print_ident_bytes x Hx) as [_ Hne]. unfold pre_text in Heq. rewrite fmap_cons in Heq.
  destruct l as [|y l]; [done|]. rewrite fmap_cons, join_cons2 in Heq. by destruct (print_ident x).
Qed.

Lemma print_ident_inj x y : valid_ident x -> valid_ident y -> print_ident x = print_ident y -> x = y.
Proof.
  destruct x as [n|s], y as [m|t]; cbn [valid_ident print_ident]; intros Hx Hy Heq.
  - by apply itoa_inj in Heq as ->.
  - subst t. destruct Hy as (_ & Hd & _). destruct (itoa_digits n) as [Hn _]; [lia|congruence].
  - subst s. destruct Hx as (_ & Hd & _). destruct (itoa_digits m) as [Hn _]; [lia|congruence].
  - by subst.
Qed.

Lemma atoi_ident x : valid_ident x -> atoi (print_ident x) = match x with Num n => Some n | Alnum _ => None end.
Proof. destruct x as [n|s]; cbn; [|tauto]. intros Hn. apply atoi_itoa. unfold is_int64. lia. Qed.

Definition tail_text (x : semver) : string :=
  (match sv_pre x with [] => "" | l => "-" ++ join "." (print_ident <$> l) end)
  ++ (if String.eqb (sv_build x) "" then "" else "+" ++ sv_build x).

Lemma itoa_word n : (0 <= n)%Z -> str_forall is_word_byte (itoa n) = true.
Proof. intros Hn. destruct (itoa_digits n Hn) as [Hd _]. revert Hd. apply str_forall_mono. intros c Hc. by apply byte_classes, byte_classes, byte_classes. Qed.

Lemma tail_word x : valid_semver x -> str_forall is_word_byte (tail_text x) = true.
Proof.
  intros (_ & Hp & Hb). unfold tail_text. rewrite str_forall_app. apply andb_true_iff. split.
  - destruct (sv_pre x) as [|i l]; [done|]. apply pre_text_bytes in Hp. cbn [String.append str_forall andb]. 
    revert Hp. apply str_forall_mono. intros c. apply byte_classes.
  - destruct (String.eqb (sv_build x) ""); [done|]. cbn [String.append str_forall andb].
    revert Hb. apply str_forall_mono. intros c. apply byte_classes.
Qed.

(** What follows the numbers: the pre-release identifiers are the longest run of their
    characters. *)
Lemma tail_pre x : valid_semver x ->
  (match tail_text x with String "-" s' => fst (span pre_byte s') | _ => "" end) = pre_text (sv_pre x)
  /\ match tail_text x with "" => True | String c _ => is_digit c = false end.
Proof.
  intros (_ & Hp & _). unfold tail_text. destruct (sv_pre x) as [|i l] eqn:Heq.
  - cbn [String.append]. by destruct (String.eqb (sv_build x) "").
  - cbn [String.append]. split; [|done]. apply pre_text_bytes in Hp.
    change (join "." (print_ident <$> i :: l)) with (pre_text (i :: l)).
    rewrite span_app; [done..|]. by destruct (String.eqb (sv_build x) "").
Qed.

Lemma skip_v v s : match s with "" => False | String c _ => is_digit c = true end ->
  (let w := (if v : bool then "v" else "") ++ s in match w with String "v" s' => s' | _ => w end) = s.
Proof. destruct v; [done|]. destruct s as [|c s]; [done|]. by destruct c as [[] [] [] [] [] [] [] []]. Qed.

Lemma parse_semver v x : valid_semver x ->
  parseVersion (print_semver v x) = Some {| pv_numbers := sv_core x; pv_pre := pre_text (sv_pre x) |}.
Proof.
  intros Hx. pose proof (tail_word x Hx) as Htw. destruct (tail_pre x Hx) as [Htp Htd].
  destruct Hx as (Hc & _). unfold parseVersion, print_semver. fold (tail_text x).
  destruct (sv_core x) as [[a b] c]. destruct Hc as (Ha & Hb & Hc).
  rewrite trim_space_word.
  2: { rewrite !str_forall_app, Htw, !itoa_word by lia. by destruct v. }
  unfold version_groups. rewrite (skip_v v).
  2: { destruct (itoa_numeral a ltac:(lia)) as (Hd & _ & ch & r & Heq & _). rewrite Heq in *. cbn [String.append].
       cbn [str_forall] in Hd. by apply andb_true_iff in Hd as [Hd _]. }
  rewrite digits_group_itoa by (done || lia). cbn [mbind option_bind String.append]. rewrite skip_byte_eq. cbn [mbind option_bind String.append].
  rewrite digits_group_itoa by (done || lia). cbn [mbind option_bind String.append]. rewrite skip_byte_eq. cbn [mbind option_bind String.append].
  rewrite digits_group_itoa by (done || lia). cbn [mbind option_bind]. rewrite Htp.
  rewrite !atoi_itoa by (unfold is_int64; lia). done.
Qed.

(** *** The comparison *)

Lemma compare_numbers_core l r : compare_numbers l r = sign (core_compare l r).
Proof.
  destruct l as [[l1 l2] l3], r as [[r1 r2] r3]. unfold compare_numbers, core_compare.
  destruct (Z.compare_spec l1 r1), (Z.compare_spec l2 r2), (Z.compare_spec l3 r3); cbn [sign]; 
    repeat case_match; try done; lia.
Qed.

Lemma string_compare_eq s t : String.compare s t = Eq <-> s = t.
Proof.
  split; [apply String.compare_eq_iff|]. intros <-. induction s as [|c s IH]; [done|]. cbn [String.compare].
  unfold Ascii.compare. by rewrite N.compare_refl.
Qed.

Lemma string_compare_sign s t : s <> t -> (match String.compare s t with Gt => 1 | _ => -1 end)%Z = sign (String.compare s t).
Proof. intros Hne. destruct (String.compare s t) eqn:Hc; [|done..]. by apply string_compare_eq in Hc. Qed.

Lemma ident_compare_eq x y : ident_compare x y = Eq <-> x = y.
Proof.
  destruct x as [n|s], y as [m|t]; cbn [ident_compare]; [rewrite Z.compare_eq_iff| | |rewrite string_compare_eq]; split; congruence.
Qed.

Lemma compare_part_ident x y : valid_ident x -> valid_ident y -> x <> y ->
  compare_part (print_ident x) (print_ident y) = sign (ident_compare x y).
Proof.
  intros Hx Hy Hne. unfold compare_part. rewrite !atoi_ident by done. destruct x as [n|s], y as [m|t]; [|done..|].
  - cbn [ident_compare]. destruct (Z.compare_spec n m); [congruence|..]; cbn [sign]; case_match; lia.
  - cbn [ident_compare print_ident]. apply string_compare_sign. congruence.
Qed.

Lemma compare_parts_pre l r : Forall valid_ident l -> Forall valid_ident r ->
  compare_parts (print_ident <$> l) (print_ident <$> r) = sign (pre_compare l r).
Proof.
  intros Hl. revert r. induction Hl as [|x l Hx Hl IH]; intros r Hr; destruct Hr as [|y r Hy Hr]; [done..|].
  rewrite !fmap_cons. cbn [compare_parts pre_compare]. destruct (String.eqb_spec (print_ident x) (print_ident y)) as [Heq|Hne].
  - apply print_ident_inj in Heq as ->; [|done..]. rewrite (proj2 (ident_compare_eq y y) eq_refl). by apply IH.
  - assert (x <> y) as Hxy by congruence. rewrite compare_part_ident by done.
    destruct (ident_compare x y) eqn:Hc; [|done..]. by apply ident_compare_eq in Hc.
Qed.

Lemma pre_text_inj l r : Forall valid_ident l -> Forall valid_ident r -> pre_text l = pre_text r -> l = r.
Proof.
  intros Hl Hr Heq. destruct (decide (l = [])) as [->|Hln].
  { symmetry. by apply pre_text_empty. }
  assert (Hrn : r <> []) by (intros ->; by apply Hln, pre_text_empty).
  pose proof (f_equal (split ".") Heq) as Hs. rewrite !pre_text_split in Hs by done. clear Heq Hln Hrn.
  revert r Hr Hs. induction Hl as [|x l Hx Hl IH]; intros r Hr Hs; destruct Hr as [|y r Hy Hr]; [done..|].
  rewrite !fmap_cons in Hs. injection Hs as Hh Ht. apply print_ident_inj in Hh as ->; [|done..]. f_equal. by apply IH.
Qed.

Lemma pre_compare_refl l : pre_compare l l = Eq.
Proof. induction l as [|x l IH]; [done|]. cbn. by rewrite (proj2 (ident_compare_eq x x) eq_refl). Qed.

(** C27. The order the updater puts releases in is the precedence of Semantic Versioning:
    for every two versions, with or without a leading "v", all of whose numbers are below
    2^63 and none of whose pre-release identifiers is a hyphen followed by such a number,
    [compareVersions] returns the sign of the precedence of clause 11 (numbers first, a
    pre-release before its release, identifiers from left to right, numeric ones below the
    others and by value, a longer list after its prefix, build metadata ignored).  Both
    conditions are needed ([beyond_semver]). *)
Theorem compareVersions_semver (va vb : bool) (a b : semver) :
  valid_semver a -> valid_semver b ->
  compareVersions (print_semver va a) (print_semver vb b) = sign (semver_compare a b).
Proof.
  intros Ha Hb. unfold compareVersions, semver_compare. rewrite !parse_semver by done. cbn [pv_numbers pv_pre].
  destruct Ha as (_ & Hpa & _), Hb as (_ & Hpb & _). rewrite compare_numbers_core.
  destruct (core_compare _ _); [|done..]. cbn [sign Z.eqb negb].
  destruct (String.eqb_spec (pre_text (sv_pre a)) (pre_text (sv_pre b))) as [Heq|Hne].
  { apply pre_text_inj in Heq as ->; [|done..]. destruct (sv_pre b) eqn:Hb; [done|]. by rewrite <- Hb, pre_compare_refl. }
  destruct (String.eqb_spec (pre_text (sv_pre a)) "") as [Ea|Na].
  { apply pre_text_empty in Ea; [|done]. rewrite Ea in *. by destruct (sv_pre b). }
  assert (sv_pre a <> []) by (rewrite <- pre_text_empty; done).
  destruct (String.eqb_spec (pre_text (sv_pre b)) "") as [Eb|Nb].
  { apply pre_text_empty in Eb; [|done]. rewrite Eb in *. by destruct (sv_pre a). }
  assert (sv_pre b <> []) by (rewrite <- pre_text_empty; done).
  unfold comparePrerelease. rewrite !pre_text_split, compare_parts_pre by done. by destruct (sv_pre a), (sv_pre b).
Qed.

Lemma compareVersions_semver_witness :
  compareVersions "v1.10.0-rc.2+exp" "1.10.0-rc.11" = (-1)%Z.
Proof.
  refine (compareVersions_semver true false
    {| sv_core := (1, 10, 0)%Z; sv_pre := [Alnum "rc"; Num 2]; sv_build := "exp" |}
    {| sv_core := (1, 10, 0)%Z; sv_pre := [Alnum "rc"; Num 11]; sv_build := "" |} _ _);
  split_and!; try done; cbn [sv_core sv_pre]; repeat first [apply Forall_nil_2 | apply Forall_cons_2]; cbn [valid_ident]; split_and!; done || lia.
Defined.

(** Where the order of the program is another one: an identifier of a hyphen and a number is
    read as a negative number, a numeric identifier from 2^63 on is compared as a text, and
    a version with such a number counts as equal to every other. *)
Theorem beyond_semver :
  (compareVersions "1.0.0--1" "1.0.0-0" = -1 /\
   semver_compare {| sv_core := (1, 0, 0); sv_pre := [Alnum "-1"]; sv_build := "" |}
     {| sv_core := (1, 0, 0); sv_pre := [Num 0]; sv_build := "" |} = Gt /\
   compareVersions "1.0.0-10000000000000000000" "1.0.0-9300000000000000000" = -1 /\
   semver_compare {| sv_core := (1, 0, 0); sv_pre := [Num (10 ^ 19)]; sv_build := "" |}
     {| sv_core := (1, 0, 0); sv_pre := [Num (93 * 10 ^ 17)]; sv_build := "" |} = Gt /\
   compareVersions "9223372036854775808.0.0" "1.0.0" = 0)%Z.
Proof. by vm_compute. Qed.
