(* ===== verification/BackupWait.v ===== *)
(** * Waiting for a mandatory backup

    The Core asks for a backup and waits until the history of the backup engine shows it:
    [CreateBackupAndWait] of src/internal/core/updater/service.go against the line that
    [Create] of src/internal/backup/engine.go appends. *)

From S2P Require Import Prelude GoStrings GoStrconv GoPath GoRegexp GoTime GoJson GoStruct Effects UpdateManifest BackupTypes Backup BackupVerify Updater.
Local Open Scope string_scope.
Local Open Scope go_scope.

(** ** The line a creation appends *)

(** Calls other than a write to a file of text. *)
Definition no_write X (c : bk_call X) : Prop := match c with WriteData _ _ => False | _ => True end.
Notation silent := (calls no_write).

Ltac silent_walk :=
  repeat first
    [ progress calls_walk
    | match goal with
      | |- silent (Backup.os _) => unfold Backup.os
      | |- silent (defer _ _) => unfold defer
      end ].

Section creation.
Context `{HUnicode : Unicode} `{HDigest : Digest}.
Variable e : Engine.

Lemma prepare_silent : silent (prepare e).
Proof. unfold prepare. silent_walk. Qed.

Lemma collectOne_silent id r p i : silent (collectOne id r p i).
Proof. unfold collectOne. silent_walk. Qed.

Lemma walk_files_silent id p l : silent (walk_files id p l).
Proof.
  induction l as [|[c i] l IH]; cbn [walk_files]; [done|]. silent_walk; [|exact IH].
  unfold walk_one, collect_relative. silent_walk; apply collectOne_silent.
Qed.

Lemma collect_path_silent s p : silent (collect_path s p).
Proof. unfold collect_path. silent_walk; auto using collectOne_silent, walk_files_silent. Qed.

Lemma collect_silent stage : silent (collect e stage).
Proof.
  unfold collect. silent_walk. induction (Sources (config e)) as [|s l IH]; cbn [collect_sources]; [done|].
  silent_walk; [|exact IH]. unfold collect_source, snapshotSQLite. silent_walk; apply collect_path_silent.
Qed.

Lemma writeArchive_silent out m l : silent (writeArchive out m l).
Proof.
  unfold writeArchive, writeTarBytes. silent_walk. induction l as [|i l IH]; cbn [writeTarFiles]; [done|].
  silent_walk; [|exact IH]. unfold writeTarFile. silent_walk.
Qed.

Lemma extract_entries_silent a dst n expected ex : silent (extract_entries a dst n expected ex).
Proof.
  revert expected ex. induction n as [|n IH]; intros expected ex; cbn [extract_entries]; unfold extract_body; silent_walk; apply IH.
Qed.

Lemma create_archive_silent m : silent (create_archive e m).
Proof.
  unfold create_archive, publish, extractVerified, read_manifest.
  silent_walk; auto using collect_silent, writeArchive_silent, extract_entries_silent.
Qed.

(** The operation in the history. *)
Definition recorded (reason archive : string) (started done_ : time) (err : option bk_error) : Operation :=
  mkOperation ("create-" ++ stamp started) "create" (stamp started) archive
    (if String.eqb (trim_space reason) "" then "manual" else trim_space reason)
    (match err with Some _ => "failed" | None => "succeeded" end) started done_
    (match err with Some err => Backup.error_text err | None => "" end).

Definition archive_of (r : result bk_error (BackupTypes.Manifest * string)) : string :=
  match r with Ok (_, archive) => archive | Err _ => "" end.

Lemma appendHistory_writes o tr x path data y :
  exec (appendHistory e o) tr x -> In (Act (WriteData path data) y) tr -> exists l, marshal_operation o = Some l /\ data = line_of l.
Proof.
  intros Hx Hin. destruct (marshal_operation o) as [l|] eqn:Hm.
  - exists l. split; [done|]. assert (Hp : calls (fun X (c : bk_call X) => match c with WriteData _ d => d = line_of l | _ => True end)
      (appendHistory e o)).
    { unfold appendHistory, Backup.os, defer. rewrite Hm. calls_walk. }
    exact (calls_in _ _ _ _ _ _ Hp Hx Hin).
  - assert (Hp : silent (appendHistory e o)) by (unfold appendHistory, Backup.os; rewrite Hm; calls_walk).
    destruct (calls_in _ _ _ _ _ _ Hp Hx Hin).
Qed.

Lemma Create_records reason tr r path data x :
  exec (Create e reason) tr r -> In (Act (WriteData path data) x) tr ->
  exists t1 t2 l, In (Act Backup.Now t1) tr /\ In (Act Backup.Now t2) tr /\
    marshal_operation (recorded reason (archive_of r) t1 t2 (err_of r)) = Some l /\ data = line_of l.
Proof.
  unfold Create, bind_err. intros (ta & tb & p & -> & Hp & Hx)%exec_bind Hin.
  assert (Hsilent : forall A (q : bk_prog A) tr a, silent q -> exec q tr a -> ~ In (Act (WriteData path data) x) tr)
    by (intros A q tr' a Hq Hxq; exact (calls_in _ _ _ _ _ _ Hq Hxq)).
  apply in_app_or in Hin as [Hin|Hin]; [by eapply Hsilent in Hin; [| |exact Hp]; [|apply prepare_silent]|].
  destruct p as [u|err]; [|by destruct Hx as [-> _]].
  apply exec_bind in Hx as (tc & td & t1 & -> & Ht1 & Hx).
  apply exec_bind in Hx as (te & tf & r' & -> & Hr & Hx).
  apply exec_bind in Hx as (tg & th & t2 & -> & Ht2 & Hx).
  apply exec_bind in Hx as (ti & tj & y & -> & Hy & [-> ->]). cbn [m_ID m_Reason] in *. rewrite app_nil_r in *.
  apply in_app_or in Hin as [Hin|Hin]; [by apply Hsilent in Ht1|].
  apply in_app_or in Hin as [Hin|Hin]; [by apply Hsilent in Hr; [|apply create_archive_silent]|].
  apply in_app_or in Hin as [Hin|Hin]; [by apply Hsilent in Ht2|].
  destruct (appendHistory_writes _ _ _ _ _ _ Hy Hin) as (l & Hl & Hd).
  apply exec_call in Ht1 as ->. apply exec_call in Ht2 as ->.
  exists t1, t2, l. rewrite !in_app_iff. simpl. split_and!; [tauto..| |done].
  rewrite <- Hl. unfold recorded, archive_of, finished. cbn. by destruct r' as [[]|].
Qed.
End creation.

(** ** The wait *)

Definition backup_history : string := "/var/lib/opendeploy/backup-state/history.jsonl".

(** The newest operation a reading of the history shows that is the awaited one. *)
Definition shown (reason : string) (requestedAt : time) (answer : result string string) : option Operation :=
  match answer with
  | Ok data => match parse_backups data with Ok entries => List.find (awaited reason requestedAt) (rev entries) | Err _ => None end
  | Err _ => None
  end.

Definition verdict (o : Operation) : result core_error () :=
  if String.eqb (o_Status o) "succeeded" then Ok () else Err (Failure ("backups: mandatory backup failed: " ++ o_Error o)).

(** The newest entry decides; a history that shows none, or cannot be read, does not. *)
Lemma await_turn {B} (P : core_prog (result core_error ()) -> B) s reason t n answer :
  P (let! r := (match answer with Ok data => Ret (parse_backups data) | Err err => Ret (Err (Wrapped "backups: read history" err)) end) in
     match r with
     | Err _ => await_backup s reason t n
     | Ok entries =>
         match List.find (awaited reason t) (rev entries) with
         | None => await_backup s reason t n
         | Some entry =>
             if String.eqb (o_Status entry) "succeeded" then Ret (Ok ())
             else Ret (Err (Failure ("backups: mandatory backup failed: " ++ o_Error entry)))
         end
     end)
  = P match shown reason t answer with Some o => Ret (verdict o) | None => await_backup s reason t n end.
Proof.
  destruct answer as [data|err]; cbn [bind shown]; [|done]. destruct (parse_backups data) as [es|]; [|done].
  destruct (List.find _ _) as [o|]; [|done]. unfold verdict. by destruct (String.eqb _ _).
Qed.

(** The host the Core asks: no request is queued, requests are written, the context never
    ends, and at the [n]th tick the history reads as [file n]. *)
Definition core_answers (now : time) (file : nat -> result string string) X (c : core_call X) (n : nat) : X * nat :=
  match c in core_call X return X * nat with
  | Now => (now, n)
  | FileRead path => (if String.eqb path backup_history then file n else Ok "", n)
  | FileWrite _ _ _ => (Ok (), n)
  | NewRequest _ => (Ok (), n)
  | HttpDo _ _ => (Err "offline", n)
  | DecodeError _ => ("", n)
  | Select => (Ticked, S n)
  end.

Lemma await_run s reason t now file k : has_agent s = true ->
  forall ticks n o, k < ticks -> (forall i, i < k -> shown reason t (file (S n + i)) = None) -> shown reason t (file (S n + k)) = Some o ->
  run (core_answers now file) (await_backup s reason t ticks) n = (verdict o, S n + k).
Proof.
  intros Hs. induction k as [|k IH]; intros [|ticks] n o Hk Hbefore Hshow; [lia| |lia|].
  - cbn [await_backup]. unfold BackupHistory. rewrite Hs. cbn -[parse_backups awaited await_backup]. rewrite Nat.add_0_r in *.
    rewrite (await_turn (fun p => run _ p _)). by rewrite Hshow.
  - cbn [await_backup]. unfold BackupHistory. rewrite Hs. cbn -[parse_backups awaited await_backup].
    rewrite (await_turn (fun p => run _ p _)). pose proof (Hbefore 0 ltac:(lia)) as H0. rewrite Nat.add_0_r in H0. rewrite H0.
    rewrite (IH ticks (S n) o); [f_equal; lia|lia| |by replace (S (S n) + k) with (S n + S k) by lia].
    intros i Hi. replace (S (S n) + i) with (S n + S i) by lia. apply Hbefore. lia.
Qed.

Lemma await_exec s reason t ticks tr : has_agent s = true ->
  exec (await_backup s reason t ticks) tr (Ok ()) ->
  exists data o, In (Act (FileRead backup_history) (Ok data)) tr /\ shown reason t (Ok data) = Some o /\ o_Status o = "succeeded".
Proof.
  intros Hs. revert tr. induction ticks as [|n IH]; intros tr; [by intros [_ [=]]|].
  cbn [await_backup]. unfold BackupHistory. rewrite Hs. intros (w & t1 & -> & Hx). destruct w as [err|]; [by destruct Hx as [_ [=]]|].
  destruct Hx as (answer & t2 & -> & Hx). 
  pose proof (eq_ind _ (fun P : Prop => P) Hx _ (await_turn (fun p => exec p t2 (Ok ())) s reason t n answer)) as Hturn.
  clear Hx. destruct (shown reason t answer) as [o|] eqn:Ho.
  - destruct Hturn as [-> Hv]. unfold verdict in Hv. destruct (String.eqb_spec (o_Status o) "succeeded"); [|done].
    destruct answer as [data|]; [|done]. exists data, o. split_and!; [|done..]. right. by left.
  - apply IH in Hturn as (data & o & Hin & Hrest). exists data, o. split; [|done]. right. by right.
Qed.

(** ** The promises *)

(** A reason the Core accepts, as the engine records it. *)
Record plain_reason (reason : string) : Prop := {
  pr_short : (len reason <= 128)%Z;
  pr_control : contains_any reason control = false;
  pr_trimmed : trim_space reason = reason;
  pr_named : reason <> "";
  pr_utf8 : valid_utf8 reason = true }.

Lemma valid_utf8_ascii s : str_forall (fun c => (byte_val c <? 128)%Z) s = true -> valid_utf8 s = true.
Proof.
  unfold valid_utf8. induction s as [|c s IH]; [done|]. cbn [str_forall chunks]. intros [Hc Hs]%andb_true_iff. rewrite Hc.
  cbn. by apply IH.
Qed.

Lemma stamp_utf8 pre t : str_forall (fun c => (byte_val c <? 128)%Z) pre = true -> valid_utf8 (pre ++ stamp t) = true.
Proof.
  intros Hpre. apply valid_utf8_ascii. assert (Hpad : forall n z, str_forall (fun c => (byte_val c <? 128)%Z) (dec_pad n z) = true).
  { intros n z. eapply str_forall_mono; [|apply dec_pad_digits]. intros c. by destruct c as [[] [] [] [] [] [] [] []]. }
  unfold stamp. by rewrite !str_forall_app, Hpre, !Hpad.
Qed.

Definition operation_data (o : Operation) : string := default "" (marshal_operation o).

Lemma operation_line o : valid_operation o ->
  marshal_operation o = Some (operation_data o) /\ unmarshal_operation (operation_data o) = Some o /\ object_line (operation_data o).
Proof. intros (data & Hm & Hu & Ho)%operation_read_back. unfold operation_data. by rewrite Hm. Qed.

Lemma parse_backups_text os : Forall valid_operation os -> parse_backups (lines_text operation_data os) = Ok os.
Proof.
  intros Hos. unfold parse_backups, lines_text. rewrite read_jsonl_lines; [done|done|].
  eapply Forall_impl; [done|]. intros o (_ & Hu & Ho)%operation_line. split_and!; [done| |done].
  apply String.eqb_neq. by apply object_line_trim.
Qed.

Section promises.
Context `{HUnicode : Unicode} `{HDigest : Digest}.

Lemma recorded_valid reason archive t1 t2 err :
  valid_utf8 reason = true -> trim_space reason = reason -> valid_time t1 -> valid_time t2 -> valid_utf8 archive = true ->
  (forall x, err = Some x -> valid_utf8 (Backup.error_text x) = true) -> valid_operation (recorded reason archive t1 t2 err).
Proof.
  intros Hr Htrim H1 H2 Ha He. unfold recorded. split; [|by split].
  cbn [o_ID o_Type o_BackupID o_Archive o_Reason o_Status o_Error]. rewrite Htrim.
  repeat apply Forall_cons_2; [by apply stamp_utf8|done|apply (stamp_utf8 ""); done|done| | | |by apply Forall_nil_2].
  - by destruct (String.eqb reason "").
  - by destruct err.
  - destruct err; [|done]. by apply He.
Qed.

Lemma recorded_shown reason now os archive t1 t2 err :
  plain_reason reason -> Forall valid_operation os -> valid_operation (recorded reason archive t1 t2 err) -> before t1 now = false ->
  shown reason now (Ok (lines_text operation_data os ++ line_of (operation_data (recorded reason archive t1 t2 err))))
  = Some (recorded reason archive t1 t2 err).
Proof.
  intros Hp Hos Ho Hb. unfold shown. rewrite <- lines_text_snoc, parse_backups_text by (apply Forall_app; split; [done|by apply Forall_singleton]).
  rewrite rev_app_distr. cbn [rev app List.find]. unfold awaited. cbn [recorded o_Type o_Reason o_StartedAt].
  rewrite Hb, (pr_trimmed _ Hp). destruct (String.eqb_spec reason "") as [->|_]; [by destruct (pr_named _ Hp)|].
  by rewrite !String.eqb_refl.
Qed.

(** Asking for the backup succeeds on the host of [core_answers]. *)
Lemma CreateBackup_run s reason now file : has_agent s = true -> plain_reason reason -> valid_time now -> is_zero now = false ->
  run (core_answers now file) (Updater.CreateBackup s reason) 0 = (Ok (), 0).
Proof.
  intros Hs Hp Ht Hz. unfold Updater.CreateBackup. assert ((128 <? len reason)%Z = false) as -> by (pose proof (pr_short _ Hp); lia).
  rewrite (pr_control _ Hp). cbn [orb]. rewrite run_bind. cbn [run core_answers call]. unfold writeRequest. rewrite Hs. cbn [negb].
  assert (Hv : Validate (request "backup" "" "" "" reason now) = true).
  { unfold Validate. cbn [request r_Schema r_RequestedAt r_Operation r_Tag r_Archive r_Reason]. rewrite Hz. cbn [orb].
    change (contains_any reason control_bytes) with (contains_any reason control). rewrite (pr_control _ Hp).
    assert ((len reason <=? 128)%Z = true) as -> by (pose proof (pr_short _ Hp); lia). done. }
  rewrite Hv. cbn [negb]. rewrite run_bind. cbn [run core_answers call].
  unfold marshal_request. cbn [request r_RequestedAt]. by rewrite time_marshals_valid.
Qed.

(** C25. A mandatory backup that is made is noticed: let the Core ask for a backup at [now]
    and the backup engine, run on the request's reason, append its line to the history the
    Core reads, whatever earlier operations the history holds.  If at some tick before the
    30 minutes are over the history holds this line, and no earlier tick showed an awaited
    operation, then the wait ends at that tick, with success exactly when the engine
    returned an archive, and with the engine's error otherwise. *)
Theorem backup_awaited (e : Engine) (s : Service) reason now tr r data x os file k :
  has_agent s = true -> plain_reason reason -> valid_time now -> is_zero now = false ->
  exec (Create e reason) tr r -> In (Act (WriteData backup_history data) x) tr ->
  (forall t, In (Act Backup.Now t) tr -> valid_time t /\ before t now = false) ->
  valid_utf8 (archive_of r) = true -> (forall err, r = Err err -> valid_utf8 (Backup.error_text err) = true) ->
  Forall valid_operation os -> k < wait_ticks ->
  (forall i, i < k -> shown reason now (file (S i)) = None) ->
  file (S k) = Ok (lines_text operation_data os ++ data) ->
  run (core_answers now file) (CreateBackupAndWait s reason) 0 =
    (match r with Ok _ => Ok () | Err err => Err (Failure ("backups: mandatory backup failed: " ++ Backup.error_text err)) end, S k).
Proof.
  intros Hs Hp Hnow Hz Hx Hin Htimes Ha He Hos Hk Hbefore Hfile.
  destruct (Create_records e _ _ _ _ _ _ Hx Hin) as (t1 & t2 & l & H1 & H2 & Hl & ->).
  apply Htimes in H1 as [Ht1 Hb1]. apply Htimes in H2 as [Ht2 _].
  assert (Hv : valid_operation (recorded reason (archive_of r) t1 t2 (err_of r))).
  { apply recorded_valid; try done; [by apply pr_utf8|by apply pr_trimmed|]. destruct r as [|err]; [done|]. intros y [= <-]. by apply He. }
  pose proof (recorded_shown reason now os _ _ _ _ Hp Hos Hv Hb1) as Hshown.
  pose proof (operation_line _ Hv) as (Hm & _ & _). rewrite Hm in Hl. injection Hl as <-. rewrite <- Hfile in Hshown.
  unfold CreateBackupAndWait, bind_err. rewrite run_bind. cbn [run core_answers call]. rewrite run_bind, CreateBackup_run by done.
  rewrite (await_run s reason now now file k Hs wait_ticks 0 _ Hk Hbefore Hshown). f_equal.
  unfold verdict, recorded. cbn [o_Status o_Error]. by destruct r as [[]|].
Qed.

(** The Core never goes on without its backup: if [CreateBackupAndWait] returns no
    error, then the request it wrote asks for a backup with this reason, and a later reading
    of the history showed, as its newest operation of this reason that was begun after the
    call, a creation that succeeded. *)
Theorem mandatory_backup_gate (s : Service) reason tr :
  exec (CreateBackupAndWait s reason) tr (Ok ()) ->
  exists requestedAt content data o pre post,
    tr = (Act Updater.Now requestedAt :: pre ++ post)%list /\
    In (Act (FileWrite updateRequest (line_of content) 384) (Ok ())) pre /\
    (exists at_, marshal_request (request "backup" "" "" "" reason at_) = Some content) /\
    In (Act (FileRead backup_history) (Ok data)) post /\ shown reason requestedAt (Ok data) = Some o /\
    o_Type o = "create" /\ o_Reason o = reason /\ before (o_StartedAt o) requestedAt = false /\ o_Status o = "succeeded".
Proof.
  unfold CreateBackupAndWait. intros (requestedAt & tr' & -> & Hx). apply exec_try in Hx as (pre & post & u & -> & Hc & Hw).
  unfold Updater.CreateBackup in Hc. destruct (_ || _); [by destruct Hc as [_ [=]]|]. destruct Hc as (at_ & t1 & -> & Hc). cbn [bind] in Hc.
  unfold writeRequest in Hc. destruct (has_agent s) eqn:Hs; [|by destruct Hc as [_ [=]]]. cbn [negb] in Hc.
  destruct (negb _); [by destruct Hc as [_ [=]]|]. destruct Hc as (cur & t2 & -> & Hc). cbn [bind] in Hc.
  match type of Hc with exec (if ?b then _ else _) _ _ => destruct b; [by destruct Hc as [_ [=]]|] end.
  destruct (marshal_request _) as [content|] eqn:Hm; [|by destruct Hc as [_ [=]]].
  apply exec_wrap in Hc as (t3 & t4 & [] & -> & ->%exec_call & [-> _]).
  apply await_exec in Hw as (data & o & Hin & Hshow & Hst); [|done].
  exists requestedAt, content, data, o, (Act Updater.Now at_ :: Act (FileRead updateRequest) cur :: [Act (FileWrite updateRequest (line_of content) 384) (Ok ())])%list, post.
  assert (Hf : awaited reason requestedAt o = true).
  { cbn [shown] in Hshow. destruct (parse_backups data) as [es|]; [|done]. by apply List.find_some in Hshow as [_ Hf]. }
  unfold awaited in Hf. apply andb_true_iff in Hf as [[Ht%String.eqb_eq Hr%String.eqb_eq]%andb_true_iff Hb%negb_true_iff].
  split_and!; try done; [right; right; by left|by eexists].
Qed.
End promises.

(** ** A backup that is awaited *)

#[local] Existing Instance unicode_ascii.
#[local] Existing Instance length_digest.

Definition sparse_engine : Engine := {|
  config := {| BackupDir := "/var/lib/opendeploy/backups"; BackupTypes.StateDir := "/var/lib/opendeploy/backup-state";
    Sources := [tree "nginx" "/etc/nginx"]; MaxEntries := 10; MaxBytes := 100 |};
  version := "v1.2.3"; has_runtime := false |}.

Definition sparse_manifest : string :=
  default "" (marshal_manifest (mkManifest BackupTypes.Schema (stamp some_time) some_time "before-install-php" "" "v1.2.3" [] 0)).

(** The run of the engine, and what it read of its own archive. *)
Definition a_creation : list (action bk_call) * result bk_error (BackupTypes.Manifest * string) :=
  logged reader (Create sparse_engine "before-install-php")
    ("", [({| th_Name := manifestName; th_Regular := true; th_Size := len sparse_manifest |}, sparse_manifest)]).

Definition a_line : string :=
  line_of (operation_data (recorded "before-install-php" "/var/lib/opendeploy/backups/opendeploy-20260201T093000.000000007Z.tar.gz"
    some_time some_time None)).

Definition a_service : Service := NewService "v1.2.3" "" true.

Lemma creation_writes : In (Act (WriteData backup_history a_line) (Ok ())) (fst a_creation).
Proof. vm_compute. repeat first [left; reflexivity | right]. Qed.

Lemma creation_times t : In (Act Backup.Now t) (fst a_creation) -> t = some_time.
Proof.
  intros Hin. pose proof (logged_answers reader (Create sparse_engine "before-install-php")
    ("", [({| th_Name := manifestName; th_Regular := true; th_Size := len sparse_manifest |}, sparse_manifest)])) as Hall.
  rewrite List.Forall_forall in Hall. by destruct (Hall _ Hin) as [w ->].
Qed.

Lemma creation_succeeds : exists m, snd a_creation
  = Ok (m, "/var/lib/opendeploy/backups/opendeploy-20260201T093000.000000007Z.tar.gz").
Proof. vm_compute. eexists. reflexivity. Qed.

Lemma a_reason_plain : plain_reason "before-install-php".
Proof. split; vm_compute; congruence. Qed.

(** The history appears at the second tick. *)
Definition two_ticks (n : nat) : result string string := if (n <=? 1)%nat then Err "no such file" else Ok a_line.

Lemma backup_awaited_witness :
  run (core_answers some_time two_ticks) (CreateBackupAndWait a_service "before-install-php") 0 = (Ok (), 2).
Proof.
  destruct creation_succeeds as [m Hr].
  pose proof (backup_awaited sparse_engine a_service "before-install-php" some_time (fst a_creation) (snd a_creation) a_line (Ok ())
    [] two_ticks 1) as H. rewrite Hr in H. apply H; clear H.
  - reflexivity.
  - exact a_reason_plain.
  - by apply (bool_decide_unpack _).
  - reflexivity.
  - rewrite <- Hr. apply logged_exec.
  - exact creation_writes.
  - intros t ->%creation_times. split; [by apply (bool_decide_unpack _)|reflexivity].
  - reflexivity.
  - done.
  - apply Forall_nil_2.
  - apply Nat.ltb_lt. vm_compute. reflexivity.
  - intros i Hi. assert (i = 0) as -> by lia. reflexivity.
  - reflexivity.
Defined.

Definition a_wait : list (action core_call) * result core_error () :=
  logged (core_answers some_time two_ticks) (CreateBackupAndWait a_service "before-install-php") 0.

Lemma a_wait_exec : exec (CreateBackupAndWait a_service "before-install-php") (fst a_wait) (Ok ()).
Proof.
  assert (Hok : snd a_wait = Ok ()) by (vm_compute; reflexivity). rewrite <- Hok. apply logged_exec.
Qed.

Lemma mandatory_backup_gate_witness : exists data o,
  In (Act (FileRead backup_history) (Ok data)) (fst a_wait) /\ o_Type o = "create" /\ o_Reason o = "before-install-php"
  /\ o_Status o = "succeeded".
Proof.
  destruct (mandatory_backup_gate a_service "before-install-php" (fst a_wait) a_wait_exec)
    as (t & content & data & o & pre & post & Htr & _ & _ & Hin & _ & Hty & Hre & _ & Hst).
  exists data, o. split_and!; [|done..]. rewrite Htr. right. apply in_or_app. by right.
Defined.
