(* ===== verification/Cli.v ===== *)
(** * The privileged worker

    src/cmd/cli/main.go: the commands update and backup, which root runs, the former also
    when the Core has left a request ([Updater.writeRequest]).  They put the update engine
    and the backup engine together: the update engine's call for a system backup is the
    backup engine's [CreateBackup]. *)

From S2P Require Import Prelude GoStrings GoStrconv GoPath GoRegexp GoTime GoJson GoStruct Effects UpdateManifest Update UpdateGates BackupTypes Backup BackupVerify Updater.
Local Open Scope string_scope.
Local Open Scope go_scope.

(** The command's own calls.  [Remove] answers whether an error says that there is no such
    file; [Encode] prints a value as JSON. *)
Inductive own_call : Set -> Set :=
| Geteuid : own_call Z
| Getenv (name : string) : own_call string
| ReadFile (path : string) : own_call (result string string)
| Remove (path : string) : own_call (result (bool * string) ())
| Log (line : string) : own_call ()
| Print (line : string) : own_call ()
| EncodeUpdates (entries : list HistoryEntry) : own_call ()
| EncodeBackups (entries : list Operation) : own_call ().

Inductive cli_call (X : Set) : Set := Up (c : up_call X) | Bk (c : bk_call X) | Own (c : own_call X).
Arguments Up {X} _.
Arguments Bk {X} _.
Arguments Own {X} _.

Notation cli_prog A := (prog cli_call A).
Definition own {X} (c : own_call X) : cli_prog X := call (Own c).

(** A command returns, or ends the process with a message. *)
Inductive exit := Return | Fatal (message : string).

Section cli.
Context `{HUnicode : Unicode} `{HUrl : UrlParser} `{HDigest : Digest} `{HText : ManifestText} `{HPlatform : Platform}.

(** [Version] of src/pkg/version, set when the program is built; [order1] and [order2] are
    the orders in which [install] visits its maps. *)
Variables (Version : string) (order1 order2 : list (string * string)).

(** source: cmd/cli/root_unix.go:7 (isRoot) *)
Definition isRoot : cli_prog bool := let! uid := own Geteuid in Ret (uid =? 0)%Z.

(** ** The engines *)

Definition backup_engine (runtime : bool) : Backup.Engine :=
  let e := Backup.NewEngine BackupTypes.DefaultConfig Version in
  {| Backup.config := Backup.config e; Backup.version := Backup.version e; has_runtime := runtime |}.

Definition run_backup {A} (p : prog bk_call A) : cli_prog A := interp (fun X c => call (Bk c)) p.

(** The calls of the update engine: its backup provider is a backup engine. *)
Definition up_handler X (c : up_call X) : cli_prog X :=
  match c in up_call X return cli_prog X with
  | SystemBackup reason =>
      let! r := run_backup (Backup.CreateBackup (backup_engine false) reason) in
      Ret (map_err Backup.error_text r)
  | c' => call (Up c')
  end.
Definition run_update {A} (p : prog up_call A) : cli_prog A := interp up_handler p.

(** source: cmd/cli/main.go:112-122 (runUpdate, the engine) *)
Definition update_engine : cli_prog Update.Engine :=
  let! cosign := own (Getenv "OD_UPDATE_COSIGN_PATH") in
  let verifier :=
    match DefaultSigstoreVerifier with
    | SigstoreVerifier path identity issuer =>
        SigstoreVerifier (if String.eqb cosign "" then path else cosign) identity issuer
    | v => v
    end in
  let! keyring := own (Getenv "OD_UPDATE_GPG_KEYRING") in
  let config := Update.DefaultConfig in
  let '(config, verifier) :=
    if String.eqb keyring "" then (config, verifier)
    else ({| Update.StateDir := Update.StateDir config; ReleaseDir := ReleaseDir config; BinaryDir := BinaryDir config;
             cfg_GOOS := cfg_GOOS config; cfg_GOARCH := cfg_GOARCH config; Signature := "release-manifest.json.asc";
             HealthTimeout := HealthTimeout config |}, GPGVerifier "" keyring) in
  let e := Update.NewEngine config None (Some verifier) (Some {| CoreHealthURL := "" |}) in
  Ret {| Update.config := Update.config e; github := github e; Update.verifier := Update.verifier e; runtime := runtime e;
         has_backup := true |}.

(** source: cmd/cli/main.go:127 (runUpdate, requestFile) *)
Definition requestFile : string := "/var/lib/opendeploy/update.request".

(** source: cmd/cli/main.go:136-140 (runUpdate, removeRequest) *)
Definition removeRequest : cli_prog () :=
  let! r := own (Remove requestFile) in
  match r with
  | Err (false, err) => own (Log ("warning: request cleanup failed: " ++ err))
  | _ => Ret ()
  end.

(** The end of an operation: the request is removed, and the outcome is told. *)
Definition conclude (result : result string string) : cli_prog exit :=
  let! _ := removeRequest in
  match result with
  | Err message => Ret (Fatal message)
  | Ok line => let! _ := own (Print line) in Ret Return
  end.

(** source: cmd/cli/main.go:141-182 (runUpdate, the operation of a request): what it returns
    is told *)
Definition perform (engine : Update.Engine) (request : UpdateRequest) : cli_prog (result string string) :=
  if String.eqb (r_Operation request) "rollback" then
    let! (entry, err) := run_update (Update.Rollback engine (r_TransactionID request)) in
    Ret (match err with
         | Some err => Err ("Rollback failed: " ++ Update.error_text err)
         | None => Ok ("Rollback " ++ h_ID entry ++ " completed successfully.")
         end)
  else
  let backupEngine := backup_engine true in
  if String.eqb (r_Operation request) "backup" then
    let! r := run_backup (Backup.Create backupEngine (r_Reason request)) in
    Ret (match r with
         | Err err => Err ("Backup failed: " ++ Backup.error_text err)
         | Ok (manifest, path) => Ok ("Backup " ++ BackupTypes.m_ID manifest ++ " created: " ++ path)
         end)
  else if String.eqb (r_Operation request) "restore" then
    let archivePath := path_join (BackupDir BackupTypes.DefaultConfig) (r_Archive request) in
    let! (manifest, err) := run_backup (Backup.Restore backupEngine archivePath) in
    Ret (match err with
         | Some err => Err ("Restore failed: " ++ Backup.error_text err)
         | None => Ok ("Backup " ++ BackupTypes.m_ID manifest ++ " restored successfully.")
         end)
  else
    let! _ := own (Print ("Applying signed OpenDeploy release " ++ r_Tag request ++ "...")) in
    let! (entry, err) := run_update (Update.Apply engine order1 order2 (r_Tag request) Version) in
    Ret (match err with
         | Some err => Err ("Update failed (transaction " ++ h_ID entry ++ "): " ++ Update.error_text err)
         | None => Ok ("Update " ++ h_ID entry ++ " completed successfully.")
         end).

(** source: cmd/cli/main.go:126-183 (runUpdate, --apply) *)
Definition apply_request (engine : Update.Engine) : cli_prog exit :=
  let! data := own (ReadFile requestFile) in
  match data with
  | Err err => Ret (Fatal ("Read update request: " ++ err))
  | Ok data =>
      match unmarshal_request data with
      | None => Ret (Fatal "Update request is malformed")
      | Some request =>
          if negb (Validate request) then Ret (Fatal "Update request is malformed")
          else
            let! outcome := perform engine request in
            conclude outcome
      end
  end.

(** source: cmd/cli/main.go:108-207 (runUpdate) *)
Definition runUpdate (args : list string) : cli_prog exit :=
  let! root := isRoot in
  if negb root then Ret (Fatal "OpenDeploy updater must run as root")
  else
    let! engine := update_engine in
    match args with
    | ["--apply"] => apply_request engine
    | "rollback" :: rest =>
        let! (entry, err) := run_update (Update.Rollback engine (match rest with id :: _ => id | [] => "" end)) in
        match err with
        | Some err => Ret (Fatal ("Rollback failed: " ++ Update.error_text err))
        | None => let! _ := own (Print ("Rollback " ++ h_ID entry ++ " completed successfully.")) in Ret Return
        end
    | ["history"] =>
        let! entries := run_update (Update.History engine) in
        match entries with
        | Err err => Ret (Fatal ("Read update history: " ++ Update.error_text err))
        | Ok entries => let! _ := own (EncodeUpdates entries) in Ret Return
        end
    | _ => let! _ := own (Print "Usage: opendeploy update --apply | rollback [transaction-id] | history") in Ret Return
    end.

(** source: cmd/cli/main.go:209-256 (runBackup) *)
Definition runBackup (args : list string) : cli_prog exit :=
  let! root := isRoot in
  if negb root then Ret (Fatal "OpenDeploy backup operations must run as root")
  else
    let engine := backup_engine true in
    let create (reason : string) :=
      let! r := run_backup (Backup.Create engine reason) in
      match r with
      | Err err => Ret (Fatal ("Backup failed: " ++ Backup.error_text err))
      | Ok (manifest, path) => let! _ := own (Print ("Backup " ++ BackupTypes.m_ID manifest ++ " created: " ++ path)) in Ret Return
      end in
    match args with
    | [] => create "manual"
    | "create" :: rest => create (match rest with reason :: _ => reason | [] => "manual" end)
    | ["verify"; archive] =>
        let! (manifest, err) := run_backup (Backup.Verify engine archive) in
        match err with
        | Some err => Ret (Fatal ("Backup verification failed: " ++ Backup.error_text err))
        | None =>
            let! _ := own (Print ("Backup " ++ BackupTypes.m_ID manifest ++ " is valid (" ++ itoa (Z.of_nat (length (m_Entries manifest)))
              ++ " files, " ++ itoa (m_TotalBytes manifest) ++ " bytes).")) in
            Ret Return
        end
    | ["restore"; archive] =>
        let! (manifest, err) := run_backup (Backup.Restore engine archive) in
        match err with
        | Some err => Ret (Fatal ("Restore failed: " ++ Backup.error_text err))
        | None =>
            let! _ := own (Print ("Backup " ++ BackupTypes.m_ID manifest
              ++ " restored successfully. Restart OpenDeploy and managed services.")) in
            Ret Return
        end
    | ["history"] =>
        let! operations := run_backup (Backup.History engine) in
        match operations with
        | Err err => Ret (Fatal ("Read backup history: " ++ Backup.error_text err))
        | Ok operations => let! _ := own (EncodeBackups operations) in Ret Return
        end
    | _ =>
        let! _ := own (Print "Usage: opendeploy backup create [reason] | verify <archive> | restore <archive> | history") in
        Ret Return
    end.
End cli.

(** ** The request and its operation *)

(** What an administrator can ask the Core to have done by root. *)
Inductive task := Install (tag : string) | RollBack (transaction : string) | MakeBackup (reason : string)
| BringBack (archive : string).

Definition task_text (k : task) : string :=
  match k with Install s | RollBack s | MakeBackup s | BringBack s => s end.

(** The Core accepted to have a task done, with these calls.  The release to install is the
    one its check for updates found, which it keeps. *)
Inductive accepted (order : list string) (s : Service) : task -> list (action core_call) -> Prop :=
| accepted_update ty tr s' status :
    exec (Updater.Apply order s ty) tr (s', Ok ()) -> cached s' = Some status ->
    accepted order s (Install (s_LatestVersion status)) tr
| accepted_rollback id tr : exec (Updater.Rollback s id) tr (Ok ()) -> accepted order s (RollBack id) tr
| accepted_backup reason tr : exec (Updater.CreateBackup s reason) tr (Ok ()) -> accepted order s (MakeBackup reason) tr
| accepted_restore archive tr : exec (Updater.RestoreBackup s archive) tr (Ok ()) -> accepted order s (BringBack archive) tr.

Lemma archive_good name : validBackupArchiveName name = true -> good_comp name.
Proof.
  unfold validBackupArchiveName. intros H. apply andb_true_iff in H as [H Hc]. apply andb_true_iff in H as [H _].
  apply andb_true_iff in H as [H _]. apply andb_true_iff in H as [_ Hp]. apply has_prefix_iff in Hp as [r ->].
  split_and!; try done. unfold no_byte. apply negb_true_iff in Hc.
  by apply (contains_any_no_byte slash) in Hc.
Qed.

(** The calls of the worker before the operation. *)
Definition preliminary (ac : action cli_call) : Prop :=
  match ac with Act (Own Geteuid) _ | Act (Own (Getenv _)) _ | Act (Own (ReadFile _)) _ => True | _ => False end.

Lemma isRoot_exec tr b : exec isRoot tr b -> exists uid, tr = [Act (Own Geteuid) uid] /\ b = (uid =? 0)%Z.
Proof. intros (uid & t & -> & [-> ->]). by exists uid. Qed.

(** The calls after the operation: the request is removed, a removal that fails although the
    file is there is told, and so is a success. *)
Definition concluding (success : bool) (tr : list (action cli_call)) : Prop :=
  exists x warned told, tr = (Act (Own (Remove updateRequest)) x :: warned ++ told)%list /\
    warned = (match x with
              | Err (false, err) => [Act (Own (Log ("warning: request cleanup failed: " ++ err))) ()]
              | _ => []
              end) /\
    (if success then exists line, told = [Act (Own (Print line)) ()] else told = []).

Lemma conclude_exec res tr out : exec (conclude res) tr out ->
  concluding (is_ok res) tr /\ out = (match res with Ok _ => Return | Err m => Fatal m end).
Proof.
  unfold conclude. intros (t1 & t2 & [] & -> & Hr & Hx)%exec_bind. unfold removeRequest in Hr.
  destruct Hr as (x & t3 & -> & Hr). cbn [bind] in Hr.
  assert (Ht : (if is_ok res then exists line, t2 = [Act (Own (Print line)) ()] else t2 = []) /\
               out = (match res with Ok _ => Return | Err m => Fatal m end)).
  { destruct res as [line|m]; [destruct Hx as ([] & t5 & -> & [-> ->]); split; [by exists line|done]|by destruct Hx as [-> ->]]. }
  destruct Ht as [Ht ->]. split; [|done]. exists x, t3, t2. split; [done|]. split; [|done].
  destruct x as [|[[] err]]; [by destruct Hr as [-> _]..|]. by destruct Hr as ([] & t4 & -> & [-> _]).
Qed.

Lemma update_engine_exec tr e : exec update_engine tr e ->
  List.Forall preliminary tr /\ has_backup e = true /\ is_Some (Update.verifier e).
Proof.
  intros (x & t1 & -> & y & t2 & -> & Hx). cbn [bind] in Hx. destruct (String.eqb y ""); destruct Hx as [-> ->];
    (split; [by repeat constructor|by split; [|eexists]]).
Qed.

Lemma written_request s r tr content : exec (writeRequest s r) tr (Ok ()) -> In (Act (FileWrite updateRequest content 384) (Ok ())) tr ->
  Validate r = true /\ exists data, marshal_request r = Some data /\ content = line_of data.
Proof.
  intros Hx Hin. assert (Hp : calls (fun X (c : core_call X) => match c with
    FileWrite _ content _ => exists data, marshal_request r = Some data /\ content = line_of data | _ => True end) (writeRequest s r)).
  { unfold writeRequest. calls_walk. apply calls_call. eauto. }
  split; [|exact (calls_in _ _ _ _ _ _ Hp Hx Hin)]. unfold writeRequest in Hx.
  destruct (negb (has_agent s)); [by destruct Hx as [_ [=]]|]. by destruct (Validate r); [|destruct Hx as [_ [=]]].
Qed.

(** The request of a task. *)
Definition task_request (k : task) (now : time) : UpdateRequest :=
  match k with
  | Install tag => request "apply" tag "" "" "" now
  | RollBack id => request "rollback" "" id "" "" now
  | MakeBackup reason => request "backup" "" "" "" reason now
  | BringBack archive => request "restore" "" "" archive "" now
  end.

Lemma Check_writes_nothing order s : calls (fun X (c : core_call X) => match c with FileWrite _ _ _ => False | _ => True end) (Check order s).
Proof. unfold Check, getGitHub. calls_walk; by apply calls_call. Qed.

Lemma Check_caches order s tr s' status : exec (Check order s) tr (s', Ok status) -> cached s' = Some status.
Proof.
  unfold Check. intros (t1 & t2 & fresh & -> & Hf & Hx)%exec_bind. destruct fresh as [st|].
  - destruct Hx as [_ [= -> ->]]. destruct (cached s) as [st'|]; [|by destruct Hf as [_ [=]]].
    apply exec_bind in Hf as (t3 & t4 & now & -> & _ & [_ Hf]). destruct (_ <? _)%Z; congruence.
  - apply exec_bind in Hx as (t3 & t4 & [latest|err] & -> & _ & Hx); [|by destruct Hx as [_ [=]]].
    destruct (_ || _); [by destruct Hx as [_ [=]]|]. cbv zeta in Hx.
    destruct (check_assets _ _ _); [|by destruct Hx as [_ [=]]].
    apply exec_bind in Hx as (t5 & t6 & now & -> & _ & [_ [= -> ->]]). done.
Qed.

(** A task that was accepted was written as its request. *)
Lemma accepted_written order s k tr content :
  accepted order s k tr -> In (Act (FileWrite updateRequest content 384) (Ok ())) tr ->
  exists now data, In (Act Now now) tr /\ Validate (task_request k now) = true /\
    marshal_request (task_request k now) = Some data /\ content = line_of data.
Proof.
  assert (Hnow : forall k now tr, In (Act (FileWrite updateRequest content 384) (Ok ())) (Act Now now :: tr) ->
    exec (writeRequest s (task_request k now)) tr (Ok ()) -> exists now' data, In (Act Now now') (Act Now now :: tr) /\
    Validate (task_request k now') = true /\ marshal_request (task_request k now') = Some data /\ content = line_of data).
  { intros k' now t [[=]|Hin] Hx. destruct (written_request _ _ _ _ Hx Hin) as (Hv & data & Hm & Hc).
    exists now, data. split; [by left|done]. }
  intros Ha Hin. destruct Ha as [ty tr s' status Hx Hc|id tr Hx|reason tr Hx|archive tr Hx].
  - unfold Updater.Apply in Hx. destruct (negb (has_agent s)); [by destruct Hx as [_ [=]]|].
    destruct (_ && _); [by destruct Hx as [_ [=]]|].
    apply exec_bind in Hx as (t1 & t2 & [s1 [st|err]] & -> & Hchk & Hx); [|by destruct Hx as [_ [=]]].
    destruct (negb (s_UpdateAvailable st)); [by destruct Hx as [_ [=]]|].
    apply exec_bind in Hx as (t3 & t4 & now & -> & ->%exec_call & Hx).
    apply exec_bind in Hx as (t5 & t6 & w & -> & Hw & [-> [= -> <-]]). rewrite app_nil_r in *.
    pose proof (Check_caches _ _ _ _ _ Hchk) as Hst. rewrite Hst in Hc. injection Hc as ->.
    apply in_app_or in Hin as [Hin|Hin]; [by destruct (calls_in _ _ _ _ _ _ (Check_writes_nothing order s) Hchk Hin)|].
    destruct Hin as [[=]|Hin]. destruct (written_request _ _ _ _ Hw Hin) as (Hv & data & Hm & ->).
    exists now, data. split; [apply in_or_app; right; by left|done].
  - unfold Updater.Rollback in Hx. destruct (negb _); [by destruct Hx as [_ [=]]|]. destruct (_ || _); [by destruct Hx as [_ [=]]|].
    apply exec_bind in Hx as (t1 & t2 & now & -> & ->%exec_call & Hx). by apply (Hnow (RollBack id)).
  - unfold Updater.CreateBackup in Hx. destruct (_ || _); [by destruct Hx as [_ [=]]|].
    apply exec_bind in Hx as (t1 & t2 & now & -> & ->%exec_call & Hx). by apply (Hnow (MakeBackup reason)).
  - apply exec_bind in Hx as (t1 & t2 & now & -> & ->%exec_call & Hx). cbv zeta in Hx.
    destruct (negb _); [by destruct Hx as [_ [=]]|]. by apply (Hnow (BringBack archive)).
Qed.

Lemma restore_archive archive now : Validate (task_request (BringBack archive) now) = true -> validBackupArchiveName archive = true.
Proof. unfold Validate. cbn. destruct (validBackupArchiveName archive); [done|]. by destruct (is_zero now). Qed.

Section request.
Context `{HUnicode : Unicode} `{HUrl : UrlParser} `{HDigest : Digest} `{HText : ManifestText} `{HPlatform : Platform}.
Variables (Version : string) (order1 order2 : list (string * string)).

(** What doing a task means: an update of the engine to the tag, a rollback of the
    transaction, a backup with the reason, or the restoration of the archive of this name
    in the backup directory; and whether it succeeded. *)
Inductive does (engine : Update.Engine) : task -> list (action cli_call) -> bool -> Prop :=
| does_install tag line tr entry err :
    exec (run_update Version (Update.Apply engine order1 order2 tag Version)) tr (entry, err) ->
    does engine (Install tag) (Act (Own (Print line)) () :: tr) (bool_decide (err = None))
| does_rollback id tr entry err :
    exec (run_update Version (Update.Rollback engine id)) tr (entry, err) ->
    does engine (RollBack id) tr (bool_decide (err = None))
| does_backup reason tr r :
    exec (run_backup (Backup.Create (backup_engine Version true) reason)) tr r ->
    does engine (MakeBackup reason) tr (is_ok r)
| does_restore archive tr m err :
    exec (run_backup (Backup.Restore (backup_engine Version true) ("/var/lib/opendeploy/backups/" ++ archive))) tr (m, err) ->
    does engine (BringBack archive) tr (bool_decide (err = None)).

Lemma perform_does engine k now tr res :
  Validate (task_request k now) = true -> exec (perform Version order1 order2 engine (task_request k now)) tr res ->
  does engine k tr (is_ok res).
Proof.
  intros Hv Hx. destruct k as [tag|id|reason|archive]; unfold perform in Hx; cbn [r_Operation task_request request String.eqb Ascii.eqb Bool.eqb] in Hx.
  - apply exec_bind in Hx as (t1 & t2 & [] & -> & ->%exec_call & Hx).
    apply exec_bind in Hx as (t3 & t4 & [entry err] & -> & Ha & [-> ->]). rewrite app_nil_r.
    eapply does_install in Ha. by destruct err.
  - apply exec_bind in Hx as (t3 & t4 & [entry err] & -> & Ha & [-> ->]). rewrite app_nil_r.
    eapply does_rollback in Ha. by destruct err.
  - apply exec_bind in Hx as (t3 & t4 & r & -> & Ha & [-> ->]). rewrite app_nil_r.
    eapply does_backup in Ha. by destruct r as [[]|].
  - apply exec_bind in Hx as (t3 & t4 & [m err] & -> & Ha & [-> ->]). rewrite app_nil_r.
    apply restore_archive in Hv. rewrite path_join_one in Ha by (done || by apply archive_good).
    eapply does_restore in Ha. by destruct err.
Qed.

(** C24. What the Core was asked for is what root does.  Suppose the Core accepted an update,
    a rollback, a backup or a restoration, at a time and with a text that JSON can hold,
    and root's worker reads the request file as the Core wrote it.  Then the worker reads
    the environment and the file, does this very task once with the engines it is
    configured with (the update engine with a signature verifier and a backup provider;
    a restored archive lies directly in the backup directory), and only then removes the
    request.  It ends normally exactly when the task succeeded, and if the file system
    refuses to remove the request it says so. *)
Theorem request_performed order (s : Service) k t1 tr out :
  accepted order s k t1 -> valid_utf8 (task_text k) = true -> (forall now, In (Act Now now) t1 -> valid_time now) ->
  exec (runUpdate Version order1 order2 ["--apply"]) tr out ->
  (forall uid, In (Act (Own Geteuid) uid) tr -> uid = 0%Z) ->
  (forall x, In (Act (Own (ReadFile updateRequest)) x) tr ->
     exists content, x = Ok content /\ In (Act (FileWrite updateRequest content 384) (Ok ())) t1) ->
  exists engine pre op post success,
    tr = (pre ++ op ++ post)%list /\ List.Forall preliminary pre /\
    has_backup engine = true /\ is_Some (Update.verifier engine) /\
    does engine k op success /\ concluding success post /\
    (if success then out = Return else exists m, out = Fatal m).
Proof.
  intros Hacc Hutf Htime Hx Huid Hread.
  apply exec_bind in Hx as (ta & tb & root & -> & (uid & -> & ->)%isRoot_exec & Hx).
  assert (uid = 0%Z) as -> by (apply Huid; by left). cbn [Z.eqb negb] in Hx.
  apply exec_bind in Hx as (tc & td & engine & -> & (Hown & Hbk & Hver)%update_engine_exec & Hx).
  destruct Hx as (x & te & -> & Hx). cbn [bind] in Hx.
  destruct (Hread x) as (content & -> & Hw); [cbn [app]; right; apply in_or_app; right; by left|].
  destruct (accepted_written _ _ _ _ _ Hacc Hw) as (now & data & Hnow & Hval & Hm & ->).
  assert (Hv : valid_request (task_request k now)).
  { split; [|destruct k; by apply Htime]. by destruct k; repeat apply Forall_cons_2; try apply Forall_nil_2. }
  destruct (request_read_back _ (String newline "") Hv eq_refl) as (data' & Hm' & Hu & _).
  rewrite Hm in Hm'. injection Hm' as <-. unfold line_of in Hx. rewrite Hu, Hval in Hx. cbn [negb] in Hx.
  apply exec_bind in Hx as (op & tf & res & -> & Hop & [Hend ->]%conclude_exec).
  exists engine, (Act (Own Geteuid) 0%Z :: tc ++ [Act (Own (ReadFile requestFile)) (Ok (line_of data))])%list, op, tf, (is_ok res).
  split_and!; try done.
  - cbn [app]. by rewrite <- !app_assoc.
  - constructor; [done|]. apply List.Forall_app. split; [done|]. by repeat constructor.
  - by eapply perform_does.
  - destruct res; cbn; eauto.
Qed.
End request.

(** ** A restoration that was asked for *)

#[local] Existing Instance unicode_ascii.
#[local] Existing Instance sample_url.
#[local] Existing Instance sample_digest.
#[local] Existing Instance sample_text.
#[local] Existing Instance sample_platform.

Definition a_content : string :=
  line_of (default "" (marshal_request (request "restore" "" "" "opendeploy-1.tar.gz" "" some_time))).

Definition core_host (X : Set) (c : core_call X) : option X :=
  match c in core_call X return option X with
  | Now => Some some_time
  | FileRead _ => Some (Ok "")
  | FileWrite _ _ _ => Some (Ok ())
  | _ => None
  end.

(** A host on which the restoration fails for want of space. *)
Definition full_disk (X : Set) (c : cli_call X) : option X :=
  match c with
  | Own c' => match c' in own_call X return option X with
      | Geteuid => Some 0%Z
      | Getenv _ => Some ""
      | ReadFile _ => Some (Ok a_content)
      | Remove _ => Some (Ok ())
      | Log _ | Print _ | EncodeUpdates _ | EncodeBackups _ => Some ()
      end
  | Bk c' => match c' in bk_call X return option X with
      | MkdirAll _ _ => Some (Err "no space left on device")
      | _ => None
      end
  | Up _ => None
  end.

Definition a_write : option (list (action core_call) * result core_error ()) :=
  traced core_host (Updater.RestoreBackup (NewService "v1" "" true) "opendeploy-1.tar.gz").
Definition a_restore : option (list (action cli_call) * exit) := traced full_disk (runUpdate "v1" [] [] ["--apply"]).

Lemma request_performed_witness : exists engine tr pre op post m,
  exec (runUpdate "v1" [] [] ["--apply"]) tr (Fatal m) /\ tr = (pre ++ op ++ post)%list /\
  does "v1" [] [] engine (BringBack "opendeploy-1.tar.gz") op false /\ concluding false post.
Proof.
  destruct a_write as [[t1 w]|] eqn:Hw; [|discriminate Hw]. destruct a_restore as [[tr out]|] eqn:Ha; [|discriminate Ha].
  assert (w = Ok ()) as -> by (vm_compute in Hw; congruence).
  assert (out = Fatal "Restore failed: backup: create directory: no space left on device") as -> by (vm_compute in Ha; congruence).
  pose proof (traced_answers _ _ _ _ Hw) as Hwa. pose proof (traced_answers _ _ _ _ Ha) as Haa. rewrite List.Forall_forall in Hwa, Haa.
  destruct (request_performed "v1" [] [] [] (NewService "v1" "" true) (BringBack "opendeploy-1.tar.gz") t1 tr
    (Fatal "Restore failed: backup: create directory: no space left on device"))
    as (engine & pre & op & post & success & Htr & _ & _ & _ & Hop & Hend & Hout).
  - apply accepted_restore. exact (traced_exec _ _ _ _ Hw).
  - reflexivity.
  - intros now Hin. apply Hwa in Hin. injection Hin as <-. by apply (bool_decide_unpack _).
  - exact (traced_exec _ _ _ _ Ha).
  - intros uid Hin. apply Haa in Hin. by injection Hin.
  - intros y Hin. apply Haa in Hin. injection Hin as <-. exists a_content. split; [reflexivity|].
    vm_compute in Hw. injection Hw as <-. do 2 right. left. vm_compute. reflexivity.
  - destruct success; [discriminate Hout|].
    exists engine, tr, pre, op, post, "Restore failed: backup: create directory: no space left on device".
    split; [exact (traced_exec _ _ _ _ Ha)|]. done.
Defined.
