(* ===== verification/GoSql.v ===== *)
(** * Tables

    What the program uses of package database/sql and of SQLite: result sets, times stored as
    texts, and the operator LIKE. *)

From S2P Require Import Prelude GoStrings GoStrconv GoTime.
Local Open Scope string_scope.

(** ** Result sets *)

(** A result set: rows that may fail to scan, and the error after the last one. *)
Record rows (A : Set) : Set := { r_rows : list (result string A); r_Err : option string }.
Arguments r_rows {A} _.
Arguments r_Err {A} _.

(** The rows of a result set, or nothing and the error of the first one that does not scan. *)
Fixpoint scan_rows {A : Set} {B} (f : A -> B) (wrap : string -> string) (l : list (result string A)) (acc : list B) (last : option string) :
    list B * option string :=
  match l with
  | [] => (acc, last)
  | Ok a :: l' => scan_rows f wrap l' (acc ++ [f a])%list last
  | Err e :: _ => ([], Some (wrap e))
  end.

(** ** Times *)

(** [t.UTC().Format(time.RFC3339)] of a time in UTC *)
Definition seconds_text (t : time) : string :=
  rfc3339 {| t_year := t_year t; t_month := t_month t; t_day := t_day t; t_hour := t_hour t; t_min := t_min t; t_sec := t_sec t;
             t_nsec := 0; t_off := t_off t |}.

(** [t, _ := time.Parse(time.RFC3339, s)] on the texts the tables hold *)
Definition stored_time (s : string) : time := default zero_time (parse_rfc3339 s).

(** ** LIKE

    A percent sign matches any characters and an underscore any one; letters of ASCII match in
    either case. *)

Definition fold_ascii (z : Z) : Z := if ((65 <=? z) && (z <=? 90))%Z then (z + 32)%Z else z.

Fixpoint like_runes (p : list Z) (s : list Z) : bool :=
  match p with
  | [] => match s with [] => true | _ => false end
  | c :: p' =>
      if (c =? 37)%Z then
        (fix skip (s : list Z) : bool := like_runes p' s || match s with [] => false | _ :: s' => skip s' end) s
      else match s with
           | [] => false
           | d :: s' => ((c =? 95)%Z || (fold_ascii c =? fold_ascii d)%Z) && like_runes p' s'
           end
  end.
Definition like (pattern s : string) : bool := like_runes (runes pattern) (runes s).

(** A pattern without wildcards and then a percent sign is a prefix, up to the case of letters. *)
Lemma like_prefix p s :
  Forall (fun c => c <> 37 /\ c <> 95)%Z p ->
  like_runes (p ++ [37%Z]) s = true <-> exists q rest, s = (q ++ rest)%list /\ fold_ascii <$> q = fold_ascii <$> p.
Proof.
  revert s. induction p as [|c p IH]; intros s Hp; simpl.
  - split; [by exists [], s|]. intros _. induction s as [|d s IHs]; [done|exact IHs].
  - apply Forall_cons in Hp as [[H1 H2] Hp]. rewrite (proj2 (Z.eqb_neq _ _) H1). destruct s as [|d s].
    + split; [done|]. by intros ([|] & rest & ? & ?).
    + rewrite (proj2 (Z.eqb_neq _ _) H2). simpl. rewrite andb_true_iff, Z.eqb_eq, IH by done. split.
      * intros [Hc (q & rest & -> & Hq)]. exists (d :: q), rest. split; [done|]. csimpl. by rewrite Hq, Hc.
      * intros (q & rest & Heq & Hq). destruct q as [|x q]; [done|]. injection Heq as -> ->. csimpl in Hq. injection Hq as Hx Hq.
        split; [done|]. by exists q, rest.
Qed.
