(* ===== verification/Events.v ===== *)
(** * Events and background tasks

    internal/platform/events/bus.go and internal/platform/task/task.go.  A handler is a value
    that is called with an event; it returns an error or none, or it panics.  The bus holds its
    lock only while it reads or changes its table, so a publication is a snapshot of the table
    followed by the calls of the handlers, which may themselves use the bus. *)

From S2P Require Import Prelude GoStrings GoStrconv GoTime Effects.
Local Open Scope string_scope.
Local Open Scope go_scope.

(** ** The bus *)

(** What the call of a handler ends with. *)
Inductive handled := Returned (err : option string) | Panicked (value : string).

Inductive publish_error :=
| NoEvent
| PublishCanceled (err : string)
| HandlersFailed (errs : list string).

Section bus.
Context {Handler Event : Set} (EventType : Event -> string).

(** source: internal/platform/events/bus.go:62-65 (subscription) *)
Record subscription := { sub_id : Z; sub_handler : Handler }.

(** source: internal/platform/events/bus.go:68-72 (MemoryBus) *)
Record MemoryBus := { b_subs : gmap string (list subscription); b_seq : Z }.

(** source: internal/platform/events/bus.go:75-77 (NewMemoryBus) *)
Definition NewMemoryBus : MemoryBus := {| b_subs := ∅; b_seq := 0 |}.

Definition subs_of (b : MemoryBus) (ty : string) : list subscription := default [] (b_subs b !! ty).

(** source: internal/platform/events/bus.go:81-86 (Subscribe, before it returns): the identifier
    that the returned function removes, and the bus *)
Definition Subscribe (eventType : string) (h : Handler) (b : MemoryBus) : Z * MemoryBus :=
  let seq := to_int64 (b_seq b + 1) in
  (seq, {| b_subs := <[eventType := (subs_of b eventType ++ [{| sub_id := seq; sub_handler := h |}])%list]> (b_subs b); b_seq := seq |}).

Fixpoint remove_sub (id : Z) (l : list subscription) : option (list subscription) :=
  match l with
  | [] => None
  | s :: l' => if (sub_id s =? id)%Z then Some l' else cons s <$> remove_sub id l'
  end.

(** source: internal/platform/events/bus.go:88-98 (Subscribe, the returned function) *)
Definition Unsubscribe (eventType : string) (id : Z) (b : MemoryBus) : MemoryBus :=
  match remove_sub id (subs_of b eventType) with
  | Some l => {| b_subs := <[eventType := l]> (b_subs b); b_seq := b_seq b |}
  | None => b
  end.

Inductive handler_call : Set -> Set :=
| Handle (h : Handler) (e : Event) : handler_call handled.

(** source: internal/platform/events/bus.go:131-138 (callHandler) *)
Definition callHandler (h : Handler) (e : Event) : prog handler_call (option string) :=
  let! out := call (Handle h e) in
  Ret (match out with
       | Returned err => err
       | Panicked value => Some ("handler panic for " ++ EventType e ++ ": " ++ value)
       end).

Fixpoint call_all (l : list subscription) (e : Event) (errs : list string) : prog handler_call (list string) :=
  match l with
  | [] => Ret errs
  | s :: l' => let! err := callHandler (sub_handler s) e in call_all l' e (errs ++ option_list err)%list
  end.

(** The snapshot of the handlers of an event. *)
Definition snapshot (b : MemoryBus) (e : Event) : list subscription := (subs_of b (EventType e) ++ subs_of b "*")%list.

(** source: internal/platform/events/bus.go:103-129 (Publish) *)
Definition Publish (b : MemoryBus) (ctxErr : option string) (event : option Event) : prog handler_call (option publish_error) :=
  match event with
  | None => Ret (Some NoEvent)
  | Some e =>
      match ctxErr with
      | Some err => Ret (Some (PublishCanceled err))
      | None =>
          let! errs := call_all (snapshot b e) e [] in
          Ret (if (0 <? length errs)%nat then Some (HandlersFailed errs) else None)
      end
  end.

(** ** What the bus promises

    The subscriptions that are in force, in the order in which they were made. *)

Record live := { l_type : string; l_id : Z; l_handler : Handler }.

Inductive bus_op :=
| OpSubscribe (eventType : string) (h : Handler)
| OpUnsubscribe (eventType : string) (id : Z).

Definition bus_step (b : MemoryBus) (op : bus_op) : MemoryBus :=
  match op with
  | OpSubscribe ty h => snd (Subscribe ty h b)
  | OpUnsubscribe ty id => Unsubscribe ty id b
  end.
Definition bus_after (ops : list bus_op) : MemoryBus := foldl bus_step NewMemoryBus ops.

(** Subscription number [n] has identifier [n]; removing one leaves the others. *)
Definition live_step (a : Z * list live) (op : bus_op) : Z * list live :=
  match op with
  | OpSubscribe ty h => (fst a + 1, snd a ++ [{| l_type := ty; l_id := fst a + 1; l_handler := h |}])%list%Z
  | OpUnsubscribe ty id => (fst a, filter (fun s => ~ (l_type s = ty /\ l_id s = id)) (snd a))
  end.
Definition live_after (ops : list bus_op) : Z * list live := foldl live_step (0%Z, []) ops.

Definition of_type (ty : string) (l : list live) : list Handler := l_handler <$> filter (fun s => l_type s = ty) l.

(** The error of a publication whose handlers ended so. *)
Definition errors_of (e : Event) (outs : list handled) : list string :=
  omap (fun o => match o with
                 | Returned err => err
                 | Panicked value => Some ("handler panic for " ++ EventType e ++ ": " ++ value)
                 end) outs.

Lemma call_all_exec l e errs tr out :
  exec (call_all l e errs) tr out ->
  exists outs, length outs = length l /\ tr = zip_with (fun s o => Act (Handle (sub_handler s) e) o) l outs /\
    out = (errs ++ errors_of e outs)%list.
Proof.
  revert errs tr. induction l as [|s l IH]; intros errs tr; simpl.
  - intros [-> ->]. exists []. by rewrite app_nil_r.
  - intros (x & tr' & -> & H). simpl in H. apply IH in H as (outs & Hl & -> & ->).
    exists (x :: outs). split_and!; [by simpl; rewrite Hl|done|]. rewrite <- (assoc_L (++)%list). f_equal.
    destruct x as [[err|]|v]; reflexivity.
Qed.

(** *** The table says what is in force *)

Definition entry_of (s : live) : subscription := {| sub_id := l_id s; sub_handler := l_handler s |}.

(** The table against the subscriptions in force: each list is theirs, and identifiers are
    distinct and no larger than the counter. *)
Record agrees (b : MemoryBus) (a : Z * list live) : Prop := {
  ag_seq : b_seq b = fst a;
  ag_ids : NoDup (l_id <$> snd a);
  ag_below : Forall (fun s => 0 < l_id s <= fst a)%Z (snd a);
  ag_subs : forall ty, subs_of b ty = entry_of <$> filter (fun s => l_type s = ty) (snd a) }.

Lemma filter_same {A} (P : A -> Prop) `{forall x, Decision (P x)} (l : list A) : Forall P l -> filter P l = l.
Proof. induction 1 as [|x l Hx _ IH]; [done|]. by rewrite filter_cons_True, IH by done. Qed.

Lemma NoDup_fmap_filter {A B} (f : A -> B) (P : A -> Prop) `{forall x, Decision (P x)} (l : list A) :
  NoDup (f <$> l) -> NoDup (f <$> filter P l).
Proof.
  induction l as [|x l IH]; csimpl; [done|]. intros [Hx Hd]%NoDup_cons.
  destruct (decide (P x)); [rewrite filter_cons_True by done|rewrite filter_cons_False by done; auto].
  csimpl. apply NoDup_cons. split; [|auto]. intros (y & Hy & [_ Hin]%list_elem_of_filter)%list_elem_of_fmap.
  apply Hx. rewrite Hy. apply list_elem_of_fmap. by exists y.
Qed.

Lemma remove_sub_none id l : id ∉ (sub_id <$> l) -> remove_sub id l = None.
Proof.
  induction l as [|s l IH]; simpl; [done|]. rewrite not_elem_of_cons. intros [H1 H2].
  rewrite (proj2 (Z.eqb_neq _ _)) by done. by rewrite IH.
Qed.

(** With distinct identifiers, removing one is filtering it out. *)
Lemma remove_sub_filter id (l : list live) :
  NoDup (l_id <$> l) -> id ∈ (l_id <$> l) ->
  remove_sub id (entry_of <$> l) = Some (entry_of <$> filter (fun s => ~ l_id s = id) l).
Proof.
  induction l as [|s l IH]; csimpl; [by intros _ ?%not_elem_of_nil|]. rewrite NoDup_cons, elem_of_cons. intros [Hn Hd] Hin.
  destruct (decide (l_id s = id)) as [<-|Hne].
  - rewrite Z.eqb_refl, filter_cons_False by (by intros []). f_equal. f_equal. symmetry. apply filter_same.
    apply Forall_forall. intros x Hx Heq. apply Hn. apply list_elem_of_fmap. by exists x.
  - rewrite (proj2 (Z.eqb_neq _ _)) by done. rewrite filter_cons_True by done. csimpl.
    rewrite IH; [done|done|]. destruct Hin as [->|]; done.
Qed.

Lemma agrees_subscribe b a ty h :
  (fst a + 1 < 2 ^ 63)%Z -> (0 <= fst a)%Z -> agrees b a ->
  agrees (bus_step b (OpSubscribe ty h)) (live_step a (OpSubscribe ty h)).
Proof.
  intros Hb H0 [Hs Hn Hl Hsub]. simpl. unfold Subscribe. rewrite Hs, to_int64_id by (unfold is_int64; lia). split; simpl.
  - done.
  - rewrite fmap_app. apply NoDup_app. split_and!; [done| |apply NoDup_singleton].
    intros i (s & -> & Hin)%list_elem_of_fmap. simpl. rewrite list_elem_of_singleton.
    rewrite Forall_forall in Hl. specialize (Hl s Hin). lia.
  - apply Forall_app. split; [|by apply Forall_singleton; simpl; lia]. eapply Forall_impl; [done|]. simpl. lia.
  - intros ty'. unfold subs_of in *. simpl. rewrite filter_app, fmap_app, filter_cons, filter_nil. simpl.
    destruct (decide (ty = ty')) as [<-|Hne].
    + rewrite lookup_insert_eq. simpl. by rewrite (Hsub ty).
    + rewrite lookup_insert_ne by done. rewrite (Hsub ty'). by rewrite app_nil_r.
Qed.

Lemma agrees_unsubscribe b a ty id :
  agrees b a -> agrees (bus_step b (OpUnsubscribe ty id)) (live_step a (OpUnsubscribe ty id)).
Proof.
  intros [Hs Hn Hl Hsub]. set (mine := filter (fun s => l_type s = ty) (snd a)).
  assert (Hkeep : forall ty', ty' <> ty -> filter (fun s => l_type s = ty') (filter (fun s => ~ (l_type s = ty /\ l_id s = id)) (snd a))
    = filter (fun s => l_type s = ty') (snd a)).
  { intros ty' Hne. rewrite list_filter_filter. apply list_filter_iff. intros s. naive_solver. }
  assert (Hown : filter (fun s => l_type s = ty) (filter (fun s => ~ (l_type s = ty /\ l_id s = id)) (snd a))
    = filter (fun s => ~ l_id s = id) mine).
  { unfold mine. rewrite !list_filter_filter. apply list_filter_iff. intros s. naive_solver. }
  assert (Hd : NoDup (l_id <$> mine)).
  { by apply NoDup_fmap_filter. }
  split; simpl.
  - unfold Unsubscribe. by destruct (remove_sub _ _).
  - by apply NoDup_fmap_filter.
  - rewrite Forall_forall in *. intros s [_ Hin]%list_elem_of_filter. by apply Hl.
  - intros ty'. unfold Unsubscribe. rewrite (Hsub ty). fold mine.
    destruct (decide (id ∈ (l_id <$> mine))) as [Hin|Hnin].
    + rewrite remove_sub_filter by done. unfold subs_of. simpl. destruct (decide (ty' = ty)) as [->|Hne].
      * rewrite lookup_insert_eq. simpl. by rewrite Hown.
      * rewrite lookup_insert_ne by done. rewrite Hkeep by done. apply Hsub.
    + rewrite remove_sub_none by (by rewrite <- list_fmap_compose). rewrite Hsub.
      destruct (decide (ty' = ty)) as [->|Hne]; [|by rewrite Hkeep]. rewrite Hown, (filter_same _ mine); [done|].
      apply Forall_forall. intros s Hin Heq. apply Hnin. apply list_elem_of_fmap. by exists s.
Qed.

Lemma live_count ops a : (0 <= fst a)%Z -> (0 <= fst (foldl live_step a ops) <= fst a + Z.of_nat (length ops))%Z.
Proof.
  revert a. induction ops as [|op ops IH]; intros a Ha; simpl; [lia|].
  destruct op; (edestruct IH as [H1 H2]; [|split; [exact H1|etransitivity; [exact H2|]]]; simpl; lia).
Qed.

Lemma bus_agrees ops : (Z.of_nat (length ops) < 2 ^ 63)%Z -> agrees (bus_after ops) (live_after ops).
Proof.
  unfold bus_after, live_after. induction ops as [|op ops IH] using rev_ind; intros Hlen.
  - split; simpl; [done|apply NoDup_nil_2|apply Forall_nil_2|]. intros ty. unfold subs_of. simpl. by rewrite lookup_empty.
  - rewrite length_app in Hlen. simpl in Hlen. rewrite !foldl_app. cbn [foldl].
    assert (Hc := live_count ops (0%Z, []) ltac:(simpl; lia)). simpl in Hc.
    destruct op; [apply agrees_subscribe|apply agrees_unsubscribe]; [lia|lia|apply IH; lia..].
Qed.

(** A publication calls exactly the handlers whose subscriptions to the type of the event are in
    force, in the order of subscription, and then those of the wildcard, each once, whatever
    they return and if they panic; it fails exactly when one of them did, with an error for each. *)
Theorem publish_reaches_live ops e tr out :
  (Z.of_nat (length ops) < 2 ^ 63)%Z ->
  exec (Publish (bus_after ops) None (Some e)) tr out ->
  exists outs,
    let called := (of_type (EventType e) (snd (live_after ops)) ++ of_type "*" (snd (live_after ops)))%list in
    length outs = length called /\
    tr = zip_with (fun h o => Act (Handle h e) o) called outs /\
    out = match errors_of e outs with [] => None | errs => Some (HandlersFailed errs) end.
Proof.
  intros Hlen H. cbn [Publish] in H. apply exec_bind in H as (tr1 & tr2 & errs & -> & Hall & Hret).
  apply call_all_exec in Hall as (outs & Hl & -> & ->). destruct Hret as [-> ->]. exists outs. cbv zeta.
  assert (Hs : (sub_handler <$> snapshot (bus_after ops) e)
    = (of_type (EventType e) (snd (live_after ops)) ++ of_type "*" (snd (live_after ops)))%list).
  { unfold snapshot. rewrite fmap_app, !(ag_subs _ _ (bus_agrees ops Hlen)), <- !list_fmap_compose. done. }
  rewrite <- Hs. split_and!.
  - by rewrite length_fmap.
  - rewrite app_nil_r. by rewrite zip_with_fmap_l.
  - simpl. destruct (errors_of e outs); done.
Qed.
End bus.

Arguments MemoryBus : clear implicits.
Arguments NewMemoryBus {Handler}.

(** One handler for a type, one for all events and one that was removed; the first panics. *)
Definition some_ops : list (bus_op (Handler := string)) :=
  [OpSubscribe "site.created" "a"; OpSubscribe "*" "b"; OpSubscribe "site.created" "c"; OpUnsubscribe "site.created" 1; OpSubscribe "site.created" "d"].

Lemma publish_reaches_live_witness :
  exists tr out, exec (Publish (fun e : string => e) (bus_after some_ops) None (Some "site.created")) tr out /\
    exists outs, tr = [Act (Handle "c" "site.created") (Panicked "nil map"); Act (Handle "d" "site.created") (Returned None); Act (Handle "b" "site.created") (Returned None)] /\
      outs = [Panicked "nil map"; Returned None; Returned None] /\
      tr = zip_with (fun h o => Act (Handle h "site.created") o) (of_type "site.created" (snd (live_after some_ops)) ++ of_type "*" (snd (live_after some_ops)))%list outs.
Proof.
  pose (h := fun X (c : handler_call (Handler := string) (Event := string) X) (w : ()) =>
    match c in handler_call X return X * () with
    | Handle "c" _ => (Panicked "nil map", ())
    | Handle _ _ => (Returned None, ())
    end).
  set (p := Publish (fun e : string => e) (bus_after some_ops) None (Some "site.created")).
  assert (Hex : exec p (fst (logged h p ())) (snd (logged h p ()))) by apply logged_exec.
  exists (fst (logged h p ())), (snd (logged h p ())). split; [exact Hex|].
  destruct (publish_reaches_live (fun e : string => e) some_ops "site.created" _ _ ltac:(done) Hex) as (outs & _ & Htr & _).
  exists [Panicked "nil map"; Returned None; Returned None]. split_and!; reflexivity.
Defined.

(** ** Background tasks *)

(** source: internal/platform/task/task.go:9-17 (Status) *)
Inductive TaskStatus := StatusPending | StatusRunning | StatusSuccess | StatusFailed | StatusPaused.

(** source: internal/platform/task/task.go:20-33 (Task) *)
Record Task := {
  tk_ID : string; tk_Type : string; tk_Status : TaskStatus; tk_Progress : Z; tk_CurrentStep : string; tk_Message : string;
  tk_StartedAt : option time; tk_FinishedAt : option time; tk_Error : string; tk_Result : option string; tk_Logs : list string }.

(** [Fn]: the function of the task runs; it sees the task and may change it. *)
Inductive task_call : Set -> Set :=
| TaskNow : task_call time
| Save (t : Task) : task_call (result string ())
| Fn (t : Task) : task_call (Task * option string).

(** [t.Format("20060102150405")] *)
Definition second_stamp (t : time) : string :=
  dec_pad 4 (t_year t) ++ dec_pad 2 (t_month t) ++ dec_pad 2 (t_day t) ++ dec_pad 2 (t_hour t) ++ dec_pad 2 (t_min t) ++ dec_pad 2 (t_sec t).

(** source: internal/platform/task/task.go:52-60 (CreateTask) *)
Definition CreateTask (taskType : string) : prog task_call Task :=
  let! now := call TaskNow in
  let t := {| tk_ID := "task-" ++ second_stamp now; tk_Type := taskType; tk_Status := StatusPending; tk_Progress := 0; tk_CurrentStep := "";
              tk_Message := ""; tk_StartedAt := None; tk_FinishedAt := None; tk_Error := ""; tk_Result := None; tk_Logs := [] |} in
  ignore! call (Save t) in
  Ret t.

Definition task_started (t : Task) (now : time) : Task := {|
  tk_ID := tk_ID t; tk_Type := tk_Type t; tk_Status := StatusRunning; tk_Progress := tk_Progress t; tk_CurrentStep := tk_CurrentStep t;
  tk_Message := tk_Message t; tk_StartedAt := Some now; tk_FinishedAt := tk_FinishedAt t; tk_Error := tk_Error t; tk_Result := tk_Result t; tk_Logs := tk_Logs t |}.

Definition task_ended (t : Task) (err : option string) (now : time) : Task := {|
  tk_ID := tk_ID t; tk_Type := tk_Type t; tk_Status := match err with Some _ => StatusFailed | None => StatusSuccess end;
  tk_Progress := tk_Progress t; tk_CurrentStep := tk_CurrentStep t; tk_Message := tk_Message t; tk_StartedAt := tk_StartedAt t;
  tk_FinishedAt := Some now; tk_Error := default (tk_Error t) err; tk_Result := tk_Result t; tk_Logs := tk_Logs t |}.

(** source: internal/platform/task/task.go:63-87 (Execute): the body of the goroutine *)
Definition Execute (t : Task) : prog task_call Task :=
  let! now := call TaskNow in
  let t := task_started t now in
  ignore! call (Save t) in
  let! ran := call (Fn t) in
  let '(t, err) := ran in
  let! nowEnd := call TaskNow in
  let t := task_ended t err nowEnd in
  ignore! call (Save t) in
  Ret t.

(** source: internal/platform/task/task.go:90-94 (Log) *)
Definition TaskLog (msg : string) (t : Task) : Task := {|
  tk_ID := tk_ID t; tk_Type := tk_Type t; tk_Status := tk_Status t; tk_Progress := tk_Progress t; tk_CurrentStep := tk_CurrentStep t;
  tk_Message := tk_Message t; tk_StartedAt := tk_StartedAt t; tk_FinishedAt := tk_FinishedAt t; tk_Error := tk_Error t;
  tk_Result := tk_Result t; tk_Logs := (tk_Logs t ++ [msg])%list |}.

(** A task is saved as running before its function starts and once more when it ended, as
    succeeded exactly when the function returned no error; what the function did to the task,
    its log included, is kept. *)
Theorem task_outcome t tr t' :
  exec (Execute t) tr t' ->
  exists start ran err stop r1 r2,
    tr = [Act TaskNow start; Act (Save (task_started t start)) r1; Act (Fn (task_started t start)) (ran, err);
          Act TaskNow stop; Act (Save t') r2] /\
    t' = task_ended ran err stop /\ (tk_Status t' = StatusSuccess <-> err = None) /\ tk_Logs t' = tk_Logs ran.
Proof.
  intros (start & ? & -> & r1 & ? & -> & [ran err] & ? & -> & stop & ? & -> & r2 & ? & -> & [-> ->]).
  exists start, ran, err, stop, r1, r2. split_and!; [done|done| |done]. by destruct err.
Qed.

(** The identifier of a task is the second in which it was created and nothing else, so two
    tasks of one second share it, and the second one replaces the first in a store that keeps
    tasks by identifier. *)
Theorem task_identifier ty tr t :
  exec (CreateTask ty) tr t ->
  exists now r, tr = [Act TaskNow now; Act (Save t) r] /\ tk_ID t = "task-" ++ second_stamp now /\ tk_Status t = StatusPending.
Proof. intros (now & ? & -> & r & ? & -> & [-> ->]). by exists now, r. Qed.
