(* ===== verification/Pool.v ===== *)
(** * Goroutines that share a state

    A pool of programs whose calls are the atomic operations on a shared state: a step is one
    call of one program, or a new program that starts.  [keeps] is what a program must do at each
    of its calls so that an invariant holds in every state the pool reaches; between two calls
    of a program the others may change the state in any way that [rely] allows. *)

From S2P Require Import Prelude Effects.

Section pool.
Context {E : Set -> Set} {S : Type} (sem : forall X, E X -> S -> X -> S -> Prop).
(** The programs that may start. *)
Variable starts : prog E () -> Prop.

Inductive pool_step : S * list (prog E ()) -> S * list (prog E ()) -> Prop :=
| step_start s ps p : starts p -> pool_step (s, ps) (s, ps ++ [p])
| step_call s ps i X (e : E X) k x s' :
    ps !! i = Some (Call e k) -> sem X e s x s' -> pool_step (s, ps) (s', <[i := k x]> ps).

Definition pool_reaches (s s' : S) : Prop := exists ps, rtc pool_step (s, []) (s', ps).

(** A program that starts and makes all its calls before any other one does. *)
Lemma pool_runs s ps p a s' : starts p -> runs sem p s a s' -> rtc pool_step (s, ps) (s', ps ++ [Ret a]).
Proof.
  intros Hp Hr. eapply rtc_l; [by apply step_start|]. clear Hp. revert s Hr.
  induction p as [b|X e k IH]; intros s; simpl.
  - intros [-> ->]. apply rtc_refl.
  - intros (x & s1 & Hs & Hr). eapply rtc_l; [apply (step_call s _ (length ps) X e k x s1); [|done]|].
    + by rewrite list_lookup_middle.
    + rewrite insert_app_r_alt by done. rewrite Nat.sub_diag. simpl. by apply IH.
Qed.

(** The same, when the calls are answered by a function. *)
Definition follows (h : forall X, E X -> S -> X * S) : Prop := forall X (e : E X) s, sem X e s (fst (h X e s)) (snd (h X e s)).

Lemma follows_runs h {A} (p : prog E A) s : follows h -> runs sem p s (fst (run h p s)) (snd (run h p s)).
Proof.
  intros Hh. revert s. induction p as [a|X e k IH]; intros s; simpl; [done|].
  specialize (Hh X e s). destruct (h X e s) as [x s1]. simpl in Hh. exists x, s1. by split.
Qed.

(** A function that answers as the callee may, on the run at hand. *)
Fixpoint checked (h : forall X, E X -> S -> X * S) {A} (p : prog E A) (s : S) : Prop :=
  match p with
  | Ret _ => True
  | @Call _ _ X e k => sem X e s (fst (h X e s)) (snd (h X e s)) /\ checked h (k (fst (h X e s))) (snd (h X e s))
  end.

Lemma checked_runs h {A} (p : prog E A) s : checked h p s -> runs sem p s (fst (run h p s)) (snd (run h p s)).
Proof.
  revert s. induction p as [a|X e k IH]; intros s; simpl; [done|]. destruct (h X e s) as [x s1]. simpl. intros [He Hk].
  exists x, s1. split; [done|]. by apply IH.
Qed.

Lemma pool_run h s ps p : follows h -> starts p -> rtc pool_step (s, ps) (snd (run h p s), ps ++ [Ret (fst (run h p s))]).
Proof. intros Hh Hp. apply (pool_runs s ps p); [done|]. by apply follows_runs. Qed.

(** ** Invariants *)

Context (inv : S -> Prop) (rely : S -> S -> Prop) `{Hrely : PreOrder S rely}.

(** From a state that satisfies the invariant, and whatever the others do, each call of the
    program keeps the invariant and does what the others rely on. *)
Fixpoint keeps {A} (p : prog E A) (s : S) : Prop :=
  match p with
  | Ret _ => True
  | @Call _ _ X e k => forall s1 (x : X) s2,
      rely s s1 -> inv s1 -> sem X e s1 x s2 -> inv s2 /\ rely s1 s2 /\ keeps (k x) s2
  end.

Lemma keeps_rely {A} (p : prog E A) s s' : rely s s' -> keeps p s -> keeps p s'.
Proof. destruct p as [a|X e k]; [done|]. intros Hs Hk s1 x s2 Hr. apply Hk. by trans s'. Qed.

Lemma keeps_bind {A B} (p : prog E A) (f : A -> prog E B) s :
  keeps p s -> (forall a s', rely s s' -> keeps (f a) s') -> keeps (bind p f) s.
Proof.
  revert s. induction p as [a|X e k IH]; intros s; [intros _ Hf; by apply Hf|].
  intros Hp Hf s1 x s2 Hr Hi Hs. destruct (Hp s1 x s2 Hr Hi Hs) as (Hi2 & Hr2 & Hk).
  split_and!; [done..|]. apply IH; [done|]. intros a s' Hs'. apply Hf. trans s1; [done|]. by trans s2.
Qed.

(** A call that keeps the invariant at any time. *)
Definition harmless {X} (e : E X) : Prop := forall s x s', inv s -> sem X e s x s' -> inv s' /\ rely s s'.

Lemma keeps_calls {A} (p : prog E A) s : calls (fun X e => harmless e) p -> keeps p s.
Proof.
  revert s. induction p as [a|X e k IH]; intros s; [done|]. intros [He Hk] s1 x s2 _ Hi Hs.
  destruct (He s1 x s2 Hi Hs). split_and!; [done..|]. by apply IH, Hk.
Qed.

(** If every program that may start keeps the invariant, it holds in every state reached. *)
Lemma pool_invariant s s' :
  (forall p t, starts p -> inv t -> keeps p t) -> inv s -> pool_reaches s s' -> inv s' /\ rely s s'.
Proof.
  intros Hstart Hi [ps Hr].
  assert (H : inv (s', ps).1 /\ rely s (s', ps).1 /\ Forall (fun p => keeps p (s', ps).1) (s', ps).2); [|tauto].
  revert Hr. generalize (s', ps).
  apply (rtc_ind_r (fun c => inv c.1 /\ rely s c.1 /\ Forall (fun p => keeps p c.1) c.2)); simpl.
  - split_and!; [done|done|by apply Forall_nil].
  - intros c0 c1 _ Hstep (Hi1 & Hr1 & Hall). destruct Hstep as [t ps0 p Hp|t ps0 i X e k x t' Hlk Hs]; simpl in *.
    + split_and!; [done..|]. apply Forall_app. split; [done|]. apply Forall_singleton. by apply Hstart.
    + assert (Hp := Forall_lookup_1 _ _ _ _ Hall Hlk).
      destruct (Hp t x t' (reflexivity t) Hi1 Hs) as (Hi2 & Hr2 & Hk).
      split_and!; [done|by trans t|]. apply Forall_insert; [|done].
      eapply Forall_impl; [exact Hall|]. intros q. by apply keeps_rely.
Qed.
End pool.
