(* ===== verification/Stats.v ===== *)
(** * Host statistics

    internal/agent/stats/collector.go and the records of pkg/contract it fills.  Numbers are
    64-bit unsigned integers with their wrap-around; percentages are IEEE doubles, computed with
    the standard library's [spec_float] operations, rounded to nearest even.  The files of /proc
    and /sys, the file systems, the processes and the clock are calls. *)

From Stdlib Require Import Floats.SpecFloat.
From S2P Require Import Prelude GoStrings GoStrconv GoTime Effects.
Local Open Scope string_scope.
Local Open Scope go_scope.

(** ** Numbers *)

Definition to_uint64 (z : Z) : Z := (z mod 2 ^ 64)%Z.

(** The value [strconv.ParseUint(s, 10, 64)] returns, also beside an error: 0 for a text that is
    not a number, the largest one for a number that is too large. *)
Definition parse_uint (s : string) : Z :=
  let '(d, r) := digit_prefix s in
  if String.eqb d "" || negb (String.eqb r "") then 0%Z else Z.min (2 ^ 64 - 1) (digits_val 0 d).

Definition float64 := spec_float.
Definition f_of_Z (z : Z) : float64 := binary_normalize 53 1024 z 0 false.
Definition f_sub : float64 -> float64 -> float64 := SFsub 53 1024.
Definition f_mul : float64 -> float64 -> float64 := SFmul 53 1024.
Definition f_div : float64 -> float64 -> float64 := SFdiv 53 1024.
Definition f_zero : float64 := S754_zero false.

(** [int64(f)]: towards zero; what the processor gives when there is no such integer. *)
Definition f_int64 (f : float64) : Z :=
  match f with
  | S754_zero _ => 0
  | S754_finite neg m e =>
      let n := Z.shiftl (Zpos m) e in
      let n := if neg then Z.opp n else n in
      if (- 2 ^ 63 <=? n)%Z && (n <? 2 ^ 63)%Z then n else (- 2 ^ 63)%Z
  | _ => (- 2 ^ 63)%Z
  end.

(** [float64(part) / float64(whole) * 100] *)
Definition percent (part whole : Z) : float64 := f_mul (f_div (f_of_Z part) (f_of_Z whole)) (f_of_Z 100).

(** [strconv.ParseFloat(s, 64)]: the value, and whether there was no error. *)
Class FloatText := ParseFloat : string -> float64 * bool.

(** The lines [bufio.Scanner] gives: without their line ends, up to one that does not fit in its
    buffer of 64 KiB. *)
Definition drop_cr (s : string) : string := trim_suffix s (String (ascii_of_nat 13) "").

Fixpoint scanned (l : list string) : list string :=
  match l with
  | [] => []
  | [x] => if String.eqb x "" then [] else if (65535 <? String.length x)%nat then [] else [drop_cr x]
  | x :: l' => if (65535 <? String.length x)%nat then [] else drop_cr x :: scanned l'
  end.
Definition scan_lines (content : string) : list string := scanned (split (ascii_of_nat 10) content).

(** ** The records *)

(** source: pkg/contract/module.go:603-606 (CPUStats) *)
Record CPUStats := { UsagePercent : float64; Cores : Z }.

(** source: pkg/contract/module.go:609-614 (MemoryStats) *)
Record MemoryStats := { m_Total : Z; m_Used : Z; m_Free : Z; m_UsedPercent : float64 }.

(** source: pkg/contract/module.go:625-631 (DiskStats) *)
Record DiskStats := { Mountpoint : string; dk_Total : Z; dk_Used : Z; dk_Free : Z; dk_UsedPercent : float64 }.

(** source: pkg/contract/module.go:634-639 (NetworkStats) *)
Record NetworkStats := { BytesSent : Z; BytesRecv : Z; PacketsSent : Z; PacketsRecv : Z }.

(** source: pkg/contract/module.go:591-600 (SystemStats): swap has the fields of memory *)
Record SystemStats := {
  st_CPU : CPUStats; st_Memory : MemoryStats; st_Swap : MemoryStats; st_Disk : list DiskStats; st_Network : NetworkStats;
  st_LoadAverage : float64 * float64 * float64; st_Temperature : float64; st_Uptime : Z }.

(** source: pkg/contract/module.go:642-653 (ProcessStats) *)
Record ProcessStats := {
  Pid : Z; Ppid : Z; ps_Name : string; ps_User : string; CpuPercent : float64; MemPercent : float64; MemRss : Z; NumThreads : Z;
  CreateTime : Z; Cmdline : string }.

(** ** Calls *)

(** What the process library says of one process; [None] is an error. *)
Record process_view := {
  pv_pid : Z; pv_name : option string; pv_ppid : option Z; pv_user : option string; pv_cpu : option float64; pv_mem : option float64;
  pv_rss : option Z; pv_threads : option Z; pv_created : option Z; pv_cmdline : option string }.

(** [ReadAll]: the bytes of a file that could be read after it was opened. *)
Inductive stats_call : Set -> Set :=
| StatsNow : stats_call time
| ReadAll (path : string) : stats_call (result string string)
| Statfs (mount : string) : stats_call (result string (Z * Z * Z))
| Glob (pattern : string) : stats_call (result string (list string))
| NumCPU : stats_call Z
| Processes : stats_call (result string (list process_view)).

Notation stats_prog A := (prog stats_call A).

(** ** /proc/stat *)

Inductive cpu_reading := CPUTicks (idle total : Z) | CPUError (msg : string) | CPUPanic.

(** The line of all processors: an index past the end of the fields is a panic. *)
Definition cpu_line (line : string) : cpu_reading :=
  let fs := fields line in
  if (length fs <? 8)%nat then CPUError "unexpected /proc/stat format"
  else if (length fs <? 9)%nat then CPUPanic
  else
    let vals := parse_uint <$> take 8 (drop 1 fs) in
    CPUTicks (to_uint64 (default 0%Z (vals !! 3%nat) + default 0%Z (vals !! 4%nat)))
             (foldl (fun total v => to_uint64 (total + v)) 0%Z vals).

Fixpoint cpu_lines (l : list string) : cpu_reading :=
  match l with
  | [] => CPUError "cpu line not found in /proc/stat"
  | line :: l' => if has_prefix line "cpu " then cpu_line line else cpu_lines l'
  end.

(** source: internal/agent/stats/collector.go:120-149 (readCPUStat) *)
Definition readCPUStat : stats_prog cpu_reading :=
  let! data := call (ReadAll "/proc/stat") in
  Ret (match data with Err e => CPUError e | Ok content => cpu_lines (scan_lines content) end).

(** ** /proc/meminfo *)

(** source: internal/agent/stats/collector.go:199-206 (parseMemKB) *)
Definition parseMemKB (line : string) : Z :=
  match fields line with _ :: value :: _ => parse_uint value | _ => 0%Z end.

Definition kilobytes (line : string) : Z := to_uint64 (parseMemKB line * 1024).

Fixpoint mem_lines (l : list string) (total available : Z) (memAvailable : bool) : Z * Z :=
  match l with
  | [] => (total, available)
  | line :: l' =>
      let '(total, available, memAvailable) :=
        if has_prefix line "MemTotal:" then (kilobytes line, available, memAvailable)
        else if has_prefix line "MemAvailable:" then (total, kilobytes line, true)
        else (total, available, memAvailable) in
      if (0 <? total)%Z && memAvailable then (total, available) else mem_lines l' total available memAvailable
  end.

(** source: internal/agent/stats/collector.go:154-177 (readMemInfo) *)
Definition readMemInfo : stats_prog (result string (Z * Z)) :=
  try! content := call (ReadAll "/proc/meminfo") in
  Ret (Ok (mem_lines (scan_lines content) 0 0 false)).

Definition swap_line (acc : Z * Z) (line : string) : Z * Z :=
  if has_prefix line "SwapTotal:" then (kilobytes line, snd acc)
  else if has_prefix line "SwapFree:" then (fst acc, kilobytes line) else acc.

(** source: internal/agent/stats/collector.go:179-197 (readSwapInfo) *)
Definition readSwapInfo : stats_prog (result string (Z * Z)) :=
  try! content := call (ReadAll "/proc/meminfo") in
  Ret (Ok (foldl swap_line (0%Z, 0%Z) (scan_lines content))).

(** ** Disks *)

(** source: internal/agent/stats/collector.go:250-259 (isPseudoFS) *)
Definition isPseudoFS (fstype : string) : bool :=
  existsb (String.eqb fstype)
    ["proc"; "sysfs"; "devpts"; "tmpfs"; "cgroup"; "cgroup2"; "devtmpfs"; "hugetlbfs"; "mqueue"; "debugfs"; "securityfs"; "configfs";
     "fusectl"; "pstore"; "efivarfs"; "bpf"; "autofs"; "ramfs"].

(** source: internal/agent/stats/collector.go:364-386 (getDiskUsage) *)
Definition getDiskUsage (mount : string) : stats_prog (result string DiskStats) :=
  try! stat := call (Statfs mount) in
  let '(bsize, blocks, bavail) := stat in
  let total := to_uint64 (blocks * to_uint64 bsize) in
  let free := to_uint64 (bavail * to_uint64 bsize) in
  let used := to_uint64 (total - free) in
  Ret (Ok {| Mountpoint := mount; dk_Total := total; dk_Used := used; dk_Free := free;
             dk_UsedPercent := if (0 <? total)%Z then percent used total else f_zero |}).

(** The mount point of a line, if it is one of a file system that is not a pseudo one. *)
Definition mount_of (line : string) : option string :=
  match fields line with
  | _ :: mount :: rest => if isPseudoFS (default "" (head rest)) then None else Some mount
  | _ => None
  end.

Fixpoint disk_lines (l : list string) (seen : gset string) : stats_prog (list DiskStats) :=
  match l with
  | [] => Ret []
  | line :: l' =>
      match mount_of line with
      | None => disk_lines l' seen
      | Some mount =>
          if decide (mount ∈ seen) then disk_lines l' seen
          else
            let! d := getDiskUsage mount in
            let! ds := disk_lines l' ({[mount]} ∪ seen) in
            Ret (match d with Ok d => d :: ds | Err _ => ds end)
      end
  end.

(** source: internal/agent/stats/collector.go:210-248 (readDiskStats) *)
Definition readDiskStats : stats_prog (list DiskStats) :=
  let! data := call (ReadAll "/proc/mounts") in
  match data with Err _ => Ret [] | Ok content => disk_lines (scan_lines content) ∅ end.

(** ** /proc/net/dev *)

Definition net_line (acc : Z * Z) (line : string) : Z * Z :=
  match cut ":" line with
  | (iface, Some rest) =>
      if String.eqb (trim_space iface) "lo" then acc
      else
        let fs := fields rest in
        if (length fs <? 9)%nat then acc
        else (to_uint64 (fst acc + parse_uint (default "" (fs !! 0%nat))), to_uint64 (snd acc + parse_uint (default "" (fs !! 8%nat))))
  | _ => acc
  end.

(** source: internal/agent/stats/collector.go:263-295 (readNetworkBytes) *)
Definition readNetworkBytes : stats_prog (result string (Z * Z)) :=
  try! content := call (ReadAll "/proc/net/dev") in
  Ret (Ok (foldl net_line (0%Z, 0%Z) (drop 2 (scan_lines content)))).

(** ** Load, uptime, temperature *)

Section numbers.
Context `{HFloat : FloatText}.

(** source: internal/agent/stats/collector.go:299-313 (readLoadAverage): zeros beside an error *)
Definition readLoadAverage : stats_prog (float64 * float64 * float64) :=
  let! data := call (ReadAll "/proc/loadavg") in
  Ret (match data with
       | Ok content =>
           match fields content with
           | a :: b :: c :: _ => (fst (ParseFloat a), fst (ParseFloat b), fst (ParseFloat c))
           | _ => (f_zero, f_zero, f_zero)
           end
       | Err _ => (f_zero, f_zero, f_zero)
       end).

(** source: internal/agent/stats/collector.go:317-331 (readUptime): zero beside an error *)
Definition readUptime : stats_prog Z :=
  let! data := call (ReadAll "/proc/uptime") in
  Ret (match data with
       | Ok content =>
           match fields content with
           | a :: _ => let '(f, ok) := ParseFloat a in if ok then f_int64 f else 0%Z
           | [] => 0%Z
           end
       | Err _ => 0%Z
       end).

Fixpoint first_temperature (patterns : list string) : stats_prog float64 :=
  match patterns with
  | [] => Ret f_zero
  | pattern :: rest =>
      let! matches := call (Glob pattern) in
      match matches with
      | Ok (first :: _) =>
          let! data := call (ReadAll first) in
          match data with
          | Ok content =>
              match atoi (trim_space content) with
              | Some milliC => Ret (f_div (f_of_Z milliC) (f_of_Z 1000))
              | None => first_temperature rest
              end
          | Err _ => first_temperature rest
          end
      | _ => first_temperature rest
      end
  end.

(** source: internal/agent/stats/collector.go:335-357 (readCPUTemperature) *)
Definition readCPUTemperature : stats_prog float64 :=
  first_temperature ["/sys/class/thermal/thermal_zone*/temp"; "/sys/class/hwmon/hwmon*/temp1_input"].

(** ** The collector *)

(** source: internal/agent/stats/collector.go:25-32 (Collector) *)
Record Collector := { prevNetRx : Z; prevNetTx : Z; prevStatIdle : Z; prevStatTotal : Z; lastCollect : time }.

(** source: internal/agent/stats/collector.go:35-42 (NewCollector): [None] is a panic *)
Definition NewCollector : stats_prog (option Collector) :=
  let! net := readNetworkBytes in
  let '(rx, tx) := match net with Ok n => n | Err _ => (0%Z, 0%Z) end in
  let! cpu := readCPUStat in
  match cpu with
  | CPUPanic => Ret None
  | _ =>
      let '(idle, total) := match cpu with CPUTicks i t => (i, t) | _ => (0%Z, 0%Z) end in
      let! now := call StatsNow in
      Ret (Some {| prevNetRx := rx; prevNetTx := tx; prevStatIdle := idle; prevStatTotal := total; lastCollect := now |})
  end.

(** [(1 - float64(idleDelta)/float64(totalDelta)) * 100] of the ticks since the last reading *)
Definition cpu_usage (c : Collector) (idle total : Z) : float64 :=
  let idleDelta := to_uint64 (idle - prevStatIdle c) in
  let totalDelta := to_uint64 (total - prevStatTotal c) in
  if (0 <? totalDelta)%Z
  then f_mul (f_sub (f_of_Z 1) (f_div (f_of_Z idleDelta) (f_of_Z totalDelta))) (f_of_Z 100)
  else f_zero.

Definition memory_of (r : result string (Z * Z)) : MemoryStats :=
  match r with
  | Ok (total, free) =>
      let used := to_uint64 (total - free) in
      {| m_Total := total; m_Used := used; m_Free := free; m_UsedPercent := if (0 <? total)%Z then percent used total else f_zero |}
  | Err _ => {| m_Total := 0; m_Used := 0; m_Free := 0; m_UsedPercent := f_zero |}
  end.

(** source: internal/agent/stats/collector.go:45-115 (Collect): the collector and the statistics,
    or none when a reading panicked.  The time since the last collection is computed and not used. *)
Definition Collect (c : Collector) : stats_prog (Collector * option SystemStats) :=
  let! now := call StatsNow in
  let! cpu := readCPUStat in
  match cpu with
  | CPUPanic =>
      Ret ({| prevNetRx := prevNetRx c; prevNetTx := prevNetTx c; prevStatIdle := prevStatIdle c; prevStatTotal := prevStatTotal c;
              lastCollect := now |}, None)
  | _ =>
      let usage := match cpu with CPUTicks idle total => cpu_usage c idle total | _ => f_zero end in
      let '(idle, total) := match cpu with CPUTicks i t => (i, t) | _ => (prevStatIdle c, prevStatTotal c) end in
      let! cores := call NumCPU in
      let! mem := readMemInfo in
      let! swap := readSwapInfo in
      let! disks := readDiskStats in
      let! net := readNetworkBytes in
      let '(rx, tx) := match net with Ok n => n | Err _ => (prevNetRx c, prevNetTx c) end in
      let! load := readLoadAverage in
      let! uptime := readUptime in
      let! temperature := readCPUTemperature in
      Ret ({| prevNetRx := rx; prevNetTx := tx; prevStatIdle := idle; prevStatTotal := total; lastCollect := now |},
           Some {| st_CPU := {| UsagePercent := usage; Cores := cores |}; st_Memory := memory_of mem; st_Swap := memory_of swap;
                   st_Disk := disks;
                   st_Network := match net with
                                 | Ok (rx, tx) => {| BytesSent := tx; BytesRecv := rx; PacketsSent := 0; PacketsRecv := 0 |}
                                 | Err _ => {| BytesSent := 0; BytesRecv := 0; PacketsSent := 0; PacketsRecv := 0 |}
                                 end;
                   st_LoadAverage := load; st_Temperature := temperature; st_Uptime := uptime |})
  end.

Definition process_stats (p : process_view) : option ProcessStats :=
  let name := default "" (pv_name p) in
  if String.eqb name "" then None
  else Some {| Pid := pv_pid p; Ppid := default 0%Z (pv_ppid p); ps_Name := name; ps_User := default "" (pv_user p);
               CpuPercent := default f_zero (pv_cpu p); MemPercent := default f_zero (pv_mem p); MemRss := default 0%Z (pv_rss p);
               NumThreads := default 0%Z (pv_threads p); CreateTime := default 0%Z (pv_created p); Cmdline := default "" (pv_cmdline p) |}.

(** source: internal/agent/stats/collector.go:390-431 (CollectProcesses) *)
Definition CollectProcesses : stats_prog (result string (list ProcessStats)) :=
  try! procs := call Processes in
  Ret (Ok (omap (M := list) process_stats procs)).
End numbers.

(** ** What the figures mean *)

Lemma to_uint64_small z : (0 <= z < 2 ^ 64)%Z -> to_uint64 z = z.
Proof. apply Z.mod_small. Qed.

(** Used and free add up to the total, as long as no more is free than there is. *)
Definition adds_up (total used free : Z) : Prop :=
  to_uint64 (used + free) = to_uint64 total /\ ((0 <= free <= total)%Z -> (total < 2 ^ 64)%Z -> (used + free)%Z = total).

Lemma adds_up_sub total free : adds_up total (to_uint64 (total - free)) free.
Proof.
  split.
  - unfold to_uint64. rewrite Zplus_mod_idemp_l. f_equal. lia.
  - intros H1 H2. rewrite to_uint64_small; lia.
Qed.

Lemma disk_lines_exec l seen tr ds :
  exec (disk_lines l seen) tr ds ->
  NoDup (Mountpoint <$> ds) /\ Forall (fun d => Mountpoint d ∉ seen /\ adds_up (dk_Total d) (dk_Used d) (dk_Free d)) ds.
Proof.
  revert seen tr ds. induction l as [|line l IH]; intros seen tr ds; cbn [disk_lines].
  - intros [_ ->]. split; [apply NoDup_nil_2|by apply Forall_nil].
  - destruct (mount_of line) as [mount|]; [|apply IH]. destruct (decide (mount ∈ seen)) as [|Hn]; [apply IH|].
    intros (t1 & t2 & d & -> & Hd & (t3 & t4 & ds' & -> & [Hnd Hall]%IH & [_ ->])%exec_bind)%exec_bind.
    assert (Hall' : Forall (fun d => Mountpoint d ∉ seen /\ adds_up (dk_Total d) (dk_Used d) (dk_Free d)) ds').
    { eapply Forall_impl; [exact Hall|]. set_solver. }
    destruct d as [d|e]; [|done].
    apply exec_try in Hd as (t5 & t6 & [[bsize blocks] bavail] & -> & _ & Hd).
    destruct Hd as [_ [= ->]]. csimpl. split.
    + apply NoDup_cons. split; [|done]. intros (d' & Hd' & Hin)%list_elem_of_fmap.
      rewrite Forall_forall in Hall. destruct (Hall d' Hin) as [Hx _]. simpl in Hd'. set_solver.
    + apply Forall_cons. split; [|done]. split; [done|]. simpl. apply adds_up_sub.
Qed.

(** Each mount point is reported at most once, and for disks, memory and swap the used part is
    what the total leaves of the free one. *)
Theorem figures_add_up `{HFloat : FloatText} c tr c' st :
  exec (Collect c) tr (c', Some st) ->
  NoDup (Mountpoint <$> st_Disk st) /\
  Forall (fun d => adds_up (dk_Total d) (dk_Used d) (dk_Free d)) (st_Disk st) /\
  adds_up (m_Total (st_Memory st)) (m_Used (st_Memory st)) (m_Free (st_Memory st)) /\
  adds_up (m_Total (st_Swap st)) (m_Used (st_Swap st)) (m_Free (st_Swap st)).
Proof.
  assert (Hmem : forall r, adds_up (m_Total (memory_of r)) (m_Used (memory_of r)) (m_Free (memory_of r))).
  { intros [[total free]|e]; simpl; [apply adds_up_sub|]. split; [done|]. lia. }
  assert (Hdisk : forall tr ds, exec readDiskStats tr ds ->
    NoDup (Mountpoint <$> ds) /\ Forall (fun d => adds_up (dk_Total d) (dk_Used d) (dk_Free d)) ds).
  { intros tr0 ds (t1 & t2 & [content|e] & -> & _ & Hd)%exec_bind.
    - apply disk_lines_exec in Hd as [Hn Hall]. split; [done|]. eapply Forall_impl; [exact Hall|]. by intros d [_ Hd].
    - destruct Hd as [_ ->]. split; [apply NoDup_nil_2|by apply Forall_nil]. }
  unfold Collect. intros (t1 & t2 & now & -> & _ & (t3 & t4 & cpu & -> & _ & H)%exec_bind)%exec_bind.
  assert (Hcpu : cpu <> CPUPanic) by (intros ->; by destruct H).
  destruct cpu as [idle total|msg|]; [..|done]; clear Hcpu;
    apply exec_bind in H as (t5 & t6 & cores & -> & _ & (t7 & t8 & mem & -> & _ & (t9 & t10 & swap & -> & _ &
      (t11 & t12 & disks & -> & [Hn Hall]%Hdisk & (t13 & t14 & net & -> & _ & H)%exec_bind)%exec_bind)%exec_bind)%exec_bind);
    destruct net as [[rx tx]|e];
    apply exec_bind in H as (t15 & t16 & load & -> & _ & (t17 & t18 & up & -> & _ & (t19 & t20 & temp & -> & _ & [_ Heq])%exec_bind)%exec_bind);
    injection Heq as -> ->; cbn [st_Disk st_Memory st_Swap]; (split_and!; [exact Hn|exact Hall|apply Hmem|apply Hmem]).
Qed.

(** What a program returns on a machine that answers so. *)
Definition on_machine {A} (answer : forall X, stats_call X -> X) (p : stats_prog A) : A :=
  fst (run (fun X e (w : ()) => (answer X e, w)) p ()).

(** A line of the processors with eight fields, as kernels without the column of stolen time
    write it, passes the test of the code and is then read one field too far: the collector
    panics, when it is made and at each collection. *)
Theorem short_cpu_line_panics `{HFloat : FloatText} (answer : forall X, stats_call X -> X) line rest c :
  answer _ (ReadAll "/proc/stat") = Ok (line ++ String (ascii_of_nat 10) rest) ->
  scan_lines (line ++ String (ascii_of_nat 10) rest) = line :: scan_lines rest ->
  has_prefix line "cpu " = true -> length (fields line) = 8%nat ->
  on_machine answer NewCollector = None /\ snd (on_machine answer (Collect c)) = None.
Proof.
  intros Hread Hscan Hcpu Hlen.
  assert (Hline : cpu_lines (line :: scan_lines rest) = CPUPanic).
  { cbn [cpu_lines]. rewrite Hcpu. unfold cpu_line. by rewrite Hlen. }
  unfold on_machine, NewCollector, Collect, readCPUStat, readNetworkBytes, bind_err, call.
  split; cbn [bind run]; [destruct (answer _ (ReadAll "/proc/net/dev")) as [content|e]; cbn [bind run];
    [destruct (foldl net_line _ _) as [rx tx]; cbn [bind run]|]|]; by rewrite Hread, Hscan, Hline.
Qed.

Lemma short_cpu_line_panics_witness :
  let answer X (c : stats_call X) : X :=
    match c in stats_call X return X with
    | StatsNow => zero_time
    | ReadAll "/proc/stat" => Ok ("cpu  84 2 31 9000 17 0 3" ++ String (ascii_of_nat 10) "")
    | ReadAll _ => Err "no such file"
    | Statfs _ => Err "no such file"
    | Glob _ => Ok []
    | NumCPU => 1%Z
    | Processes => Ok []
    end in
  on_machine answer NewCollector = None.
Proof.
  intros answer.
  apply (short_cpu_line_panics (HFloat := fun _ => (f_zero, false)) answer "cpu  84 2 31 9000 17 0 3" ""
    {| prevNetRx := 0; prevNetTx := 0; prevStatIdle := 0; prevStatTotal := 0; lastCollect := zero_time |}); reflexivity.
Defined.

(** Half of the ticks since the last reading were idle. *)
Example half_idle :
  SFeqb (cpu_usage {| prevNetRx := 0; prevNetTx := 0; prevStatIdle := 100; prevStatTotal := 1000; lastCollect := zero_time |} 150 1100)
        (f_of_Z 50) = true.
Proof. vm_compute. reflexivity. Qed.
