(* ===== verification/Dashboard.v ===== *)
(** * The dashboard, its live connections and the audit log

    internal/core/dashboard, internal/platform/websocket/hub.go, internal/core/audit/service.go
    and the subscribers to site events (internal/core/site/events.go and subscribers.go).  The
    tickets, the hub and the channels of the connections are shared by all goroutines and changed
    under locks, so each of their operations is a function on the shared state and one call of
    the programs that use it.  SQLite, the Agent, the clock and the network are calls too; a
    result set is a list of rows, each of which may fail to scan, and a final error. *)

From S2P Require Import Prelude GoStrings GoStrconv GoJson GoBase64 AppErrors Auth Modules SiteDomain Http Events Stats GoTime GoSql Effects.
Local Open Scope string_scope.
Local Open Scope go_scope.

(** ** Tickets *)

(** source: internal/core/dashboard/tickets.go:10-10 (websocketTicketTTL): nanoseconds *)
Definition websocketTicketTTL : Z := 30 * 10 ^ 9.

(** source: internal/core/dashboard/tickets.go:12-16 (websocketTicket) *)
Record websocketTicket := { wt_userID : string; wt_serverID : string; wt_expiresAt : Z }.

(** The tickets of a [ticketStore], by token. *)
Notation ticketStore := (gmap string websocketTicket).

(** source: internal/core/dashboard/tickets.go:23-25 (newTicketStore) *)
Definition newTicketStore : ticketStore := ∅.

(** source: internal/core/dashboard/tickets.go:34-41 (Issue, the critical section): expired
    tickets are dropped *)
Definition store_issue (token userID serverID : string) (now : Z) (s : ticketStore) : ticketStore :=
  <[token := {| wt_userID := userID; wt_serverID := serverID; wt_expiresAt := now + websocketTicketTTL |}]>
    (filter (fun kt => (now < wt_expiresAt kt.2)%Z) s).

(** source: internal/core/dashboard/tickets.go:45-51 (Consume) *)
Definition store_consume (token : string) (now : Z) (s : ticketStore) : (string * bool) * ticketStore :=
  (match s !! token with Some t => (wt_serverID t, (now <? wt_expiresAt t)%Z) | None => ("", false) end, delete token s).

(** [base64.RawURLEncoding]: the other alphabet, without padding. *)
Definition url_byte (c : ascii) : ascii := if Ascii.eqb c "+" then "-" else if Ascii.eqb c "/" then "_" else c.
Fixpoint raw_url (s : string) : string :=
  match s with
  | "" => ""
  | String c s' => if Ascii.eqb c pad_byte then raw_url s' else String (url_byte c) (raw_url s')
  end.
Definition raw_url_encode (s : string) : string := raw_url (b64_encode s).

(** ** Messages and events *)

(** source: internal/core/site/events.go:17-29 (LifecycleEventData) *)
Record LifecycleEventData := {
  le_SiteID : string; le_Name : string; le_PrimaryDomain : string; le_ModuleID : string; le_RootPath : string; le_State : SiteDomain.State;
  le_AppType : string; le_AppVersion : string; le_ActorID : string; le_IPAddress : string; le_OccurredAt : time }.

Inductive event_payload := SitePayload (data : LifecycleEventData) | OtherPayload (go_type : string).

(** source: internal/platform/events/bus.go:143-149 (BaseEvent) *)
Record BaseEvent := { ev_type : string; ev_payload : event_payload; ev_occurredAt : time; ev_id : string; ev_correlationID : string }.

Inductive message_payload := SiteChanged (event : string) (site : LifecycleEventData) | StatsUpdate (stats : SystemStats).

(** source: internal/platform/websocket/hub.go:29-32 (Message) *)
Record Message := { msg_Type : string; msg_Payload : message_payload }.

(** ** The hub and its connections *)

(** source: internal/core/dashboard/handler.go:106-113 (gorillaClient): [gc_send] is what its
    channel holds *)
Record gorillaClient := { gc_id : string; gc_room : string; gc_send : list Message }.

(** source: internal/core/dashboard/handler.go:115-124 (newGorillaClient) *)
Definition newGorillaClient (id room : string) : gorillaClient := {| gc_id := id; gc_room := room; gc_send := [] |}.

(** source: internal/core/dashboard/handler.go:127-127 (Rooms) *)
Definition Rooms (c : gorillaClient) : list string := [gc_room c].

(** source: internal/core/dashboard/handler.go:128-134 (Send): a full channel drops the message *)
Definition Send (msg : Message) (c : gorillaClient) : gorillaClient :=
  if (length (gc_send c) <? 32)%nat
  then {| gc_id := gc_id c; gc_room := gc_room c; gc_send := (gc_send c ++ [msg])%list |} else c.

(** The connections that exist, and those the hub has: the map of the hub holds pointers. *)
Record connections := { conns : gmap string gorillaClient; hub_clients : gset string }.

(** source: internal/platform/websocket/hub.go:66-71 (Register) *)
Definition Register (c : gorillaClient) (h : connections) : connections :=
  {| conns := <[gc_id c := c]> (conns h); hub_clients := {[gc_id c]} ∪ hub_clients h |}.

(** source: internal/platform/websocket/hub.go:74-79 (Unregister) *)
Definition Unregister (id : string) (h : connections) : connections :=
  {| conns := conns h; hub_clients := hub_clients h ∖ {[id]} |}.

(** Every client of the hub that [f] selects gets the message. *)
Definition send_to (f : gorillaClient -> bool) (msg : Message) (h : connections) : connections :=
  {| conns := map_imap (fun id c => Some (if decide (id ∈ hub_clients h) then (if f c then Send msg c else c) else c)) (conns h);
     hub_clients := hub_clients h |}.

(** source: internal/platform/websocket/hub.go:82-88 (Broadcast) *)
Definition Broadcast (msg : Message) (h : connections) : connections := send_to (fun _ => true) msg h.

(** source: internal/platform/websocket/hub.go:91-102 (BroadcastToRoom) *)
Definition BroadcastToRoom (room : string) (msg : Message) (h : connections) : connections :=
  send_to (fun c => existsb (String.eqb room) (Rooms c)) msg h.

(** source: internal/platform/websocket/hub.go:105-109 (ClientCount) *)
Definition ClientCount (h : connections) : nat := size (hub_clients h).

(** ** Rows *)

(** source: internal/core/dashboard/service.go:44-50 (JobSummary) *)
Record JobSummary := { js_ID : string; js_Type : string; js_State : string; js_CreatedAt : time; js_FinishedAt : option time }.

(** source: internal/core/dashboard/service.go:53-58 (AuditSummary) *)
Record AuditSummary := { as_Action : string; as_Resource : string; as_Status : string; as_CreatedAt : time }.

(** source: internal/core/dashboard/service.go:61-67 (StatSnapshot) *)
Record StatSnapshot := { CPUPercent_ : float64; MemPercent_ : float64; DiskPercent_ : float64; Load1m : float64; RecordedAt : time }.

(** source: internal/core/dashboard/service.go:36-41 (ModuleSummary) *)
Record ModuleSummary := { ms_Total : Z; ms_Enabled : Z; ms_Disabled : Z; ms_Error : Z }.

(** source: internal/core/dashboard/service.go:27-33 (Overview) *)
Record OverviewData := {
  ServerStats : option SystemStats; ov_Modules : ModuleSummary; RecentJobs : list JobSummary; RecentAudit : list AuditSummary;
  ov_Snapshots : list StatSnapshot }.

(** source: internal/core/audit/service.go:28-37 (Entry) *)
Record Entry := {
  en_ID : string; en_UserID : option string; en_Action : string; en_Resource : option string; en_Metadata : option json;
  en_IPAddress : option string; en_Status : string; en_CreatedAt : time }.

(** The columns of the tables, times as the texts they are stored as. *)
Record snapshot_row := { sr_cpu : float64; sr_mem : float64; sr_disk : float64; sr_load : float64; sr_recorded : string }.
Record job_row := { jr_id : string; jr_type : string; jr_state : string; jr_created : string; jr_finished : option string }.
Record audit_row := {
  ar_id : string; ar_user : option string; ar_action : string; ar_resource : option string; ar_metadata : option string;
  ar_ip : option string; ar_status : string; ar_created : string }.

(** ** Calls *)

Inductive kill_error := KillProtected | KillFailed (msg : string).
(** What the loop that writes to a connection waits for. *)
Inductive pump_event := PumpMessage (msg : Message) | PumpTick.

Inductive dash_call : Set -> Set :=
| DInstant : dash_call Z
| DNow : dash_call time
| DCutoff (maxAge : Z) : dash_call time
| DRandom (n : Z) : dash_call (result string string)
| DNewID : dash_call string
(* shared memory *)
| StoreIssue (token userID serverID : string) (now : Z) : dash_call ()
| StoreConsume (token : string) (now : Z) : dash_call (string * bool)
| HubRegister (c : gorillaClient) : dash_call ()
| HubUnregister (id : string) : dash_call ()
| HubRoom (room : string) (msg : Message) : dash_call ()
| PumpSelect (id : string) : dash_call pump_event
| CacheLoad : dash_call (option SystemStats)
| CacheStore (stats : SystemStats) : dash_call ()
(* connections *)
| WsUpgrade : dash_call (result string ())
| WsMarshal (msg : Message) : dash_call (result string string)
| WsWrite (id : string) (msg : Message) (text : string) : dash_call (result string ())
| WsPing (id : string) : dash_call (result string ())
| WsRead (id : string) : dash_call (result string ())
| WsClose (id : string) : dash_call ()
(* the Agent and the tables *)
| AgentStats (server : string) : dash_call (result string SystemStats)
| AgentProcesses (server : string) : dash_call (result string (list ProcessStats))
| AgentKill (server : string) (pid : Z) (force : bool) : dash_call (result kill_error ())
| ModulesAll (server : string) : dash_call (result string (list record))
| SnapshotInsert (id : string) (row : snapshot_row) (server : string) : dash_call (result string ())
| SnapshotQuery (server : string) (n : Z) : dash_call (result string (rows snapshot_row))
| SnapshotDelete (server cutoff : string) : dash_call (result string ())
| JobQuery (server : string) (n : Z) : dash_call (result string (rows job_row))
| AuditInsert (server : string) (row : audit_row) : dash_call (result string ())
| AuditQuery (server : string) (user : option string) (limit offset : Z) : dash_call (result string (rows audit_row)).

Notation dash_prog A := (prog dash_call A).

(** ** The audit log *)

Section audit.
Variable ctx : context.

(** source: internal/core/audit/service.go:51-81 (Record) *)
Definition RecordEntry (entry : Entry) : dash_prog (result string ()) :=
  let! id := if String.eqb (en_ID entry) "" then call DNewID else Ret (en_ID entry) in
  let! created := if is_zero (en_CreatedAt entry) then call DNow else Ret (en_CreatedAt entry) in
  let meta := print_json <$> en_Metadata entry in
  let! out := call (AuditInsert (ServerID ctx)
    {| ar_id := id; ar_user := en_UserID entry; ar_action := en_Action entry; ar_resource := en_Resource entry; ar_metadata := meta;
       ar_ip := en_IPAddress entry; ar_status := en_Status entry; ar_created := seconds_text created |}) in
  Ret (map_err (fun e => "audit: record: " ++ e) out).

Definition entry_of_row (r : audit_row) : Entry := {|
  en_ID := ar_id r; en_UserID := ar_user r; en_Action := ar_action r; en_Resource := ar_resource r;
  en_Metadata := ar_metadata r ≫= parse_json; en_IPAddress := ar_ip r; en_Status := ar_status r; en_CreatedAt := stored_time (ar_created r) |}.

(** source: internal/core/audit/service.go:84-115 (List): the entries and the error *)
Definition ListEntries (limit offset : Z) : dash_prog (list Entry * option string) :=
  let! q := call (AuditQuery (ServerID ctx) None limit offset) in
  Ret (match q with
       | Err e => ([], Some ("audit: list: " ++ e))
       | Ok rs => scan_rows entry_of_row (fun e => "audit: scan: " ++ e) (r_rows rs) [] (r_Err rs)
       end).

(** source: internal/core/audit/service.go:117-137 (ListForUser) *)
Definition ListForUser (userID : string) (limit offset : Z) : dash_prog (list Entry * option string) :=
  let! q := call (AuditQuery (ServerID ctx) (Some userID) limit offset) in
  Ret (match q with
       | Err e => ([], Some ("audit: list for user: " ++ e))
       | Ok rs => scan_rows entry_of_row (fun e => "audit: scan for user: " ++ e) (r_rows rs) [] (r_Err rs)
       end).
End audit.

(** ** Events of sites *)

(** source: internal/core/site/events.go:9-15 (EventCreated, EventUpdated, EventDeleted, EventEnabled, EventDisabled) *)
Definition site_events : list string := ["site.created"; "site.updated"; "site.deleted"; "site.enabled"; "site.disabled"].

(** source: internal/core/site/subscribers.go:43-46 (siteAuditActions) *)
Definition siteAuditActions : gmap string string := list_to_map
  [("site.created", "site.create"); ("site.updated", "site.update"); ("site.deleted", "site.delete"); ("site.enabled", "site.enable");
   ("site.disabled", "site.disable")].

(** source: internal/platform/events/bus.go:156-161 (NewCorrelatedEvent) *)
Definition NewCorrelatedEvent (eventType : string) (payload : event_payload) (correlationID : string) : dash_prog BaseEvent :=
  let! now := call DNow in
  let! id := call DNewID in
  Ret {| ev_type := eventType; ev_payload := payload; ev_occurredAt := now; ev_id := id; ev_correlationID := correlationID |}.

(** source: internal/platform/events/bus.go:152-154 (NewBaseEvent) *)
Definition NewBaseEvent (eventType : string) (payload : event_payload) : dash_prog BaseEvent := NewCorrelatedEvent eventType payload "".

(** source: internal/core/site/events.go:31-50 (newLifecycleEvent) *)
Definition newLifecycleEvent (eventType : string) (current : Site) (actorID ipAddress : string) : dash_prog BaseEvent :=
  let primaryDomain := default "" (d_Domain <$> List.find (fun d => is_primary (d_Type d)) (Domains current)) in
  let! now := call DNow in
  NewBaseEvent eventType (SitePayload
    {| le_SiteID := ID current; le_Name := Name current; le_PrimaryDomain := primaryDomain; le_ModuleID := ModuleID current;
       le_RootPath := RootPath current; le_State := State_ current; le_AppType := AppType (App_ current);
       le_AppVersion := default "" (AppVersion (App_ current)); le_ActorID := actorID; le_IPAddress := ipAddress; le_OccurredAt := now |}).

(** The handlers of site events: each closes over the type it was subscribed to. *)
Inductive site_handler := AuditHandler (eventType : string) | DashboardHandler (eventType : string).

Definition nonempty (s : string) : option string := if String.eqb s "" then None else Some s.

(** source: internal/core/site/subscribers.go:15-33 (RegisterAuditSubscriber, the handler) *)
Definition audit_site (ctx : context) (eventType : string) (data : LifecycleEventData) : dash_prog (option string) :=
  let action := default "" (siteAuditActions !! eventType) in
  let! out := RecordEntry ctx
    {| en_ID := ""; en_UserID := nonempty (le_ActorID data); en_Action := action; en_Resource := Some ("site:" ++ le_SiteID data);
       en_Metadata := Some (JObj [("domain", JStr (escape (le_PrimaryDomain data))); ("module_id", JStr (escape (le_ModuleID data)))]);
       en_IPAddress := nonempty (le_IPAddress data); en_Status := "success"; en_CreatedAt := zero_time |} in
  Ret (match out with Ok _ => None | Err e => Some e end).

(** source: internal/core/dashboard/subscribers.go:16-24 (RegisterSiteLifecycleSubscriber, the handler) *)
Definition dashboard_site (eventType : string) (data : LifecycleEventData) : dash_prog (option string) :=
  ignore! call (HubRoom "dashboard" {| msg_Type := "site_changed"; msg_Payload := SiteChanged eventType data |}) in
  Ret None.

(** source: internal/platform/events/bus.go:41-50 (SubscribePayload, the handler it subscribes) *)
Definition with_payload (eventType : string) (event : BaseEvent) (k : LifecycleEventData -> dash_prog (option string)) : dash_prog (option string) :=
  match ev_payload event with
  | SitePayload data => k data
  | OtherPayload ty => Ret (Some ("event bus: " ++ eventType ++ " payload type " ++ ty ++ ", expected site.LifecycleEventData"))
  end.

Definition handle_event (ctx : context) X (c : handler_call (Handler := site_handler) (Event := BaseEvent) X) : dash_prog X :=
  match c in handler_call X return dash_prog X with
  | Handle h e =>
      let! err := match h with
                  | AuditHandler ty => with_payload ty e (audit_site ctx ty)
                  | DashboardHandler ty => with_payload ty e (dashboard_site ty)
                  end in
      Ret (Returned err)
  end.

(** source: internal/core/app/fx.go:344-361 (registerDomainSubscribers), with
    internal/core/site/subscribers.go and internal/core/dashboard/subscribers.go: the bus after
    the start; [audited] is the order in which the map of audited events is walked *)
Definition registerDomainSubscribers (audited : list string) : MemoryBus site_handler :=
  foldl (fun b ty => snd (Subscribe ty (DashboardHandler ty) b))
    (foldl (fun b ty => snd (Subscribe ty (AuditHandler ty) b)) NewMemoryBus audited) site_events.

(** source: internal/core/site/operations.go:37-46 (publishLifecycle), down to the handlers *)
Definition publish_site (bus : MemoryBus site_handler) (ctx : context) (ctxErr : option string) (eventType : string) (current : Site)
    (actorID ipAddress : string) : dash_prog (option publish_error) :=
  let! event := newLifecycleEvent eventType current actorID ipAddress in
  interp (handle_event ctx) (Publish ev_type bus ctxErr (Some event)).

(** ** The service *)

Section service.

(** source: internal/core/dashboard/service.go:215-227 (saveSnapshot) *)
Definition saveSnapshot (ctx : context) (cpu mem disk load : float64) : dash_prog (result string ()) :=
  let! id := call DNewID in
  let! now := call DNow in
  call (SnapshotInsert id {| sr_cpu := cpu; sr_mem := mem; sr_disk := disk; sr_load := load; sr_recorded := seconds_text now |} (ServerID ctx)).

Definition snapshot_of_row (r : snapshot_row) : StatSnapshot :=
  {| CPUPercent_ := sr_cpu r; MemPercent_ := sr_mem r; DiskPercent_ := sr_disk r; Load1m := sr_load r; RecordedAt := stored_time (sr_recorded r) |}.

(** source: internal/core/dashboard/service.go:230-255 (listSnapshots) *)
Definition listSnapshots (ctx : context) (n : Z) : dash_prog (list StatSnapshot * option string) :=
  let! q := call (SnapshotQuery (ServerID ctx) n) in
  Ret (match q with
       | Err e => ([], Some ("dashboard: list snapshots: " ++ e))
       | Ok rs => let '(snaps, err) := scan_rows snapshot_of_row id (r_rows rs) [] (r_Err rs) in (rev snaps, err)
       end).

(** source: internal/core/dashboard/service.go:258-261 (pruneSnapshots) *)
Definition pruneSnapshots (ctx : context) (maxAge : Z) : dash_prog () :=
  let! cutoff := call (DCutoff maxAge) in
  ignore! call (SnapshotDelete (ServerID ctx) (seconds_text cutoff)) in
  Ret ().

Definition job_of_row (r : job_row) : JobSummary :=
  {| js_ID := jr_id r; js_Type := jr_type r; js_State := jr_state r; js_CreatedAt := stored_time (jr_created r);
     js_FinishedAt := stored_time <$> jr_finished r |}.

(** source: internal/core/dashboard/service.go:264-289 (recentJobs): rows that do not scan are skipped *)
Definition recentJobs (ctx : context) (n : Z) : dash_prog (list JobSummary) :=
  let! q := call (JobQuery (ServerID ctx) n) in
  Ret (match q with
       | Err _ => []
       | Ok rs => omap (M := list) (fun r => match r with Ok row => Some (job_of_row row) | Err _ => None end) (r_rows rs)
       end).

Definition count_state (st : Modules.State) (l : list record) : Z := Z.of_nat (length (filter (fun r => r_State r = st) l)).

(** source: internal/core/dashboard/service.go:103-161 (Overview) *)
Definition Overview (ctx : context) : dash_prog OverviewData :=
  let! cached := call CacheLoad in
  let! stats :=
    if negb (IsLocal ctx)
    then let! remote := call (AgentStats (ServerID ctx)) in Ret (match remote with Ok s => Some s | Err _ => None end)
    else Ret cached in
  let! records := call (ModulesAll (ServerID ctx)) in
  let modules := match records with
                 | Ok l => {| ms_Total := Z.of_nat (length l); ms_Enabled := count_state Modules.StateEnabled l;
                              ms_Disabled := count_state Modules.StateDisabled l; ms_Error := count_state Modules.StateError l |}
                 | Err _ => {| ms_Total := 0; ms_Enabled := 0; ms_Disabled := 0; ms_Error := 0 |}
                 end in
  let! jobs := recentJobs ctx 10 in
  let! entries := ListEntries ctx 20 0 in
  let audit := match snd entries with
               | None => (fun e => {| as_Action := en_Action e; as_Resource := default "" (en_Resource e); as_Status := en_Status e;
                                      as_CreatedAt := en_CreatedAt e |}) <$> fst entries
               | Some _ => []
               end in
  let! snaps := listSnapshots ctx 60 in
  Ret {| ServerStats := stats; ov_Modules := modules; RecentJobs := jobs; RecentAudit := audit; ov_Snapshots := fst snaps |}.

(** source: internal/core/dashboard/service.go:183-212 (poll): [has_agent] says whether the
    service has an Agent; the poller passes an empty context *)
Definition poll (has_agent : bool) (ctx : context) : dash_prog () :=
  if negb has_agent then Ret ()
  else
    let! out := call (AgentStats (ServerID ctx)) in
    match out with
    | Err _ => Ret ()
    | Ok stats =>
        ignore! call (CacheStore stats) in
        let diskPct := match st_Disk stats with d :: _ => dk_UsedPercent d | [] => f_zero end in
        let '(load1, _, _) := st_LoadAverage stats in
        ignore! saveSnapshot ctx (UsagePercent (st_CPU stats)) (m_UsedPercent (st_Memory stats)) diskPct load1 in
        ignore! call (HubRoom ("dashboard:" ++ ServerID ctx) {| msg_Type := "stats_update"; msg_Payload := StatsUpdate stats |}) in
        pruneSnapshots ctx (24 * 3600 * 10 ^ 9)
    end.

(** source: internal/core/dashboard/service.go:166-180 (StartPoller): the goroutine, for as many
    ticks as come before its context ends *)
Fixpoint poller (has_agent : bool) (ticks : nat) : dash_prog () :=
  match ticks with
  | 0 => Ret ()
  | S n => ignore! poll has_agent background in poller has_agent n
  end.
End service.

(** ** Handlers *)

Inductive dash_payload :=
| DashError (code : ErrorCode) (message : string)
| DashTicket (token : string) (expiresAt : Z)
| DashOverview (o : OverviewData)
| DashSnapshots (l : list StatSnapshot)
| DashProcesses (l : list ProcessStats)
| DashSuccess
| DashSwitched.
Record dash_reply := { dr_status : Z; dr_payload : dash_payload }.

(** source: internal/core/dashboard/handler.go:191-195 (respond), before the encoding *)
Definition dash_respond (status : Z) (data : dash_payload) : dash_reply := {| dr_status := status; dr_payload := data |}.

(** source: internal/core/dashboard/handler.go:197-199 (writeError) *)
Definition dash_error (err : error) : dash_reply :=
  let ae := AsAppError err in {| dr_status := HTTPStatus ae; dr_payload := DashError (Code ae) (AppErrors.Message ae) |}.
Definition internal (msg err : string) : dash_reply := dash_error (AppErrors.App (Internal msg (Plain err))).

(** source: internal/core/dashboard/tickets.go:27-43 (Issue) *)
Definition Issue (userID serverID : string) (now : Z) : dash_prog (result string (string * Z)) :=
  try! raw := call (DRandom 32) in
  let token := raw_url_encode raw in
  let expiresAt := (now + websocketTicketTTL)%Z in
  ignore! call (StoreIssue token userID serverID now) in
  Ret (Ok (token, expiresAt)).

(** source: internal/core/dashboard/handler.go:42-57 (IssueWebSocketTicket) *)
Definition IssueWebSocketTicket (ctx : context) : dash_prog dash_reply :=
  match PrincipalFromContext ctx with
  | None => Ret (dash_error (Unauthorized "not authenticated"))
  | Some principal =>
      let! now := call DInstant in
      let! out := Issue (p_ID principal) (ServerID ctx) now in
      Ret (match out with
           | Err err => internal "issue websocket ticket" err
           | Ok (ticket, expiresAt) => dash_respond 201 (DashTicket ticket expiresAt)
           end)
  end.

(** source: internal/core/dashboard/handler.go:60-67 (Overview) *)
Definition HandleOverview (ctx : context) : dash_prog dash_reply :=
  let! overview := Overview ctx in Ret (dash_respond 200 (DashOverview overview)).

(** source: internal/core/dashboard/handler.go:70-77 (Snapshots) *)
Definition HandleSnapshots (ctx : context) : dash_prog dash_reply :=
  let! out := listSnapshots ctx 60 in
  Ret (match snd out with
       | Some err => internal "list snapshots" err
       | None => dash_respond 200 (DashSnapshots (fst out))
       end).

(** source: internal/core/dashboard/handler.go:81-101 (WebSocket): the pumps it starts are the
    programs below; a failed upgrade was answered by the library *)
Definition WebSocket (r : request) : dash_prog dash_reply :=
  let! now := call DInstant in
  let! consumed := call (StoreConsume (Query r "ticket") now) in
  let '(serverID, valid) := consumed in
  if negb valid then Ret (dash_error (Unauthorized "invalid or expired websocket ticket"))
  else
    let! conn := call WsUpgrade in
    match conn with
    | Err _ => Ret (dash_respond 400 DashSwitched)
    | Ok _ =>
        let! id := call DNewID in
        let client := newGorillaClient id ("dashboard:" ++ serverID) in
        ignore! call (HubRegister client) in
        Ret (dash_respond 101 DashSwitched)
    end.

(** source: internal/core/dashboard/handler.go:142-146 (writePump, the deferred function), as
    internal/core/dashboard/handler.go:173-176 of readPump *)
Definition hang_up (id : string) : dash_prog () :=
  ignore! call (HubUnregister id) in call (WsClose id).

(** source: internal/core/dashboard/handler.go:140-169 (writePump), for a number of turns of its
    loop; the channel is never closed *)
Fixpoint writePump (id : string) (turns : nat) : dash_prog () :=
  match turns with
  | 0 => Ret ()
  | S n =>
      let! ev := call (PumpSelect id) in
      match ev with
      | PumpMessage msg =>
          let! b := call (WsMarshal msg) in
          match b with
          | Err _ => hang_up id
          | Ok text =>
              let! out := call (WsWrite id msg text) in
              match out with Err _ => hang_up id | Ok _ => writePump id n end
          end
      | PumpTick =>
          let! out := call (WsPing id) in
          match out with Err _ => hang_up id | Ok _ => writePump id n end
      end
  end.

(** source: internal/core/dashboard/handler.go:172-187 (readPump), for a number of turns *)
Fixpoint readPump (id : string) (turns : nat) : dash_prog () :=
  match turns with
  | 0 => Ret ()
  | S n => let! out := call (WsRead id) in match out with Err _ => hang_up id | Ok _ => readPump id n end
  end.

(** source: internal/core/dashboard/processes.go:15-22 (ListProcesses) *)
Definition HandleListProcesses (ctx : context) : dash_prog dash_reply :=
  let! out := call (AgentProcesses (ServerID ctx)) in
  Ret (match out with
       | Err err => internal "failed to list processes" err
       | Ok procs => dash_respond 200 (DashProcesses procs)
       end).

(** source: internal/core/dashboard/processes.go:25-47 (KillProcess) *)
Definition HandleKillProcess (r : request) (ctx : context) (pidStr : string) : dash_prog dash_reply :=
  match atoi pidStr with
  | None => Ret (dash_error (InvalidInput "invalid pid"))
  | Some pid =>
      let force := String.eqb (Query r "force") "true" in
      let! out := call (AgentKill (ServerID ctx) pid force) in
      Ret (match out with
           | Ok _ => dash_respond 200 DashSuccess
           | Err KillProtected =>
               dash_error (AppErrors.App (New 409 CodeConflict "the selected process is protected; manage system services through Services"))
           | Err (KillFailed err) => internal "failed to kill process" err
           end)
  end.
