(* ===== verification/DashboardSpec.v ===== *)
(** * What the live connections of the dashboard show, and to whom

    The shared state of the dashboard with a record of the tickets that were issued and accepted
    and of the messages that were written, the goroutines that may run on it, and what holds in
    every state they reach, however their operations interleave. *)

From S2P Require Import Prelude GoStrings AppErrors Auth SiteDomain Http Events Stats Effects Pool Dashboard.
Local Open Scope string_scope.
Local Open Scope go_scope.

(** ** The shared state *)

Record issued := { is_token : string; is_user : string; is_server : string; is_at : Z }.
Record accepted := { ac_token : string; ac_server : string; ac_at : Z }.

Record dash_state := {
  ds_tickets : ticketStore; ds_conns : connections; ds_cache : option SystemStats;
  ds_issued : list issued; ds_accepted : list accepted; ds_written : list (string * Message) }.

Definition dash_start : dash_state := {|
  ds_tickets := newTicketStore; ds_conns := {| conns := ∅; hub_clients := ∅ |}; ds_cache := None; ds_issued := []; ds_accepted := []; ds_written := [] |}.

Definition with_conns (h : connections) (s : dash_state) : dash_state := {|
  ds_tickets := ds_tickets s; ds_conns := h; ds_cache := ds_cache s; ds_issued := ds_issued s; ds_accepted := ds_accepted s;
  ds_written := ds_written s |}.

(** The first message of a channel is received. *)
Definition received (c : gorillaClient) : gorillaClient := {| gc_id := gc_id c; gc_room := gc_room c; gc_send := tail (gc_send c) |}.

Definition dash_sem X (c : dash_call X) : dash_state -> X -> dash_state -> Prop :=
  match c in dash_call X return dash_state -> X -> dash_state -> Prop with
  | StoreIssue token userID serverID now => fun s _ s' =>
      s' = {| ds_tickets := store_issue token userID serverID now (ds_tickets s); ds_conns := ds_conns s; ds_cache := ds_cache s;
              ds_issued := ds_issued s ++ [{| is_token := token; is_user := userID; is_server := serverID; is_at := now |}];
              ds_accepted := ds_accepted s; ds_written := ds_written s |}
  | StoreConsume token now => fun s x s' =>
      x = fst (store_consume token now (ds_tickets s)) /\
      s' = {| ds_tickets := snd (store_consume token now (ds_tickets s)); ds_conns := ds_conns s; ds_cache := ds_cache s;
              ds_issued := ds_issued s;
              ds_accepted := ds_accepted s ++ (if snd x then [{| ac_token := token; ac_server := fst x; ac_at := now |}] else []);
              ds_written := ds_written s |}
  | HubRegister c => fun s _ s' => s' = with_conns (Register c (ds_conns s)) s
  | HubUnregister id => fun s _ s' => s' = with_conns (Unregister id (ds_conns s)) s
  | HubRoom room msg => fun s _ s' => s' = with_conns (BroadcastToRoom room msg (ds_conns s)) s
  | PumpSelect id => fun s x s' =>
      (x = PumpTick /\ s' = s) \/
      exists c m, conns (ds_conns s) !! id = Some c /\ head (gc_send c) = Some m /\ x = PumpMessage m /\
        s' = with_conns {| conns := <[id := received c]> (conns (ds_conns s)); hub_clients := hub_clients (ds_conns s) |} s
  | CacheLoad => fun s x s' => x = ds_cache s /\ s' = s
  | CacheStore stats => fun s _ s' =>
      s' = {| ds_tickets := ds_tickets s; ds_conns := ds_conns s; ds_cache := Some stats; ds_issued := ds_issued s;
              ds_accepted := ds_accepted s; ds_written := ds_written s |}
  | WsWrite id msg _ => fun s x s' =>
      s' = {| ds_tickets := ds_tickets s; ds_conns := ds_conns s; ds_cache := ds_cache s; ds_issued := ds_issued s;
              ds_accepted := ds_accepted s; ds_written := ds_written s ++ [(id, msg)] |}
  | _ => fun s _ s' => s' = s
  end%list.

(** ** The goroutines *)

Definition void {A} (p : dash_prog A) : dash_prog () := ignore! p in Ret ().

Section access.
(** The users for whom the middleware lets a request for a ticket through. *)
Variable authed : string -> Prop.

Inductive dash_starts : dash_prog () -> Prop :=
| starts_ticket ctx : (forall p, PrincipalFromContext ctx = Some p -> authed (p_ID p)) -> dash_starts (void (IssueWebSocketTicket ctx))
| starts_socket r : dash_starts (void (WebSocket r))
| starts_write id turns : dash_starts (writePump id turns)
| starts_read id turns : dash_starts (readPump id turns)
| starts_poller has_agent ticks : dash_starts (poller has_agent ticks)
| starts_event audited ctx ctxErr ty site actor ip :
    dash_starts (void (publish_site (registerDomainSubscribers audited) ctx ctxErr ty site actor ip))
| starts_overview ctx : dash_starts (void (HandleOverview ctx))
| starts_snapshots ctx : dash_starts (void (HandleSnapshots ctx))
| starts_processes ctx : dash_starts (void (HandleListProcesses ctx))
| starts_kill r ctx pid : dash_starts (void (HandleKillProcess r ctx pid)).

(** ** The invariant *)

Definition same_token (t : string) (l : list issued) : nat := length (filter (fun i => is_token i = t) l).
Definition same_accepted (t : string) (l : list accepted) : nat := length (filter (fun a => ac_token a = t) l).

(** A ticket was issued for this use. *)
Definition justified (s : dash_state) (a : accepted) : Prop :=
  exists i, i ∈ ds_issued s /\ is_token i = ac_token a /\ is_server i = ac_server a /\ (ac_at a < is_at i + websocketTicketTTL)%Z.

Definition statistics (m : Message) : Prop := msg_Type m = "stats_update" /\ exists st, msg_Payload m = StatsUpdate st.

Record dash_inv (s : dash_state) : Prop := {
  di_authed : forall i, i ∈ ds_issued s -> authed (is_user i);
  di_tickets : forall t w, ds_tickets s !! t = Some w ->
    exists i, i ∈ ds_issued s /\ is_token i = t /\ is_server i = wt_serverID w /\ wt_expiresAt w = (is_at i + websocketTicketTTL)%Z;
  di_count : forall t, same_accepted t (ds_accepted s) + (if ds_tickets s !! t then 1 else 0) <= same_token t (ds_issued s);
  di_accepted : forall a, a ∈ ds_accepted s -> justified s a;
  di_rooms : forall id c, conns (ds_conns s) !! id = Some c ->
    exists a, a ∈ ds_accepted s /\ gc_room c = "dashboard:" ++ ac_server a;
  di_queue : forall id c, conns (ds_conns s) !! id = Some c ->
    length (gc_send c) <= 32 /\ forall m, m ∈ gc_send c -> statistics m /\ gc_room c = "dashboard:local";
  di_written : forall id m, (id, m) ∈ ds_written s -> statistics m }.

Definition dash_rely (s s' : dash_state) : Prop :=
  (forall i, i ∈ ds_issued s -> i ∈ ds_issued s') /\ (forall a, a ∈ ds_accepted s -> a ∈ ds_accepted s').

#[local] Instance dash_rely_preorder : PreOrder dash_rely.
Proof. split; [by split|]. intros s1 s2 s3 [] []. split; auto. Qed.

(** The calls that keep the invariant whenever they are made. *)
Definition safe_call X (c : dash_call X) : Prop :=
  match c with
  | StoreIssue _ userID _ _ => authed userID
  | HubRegister _ => False
  | HubRoom room msg => room = "dashboard" \/ (room = "dashboard:local" /\ statistics msg)
  | WsWrite _ msg _ => statistics msg
  | _ => True
  end.

(** *** Tickets *)

Lemma same_token_snoc t l i : same_token t (l ++ [i]) = same_token t l + (if decide (is_token i = t) then 1 else 0).
Proof. unfold same_token. rewrite filter_app, length_app, filter_cons, filter_nil. by destruct (decide _). Qed.

Lemma same_accepted_snoc t l a : same_accepted t (l ++ [a]) = same_accepted t l + (if decide (ac_token a = t) then 1 else 0).
Proof. unfold same_accepted. rewrite filter_app, length_app, filter_cons, filter_nil. by destruct (decide _). Qed.

(** A state with the same logs and tickets, whose connections are in order. *)
Lemma inv_conns s h :
  dash_inv s ->
  (forall id c, conns h !! id = Some c -> exists a, a ∈ ds_accepted s /\ gc_room c = "dashboard:" ++ ac_server a) ->
  (forall id c, conns h !! id = Some c ->
    length (gc_send c) <= 32 /\ forall m, m ∈ gc_send c -> statistics m /\ gc_room c = "dashboard:local") ->
  dash_inv (with_conns h s) /\ dash_rely s (with_conns h s).
Proof. intros [] Hr Hq. split; [|by split]. by split. Qed.

Lemma inv_issue s token userID serverID now s' :
  dash_inv s -> authed userID -> dash_sem () (StoreIssue token userID serverID now) s () s' -> dash_inv s' /\ dash_rely s s'.
Proof.
  intros [Ha Ht Hc Hacc Hr Hq Hw] Hu ->. split; [|split; simpl; [set_solver|done]]. split; simpl; try done.
  - intros i [Hin| ->%list_elem_of_singleton]%elem_of_app; [by apply Ha|done].
  - intros t w. unfold store_issue. destruct (decide (t = token)) as [->|Hne].
    + rewrite lookup_insert_eq. intros [= <-]. eexists. split; [apply elem_of_app; right; by apply list_elem_of_singleton|done].
    + rewrite lookup_insert_ne by done. intros [Hlk _]%map_lookup_filter_Some.
      destruct (Ht t w Hlk) as (i & Hin & ?). exists i. split; [set_solver|done].
  - intros t. rewrite same_token_snoc. simpl. specialize (Hc t). unfold store_issue. destruct (decide (token = t)) as [->|Hne].
    + rewrite lookup_insert_eq. destruct (ds_tickets s !! t); lia.
    + rewrite lookup_insert_ne by done. destruct (filter _ _ !! t) eqn:Hf; [|destruct (ds_tickets s !! t); lia].
      apply map_lookup_filter_Some in Hf as [Hf _]. rewrite Hf in Hc. lia.
  - intros a Hin. destruct (Hacc a Hin) as (i & Hi & ?). exists i. split; [set_solver|done].
Qed.

Lemma inv_consume s token now x s' :
  dash_inv s -> dash_sem _ (StoreConsume token now) s x s' -> dash_inv s' /\ dash_rely s s'.
Proof.
  intros [Ha Ht Hc Hacc Hr Hq Hw] [Hx ->]. split; [|split; simpl; [done|set_solver]].
  assert (Hjust : forall a, a ∈ (if snd x then [{| ac_token := token; ac_server := fst x; ac_at := now |}] else []) ->
    ds_tickets s !! token <> None /\ ac_token a = token /\ justified s a).
  { intros a. rewrite Hx. clear Hx. unfold store_consume. destruct (ds_tickets s !! token) as [w|] eqn:Hw'; simpl; [|by intros ?%not_elem_of_nil].
    destruct (Z.ltb_spec now (wt_expiresAt w)) as [Hlt|]; [|by intros ?%not_elem_of_nil].
    intros ->%list_elem_of_singleton. split_and!; [done..|]. destruct (Ht token w Hw') as (i & Hin & <- & Hs & He).
    exists i. simpl. rewrite <- He. done. }
  split; simpl; try done.
  - intros t w Hlk. apply Ht. by apply lookup_delete_Some in Hlk as [_ Hlk].
  - intros t. specialize (Hc t). destruct (decide (token = t)) as [->|Hne].
    + rewrite lookup_delete_eq. destruct (snd x).
      * cbn iota. rewrite same_accepted_snoc. simpl. rewrite decide_True by done.
        destruct (Hjust _ ltac:(by apply list_elem_of_singleton)) as [Hsome _]. destruct (ds_tickets s !! t); [lia|done].
      * rewrite app_nil_r. destruct (ds_tickets s !! t); lia.
    + rewrite lookup_delete_ne by done. destruct (snd x).
      * cbn iota. rewrite same_accepted_snoc. simpl. rewrite decide_False by done. lia.
      * by rewrite app_nil_r.
  - intros a [Hin|Hin]%elem_of_app; [by apply Hacc|]. by apply Hjust in Hin as (_ & _ & ?).
  - intros id c Hlk. destruct (Hr id c Hlk) as (a & Hin & ?). exists a. split; [set_solver|done].
Qed.

(** *** The hub *)

Lemma room_apart server : "dashboard" <> "dashboard:" ++ server.
Proof. by destruct server. Qed.

Lemma inv_register s c x s' :
  dash_inv s -> (exists a, a ∈ ds_accepted s /\ gc_room c = "dashboard:" ++ ac_server a) -> gc_send c = [] ->
  dash_sem () (HubRegister c) s x s' -> dash_inv s' /\ dash_rely s s'.
Proof.
  intros Hi Hroom Hsend ->. apply inv_conns; [done|..]; intros id c'; cbn [Register conns];
    (destruct (decide (gc_id c = id)) as [->|Hne]; [rewrite lookup_insert_eq; intros [= <-]|rewrite lookup_insert_ne by done]).
  - done.
  - apply (di_rooms s Hi).
  - rewrite Hsend. split; [simpl; lia|]. by intros m ?%not_elem_of_nil.
  - apply (di_queue s Hi).
Qed.

Lemma inv_room s room msg x s' :
  dash_inv s -> room = "dashboard" \/ (room = "dashboard:local" /\ statistics msg) ->
  dash_sem () (HubRoom room msg) s x s' -> dash_inv s' /\ dash_rely s s'.
Proof.
  intros Hi Hroom ->.
  assert (Hsent : forall id c', conns (BroadcastToRoom room msg (ds_conns s)) !! id = Some c' ->
    exists c, conns (ds_conns s) !! id = Some c /\ (c' = c \/ (gc_room c = room /\ c' = Send msg c))).
  { intros id c'. cbn [BroadcastToRoom send_to conns]. rewrite map_lookup_imap. intros (c & Hlk & Hc)%bind_Some. exists c. split; [done|].
    destruct (decide _); [|left; by injection Hc]. cbn [Rooms existsb] in Hc. rewrite orb_false_r in Hc.
    destruct (String.eqb_spec room (gc_room c)) as [->|]; [right; by injection Hc|left; by injection Hc]. }
  apply inv_conns; [done|..]; intros id c' (c & Hlk & [->|[Hr ->]])%Hsent.
  - by apply (di_rooms s Hi id).
  - destruct (di_rooms s Hi id c Hlk) as (a & Hin & Ha). exists a. split; [done|]. unfold Send. by destruct (_ <? _)%nat.
  - by apply (di_queue s Hi id).
  - destruct (di_queue s Hi id c Hlk) as [Hl Hm]. destruct Hroom as [->|[-> Hstat]].
    + destruct (di_rooms s Hi id c Hlk) as (a & _ & Ha). rewrite Hr in Ha. by apply room_apart in Ha.
    + unfold Send. destruct (Nat.ltb_spec (length (gc_send c)) 32) as [Hlt|]; [|done]. cbn [gc_send gc_room]. rewrite length_app. simpl.
      split; [lia|]. intros m [Hin| ->%list_elem_of_singleton]%elem_of_app; [by apply Hm|done].
Qed.

Lemma inv_select s id x s' :
  dash_inv s -> dash_sem _ (PumpSelect id) s x s' ->
  (dash_inv s' /\ dash_rely s s') /\ (forall m, x = PumpMessage m -> statistics m).
Proof.
  intros Hi [[-> ->]|(c & m & Hlk & Hm & -> & ->)]; [done|].
  destruct (di_queue s Hi id c Hlk) as [Hl Hall]. destruct (gc_send c) as [|m0 q] eqn:Hq; [done|]. injection Hm as ->.
  split; [|intros m' [= <-]; apply Hall; left].
  apply inv_conns; [done|..]; intros id' c'; cbn [conns];
    (destruct (decide (id = id')) as [->|Hne]; [rewrite lookup_insert_eq; intros [= <-]|rewrite lookup_insert_ne by done]).
  - by apply (di_rooms s Hi id' c).
  - apply (di_rooms s Hi).
  - cbn [received gc_send gc_room]. rewrite Hq. simpl in *. split; [lia|]. intros m' Hin. apply Hall. by right.
  - apply (di_queue s Hi).
Qed.

(** *** The goroutines keep it *)

Lemma safe_harmless X (c : dash_call X) : safe_call X c -> harmless dash_sem dash_inv dash_rely c.
Proof.
  intros Hc s x s' Hi Hs.
  destruct c; cbn in Hc; try (cbn in Hs; subst s'; done); try (cbn in Hs; destruct Hs as [_ ->]; done).
  - destruct x. by eapply inv_issue.
  - by eapply inv_consume.
  - cbn in Hs. subst s'. apply inv_conns; [done|apply (di_rooms s Hi)|apply (di_queue s Hi)].
  - by eapply inv_room.
  - by eapply inv_select.
  - cbn in Hs. subst s'. destruct Hi. split; [by split|by split].
  - cbn in Hs. subst s'. destruct Hi as [H1 H2 H3 H4 H5 H6 H7]. split; [|by split]. split; simpl; try done.
    intros id0 m [Hin|Hin]%elem_of_app; [by apply (H7 id0)|]. by apply list_elem_of_singleton in Hin as [= -> ->].
Qed.

Lemma keeps_safe {A} (p : dash_prog A) s : calls safe_call p -> keeps dash_sem dash_inv dash_rely p s.
Proof.
  intros Hp. apply keeps_calls. eapply always_mono; [|by intros|exact Hp]. apply safe_harmless.
Qed.

(** The calls of a program one after the other, up to what is left to show of each. *)
Ltac walk_calls :=
  repeat first
    [ exact I
    | apply calls_bind; [|intros ?]
    | apply calls_call; cbn [safe_call]
    | match goal with
      | |- calls _ (if ?b then _ else _) => destruct b
      | |- calls _ (match ?x with _ => _ end) => destruct x
      end
    | progress cbv zeta ].

Lemma record_safe ctx e : calls safe_call (RecordEntry ctx e).
Proof. unfold RecordEntry. walk_calls. Qed.
Lemma list_safe ctx l o : calls safe_call (ListEntries ctx l o).
Proof. unfold ListEntries. walk_calls. Qed.
Lemma snapshots_safe ctx n : calls safe_call (listSnapshots ctx n).
Proof. unfold listSnapshots. walk_calls. Qed.
Lemma jobs_safe ctx n : calls safe_call (recentJobs ctx n).
Proof. unfold recentJobs. walk_calls. Qed.
Lemma hang_up_safe id : calls safe_call (hang_up id).
Proof. unfold hang_up. walk_calls. Qed.
#[local] Hint Resolve record_safe list_safe snapshots_safe jobs_safe hang_up_safe : dash.

Lemma overview_safe ctx : calls safe_call (HandleOverview ctx).
Proof. unfold HandleOverview, Overview. walk_calls; auto with dash. Qed.

Lemma poll_safe has_agent : calls safe_call (poll has_agent background).
Proof.
  unfold poll, saveSnapshot, pruneSnapshots. walk_calls. right. split; [done|]. by split; [|eexists].
Qed.

Lemma handle_event_safe ctx X (c : handler_call X) : calls safe_call (handle_event ctx X c).
Proof.
  destruct c as [[ty|ty] e]; unfold handle_event, with_payload, audit_site, dashboard_site; walk_calls; auto with dash.
Qed.

Lemma publish_safe bus ctx ctxErr ty site actor ip : calls safe_call (publish_site bus ctx ctxErr ty site actor ip).
Proof.
  unfold publish_site, newLifecycleEvent, NewBaseEvent, NewCorrelatedEvent. apply calls_bind; [walk_calls|]. intros e.
  apply (calls_interp _ _ (fun _ _ => True)); [intros X c _; apply handle_event_safe|].
  generalize (Publish ev_type bus ctxErr (Some e)). intros p. induction p as [a|X c k IH]; [exact I|]. split; [done|]. intros x. apply IH.
Qed.

Lemma write_keeps id turns s : keeps dash_sem dash_inv dash_rely (writePump id turns) s.
Proof.
  revert s. induction turns as [|n IH]; intros s; [done|]. cbn [writePump bind call].
  intros s1 x s2 _ Hi [[Hi2 Hr] Hx]%inv_select; [|done]. split_and!; [done..|]. cbn [bind].
  assert (Hrest : forall X (c : dash_call X) (k : X -> dash_prog ()) t,
    safe_call X c -> (forall x t', keeps dash_sem dash_inv dash_rely (k x) t') -> keeps dash_sem dash_inv dash_rely (Call c k) t).
  { intros X c k t Hc Hk t1 y t2 _ Ht Hs. destruct (safe_harmless X c Hc t1 y t2 Ht Hs). by split_and!. }
  destruct x as [m|]; cbn [bind call].
  - apply Hrest; [done|]. intros [text|err] t1; [|apply keeps_safe; auto with dash].
    apply Hrest; [by apply Hx|]. intros [u|err] t2; [apply IH|apply keeps_safe; auto with dash].
  - apply Hrest; [done|]. intros [u|err] t2; [apply IH|apply keeps_safe; auto with dash].
Qed.

Lemma read_safe id turns : calls safe_call (readPump id turns).
Proof. induction turns as [|n IH]; cbn [readPump]; walk_calls; auto with dash. Qed.

Lemma poller_safe has_agent ticks : calls safe_call (poller has_agent ticks).
Proof. induction ticks as [|n IH]; cbn [poller]; [exact I|]. apply calls_bind; [apply poll_safe|]. by intros _. Qed.

Lemma socket_keeps r s : keeps dash_sem dash_inv dash_rely (void (WebSocket r)) s.
Proof.
  unfold void, WebSocket. cbn [bind call]. intros s1 now s2 _ Hi Hs. cbn in Hs. subst s2. split_and!; [done..|]. clear Hi s.
  intros s x s2 _ Hi Hs. destruct (inv_consume s _ _ _ _ Hi Hs) as [Hi2 Hr]. split_and!; [done..|].
  destruct x as [server valid]. destruct valid; [|exact I]. cbn [negb bind]. destruct Hs as [_ Hs].
  assert (Hacc : exists a, a ∈ ds_accepted s2 /\ ac_server a = server).
  { subst s2. cbn [ds_accepted snd fst]. eexists. split; [apply elem_of_app; right; by apply list_elem_of_singleton|done]. }
  clear Hs Hi Hr s Hi2. intros s3 up s4 Hr Hi Hs. cbn in Hs. subst s4. split_and!; [done..|].
  destruct up as [u|e]; [|exact I]. cbn [bind]. intros s5 id s6 Hr5 Hi5 Hs. cbn in Hs. subst s6. split_and!; [done..|]. cbn [bind].
  intros s7 u7 s8 Hr7 Hi7 Hs. destruct Hacc as (a & Ha & <-).
  assert (Hroom : exists b, b ∈ ds_accepted s7 /\ "dashboard:" ++ ac_server a = "dashboard:" ++ ac_server b).
  { exists a. split; [|done]. by apply Hr7, Hr5, Hr. }
  destruct (inv_register s7 (newGorillaClient id ("dashboard:" ++ ac_server a)) u7 s8 Hi7 Hroom eq_refl Hs) as [Hi8 Hr8]. by split_and!.
Qed.

Lemma starts_keep p s : dash_starts p -> keeps dash_sem dash_inv dash_rely p s.
Proof.
  destruct 1 as [ctx Hctx|r|id n|id n|b n|audited ctx err ty site actor ip|ctx|ctx|ctx|r ctx pid].
  - apply keeps_safe. unfold void, IssueWebSocketTicket, Issue, bind_err. apply calls_bind; [|by intros].
    destruct (PrincipalFromContext ctx) as [p|]; [|exact I]. walk_calls. by apply Hctx.
  - apply socket_keeps.
  - apply write_keeps.
  - apply keeps_safe, read_safe.
  - apply keeps_safe, poller_safe.
  - apply keeps_safe. apply calls_bind; [apply publish_safe|by intros].
  - apply keeps_safe. apply calls_bind; [apply overview_safe|by intros].
  - apply keeps_safe. unfold void, HandleSnapshots. walk_calls; auto with dash.
  - apply keeps_safe. unfold void, HandleListProcesses. walk_calls.
  - apply keeps_safe. unfold void, HandleKillProcess. walk_calls.
Qed.

Lemma start_inv : dash_inv dash_start.
Proof.
  unfold dash_start, newTicketStore. split; simpl; [set_solver|intros t w; by rewrite lookup_empty|intros t; rewrite lookup_empty; simpl; lia|set_solver|..|set_solver];
    intros id c; by rewrite lookup_empty.
Qed.

Lemma dash_reached s : pool_reaches dash_sem dash_starts dash_start s -> dash_inv s.
Proof.
  intros Hr. eapply (pool_invariant dash_sem dash_starts dash_inv dash_rely dash_start s) in Hr as [Hi _]; [done| |apply start_inv].
  intros p t Hp _. by apply starts_keep.
Qed.

(** C31. The live connections of the dashboard are only for those who were let in.  However
    requests, connections, the poller and site events interleave: a ticket is accepted at most as often
    as it was issued; every connection was opened with a ticket issued for the server whose room
    it is in, to a user the middleware had let through, and used less than thirty seconds later;
    its queue has at most 32 messages. *)
Theorem connections_authorised s :
  pool_reaches dash_sem dash_starts dash_start s ->
  (forall t, same_accepted t (ds_accepted s) <= same_token t (ds_issued s)) /\
  (forall id c, conns (ds_conns s) !! id = Some c ->
    length (gc_send c) <= 32 /\
    exists a i, a ∈ ds_accepted s /\ i ∈ ds_issued s /\ is_token i = ac_token a /\ is_server i = ac_server a /\
      gc_room c = "dashboard:" ++ ac_server a /\ authed (is_user i) /\ (ac_at a < is_at i + 30 * 10 ^ 9)%Z).
Proof.
  intros [Ha _ Hc Hacc Hr Hq _]%dash_reached. split; [intros t; specialize (Hc t); lia|]. intros id c Hlk.
  split; [by apply (Hq id)|]. destruct (Hr id c Hlk) as (a & Hin & Hroom). destruct (Hacc a Hin) as (i & Hi & Ht & Hs & Hlt).
  exists a, i. split_and!; auto.
Qed.

(** Site events never reach a browser.  Each of them is sent to the room "dashboard", but every
    connection is in a room "dashboard:" with the name of a server, so that nothing but statistics
    is ever queued or written; and a connection that watches a remote server gets nothing, since the
    poller only serves the local one. *)
Theorem site_changes_reach_nobody s :
  pool_reaches dash_sem dash_starts dash_start s ->
  (forall id c m, conns (ds_conns s) !! id = Some c -> m ∈ gc_send c -> msg_Type m <> "site_changed" /\ gc_room c = "dashboard:local") /\
  (forall id m, (id, m) ∈ ds_written s -> msg_Type m <> "site_changed").
Proof.
  intros [_ _ _ _ _ Hq Hw]%dash_reached. split.
  - intros id c m Hlk Hin. destruct (Hq id c Hlk) as [_ Hm]. destruct (Hm m Hin) as [[-> _] Hroom]. done.
  - intros id m Hin. by destruct (Hw id m Hin) as [-> _].
Qed.
End access.

(** A connection is registered at most once by a request, and after its ticket was accepted. *)
Definition is_register (a : action dash_call) : bool := match a with Act (HubRegister _) _ => true | _ => false end.
Definition is_accept (a : action dash_call) : bool :=
  match a with
  | Act e x => match e in dash_call X return X -> bool with StoreConsume _ _ => fun x => snd x | _ => fun _ => false end x
  end.

Theorem one_connection_per_ticket r tr out :
  exec (WebSocket r) tr out ->
  length (List.filter is_register tr) <= length (List.filter is_accept tr) <= 1.
Proof.
  intros (now & t1 & -> & [server valid] & t2 & -> & H). destruct valid; cbn [negb] in H.
  - destruct H as ([u|e] & t3 & -> & H); [|destruct H as [-> _]; simpl; lia].
    destruct H as (id & t4 & -> & u2 & t5 & -> & [-> _]). simpl. lia.
  - destruct H as [-> _]. simpl. lia.
Qed.

(** ** An example: a ticket, a connection, a reading of the statistics and a change of a site *)

Section example.
Definition ada : context := {| ctx_principal := Some {| p_ID := "u1"; p_Username := "ada"; p_Role := RoleAdmin |}; ctx_server := None |}.
Definition ws_request (ticket : string) : request := {|
  Method := "GET"; Path := "/api/v1/dashboard/ws"; Header := fun _ => ""; Query := fun k => if String.eqb k "ticket" then ticket else "";
  RemoteAddr := "192.0.2.7:1234"; Body := "" |}.
Definition no_stats : SystemStats := {|
  st_CPU := {| UsagePercent := f_zero; Cores := 1 |}; st_Memory := memory_of (Err ""); st_Swap := memory_of (Err ""); st_Disk := [];
  st_Network := {| BytesSent := 0; BytesRecv := 0; PacketsSent := 0; PacketsRecv := 0 |}; st_LoadAverage := (f_zero, f_zero, f_zero);
  st_Temperature := f_zero; st_Uptime := 0 |}.
Definition a_site : Site := {|
  ID := "s1"; Name := "blog"; ModuleID := "nginx"; RootPath := "/var/www/blog"; State_ := StateActive; OwnerID := None; Domains := [];
  App_ := {| a_SiteID := "s1"; AppType := "static"; AppVersion := None; ProxyTarget := None; CustomConfig := None |}; SSL_ := None;
  ProxyEnabled := false; ProxyHost := ""; ProxyPort := 0 |}.

(** Every call succeeds; the random bytes are zeros and the clock stands still. *)
Definition drive X (c : dash_call X) (s : dash_state) : X * dash_state :=
  match c in dash_call X return X * dash_state with
  | StoreIssue token userID serverID now =>
      ((), {| ds_tickets := store_issue token userID serverID now (ds_tickets s); ds_conns := ds_conns s; ds_cache := ds_cache s;
              ds_issued := ds_issued s ++ [{| is_token := token; is_user := userID; is_server := serverID; is_at := now |}];
              ds_accepted := ds_accepted s; ds_written := ds_written s |})
  | StoreConsume token now =>
      let '(x, ts) := store_consume token now (ds_tickets s) in
      (x, {| ds_tickets := ts; ds_conns := ds_conns s; ds_cache := ds_cache s; ds_issued := ds_issued s;
             ds_accepted := ds_accepted s ++ (if snd x then [{| ac_token := token; ac_server := fst x; ac_at := now |}] else []);
             ds_written := ds_written s |})
  | HubRegister c => ((), with_conns (Register c (ds_conns s)) s)
  | HubUnregister id => ((), with_conns (Unregister id (ds_conns s)) s)
  | HubRoom room msg => ((), with_conns (BroadcastToRoom room msg (ds_conns s)) s)
  | PumpSelect id => (PumpTick, s)
  | CacheLoad => (ds_cache s, s)
  | CacheStore stats =>
      ((), {| ds_tickets := ds_tickets s; ds_conns := ds_conns s; ds_cache := Some stats; ds_issued := ds_issued s;
              ds_accepted := ds_accepted s; ds_written := ds_written s |})
  | WsWrite id msg _ =>
      (Ok (), {| ds_tickets := ds_tickets s; ds_conns := ds_conns s; ds_cache := ds_cache s; ds_issued := ds_issued s;
              ds_accepted := ds_accepted s; ds_written := ds_written s ++ [(id, msg)] |})
  | DInstant => (0%Z, s) | DNow => (GoTime.zero_time, s) | DCutoff _ => (GoTime.zero_time, s)
  | DRandom n => (Ok (string_of_list_ascii (replicate (Z.to_nat n) (ascii_of_nat 0))), s)
  | DNewID => ("c1", s)
  | WsUpgrade => (Ok (), s) | WsMarshal _ => (Ok "{}", s) | WsPing _ => (Ok (), s) | WsRead _ => (Ok (), s) | WsClose _ => ((), s)
  | AgentStats _ => (Ok no_stats, s) | AgentProcesses _ => (Ok [], s) | AgentKill _ _ _ => (Ok (), s) | ModulesAll _ => (Ok [], s)
  | SnapshotInsert _ _ _ => (Ok (), s) | SnapshotQuery _ _ => (Err "", s) | SnapshotDelete _ _ => (Ok (), s)
  | JobQuery _ _ => (Err "", s) | AuditInsert _ _ => (Ok (), s) | AuditQuery _ _ _ _ => (Err "", s)
  end%list.

Lemma drive_follows : follows dash_sem drive.
Proof. intros X c s. destruct c; cbn; try done. by left. Qed.

Definition a_ticket : string := raw_url_encode (string_of_list_ascii (replicate 32 (ascii_of_nat 0))).

(** The states the pool goes through. *)
Definition after_ticket : dash_state := snd (run drive (void (IssueWebSocketTicket ada)) dash_start).
Definition after_socket : dash_state := snd (run drive (void (WebSocket (ws_request a_ticket))) after_ticket).
Definition after_poll : dash_state := snd (run drive (poller true 1) after_socket).
Definition after_event : dash_state :=
  snd (run drive (void (publish_site (registerDomainSubscribers site_events) ada None "site.created" a_site "u1" "192.0.2.7")) after_poll).

Lemma example_reached : pool_reaches dash_sem (dash_starts (eq "u1")) dash_start after_event.
Proof.
  eexists. etrans; [apply (pool_run _ _ drive); [apply drive_follows|apply (starts_ticket _ ada); by intros p [= <-]]|].
  etrans; [apply (pool_run _ _ drive); [apply drive_follows|apply (starts_socket _ (ws_request a_ticket))]|].
  etrans; [apply (pool_run _ _ drive); [apply drive_follows|apply (starts_poller _ true 1)]|].
  apply (pool_run _ _ drive); [apply drive_follows|].
  apply (starts_event _ site_events ada None "site.created" a_site "u1" "192.0.2.7").
Qed.

(** There is one connection, with the statistics in its queue and nothing about the site. *)
Lemma connections_authorised_witness :
  exists c, conns (ds_conns after_event) !! "c1" = Some c /\ gc_room c = "dashboard:local" /\ length (gc_send c) = 1 /\
    exists i, i ∈ ds_issued after_event /\ is_user i = "u1".
Proof.
  destruct (conns (ds_conns after_event) !! "c1") as [c|] eqn:Hc; [|exfalso; vm_compute in Hc; discriminate].
  exists c. split; [done|]. split; [vm_compute in Hc; by injection Hc as <-|]. split; [vm_compute in Hc; by injection Hc as <-|].
  destruct (connections_authorised (eq "u1") after_event example_reached) as [_ H].
  destruct (H "c1" c Hc) as (_ & a & i & _ & Hin & _ & _ & _ & Hu & _). by exists i.
Defined.

Lemma site_changes_reach_nobody_witness :
  forall id c m, conns (ds_conns after_event) !! id = Some c -> m ∈ gc_send c -> msg_Type m <> "site_changed" /\ gc_room c = "dashboard:local".
Proof. apply (site_changes_reach_nobody (eq "u1") after_event example_reached). Defined.

(** The event was published all the same: the hub was asked to send it. *)
Example site_change_sent :
  exists data, In (Act (HubRoom "dashboard" {| msg_Type := "site_changed"; msg_Payload := SiteChanged "site.created" data |}) ())
    (fst (logged drive (publish_site (registerDomainSubscribers site_events) ada None "site.created" a_site "u1" "192.0.2.7") after_poll)).
Proof. eexists. vm_compute. do 6 right. left. reflexivity. Qed.
End example.
