(* ===== verification/Settings.v ===== *)
(** * Settings

    internal/core/settings/settings.go.  The table of settings is one of SQLite's; its statements
    are calls, and [settings_sem] says what they do to it.  The handlers also drive the service of
    updates and backups (Updater), whose calls are the left side of [panel_call]. *)

From S2P Require Import Prelude GoStrings GoStrconv GoRegexp GoTime GoJson GoStruct Effects AppErrors Http UpdateManifest Update BackupTypes Updater GoSql Pool.
Local Open Scope string_scope.
Local Open Scope go_scope.

(** ** Calls *)

Inductive set_call : Set -> Set :=
| SelectValue (key server : string) : set_call (result string (option string))
| Upsert (key server value now : string) : set_call (result string ())
| SelectLike (server pattern : string) : set_call (result string (rows (string * string * string)))
| DeleteRow (key server : string) : set_call (result string ())
| TxBegin : set_call (result string ())
| TxUpsert (key server value now : string) : set_call (result string ())
| TxCommit : set_call (result string ())
| TxRollback : set_call ().

(** The service of updates, or the table. *)
Definition panel_call (X : Set) : Set := (core_call X + set_call X)%type.
Notation panel_prog A := (prog panel_call A).

Definition updating {A} (p : core_prog A) : panel_prog A := interp (fun X c => call (inl c : panel_call X)) p.
Definition sql {X : Set} (c : set_call X) : panel_prog X := call (inr c : panel_call X).
Definition clock : panel_prog time := call (inl Now : panel_call time).

(** ** The service *)

(** source: internal/core/settings/settings.go:28-32 (Setting) *)
Record Setting := { se_Key : string; se_Value : string; se_UpdatedAt : time }.

Section service.
Context `{HUnicode : Unicode}.
Variable ctx : context.

(** source: internal/core/settings/settings.go:46-56 (Get) *)
Definition Get (key : string) : panel_prog (result string string) :=
  let! row := sql (SelectValue key (ServerID ctx)) in
  Ret (match row with
       | Ok (Some value) => Ok value
       | Ok None => Ok ""
       | Err e => Err ("settings: get " ++ quote key ++ ": " ++ e)
       end).

(** source: internal/core/settings/settings.go:59-65 (GetWithDefault) *)
Definition GetWithDefault (key defaultVal : string) : panel_prog string :=
  let! v := Get key in
  Ret (match v with Ok v => if String.eqb v "" then defaultVal else v | Err _ => defaultVal end).

(** source: internal/core/settings/settings.go:68-76 (Set) *)
Definition SetValue (key value : string) : panel_prog (result string ()) :=
  let! now := clock in
  let! out := sql (Upsert key (ServerID ctx) value (seconds_text now)) in
  Ret (map_err (fun e => "settings: set " ++ quote key ++ ": " ++ e) out).

Fixpoint upsert_all (kv : list (string * string)) (now : string) : panel_prog (result string ()) :=
  match kv with
  | [] => Ret (Ok ())
  | (k, v) :: kv' =>
      let! out := sql (TxUpsert k (ServerID ctx) v now) in
      match out with
      | Err e => Ret (Err ("settings: set " ++ quote k ++ ": " ++ e))
      | Ok _ => upsert_all kv' now
      end
  end.

(** source: internal/core/settings/settings.go:79-95 (SetMany): the entries of the map in the order
    in which it is walked; the deferred rollback does nothing after a commit *)
Definition SetMany (kv : list (string * string)) : panel_prog (result string ()) :=
  let! began := sql TxBegin in
  match began with
  | Err e => Ret (Err ("settings: begin tx: " ++ e))
  | Ok _ =>
      let! now := clock in
      let! out := upsert_all kv (seconds_text now) in
      match out with
      | Err e => ignore! sql TxRollback in Ret (Err e)
      | Ok _ =>
          let! committed := sql TxCommit in
          ignore! sql TxRollback in
          Ret committed
      end
  end.

Definition setting_of_row (r : string * string * string) : Setting :=
  let '(k, v, at_) := r in {| se_Key := k; se_Value := v; se_UpdatedAt := stored_time at_ |}.

(** source: internal/core/settings/settings.go:99-119 (ListByNamespace): the settings and the error *)
Definition ListByNamespace (namespace : string) : panel_prog (list Setting * option string) :=
  let prefix := namespace ++ "." in
  let! q := sql (SelectLike (ServerID ctx) (prefix ++ "%")) in
  Ret (match q with
       | Err e => ([], Some ("settings: list namespace " ++ quote namespace ++ ": " ++ e))
       | Ok rs => scan_rows setting_of_row id (r_rows rs) [] (r_Err rs)
       end).

(** source: internal/core/settings/settings.go:122-125 (Delete) *)
Definition DeleteSetting (key : string) : panel_prog (result string ()) := sql (DeleteRow key (ServerID ctx)).
End service.

(** ** Specifications *)

(** source: pkg/contract/module.go:369-374 (SettingType) *)
Inductive SettingType := SettingTypeString | SettingTypeBool | SettingTypeInt | SettingTypeSelect.

(** source: pkg/contract/module.go:353-364 (SettingSpec): [ValidationRegex] as the expression it
    denotes, anchored at both ends; none for an empty text *)
Record SettingSpec := {
  sp_Key : string; sp_Label : string; sp_Description : string; sp_Type : SettingType; DefaultValue : string; sp_Options : list string;
  sp_Required : bool; Secret : bool; ValidationRegex : option re; ValidationMsg : string }.

(** [[a-zA-Z0-9\s\-_]{1,32}] *)
Definition title_class (z : Z) : bool := r_alnum z || one_of " -_" z || in_range 9 10 z || in_range 12 13 z.
Definition title_regex : re := Cat (Cls title_class) (upto 31 (Cls title_class)).

(** source: internal/core/settings/settings.go:137-154 (CoreSettings) *)
Definition CoreSettings : list SettingSpec :=
  [{| sp_Key := "core.panel_title"; sp_Label := "Panel Title"; sp_Description := "The title displayed in the top bar."; sp_Type := SettingTypeString;
      DefaultValue := "OpenDeploy"; sp_Options := []; sp_Required := false; Secret := false; ValidationRegex := Some title_regex;
      ValidationMsg := "Must be 1-32 characters (letters, numbers, spaces, -, _)." |};
   {| sp_Key := "core.default_php"; sp_Label := "Default PHP Version";
      sp_Description := "Applied only when a new PHP site is created without an explicit PHP version. Existing sites and PHP-FPM pools are not changed.";
      sp_Type := SettingTypeSelect; DefaultValue := ""; sp_Options := [""; "8.1"; "8.2"; "8.3"; "8.4"]; sp_Required := false; Secret := false;
      ValidationRegex := None; ValidationMsg := "" |}].

(** source: internal/core/settings/settings.go:162-172 (GetSpecs): [registered] are the settings
    of the modules of the registry, in its order *)
Definition GetSpecs (registered : list (list SettingSpec)) : list SettingSpec := (CoreSettings ++ concat registered)%list.

(** ** Handlers *)

Inductive set_payload :=
| SetError (code : ErrorCode) (message : string)
| SetSpecs (l : list SettingSpec)
| SetList (l : list Setting)
| SetMessage (text : string)
| SetStatus (s : Status)
| SetUpdates (l : list HistoryEntry)
| SetBackups (l : list Operation).
Record set_reply := { se_status : Z; se_payload : set_payload }.

(** source: internal/core/settings/settings.go:342-346 (respond), before the encoding *)
Definition set_respond (status : Z) (data : set_payload) : set_reply := {| se_status := status; se_payload := data |}.

(** source: internal/core/settings/settings.go:348-350 (writeError) *)
Definition set_error (err : error) : set_reply :=
  let ae := AsAppError err in {| se_status := HTTPStatus ae; se_payload := SetError (Code ae) (AppErrors.Message ae) |}.
Definition set_internal (msg err : string) : set_reply := set_error (App (Internal msg (Plain err))).

(** A JSON object as a map of strings: a later member replaces an earlier one, and a null is an
    empty string. *)
Fixpoint decode_map (l : list (string * json)) (m : gmap string string) : option (gmap string string) :=
  match l with
  | [] => Some m
  | (k, v) :: l' =>
      key ← unquote k;
      value ← match v with JStr raw => unquote raw | JNull => Some "" | _ => None end;
      decode_map l' (<[key := value]> m)
  end.
Definition decode_kv (body : string) : option (gmap string string) :=
  '(v, _) ← parse_first body;
  match v with JNull => Some ∅ | JObj l => decode_map l ∅ | _ => None end.

(** [io.EOF]: nothing but white space in the body *)
Definition body_empty (body : string) : bool := String.eqb (skip_ws body) "".

Section handlers.
Context `{HUnicode : Unicode}.
Variable registered : list (list SettingSpec).

(** source: internal/core/settings/settings.go:175-177 (Specs) *)
Definition HandleSpecs : set_reply := set_respond 200 (SetSpecs (GetSpecs registered)).

(** source: internal/core/settings/settings.go:180-191 (List) *)
Definition HandleList (r : Http.request) (ctx : context) : panel_prog set_reply :=
  let ns := Query r "ns" in
  let ns := if String.eqb ns "" then "core" else ns in
  let! out := ListByNamespace ctx ns in
  Ret (match snd out with
       | Some err => set_internal "list settings" err
       | None => set_respond 200 (SetList (fst out))
       end).

(** [specMap[k]]: the last specification of a key. *)
Definition spec_of (k : string) : option SettingSpec := List.find (fun s => String.eqb (sp_Key s) k) (rev (GetSpecs registered)).

(** source: internal/core/settings/settings.go:212-225 (Update, the check of one entry) *)
Definition check_setting (kv : string * string) : result error () :=
  let '(k, v) := kv in
  match spec_of k with
  | Some spec =>
      match ValidationRegex spec with
      | Some re =>
          if match_string re v then Ok ()
          else
            let msg := if String.eqb (ValidationMsg spec) "" then "Invalid value format." else ValidationMsg spec in
            Err (InvalidInput ("Validation failed for " ++ k ++ ": " ++ msg))
      | None => Ok ()
      end
  | None => Ok ()
  end.

Definition core_text (e : core_error) : string :=
  match e with
  | Failure msg => msg
  | Updater.Wrapped msg err => msg ++ ": " ++ err
  | ErrOperationQueued => "updates: privileged operation is already queued"
  end.

(** source: internal/core/settings/settings.go:194-237 (Update): [order1] and [order2] are the
    entries of the map in the two orders in which it is walked *)
Definition HandleUpdate (svc : Updater.Service) (order1 order2 : gmap string string -> list (string * string)) (r : Http.request) (ctx : context) :
    panel_prog set_reply :=
  match decode_kv (Body r) with
  | None => Ret (set_error (InvalidInput "malformed JSON body"))
  | Some kv =>
      if decide (kv = ∅) then Ret (set_error (InvalidInput "no settings provided"))
      else
        match for_each check_setting (order1 kv) with
        | Err e => Ret (set_error e)
        | Ok _ =>
            let! now := clock in
            let reason := "critical-settings-" ++ stamp now in
            let! backup := updating (CreateBackupAndWait svc reason) in
            match backup with
            | Err e => Ret (set_internal "mandatory pre-change backup" (core_text e))
            | Ok _ =>
                let! out := SetMany ctx (order2 kv) in
                Ret (match out with
                     | Err e => set_internal "update settings" e
                     | Ok _ => set_respond 200 (SetMessage "settings updated")
                     end)
            end
        end
  end.

Variable order : list string.

(** source: internal/core/settings/settings.go:240-247 (UpdateStatus): the service keeps the
    status it computed *)
Definition HandleUpdateStatus (svc : Updater.Service) : panel_prog (Updater.Service * set_reply) :=
  let! out := updating (Check order svc) in
  Ret (fst out, match snd out with Err e => set_internal "check for updates" (core_text e) | Ok status => set_respond 200 (SetStatus status) end).

(** The member [type] of a body, also of one that does not decode. *)
Definition lenient_type (body : string) : string :=
  match parse_first body with
  | Some (JObj l, _) =>
      foldl (fun ty kv => match unquote (fst kv) with
                          | Some key => if same_key "type" key then match snd kv with JStr raw => default ty (unquote raw) | _ => ty end else ty
                          | None => ty
                          end) "" l
  | _ => ""
  end.

(** source: internal/core/settings/settings.go:251-273 (ApplyUpdate) *)
Definition HandleApplyUpdate (svc : Updater.Service) (r : Http.request) : panel_prog (Updater.Service * set_reply) :=
  let! out := updating (Apply order svc (lenient_type (Body r))) in
  Ret (fst out, match snd out with
                | Err ErrOperationQueued =>
                    set_error (App (New 409 CodeConflict "another update operation is pending; inspect update history and updater service logs"))
                | Err e => set_internal "start update" (core_text e)
                | Ok _ => set_respond 202 (SetMessage "update started; services will restart automatically")
                end).

(** source: internal/core/settings/settings.go:276-283 (UpdateHistory) *)
Definition HandleUpdateHistory (svc : Updater.Service) : panel_prog set_reply :=
  let! out := updating (History svc) in
  Ret (match out with Err e => set_internal "read update history" (core_text e) | Ok entries => set_respond 200 (SetUpdates entries) end).

(** The one string a body has, or none when it is empty; [None] for one that does not decode. *)
Definition one_field (name body : string) : option string :=
  match decode_first false [(name, set_string (fun s _ => s))] "" body with
  | Some s => Some s
  | None => if body_empty body then Some "" else None
  end.

(** source: internal/core/settings/settings.go:286-299 (RollbackUpdate) *)
Definition HandleRollbackUpdate (svc : Updater.Service) (r : Http.request) : panel_prog set_reply :=
  match one_field "transaction_id" (Body r) with
  | None => Ret (set_error (InvalidInput "invalid rollback request"))
  | Some id =>
      let! out := updating (Rollback svc id) in
      Ret (match out with Err e => set_internal "request rollback" (core_text e) | Ok _ => set_respond 202 (SetMessage "rollback started") end)
  end.

(** source: internal/core/settings/settings.go:301-314 (CreateBackup) *)
Definition HandleCreateBackup (svc : Updater.Service) (r : Http.request) : panel_prog set_reply :=
  match one_field "reason" (Body r) with
  | None => Ret (set_error (InvalidInput "invalid backup request"))
  | Some reason =>
      let! out := updating (CreateBackup svc reason) in
      Ret (match out with Err e => set_internal "request backup" (core_text e) | Ok _ => set_respond 202 (SetMessage "backup started") end)
  end.

(** source: internal/core/settings/settings.go:316-329 (RestoreBackup): an empty body is refused *)
Definition HandleRestoreBackup (svc : Updater.Service) (r : Http.request) : panel_prog set_reply :=
  match decode_first false [("archive", set_string (fun s _ => s))] "" (Body r) with
  | None => Ret (set_error (InvalidInput "invalid restore request"))
  | Some archive =>
      let! out := updating (RestoreBackup svc archive) in
      Ret (match out with
           | Err e => set_error (InvalidInput (core_text e))
           | Ok _ => set_respond 202 (SetMessage "restore started; services may restart")
           end)
  end.

(** source: internal/core/settings/settings.go:331-338 (BackupHistory) *)
Definition HandleBackupHistory (svc : Updater.Service) : panel_prog set_reply :=
  let! out := updating (BackupHistory svc) in
  Ret (match out with Err e => set_internal "read backup history" (core_text e) | Ok entries => set_respond 200 (SetBackups entries) end).
End handlers.

(** ** What the settings store promises

    The table of settings with the transaction that may be open on it, what its statements do,
    failures included, and the theorems on the service and the handlers. *)

(** *** The table *)

(** By key and server: the value and when it was set. *)
Notation table := (gmap (string * string) (string * string)).
Record set_state := { committed : table; pending : option table }.

Definition set_sem X (c : set_call X) : set_state -> X -> set_state -> Prop :=
  match c in set_call X return set_state -> X -> set_state -> Prop with
  | SelectValue k sv => fun s x s' => s' = s /\ (x = Ok (fst <$> committed s !! (k, sv)) \/ exists e, x = Err e)
  | Upsert k sv v now => fun s x s' =>
      (x = Ok () /\ s' = {| committed := <[(k, sv) := (v, now)]> (committed s); pending := pending s |}) \/ ((exists e, x = Err e) /\ s' = s)
  | SelectLike sv pat => fun s x s' => s' = s /\
      ((exists e, x = Err e) \/ (exists rs e, x = Ok rs /\ r_Err rs = Some e) \/
       exists l, x = Ok {| r_rows := Ok <$> l; r_Err := None |} /\ NoDup (fst <$> (fst <$> l)) /\
         forall k v t, (k, v, t) ∈ l <-> committed s !! (k, sv) = Some (v, t) /\ like pat k = true)
  | DeleteRow k sv => fun s x s' =>
      (x = Ok () /\ s' = {| committed := delete (k, sv) (committed s); pending := pending s |}) \/ ((exists e, x = Err e) /\ s' = s)
  | TxBegin => fun s x s' =>
      (x = Ok () /\ s' = {| committed := committed s; pending := Some (committed s) |}) \/ ((exists e, x = Err e) /\ s' = s)
  | TxUpsert k sv v now => fun s x s' =>
      (x = Ok () /\ s' = {| committed := committed s; pending := insert (k, sv) (v, now) <$> pending s |}) \/ ((exists e, x = Err e) /\ s' = s)
  | TxCommit => fun s x s' =>
      (x = Ok () /\ s' = {| committed := default (committed s) (pending s); pending := None |}) \/ ((exists e, x = Err e) /\ s' = s)
  | TxRollback => fun s _ s' => s' = {| committed := committed s; pending := None |}
  end.

(** The service of updates works elsewhere. *)
Definition panel_sem X (c : panel_call X) : set_state -> X -> set_state -> Prop :=
  match c with inl _ => fun s _ s' => s' = s | inr c => set_sem X c end.

Notation on_table := (runs panel_sem).

Section settings.
Context `{HUnicode : Unicode}.

Lemma runs_sql {X : Set} (c : set_call X) s x s' : on_table (sql c) s x s' <-> set_sem X c s x s'.
Proof. exact (runs_call panel_sem (inr c : panel_call X) s x s'). Qed.

Lemma updating_same {A} (p : core_prog A) s a s' : on_table (updating p) s a s' -> s' = s.
Proof.
  revert s. induction p as [b|X c k IH]; intros s; cbn [updating interp].
  - by intros [_ ->].
  - intros (x & s1 & Hs & H)%runs_bind. apply runs_call in Hs. cbn in Hs. subst s1. by apply (IH x).
Qed.

(** *** Set and get *)

(** What was set is what a later reading gives, for this key and server and no other. *)
Theorem get_after_set ctx k v s out s1 :
  on_table (SetValue ctx k v) s (Ok out) s1 ->
  forall ctx' k' w s2, on_table (Get ctx' k') s1 (Ok w) s2 ->
    s2 = s1 /\
    w = (if decide (k' = k /\ ServerID ctx' = ServerID ctx) then v
         else default "" (fst <$> committed s !! (k', ServerID ctx'))).
Proof.
  unfold SetValue, Get. intros (now & s0 & Hnow & H)%runs_bind ctx' k' w s2 (row & s3 & Hrow & Hret)%runs_bind.
  apply runs_call in Hnow. cbn in Hnow. subst s0. apply runs_bind in H as (x & s4 & Hx & [Hr ->]).
  apply runs_sql in Hx, Hrow. destruct Hx as [[-> ->]|[[e ->] _]]; [|done].
  destruct Hrow as [-> Hrow]. destruct Hret as [Hret ->]. split; [done|].
  destruct Hrow as [->|[e ->]]; [|done]. cbn [committed] in *.
  destruct (decide (k' = k /\ ServerID ctx' = ServerID ctx)) as [[-> Heq]|Hne].
  - rewrite Heq, lookup_insert_eq in Hret. simpl in Hret. by injection Hret.
  - rewrite lookup_insert_ne in Hret by (intros [= Hk Hs]; apply Hne; by rewrite Hk, Hs).
    destruct (committed s !! (k', ServerID ctx')) as [[]|]; by injection Hret.
Qed.

(** *** The bulk update *)

(** The settings of a map in a table, under one server and with one time. *)
Definition stores (sv now : string) (kv : gmap string string) (m m' : table) : Prop :=
  forall k sv', m' !! (k, sv') =
    if decide (sv' = sv) then match kv !! k with Some v => Some (v, now) | None => m !! (k, sv') end else m !! (k, sv').

Definition put_entry (sv now : string) (m : table) (kv : string * string) : table := <[(kv.1, sv) := (kv.2, now)]> m.

Lemma put_all sv now l m : NoDup (l.*1) -> stores sv now (list_to_map l) m (foldl (put_entry sv now) m l).
Proof.
  revert m. induction l as [|[k v] l IH]; intros m; csimpl.
  - intros _ k sv'. rewrite lookup_empty. by destruct (decide _).
  - intros [Hk Hd]%NoDup_cons k' sv'. specialize (IH (put_entry sv now m (k, v)) Hd k' sv'). rewrite IH. unfold put_entry. simpl.
    destruct (decide (sv' = sv)) as [->|Hne]; [|by rewrite lookup_insert_ne by (intros [= _ Hx]; by apply Hne)].
    destruct (decide (k = k')) as [->|Hne].
    + rewrite lookup_insert_eq. rewrite not_elem_of_list_to_map_1 by done. by rewrite lookup_insert_eq.
    + rewrite (lookup_insert_ne (list_to_map l : gmap string string)) by done. destruct ((list_to_map l : gmap string string) !! k'); [done|]. by rewrite lookup_insert_ne by (by intros [= Hx]).
Qed.

Lemma upsert_all_runs ctx kv now m s out s' :
  pending s = Some m -> on_table (upsert_all ctx kv now) s out s' ->
  committed s' = committed s /\ (out = Ok () -> pending s' = Some (foldl (put_entry (ServerID ctx) now) m kv)).
Proof.
  revert m s. induction kv as [|[k v] kv IH]; intros m s Hp; cbn [upsert_all].
  - intros [-> ->]. done.
  - intros (x & s1 & Hx & H)%runs_bind. apply runs_sql in Hx as [[-> ->]|[[e ->] ->]].
    + apply (IH (put_entry (ServerID ctx) now m (k, v))) in H; [done|]. cbn [pending]. by rewrite Hp.
    + destruct H as [-> ->]. done.
Qed.

Lemma SetMany_runs ctx kv s out s' :
  pending s = None -> on_table (SetMany ctx kv) s out s' ->
  pending s' = None /\
  ((out = Ok () /\ exists now, committed s' = foldl (put_entry (ServerID ctx) now) (committed s) kv) \/
   (is_ok out = false /\ committed s' = committed s)).
Proof.
  intros Hp (x & s1 & Hx & H)%runs_bind. apply runs_sql in Hx as [[-> ->]|[[e ->] ->]]; [|destruct H as [-> ->]; auto].
  apply runs_bind in H as (now & s2 & Hn & H). apply runs_call in Hn. cbn in Hn. subst s2.
  apply runs_bind in H as (y & s2 & Hy & H). eapply upsert_all_runs in Hy as [Hc Hpend]; [|done]. cbn [committed] in Hc.
  destruct y as [[]|e].
  - apply runs_bind in H as (z & s3 & Hz & H). apply runs_bind in H as (u & s4 & Hu & [-> ->]). apply runs_sql in Hz, Hu. cbn in Hu. subst s4.
    split; [done|]. cbn [committed]. destruct Hz as [[-> ->]|[[e ->] ->]]; [left|right; by rewrite Hc].
    split; [done|]. exists (seconds_text now). cbn [committed]. by rewrite Hpend.
  - apply runs_bind in H as (u & s4 & Hu & [-> ->]). apply runs_sql in Hu. cbn in Hu. subst s4. split; [done|]. right. by rewrite Hc.
Qed.

Lemma checked_all specs l : for_each (check_setting specs) l = Ok () -> forall kv, kv ∈ l -> check_setting specs kv = Ok ().
Proof.
  induction l as [|x l IH]; simpl; [by intros _ kv ?%not_elem_of_nil|]. destruct (check_setting specs x) as [[]|] eqn:Hx; [|done].
  intros H kv [->|Hin]%elem_of_cons; auto.
Qed.

(** The value has the form the last specification of its key asks for. *)
Definition well_formed (specs : list (list SettingSpec)) (k v : string) : Prop :=
  forall before spec after re, (CoreSettings ++ concat specs)%list = (before ++ spec :: after)%list ->
  sp_Key spec = k -> Forall (fun s => sp_Key s <> k) after -> ValidationRegex spec = Some re -> match_string re v = true.

Lemma find_last {A} (f : A -> bool) before x after :
  f x = true -> Forall (fun y => f y = false) after -> List.find f (rev (before ++ x :: after)) = Some x.
Proof.
  intros Hx Ha. rewrite rev_app_distr. cbn [rev]. rewrite <- app_assoc. apply Forall_rev in Ha.
  induction (rev after) as [|y l IH]; cbn; [by rewrite Hx|]. apply Forall_cons in Ha as [-> Hl]. by apply IH.
Qed.

Lemma check_setting_sound specs k v : check_setting specs (k, v) = Ok () -> well_formed specs k v.
Proof.
  intros Hc before spec after re Hs Hk Ha Hre. unfold check_setting, spec_of, GetSpecs in Hc. rewrite Hs in Hc.
  rewrite (find_last _ before spec after) in Hc.
  - rewrite Hre in Hc. by destruct (match_string re v).
  - by apply String.eqb_eq.
  - eapply Forall_impl; [exact Ha|]. intros s Hne. by apply String.eqb_neq.
Qed.

Lemma error_status msg err : se_status (set_internal msg err) <> 200%Z.
Proof. done. Qed.

(** C16. A bulk update of settings is all or nothing.  Whatever the backup and the statements
    answer: after a reply with status 200 every value of the request is stored under the selected server,
    each of them matches the pattern of the last specification of its key, if it has one (the options of
    a selection are not compared), and all other settings are as before; after any other reply the table
    is as before; and no transaction is left open. *)
Theorem settings_all_or_nothing specs svc order1 order2 r ctx s reply s' :
  (forall m, order1 m ≡ₚ map_to_list m) -> (forall m, order2 m ≡ₚ map_to_list m) -> pending s = None ->
  on_table (HandleUpdate specs svc order1 order2 r ctx) s reply s' ->
  pending s' = None /\
  ((se_status reply = 200%Z /\ exists kv now, decode_kv (Body r) = Some kv /\
      (forall k v, kv !! k = Some v -> well_formed specs k v) /\
      stores (ServerID ctx) now kv (committed s) (committed s')) \/
   (se_status reply <> 200%Z /\ committed s' = committed s)).
Proof.
  intros Ho1 Ho2 Hp H. unfold HandleUpdate in H. destruct (decode_kv (Body r)) as [kv|]; [|destruct H as [-> ->]; auto].
  destruct (decide (kv = ∅)); [destruct H as [-> ->]; auto|].
  destruct (for_each _ _) as [[]|err] eqn:Hf; [|destruct H as [-> ->]; split; [done|]; right; split; [|done]].
  - apply runs_bind in H as (now & s1 & Hn & H). apply runs_call in Hn. cbn in Hn. subst s1.
    apply runs_bind in H as (b & s1 & ->%updating_same & H). destruct b as [u|e]; [|destruct H as [-> ->]; auto].
    apply runs_bind in H as (out & s1 & [Hp1 Hs]%SetMany_runs & [-> ->]); [|done]. split; [done|].
    destruct Hs as [(-> & now' & Hc)|[Hout Hc]]; [left|right; split; [by destruct out|done]].
    split; [done|]. exists kv, now'. split_and!; [done| |].
    + intros k v Hkv. apply check_setting_sound, (checked_all specs (order1 kv)); [done|]. rewrite Ho1. by apply elem_of_map_to_list.
    + rewrite Hc. assert (Hd : NoDup ((order2 kv).*1)) by (rewrite Ho2; apply NoDup_fst_map_to_list).
      assert (Heq : list_to_map (order2 kv) = kv); [|rewrite <- Heq at 1; by apply put_all].
      rewrite <- (list_to_map_to_list kv) at 2. by apply list_to_map_proper.
  - clear -Hf. induction (order1 kv) as [|[k v] l IH]; [done|]. cbn [for_each] in Hf.
    destruct (check_setting specs (k, v)) as [u|e] eqn:Hx; [by apply IH|]. injection Hf as ->.
    unfold check_setting in Hx. destruct (spec_of _ _) as [sp|]; [|done]. destruct (ValidationRegex sp) as [re|]; [|done].
    destruct (match_string _ _); [done|]. injection Hx as <-. done.
Qed.

(** *** Nothing before the backup *)

Definition is_sql (a : action panel_call) : bool := match a with Act e _ => match e with inl _ => false | inr _ => true end end.

Lemma updating_no_sql {A} (p : core_prog A) tr a : exec (updating p) tr a -> Forall (fun x => is_sql x = false) tr.
Proof.
  revert tr. induction p as [b|X c k IH]; intros tr; cbn [updating interp]; [by intros [-> _]|].
  intros (t1 & t2 & x & -> & ->%exec_call & H)%exec_bind. apply Forall_cons. split; [done|]. by apply (IH x).
Qed.

(** No statement on the table is made before a backup, requested for this very change, has
    succeeded. *)
Theorem settings_after_backup specs svc order1 order2 r ctx tr reply a :
  exec (HandleUpdate specs svc order1 order2 r ctx) tr reply -> a ∈ tr -> is_sql a = true ->
  exists now tr1 tr2, tr = ((Act (inl Now : panel_call time) now :: tr1) ++ tr2)%list /\ a ∈ tr2 /\
    Forall (fun x => is_sql x = false) tr1 /\
    exec (updating (CreateBackupAndWait svc ("critical-settings-" ++ stamp now))) tr1 (Ok ()).
Proof.
  unfold HandleUpdate. intros H Hin Ha. destruct (decode_kv (Body r)) as [kv|]; [|by destruct H as [-> _]; apply not_elem_of_nil in Hin].
  destruct (decide (kv = ∅)); [by destruct H as [-> _]; apply not_elem_of_nil in Hin|].
  destruct (for_each _ _); [|by destruct H as [-> _]; apply not_elem_of_nil in Hin].
  apply exec_bind in H as (t1 & t2 & now & -> & ->%exec_call & H). cbv zeta in H.
  apply exec_bind in H as (t3 & t4 & b & -> & Hb & H). assert (Hno := updating_no_sql _ _ _ Hb).
  destruct b as [[]|e].
  - exists now, t3, t4. split_and!; [done| |done..]. apply elem_of_app in Hin as [Hin|[Hin|Hin]%elem_of_app]; [|..|done].
    + apply list_elem_of_singleton in Hin. by subst a.
    + rewrite Forall_forall in Hno. by rewrite (Hno a Hin) in Ha.
  - destruct H as [-> _]. rewrite app_nil_r in Hin. apply elem_of_app in Hin as [Hin|Hin].
    + apply list_elem_of_singleton in Hin. by subst a.
    + rewrite Forall_forall in Hno. by rewrite (Hno a Hin) in Ha.
Qed.

(** *** Namespaces *)

Lemma runes_app_ascii s t :
  str_forall (fun c => (byte_val c <? 128)%Z) s = true -> runes (s ++ t) = ((byte_val <$> String.list_ascii_of_string s) ++ runes t)%list.
Proof.
  induction s as [|c s IH]; [done|]. cbn [str_forall]. intros [Hc Hs]%andb_true_iff. simpl. rewrite Hc. by rewrite IH.
Qed.

(** For a namespace of ASCII characters without wildcards, the keys that are listed are those
    that begin with it and a dot, in any case of the letters. *)
Theorem namespace_prefix ns k :
  str_forall (fun c => (byte_val c <? 128)%Z) ns = true -> contains_any ns "%_" = false ->
  like ((ns ++ ".") ++ "%") k = true <->
  exists q rest, runes k = (q ++ rest)%list /\ fold_ascii <$> q = fold_ascii <$> runes (ns ++ ".").
Proof.
  intros Hns Hw. unfold like. rewrite str_app_assoc, !(runes_app_ascii ns) by done.
  change (runes ("." ++ "%")) with [46; 37]%Z. change (runes ".") with [46%Z].
  change ([46; 37]%Z) with ([46%Z] ++ [37%Z])%list. rewrite (assoc_L (++)%list). apply like_prefix.
  apply Forall_app. split; [|by repeat constructor]. clear Hns. unfold contains_any in Hw. rewrite str_exists_false in Hw.
  induction ns as [|c ns IH]; [constructor|]. cbn [str_forall] in Hw. apply andb_true_iff in Hw as [Hc Hw]. constructor; [|by apply IH].
  split; intros Heq; [apply (byte_val_inj c "%"%char) in Heq|apply (byte_val_inj c "_"%char) in Heq]; by subst c.
Qed.

(** A namespace with wildcards lists more: an underscore stands for any character, and the
    namespace "%" lists every key with a dot. *)
Theorem namespace_wildcards ns k :
  str_forall (fun c => (byte_val c <? 128)%Z) ns = true ->
  like (("%" ++ ".") ++ "%") (ns ++ "." ++ k) = true /\ like (("a_b" ++ ".") ++ "%") "axb.token" = true.
Proof.
  intros Hns. split; [|reflexivity]. unfold like. rewrite (runes_app_ascii ns) by done. rewrite (runes_app_ascii ".") by done.
  change (runes (("%" ++ ".") ++ "%")) with [37; 46; 37]%Z.
  assert (Hall : forall s, like_runes [37%Z] s = true) by (intros s; induction s as [|d s IH]; [done|exact IH]).
  induction (byte_val <$> String.list_ascii_of_string ns) as [|c l IH]; cbn [app fmap list_fmap String.list_ascii_of_string].
  - apply orb_true_iff. left. apply (Hall (runes k)).
  - apply orb_true_iff. right. exact IH.
Qed.

(** *** What is not checked *)

(** The options of a selection are not compared with the value: any text is accepted as the
    default version of PHP, as is any key that has no specification. *)
Theorem select_options_unchecked v k :
  check_setting [] ("core.default_php", v) = Ok () /\
  (~ existsb (fun s => String.eqb (sp_Key s) k) CoreSettings -> check_setting [] (k, v) = Ok ()).
Proof.
  split; [reflexivity|]. intros Hk. unfold check_setting, spec_of, GetSpecs. cbn [concat app].
  destruct (List.find _ _) as [sp|] eqn:Hf; [|done]. exfalso. apply Hk. apply List.find_some in Hf as [Hin Heq].
  apply Is_true_true. apply existsb_exists. exists sp. split; [by apply in_rev|]. simpl. done.
Qed.

(** The answers of a core whose request file still holds an operation. *)
Definition queued_core X (c : panel_call X) (w : ()) : X * () :=
  (match c with
   | inl c => match c in core_call X return X with
              | Now => zero_time | FileRead _ => Ok "pending" | FileWrite _ _ _ => Ok () | NewRequest _ => Ok () | HttpDo _ _ => Err ""
              | DecodeError _ => "" | Select => Ticked
              end
   | inr c => match c in set_call X return X with
              | SelectValue _ _ => Ok None | Upsert _ _ _ _ => Ok () | SelectLike _ _ => Err "" | DeleteRow _ _ => Ok ()
              | TxBegin => Ok () | TxUpsert _ _ _ _ => Ok () | TxCommit => Ok () | TxRollback => ()
              end
   end, w).

(** While an operation is queued, a rollback and a backup that are requested get status 500 and a
    restoration 400; the comment on [ErrOperationQueued] asks for 409 and not 500. *)
Theorem queued_not_conflict :
  let svc := NewService "v1.0.0" "" true in
  let body field value := {| Method := "POST"; Path := ""; Header := fun _ => ""; Query := fun _ => ""; RemoteAddr := "";
                             Body := print_json (JObj [(field, JStr value)]) |} in
  let status p := se_status (fst (run queued_core p ())) in
  status (HandleRollbackUpdate svc (body "transaction_id" "")) = 500%Z /\
  status (HandleCreateBackup svc (body "reason" "manual")) = 500%Z /\
  status (HandleRestoreBackup svc (body "archive" "opendeploy-20260201T093000.000000007Z.tar.gz")) = 400%Z.
Proof. vm_compute. done. Qed.
End settings.

(** *** An update that succeeds *)

Section example.
#[local] Instance unicode : Unicode := unicode_ascii.

Definition a_time : time := {| t_year := 2026; t_month := 2; t_day := 1; t_hour := 9; t_min := 30; t_sec := 0; t_nsec := 7; t_off := 0 |}.
Definition an_update : Http.request := {|
  Method := "PUT"; Path := "/api/v1/settings"; Header := fun _ => ""; Query := fun _ => ""; RemoteAddr := "";
  Body := print_json (JObj [("core.panel_title", JStr "My panel"); ("core.default_php", JStr "8.3")]) |}.
Definition a_history : string :=
  line_of (default "" (marshal_operation (mkOperation "1" "create" "b1" "b1.tar.gz" ("critical-settings-" ++ stamp a_time) "succeeded" a_time a_time ""))).

(** Every statement succeeds and the backup is found at the first tick. *)
Definition drive_panel X (c : panel_call X) (s : set_state) : X * set_state :=
  match c with
  | inl c => (match c in core_call X return X with
              | Now => a_time
              | FileRead path => if String.eqb path updateRequest then Ok "" else Ok a_history
              | FileWrite _ _ _ => Ok () | NewRequest _ => Ok () | HttpDo _ _ => Err "" | DecodeError _ => "" | Select => Ticked
              end, s)
  | inr c => match c in set_call X return X * set_state with
             | SelectValue k sv => (Ok (fst <$> committed s !! (k, sv)), s)
             | Upsert k sv v now => (Ok (), {| committed := <[(k, sv) := (v, now)]> (committed s); pending := pending s |})
             | SelectLike _ _ => (Err "", s)
             | DeleteRow k sv => (Ok (), {| committed := delete (k, sv) (committed s); pending := pending s |})
             | TxBegin => (Ok (), {| committed := committed s; pending := Some (committed s) |})
             | TxUpsert k sv v now => (Ok (), {| committed := committed s; pending := insert (k, sv) (v, now) <$> pending s |})
             | TxCommit => (Ok (), {| committed := default (committed s) (pending s); pending := None |})
             | TxRollback => ((), {| committed := committed s; pending := None |})
             end
  end.

Lemma drive_panel_follows : follows panel_sem drive_panel.
Proof. intros X [c|c] s; [done|]. destruct c; cbn; try by left. all: try done. all: split; [done|]; left; eauto. Qed.

Definition empty_table : set_state := {| committed := ∅; pending := None |}.
Definition an_outcome : set_reply * set_state :=
  run drive_panel (HandleUpdate [] (NewService "v1.0.0" "" true) map_to_list map_to_list an_update background) empty_table.

Lemma settings_all_or_nothing_witness :
  se_status (fst an_outcome) = 200%Z /\
  exists now, stores "local" now {["core.panel_title" := "My panel"; "core.default_php" := "8.3"]} ∅ (committed (snd an_outcome)).
Proof.
  assert (H200 : se_status (fst an_outcome) = 200%Z) by (vm_compute; reflexivity). split; [done|].
  destruct (settings_all_or_nothing [] (NewService "v1.0.0" "" true) map_to_list map_to_list an_update background empty_table
    (fst an_outcome) (snd an_outcome)) as [_ [(_ & kv & now & Hkv & _ & Hs)|[Hne _]]]; [done|done|done| | |].
  - apply follows_runs, drive_panel_follows.
  - exists now. vm_compute in Hkv. injection Hkv as <-. exact Hs.
  - destruct (Hne H200).
Defined.
End example.
