(* ===== verification/Config.v ===== *)
(** * Configuration files

    internal/platform/config: the configuration of the panel as it is loaded and checked, and the
    transaction that replaces one configuration file of a service.  The YAML library is a
    parameter: what it makes of a text and the values that are already there. *)

From S2P Require Import Prelude GoStrings GoStrconv GoPath Effects.
Local Open Scope string_scope.
Local Open Scope go_scope.

(** ** The configuration of the panel *)

(** source: internal/platform/config/config.go:24-36 (ServerConfig): durations in nanoseconds *)
Record ServerConfig := {
  Host : string; Port : Z; ControlPlaneEnabled : bool; ControlPlanePort : Z; ControlPlaneServerName : string; ControlPlaneCA : string;
  ControlPlaneCAKey : string; TLSCertificate : string; TLSPrivateKey : string; ReadTimeout : Z; WriteTimeout : Z }.

(** source: internal/platform/config/config.go:39-42 (DatabaseConfig) *)
Record DatabaseConfig := { Driver : string; DSN : string }.

(** source: internal/platform/config/config.go:45-58 (AgentConfig) *)
Record AgentConfig := {
  Socket : string; ag_Timeout : Z; CoreURL : string; ag_ServerID : string; CertificateFile : string; PrivateKeyFile : string;
  CertificateFingerprint : string; HeartbeatInterval : Z; ControlPlaneAddress : string; ControlPlaneCAFile : string;
  ag_ControlPlaneServerName : string }.

(** source: internal/platform/config/config.go:61-65 (AuthConfig) *)
Record AuthConfig := { JWTSecret : string; AccessTokenTTL : Z; RefreshTokenTTL : Z }.

(** source: internal/platform/config/config.go:68-82 (SecurityConfig, RateLimitConfig, CSRFConfig) *)
Record SecurityConfig := { RateLimitEnabled : bool; RequestsPerMinute : Z; CSRFEnabled : bool }.

(** source: internal/platform/config/config.go:85-89 (LoggingConfig) *)
Record LoggingConfig := { Level : string; LogFormat : string; LogFile : string }.

(** source: internal/platform/config/config.go:12-20 (Config) *)
Record Config := {
  Server : ServerConfig; Database : DatabaseConfig; Agent : AgentConfig; Auth_ : AuthConfig; Security : SecurityConfig;
  Logging : LoggingConfig; ModulesEnabled : list string }.

Definition second : Z := 10 ^ 9.

(** source: internal/platform/config/config.go:97-140 (defaults) *)
Definition defaults : Config := {|
  Server := {| Host := "0.0.0.0"; Port := 5888; ControlPlaneEnabled := true; ControlPlanePort := 5889;
               ControlPlaneServerName := "opendeploy-control-plane"; ControlPlaneCA := "/var/lib/opendeploy/pki/ca.crt";
               ControlPlaneCAKey := "/var/lib/opendeploy/pki/ca.key"; TLSCertificate := "/var/lib/opendeploy/pki/control-plane.crt";
               TLSPrivateKey := "/var/lib/opendeploy/pki/control-plane.key"; ReadTimeout := 30 * second; WriteTimeout := 60 * second |};
  Database := {| Driver := "sqlite"; DSN := "/var/lib/opendeploy/data.db" |};
  Agent := {| Socket := "/run/opendeploy-agent/agent.sock"; ag_Timeout := 120 * second; CoreURL := ""; ag_ServerID := ""; CertificateFile := "";
              PrivateKeyFile := ""; CertificateFingerprint := ""; HeartbeatInterval := 30 * second; ControlPlaneAddress := "";
              ControlPlaneCAFile := ""; ag_ControlPlaneServerName := "" |};
  Auth_ := {| JWTSecret := ""; AccessTokenTTL := 15 * 60 * second; RefreshTokenTTL := 7 * 24 * 3600 * second |};
  Security := {| RateLimitEnabled := true; RequestsPerMinute := 300; CSRFEnabled := true |};
  Logging := {| Level := "info"; LogFormat := "json"; LogFile := "" |};
  ModulesEnabled := ["nginx"; "php"; "nodejs"; "git"; "certbot"] |}.

Definition or_text (s d : string) : string := if String.eqb s "" then d else s.

(** source: internal/platform/config/config.go:170-193 (normalizeControlPlane) *)
Definition normalizeControlPlane (s : ServerConfig) : ServerConfig :=
  if negb (ControlPlaneEnabled s) then s
  else
    let d := Server defaults in
    {| Host := Host s; Port := Port s; ControlPlaneEnabled := ControlPlaneEnabled s;
       ControlPlanePort := if (ControlPlanePort s =? 0)%Z then ControlPlanePort d else ControlPlanePort s;
       ControlPlaneServerName := or_text (ControlPlaneServerName s) (ControlPlaneServerName d);
       ControlPlaneCA := or_text (ControlPlaneCA s) (ControlPlaneCA d);
       ControlPlaneCAKey := or_text (ControlPlaneCAKey s) (ControlPlaneCAKey d);
       TLSCertificate := or_text (TLSCertificate s) (TLSCertificate d);
       TLSPrivateKey := or_text (TLSPrivateKey s) (TLSPrivateKey d);
       ReadTimeout := ReadTimeout s; WriteTimeout := WriteTimeout s |}.

(** source: internal/platform/config/config.go:196-219 (validate) *)
Definition validate (c : Config) : result string () :=
  let s := Server c in
  fail_if ((Port s <? 1)%Z || (65535 <? Port s)%Z) ("server.port must be between 1 and 65535, got " ++ itoa (Port s)) ;?
  fail_if ((ControlPlanePort s <? 0)%Z || (65535 <? ControlPlanePort s)%Z)
    ("server.control_plane_port must be between 0 and 65535, got " ++ itoa (ControlPlanePort s)) ;?
  (if ControlPlaneEnabled s then
     fail_if (ControlPlanePort s <? 1)%Z "server.control_plane_port must be set when the control plane is enabled" ;?
     fail_if (String.eqb (ControlPlaneServerName s) "" || String.eqb (ControlPlaneCA s) "" || String.eqb (ControlPlaneCAKey s) ""
              || String.eqb (TLSCertificate s) "" || String.eqb (TLSPrivateKey s) "")
       "server control-plane PKI paths and server name are required when the control plane is enabled"
   else Ok ()) ;?
  fail_if (String.eqb (DSN (Database c)) "") "database.dsn must not be empty" ;?
  fail_if (String.eqb (Socket (Agent c)) "") "agent.socket must not be empty".

Definition with_server (s : ServerConfig) (c : Config) : Config := {|
  Server := s; Database := Database c; Agent := Agent c; Auth_ := Auth_ c; Security := Security c; Logging := Logging c;
  ModulesEnabled := ModulesEnabled c |}.
Definition with_secret (secret : string) (c : Config) : Config := {|
  Server := Server c; Database := Database c; Agent := Agent c;
  Auth_ := {| JWTSecret := secret; AccessTokenTTL := AccessTokenTTL (Auth_ c); RefreshTokenTTL := RefreshTokenTTL (Auth_ c) |};
  Security := Security c; Logging := Logging c; ModulesEnabled := ModulesEnabled c |}.

(** source: internal/platform/config/config.go:145-168 (Load): [file] is what reading the file
    gives, [env] the variable OD_JWT_SECRET, and [unmarshal] the YAML library *)
Definition Load `{HUnicode : Unicode} (unmarshal : string -> Config -> result string Config) (env path : string) (file : result string string) : result string Config :=
  let? data := map_err (fun e => "config: read file " ++ quote path ++ ": " ++ e) file in
  let? cfg := map_err (fun e => "config: parse yaml: " ++ e) (unmarshal data defaults) in
  let cfg := with_server (normalizeControlPlane (Server cfg)) cfg in
  let cfg := if String.eqb env "" then cfg else with_secret env cfg in
  map_err (fun e => "config: validation: " ++ e) (validate cfg) ;? Ok cfg.

(** source: internal/platform/config/config.go:222-224 (Addr) *)
Definition Addr (c : Config) : string := Host (Server c) ++ ":" ++ itoa (Port (Server c)).

(** The configurations the panel runs with. *)
Record usable (c : Config) : Prop := {
  us_port : (1 <= Port (Server c) <= 65535)%Z;
  us_plane_port : (0 <= ControlPlanePort (Server c) <= 65535)%Z;
  us_plane : ControlPlaneEnabled (Server c) = true ->
    (1 <= ControlPlanePort (Server c))%Z /\ ControlPlaneServerName (Server c) <> "" /\ ControlPlaneCA (Server c) <> "" /\
    ControlPlaneCAKey (Server c) <> "" /\ TLSCertificate (Server c) <> "" /\ TLSPrivateKey (Server c) <> "";
  us_dsn : DSN (Database c) <> "";
  us_socket : Socket (Agent c) <> "" }.

Lemma validate_usable c : validate c = Ok () <-> usable c.
Proof.
  unfold validate, fail_if. split.
  - intros H. destruct (Port _ <? 1)%Z eqn:H1; [done|]. destruct (65535 <? Port _)%Z eqn:H2; [done|]. simpl in H.
    destruct (ControlPlanePort _ <? 0)%Z eqn:H3; [done|]. destruct (65535 <? ControlPlanePort _)%Z eqn:H4; [done|]. simpl in H.
    destruct (ControlPlaneEnabled _) eqn:He; [destruct (ControlPlanePort _ <? 1)%Z eqn:H5; [done|]; simpl in H;
      destruct (String.eqb_spec (ControlPlaneServerName (Server c)) ""); [done|]; destruct (String.eqb_spec (ControlPlaneCA (Server c)) ""); [done|];
      destruct (String.eqb_spec (ControlPlaneCAKey (Server c)) ""); [done|]; destruct (String.eqb_spec (TLSCertificate (Server c)) ""); [done|];
      destruct (String.eqb_spec (TLSPrivateKey (Server c)) ""); [done|]|]; simpl in H;
      (destruct (String.eqb_spec (DSN (Database c)) ""); [done|]); (destruct (String.eqb_spec (Socket (Agent c)) ""); [done|]);
      split; try lia; try done; (intros Hx; rewrite He in Hx) || idtac; try discriminate; intros; split_and!; done || lia.
  - intros [Hp Hpp Hpl Hd Hs].
    rewrite (proj2 (Z.ltb_ge _ _)), (proj2 (Z.ltb_ge _ _)) by lia. simpl.
    rewrite (proj2 (Z.ltb_ge (ControlPlanePort _) 0)), (proj2 (Z.ltb_ge 65535 (ControlPlanePort _))) by lia. simpl.
    rewrite (proj2 (String.eqb_neq _ _) Hd), (proj2 (String.eqb_neq _ _) Hs).
    destruct (ControlPlaneEnabled _); [|done]. destruct (Hpl eq_refl) as (H1 & H2 & H3 & H4 & H5 & H6).
    rewrite (proj2 (Z.ltb_ge _ _)) by lia. simpl.
    by rewrite (proj2 (String.eqb_neq _ _) H2), (proj2 (String.eqb_neq _ _) H3), (proj2 (String.eqb_neq _ _) H4),
      (proj2 (String.eqb_neq _ _) H5), (proj2 (String.eqb_neq _ _) H6).
Qed.

(** Loading gives a configuration exactly when the file can be read and parsed and what it says,
    completed for an enabled control plane, is usable; the secret of the environment takes
    precedence over that of the file, and everything else but the control plane is as parsed. *)
Theorem loaded_usable `{HUnicode : Unicode} unmarshal env path file c :
  Load unmarshal env path file = Ok c ->
  usable c /\
  exists data cfg, file = Ok data /\ unmarshal data defaults = Ok cfg /\
    JWTSecret (Auth_ c) = or_text env (JWTSecret (Auth_ cfg)) /\ Server c = normalizeControlPlane (Server cfg) /\
    Database c = Database cfg /\ Agent c = Agent cfg /\ Security c = Security cfg /\ Logging c = Logging cfg.
Proof.
  unfold Load. destruct file as [data|e]; [|done]. simpl. destruct (unmarshal data defaults) as [cfg|e] eqn:Hu; [|done]. simpl.
  destruct (validate _) as [[]|e] eqn:Hv; [|done]. simpl. intros [= <-]. apply validate_usable in Hv. split; [done|].
  exists data, cfg. unfold or_text. destruct (String.eqb_spec env "") as [->|Hne]; by split_and!.
Qed.

(** An empty file gives the defaults, with the secret of the environment. *)
Lemma loaded_usable_witness :
  exists c, Load (HUnicode := unicode_ascii) (fun _ c => Ok c) "s3cret" "/etc/opendeploy/config.yml" (Ok "") = Ok c /\ usable c /\ JWTSecret (Auth_ c) = "s3cret".
Proof.
  eexists. split; [reflexivity|].
  destruct (loaded_usable (HUnicode := unicode_ascii) (fun _ c => Ok c) "s3cret" "/etc/opendeploy/config.yml" (Ok "") _ eq_refl) as [Hu (data & cfg & _ & _ & Hs & _)].
  split; [exact Hu|reflexivity].
Defined.
