(* ===== verification/ConfigTx.v ===== *)
(** * The transaction on a configuration file

    internal/platform/config/manager.go.  The file calls and the two callbacks of a transaction
    are calls; [cfg_sem] says what they do to the files, each of which may fail, and counts the
    failures. *)

From S2P Require Import Prelude GoStrings GoPath Effects Pool.
Local Open Scope string_scope.
Local Open Scope go_scope.

(** ** Calls *)

Inductive opened := Opened | NotExist | OpenFailed (err : string).

Inductive cfg_call : Set -> Set :=
| CMkdirAll (dir : string) (mode : Z) : cfg_call (result string ())
| CLstat (path : string) : cfg_call (result string bool)
| CCreateTemp (dir pattern : string) : cfg_call (result string string)
| CChmod (path : string) (mode : Z) : cfg_call (result string ())
| CWrite (path content : string) : cfg_call (result string ())
| CSync (path : string) : cfg_call (result string ())
| CClose (path : string) : cfg_call (result string ())
| COpen (path : string) : cfg_call opened
| CCopy (dst src : string) : cfg_call (result string ())
| CRename (from to : string) : cfg_call (result string ())
| CRemove (path : string) : cfg_call (result (bool * string) ())
| CSyncDir (dir : string) : cfg_call (result string ())
| CValidate (path : string) : cfg_call (result string ())
| CReload (rollback : bool) : cfg_call (result string ())
| CRun (name : string) (args env : list string) : cfg_call (result string () * list string).

Notation cfg_prog A := (prog cfg_call A).

(** ** The transaction *)

(** source: internal/platform/config/manager.go:22-27 (Transaction): whether the callbacks are set *)
Record Transaction := { TargetFile : string; has_validator : bool; has_reloader : bool; Mode : Z }.

(** source: internal/platform/config/manager.go:29-31 (NewTransaction) *)
Definition NewTransaction (targetFile : string) (validator reloader : bool) : Transaction :=
  {| TargetFile := targetFile; has_validator := validator; has_reloader := reloader; Mode := 416 |}.

(** source: internal/platform/config/manager.go:154-164 (syncDir): opening and syncing as one call *)
Definition syncDir (path : string) : cfg_prog (result string ()) := call (CSyncDir path).

(** [_ = backup.Close(); _ = os.Remove(path); return "", false, ...] *)
Definition drop_backup (path msg : string) (close : bool) : cfg_prog (result string (string * bool)) :=
  ignore! (if close then call (CClose path) else Ret (Ok ())) in
  ignore! call (CRemove path) in
  Ret (Err msg).

(** source: internal/platform/config/manager.go:110-139 (backupFile) *)
Definition backupFile (target directory : string) : cfg_prog (result string (string * bool)) :=
  let! source := call (COpen target) in
  match source with
  | NotExist => Ret (Ok ("", false))
  | OpenFailed err => Ret (Err ("config transaction: open original: " ++ err))
  | Opened =>
      let! backup := call (CCreateTemp directory ("." ++ base target ++ ".backup-*")) in
      match backup with
      | Err err => Ret (Err ("config transaction: create backup: " ++ err))
      | Ok path =>
          let! copied := call (CCopy path target) in
          match copied with
          | Err err => drop_backup path ("config transaction: copy backup: " ++ err) true
          | Ok _ =>
              let! synced := call (CSync path) in
              match synced with
              | Err err => drop_backup path ("config transaction: sync backup: " ++ err) true
              | Ok _ =>
                  let! closed := call (CClose path) in
                  match closed with
                  | Err err => drop_backup path ("config transaction: close backup: " ++ err) false
                  | Ok _ => Ret (Ok (path, true))
                  end
              end
          end
      end
  end.

(** source: internal/platform/config/manager.go:141-152 (restoreBackup) *)
Definition restoreBackup (target backup : string) (hadOriginal : bool) : cfg_prog (option string) :=
  let sync := let! out := syncDir (dir target) in Ret (match out with Ok _ => None | Err e => Some e end) in
  if negb hadOriginal then
    let! removed := call (CRemove target) in
    match removed with
    | Err (false, err) => Ret (Some ("config transaction: remove failed commit: " ++ err))
    | _ => sync
    end
  else
    let! renamed := call (CRename backup target) in
    match renamed with
    | Err err => Ret (Some ("config transaction: restore backup: " ++ err))
    | Ok _ => sync
    end.

(** source: internal/platform/config/manager.go:166-171 (wrapIfError) *)
Definition wrapIfError (message : string) (err : result string ()) : option string :=
  match err with Ok _ => None | Err e => Some (message ++ ": " ++ e) end.

(** source: internal/platform/config/manager.go:86-107 (Execute, from the commit on) *)
Definition commit (t : Transaction) (directory preparedPath backupPath : string) (hadOriginal : bool) : cfg_prog (list string) :=
  let! renamed := call (CRename preparedPath (TargetFile t)) in
  match renamed with
  | Err err => Ret ["config transaction: commit: " ++ err]
  | Ok _ =>
      let! synced := syncDir directory in
      match synced with
      | Err err =>
          let! rollbackErr := restoreBackup (TargetFile t) backupPath hadOriginal in
          Ret (("config transaction: sync commit: " ++ err) :: option_list rollbackErr)
      | Ok _ =>
          if negb (has_reloader t) then Ret []
          else
            let! reloaded := call (CReload false) in
            match reloaded with
            | Ok _ => Ret []
            | Err err =>
                let! rollbackErr := restoreBackup (TargetFile t) backupPath hadOriginal in
                let! again := call (CReload true) in
                Ret (("config transaction: reload failed: " ++ err)%string
                     :: option_list rollbackErr ++ option_list (wrapIfError "config transaction: rollback reload" again))%list
            end
      end
  end.

(** source: internal/platform/config/manager.go:54-85 (Execute, from the prepared file to the
    backup): the deferred removals run when it returns *)
Definition prepare_and_commit (t : Transaction) (directory preparedPath content : string) : cfg_prog (list string) :=
  let failed err msg := Ret [msg ++ err] in
  let mode := (Z.land (Mode t) 511)%Z in
  let mode := if (mode =? 0)%Z then 416%Z else mode in
  let! c := call (CChmod preparedPath mode) in
  match c with
  | Err err => ignore! call (CClose preparedPath) in failed err "config transaction: chmod prepared file: "
  | Ok _ =>
  let! w := call (CWrite preparedPath content) in
  match w with
  | Err err => ignore! call (CClose preparedPath) in failed err "config transaction: write prepared file: "
  | Ok _ =>
  let! s := call (CSync preparedPath) in
  match s with
  | Err err => ignore! call (CClose preparedPath) in failed err "config transaction: sync prepared file: "
  | Ok _ =>
  let! cl := call (CClose preparedPath) in
  match cl with
  | Err err => failed err "config transaction: close prepared file: "
  | Ok _ =>
  let! v := if has_validator t then call (CValidate preparedPath) else Ret (Ok ()) in
  match v with
  | Err err => failed err "config transaction: validation failed: "
  | Ok _ =>
  let! b := backupFile (TargetFile t) directory in
  match b with
  | Err err => Ret [err]
  | Ok (backupPath, hadOriginal) =>
      let! errs := commit t directory preparedPath backupPath hadOriginal in
      ignore! (if String.eqb backupPath "" then Ret (Ok ()) else call (CRemove backupPath)) in
      Ret errs
  end end end end end end.

(** source: internal/platform/config/manager.go:33-53 (Execute): the errors, none for success *)
Definition Execute (t : Transaction) (ctxErr : option string) (content : string) : cfg_prog (list string) :=
  if negb (is_abs (TargetFile t)) then Ret ["config transaction: target must be absolute"]
  else
    match ctxErr with
    | Some err => Ret [err]
    | None =>
        let directory := dir (clean (TargetFile t)) in
        let! made := call (CMkdirAll directory 488) in
        match made with
        | Err err => Ret ["config transaction: create target directory: " ++ err]
        | Ok _ =>
            let! info := call (CLstat (TargetFile t)) in
            match info with
            | Ok true => Ret ["config transaction: symlink targets are forbidden"]
            | _ =>
                let! prepared := call (CCreateTemp directory ("." ++ base (TargetFile t) ++ ".prepare-*")) in
                match prepared with
                | Err err => Ret ["config transaction: create prepared file: " ++ err]
                | Ok preparedPath =>
                    let! errs := prepare_and_commit t directory preparedPath content in
                    ignore! call (CRemove preparedPath) in
                    Ret errs
                end
            end
        end
    end.

(** ** The validator that runs a command *)

Definition maxValidatorOutput : Z := 2 ^ 20.

(** source: internal/platform/config/manager.go:202-215 (boundedOutput, Write): what the buffer holds *)
Definition bounded_Write (buf value : string) : string :=
  if (maxValidatorOutput <=? len buf)%Z then buf
  else buf ++ take_bytes (Z.to_nat (maxValidatorOutput - len buf)) value.

(** source: internal/platform/config/manager.go:175-200 (CmdValidator) *)
Definition CmdValidator (name : string) (args : list string) (tempFile : string) : cfg_prog (result string ()) :=
  if String.eqb name "" || contains_any name ("/" ++ String (ascii_of_nat 92) "") then Ret (Err "validator executable must be a basename")
  else
    let commandArgs := (fun arg => if String.eqb arg "{temp}" then tempFile else arg) <$> args in
    let! out := call (CRun name commandArgs ["PATH=/usr/sbin:/usr/bin:/sbin:/bin"; "LANG=C.UTF-8"; "LC_ALL=C.UTF-8"]) in
    Ret (match fst out with
         | Ok _ => Ok ()
         | Err err => Err ("validator " ++ name ++ " failed: " ++ err ++ ": " ++ foldl bounded_Write "" (snd out))
         end).

Lemma maxValidatorOutput_pos : (0 < maxValidatorOutput)%Z.
Proof. done. Qed.
#[local] Opaque maxValidatorOutput.

Lemma bounded_Write_take total p :
  bounded_Write (take_bytes (Z.to_nat maxValidatorOutput) total) p = take_bytes (Z.to_nat maxValidatorOutput) (total ++ p).
Proof.
  pose proof maxValidatorOutput_pos as Hm. rewrite take_bytes_app. unfold bounded_Write.
  set (buf := take_bytes _ total). assert (Hl : len buf = Z.min maxValidatorOutput (len total)).
  { unfold buf, len. rewrite take_bytes_length. lia. }
  destruct (Z.leb_spec maxValidatorOutput (len buf)) as [Hr|Hr].
  - replace (_ - _)%nat with 0%nat by (unfold len in *; lia). by rewrite str_app_nil_r.
  - f_equal. f_equal. unfold len in *. lia.
Qed.

(** The diagnostic output kept is the beginning of what was written, and at most a megabyte. *)
Theorem validator_output_bounded chunks :
  foldl bounded_Write "" chunks = take_bytes (Z.to_nat maxValidatorOutput) (String.concat "" chunks).
Proof.
  assert (H : forall buf, foldl bounded_Write (take_bytes (Z.to_nat maxValidatorOutput) buf) chunks
    = take_bytes (Z.to_nat maxValidatorOutput) (buf ++ String.concat "" chunks)).
  { induction chunks as [|c chunks IH]; intros buf; cbn [foldl]; [by rewrite str_app_nil_r|].
    by rewrite concat_cons, <- str_app_assoc, bounded_Write_take, IH. }
  specialize (H ""). rewrite take_bytes_all in H by (simpl; lia). exact H.
Qed.

(** ** The files *)

Record cfile := { cf_content : string; cf_mode : Z }.
Record cdisk := { cd_files : gmap string cfile; cd_faults : nat }.

Definition with_file (p : string) (f : cfile) (d : cdisk) : cdisk := {| cd_files := <[p := f]> (cd_files d); cd_faults := cd_faults d |}.
Definition fault (d : cdisk) : cdisk := {| cd_files := cd_files d; cd_faults := S (cd_faults d) |}.

(** A call that changes nothing and may fail. *)
Definition idle_call (x : result string ()) (d d' : cdisk) : Prop := (x = Ok () /\ d' = d) \/ ((exists e, x = Err e) /\ d' = fault d).

Definition cfg_sem X (c : cfg_call X) : cdisk -> X -> cdisk -> Prop :=
  match c in cfg_call X return cdisk -> X -> cdisk -> Prop with
  | CMkdirAll _ _ | CSync _ | CClose _ | CSyncDir _ | CValidate _ | CReload _ => fun d x d' => idle_call x d d'
  | CLstat _ => fun d _ d' => d' = d
  | CRun _ _ _ => fun d _ d' => d' = d
  | CCreateTemp _ pattern => fun d x d' =>
      (exists name random, x = Ok name /\ name <> "" /\ cd_files d !! name = None /\ base name = trim_suffix pattern "*" ++ random /\
         d' = with_file name {| cf_content := ""; cf_mode := 384 |} d) \/
      ((exists e, x = Err e) /\ d' = fault d)
  | CChmod p mode => fun d x d' =>
      (exists f, cd_files d !! p = Some f /\ x = Ok () /\ d' = with_file p {| cf_content := cf_content f; cf_mode := mode |} d) \/
      ((exists e, x = Err e) /\ d' = fault d)
  | CWrite p content => fun d x d' =>
      exists f, cd_files d !! p = Some f /\
        ((x = Ok () /\ d' = with_file p {| cf_content := cf_content f ++ content; cf_mode := cf_mode f |} d) \/
         (exists e n, x = Err e /\ d' = fault (with_file p {| cf_content := cf_content f ++ take_bytes n content; cf_mode := cf_mode f |} d)))
  | COpen p => fun d x d' =>
      (x = Opened /\ d' = d /\ is_Some (cd_files d !! p)) \/ (x = NotExist /\ d' = d /\ cd_files d !! p = None) \/
      ((exists e, x = OpenFailed e) /\ d' = fault d)
  | CCopy dst src => fun d x d' =>
      exists f g, cd_files d !! dst = Some f /\ cd_files d !! src = Some g /\
        ((x = Ok () /\ d' = with_file dst {| cf_content := cf_content g; cf_mode := cf_mode f |} d) \/
         (exists e n, x = Err e /\ d' = fault (with_file dst {| cf_content := take_bytes n (cf_content g); cf_mode := cf_mode f |} d)))
  | CRename from to => fun d x d' =>
      (exists f, cd_files d !! from = Some f /\ x = Ok () /\ d' = {| cd_files := <[to := f]> (delete from (cd_files d)); cd_faults := cd_faults d |}) \/
      ((exists e, x = Err e) /\ d' = fault d)
  | CRemove p => fun d x d' =>
      (x = Ok () /\ is_Some (cd_files d !! p) /\ d' = {| cd_files := delete p (cd_files d); cd_faults := cd_faults d |}) \/
      ((exists e, x = Err (true, e)) /\ cd_files d !! p = None /\ d' = d) \/
      ((exists e, x = Err (false, e)) /\ d' = fault d)
  end.
Notation on_files := (runs cfg_sem).

(** *** What the parts leave *)

(** Nothing but the named files differs. *)
Definition apart (ps : list string) (d d' : cdisk) : Prop :=
  cd_faults d <= cd_faults d' /\ forall p, p ∉ ps -> cd_files d' !! p = cd_files d !! p.

(** The target and every file that was there are as before. *)
Definition kept (T : string) (d d' : cdisk) : Prop :=
  cd_faults d <= cd_faults d' /\ forall p, p = T \/ is_Some (cd_files d !! p) -> cd_files d' !! p = cd_files d !! p.

Lemma others_refl ps d : apart ps d d.
Proof. by split. Qed.
Lemma others_trans ps d1 d2 d3 : apart ps d1 d2 -> apart ps d2 d3 -> apart ps d1 d3.
Proof. intros [H1 H2] [H3 H4]. split; [lia|]. intros p Hp. by rewrite H4, H2. Qed.
Lemma apart_more ps qs d d' : (forall p, p ∈ ps -> p ∈ qs) -> apart ps d d' -> apart qs d d'.
Proof. intros Hs [H1 H2]. split; [done|]. intros p Hp. apply H2. auto. Qed.
Lemma apart_fault ps d d' : apart ps d d' -> apart ps d (fault d').
Proof. intros [H1 H2]. split; [simpl; lia|done]. Qed.
Lemma apart_file p f d : apart [p] d (with_file p f d).
Proof. split; [done|]. intros q Hq. simpl. rewrite lookup_insert_ne; [done|]. set_solver. Qed.
#[local] Hint Resolve others_refl apart_fault apart_file : cfg.

Lemma config_idle x d d' : idle_call x d d' -> cd_files d' = cd_files d /\ cd_faults d' = cd_faults d + (if is_ok x then 0 else 1).
Proof. intros [[-> ->]|[[e ->] ->]]; simpl; split; done || lia. Qed.

(** One idle call, and what it leaves. *)
Ltac idle_step H x d' :=
  let Hf := fresh "Hf" in let Hn := fresh "Hn" in
  apply runs_bind in H as (x & d' & [Hf Hn]%runs_call%config_idle & H).

Lemma remove_runs p d x d' : on_files (call (CRemove p)) d x d' -> apart [p] d d'.
Proof.
  intros [(-> & _ & ->)|[([e ->] & _ & ->)|([e ->] & ->)]]%runs_call; auto with cfg.
  split; [done|]. intros q Hq. simpl. rewrite lookup_delete_ne; [done|]. set_solver.
Qed.

Lemma drop_backup_runs path msg close d out d' :
  on_files (drop_backup path msg close) d out d' -> is_ok out = false /\ apart [path] d d'.
Proof.
  intros (u & d1 & Hc & H)%runs_bind. apply runs_bind in H as (v & d2 & Hr%remove_runs & [-> ->]). split; [done|].
  eapply others_trans; [|exact Hr]. destruct close; [|by destruct Hc as [_ ->]; auto with cfg].
  apply runs_call, config_idle in Hc as [Hf Hn]. split; [lia|]. intros p _. by rewrite Hf.
Qed.

(** A backup is a new file with the content of the original and the mode of temporary files;
    when there is none, a call failed and only new files differ. *)
Lemma backup_runs T dir d out d' :
  on_files (backupFile T dir) d out d' ->
  match out with
  | Ok (b, true) => exists g, cd_files d !! T = Some g /\ b <> "" /\ cd_files d !! b = None /\
      cd_files d' !! b = Some {| cf_content := cf_content g; cf_mode := 384 |} /\ apart [b] d d'
  | Ok (b, false) => b = "" /\ cd_files d !! T = None /\ d' = d
  | Err _ => cd_faults d < cd_faults d' /\ kept T d d'
  end.
Proof.
  intros (o & d1 & Ho & H)%runs_bind. apply runs_call in Ho as [(-> & -> & [g Hg])|[(-> & -> & Hn)|([e ->] & ->)]].
  2:{ destruct H as [-> ->]. done. }
  2:{ destruct H as [-> ->]. split; [simpl; lia|]. split; [simpl; lia|done]. }
  apply runs_bind in H as (b & d1 & Hb & H). apply runs_call in Hb as [(name & rnd & -> & Hne & Hnew & _ & ->)|([e ->] & ->)].
  2:{ destruct H as [-> ->]. split; [simpl; lia|]. split; [simpl; lia|done]. }
  assert (HnT : name <> T) by (intros ->; by rewrite Hnew in Hg).
  apply runs_bind in H as (c & d1 & (f & g' & Hf & Hg' & Hc)%runs_call & H). cbn [with_file cd_files] in Hf, Hg'.
  rewrite lookup_insert_eq in Hf. injection Hf as <-. rewrite lookup_insert_ne in Hg' by done. rewrite Hg in Hg'. injection Hg' as <-.
  assert (Hfail : forall d0 (o : result string (string * bool)) d2, cd_faults d < cd_faults d0 -> apart [name] d d0 ->
    is_ok o = false /\ apart [name] d0 d2 ->
    match o with Ok _ => False | Err _ => cd_faults d < cd_faults d2 /\ kept T d d2 end).
  { intros d0 [x|e] d2 Hlt Ha [Hok Ha2]; [done|]. destruct (others_trans _ _ _ _ Ha Ha2) as [Hle Hsame]. destruct Ha2.
    split; [lia|]. split; [done|]. intros p Hp. apply Hsame. rewrite list_elem_of_singleton. intros ->.
    destruct Hp as [->|[f Hf]]; [done|]. by rewrite Hnew in Hf. }
  destruct Hc as [[-> ->]|(e & n & -> & ->)].
  2:{ apply drop_backup_runs in H. apply Hfail in H; [by destruct out|simpl; lia|].
      apply apart_fault. eapply others_trans; apply apart_file. }
  set (d1 := with_file name _ (with_file name _ d)) in H. assert (Ha : apart [name] d d1) by (eapply others_trans; apply apart_file).
  assert (Hd1 : cd_files d1 !! name = Some {| cf_content := cf_content g; cf_mode := 384 |}) by (simpl; apply lookup_insert_eq).
  idle_step H s d2. destruct s as [u|e]; cbn [is_ok] in Hn.
  2:{ apply drop_backup_runs in H. apply Hfail in H; [by destruct out|simpl in *; lia|]. split; [destruct Ha; lia|].
      intros p Hp. rewrite Hf. by apply Ha. }
  idle_step H c d3. destruct c as [u'|e]; cbn [is_ok] in Hn0.
  2:{ apply drop_backup_runs in H. apply Hfail in H; [by destruct out|simpl in *; lia|]. split; [destruct Ha; lia|].
      intros p Hp. rewrite Hf0, Hf. by apply Ha. }
  destruct H as [-> ->]. exists g. split_and!; [done..| |].
  - by rewrite Hf0, Hf.
  - split; [destruct Ha; lia|]. intros p Hp. rewrite Hf0, Hf. by apply Ha.
Qed.

Lemma rename_runs from to d x d' :
  on_files (call (CRename from to)) d x d' ->
  (exists f, x = Ok () /\ cd_files d !! from = Some f /\ cd_files d' = <[to := f]> (delete from (cd_files d)) /\ cd_faults d' = cd_faults d) \/
  ((exists e, x = Err e) /\ cd_files d' = cd_files d /\ cd_faults d' = S (cd_faults d)).
Proof. intros [(f & Hf & -> & ->)|([e ->] & ->)]%runs_call; [left; by exists f|right; eauto]. Qed.

(** The original in a backup, or its absence. *)
Definition saved (T b : string) (had : bool) (orig : option cfile) (d : cdisk) : Prop :=
  if had then b <> T /\ exists g, orig = Some g /\ cd_files d !! b = Some {| cf_content := cf_content g; cf_mode := 384 |}
  else orig = None /\ b = "".

(** What is left of the original after a rollback: its content, with the mode of the backup. *)
Definition rolled (orig : option cfile) : option cfile := (fun g => {| cf_content := cf_content g; cf_mode := 384 |}) <$> orig.

Lemma config_restored T b had orig d out d' :
  saved T b had orig d -> on_files (restoreBackup T b had) d out d' ->
  apart [T; b] d d' /\ (cd_files d' !! T = rolled orig \/ (cd_faults d < cd_faults d' /\ cd_files d' !! T = cd_files d !! T)).
Proof.
  intros Hs H. unfold restoreBackup in H. destruct had; cbn [negb saved] in *.
  - destruct Hs as (Hne & g & -> & Hg). apply runs_bind in H as (x & d1 & Hx%rename_runs & H).
    destruct Hx as [(f & -> & Hf & Hfiles & Hn)|([e ->] & Hfiles & Hn)].
    + rewrite Hg in Hf. injection Hf as <-. idle_step H y d2. destruct H as [_ ->]. split; [split; [lia|]|left].
      * intros p Hp. rewrite Hf, Hfiles. rewrite lookup_insert_ne, lookup_delete_ne by set_solver. done.
      * by rewrite Hf, Hfiles, lookup_insert_eq.
    + destruct H as [_ ->]. split; [split; [lia|]; intros p _; by rewrite Hfiles|]. right. rewrite Hfiles. split; [lia|done].
  - destruct Hs as [-> ->]. apply runs_bind in H as (x & d1 & Hx & H). apply runs_call in Hx.
    assert (Hsync : forall d1, on_files (let! out := syncDir (dir T) in Ret (match out with Ok _ => None | Err e => Some e end)) d1 out d' ->
      cd_files d' = cd_files d1 /\ cd_faults d1 <= cd_faults d').
    { intros d2 Hy. idle_step Hy y d3. destruct Hy as [_ ->]. split; [done|lia]. }
    destruct Hx as [(-> & _ & ->)|[([e ->] & Hnone & ->)|([e ->] & ->)]].
    + apply Hsync in H as [Hf Hn]. cbn [cd_files cd_faults] in *. split; [split; [lia|]|left].
      * intros p Hp. rewrite Hf, lookup_delete_ne by set_solver. done.
      * by rewrite Hf, lookup_delete_eq.
    + apply Hsync in H as [Hf Hn]. split; [split; [lia|]; intros p _; by rewrite Hf|left]. by rewrite Hf.
    + destruct H as [_ ->]. split; [by split; [simpl; lia|]|]. right. split; [simpl; lia|done].
Qed.

(** The commit: without errors the target is the prepared file; with errors a call failed, and the
    target has its original content unless a second one failed. *)
Lemma commit_runs t directory prep b had f d errs d' :
  prep <> TargetFile t -> prep <> b -> cd_files d !! prep = Some f -> saved (TargetFile t) b had (cd_files d !! TargetFile t) d ->
  on_files (commit t directory prep b had) d errs d' ->
  apart [TargetFile t; prep; b] d d' /\
  ((errs = [] /\ cd_files d' !! TargetFile t = Some f) \/
   (errs <> [] /\ cd_faults d < cd_faults d' /\
    (cd_files d' !! TargetFile t = cd_files d !! TargetFile t \/ cd_files d' !! TargetFile t = rolled (cd_files d !! TargetFile t) \/
     (cd_faults d + 2 <= cd_faults d' /\ cd_files d' !! TargetFile t = Some f)))).
Proof.
  intros Hp Hpb Hf Hs H. set (T := TargetFile t) in *.
  apply runs_bind in H as (x & d1 & Hx%rename_runs & H). destruct Hx as [(f' & -> & Hf' & Hd1 & Hn1)|([e ->] & Hd1 & Hn1)].
  2:{ destruct H as [-> ->]. split; [split; [lia|]; intros p _; by rewrite Hd1|]. right. split_and!; [done|lia|left]. by rewrite Hd1. }
  rewrite Hf in Hf'. injection Hf' as <-.
  assert (HT : cd_files d1 !! T = Some f) by (rewrite Hd1; apply lookup_insert_eq).
  assert (Ha1 : apart [T; prep; b] d d1).
  { split; [lia|]. intros p Hx. rewrite Hd1, lookup_insert_ne, lookup_delete_ne by set_solver. done. }
  assert (Hs1 : saved T b had (cd_files d !! T) d1).
  { destruct had; [|done]. destruct Hs as (Hne & g & Hg & Hb). split; [done|]. exists g. split; [done|].
    rewrite Hd1, lookup_insert_ne, lookup_delete_ne by done. done. }
  assert (Hback : forall d2 out d3, cd_files d2 = cd_files d1 -> cd_faults d2 = S (cd_faults d1) ->
    on_files (restoreBackup T b had) d2 out d3 ->
    apart [T; prep; b] d d3 /\ cd_faults d < cd_faults d3 /\
    (cd_files d3 !! T = rolled (cd_files d !! T) \/ (cd_faults d + 2 <= cd_faults d3 /\ cd_files d3 !! T = Some f))).
  { intros d2 out d3 Hd2 Hn2 Hr. apply (config_restored T b had (cd_files d !! T)) in Hr as [Ha3 Hr].
    2:{ destruct had; [|done]. destruct Hs1 as (? & g & ? & ?). split; [done|]. exists g. by rewrite Hd2. }
    destruct Ha3 as [Hle Ha3]. split_and!.
    - split; [lia|]. intros p Hx. rewrite Ha3 by set_solver. rewrite Hd2. by apply Ha1.
    - lia.
    - destruct Hr as [Hr|[Hlt Hr]]; [by left|right]. split; [lia|]. by rewrite Hr, Hd2. }
  idle_step H y d2. destruct y as [u|e]; cbn [is_ok] in Hn.
  - destruct (has_reloader t); cbn [negb] in H.
    + idle_step H z d3. destruct z as [u'|e]; cbn [is_ok] in Hn0.
      * destruct H as [-> ->]. split; [split; [destruct Ha1; lia|]; intros p Hx; rewrite Hf1, Hf0; by apply Ha1|]. left. by rewrite Hf1, Hf0.
      * apply runs_bind in H as (o & d4 & Hr & H). apply Hback in Hr as (Ha & Hlt & Hr); [|congruence|lia].
        idle_step H w d5. destruct H as [-> ->]. split; [split; [destruct Ha; lia|]; intros p Hx; rewrite Hf2; by apply Ha|].
        right. split_and!; [done|lia|right]. rewrite Hf2. destruct Hr as [Hr|[? Hr]]; [by left|right]. split; [lia|done].
    + destruct H as [-> ->]. split; [split; [destruct Ha1; lia|]; intros p Hx; rewrite Hf0; by apply Ha1|]. left. by rewrite Hf0.
  - apply runs_bind in H as (o & d4 & Hr & [-> ->]). apply Hback in Hr as (Ha & Hlt & Hr); [|done|lia].
    split; [done|]. right. split_and!; [done|done|by right].
Qed.

(** *** The whole transaction *)

Definition wanted_mode (t : Transaction) : Z := if (Z.land (Mode t) 511 =? 0)%Z then 416%Z else Z.land (Mode t) 511.

(** How a transaction may end: the new file without errors, or errors with the original content
    unless two calls failed; other files that were there are kept. *)
Definition ends (t : Transaction) (content : string) (errs : list string) (d d' : cdisk) : Prop :=
  let T := TargetFile t in
  let new := {| cf_content := content; cf_mode := wanted_mode t |} in
  (forall p, p <> T -> p <> EmptyString -> is_Some (cd_files d !! p) -> cd_files d' !! p = cd_files d !! p) /\ cd_faults d <= cd_faults d' /\
  ((errs = [] /\ cd_files d' !! T = Some new) \/
   (errs <> [] /\
    (cd_files d' !! T = cd_files d !! T \/
     (cd_faults d < cd_faults d' /\ cd_files d' !! T = rolled (cd_files d !! T)) \/
     (cd_faults d + 2 <= cd_faults d' /\ cd_files d' !! T = Some new)))).

(** The target after a step that only changed a temporary file or removed one. *)
Lemma ends_after t content errs d d1 d2 prep :
  prep <> TargetFile t -> cd_files d !! prep = None -> ends t content errs d d1 -> apart [prep] d1 d2 -> ends t content errs d d2.
Proof.
  intros Hne Hnew (Hk & Hle & He) [Hle2 Ha]. split_and!; [|lia|].
  - intros p Hp H0 Hs. rewrite Ha; [by apply Hk|]. rewrite list_elem_of_singleton. intros ->. rewrite Hnew in Hs. by destruct Hs.
  - rewrite Ha by (by rewrite list_elem_of_singleton). destruct He as [?|[Hne2 [?|[[? ?]|[? ?]]]]]; [by left|right; split; [done|]..].
    + by left. + right; left. split; [lia|done]. + right; right. split; [lia|done].
Qed.

Section prepared.
Context (t : Transaction) (directory prep content : string).
Context (Hne : prep <> TargetFile t) (Hname : prep <> "") (Htarget : TargetFile t <> "").

(** A failure before the backup: only the prepared file differs. *)
Lemma ends_early d0 errs d' : cd_files d0 !! prep = None -> errs <> [] -> apart [prep] d0 d' -> ends t content errs d0 d'.
Proof.
  intros Hnew Hm Ha. apply (ends_after t content errs d0 d0 d' prep); [done|done| |done].
  split_and!; [done|done|]. right. split; [done|by left].
Qed.

Lemma apart_idle x d0 d d' : apart [prep] d0 d -> idle_call x d d' -> apart [prep] d0 d'.
Proof. intros [H1 H2] [Hf Hn]%config_idle. split; [lia|]. intros p Hp. rewrite Hf. by apply H2. Qed.

Lemma closed_early d0 d msg errs d' :
  cd_files d0 !! prep = None -> apart [prep] d0 d -> on_files (ignore! call (CClose prep) in Ret [msg]) d errs d' -> ends t content errs d0 d'.
Proof. intros Hnew Ha (x & d1 & Hc%runs_call & [-> ->])%runs_bind. apply ends_early; [done|done|]. by eapply apart_idle. Qed.

Definition written (d : cdisk) : Prop := cd_files d !! prep = Some {| cf_content := content; cf_mode := wanted_mode t |}.

(** From the backup on. *)
Lemma committed_runs d0 d errs d' :
  cd_files d0 !! prep = None -> apart [prep] d0 d -> written d ->
  on_files (let! b := backupFile (TargetFile t) directory in
            match b with
            | Err err => Ret [err]
            | Ok (backupPath, hadOriginal) =>
                let! errs := commit t directory prep backupPath hadOriginal in
                ignore! (if String.eqb backupPath "" then Ret (Ok ()) else call (CRemove backupPath)) in
                Ret errs
            end) d errs d' -> ends t content errs d0 d'.
Proof.
  intros Hnew [Hle Ha] Hw (b & d1 & Hb%backup_runs & H)%runs_bind.
  assert (HT : cd_files d !! TargetFile t = cd_files d0 !! TargetFile t) by (apply Ha; by rewrite list_elem_of_singleton).
  assert (Hold : forall p, is_Some (cd_files d0 !! p) -> p <> prep) by (intros p [f Hf] ->; by rewrite Hnew in Hf).
  destruct b as [[b had]|e].
  2:{ destruct H as [-> ->]. destruct Hb as [Hlt [_ Hk]]. split_and!; [|lia|].
      - intros p Hp _ Hs. rewrite Hk; [|right]; rewrite Ha; try done; rewrite list_elem_of_singleton; by apply Hold.
      - right. split; [done|left]. rewrite Hk by (by left). done. }
  assert (Hsaved : saved (TargetFile t) b had (cd_files d1 !! TargetFile t) d1 /\ prep <> b /\ apart [b] d d1 /\
    (had = true -> cd_files d !! b = None) /\ written d1 /\ cd_files d1 !! TargetFile t = cd_files d !! TargetFile t).
  { destruct had.
    - destruct Hb as (g & Hg & Hb0 & Hbnew & Hbf & Hab). assert (HbT : b <> TargetFile t) by (intros ->; by rewrite Hbnew in Hg).
      assert (Hpb : prep <> b) by (intros Heq; unfold written in Hw; by rewrite Heq, Hbnew in Hw).
      assert (Hsame : forall p, p <> b -> cd_files d1 !! p = cd_files d !! p) by (intros p Hp; apply Hab; by rewrite list_elem_of_singleton).
      unfold written. rewrite !Hsame by done. split_and!; [|done..]. split; [done|]. by exists g.
    - destruct Hb as (-> & Hnone & ->). rewrite Hnone. by split_and!; [split|..]; auto with cfg. }
  destruct Hsaved as (Hsv & Hpb & Hab & Hbnew & Hw1 & HT1).
  apply runs_bind in H as (errs1 & d2 & Hc & H). apply (commit_runs _ _ _ _ _ _ _ _ _ Hne Hpb Hw1 Hsv) in Hc as [[Hle2 Ha2] Hres].
  apply runs_bind in H as (u & d3 & Hrm & [-> ->]).
  assert (Ha3 : forall p, p <> b -> cd_files d3 !! p = cd_files d2 !! p).
  { destruct (String.eqb_spec b "") as [->|]; [by destruct Hrm as [_ ->]|]. apply remove_runs in Hrm as [_ Hrm].
    intros p Hp. apply Hrm. by rewrite list_elem_of_singleton. }
  assert (Hle3 : cd_faults d2 <= cd_faults d3).
  { destruct (String.eqb_spec b "") as [->|]; [by destruct Hrm as [_ ->]|]. by apply remove_runs in Hrm as [Hrm _]. }
  destruct Hab as [Hle1 Hab].
  split_and!; [|lia|].
  - intros p Hp H0 Hs. assert (Hpp : p <> prep) by (by apply Hold).
    assert (Hpd : cd_files d !! p = cd_files d0 !! p) by (apply Ha; by rewrite list_elem_of_singleton).
    assert (Hpb' : p <> b).
    { intros ->. destruct had; [|by destruct Hb]. rewrite <- Hpd, Hbnew in Hs by done. by destruct Hs. }
    rewrite Ha3, Ha2, Hab by set_solver. done.
  - assert (HTb : TargetFile t <> b).
    { intros Heq. destruct had; [by destruct Hsv as [? _]|]. destruct Hsv as [_ ->]. apply Htarget. done. }
    rewrite Ha3 by done. rewrite <- HT, <- HT1. destruct Hres as [[-> Hn]|(Hn0 & Hlt & Hres)]; [left; done|right; split; [done|]].
    destruct Hres as [?|[?|[? ?]]]; [by left|right; left|right; right]; (split; [lia|done]).
Qed.

Lemma prepare_runs d0 errs d' :
  cd_files d0 !! prep = None ->
  on_files (prepare_and_commit t directory prep content) (with_file prep {| cf_content := ""; cf_mode := 384 |} d0) errs d' ->
  ends t content errs d0 d'.
Proof.
  intros Hnew H. unfold prepare_and_commit in H. cbv zeta in H. fold (wanted_mode t) in H.
  set (d := with_file prep _ d0) in H. assert (Ha : apart [prep] d0 d) by apply apart_file.
  assert (Hd : cd_files d !! prep = Some {| cf_content := ""; cf_mode := 384 |}) by apply lookup_insert_eq.
  clearbody d. apply runs_bind in H as (x & d1 & Hx & H). apply runs_call in Hx as [(f & Hlk & -> & Hd1)|([e ->] & ->)].
  2:{ eapply closed_early; [done| |exact H]. by apply apart_fault. }
  rewrite Hd in Hlk. injection Hlk as <-.
  assert (Ha1 : apart [prep] d0 d1) by (subst d1; eapply others_trans; [exact Ha|apply apart_file]).
  assert (Hf1 : cd_files d1 !! prep = Some {| cf_content := ""; cf_mode := wanted_mode t |}) by (subst d1; apply lookup_insert_eq).
  clear Hd1. apply runs_bind in H as (x & d2 & (f & Hlk & Hx)%runs_call & H). rewrite Hf1 in Hlk. injection Hlk as <-.
  destruct Hx as [[-> Hd2]|(e & n & -> & Hd2)].
  2:{ eapply closed_early; [done| |exact H]. subst d2. apply apart_fault. eapply others_trans; [exact Ha1|apply apart_file]. }
  assert (Ha2 : apart [prep] d0 d2) by (subst d2; eapply others_trans; [exact Ha1|apply apart_file]).
  assert (Hw : written d2) by (subst d2; apply lookup_insert_eq). clear Hd2.
  assert (Hidle : forall x d3 d4, apart [prep] d0 d3 -> written d3 -> idle_call x d3 d4 -> apart [prep] d0 d4 /\ written d4).
  { intros y d3 d4 Ha3 Hw3 Hi. split; [by eapply apart_idle|]. apply config_idle in Hi as [Hf _]. unfold written. by rewrite Hf. }
  apply runs_bind in H as (x & d3 & Hx%runs_call & H). destruct (Hidle _ _ _ Ha2 Hw Hx) as [Ha3 Hw3].
  destruct x as [u|e]; [|by eapply closed_early].
  apply runs_bind in H as (x & d4 & Hy%runs_call & H). destruct (Hidle _ _ _ Ha3 Hw3 Hy) as [Ha4 Hw4].
  destruct x as [u'|e]; [|by destruct H as [-> ->]; apply ends_early].
  apply runs_bind in H as (x & d5 & Hz & H).
  assert (Hz' : apart [prep] d0 d5 /\ written d5).
  { destruct (has_validator t); [apply runs_call in Hz; by eapply Hidle|]. by destruct Hz as [_ ->]. }
  destruct Hz' as [Ha5 Hw5]. destruct x as [u''|e]; [|by destruct H as [-> ->]; apply ends_early].
  by eapply committed_runs.
Qed.
End prepared.

(** The name of a temporary file is longer than that of the target. *)
Lemma temp_name_apart T pattern random name :
  pattern = "." ++ base T ++ ".prepare-*" -> base name = trim_suffix pattern "*" ++ random -> name <> T.
Proof.
  intros Hp Hb ->. apply (f_equal String.length) in Hb. rewrite str_length_app in Hb. unfold trim_suffix in Hb.
  assert (Hl : String.length pattern = String.length (base T) + 11) by (subst pattern; rewrite !str_length_app; simpl; lia).
  destruct (has_suffix pattern "*"); [rewrite take_bytes_length in Hb; simpl in Hb|]; lia.
Qed.

(** C20. Replacing a configuration file is all or nothing.  When a transaction succeeds, the target
    is the new file, with the new content and mode.  When it fails, the target has its original
    content, or is absent as it was, unless two calls failed, the call of a service to reload
    included; then it may be the new file, but never anything else.  Every other file is kept. *)
Theorem config_all_or_nothing t ctxErr content d errs d' :
  TargetFile t <> "" -> on_files (Execute t ctxErr content) d errs d' ->
  (errs = [] -> cd_files d' !! TargetFile t = Some {| cf_content := content; cf_mode := wanted_mode t |}) /\
  (errs <> [] -> cd_faults d' <= S (cd_faults d) -> cf_content <$> cd_files d' !! TargetFile t = cf_content <$> cd_files d !! TargetFile t) /\
  (cf_content <$> cd_files d' !! TargetFile t = Some content \/
   cf_content <$> cd_files d' !! TargetFile t = cf_content <$> cd_files d !! TargetFile t) /\
  (forall p, p <> TargetFile t -> p <> "" -> is_Some (cd_files d !! p) -> cd_files d' !! p = cd_files d !! p).
Proof.
  intros HT H. assert (He : ends t content errs d d').
  { assert (Hsame : forall m d2, m <> [] -> cd_files d2 = cd_files d -> cd_faults d <= cd_faults d2 -> ends t content m d d2).
    { intros m d2 Hm Hf Hn. split_and!; [by intros; rewrite Hf|done|]. right. split; [done|left; by rewrite Hf]. }
    unfold Execute in H. destruct (negb _); [by destruct H as [-> ->]; apply Hsame|]. destruct ctxErr; [by destruct H as [-> ->]; apply Hsame|].
    cbv zeta in H. idle_step H x d1. destruct x as [u|e]; [|destruct H as [-> ->]; apply Hsame; [done|done|lia]].
    apply runs_bind in H as (info & d2 & Hi & H). apply runs_call in Hi. cbn in Hi. subst d2.
    assert (Hd1 : d1 = d) by (destruct d, d1; cbn in *; f_equal; [done|lia]). subst d1.
    destruct info as [[]|]; [by destruct H as [-> ->]; apply Hsame|..];
      (apply runs_bind in H as (name & d2 & Hc & H); apply runs_call in Hc as [(prep & rnd & -> & Hne & Hnew & Hbase & ->)|([e' ->] & ->)];
       [|destruct H as [-> ->]; apply Hsame; [done|done|simpl; lia]];
       apply (temp_name_apart (TargetFile t)) in Hbase; [|done];
       apply runs_bind in H as (errs' & d3 & Hp & H); apply runs_bind in H as (rm & d4 & Hr%remove_runs & [-> ->]);
       apply (ends_after t content _ d d3 _ prep); [done|done| |done]; by eapply prepare_runs). }
  destruct He as (Hk & Hle & He). split_and!; [| | |done].
  - intros ->. by destruct He as [[_ ?]|[? _]].
  - intros Hne Hf. destruct He as [[-> _]|[_ [->|[[_ ->]|[? _]]]]]; [done|done| |lia]. by destruct (cd_files d !! TargetFile t).
  - destruct He as [[_ ->]|[_ [->|[[_ ->]|[_ ->]]]]]; [by left|by right| |by left]. right. by destruct (cd_files d !! TargetFile t).
Qed.

(** ** A transaction whose service refuses to reload *)

Section example.
Definition app_conf : Transaction := NewTransaction "/etc/app/app.conf" false true.
Definition old_disk : cdisk := {| cd_files := {["/etc/app/app.conf" := {| cf_content := "old"; cf_mode := 420 |}]}; cd_faults := 0 |}.

(** Every call succeeds but the first reload. *)
Definition refusing X (c : cfg_call X) (d : cdisk) : X * cdisk :=
  match c in cfg_call X return X * cdisk with
  | CMkdirAll _ _ | CSync _ | CClose _ | CSyncDir _ | CValidate _ => (Ok (), d)
  | CReload false => (Err "reload rejected", fault d)
  | CReload true => (Ok (), d)
  | CLstat _ => (Ok false, d)
  | CRun _ _ _ => ((Ok (), []), d)
  | CCreateTemp dir pattern =>
      let name := dir ++ "/" ++ trim_suffix pattern "*" ++ "1" in (Ok name, with_file name {| cf_content := ""; cf_mode := 384 |} d)
  | CChmod p mode =>
      match cd_files d !! p with
      | Some f => (Ok (), with_file p {| cf_content := cf_content f; cf_mode := mode |} d) | None => (Err "", fault d)
      end
  | CWrite p content =>
      match cd_files d !! p with
      | Some f => (Ok (), with_file p {| cf_content := cf_content f ++ content; cf_mode := cf_mode f |} d) | None => (Err "", fault d)
      end
  | COpen p => (match cd_files d !! p with Some _ => Opened | None => NotExist end, d)
  | CCopy dst src =>
      match cd_files d !! dst, cd_files d !! src with
      | Some f, Some g => (Ok (), with_file dst {| cf_content := cf_content g; cf_mode := cf_mode f |} d) | _, _ => (Err "", fault d)
      end
  | CRename from to =>
      match cd_files d !! from with
      | Some f => (Ok (), {| cd_files := <[to := f]> (delete from (cd_files d)); cd_faults := cd_faults d |}) | None => (Err "", fault d)
      end
  | CRemove p =>
      match cd_files d !! p with
      | Some _ => (Ok (), {| cd_files := delete p (cd_files d); cd_faults := cd_faults d |}) | None => (Err (true, ""), d)
      end
  end.

Definition refused : list string * cdisk := run refusing (Execute app_conf None "new") old_disk.

(** Whether a call of the run is one for which that is a possible answer. *)
Definition possible X (c : cfg_call X) (d : cdisk) : bool :=
  let there p := match cd_files d !! p with Some _ => true | None => false end in
  match c with
  | CCreateTemp dir pattern =>
      let name := dir ++ "/" ++ trim_suffix pattern "*" ++ "1" in
      negb (there name) && negb (String.eqb name "") && String.eqb (base name) (trim_suffix pattern "*" ++ "1")
  | CWrite p _ => there p
  | CCopy dst src => there dst && there src
  | _ => true
  end.

Fixpoint all_possible {A} (p : cfg_prog A) (d : cdisk) : bool :=
  match p with
  | Ret _ => true
  | @Call _ _ X c k => possible X c d && all_possible (k (fst (refusing X c d))) (snd (refusing X c d))
  end.

Lemma possible_sem X (c : cfg_call X) d : possible X c d = true -> cfg_sem X c d (fst (refusing X c d)) (snd (refusing X c d)).
Proof.
  destruct c as [| |dir pattern|p m|p content| | |p|dst src|from to|p| | |[]|]; cbn [possible cfg_sem refusing]; try (intros _; by left); try done.
  - destruct (cd_files d !! _) eqn:Hlk; [done|]. cbn [negb andb]. intros [Hn Hb]%andb_true_iff. left. eexists _, "1". split_and!; [done| | | |done].
    + by destruct (String.eqb_spec (dir ++ "/" ++ trim_suffix pattern "*" ++ "1") "").
    + done.
    + by apply String.eqb_eq.
  - intros _. destruct (cd_files d !! p) as [f|]; [left; by exists f|right; by eauto].
  - destruct (cd_files d !! p) as [f|]; [|done]. intros _. exists f. split; [done|by left].
  - intros _. destruct (cd_files d !! p) as [f|]; [left; by eauto|right; left; by eauto].
  - destruct (cd_files d !! dst) as [f|]; [|done]. destruct (cd_files d !! src) as [g|]; [|done]. intros _. exists f, g. split_and!; [done..|by left].
  - intros _. destruct (cd_files d !! from) as [f|]; [left; by exists f|right; by eauto].
  - intros _. destruct (cd_files d !! p) as [f|]; [left; by eauto|right; left; by eauto].
  - intros _. right. by eauto.
Qed.

Lemma all_possible_checked {A} (p : cfg_prog A) d : all_possible p d = true -> checked cfg_sem refusing p d.
Proof.
  revert d. induction p as [a|X c k IH]; intros d; cbn [all_possible checked]; [done|].
  intros [H1 H2]%andb_true_iff. split; [by apply possible_sem|by apply IH].
Qed.

Lemma refused_runs : on_files (Execute app_conf None "new") old_disk (fst refused) (snd refused).
Proof. apply checked_runs, all_possible_checked. vm_compute. reflexivity. Qed.

(** The service refused the new file once: the old content is back. *)
Lemma config_all_or_nothing_witness :
  fst refused <> [] /\ cf_content <$> cd_files (snd refused) !! "/etc/app/app.conf" = Some "old".
Proof.
  assert (Hne : fst refused <> []) by (vm_compute; discriminate). split; [done|].
  destruct (config_all_or_nothing app_conf None "new" old_disk (fst refused) (snd refused) ltac:(discriminate) refused_runs) as (_ & H & _).
  apply (H Hne). vm_compute. lia.
Defined.

(** The content is restored but not the mode: the backup is a temporary file, and it replaces
    the original, which was readable by all, as a file that only its owner can read. *)
Theorem rollback_loses_mode :
  on_files (Execute app_conf None "new") old_disk (fst refused) (snd refused) /\
  cd_files old_disk !! TargetFile app_conf = Some {| cf_content := "old"; cf_mode := 420 |} /\
  cd_files (snd refused) !! TargetFile app_conf = Some {| cf_content := "old"; cf_mode := 384 |}.
Proof. split_and!; [apply refused_runs|done|vm_compute; reflexivity]. Qed.
End example.
