(* ===== verification/Services.v ===== *)
(** * Managed services

    internal/core/service/service.go: the systemd units that users register in the panel.  Rows
    live in one table of SQLite and belong to a server; the units are operated through the Agent
    of the server that is selected in the context. *)

From S2P Require Import Prelude GoStrings GoStrconv GoTime GoJson GoStruct Effects AppErrors AgentApi Http GoSql Pool.
Local Open Scope string_scope.
Local Open Scope go_scope.

(** ** Data *)

(** source: internal/core/service/service.go:27-34 (State) *)
Inductive State := StateRunning | StateStopped | StateFailed | StateUnknown.

#[export] Instance ServiceState_eq_dec : EqDecision State.
Proof. solve_decision. Defined.

(** source: internal/core/service/service.go:37-46 (ManagedService) *)
Record ManagedService := {
  ms_ID : string; ms_Name : string; ms_Unit : string; ms_Description : string; ms_Autostart : bool; ms_State : State;
  ms_CreatedAt : time; ms_UpdatedAt : time }.

Definition with_state (st : State) (s : ManagedService) : ManagedService :=
  {| ms_ID := ms_ID s; ms_Name := ms_Name s; ms_Unit := ms_Unit s; ms_Description := ms_Description s; ms_Autostart := ms_Autostart s;
     ms_State := st; ms_CreatedAt := ms_CreatedAt s; ms_UpdatedAt := ms_UpdatedAt s |}.

(** The columns of a row but its server. *)
Record service_row := {
  sr_id : string; sr_name : string; sr_unit : string; sr_description : string; sr_autostart : Z; sr_state : State;
  sr_created : string; sr_updated : string }.

(** ** Calls *)

(** What a stream of logs gives next: a line, its end, or the end of the request. *)
Inductive stream_event := Line (text : string) | Ended | Cancelled.

Inductive local_call : Set -> Set :=
| NewID : local_call string
| Clock : local_call time
| InsertService (server : string) (row : service_row) : local_call (result string ())
| SelectService (id server : string) : local_call (result string (option service_row))
| SelectServices (server : string) : local_call (result string (rows service_row))
| SetServiceState (state : State) (now id server : string) : local_call (result string ())
| DeleteService (id server : string) : local_call (result string ())
| OpenLogs (server unit_ : string) : local_call (result error ())
| NextLine : local_call stream_event
| UpgradeSocket : local_call (result string ())
| SendText (text : string) : local_call (result string ())
| CloseSocket : local_call ().

(** An operation of the Agent of a server, or a call of the Core itself. *)
Definition service_call (X : Set) : Set := ((string * agent_op X) + local_call X)%type.
Notation service_prog A := (prog service_call A).

Definition own {X : Set} (c : local_call X) : service_prog X := Effects.call (inr c : service_call X).
Definition ask {X : Set} (server : string) (op : agent_op X) : service_prog X := Effects.call (inl (server, op) : service_call X).

(** ** The repository *)

(** source: internal/core/service/service.go:393-398 (boolInt) *)
Definition boolInt (b : bool) : Z := if b then 1%Z else 0%Z.

Section repository.
Variable ctx : context.

(** source: internal/core/service/service.go:64-77 (Create): the service with what is assigned to
    it, also when the insertion fails *)
Definition RepoCreate (s : ManagedService) : service_prog (ManagedService * result error ()) :=
  let! id := (if String.eqb (ms_ID s) "" then own NewID else Ret (ms_ID s)) in
  let! now := own Clock in
  let s := {| ms_ID := id; ms_Name := ms_Name s; ms_Unit := ms_Unit s; ms_Description := ms_Description s;
              ms_Autostart := ms_Autostart s; ms_State := ms_State s; ms_CreatedAt := now; ms_UpdatedAt := now |} in
  let! out := own (InsertService (ServerID ctx)
    {| sr_id := ms_ID s; sr_name := ms_Name s; sr_unit := ms_Unit s; sr_description := ms_Description s;
       sr_autostart := boolInt (ms_Autostart s); sr_state := ms_State s; sr_created := seconds_text now; sr_updated := seconds_text now |}) in
  Ret (s, map_err Plain out).

(** What is read from a row, by [scan] and by the loop of [ListAll]. *)
Definition service_of_row (r : service_row) : ManagedService :=
  {| ms_ID := sr_id r; ms_Name := sr_name r; ms_Unit := sr_unit r; ms_Description := sr_description r;
     ms_Autostart := (sr_autostart r =? 1)%Z; ms_State := sr_state r; ms_CreatedAt := stored_time (sr_created r);
     ms_UpdatedAt := stored_time (sr_updated r) |}.

(** source: internal/core/service/service.go:123-138 (scan) *)
Definition scan (row : result string (option service_row)) : result error ManagedService :=
  match row with
  | Ok (Some r) => Ok (service_of_row r)
  | Ok None => Err (NotFound "service")
  | Err e => Err (Wrapped "service repo: scan" (Plain e))
  end.

(** source: internal/core/service/service.go:79-84 (FindByID) *)
Definition FindByID (id : string) : service_prog (result error ManagedService) :=
  let! row := own (SelectService id (ServerID ctx)) in
  Ret (scan row).

(** source: internal/core/service/service.go:86-109 (ListAll): the services and the error *)
Definition ListAll : service_prog (list ManagedService * option string) :=
  let! q := own (SelectServices (ServerID ctx)) in
  Ret (match q with
       | Err e => ([], Some e)
       | Ok rs => scan_rows service_of_row id (r_rows rs) [] (r_Err rs)
       end).

(** source: internal/core/service/service.go:111-116 (UpdateState) *)
Definition UpdateState (id : string) (state : State) : service_prog (result error ()) :=
  let! now := own Clock in
  let! out := own (SetServiceState state (seconds_text now) id (ServerID ctx)) in
  Ret (map_err Plain out).

(** source: internal/core/service/service.go:118-121 (Delete) *)
Definition RepoDelete (id : string) : service_prog (result error ()) :=
  let! out := own (DeleteService id (ServerID ctx)) in
  Ret (map_err Plain out).

(** ** The service *)

(** source: internal/core/service/service.go:143-147 (SvcService): whether an Agent is set *)
Variable has_agent : bool.

Definition agent_missing : error := App (New 503 CodeAgentUnavailable "agent not available").

(** source: internal/core/service/service.go:161-175 (List, the loop) *)
Fixpoint live_states (svcs : list ManagedService) : service_prog (list ManagedService) :=
  match svcs with
  | [] => Ret []
  | svc :: rest =>
      if negb has_agent then Ret (svc :: rest)
      else
        let! status := ask (ServerID ctx) (ServiceStatus_ (ms_Unit svc)) in
        let st := match status with
                  | Err _ => StateUnknown
                  | Ok status => if cs_Active status then StateRunning else StateStopped
                  end in
        let! rest := live_states rest in
        Ret (with_state st svc :: rest)
  end.

(** source: internal/core/service/service.go:155-177 (List) *)
Definition List : service_prog (result error (list ManagedService)) :=
  let! (svcs, err) := ListAll in
  match err with
  | Some e => Ret (Err (Plain e))
  | None => let! svcs := live_states svcs in Ret (Ok svcs)
  end.

(** source: internal/core/service/service.go:180-192 (Add) *)
Definition Add (name unit_ description : string) (autostart : bool) : service_prog (result error ManagedService) :=
  let! (svc, out) := RepoCreate
    {| ms_ID := ""; ms_Name := name; ms_Unit := unit_; ms_Description := description; ms_Autostart := autostart;
       ms_State := StateUnknown; ms_CreatedAt := zero_time; ms_UpdatedAt := zero_time |} in
  Ret (match out with Err e => Err e | Ok _ => Ok svc end).

(** The beginning of the operations on one service: the service is found, and there is an Agent. *)
Definition with_service {A : Set} (id : string) (k : ManagedService -> service_prog (result error A)) : service_prog (result error A) :=
  try! svc := FindByID id in
  if negb has_agent then Ret (Err agent_missing) else k svc.

(** source: internal/core/service/service.go:195-208 (Start) *)
Definition Start (id : string) : service_prog (result error ()) :=
  with_service id (fun svc =>
    let! out := ask (ServerID ctx) (ServiceAct VStart (ms_Unit svc)) in
    match out with
    | Err e => ignore! UpdateState id StateFailed in Ret (Err (App (Internal "start service" e)))
    | Ok _ => UpdateState id StateRunning
    end).

(** source: internal/core/service/service.go:211-223 (Stop) *)
Definition Stop (id : string) : service_prog (result error ()) :=
  with_service id (fun svc =>
    let! out := ask (ServerID ctx) (ServiceAct VStop (ms_Unit svc)) in
    match out with
    | Err e => Ret (Err (App (Internal "stop service" e)))
    | Ok _ => UpdateState id StateStopped
    end).

(** source: internal/core/service/service.go:226-235 (Restart) *)
Definition Restart (id : string) : service_prog (result error ()) :=
  with_service id (fun svc => ask (ServerID ctx) (ServiceAct VRestart (ms_Unit svc))).

(** source: internal/core/service/service.go:238-247 (Logs) *)
Definition Logs (id : string) (lines : Z) : service_prog (result error (list string)) :=
  with_service id (fun svc => ask (ServerID ctx) (ServiceLogs_ (ms_Unit svc) lines)).

(** source: internal/core/service/service.go:250-259 (StreamLogs) *)
Definition StreamLogs (id : string) : service_prog (result error ()) :=
  with_service id (fun svc => own (OpenLogs (ServerID ctx) (ms_Unit svc))).

(** source: internal/core/service/service.go:262-264 (Remove) *)
Definition Remove (id : string) : service_prog (result error ()) := RepoDelete id.

(** ** Handlers *)

Inductive service_payload :=
| SvcError (code : ErrorCode) (message : string)
| SvcList (l : list ManagedService)
| SvcOne (s : ManagedService)
| SvcLines (l : list string)
| SvcMessage (text : string).
Record service_reply := { sv_status : Z; sv_payload : service_payload }.

(** source: internal/core/service/service.go:400-404 (respond), before the encoding *)
Definition svc_respond (status : Z) (data : service_payload) : service_reply := {| sv_status := status; sv_payload := data |}.

(** source: internal/core/service/service.go:406-408 (writeError) *)
Definition svc_error (err : error) : service_reply :=
  let ae := AsAppError err in {| sv_status := HTTPStatus ae; sv_payload := SvcError (Code ae) (Message ae) |}.

Definition svc_answer {A : Set} (ok : A -> service_reply) (p : service_prog (result error A)) : service_prog service_reply :=
  let! out := p in
  Ret (match out with Err e => svc_error e | Ok a => ok a end).

(** source: internal/core/service/service.go:278-283 (addServiceRequest) *)
Record addServiceRequest := { ar_Name : string; ar_Unit : string; ar_Description : string; ar_Autostart : bool }.
Definition add_fields : fields_of addServiceRequest :=
  [("name", set_string (fun s r => {| ar_Name := s; ar_Unit := ar_Unit r; ar_Description := ar_Description r; ar_Autostart := ar_Autostart r |}));
   ("unit", set_string (fun s r => {| ar_Name := ar_Name r; ar_Unit := s; ar_Description := ar_Description r; ar_Autostart := ar_Autostart r |}));
   ("description", set_string (fun s r => {| ar_Name := ar_Name r; ar_Unit := ar_Unit r; ar_Description := s; ar_Autostart := ar_Autostart r |}));
   ("autostart", set_bool (fun b r => {| ar_Name := ar_Name r; ar_Unit := ar_Unit r; ar_Description := ar_Description r; ar_Autostart := b |}))].
Definition zero_request : addServiceRequest := {| ar_Name := ""; ar_Unit := ""; ar_Description := ""; ar_Autostart := false |}.

(** source: internal/core/service/service.go:285-292 (Handler.List) *)
Definition HandleList : service_prog service_reply := svc_answer (fun l => svc_respond 200 (SvcList l)) List.

(** source: internal/core/service/service.go:294-310 (Handler.Add) *)
Definition HandleAdd (r : request) : service_prog service_reply :=
  match decode_first false add_fields zero_request (Body r) with
  | None => Ret (svc_error (InvalidInput "malformed JSON"))
  | Some req =>
      if String.eqb (ar_Unit req) "" then Ret (svc_error (InvalidInput "unit is required"))
      else svc_answer (fun s => svc_respond 201 (SvcOne s)) (Add (ar_Name req) (ar_Unit req) (ar_Description req) (ar_Autostart req))
  end.

(** source: internal/core/service/service.go:312-319 (Handler.Start) *)
Definition HandleStart (id : string) : service_prog service_reply :=
  svc_answer (fun _ => svc_respond 200 (SvcMessage "service started")) (Start id).

(** source: internal/core/service/service.go:321-328 (Handler.Stop) *)
Definition HandleStop (id : string) : service_prog service_reply :=
  svc_answer (fun _ => svc_respond 200 (SvcMessage "service stopped")) (Stop id).

(** source: internal/core/service/service.go:330-337 (Handler.Restart) *)
Definition HandleRestart (id : string) : service_prog service_reply :=
  svc_answer (fun _ => svc_respond 200 (SvcMessage "service restarted")) (Restart id).

(** source: internal/core/service/service.go:339-347 (Handler.Logs) *)
Definition HandleLogs (id : string) : service_prog service_reply :=
  svc_answer (fun l => svc_respond 200 (SvcLines l)) (Logs id 100).

(** source: internal/core/service/service.go:367-379 (Handler.StreamLogs, the loop): [turns] turns
    of it; whether it has ended *)
Fixpoint stream_loop (turns : nat) : service_prog bool :=
  match turns with
  | 0 => Ret false
  | S turns' =>
      let! event := own NextLine in
      match event with
      | Cancelled | Ended => ignore! own CloseSocket in Ret true
      | Line text =>
          let! sent := own (SendText text) in
          match sent with
          | Err _ => ignore! own CloseSocket in Ret true
          | Ok _ => stream_loop turns'
          end
      end
  end.

(** source: internal/core/service/service.go:353-380 (Handler.StreamLogs): no reply once the
    connection is upgraded or the upgrade has answered itself *)
Definition HandleStreamLogs (id : string) (turns : nat) : service_prog (option service_reply) :=
  let! out := StreamLogs id in
  match out with
  | Err e => Ret (Some (svc_error e))
  | Ok _ =>
      let! up := own UpgradeSocket in
      match up with
      | Err _ => Ret None
      | Ok _ => ignore! stream_loop turns in Ret None
      end
  end.

(** source: internal/core/service/service.go:382-389 (Handler.Remove) *)
Definition HandleRemove (id : string) : service_prog service_reply :=
  svc_answer (fun _ => svc_respond 200 (SvcMessage "service removed")) (Remove id).
End repository.

(** ** What managed services promise

    The table of services with its constraints, the units the Agents were told about, and the
    theorems: whatever requests run at the same time, an Agent only hears of units that were
    registered for its server; an operation touches no row of another server; the recorded state
    follows the Agent. *)

(** *** The state *)

(** [rows_] by identifier, with the server of each; [registered] and [asked] are histories, of
    server and unit. *)
Record services := { rows_ : gmap string (string * service_row); registered : list (string * string); asked : list (string * string) }.

Definition set_rows (m : gmap string (string * service_row)) (s : services) : services :=
  {| rows_ := m; registered := registered s; asked := asked s |}.

Definition op_unit {X} (op : agent_op X) : option string :=
  match op with ServiceAct _ n | ServiceStatus_ n | ServiceLogs_ n _ => Some n | _ => None end.

Definition note_asked (server : string) (u : option string) (s : services) : services :=
  {| rows_ := rows_ s; registered := registered s; asked := (asked s ++ from_option (fun u => [(server, u)]) [] u)%list |}.

(** The constraints of the table: the primary key, and one name and one unit in a server. *)
Definition may_insert (server : string) (row : service_row) (m : gmap string (string * service_row)) : Prop :=
  m !! sr_id row = None /\
  forall id r, m !! id = Some (server, r) -> sr_name r <> sr_name row /\ sr_unit r <> sr_unit row.

Definition row_with (st : State) (now : string) (r : service_row) : service_row :=
  {| sr_id := sr_id r; sr_name := sr_name r; sr_unit := sr_unit r; sr_description := sr_description r; sr_autostart := sr_autostart r;
     sr_state := st; sr_created := sr_created r; sr_updated := now |}.

(** [UPDATE] and [DELETE] with the identifier and the server in the condition. *)
Definition where_server (id server : string) (f : service_row -> option service_row) (m : gmap string (string * service_row)) :
    gmap string (string * service_row) :=
  match m !! id with
  | Some (sv, r) => if String.eqb sv server then match f r with Some r' => <[id := (sv, r')]> m | None => delete id m end else m
  | None => m
  end.

Definition fails {A} (x : result string A) (s s' : services) : Prop := (exists e, x = Err e) /\ s' = s.

Definition local_sem X (c : local_call X) : services -> X -> services -> Prop :=
  match c in local_call X return services -> X -> services -> Prop with
  | InsertService sv row => fun s x s' =>
      (x = Ok () /\ may_insert sv row (rows_ s) /\
       s' = {| rows_ := <[sr_id row := (sv, row)]> (rows_ s); registered := (registered s ++ [(sv, sr_unit row)])%list; asked := asked s |})
      \/ fails x s s'
  | SelectService id sv => fun s x s' =>
      (x = Ok (r ← rows_ s !! id; if String.eqb (fst r) sv then Some (snd r) else None) /\ s' = s) \/ fails x s s'
  | SelectServices sv => fun s x s' => s' = s /\
      ((exists e, x = Err e) \/
       exists rs, x = Ok rs /\ (forall r, Ok r ∈ r_rows rs -> exists id, rows_ s !! id = Some (sv, r)) /\
         (r_Err rs = None -> (forall e, Err e ∉ r_rows rs) -> forall id r, rows_ s !! id = Some (sv, r) -> Ok r ∈ r_rows rs))
  | SetServiceState st now id sv => fun s x s' =>
      (x = Ok () /\ s' = set_rows (where_server id sv (fun r => Some (row_with st now r)) (rows_ s)) s) \/ fails x s s'
  | DeleteService id sv => fun s x s' =>
      (x = Ok () /\ s' = set_rows (where_server id sv (fun _ => None) (rows_ s)) s) \/ fails x s s'
  | OpenLogs sv u => fun s _ s' => s' = note_asked sv (Some u) s
  | _ => fun s _ s' => s' = s
  end.

(** The Agents answer what they like. *)
Definition service_sem X (c : service_call X) : services -> X -> services -> Prop :=
  match c with
  | inl (sv, op) => fun s _ s' => s' = note_asked sv (op_unit op) s
  | inr c => local_sem X c
  end.

Notation on_services := (runs service_sem).

(** *** The invariant *)

Record services_inv (s : services) : Prop := {
  keyed : forall id sv r, rows_ s !! id = Some (sv, r) -> sr_id r = id;
  one_unit : forall id1 id2 sv r1 r2, rows_ s !! id1 = Some (sv, r1) -> rows_ s !! id2 = Some (sv, r2) -> sr_unit r1 = sr_unit r2 -> id1 = id2;
  one_name : forall id1 id2 sv r1 r2, rows_ s !! id1 = Some (sv, r1) -> rows_ s !! id2 = Some (sv, r2) -> sr_name r1 = sr_name r2 -> id1 = id2;
  rows_registered : forall id sv r, rows_ s !! id = Some (sv, r) -> (sv, sr_unit r) ∈ registered s;
  asked_registered : forall sv u, (sv, u) ∈ asked s -> (sv, u) ∈ registered s;
  registered_units : forall sv u, (sv, u) ∈ registered s -> u <> "" }.

Definition services_rely (s s' : services) : Prop := registered s ⊆ registered s'.
#[export] Instance services_rely_pre : PreOrder services_rely.
Proof. split; unfold services_rely; [by intros s|]. intros s1 s2 s3; set_solver. Qed.

Definition no_services : services := {| rows_ := ∅; registered := []; asked := [] |}.

Lemma no_services_inv : services_inv no_services.
Proof. split; simpl; intros *; rewrite ?lookup_empty; try done; set_solver. Qed.

(** What one statement does to one row. *)
Lemma where_server_lookup id sv f m k :
  where_server id sv f m !! k =
    if decide (k = id) then
      match m !! id with Some (sv', r) => if String.eqb sv' sv then pair sv' <$> f r else Some (sv', r) | None => None end
    else m !! k.
Proof.
  unfold where_server. destruct (m !! id) as [[sv' r]|] eqn:Hm.
  - destruct (String.eqb sv' sv).
    + destruct (f r) as [r'|]; destruct (decide (k = id)) as [->|Hne];
        rewrite ?lookup_insert_eq, ?lookup_delete_eq, ?lookup_insert_ne, ?lookup_delete_ne by done; done.
    + by destruct (decide (k = id)) as [->|].
  - by destruct (decide (k = id)) as [->|].
Qed.

(** A statement that keeps the identifier, the name and the unit of the rows it keeps. *)
Definition keeps_names (f : service_row -> option service_row) : Prop :=
  forall r r', f r = Some r' -> sr_id r' = sr_id r /\ sr_name r' = sr_name r /\ sr_unit r' = sr_unit r.

Lemma where_server_from id sv f m k sv' r' :
  keeps_names f -> where_server id sv f m !! k = Some (sv', r') ->
  exists r, m !! k = Some (sv', r) /\ sr_id r' = sr_id r /\ sr_name r' = sr_name r /\ sr_unit r' = sr_unit r.
Proof.
  intros Hf. rewrite where_server_lookup. destruct (decide (k = id)) as [->|]; [|eauto].
  destruct (m !! id) as [[sv1 r]|]; [|done]. destruct (String.eqb sv1 sv); [|intros [= <- <-]; eauto].
  destruct (f r) as [r1|] eqn:Hr; [|done]. intros [= <- <-]. eauto.
Qed.

Lemma inv_where s id sv f :
  keeps_names f -> services_inv s -> services_inv (set_rows (where_server id sv f (rows_ s)) s).
Proof.
  intros Hf [Hk Hu Hn Hr Ha He]. split; cbn [set_rows rows_ registered asked]; [| | | |done|done].
  - intros k sv' r' (r & Hm & -> & _)%where_server_from; [by eapply Hk|done].
  - intros k1 k2 sv' r1 r2 (q1 & Hm1 & _ & _ & ->)%where_server_from (q2 & Hm2 & _ & _ & ->)%where_server_from; [|done..]. by eapply Hu.
  - intros k1 k2 sv' r1 r2 (q1 & Hm1 & _ & -> & _)%where_server_from (q2 & Hm2 & _ & -> & _)%where_server_from; [|done..]. by eapply Hn.
  - intros k sv' r' (r & Hm & _ & _ & ->)%where_server_from; [by eapply Hr|done].
Qed.

Lemma inv_insert s sv row :
  may_insert sv row (rows_ s) -> sr_unit row <> "" -> services_inv s ->
  services_inv {| rows_ := <[sr_id row := (sv, row)]> (rows_ s); registered := (registered s ++ [(sv, sr_unit row)])%list; asked := asked s |}.
Proof.
  intros [Hnone Hfree] Hne [Hk Hu Hn Hr Ha He].
  assert (Hcase : forall k sv' r, <[sr_id row := (sv, row)]> (rows_ s) !! k = Some (sv', r) ->
            (k = sr_id row /\ sv' = sv /\ r = row) \/ rows_ s !! k = Some (sv', r)).
  { intros k sv' r. rewrite lookup_insert_Some. intros [[-> [= -> ->]]|[_ H]]; auto. }
  split; cbn [rows_ registered asked].
  - intros k sv' r [(-> & -> & ->)|H]%Hcase; [done|by eapply Hk].
  - intros k1 k2 sv' r1 r2 [(-> & -> & ->)|H1]%Hcase [(-> & H & ->)|H2]%Hcase Heq; [done| | |by eapply Hu].
    + destruct (Hfree _ _ H2) as [_ []]. done.
    + subst sv'. destruct (Hfree _ _ H1) as [_ []]. done.
  - intros k1 k2 sv' r1 r2 [(-> & -> & ->)|H1]%Hcase [(-> & H & ->)|H2]%Hcase Heq; [done| | |by eapply Hn].
    + destruct (Hfree _ _ H2) as [[] _]. done.
    + subst sv'. destruct (Hfree _ _ H1) as [[] _]. done.
  - intros k sv' r [(-> & -> & ->)|H]%Hcase; rewrite elem_of_app; [right; by apply list_elem_of_singleton|left; by eapply Hr].
  - intros sv' u H. rewrite elem_of_app. left. by apply Ha.
  - intros sv' u. rewrite elem_of_app, list_elem_of_singleton. intros [H|[= -> ->]]; [by eapply He|done].
Qed.

Lemma inv_asked s sv u : (sv, u) ∈ registered s -> services_inv s -> services_inv (note_asked sv (Some u) s).
Proof.
  intros Hin [Hk Hu Hn Hr Ha He]. split; [done..| |done].
  intros sv' u'. cbn [note_asked asked from_option]. rewrite elem_of_app, list_elem_of_singleton. intros [H|[= -> ->]]; [by apply Ha|done].
Qed.

Lemma note_none s sv : note_asked sv None s = s.
Proof. destruct s. unfold note_asked. cbn. by rewrite app_nil_r. Qed.

(** *** Requests that run at the same time *)

(** A call that keeps the invariant at any time. *)
Definition calm X (c : service_call X) : Prop :=
  match c with
  | inl (_, op) => op_unit op = None
  | inr c => match c with InsertService _ row => sr_unit row <> "" | OpenLogs _ _ => False | _ => True end
  end.

Lemma calm_harmless X (c : service_call X) : calm X c -> harmless service_sem services_inv services_rely c.
Proof.
  unfold services_rely. intros Hc s x s' Hi Hs. destruct c as [[sv op]|c]; cbn in Hc, Hs.
  { rewrite Hc, note_none in Hs. by subst. }
  destruct c; cbn in Hs; try (by subst); try (destruct Hs as [(-> & Hs)|[_ ->]]; [|done]).
  - destruct Hs as [Hm ->]. split; [by apply inv_insert|]. cbn. set_solver.
  - by subst.
  - by destruct Hs as [-> _].
  - subst. split; [apply inv_where; [|done]|done]. by intros r r' [= <-].
  - subst. split; [apply inv_where; [|done]|done]. by intros r r'.
Qed.

Lemma keeps_calm {A} (p : service_prog A) s : calls calm p -> keeps service_sem services_inv services_rely p s.
Proof. intros Hp. apply keeps_calls. eapply always_mono; [|by intros|exact Hp]. apply calm_harmless. Qed.

Lemma rely_asked s sv u : services_rely s (note_asked sv u s).
Proof. unfold services_rely. by cbn. Qed.

Notation guards := (keeps service_sem services_inv services_rely).

(** After a service was found, its unit is a registered one. *)
Lemma with_service_keeps {A : Set} ctx ha id (k : ManagedService -> service_prog (result error A)) s :
  (forall svc s, (ServerID ctx, ms_Unit svc) ∈ registered s -> guards (k svc) s) -> guards (with_service ctx ha id k) s.
Proof.
  intros Hk s1 x s2 Hr Hi Hs. cbn in Hs. destruct Hs as [[-> ->]|[[e ->] ->]]; [|by split_and!]. split_and!; [done..|].
  destruct (rows_ s1 !! id) as [[sv r]|] eqn:Hrow; cbn; [|done]. destruct (String.eqb_spec sv (ServerID ctx)) as [->|]; cbn; [|done].
  destruct ha; [|done]. cbn. apply Hk. cbn [service_of_row ms_Unit]. by eapply (rows_registered s1 Hi).
Qed.

(** The Agent is told about a registered unit. *)
Lemma ask_keeps {X : Set} {A} sv (op : agent_op X) (k : X -> service_prog A) u s :
  op_unit op = Some u -> (sv, u) ∈ registered s -> (forall x s', services_rely s s' -> guards (k x) s') -> guards (bind (ask sv op) k) s.
Proof.
  intros Hop Hin Hk s1 x s2 Hr Hi Hs. cbn in Hs. rewrite Hop in Hs. subst s2.
  split_and!; [by apply inv_asked; [apply Hr|]|apply rely_asked|]. apply Hk. trans s1; [done|]. apply rely_asked.
Qed.

Lemma update_calm ctx id st : calls calm (UpdateState ctx id st).
Proof. unfold UpdateState, own. calls_walk. Qed.

Lemma live_states_keep ctx ha l s :
  Forall (fun svc => (ServerID ctx, ms_Unit svc) ∈ registered s) l -> guards (live_states ctx ha l) s.
Proof.
  revert s. induction l as [|svc l IH]; intros s; [done|]. intros [Hsvc Hl]%Forall_cons. cbn [live_states]. destruct ha; [|done].
  apply (ask_keeps _ _ _ (ms_Unit svc)); [done..|]. intros status s1 Hr. apply keeps_bind; [apply services_rely_pre| |by intros].
  apply IH. eapply Forall_impl; [exact Hl|]. intros q. cbn. intros Hq. by apply Hr.
Qed.

Lemma scanned {A : Set} {B} (f : A -> B) w l acc last b :
  b ∈ fst (scan_rows f w l acc last) -> b ∈ acc \/ exists a, Ok a ∈ l /\ b = f a.
Proof.
  revert acc. induction l as [|[a|e] l IH]; intros acc; cbn [scan_rows fst]; [auto| |by intros ?%not_elem_of_nil].
  intros [H|(a' & Ha & ->)]%IH.
  - apply elem_of_app in H as [H| ->%list_elem_of_singleton]; [auto|]. right. exists a. split; [by left|done].
  - right. exists a'. split; [by right|done].
Qed.

Lemma List_keeps ctx ha s : guards (List ctx ha) s.
Proof.
  unfold List, ListAll. cbn [bind own Effects.call]. intros s1 x s2 Hr Hi Hs. cbn in Hs. destruct Hs as [-> Hs]. split_and!; [done..|].
  destruct x as [rs|e]; cbn; [|done]. destruct Hs as [[e He]|(rs' & [= <-] & Hin & _)]; [done|].
  destruct (scan_rows _ _ _ _ _) as [svcs err] eqn:Hscan. destruct err; [done|]. apply keeps_bind; [apply services_rely_pre| |by intros].
  apply live_states_keep. apply Forall_forall. intros svc Hsvc.
  pose proof (scanned service_of_row (fun e => e) (r_rows rs) [] (r_Err rs) svc) as Hsc. unfold id in Hscan. rewrite Hscan in Hsc.
  destruct (Hsc Hsvc) as [?%not_elem_of_nil|(r & Hr' & ->)]; [done|]. destruct (Hin r Hr') as [i Hi']. cbn. by eapply (rows_registered s1 Hi).
Qed.

Lemma stream_loop_calm n : calls calm (stream_loop n).
Proof. induction n as [|n IH]; cbn [stream_loop]; unfold own; calls_walk; done. Qed.

(** The requests: any of the handlers, for any server, service and body, with or without an Agent. *)
Definition void {A} (p : service_prog A) : service_prog () := bind p (fun _ => Ret ()).

Inductive service_starts : service_prog () -> Prop :=
| start_list ctx ha : service_starts (void (HandleList ctx ha))
| start_add ctx r : service_starts (void (HandleAdd ctx r))
| start_start ctx ha id : service_starts (void (HandleStart ctx ha id))
| start_stop ctx ha id : service_starts (void (HandleStop ctx ha id))
| start_restart ctx ha id : service_starts (void (HandleRestart ctx ha id))
| start_logs ctx ha id : service_starts (void (HandleLogs ctx ha id))
| start_stream ctx ha id n : service_starts (void (HandleStreamLogs ctx ha id n))
| start_remove ctx id : service_starts (void (HandleRemove ctx id)).

Lemma answer_keeps {A : Set} (ok : A -> service_reply) (p : service_prog (result error A)) s : guards p s -> guards (void (svc_answer ok p)) s.
Proof. intros Hp. unfold void, svc_answer. do 2 (apply keeps_bind; [apply services_rely_pre| |by intros]). done. Qed.

Lemma services_keep p s : service_starts p -> guards p s.
Proof.
  destruct 1 as [ctx ha|ctx r|ctx ha id|ctx ha id|ctx ha id|ctx ha id|ctx ha id n|ctx id]; try apply answer_keeps.
  - apply List_keeps.
  - unfold HandleAdd. destruct (decode_first _ _ _ _) as [req|]; [|done]. destruct (String.eqb_spec (ar_Unit req) "") as [|Hne]; [done|].
    apply answer_keeps, keeps_calm. unfold Add, RepoCreate, own. cbn [ms_ID String.eqb]. calls_walk.
  - apply with_service_keeps. intros svc s1 Hin. apply (ask_keeps _ _ _ (ms_Unit svc)); [done..|]. intros [u|e] s2 _; apply keeps_calm.
    + apply update_calm.
    + apply calls_bind; [apply update_calm|by intros].
  - apply with_service_keeps. intros svc s1 Hin. apply (ask_keeps _ _ _ (ms_Unit svc)); [done..|]. intros [u|e] s2 _; [|done].
    apply keeps_calm, update_calm.
  - apply with_service_keeps. intros svc s1 Hin. by apply (ask_keeps (A := result error ()) _ _ (fun x => Ret x) (ms_Unit svc)).
  - apply with_service_keeps. intros svc s1 Hin. by apply (ask_keeps (A := result error (list string)) _ _ (fun x => Ret x) (ms_Unit svc)).
  - unfold void, HandleStreamLogs. apply keeps_bind; [apply services_rely_pre| |by intros]. apply keeps_bind; [apply services_rely_pre| |].
    + apply with_service_keeps. intros svc s1 Hin s2 x s3 Hr Hi Hs. cbn in Hs. subst s3.
      split_and!; [by apply inv_asked; [apply Hr|]|apply rely_asked|done].
    + intros [u|e] s1 _; [|done]. apply keeps_calm. apply calls_bind; [unfold own; calls_walk|]. intros [v|e]; [|done].
      apply calls_bind; [apply stream_loop_calm|by intros].
  - apply keeps_calm. unfold Remove, RepoDelete, own. calls_walk.
Qed.

(** Whatever requests are served at the same time and whatever the table and the Agents answer:
    a unit that the Agent of a server was told about, to operate it, to ask for its state or to
    read its logs, was registered for this very server before; a server has a unit and a name at
    most once; and no unit is empty. *)
Theorem only_registered_units s :
  pool_reaches service_sem service_starts no_services s ->
  (forall sv u, (sv, u) ∈ asked s -> (sv, u) ∈ registered s /\ u <> "") /\
  (forall id1 id2 sv r1 r2, rows_ s !! id1 = Some (sv, r1) -> rows_ s !! id2 = Some (sv, r2) ->
     sr_unit r1 = sr_unit r2 \/ sr_name r1 = sr_name r2 -> id1 = id2).
Proof.
  intros Hr. eapply (pool_invariant _ _ services_inv services_rely) in Hr as [Hi _];
    [|by intros p t Hp _; apply services_keep|apply no_services_inv].
  split.
  - intros sv u H. apply (asked_registered s Hi) in H. split; [done|]. by eapply (registered_units s Hi).
  - intros id1 id2 sv r1 r2 H1 H2 [Heq|Heq]; [by eapply (one_unit s Hi)|by eapply (one_name s Hi)].
Qed.

(** *** One request *)

(** The calls of requests on one server. *)
Definition on_server (sv : string) X (c : service_call X) : Prop :=
  match c with
  | inl (sv', _) => sv' = sv
  | inr c => match c with
             | InsertService sv' _ | SelectService _ sv' | SelectServices sv' | SetServiceState _ _ _ sv' | DeleteService _ sv' | OpenLogs sv' _ => sv' = sv
             | _ => True
             end
  end.

(** The rows of other servers stay as they are, and new ones are of this server. *)
Definition others_kept (sv : string) (s s' : services) : Prop :=
  forall id sv' r, sv' <> sv -> rows_ s' !! id = Some (sv', r) <-> rows_ s !! id = Some (sv', r).

#[export] Instance others_kept_refl sv : Reflexive (others_kept sv).
Proof. by intros s id sv' r _. Qed.
#[export] Instance others_kept_trans sv : Transitive (others_kept sv).
Proof. intros s1 s2 s3 H1 H2 id sv' r Hne. by rewrite (H2 id sv' r Hne), (H1 id sv' r Hne). Qed.

Lemma where_server_others id sv f m k sv' r : sv' <> sv -> where_server id sv f m !! k = Some (sv', r) <-> m !! k = Some (sv', r).
Proof.
  intros Hne. rewrite where_server_lookup. destruct (decide (k = id)) as [->|]; [|done]. destruct (m !! id) as [[sv1 r1]|]; [|done].
  destruct (String.eqb_spec sv1 sv) as [->|]; [|done]. split; [|by intros [= -> _]]. destruct (f r1); [|done]. by intros [= -> _].
Qed.

Lemma on_server_keeps sv X (c : service_call X) s x s' : on_server sv X c -> service_sem X c s x s' -> others_kept sv s s'.
Proof.
  intros Hc Hs. destruct c as [[sv1 op]|c]; cbn in Hc, Hs; [by subst|].
  destruct c; cbn in Hs; try (by subst); try (destruct Hs as [(-> & Hs)|[_ ->]]; [|done]); try subst s'; try done.
  - destruct Hs as [[Hnone _] ->]. intros id sv' r Hne. cbn. destruct (decide (sr_id row = id)) as [<-|Hid].
    + rewrite lookup_insert_eq, Hnone. split; [intros [= Heq _]; congruence|done].
    + by rewrite lookup_insert_ne.
  - by destruct Hs as [-> _].
  - intros k sv' r Hne. cbn. apply where_server_others. congruence.
  - intros k sv' r Hne. cbn. apply where_server_others. congruence.
Qed.

Lemma live_states_server ctx ha l : calls (on_server (ServerID ctx)) (live_states ctx ha l).
Proof.
  induction l as [|svc l IH]; [done|]. cbn [live_states]. destruct ha; [|done]. unfold ask. calls_walk. done.
Qed.

Lemma stream_loop_server sv n : calls (on_server sv) (stream_loop n).
Proof. induction n as [|n IH]; cbn [stream_loop]; unfold own; calls_walk; done. Qed.

(** The program of a request with its context. *)
Inductive request_on (ctx : context) : service_prog () -> Prop :=
| on_list ha : request_on ctx (void (HandleList ctx ha))
| on_add r : request_on ctx (void (HandleAdd ctx r))
| on_start ha id : request_on ctx (void (HandleStart ctx ha id))
| on_stop ha id : request_on ctx (void (HandleStop ctx ha id))
| on_restart ha id : request_on ctx (void (HandleRestart ctx ha id))
| on_logs ha id : request_on ctx (void (HandleLogs ctx ha id))
| on_stream ha id n : request_on ctx (void (HandleStreamLogs ctx ha id n))
| on_remove id : request_on ctx (void (HandleRemove ctx id)).

Lemma request_server ctx p : request_on ctx p -> calls (on_server (ServerID ctx)) p.
Proof.
  destruct 1; unfold void, HandleList, HandleAdd, HandleStart, HandleStop, HandleRestart, HandleLogs, HandleStreamLogs, HandleRemove,
    svc_answer, List, ListAll, Add, RepoCreate, Start, Stop, Restart, Logs, StreamLogs, Remove, RepoDelete, with_service, FindByID, UpdateState, own, ask;
    calls_walk; first [apply live_states_server|apply stream_loop_server].
Qed.

(** A request changes no row of another server, whatever it is and whatever fails. *)
Theorem services_of_others_kept ctx p s a s' :
  request_on ctx p -> on_services p s a s' -> others_kept (ServerID ctx) s s'.
Proof.
  intros Hp. apply (runs_always service_sem (on_server (ServerID ctx)) (fun _ => True)); [apply _..|apply (request_server ctx p Hp)|].
  intros X c s1 x s2. apply on_server_keeps.
Qed.

(** *** The recorded state *)

Definition row_of (s : services) (ctx : context) (id : string) : option service_row :=
  r ← rows_ s !! id; if String.eqb (fst r) (ServerID ctx) then Some (snd r) else None.

Lemma runs_own {X : Set} (c : local_call X) s x s' : on_services (own c) s x s' <-> local_sem X c s x s'.
Proof. exact (runs_call service_sem (inr c : service_call X) s x s'). Qed.
Lemma runs_ask {X : Set} sv (op : agent_op X) s x s' : on_services (ask sv op) s x s' <-> s' = note_asked sv (op_unit op) s.
Proof. exact (runs_call service_sem (inl (sv, op) : service_call X) s x s'). Qed.

Lemma with_service_runs {A : Set} ctx ha id (k : ManagedService -> service_prog (result error A)) s out s' :
  on_services (with_service ctx ha id k) s out s' ->
  (is_ok out = false /\ s' = s) \/
  exists row, row_of s ctx id = Some row /\ ha = true /\ on_services (k (service_of_row row)) s out s'.
Proof.
  unfold with_service. intros [(svc & s1 & Hf & H)|(err & Hf & ->)]%runs_try.
  - unfold FindByID in Hf. apply runs_bind in Hf as (row & s2 & Hrow & [Hsc ->]). apply runs_own in Hrow.
    destruct Hrow as [[-> ->]|[[e ->] ->]]; [|done]. fold (row_of s ctx id) in Hsc.
    destruct (row_of s ctx id) as [row|] eqn:Hr; [|done]. injection Hsc as ->. destruct ha; [right; eauto|]. destruct H as [-> ->]. by left.
  - left. split; [done|]. unfold FindByID in Hf. apply runs_bind in Hf as (row & s2 & Hrow & [_ ->]). apply runs_own in Hrow.
    by destruct Hrow as [[_ ->]|[_ ->]].
Qed.

Lemma UpdateState_runs ctx id st s out s' :
  on_services (UpdateState ctx id st) s out s' ->
  (out = Ok () /\ exists now, s' = set_rows (where_server id (ServerID ctx) (fun r => Some (row_with st now r)) (rows_ s)) s) \/
  (is_ok out = false /\ s' = s).
Proof.
  unfold UpdateState. intros (now & s1 & Hn & (x & s2 & Hx & [-> ->])%runs_bind)%runs_bind. apply runs_own in Hn, Hx. cbn in Hn. subst s1.
  destruct Hx as [[-> ->]|[[e ->] ->]]; [left|by right]. split; [done|]. by exists (seconds_text now).
Qed.

Lemma row_of_updated s ctx id st now row :
  row_of s ctx id = Some row ->
  row_of (set_rows (where_server id (ServerID ctx) (fun r => Some (row_with st now r)) (rows_ s)) s) ctx id = Some (row_with st now row).
Proof.
  unfold row_of. cbn [set_rows rows_]. rewrite where_server_lookup, decide_True by done. destruct (rows_ s !! id) as [[sv r]|]; [|done]. cbn.
  destruct (String.eqb sv (ServerID ctx)) eqn:Hsv; [|done]. intros [= ->]. cbn. by rewrite Hsv.
Qed.

(** An operation that tells the Agent about the unit of a service. *)
Definition told (ctx : context) (id : string) (s s' : services) : Prop :=
  exists row, row_of s ctx id = Some row /\ asked s' = (asked s ++ [(ServerID ctx, sr_unit row)])%list.

(** Starting and stopping: after success the Agent was told about the unit of this service, once,
    and the state recorded is the one it confirmed; otherwise the record is as before, or says that
    starting has failed. *)
Theorem state_recorded ctx ha id (start : bool) s out s' :
  on_services (if start then Start ctx ha id else Stop ctx ha id) s out s' ->
  match out with
  | Ok _ => ha = true /\ told ctx id s s' /\
            exists row now, row_of s ctx id = Some row /\
              row_of s' ctx id = Some (row_with (if start then StateRunning else StateStopped) now row)
  | Err _ => row_of s' ctx id = row_of s ctx id \/
             (start = true /\ told ctx id s s' /\ exists row now, row_of s ctx id = Some row /\ row_of s' ctx id = Some (row_with StateFailed now row))
  end.
Proof.
  destruct start; unfold Start, Stop; intros [[Hout ->]|(row & Hrow & -> & (x & s1 & Hx & H)%runs_bind)]%with_service_runs;
    try (by destruct out; [done|left]); apply runs_ask in Hx; subst s1;
    (assert (Hrow' : row_of (note_asked (ServerID ctx) (Some (sr_unit row)) s) ctx id = Some row) by done);
    (assert (Htold : forall m, told ctx id s (set_rows m (note_asked (ServerID ctx) (Some (sr_unit row)) s))) by (intros m; by exists row)).
  - destruct x as [u|e].
    + apply UpdateState_runs in H as [(-> & now & ->)|[Hout ->]]; [|destruct out; [done|by left]].
      split_and!; [done|apply Htold|]. exists row, now. split; [done|]. by apply row_of_updated.
    + apply runs_bind in H as (y & s2 & Hy & [-> ->]). apply UpdateState_runs in Hy as [(-> & now & ->)|[_ ->]]; [right|by left].
      split_and!; [done|apply Htold|]. exists row, now. split; [done|]. by apply row_of_updated.
  - destruct x as [u|e]; [|destruct H as [-> ->]; by left].
    apply UpdateState_runs in H as [(-> & now & ->)|[Hout ->]]; [|destruct out; [done|by left]].
    split_and!; [done|apply Htold|]. exists row, now. split; [done|]. by apply row_of_updated.
Qed.

(** *** The list *)

Definition shown_state (a : result error ServiceStatus) : State :=
  match a with Err _ => StateUnknown | Ok st => if cs_Active st then StateRunning else StateStopped end.

(** With an Agent, the states that are shown are the ones it answers for the units, asked one after
    the other, and unknown where it fails; the rest is what the table holds. *)
Theorem states_shown_live ctx svcs tr out :
  exec (live_states ctx true svcs) tr out ->
  exists answers, length answers = length svcs /\
    tr = zip_with (fun svc a => Act (inl (ServerID ctx, ServiceStatus_ (ms_Unit svc)) : service_call _) a) svcs answers /\
    out = zip_with (fun svc a => with_state (shown_state a) svc) svcs answers.
Proof.
  revert tr out. induction svcs as [|svc svcs IH]; intros tr out; cbn [live_states negb].
  - intros [-> ->]. by exists [].
  - intros (t1 & t2 & a & -> & ->%exec_call & (t3 & t4 & rest & -> & H & [-> ->])%exec_bind)%exec_bind.
    apply IH in H as (answers & Hlen & -> & ->). exists (a :: answers). cbn. rewrite app_nil_r, Hlen. done.
Qed.

(** *** Streams of logs *)

Definition local_line {X} (c : local_call X) : X -> option string :=
  match c in local_call X return X -> option string with
  | NextLine => fun e => match e with Line t => Some t | _ => None end
  | _ => fun _ => None
  end.
Definition line_received (a : action service_call) : option string :=
  match a with Act c x => match c with inl _ => None | inr c => local_line c x end end.
Definition line_sent (a : action service_call) : option string :=
  match a with Act c _ => match c with inl _ => None | inr c => match c with SendText t => Some t | _ => None end end end.
Definition socket_closed (a : action service_call) : bool :=
  match a with Act c _ => match c with inl _ => false | inr c => match c with CloseSocket => true | _ => false end end end.

(** The lines of a unit are sent as they come, each once and in order; and the connection is closed
    when the loop ends, and only then. *)
Theorem log_lines_forwarded n tr ended :
  exec (stream_loop n) tr ended ->
  omap line_sent tr = omap line_received tr /\ List.filter socket_closed tr = if ended then [Act (inr CloseSocket : service_call ()) ()] else [].
Proof.
  revert tr. induction n as [|n IH]; intros tr; cbn [stream_loop]; [by intros [-> ->]|].
  intros (t1 & t2 & e & -> & ->%exec_call & H)%exec_bind. destruct e as [text| |].
  - apply exec_bind in H as (t3 & t4 & x & -> & ->%exec_call & H). destruct x as [u|err].
    + apply IH in H as [H1 H2]. cbn. by rewrite H1.
    + apply exec_bind in H as (t5 & t6 & [] & -> & ->%exec_call & [-> ->]). done.
  - apply exec_bind in H as (t5 & t6 & [] & -> & ->%exec_call & [-> ->]). done.
  - apply exec_bind in H as (t5 & t6 & [] & -> & ->%exec_call & [-> ->]). done.
Qed.
