(* ===== verification/SiteStore.v ===== *)
(** * The repository of sites

    internal/core/site/repository.go.  A site is spread over four tables of SQLite: its row, its
    domains, its application and its certificate.  Statements are calls; [Site.SSL] is the address
    of a cell, as in Site.v, so that the identifiers the repository assigns are written to a heap. *)

From S2P Require Import Prelude GoStrings GoStrconv GoTime GoSql AppErrors Effects Http SiteDomain Site.
Local Open Scope string_scope.
Local Open Scope go_scope.

(** ** Rows *)

Record site_row := {
  sw_name : string; sw_module : string; sw_root : string; sw_status : State; sw_owner : option string; sw_proxy_enabled : Z;
  sw_proxy_host : option string; sw_proxy_port : option Z; sw_created : string; sw_updated : string }.
Record domain_row := { dw_domain : string; dw_type : DomainType; dw_created : string }.
Record app_row := { aw_type : string; aw_version : option string; aw_target : option string; aw_config : option string }.
Record ssl_row := {
  lw_provider : string; lw_cert : option string; lw_key : option string; lw_force : Z; lw_renew : Z; lw_expires : option string }.

Inductive store_call : Set -> Set :=
| StNewID : store_call string
| StNow : store_call time
| StBegin : store_call (result string ())
| StCommit : store_call (result string ())
| StRollback : store_call ()
| InsertSite (id server : string) (row : site_row) : store_call (result string ())
| InsertDomain (id site server : string) (row : domain_row) : store_call (result string ())
| InsertApp (site : string) (row : app_row) : store_call (result string ())
| InsertSSL (id site : string) (row : ssl_row) : store_call (result string ())
| UpdateSite (id server name module root : string) (status : State) (proxy_enabled : Z) (proxy_host : string) (proxy_port : Z) (updated : string) :
    store_call (result string Z)
| UpdateApp (site : string) (row : app_row) : store_call (result string ())
| UpsertSSL (id site : string) (row : ssl_row) : store_call (result string ())
| DeleteSSL (site : string) : store_call (result string ())
| DeleteSite (id server : string) : store_call (result string ())
| SelectSite (id server : string) : store_call (result string (option (string * site_row)))
| SelectSites (server : string) : store_call (result string (rows (string * site_row)))
| SelectDomainSite (domain server : string) : store_call (result string (option string))
| SelectDomains (site : string) : store_call (result string (rows (string * domain_row)))
| SelectApp (site : string) : store_call (result string (option app_row))
| SelectSSL (site : string) : store_call (result string (option (string * ssl_row))).

Notation store_prog A := (prog store_call A).

(** A site as it is read: with the times that [SiteDomain] leaves out. *)
Record found := { f_site : Site; f_heap : heap; f_created : time; f_updated : time; f_domains_created : list time }.

Section repository.
Variable ctx : context.

(** source: internal/core/site/repository.go:286-291 (boolInt) *)
Definition boolInt (b : bool) : Z := if b then 1%Z else 0%Z.

(** source: internal/core/site/repository.go:297-304 (containsStr) *)
Fixpoint containsStr (s sub : string) : bool :=
  has_prefix s sub || match s with EmptyString => false | String _ s' => containsStr s' sub end.

(** source: internal/core/site/repository.go:293-295 (isSQLiteUniqueError) *)
Definition isSQLiteUniqueError (err : string) : bool := (0 <? len err)%Z && containsStr err "UNIQUE constraint failed".

Definition or_new (id : string) : store_prog string := if String.eqb id "" then call StNewID else Ret id.

Definition site_row_of (s : Site) (now : string) : site_row :=
  {| sw_name := Name s; sw_module := ModuleID s; sw_root := RootPath s; sw_status := State_ s; sw_owner := OwnerID s;
     sw_proxy_enabled := boolInt (ProxyEnabled s); sw_proxy_host := Some (ProxyHost s); sw_proxy_port := Some (ProxyPort s);
     sw_created := now; sw_updated := now |}.
Definition app_row_of (a : App) : app_row :=
  {| aw_type := AppType a; aw_version := AppVersion a; aw_target := ProxyTarget a; aw_config := CustomConfig a |}.
Definition ssl_row_of (l : SSL) : ssl_row :=
  {| lw_provider := Provider l; lw_cert := CertPath l; lw_key := KeyPath l; lw_force := boolInt (ForceHTTPS l); lw_renew := boolInt (AutoRenew l);
     lw_expires := seconds_text <$> ssl_ExpiresAt l |}.
Definition domain_row_of (d : Domain) (now : string) : domain_row := {| dw_domain := d_Domain d; dw_type := d_Type d; dw_created := now |}.

Definition ssl_named (id site : string) (l : SSL) : SSL :=
  {| ssl_ID := id; ssl_SiteID := site; Provider := Provider l; CertPath := CertPath l; KeyPath := KeyPath l; ForceHTTPS := ForceHTTPS l;
     AutoRenew := AutoRenew l; ssl_ExpiresAt := ssl_ExpiresAt l |}.

(** source: internal/core/site/repository.go:55-71 (Create, the domains): the domains with what is
    assigned to them, also when one fails *)
Fixpoint insert_domains (site now : string) (ds : list Domain) : store_prog (list Domain * option error) :=
  match ds with
  | [] => Ret ([], None)
  | d :: rest =>
      let! id := or_new (d_ID d) in
      let d' := {| d_ID := id; d_SiteID := site; d_Domain := d_Domain d; d_Type := d_Type d |} in
      let! out := call (InsertDomain id site (ServerID ctx) (domain_row_of d' now)) in
      match out with
      | Err e =>
          Ret (d' :: rest, Some (if isSQLiteUniqueError e
                                 then AppErrors.App (New 409 CodeSiteAlreadyExists ("domain already exists: " ++ d_Domain d))
                                 else Wrapped "site repo: create domain" (Plain e)))
      | Ok _ => let! (ds', err) := insert_domains site now rest in Ret (d' :: ds', err)
      end
  end.

Definition with_ids (id : string) (ds : list Domain) (app_site : string) (s : Site) : Site :=
  {| ID := id; Name := Name s; ModuleID := ModuleID s; RootPath := RootPath s; State_ := State_ s; OwnerID := OwnerID s; Domains := ds;
     App_ := {| a_SiteID := app_site; AppType := AppType (App_ s); AppVersion := AppVersion (App_ s); ProxyTarget := ProxyTarget (App_ s);
                CustomConfig := CustomConfig (App_ s) |};
     SSL_ := SSL_ s; ProxyEnabled := ProxyEnabled s; ProxyHost := ProxyHost s; ProxyPort := ProxyPort s |}.

(** The cell of the certificate. *)
Definition cell (h : heap) (s : Site) : option (nat * SSL) := a ← SSL_ s; l ← h !! a; Some (a, l).

(** source: internal/core/site/repository.go:82-99 (Create, the certificate) *)
Definition insert_ssl (id : string) (h : heap) (s : Site) : store_prog (heap * option error) :=
  match cell h s with
  | None => Ret (h, None)
  | Some (a, l) =>
      let! sslID := or_new (ssl_ID l) in
      let l' := ssl_named sslID id l in
      let! out := call (InsertSSL sslID id (ssl_row_of l')) in
      Ret (<[a := l']> h, match out with Err e => Some (Wrapped "site repo: create ssl" (Plain e)) | Ok _ => None end)
  end.

(** The end of a transaction: the deferred rollback does nothing after a commit. *)
Definition abandon {A} (a : A) : store_prog A := ignore! call StRollback in Ret a.
Definition commit_tx {A} (ok : A) (failed : error -> A) : store_prog A :=
  let! out := call StCommit in
  abandon (match out with Ok _ => ok | Err e => failed (Plain e) end).

(** source: internal/core/site/repository.go:33-102 (Create): the site and the heap with what is
    assigned to them, also when it fails *)
Definition store_Create (s : Site) (h : heap) : store_prog (Site * heap * option error) :=
  let! id := or_new (ID s) in
  let! now := call StNow in
  let s0 := with_ids id (Domains s) (a_SiteID (App_ s)) s in
  let! began := call StBegin in
  match began with
  | Err e => Ret (s0, h, Some (Wrapped "site repo: begin tx" (Plain e)))
  | Ok _ =>
      let! out := call (InsertSite id (ServerID ctx) (site_row_of s (seconds_text now))) in
      match out with
      | Err e => abandon (s0, h, Some (Wrapped "site repo: create site" (Plain e)))
      | Ok _ =>
          let! (ds, err) := insert_domains id (seconds_text now) (Domains s) in
          match err with
          | Some e => abandon (with_ids id ds (a_SiteID (App_ s)) s, h, Some e)
          | None =>
              let s1 := with_ids id ds id s in
              let! out := call (InsertApp id (app_row_of (App_ s))) in
              match out with
              | Err e => abandon (s1, h, Some (Wrapped "site repo: create app" (Plain e)))
              | Ok _ =>
                  let! (h', err) := insert_ssl id h s in
                  match err with
                  | Some e => abandon (s1, h', Some e)
                  | None => commit_tx (s1, h', None) (fun e => (s1, h', Some e))
                  end
              end
          end
      end
  end.

(** ** Reading *)

Definition empty_app (site : string) : App := {| a_SiteID := site; AppType := ""; AppVersion := None; ProxyTarget := None; CustomConfig := None |}.

(** source: internal/core/site/repository.go:227-234 (findSite, what is read) *)
Definition site_of_row (id : string) (r : site_row) : found :=
  {| f_site := {| ID := id; Name := sw_name r; ModuleID := sw_module r; RootPath := sw_root r; State_ := sw_status r; OwnerID := sw_owner r;
                  Domains := []; App_ := empty_app ""; SSL_ := None; ProxyEnabled := (0 <? sw_proxy_enabled r)%Z;
                  ProxyHost := default "" (sw_proxy_host r); ProxyPort := default 0%Z (sw_proxy_port r) |};
     f_heap := empty; f_created := stored_time (sw_created r); f_updated := stored_time (sw_updated r); f_domains_created := [] |}.

(** source: internal/core/site/repository.go:218-235 (findSite) *)
Definition findSite (row : result string (option (string * site_row))) : result error found :=
  match row with
  | Ok (Some (id, r)) => Ok (site_of_row id r)
  | Ok None => Err (NotFound "site")
  | Err e => Err (Plain e)
  end.

Definition domain_of_row (site : string) (r : string * domain_row) : Domain * time :=
  ({| d_ID := fst r; d_SiteID := site; d_Domain := dw_domain (snd r); d_Type := dw_type (snd r) |}, stored_time (dw_created (snd r))).
Definition app_of_row (site : string) (r : app_row) : App :=
  {| a_SiteID := site; AppType := aw_type r; AppVersion := aw_version r; ProxyTarget := aw_target r; CustomConfig := aw_config r |}.
Definition ssl_of_row (site : string) (r : string * ssl_row) : SSL :=
  {| ssl_ID := fst r; ssl_SiteID := site; Provider := lw_provider (snd r); CertPath := lw_cert (snd r); KeyPath := lw_key (snd r);
     ForceHTTPS := (lw_force (snd r) =? 1)%Z; AutoRenew := (lw_renew (snd r) =? 1)%Z; ssl_ExpiresAt := stored_time <$> lw_expires (snd r) |}.

(** The site of [f] with its relations. *)
Definition related (f : found) (ds : list (Domain * time)) (app : App) (ssl : option SSL) : found :=
  let s := f_site f in
  {| f_site := {| ID := ID s; Name := Name s; ModuleID := ModuleID s; RootPath := RootPath s; State_ := State_ s; OwnerID := OwnerID s;
                  Domains := fst <$> ds; App_ := app; SSL_ := match ssl with Some _ => Some 0 | None => None end;
                  ProxyEnabled := ProxyEnabled s; ProxyHost := ProxyHost s; ProxyPort := ProxyPort s |};
     f_heap := match ssl with Some l => {[0 := l]} | None => empty end;
     f_created := f_created f; f_updated := f_updated f; f_domains_created := snd <$> ds |}.

(** source: internal/core/site/repository.go:237-284 (loadRelations): the error after the last row
    of the domains is not looked at *)
Definition loadRelations (f : found) : store_prog (result error found) :=
  let id := ID (f_site f) in
  let! q := call (SelectDomains id) in
  match q with
  | Err e => Ret (Err (Plain e))
  | Ok rs =>
      match scan_rows (domain_of_row id) (fun e => e) (r_rows rs) [] None with
      | (_, Some e) => Ret (Err (Plain e))
      | (ds, None) =>
          let! app := call (SelectApp id) in
          match app with
          | Err e => Ret (Err (Plain e))
          | Ok app =>
              let! ssl := call (SelectSSL id) in
              Ret (match ssl with
                   | Err e => Err (Plain e)
                   | Ok ssl => Ok (related f ds (match app with Some a => app_of_row id a | None => empty_app id end) (fmap (M := option) (ssl_of_row id) ssl))
                   end)
          end
      end
  end.

(** source: internal/core/site/repository.go:104-113 (FindByID) *)
Definition store_FindByID (id : string) : store_prog (result error found) :=
  let! row := call (SelectSite id (ServerID ctx)) in
  match findSite row with
  | Err e => Ret (Err e)
  | Ok f => loadRelations f
  end.

(** source: internal/core/site/repository.go:115-125 (FindByDomain) *)
Definition store_FindByDomain (domain : string) : store_prog (result error found) :=
  let! row := call (SelectDomainSite domain (ServerID ctx)) in
  match row with
  | Ok (Some siteID) => store_FindByID siteID
  | Ok None => Ret (Err (NotFound "site"))
  | Err e => Ret (Err (Wrapped "site repo: find site id by domain" (Plain e)))
  end.

Fixpoint load_all (l : list found) : store_prog (result error (list found)) :=
  match l with
  | [] => Ret (Ok [])
  | f :: l' => try! f' := loadRelations f in try! fs := load_all l' in Ret (Ok (f' :: fs))
  end.

(** source: internal/core/site/repository.go:127-157 (ListAll): the error after the last row is not
    looked at; the text of a scan error also has the identifier, as far as it was read *)
Definition store_ListAll : store_prog (result error (list found)) :=
  let! q := call (SelectSites (ServerID ctx)) in
  match q with
  | Err e => Ret (Err (Wrapped "site repo: list" (Plain e)))
  | Ok rs =>
      match scan_rows (fun r => site_of_row (fst r) (snd r)) (fun e => e) (r_rows rs) [] None with
      | (_, Some e) => Ret (Err (Wrapped "scan site " (Plain e)))
      | (fs, None) => load_all fs
      end
  end.

(** ** Changing *)

(** source: internal/core/site/repository.go:184-208 (Update, the certificate) *)
Definition update_ssl_row (h : heap) (s : Site) : store_prog (heap * option error) :=
  match cell h s with
  | Some (a, l) =>
      let! l' := (if String.eqb (ssl_ID l) "" then let! id := call StNewID in Ret (ssl_named id (ID s) l) else Ret l) in
      let! out := call (UpsertSSL (ssl_ID l') (ID s) (ssl_row_of l')) in
      Ret (<[a := l']> h, match out with Err e => Some (Plain e) | Ok _ => None end)
  | None =>
      let! out := call (DeleteSSL (ID s)) in
      Ret (h, match out with Err e => Some (Plain e) | Ok _ => None end)
  end.

(** source: internal/core/site/repository.go:159-211 (Update): the heap with what is assigned to
    the certificate, and the error *)
Definition store_Update (s : Site) (h : heap) : store_prog (heap * option error) :=
  let! now := call StNow in
  let! began := call StBegin in
  match began with
  | Err e => Ret (h, Some (Plain e))
  | Ok _ =>
      let! out := call (UpdateSite (ID s) (ServerID ctx) (Name s) (ModuleID s) (RootPath s) (State_ s) (boolInt (ProxyEnabled s)) (ProxyHost s)
                          (ProxyPort s) (seconds_text now)) in
      match out with
      | Err e => abandon (h, Some (Plain e))
      | Ok n =>
          if (n =? 0)%Z then abandon (h, Some (NotFound "site"))
          else
            let! out := call (UpdateApp (ID s) (app_row_of (App_ s))) in
            match out with
            | Err e => abandon (h, Some (Plain e))
            | Ok _ =>
                let! (h', err) := update_ssl_row h s in
                match err with
                | Some e => abandon (h', Some e)
                | None => commit_tx (h', None) (fun e => (h', Some e))
                end
            end
      end
  end.

(** source: internal/core/site/repository.go:213-216 (Delete) *)
Definition store_Delete (id : string) : store_prog (option error) :=
  let! out := call (DeleteSite id (ServerID ctx)) in
  Ret (match out with Err e => Some (Plain e) | Ok _ => None end).
End repository.
