(* ===== verification/SiteStoreSpec.v ===== *)
(** * What the repository of sites promises

    The four tables with their constraints and the transaction that may be open, and the abstract
    store they implement: one map from identifiers to whole sites, in which each operation of the
    repository is one step or none. *)

From S2P Require Import Prelude GoStrings GoTime GoSql AppErrors Effects Pool Http SiteDomain Site SiteStore.
Local Open Scope string_scope.
Local Open Scope go_scope.

(** ** The tables *)

(** By identifier (applications by site): the server of a site; the site and the server of a
    domain; the site of a certificate. *)
Record tables := {
  t_sites : gmap string (string * site_row); t_domains : gmap string (string * (string * domain_row));
  t_apps : gmap string app_row; t_ssl : gmap string (string * ssl_row) }.

Definition set_sites m t := {| t_sites := m; t_domains := t_domains t; t_apps := t_apps t; t_ssl := t_ssl t |}.
Definition set_domains m t := {| t_sites := t_sites t; t_domains := m; t_apps := t_apps t; t_ssl := t_ssl t |}.
Definition set_app_rows m t := {| t_sites := t_sites t; t_domains := t_domains t; t_apps := m; t_ssl := t_ssl t |}.
Definition set_ssl_rows m t := {| t_sites := t_sites t; t_domains := t_domains t; t_apps := t_apps t; t_ssl := m |}.

(** The domain of a row is free in its server. *)
Definition domain_free (sv domain : string) (t : tables) : Prop :=
  map_Forall (fun _ v => ~ (fst (snd v) = sv /\ dw_domain (snd (snd v)) = domain)) (t_domains t).
#[export] Instance domain_free_dec sv domain t : Decision (domain_free sv domain t).
Proof. unfold domain_free. apply _. Defined.

(** Statements: [None] if a constraint refuses them. *)
Definition ins_site (id sv : string) (row : site_row) (t : tables) : option tables :=
  if decide (t_sites t !! id = None) then Some (set_sites (<[id := (sv, row)]> (t_sites t)) t) else None.
Definition ins_domain (id site sv : string) (row : domain_row) (t : tables) : option tables :=
  if decide (t_domains t !! id = None /\ is_Some (t_sites t !! site) /\ domain_free sv (dw_domain row) t)
  then Some (set_domains (<[id := (site, (sv, row))]> (t_domains t)) t) else None.
Definition ins_app (site : string) (row : app_row) (t : tables) : option tables :=
  if decide (t_apps t !! site = None /\ is_Some (t_sites t !! site)) then Some (set_app_rows (<[site := row]> (t_apps t)) t) else None.
Definition ins_ssl (id site : string) (row : ssl_row) (t : tables) : option tables :=
  if decide (t_ssl t !! id = None /\ is_Some (t_sites t !! site)) then Some (set_ssl_rows (<[id := (site, row)]> (t_ssl t)) t) else None.
Definition upd_app (site : string) (row : app_row) (t : tables) : option tables :=
  Some (set_app_rows (alter (fun _ => row) site (t_apps t)) t).
Definition ups_ssl (id site : string) (row : ssl_row) (t : tables) : option tables :=
  match t_ssl t !! id with
  | Some (site0, _) => Some (set_ssl_rows (<[id := (site0, row)]> (t_ssl t)) t)
  | None => ins_ssl id site row t
  end.
Definition del_ssl (site : string) (t : tables) : option tables := Some (set_ssl_rows (filter (fun kv => fst (snd kv) <> site) (t_ssl t)) t).
Definition upd_site (id sv name module root : string) (st : State) (pe : Z) (ph : string) (pp : Z) (updated : string) (t : tables) : Z * tables :=
  match t_sites t !! id with
  | Some (sv', r) =>
      if String.eqb sv' sv then
        (1%Z, set_sites (<[id := (sv, {| sw_name := name; sw_module := module; sw_root := root; sw_status := st; sw_owner := sw_owner r;
                                        sw_proxy_enabled := pe; sw_proxy_host := Some ph; sw_proxy_port := Some pp;
                                        sw_created := sw_created r; sw_updated := updated |})]> (t_sites t)) t)
      else (0%Z, t)
  | None => (0%Z, t)
  end.

(** Deleting a site deletes what refers to it. *)
Definition del_site (id sv : string) (t : tables) : tables :=
  match t_sites t !! id with
  | Some (sv', _) =>
      if String.eqb sv' sv then
        {| t_sites := delete id (t_sites t); t_domains := filter (fun kv => fst (snd kv) <> id) (t_domains t); t_apps := delete id (t_apps t);
           t_ssl := filter (fun kv => fst (snd kv) <> id) (t_ssl t) |}
      else t
  | None => t
  end.

(** ** Calls *)

(** [broken]: a result set has ended with an error. *)
Record store := { base : tables; open_tx : option tables; broken : bool }.
Definition with_tx (o : option tables) (s : store) : store := {| base := base s; open_tx := o; broken := broken s |}.
Definition with_base (t : tables) (s : store) : store := {| base := t; open_tx := open_tx s; broken := broken s |}.
Definition break (s : store) : store := {| base := base s; open_tx := open_tx s; broken := true |}.

Definition st_fails {A} (x : result string A) (s s' : store) : Prop := (exists e, x = Err e) /\ s' = s.
Definition in_tx (f : tables -> option tables) (s : store) (x : result string ()) (s' : store) : Prop :=
  (exists t t', x = Ok () /\ open_tx s = Some t /\ f t = Some t' /\ s' = with_tx (Some t') s) \/ st_fails x s s'.

(** The result set of the rows [m]: all of them, in some order, or some and an error. *)
Definition reads_rows {A : Set} (m : gmap string A) (s : store) (x : result string (rows (string * A))) (s' : store) : Prop :=
  st_fails x s s' \/
  (exists l, x = Ok {| r_rows := Ok <$> l; r_Err := None |} /\ l ≡ₚ map_to_list m /\ s' = s) \/
  (exists l tail e, x = Ok {| r_rows := (Ok <$> l) ++ tail; r_Err := Some e |} /\ (tail = [] \/ exists e', tail = [Err e']) /\
     l ⊆+ map_to_list m /\ s' = break s).

(** An identifier no row has. *)
Definition unused (id : string) (t : tables) : Prop :=
  id <> "" /\ t_sites t !! id = None /\ t_domains t !! id = None /\ t_ssl t !! id = None.

Definition owned {A} (id : string) (m : gmap string (string * A)) : gmap string A := snd <$> filter (fun kv => fst (snd kv) = id) m.

Definition store_sem X (c : store_call X) : store -> X -> store -> Prop :=
  match c in store_call X return store -> X -> store -> Prop with
  | StNewID => fun s x s' => unused x (default (base s) (open_tx s)) /\ s' = s
  | StNow => fun s _ s' => s' = s
  | StBegin => fun s x s' => (x = Ok () /\ open_tx s = None /\ s' = with_tx (Some (base s)) s) \/ st_fails x s s'
  | StCommit => fun s x s' => (exists t, x = Ok () /\ open_tx s = Some t /\ s' = {| base := t; open_tx := None; broken := broken s |}) \/ st_fails x s s'
  | StRollback => fun s _ s' => s' = with_tx None s
  | InsertSite id sv row => in_tx (ins_site id sv row)
  | InsertDomain id site sv row => in_tx (ins_domain id site sv row)
  | InsertApp site row => in_tx (ins_app site row)
  | InsertSSL id site row => in_tx (ins_ssl id site row)
  | UpdateSite id sv name module root st pe ph pp updated => fun s x s' =>
      (exists t, open_tx s = Some t /\ x = Ok (fst (upd_site id sv name module root st pe ph pp updated t)) /\
         s' = with_tx (Some (snd (upd_site id sv name module root st pe ph pp updated t))) s) \/ st_fails x s s'
  | UpdateApp site row => in_tx (upd_app site row)
  | UpsertSSL id site row => in_tx (ups_ssl id site row)
  | DeleteSSL site => in_tx (del_ssl site)
  | DeleteSite id sv => fun s x s' => (x = Ok () /\ s' = with_base (del_site id sv (base s)) s) \/ st_fails x s s'
  | SelectSite id sv => fun s x s' =>
      (x = Ok (r ← t_sites (base s) !! id; if String.eqb (fst r) sv then Some (id, snd r) else None) /\ s' = s) \/ st_fails x s s'
  | SelectSites sv => fun s => reads_rows (owned sv (t_sites (base s))) s
  | SelectDomainSite domain sv => fun s x s' => st_fails x s s' \/ (s' = s /\
      ((exists site k d r, x = Ok (Some site) /\ t_domains (base s) !! k = Some (site, d) /\ dw_domain (snd d) = domain /\
          t_sites (base s) !! site = Some (sv, r)) \/
       (x = Ok None /\ forall k site d r, t_domains (base s) !! k = Some (site, d) -> t_sites (base s) !! site = Some (sv, r) -> dw_domain (snd d) <> domain)))
  | SelectDomains site => fun s => reads_rows (snd <$> owned site (t_domains (base s))) s
  | SelectApp site => fun s x s' => (x = Ok (t_apps (base s) !! site) /\ s' = s) \/ st_fails x s s'
  | SelectSSL site => fun s x s' => st_fails x s s' \/ (s' = s /\
      ((exists k r, x = Ok (Some (k, r)) /\ owned site (t_ssl (base s)) !! k = Some r) \/
       (x = Ok None /\ owned site (t_ssl (base s)) = ∅)))
  end.

Notation on_store := (runs store_sem).

(** ** The abstract store *)

(** A whole site, with the identifiers of its domains and certificates. *)
Record view := {
  v_server : string; v_row : site_row; v_domains : gmap string domain_row; v_app : option app_row; v_ssl : gmap string ssl_row }.

Definition view_in (t : tables) (id : string) (r : string * site_row) : view :=
  {| v_server := fst r; v_row := snd r; v_domains := snd <$> owned id (t_domains t); v_app := t_apps t !! id; v_ssl := owned id (t_ssl t) |}.
Definition abs (t : tables) : gmap string view := map_imap (fun id r => Some (view_in t id r)) (t_sites t).

Lemma abs_lookup t id : abs t !! id = view_in t id <$> t_sites t !! id.
Proof. unfold abs. rewrite map_lookup_imap. by destruct (t_sites t !! id). Qed.

(** Constraints hold: references lead to a site, of the same server for a domain, and a domain is
    unique in its server. *)
Record linked (t : tables) : Prop := {
  domain_refers : forall k site sv d, t_domains t !! k = Some (site, (sv, d)) -> exists r, t_sites t !! site = Some (sv, r);
  app_refers : forall site, is_Some (t_apps t !! site) -> is_Some (t_sites t !! site);
  ssl_refers : forall k site l, t_ssl t !! k = Some (site, l) -> is_Some (t_sites t !! site);
  domain_unique : forall k1 k2 s1 s2 sv d1 d2, t_domains t !! k1 = Some (s1, (sv, d1)) -> t_domains t !! k2 = Some (s2, (sv, d2)) ->
    dw_domain d1 = dw_domain d2 -> k1 = k2 }.

(** And, outside of transactions, a site has an application. *)
Definition sound (t : tables) : Prop := linked t /\ forall site, is_Some (t_sites t !! site) -> is_Some (t_apps t !! site).

Lemma owned_lookup {A} id (m : gmap string (string * A)) k a : owned id m !! k = Some a <-> m !! k = Some (id, a).
Proof.
  unfold owned. rewrite lookup_fmap_Some. split.
  - intros ([site b] & <- & [H Heq]%map_lookup_filter_Some). cbn in *. by subst.
  - intros H. exists (id, a). split; [done|]. by apply map_lookup_filter_Some.
Qed.

Lemma owned_from {A} id (m : gmap string (string * A)) k a : owned id m !! k = Some a -> m !! k = Some (id, a).
Proof. apply owned_lookup. Qed.

Lemma owned_empty {A} id (m : gmap string (string * A)) : (forall k a, m !! k <> Some (id, a)) -> owned id m = ∅.
Proof. intros H. apply map_empty. intros k. apply eq_None_not_Some. intros [a Ha%owned_from]. by eapply H. Qed.

Lemma owned_insert {A} id (m : gmap string (string * A)) k a :
  (forall site b, m !! k = Some (site, b) -> site = id) -> owned id (<[k := (id, a)]> m) = <[k := a]> (owned id m).
Proof.
  intros Hk. apply map_eq. intros j. apply option_eq. intros b. rewrite owned_lookup, !lookup_insert_Some, owned_lookup. naive_solver.
Qed.

Lemma owned_insert_ne {A} id id' (m : gmap string (string * A)) k a :
  id' <> id -> (forall b, m !! k <> Some (id, b)) -> owned id (<[k := (id', a)]> m) = owned id m.
Proof.
  intros Hne Hk. apply map_eq. intros j. apply option_eq. intros b. rewrite !owned_lookup, lookup_insert_Some. split.
  - intros [[_ [= Heq _]]|[_ H]]; [congruence|done].
  - intros H. right. split; [|done]. intros ->. by apply (Hk b).
Qed.

Lemma owned_filter {A} id id' (m : gmap string (string * A)) :
  owned id (filter (fun kv => fst (snd kv) <> id') m) = if decide (id = id') then ∅ else owned id m.
Proof.
  apply map_eq. intros j. apply option_eq. intros b. rewrite owned_lookup, map_lookup_filter_Some. cbn.
  destruct (decide (id = id')) as [->|Hne].
  - rewrite lookup_empty. naive_solver.
  - rewrite owned_lookup. naive_solver.
Qed.

(** A domain that no site of a server has. *)
Definition no_domain (sv domain : string) (m : gmap string view) : Prop :=
  forall id v k d, m !! id = Some v -> v_server v = sv -> v_domains v !! k = Some d -> dw_domain d <> domain.

Lemma domain_free_abs sv domain t : domain_free sv domain t -> linked t -> no_domain sv domain (abs t).
Proof.
  intros Hf Hs id v k d Hv Hsv Hd Heq. rewrite abs_lookup in Hv. destruct (t_sites t !! id) as [[sv' row]|] eqn:Hrow; [|done].
  injection Hv as <-. cbn in Hsv, Hd. subst sv'. apply lookup_fmap_Some in Hd as ([sv' d'] & <- & Hd%owned_from). cbn in Heq.
  destruct (domain_refers t Hs _ _ _ _ Hd) as [r Hr]. rewrite Hrow in Hr. injection Hr as -> _. by apply (Hf k _ Hd).
Qed.

(** ** Writing a site *)

Definition domain_entry (now : string) (d : Domain) : string * domain_row := (d_ID d, domain_row_of d now).

(** The view of a site with its identifiers. *)
Definition view_of (sv now : string) (s : Site) (h : heap) : view :=
  {| v_server := sv; v_row := site_row_of s now; v_domains := list_to_map (domain_entry now <$> Domains s); v_app := Some (app_row_of (App_ s));
     v_ssl := match ssl_of h s with Some l => {[ssl_ID l := ssl_row_of l]} | None => ∅ end |}.

(** The rows of domains as they are added to the table. *)
Definition domain_full (site sv now : string) (d : Domain) : string * (string * (string * domain_row)) := (d_ID d, (site, (sv, domain_row_of d now))).

Lemma runs_tx f {X : Set} (c : store_call X) s x s' t :
  open_tx s = Some t -> in_tx f s x s' ->
  (x = Ok () /\ exists t', f t = Some t' /\ s' = with_tx (Some t') s) \/ ((exists e, x = Err e) /\ s' = s).
Proof. intros Ht [(t1 & t' & -> & Ht1 & Hf & ->)|H]; [left|by right]. rewrite Ht in Ht1. injection Ht1 as <-. eauto. Qed.

(** What the operations keep while a transaction is open. *)
Definition same_base (s s' : store) : Prop := base s' = base s /\ broken s' = broken s.

Lemma or_new_runs id s x s' : on_store (or_new id) s x s' -> s' = s.
Proof. unfold or_new. destruct (String.eqb id ""); [by intros [_ ->]%runs_call|by intros [_ ->]]. Qed.

Lemma linked_domain id site sv row t t' r :
  linked t -> ins_domain id site sv row t = Some t' -> t_sites t !! site = Some (sv, r) ->
  linked t' /\ t' = set_domains (<[id := (site, (sv, row))]> (t_domains t)) t /\ t_domains t !! id = None /\ domain_free sv (dw_domain row) t.
Proof.
  unfold ins_domain. intros [H1 H2 H3 H4] Hi Hr. destruct (decide _) as [(Hn & _ & Hf)|]; [|done]. injection Hi as <-.
  split; [|done]. split; cbn; [|done|done|].
  - intros k site' sv' d. rewrite lookup_insert_Some. intros [[_ [= <- <- <-]]|[_ H]]; [eauto|by eapply H1].
  - intros k1 k2 s1 s2 sv' d1 d2. rewrite !lookup_insert_Some. intros [[<- He1]|[Hk1 Hd1]] [[<- He2]|[Hk2 Hd2]] Heq; simplify_eq; [done| | |by eapply H4].
    + by destruct (Hf k2 _ Hd2).
    + by destruct (Hf k1 _ Hd1).
Qed.

Lemma insert_domains_runs ctx site now ds t row s ds' err s' :
  open_tx s = Some t -> linked t -> t_sites t !! site = Some (ServerID ctx, row) ->
  on_store (insert_domains ctx site now ds) s (ds', err) s' ->
  same_base s s' /\ map (fun d => (d_Domain d, d_Type d)) ds' = map (fun d => (d_Domain d, d_Type d)) ds /\
  (err = None -> exists t', open_tx s' = Some t' /\ linked t' /\
     t' = set_domains (list_to_map (domain_full site (ServerID ctx) now <$> ds') ∪ t_domains t) t /\ Forall (fun d => d_SiteID d = site) ds' /\
     Forall (fun d => t_domains t !! d_ID d = None) ds' /\ NoDup (d_ID <$> ds') /\ Forall (fun d => domain_free (ServerID ctx) (d_Domain d) t) ds').
Proof.
  revert t s ds' err. induction ds as [|d ds IH]; intros t s ds' err Ht Hl Hrow; cbn [insert_domains].
  { intros [[= -> ->] ->]. split_and!; [done..|]. intros _. exists t. split_and!; [done|done| |constructor..]. cbn. rewrite (left_id_L ∅ (∪)). by destruct t. }
  intros (id & s1 & ->%or_new_runs & H)%runs_bind. apply runs_bind in H as (x & s1 & Hx & H). apply runs_call in Hx.
  eapply runs_tx in Hx as [(-> & t1 & Hins & ->)|[[e ->] ->]]; [| |exact (InsertDomain id site (ServerID ctx) (domain_row_of d now))|done].
  - apply runs_bind in H as ([ds1 err1] & s2 & H & [[= -> ->] ->]).
    destruct (linked_domain _ _ _ _ _ _ _ Hl Hins Hrow) as (Hl1 & -> & Hnone & Hfree). cbn [domain_row_of dw_domain d_Domain] in Hfree.
    eapply (IH (set_domains (<[id := (site, (ServerID ctx, _))]> (t_domains t)) t)) in H as ([Hb1 Hb2] & Hmap & Herr); [|done|exact Hl1|exact Hrow]. split_and!; [done|by cbn; rewrite Hmap|].
    intros ->. destruct (Herr eq_refl) as (t' & Ht' & Hl' & -> & Hsite & Hfresh & Hnd & Hfr). eexists. split_and!; [done|done|..].
    + unfold set_domains. cbn. f_equal. rewrite <- insert_union_r; [by rewrite insert_union_l|].
      apply not_elem_of_list_to_map_1. rewrite <- list_fmap_compose. intros Hin.
      apply list_elem_of_fmap in Hin as (d1 & -> & Hin). rewrite Forall_forall in Hfresh. specialize (Hfresh d1 Hin). cbn in Hfresh.
      by rewrite lookup_insert_eq in Hfresh.
    + by constructor.
    + constructor; [done|]. eapply Forall_impl; [exact Hfresh|]. cbn. intros d1 Hd1. by apply lookup_insert_None in Hd1 as [? _].
    + constructor; [|done]. intros Hin. apply list_elem_of_fmap in Hin as (d1 & Heq & Hin). rewrite Forall_forall in Hfresh.
      specialize (Hfresh d1 Hin). cbn in Hfresh, Heq. by rewrite <- Heq, lookup_insert_eq in Hfresh.
    + constructor; [done|]. eapply Forall_impl; [exact Hfr|]. cbn. intros d1 Hd1 k v Hv. apply (Hd1 k v). cbn.
      rewrite lookup_insert_ne; [done|]. intros <-. by rewrite Hnone in Hv.
  - destruct H as [[= -> ->] ->]. by split_and!.
Qed.

(** Ending a transaction. *)
Lemma abandon_runs {A} (a b : A) s s' : on_store (abandon a) s b s' -> b = a /\ s' = with_tx None s.
Proof. unfold abandon. intros (u & s1 & Hu%runs_call & [-> ->])%runs_bind. cbn in Hu. by subst. Qed.

Lemma commit_runs_tx {A} (ok : A) failed t b s s' :
  open_tx s = Some t -> on_store (commit_tx ok failed) s b s' ->
  (b = ok /\ s' = {| base := t; open_tx := None; broken := broken s |}) \/ ((exists e, b = failed e) /\ s' = with_tx None s).
Proof.
  intros Ht (x & s1 & Hx%runs_call & [-> ->]%abandon_runs)%runs_bind. destruct Hx as [(t1 & -> & Ht1 & ->)|[[e ->] ->]]; [left|right; eauto].
  rewrite Ht in Ht1. by injection Ht1 as <-.
Qed.

Lemma insert_ssl_runs id h s st h' err st' t row :
  open_tx st = Some t -> linked t -> t_sites t !! id = Some row -> on_store (insert_ssl id h s) st (h', err) st' ->
  same_base st st' /\
  (err = None -> exists t', open_tx st' = Some t' /\ linked t' /\
    match cell h s with
    | None => h' = h /\ t' = t
    | Some (a, l) => exists k, h' = <[a := ssl_named k id l]> h /\ t_ssl t !! k = None /\ t' = set_ssl_rows (<[k := (id, ssl_row_of l)]> (t_ssl t)) t
    end).
Proof.
  intros Ht Hl Hrow. unfold insert_ssl. destruct (cell h s) as [[a l]|].
  - intros (k & s1 & ->%or_new_runs & (x & s2 & Hx%runs_call & [[= -> ->] ->])%runs_bind)%runs_bind.
    eapply (runs_tx _ (InsertSSL k id (ssl_row_of l))) in Hx as [(-> & t1 & Hins & ->)|[[e ->] ->]]; [|by split|done].
    split; [done|]. intros _. unfold ins_ssl in Hins. destruct (decide _) as [[Hn _]|]; [|done]. injection Hins as <-.
    eexists. split_and!; [done| |by exists k]. destruct Hl as [H1 H2 H3 H4]. split; cbn; [done|done| |done].
    intros k1 site l1. rewrite lookup_insert_Some. intros [[<- [= <- <-]]|[_ H]]; [by exists row|by eapply H3].
  - intros [[= -> ->] ->]. split; [done|]. intros _. by exists t.
Qed.

(** The application row of a new site makes the tables sound again. *)
Lemma ins_app_sound id sv row arow t t1 t2 :
  sound t -> t_sites t1 = <[id := (sv, row)]> (t_sites t) -> t_apps t1 = t_apps t -> linked t1 -> ins_app id arow t1 = Some t2 ->
  sound t2 /\ t2 = set_app_rows (<[id := arow]> (t_apps t)) t1.
Proof.
  intros [_ Happ] Hs Ha [H1 H2 H3 H4]. unfold ins_app. destruct (decide _) as [[Hn Hi]|]; [|done]. intros [= <-]. rewrite Ha.
  split; [|done]. split; [split; cbn; [done| |done|done]|]; cbn.
  - intros site. destruct (decide (site = id)) as [->|Hne]; [done|]. rewrite lookup_insert_ne by done. rewrite <- Ha. apply H2.
  - intros site. rewrite Hs. destruct (decide (site = id)) as [->|Hne]; [rewrite !lookup_insert_eq; eauto|].
    rewrite !lookup_insert_ne by done. apply Happ.
Qed.

Lemma ins_site_linked id sv row t t' : linked t -> ins_site id sv row t = Some t' -> linked t' /\ t_sites t !! id = None /\
  t' = set_sites (<[id := (sv, row)]> (t_sites t)) t.
Proof.
  unfold ins_site. intros [H1 H2 H3 H4] Hi. destruct (decide _) as [Hn|]; [|done]. injection Hi as <-. split; [|done].
  assert (Hmore : forall k, is_Some (t_sites t !! k) -> is_Some (<[id := (sv, row)]> (t_sites t) !! k)).
  { intros k Hk. destruct (decide (k = id)) as [->|]; [by rewrite lookup_insert_eq|by rewrite lookup_insert_ne]. }
  split; cbn; [|naive_solver|naive_solver|done].
  intros k site sv' d [r Hr]%H1. exists r. rewrite lookup_insert_ne; [done|]. intros ->. by rewrite Hn in Hr.
Qed.

(** The tables after a creation, as one site more. *)
Lemma owned_added {A} id (l : list (string * A)) (m : gmap string (string * A)) :
  NoDup (l.*1) -> Forall (fun kv => m !! fst kv = None) l ->
  forall id', owned id' (list_to_map ((fun kv => (fst kv, (id, snd kv))) <$> l) ∪ m) =
    if decide (id' = id) then list_to_map l ∪ owned id m else owned id' m.
Proof.
  intros Hnd Hfresh id'. revert Hnd Hfresh. induction l as [|[k a] l IH]; intros Hnd Hfresh; csimpl.
  - rewrite !(left_id_L ∅ (∪)). by destruct (decide (id' = id)) as [->|].
  - apply NoDup_cons in Hnd as [Hk Hnd]. apply Forall_cons in Hfresh as [Hm Hfresh]. specialize (IH Hnd Hfresh). cbn in Hm.
    assert (Hnone : (list_to_map ((fun kv => (fst kv, (id, snd kv))) <$> l) ∪ m) !! k = None).
    { apply lookup_union_None. split; [|done]. apply not_elem_of_list_to_map_1. rewrite <- list_fmap_compose. done. }
    rewrite <- insert_union_l. destruct (decide (id' = id)) as [->|Hne].
    + rewrite owned_insert; [|intros site b Hb; by rewrite Hnone in Hb]. rewrite IH. by rewrite insert_union_l.
    + rewrite owned_insert_ne; [done|done|]. intros b Hb. by rewrite Hnone in Hb.
Qed.

(** The tables with the rows of a new site, and what is added to the abstract store. *)
Definition added (id sv : string) (row : site_row) (ds : list (string * (string * domain_row))) (arow : app_row) (lrow : option (string * ssl_row))
    (t : tables) : tables :=
  {| t_sites := <[id := (sv, row)]> (t_sites t);
     t_domains := list_to_map ((fun kv => (fst kv, (id, snd kv))) <$> ds) ∪ t_domains t;
     t_apps := <[id := arow]> (t_apps t);
     t_ssl := match lrow with Some (k, l) => <[k := (id, l)]> (t_ssl t) | None => t_ssl t end |}.

Lemma abs_added id sv row ds arow lrow t :
  linked t -> t_sites t !! id = None -> NoDup (ds.*1) -> Forall (fun kv => t_domains t !! fst kv = None) ds ->
  (forall k l, lrow = Some (k, l) -> t_ssl t !! k = None) ->
  abs (added id sv row ds arow lrow t) =
  <[id := {| v_server := sv; v_row := row; v_domains := snd <$> (list_to_map ds : gmap string (string * domain_row)); v_app := Some arow;
             v_ssl := match lrow with Some (k, l) => {[k := l]} | None => ∅ end |}]> (abs t).
Proof.
  intros Hl Hid Hnd Hfresh Hssl.
  assert (Hnod : owned id (t_domains t) = ∅).
  { apply owned_empty. intros k [sv' d] Hk. destruct (domain_refers t Hl _ _ _ _ Hk) as [r Hr]. by rewrite Hid in Hr. }
  assert (Hnol : forall k l, t_ssl t !! k <> Some (id, l)).
  { intros k l Hk. destruct (ssl_refers t Hl _ _ _ Hk) as [r Hr]. by rewrite Hid in Hr. }
  apply map_eq. intros id'. rewrite abs_lookup. unfold added, view_in. cbn [t_sites t_domains t_apps t_ssl].
  destruct (decide (id' = id)) as [->|Hne].
  - rewrite !lookup_insert_eq. cbn. rewrite owned_added, decide_True, Hnod, (right_id_L ∅ (∪)) by done.
    do 2 f_equal. destruct lrow as [[k l]|]; [|by apply owned_empty]. rewrite owned_insert; [|intros site b Hb; by rewrite (Hssl k l eq_refl) in Hb].
    by rewrite owned_empty by done.
  - rewrite !lookup_insert_ne by done. rewrite abs_lookup. destruct (t_sites t !! id') as [r|]; [|done]. cbn. unfold view_in. do 2 f_equal.
    + by rewrite owned_added, decide_False by done.
    + destruct lrow as [[k l]|]; [|done]. apply owned_insert_ne; [done|]. intros b Hb. by rewrite (Hssl k l eq_refl) in Hb.
Qed.

Lemma cell_ssl h s : ssl_of h s = snd <$> cell h s.
Proof. unfold ssl_of, cell. destruct (SSL_ s) as [a|]; [|done]. cbn. by destruct (h !! a). Qed.

Lemma cell_at h s a l : cell h s = Some (a, l) -> SSL_ s = Some a /\ h !! a = Some l.
Proof. unfold cell. destruct (SSL_ s) as [b|]; [|done]. cbn. destruct (h !! b) eqn:Hb; [|done]. by intros [= <- <-]. Qed.

Definition domain_pair (sv now : string) (d : Domain) : string * (string * domain_row) := (d_ID d, (sv, domain_row_of d now)).

Lemma view_of_domains sv now ds : NoDup (d_ID <$> ds) ->
  snd <$> (list_to_map (domain_pair sv now <$> ds) : gmap string (string * domain_row)) = list_to_map (domain_entry now <$> ds).
Proof. intros _. rewrite <- list_to_map_fmap, <- list_fmap_compose. done. Qed.

(** A site whose parts have identifiers of their own and refer to it. *)
Definition named (s : Site) (h : heap) : Prop :=
  a_SiteID (App_ s) = ID s /\ Forall (fun d => d_SiteID d = ID s) (Domains s) /\ NoDup (d_ID <$> Domains s) /\
  forall l, ssl_of h s = Some l -> ssl_SiteID l = ID s.

(** The rows a creation has added when all its statements have succeeded. *)
Lemma create_rows ctx id now s h st t1 ds1 st1 t2 st2 h' st3 :
  let t := base st in
  sound t -> open_tx st1 = Some t1 -> ins_site id (ServerID ctx) (site_row_of s now) t = Some t1 -> same_base st st1 ->
  on_store (insert_domains ctx id now (Domains s)) st1 (ds1, None) st2 ->
  (forall t0, open_tx st2 = Some t0 -> ins_app id (app_row_of (App_ s)) t0 = Some t2) ->
  on_store (insert_ssl id h s) (with_tx (Some t2) st2) (h', None) st3 ->
  exists t3, open_tx st3 = Some t3 /\ sound t3 /\ same_base st st3 /\ abs t !! id = None /\
    abs t3 = <[id := view_of (ServerID ctx) now (with_ids id ds1 id s) h']> (abs t) /\
    Forall (fun d => no_domain (ServerID ctx) (d_Domain d) (abs t)) ds1 /\
    named (with_ids id ds1 id s) h'.
Proof.
  intros t Hsound Hopen1 Hins Hsame1 Hds Happ Hssl. assert (Hl := proj1 Hsound).
  destruct (ins_site_linked _ _ _ _ _ Hl Hins) as (Hl1 & Hid & ->).
  eapply insert_domains_runs in Hds as (Hsame2 & Hmap & Hok); [|done|done|apply lookup_insert_eq].
  destruct (Hok eq_refl) as (t0 & Ht0 & Hl0 & Heq0 & Hsite & Hfresh & Hnd & Hfree). specialize (Happ t0 Ht0).
  eapply ins_app_sound in Happ as [Hs2 Ht2]; [|exact Hsound|by rewrite Heq0|by rewrite Heq0|done]. subst t2.
  eapply insert_ssl_runs in Hssl as [Hsame3 Hok3]; [|done|apply Hs2|by rewrite Heq0; apply lookup_insert_eq].
  destruct (Hok3 eq_refl) as (t3 & Ht3 & Hl3 & Hcell). subst t0. cbn in Hcell.
  assert (Hrows : exists lrow, t3 = added id (ServerID ctx) (site_row_of s now) (domain_pair (ServerID ctx) now <$> ds1) (app_row_of (App_ s)) lrow t /\
    (forall k l, lrow = Some (k, l) -> t_ssl t !! k = None) /\
    match lrow with Some (k, l) => {[k := l]} | None => ∅ end = v_ssl (view_of (ServerID ctx) now (with_ids id ds1 id s) h') /\
    forall l, ssl_of h' (with_ids id ds1 id s) = Some l -> ssl_SiteID l = id).
  { unfold added, view_of. cbn [v_ssl]. rewrite <- list_fmap_compose, cell_ssl. destruct (cell h s) as [[a l]|] eqn:Hc.
    - destruct Hcell as (k & -> & Hk & ->). exists (Some (k, ssl_row_of l)). split_and!; [done|by intros k' l' [= <- <-]|..];
        apply cell_at in Hc as [Ha _]; rewrite ?cell_ssl; unfold cell; cbn; rewrite Ha; cbn; rewrite (lookup_insert_eq (h : gmap nat SSL) a); [done|].
      by intros l' [= <-].
    - destruct Hcell as [-> ->]. exists None. assert (Hc' : cell h (with_ids id ds1 id s) = None) by exact Hc. rewrite Hc'. by split_and!. }
  destruct Hrows as (lrow & Heq & Hlrow & Hview & Hnamed). exists t3. split_and!; [done| |..].
  - split; [done|]. intros site. destruct Hs2 as [_ Hs2]. rewrite Heq. apply Hs2.
  - destruct Hsame1 as [H1 H2], Hsame2 as [H3 H4], Hsame3 as [H5 H6]. split; cbn in *; congruence.
  - by rewrite abs_lookup, Hid.
  - rewrite Heq, abs_added; [|done|done|by rewrite <- list_fmap_compose|apply Forall_fmap; exact Hfresh|done].
    f_equal. rewrite Hview, view_of_domains by done. done.
  - eapply Forall_impl; [exact Hfree|]. intros d Hd. apply domain_free_abs; done.
  - by split_and!.
Qed.

(** No transaction is left open, and the constraints hold. *)
Definition settled (s : store) : Prop := open_tx s = None /\ sound (base s).

(** After a failure the tables are as before. *)
Lemma settled_same s s' t : settled s -> same_base s s' -> settled (with_tx None s') /\ base (with_tx None s') = base s /\ (t = base s -> base s' = t).
Proof. intros [_ Hs] [Hb _]. unfold settled. cbn. rewrite Hb. naive_solver. Qed.

Lemma store_Create_runs ctx s h st s' h' err st' :
  settled st -> on_store (store_Create ctx s h) st (s', h', err) st' ->
  settled st' /\ broken st' = broken st /\ stored_as s s' /\
  match err with
  | Some _ => base st' = base st
  | None => exists now, abs (base st) !! ID s' = None /\
      abs (base st') = <[ID s' := view_of (ServerID ctx) now s' h']> (abs (base st)) /\
      Forall (fun d => no_domain (ServerID ctx) (d_Domain d) (abs (base st))) (Domains s') /\ named s' h'
  end.
Proof.
  intros Hset (id & s1 & ->%or_new_runs & H)%runs_bind. apply runs_bind in H as (now & s1 & Hn%runs_call & H). cbn in Hn. subst s1.
  apply runs_bind in H as (x & s1 & Hx%runs_call & H). destruct Hx as [(-> & Hnone & ->)|[[e ->] ->]]; [|by destruct H as [[= -> -> ->] ->]].
  apply runs_bind in H as (x & s1 & Hx%runs_call & H).
  eapply (runs_tx _ (InsertSite id (ServerID ctx) (site_row_of s (seconds_text now)))) in Hx as [(-> & t1 & Hins & ->)|[[e ->] ->]]; [| |done].
  2:{ apply abandon_runs in H as [[= -> -> ->] ->]. by destruct (settled_same st (with_tx (Some (base st)) st) (base st) Hset) as (? & ? & _). }
  apply runs_bind in H as ([ds1 err1] & s2 & Hds & H). pose proof Hds as Hds'.
  destruct (ins_site_linked _ _ _ _ _ (proj1 (proj2 Hset)) Hins) as (Hl1 & Hid & Heq1).
  eapply insert_domains_runs in Hds' as (Hsame2 & Hmap & Hok); [|done|done|by rewrite Heq1; apply lookup_insert_eq].
  assert (Hab : forall st2, same_base st st2 -> settled (with_tx None st2) /\ broken (with_tx None st2) = broken st /\ base (with_tx None st2) = base st).
  { intros st2 Hs2. destruct (settled_same st st2 (base st) Hset Hs2) as (? & ? & _). by destruct Hs2. }
  destruct err1 as [e|].
  { apply abandon_runs in H as [[= -> -> ->] ->]. destruct (Hab s2 Hsame2) as (? & ? & ?). by split_and!. }
  destruct (Hok eq_refl) as (t0 & Ht0 & _). apply runs_bind in H as (x & s3 & Hx%runs_call & H).
  eapply (runs_tx _ (InsertApp id (app_row_of (App_ s)))) in Hx as [(-> & t2 & Happ & ->)|[[e ->] ->]]; [| |done].
  2:{ apply abandon_runs in H as [[= -> -> ->] ->]. destruct (Hab s2 Hsame2) as (? & ? & ?). by split_and!. }
  apply runs_bind in H as ([h1 err1] & s4 & Hssl & H). destruct err1 as [e|].
  { apply abandon_runs in H as [[= -> -> ->] ->]. assert (Hs4 : same_base st s4); [|destruct (Hab s4 Hs4) as (? & ? & ?); by split_and!].
    unfold insert_ssl in Hssl. destruct (cell h s) as [[a l]|]; [|by destruct Hssl].
    apply runs_bind in Hssl as (k & s5 & ->%or_new_runs & (x & s5 & Hx%runs_call & [_ ->])%runs_bind). by destruct Hx as [(? & ? & _ & _ & _ & ->)|[_ ->]]. }
  eapply (create_rows ctx id (seconds_text now) s h st t1 ds1 (with_tx (Some t1) (with_tx (Some (base st)) st)) t2 s2 h1 s4) in Hssl as (t3 & Ht3 & Hs3 & Hsame3 & Hnew & Habs & Hfree & Hnamed);
    [|apply Hset|done|done|done|done|intros t4 Ht4; congruence].
  eapply commit_runs_tx in H as [[[= -> -> ->] ->]|[[e [= -> -> ->]] ->]]; [| |done].
  - split_and!; [by split|by destruct Hsame3|done..|]. exists (seconds_text now). by split_and!.
  - destruct (Hab s4 Hsame3) as (? & ? & ?). by split_and!.
Qed.

(** ** Updating a site *)

(** An update writes neither the domains nor the owner. *)
Definition updated_row (now : string) (s : Site) (r : site_row) : site_row :=
  {| sw_name := Name s; sw_module := ModuleID s; sw_root := RootPath s; sw_status := State_ s; sw_owner := sw_owner r;
     sw_proxy_enabled := boolInt (ProxyEnabled s); sw_proxy_host := Some (ProxyHost s); sw_proxy_port := Some (ProxyPort s);
     sw_created := sw_created r; sw_updated := now |}.
Definition updated_view (now : string) (s : Site) (h : heap) (v : view) : view :=
  {| v_server := v_server v; v_row := updated_row now s (v_row v); v_domains := v_domains v; v_app := Some (app_row_of (App_ s));
     v_ssl := match ssl_of h s with Some l => <[ssl_ID l := ssl_row_of l]> (v_ssl v) | None => ∅ end |}.

(** The certificate of a site, if it has an identifier, is not one of another site. *)
Definition own_certificate (s : Site) (h : heap) (m : gmap string view) : Prop :=
  forall l id v, ssl_of h s = Some l -> m !! id = Some v -> is_Some (v_ssl v !! ssl_ID l) -> id = ID s.

Definition updated_tables (id sv : string) (row : site_row) (arow : app_row) (lmap : gmap string (string * ssl_row)) (t : tables) : tables :=
  {| t_sites := <[id := (sv, row)]> (t_sites t); t_domains := t_domains t; t_apps := alter (fun _ => arow) id (t_apps t); t_ssl := lmap |}.

Lemma abs_updated id sv row row0 arow lmap t :
  t_sites t !! id = Some (sv, row0) -> is_Some (t_apps t !! id) -> (forall id', id' <> id -> owned id' lmap = owned id' (t_ssl t)) ->
  abs (updated_tables id sv row arow lmap t) =
  <[id := {| v_server := sv; v_row := row; v_domains := snd <$> owned id (t_domains t); v_app := Some arow; v_ssl := owned id lmap |}]> (abs t).
Proof.
  intros Hrow [a Ha] Hl. apply map_eq. intros id'. rewrite abs_lookup. unfold updated_tables, view_in. cbn [t_sites t_domains t_apps t_ssl].
  destruct (decide (id' = id)) as [->|Hne].
  - rewrite !lookup_insert_eq. cbn. by rewrite lookup_alter_eq, Ha.
  - rewrite !lookup_insert_ne by done. rewrite abs_lookup. destruct (t_sites t !! id') as [r|]; [|done]. cbn. unfold view_in.
    by rewrite lookup_alter_ne, (Hl id' Hne).
Qed.

Lemma updated_sound id sv row row0 arow lmap t :
  sound t -> t_sites t !! id = Some (sv, row0) -> (forall k site l, lmap !! k = Some (site, l) -> site = id \/ exists l', t_ssl t !! k = Some (site, l')) ->
  sound (updated_tables id sv row arow lmap t).
Proof.
  intros [[H1 H2 H3 H4] H5] Hrow Hl.
  assert (Hsame : forall k, is_Some (<[id := (sv, row)]> (t_sites t) !! k) <-> is_Some (t_sites t !! k)).
  { intros k. destruct (decide (k = id)) as [->|]; [rewrite lookup_insert_eq, Hrow; by split; eauto|by rewrite lookup_insert_ne]. }
  split; [split|]; cbn.
  - intros k site sv' d [r Hr]%H1. destruct (decide (site = id)) as [->|]; [|by rewrite lookup_insert_ne by done; eauto].
    rewrite Hrow in Hr. injection Hr as -> ->. rewrite lookup_insert_eq. eauto.
  - intros site. rewrite lookup_alter_is_Some. intros Ha. by apply Hsame, H2.
  - intros k site l [->|[l' Hl']]%Hl; apply Hsame; [by rewrite Hrow|by eapply H3].
  - done.
  - intros site Hs%Hsame%H5. by rewrite lookup_alter_is_Some.
Qed.

(** The rows of certificates after the statement of an update. *)
Definition new_ssl_rows (s : Site) (h' : heap) (m : gmap string (string * ssl_row)) : gmap string (string * ssl_row) :=
  match ssl_of h' s with Some l => <[ssl_ID l := (ID s, ssl_row_of l)]> m | None => filter (fun kv => fst (snd kv) <> ID s) m end.

Lemma update_ssl_runs h s st h' err st' t :
  open_tx st = Some t -> (forall l site r, ssl_of h s = Some l -> t_ssl t !! ssl_ID l = Some (site, r) -> site = ID s) ->
  on_store (update_ssl_row h s) st (h', err) st' ->
  same_base st st' /\
  (err = None -> open_tx st' = Some (set_ssl_rows (new_ssl_rows s h' (t_ssl t)) t) /\
     forall l site r, ssl_of h' s = Some l -> t_ssl t !! ssl_ID l = Some (site, r) -> site = ID s).
Proof.
  intros Ht Hown. unfold update_ssl_row. destruct (cell h s) as [[a l]|] eqn:Hc.
  - assert (Hl : ssl_of h s = Some l) by (by rewrite cell_ssl, Hc). apply cell_at in Hc as [Ha Hh].
    intros (l' & s1 & Hl' & H)%runs_bind.
    assert (s1 = st /\ ssl_row_of l' = ssl_row_of l /\ forall site r, t_ssl t !! ssl_ID l' = Some (site, r) -> site = ID s) as (-> & _ & Hown').
    { destruct (String.eqb (ssl_ID l) ""); [|destruct Hl' as [-> ->]; split_and!; [done..|by intros site r; apply (Hown l)]].
      apply runs_bind in Hl' as (k & s2 & [Hk ->]%runs_call & [-> ->]). rewrite Ht in Hk. cbn in Hk. destruct Hk as (_ & _ & _ & Hk). split_and!; [done..|].
      cbn. by rewrite Hk. }
    apply runs_bind in H as (x & s2 & Hx%runs_call & [[= -> ->] ->]).
    eapply (runs_tx _ (UpsertSSL (ssl_ID l') (ID s) (ssl_row_of l'))) in Hx as [(-> & t1 & Hins & ->)|[[e ->] ->]]; [|by split|done].
    split; [done|]. intros _. assert (Hs' : ssl_of (<[a := l']> h) s = Some l').
    { unfold ssl_of. rewrite Ha. cbn. by rewrite (lookup_insert_eq (h : gmap nat SSL) a). }
    split; [|by rewrite Hs'; intros l1 site r [= <-]; apply Hown']. cbn. f_equal. unfold new_ssl_rows. rewrite Hs'.
    unfold ups_ssl in Hins. destruct (t_ssl t !! ssl_ID l') as [[site r]|] eqn:Hk.
    + injection Hins as <-. by rewrite (Hown' site r eq_refl).
    + unfold ins_ssl in Hins. destruct (decide _); [|done]. by injection Hins as <-.
  - intros (x & s2 & Hx%runs_call & [[= -> ->] ->])%runs_bind. assert (Hl : ssl_of h s = None) by (by rewrite cell_ssl, Hc).
    eapply (runs_tx _ (DeleteSSL (ID s))) in Hx as [(-> & t1 & Hins & ->)|[[e ->] ->]]; [|by split|done].
    split; [done|]. intros _. injection Hins as <-. unfold new_ssl_rows. rewrite Hl. by split.
Qed.

Lemma new_ssl_owned s h' m :
  (forall l site r, ssl_of h' s = Some l -> m !! ssl_ID l = Some (site, r) -> site = ID s) ->
  owned (ID s) (new_ssl_rows s h' m) = (match ssl_of h' s with Some l => <[ssl_ID l := ssl_row_of l]> (owned (ID s) m) | None => ∅ end) /\
  (forall id, id <> ID s -> owned id (new_ssl_rows s h' m) = owned id m) /\
  (forall k site l, new_ssl_rows s h' m !! k = Some (site, l) -> site = ID s \/ exists l', m !! k = Some (site, l')).
Proof.
  intros Hown. unfold new_ssl_rows. destruct (ssl_of h' s) as [l|]; split_and!.
  - apply owned_insert. intros site b Hb. by eapply Hown.
  - intros id Hne. apply owned_insert_ne; [congruence|]. intros b Hb. apply Hne. by eapply Hown.
  - intros k site l'. rewrite lookup_insert_Some. intros [[_ [= <- _]]|[_ H]]; eauto.
  - by rewrite owned_filter, decide_True.
  - intros id Hne. by rewrite owned_filter, decide_False.
  - intros k site l' [H _]%map_lookup_filter_Some. eauto.
Qed.

Lemma own_certificate_rows s h t :
  linked t -> own_certificate s h (abs t) -> forall l site r, ssl_of h s = Some l -> t_ssl t !! ssl_ID l = Some (site, r) -> site = ID s.
Proof.
  intros Hl Hown l site r Hs Hr. destruct (ssl_refers t Hl _ _ _ Hr) as [row Hrow].
  apply (Hown l site (view_in t site row) Hs); [by rewrite abs_lookup, Hrow|]. cbn. exists r. by apply owned_lookup.
Qed.

Lemma store_Update_runs ctx s h st h' err st' :
  settled st -> own_certificate s h (abs (base st)) -> on_store (store_Update ctx s h) st (h', err) st' ->
  settled st' /\ broken st' = broken st /\
  match err with
  | Some _ => base st' = base st
  | None => exists now v, abs (base st) !! ID s = Some v /\ v_server v = ServerID ctx /\
      abs (base st') = <[ID s := updated_view now s h' v]> (abs (base st))
  end.
Proof.
  intros Hset Hown (now & s1 & Hn%runs_call & H)%runs_bind. cbn in Hn. subst s1. assert (Hlk := proj1 (proj2 Hset)).
  pose proof (own_certificate_rows s h (base st) Hlk Hown) as Hrows.
  assert (Hab : forall st2, same_base st st2 -> settled (with_tx None st2) /\ broken (with_tx None st2) = broken st /\ base (with_tx None st2) = base st).
  { intros st2 Hs2. destruct (settled_same st st2 (base st) Hset Hs2) as (? & ? & _). by destruct Hs2. }
  apply runs_bind in H as (x & s1 & Hx%runs_call & H). destruct Hx as [(-> & Hnone & ->)|[[e ->] ->]]; [|by destruct H as [[= -> ->] ->]].
  apply runs_bind in H as (x & s1 & Hx%runs_call & H).
  destruct Hx as [(t & [= <-] & -> & ->)|[[e ->] ->]]; [|apply abandon_runs in H as [[= -> ->] ->]; by apply Hab].
  unfold upd_site in H. destruct (t_sites (base st) !! ID s) as [[sv row]|] eqn:Hrow; [|apply abandon_runs in H as [[= -> ->] ->]; by apply Hab].
  destruct (String.eqb_spec sv (ServerID ctx)) as [->|]; [|apply abandon_runs in H as [[= -> ->] ->]; by apply Hab]. cbn [fst snd Z.eqb] in H.
  apply runs_bind in H as (x & s2 & Hx%runs_call & H).
  eapply (runs_tx _ (UpdateApp (ID s) (app_row_of (App_ s)))) in Hx as [(-> & t2 & Happ & ->)|[[e ->] ->]];
    [|apply abandon_runs in H as [[= -> ->] ->]; by apply Hab|done]. injection Happ as <-.
  apply runs_bind in H as ([h1 err1] & s4 & Hssl & H). eapply update_ssl_runs in Hssl as [Hsame Hok]; [|done|done].
  assert (Hsame' : same_base st s4) by (by destruct Hsame). destruct err1 as [e|]; [apply abandon_runs in H as [[= -> ->] ->]; by apply Hab|].
  destruct (Hok eq_refl) as [Hopen Hown']. destruct (new_ssl_owned s h1 (t_ssl (base st)) Hown') as (Ho1 & Ho2 & Ho3).
  eapply commit_runs_tx in H as [[[= -> ->] ->]|[[e [= -> ->]] ->]]; [| |done]; [|by apply Hab].
  change (set_ssl_rows _ _) with (updated_tables (ID s) (ServerID ctx) (updated_row (seconds_text now) s row) (app_row_of (App_ s))
    (new_ssl_rows s h1 (t_ssl (base st))) (base st)).
  split_and!; [split; [done|]; by eapply updated_sound; [apply Hset|..]|by destruct Hsame'|].
  exists (seconds_text now), (view_in (base st) (ID s) (ServerID ctx, row)). split_and!; [by rewrite abs_lookup, Hrow|done|].
  cbn [base]. rewrite (abs_updated _ _ _ row); [|done|apply Hset; by rewrite Hrow|done]. rewrite Ho1. done.
Qed.

(** ** Deleting a site *)

Lemma store_Delete_runs ctx id st err st' :
  settled st -> on_store (store_Delete ctx id) st err st' ->
  settled st' /\ broken st' = broken st /\
  match err with
  | Some _ => base st' = base st
  | None => abs (base st') = match abs (base st) !! id with
                             | Some v => if String.eqb (v_server v) (ServerID ctx) then delete id (abs (base st)) else abs (base st)
                             | None => abs (base st)
                             end
  end.
Proof.
  intros Hset (x & s1 & Hx%runs_call & [-> ->])%runs_bind. destruct Hx as [[-> ->]|[[e ->] ->]]; [|done]. cbn [base with_base broken].
  destruct Hset as [Hopen Hsound]. rewrite abs_lookup. unfold del_site. destruct (t_sites (base st) !! id) as [[sv row]|] eqn:Hrow; [|by split_and!].
  cbn [fmap option_fmap option_map view_in v_server fst]. destruct (String.eqb_spec sv (ServerID ctx)) as [->|]; [|by split_and!].
  destruct Hsound as [[H1 H2 H3 H4] H5]. split_and!; [split; [done|]|done|].
  - assert (Hkeep : forall k site, is_Some (t_sites (base st) !! site) -> site <> k -> is_Some (delete k (t_sites (base st)) !! site)).
    { intros k site Hs Hne. by rewrite lookup_delete_ne. }
    split; [split|]; cbn.
    + intros k site sv' d [Hd Hne]%map_lookup_filter_Some. cbn in Hne. apply H1 in Hd as [r Hr]. exists r. by rewrite lookup_delete_ne.
    + intros site. destruct (decide (site = id)) as [->|Hne]; [rewrite lookup_delete_eq; by intros []|]. rewrite lookup_delete_ne by done.
      intros Hs. apply Hkeep; [by apply H2|done].
    + intros k site l [Hl Hne]%map_lookup_filter_Some. cbn in Hne. apply Hkeep; [by eapply H3|done].
    + intros k1 k2 s1 s2 sv' d1 d2 [Hd1 _]%map_lookup_filter_Some [Hd2 _]%map_lookup_filter_Some. by eapply H4.
    + intros site. destruct (decide (site = id)) as [->|Hne]; [rewrite lookup_delete_eq; by intros []|]. rewrite !lookup_delete_ne by done. apply H5.
  - apply map_eq. intros k. rewrite abs_lookup. cbn. destruct (decide (k = id)) as [->|Hne]; [by rewrite !lookup_delete_eq|].
    rewrite !lookup_delete_ne by done. rewrite abs_lookup. destruct (t_sites (base st) !! k) as [r|]; [|done]. cbn. unfold view_in. cbn.
    by rewrite !owned_filter, !decide_False, lookup_delete_ne by done.
Qed.

(** ** Reading *)

(** What is read of a site: everything but, if a result set was cut short, some of its domains. *)
Definition shows (whole : Prop) (f : found) (id : string) (v : view) : Prop :=
  exists ds ssl, f = related (site_of_row id (v_row v)) ds (match v_app v with Some a => app_of_row id a | None => empty_app id end) ssl /\
    ds ⊆+ (domain_of_row id <$> map_to_list (v_domains v)) /\ (whole -> ds ≡ₚ (domain_of_row id <$> map_to_list (v_domains v))) /\
    match ssl with None => v_ssl v = ∅ | Some l => exists k r, v_ssl v !! k = Some r /\ l = ssl_of_row id (k, r) end.

(** Reading changes nothing but that a result set may break off. *)
Definition only_read (st st' : store) : Prop := base st' = base st /\ open_tx st' = open_tx st /\ (broken st' = false -> broken st = false).

Lemma scan_all {A : Set} {B} (f : A -> B) w l acc last : scan_rows f w (Ok <$> l) acc last = ((acc ++ (f <$> l))%list, last).
Proof. revert acc. induction l as [|a l IH]; intros acc; csimpl; [by rewrite app_nil_r|]. rewrite IH, <- app_assoc. done. Qed.

Lemma scan_bad {A : Set} {B} (f : A -> B) w l e acc last : scan_rows f w ((Ok <$> l) ++ [Err e]) acc last = ([], Some (w e)).
Proof. revert acc. induction l as [|a l IH]; intros acc; csimpl; [done|]. apply IH. Qed.

(** What a loop over a result set has gathered when it ends without an error. *)
Lemma reads_rows_scan {A : Set} {B} (f : string * A -> B) w (m : gmap string A) st x st' bs :
  reads_rows m st x st' -> (exists rs, x = Ok rs /\ scan_rows f w (r_rows rs) [] None = (bs, None)) ->
  only_read st st' /\ exists l, bs = f <$> l /\ l ⊆+ map_to_list m /\ (broken st' = false -> l ≡ₚ map_to_list m).
Proof.
  intros [[[e ->] _]|[(l & -> & Hl & ->)|(l & tail & e & -> & Htail & Hl & ->)]] (rs & Hrs & Hscan); [done|..].
  - injection Hrs as <-. cbn in Hscan. rewrite scan_all in Hscan. injection Hscan as <-. split; [by split_and!|]. exists l. cbn.
    split_and!; [done|by rewrite Hl|done].
  - injection Hrs as <-. cbn in Hscan. destruct Htail as [->|[e' ->]].
    + rewrite app_nil_r, scan_all in Hscan. injection Hscan as <-. split; [by split_and!|]. exists l. by split_and!.
    + by rewrite scan_bad in Hscan.
Qed.

Lemma reads_rows_same {A : Set} (m : gmap string A) st x st' : reads_rows m st x st' -> only_read st st'.
Proof. intros [[_ ->]|[(l & _ & _ & ->)|(l & tail & e & _ & _ & _ & ->)]]; by split_and!. Qed.

Lemma only_read_trans st1 st2 st3 : only_read st1 st2 -> only_read st2 st3 -> only_read st1 st3.
Proof. intros (H1 & H2 & H3) (H4 & H5 & H6). split_and!; [congruence..|auto]. Qed.

Lemma loadRelations_runs id r st out st' :
  on_store (loadRelations (site_of_row id (snd r))) st out st' ->
  only_read st st' /\
  match out with Ok f => shows (broken st' = false) f id (view_in (base st) id r) | Err e => exists msg, e = Plain msg end.
Proof.
  unfold loadRelations. cbn [site_of_row f_site ID]. intros (q & s1 & Hq%runs_call & H)%runs_bind. cbn in Hq. pose proof (reads_rows_same _ _ _ _ Hq) as Hs1.
  destruct q as [rs|e]; [|destruct H as [-> ->]; split; [done|eauto]].
  destruct (scan_rows (domain_of_row id) _ (r_rows rs) [] None) as [ds [e|]] eqn:Hscan; [destruct H as [-> ->]; split; [done|eauto]|].
  eapply (reads_rows_scan (domain_of_row id) (fun e => e) _ _ _ _ ds) in Hq as [_ (l & Hds & Hl & Hall)]; [|by exists rs]. subst ds.
  apply runs_bind in H as (app & s2 & Happ%runs_call & H). assert (s2 = s1) as -> by (by destruct Happ as [[_ ->]|[_ ->]]).
  destruct app as [app|e]; [|destruct H as [-> ->]; split; [done|eauto]]. destruct Happ as [[[= ->] _]|[[e He] _]]; [|done].
  apply runs_bind in H as (ssl & s2 & Hssl%runs_call & [-> ->]). destruct Hs1 as (Hb & Ht & Hbr).
  assert (s2 = s1) as -> by (by destruct Hssl as [[_ ->]|[-> _]]). split; [by split_and!|].
  destruct ssl as [ssl|e]; [|eauto]. destruct Hssl as [[[e He] _]|[_ Hssl]]; [done|]. rewrite Hb in *.
  exists (domain_of_row id <$> l), (fmap (M := option) (ssl_of_row id) ssl). cbn [view_in v_domains v_app v_ssl v_row]. split_and!; [done|..].
  - by apply fmap_submseteq.
  - intros Hw. by rewrite (Hall Hw).
  - destruct Hssl as [(k & lr & [= ->] & Hk)|[[= ->] Hnone]]; cbn; eauto.
Qed.

Lemma SelectSite_runs ctx id st x st' :
  store_sem _ (SelectSite id (ServerID ctx)) st x st' ->
  st' = st /\ match findSite x with
              | Ok f => exists r, t_sites (base st) !! id = Some (ServerID ctx, r) /\ f = site_of_row id r
              | Err e => (exists msg, e = Plain msg) \/ (e = NotFound "site" /\ forall r, t_sites (base st) !! id <> Some (ServerID ctx, r))
              end.
Proof.
  intros [[-> ->]|[[e ->] ->]]; (split; [done|]); [|cbn; eauto].
  destruct (t_sites (base st) !! id) as [[sv r]|] eqn:Hrow; cbn; [|by right].
  destruct (String.eqb_spec sv (ServerID ctx)) as [->|Hne]; cbn; [eauto|]. right. split; [done|]. intros r' [= Heq _]. congruence.
Qed.

Definition stored (sv : string) (m : gmap string view) (id : string) (v : view) : Prop := m !! id = Some v /\ v_server v = sv.

Lemma FindByID_runs ctx id st out st' :
  on_store (store_FindByID ctx id) st out st' ->
  only_read st st' /\
  match out with
  | Ok f => exists v, stored (ServerID ctx) (abs (base st)) id v /\ shows (broken st' = false) f id v
  | Err e => e = NotFound "site" -> forall v, ~ stored (ServerID ctx) (abs (base st)) id v
  end.
Proof.
  intros (x & s1 & Hx%runs_call & H)%runs_bind. apply SelectSite_runs in Hx as [-> Hx]. destruct (findSite x) as [f|e].
  - destruct Hx as (r & Hr & ->). apply (loadRelations_runs id (ServerID ctx, r)) in H as [Hs H]. split; [done|].
    destruct out as [f|e]; [|destruct H as [msg ->]; done].
    exists (view_in (base st) id (ServerID ctx, r)). split; [|done]. split; [by rewrite abs_lookup, Hr|done].
  - destruct H as [-> ->]. split; [by split_and!|]. intros ->. destruct Hx as [[msg Hm]|[_ Hx]]; [done|]. intros v [Hv Hsv].
    rewrite abs_lookup in Hv. destruct (t_sites (base st) !! id) as [[sv r]|] eqn:Hr; [|done]. injection Hv as <-. cbn in Hsv. subst sv. by eapply Hx.
Qed.

Lemma FindByDomain_runs ctx domain st out st' :
  linked (base st) -> on_store (store_FindByDomain ctx domain) st out st' ->
  only_read st st' /\
  match out with
  | Ok f => exists id v, stored (ServerID ctx) (abs (base st)) id v /\ shows (broken st' = false) f id v /\
              exists k d, v_domains v !! k = Some d /\ dw_domain d = domain
  | Err e => e = NotFound "site" -> no_domain (ServerID ctx) domain (abs (base st))
  end.
Proof.
  intros Hl (x & s1 & Hx%runs_call & H)%runs_bind. destruct Hx as [[[e ->] ->]|[-> Hx]]; [destruct H as [-> ->]; by split_and!|].
  destruct Hx as [(site & k & d & r & -> & Hd & Hdom & Hr)|[-> Hno]].
  - apply FindByID_runs in H as [Hs H]. split; [done|].
    assert (Hv : stored (ServerID ctx) (abs (base st)) site (view_in (base st) site (ServerID ctx, r))) by (split; [by rewrite abs_lookup, Hr|done]).
    destruct out as [f|e]; [|intros He; by destruct (H He _ Hv)]. destruct H as (v & [Hv' Hsv] & Hsh). exists site, v.
    rewrite (proj1 Hv) in Hv'. injection Hv' as <-. split_and!; [done..|]. exists k, (snd d). split; [|done]. cbn.
    apply lookup_fmap_Some. exists d. split; [done|]. by apply owned_lookup.
  - destruct H as [-> ->]. split; [by split_and!|]. intros _ id v k d Hv Hsv Hd. rewrite abs_lookup in Hv.
    destruct (t_sites (base st) !! id) as [[sv r]|] eqn:Hr; [|done]. injection Hv as <-. cbn in Hsv, Hd. subst sv.
    apply lookup_fmap_Some in Hd as (d' & <- & Hd%owned_from). by eapply Hno.
Qed.

Lemma load_all_runs t (rs : list (string * (string * site_row))) st out st' :
  base st = t -> on_store (load_all ((fun r => site_of_row (fst r) (snd (snd r))) <$> rs)) st out st' ->
  only_read st st' /\
  match out with
  | Ok fs => Forall2 (fun f r => shows (broken st' = false) f (fst r) (view_in t (fst r) (snd r))) fs rs
  | Err _ => True
  end.
Proof.
  revert st out. induction rs as [|r rs IH]; intros st out Ht; rewrite ?fmap_cons; cbn [load_all fmap list_fmap].
  - intros [-> ->]. split; [by split_and!|constructor].
  - intros [(f & s1 & Hf & H)|(e & [Hs _]%loadRelations_runs & ->)]%runs_try; [|done].
    apply loadRelations_runs in Hf as [Hs1 Hf]. apply runs_try in H as [(fs & s2 & Hfs & [-> ->])|(e & Hfs & ->)].
    + apply IH in Hfs as [Hs2 Hfs]; [|by rewrite (proj1 Hs1)]. split; [by eapply only_read_trans|]. constructor; [|done]. rewrite Ht in Hf.
      destruct Hf as (ds & ssl & -> & Hsub & Hall & Hssl). exists ds, ssl. split_and!; [done..| |done]. intros Hw. apply Hall, Hs2, Hw.
    + apply IH in Hfs as [Hs2 _]; [|by rewrite (proj1 Hs1)]. split; [by eapply only_read_trans|done].
Qed.

Lemma shows_id whole f id v : shows whole f id v -> ID (f_site f) = id.
Proof. by intros (ds & ssl & -> & _). Qed.

Lemma ListAll_runs ctx st out st' :
  on_store (store_ListAll ctx) st out st' ->
  only_read st st' /\
  match out with
  | Ok fs =>
      NoDup ((fun f => ID (f_site f)) <$> fs) /\
      Forall (fun f => exists v, stored (ServerID ctx) (abs (base st)) (ID (f_site f)) v /\ shows (broken st' = false) f (ID (f_site f)) v) fs /\
      (broken st' = false -> forall id v, stored (ServerID ctx) (abs (base st)) id v -> id ∈ ((fun f => ID (f_site f)) <$> fs))
  | Err _ => True
  end.
Proof.
  intros (q & s1 & Hq%runs_call & H)%runs_bind. cbn in Hq. pose proof (reads_rows_same _ _ _ _ Hq) as Hs1.
  destruct q as [rs|e]; [|destruct H as [-> ->]; by split].
  destruct (scan_rows _ _ (r_rows rs) [] None) as [fs0 [e|]] eqn:Hscan; [destruct H as [-> ->]; by split|].
  eapply (reads_rows_scan (fun r => site_of_row (fst r) (snd r)) (fun e => e) _ _ _ _ fs0) in Hq as [_ (l & Hfs & Hl & Hall)]; [|by exists rs].
  subst fs0. set (rows := (fun kr => (fst kr, (ServerID ctx, snd kr))) <$> l : list (string * (string * site_row))).
  replace ((fun r => site_of_row (fst r) (snd r)) <$> l) with ((fun r => site_of_row (fst r) (snd (snd r))) <$> rows) in H
    by (unfold rows; by rewrite <- list_fmap_compose).
  eapply (load_all_runs (base st)) in H as [Hs2 H]; [|apply Hs1]. split; [by eapply only_read_trans|]. destruct out as [fs|]; [|done].
  assert (Hids : (fun f => ID (f_site f)) <$> fs = l.*1).
  { trans (rows.*1); [|unfold rows; by rewrite <- list_fmap_compose]. clear -H. induction H as [|f r fs rs Hsh _ IH]; [done|]. csimpl.
    by rewrite (shows_id _ _ _ _ Hsh), IH. }
  assert (Hin : forall k r, (k, r) ∈ l -> t_sites (base st) !! k = Some (ServerID ctx, r)).
  { intros k r Hk. apply owned_from, elem_of_map_to_list. by eapply elem_of_submseteq. }
  split_and!.
  - rewrite Hids. destruct (submseteq_Permutation _ _ Hl) as [l' Hl']. pose proof (NoDup_fst_map_to_list (owned (ServerID ctx) (t_sites (base st)))) as Hnd.
    rewrite Hl', fmap_app in Hnd. by apply NoDup_app in Hnd as [Hnd _].
  - apply Forall_forall. intros f Hf. apply list_elem_of_lookup_1 in Hf as [i Hi]. destruct (Forall2_lookup_l _ _ _ _ _ H Hi) as ([k [sv r]] & Hr & Hsh).
    rewrite (shows_id _ _ _ _ Hsh). cbn in *. apply list_elem_of_lookup_2 in Hr. unfold rows in Hr.
    apply list_elem_of_fmap in Hr as ([k' r'] & [= -> -> ->] & Hr). eexists. split; [|done]. split; [by rewrite abs_lookup, (Hin _ _ Hr)|done].
  - intros Hw id v [Hv Hsv]. rewrite abs_lookup in Hv. destruct (t_sites (base st) !! id) as [[sv r]|] eqn:Hr; [|done]. injection Hv as <-.
    cbn in Hsv. subst sv. rewrite Hids, (Hall (proj2 (proj2 Hs2) Hw)). apply list_elem_of_fmap. exists (id, r). split; [done|].
    apply elem_of_map_to_list. by apply owned_lookup.
Qed.

(** ** The refinement *)

Inductive repo_op : Set -> Set :=
| OpCreate (s : Site) (h : heap) : repo_op (Site * heap * option error)
| OpUpdate (s : Site) (h : heap) : repo_op (heap * option error)
| OpDelete (id : string) : repo_op (option error)
| OpFindByID (id : string) : repo_op (result error found)
| OpFindByDomain (domain : string) : repo_op (result error found)
| OpListAll : repo_op (result error (list found)).

Definition perform (ctx : context) X (op : repo_op X) : store_prog X :=
  match op with
  | OpCreate s h => store_Create ctx s h
  | OpUpdate s h => store_Update ctx s h
  | OpDelete id => store_Delete ctx id
  | OpFindByID id => store_FindByID ctx id
  | OpFindByDomain d => store_FindByDomain ctx d
  | OpListAll => store_ListAll ctx
  end.

(** One step of the abstract store: with an error it does nothing. *)
Definition site_step (sv : string) (whole : Prop) X (op : repo_op X) : gmap string view -> X -> gmap string view -> Prop :=
  match op in repo_op X return gmap string view -> X -> gmap string view -> Prop with
  | OpCreate s h => fun m x m' => let '(s', h', err) := x in stored_as s s' /\
      match err with
      | Some _ => m' = m
      | None => exists now, m !! ID s' = None /\ m' = <[ID s' := view_of sv now s' h']> m /\
                  Forall (fun d => no_domain sv (d_Domain d) m) (Domains s') /\ named s' h'
      end
  | OpUpdate s h => fun m x m' => let '(h', err) := x in
      match err with
      | Some _ => m' = m
      | None => exists now v, stored sv m (ID s) v /\ m' = <[ID s := updated_view now s h' v]> m
      end
  | OpDelete id => fun m x m' =>
      match x with
      | Some _ => m' = m
      | None => (exists v, stored sv m id v /\ m' = delete id m) \/ ((forall v, ~ stored sv m id v) /\ m' = m)
      end
  | OpFindByID id => fun m x m' => m' = m /\
      match x with
      | Ok f => exists v, stored sv m id v /\ shows whole f id v
      | Err e => e = NotFound "site" -> forall v, ~ stored sv m id v
      end
  | OpFindByDomain domain => fun m x m' => m' = m /\
      match x with
      | Ok f => exists id v, stored sv m id v /\ shows whole f id v /\ exists k d, v_domains v !! k = Some d /\ dw_domain d = domain
      | Err e => e = NotFound "site" -> no_domain sv domain m
      end
  | OpListAll => fun m x m' => m' = m /\
      match x with
      | Ok fs => NoDup ((fun f => ID (f_site f)) <$> fs) /\
                 Forall (fun f => exists v, stored sv m (ID (f_site f)) v /\ shows whole f (ID (f_site f)) v) fs /\
                 (whole -> forall id v, stored sv m id v -> id ∈ ((fun f => ID (f_site f)) <$> fs))
      | Err _ => True
      end
  end.

Definition permitted {X} (op : repo_op X) (m : gmap string view) : Prop :=
  match op with OpUpdate s h => own_certificate s h m | _ => True end.

(** C10. The repository implements a map from identifiers to whole sites.  Whatever statements, commits
    and result sets fail: an operation that reports success has done its one step on the map, all four
    tables at once, within the selected server and with domains that were free in it; one that reports
    an error has changed nothing; what is read is what the map holds, completely unless a result set
    was cut short; and no transaction is left open nor a constraint broken. *)
Theorem repository_refines ctx X (op : repo_op X) st x st' :
  settled st -> permitted op (abs (base st)) -> on_store (perform ctx X op) st x st' ->
  settled st' /\ site_step (ServerID ctx) (broken st' = false) X op (abs (base st)) x (abs (base st')).
Proof.
  intros Hset Hp H.
  assert (Hsame : only_read st st' -> settled st' /\ abs (base st') = abs (base st)).
  { intros (Hb & Ht & _). destruct Hset. unfold settled. by rewrite Hb, Ht. }
  destruct op as [s h|s h|id|id|d|]; cbn [perform] in H; cbn [site_step].
  - destruct x as [[s' h'] err]. apply store_Create_runs in H as (Hs & _ & Has & H); [|done]. split_and!; [done..|]. destruct err; [by rewrite H|done].
  - destruct x as [h' err]. apply store_Update_runs in H as (Hs & _ & H); [|done..]. split; [done|]. destruct err; [by rewrite H|].
    destruct H as (now & v & Hv & Hsv & H). by exists now, v.
  - apply store_Delete_runs in H as (Hs & _ & H); [|done]. split; [done|]. destruct x; [by rewrite H|]. unfold stored.
    destruct (abs (base st) !! id) as [v|]; [|right; split; [by intros v [? _]|done]].
    destruct (String.eqb_spec (v_server v) (ServerID ctx)); [left; by exists v|right]. split; [|done]. by intros v' [[= <-] ?].
  - apply FindByID_runs in H as [Hs H]. by destruct (Hsame Hs).
  - apply FindByDomain_runs in H as [Hs H]; [|apply Hset]. by destruct (Hsame Hs).
  - apply ListAll_runs in H as [Hs H]. by destruct (Hsame Hs).
Qed.

(** ** What was created is found *)

Definition to_seconds (l : SSL) : SSL :=
  {| ssl_ID := ssl_ID l; ssl_SiteID := ssl_SiteID l; Provider := Provider l; CertPath := CertPath l; KeyPath := KeyPath l; ForceHTTPS := ForceHTTPS l;
     AutoRenew := AutoRenew l; ssl_ExpiresAt := (fun t => stored_time (seconds_text t)) <$> ssl_ExpiresAt l |}.

(** The same site, its domains in any order and its times to the second. *)
Definition same_site (f : found) (s : Site) (h : heap) : Prop :=
  exists ds, ds ≡ₚ Domains s /\ ssl_of (f_heap f) (f_site f) = to_seconds <$> ssl_of h s /\
    exists a, f_site f = {| ID := ID s; Name := Name s; ModuleID := ModuleID s; RootPath := RootPath s; State_ := State_ s; OwnerID := OwnerID s;
                  Domains := ds; App_ := App_ s; SSL_ := a; ProxyEnabled := ProxyEnabled s; ProxyHost := ProxyHost s; ProxyPort := ProxyPort s |}.

Lemma boolInt_pos b : (0 <? boolInt b)%Z = b.
Proof. by destruct b. Qed.
Lemma boolInt_one b : (boolInt b =? 1)%Z = b.
Proof. by destruct b. Qed.

Lemma ssl_row_back id l : ssl_SiteID l = id -> ssl_of_row id (ssl_ID l, ssl_row_of l) = to_seconds l.
Proof. intros <-. unfold ssl_of_row, to_seconds. cbn. rewrite !boolInt_one, <- option_fmap_compose. done. Qed.

Lemma related_ssl f ds app ssl : ssl_of (f_heap (related f ds app ssl)) (f_site (related f ds app ssl)) = ssl.
Proof. by destruct ssl. Qed.

Lemma shows_view_of whole f sv now s h :
  named s h -> shows whole f (ID s) (view_of sv now s h) -> whole -> same_site f s h.
Proof.
  intros (Happ & Hds & Hnd & Hssl) (ds & ssl & -> & _ & Hall & Hl) Hw. specialize (Hall Hw). exists (fst <$> ds). split_and!.
  - rewrite Hall. cbn [view_of v_domains]. rewrite map_to_list_to_map by (by rewrite <- list_fmap_compose).
    rewrite <- !list_fmap_compose. clear -Hds. induction Hds as [|d ds Hd _ IH]; [done|]. csimpl. rewrite IH. unfold compose, domain_of_row. cbn.
    rewrite <- Hd. by destruct d.
  - rewrite related_ssl. cbn [view_of v_ssl] in Hl. destruct (ssl_of h s) as [l|]; destruct ssl as [l'|]; cbn; [| | |done].
    + destruct Hl as (k & r & [<- <-]%lookup_singleton_Some & ->). by rewrite ssl_row_back by (by apply Hssl).
    + by apply map_non_empty_singleton in Hl.
    + destruct Hl as (k & r & Hk & _). by rewrite lookup_empty in Hk.
  - eexists. unfold related, site_of_row. cbn. rewrite boolInt_pos. f_equal. unfold app_of_row. cbn. rewrite <- Happ. by destruct (App_ s).
Qed.

(** A site that was created is found under its identifier in the selected server, with everything
    that was stored, and in no other server. *)
Theorem created_site_found ctx s h st s' h' st1 ctx' out st2 :
  settled st -> on_store (store_Create ctx s h) st (s', h', None) st1 -> on_store (store_FindByID ctx' (ID s')) st1 out st2 -> broken st2 = false ->
  match out with
  | Ok f => ServerID ctx' = ServerID ctx /\ same_site f s' h'
  | Err e => e = NotFound "site" -> ServerID ctx' <> ServerID ctx
  end.
Proof.
  intros Hset (Hs1 & _ & _ & now & _ & Habs & _ & Hnamed)%store_Create_runs [_ Hf]%FindByID_runs Hw; [|done].
  assert (Hv : abs (base st1) !! ID s' = Some (view_of (ServerID ctx) now s' h')) by (rewrite Habs; apply lookup_insert_eq).
  destruct out as [f|e].
  - destruct Hf as (v & [Hv' Hsv] & Hsh). rewrite Hv in Hv'. injection Hv' as <-. split; [done|]. by eapply shows_view_of.
  - intros He Hsv. by eapply (Hf He).
Qed.

(** ** What the site service relies on

    [Site.site_sem] keeps sites in a map of sites and heaps; the abstract store agrees with it. *)

Definition agrees (sv : string) (e : Site * heap) (v : view) : Prop :=
  let '(s, h) := e in
  v_server v = sv /\ v_row v = updated_row (sw_updated (v_row v)) s {| sw_name := ""; sw_module := ""; sw_root := ""; sw_status := State_ s;
    sw_owner := OwnerID s; sw_proxy_enabled := 0; sw_proxy_host := None; sw_proxy_port := None; sw_created := sw_created (v_row v); sw_updated := "" |} /\
  (fun d => (dw_domain d, dw_type d)) <$> v_domains v = list_to_map ((fun d => (d_ID d, (d_Domain d, d_Type d))) <$> Domains s) /\
  v_app v = Some (app_row_of (App_ s)) /\
  match ssl_of h s with
  | None => v_ssl v = ∅
  | Some l => exists k, (ssl_ID l = "" \/ ssl_ID l = k) /\ v_ssl v = {[k := ssl_row_of l]}
  end.

Definition models (sv : string) (d : gmap string (Site * heap)) (m : gmap string view) : Prop :=
  forall id, match d !! id with
             | Some e => exists v, stored sv m id v /\ agrees sv e v
             | None => forall v, ~ stored sv m id v
             end.

(** The certificate of a site is the stored one, or there was none. *)
Definition current_certificate (s : Site) (h : heap) (v : view) : Prop :=
  forall l, ssl_of h s = Some l -> (ssl_ID l = "" -> v_ssl v = ∅) /\ (ssl_ID l <> "" -> dom (v_ssl v) ⊆ {[ssl_ID l]}).

Lemma models_insert sv d m id e v : models sv d m -> v_server v = sv -> agrees sv e v -> models sv (<[id := e]> d) (<[id := v]> m).
Proof.
  intros Hm Hsv He id'. unfold stored. destruct (decide (id' = id)) as [->|Hne].
  - rewrite !lookup_insert_eq. by exists v.
  - rewrite !lookup_insert_ne by done. apply Hm.
Qed.

Lemma agrees_view_of sv now s h : named s h -> agrees sv (s, h) (view_of sv now s h).
Proof.
  intros _. split_and!; [done|done| |done|].
  - cbn. rewrite <- list_to_map_fmap, <- list_fmap_compose. done.
  - cbn. destruct (ssl_of h s) as [l|]; [|done]. exists (ssl_ID l). auto.
Qed.

(** An update gives a new certificate an identifier and changes nothing else of the heap. *)
Definition certificate_named (s : Site) (h h' : heap) : Prop :=
  match ssl_of h s with
  | Some l => exists l', ssl_of h' s = Some l' /\ ssl_row_of l' = ssl_row_of l /\ (ssl_ID l = "" \/ ssl_ID l' = ssl_ID l)
  | None => ssl_of h' s = None
  end.

Lemma update_ssl_heap s h st x st' : on_store (update_ssl_row h s) st x st' -> certificate_named s h (fst x).
Proof.
  unfold update_ssl_row, certificate_named. rewrite cell_ssl. destruct (cell h s) as [[a l]|] eqn:Hc.
  - apply cell_at in Hc as [Ha _]. intros (l' & s1 & Hl' & (y & s2 & _ & [-> ->])%runs_bind)%runs_bind. cbn.
    exists l'. split; [unfold ssl_of; rewrite Ha; cbn; by rewrite (lookup_insert_eq (h : gmap nat SSL) a)|].
    destruct (String.eqb_spec (ssl_ID l) ""); [|by destruct Hl' as [-> _]; auto].
    apply runs_bind in Hl' as (k & s3 & _ & [-> _]). split; [done|auto].
  - intros (y & s2 & _ & [-> ->])%runs_bind. cbn. by rewrite cell_ssl, Hc.
Qed.

Lemma store_Update_heap ctx s h st h' st' : on_store (store_Update ctx s h) st (h', None) st' -> certificate_named s h h'.
Proof.
  intros (now & s1 & _ & H)%runs_bind. apply runs_bind in H as (x & s2 & _ & H). destruct x as [u|e]; [|by destruct H].
  apply runs_bind in H as (x & s3 & _ & H). destruct x as [n|e]; [|by apply abandon_runs in H as [? _]].
  destruct (n =? 0)%Z; [by apply abandon_runs in H as [? _]|]. apply runs_bind in H as (x & s4 & _ & H).
  destruct x as [v|e]; [|by apply abandon_runs in H as [? _]]. apply runs_bind in H as ([h1 err] & s5 & Hs%update_ssl_heap & H).
  destruct err as [e|]; [by apply abandon_runs in H as [? _]|]. apply runs_bind in H as (x & s6 & _ & [H _]%abandon_runs).
  destruct x; injection H as ->; done.
Qed.

Lemma agrees_updated sv now s h h' v e :
  agrees sv e v -> Domains (fst e) = Domains s -> OwnerID (fst e) = OwnerID s -> current_certificate s h v -> certificate_named s h h' ->
  agrees sv (s, h) (updated_view now s h' v).
Proof.
  destruct e as [s0 h0]. cbn [fst]. intros (Hsv & Hrow & Hds & _ & _) HD HO Hcur Hnamed. unfold agrees. cbn [updated_view v_server v_row v_domains v_app v_ssl].
  split_and!; [done| |by rewrite Hds, HD|done|].
  - rewrite Hrow. unfold updated_row. cbn. by rewrite HO.
  - unfold certificate_named in Hnamed. destruct (ssl_of h s) as [l|] eqn:Hl; [|by rewrite Hnamed].
    destruct Hnamed as (l' & -> & Hrl & Hid). destruct (Hcur l Hl) as [Hnone Hsome]. exists (ssl_ID l'). rewrite Hrl. split; [destruct Hid; auto|].
    destruct (decide (ssl_ID l = "")) as [He|He]; [by rewrite (Hnone He)|]. destruct Hid as [?|Hid]; [done|]. rewrite Hid. specialize (Hsome He).
    apply map_eq. intros k. destruct (decide (k = ssl_ID l)) as [->|Hne]; [by rewrite lookup_insert_eq, lookup_singleton_eq|].
    rewrite lookup_insert_ne, lookup_singleton_ne by done. apply not_elem_of_dom. intros Hk%Hsome%elem_of_singleton. done.
Qed.

(** What the service of sites takes the repository to do ([site_sem]), it does: a site that is
    found is the one in the map; one that is created or updated is in the map afterwards, if an
    update keeps the domains and the owner and was made from the current certificate; and a failure
    leaves the map as it was. *)
Theorem repository_serves_sites ctx d st :
  settled st -> models (ServerID ctx) d (abs (base st)) ->
  (forall id f st', on_store (store_FindByID ctx id) st (Ok f) st' ->
     exists e v, d !! id = Some e /\ agrees (ServerID ctx) e v /\ shows (broken st' = false) f id v) /\
  (forall s h s' h' err st', on_store (store_Create ctx s h) st (s', h', err) st' ->
     stored_as s s' /\
     models (ServerID ctx) (match err with None => <[ID s' := (s', h')]> d | Some _ => d end) (abs (base st'))) /\
  (forall s h h' err st' e v, d !! ID s = Some e -> Domains (fst e) = Domains s -> OwnerID (fst e) = OwnerID s ->
     stored (ServerID ctx) (abs (base st)) (ID s) v -> own_certificate s h (abs (base st)) -> current_certificate s h v ->
     on_store (store_Update ctx s h) st (h', err) st' ->
     models (ServerID ctx) (match err with None => <[ID s := (s, h)]> d | Some _ => d end) (abs (base st'))) /\
  (forall id err st', on_store (store_Delete ctx id) st err st' ->
     models (ServerID ctx) (match err with None => delete id d | Some _ => d end) (abs (base st'))).
Proof.
  intros Hset Hm. split_and!.
  - intros id f st' [_ (v & [Hv Hsv] & Hsh)]%FindByID_runs. specialize (Hm id). destruct (d !! id) as [e|]; [|by destruct (Hm v)].
    destruct Hm as (v' & [Hv' _] & Ha). rewrite Hv in Hv'. injection Hv' as <-. by exists e, v.
  - intros s h s' h' err st' (_ & _ & Has & H)%store_Create_runs; [|done]. split; [done|]. destruct err; [by rewrite H|].
    destruct H as (now & _ & -> & _ & Hn). apply models_insert; [done..|by apply agrees_view_of].
  - intros s h h' err st' e v He HD HO Hv Hown Hcur H. assert (Hh := H). apply store_Update_runs in H as (_ & _ & H); [|done..].
    destruct err; [by rewrite H|]. destruct H as (now & v' & Hv' & Hsv & ->). destruct Hv as [Hv _]. rewrite Hv in Hv'. injection Hv' as <-.
    assert (Ha := Hm (ID s)). rewrite He in Ha. destruct Ha as (v' & [Hv' _] & Ha). rewrite Hv in Hv'. injection Hv' as <-.
    apply models_insert; [done..|]. eapply agrees_updated; [done..|]. by eapply store_Update_heap.
  - intros id err st' (_ & _ & H)%store_Delete_runs; [|done]. destruct err; [by rewrite H|]. intros id'. specialize (Hm id'). rewrite H. unfold stored in *.
    destruct (decide (id' = id)) as [->|Hne].
    + rewrite lookup_delete_eq. intros v [Hv Hsv]. destruct (abs (base st) !! id) as [v0|] eqn:Hv0; [|by rewrite Hv0 in Hv].
      destruct (String.eqb_spec (v_server v0) (ServerID ctx)); [by rewrite lookup_delete_eq in Hv|]. rewrite Hv0 in Hv. by injection Hv as <-.
    + rewrite lookup_delete_ne by done. destruct (abs (base st) !! id) as [v0|]; [|done]. destruct (String.eqb _ _); [|done]. by rewrite lookup_delete_ne.
Qed.

(** ** A database that answers *)

Definition taken (t : tables) : gset string := {[""]} ∪ dom (t_sites t) ∪ dom (t_domains t) ∪ dom (t_ssl t).

Lemma fresh_unused t : unused (fresh (taken t)) t.
Proof.
  assert (H := is_fresh (taken t)). unfold taken at 2 in H. unfold unused. rewrite <- !not_elem_of_dom. set_solver.
Qed.

Definition in_tx_fn (f : tables -> option tables) (s : store) : result string () * store :=
  match open_tx s with
  | Some t => match f t with Some t' => (Ok (), with_tx (Some t') s) | None => (Err "constraint failed", s) end
  | None => (Err "no transaction", s)
  end.

Definition all_rows {A : Set} (m : gmap string A) : result string (rows (string * A)) := Ok {| r_rows := Ok <$> map_to_list m; r_Err := None |}.

(** It is one noon for ever, and nothing fails but what a constraint refuses. *)
Definition noon : time := {| t_year := 2026; t_month := 1; t_day := 2; t_hour := 12; t_min := 0; t_sec := 0; t_nsec := 0; t_off := 0 |}.

Definition answer X (c : store_call X) (s : store) : X * store :=
  match c in store_call X return X * store with
  | StNewID => (fresh (taken (default (base s) (open_tx s))), s)
  | StNow => (noon, s)
  | StBegin => match open_tx s with None => (Ok (), with_tx (Some (base s)) s) | Some _ => (Err "busy", s) end
  | StCommit => match open_tx s with Some t => (Ok (), {| base := t; open_tx := None; broken := broken s |}) | None => (Err "no transaction", s) end
  | StRollback => ((), with_tx None s)
  | InsertSite id sv row => in_tx_fn (ins_site id sv row) s
  | InsertDomain id site sv row => in_tx_fn (ins_domain id site sv row) s
  | InsertApp site row => in_tx_fn (ins_app site row) s
  | InsertSSL id site row => in_tx_fn (ins_ssl id site row) s
  | UpdateSite id sv name module root st pe ph pp updated =>
      match open_tx s with
      | Some t => let r := upd_site id sv name module root st pe ph pp updated t in (Ok (fst r), with_tx (Some (snd r)) s)
      | None => (Err "no transaction", s)
      end
  | UpdateApp site row => in_tx_fn (upd_app site row) s
  | UpsertSSL id site row => in_tx_fn (ups_ssl id site row) s
  | DeleteSSL site => in_tx_fn (del_ssl site) s
  | DeleteSite id sv => (Ok (), with_base (del_site id sv (base s)) s)
  | SelectSite id sv => (Ok (r ← t_sites (base s) !! id; if String.eqb (fst r) sv then Some (id, snd r) else None), s)
  | SelectSites sv => (all_rows (owned sv (t_sites (base s))), s)
  | SelectDomainSite domain sv => (Err "not used", s)
  | SelectDomains site => (all_rows (snd <$> owned site (t_domains (base s))), s)
  | SelectApp site => (Ok (t_apps (base s) !! site), s)
  | SelectSSL site => (Ok (head (map_to_list (owned site (t_ssl (base s))))), s)
  end.

Lemma in_tx_follows f s : in_tx f s (fst (in_tx_fn f s)) (snd (in_tx_fn f s)).
Proof.
  unfold in_tx, in_tx_fn, st_fails. destruct (open_tx s) as [t|]; [|eauto]. destruct (f t) as [t'|] eqn:Hf; [|eauto]. left. by exists t, t'.
Qed.

Lemma all_rows_reads {A : Set} (m : gmap string A) s : reads_rows m s (all_rows m) s.
Proof. right. left. by exists (map_to_list m). Qed.

Lemma answer_follows : follows store_sem answer.
Proof.
  intros X c s. destruct c; cbn; try (apply in_tx_follows); try (apply all_rows_reads); try (by left); try (right; split; [by eexists|done]).
  - split; [|done]. apply fresh_unused.
  - done.
  - destruct (open_tx s); [right; split; [by eexists|done]|by left].
  - destruct (open_tx s) as [t|]; [left; by exists t|right; split; [by eexists|done]].
  - done.
  - destruct (open_tx s) as [t|]; [left; by exists t|right; split; [by eexists|done]].
  - left. split; [by eexists|done].
  - right. split; [done|]. destruct (map_to_list _) as [|[k r] l] eqn:Hl; cbn.
    + right. split; [done|]. by apply map_to_list_empty_iff.
    + left. exists k, r. split; [done|]. apply elem_of_map_to_list. rewrite Hl. by left.
Qed.

Definition no_tables : tables := {| t_sites := ∅; t_domains := ∅; t_apps := ∅; t_ssl := ∅ |}.
Definition empty_store : store := {| base := no_tables; open_tx := None; broken := false |}.

Lemma empty_settled : settled empty_store.
Proof. split; [done|]. split; [split|]; cbn; intros *; rewrite ?lookup_empty; try done. all: by intros []. Qed.

(** A site of one domain as the service creates it. *)
Definition shop : Site :=
  {| ID := ""; Name := "Shop"; ModuleID := "nginx"; RootPath := "/var/www/shop"; State_ := StateActive; OwnerID := None;
     Domains := [{| d_ID := ""; d_SiteID := ""; d_Domain := "shop.example"; d_Type := DomainPrimary |}];
     App_ := {| a_SiteID := ""; AppType := "static"; AppVersion := None; ProxyTarget := None; CustomConfig := None |};
     SSL_ := None; ProxyEnabled := false; ProxyHost := ""; ProxyPort := 0 |}.

Definition shop_created : Site * heap * option error * store := run answer (store_Create background shop ∅) empty_store.

Lemma repository_refines_witness :
  snd (fst shop_created) = None /\ settled (snd shop_created) /\
  site_step "local" (broken (snd shop_created) = false) _ (OpCreate shop ∅) (abs (base empty_store)) (fst shop_created) (abs (base (snd shop_created))).
Proof.
  split; [vm_compute; reflexivity|].
  apply (repository_refines background _ (OpCreate shop ∅) empty_store (fst shop_created) (snd shop_created) empty_settled I).
  apply follows_runs. exact answer_follows.
Defined.

(** ** What the repository does not promise *)

Definition with_ssl (a : nat) (s : Site) : Site :=
  {| ID := ID s; Name := Name s; ModuleID := ModuleID s; RootPath := RootPath s; State_ := State_ s; OwnerID := OwnerID s; Domains := Domains s;
     App_ := App_ s; SSL_ := Some a; ProxyEnabled := ProxyEnabled s; ProxyHost := ProxyHost s; ProxyPort := ProxyPort s |}.

Definition shop_stored : store := snd shop_created.
Definition shop_secured : Site := with_ssl 0 (fst (fst (fst shop_created))).
Definition shop_heap : heap := {[0 := blank_ssl]}.
Definition first_update : heap * option error * store := run answer (store_Update background shop_secured shop_heap) shop_stored.
Definition second_update : heap * option error * store := run answer (store_Update background shop_secured shop_heap) (snd first_update).

(** Two updates made from the same reading, each of which gives the site its first certificate, both
    succeed and leave it with two, of which readers get either. *)
Theorem stale_update_two_certificates :
  settled shop_stored /\
  on_store (store_Update background shop_secured shop_heap) shop_stored (fst first_update) (snd first_update) /\
  on_store (store_Update background shop_secured shop_heap) (snd first_update) (fst second_update) (snd second_update) /\
  snd (fst first_update) = None /\ snd (fst second_update) = None /\
  (size ∘ v_ssl <$> abs (base (snd second_update)) !! ID shop_secured) = Some 2.
Proof.
  split_and!; [|apply follows_runs; exact answer_follows..|vm_compute; reflexivity|vm_compute; reflexivity|vm_compute; reflexivity].
  eapply (store_Create_runs background shop ∅ empty_store (fst (fst (fst shop_created))) (snd (fst (fst shop_created))) (snd (fst shop_created))).
  - exact empty_settled.
  - rewrite <- !surjective_pairing. apply follows_runs. exact answer_follows.
Qed.

(** The error at the end of a result set is not looked at: a site may be read without its domains,
    and the list of sites without its sites, and no error reported. *)
Theorem broken_reading_unnoticed :
  let s := snd shop_created in
  (exists f, on_store (store_FindByID background (ID shop_secured)) s (Ok f) (break s) /\ Domains (f_site f) = []) /\
  on_store (store_ListAll background) s (Ok []) (break s).
Proof.
  assert (Hbreak : forall (A : Set) (m : gmap string A) s, reads_rows m s (Ok {| r_rows := []; r_Err := Some "disk I/O error" |}) (break s)).
  { intros A m s. right. right. exists [], [], "disk I/O error". split_and!; [done|by left|apply submseteq_nil_l|done]. }
  split.
  - destruct (findSite (fst (answer _ (SelectSite (ID shop_secured) "local") shop_stored))) as [f0|] eqn:Hf; [|vm_compute in Hf; done].
    assert (Hid : ID (f_site f0) = ID shop_secured) by (vm_compute in Hf; injection Hf as <-; vm_compute; reflexivity).
    exists (related f0 [] (match t_apps (base shop_stored) !! ID (f_site f0) with Some a => app_of_row (ID (f_site f0)) a | None => empty_app (ID (f_site f0)) end)
      None). split; [|done]. apply runs_bind. eexists _, shop_stored. split; [apply runs_call; left; split; reflexivity|].
    change (findSite _) with (findSite (fst (answer _ (SelectSite (ID shop_secured) "local") shop_stored))). rewrite Hf.
    apply runs_bind. eexists _, (break shop_stored). split; [apply runs_call, Hbreak|]. cbn [r_rows scan_rows].
    apply runs_bind. eexists _, (break shop_stored). split; [apply runs_call; left; split; reflexivity|]. cbn [bind].
    apply runs_bind. eexists (Ok None), (break shop_stored). split; [apply runs_call; right; split; [done|right; split; [done|]]|by split].
    rewrite Hid. vm_compute. reflexivity.
  - unfold store_ListAll. apply runs_bind. eexists _, (break shop_stored). split; [apply runs_call, Hbreak|]. by split.
Qed.
