(* ===== verification/SiteHandlers.v ===== *)
(** * The requests for sites

    internal/core/site/handler.go: what the handlers make of a request, over the service of sites
    (Site.v) and the file manager (SiteFiles.v).  The address of the client only goes into audit
    entries and events, which [site_call] names by their kind. *)

From S2P Require Import Prelude GoStrings GoStrconv GoPath GoTime GoJson GoStruct AppErrors Effects Http SiteDomain SiteFiles.
From S2P Require Site.
Local Open Scope string_scope.
Local Open Scope go_scope.

(** ** Bodies *)

(** A pointer of a structure: null is nil. *)
Definition set_pointer {A R} (value : json -> option A) (f : option A -> R -> R) (v : json) (r : R) : option R :=
  match v with JNull => Some (f None r) | _ => a ← value v; Some (f (Some a) r) end.
Definition string_value (v : json) : option string := match v with JStr raw => unquote raw | _ => None end.
Definition bool_value (v : json) : option bool := match v with JBool b => Some b | _ => None end.
Definition int_value (v : json) : option Z := match v with JNum lit => atoi lit | _ => None end.

(** source: internal/core/site/domain.go:75-90 (CreateRequest, its tags) *)
Definition create_fields : fields_of CreateRequest := [
   ("name", set_string (fun x r => {| c_Name := x; c_Domain := c_Domain r; c_ModuleID := c_ModuleID r; c_RootPath := c_RootPath r; c_AppType := c_AppType r; c_AppVersion := c_AppVersion r; c_ProxyTarget := c_ProxyTarget r; c_SSLEnabled := c_SSLEnabled r; c_SSLProvider := c_SSLProvider r; c_SSLCert := c_SSLCert r; c_SSLKey := c_SSLKey r; c_ProxyEnabled := c_ProxyEnabled r; c_ProxyHost := c_ProxyHost r; c_ProxyPort := c_ProxyPort r |}));
   ("domain", set_string (fun x r => {| c_Name := c_Name r; c_Domain := x; c_ModuleID := c_ModuleID r; c_RootPath := c_RootPath r; c_AppType := c_AppType r; c_AppVersion := c_AppVersion r; c_ProxyTarget := c_ProxyTarget r; c_SSLEnabled := c_SSLEnabled r; c_SSLProvider := c_SSLProvider r; c_SSLCert := c_SSLCert r; c_SSLKey := c_SSLKey r; c_ProxyEnabled := c_ProxyEnabled r; c_ProxyHost := c_ProxyHost r; c_ProxyPort := c_ProxyPort r |}));
   ("module_id", set_string (fun x r => {| c_Name := c_Name r; c_Domain := c_Domain r; c_ModuleID := x; c_RootPath := c_RootPath r; c_AppType := c_AppType r; c_AppVersion := c_AppVersion r; c_ProxyTarget := c_ProxyTarget r; c_SSLEnabled := c_SSLEnabled r; c_SSLProvider := c_SSLProvider r; c_SSLCert := c_SSLCert r; c_SSLKey := c_SSLKey r; c_ProxyEnabled := c_ProxyEnabled r; c_ProxyHost := c_ProxyHost r; c_ProxyPort := c_ProxyPort r |}));
   ("root_path", set_string (fun x r => {| c_Name := c_Name r; c_Domain := c_Domain r; c_ModuleID := c_ModuleID r; c_RootPath := x; c_AppType := c_AppType r; c_AppVersion := c_AppVersion r; c_ProxyTarget := c_ProxyTarget r; c_SSLEnabled := c_SSLEnabled r; c_SSLProvider := c_SSLProvider r; c_SSLCert := c_SSLCert r; c_SSLKey := c_SSLKey r; c_ProxyEnabled := c_ProxyEnabled r; c_ProxyHost := c_ProxyHost r; c_ProxyPort := c_ProxyPort r |}));
   ("app_type", set_string (fun x r => {| c_Name := c_Name r; c_Domain := c_Domain r; c_ModuleID := c_ModuleID r; c_RootPath := c_RootPath r; c_AppType := x; c_AppVersion := c_AppVersion r; c_ProxyTarget := c_ProxyTarget r; c_SSLEnabled := c_SSLEnabled r; c_SSLProvider := c_SSLProvider r; c_SSLCert := c_SSLCert r; c_SSLKey := c_SSLKey r; c_ProxyEnabled := c_ProxyEnabled r; c_ProxyHost := c_ProxyHost r; c_ProxyPort := c_ProxyPort r |}));
   ("app_version", set_pointer string_value (fun x r => {| c_Name := c_Name r; c_Domain := c_Domain r; c_ModuleID := c_ModuleID r; c_RootPath := c_RootPath r; c_AppType := c_AppType r; c_AppVersion := x; c_ProxyTarget := c_ProxyTarget r; c_SSLEnabled := c_SSLEnabled r; c_SSLProvider := c_SSLProvider r; c_SSLCert := c_SSLCert r; c_SSLKey := c_SSLKey r; c_ProxyEnabled := c_ProxyEnabled r; c_ProxyHost := c_ProxyHost r; c_ProxyPort := c_ProxyPort r |}));
   ("proxy_target", set_pointer string_value (fun x r => {| c_Name := c_Name r; c_Domain := c_Domain r; c_ModuleID := c_ModuleID r; c_RootPath := c_RootPath r; c_AppType := c_AppType r; c_AppVersion := c_AppVersion r; c_ProxyTarget := x; c_SSLEnabled := c_SSLEnabled r; c_SSLProvider := c_SSLProvider r; c_SSLCert := c_SSLCert r; c_SSLKey := c_SSLKey r; c_ProxyEnabled := c_ProxyEnabled r; c_ProxyHost := c_ProxyHost r; c_ProxyPort := c_ProxyPort r |}));
   ("ssl_enabled", set_bool (fun x r => {| c_Name := c_Name r; c_Domain := c_Domain r; c_ModuleID := c_ModuleID r; c_RootPath := c_RootPath r; c_AppType := c_AppType r; c_AppVersion := c_AppVersion r; c_ProxyTarget := c_ProxyTarget r; c_SSLEnabled := x; c_SSLProvider := c_SSLProvider r; c_SSLCert := c_SSLCert r; c_SSLKey := c_SSLKey r; c_ProxyEnabled := c_ProxyEnabled r; c_ProxyHost := c_ProxyHost r; c_ProxyPort := c_ProxyPort r |}));
   ("ssl_provider", set_pointer string_value (fun x r => {| c_Name := c_Name r; c_Domain := c_Domain r; c_ModuleID := c_ModuleID r; c_RootPath := c_RootPath r; c_AppType := c_AppType r; c_AppVersion := c_AppVersion r; c_ProxyTarget := c_ProxyTarget r; c_SSLEnabled := c_SSLEnabled r; c_SSLProvider := x; c_SSLCert := c_SSLCert r; c_SSLKey := c_SSLKey r; c_ProxyEnabled := c_ProxyEnabled r; c_ProxyHost := c_ProxyHost r; c_ProxyPort := c_ProxyPort r |}));
   ("ssl_cert", set_pointer string_value (fun x r => {| c_Name := c_Name r; c_Domain := c_Domain r; c_ModuleID := c_ModuleID r; c_RootPath := c_RootPath r; c_AppType := c_AppType r; c_AppVersion := c_AppVersion r; c_ProxyTarget := c_ProxyTarget r; c_SSLEnabled := c_SSLEnabled r; c_SSLProvider := c_SSLProvider r; c_SSLCert := x; c_SSLKey := c_SSLKey r; c_ProxyEnabled := c_ProxyEnabled r; c_ProxyHost := c_ProxyHost r; c_ProxyPort := c_ProxyPort r |}));
   ("ssl_key", set_pointer string_value (fun x r => {| c_Name := c_Name r; c_Domain := c_Domain r; c_ModuleID := c_ModuleID r; c_RootPath := c_RootPath r; c_AppType := c_AppType r; c_AppVersion := c_AppVersion r; c_ProxyTarget := c_ProxyTarget r; c_SSLEnabled := c_SSLEnabled r; c_SSLProvider := c_SSLProvider r; c_SSLCert := c_SSLCert r; c_SSLKey := x; c_ProxyEnabled := c_ProxyEnabled r; c_ProxyHost := c_ProxyHost r; c_ProxyPort := c_ProxyPort r |}));
   ("proxy_enabled", set_bool (fun x r => {| c_Name := c_Name r; c_Domain := c_Domain r; c_ModuleID := c_ModuleID r; c_RootPath := c_RootPath r; c_AppType := c_AppType r; c_AppVersion := c_AppVersion r; c_ProxyTarget := c_ProxyTarget r; c_SSLEnabled := c_SSLEnabled r; c_SSLProvider := c_SSLProvider r; c_SSLCert := c_SSLCert r; c_SSLKey := c_SSLKey r; c_ProxyEnabled := x; c_ProxyHost := c_ProxyHost r; c_ProxyPort := c_ProxyPort r |}));
   ("proxy_host", set_pointer string_value (fun x r => {| c_Name := c_Name r; c_Domain := c_Domain r; c_ModuleID := c_ModuleID r; c_RootPath := c_RootPath r; c_AppType := c_AppType r; c_AppVersion := c_AppVersion r; c_ProxyTarget := c_ProxyTarget r; c_SSLEnabled := c_SSLEnabled r; c_SSLProvider := c_SSLProvider r; c_SSLCert := c_SSLCert r; c_SSLKey := c_SSLKey r; c_ProxyEnabled := c_ProxyEnabled r; c_ProxyHost := x; c_ProxyPort := c_ProxyPort r |}));
   ("proxy_port", set_pointer int_value (fun x r => {| c_Name := c_Name r; c_Domain := c_Domain r; c_ModuleID := c_ModuleID r; c_RootPath := c_RootPath r; c_AppType := c_AppType r; c_AppVersion := c_AppVersion r; c_ProxyTarget := c_ProxyTarget r; c_SSLEnabled := c_SSLEnabled r; c_SSLProvider := c_SSLProvider r; c_SSLCert := c_SSLCert r; c_SSLKey := c_SSLKey r; c_ProxyEnabled := c_ProxyEnabled r; c_ProxyHost := c_ProxyHost r; c_ProxyPort := x |}))].
Definition no_create : CreateRequest := {| c_Name := ""; c_Domain := ""; c_ModuleID := ""; c_RootPath := ""; c_AppType := ""; c_AppVersion := None; c_ProxyTarget := None; c_SSLEnabled := false; c_SSLProvider := None; c_SSLCert := None; c_SSLKey := None; c_ProxyEnabled := false; c_ProxyHost := None; c_ProxyPort := None |}.

(** source: internal/core/site/domain.go:93-108 (UpdateRequest, its tags) *)
Definition update_fields : fields_of UpdateRequest := [
   ("name", set_pointer string_value (fun x r => {| u_Name := x; u_ModuleID := u_ModuleID r; u_RootPath := u_RootPath r; u_AppType := u_AppType r; u_AppVersion := u_AppVersion r; u_ProxyTarget := u_ProxyTarget r; u_SSLEnabled := u_SSLEnabled r; u_SSLProvider := u_SSLProvider r; u_SSLCert := u_SSLCert r; u_SSLKey := u_SSLKey r; u_ForceHTTPS := u_ForceHTTPS r; u_ProxyEnabled := u_ProxyEnabled r; u_ProxyHost := u_ProxyHost r; u_ProxyPort := u_ProxyPort r |}));
   ("module_id", set_pointer string_value (fun x r => {| u_Name := u_Name r; u_ModuleID := x; u_RootPath := u_RootPath r; u_AppType := u_AppType r; u_AppVersion := u_AppVersion r; u_ProxyTarget := u_ProxyTarget r; u_SSLEnabled := u_SSLEnabled r; u_SSLProvider := u_SSLProvider r; u_SSLCert := u_SSLCert r; u_SSLKey := u_SSLKey r; u_ForceHTTPS := u_ForceHTTPS r; u_ProxyEnabled := u_ProxyEnabled r; u_ProxyHost := u_ProxyHost r; u_ProxyPort := u_ProxyPort r |}));
   ("root_path", set_pointer string_value (fun x r => {| u_Name := u_Name r; u_ModuleID := u_ModuleID r; u_RootPath := x; u_AppType := u_AppType r; u_AppVersion := u_AppVersion r; u_ProxyTarget := u_ProxyTarget r; u_SSLEnabled := u_SSLEnabled r; u_SSLProvider := u_SSLProvider r; u_SSLCert := u_SSLCert r; u_SSLKey := u_SSLKey r; u_ForceHTTPS := u_ForceHTTPS r; u_ProxyEnabled := u_ProxyEnabled r; u_ProxyHost := u_ProxyHost r; u_ProxyPort := u_ProxyPort r |}));
   ("app_type", set_pointer string_value (fun x r => {| u_Name := u_Name r; u_ModuleID := u_ModuleID r; u_RootPath := u_RootPath r; u_AppType := x; u_AppVersion := u_AppVersion r; u_ProxyTarget := u_ProxyTarget r; u_SSLEnabled := u_SSLEnabled r; u_SSLProvider := u_SSLProvider r; u_SSLCert := u_SSLCert r; u_SSLKey := u_SSLKey r; u_ForceHTTPS := u_ForceHTTPS r; u_ProxyEnabled := u_ProxyEnabled r; u_ProxyHost := u_ProxyHost r; u_ProxyPort := u_ProxyPort r |}));
   ("app_version", set_pointer string_value (fun x r => {| u_Name := u_Name r; u_ModuleID := u_ModuleID r; u_RootPath := u_RootPath r; u_AppType := u_AppType r; u_AppVersion := x; u_ProxyTarget := u_ProxyTarget r; u_SSLEnabled := u_SSLEnabled r; u_SSLProvider := u_SSLProvider r; u_SSLCert := u_SSLCert r; u_SSLKey := u_SSLKey r; u_ForceHTTPS := u_ForceHTTPS r; u_ProxyEnabled := u_ProxyEnabled r; u_ProxyHost := u_ProxyHost r; u_ProxyPort := u_ProxyPort r |}));
   ("proxy_target", set_pointer string_value (fun x r => {| u_Name := u_Name r; u_ModuleID := u_ModuleID r; u_RootPath := u_RootPath r; u_AppType := u_AppType r; u_AppVersion := u_AppVersion r; u_ProxyTarget := x; u_SSLEnabled := u_SSLEnabled r; u_SSLProvider := u_SSLProvider r; u_SSLCert := u_SSLCert r; u_SSLKey := u_SSLKey r; u_ForceHTTPS := u_ForceHTTPS r; u_ProxyEnabled := u_ProxyEnabled r; u_ProxyHost := u_ProxyHost r; u_ProxyPort := u_ProxyPort r |}));
   ("ssl_enabled", set_pointer bool_value (fun x r => {| u_Name := u_Name r; u_ModuleID := u_ModuleID r; u_RootPath := u_RootPath r; u_AppType := u_AppType r; u_AppVersion := u_AppVersion r; u_ProxyTarget := u_ProxyTarget r; u_SSLEnabled := x; u_SSLProvider := u_SSLProvider r; u_SSLCert := u_SSLCert r; u_SSLKey := u_SSLKey r; u_ForceHTTPS := u_ForceHTTPS r; u_ProxyEnabled := u_ProxyEnabled r; u_ProxyHost := u_ProxyHost r; u_ProxyPort := u_ProxyPort r |}));
   ("ssl_provider", set_pointer string_value (fun x r => {| u_Name := u_Name r; u_ModuleID := u_ModuleID r; u_RootPath := u_RootPath r; u_AppType := u_AppType r; u_AppVersion := u_AppVersion r; u_ProxyTarget := u_ProxyTarget r; u_SSLEnabled := u_SSLEnabled r; u_SSLProvider := x; u_SSLCert := u_SSLCert r; u_SSLKey := u_SSLKey r; u_ForceHTTPS := u_ForceHTTPS r; u_ProxyEnabled := u_ProxyEnabled r; u_ProxyHost := u_ProxyHost r; u_ProxyPort := u_ProxyPort r |}));
   ("ssl_cert", set_pointer string_value (fun x r => {| u_Name := u_Name r; u_ModuleID := u_ModuleID r; u_RootPath := u_RootPath r; u_AppType := u_AppType r; u_AppVersion := u_AppVersion r; u_ProxyTarget := u_ProxyTarget r; u_SSLEnabled := u_SSLEnabled r; u_SSLProvider := u_SSLProvider r; u_SSLCert := x; u_SSLKey := u_SSLKey r; u_ForceHTTPS := u_ForceHTTPS r; u_ProxyEnabled := u_ProxyEnabled r; u_ProxyHost := u_ProxyHost r; u_ProxyPort := u_ProxyPort r |}));
   ("ssl_key", set_pointer string_value (fun x r => {| u_Name := u_Name r; u_ModuleID := u_ModuleID r; u_RootPath := u_RootPath r; u_AppType := u_AppType r; u_AppVersion := u_AppVersion r; u_ProxyTarget := u_ProxyTarget r; u_SSLEnabled := u_SSLEnabled r; u_SSLProvider := u_SSLProvider r; u_SSLCert := u_SSLCert r; u_SSLKey := x; u_ForceHTTPS := u_ForceHTTPS r; u_ProxyEnabled := u_ProxyEnabled r; u_ProxyHost := u_ProxyHost r; u_ProxyPort := u_ProxyPort r |}));
   ("force_https", set_pointer bool_value (fun x r => {| u_Name := u_Name r; u_ModuleID := u_ModuleID r; u_RootPath := u_RootPath r; u_AppType := u_AppType r; u_AppVersion := u_AppVersion r; u_ProxyTarget := u_ProxyTarget r; u_SSLEnabled := u_SSLEnabled r; u_SSLProvider := u_SSLProvider r; u_SSLCert := u_SSLCert r; u_SSLKey := u_SSLKey r; u_ForceHTTPS := x; u_ProxyEnabled := u_ProxyEnabled r; u_ProxyHost := u_ProxyHost r; u_ProxyPort := u_ProxyPort r |}));
   ("proxy_enabled", set_pointer bool_value (fun x r => {| u_Name := u_Name r; u_ModuleID := u_ModuleID r; u_RootPath := u_RootPath r; u_AppType := u_AppType r; u_AppVersion := u_AppVersion r; u_ProxyTarget := u_ProxyTarget r; u_SSLEnabled := u_SSLEnabled r; u_SSLProvider := u_SSLProvider r; u_SSLCert := u_SSLCert r; u_SSLKey := u_SSLKey r; u_ForceHTTPS := u_ForceHTTPS r; u_ProxyEnabled := x; u_ProxyHost := u_ProxyHost r; u_ProxyPort := u_ProxyPort r |}));
   ("proxy_host", set_pointer string_value (fun x r => {| u_Name := u_Name r; u_ModuleID := u_ModuleID r; u_RootPath := u_RootPath r; u_AppType := u_AppType r; u_AppVersion := u_AppVersion r; u_ProxyTarget := u_ProxyTarget r; u_SSLEnabled := u_SSLEnabled r; u_SSLProvider := u_SSLProvider r; u_SSLCert := u_SSLCert r; u_SSLKey := u_SSLKey r; u_ForceHTTPS := u_ForceHTTPS r; u_ProxyEnabled := u_ProxyEnabled r; u_ProxyHost := x; u_ProxyPort := u_ProxyPort r |}));
   ("proxy_port", set_pointer int_value (fun x r => {| u_Name := u_Name r; u_ModuleID := u_ModuleID r; u_RootPath := u_RootPath r; u_AppType := u_AppType r; u_AppVersion := u_AppVersion r; u_ProxyTarget := u_ProxyTarget r; u_SSLEnabled := u_SSLEnabled r; u_SSLProvider := u_SSLProvider r; u_SSLCert := u_SSLCert r; u_SSLKey := u_SSLKey r; u_ForceHTTPS := u_ForceHTTPS r; u_ProxyEnabled := u_ProxyEnabled r; u_ProxyHost := u_ProxyHost r; u_ProxyPort := x |}))].
Definition no_update : UpdateRequest := {| u_Name := None; u_ModuleID := None; u_RootPath := None; u_AppType := None; u_AppVersion := None; u_ProxyTarget := None; u_SSLEnabled := None; u_SSLProvider := None; u_SSLCert := None; u_SSLKey := None; u_ForceHTTPS := None; u_ProxyEnabled := None; u_ProxyHost := None; u_ProxyPort := None |}.

(** ** Replies *)

Inductive site_payload :=
| SiteFailed (code : ErrorCode) (message : string)
| SiteList (l : list (Site * Site.heap))
| SiteOne (s : Site)
| SiteFound (s : Site) (h : Site.heap)
| SiteFiles_ (l : list string)
| SiteBytes (content : string)
| SiteMessage (text : string).
Record site_reply := { si_status : Z; si_payload : site_payload }.

(** source: internal/core/site/handler.go:311-315 (respond), before the encoding *)
Definition site_respond (status : Z) (data : site_payload) : site_reply := {| si_status := status; si_payload := data |}.

(** source: internal/core/site/handler.go:317-319 (writeError) *)
Definition site_error (err : error) : site_reply :=
  let ae := AsAppError err in {| si_status := HTTPStatus ae; si_payload := SiteFailed (Code ae) (Message ae) |}.

Definition site_answer {E : Set -> Set} {A} (ok : A -> site_reply) (p : prog E (result error A)) : prog E site_reply :=
  let! out := p in
  Ret (match out with Err e => site_error e | Ok a => ok a end).

(** source: internal/core/site/handler.go:228-233 (principalOrEmpty): its identifier *)
Definition principalOrEmpty (ctx : context) : string := match PrincipalFromContext ctx with Some p => p_ID p | None => "" end.

(** source: internal/core/site/handler.go:304-309 (realIP) *)
Definition site_realIP (r : request) : string := if String.eqb (Header r "X-Real-IP") "" then RemoteAddr r else Header r "X-Real-IP".

(** ** Sites *)

Section sites.
Context `{HUnicode : Unicode} (svc : Site.Service).

(** source: internal/core/site/service.go:74-80 (List) *)
Definition ServiceList : prog Site.site_call (result error (list (Site * Site.heap))) :=
  wrap! (Wrapped "site service: list") of sites := call Site.RepoListAll in
  Ret (Ok sites).

(** source: internal/core/site/handler.go:26-33 (List) *)
Definition HandleList : prog Site.site_call site_reply := site_answer (fun l => site_respond 200 (SiteList l)) ServiceList.

(** source: internal/core/site/service.go:83-85 (Get) *)
Definition ServiceGet (id : string) : prog Site.site_call (result error (Site * Site.heap)) := call (Site.RepoFind id).

(** source: internal/core/site/handler.go:36-44 (Get) *)
Definition HandleGet (id : string) : prog Site.site_call site_reply := site_answer (fun s => site_respond 200 (SiteFound (fst s) (snd s))) (ServiceGet id).

(** source: internal/core/site/handler.go:47-61 (Create) *)
Definition HandleCreate (r : request) (ctx : context) : prog Site.site_call site_reply :=
  match decode_first false create_fields no_create (Body r) with
  | None => Ret (site_error (InvalidInput "malformed JSON body"))
  | Some req => site_answer (fun s => site_respond 201 (SiteOne s)) (Site.Create svc req (principalOrEmpty ctx))
  end.

(** source: internal/core/site/handler.go:64-79 (Update) *)
Definition HandleUpdate (r : request) (id : string) : prog Site.site_call site_reply :=
  match decode_first false update_fields no_update (Body r) with
  | None => Ret (site_error (InvalidInput "malformed JSON body"))
  | Some req => site_answer (fun s => site_respond 200 (SiteOne s)) (Site.Update svc id req)
  end.

(** source: internal/core/site/handler.go:82-90 (Delete) *)
Definition HandleDelete (id : string) : prog Site.site_call site_reply :=
  site_answer (fun _ => site_respond 200 (SiteMessage "site deleted")) (Site.Delete svc id).

(** source: internal/core/site/handler.go:93-101 (Enable) *)
Definition HandleEnable (id : string) : prog Site.site_call site_reply :=
  site_answer (fun _ => site_respond 200 (SiteMessage "site enabled")) (Site.Enable svc id).

(** source: internal/core/site/handler.go:104-112 (Disable) *)
Definition HandleDisable (id : string) : prog Site.site_call site_reply :=
  site_answer (fun _ => site_respond 200 (SiteMessage "site disabled")) (Site.Disable svc id).
End sites.

(** ** Files *)

(** What [ParseMultipartForm], [FormFile] and [ReadAll] make of a request. *)
Inductive form := NoForm | NoFile | BadFile | FormContent (content : string).

(** The body of a batch. *)
Record batch_request := { b_Action : string; b_Paths : list string; b_DstPath : string; b_Mode : Z; b_Uid : Z; b_Gid : Z }.
Definition batch_fields : fields_of batch_request := [
   ("action", set_string (fun x r => {| b_Action := x; b_Paths := b_Paths r; b_DstPath := b_DstPath r; b_Mode := b_Mode r; b_Uid := b_Uid r; b_Gid := b_Gid r |}));
   ("paths", set_list "" (set_string (fun s _ => s)) b_Paths
      (fun x r => {| b_Action := b_Action r; b_Paths := x; b_DstPath := b_DstPath r; b_Mode := b_Mode r; b_Uid := b_Uid r; b_Gid := b_Gid r |}));
   ("dst_path", set_string (fun x r => {| b_Action := b_Action r; b_Paths := b_Paths r; b_DstPath := x; b_Mode := b_Mode r; b_Uid := b_Uid r; b_Gid := b_Gid r |}));
   ("mode", set_int 0 (2 ^ 32 - 1)
      (fun x r => {| b_Action := b_Action r; b_Paths := b_Paths r; b_DstPath := b_DstPath r; b_Mode := x; b_Uid := b_Uid r; b_Gid := b_Gid r |}));
   ("uid", set_int (- 2 ^ 63) (2 ^ 63 - 1)
      (fun x r => {| b_Action := b_Action r; b_Paths := b_Paths r; b_DstPath := b_DstPath r; b_Mode := b_Mode r; b_Uid := x; b_Gid := b_Gid r |}));
   ("gid", set_int (- 2 ^ 63) (2 ^ 63 - 1)
      (fun x r => {| b_Action := b_Action r; b_Paths := b_Paths r; b_DstPath := b_DstPath r; b_Mode := b_Mode r; b_Uid := b_Uid r; b_Gid := x |}))].
Definition no_batch : batch_request := {| b_Action := ""; b_Paths := []; b_DstPath := ""; b_Mode := 0; b_Uid := 0; b_Gid := 0 |}.

Section files.
(** The repository at the [n]th operation of a request. *)
Context (find : nat -> string -> result error Site) (has_agent : bool).
Notation agent_prog A := (prog agent_call A).

Definition with_path (r : request) (k : string -> agent_prog site_reply) : agent_prog site_reply :=
  if String.eqb (Query r "path") "" then Ret (site_error (InvalidInput "path is required")) else k (Query r "path").

(** source: internal/core/site/handler.go:117-129 (ListFiles) *)
Definition HandleListFiles (r : request) (id : string) : agent_prog site_reply :=
  let path := if String.eqb (Query r "path") "" then "/" else Query r "path" in
  site_answer (fun l => site_respond 200 (SiteFiles_ l)) (SiteFiles.List (find 0) has_agent id path).

(** source: internal/core/site/handler.go:132-147 (ReadFile) *)
Definition HandleReadFile (r : request) (id : string) : agent_prog site_reply :=
  with_path r (fun path => site_answer (fun c => site_respond 200 (SiteBytes c)) (SiteFiles.Read (find 0) has_agent id path)).

(** source: internal/core/site/handler.go:152-184 (WriteFile) *)
Definition HandleWriteFile (parsed : form) (r : request) (id : string) : agent_prog site_reply :=
  with_path r (fun path =>
    match parsed with
    | NoForm => Ret (site_error (InvalidInput "failed to parse multipart form"))
    | NoFile => Ret (site_error (InvalidInput "file field is required"))
    | BadFile => Ret (site_error (InvalidInput "failed to read file content"))
    | FormContent content =>
        site_answer (fun _ => site_respond 200 (SiteMessage "file written successfully")) (SiteFiles.Write (find 0) has_agent id path content)
    end).

(** source: internal/core/site/handler.go:187-199 (DeleteFile) *)
Definition HandleDeleteFile (r : request) (id : string) : agent_prog site_reply :=
  with_path r (fun path =>
    site_answer (fun _ => site_respond 200 (SiteMessage "file deleted successfully")) (SiteFiles.Delete (find 0) has_agent id path)).

(** source: internal/core/site/handler.go:202-224 (CreateDirectory) *)
Definition HandleCreateDirectory (r : request) (id : string) : agent_prog site_reply :=
  match decode_first false [("path", set_string (fun s _ => s))] "" (Body r) with
  | None => Ret (site_error (InvalidInput "invalid json body"))
  | Some path =>
      if String.eqb path "" then Ret (site_error (InvalidInput "path is required"))
      else site_answer (fun _ => site_respond 201 (SiteMessage "directory created successfully")) (SiteFiles.CreateDirectory (find 0) has_agent id path)
  end.

(** [dst] followed by the name of the file, if it is a directory. *)
Definition batch_target (dst p : string) : string := if has_suffix dst "/" then dst ++ base p else dst.

(** source: internal/core/site/handler.go:273-295 (BatchOperations, one path) *)
Definition batch_one (req : batch_request) (n : nat) (id p : string) : agent_prog (result error ()) :=
  let act := b_Action req in
  if String.eqb act "delete" then SiteFiles.Delete (find n) has_agent id p
  else if String.eqb act "copy" then SiteFiles.Copy (find n) has_agent id p (batch_target (b_DstPath req) p)
  else if String.eqb act "move" then SiteFiles.Rename (find n) has_agent id p (batch_target (b_DstPath req) p)
  else if String.eqb act "chmod" then SiteFiles.Chmod (find n) has_agent id p (b_Mode req)
  else if String.eqb act "chown" then SiteFiles.Chown (find n) has_agent id p (b_Uid req) (b_Gid req)
  else Ret (Err (InvalidInput "unsupported action")).

Fixpoint batch_all (req : batch_request) (n : nat) (id : string) (paths : list string) : agent_prog (result error ()) :=
  match paths with
  | [] => Ret (Ok ())
  | p :: rest => try! _ := batch_one req n id p in batch_all req (S n) id rest
  end.

(** source: internal/core/site/handler.go:236-302 (BatchOperations) *)
Definition HandleBatch (r : request) (id : string) : agent_prog site_reply :=
  match decode_first false batch_fields no_batch (Body r) with
  | None => Ret (site_error (InvalidInput "invalid json body"))
  | Some req =>
      if String.eqb (b_Action req) "archive" then
        site_answer (fun _ => site_respond 200 (SiteMessage "archive created")) (SiteFiles.CreateArchive (find 0) has_agent id (b_Paths req) (b_DstPath req))
      else if String.eqb (b_Action req) "extract" then
        match b_Paths req with
        | [p] => site_answer (fun _ => site_respond 200 (SiteMessage "archive extracted")) (SiteFiles.ExtractArchive (find 0) has_agent id p (b_DstPath req))
        | _ => Ret (site_error (InvalidInput "extract requires exactly one archive"))
        end
      else site_answer (fun _ => site_respond 200 (SiteMessage "batch operation completed")) (batch_all req 0 id (b_Paths req))
  end.
End files.

(** ** What the file requests do *)

Section confined.
Context (find : nat -> string -> result error Site) (has_agent : bool) (id : string) (site : Site).
Hypothesis Hfind : forall n, find n id = Ok site.
Hypothesis Hroot : root_normal (RootPath site).
Notation within := (calls (asked_within (RootPath site))).

Lemma within_serve n r : within (serve (find n) has_agent id r).
Proof. exact (served_within (find n) has_agent id site (Hfind n) Hroot r). Qed.

Lemma within_answer {A} (ok : A -> site_reply) (p : prog agent_call (result error A)) : within p -> within (site_answer ok p).
Proof. intros Hp. by apply calls_bind. Qed.

(** [serve] of a request for which the file manager has a result of its own. *)
Lemma within_finish {A} (p : prog agent_call (result error A)) : within (SiteFiles.finish p) -> within p.
Proof.
  unfold SiteFiles.finish. induction p as [a|X e k IH]; [done|]. intros [He Hk]. split; [done|]. intros x. apply IH, Hk.
Qed.

Lemma within_batch req n paths : within (batch_all find has_agent req n id paths).
Proof.
  revert n. induction paths as [|p paths IH]; intros n; [done|]. cbn [batch_all]. apply calls_try; [|intros _; apply IH].
  unfold batch_one. repeat (destruct (String.eqb _ _)); [apply (within_serve n (ReqDelete p))|..].
  - apply (within_serve n (ReqCopy p _)).
  - apply (within_serve n (ReqRename p _)).
  - apply (within_serve n (ReqChmod p _)).
  - apply (within_serve n (ReqChown p _ _)).
  - done.
Qed.

(** Whatever is in the path, the form or the body of a request for files of a site, the Agent is only
    asked for paths of this site; this holds of every step of a batch. *)
Theorem file_requests_confined r parsed :
  within (HandleListFiles find has_agent r id) /\ within (HandleReadFile find has_agent r id) /\ within (HandleWriteFile find has_agent parsed r id) /\
  within (HandleDeleteFile find has_agent r id) /\ within (HandleCreateDirectory find has_agent r id) /\ within (HandleBatch find has_agent r id).
Proof.
  assert (Hpath : forall k, (forall p, within (k p)) -> within (with_path r k)) by (intros k Hk; unfold with_path; by destruct (String.eqb _ _)).
  split_and!.
  - apply within_answer, within_finish. apply (within_serve 0 (ReqList _)).
  - apply Hpath. intros p. apply within_answer, within_finish. apply (within_serve 0 (ReqRead _)).
  - apply Hpath. intros p. destruct parsed; [done..|]. apply within_answer. apply (within_serve 0 (ReqWrite _ _)).
  - apply Hpath. intros p. apply within_answer. apply (within_serve 0 (ReqDelete _)).
  - unfold HandleCreateDirectory. destruct (decode_first _ _ _ _) as [p|]; [|done]. destruct (String.eqb _ _); [done|].
    apply within_answer. apply (within_serve 0 (ReqMkdir _)).
  - unfold HandleBatch. destruct (decode_first _ _ _ _) as [req|]; [|done]. destruct (String.eqb _ _).
    { apply within_answer. apply (within_serve 0 (ReqArchive _ _)). }
    destruct (String.eqb _ _); [|apply within_answer, within_batch].
    destruct (b_Paths req) as [|p [|]]; [done| |done]. apply within_answer. apply (within_serve 0 (ReqExtract _ _)).
Qed.
End confined.

(** A batch goes through its paths in order: it stops at the first that fails, with the error of that
    one, and succeeds when all have. *)
Theorem batch_in_order find has_agent req n id paths tr out :
  exec (batch_all find has_agent req n id paths) tr out ->
  exists trs, tr = concat trs /\
    match out with
    | Ok _ => length trs = length paths
    | Err e => length trs <= length paths /\ exists p t, paths !! (length trs - 1) = Some p /\ last trs = Some t /\
                 exec (batch_one find has_agent req (n + (length trs - 1)) id p) t (Err e)
    end /\
    forall i p t, paths !! i = Some p -> trs !! i = Some t -> (out = Ok () \/ S i < length trs) ->
      exec (batch_one find has_agent req (n + i) id p) t (Ok ()).
Proof.
  revert n tr. induction paths as [|p paths IH]; intros n tr; cbn [batch_all].
  - intros [-> ->]. exists []. split_and!; [done..|]. by intros i p t ?.
  - intros (t1 & t2 & [[]|e] & -> & H1 & H2)%exec_bind.
    + apply IH in H2 as (trs & -> & Hout & Hall). exists (t1 :: trs). split; [done|]. split.
      * destruct out as [u|e]; [by cbn; rewrite Hout|]. destruct Hout as (Hlen & q & t & Hq & Ht & He).
        destruct trs as [|t0 trs]; [done|]. cbn in *. rewrite Nat.sub_0_r in *. split; [lia|]. exists q, t. split_and!; [done..|].
        by rewrite Nat.add_succ_r.
      * intros [|i] q t Hq Ht Hi; cbn in *; [injection Hq as <-; injection Ht as <-; by rewrite Nat.add_0_r|].
        rewrite Nat.add_succ_r. apply (Hall i q t); [done..|]. destruct Hi; [auto|right; lia].
    + destruct H2 as [-> ->]. exists [t1]. split; [done|]. split.
      * cbn. split; [lia|]. exists p, t1. split_and!; [done..|]. by rewrite Nat.add_0_r.
      * intros i q t Hq Ht [?|Hi]; [done|]. cbn in Hi. lia.
Qed.

(** ** What they do not check *)

(** Moving several files to a destination that does not end with a slash moves all of them onto one
    path: after the first, each replaces the one before. *)
Theorem moves_onto_one_path find id p q tr :
  exec (batch_all find true {| b_Action := "move"; b_Paths := [p; q]; b_DstPath := "/archive"; b_Mode := 0; b_Uid := 0; b_Gid := 0 |} 0 id [p; q]) tr (Ok ()) ->
  exists source1 source2 target1 target2,
    tr = [Act (FileRename source1 target1) (Ok ()); Act (FileRename source2 target2) (Ok ())] /\
    resolvePath (find 0) id "/archive" = Ok target1 /\ resolvePath (find 1) id "/archive" = Ok target2.
Proof.
  assert (Hone : forall n p0 t, exec (batch_one find true {| b_Action := "move"; b_Paths := [p; q]; b_DstPath := "/archive"; b_Mode := 0; b_Uid := 0; b_Gid := 0 |}
             n id p0) t (Ok ()) -> exists s d, t = [Act (FileRename s d) (Ok ())] /\ resolvePath (find n) id "/archive" = Ok d).
  { intros n p0 t H. cbn in H. destruct (resolvePath (find n) id p0) as [s|]; [|by destruct H]. cbn in H.
    change (batch_target "/archive" p0) with "/archive" in H. destruct (resolvePath (find n) id "/archive") as [d|]; [|by destruct H]. cbn in H.
    destruct H as (x & tr' & -> & -> & <-). by exists s, d. }
  intros (t1 & t2 & [[]|e] & -> & H1 & H2)%exec_bind; [|by destruct H2].
  apply exec_bind in H2 as (t3 & t4 & [[]|e] & -> & H3 & H4); [|by destruct H4]. destruct H4 as [-> _].
  apply Hone in H1 as (s1 & d1 & -> & Hd1). apply Hone in H3 as (s2 & d2 & -> & Hd2). by exists s1, s2, d1, d2.
Qed.

(** A batch without paths succeeds whatever its action is. *)
Example empty_batch_any_action :
  let r := {| Method := "POST"; Path := "/api/v1/sites/s1/files/batch"; Header := fun _ => ""; Query := fun _ => ""; RemoteAddr := "10.0.0.9:1";
              Body := "{" ++ String dquote "action" ++ String dquote ":" ++ String dquote "format" ++ String dquote "," ++ String dquote "paths" ++ String dquote ":[]}" |} in
  HandleBatch (fun _ _ => Err (NotFound "site")) true r "s1" = Ret (site_respond 200 (SiteMessage "batch operation completed")).
Proof. vm_compute. reflexivity. Qed.
