(* ===== verification/ModulePages.v ===== *)
(** * The requests for modules

    internal/core/module: the views of modules (service.go, view.go), their pages, settings,
    presets and logs (dynamic.go), their actions (action_service.go) and the handlers (handler.go)
    over these and over the lifecycle and the jobs of Modules.v.  What a module offers beyond the
    interface Module is a set of further interfaces, here one flag each. *)

From S2P Require Import Prelude GoStrings GoStrconv GoTime GoJson GoStruct AppErrors Effects Http.
From S2P Require Modules.
Local Open Scope string_scope.
Local Open Scope go_scope.

(** ** Data *)

(** source: pkg/contract/module.go:105-111 (ActionInputDef) *)
Record ActionInputDef := { in_Key : string; in_Label : string; in_Type : string; in_Placeholder : string; in_Required : bool }.

(** source: pkg/contract/module.go:91-101 (ActionDef) *)
Record ActionDef := {
  ac_ID : string; ac_Title : string; ac_Description : string; ac_Icon : string; ac_Color : string; RequiresConfirmation : bool; Dangerous : bool;
  Disabled : bool; Inputs : list ActionInputDef }.

(** source: pkg/contract/module.go:120-127 (PageType) *)
Inductive PageType := PageTypeOverview | PageTypeSettings | PageTypeLogs | PageTypeDataGrid.
(** source: pkg/contract/module.go:130-134 (ModulePage) *)
Record ModulePage := { pg_ID : string; pg_Title : string; pg_Type : PageType }.
(** source: pkg/contract/module.go:137-142 (LogDef) *)
Record LogDef := { lg_ID : string; lg_Name : string; lg_Type : string; lg_Path : string }.
(** source: pkg/contract/module.go:145-157 (SettingField) *)
Record SettingField := {
  sf_ID : string; sf_Type : string; sf_Label : string; sf_Description : string; sf_Value : json; sf_Options : list string; sf_Category : string;
  Advanced : bool; RequiresRestart : bool; sf_Regex : string; sf_Placeholder : string }.
(** source: pkg/contract/module.go:74-78 (ModuleDependencies) *)
Record ModuleDependencies := { Required : list string; Recommended : list string; Conflicts : list string }.
(** source: pkg/contract/module.go:82-88 (ModuleCapabilities) *)
Record ModuleCapabilities := {
  SupportsService : bool; SupportsSettings : bool; SupportsLogs : bool; SupportsRestart : bool; SupportsUpdate : bool }.

(** source: pkg/contract/module.go:267-273 (PackageStatus) *)
Inductive PackageStatus := PackageInstalled | PackageNotInstalled | PackageBroken.
(** source: pkg/contract/module.go:276-282 (ServiceStatusState): empty for a module without a service *)
Inductive ServiceStatusState := NoService | ServiceRunning | ServiceStopped | ServiceFailed.
(** source: pkg/contract/module.go:302-308 (HealthStatus) *)
Inductive HealthStatus := NoHealth | HealthOK | HealthWarning | HealthError.
(** source: pkg/contract/module.go:292-299 (RuntimeStatus) *)
Record RuntimeStatus := {
  rt_Package : PackageStatus; rt_Service : ServiceStatusState; rt_Version : string; rt_Health : HealthStatus; rt_Details : string;
  rt_Properties : list (string * string * string) }.

Definition with_health (h : HealthStatus) (s : RuntimeStatus) : RuntimeStatus :=
  {| rt_Package := rt_Package s; rt_Service := rt_Service s; rt_Version := rt_Version s; rt_Health := h; rt_Details := rt_Details s;
     rt_Properties := rt_Properties s |}.

(** source: pkg/contract/module.go:692-704 (DataGridSchema, DataGridColumn) *)
Record DataGridSchema := { gs_Columns : list (string * string * string * bool); gs_Actions : list ActionDef; gs_RowActions : list ActionDef }.

(** source: pkg/contract/module.go:20-59 (Module): what a module says of itself, and the further
    interfaces it implements *)
Record module_def := {
  md_Name : string; md_Version : string; md_Description : string; md_Category : string; md_Icon : string; md_Dependencies : ModuleDependencies;
  md_Capabilities : ModuleCapabilities; md_Pages : list ModulePage; md_Actions : list ActionDef; md_Logs : list LogDef;
  md_Settings : list SettingField;
  is_grid : bool; is_settings : bool; is_presets : bool; is_logs : bool; is_availability : bool }.

(** source: internal/core/module/view.go:9-26 (ModuleView), without the status, which is never set *)
Record ModuleView := {
  mv_ID : string; mv_Name : string; mv_Version : string; mv_Software : string; mv_Description : string; mv_Category : string; mv_Icon : string;
  mv_Dependencies : ModuleDependencies; mv_Capabilities : ModuleCapabilities; mv_State : Modules.State; mv_InstalledAt : option Z;
  mv_Pages : list ModulePage; mv_Actions : list ActionDef; mv_Logs : list LogDef; mv_Settings : list SettingField }.

(** source: internal/core/module/domain.go:75-88 (JobFilter, JobPage): a state or type that is no name
    of one matches no job *)
Record JobFilter := { jf_Query : string; jf_State : string; jf_Type : string; jf_Limit : Z; jf_Offset : Z }.
Record JobPage := { jp_Items : list Modules.Job; jp_Total : Z; jp_Limit : Z; jp_Offset : Z }.

(** ** Calls *)

Inductive page_call : Set -> Set :=
| ListRecords : page_call (result error (list Modules.record))
| GetRecord (id : string) : page_call (result error Modules.record)
| GetJobRow (id : string) : page_call (result error Modules.Job)
| ListJobRows (filter : JobFilter) : page_call (result error JobPage)
| AskStatus (id : string) : page_call (result error (option RuntimeStatus))
| AskHealth (id : string) : page_call (result error (option HealthStatus))
| AskAvailability (id : string) : page_call (gmap string bool)
| DoAction (id actionID : string) : page_call (option error)
| GridSchema (id pageID : string) : page_call (result error DataGridSchema)
| GridData (id pageID : string) : page_call (result error (list json))
| GridAction (id pageID actionID : string) (payload : json) : page_call (option error)
| PutSettings (id : string) (settings : json) : page_call (option error)
| ListPresets (id : string) : page_call (result error json)
| PreviewPreset (id presetID : string) (settings : json) : page_call (result error json)
| PutPreset (id presetID : string) (settings : json) : page_call (option error)
| ResetPreset (id presetID : string) : page_call (option error)
| SwitchPreset (id presetID : string) (enabled : bool) : page_call (option error)
| GetLog (id logID : string) (lines : Z) : page_call (result error (list string))
| EmptyLog (id logID : string) : page_call (option error)
| WriteAudit (userID action resource ip : string) (success : bool) : page_call ().

(** Pages, or the lifecycle and the jobs. *)
Definition handler_call (X : Set) : Set := (Modules.module_call X + page_call X)%type.
Notation page_prog A := (prog page_call A).
Notation handler_prog A := (prog handler_call A).

Definition lifecycle {A} (p : prog Modules.module_call A) : handler_prog A := interp (fun X c => call (inl c : handler_call X)) p.
Definition paged {A} (p : page_prog A) : handler_prog A := interp (fun X c => call (inr c : handler_call X)) p.

(** An error or nothing, as a result. *)
Definition outcome (e : option error) : result error () := match e with None => Ok () | Some e => Err e end.

Section service.
(** The registry, and the order in which its map is walked. *)
Context (registry : gmap string module_def) (order : list (string * module_def)).

(** ** Views *)

Definition missing_module (id : string) : error := App (New 404 CodeModuleNotFound ("module not found: " ++ id)).

Definition default_record (id name : string) : Modules.record :=
  {| Modules.r_ID := id; Modules.r_Name := name; Modules.r_State := Modules.StateAvailable; Modules.Version := None; Modules.Config := "";
     Modules.InstalledAt := None |}.

Definition view_of (id : string) (m : module_def) (rec : Modules.record) (actions : list ActionDef) : ModuleView :=
  {| mv_ID := id; mv_Name := md_Name m; mv_Version := md_Version m; mv_Software := default "" (Modules.Version rec);
     mv_Description := md_Description m; mv_Category := md_Category m; mv_Icon := md_Icon m; mv_Dependencies := md_Dependencies m;
     mv_Capabilities := md_Capabilities m; mv_State := Modules.r_State rec; mv_InstalledAt := Modules.InstalledAt rec; mv_Pages := md_Pages m;
     mv_Actions := actions; mv_Logs := md_Logs m; mv_Settings := md_Settings m |}.

(** [byID]: the last record of an identifier. *)
Definition by_id (records : list Modules.record) : gmap string Modules.record :=
  foldl (fun m r => <[Modules.r_ID r := r]> m) ∅ records.

(** source: internal/core/module/service.go:73-116 (List) *)
Definition List : page_prog (result error (list ModuleView)) :=
  wrap! (Wrapped "module service: list") of records := call ListRecords in
  let byID := by_id records in
  Ret (Ok ((fun im => let '(id, m) := im in view_of id m (default (default_record id (md_Name m)) (byID !! id)) (md_Actions m)) <$> order)).

Definition with_disabled (b : bool) (a : ActionDef) : ActionDef :=
  {| ac_ID := ac_ID a; ac_Title := ac_Title a; ac_Description := ac_Description a; ac_Icon := ac_Icon a; ac_Color := ac_Color a;
     RequiresConfirmation := RequiresConfirmation a; Dangerous := Dangerous a; Disabled := b; Inputs := Inputs a |}.

Definition mark_available (availability : gmap string bool) (a : ActionDef) : ActionDef :=
  match availability !! ac_ID a with Some available => with_disabled (negb available) a | None => a end.

(** source: internal/core/module/service.go:119-161 (Get) *)
Definition Get (id : string) : page_prog (result error ModuleView) :=
  match registry !! id with
  | None => Ret (Err (missing_module id))
  | Some m =>
      let! rec := call (GetRecord id) in
      let rec := match rec with Ok r => r | Err _ => default_record id (md_Name m) end in
      let! actions := (if is_availability m then
                         let! availability := call (AskAvailability id) in Ret (mark_available availability <$> md_Actions m)
                       else Ret (md_Actions m)) in
      Ret (Ok (view_of id m rec actions))
  end.

(** The health of a report on a status; [None] is a panic, as the status is a nil pointer. *)
Definition set_health (h : HealthStatus) (st : option RuntimeStatus) : option (option RuntimeStatus) :=
  match st with Some s => Some (Some (with_health h s)) | None => None end.

(** source: internal/core/module/service.go:164-187 (Status): without the panic, the status, which may
    be nil *)
Definition Status (id : string) : page_prog (result error (option (option RuntimeStatus))) :=
  match registry !! id with
  | None => Ret (Err (missing_module id))
  | Some _ =>
      let! st := call (AskStatus id) in
      match st with
      | Err e => Ret (Err (App (Internal "failed to fetch status" e)))
      | Ok st =>
          let! report := call (AskHealth id) in
          Ret (Ok (match report with
                   | Err _ => set_health HealthError st
                   | Ok (Some h) => set_health h st
                   | Ok None => Some st
                   end))
      end
  end.

(** source: internal/core/module/service_events.go:18-24 (recordAudit) *)
Definition recordAudit (userID action moduleID ip : string) (success : bool) : page_prog () := call (WriteAudit userID action moduleID ip success).

(** source: internal/core/module/action_service.go:13-23 (ExecuteAction) *)
Definition ExecuteAction (id actionID userID ip : string) : page_prog (result error ()) :=
  match registry !! id with
  | None => Ret (Err (missing_module id))
  | Some _ =>
      let! err := call (DoAction id actionID) in
      match err with
      | Some e => Ret (Err (App (Internal ("execute action " ++ actionID ++ " on module " ++ id) e)))
      | None => ignore! recordAudit userID ("module.action." ++ actionID) id ip true in Ret (Ok ())
      end
  end.

(** ** Pages *)

(** The module, if it is registered and implements an interface. *)
Definition provided {A} (id unsupported : string) (has : module_def -> bool) (k : page_prog (result error A)) : page_prog (result error A) :=
  match registry !! id with
  | None => Ret (Err (Plain ("module " ++ id ++ " not found")))
  | Some m => if has m then k else Ret (Err (Plain unsupported))
  end.

Definition done_call (c : page_call (option error)) : page_prog (result error ()) := let! e := call c in Ret (outcome e).

(** source: internal/core/module/dynamic.go:11-21 (GetDataGridSchema) *)
Definition GetDataGridSchema (id pageID : string) := provided id "module does not support datagrid" is_grid (call (GridSchema id pageID)).
(** source: internal/core/module/dynamic.go:23-33 (GetDataGridData) *)
Definition GetDataGridData (id pageID : string) := provided id "module does not support datagrid" is_grid (call (GridData id pageID)).
(** source: internal/core/module/dynamic.go:35-45 (ExecuteDataGridAction) *)
Definition ExecuteDataGridAction (id pageID actionID : string) (payload : json) :=
  provided id "module does not support datagrid" is_grid (done_call (GridAction id pageID actionID payload)).
(** source: internal/core/module/dynamic.go:47-57 (SaveSettings) *)
Definition SaveSettings (id : string) (settings : json) :=
  provided id ("module " ++ id ++ " does not support saving settings") is_settings (done_call (PutSettings id settings)).

Definition no_presets (id : string) : string := "module " ++ id ++ " does not support protection presets".

(** source: internal/core/module/dynamic.go:59-69 (ProtectionPresets) *)
Definition ProtectionPresets (id : string) := provided id (no_presets id) is_presets (call (ListPresets id)).
(** source: internal/core/module/dynamic.go:71-81 (PreviewProtectionPreset) *)
Definition PreviewProtectionPreset (id presetID : string) (settings : json) :=
  provided id (no_presets id) is_presets (call (PreviewPreset id presetID settings)).

(** A change of a preset and the entry on it, of its success or its error. *)
Definition audited (c : page_call (option error)) (userID action resource ip : string) : page_prog (result error ()) :=
  let! err := call c in
  match err with
  | Some e => ignore! recordAudit userID (action ++ ".error") resource ip false in Ret (Err e)
  | None => ignore! recordAudit userID action resource ip true in Ret (Ok ())
  end.

(** source: internal/core/module/dynamic.go:83-98 (SaveProtectionPreset) *)
Definition SaveProtectionPreset (id presetID : string) (settings : json) (userID ip : string) :=
  provided id (no_presets id) is_presets (audited (PutPreset id presetID settings) userID "module.preset.save" (id ++ ":" ++ presetID) ip).
(** source: internal/core/module/dynamic.go:100-115 (ResetProtectionPreset) *)
Definition ResetProtectionPreset (id presetID userID ip : string) :=
  provided id (no_presets id) is_presets (audited (ResetPreset id presetID) userID "module.preset.reset" (id ++ ":" ++ presetID) ip).
(** source: internal/core/module/dynamic.go:117-132 (SetProtectionPresetEnabled) *)
Definition SetProtectionPresetEnabled (id presetID : string) (enabled : bool) (userID ip : string) :=
  provided id (no_presets id) is_presets (audited (SwitchPreset id presetID enabled) userID "module.preset.toggle" (id ++ ":" ++ presetID) ip).

(** source: internal/core/module/dynamic.go:134-144 (ReadLog) *)
Definition ReadLog (id logID : string) (lines : Z) :=
  provided id ("module " ++ id ++ " does not support log reading") is_logs (call (GetLog id logID lines)).
(** source: internal/core/module/dynamic.go:146-156 (ClearLog) *)
Definition ClearLog (id logID : string) :=
  provided id ("module " ++ id ++ " does not support log clearing") is_logs (done_call (EmptyLog id logID)).

(** source: internal/core/module/jobs.go:11-13 (GetJob) *)
Definition GetJob (id : string) : page_prog (result error Modules.Job) := call (GetJobRow id).

(** source: internal/core/module/jobs.go:15-23 (ListJobs) *)
Definition ListJobs (f : JobFilter) : page_prog (result error JobPage) :=
  let '(limit, offset) := Modules.page (jf_Limit f) (jf_Offset f) in
  call (ListJobRows {| jf_Query := jf_Query f; jf_State := jf_State f; jf_Type := jf_Type f; jf_Limit := limit; jf_Offset := offset |}).

(** ** Handlers *)

Inductive module_payload :=
| ModError (code : ErrorCode) (message : string)
| ModViews (l : list ModuleView)
| ModView (v : ModuleView)
| ModStatus (s : option RuntimeStatus)
| ModJob (id : string)
| ModJobRow (j : Modules.Job)
| ModJobs (p : JobPage)
| ModSchema (s : DataGridSchema)
| ModRows (l : list json)
| ModJson (v : json)
| ModLines (l : list string)
| ModMessage (text : string)
| ModNothing.
Record module_reply := { mo_status : Z; mo_payload : module_payload }.

(** source: internal/core/module/handler.go:206-210 (respond), before the encoding *)
Definition mod_respond (status : Z) (data : module_payload) : module_reply := {| mo_status := status; mo_payload := data |}.
(** source: internal/core/module/handler.go:212-214 (writeError) *)
Definition mod_error (err : error) : module_reply :=
  let ae := AsAppError err in {| mo_status := HTTPStatus ae; mo_payload := ModError (Code ae) (Message ae) |}.
(** source: internal/core/module/handler.go:216-221 (realIP) *)
Definition module_realIP (r : request) : string := if String.eqb (Header r "X-Real-IP") "" then RemoteAddr r else Header r "X-Real-IP".

Definition mod_answer {A} (ok : A -> module_reply) (p : handler_prog (result error A)) : handler_prog module_reply :=
  let! out := p in
  Ret (match out with Err e => mod_error e | Ok a => ok a end).

(** source: internal/core/module/handler.go:309-315 (presetActor): the user *)
Definition actor (ctx : context) : string := match PrincipalFromContext ctx with Some p => p_ID p | None => "" end.

Variables (info : string -> option Modules.module_info) (has_backup : bool).

(** source: internal/core/module/handler.go:24-31 (List) *)
Definition HandleList : handler_prog module_reply := mod_answer (fun l => mod_respond 200 (ModViews l)) (paged List).
(** source: internal/core/module/handler.go:34-42 (Get) *)
Definition HandleGet (id : string) : handler_prog module_reply := mod_answer (fun v => mod_respond 200 (ModView v)) (paged (Get id)).

Definition panicked : module_reply := mod_respond 500 (ModError CodeInternal "an unexpected error occurred").

(** source: internal/core/module/handler.go:45-53 (Status) *)
Definition HandleStatus (id : string) : handler_prog module_reply :=
  let! out := paged (Status id) in
  Ret (match out with Err e => mod_error e | Ok (Some s) => mod_respond 200 (ModStatus s) | Ok None => panicked end).

Definition accepted (p : handler_prog (result error string)) : handler_prog module_reply := mod_answer (fun id => mod_respond 202 (ModJob id)) p.
Definition said (text : string) (p : handler_prog (result error ())) : handler_prog module_reply :=
  mod_answer (fun _ => mod_respond 200 (ModMessage text)) p.
Definition empty_ok (p : handler_prog (result error ())) : handler_prog module_reply := mod_answer (fun _ => mod_respond 200 ModNothing) p.

(** source: internal/core/module/handler.go:56-70 (Install) *)
Definition HandleInstall (id : string) : handler_prog module_reply := accepted (lifecycle (Modules.Install info has_backup id)).
(** source: internal/core/module/handler.go:73-87 (Uninstall) *)
Definition HandleUninstall (id : string) : handler_prog module_reply := accepted (lifecycle (Modules.Uninstall info has_backup id)).
(** source: internal/core/module/handler.go:90-103 (Enable) *)
Definition HandleEnable (id : string) : handler_prog module_reply := said "module enabled" (lifecycle (Modules.Enable info has_backup id)).
(** source: internal/core/module/handler.go:106-119 (Disable) *)
Definition HandleDisable (id : string) : handler_prog module_reply := said "module disabled" (lifecycle (Modules.Disable info has_backup id)).
(** source: internal/core/module/handler.go:122-135 (Restart) *)
Definition HandleRestart (id : string) : handler_prog module_reply := said "module restarted" (lifecycle (Modules.Restart info id)).
(** source: internal/core/module/handler.go:138-152 (ExecuteAction) *)
Definition HandleExecuteAction (r : request) (ctx : context) (id actionID : string) : handler_prog module_reply :=
  said "action executed successfully" (paged (ExecuteAction id actionID (actor ctx) (module_realIP r))).

(** source: internal/core/module/handler.go:155-163 (GetJob) *)
Definition HandleGetJob (id : string) : handler_prog module_reply := mod_answer (fun j => mod_respond 200 (ModJobRow j)) (paged (GetJob id)).

(** source: internal/core/module/handler.go:165-177 (ListJobs) *)
Definition HandleListJobs (r : request) : handler_prog module_reply :=
  mod_answer (fun p => mod_respond 200 (ModJobs p))
    (paged (ListJobs {| jf_Query := Query r "q"; jf_State := Query r "state"; jf_Type := Query r "type";
                        jf_Limit := atoi_value (Query r "limit"); jf_Offset := atoi_value (Query r "offset") |})).

(** source: internal/core/module/handler.go:179-185 (CancelJob) *)
Definition HandleCancelJob (id : string) : handler_prog module_reply := said "task canceled" (lifecycle (Modules.CancelJob id)).
(** source: internal/core/module/handler.go:187-194 (RetryJob) *)
Definition HandleRetryJob (id : string) : handler_prog module_reply := accepted (lifecycle (Modules.RetryJob info id)).
(** source: internal/core/module/handler.go:196-202 (DeleteJob) *)
Definition HandleDeleteJob (id : string) : handler_prog module_reply := mod_answer (fun _ => mod_respond 204 ModNothing) (lifecycle (Modules.DeleteJob id)).

(** source: internal/core/module/handler.go:223-233 (HandleGetDataGridSchema) *)
Definition HandleGetDataGridSchema (id pageID : string) : handler_prog module_reply :=
  mod_answer (fun s => mod_respond 200 (ModSchema s)) (paged (GetDataGridSchema id pageID)).
(** source: internal/core/module/handler.go:235-245 (HandleGetDataGridData) *)
Definition HandleGetDataGridData (id pageID : string) : handler_prog module_reply :=
  mod_answer (fun l => mod_respond 200 (ModRows l)) (paged (GetDataGridData id pageID)).

(** A body as a map of any values: an object or null; its numbers are taken to be in the range of
    doubles. *)
Definition any_map (body : string) : option json :=
  match parse_first body with
  | Some (JNull, _) => Some JNull
  | Some (JObj l, _) => Some (JObj l)
  | _ => None
  end.

Definition malformed : module_reply := mod_error (InvalidInput "malformed JSON body").

(** The body where it may be missing: [no_body] is [r.Body == http.NoBody]. *)
Definition optional_map (no_body : bool) (zero : json) (r : request) (k : json -> handler_prog module_reply) : handler_prog module_reply :=
  if no_body then k zero else match any_map (Body r) with None => Ret malformed | Some v => k v end.

(** source: internal/core/module/handler.go:247-266 (HandleExecuteDataGridAction) *)
Definition HandleExecuteDataGridAction (no_body : bool) (r : request) (id pageID actionID : string) : handler_prog module_reply :=
  optional_map no_body JNull r (fun payload => empty_ok (paged (ExecuteDataGridAction id pageID actionID payload))).

(** source: internal/core/module/handler.go:268-282 (HandleSaveSettings) *)
Definition HandleSaveSettings (r : request) (id : string) : handler_prog module_reply :=
  optional_map false JNull r (fun settings => empty_ok (paged (SaveSettings id settings))).

(** source: internal/core/module/handler.go:284-291 (ProtectionPresets) *)
Definition HandleProtectionPresets (id : string) : handler_prog module_reply := mod_answer (fun v => mod_respond 200 (ModJson v)) (paged (ProtectionPresets id)).
(** source: internal/core/module/handler.go:293-307 (PreviewProtectionPreset) *)
Definition HandlePreviewPreset (no_body : bool) (r : request) (id presetID : string) : handler_prog module_reply :=
  optional_map no_body (JObj []) r (fun settings => mod_answer (fun v => mod_respond 200 (ModJson v)) (paged (PreviewProtectionPreset id presetID settings))).
(** source: internal/core/module/handler.go:317-329 (SaveProtectionPreset) *)
Definition HandleSavePreset (r : request) (ctx : context) (id presetID : string) : handler_prog module_reply :=
  optional_map false (JObj []) r (fun settings =>
    said "protection preset saved" (paged (SaveProtectionPreset id presetID settings (actor ctx) (module_realIP r)))).
(** source: internal/core/module/handler.go:331-338 (ResetProtectionPreset) *)
Definition HandleResetPreset (r : request) (ctx : context) (id presetID : string) : handler_prog module_reply :=
  said "protection preset reset" (paged (ResetProtectionPreset id presetID (actor ctx) (module_realIP r))).
(** source: internal/core/module/handler.go:340-354 (ToggleProtectionPreset) *)
Definition HandleTogglePreset (r : request) (ctx : context) (id presetID : string) : handler_prog module_reply :=
  match decode_first false [("enabled", set_bool (fun b _ => b))] false (Body r) with
  | None => Ret malformed
  | Some enabled =>
      said "protection preset state updated" (paged (SetProtectionPresetEnabled id presetID enabled (actor ctx) (module_realIP r)))
  end.

(** source: internal/core/module/handler.go:360-369 (HandleReadLog, the number of lines) *)
Definition log_lines (linesStr : string) : Z :=
  let lines := if String.eqb linesStr "" then 100%Z
               else match atoi linesStr with Some parsed => if (0 <? parsed)%Z then parsed else 100%Z | None => 100%Z end in
  if (5000 <? lines)%Z then 5000%Z else lines.

(** source: internal/core/module/handler.go:356-379 (HandleReadLog) *)
Definition HandleReadLog (r : request) (id logID : string) : handler_prog module_reply :=
  mod_answer (fun l => mod_respond 200 (ModLines l)) (paged (ReadLog id logID (log_lines (Query r "lines")))).
(** source: internal/core/module/handler.go:381-390 (HandleClearLog) *)
Definition HandleClearLog (id logID : string) : handler_prog module_reply := empty_ok (paged (ClearLog id logID)).
End service.

(** ** What they do *)

Section theorems.
Context (registry : gmap string module_def) (order : list (string * module_def)).

(** A list of modules has one view for each that is registered, with the state, version and time of
    its record, or as an available one. *)
Theorem views_of_registry tr views :
  order ≡ₚ map_to_list registry -> exec (List order) tr (Ok views) ->
  exists records, tr = [Act ListRecords (Ok records)] /\ mv_ID <$> views ≡ₚ (map_to_list registry).*1 /\
    Forall (fun v => match by_id records !! mv_ID v with
                     | Some r => mv_State v = Modules.r_State r /\ mv_InstalledAt v = Modules.InstalledAt r
                     | None => mv_State v = Modules.StateAvailable /\ mv_InstalledAt v = None
                     end) views.
Proof.
  intros Ho (t1 & t2 & records & -> & ->%exec_call & [-> Hv])%exec_wrap. injection Hv as ->. exists records. split; [done|]. split.
  - rewrite <- Ho, <- list_fmap_compose. apply reflexive_eq. apply list_fmap_ext. by intros i [id m] _.
  - apply Forall_fmap, Forall_forall. intros [id m] _. cbn. by destruct (by_id records !! id).
Qed.

(** ** Providers *)

(** A module is only asked for what it implements. *)
Definition implemented X (c : page_call X) : Prop :=
  let has (f : module_def -> bool) (id : string) := exists m, registry !! id = Some m /\ f m = true in
  match c with
  | AskStatus id | AskHealth id | DoAction id _ => is_Some (registry !! id)
  | AskAvailability id => has is_availability id
  | GridSchema id _ | GridData id _ | GridAction id _ _ _ => has is_grid id
  | PutSettings id _ => has is_settings id
  | ListPresets id | PreviewPreset id _ _ | PutPreset id _ _ | ResetPreset id _ | SwitchPreset id _ _ => has is_presets id
  | GetLog id _ _ | EmptyLog id _ => has is_logs id
  | _ => True
  end.

Lemma provided_calls {A} id msg has (k : page_prog (result error A)) :
  (forall m, registry !! id = Some m -> has m = true -> calls implemented k) -> calls implemented (provided registry id msg has k).
Proof. unfold provided. intros Hk. destruct (registry !! id) as [m|]; [|done]. destruct (has m) eqn:Hm; [eauto|done]. Qed.

(** The requests for pages. *)
Inductive page_request : forall A, page_prog A -> Prop :=
| req_list : page_request _ (List order)
| req_get id : page_request _ (Get registry id)
| req_status id : page_request _ (Status registry id)
| req_action id a u ip : page_request _ (ExecuteAction registry id a u ip)
| req_schema id p : page_request _ (GetDataGridSchema registry id p)
| req_data id p : page_request _ (GetDataGridData registry id p)
| req_grid id p a v : page_request _ (ExecuteDataGridAction registry id p a v)
| req_settings id v : page_request _ (SaveSettings registry id v)
| req_presets id : page_request _ (ProtectionPresets registry id)
| req_preview id p v : page_request _ (PreviewProtectionPreset registry id p v)
| req_save id p v u ip : page_request _ (SaveProtectionPreset registry id p v u ip)
| req_reset id p u ip : page_request _ (ResetProtectionPreset registry id p u ip)
| req_toggle id p b u ip : page_request _ (SetProtectionPresetEnabled registry id p b u ip)
| req_log id l n : page_request _ (ReadLog registry id l n)
| req_clear id l : page_request _ (ClearLog registry id l)
| req_job id : page_request _ (GetJob id)
| req_jobs f : page_request _ (ListJobs f).

(** Whatever module a request names, only a registered module is called, and only through an
    interface it implements. *)
Theorem providers_only A (p : page_prog A) : page_request A p -> calls implemented p.
Proof.
  destruct 1; unfold GetDataGridSchema, GetDataGridData, ExecuteDataGridAction, SaveSettings, ProtectionPresets, PreviewProtectionPreset,
    SaveProtectionPreset, ResetProtectionPreset, SetProtectionPresetEnabled, ReadLog, ClearLog;
    try (apply provided_calls; intros m Hm Hf; unfold done_call, audited, recordAudit;
      repeat first [apply calls_call; first [exact I|by exists m]|apply calls_bind; [|intro]|case_match|exact I]).
  - unfold List. calls_walk.
  - unfold Get. destruct (registry !! id) as [m|] eqn:Hm; [|done]. apply calls_bind; [by apply calls_call|]. intros rec.
    apply calls_bind; [|by intros]. destruct (is_availability m) eqn:Hf; [|done]. apply calls_bind; [apply calls_call; by exists m|by intros].
  - unfold Status. destruct (registry !! id) as [m|] eqn:Hm; [|done].
    apply calls_bind; [apply calls_call; cbn; by rewrite Hm|]. intros [st|e]; [|done]. apply calls_bind; [apply calls_call; cbn; by rewrite Hm|by intros].
  - unfold ExecuteAction, recordAudit. destruct (registry !! id) as [m|] eqn:Hm; [|done].
    apply calls_bind; [apply calls_call; cbn; by rewrite Hm|]. intros [e|]; calls_walk.
  - by apply calls_call.
  - unfold ListJobs. destruct (Modules.page _ _). by apply calls_call.
Qed.

(** ** Audit *)

(** A change of a preset is recorded once, right after it, under the user and the address of the
    request, with the outcome it had; and the reply has the same outcome. *)
Theorem preset_changes_audited id presetID settings userID ip tr out m :
  registry !! id = Some m -> is_presets m = true ->
  exec (SaveProtectionPreset registry id presetID settings userID ip) tr out ->
  exists e, tr = [Act (PutPreset id presetID settings) e;
                  Act (WriteAudit userID ("module.preset.save" ++ match e with Some _ => ".error" | None => "" end) (id ++ ":" ++ presetID) ip
                         (match e with Some _ => false | None => true end)) ()] /\ out = outcome e.
Proof.
  unfold SaveProtectionPreset, provided. intros -> ->. unfold audited, recordAudit.
  intros (t1 & t2 & e & -> & ->%exec_call & H)%exec_bind. exists e.
  destruct e as [e|]; apply exec_bind in H as (t3 & t4 & [] & -> & ->%exec_call & [-> ->]); done.
Qed.
End theorems.

(** ** Bounds *)

(** At least one line of a log is asked for, and at most 5000; a number in between is taken as it is. *)
Theorem log_lines_bounded s :
  (1 <= log_lines s <= 5000)%Z /\ forall n, atoi s = Some n -> (1 <= n <= 5000)%Z -> s <> "" -> log_lines s = n.
Proof.
  unfold log_lines. split.
  - destruct (String.eqb s ""); [done|]. destruct (atoi s) as [n|]; [|done]. destruct (0 <? n)%Z eqn:H0; [|done]. destruct (5000 <? n)%Z eqn:H5; lia.
  - intros n Hn Hb Hs. destruct (String.eqb_spec s ""); [done|]. rewrite Hn. destruct (0 <? n)%Z eqn:H0; [|lia]. destruct (5000 <? n)%Z eqn:H5; lia.
Qed.

(** A page of jobs has at most a hundred, from an offset that is not negative. *)
Theorem job_pages_bounded f tr out :
  exec (ListJobs f) tr out -> exists g, tr = [Act (ListJobRows g) out] /\ (1 <= jf_Limit g <= 100)%Z /\ (0 <= jf_Offset g)%Z /\
    jf_Query g = jf_Query f /\ jf_State g = jf_State f /\ jf_Type g = jf_Type f.
Proof.
  unfold ListJobs, Modules.page. intros ->%exec_call. eexists. split; [done|]. cbn.
  destruct ((jf_Limit f <=? 0) || (100 <? jf_Limit f))%Z eqn:Hl, (jf_Offset f <? 0)%Z eqn:Ho; split_and!; try done; try lia.
Qed.

(** ** Errors that are not what they say *)

(** A page of a module that is not registered is an internal error, where its view is one that is
    not found. *)
Theorem unknown_module_status registry info has_backup id pageID :
  registry !! id = None ->
  HandleGetDataGridData registry id pageID = Ret (mod_error (Plain ("module " ++ id ++ " not found"))) /\
  mo_status (mod_error (Plain ("module " ++ id ++ " not found"))) = 500%Z /\
  HandleGet registry id = Ret (mod_error (missing_module id)) /\ mo_status (mod_error (missing_module id)) = 404%Z /\
  (info id = None -> HandleInstall info has_backup id = Ret (mod_error (missing_module id))).
Proof.
  intros Hr. unfold HandleGetDataGridData, GetDataGridData, provided, HandleGet, Get. rewrite Hr. split_and!; try done.
  intros Hi. unfold HandleInstall, Modules.Install. by rewrite Hi.
Qed.

(** A request without a body is refused where a body may be missing, if the body is not [http.NoBody]
    itself; and the limit on bodies replaces it in every request under /api/. *)
Theorem empty_body_refused registry r id pageID actionID :
  Body r = "" -> HandleExecuteDataGridAction registry false r id pageID actionID = Ret malformed /\ mo_status malformed = 400%Z.
Proof. intros Hb. unfold HandleExecuteDataGridAction, optional_map, any_map. by rewrite Hb. Qed.
