(* ===== verification/Php.v ===== *)
(** * The PHP module

    modules/php: the pools of PHP-FPM that sites of type php run in, and the lifecycle of the
    packages.  The module asks the Agent through [agent_op]; while it waits for a socket it also
    listens to a ticker, a timer and the end of the request. *)

From S2P Require Import Prelude GoStrings GoStrconv GoPath AppErrors Effects AgentApi SiteDomain Site ModulePages.
From S2P Require Executor.
Local Open Scope string_scope.
Local Open Scope go_scope.

(** What [select] receives. *)
Inductive php_event := Timeout | Tick | Gone (e : error).
Inductive wait_call : Set -> Set := Select : wait_call php_event.

Definition php_call (X : Set) : Set := (agent_op X + wait_call X)%type.
Notation php_prog A := (prog php_call A).

Definition ask {X : Set} (op : agent_op X) : php_prog X := Effects.call (inl op : php_call X).
Definition select : php_prog php_event := Effects.call (inr Select : php_call php_event).

Definition newline : string := String (ascii_of_nat 10) "".

(** ** Pools *)

(** source: modules/php/pools.go:11-25 (PoolConfig): the values as a list in the order in which the
    map is walked *)
Record PoolConfig := {
  pc_Name : string; pc_User : string; pc_Group : string; pc_Listen : string; MaxChildren : Z; StartServers : Z; MinSpareServers : Z;
  MaxSpareServers : Z; MaxRequests : Z; RequestSlowlog : string; Slowlog : string; pc_ErrorLog : string; PhpAdminValues : list (string * string) }.

Definition or_default (d z : Z) : Z := if (z =? 0)%Z then d else z.

(** source: modules/php/pools.go:29-43 (CreatePool, the defaults) *)
Definition pool_defaults (version : string) (c : PoolConfig) : PoolConfig :=
  {| pc_Name := pc_Name c; pc_User := pc_User c; pc_Group := pc_Group c;
     pc_Listen := if String.eqb (pc_Listen c) "" then "/run/php/php" ++ version ++ "-fpm-" ++ pc_Name c ++ ".sock" else pc_Listen c;
     MaxChildren := or_default 5 (MaxChildren c); StartServers := or_default 2 (StartServers c); MinSpareServers := or_default 1 (MinSpareServers c);
     MaxSpareServers := or_default 3 (MaxSpareServers c); MaxRequests := MaxRequests c; RequestSlowlog := RequestSlowlog c; Slowlog := Slowlog c;
     pc_ErrorLog := pc_ErrorLog c; PhpAdminValues := PhpAdminValues c |}.

(** The settings of a pool: names and values. *)
Definition pool_settings (c : PoolConfig) : list (string * string) :=
  [("user", pc_User c); ("group", pc_Group c); ("listen", pc_Listen c); ("listen.owner", pc_User c); ("listen.group", pc_Group c); ("pm", "dynamic");
   ("pm.max_children", itoa (MaxChildren c)); ("pm.start_servers", itoa (StartServers c)); ("pm.min_spare_servers", itoa (MinSpareServers c));
   ("pm.max_spare_servers", itoa (MaxSpareServers c)); ("pm.max_requests", itoa (MaxRequests c))] ++
  (if negb (String.eqb (RequestSlowlog c) "") && negb (String.eqb (Slowlog c) "")
   then [("request_slowlog_timeout", RequestSlowlog c); ("slowlog", Slowlog c)] else []) ++
  ((fun kv => ("php_admin_value[" ++ fst kv ++ "]", snd kv)) <$> PhpAdminValues c).

Definition setting_line (kv : string * string) : string := fst kv ++ " = " ++ snd kv ++ newline.

(** source: modules/php/pools.go:45-82 (CreatePool, the text) *)
Definition pool_text (c : PoolConfig) : string := "[" ++ pc_Name c ++ "]" ++ newline ++ String.concat "" (setting_line <$> pool_settings c).

Definition pool_dir (version : string) : string := "/etc/php/" ++ version ++ "/fpm/pool.d".
Definition pool_path (version name : string) : string := path_join (pool_dir version) (name ++ ".conf").
Definition fpm (version : string) : string := "php" ++ version ++ "-fpm".

(** source: modules/php/pools.go:28-102 (CreatePool) *)
Definition CreatePool (version : string) (cfg : PoolConfig) : php_prog (result error ()) :=
  let cfg := pool_defaults version cfg in
  wrap! (Wrapped ("failed to create pool directory " ++ pool_dir version)) of _ := ask (DirCreate_ (pool_dir version) 493) in
  wrap! (Wrapped "failed to write PHP pool config") of _ := ask (FileWrite_ (pool_path version (pc_Name cfg)) (pool_text cfg) 420) in
  wrap! (Wrapped "failed to restart PHP-FPM service") of _ := ask (ServiceAct VRestart (fpm version)) in
  Ret (Ok ()).

(** source: modules/php/pools.go:105-122 (DeletePool) *)
Definition DeletePool (version poolName : string) : php_prog (result error ()) :=
  let! deleted := ask (FileDelete_ (pool_path version poolName)) in
  match deleted with
  | Err e =>
      if contains (error_text e) "no such file" then
        wrap! (Wrapped "failed to restart php-fpm after deleting pool") of _ := ask (ServiceAct VRestart (fpm version)) in Ret (Ok ())
      else Ret (Err (Wrapped "failed to delete pool config" e))
  | Ok _ => wrap! (Wrapped "failed to restart php-fpm after deleting pool") of _ := ask (ServiceAct VRestart (fpm version)) in Ret (Ok ())
  end.

(** ** The application server of a site *)

Section module.
(** The setting default_version of the module, and whether the Agent of the selected server is a
    remote one that has the operation for sockets. *)
Context (default_version : option string) (remote_socket : bool).

(** source: modules/php/module.go:93-99 (ApplyApp, one look at the socket): the client of the Agent
    returns the exit code 0 beside an error *)
Definition socket_ready (listen : string) : php_prog bool :=
  if remote_socket then let! exists_ := ask (UnixSocketExists_ listen) in Ret (match exists_ with Ok b => b | Err _ => false end)
  else let! out := ask (CommandExecute_ "test" ["-S"; listen]) in
       Ret (match out with Ok (code, _, _) => (code =? 0)%Z | Err _ => true end).

(** source: modules/php/module.go:88-109 (ApplyApp, the wait): [turns] turns of the loop, and nothing
    if it has not ended by then *)
Fixpoint await_socket (listen : string) (turns : nat) : php_prog (option (result error ())) :=
  match turns with
  | 0 => Ret None
  | S turns' =>
      let! event := select in
      match event with
      | Timeout => Ret (Some (Err (Plain ("php-fpm socket " ++ listen ++ " did not appear after 5 seconds"))))
      | Gone e => Ret (Some (Err e))
      | Tick => let! ready := socket_ready listen in if ready then Ret (Some (Ok ())) else await_socket listen turns'
      end
  end.

Definition php_version (site : SiteSpec) : string := if String.eqb (sp_AppVersion site) "" then default "8.3" default_version else sp_AppVersion site.

Definition site_listen (version domain : string) : string := "/run/php/php" ++ version ++ "-fpm-" ++ domain ++ ".sock".
Definition site_pool (version domain : string) : PoolConfig :=
  {| pc_Name := domain; pc_User := "www-data"; pc_Group := "www-data"; pc_Listen := site_listen version domain; MaxChildren := 5; StartServers := 2;
     MinSpareServers := 1; MaxSpareServers := 3; MaxRequests := 0; RequestSlowlog := ""; Slowlog := ""; pc_ErrorLog := ""; PhpAdminValues := [] |}.

(** source: modules/php/module.go:61-117 (ApplyApp) *)
Definition ApplyApp (turns : nat) (action : SiteAction) (site : SiteSpec) : php_prog (option (result error ())) :=
  if negb (String.eqb (sp_AppType site) "php") || String.eqb (PrimaryDomain site) "" then Ret (Some (Ok ()))
  else
    let version := php_version site in
    match action with
    | SiteUpsert | SiteEnable =>
        let! out := CreatePool version (site_pool version (PrimaryDomain site)) in
        match out with
        | Err e => Ret (Some (Err (Wrapped "failed to create php pool" e)))
        | Ok _ => await_socket (site_listen version (PrimaryDomain site)) turns
        end
    | SiteDisable | SiteDelete =>
        let! out := DeletePool version (PrimaryDomain site) in
        Ret (Some (match out with Err e => Err (Wrapped "failed to delete php pool" e) | Ok _ => Ok () end))
    end.

(** ** Packages and services *)

(** source: modules/php/module.go:20-20 (supportedVersions) *)
Definition supportedVersions : list string := ["8.1"; "8.2"; "8.3"; "8.4"].

(** source: modules/php/module.go:145-159 (InstallVersion) *)
Definition InstallVersion (version : string) : php_prog (result error ()) :=
  wrap! (Wrapped ("php: install " ++ version)) of _ := ask (PackageInstall_ (fpm version)) in
  Ret (Ok ()).

(** source: modules/php/module.go:140-142 (Install) *)
Definition Install : php_prog (result error ()) := InstallVersion "8.3".

Fixpoint remove_versions (l : list string) : php_prog () :=
  match l with
  | [] => Ret ()
  | v :: l' => ignore! ask (PackageRemove_ (fpm v)) in remove_versions l'
  end.

(** source: modules/php/module.go:161-172 (Uninstall) *)
Definition Uninstall : php_prog (result error ()) := ignore! remove_versions supportedVersions in Ret (Ok ()).

(** source: modules/php/module.go:174-181 (Enable) *)
Definition Enable : php_prog (result error ()) :=
  try! _ := ask (ServiceAct VEnable "php8.3-fpm") in ask (ServiceAct VStart "php8.3-fpm").

Fixpoint stop_versions (l : list string) : php_prog () :=
  match l with
  | [] => Ret ()
  | v :: l' => ignore! ask (ServiceAct VStop (fpm v)) in ignore! ask (ServiceAct VDisable (fpm v)) in stop_versions l'
  end.

(** source: modules/php/module.go:183-190 (Disable) *)
Definition Disable : php_prog (result error ()) := ignore! stop_versions supportedVersions in Ret (Ok ()).

(** source: modules/php/module.go:192-194 (Restart) *)
Definition Restart : php_prog (result error ()) := ask (ServiceAct VRestart "php8.3-fpm").

(** source: modules/php/module.go:196-218 (Status) *)
Definition Status : php_prog RuntimeStatus :=
  let! pkg := ask (PackageInstalled_ "php8.3-fpm") in
  let '(installed, version) := match pkg with Ok p => p | Err _ => (false, "") end in
  let! svc := ask (ServiceStatus_ "php8.3-fpm") in
  Ret {| rt_Package := if installed then PackageInstalled else PackageNotInstalled;
         rt_Service := match svc with Ok s => if cs_Active s then ServiceRunning else ServiceStopped | Err _ => ServiceFailed end;
         rt_Version := version; rt_Health := NoHealth; rt_Details := ""; rt_Properties := [] |}.

Fixpoint check_versions (l : list string) : php_prog (list (string * bool)) :=
  match l with
  | [] => Ret []
  | v :: l' =>
      let! st := ask (ServiceStatus_ (fpm v)) in
      let! rest := check_versions l' in
      Ret (match st with Ok s => (fpm v, cs_Active s) :: rest | Err _ => rest end)
  end.

(** source: modules/php/module.go:220-245 (HealthCheck): the overall status and the checks *)
Definition HealthCheck : php_prog (HealthStatus * list (string * HealthStatus)) :=
  let! checks := check_versions supportedVersions in
  let grade (b : bool) := if b then HealthOK else HealthWarning in
  Ret (grade (existsb snd checks), (fun c => (fst c, grade (snd c))) <$> checks).

(** source: modules/php/module.go:43-51 (Capabilities) *)
Definition Capabilities : ModuleCapabilities :=
  {| SupportsService := true; SupportsSettings := true; SupportsLogs := true; SupportsRestart := true; SupportsUpdate := true |}.

(** source: modules/php/module.go:264-275 (Pages) *)
Definition Pages : list ModulePage :=
  [{| pg_ID := "overview"; pg_Title := "Overview"; pg_Type := PageTypeOverview |}] ++
  (if SupportsSettings Capabilities then [{| pg_ID := "settings"; pg_Title := "Settings"; pg_Type := PageTypeSettings |}] else []) ++
  (if SupportsLogs Capabilities then [{| pg_ID := "logs"; pg_Title := "Logs"; pg_Type := PageTypeLogs |}] else []).

(** source: modules/php/module.go:256-261 (Logs) *)
Definition Logs : list LogDef :=
  if SupportsService Capabilities then [{| lg_ID := "service"; lg_Name := "Systemd Log"; lg_Type := "systemd"; lg_Path := "" |}] else [].

(** source: modules/php/module.go:253-255 (ExecuteAction) *)
Definition ExecuteAction (actionID : string) : php_prog (result error ()) := Ret (Err (Plain ("unknown action: " ++ actionID))).
End module.

(** ** What the pools are afterwards

    The disk of the server, and for every service the disk as it was when the service last
    started.  A failed write may have replaced the file; a failed restart may have stopped the
    service or not. *)
Record fpm_host := { disk : gmap string string; running : gmap string (gmap string string) }.

Definition agent_sem (X : Set) (op : agent_op X) (s : fpm_host) : X -> fpm_host -> Prop :=
  match op in agent_op Y return (Y -> fpm_host -> Prop) with
  | FileWrite_ path text _ => fun x s' =>
      running s' = running s /\ match x with Ok _ => disk s' = <[path := text]> (disk s) | Err _ => exists t, disk s' = disk s \/ disk s' = <[path := t]> (disk s) end
  | FileDelete_ path => fun x s' =>
      running s' = running s /\
      match x with Ok _ => disk s' = delete path (disk s) | Err e => disk s' = disk s /\ (contains (error_text e) "no such file" = true -> disk s !! path = None) end
  | ServiceAct VRestart svc => fun x s' =>
      disk s' = disk s /\
      match x with Ok _ => running s' = <[svc := disk s]> (running s) | Err _ => forall svc', svc' <> svc -> running s' !! svc' = running s !! svc' end
  | _ => fun _ s' => s' = s
  end.

Definition fpm_sem (X : Set) (c : php_call X) : fpm_host -> X -> fpm_host -> Prop :=
  match c with inl op => agent_sem X op | inr _ => fun s _ s' => s' = s end.

(** The files of the disk other than [path] are the same. *)
Definition keeps_others (path : string) (s s' : fpm_host) : Prop := forall p, p <> path -> disk s' !! p = disk s !! p.

#[local] Instance keeps_others_refl path : Reflexive (keeps_others path).
Proof. by intros s p. Qed.

#[local] Instance keeps_others_trans path : Transitive (keeps_others path).
Proof. intros a b c Hab Hbc p Hp. by rewrite Hbc, Hab. Qed.

(** The calls of the module that touch only the file of one pool. *)
Definition of_pool (path : string) (X : Set) (c : php_call X) : Prop :=
  match c with
  | inl (FileWrite_ p _ _) | inl (FileDelete_ p) => p = path
  | inl (DirCreate_ _ _) | inl (ServiceAct VRestart _) | inl (UnixSocketExists_ _) | inl (CommandExecute_ _ _) | inr _ => True
  | _ => False
  end.

Lemma of_pool_keeps path X (c : php_call X) s x s' : of_pool path X c -> fpm_sem X c s x s' -> keeps_others path s s'.
Proof.
  destruct c as [op|w]; [|by intros _ ->]. destruct op as [[]| | | | | | | | | | | | | | | | | | | | | | | | | | | | | |]; cbn; try done;
    try (intros ? ->; done).
  - intros _ [Hd _] p _. by rewrite Hd.
  - intros -> [_ Hd] p Hp. destruct x as [u|e]; [rewrite Hd; by rewrite lookup_insert_ne|].
    destruct Hd as (t & [->| ->]); [done|by rewrite lookup_insert_ne].
  - intros -> [_ Hd] p Hp. destruct x as [u|e]; [rewrite Hd; by rewrite lookup_delete_ne|]. by destruct Hd as [-> _].
Qed.

(** What an action of the trace received from [select]. *)
Definition event_of (a : action php_call) : option php_event :=
  match a with
  | @Act _ X c x => match c with
                    | inl _ => fun _ => None
                    | inr w => match w in wait_call Y return Y -> option php_event with Select => Some end
                    end x
  end.

Section wait.
Context (remote_socket : bool) (listen : string).

Lemma await_of_pool path turns : calls (of_pool path) (await_socket remote_socket listen turns).
Proof.
  induction turns as [|turns IH]; [exact I|]. split; [exact I|]. intros [| |e]; [exact I| |exact I].
  assert (forall ready : bool, calls (of_pool path) (if ready then Ret (Some (Ok ())) else await_socket remote_socket listen turns)) as Hnext by by intros [].
  unfold socket_ready. destruct remote_socket; (split; [exact I|]; intros x; apply Hnext).
Qed.

Lemma await_quiet turns s r s' : runs fpm_sem (await_socket remote_socket listen turns) s r s' -> s' = s.
Proof.
  revert s. induction turns as [|turns IH]; intros s; [by intros [_ ->]|]. intros (event & s1 & -> & Hr). destruct event as [| |e]; [by destruct Hr| |by destruct Hr]. cbn [bind] in Hr.
  apply runs_bind in Hr as (ready & s2 & Hq & Hr).
  assert (s2 = s) as ->. { unfold socket_ready in Hq. destruct remote_socket; cbn in Hq; destruct Hq as (y & s3 & Hs & _ & Hs2); by subst. }
  destruct ready; [by destruct Hr|by eauto].
Qed.

(** The wait ends: at the latest when the timer fires or the request ends, whichever turn that is. *)
Lemma await_ends turns tr r :
  exec (await_socket remote_socket listen turns) tr r -> Exists (fun a => exists ev, event_of a = Some ev /\ ev <> Tick) tr -> exists out, r = Some out.
Proof.
  revert tr. induction turns as [|turns IH]; intros tr; [intros [-> _] Hex; by apply Exists_nil in Hex|]. intros (event & tr' & -> & Hr) Hex.
  destruct event as [| |e]; [destruct Hr as [_ ->]; eauto| |destruct Hr as [_ ->]; eauto]. cbn [bind] in Hr.
  apply Exists_cons in Hex as [(ev & [= <-] & Hev)|Hex]; [done|].
  apply exec_bind in Hr as (t1 & t2 & ready & -> & Hq & Hr). destruct ready; [destruct Hr as [_ ->]; eauto|]. apply (IH t2 Hr).
  apply Exists_app in Hex as [Hex|Hex]; [exfalso|done]. unfold socket_ready in Hq.
  destruct remote_socket; destruct Hq as (x & t3 & -> & -> & _); apply Exists_cons in Hex as [(ev & [=] & _)|Hex]; by apply Exists_nil in Hex.
Qed.
End wait.

Lemma create_of_pool version c : calls (of_pool (pool_path version (pc_Name c))) (CreatePool version c).
Proof. unfold CreatePool. repeat (split; [done|]; intros []; cbn [bind_wrap bind Effects.call]); first [exact I|done]. Qed.

Lemma delete_of_pool version name : calls (of_pool (pool_path version name)) (DeletePool version name).
Proof.
  split; [done|]. intros [u|e]; cbn; [|destruct (contains _ _); [|exact I]]; (split; [exact I|]; intros []; exact I).
Qed.

Lemma create_loaded version c s s' :
  runs fpm_sem (CreatePool version c) s (Ok ()) s' ->
  disk s' !! pool_path version (pc_Name c) = Some (pool_text (pool_defaults version c)) /\ running s' !! fpm version = Some (disk s').
Proof.
  intros Hr. unfold CreatePool in Hr. apply runs_wrap in Hr as [(u & s1 & Hd & Hr)|(e & _ & [=])].
  apply runs_wrap in Hr as [(u2 & s2 & Hw & Hr)|(e & _ & [=])]. apply runs_wrap in Hr as [(u3 & s3 & Ha & [_ ->])|(e & _ & [=])].
  apply runs_call in Hw as [_ Hw]. apply runs_call in Ha as [Hk Ha]. rewrite Ha, Hk, Hw, !lookup_insert_eq. done.
Qed.

Lemma delete_unloaded version name s s' :
  runs fpm_sem (DeletePool version name) s (Ok ()) s' ->
  disk s' !! pool_path version name = None /\ running s' !! fpm version = Some (disk s').
Proof.
  intros (x & s1 & [_ Hx] & Hr).
  assert (forall k, runs fpm_sem (wrap! (Wrapped k) of _ := ask (ServiceAct VRestart (fpm version)) in Ret (Ok ())) s1 (Ok ()) s' ->
    disk s1 !! pool_path version name = None -> disk s' !! pool_path version name = None /\ running s' !! fpm version = Some (disk s')) as Hrestart.
  { intros k [(u & s2 & Ha & [_ ->])|(e & _ & [=])]%runs_wrap Hn. apply runs_call in Ha as [Hd Ha]. by rewrite Ha, Hd, lookup_insert_eq. }
  destruct x as [u|e]; cbn in Hr.
  - apply (Hrestart _ Hr). rewrite Hx. apply lookup_delete_eq.
  - destruct (contains (error_text e) "no such file") eqn:He; [|by destruct Hr]. apply (Hrestart _ Hr). destruct Hx as [-> Hx]. by apply Hx.
Qed.

Section app.
Context (default_version : option string) (remote_socket : bool).

(** The pool of a site, as the module's contract has it: an application server that reports success
    has loaded the pool of a site that is on, and has unloaded the pool of a site that is off. *)
Definition pool_as_told (action : SiteAction) (site : SiteSpec) (s : fpm_host) : Prop :=
  let version := php_version default_version site in
  let path := pool_path version (PrimaryDomain site) in
  running s !! fpm version = Some (disk s) /\
  disk s !! path = match action with
                   | SiteUpsert | SiteEnable => Some (pool_text (site_pool version (PrimaryDomain site)))
                   | SiteDisable | SiteDelete => None
                   end.

(** When [ApplyApp] reports success for a site of type php, PHP-FPM has been restarted with the
    pool of the site as the action asks; whatever it reports, no other file has changed; and for a
    site of another type nothing has happened at all. *)
Theorem pools_as_told turns action site s r s' :
  runs fpm_sem (ApplyApp default_version remote_socket turns action site) s r s' ->
  let path := pool_path (php_version default_version site) (PrimaryDomain site) in
  keeps_others path s s' /\
  (sp_AppType site = "php" -> PrimaryDomain site <> "" -> r = Some (Ok ()) -> pool_as_told action site s') /\
  (sp_AppType site <> "php" \/ PrimaryDomain site = "" -> r = Some (Ok ()) /\ s' = s).
Proof.
  intros Hr path. unfold ApplyApp in Hr. destruct (negb (String.eqb (sp_AppType site) "php") || String.eqb (PrimaryDomain site) "") eqn:Hskip.
  { destruct Hr as [-> ->]. split_and!; [done| |done]. intros Ht Hd. rewrite Ht in Hskip. cbn in Hskip. by apply String.eqb_eq in Hskip. }
  apply orb_false_iff in Hskip as [Ht Hd]. apply negb_false_iff, String.eqb_eq in Ht. apply String.eqb_neq in Hd.
  split; [|split; [intros _ _ ->|by intros [?|?]]].
  - eapply (runs_always _ (of_pool path) (fun _ => True) (keeps_others path)); [|apply of_pool_keeps|exact Hr].
    destruct action; (apply calls_bind; [first [exact (create_of_pool _ (site_pool _ _))|apply delete_of_pool]|intros [u|e]; first [exact I|apply await_of_pool]]).
  - unfold pool_as_told. destruct action; apply runs_bind in Hr as ([[]|e] & s1 & H1 & Hr); try (by destruct Hr).
    all: try (apply await_quiet in Hr as ->; by destruct (create_loaded _ _ _ _ H1)).
    all: destruct Hr as [_ ->]; by destruct (delete_unloaded _ _ _ _ H1).
Qed.
End app.

(** Where the code differs from what it says. *)

(** The answer of the Agent to the test of a local socket does not matter when the call fails: the
    socket counts as there, because the exit code beside an error is 0. *)
Theorem failed_probe_ready listen turns e tr r :
  exec (await_socket false listen (S turns)) (Act (inr Select) Tick :: Act (inl (CommandExecute_ "test" ["-S"; listen])) (Err e) :: tr) r -> r = Some (Ok ()) /\ tr = [].
Proof.
  intros (event & tr1 & Heq & Hr). pose proof (f_equal (fun l => match l with a :: _ => event_of a | [] => None end) Heq) as [= <-].
  apply (f_equal tl) in Heq. cbn in Heq. subst tr1. destruct Hr as (x & tr2 & Heq & Hr).
  assert (x = Err e) as ->.
  { apply (f_equal (fun l => match l with @Act _ X (inl op) y :: _ => match op in agent_op Y return Y -> option (result error (Z * string * string)) with
      CommandExecute_ _ _ => Some | _ => fun _ => None end y | _ => None end)) in Heq. by injection Heq. }
  apply (f_equal tl) in Heq. cbn in Heq. subst tr2. by destruct Hr as [-> ->].
Qed.

(** A domain that ends in a dot passes the validation of sites, but the Agent refuses to test its
    socket; with the above, the site is then reported as ready. *)
Example trailing_dot_probe_refused :
  exists e, Executor.validateSocketTestArgs ["-S"; site_listen "8.3" "example.org."] = Err e.
Proof. eexists. vm_compute. reflexivity. Qed.

(** [Uninstall] asks for the removal of every supported version and reports success whatever the
    Agent answers. *)
Theorem uninstall_never_fails tr r :
  exec Uninstall tr r ->
  r = Ok () /\ Forall2 (fun v a => exists out, a = Act (inl (PackageRemove_ (fpm v)) : php_call _) out) supportedVersions tr.
Proof.
  intros (t1 & t2 & u & -> & Hx & -> & ->)%exec_bind. split; [done|]. rewrite app_nil_r. revert t1 Hx. induction supportedVersions as [|v l IH]; intros t1 Hx.
  - by destruct Hx as [-> _].
  - destruct Hx as (x & tr' & -> & Hx). constructor; [eauto|by apply IH].
Qed.
