(* ===== verification/CronRpc.v ===== *)
(** * Cron jobs over gRPC

    The way of the cron operations between the Core and the Agent of the same host: the client
    (internal/agentclient/cron.go), the messages, and the service (internal/agent/server/cron.go).
    Messages are delivered unchanged.  Instants are nanoseconds since the epoch. *)

From S2P Require Import Prelude GoStrings GoTime AppErrors Effects Cron Ufw AgentApi.
Local Open Scope string_scope.
Local Open Scope go_scope.

(** ** Messages *)

(** The enumeration CronJobType of the protocol. *)
Inductive CronJobType := TYPE_UNKNOWN | TYPE_SYSTEM | TYPE_PACKAGE | TYPE_OPENDEPLOY | TYPE_USER.

(** The message CronJob: a job whose type is one of the enumeration and whose instants are
    milliseconds. *)
Record proto_job := { pj_job : Job; pj_type : CronJobType; pj_created : Z; pj_updated : Z }.

(** The message CronRunRecord. *)
Record proto_run := {
  pr_ID : string; pr_JobID : string; pr_started : Z; pr_finished : Z; pr_duration_ms : Z; pr_exit : Z; pr_stdout : string; pr_stderr : string;
  pr_triggered : string; pr_actor : string }.

(** source: pkg/contract/module.go:498-502 (CronValidation), which is also its message *)
Record CronValidation := { cv_Valid : bool; cv_Warnings : list string; cv_Error : string }.

Definition millisecond : Z := 1000000.
Definition second : Z := 1000 * millisecond.
(** The zero value of time.Time. *)
Definition zero_instant : Z := - 62135596800 * second.

(** A job with another type and other instants. *)
Definition retyped (j : Job) (ty : string) (created updated : Z) : Job :=
  relabel j created updated (Enabled j) (Cron.Source j) (ReadOnly j) ty (IsProtected j) (CanEdit j) (CanDelete j) (LockReason j).

(** source: internal/agentclient/cron.go:111-123 (cronJobToProto, the type) *)
Definition type_of_name (s : string) : CronJobType :=
  if String.eqb s "SYSTEM" then TYPE_SYSTEM else if String.eqb s "PACKAGE" then TYPE_PACKAGE
  else if String.eqb s "OPENDEPLOY" then TYPE_OPENDEPLOY else if String.eqb s "USER" then TYPE_USER else TYPE_UNKNOWN.

(** source: internal/agentclient/cron.go:137-149 (cronJobFromProto, the type) *)
Definition name_of_type (t : CronJobType) : string :=
  match t with
  | TYPE_SYSTEM => "SYSTEM" | TYPE_PACKAGE => "PACKAGE" | TYPE_OPENDEPLOY => "OPENDEPLOY" | TYPE_USER => "USER" | TYPE_UNKNOWN => "UNKNOWN"
  end.

(** source: internal/agentclient/cron.go:110-134 (cronJobToProto): no instants *)
Definition client_to_proto (j : Job) : proto_job := {| pj_job := j; pj_type := type_of_name (Type_ j); pj_created := 0; pj_updated := 0 |}.

(** source: internal/agentclient/cron.go:136-162 (cronJobFromProto) *)
Definition client_from_proto (p : proto_job) : Job :=
  retyped (pj_job p) (name_of_type (pj_type p)) (pj_created p * millisecond) (pj_updated p * millisecond).

(** source: internal/agentclient/cron.go:164-171 (cronRunFromProto) *)
Definition client_run (p : proto_run) : Run :=
  {| run_ID := pr_ID p; JobID := pr_JobID p; StartedAt := pr_started p * millisecond; FinishedAt := pr_finished p * millisecond;
     Duration := pr_duration_ms p * millisecond; ExitCode := pr_exit p; Stdout := pr_stdout p; Stderr := pr_stderr p; Triggered := pr_triggered p;
     Actor := pr_actor p |}.

(** source: internal/agent/server/cron.go:145-173 (cronJobFromProto): no instants *)
Definition server_from_proto (p : proto_job) : Job :=
  retyped (pj_job p)
    (match pj_type p with
     | TYPE_SYSTEM => JobTypeSystem | TYPE_PACKAGE => JobTypePackage | TYPE_OPENDEPLOY => JobTypeOpenDeploy | TYPE_USER => JobTypeUser
     | TYPE_UNKNOWN => JobTypeUnknown
     end) zero_instant zero_instant.

(** source: internal/agent/server/cron.go:175-200 (cronJobToProto): milliseconds are rounded down *)
Definition server_to_proto (j : Job) : proto_job :=
  {| pj_job := j;
     pj_type := (if String.eqb (Type_ j) JobTypeSystem then TYPE_SYSTEM else if String.eqb (Type_ j) JobTypePackage then TYPE_PACKAGE
                 else if String.eqb (Type_ j) JobTypeOpenDeploy then TYPE_OPENDEPLOY else if String.eqb (Type_ j) JobTypeUser then TYPE_USER
                 else TYPE_UNKNOWN);
     pj_created := CreatedAt j / millisecond; pj_updated := UpdatedAt j / millisecond |}.

(** source: internal/agent/server/cron.go:203-209 (cronRunToProto, the exit code) *)
Definition clamp32 (z : Z) : Z := if (2 ^ 31 - 1 <? z)%Z then (2 ^ 31 - 1)%Z else if (z <? - 2 ^ 31)%Z then (- 2 ^ 31)%Z else z.

(** source: internal/agent/server/cron.go:202-217 (cronRunToProto): a duration is rounded towards zero *)
Definition server_run (r : Run) : proto_run :=
  {| pr_ID := run_ID r; pr_JobID := JobID r; pr_started := StartedAt r / millisecond; pr_finished := FinishedAt r / millisecond;
     pr_duration_ms := Z.quot (Duration r) millisecond; pr_exit := clamp32 (ExitCode r); pr_stdout := Stdout r; pr_stderr := Stderr r;
     pr_triggered := Triggered r; pr_actor := Actor r |}.

(** ** The service *)

(** source: internal/agent/server/cron.go:219-224 (cronError) *)
Definition cronError (e : host_error) : string :=
  if he_not_exist e then "rpc error: code = NotFound desc = cron job not found" else invalid (he_text e).

(** An operation that answers with a job. *)
Definition answers_job (c : host_call (result host_error Job)) : host_prog (result string proto_job) :=
  let! r := call c in Ret (match r with Ok j => Ok (server_to_proto j) | Err e => Err (cronError e) end).

(** source: internal/agent/server/cron.go:16-26 (CronList) *)
Definition server_CronList : host_prog (result string (list proto_job)) :=
  let! r := call CronList_ in Ret (match r with Ok l => Ok (fmap (M:=list) server_to_proto l) | Err _ => Err internalError end).
(** source: internal/agent/server/cron.go:28-34 (CronGet) *)
Definition server_CronGet (id : string) := answers_job (CronGet_ id).
(** source: internal/agent/server/cron.go:36-42 (CronCreate) *)
Definition server_CronCreate (p : proto_job) := answers_job (CronCreate_ (server_from_proto p)).
(** source: internal/agent/server/cron.go:44-50 (CronUpdate) *)
Definition server_CronUpdate (p : proto_job) := answers_job (CronUpdate_ (server_from_proto p)).
(** source: internal/agent/server/cron.go:52-57 (CronDelete) *)
Definition server_CronDelete (id : string) : host_prog (result string ()) :=
  let! r := call (CronDelete_ id) in Ret (map_err cronError r).
(** source: internal/agent/server/cron.go:59-65 (CronEnable) *)
Definition server_CronEnable (id : string) := answers_job (CronSetEnabled id true).
(** source: internal/agent/server/cron.go:67-73 (CronDisable) *)
Definition server_CronDisable (id : string) := answers_job (CronSetEnabled id false).

(** source: internal/agent/server/cron.go:75-81 (CronRun): an error beside a run is dropped *)
Definition server_CronRun (id trigger actor : string) : host_prog (result string proto_run) :=
  let! (run, err) := call (CronRun_ id trigger actor) in
  Ret (match err with
       | Some e => if String.eqb (run_ID run) "" then Err (cronError e) else Ok (server_run run)
       | None => Ok (server_run run)
       end).

(** source: internal/agent/server/cron.go:91-101 (cronHistory), which answers CronHistory and CronLogs *)
Definition server_cronHistory (id : string) (limit : Z) : host_prog (result string (list proto_run)) :=
  let! r := call (CronHistory_ id limit) in Ret (match r with Ok l => Ok (fmap (M:=list) server_run l) | Err _ => Err internalError end).

(** source: internal/agent/server/cron.go:137-143 (CronValidate) *)
Definition server_CronValidate (p : proto_job) : host_prog (result string CronValidation) :=
  let! r := call (CronValidate_ (server_from_proto p)) in
  Ret (Ok match r with
          | Err e => {| cv_Valid := false; cv_Warnings := []; cv_Error := he_text e |}
          | Ok v => {| cv_Valid := Valid v; cv_Warnings := Warnings v; cv_Error := "" |}
          end).

Fixpoint delete_all (l : list Job) : host_prog () :=
  match l with
  | [] => Ret ()
  | j :: l' => ignore! call (CronDelete_ (ID j)) in delete_all l'
  end.

Fixpoint create_all (l : list Job) : host_prog (result string ()) :=
  match l with
  | [] => Ret (Ok ())
  | j :: l' =>
      let! r := call (CronCreate_ j) in
      match r with Err e => Ret (Err (cronError e)) | Ok _ => create_all l' end
  end.

(** source: internal/agent/server/cron.go:103-123 (CronImport): [jobs] is the decoded content, if it is
    JSON of a list of jobs *)
Definition server_CronImport (format : string) (jobs : option (list Job)) (replace : bool) : host_prog (result string (list proto_job)) :=
  if negb (String.eqb format "json") then Ret (Err (invalid "Agent import accepts normalized JSON only"))
  else match jobs with
  | None => Ret (Err (invalid "invalid cron import"))
  | Some jobs =>
      let! _ := (if replace then let! current := call CronList_ in delete_all (match current with Ok l => l | Err _ => [] end) else Ret ()) in
      try! _ := create_all jobs in
      server_CronList
  end.

(** ** The client *)

(** source: pkg/contract/module.go:449-460 (CronAgentClient) *)
Inductive cron_op : Set -> Set :=
| CronList : cron_op (result error (list Job))
| CronGet (id : string) : cron_op (result error Job)
| CronCreate (job : Job) : cron_op (result error Job)
| CronUpdate (job : Job) : cron_op (result error Job)
| CronDelete (id : string) : cron_op (result error ())
| CronEnable (id : string) : cron_op (result error Job)
| CronDisable (id : string) : cron_op (result error Job)
| CronRun (id trigger actor : string) : cron_op (result error Run)
| CronHistory (id : string) (limit : Z) : cron_op (result error (list Run))
| CronValidate (job : Job) : cron_op (result error CronValidation).

(** What is received, converted; an error is a text. *)
Definition received {A B : Set} (f : A -> B) (p : host_prog (result string A)) : host_prog (result error B) :=
  let! r := p in Ret (match r with Ok a => Ok (f a) | Err s => Err (Plain s) end).

(** source: internal/agentclient/cron.go:82-100 (CronHistory, the limit) *)
Definition int32_limit (limit : Z) : Z := if (limit <? 0)%Z then 0%Z else if (2147483647 <? limit)%Z then 2147483647%Z else limit.

(** source: internal/agentclient/cron.go:11-108 (CronList to CronValidate) *)
Definition local_cron (X : Set) (op : cron_op X) : host_prog X :=
  match op in cron_op Y return host_prog Y with
  | CronList => received (fmap (M:=list) client_from_proto) server_CronList
  | CronGet id => received client_from_proto (server_CronGet id)
  | CronCreate job => received client_from_proto (server_CronCreate (client_to_proto job))
  | CronUpdate job => received client_from_proto (server_CronUpdate (client_to_proto job))
  | CronDelete id => received (fun u => u) (server_CronDelete id)
  | CronEnable id => received client_from_proto (server_CronEnable id)
  | CronDisable id => received client_from_proto (server_CronDisable id)
  | CronRun id trigger actor => received client_run (server_CronRun id trigger actor)
  | CronHistory id limit => received (fmap (M:=list) client_run) (server_cronHistory id (int32_limit limit))
  | CronValidate job => received (fun v => v) (server_CronValidate (client_to_proto job))
  end.
