(* ===== verification/CronModule.v ===== *)
(** * The cron module

    modules/cron: the handlers for jobs, the import and export of crontabs, the grids, and the
    lifecycle of the daemon, over the operations of an Agent for cron. *)

From S2P Require Import Prelude GoStrings GoStrconv GoTime GoJson GoStruct AppErrors Effects Http Cron AgentApi AgentWire CronRpc ModulePages.
Local Open Scope string_scope.
Local Open Scope go_scope.

(** ** Calls *)

(** The tasks of the Core. *)
Inductive task_call : Set -> Set := StartTask (name kind id actor : string) : task_call (result error string).

(** The cron operations of the Agent, its other operations, and tasks. *)
Inductive cronmod_call (X : Set) : Set := OnCron (op : cron_op X) | OnAgent (op : agent_op X) | OnTask (t : task_call X).
Arguments OnCron {X} _.
Arguments OnAgent {X} _.
Arguments OnTask {X} _.
Notation cm_prog A := (prog cronmod_call A).

Definition cron {X : Set} (op : cron_op X) : cm_prog X := call (OnCron op).
Definition agent {X : Set} (op : agent_op X) : cm_prog X := call (OnAgent op).

(** ** Formats *)

Section formats.
Context `{HUnicode : Unicode}.
(** The encoders of lists of jobs, and the decoder of YAML, which belong to other packages. *)
Variables (json_text yaml_text : list Job -> result string string) (yaml_jobs : string -> result string (list Job)).
(** Instants as JSON has them, and the text of an error of the JSON decoder. *)
Variables (instant : time -> Z) (json_error : string).

Definition line_end : string := String nl "".

(** source: modules/cron/formats.go:26-28 (exportJobs, one line) *)
Definition crontab_line (j : Job) : string :=
  (if Enabled j then "" else "# disabled: ") ++ Expression j ++ " " ++ Command j ++ " # opendeploy:" ++ ID j ++ " user:" ++ User j ++ line_end.

(** source: modules/cron/formats.go:13-34 (exportJobs): the content and its type *)
Definition exportJobs (jobs : list Job) (format : string) : result string (string * string) :=
  if String.eqb format "json" then
    match json_text jobs with Ok c => Ok (c ++ line_end, "application/json") | Err e => Err e end
  else if String.eqb format "yaml" || String.eqb format "yml" then
    match yaml_text jobs with Ok c => Ok (c, "application/yaml") | Err e => Err e end
  else if String.eqb format "crontab" then
    Ok ("# Exported by OpenDeploy" ++ line_end ++ String.concat "" (crontab_line <$> jobs), "text/plain")
  else Err ("unsupported export format " ++ quote format).

Definition is_quote (c : ascii) : bool := Ascii.eqb c dquote || Ascii.eqb c "'".
Fixpoint drop_quotes (s : string) : string :=
  match s with String c s' => if is_quote c then drop_quotes s' else s | "" => "" end.
(** [strings.Trim] with the two quotation marks. *)
Definition trim_quotes (s : string) : string := str_rev (drop_quotes (str_rev (drop_quotes s))).

Definition imported (n : nat) (fs : list string) (env : gmap string string) : Job :=
  {| ID := "imported-" ++ itoa (Z.of_nat n); Name := "Imported task " ++ itoa (Z.of_nat n); Description := ""; Command := join " " (drop 5 fs);
     WorkingDir := ""; User := "root"; Environment := env; Expression := join " " (take 5 fs); Timezone := ""; Enabled := true;
     CreatedAt := zero_instant; UpdatedAt := zero_instant; Cron.Source := ""; ReadOnly := false; Type_ := ""; PackageName := ""; IsProtected := false;
     CanEdit := false; CanDelete := false; LockReason := "" |}.

(** source: modules/cron/formats.go:59-77 (parseCrontab, one line): with [jobs] jobs before it *)
Inductive crontab_item := Blank | Assign (key value : string) | Task_ (job : Job) | TooShort.
Definition read_line (raw : string) (env : gmap string string) (jobs : nat) : crontab_item :=
  let line := trim_space raw in
  let task :=
    let fs := fields line in
    if (length fs <? 6)%nat then TooShort else Task_ (imported (jobs + 1) fs env) in
  if String.eqb line "" || has_prefix line "#" then Blank
  else match cut "=" line with
  | (key, Some value) => if negb (String.eqb key "") && negb (contains_byte key " ") then Assign key (trim_quotes (trim_space value)) else task
  | (_, None) => task
  end.

(** source: modules/cron/formats.go:58-78 (parseCrontab, the loop): the text of the error *)
Fixpoint read_lines (lines : list string) (n : nat) (env : gmap string string) (jobs : nat) : result string (list Job) :=
  match lines with
  | [] => Ok []
  | raw :: lines' =>
      match read_line raw env jobs with
      | Blank => read_lines lines' (n + 1) env jobs
      | Assign k v => read_lines lines' (n + 1) (<[k := v]> env) jobs
      | Task_ job => match read_lines lines' (n + 1) env (jobs + 1) with Ok l => Ok (job :: l) | Err e => Err e end
      | TooShort => Err ("crontab line " ++ itoa (Z.of_nat (n + 1)) ++ " must contain five schedule fields and a command")
      end
  end.

(** source: modules/cron/formats.go:55-79 (parseCrontab): the environment of a job is a copy
    (cloneEnvironment) *)
Definition parseCrontab (content : string) : result string (list Job) := read_lines (split nl content) 0 ∅ 0.

(** A JSON array of jobs. *)
Definition unmarshal_jobs (content : string) : option (list Job) :=
  v ← parse_json content;
  match v with
  | JNull => Some []
  | JArr l => fmap (M:=list) (job_of instant) <$> decode_list zero_job (fun v j => decode_struct false job_fields v j) [] l
  | _ => None
  end.

(** source: modules/cron/formats.go:36-53 (importJobs) *)
Definition importJobs (content format : string) : result string (list Job) :=
  if String.eqb format "json" then match unmarshal_jobs content with Some l => Ok l | None => Err ("decode JSON: " ++ json_error) end
  else if String.eqb format "yaml" || String.eqb format "yml" then
    match yaml_jobs content with Ok l => Ok l | Err e => Err ("decode YAML: " ++ e) end
  else if String.eqb format "crontab" then parseCrontab content
  else Err ("unsupported import format " ++ quote format).

(** source: modules/cron/formats.go:89-97 (formatExtension) *)
Definition formatExtension (format : string) : string :=
  if String.eqb format "crontab" then "txt" else if String.eqb format "yml" then "yaml" else format.

(** ** Handlers *)

(** source: modules/cron/templates.go:5-12 (Template) *)
Record Template := { tp_ID : string; tp_Name : string; tp_Description : string; tp_Command : string; tp_Expression : string; tp_User : string }.

Inductive cron_data :=
| DJobs (l : list Job) | DJob (j : Job) | DSuccess | DRun (r : Run) | DTask (id : string) | DRuns (l : list Run) | DValidation (v : CronValidation)
| DTemplates (l : list Template) | DFile (content type name : string).
Inductive cron_reply := Answered (status : Z) (d : cron_data) | Refused (e : error).

(** source: modules/cron/api.go:232-247 (writeJSON) *)
Definition writeJSON {A} (status : Z) (show : A -> cron_data) (r : result error A) : cron_reply :=
  match r with
  | Ok a => Answered status (show a)
  | Err e => Refused (match find_app e with
                      | Some _ => e
                      | None => if (500 <=? status)%Z then App (Internal "cron operation failed" e) else InvalidInput (error_text e)
                      end)
  end.
Definition refuse (status : Z) (e : error) : cron_reply := writeJSON status DJob (Err e).

(** source: modules/cron/api.go:42-46 (jobID, the loop): the segments in reverse, and the one after *)
Fixpoint after_jobs (rev_parts : list string) (next : option string) : string :=
  match rev_parts with
  | [] => ""
  | p :: rest => match next with Some id => if String.eqb p "jobs" then id else after_jobs rest (Some p) | None => after_jobs rest (Some p) end
  end.

(** source: modules/cron/api.go:39-48 (jobID) *)
Definition jobID (path : string) : string := after_jobs (rev (split "/" (trim_suffix path "/"))) None.

(** source: modules/cron/api.go:223-230 (decodeJSON): at most 1 MiB, no unknown fields *)
Definition decodeJSON (body : string) : result error Job :=
  match decode_first true job_fields zero_job (take_bytes (Z.to_nat (2 ^ 20)) body) with
  | Some w => Ok (job_of instant w)
  | None => Err (Plain ("invalid JSON: " ++ json_error))
  end.

(** source: modules/cron/api.go:50-53 (httpList) *)
Definition httpList : cm_prog cron_reply := let! r := cron CronList in Ret (writeJSON 200 DJobs r).
(** source: modules/cron/api.go:54-58 (httpGet) *)
Definition httpGet (r : Http.request) : cm_prog cron_reply := let! j := cron (CronGet (jobID (Path r))) in Ret (writeJSON 200 DJob j).
(** source: modules/cron/api.go:59-68 (httpCreate) *)
Definition httpCreate (r : Http.request) : cm_prog cron_reply :=
  match decodeJSON (Body r) with
  | Err e => Ret (refuse 400 e)
  | Ok job => let! j := cron (CronCreate job) in Ret (writeJSON 201 DJob j)
  end.

Definition with_id (id : string) (j : Job) : Job :=
  {| ID := id; Name := Name j; Description := Description j; Command := Command j; WorkingDir := WorkingDir j; User := User j;
     Environment := Environment j; Expression := Expression j; Timezone := Timezone j; Enabled := Enabled j; CreatedAt := CreatedAt j;
     UpdatedAt := UpdatedAt j; Cron.Source := Cron.Source j; ReadOnly := ReadOnly j; Type_ := Type_ j; PackageName := PackageName j;
     IsProtected := IsProtected j; CanEdit := CanEdit j; CanDelete := CanDelete j; LockReason := LockReason j |}.

Definition admin_kind (j : Job) : bool := String.eqb (Type_ j) "SYSTEM" || String.eqb (Type_ j) "PACKAGE" || String.eqb (Type_ j) "OPENDEPLOY".
Definition not_admin (ctx : context) : bool :=
  match PrincipalFromContext ctx with Some p => negb (String.eqb (p_Role p) "admin") | None => false end.
Definition forbidden : cron_reply := refuse 403 (Plain "only administrators can modify this job type").

(** source: modules/cron/api.go:80-89 (httpUpdate, the check), which is also lines 99-107 of httpDelete *)
Definition check_kind (ctx : context) (id : string) (k : cm_prog cron_reply) : cm_prog cron_reply :=
  let! existing := cron (CronGet id) in
  match existing with
  | Ok j => if admin_kind j && not_admin ctx then Ret forbidden else k
  | Err _ => k
  end.

(** source: modules/cron/api.go:69-93 (httpUpdate) *)
Definition httpUpdate (r : Http.request) (ctx : context) : cm_prog cron_reply :=
  match decodeJSON (Body r) with
  | Err e => Ret (refuse 400 e)
  | Ok job =>
      let job := with_id (jobID (Path r)) job in
      check_kind ctx (ID job) (let! j := cron (CronUpdate job) in Ret (writeJSON 200 DJob j))
  end.

(** source: modules/cron/api.go:94-111 (httpDelete) *)
Definition httpDelete (r : Http.request) (ctx : context) : cm_prog cron_reply :=
  let id := jobID (Path r) in
  check_kind ctx id (let! u := cron (CronDelete id) in Ret (writeJSON 200 (fun _ => DSuccess) u)).

(** source: modules/cron/api.go:112-116 (httpEnable) *)
Definition httpEnable (r : Http.request) : cm_prog cron_reply := let! j := cron (CronEnable (jobID (Path r))) in Ret (writeJSON 200 DJob j).
(** source: modules/cron/api.go:117-121 (httpDisable) *)
Definition httpDisable (r : Http.request) : cm_prog cron_reply := let! j := cron (CronDisable (jobID (Path r))) in Ret (writeJSON 200 DJob j).

(** source: modules/cron/api.go:138-142 (httpRun, the task): the run it reports and its error *)
Definition run_task (id actor : string) : cm_prog (result error Run) := cron (CronRun id "manual" actor).

(** source: modules/cron/api.go:122-144 (httpRun): [has_tasks] if the Core has a runner of tasks *)
Definition httpRun (has_tasks : bool) (r : Http.request) : cm_prog cron_reply :=
  let id := jobID (Path r) in
  let actor := Header r "X-OpenDeploy-Actor" in
  if negb has_tasks then let! run := cron (CronRun id "manual" actor) in Ret (writeJSON 200 DRun run)
  else
    let! job := cron (CronGet id) in
    match job with
    | Err e => Ret (refuse 400 e)
    | Ok job => let! task := call (OnTask (StartTask ("Run Cron: " ++ Name job) "cron_run" id actor)) in Ret (writeJSON 202 DTask task)
    end.

Definition switched_off (name : string) (j : Job) : Job :=
  {| ID := ID j; Name := name; Description := Description j; Command := Command j; WorkingDir := WorkingDir j; User := User j;
     Environment := Environment j; Expression := Expression j; Timezone := Timezone j; Enabled := false; CreatedAt := CreatedAt j;
     UpdatedAt := UpdatedAt j; Cron.Source := Cron.Source j; ReadOnly := ReadOnly j; Type_ := Type_ j; PackageName := PackageName j;
     IsProtected := IsProtected j; CanEdit := CanEdit j; CanDelete := CanDelete j; LockReason := LockReason j |}.
(** source: modules/cron/api.go:249 (nextCopyID) *)
Definition nextCopyID (id : string) : string := id ++ "-copy".
(** source: modules/cron/api.go:149-149 (httpDuplicate, the copy) *)
Definition copy_of (j : Job) : Job := with_id (nextCopyID (ID j)) (switched_off (Name j ++ " (copy)") j).

(** source: modules/cron/api.go:145-153 (httpDuplicate) *)
Definition httpDuplicate (r : Http.request) : cm_prog cron_reply :=
  let! job := cron (CronGet (jobID (Path r))) in
  match job with
  | Err e => Ret (refuse 201 e)
  | Ok job => let! j := cron (CronCreate (copy_of job)) in Ret (writeJSON 201 DJob j)
  end.

(** [strconv.ParseInt] with base 10 and 32 bits, its error ignored: 0 for what is no number, and the
    nearest bound for one out of range. *)
Definition parse_int32 (s : string) : Z :=
  let '(neg, s) := take_sign s in
  let '(d, r) := digit_prefix s in
  if String.eqb d "" || negb (String.eqb r "") then 0%Z else clamp32 (if neg then - digits_val 0 d else digits_val 0 d)%Z.

(** source: modules/cron/api.go:154-160 (httpHistory) *)
Definition httpHistory (r : Http.request) : cm_prog cron_reply :=
  let! runs := cron (CronHistory (jobID (Path r)) (parse_int32 (Query r "limit"))) in Ret (writeJSON 200 DRuns runs).

(** source: modules/cron/api.go:161-170 (httpValidate) *)
Definition httpValidate (r : Http.request) : cm_prog cron_reply :=
  match decodeJSON (Body r) with
  | Err e => Ret (refuse 400 e)
  | Ok job => let! v := cron (CronValidate job) in Ret (writeJSON 200 DValidation v)
  end.

Definition requested_format (r : Http.request) : string := let f := to_lower (Query r "format") in if String.eqb f "" then "json" else f.

(** source: modules/cron/api.go:174-194 (httpExport) *)
Definition httpExport (r : Http.request) : cm_prog cron_reply :=
  let format := requested_format r in
  let! jobs := cron CronList in
  match jobs with
  | Err e => Ret (refuse 500 e)
  | Ok jobs =>
      Ret (match exportJobs jobs format with
           | Err e => refuse 400 (Plain e)
           | Ok (content, contentType) => Answered 200 (DFile content contentType ("opendeploy-cron." ++ formatExtension format))
           end)
  end.

(** source: modules/cron/api.go:211-219 (httpImport, the loop) *)
Fixpoint create_each (jobs : list Job) : cm_prog (result error (list Job)) :=
  match jobs with
  | [] => Ret (Ok [])
  | job :: jobs' =>
      try! j := cron (CronCreate job) in
      try! rest := create_each jobs' in
      Ret (Ok (j :: rest))
  end.

(** source: modules/cron/api.go:195-221 (httpImport): at most 2 MiB are read *)
Definition httpImport (r : Http.request) : cm_prog cron_reply :=
  match importJobs (take_bytes (Z.to_nat (2 * 2 ^ 20)) (Body r)) (requested_format r) with
  | Err e => Ret (refuse 400 (Plain e))
  | Ok jobs =>
      let! created := create_each jobs in
      Ret (match created with Err e => refuse 400 e | Ok l => Answered 201 (DJobs l) end)
  end.
End formats.

(** source: modules/cron/templates.go:14-32 (templates) *)
Definition templates : list Template :=
  (fun '(id, name, command, expression, user) =>
     {| tp_ID := id; tp_Name := name; tp_Description := ""; tp_Command := command; tp_Expression := expression; tp_User := user |}) <$>
  [("laravel", "Laravel Scheduler", "php artisan schedule:run", "* * * * *", "www-data");
   ("wordpress", "WordPress Cron", "php wp-cron.php", "*/5 * * * *", "www-data");
   ("site-backup", "Site Backup", "/usr/local/bin/backup-site", "0 2 * * *", "root");
   ("database-backup", "Database Backup", "/usr/local/bin/backup-database", "30 2 * * *", "root");
   ("log-cleanup", "Log Cleanup", "find /var/log -type f -name '*.log' -mtime +30 -delete", "0 4 * * 0", "root");
   ("temp-cleanup", "Temporary Files Cleanup", "find /tmp -type f -mtime +7 -delete", "15 4 * * *", "root");
   ("certbot", "Certbot Renew", "certbot renew --quiet", "0 3 * * *", "root");
   ("fail2ban", "Fail2Ban Reload", "systemctl reload fail2ban", "0 5 * * 0", "root");
   ("nginx", "Nginx Reload", "systemctl reload nginx", "0 5 * * 0", "root");
   ("docker", "Docker Cleanup", "docker system prune -af", "0 4 * * 0", "root");
   ("git-pull", "Git Pull", "git pull --ff-only", "*/10 * * * *", "deploy");
   ("composer", "Composer Install", "composer install --no-interaction --no-dev", "0 3 * * *", "deploy");
   ("npm", "NPM Build", "npm run build", "0 3 * * *", "deploy");
   ("artisan", "PHP Artisan", "php artisan", "0 * * * *", "www-data");
   ("custom", "Custom Script", "/path/to/script.sh", "0 3 * * *", "root")].

(** source: modules/cron/templates.go:34-36 (templateJob) *)
Definition templateJob (t : Template) : Job :=
  {| ID := tp_ID t; Name := tp_Name t; Description := tp_Description t; Command := tp_Command t; WorkingDir := ""; User := tp_User t;
     Environment := ∅; Expression := tp_Expression t; Timezone := ""; Enabled := false; CreatedAt := zero_instant; UpdatedAt := zero_instant;
     Cron.Source := ""; ReadOnly := false; Type_ := ""; PackageName := ""; IsProtected := false; CanEdit := false; CanDelete := false;
     LockReason := "" |}.

(** source: modules/cron/api.go:171-173 (httpTemplates) *)
Definition httpTemplates : cm_prog cron_reply := Ret (Answered 200 (DTemplates templates)).

(** ** Grids *)

(** A row of the grid of jobs: the job and what its columns last_run and exit_code show. *)
Record job_row := { jr_job : Job; jr_status : string; jr_last : option (Z * Z) }.
(** A row of the grid of runs. *)
Record run_row := { rr_run : Run; rr_status : string; rr_duration_ms : Z }.
Inductive grid_rows := JobRows (l : list job_row) | RunRows (l : list run_row).

(** source: modules/cron/module.go:196-215 (DataGridData, one job) *)
Definition row_of_job (runs : list Run) (job : Job) : job_row :=
  {| jr_job := job; jr_status := if Enabled job then "enabled" else "disabled";
     jr_last := (fun r => (StartedAt r, ExitCode r)) <$> find (fun r => String.eqb (JobID r) (ID job)) runs |}.

(** source: modules/cron/module.go:174-184 (DataGridData, one run) *)
Definition row_of_run (r : Run) : run_row :=
  {| rr_run := r; rr_status := if (ExitCode r =? 0)%Z then "success" else "failed"; rr_duration_ms := Z.quot (Duration r) millisecond |}.

Section grids.
Context `{HUnicode : Unicode}.

(** source: modules/cron/module.go:167-217 (DataGridData) *)
Definition DataGridData (pageID : string) : cm_prog (result error grid_rows) :=
  if String.eqb pageID "history" then
    let! runs := cron (CronHistory "" 500) in
    Ret (match runs with Err e => Err (App (AgentUnavailable e)) | Ok l => Ok (RunRows (fmap (M:=list) row_of_run l)) end)
  else if negb (String.eqb pageID "jobs") then Ret (Err (Plain ("unknown cron page " ++ quote pageID)))
  else
    try! jobs := cron CronList in
    let! runs := cron (CronHistory "" 500) in
    Ret (Ok (JobRows (fmap (M:=list) (row_of_job (match runs with Ok l => l | Err _ => [] end)) jobs))).

(** source: modules/cron/module.go:219-247 (DataGridAction): [id] is the identifier of the payload as
    fmt.Sprint prints it *)
Definition DataGridAction (pageID actionID id : string) : cm_prog (result error ()) :=
  let done_ {A : Set} (p : cm_prog (result error A)) : cm_prog (result error ()) := let! r := p in Ret (match r with Ok _ => Ok () | Err e => Err e end) in
  let id := trim_space id in
  if negb (String.eqb pageID "jobs") then Ret (Err (Plain ("actions are not supported on " ++ pageID)))
  else if String.eqb actionID "run" then done_ (cron (CronRun id "manual" ""))
  else if String.eqb actionID "enable" then done_ (cron (CronEnable id))
  else if String.eqb actionID "disable" then done_ (cron (CronDisable id))
  else if String.eqb actionID "delete" then cron (CronDelete id)
  else if String.eqb actionID "duplicate" then try! job := cron (CronGet id) in done_ (cron (CronCreate (copy_of job)))
  else Ret (Err (Plain ("unknown cron action " ++ quote actionID))).
End grids.

(** ** The daemon *)

(** source: modules/cron/module.go:52-60 (Install) *)
Definition Install : cm_prog (result error ()) := try! _ := agent (PackageInstall_ "cron") in Ret (Ok ()).
(** source: modules/cron/module.go:61-69 (Uninstall) *)
Definition Uninstall : cm_prog (result error ()) := try! _ := agent (PackageRemove_ "cron") in Ret (Ok ()).
(** source: modules/cron/module.go:70-70 (Enable) *)
Definition Enable : cm_prog (result error ()) := agent (ServiceAct VEnable "cron").
(** source: modules/cron/module.go:71-71 (Disable) *)
Definition Disable : cm_prog (result error ()) := agent (ServiceAct VDisable "cron").
(** source: modules/cron/module.go:72-72 (Restart) *)
Definition Restart : cm_prog (result error ()) := agent (ServiceAct VRestart "cron").

(** source: modules/cron/module.go:82-90 (Status, of a daemon that was found) *)
Definition daemon_status (s : ServiceStatus) : RuntimeStatus :=
  {| rt_Package := PackageInstalled; rt_Service := if cs_Active s then ServiceRunning else ServiceStopped; rt_Version := "system cron";
     rt_Health := if cs_Active s then HealthOK else HealthWarning; rt_Details := "";
     rt_Properties := [("daemon", cs_Name s, ""); ("sub_state", cs_SubState s, "")] |}.

(** source: modules/cron/module.go:74-91 (Status) *)
Definition Status : cm_prog RuntimeStatus :=
  let! first := agent (ServiceStatus_ "cron") in
  let! status := match first with Ok _ => Ret first | Err _ => agent (ServiceStatus_ "crond") end in
  Ret (match status with
       | Ok s => daemon_status s
       | Err _ => {| rt_Package := PackageNotInstalled; rt_Service := NoService; rt_Version := ""; rt_Health := HealthWarning;
                     rt_Details := "cron daemon not found"; rt_Properties := [] |}
       end).

(** source: modules/cron/module.go:93-103 (HealthCheck): the status, the message and the checks *)
Definition HealthCheck : cm_prog (HealthStatus * string * list (string * HealthStatus * string)) :=
  let! status := Status in
  let message := match rt_Service status with ServiceRunning => "cron daemon is running" | _ => rt_Details status end in
  Ret (rt_Health status, message, [("daemon", rt_Health status, message)]).

(** source: modules/cron/module.go:105-112 (Pages) *)
Definition Pages : list ModulePage :=
  [{| pg_ID := "overview"; pg_Title := "Overview"; pg_Type := PageTypeOverview |}; {| pg_ID := "jobs"; pg_Title := "Cron Jobs"; pg_Type := PageTypeDataGrid |};
   {| pg_ID := "history"; pg_Title := "History"; pg_Type := PageTypeDataGrid |};
   {| pg_ID := "settings"; pg_Title := "Settings"; pg_Type := PageTypeSettings |}].

(** source: modules/cron/module.go:126-128 (SaveSettings): whatever the settings *)
Definition SaveSettings (settings : json) : cm_prog (result error ()) := Ret (Ok ()).

(** ** Routes *)

Inductive endpoint :=
| EList | EGet | ECreate | EUpdate | EDelete | EEnable | EDisable | ERun | EDuplicate | EHistory | EValidate | ETemplates | EExport | EImport.

(** source: modules/cron/api.go:18-34 (registerRoutes) *)
Definition registerRoutes : list (string * string * endpoint) :=
  [("GET", "/jobs", EList); ("GET", "/jobs/{id}", EGet); ("POST", "/jobs", ECreate); ("PUT", "/jobs/{id}", EUpdate); ("DELETE", "/jobs/{id}", EDelete);
   ("POST", "/jobs/{id}/enable", EEnable); ("POST", "/jobs/{id}/disable", EDisable); ("POST", "/jobs/{id}/run", ERun);
   ("POST", "/jobs/{id}/duplicate", EDuplicate); ("GET", "/jobs/{id}/history", EHistory); ("GET", "/jobs/{id}/logs", EHistory);
   ("POST", "/validate", EValidate); ("GET", "/templates", ETemplates); ("GET", "/export", EExport); ("POST", "/import", EImport)].

Section routes.
Context `{HUnicode : Unicode}.
Variables (json_text yaml_text : list Job -> result string string) (yaml_jobs : string -> result string (list Job)).
Variables (instant : time -> Z) (json_error : string) (has_tasks : bool).

(** source: modules/cron/api.go:18-34 (registerRoutes, the handlers) *)
Definition handle (e : endpoint) (r : Http.request) (ctx : context) : cm_prog cron_reply :=
  match e with
  | EList => httpList
  | EGet => httpGet r
  | ECreate => httpCreate instant json_error r
  | EUpdate => httpUpdate instant json_error r ctx
  | EDelete => httpDelete r ctx
  | EEnable => httpEnable r
  | EDisable => httpDisable r
  | ERun => httpRun has_tasks r
  | EDuplicate => httpDuplicate r
  | EHistory => httpHistory r
  | EValidate => httpValidate instant json_error r
  | ETemplates => httpTemplates
  | EExport => httpExport json_text yaml_text r
  | EImport => httpImport yaml_jobs instant json_error r
  end.
End routes.
