(* ===== verification/CronModuleSpec.v ===== *)
(** * What the cron module promises

    The module on top of the whole local stack: client, service and manager of the Agent, on a disk
    whose calls may fail.  Then the crontabs it reads, and where the stack differs from its intent. *)

From S2P Require Import Prelude GoStrings GoStrconv GoTime GoJson GoStruct AppErrors Effects Http Cron AgentApi AgentWire CronRpc CronModule.
From S2P Require PresetsSpec.
Local Open Scope string_scope.
Local Open Scope go_scope.

(** ** The stack *)

Section stack.
Context `{HUnicode : Unicode} (m : Manager) (h : host) (Hpaths : statePath m <> cronPath m) (Hretention : (0 <= retention m)%Z).
(** The texts of the errors of the manager. *)
Context (err_text : cron_error -> string).

Definition host_err (e : cron_error) : host_error :=
  {| he_text := err_text e; he_not_exist := match e with NotExist => true | _ => false end; he_protected := false |}.

Definition zero_run : Run :=
  {| run_ID := ""; JobID := ""; StartedAt := zero_instant; FinishedAt := zero_instant; Duration := 0; ExitCode := 0; Stdout := ""; Stderr := "";
     Triggered := ""; Actor := "" |}.

Definition managed {A : Set} (p : prog cron_call (result cron_error A)) : prog cron_call (result host_error A) :=
  let! r := p in Ret (map_err host_err r).

(** A call of another manager; the cron operations make none. *)
Definition elsewhere : host_error := {| he_text := "no cron operation"; he_not_exist := false; he_protected := false |}.

Definition manager (X : Set) (c : host_call X) : prog cron_call X :=
  match c in host_call Y return prog cron_call Y with
  | CronList_ => managed (List_ m h)
  | CronGet_ id => managed (Get m h id)
  | CronCreate_ job => managed (Create m h job)
  | CronUpdate_ job => managed (Update m h job)
  | CronValidate_ job => Ret (map_err host_err (ValidateJob h job))
  | CronDelete_ id => managed (Delete m h id)
  | CronSetEnabled id enabled => managed (SetEnabled m h id enabled)
  | CronRun_ id trigger actor => let! (run, err) := Run_ m h id trigger actor in Ret (default zero_run run, host_err <$> err)
  | CronHistory_ id limit => managed (History m id limit)
  | ShellRun _ _ => Ret (None, Some elsewhere)
  | _ => Ret (Err elsewhere)
  end.

Definition stack (X : Set) (c : cronmod_call X) : prog cron_call X :=
  match c with
  | OnCron op => interp manager (local_cron X op)
  | OnAgent op => match op in agent_op Y return prog cron_call Y with
                  | ServiceAct _ _ => Ret (Err (Plain "no cron operation"))
                  | _ => Ret (Err (Plain "no cron operation"))
                  end
  | OnTask t => match t in task_call Y return prog cron_call Y with StartTask _ _ _ _ => Ret (Ok "task") end
  end.

(** A program of the module, run on the disk of the Agent. *)
Definition serve {A} (p : cm_prog A) (d : cron_disk) : A * cron_disk := on_disk (interp stack p) d.

(** ** What every request keeps *)

Definition kept (d d' : cron_disk) : Prop :=
  forall s, stored m d = Some s -> table_ok m s ->
  exists s', stored m d' = Some s' /\ table_ok m s' /\ forall job, job ∈ Jobs s -> is_locked job = true -> job ∈ Jobs s'.

Lemma kept_refl d : kept d d.
Proof. intros s Hs Hok. by exists s. Qed.

Lemma kept_trans a b c : kept a b -> kept b c -> kept a c.
Proof.
  intros Hab Hbc s Hs Hok. destruct (Hab s Hs Hok) as (s1 & Hs1 & Hok1 & H1). destruct (Hbc s1 Hs1 Hok1) as (s2 & Hs2 & Hok2 & H2).
  exists s2. split_and!; auto.
Qed.

Lemma kept_stored d d' : stored m d' = stored m d -> kept d d'.
Proof. intros Heq s Hs Hok. exists s. by rewrite Heq. Qed.

Definition keeps {A} (p : prog cron_call A) : Prop := forall d, kept d (snd (on_disk p d)).

Lemma keeps_ret {A} (a : A) : keeps (Ret a).
Proof. intros d. apply kept_refl. Qed.

Lemma table_bind {A B} (p : prog cron_call A) (f : A -> prog cron_call B) : keeps p -> (forall a, keeps (f a)) -> keeps (bind p f).
Proof.
  intros Hp Hf d. unfold on_disk. rewrite run_bind. specialize (Hp d). unfold on_disk in Hp. destruct (run _ p d) as [a d1].
  eapply kept_trans; [exact Hp|apply Hf].
Qed.

Lemma keeps_interp {E : Set -> Set} {A} (g : forall X, E X -> prog cron_call X) (p : prog E A) : (forall X c, keeps (g X c)) -> keeps (interp g p).
Proof. intros Hg. induction p as [a|X c k IH]; cbn [interp]; [apply keeps_ret|]. apply table_bind; [apply Hg|exact IH]. Qed.

Lemma refines_keeps {A} o (p : prog cron_call (result cron_error A)) : (forall d, refines m h o d (on_disk p d)) -> keeps p.
Proof.
  intros Hp d s Hs Hok. specialize (Hp d). unfold refines in Hp. destruct (on_disk p d) as [r d']. destruct Hp as (_ & Hstep & _). cbn [snd].
  destruct (is_ok r); [|by apply (kept_stored d d' Hstep)].
  destruct Hstep as (s0 & s1 & Hs0 & Hstep & Hs1). rewrite Hs in Hs0. injection Hs0 as <-. exists s1.
  split_and!; [done|by eapply job_step_ok|]. intros job Hin Hl. eapply job_step_locked; eassumption.
Qed.

Lemma keeps_load : keeps (load m).
Proof.
  intros d. pose proof (run_load m d) as Hl. destruct (on_disk (load m) d) as [r d']. destruct Hl as (_ & Hf & _). apply kept_stored.
  apply stored_state. cbn [snd]. by rewrite Hf.
Qed.

Lemma keeps_try_load {A} (f : Store -> prog cron_call (result cron_error A)) : (forall s, keeps (f s)) -> keeps (try! s := load m in f s).
Proof. intros Hf. apply table_bind; [apply keeps_load|]. intros [s|e]; [apply Hf|apply keeps_ret]. Qed.

Lemma keeps_Get id : keeps (Get m h id).
Proof. apply keeps_try_load. intros s. apply keeps_ret. Qed.

Lemma keeps_Run id trigger actor : keeps (Run_ m h id trigger actor).
Proof.
  apply table_bind; [apply keeps_Get|]. intros [job|e]; [|apply keeps_ret].
  repeat (apply table_bind; [by intros d; apply kept_refl|intros ?]). apply table_bind; [|intros ?; apply keeps_ret].
  eapply refines_keeps. intros d. by apply refines_appendHistory.
Qed.

Lemma keeps_manager X (c : host_call X) : keeps (manager X c).
Proof.
  destruct c; cbn [manager]; try apply keeps_ret; (apply table_bind; [|intros ?; try case_match; apply keeps_ret]).
  - apply keeps_try_load. intros s. apply keeps_ret.
  - apply keeps_Get.
  - eapply refines_keeps. intros d. by apply refines_Create.
  - eapply refines_keeps. intros d. by apply refines_Update.
  - eapply refines_keeps. intros d. by apply refines_Delete.
  - eapply refines_keeps. intros d. by apply refines_SetEnabled.
  - apply keeps_Run.
  - apply keeps_try_load. intros s. apply keeps_ret.
Qed.

Lemma keeps_stack X (c : cronmod_call X) : keeps (stack X c).
Proof. destruct c as [op|op|t]; [apply keeps_interp, keeps_manager|destruct op; apply keeps_ret|destruct t; apply keeps_ret]. Qed.

Lemma keeps_serve {A} (p : cm_prog A) d : kept d (snd (serve p d)).
Proof. exact (keeps_interp stack p keeps_stack d). Qed.

(** ** Who may change which job *)

Lemma serve_cron {X : Set} {A} (op : cron_op X) (k : X -> cm_prog A) d :
  serve (let! x := cron op in k x) d = let '(x, d1) := on_disk (interp manager (local_cron X op)) d in serve (k x) d1.
Proof. unfold serve, on_disk. cbn [cron call bind interp stack]. by rewrite run_bind. Qed.

Lemma load_reads d s : faults d (ticks d) = false -> stored m d = Some s -> on_disk (load m) d = (Ok s, tick d).
Proof.
  intros Hf Hs. unfold on_disk, load. cbn [run bind call disk_call]. unfold attempt. rewrite Hf. cbn [tick files].
  unfold stored in Hs. by destruct (read_state _ _); simplify_eq.
Qed.

Lemma get_reads d s id :
  faults d (ticks d) = false -> stored m d = Some s ->
  on_disk (interp manager (local_cron _ (CronGet id))) d =
    (match find_job m h s id with Ok j => Ok (client_from_proto (server_to_proto j)) | Err e => Err (Plain (cronError (host_err e))) end, tick d).
Proof.
  intros Hf Hs. unfold on_disk. cbn [local_cron received server_CronGet answers_job call bind interp manager managed Get].
  unfold managed, Get, bind_err. rewrite !run_bind. pose proof (load_reads d s Hf Hs) as Hl. unfold on_disk in Hl. rewrite Hl. cbn [run bind].
  by destruct (find_job m h s id).
Qed.

Lemma kind_shown j : admin_kind (client_from_proto (server_to_proto j)) = admin_kind j.
Proof.
  unfold admin_kind, client_from_proto, server_to_proto. cbn [retyped relabel Type_ pj_type pj_job].
  unfold JobTypeSystem, JobTypePackage, JobTypeOpenDeploy, JobTypeUser.
  destruct (String.eqb (Type_ j) "SYSTEM"); [done|]. destruct (String.eqb (Type_ j) "PACKAGE"); [done|].
  destruct (String.eqb (Type_ j) "OPENDEPLOY"); [done|]. by destruct (String.eqb (Type_ j) "USER").
Qed.

Lemma find_by_id l (job : Job) : NoDup (ID <$> l) -> job ∈ l -> find (has_id (ID job)) l = Some job.
Proof.
  induction l as [|j l IH]; [by intros _ ?%elem_of_nil|]. cbn. intros [Hn Hnd]%NoDup_cons [->|Hin]%elem_of_cons.
  - unfold has_id. by rewrite String.eqb_refl.
  - destruct (has_id (ID job) j) eqn:He; [|by apply IH]. apply has_id_spec in He. destruct Hn. rewrite He. by apply list_elem_of_fmap_2.
Qed.

(** A stored job of a kind reserved to administrators. *)
Definition reserved (s : Store) (id : string) : Prop := exists job, job ∈ Jobs s /\ ID job = id /\ admin_kind (label_untyped job) = true.

Lemma check_refuses ctx id k d s :
  stored m d = Some s -> table_ok m s -> reserved s id -> not_admin ctx = true -> faults d (ticks d) = false ->
  serve (check_kind ctx id k) d = (forbidden, tick d).
Proof.
  intros Hs [Hnd _] (job & Hin & <- & Hk) Hctx Hf. unfold check_kind. rewrite serve_cron, (get_reads d s) by done.
  unfold find_job. rewrite find_by_id by done. by rewrite kind_shown, Hk, Hctx.
Qed.
End stack.

(** ** Requests *)

Section requests.
Context `{HUnicode : Unicode} (m : Manager) (h : host) (Hpaths : statePath m <> cronPath m) (Hretention : (0 <= retention m)%Z).
Context (err_text : cron_error -> string).
Context (json_text yaml_text : list Job -> result string string) (yaml_jobs : string -> result string (list Job)).
Context (instant : time -> Z) (json_error : string) (has_tasks : bool).

Notation answered e r ctx d := (serve m h err_text (handle json_text yaml_text yaml_jobs instant json_error has_tasks e r ctx) d).

(** Requests one after the other. *)
Fixpoint answer_all (l : list (endpoint * Http.request * context)) (d : cron_disk) : cron_disk :=
  match l with
  | [] => d
  | (e, r, ctx) :: l' => answer_all l' (snd (answered e r ctx d))
  end.

(** C39. Whatever requests for cron jobs are served, through the module, the client, the service and the
    manager, and whichever system calls fail: the stored identifiers stay distinct, the history within
    its retention, and no locked job is changed or removed; and a PUT or DELETE request of a user who is
    no administrator for a job of a reserved kind is refused and changes nothing, if the store can be
    read.  Only these two requests have this guard: the same user may enable, disable, run or
    duplicate such a job if it is not locked ([operator_disables]). *)
Theorem cron_jobs_guarded l d s :
  stored m d = Some s -> table_ok m s ->
  (exists s', stored m (answer_all l d) = Some s' /\ table_ok m s' /\ forall job, job ∈ Jobs s -> is_locked job = true -> job ∈ Jobs s') /\
  (forall e r ctx, e = EUpdate \/ e = EDelete -> reserved s (jobID (Path r)) -> not_admin ctx = true -> faults d (ticks d) = false ->
     stored m (snd (answered e r ctx d)) = Some s /\ (forall st v, fst (answered e r ctx d) <> Answered st v)).
Proof.
  intros Hs Hok. split.
  - revert d s Hs Hok. induction l as [|[[e r] ctx] l IH]; intros d s Hs Hok; [by eauto|]. cbn [answer_all].
    destruct (keeps_serve m h Hpaths Hretention err_text (handle json_text yaml_text yaml_jobs instant json_error has_tasks e r ctx) d s Hs Hok)
      as (s1 & Hs1 & Hok1 & H1).
    destruct (IH _ s1 Hs1 Hok1) as (s2 & Hs2 & Hok2 & H2). exists s2. split_and!; auto.
  - intros e r ctx He Hres Hctx Hf. assert (forall k, serve m h err_text (check_kind ctx (jobID (Path r)) k) d = (forbidden, tick d)) as Hc.
    { intros k. by eapply check_refuses. }
    destruct He as [-> | ->]; cbn [handle].
    + unfold httpUpdate. destruct (decodeJSON _ _ _) as [job|e]; [|by split].
      cbn [with_id ID]. rewrite Hc. by split.
    + unfold httpDelete. rewrite Hc. by split.
Qed.
End requests.

(** ** Crontabs are read as they were written *)

Section crontabs.
Context `{HUnicode : Unicode}.

(** What a crontab holds. *)
Inductive entry := Setting (key value : string) | Line (schedule words : list string) | Note (text : string).

Definition render (e : entry) : string :=
  match e with
  | Setting k v => k ++ "=" ++ v
  | Line schedule words => join " " (schedule ++ words)
  | Note text => "#" ++ text
  end.

Definition wordy (w : string) : Prop := w <> "" /\ str_forall is_word_byte w = true.
Definition ends_in_word (s : string) : Prop := exists p b, s = p ++ String b "" /\ is_word_byte b = true.

Definition entry_ok (e : entry) : Prop :=
  match e with
  | Setting k v =>
      wordy k /\ no_byte "=" k /\ has_prefix k "#" = false /\ no_byte nl v /\ (v = "" \/ trim_space v = v /\ ends_in_word v) /\ trim_quotes v = v
  | Line schedule words =>
      length schedule = 5 /\ words <> [] /\ Forall wordy (schedule ++ words) /\ has_prefix (hd "" schedule) "#" = false /\ no_byte "=" (hd "" schedule)
  | Note text => no_byte nl text /\ (text = "" \/ ends_in_word text)
  end.

(** The jobs of a crontab: each with the settings above it. *)
Fixpoint jobs_of (l : list entry) (env : gmap string string) (n : nat) : list Job :=
  match l with
  | [] => []
  | Setting k v :: l' => jobs_of l' (<[k := v]> env) n
  | Line schedule words :: l' => imported (n + 1) (schedule ++ words) env :: jobs_of l' env (n + 1)
  | Note _ :: l' => jobs_of l' env n
  end.

Lemma word_ends s : wordy s -> ends_in_word s.
Proof.
  intros [Hne Hs]. destruct (str_rev s) as [|b r] eqn:Hr.
  - destruct Hne. rewrite <- (str_rev_involutive s), Hr. done.
  - exists (str_rev r), b. split; [by rewrite <- (str_rev_involutive s), Hr|]. pose proof (str_forall_rev is_word_byte s) as Hf.
    rewrite Hs, Hr in Hf. cbn in Hf. by apply andb_true_iff in Hf as [? _].
Qed.

Lemma ends_app s t : ends_in_word t -> ends_in_word (s ++ t).
Proof. intros (p & b & -> & Hb). exists (s ++ p), b. by rewrite str_app_assoc. Qed.

Lemma trim_edges a s : is_word_byte a = true -> ends_in_word (String a s) -> trim_space (String a s) = String a s.
Proof. intros Ha (p & b & Heq & Hb). unfold trim_space. rewrite PresetsSpec.trim_left_word by done. rewrite Heq. by apply PresetsSpec.trim_right_word. Qed.

Lemma hash_first a s : has_prefix (String a s) "#" = Ascii.eqb a "#".
Proof. apply eq_true_iff_eq. rewrite has_prefix_iff, Ascii.eqb_eq. split; [by intros (t & [= -> _])|]. intros ->. by exists s. Qed.

Lemma cut_prefix sep s t : no_byte sep s -> cut sep (s ++ t) = (s ++ fst (cut sep t), snd (cut sep t)).
Proof.
  unfold no_byte. induction s as [|c s IH]; simpl; [by destruct (cut sep t)|].
  rewrite andb_true_iff, negb_true_iff. intros [Hc Hs]. by rewrite Ascii.eqb_sym, Hc, (IH Hs).
Qed.

Lemma join_ends l : l <> [] -> Forall wordy l -> ends_in_word (join " " l).
Proof.
  induction l as [|w [|w' l] IH]; intros Hne Hl; [done|by inversion Hl; apply word_ends|]. inversion Hl.
  change (join " " (w :: w' :: l)) with (w ++ " " ++ join " " (w' :: l)). by apply ends_app, ends_app, IH.
Qed.

Lemma words_on_line l : Forall wordy l -> no_byte nl (join " " l).
Proof.
  assert (forall w, wordy w -> no_byte nl w) as Hw.
  { intros w [_ Hw]. unfold no_byte. revert Hw. apply str_forall_mono. intros c Hc. unfold is_word_byte, in_range in Hc.
    destruct (Ascii.eqb_spec nl c) as [<-|]; [by vm_compute in Hc|done]. }
  induction 1 as [|w l Hww Hl IH]; [done|]. destruct l as [|w' l]; [by apply Hw|].
  change (join " " (w :: w' :: l)) with (w ++ " " ++ join " " (w' :: l)). unfold no_byte in *. rewrite !str_forall_app, IH, (Hw w Hww). done.
Qed.

Lemma render_one_line e : entry_ok e -> no_byte nl (render e).
Proof.
  destruct e as [k v|schedule words|text]; cbn [entry_ok render].
  - intros (Hk & _ & _ & Hv & _). pose proof (words_on_line [k] (Forall_cons_2 _ _ _ Hk (Forall_nil_2 _))) as Hk'. cbn in Hk'.
    unfold no_byte in *. by rewrite !str_forall_app, Hk', Hv.
  - intros (_ & _ & Hl & _). by apply words_on_line.
  - intros [Hn _]. exact Hn.
Qed.

Definition read_as (e : entry) (env : gmap string string) (n : nat) : crontab_item :=
  match e with
  | Setting k v => Assign k v
  | Line schedule words => Task_ (imported (n + 1) (schedule ++ words) env)
  | Note _ => Blank
  end.

Lemma read_setting k v env n : entry_ok (Setting k v) -> read_line (k ++ "=" ++ v) env n = Assign k v.
Proof.
  intros ([Hne Hk] & Heq & Hp & _ & Hv & Hq). assert (trim_space (k ++ "=" ++ v) = k ++ "=" ++ v) as Ht.
  { destruct k as [|a k]; [done|]. cbn [append]. cbn in Hk. apply andb_true_iff in Hk as [Ha _]. apply trim_edges; [done|].
    apply (ends_app (String a k)). destruct Hv as [->|[_ Hv]]; [by exists "", "="%char|by apply (ends_app "=")]. }
  unfold read_line. rewrite Ht. destruct k as [|a k]; [done|]. rewrite hash_first in Hp.
  change (String a k ++ "=" ++ v) with (String a (k ++ "=" ++ v)) at 1 2. rewrite hash_first, Hp. cbn [String.eqb orb].
  change (String a k ++ "=" ++ v) with (String a k ++ String "=" v). rewrite cut_app_sep by done.
  assert (contains_byte (String a k) " " = false) as ->.
  { apply not_true_iff_false. rewrite contains_byte_iff. intros Hin. clear -Hk Hin. revert Hin Hk. generalize (String a k). intros s.
    induction s as [|c s IH]; [done|]. cbn. intros [->|Hin]; [by intros [? _]%andb_true_iff|]. intros [_ ?]%andb_true_iff. by apply IH. }
  cbn. f_equal. destruct Hv as [->|[-> _]]; [done|exact Hq].
Qed.

Lemma read_task schedule words env n :
  entry_ok (Line schedule words) -> read_line (join " " (schedule ++ words)) env n = Task_ (imported (n + 1) (schedule ++ words) env).
Proof.
  intros (Hlen & Hne & Hl & Hp & Heq). set (l := (schedule ++ words)%list) in *.
  assert (fields (join " " l) = l) as Hf by (by apply fields_join).
  assert (6 <= length l)%nat as H6 by (unfold l; rewrite length_app; destruct words; [done|cbn; lia]).
  assert (join " " l <> "") as Hj. { intros Hj. rewrite Hj in Hf. by rewrite <- Hf in H6; cbn in H6; lia. }
  destruct schedule as [|w [|w2 rest]]; [done|done|]. assert (l = w :: w2 :: (rest ++ words)%list) as El by done.
  assert (join " " l = w ++ " " ++ join " " (w2 :: (rest ++ words)%list)) as Ej by (by rewrite El). cbn [hd] in Hp, Heq.
  assert (wordy w) as [Hw1 Hw2] by (rewrite El in Hl; by inversion Hl).
  assert (trim_space (join " " l) = join " " l) as Ht.
  { pose proof (join_ends l ltac:(by rewrite El) Hl) as He. rewrite Ej in *. destruct w as [|a w]; [done|]. cbn [append] in *.
    cbn in Hw2. apply andb_true_iff in Hw2 as [Ha _]. by apply trim_edges. }
  unfold read_line. rewrite Ht, Hf. apply String.eqb_neq in Hj as ->. destruct (Nat.ltb_spec (length l) 6) as [?|_]; [lia|].
  replace (has_prefix (join " " l) "#") with false.
  2:{ rewrite Ej. destruct w as [|a w]; [done|]. cbn [append]. rewrite hash_first in Hp |- *. by rewrite Hp. }
  cbn [orb]. rewrite Ej, cut_prefix by done. destruct (snd _); [|done].
  replace (contains_byte _ " ") with true; [by rewrite andb_false_r|]. symmetry. apply contains_byte_iff. rewrite list_ascii_app. apply in_app_iff. right.
  cbn [cut append]. change (Ascii.eqb " " "=") with false. cbn iota. destruct (cut "=" _). by left.
Qed.

Lemma read_note text env n : entry_ok (Note text) -> read_line ("#" ++ text) env n = Blank.
Proof.
  intros [_ Ht]. unfold read_line. cbn [append]. rewrite trim_edges; [by rewrite hash_first|done|]. destruct Ht as [->|Ht]; [by exists "", "#"%char|by apply (ends_app "#")].
Qed.

Lemma read_entry e env n : entry_ok e -> read_line (render e) env n = read_as e env n.
Proof. destruct e; [apply read_setting|apply read_task|apply read_note]. Qed.

Lemma read_entries l i env n : Forall entry_ok l -> read_lines (render <$> l) i env n = Ok (jobs_of l env n).
Proof.
  intros Hl. revert i env n. induction Hl as [|e l He Hl IH]; intros i env n; [done|]. cbn [fmap list_fmap read_lines].
  rewrite read_entry by done. destruct e; cbn [read_as jobs_of]; by rewrite IH.
Qed.

(** A crontab of settings, jobs and comments is read as the jobs it holds, in their order, each with
    the settings that stand above it. *)
Theorem crontab_read_back l : Forall entry_ok l -> parseCrontab (join (String nl "") (render <$> l)) = Ok (jobs_of l ∅ 0).
Proof.
  intros Hl. unfold parseCrontab. destruct l as [|e l]; [done|]. rewrite split_join; [by apply read_entries|done|].
  apply Forall_fmap. eapply Forall_impl; [exact Hl|]. apply render_one_line.
Qed.

Lemma crontab_read_back_witness :
  parseCrontab (join (String nl "") ["PATH=/bin:/usr/bin"; "# nightly"; "30 2 * * 1-5 /usr/local/bin/backup --all"]) =
    Ok [imported 1 ["30"; "2"; "*"; "*"; "1-5"; "/usr/local/bin/backup"; "--all"] {["PATH" := "/bin:/usr/bin"]}].
Proof.
  apply (crontab_read_back [Setting "PATH" "/bin:/usr/bin"; Note " nightly"; Line ["30"; "2"; "*"; "*"; "1-5"] ["/usr/local/bin/backup"; "--all"]]).
  apply Forall_cons_2; [|apply Forall_cons_2; [|apply Forall_cons_2; [|done]]]; cbn [entry_ok].
  - split_and!; try done. right. split; [done|]. by exists "/bin:/usr/bi", "n"%char.
  - split; [done|]. right. by exists " nightl", "y"%char.
  - split_and!; try done. by repeat constructor.
Defined.
End crontabs.

(** ** Identifiers in paths *)

Lemma no_slash_end x s : no_byte "/" s -> s <> "" -> trim_suffix (x ++ s) "/" = x ++ s.
Proof.
  intros Hs Hns. unfold trim_suffix. destruct (has_suffix (x ++ s) "/") eqn:Hsuf; [|done]. apply has_suffix_iff in Hsuf as [t Ht]. exfalso.
  apply (f_equal str_rev) in Ht. rewrite !str_rev_app in Ht. pose proof (str_forall_rev (fun c => negb (Ascii.eqb "/" c)) s) as Hr.
  unfold no_byte in Hs. rewrite Hs in Hr. destruct (str_rev s) as [|c r] eqn:Er.
  - apply Hns. by rewrite <- (str_rev_involutive s), Er.
  - cbn in Ht, Hr. injection Ht as -> _. done.
Qed.

Lemma join_last sep l x : exists y, join sep (l ++ [x])%list = y ++ x.
Proof.
  induction l as [|w l [y IH]]; [by exists ""|]. destruct l as [|w' l]; [by exists (w ++ sep); rewrite str_app_assoc|].
  exists (w ++ sep ++ y). change (join sep ((w :: w' :: l) ++ [x])%list) with (w ++ sep ++ join sep ((w' :: l) ++ [x])%list). by rewrite IH, !str_app_assoc.
Qed.

(** The identifier of a job is found in the path of every route of the module, if it is not the word
    jobs itself. *)
Theorem job_identifier segments id action :
  Forall (no_byte "/") (segments ++ "jobs" :: id :: option_list action) -> Forall (fun s => s <> "" /\ s <> "jobs") (id :: option_list action) ->
  jobID (join "/" (segments ++ "jobs" :: id :: option_list action)) = id.
Proof.
  intros Hs Hw. unfold jobID. set (l := (segments ++ "jobs" :: id :: option_list action)%list) in *.
  assert (exists l' x, l = (l' ++ [x])%list /\ x <> "") as (l' & x & El & Hx).
  { inversion Hw as [|? ? [Hid _] Hw']. destruct action as [a|]; unfold l; cbn.
    - inversion Hw' as [|? ? [Ha _]]. exists (segments ++ ["jobs"; id])%list, a. by rewrite <- app_assoc.
    - exists (segments ++ ["jobs"])%list, id. by rewrite <- app_assoc. }
  assert (no_byte "/" x) as Hn. { rewrite El in Hs. apply Forall_app in Hs as [_ Hs]. by inversion Hs. }
  destruct (join_last "/" l' x) as [y Ey]. rewrite El, Ey, no_slash_end, <- Ey, <- El by done. rewrite split_join; [|by rewrite El; destruct l'|done].
  unfold l. rewrite rev_app_distr. inversion Hw as [|? ? [_ Hid] _]. apply String.eqb_neq in Hid. destruct action as [a|]; simpl; by rewrite ?Hid.
Qed.

(** ** Where the stack differs from its intent *)

Section locks.
Context `{HUnicode : Unicode}.

(** What the Agent stores of a job that the Core asks it to create. *)
Definition stored_as (now : Z) (job : Job) : Job := created_job now (server_from_proto (client_to_proto job)).

(** A job without a type is stored with the type UNKNOWN, not USER, and with the permissions of the
    request: the default for jobs of users is never reached through the client of the Core. *)
Theorem untyped_stored_unknown now job :
  Type_ job = "" ->
  Type_ (stored_as now job) = "UNKNOWN" /\ CanEdit (stored_as now job) = CanEdit job /\ CanDelete (stored_as now job) = CanDelete job /\
  Type_ (created_job now job) = "USER" /\ CanEdit (created_job now job) = true /\ CanDelete (created_job now job) = true.
Proof.
  intros Ht. unfold stored_as, created_job, server_from_proto, client_to_proto. cbn [retyped relabel Type_ CanEdit CanDelete pj_type pj_job].
  by rewrite Ht.
Qed.

(** The lock of a job is what the request says: whoever may create jobs can create one that nobody,
    administrators included, can change or delete.  A copy of a locked job is such a job. *)
Theorem locks_are_copied now job : is_locked job = true -> is_locked (stored_as now (copy_of job)) = true.
Proof.
  unfold is_locked, stored_as, created_job, server_from_proto, client_to_proto, copy_of, with_id, switched_off, JobTypeOpenDeploy.
  cbn [retyped relabel Type_ IsProtected pj_type pj_job]. intros [->|Ht]%orb_true_iff; [done|]. apply String.eqb_eq in Ht as ->.
  apply orb_true_r.
Qed.

Lemma locks_are_copied_witness :
  is_locked (stored_as 1 (copy_of (relabel (sample_job "0 1 * * *" "true") 0 0 true "system" true "SYSTEM" true false false "managed by the system"))) = true.
Proof. apply (locks_are_copied 1). reflexivity. Defined.
End locks.

#[local] Existing Instance unicode_ascii.

(** The sample job with another type, stored. *)
Definition typed (ty : string) : Job := relabel (sample_job "0 1 * * *" "true") 0 0 true "OpenDeploy" false ty false true true "".
Definition operator : context := {| ctx_principal := Some {| p_ID := "2"; p_Username := "op"; p_Role := "operator" |}; ctx_server := None |}.
Definition a_request (method path : string) : Http.request :=
  {| Method := method; Path := path; Header := fun _ => ""; Query := fun _ => ""; RemoteAddr := ""; Body := "" |}.
Definition jobs_on (d : cron_disk) : option (list string) := option_map (fun s => ID <$> Jobs s) (stored NewManager d).
Definition failing_at (n : nat) (d : cron_disk) : cron_disk :=
  {| files := files d; temps := temps d; faults := Nat.eqb n; ticks := ticks d; clock := clock d; command := command d |}.
Definition served {A} (p : cm_prog A) (d : cron_disk) : A * cron_disk := serve NewManager sample_host (fun _ => "refused") p d.

Lemma cron_jobs_guarded_witness :
  stored NewManager (snd (served (httpDelete (a_request "DELETE" "/api/v1/modules/cron/jobs/backup") operator) (sample_disk [typed "SYSTEM"]))) =
    Some {| Jobs := [typed "SYSTEM"]; History_ := [] |}.
Proof.
  apply (cron_jobs_guarded NewManager sample_host ltac:(discriminate) ltac:(by vm_compute) (fun _ => "refused") (fun _ => Err "") (fun _ => Err "")
    (fun _ => Err "") (fun _ => 0%Z) "" false [] (sample_disk [typed "SYSTEM"]) {| Jobs := [typed "SYSTEM"]; History_ := [] |}) with (e := EDelete);
    [by vm_compute|split; [apply NoDup_singleton|by vm_compute]|by right| |by vm_compute..].
  exists (typed "SYSTEM"). by repeat split; [apply list_elem_of_singleton|..].
Defined.

(** When the store cannot be read for the check, the check is skipped: an operator deletes a job of
    the system. *)
Example unread_job_unguarded :
  let request := httpDelete (a_request "DELETE" "/api/v1/modules/cron/jobs/backup") operator in
  fst (served request (sample_disk [typed "SYSTEM"])) = forbidden /\
  fst (served request (failing_at 0 (sample_disk [typed "SYSTEM"]))) = Answered 200 DSuccess /\
  jobs_on (snd (served request (failing_at 0 (sample_disk [typed "SYSTEM"])))) = Some [].
Proof. vm_compute. done. Qed.

(** Switching a job off is a change too, but it is not reserved to administrators. *)
Example operator_disables :
  is_ok (match fst (served (httpDisable (a_request "POST" "/api/v1/modules/cron/jobs/backup/disable")) (sample_disk [typed "SYSTEM"])) with
         | Answered _ (DJob j) => if Enabled j then Err () else Ok () | _ => Err () end) = true.
Proof. vm_compute. done. Qed.

(** The refusal meant as 403 is written as 400. *)
Example forbidden_is_bad_request : forbidden = Refused (InvalidInput "only administrators can modify this job type").
Proof. reflexivity. Qed.

(** An exported crontab, imported again: the job runs as root, with its comment as part of the command. *)
Example crontab_export_as_root :
  exists content, exportJobs (fun _ => Err "") (fun _ => Err "") [typed "USER"] "crontab" = Ok (content, "text/plain") /\
    option_map (fmap (fun j => (User j, Command j))) (match parseCrontab content with Ok l => Some l | Err _ => None end) =
      Some [("root", "true # opendeploy:backup user:www-data")].
Proof. eexists. split; [reflexivity|]. vm_compute. done. Qed.

(** A line whose fields are separated by tabs is taken for a setting when its command has an equals
    sign. *)
Example tabs_are_no_spaces :
  let tab := String (ascii_of_nat 9) "" in
  parseCrontab (join tab ["0"; "1"; "*"; "*"; "*"; "backup"; "--level=3"]) = Ok [].
Proof. vm_compute. done. Qed.

(** The job named jobs cannot be switched on: the request is taken for one about the job enable. *)
Example job_named_jobs : jobID "/api/v1/modules/cron/jobs/jobs/enable" = "enable".
Proof. reflexivity. Qed.
