(* ===== verification/OtherModules.v ===== *)
(** * Modules of packages and daemons

    modules/apache, certbot, git, mysql, nodejs and postgresql: the lifecycle of a package and its
    daemon, the sites of Apache, the certificates of certbot, and the databases of MySQL. *)

From S2P Require Import Prelude GoStrings GoStrconv GoRegexp Effects AppErrors Executor SiteDomain Site FirewallSpec AgentApi ModulePages Php.
Local Open Scope string_scope.
Local Open Scope go_scope.

Notation agent_prog A := (prog agent_op A).

Definition newline : string := String (ascii_of_nat 10) "".

(** ** What the modules share *)

(** A report on the health of a module: the status, the message and the checks. *)
Definition report : Set := HealthStatus * string * list (string * HealthStatus * string).

(** The lines of a package operation are read and dropped. *)
Definition drained (p : agent_prog (result error (list string))) : agent_prog (result error ()) := try! _ := p in Ret (Ok ()).

Definition turn_on (svc : string) : agent_prog (result error ()) := try! _ := call (ServiceAct VEnable svc) in call (ServiceAct VStart svc).

Definition package_state (pkg : result error (bool * string)) : PackageStatus * string :=
  let '(installed, version) := match pkg with Ok p => p | Err _ => (false, "") end in
  (if installed then PackageInstalled else PackageNotInstalled, version).

Definition service_state (svc : result error ServiceStatus) : ServiceStatusState :=
  match svc with Ok s => if cs_Active s then ServiceRunning else ServiceStopped | Err _ => ServiceFailed end.

Definition runtime (pkg : PackageStatus * string) (svc : ServiceStatusState) : RuntimeStatus :=
  {| rt_Package := fst pkg; rt_Service := svc; rt_Version := snd pkg; rt_Health := NoHealth; rt_Details := ""; rt_Properties := [] |}.

(** The status of a package with a daemon, the package first. *)
Definition package_and_daemon (pkg svc : string) : agent_prog RuntimeStatus :=
  let! p := call (PackageInstalled_ pkg) in
  let! s := call (ServiceStatus_ svc) in
  Ret (runtime (package_state p) (service_state s)).

(** The status of a package without a daemon. *)
Definition package_only (pkg : string) : agent_prog (result error RuntimeStatus) :=
  try! p := call (PackageInstalled_ pkg) in Ret (Ok (runtime (package_state (Ok p)) NoService)).

(** The health of a package without a daemon. *)
Definition package_health (name shown pkg : string) : agent_prog report :=
  let! p := call (PackageInstalled_ pkg) in
  Ret (match p with
       | Err _ => (HealthError, "cannot query " ++ shown ++ " package state", [])
       | Ok (false, _) => (HealthWarning, name ++ " is not installed", [])
       | Ok (true, version) => (HealthOK, name ++ " " ++ version ++ " is installed", [])
       end).

(** ** Git and Node.js *)

(** source: modules/git/module.go:71-79 (Install) *)
Definition git_Install := wrap! (Wrapped "git: install") of _ := call (PackageInstall_ "git") in Ret (Ok ()).
(** source: modules/git/module.go:81-89 (Uninstall) *)
Definition git_Uninstall := wrap! (Wrapped "git: uninstall") of _ := call (PackageRemove_ "git") in Ret (Ok ()).
(** source: modules/git/module.go:92-94 (Enable, Disable, Restart) *)
Definition git_switch : agent_prog (result error ()) := Ret (Ok ()).
(** source: modules/git/module.go:96-109 (Status) *)
Definition git_Status := package_only "git".
(** source: modules/git/module.go:111-123 (HealthCheck) *)
Definition git_HealthCheck := package_health "git" "Git" "git".

(** source: modules/nodejs/module.go:70-79 (Install) *)
Definition node_Install := wrap! (Wrapped "nodejs: install") of _ := call (PackageInstall_ "nodejs") in Ret (Ok ()).
(** source: modules/nodejs/module.go:81-89 (Uninstall) *)
Definition node_Uninstall := wrap! (Wrapped "nodejs: uninstall") of _ := call (PackageRemove_ "nodejs") in Ret (Ok ()).
(** source: modules/nodejs/module.go:92-94 (Enable, Disable, Restart) *)
Definition node_switch : agent_prog (result error ()) := Ret (Ok ()).
(** source: modules/nodejs/module.go:96-109 (Status) *)
Definition node_Status := package_only "nodejs".
(** source: modules/nodejs/module.go:111-126 (HealthCheck) *)
Definition node_HealthCheck := package_health "Node.js" "Node.js" "nodejs".

(** ** PostgreSQL *)

(** source: modules/postgresql/module.go:70-79 (Install) *)
Definition pg_Install := wrap! (Wrapped "postgresql: install") of _ := call (PackageInstall_ "postgresql") in Ret (Ok ()).
(** source: modules/postgresql/module.go:81-89 (Uninstall) *)
Definition pg_Uninstall := wrap! (Wrapped "postgresql: uninstall") of _ := call (PackageRemove_ "postgresql") in Ret (Ok ()).
(** source: modules/postgresql/module.go:91-96 (Enable) *)
Definition pg_Enable := turn_on "postgresql".
(** source: modules/postgresql/module.go:98-102 (Disable) *)
Definition pg_Disable : agent_prog (result error ()) :=
  ignore! call (ServiceAct VStop "postgresql") in ignore! call (ServiceAct VDisable "postgresql") in Ret (Ok ()).
(** source: modules/postgresql/module.go:104-106 (Restart) *)
Definition pg_Restart := call (ServiceAct VRestart "postgresql").
(** source: modules/postgresql/module.go:108-130 (Status) *)
Definition pg_Status := package_and_daemon "postgresql" "postgresql".
(** source: modules/postgresql/module.go:132-151 (HealthCheck) *)
Definition pg_HealthCheck : agent_prog report :=
  let! p := call (PackageInstalled_ "postgresql") in
  match p with
  | Err _ => Ret (HealthError, "cannot query PostgreSQL package state", [])
  | Ok (false, _) => Ret (HealthWarning, "PostgreSQL is not installed", [])
  | Ok (true, version) =>
      let! s := call (ServiceStatus_ "postgresql") in
      Ret (match s with
           | Ok {| cs_Active := true |} => (HealthOK, "PostgreSQL " ++ version ++ " is installed and running", [])
           | _ => (HealthWarning, "PostgreSQL " ++ version ++ " is installed but not running", [])
           end)
  end.

(** ** MySQL *)

(** source: modules/mysql/module.go:62-70 (Install) *)
Definition mysql_Install := drained (call (PackageInstall_ "mysql-server")).
(** source: modules/mysql/module.go:72-80 (Uninstall) *)
Definition mysql_Uninstall := drained (call (PackageRemove_ "mysql-server")).
(** source: modules/mysql/module.go:82-87 (Enable) *)
Definition mysql_Enable := turn_on "mysql".
(** source: modules/mysql/module.go:89-94 (Disable) *)
Definition mysql_Disable : agent_prog (result error ()) := try! _ := call (ServiceAct VStop "mysql") in call (ServiceAct VDisable "mysql").
(** source: modules/mysql/module.go:96-98 (Restart) *)
Definition mysql_Restart := call (ServiceAct VRestart "mysql").
(** source: modules/mysql/module.go:100-122 (Status) *)
Definition mysql_Status := package_and_daemon "mysql-server" "mysql".
(** source: modules/mysql/module.go:124-150 (HealthCheck) *)
Definition mysql_HealthCheck : agent_prog report :=
  let! p := call (PackageInstalled_ "mysql-server") in
  match p with
  | Err _ => Ret (HealthError, "cannot query MySQL package state", [])
  | Ok (false, _) => Ret (HealthWarning, "MySQL is not installed", [])
  | Ok (true, version) =>
      let! s := call (ServiceStatus_ "mysql") in
      Ret (match s with
           | Err _ => (HealthError, "cannot query MySQL service state", [])
           | Ok s =>
               let status := if cs_Active s then HealthOK else HealthError in
               (status, "MySQL " ++ version ++ " is installed " ++ (if cs_Active s then "and running" else "but not running"),
                [("package_installed", HealthOK, version); ("service_running", status, cs_SubState s)])
           end)
  end.

(** The connection to the server: opening it with the password of root, and a statement with its
    arguments. *)
Inductive mysql_call : Set -> Set :=
| Connect (password : string) : mysql_call (result error ())
| Exec (statement : string) (args : list string) : mysql_call (result error ()).
Notation mysql_prog A := (prog mysql_call A).

(** source: modules/mysql/db.go:13-13 (dbNameRegex) *)
Definition dbNameRegex : re := plus (Cls (fun z => r_alnum z || one_of "_" z)).

Section databases.
(** The setting root_password. *)
Variable root_password : string.

(** source: modules/mysql/db.go:16-35 (getDB): opening and the first contact *)
Definition getDB : mysql_prog (result error ()) :=
  if String.eqb root_password "" then Ret (Err (Plain "mysql administrator credentials are not configured"))
  else wrap! (Wrapped "failed to ping mysql") of _ := call (Connect root_password) in Ret (Ok ()).

Definition create_database (dbName : string) : string :=
  "CREATE DATABASE IF NOT EXISTS `" ++ dbName ++ "` CHARACTER SET utf8mb4 COLLATE utf8mb4_unicode_ci;".
Definition create_user (user : string) : string := "CREATE USER IF NOT EXISTS `" ++ user ++ "`@'localhost' IDENTIFIED BY ?".
Definition grant (dbName user : string) : string := "GRANT ALL PRIVILEGES ON `" ++ dbName ++ "`.* TO `" ++ user ++ "`@'localhost';".
Definition flush_privileges : string := "FLUSH PRIVILEGES;".
Definition drop_database (dbName : string) : string := "DROP DATABASE IF EXISTS `" ++ dbName ++ "`;".
Definition drop_user (user : string) : string := "DROP USER IF EXISTS `" ++ user ++ "`@'localhost';".

Definition names_ok (dbName user : string) : bool := match_string dbNameRegex dbName && match_string dbNameRegex user.

(** source: modules/mysql/db.go:38-73 (CreateDatabase) *)
Definition CreateDatabase (dbName user password : string) : mysql_prog (result error ()) :=
  if negb (names_ok dbName user) then Ret (Err (Plain "invalid database or username format"))
  else
    try! _ := getDB in
    wrap! (Wrapped "failed to create database") of _ := call (Exec (create_database dbName) []) in
    wrap! (Wrapped "failed to create user") of _ := call (Exec (create_user user) [password]) in
    wrap! (Wrapped "failed to grant privileges") of _ := call (Exec (grant dbName user) []) in
    wrap! (Wrapped "failed to flush privileges") of _ := call (Exec flush_privileges []) in
    Ret (Ok ()).

(** source: modules/mysql/db.go:76-99 (DeleteDatabase) *)
Definition DeleteDatabase (dbName user : string) : mysql_prog (result error ()) :=
  if negb (names_ok dbName user) then Ret (Err (Plain "invalid database or username format"))
  else
    try! _ := getDB in
    wrap! (Wrapped "failed to drop database") of _ := call (Exec (drop_database dbName) []) in
    wrap! (Wrapped "failed to drop user") of _ := call (Exec (drop_user user) []) in
    Ret (Ok ()).
End databases.

(** ** Certbot *)

(** source: modules/certbot/module.go:74-82 (Install) *)
Definition certbot_Install := wrap! (Wrapped "certbot: install") of _ := call (PackageInstall_ "certbot") in Ret (Ok ()).
(** source: modules/certbot/module.go:84-92 (Uninstall) *)
Definition certbot_Uninstall := wrap! (Wrapped "certbot: uninstall") of _ := call (PackageRemove_ "certbot") in Ret (Ok ()).
(** source: modules/certbot/module.go:95-100 (Enable) *)
Definition certbot_Enable : agent_prog (result error ()) :=
  wrap! (Wrapped "certbot: enable timer") of _ := call (ServiceAct VEnable "certbot.timer") in call (ServiceAct VStart "certbot.timer").
(** source: modules/certbot/module.go:103-108 (Disable) *)
Definition certbot_Disable : agent_prog (result error ()) :=
  wrap! (Wrapped "certbot: stop timer") of _ := call (ServiceAct VStop "certbot.timer") in call (ServiceAct VDisable "certbot.timer").
(** source: modules/certbot/module.go:111-113 (Restart) *)
Definition certbot_Restart := call (ServiceAct VRestart "certbot.timer").
(** source: modules/certbot/module.go:115-137 (Status) *)
Definition certbot_Status := package_and_daemon "certbot" "certbot.timer".
(** source: modules/certbot/module.go:139-158 (HealthCheck) *)
Definition certbot_HealthCheck : agent_prog report :=
  let! p := call (PackageInstalled_ "certbot") in
  match p with
  | Ok (true, version) =>
      let! s := call (ServiceStatus_ "certbot.timer") in
      Ret (match s with
           | Ok {| cs_Active := true |} => (HealthOK, "certbot " ++ version ++ " is installed and timer is active", [])
           | _ => (HealthWarning, "certbot " ++ version ++ " is installed, but timer is not active", [])
           end)
  | _ => Ret (HealthWarning, "certbot is not installed", [])
  end.

(** source: modules/certbot/module.go:181-186 (ObtainCert, the arguments) *)
Definition certbot_args (domain webroot email : string) : list string :=
  ["certonly"; "--webroot"; "-w"; webroot; "-d"; domain; "--agree-tos"; "-n"] ++
  (if String.eqb email "" then ["--register-unsafely-without-email"] else ["-m"; email]).

Definition certbot_failed : error := InvalidInput "Certbot failed to obtain the certificate; verify DNS and port 80 reachability".

(** source: modules/certbot/module.go:162-194 (ObtainCert): [typed] if the selected server is remote
    and its Agent has the operation; [email] is the setting *)
Definition ObtainCert (typed : bool) (email domain webroot : string) : agent_prog (result error ()) :=
  let! p := call (PackageInstalled_ "certbot") in
  match p with
  | Ok (true, _) =>
      ignore! call (DirCreate_ webroot 493) in
      if typed then
        let! r := call (CertificateObtain_ domain webroot email) in
        Ret (match r with Ok _ => Ok () | Err _ => Err certbot_failed end)
      else
        let! r := call (CommandExecute_ "certbot" (certbot_args domain webroot email)) in
        Ret (match r with Ok (code, _, _) => if (code =? 0)%Z then Ok () else Err certbot_failed | Err _ => Err certbot_failed end)
  | _ => Ret (Err (InvalidInput "Certbot is not installed on the server. Please install the Certbot module first."))
  end.

(** ** Apache *)

(** source: modules/apache/module.go:83-92 (Install) *)
Definition apache_Install := wrap! (Wrapped "apache: install") of _ := call (PackageInstall_ "apache2") in Ret (Ok ()).
(** source: modules/apache/module.go:94-103 (Uninstall) *)
Definition apache_Uninstall := wrap! (Wrapped "apache: uninstall") of _ := call (PackageRemove_ "apache2") in Ret (Ok ()).
(** source: modules/apache/module.go:105-110 (Enable) *)
Definition apache_Enable : agent_prog (result error ()) :=
  wrap! (Wrapped "apache: enable") of _ := call (ServiceAct VEnable "apache2") in call (ServiceAct VStart "apache2").
(** source: modules/apache/module.go:112-117 (Disable) *)
Definition apache_Disable : agent_prog (result error ()) :=
  wrap! (Wrapped "apache: stop") of _ := call (ServiceAct VStop "apache2") in call (ServiceAct VDisable "apache2").
(** source: modules/apache/module.go:119-121 (Restart) *)
Definition apache_Restart := call (ServiceAct VRestart "apache2").
(** source: modules/apache/module.go:123-146 (Status): the service first *)
Definition apache_Status : agent_prog RuntimeStatus :=
  let! s := call (ServiceStatus_ "apache2") in
  let! p := call (PackageInstalled_ "apache2") in
  Ret (runtime (package_state p) (service_state s)).

(** source: modules/apache/module.go:240-252 (boolHealth, formatServiceMsg) *)
Definition boolHealth (ok : bool) : HealthStatus * string :=
  if ok then (HealthOK, "apache service is running") else (HealthError, "apache service is not running").

(** source: modules/apache/module.go:148-171 (HealthCheck) *)
Definition apache_HealthCheck : agent_prog report :=
  let! s := call (ServiceStatus_ "apache2") in
  Ret (match s with
       | Err e => (HealthError, "cannot query apache service: " ++ error_text e, [])
       | Ok s => let '(status, message) := boolHealth (cs_Active s) in (status, "", [("service_running", status, message)])
       end).

(** source: modules/apache/module.go:208-216 (renderApache, the directory and the handler), also lines
    225-233 *)
Definition apache_body (site : SiteSpec) : list string :=
  [""; "    <Directory " ++ sp_RootPath site ++ ">"; "        AllowOverride All"; "        Require all granted"; "    </Directory>"] ++
  (if String.eqb (sp_AppVersion site) "" then []
   else [""; "    <FilesMatch \.php$>";
         "        SetHandler " ++ String dquote ("proxy:unix:/run/php/php" ++ sp_AppVersion site ++ "-fpm.sock|fcgi://localhost" ++ String dquote "");
         "    </FilesMatch>"]).

(** source: modules/apache/module.go:200-238 (renderApache): its lines *)
Definition apache_lines (site : SiteSpec) : list string :=
  ["# Managed by OpenDeploy Apache Module. Manual changes will be overwritten.";
   if SSLEnabled site then "<VirtualHost *:443>" else "<VirtualHost *:80>";
   "    ServerName " ++ PrimaryDomain site; "    DocumentRoot " ++ sp_RootPath site] ++
  (if SSLEnabled site then ["    SSLEngine on"; "    SSLCertificateFile " ++ SSLCert site; "    SSLCertificateKeyFile " ++ SSLKey site] else []) ++
  apache_body site ++ ["</VirtualHost>"].
Definition renderApache (site : SiteSpec) : string := String.concat "" ((fun l => l ++ newline) <$> apache_lines site).

Definition available (domain : string) : string := "/etc/apache2/sites-available/opendeploy-" ++ domain ++ ".conf".
Definition enabled (domain : string) : string := "/etc/apache2/sites-enabled/opendeploy-" ++ domain ++ ".conf".

(** source: modules/apache/module.go:175-198 (ApplySite) *)
Definition apache_ApplySite (action : SiteAction) (site : SiteSpec) : agent_prog (result error ()) :=
  let configPath := available (PrimaryDomain site) in
  let enabledPath := enabled (PrimaryDomain site) in
  let put := wrap! (Wrapped "apache: enable site") of _ := call (FileWrite_ enabledPath (renderApache site) 420) in Ret (Ok ()) in
  try! _ := match action with
            | SiteUpsert => wrap! (Wrapped "apache: write config") of _ := call (FileWrite_ configPath (renderApache site) 420) in put
            | SiteEnable => put
            | SiteDisable => ignore! call (FileDelete_ enabledPath) in Ret (Ok ())
            | SiteDelete => ignore! call (FileDelete_ enabledPath) in ignore! call (FileDelete_ configPath) in Ret (Ok ())
            end in
  call (ServiceAct VRestart "apache2").

(** ** What the modules of packages promise

    The statements sent to MySQL, the command of certbot against the executor of the Agent, and the
    sites of Apache on a disk with services. *)

Lemma name_bytes s : match_string dbNameRegex s = true -> no_byte "`" s.
Proof.
  intros [_ Hs]%match_plus_ascii; [|solve_class_ascii]. unfold no_byte. revert Hs. apply str_forall_mono.
  intros c Hc. destruct (Ascii.eqb_spec "`" c) as [<-|]; [by vm_compute in Hc|done].
Qed.

(** The texts between the backquotes of a statement, if the names stay where they belong. *)
Definition quoted_names (dbName user : string) (st : string) : Prop :=
  In (split "`" st)
    [["CREATE DATABASE IF NOT EXISTS "; dbName; " CHARACTER SET utf8mb4 COLLATE utf8mb4_unicode_ci;"];
     ["CREATE USER IF NOT EXISTS "; user; "@'localhost' IDENTIFIED BY ?"];
     ["GRANT ALL PRIVILEGES ON "; dbName; ".* TO "; user; "@'localhost';"]; ["FLUSH PRIVILEGES;"]; ["DROP DATABASE IF EXISTS "; dbName; ";"];
     ["DROP USER IF EXISTS "; user; "@'localhost';"]].

Definition statement_plain (dbName user : string) (secrets : list string) (X : Set) (c : mysql_call X) : Prop :=
  match c with
  | Connect _ => True
  | Exec st args => quoted_names dbName user st /\ (args = [] \/ args = secrets)
  end.

(** Whatever names and password are given, every statement sent to MySQL has the names between the
    backquotes of its text and nowhere else, and the password only as an argument. *)
Theorem names_stay_quoted root dbName user password :
  calls (statement_plain dbName user [password]) (CreateDatabase root dbName user password) /\
  calls (statement_plain dbName user [password]) (DeleteDatabase root dbName user).
Proof.
  unfold CreateDatabase, DeleteDatabase, names_ok. destruct (match_string dbNameRegex dbName) eqn:Hd; [|done].
  destruct (match_string dbNameRegex user) eqn:Hu; [|done]. apply name_bytes in Hd, Hu. cbn [andb negb].
  assert (forall pre n post, no_byte "`" pre -> no_byte "`" n -> split "`" (pre ++ "`" ++ n ++ "`" ++ post) = pre :: n :: split "`" post) as Hsplit.
  { intros pre n post Hp Hn. cbn [append]. by rewrite !split_app_sep. }
  assert (calls (statement_plain dbName user [password]) (getDB root)) as Hget.
  { unfold getDB. destruct (String.eqb root ""); [done|]. split; [done|]. by intros []. }
  split; (apply calls_try; [exact Hget|intros _]);
    repeat (apply calls_wrap; [apply calls_call; cbn [statement_plain]; split; [|by auto]|intros _]); try done; unfold quoted_names.
  - left. symmetry. exact (Hsplit "CREATE DATABASE IF NOT EXISTS " dbName " CHARACTER SET utf8mb4 COLLATE utf8mb4_unicode_ci;" eq_refl Hd).
  - right; left. symmetry. exact (Hsplit "CREATE USER IF NOT EXISTS " user "@'localhost' IDENTIFIED BY ?" eq_refl Hu).
  - do 2 right; left. symmetry. etransitivity; [exact (Hsplit "GRANT ALL PRIVILEGES ON " dbName (".* TO `" ++ user ++ "`@'localhost';") eq_refl Hd)|].
    do 2 f_equal. exact (Hsplit ".* TO " user "@'localhost';" eq_refl Hu).
  - by do 3 right; left.
  - do 4 right; left. symmetry. exact (Hsplit "DROP DATABASE IF EXISTS " dbName ";" eq_refl Hd).
  - do 5 right; left. symmetry. exact (Hsplit "DROP USER IF EXISTS " user "@'localhost';" eq_refl Hu).
Qed.

(** *** Certbot *)

Section certbot.
Context `{HUnicode : Unicode}.

Lemma argument_permitted binary allowed prev s : operand s -> validateArg binary allowed prev s = Ok ().
Proof.
  intros [(Hne & Hd & Hs & Hdd) Hlen]. unfold validateArg. destruct (String.eqb_spec s ""); [done|].
  assert ((maxCommandArgument <? len s)%Z = false) as -> by lia.
  assert (contains_any s control_bytes = false) as ->.
  { unfold contains_any. apply str_exists_false. revert Hs. apply str_forall_mono. intros c Hc. by rewrite safe_byte_no_control. }
  cbn [orb]. destruct (_ && _); [done|]. unfold isAllowedArg. rewrite Hd. cbn [negb]. rewrite (proj2 (safeOperand_spec s)) by done. by rewrite Hdd.
Qed.

Definition certbot_words : list string :=
  ["certonly"; "renew"; "--webroot"; "-w"; "-d"; "-n"; "--agree-tos"; "-m"; "--expand"; "--register-unsafely-without-email"; "--cert-name";
   "--non-interactive"].

(** The executor of the Agent permits the command of certbot for every domain, directory and address
    that are plain operands. *)
Theorem certbot_permitted domain webroot email :
  operand domain -> operand webroot -> email = "" \/ operand email -> Validate "certbot" (certbot_args domain webroot email) = Ok ().
Proof.
  intros Hd Hw He.
  change (Validate "certbot" (certbot_args domain webroot email)) with
    (for_each_prev None (validateArg "certbot" certbot_words) (certbot_args domain webroot email) ;? Ok ()).
  assert (for_each_prev None (validateArg "certbot" certbot_words) (certbot_args domain webroot email) = Ok ()) as ->; [|done].
  unfold certbot_args. destruct He as [->|He].
  - cbn [String.eqb app for_each_prev]. rewrite !(argument_permitted _ _ _ webroot), !(argument_permitted _ _ _ domain) by done. by vm_compute.
  - assert (String.eqb email "" = false) as -> by (apply String.eqb_neq; by destruct He as [[? _] _]). cbn [app for_each_prev].
    rewrite !(argument_permitted _ _ _ webroot), !(argument_permitted _ _ _ domain), !(argument_permitted _ _ _ email) by done. by vm_compute.
Qed.

Lemma certbot_permitted_witness : Validate "certbot" (certbot_args "example.org" "/var/www/example.org/public" "admin@example.org") = Ok ().
Proof. apply (certbot_permitted "example.org" "/var/www/example.org/public" "admin@example.org"); [..|right]; by repeat split. Defined.
End certbot.

(** *** Apache *)

(** The disk and the services of Php.v: a service runs with the disk it was last started with. *)
Definition on_host {A} (p : agent_prog A) (s : fpm_host) (a : A) (s' : fpm_host) : Prop := runs (@agent_sem) p s a s'.

(** Only the two files of a site are touched. *)
Definition of_site (domain : string) (X : Set) (c : agent_op X) : Prop :=
  match c with
  | FileWrite_ p _ _ | FileDelete_ p => p = available domain \/ p = enabled domain
  | ServiceAct VRestart svc => svc = "apache2"
  | _ => False
  end.

Definition keeps_sites (domain : string) (s s' : fpm_host) : Prop := forall p, p <> available domain -> p <> enabled domain -> disk s' !! p = disk s !! p.

#[local] Instance keeps_sites_refl domain : Reflexive (keeps_sites domain).
Proof. by intros s p. Qed.
#[local] Instance keeps_sites_trans domain : Transitive (keeps_sites domain).
Proof. intros a b c Hab Hbc p Ha He. by rewrite Hbc, Hab. Qed.

Lemma of_site_keeps domain X (c : agent_op X) s x s' : of_site domain X c -> agent_sem X c s x s' -> keeps_sites domain s s'.
Proof.
  destruct c as [[]| | | | | | | | | | | | | | | | | | | | | | | | | | | | | |]; cbn; try done.
  - intros _ [Hd _] p _ _. by rewrite Hd.
  - intros Hp [_ Hd] p Ha He. assert (p <> path) as Hne by (by intros ->; destruct Hp).
    destruct x as [u|e]; [rewrite Hd; by rewrite lookup_insert_ne|]. destruct Hd as (t & [->| ->]); [done|by rewrite lookup_insert_ne].
  - intros Hp [_ Hd] p Ha He. assert (p <> path) as Hne by (by intros ->; destruct Hp).
    destruct x as [u|e]; [rewrite Hd; by rewrite lookup_delete_ne|]. by destruct Hd as [-> _].
Qed.

Lemma apply_of_site action site : calls (of_site (PrimaryDomain site)) (apache_ApplySite action site).
Proof.
  unfold apache_ApplySite. apply calls_try; [|intros _; by apply calls_call].
  assert (forall f A (p : agent_prog A), (f = available (PrimaryDomain site) \/ f = enabled (PrimaryDomain site)) -> calls (of_site (PrimaryDomain site)) p ->
    calls (of_site (PrimaryDomain site)) (ignore! call (FileDelete_ f) in p)) as Hdel.
  { intros f A p Hf Hp. apply calls_bind; [by apply calls_call|]. by intros _. }
  destruct action; [apply calls_wrap; [by apply calls_call; left|intros _]| | |]; auto;
    try (apply calls_wrap; [by apply calls_call; right|by intros _]).
  - apply Hdel; [by right|]. by apply Hdel; [left|].
  - by apply Hdel; [right|].
Qed.

(** When Apache reports that a site is on, it has been restarted with the configuration of the site;
    whatever it reports, no file of another site has changed. *)
Theorem apache_site_loaded action site s r s' :
  on_host (apache_ApplySite action site) s r s' ->
  keeps_sites (PrimaryDomain site) s s' /\
  (action = SiteUpsert \/ action = SiteEnable -> r = Ok () ->
   disk s' !! enabled (PrimaryDomain site) = Some (renderApache site) /\ running s' !! "apache2" = Some (disk s')).
Proof.
  intros Hr. split.
  - eapply (runs_always _ (of_site (PrimaryDomain site)) (fun _ => True) (keeps_sites (PrimaryDomain site)));
      [apply apply_of_site|apply of_site_keeps|exact Hr].
  - intros Ha ->. unfold on_host, apache_ApplySite in Hr. apply runs_try in Hr as [(u & s1 & Hp & Hr)|(e & _ & [=])].
    apply runs_call in Hr as [Hd Hr].
    assert (disk s1 !! enabled (PrimaryDomain site) = Some (renderApache site)) as Hw.
    { assert (forall s0, runs (@agent_sem) (wrap! (Wrapped "apache: enable site") of _ := call (FileWrite_ (enabled (PrimaryDomain site)) (renderApache site) 420) in
        Ret (Ok ())) s0 (Ok u) s1 -> disk s1 !! enabled (PrimaryDomain site) = Some (renderApache site)) as Hput.
      { intros s0 [(v & s2 & [_ Hw]%runs_call & _ & ->)|(e & _ & [=])]%runs_wrap. rewrite Hw. apply lookup_insert_eq. }
      destruct Ha as [-> | ->]; [|by eapply Hput]. apply runs_wrap in Hp as [(v & s2 & _ & Hp)|(e & _ & [=])]. by eapply Hput. }
    rewrite Hr, Hd, lookup_insert_eq. done.
Qed.

(** A configuration that cannot be deleted is still served after a successful switch off. *)
Theorem failed_delete_still_served site d e :
  disk d !! enabled (PrimaryDomain site) <> None -> contains (error_text e) "no such file" = false ->
  exists s', on_host (apache_ApplySite SiteDisable site) d (Ok ()) s' /\ running s' !! "apache2" = Some (disk d).
Proof.
  intros Hin He. exists {| disk := disk d; running := <["apache2" := disk d]> (running d) |}. split; [|apply lookup_insert_eq].
  unfold on_host, apache_ApplySite. apply runs_try. left. exists (), d. split.
  - exists (Err e), d. split; [|done]. split; [done|]. split; [done|]. by rewrite He.
  - exists (Ok ()), {| disk := disk d; running := <["apache2" := disk d]> (running d) |}. by repeat split.
Qed.

(** Apache passes the scripts of a site to the socket of the PHP service, never to that of the pool
    which the PHP module makes for the site. *)
Theorem apache_bypasses_pool site domain version :
  sp_AppVersion site <> "" -> version = sp_AppVersion site ->
  In ("        SetHandler " ++ String dquote ("proxy:unix:/run/php/php" ++ version ++ "-fpm.sock|fcgi://localhost" ++ String dquote "")) (apache_lines site) /\
  site_listen version domain <> "/run/php/php" ++ version ++ "-fpm.sock".
Proof.
  intros Hv ->. split.
  - unfold apache_lines, apache_body. apply String.eqb_neq in Hv. rewrite Hv. rewrite !in_app_iff. do 2 right. left. right. by do 2 right; left.
  - unfold site_listen. intros Heq.
    assert (forall a b c : string, a ++ b = a ++ c -> b = c) as Hinj by (intros a; induction a; intros b c; [done|]; intros [= ?]; auto).
    by apply Hinj, Hinj in Heq.
Qed.
