(* ===== verification/NginxSettings.v ===== *)
(** * The settings of nginx

    modules/nginx: the settings that are edited in nginx.conf and in a file of their own
    (settings.go), the configuration files that are edited as texts (configuration.go), and the
    lifecycle and actions of the daemon (lifecycle.go, actions.go).  Files, snapshots and the test of
    the configuration are those of Nginx.v. *)

From S2P Require Import Prelude GoStrings GoStrconv GoRegexp GoJson Effects AppErrors Nginx AgentApi.
From S2P Require PresetsSpec.
Local Open Scope string_scope.
Local Open Scope go_scope.

(** source: modules/nginx/settings.go:14-17 (nginxMainConfigPath) *)
Definition nginxMainConfigPath : string := "/etc/nginx/nginx.conf".
(** source: modules/nginx/settings.go:14-17 (nginxManagedConfigPath) *)
Definition nginxManagedConfigPath : string := "/etc/nginx/conf.d/opendeploy-settings.conf".

Definition lf : ascii := ascii_of_nat 10.
Definition lf_text : string := String lf "".

(** ** Reading and replacing directives *)

Fixpoint count (b : ascii) (s : string) : Z :=
  match s with "" => 0%Z | String c s' => ((if Ascii.eqb c b then 1 else 0) + count b s')%Z end.

(** A line without its comment and the spaces around it. *)
Definition bare (raw : string) : string := trim_space (fst (cut "#" raw)).
Definition opened (line : string) : Z := (count "{" line - count "}" line)%Z.

(** The value of a directive on a line that starts with it. *)
Definition value_on (directive line : string) : string := trim_suffix (trim_space (trim_prefix line directive)) ";".

(** source: modules/nginx/data_grid_service.go:197-205 (nginxDirective) *)
Fixpoint directive_in (directive : string) (lines : list string) : string :=
  match lines with
  | [] => ""
  | raw :: lines' => let line := trim_space raw in
                     if has_prefix line (directive ++ " ") then value_on directive line else directive_in directive lines'
  end.
Definition nginxDirective (content directive : string) : string := directive_in directive (split lf content).

(** source: modules/nginx/settings.go:204-214 (nginxDirectiveAtDepth) *)
Fixpoint directive_at (directive : string) (target depth : Z) (lines : list string) : string :=
  match lines with
  | [] => ""
  | raw :: lines' =>
      let line := bare raw in
      if (depth =? target)%Z && has_prefix line (directive ++ " ") then value_on directive line
      else directive_at directive target (depth + opened line) lines'
  end.
Definition nginxDirectiveAtDepth (content directive : string) (target : Z) : string := directive_at directive target 0 (split lf content).

(** source: modules/nginx/settings.go:266-272 (findBlock, the end): the lines up to the end of the block *)
Fixpoint block_end (depth base : Z) (lines : list string) : option nat :=
  match lines with
  | [] => None
  | raw :: lines' =>
      let depth := (depth + opened (bare raw))%Z in
      if (depth <? base)%Z then Some 0%nat else S <$> block_end depth base lines'
  end.

(** source: modules/nginx/settings.go:259-277 (findBlock): the line of the block and its end; the third
    result is always 0 *)
Fixpoint find_block (block : string) (depth : Z) (lines : list string) : option (nat * nat) :=
  match lines with
  | [] => None
  | raw :: lines' =>
      let line := bare raw in
      let inner := (depth + opened line)%Z in
      let later := (fun '(a, b) => (S a, S b)) <$> find_block block inner lines' in
      if has_prefix line block && contains_byte line "{" then
        match block_end inner inner lines' with Some n => Some (0%nat, S n) | None => later end
      else later
  end.

(** source: modules/nginx/settings.go:216-223 (nginxDirectiveInBlock) *)
Definition nginxDirectiveInBlock (content block directive : string) : string :=
  let lines := split lf content in
  match find_block block 0 lines with
  | None => ""
  | Some (start, stop) => nginxDirectiveAtDepth (join lf_text (drop (start + 1) (take stop lines))) directive 0
  end.

(** The white space of spaces and tabs a line starts with. *)
Fixpoint indent_of (s : string) : string :=
  match s with
  | String c s' => if Ascii.eqb c " " || Ascii.eqb c (ascii_of_nat 9) then String c (indent_of s') else ""
  | "" => ""
  end.
Definition setting (directive value : string) : string := directive ++ " " ++ value ++ ";".
Definition new_line (raw directive value : string) : string := indent_of raw ++ setting directive value.

(** source: modules/nginx/settings.go:225-238 (replaceDirectiveAtDepth) *)
Fixpoint replace_at (directive value : string) (target depth : Z) (lines : list string) : option (list string) :=
  match lines with
  | [] => None
  | raw :: lines' =>
      let line := bare raw in
      if (depth =? target)%Z && has_prefix line (directive ++ " ") then Some (new_line raw directive value :: lines')
      else cons raw <$> replace_at directive value target (depth + opened line) lines'
  end.
Definition replaceDirectiveAtDepth (content directive value : string) (target : Z) : result error string :=
  match replace_at directive value target 0 (split lf content) with
  | Some lines => Ok (join lf_text lines)
  | None => Err (Plain ("nginx directive " ++ directive ++ " was not found"))
  end.

(** source: modules/nginx/settings.go:246-253 (replaceDirectiveInBlock, the loop): the lines of the block *)
Fixpoint replace_first (directive value : string) (lines : list string) : option (list string) :=
  match lines with
  | [] => None
  | raw :: lines' =>
      if has_prefix (bare raw) (directive ++ " ") then Some (new_line raw directive value :: lines')
      else cons raw <$> replace_first directive value lines'
  end.

(** source: modules/nginx/settings.go:240-257 (replaceDirectiveInBlock) *)
Definition replaceDirectiveInBlock (content block directive value : string) : result error string :=
  let lines := split lf content in
  match find_block block 0 lines with
  | None => Err (Plain ("nginx block " ++ block ++ " was not found"))
  | Some (start, stop) =>
      let inside := drop (start + 1) (take stop lines) in
      let inside' := match replace_first directive value inside with
                     | Some l => l
                     | None => ("    " ++ setting directive value) :: inside
                     end in
      Ok (join lf_text (take (start + 1) lines ++ inside' ++ drop stop lines))
  end.

(** ** The settings *)

Record nginx_settings := {
  worker_processes : string; worker_connections : string; keepalive_timeout : string; client_max_body_size : string; gzip_types : string;
  access_log : string; error_log : string; sendfile : bool; gzip : bool; server_tokens : bool }.

Definition onOff (b : bool) : string := if b then "on" else "off".

(** source: modules/nginx/settings.go:165-184 (renderManagedSettings) *)
Definition managed_lines (s : nginx_settings) : list string :=
  ["# Managed by OpenDeploy. Manual changes will be overwritten."; setting "keepalive_timeout" (keepalive_timeout s);
   setting "client_max_body_size" (client_max_body_size s); setting "sendfile" (onOff (sendfile s)); setting "gzip" (onOff (gzip s));
   setting "gzip_types" (gzip_types s); setting "server_tokens" (onOff (server_tokens s)); setting "access_log" (access_log s);
   setting "error_log" (error_log s); ""].
Definition renderManagedSettings (s : nginx_settings) : string := join lf_text (managed_lines s).

(** source: modules/nginx/settings.go:186-195 (directiveEnabled) *)
Definition directiveEnabled (content directive : string) (default : bool) : bool :=
  let v := nginxDirective content directive in if String.eqb v "on" then true else if String.eqb v "off" then false else default.

(** source: modules/nginx/settings.go:197-202 (firstNonEmpty) *)
Definition firstNonEmpty (value fallback : string) : string := if String.eqb value "" then fallback else value.

(** source: modules/nginx/settings.go:62-73 (currentSettings, the values) *)
Definition settings_of (mainText managedText : string) : nginx_settings := {|
  worker_processes := firstNonEmpty (nginxDirectiveAtDepth mainText "worker_processes" 0) "auto";
  worker_connections := firstNonEmpty (nginxDirectiveInBlock mainText "events" "worker_connections") "1024";
  keepalive_timeout := firstNonEmpty (nginxDirective managedText "keepalive_timeout") "65";
  client_max_body_size := firstNonEmpty (nginxDirective managedText "client_max_body_size") "50m";
  sendfile := directiveEnabled managedText "sendfile" true; gzip := directiveEnabled managedText "gzip" true;
  gzip_types := firstNonEmpty (nginxDirective managedText "gzip_types") "text/plain text/css application/json application/javascript application/xml";
  server_tokens := directiveEnabled managedText "server_tokens" false;
  access_log := firstNonEmpty (nginxDirective managedText "access_log") "/var/log/nginx/access.log";
  error_log := firstNonEmpty (nginxDirective managedText "error_log") "/var/log/nginx/error.log warn" |}.

(** The run of nginx -T, beside the calls of Nginx.v. *)
Inductive dump_call : Set -> Set := NginxDump : dump_call (result error (Z * string * string)).
Definition settings_call (X : Set) : Set := (nginx_call X + dump_call X)%type.
Definition files_of {X : Set} (c : nginx_call X) : prog settings_call X := call (inl c : settings_call X).

(** source: modules/nginx/settings.go:48-61 (currentSettings, the effective configuration): the texts of
    the main and of the managed file, completed *)
Definition completed (mainText managedText : string) (dump : result error (Z * string * string)) : string * string :=
  match dump with
  | Ok (code, out, err) =>
      let effective := if String.eqb out "" then err else out in
      if (code =? 0)%Z && negb (String.eqb (trim_space effective) "")
      then (if String.eqb mainText "" then effective else mainText, if String.eqb managedText "" then effective else managedText)
      else (mainText, managedText)
  | Err _ => (mainText, managedText)
  end.

(** source: modules/nginx/settings.go:42-74 (currentSettings) *)
Definition currentSettings : prog settings_call nginx_settings :=
  let! main := files_of (FileRead nginxMainConfigPath) in
  let! managed := files_of (FileRead nginxManagedConfigPath) in
  let! dump := call (inr NginxDump : settings_call _) in
  let text (r : result error string) := match r with Ok c => c | Err _ => "" end in
  let '(mainText, managedText) := completed (text main) (text managed) dump in
  Ret (settings_of mainText managedText).

(** source: modules/nginx/settings.go:157-163 (boundedInteger) *)
Definition boundedInteger (value : string) (minimum maximum : Z) : result error () :=
  let bad := Err (Plain ("must be between " ++ itoa minimum ++ " and " ++ itoa maximum)) in
  match atoi value with
  | Some n => if (n <? minimum)%Z || (maximum <? n)%Z then bad else Ok ()
  | None => bad
  end.

Definition re_space : re := Cls (fun z => (z =? 9)%Z || (z =? 10)%Z || (z =? 12)%Z || (z =? 13)%Z || (z =? 32)%Z).
Definition mime_class (z : Z) : bool := r_alnum z || one_of ".+-" z.
Definition mime_type : re := Cat (plus (Cls mime_class)) (Cat (lit "/") (plus (Cls (fun z => mime_class z || one_of "*" z)))).
Definition log_path : re := Cat (lit "/var/log/nginx/") (Cat (plus (Cls (fun z => r_alnum z || one_of "_.-" z))) (lit ".log")).

(** source: modules/nginx/settings.go:20-20 (nginxSizePattern) *)
Definition nginxSizePattern : re := Cat (Cls (in_range 49 57)) (Cat (Star (Cls r_digit)) (opt (Cls (one_of "kKmMgG")))).
(** source: modules/nginx/settings.go:21-21 (nginxMIMEPattern) *)
Definition nginxMIMEPattern : re := Cat mime_type (Star (Cat (plus re_space) mime_type)).
(** source: modules/nginx/settings.go:22-22 (nginxLogPath) *)
Definition nginxLogPath : re := log_path.
(** source: modules/nginx/settings.go:23-23 (nginxErrorLogPath) *)
Definition nginxErrorLogPath : re :=
  Cat log_path (opt (Cat (plus re_space) (fold_right Alt Void (lit <$> ["debug"; "info"; "notice"; "warn"; "error"; "crit"; "alert"; "emerg"])))).

Section validation.
(** [fmt.Sprint] of a number, a list or an object. *)
Variable sprint_other : json -> string.
Definition sprint (v : json) : string :=
  match v with
  | JStr raw => default "" (unquote raw)
  | JNull => "<nil>"
  | JBool b => if b then "true" else "false"
  | _ => sprint_other v
  end.

Definition required (settings : string -> option json) (key : string) : result error string :=
  match settings key with Some v => Ok (trim_space (sprint v)) | None => Err (Plain (key ++ " is required")) end.
Definition boolean (settings : string -> option json) (key : string) : result error bool :=
  match settings key with Some (JBool b) => Ok b | _ => Err (Plain (key ++ " must be boolean")) end.

(** source: modules/nginx/settings.go:130-153 (validateNginxSettings, the checks) *)
Definition check_settings (s : nginx_settings) : result error () :=
  (if String.eqb (worker_processes s) "auto" then Ok () else map_err (Wrapped "worker_processes") (boundedInteger (worker_processes s) 1 128)) ;?
  map_err (Wrapped "worker_connections") (boundedInteger (worker_connections s) 16 1048576) ;?
  map_err (Wrapped "keepalive_timeout") (boundedInteger (keepalive_timeout s) 1 3600) ;?
  fail_if (negb (match_string nginxSizePattern (client_max_body_size s))) (Plain "client_max_body_size has invalid format") ;?
  fail_if (negb (match_string nginxMIMEPattern (gzip_types s))) (Plain "gzip_types contains invalid MIME types") ;?
  fail_if (negb (String.eqb (access_log s) "off") && negb (match_string nginxLogPath (access_log s)))
    (Plain "access_log must be off or a file below /var/log/nginx") ;?
  fail_if (negb (match_string nginxErrorLogPath (error_log s))) (Plain "error_log must be a file below /var/log/nginx with an optional level").

(** source: modules/nginx/settings.go:113-155 (validateNginxSettings) *)
Definition validateNginxSettings (settings : string -> option json) : result error nginx_settings :=
  let? wp := required settings "worker_processes" in
  let? wc := required settings "worker_connections" in
  let? kt := required settings "keepalive_timeout" in
  let? cm := required settings "client_max_body_size" in
  let? gt := required settings "gzip_types" in
  let? al := required settings "access_log" in
  let? el := required settings "error_log" in
  let? sf := boolean settings "sendfile" in
  let? gz := boolean settings "gzip" in
  let? st := boolean settings "server_tokens" in
  let s := {| worker_processes := wp; worker_connections := wc; keepalive_timeout := kt; client_max_body_size := cm; gzip_types := gt;
              access_log := al; error_log := el; sendfile := sf; gzip := gz; server_tokens := st |} in
  check_settings s ;? Ok s.

(** source: modules/nginx/settings.go:87-95 (SaveSettings, the new texts) *)
Definition new_texts (main : string) (s : nginx_settings) : result error (string * string) :=
  let? m1 := replaceDirectiveAtDepth main "worker_processes" (worker_processes s) 0 in
  let? m2 := replaceDirectiveInBlock m1 "events" "worker_connections" (worker_connections s) in
  Ok (m2, renderManagedSettings s).

(** source: modules/nginx/settings.go:97-103 (SaveSettings, the files) *)
Definition write_settings (main managed : string) (mainSnapshot : fileSnapshot) : nginx_prog (result error ()) :=
  wrap! (Wrapped "write nginx.conf") of _ := call (FileWrite nginxMainConfigPath main 420) in
  let! r := call (FileWrite nginxManagedConfigPath managed 420) in
  match r with
  | Err e => ignore! (restoreSnapshot nginxMainConfigPath mainSnapshot) in Ret (Err (Wrapped "write managed nginx settings" e))
  | Ok _ => Ret (Ok ())
  end.

(** source: modules/nginx/settings.go:76-111 (SaveSettings) *)
Definition SaveSettings (settings : string -> option json) : nginx_prog (result error ()) :=
  match validateNginxSettings settings with
  | Err e => Ret (Err e)
  | Ok s =>
      let! mainSnapshot := readSnapshot nginxMainConfigPath in
      let! managedSnapshot := readSnapshot nginxManagedConfigPath in
      match mainSnapshot with
      | None => Ret (Err (Plain "nginx main configuration is unavailable"))
      | Some main =>
          match new_texts main s with
          | Err e => Ret (Err e)
          | Ok (m, managed) =>
              let! r := write_settings m managed mainSnapshot in
              match r with
              | Err e => Ret (Err e)
              | Ok _ =>
                  let! v := validateAndReload in
                  match v with
                  | Ok _ => Ret (Ok ())
                  | Err e =>
                      ignore! restoreSnapshot nginxMainConfigPath mainSnapshot in
                      ignore! restoreSnapshot nginxManagedConfigPath managedSnapshot in
                      ignore! call (ServiceReload "nginx") in
                      Ret (Err e)
                  end
              end
          end
      end
  end.
End validation.

(** ** Configuration files as texts *)

(** source: modules/nginx/configuration.go:89-105 (isEditableNginxConfig): below the first root that
    fits *)
Definition isEditableNginxConfig (filePath : string) : bool :=
  let below root := negb (String.eqb (trim_prefix filePath root) "") && negb (contains_byte (trim_prefix filePath root) "/") in
  let conf root := has_suffix (trim_prefix filePath root) ".conf" in
  if String.eqb filePath nginxMainConfigPath || String.eqb filePath "/etc/nginx/mime.types" then true
  else if has_prefix filePath "/etc/nginx/sites-available/" then below "/etc/nginx/sites-available/" && conf "/etc/nginx/sites-available/"
  else if has_prefix filePath "/etc/nginx/conf.d/" then below "/etc/nginx/conf.d/" && conf "/etc/nginx/conf.d/"
  else if has_prefix filePath "/etc/nginx/snippets/" then below "/etc/nginx/snippets/"
  else false.

(** source: modules/nginx/configuration.go:67-87 (saveConfigurationFile) *)
Definition saveConfigurationFile (filePath content : string) : nginx_prog (result error ()) :=
  if negb (isEditableNginxConfig filePath) then Ret (Err (Plain "configuration path is not editable"))
  else if String.eqb (trim_space content) "" || (2 ^ 20 <? len content)%Z || contains_byte content (ascii_of_nat 0)
  then Ret (Err (Plain "configuration content is empty or too large"))
  else
    let! snapshot := readSnapshot filePath in
    match snapshot with
    | None => Ret (Err (Plain "configuration file does not exist"))
    | Some _ =>
        wrap! (Wrapped "write nginx configuration") of _ := call (FileWrite filePath content 420) in
        let! v := validateAndReload in
        match v with
        | Ok _ => Ret (Ok ())
        | Err e => ignore! restoreSnapshot filePath snapshot in ignore! call (ServiceReload "nginx") in Ret (Err e)
        end
    end.

(** ** The daemon *)

Notation daemon_prog A := (prog agent_op A).

(** source: modules/nginx/lifecycle.go:5-15 (Install) *)
Definition Install : daemon_prog (result error ()) := try! _ := call (PackageInstall_ "nginx") in call (ServiceAct VEnable "nginx").
(** source: modules/nginx/lifecycle.go:17-28 (Uninstall) *)
Definition Uninstall : daemon_prog (result error ()) :=
  ignore! call (ServiceAct VStop "nginx") in try! _ := call (PackageRemove_ "nginx") in Ret (Ok ()).
(** source: modules/nginx/lifecycle.go:30-35 (Enable) *)
Definition Enable : daemon_prog (result error ()) := try! _ := call (ServiceAct VEnable "nginx") in call (ServiceAct VStart "nginx").
(** source: modules/nginx/lifecycle.go:37-42 (Disable) *)
Definition Disable : daemon_prog (result error ()) := try! _ := call (ServiceAct VStop "nginx") in call (ServiceAct VDisable "nginx").
(** source: modules/nginx/lifecycle.go:44-46 (Restart) *)
Definition Restart : daemon_prog (result error ()) := call (ServiceAct VRestart "nginx").

Definition passed (t : result error (Z * string * string)) : bool := match t with Ok (code, _, _) => (code =? 0)%Z | Err _ => false end.
Definition output_of (t : result error (Z * string * string)) : string * string := match t with Ok (_, out, err) => (out, err) | Err _ => ("", "") end.

(** source: modules/nginx/actions.go:20-45 (ExecuteAction): [shown] is how fmt prints the error of the
    test, if any *)
Definition ExecuteAction (shown : option error -> string) (actionID : string) : daemon_prog (result error ()) :=
  if String.eqb actionID "start" then call (ServiceAct VStart "nginx")
  else if String.eqb actionID "stop" then call (ServiceAct VStop "nginx")
  else if String.eqb actionID "reload" then
    let! t := call (CommandExecute_ "nginx" ["-t"]) in
    if negb (passed t) then Ret (Err (Plain ("configuration test failed, reload aborted:" ++ lf_text ++ fst (output_of t) ++ lf_text ++ snd (output_of t))))
    else call (ServiceAct VReload "nginx")
  else if String.eqb actionID "restart" then call (ServiceAct VRestart "nginx")
  else if String.eqb actionID "test_config" then
    let! t := call (CommandExecute_ "nginx" ["-t"]) in
    Ret (if passed t then Ok ()
         else Err (Plain ("nginx -t failed: " ++ shown (match t with Err e => Some e | Ok _ => None end) ++ lf_text ++ snd (output_of t))))
  else Ret (Err (Plain ("unknown action: " ++ actionID))).

(** source: modules/nginx/actions.go:47-59 (ActionAvailability): start, stop, reload, restart, test_config *)
Definition ActionAvailability : daemon_prog (list (string * bool)) :=
  let! s := call (ServiceStatus_ "nginx") in
  let active := match s with Ok s => cs_Active s | Err _ => false end in
  Ret [("start", negb active); ("stop", active); ("reload", active); ("restart", active); ("test_config", true)].

(** ** What saving the settings of nginx does

    The files under any single failure, and the values that are read back. *)

(** *** All or nothing *)

Lemma runs_snapshot p w s w' :
  runs nginx_sem (readSnapshot p) w s w' ->
  files w' = files w /\ (s = files w !! p /\ faults w' = faults w \/ s = None /\ faults w' = S (faults w)).
Proof.
  intros (x & w1 & Hx & -> & ->). destruct x as [c|e].
  - destruct Hx as [Hc ->]. split; [done|]. left. by rewrite Hc.
  - destruct Hx as [[Hn ->]| ->]; split; [done|left; by rewrite Hn|done|by right].
Qed.

Lemma runs_write p c mode w x w' :
  runs nginx_sem (call (FileWrite p c mode)) w x w' ->
  x = Ok () /\ files w' = put p (Some c) (files w) /\ faults w' = faults w \/ is_ok x = false /\ files w' = files w /\ faults w' = S (faults w).
Proof. intros [[-> ->]|[Hx ->]]%runs_call; [by left|by right]. Qed.

Lemma runs_reload_quiet w x w' : runs nginx_sem (call (ServiceReload "nginx")) w x w' -> files w' = files w /\ (faults w <= faults w')%nat.
Proof. intros [[-> ->]|[_ ->]]%runs_call; cbn; split; auto; lia. Qed.

(** The undoing of a change that the test refused. *)
Lemma write_settings_runs m managed old w r w' :
  runs nginx_sem (write_settings m managed (Some old)) w r w' -> files w !! nginxMainConfigPath = Some old ->
  (faults w <= faults w')%nat /\
  if is_ok r then files w' = put nginxManagedConfigPath (Some managed) (put nginxMainConfigPath (Some m) (files w)) /\ faults w' = faults w
  else faults w <> faults w' /\ ((faults w' <= faults w + 1)%nat -> files w' = files w).
Proof.
  intros Hr Hold. unfold write_settings in Hr. apply runs_wrap in Hr as [([] & w1 & Hw & Hr)|(e & Hw & ->)].
  2:{ apply runs_write in Hw as [([=] & _)|(_ & Hf & Hn)]. cbn. split_and!; [lia..|done]. }
  apply runs_write in Hw as [(_ & Hf & Hn)|([=] & _)]. apply runs_bind in Hr as (x & w2 & Hx & Hr).
  apply runs_write in Hx as [(-> & Hf2 & Hn2)|(Hx & Hf2 & Hn2)].
  - destruct Hr as [-> ->]. cbn. split; [lia|]. by rewrite Hf2, Hf, Hn2.
  - destruct x as [|e]; [done|]. apply runs_bind in Hr as (u & w3 & [Hm Hres]%runs_restore & -> & ->). cbn. split_and!; [lia..|].
    intros Hle. rewrite Hres by lia. rewrite Hf2, Hf, <- Hold. apply put_back.
Qed.

Lemma paths_differ : nginxMainConfigPath <> nginxManagedConfigPath.
Proof. discriminate. Qed.

Section saving.
Context (sprint_other : json -> string).

(** Saving the settings writes both files as a whole, tested and loaded, or leaves every file as it
    was, under any single failure; and nothing else is ever touched. *)
Theorem nginx_settings_all_or_nothing settings w r w' :
  runs nginx_sem (SaveSettings sprint_other settings) w r w' ->
  if is_ok r then
    exists s main m managed, validateNginxSettings sprint_other settings = Ok s /\ files w !! nginxMainConfigPath = Some main /\
      new_texts main s = Ok (m, managed) /\
      files w' = put nginxManagedConfigPath (Some managed) (put nginxMainConfigPath (Some m) (files w))
  else (faults w' <= faults w + 1)%nat -> files w' = files w.
Proof.
  intros Hr. unfold SaveSettings in Hr. destruct (validateNginxSettings sprint_other settings) as [s|e]; [|by destruct Hr as [-> ->]].
  apply runs_bind in Hr as (sm & w1 & [Hf1 H1]%runs_snapshot & Hr). apply runs_bind in Hr as (sg & w2 & [Hf2 H2]%runs_snapshot & Hr).
  destruct sm as [main|]; [|destruct Hr as [-> ->]; cbn; congruence]. destruct H1 as [[Hmain Hn1]|[[=] _]].
  destruct (new_texts main s) as [[m managed]|e] eqn:Hnew; [|destruct Hr as [-> ->]; cbn; congruence].
  apply runs_bind in Hr as (x & w3 & Hx & Hr).
  apply write_settings_runs in Hx as [Hle Hx]; [|by rewrite Hf2, Hf1].
  assert (faults w2 = faults w \/ faults w2 = S (faults w)) as Hn2 by (destruct H2 as [[_ ?]|[_ ?]]; lia).
  destruct x as [[]|e]; cbn [is_ok] in Hx; [|destruct Hr as [-> ->]; cbn; intros; destruct Hx as [Hne Hx]; rewrite Hx, Hf2, Hf1 by lia; done].
  destruct Hx as [Hf3 Hn3]. apply runs_bind in Hr as (v & w4 & [Hf4 Hn4]%test_reload_checks & Hr). destruct v as [[]|e]; cbn in Hn4.
  - destruct Hr as [-> ->]. cbn. exists s, main, m, managed. by rewrite Hf4, Hf3, Hf2, Hf1.
  - apply runs_bind in Hr as (u & w5 & [Hle5 H5]%runs_restore & Hr). apply runs_bind in Hr as (u' & w6 & [Hle6 H6]%runs_restore & Hr).
    apply runs_bind in Hr as (y & w7 & [Hf7 Hle7]%runs_reload_quiet & -> & ->). cbn. intros Hle'. rewrite Hf7, H6, H5, Hf4, Hf3, Hf2, Hf1 by lia.
    destruct H2 as [[-> _]|[_ H2]]; [|lia]. rewrite Hf1. apply map_eq. intros i.
    destruct (decide (i = nginxManagedConfigPath)) as [->|]; [by rewrite lookup_put_eq|].
    rewrite lookup_put_ne by done. destruct (decide (i = nginxMainConfigPath)) as [->|]; [by rewrite lookup_put_eq|].
    by rewrite !lookup_put_ne by congruence.
Qed.
End saving.

(** A configuration file is replaced by a text that passed the test, or stays, under any single
    failure; it is one of the editable files. *)
Theorem configuration_all_or_nothing path content w r w' :
  runs nginx_sem (saveConfigurationFile path content) w r w' ->
  if is_ok r then isEditableNginxConfig path = true /\ files w !! path <> None /\ files w' = put path (Some content) (files w)
  else (faults w' <= faults w + 1)%nat -> files w' = files w.
Proof.
  intros Hr. unfold saveConfigurationFile in Hr. destruct (isEditableNginxConfig path); [|by destruct Hr as [-> ->]]. cbn [negb] in Hr.
  destruct (_ || _); [by destruct Hr as [-> ->]|]. apply runs_bind in Hr as (sn & w1 & [Hf1 H1]%runs_snapshot & Hr).
  destruct sn as [old|]; [|destruct Hr as [-> ->]; cbn; congruence]. destruct H1 as [[Hold Hn1]|[[=] _]].
  apply runs_wrap in Hr as [([] & w2 & Hw & Hr)|(e & Hw & ->)].
  2:{ apply runs_write in Hw as [([=] & _)|(_ & Hf & Hn)]. cbn. congruence. }
  apply runs_write in Hw as [(_ & Hf2 & Hn2)|([=] & _)]. apply runs_bind in Hr as (v & w3 & [Hf3 Hn3]%test_reload_checks & Hr). destruct v as [[]|e]; cbn in Hn3.
  - destruct Hr as [-> ->]. cbn. rewrite Hf3, Hf2, Hf1, <- Hold. done.
  - apply runs_bind in Hr as (u & w4 & [Hle4 H4]%runs_restore & Hr). apply runs_bind in Hr as (y & w5 & [Hf5 Hle5]%runs_reload_quiet & -> & ->). cbn.
    intros Hle. rewrite Hf5, H4, Hf3, Hf2, Hf1, Hold by lia. apply put_back.
Qed.

(** The editable files are two fixed ones and the files directly in three directories. *)
Theorem editable_confined path :
  isEditableNginxConfig path = true ->
  path = "/etc/nginx/nginx.conf" \/ path = "/etc/nginx/mime.types" \/
  exists root name, In root ["/etc/nginx/sites-available/"; "/etc/nginx/conf.d/"; "/etc/nginx/snippets/"] /\ path = root ++ name /\
    name <> "" /\ contains_byte name "/" = false.
Proof.
  unfold isEditableNginxConfig. destruct (String.eqb_spec path nginxMainConfigPath); [by left|].
  destruct (String.eqb_spec path "/etc/nginx/mime.types"); [by right; left|]. cbn [orb]. intros H. do 2 right.
  assert (forall root, has_prefix path root = true -> negb (String.eqb (trim_prefix path root) "") && negb (contains_byte (trim_prefix path root) "/") = true ->
    exists name, path = root ++ name /\ name <> "" /\ contains_byte name "/" = false) as Hroot.
  { intros root [t ->]%has_prefix_iff. rewrite trim_prefix_app. intros [Ht Hc]%andb_true_iff. exists t. split_and!; [done| |].
    - by apply String.eqb_neq, negb_true_iff.
    - by apply negb_true_iff. }
  assert (forall root, In root ["/etc/nginx/sites-available/"; "/etc/nginx/conf.d/"; "/etc/nginx/snippets/"] -> has_prefix path root = true ->
    negb (String.eqb (trim_prefix path root) "") && negb (contains_byte (trim_prefix path root) "/") = true ->
    exists root name, In root ["/etc/nginx/sites-available/"; "/etc/nginx/conf.d/"; "/etc/nginx/snippets/"] /\ path = root ++ name /\
      name <> "" /\ contains_byte name "/" = false) as Hfound.
  { intros root Hin Hp Hn. destruct (Hroot root Hp Hn) as (name & Hpath & Hne & Hc). exists root, name. by split_and!. }
  destruct (has_prefix path "/etc/nginx/sites-available/") eqn:H1; [|destruct (has_prefix path "/etc/nginx/conf.d/") eqn:H2;
    [|destruct (has_prefix path "/etc/nginx/snippets/") eqn:H3; [|done]]].
  - apply andb_true_iff in H as [H _]. apply (Hfound "/etc/nginx/sites-available/"); [by left|done..].
  - apply andb_true_iff in H as [H _]. apply (Hfound "/etc/nginx/conf.d/"); [by right; left|done..].
  - apply (Hfound "/etc/nginx/snippets/"); [by right; right; left|done..].
Qed.

(** *** What was saved is read back *)

(** A value on one line: no comment, and no space at its ends. *)
Definition one_line (v : string) : Prop :=
  no_byte lf v /\ no_byte "#" v /\ (exists a s, v = String a s /\ is_word_byte a = true) /\ (exists p b, v = p ++ String b "" /\ is_word_byte b = true).

Lemma trim_line a p b s : is_word_byte a = true -> is_word_byte b = true -> String a s = p ++ String b "" -> trim_space (String a s) = String a s.
Proof. intros Ha Hb Heq. unfold trim_space. rewrite PresetsSpec.trim_left_word by done. rewrite Heq. by apply PresetsSpec.trim_right_word. Qed.

Lemma trim_suffix_semicolon v : trim_suffix (v ++ ";") ";" = v.
Proof.
  unfold trim_suffix. rewrite (proj2 (has_suffix_iff _ _)) by (by exists v).
  replace (String.length (v ++ ";") - String.length ";") with (String.length v) by (rewrite str_length_app; cbn; lia).
  rewrite take_bytes_app, take_bytes_all by done. by rewrite Nat.sub_diag, str_app_nil_r.
Qed.

(** A directive with its value, on a line of its own. *)
Lemma value_read directive v :
  one_line v -> value_on directive (setting directive v) = v.
Proof.
  intros (_ & _ & (a & s & -> & Ha) & _). unfold value_on, setting. rewrite trim_prefix_app. cbn [append].
  assert (trim_space (String " " (String a (s ++ ";"))) = String a s ++ ";") as ->; [|apply trim_suffix_semicolon].
  transitivity (trim_space (String a (s ++ ";"))); [done|]. by apply (trim_line a (String a s) ";").
Qed.

Lemma directive_line a directive v :
  is_word_byte a = true -> trim_space (setting (String a directive) v) = setting (String a directive) v.
Proof. intros Ha. unfold setting. apply (trim_line a (String a directive ++ " " ++ v) ";"); [done..|]. by rewrite <- !str_app_assoc. Qed.

Lemma found_line a directive v lines :
  is_word_byte a = true -> one_line v -> directive_in (String a directive) ((setting (String a directive) v) :: lines) = v.
Proof.
  intros Ha Hv. cbn [directive_in]. rewrite directive_line by done. assert (has_prefix (setting (String a directive) v) (String a directive ++ " ") = true) as ->; [|by apply value_read].
  apply has_prefix_iff. exists (v ++ ";"). unfold setting. by rewrite str_app_assoc.
Qed.

Lemma skipped_line a d directive v lines :
  is_word_byte a = true -> has_prefix (setting (String a d) v) (directive ++ " ") = false ->
  directive_in directive ((setting (String a d) v) :: lines) = directive_in directive lines.
Proof. intros Ha Hp. cbn [directive_in]. by rewrite directive_line, Hp. Qed.

Lemma switch_line b : one_line (onOff b).
Proof. destruct b; (split_and!; [done..| |]); [by eexists _, _|by exists "o", "n"%char|by eexists _, _|by exists "of", "f"%char]. Qed.

Lemma on_one_line directive v : no_byte lf directive -> one_line v -> no_byte lf (setting directive v).
Proof. intros Hd [Hv _]. unfold no_byte, setting in *. by rewrite !str_forall_app, Hd, Hv. Qed.

(** The values that are kept in the file of the settings are read back as they were saved. *)
Theorem managed_read_back main s :
  one_line (keepalive_timeout s) -> one_line (client_max_body_size s) -> one_line (gzip_types s) -> one_line (access_log s) -> one_line (error_log s) ->
  let s' := settings_of main (renderManagedSettings s) in
  keepalive_timeout s' = keepalive_timeout s /\ client_max_body_size s' = client_max_body_size s /\ gzip_types s' = gzip_types s /\
  access_log s' = access_log s /\ error_log s' = error_log s /\ sendfile s' = sendfile s /\ gzip s' = gzip s /\ server_tokens s' = server_tokens s.
Proof.
  intros Hk Hc Hg Ha He.
  assert (split lf (renderManagedSettings s) = managed_lines s) as Hsplit.
  { apply split_join; [done|]. unfold managed_lines. repeat (apply Forall_cons_2; [first [done|apply on_one_line; [done|auto using switch_line]]|]).
    apply Forall_nil_2. }
  assert (forall v fallback, one_line v -> firstNonEmpty v fallback = v) as Hfirst by (by intros v fallback (_ & _ & (a & t & -> & _) & _)).
  assert (forall directive, nginxDirective (renderManagedSettings s) directive = directive_in directive (managed_lines s)) as Hd by (intros; unfold nginxDirective; by rewrite Hsplit).
  assert (forall b default, (if String.eqb (onOff b) "on" then true else if String.eqb (onOff b) "off" then false else default) = b) as Hsw by (by intros []).
  unfold settings_of, directiveEnabled. cbv zeta. cbn [keepalive_timeout client_max_body_size gzip_types access_log error_log sendfile gzip server_tokens]. rewrite !Hd.
  assert (forall directive rest, has_prefix "# Managed by OpenDeploy. Manual changes will be overwritten." (directive ++ " ") = false ->
    directive_in directive ("# Managed by OpenDeploy. Manual changes will be overwritten." :: rest) = directive_in directive rest) as Hhead.
  { intros directive rest Hp. cbn [directive_in]. by rewrite (trim_line "#" "# Managed by OpenDeploy. Manual changes will be overwritten" "."), Hp. }
  unfold managed_lines.
  split_and!; rewrite Hhead by done; repeat (rewrite skipped_line by done); rewrite found_line by (done || apply switch_line); auto.
Qed.

Lemma indent_blank raw : str_forall (fun c => Ascii.eqb c " " || Ascii.eqb c (ascii_of_nat 9)) (indent_of raw) = true.
Proof. induction raw as [|c raw IH]; [done|]. cbn [indent_of]. destruct (_ || _) eqn:Hc; [|done]. cbn [str_forall]. by rewrite Hc. Qed.

Lemma indent_no b raw : Ascii.eqb b " " = false -> Ascii.eqb b (ascii_of_nat 9) = false -> no_byte b (indent_of raw).
Proof.
  intros H1 H2. unfold no_byte. generalize (indent_blank raw). apply str_forall_mono. intros c [->%Ascii.eqb_eq| ->%Ascii.eqb_eq]%orb_true_iff; by rewrite ?H1, ?H2.
Qed.

Lemma trim_indent raw s : trim_space (indent_of raw ++ s) = trim_space s.
Proof.
  unfold trim_space. f_equal. generalize (indent_blank raw). generalize (indent_of raw) as i. intros i. induction i as [|c i IH]; [done|].
  cbn [str_forall]. intros [[->%Ascii.eqb_eq| ->%Ascii.eqb_eq]%orb_true_iff Hi]%andb_true_iff; exact (IH Hi).
Qed.

Section replacing.
Context (a : ascii) (d v : string) (Ha : is_word_byte a = true) (Hlf : no_byte lf (String a d)) (Hhash : no_byte "#" (String a d)) (Hv : one_line v).
Notation directive := (String a d).

Lemma new_line_bare raw : bare (new_line raw directive v) = setting directive v.
Proof using Ha Hhash Hv.
  destruct Hv as (_ & Hvh & _). unfold bare, new_line. rewrite cut_id; [cbn [fst]; rewrite trim_indent; by apply directive_line|].
  unfold setting, no_byte in *. rewrite !str_forall_app, Hhash, Hvh. cbn. rewrite andb_true_r. by apply (indent_no "#").
Qed.

Lemma new_line_no_break raw : no_byte lf (new_line raw directive v).
Proof using Hlf Hv. unfold new_line, no_byte. rewrite str_forall_app. rewrite (indent_no lf) by done. by apply on_one_line. Qed.

Lemma replaced_at target depth lines lines' :
  replace_at directive v target depth lines = Some lines' -> Forall (no_byte lf) lines ->
  directive_at directive target depth lines' = v /\ Forall (no_byte lf) lines' /\ lines' <> [].
Proof using Ha Hhash Hv Hlf.
  revert depth lines'. induction lines as [|raw lines IH]; intros depth lines'; [done|]. cbn [replace_at].
  destruct ((depth =? target)%Z && has_prefix (bare raw) (directive ++ " ")) eqn:Hfound.
  - intros [= <-] Hall. apply Forall_cons in Hall as [_ Hall]. split_and!; [|apply Forall_cons_2; [apply new_line_no_break|done]|done]. cbn [directive_at].
    rewrite new_line_bare. apply andb_true_iff in Hfound as [-> _].
    assert (has_prefix (setting directive v) (directive ++ " ") = true) as ->; [|by apply value_read].
    apply has_prefix_iff. exists (v ++ ";"). unfold setting. by rewrite str_app_assoc.
  - destruct (replace_at directive v target _ lines) as [l|] eqn:Hr; [|done]. cbn. intros [= <-] [Hraw Hall]%Forall_cons.
    destruct (IH _ _ Hr Hall) as (Hd & Hl & Hne). split_and!; [|by apply Forall_cons_2|done]. cbn [directive_at]. by rewrite Hfound.
Qed.

(** A directive that was replaced is read back with its new value. *)
Theorem replaced_read_back content content' target :
  replaceDirectiveAtDepth content directive v target = Ok content' -> nginxDirectiveAtDepth content' directive target = v.
Proof using Ha Hhash Hv Hlf.
  unfold replaceDirectiveAtDepth, nginxDirectiveAtDepth. destruct (replace_at _ _ _ _ _) as [l|] eqn:Hr; [|done]. intros [= <-].
  destruct (replaced_at _ _ _ _ Hr (split_no_sep lf content)) as (Hd & Hl & Hne). by rewrite split_join.
Qed.
End replacing.

(** *** Where the texts differ from what they mean *)

(** A second directive on the line of the first is lost. *)
Example second_directive_lost :
  replaceDirectiveAtDepth "worker_processes 1; pid /run/nginx.pid;" "worker_processes" "4" 0 = Ok "worker_processes 4;".
Proof. vm_compute. done. Qed.

(** A block on one line is not found, so its settings cannot be saved. *)
Example one_line_block_missed :
  is_ok (replaceDirectiveInBlock ("events { worker_connections 768; }" ++ lf_text ++ "http { }") "events" "worker_connections" "1024") = false.
Proof. vm_compute. done. Qed.

(** A list of types over two lines is accepted and rendered, but only its first line is read back. *)
Example types_over_two_lines :
  let types := "text/plain" ++ lf_text ++ "text/css" in
  match_string nginxMIMEPattern types = true /\ nginxDirective (setting "gzip_types" types) "gzip_types" = "text/plain".
Proof. vm_compute. done. Qed.
