(* ===== verification/Logs.v ===== *)
(** * The log of the system

    internal/platform/logger/db_handler.go: the queue of log records and the worker that stores them;
    internal/core/logs: the search in what is stored. *)

From S2P Require Import Prelude GoStrings GoStrconv GoTime AppErrors Effects Http.
Local Open Scope string_scope.
Local Open Scope go_scope.

(** ** Records *)

(** An attribute: its key, its value as text, and the number if its kind is Int64. *)
Record attr := { at_key : string; at_text : string; at_int : option Z }.
(** A record of slog; the attributes are those of the call. *)
Record log_record := { lr_time : time; lr_level : string; lr_message : string; lr_attrs : list attr }.

(** source: internal/core/logs/models.go:7-23 (SystemLog), without the identifier: a row of the table *)
Record SystemLog := {
  lg_time : time; lg_level : string; lg_component : string; lg_module : string; lg_error_id : string; lg_request_id : string; lg_user_id : string;
  lg_duration : Z; lg_endpoint : string; lg_method : string; lg_ip : string; lg_message : string; lg_stack : string; lg_attributes : list attr }.

(** source: internal/platform/logger/db_handler.go:148-171 (flush, one attribute): [None] if Int64 panics.
    The other attributes are kept as they are; the row has them as JSON. *)
Definition add_attr (l : SystemLog) (a : attr) : option SystemLog :=
  let '{| lg_time := t; lg_level := lv; lg_component := c; lg_module := m; lg_error_id := e; lg_request_id := r; lg_user_id := u; lg_duration := d;
          lg_endpoint := ep; lg_method := me; lg_ip := ip; lg_message := msg; lg_stack := st; lg_attributes := o |} := l in
  let k := at_key a in
  let s := at_text a in
  let mk c m e r u d ep me ip st o := {| lg_time := t; lg_level := lv; lg_component := c; lg_module := m; lg_error_id := e; lg_request_id := r;
    lg_user_id := u; lg_duration := d; lg_endpoint := ep; lg_method := me; lg_ip := ip; lg_message := msg; lg_stack := st; lg_attributes := o |} in
  if String.eqb k "component" then Some (mk s m e r u d ep me ip st o)
  else if String.eqb k "module" then Some (mk c s e r u d ep me ip st o)
  else if String.eqb k "error_id" then Some (mk c m s r u d ep me ip st o)
  else if String.eqb k "request_id" then Some (mk c m e s u d ep me ip st o)
  else if String.eqb k "user" || String.eqb k "user_id" then Some (mk c m e r s d ep me ip st o)
  else if String.eqb k "latency_ms" || String.eqb k "duration_ms" then d' ← at_int a; Some (mk c m e r u d' ep me ip st o)
  else if String.eqb k "path" || String.eqb k "endpoint" then Some (mk c m e r u d s me ip st o)
  else if String.eqb k "method" then Some (mk c m e r u d ep s ip st o)
  else if String.eqb k "remote" || String.eqb k "ip" then Some (mk c m e r u d ep me s st o)
  else if String.eqb k "stack" || String.eqb k "stack_trace" then Some (mk c m e r u d ep me ip s o)
  else Some (mk c m e r u d ep me ip st (a :: List.filter (fun b => negb (String.eqb (at_key b) k)) o)).

Definition blank_row (r : log_record) : SystemLog :=
  {| lg_time := lr_time r; lg_level := lr_level r; lg_component := ""; lg_module := ""; lg_error_id := ""; lg_request_id := ""; lg_user_id := "";
     lg_duration := 0; lg_endpoint := ""; lg_method := ""; lg_ip := ""; lg_message := lr_message r; lg_stack := ""; lg_attributes := [] |}.

Fixpoint add_attrs (l : SystemLog) (attrs : list attr) : option SystemLog :=
  match attrs with [] => Some l | a :: attrs' => l' ← add_attr l a; add_attrs l' attrs' end.

(** source: internal/platform/logger/db_handler.go:143-180 (flush, one record): the row that is inserted *)
Definition row_of (r : log_record) : option SystemLog := add_attrs (blank_row r) (lr_attrs r).

(** ** The handler and its worker *)

(** source: internal/platform/logger/db_handler.go:26-26 (NewDBHandler, the buffer) *)
Definition capacity : nat := 10000.
(** source: internal/platform/logger/db_handler.go:103-103 (worker, the batch) *)
Definition batch_size : nat := 100.
#[local] Arguments capacity : simpl never.
#[local] Arguments batch_size : simpl never.

(** The channel, the batch of the worker, the table, and whether the channel is closed and the worker
    has ended.  [accepted] and [flushed] only record the history. *)
Record log_state := {
  ls_queue : list log_record; ls_batch : list log_record; ls_table : list SystemLog; ls_closed : bool; ls_ended : bool;
  ls_accepted : list log_record; ls_flushed : list log_record }.

Definition log_start : log_state :=
  {| ls_queue := []; ls_batch := []; ls_table := []; ls_closed := false; ls_ended := false; ls_accepted := []; ls_flushed := [] |}.

(** How the database answers to a batch: whether the transaction begins, its statement is prepared,
    which insertions succeed, and whether the transaction is committed. *)
Record db_answers := { db_begin : bool; db_prepare : bool; db_inserts : log_record -> bool; db_commit : bool }.

Fixpoint inserted (answers : log_record -> bool) (rows : list log_record) : option (list SystemLog) :=
  match rows with
  | [] => Some []
  | r :: rows' => row ← row_of r; rest ← inserted answers rows'; Some (if answers r then row :: rest else rest)
  end.

(** source: internal/platform/logger/db_handler.go:116-184 (flush): the rows that are stored, with a
    database; nothing is reported, and [None] is a panic *)
Definition flush (db : db_answers) (records : list log_record) : option (list SystemLog) :=
  if bool_decide (records = []) then Some []
  else if negb (db_begin db) then Some []
  else if negb (db_prepare db) then Some []
  else rows ← inserted (db_inserts db) records; Some (if db_commit db then rows else []).

(** The state after the batch was flushed. *)
Definition flushed (db : db_answers) (s : log_state) : option log_state :=
  rows ← flush db (ls_batch s);
  Some {| ls_queue := ls_queue s; ls_batch := []; ls_table := (ls_table s ++ rows)%list; ls_closed := ls_closed s; ls_ended := ls_ended s;
          ls_accepted := ls_accepted s; ls_flushed := (ls_flushed s ++ ls_batch s)%list |}.

Definition with_batch (q b : list log_record) (s : log_state) : log_state :=
  {| ls_queue := q; ls_batch := b; ls_table := ls_table s; ls_closed := ls_closed s; ls_ended := ls_ended s; ls_accepted := ls_accepted s;
     ls_flushed := ls_flushed s |}.
Definition ended (s : log_state) : log_state :=
  {| ls_queue := ls_queue s; ls_batch := ls_batch s; ls_table := ls_table s; ls_closed := ls_closed s; ls_ended := true; ls_accepted := ls_accepted s;
     ls_flushed := ls_flushed s |}.

(** source: internal/platform/logger/db_handler.go:48-59 (Handle): [None] is the panic of a send on a
    closed channel *)
Definition Handle (r : log_record) (s : log_state) : option log_state :=
  if ls_closed s then None
  else if (length (ls_queue s) <? capacity)%nat then
    Some {| ls_queue := (ls_queue s ++ [r])%list; ls_batch := ls_batch s; ls_table := ls_table s; ls_closed := ls_closed s; ls_ended := ls_ended s;
            ls_accepted := (ls_accepted s ++ [r])%list; ls_flushed := ls_flushed s |}
  else Some s.

(** source: internal/platform/logger/db_handler.go:82-85 (Close, the channel): the caller then waits for
    the worker *)
Definition Close (s : log_state) : option log_state :=
  if ls_closed s then None
  else Some {| ls_queue := ls_queue s; ls_batch := ls_batch s; ls_table := ls_table s; ls_closed := true; ls_ended := ls_ended s;
               ls_accepted := ls_accepted s; ls_flushed := ls_flushed s |}.

(** source: internal/platform/logger/db_handler.go:97-106 (worker, the channel): a closed channel gives
    what is left before it says so *)
Definition receive (db : db_answers) (s : log_state) : option log_state :=
  match ls_queue s with
  | r :: q =>
      let s := with_batch q (ls_batch s ++ [r]) s in
      if (batch_size <=? length (ls_batch s))%nat then flushed db s else Some s
  | [] => if ls_closed s then ended <$> flushed db s else Some s
  end.

(** source: internal/platform/logger/db_handler.go:107-111 (worker, the ticker) *)
Definition on_tick (db : db_answers) (s : log_state) : option log_state :=
  if bool_decide (ls_batch s = []) then Some s else flushed db s.

(** The moves of the callers and of the worker, in any order; a worker that ended makes none. *)
Inductive log_move := MHandle (r : log_record) | MClose | MReceive (db : db_answers) | MTick (db : db_answers).
(** source: internal/platform/logger/db_handler.go:87-114 (worker) *)
Definition log_step (m : log_move) (s : log_state) : option log_state :=
  match m with
  | MHandle r => Handle r s
  | MClose => Close s
  | MReceive db => if ls_ended s then Some s else receive db s
  | MTick db => if ls_ended s then Some s else on_tick db s
  end.
Fixpoint log_steps (l : list log_move) (s : log_state) : option log_state :=
  match l with [] => Some s | m :: l' => s' ← log_step m s; log_steps l' s' end.

(** Loggers with attributes of their own: what the base handler shows of a record, and what is queued. *)
Record db_handler := { dh_base : list attr }.
(** source: internal/platform/logger/db_handler.go:62-69 (WithAttrs) *)
Definition WithAttrs (attrs : list attr) (h : db_handler) : db_handler := {| dh_base := (dh_base h ++ attrs)%list |}.
(** source: internal/platform/logger/db_handler.go:48-56 (Handle, the two receivers): the attributes the
    base handler writes, and the record that is queued *)
Definition handled (h : db_handler) (r : log_record) : list attr * log_record := ((dh_base h ++ lr_attrs r)%list, r).

(** ** Search *)

(** source: internal/core/logs/models.go:25-37 (LogFilter) *)
Record LogFilter := {
  lf_Level : string; lf_Module : string; lf_Component : string; lf_ErrorID : string; lf_RequestID : string; lf_UserID : string; lf_Query : string;
  lf_StartDate : option time; lf_EndDate : option time; lf_Limit : Z; lf_Offset : Z }.

(** An argument of a statement. *)
Inductive sql_arg := AText (s : string) | ATime (t : time) | AInt (z : Z).

Definition columns : string :=
  "SELECT id, timestamp, level, component, module, error_id, request_id, user_id, duration_ms, endpoint, method, ip, message, stack_trace, attributes".

Definition when_set (s : string) (clause : string) (args : list sql_arg) (q : string * list sql_arg) : string * list sql_arg :=
  if String.eqb s "" then q else (fst q ++ clause, (snd q ++ args)%list).
Definition when_time (t : option time) (clause : string) (q : string * list sql_arg) : string * list sql_arg :=
  match t with Some t => (fst q ++ clause, (snd q ++ [ATime t])%list) | None => q end.

(** source: internal/core/logs/repository.go:21-61 (Search, the conditions): after the columns, with the
    arguments *)
Definition conditions (server : string) (f : LogFilter) : string * list sql_arg :=
  let q := (" FROM system_logs WHERE server_id=?", [AText server]) in
  let q := when_set (lf_Level f) " AND level = ?" [AText (lf_Level f)] q in
  let q := when_set (lf_Module f) " AND module = ?" [AText (lf_Module f)] q in
  let q := when_set (lf_Component f) " AND component = ?" [AText (lf_Component f)] q in
  let q := when_set (lf_ErrorID f) " AND error_id = ?" [AText (lf_ErrorID f)] q in
  let q := when_set (lf_RequestID f) " AND request_id = ?" [AText (lf_RequestID f)] q in
  let q := when_set (lf_UserID f) " AND user_id = ?" [AText (lf_UserID f)] q in
  let like := AText ("%" ++ lf_Query f ++ "%") in
  let q := when_set (lf_Query f) " AND (message LIKE ? OR attributes LIKE ?)" [like; like] q in
  let q := when_time (lf_StartDate f) " AND timestamp >= ?" q in
  when_time (lf_EndDate f) " AND timestamp <= ?" q.

(** source: internal/core/logs/repository.go:63-63 (Search, the query that counts): the columns are
    replaced *)
Definition count_query (server : string) (f : LogFilter) : string * list sql_arg :=
  ("SELECT COUNT(*)" ++ fst (conditions server f), snd (conditions server f)).

(** source: internal/core/logs/repository.go:70-78 (Search, the page) *)
Definition page_query (server : string) (f : LogFilter) : string * list sql_arg :=
  let '(q, args) := conditions server f in
  let q := columns ++ q ++ " ORDER BY timestamp DESC" in
  if (0 <? lf_Limit f)%Z then
    if (0 <? lf_Offset f)%Z then (q ++ " LIMIT ?" ++ " OFFSET ?", (args ++ [AInt (lf_Limit f)] ++ [AInt (lf_Offset f)])%list)
    else (q ++ " LIMIT ?", (args ++ [AInt (lf_Limit f)])%list)
  else (q, args).

(** The two statements: a count, and rows with their identifiers, or the error that broke them off. *)
Inductive logs_call : Set -> Set :=
| QueryCount (query : string) (args : list sql_arg) : logs_call (result string Z)
| QueryRows (query : string) (args : list sql_arg) : logs_call (result string (list (Z * SystemLog) * option string))
| QueryOne (id : Z) (server : string) : logs_call (result string (option (Z * SystemLog))).
Notation logs_prog A := (prog logs_call A).

(** source: internal/core/logs/repository.go:20-105 (Search) *)
Definition Search (server : string) (f : LogFilter) : logs_prog (result error (Z * list (Z * SystemLog))) :=
  let '(cq, cargs) := count_query server f in
  let! total := call (QueryCount cq cargs) in
  match total with
  | Err e => Ret (Err (Wrapped "count logs" (Plain e)))
  | Ok total =>
      let '(q, args) := page_query server f in
      let! rows := call (QueryRows q args) in
      Ret (match rows with
           | Err e => Err (Wrapped "query logs" (Plain e))
           | Ok (_, Some e) => Err (Wrapped "rows iteration" (Plain e))
           | Ok (l, None) => Ok (total, l)
           end)
  end.

(** source: internal/core/logs/repository.go:107-121 (GetByID) *)
Definition GetByID (server : string) (id : Z) : logs_prog (result error (option (Z * SystemLog))) :=
  let! r := call (QueryOne id server) in
  Ret (match r with Ok o => Ok o | Err e => Err (Wrapped "get log by id" (Plain e)) end).

Inductive logs_reply := Page (total : Z) (l : list (Z * SystemLog)) | OneLog (l : Z * SystemLog) | LogError (e : error).

(** A date of the request; the zero time, in UTC, counts as none. *)
Definition query_date (s : string) : option time := t ← parse_rfc3339 s; if bool_decide (t = zero_time) then None else Some t.

Definition query_int (s : string) : Z := default 0%Z (atoi s).

(** source: internal/core/logs/handler.go:31-64 (SearchLogs, the filter) *)
Definition requested (r : Http.request) : LogFilter :=
  let limit := query_int (Query r "limit") in
  {| lf_Level := Query r "level"; lf_Module := Query r "module"; lf_Component := Query r "component"; lf_ErrorID := Query r "error_id";
     lf_RequestID := Query r "request_id"; lf_UserID := Query r "user_id"; lf_Query := Query r "query";
     lf_StartDate := query_date (Query r "start_date"); lf_EndDate := query_date (Query r "end_date");
     lf_Limit := if (limit <=? 0)%Z || (1000 <? limit)%Z then 100%Z else limit; lf_Offset := query_int (Query r "offset") |}.

(** source: internal/core/logs/handler.go:30-74 (SearchLogs) *)
Definition SearchLogs (server : string) (r : Http.request) : logs_prog logs_reply :=
  let! out := Search server (requested r) in
  Ret (match out with Ok (total, l) => Page total l | Err e => LogError (App (Internal "failed to search logs" e)) end).

(** source: internal/core/logs/handler.go:76-96 (GetLog) *)
Definition GetLog (server idStr : string) : logs_prog logs_reply :=
  match atoi idStr with
  | None => Ret (LogError (InvalidInput "invalid log id"))
  | Some id =>
      let! out := GetByID server id in
      Ret (match out with
           | Err e => LogError (App (Internal "failed to fetch log" e))
           | Ok None => LogError (NotFound "log entry not found")
           | Ok (Some l) => OneLog l
           end)
  end.

(** ** What is stored *)

Lemma inserted_sublist answers records rows : inserted answers records = Some rows -> rows `sublist_of` omap row_of records.
Proof.
  revert rows. induction records as [|r records IH]; intros rows; cbn; [by intros [= <-]|].
  destruct (row_of r) as [row|]; cbn; [|done]. destruct (inserted answers records) as [rest|]; cbn; [|done]. intros [= <-].
  destruct (answers r); [by apply sublist_skip, IH|by apply sublist_cons, IH].
Qed.

Lemma flush_sublist db records rows : flush db records = Some rows -> rows `sublist_of` omap row_of records.
Proof.
  unfold flush. destruct (bool_decide _); [intros [= <-]; apply sublist_nil_l|].
  destruct (db_begin db); cbn; [|intros [= <-]; apply sublist_nil_l]. destruct (db_prepare db); cbn; [|intros [= <-]; apply sublist_nil_l].
  destruct (inserted _ _) as [l|] eqn:Hi; cbn; [|done].
  intros [= <-]. destruct (db_commit db); [by eapply inserted_sublist|apply sublist_nil_l].
Qed.

(** Nothing is lost between the channel and the database, and nothing changes its place. *)
Definition log_ok (s : log_state) : Prop :=
  ls_accepted s = (ls_flushed s ++ ls_batch s ++ ls_queue s)%list /\ (length (ls_queue s) <= capacity)%nat /\
  (length (ls_batch s) < batch_size)%nat /\ ls_table s `sublist_of` omap row_of (ls_flushed s) /\
  (ls_ended s = true -> ls_closed s = true /\ ls_queue s = [] /\ ls_batch s = []).

Lemma flushed_ok db s s' :
  flushed db s = Some s' -> ls_accepted s = (ls_flushed s ++ ls_batch s ++ ls_queue s)%list -> (length (ls_queue s) <= capacity)%nat ->
  ls_table s `sublist_of` omap row_of (ls_flushed s) -> ls_ended s = false ->
  log_ok s' /\ ls_ended s' = false /\ ls_batch s' = [] /\ ls_queue s' = ls_queue s /\ ls_closed s' = ls_closed s.
Proof.
  unfold flushed. destruct (flush db (ls_batch s)) as [rows|] eqn:Hf; cbn; [|done]. intros [= <-] Hacc Hq Ht He. unfold log_ok. cbn. split_and!; try done.
  - by rewrite Hacc, app_assoc.
  - unfold batch_size. lia.
  - rewrite omap_app. apply sublist_app; [done|]. by eapply flush_sublist.
  - by rewrite He.
Qed.

Lemma log_step_ok m s s' : log_step m s = Some s' -> log_ok s -> log_ok s'.
Proof.
  intros Hstep Hok. pose proof Hok as (Hacc & Hq & Hb & Ht & He). destruct m as [r| |db|db]; cbn [log_step] in Hstep.
  - unfold Handle in Hstep. destruct (ls_closed s) eqn:Hc; [done|]. destruct (Nat.ltb_spec (length (ls_queue s)) capacity); injection Hstep as <-; [|exact Hok].
    unfold log_ok. cbn. split_and!; [by rewrite Hacc, <- !app_assoc|rewrite length_app; cbn; lia|done..|]. intros Hend. by destruct (He Hend).
  - unfold Close in Hstep. destruct (ls_closed s) eqn:Hc; [done|]. injection Hstep as <-. unfold log_ok. cbn. split_and!; try done.
    intros Hend. by destruct (He Hend).
  - destruct (ls_ended s) eqn:Hend; [injection Hstep as <-; exact Hok|]. unfold receive in Hstep.
    destruct (ls_queue s) as [|r q] eqn:Hqueue.
    + destruct (ls_closed s) eqn:Hc; [|injection Hstep as <-; exact Hok].
      destruct (flushed db s) as [s1|] eqn:Hf; cbn in Hstep; [|done]. injection Hstep as <-.
      destruct (flushed_ok _ _ _ Hf) as ((Ha1 & Hq1 & Hb1 & Ht1 & _) & _ & Hb2 & Hq2 & Hc2); [by rewrite Hqueue|by rewrite Hqueue|done..|].
      unfold log_ok. cbn. split_and!; try done. by rewrite Hb2, Hq2, Hqueue, Hc2, Hc.
    + set (s1 := with_batch q (ls_batch s ++ [r]) s) in *.
      assert (ls_accepted s1 = (ls_flushed s1 ++ ls_batch s1 ++ ls_queue s1)%list) as Hacc1 by (cbn; by rewrite Hacc, <- app_assoc).
      destruct (Nat.leb_spec batch_size (length (ls_batch s1))) as [Hfull|Hfull].
      * cbn in Hq. destruct (flushed_ok _ _ _ Hstep Hacc1) as (Hok' & _); [cbn; lia|done..].
      * injection Hstep as <-. unfold log_ok. cbn [ls_ended s1 with_batch]. rewrite Hend. split_and!; try done. cbn in Hq |- *. lia.
  - destruct (ls_ended s) eqn:Hend; [injection Hstep as <-; exact Hok|]. unfold on_tick in Hstep.
    case_bool_decide; [injection Hstep as <-; exact Hok|]. by destruct (flushed_ok _ _ _ Hstep) as (Hok' & _).
Qed.

Lemma log_start_ok : log_ok log_start.
Proof. unfold log_ok, log_start, capacity, batch_size. cbn. split_and!; try done; try lia. Qed.

Lemma log_steps_ok l s s' : log_steps l s = Some s' -> log_ok s -> log_ok s'.
Proof.
  revert s. induction l as [|m l IH]; intros s; cbn; [by intros [= <-]|]. destruct (log_step m s) as [s1|] eqn:Hm; cbn; [|done].
  intros Hl Hok. eapply IH; [exact Hl|]. by eapply log_step_ok.
Qed.

(** Over every interleaving of callers, worker and ticker, and whatever the database answers: the
    accepted records are flushed in their order and each once, what is stored is in that order too, the
    channel and the batch are bounded, and when the worker has ended after [Close], every accepted
    record has been flushed. *)
Theorem log_records_in_order l s :
  log_steps l log_start = Some s ->
  ls_accepted s = (ls_flushed s ++ ls_batch s ++ ls_queue s)%list /\ ls_table s `sublist_of` omap row_of (ls_flushed s) /\
  (length (ls_queue s) <= capacity)%nat /\ (length (ls_batch s) < batch_size)%nat /\ (ls_ended s = true -> ls_flushed s = ls_accepted s).
Proof.
  intros Hl. destruct (log_steps_ok _ _ _ Hl log_start_ok) as (Hacc & Hq & Hb & Ht & He). split_and!; try done. intros Hend.
  destruct (He Hend) as (_ & Hq0 & Hb0). by rewrite Hacc, Hq0, Hb0, app_nil_r.
Qed.

(** ** Searching *)

Fixpoint marks (s : string) : nat := match s with "" => 0 | String c s' => (if Ascii.eqb c "?" then 1 else 0) + marks s' end.

Lemma marks_app s t : marks (s ++ t) = (marks s + marks t)%nat.
Proof. induction s as [|c s IH]; [done|]. cbn. rewrite IH. lia. Qed.

Definition balanced (q : string * list sql_arg) : Prop := marks (fst q) = length (snd q).

Lemma when_set_balanced s clause args q : marks clause = length args -> balanced q -> balanced (when_set s clause args q).
Proof. unfold balanced, when_set. intros Hc Hq. destruct (String.eqb s ""); [done|]. cbn. rewrite marks_app, length_app. lia. Qed.

Lemma when_time_balanced t clause q : marks clause = 1%nat -> balanced q -> balanced (when_time t clause q).
Proof. unfold balanced, when_time. intros Hc Hq. destruct t; [|done]. cbn. rewrite marks_app, length_app. cbn. lia. Qed.

(** The fields of a filter that are set. *)
Definition set_fields (f : LogFilter) : list bool :=
  [String.eqb (lf_Level f) ""; String.eqb (lf_Module f) ""; String.eqb (lf_Component f) ""; String.eqb (lf_ErrorID f) ""; String.eqb (lf_RequestID f) "";
   String.eqb (lf_UserID f) ""; String.eqb (lf_Query f) ""; bool_decide (is_Some (lf_StartDate f)); bool_decide (is_Some (lf_EndDate f));
   (0 <? lf_Limit f)%Z; (0 <? lf_Offset f)%Z].

Lemma when_set_text s s' clause args args' q q' :
  String.eqb s "" = String.eqb s' "" -> fst q = fst q' -> fst (when_set s clause args q) = fst (when_set s' clause args' q').
Proof. intros Hs Hq. unfold when_set. rewrite Hs. destruct (String.eqb s' ""); [done|]. cbn. by rewrite Hq. Qed.

Lemma when_time_text t t' clause q q' :
  bool_decide (is_Some t) = bool_decide (is_Some t') -> fst q = fst q' -> fst (when_time t clause q) = fst (when_time t' clause q').
Proof. intros Ht Hq. destruct t, t'; try done. cbn. by rewrite Hq. Qed.

Lemma conditions_balanced server f : balanced (conditions server f).
Proof. unfold conditions. cbv zeta. repeat first [apply when_time_balanced; [done|]|apply when_set_balanced; [done|]]. done. Qed.

(** Every statement of a search has one argument for each of its marks, and its text depends only on
    which fields of the filter are set, never on their values. *)
Theorem search_parameterised server server' f g :
  balanced (count_query server f) /\ balanced (page_query server f) /\
  (set_fields f = set_fields g -> fst (count_query server f) = fst (count_query server' g) /\ fst (page_query server f) = fst (page_query server' g)).
Proof.
  pose proof (conditions_balanced server f) as Hb. split_and!.
  - unfold balanced, count_query in *. cbn [fst snd]. rewrite marks_app. exact Hb.
  - unfold balanced, page_query in *. destruct (conditions server f) as [q args]. cbn [fst snd] in Hb.
    destruct (0 <? lf_Limit f)%Z; [destruct (0 <? lf_Offset f)%Z|]; cbn [fst snd]; rewrite !marks_app, ?length_app, Hb; cbn; lia.
  - unfold set_fields. intros [= H1 H2 H3 H4 H5 H6 H7 H8 H9 H10 H11].
    assert (fst (conditions server f) = fst (conditions server' g)) as Hc.
    { unfold conditions. cbv zeta. repeat first [apply when_time_text; [assumption|]|apply when_set_text; [assumption|]]. done. }
    split; [unfold count_query; cbn [fst]; by rewrite Hc|]. unfold page_query. destruct (conditions server f), (conditions server' g). cbn [fst] in Hc. subst.
    rewrite H10, H11. by repeat case_match.
Qed.

(** The handler asks for at least one and at most a thousand rows. *)
Theorem log_page_bounded r : (1 <= lf_Limit (requested r) <= 1000)%Z.
Proof. unfold requested. cbn [lf_Limit]. destruct (_ || _) eqn:Hl; [lia|]. apply orb_false_iff in Hl as [?%Z.leb_gt ?%Z.ltb_ge]. lia. Qed.

(** ** Where the log differs from its intent *)

Definition a_record (attrs : list attr) : log_record := {| lr_time := zero_time; lr_level := "INFO"; lr_message := "started"; lr_attrs := attrs |}.
Definition text_attr (k s : string) : attr := {| at_key := k; at_text := s; at_int := None |}.

(** The attributes of a logger, such as the name of a module, are written by the base handler but are
    not part of what is stored. *)
Theorem logger_attributes_lost attrs h r :
  snd (handled (WithAttrs attrs h) r) = r /\ fst (handled (WithAttrs attrs h) r) = (dh_base h ++ attrs ++ lr_attrs r)%list.
Proof. unfold handled, WithAttrs. cbn. by rewrite app_assoc. Qed.

Example module_column_empty :
  let h := WithAttrs [text_attr "module" "php"] {| dh_base := [] |} in
  lg_module <$> row_of (snd (handled h (a_record []))) = Some "" /\ lg_module <$> row_of (a_record [text_attr "module" "php"]) = Some "php".
Proof. done. Qed.

(** A duration that is no integer makes the worker panic. *)
Example duration_text_panics : row_of (a_record [text_attr "duration_ms" "1.5"]) = None.
Proof. done. Qed.

(** So does a record after [Close]. *)
Example record_after_close_panics : log_steps [MClose; MHandle (a_record [])] log_start = None.
Proof. done. Qed.
