(* ===== verification/Database.v ===== *)
(** * Opening the database

    internal/platform/database/migrations/migrations.go, whole, and [Open] of
    internal/platform/database/sqlite/sqlite.go.  Statements and the library of migrations are calls;
    [open_sem] says what they do to the tables that record which migrations were applied. *)

From S2P Require Import Prelude GoStrings GoStrconv GoPath AppErrors Effects BackupTypes.
Local Open Scope string_scope.
Local Open Scope go_scope.

(** ** Calls *)

(** What a query gives: rows that may fail to be scanned, and the errors of closing and iterating. *)
Record query (A : Set) : Set := { q_rows : list (result string A); q_close : option string; q_err : option string }.
Arguments q_rows {A} _.
Arguments q_close {A} _.
Arguments q_err {A} _.

(** [QueryRow(...).Scan(...)]: the row, none, or an error. *)
Inductive scanned (A : Set) : Set := Row (a : A) | NoRows | ScanFailed (e : string).
Arguments Row {A} _.
Arguments NoRows {A}.
Arguments ScanFailed {A} _.

Inductive up_answer := UpDone | UpNoChange | UpFailed (e : string).

Inductive open_call : Set -> Set :=
| TableInfo (table : string) : open_call (result string (query string))
| SelectNames (table : string) : open_call (result string (query string))
| SelectVersion : open_call (scanned Z)
| SelectVersionDirty : open_call (scanned (Z * bool))
| Begin : open_call (result string ())
| RenameToLegacy : open_call (result string ())
| CreateVersions : open_call (result string ())
| InsertVersion (version : Z) : open_call (result string ())
| Commit : open_call (result string ())
| Rollback : open_call ()
| UpdateVersion (version : Z) : open_call (result string ())
| ReadDir : open_call (result string ())
| IofsNew : open_call (result string ())
| WithInstance : open_call (result string ())
| NewWithInstance : open_call (result string ())
| Up : open_call up_answer
| Stat (path : string) : open_call bool
| SqlOpen (dsn : string) : open_call (result string ())
| Ping : open_call (result string ())
| CloseDB : open_call ()
| Getenv (name : string) : open_call string
| CreateBackup (cfg : Config) (reason : string) : open_call (result string ()).
Notation open_prog A := (prog open_call A).

Definition failing {A : Set} (msg : string) (c : open_call (result string A)) : open_prog (result error A) :=
  let! r := call c in Ret (match r with Ok a => Ok a | Err e => Err (Wrapped msg (Plain e)) end).

(** ** Versions *)

(** [strconv.ParseUint(s, 10, 64)] *)
Definition ParseUint (s : string) : option Z :=
  if String.eqb s "" || negb (str_forall is_digit s) then None
  else let z := digits_val 0 s in if (z <? 2 ^ 64)%Z then Some z else None.

(** The greatest of the versions, at least [latest]: the loops over names keep the latest so far. *)
Definition latest_of (version : string -> option Z) (names : list string) (latest : Z) : Z :=
  fold_left (fun latest name => match version name with Some v => if (latest <? v)%Z then v else latest | None => latest end) names latest.

(** source: internal/platform/database/migrations/migrations.go:249-260 (latestLegacyVersion, one name) *)
Definition legacy_version (name : string) : option Z :=
  if negb (has_suffix name ".sql") || has_suffix name ".down.sql" then None
  else match cut "_" name with (prefix, Some _) => ParseUint prefix | (_, None) => None end.

(** source: internal/platform/database/migrations/migrations.go:247-263 (latestLegacyVersion) *)
Definition latestLegacyVersion (names : list string) : Z := latest_of legacy_version names 0.

(** source: internal/platform/database/migrations/migrations.go:42-46 (NeedsMigration, one file) *)
Definition file_version (name : string) : option Z :=
  if negb (has_suffix name ".up.sql") then None else ParseUint (fst (cut "_" name)).

(** source: internal/platform/database/migrations/migrations.go:16-17 (sqlFiles): the embedded files that
    migrate upwards; each has a file that migrates downwards, which ends in .down.sql *)
Definition up_files : list string :=
  ["001_init.up.sql"; "002_modules.up.sql"; "003_sites.up.sql"; "004_dashboard.up.sql"; "005_services.up.sql"; "006_sites_v2.up.sql";
   "007_users_admin.up.sql"; "008_tasks.up.sql"; "009_system_logs.up.sql"; "010_remote_servers.up.sql"; "011_multiserver_scope.up.sql";
   "012_remote_api_version.up.sql"; "013_site_proxy.up.sql"; "014_normalize_site_proxy.up.sql"].

(** source: internal/platform/database/migrations/migrations.go:40-50 (NeedsMigration, the latest version) *)
Definition latest_version : Z := latest_of file_version up_files 0.
#[global] Arguments latest_version : simpl never.
#[global] Arguments latestLegacyVersion : simpl never.

(** ** Reading *)

Fixpoint scan_all {A : Set} (msg : string) (rows : list (result string A)) : result error (list A) :=
  match rows with
  | [] => Ok []
  | Err e :: _ => Err (Wrapped msg (Plain e))
  | Ok a :: rows' => let? l := scan_all msg rows' in Ok (a :: l)
  end.

(** The loop over the rows, [rows.Close] and [rows.Err]. *)
Definition read_rows {A : Set} (scan close iterate : string) (q : query A) : result error (list A) :=
  let? l := scan_all scan (q_rows q) in
  match q_close q, q_err q with
  | Some e, _ => Err (Wrapped close (Plain e))
  | None, Some e => Err (Wrapped iterate (Plain e))
  | None, None => Ok l
  end.

(** source: internal/platform/database/migrations/migrations.go:125-152 (migrationMetadataColumns) *)
Definition migrationMetadataColumns : open_prog (result error (bool * bool)) :=
  try! q := failing "inspect schema_migrations" (TableInfo "schema_migrations") in
  Ret (let? l := read_rows "scan schema_migrations column" "close schema_migrations columns" "iterate schema_migrations columns" q in
       Ok (existsb (String.eqb "name") l, existsb (String.eqb "version") l)).

(** source: internal/platform/database/migrations/migrations.go:154-175 (legacyMigrationNames) *)
Definition legacyMigrationNames : open_prog (result error (list string)) :=
  try! q := failing "read legacy migration names" (SelectNames "schema_migrations") in
  Ret (read_rows "scan legacy migration name" "close legacy migration names" "iterate legacy migration names" q).

(** source: internal/platform/database/migrations/migrations.go:21-52 (NeedsMigration) *)
Definition NeedsMigration : open_prog (result error bool) :=
  try! cols := migrationMetadataColumns in
  let '(hasName, hasVersion) := cols in
  if hasName || negb hasVersion then Ret (Ok hasName)
  else
    let! current := call SelectVersion in
    match current with
    | NoRows => Ret (Ok true)
    | ScanFailed e => Ret (Err (Wrapped "read migration version" (Plain e)))
    | Row current =>
        let! entries := call ReadDir in
        Ret (match entries with Err e => Err (Plain e) | Ok _ => Ok (current <? latest_version)%Z end)
    end.

(** ** Metadata of early releases *)

(** source: internal/platform/database/migrations/migrations.go:177-245 (repairConvertedMetadata) *)
Definition repairConvertedMetadata : open_prog (result error ()) :=
  try! q := failing "inspect legacy migration metadata" (TableInfo "schema_migrations_legacy") in
  match read_rows "scan legacy migration metadata" "close legacy migration metadata" "iterate legacy migration metadata" q with
  | Err e => Ret (Err e)
  | Ok columns =>
      if negb (existsb (String.eqb "name") columns) then Ret (Ok ())
      else
        try! q := failing "read preserved legacy migration names" (SelectNames "schema_migrations_legacy") in
        match read_rows "scan preserved legacy migration name" "close preserved legacy migration names" "iterate preserved legacy migration names" q with
        | Err e => Ret (Err e)
        | Ok names =>
            let legacyVersion := latestLegacyVersion names in
            if (legacyVersion =? 0)%Z then Ret (Ok ())
            else
              let! row := call SelectVersionDirty in
              match row with
              | NoRows => Ret (Err (Wrapped "read converted migration metadata" (Plain "sql: no rows in result set")))
              | ScanFailed e => Ret (Err (Wrapped "read converted migration metadata" (Plain e)))
              | Row (version, dirty) =>
                  if (legacyVersion <=? version)%Z && negb dirty then Ret (Ok ())
                  else failing "repair converted migration metadata" (UpdateVersion legacyVersion)
              end
        end
  end.

(** source: internal/platform/database/migrations/migrations.go:110-122 (migrateLegacyMetadata, the
    statements of the transaction) *)
Definition convert (currentVersion : Z) : open_prog (result error ()) :=
  try! _ := failing "preserve legacy migration metadata" RenameToLegacy in
  try! _ := failing "create migration metadata" CreateVersions in
  try! _ := if (0 <? currentVersion)%Z then failing ("record migrated version " ++ itoa currentVersion) (InsertVersion currentVersion) else Ret (Ok ()) in
  failing "commit legacy migration metadata" Commit.

(** source: internal/platform/database/migrations/migrations.go:84-123 (migrateLegacyMetadata) *)
Definition migrateLegacyMetadata : open_prog (result error ()) :=
  try! cols := migrationMetadataColumns in
  let '(hasName, hasVersion) := cols in
  if hasVersion then repairConvertedMetadata
  else if negb hasName then Ret (Ok ())
  else
    try! names := legacyMigrationNames in
    try! _ := failing "begin legacy migration metadata transaction" Begin in
    let! r := convert (latestLegacyVersion names) in
    ignore! call Rollback in
    Ret r.

(** source: internal/platform/database/migrations/migrations.go:55-79 (Run) *)
Definition Run : open_prog (result error ()) :=
  wrap! (Wrapped "migrate legacy metadata") of _ := migrateLegacyMetadata in
  try! _ := failing "create iofs" IofsNew in
  try! _ := failing "create sqlite3 driver" WithInstance in
  try! _ := failing "create migrate instance" NewWithInstance in
  let! r := call Up in
  Ret (match r with UpFailed e => Err (Wrapped "migrate up" (Plain e)) | _ => Ok () end).

(** ** Opening *)

(** source: internal/platform/database/sqlite/sqlite.go:54-63 (Open, the configuration of the backup) *)
Definition migration_backup (dsn directory : string) : Config :=
  let '(backups, state) :=
    if String.eqb directory "" then ("/var/lib/opendeploy/migration-backups", "/var/lib/opendeploy/migration-backups/.state")
    else (directory, path_join directory ".state") in
  {| BackupDir := backups; StateDir := state;
     Sources := [{| so_ID := "database"; so_Path := dsn; so_Required := true; so_Database := true; so_File := false |}];
     MaxEntries := MaxEntries DefaultConfig; MaxBytes := MaxBytes DefaultConfig |}.

(** source: internal/platform/database/sqlite/sqlite.go:24-76 (Open) *)
Definition Open `{Unicode} (dsn : string) : open_prog (result error ()) :=
  let! existingDatabase := call (Stat dsn) in
  try! _ := failing ("sqlite: open " ++ quote dsn) (SqlOpen (dsn ++ "?_journal_mode=WAL&_foreign_keys=on&_busy_timeout=5000")) in
  try! _ := failing "sqlite: ping" Ping in
  let! pending := NeedsMigration in
  match pending with
  | Err e => ignore! call CloseDB in Ret (Err (Wrapped "sqlite: inspect migrations" e))
  | Ok pending =>
      let! backed_up :=
        if existingDatabase && pending then
          let! directory := call (Getenv "OD_BACKUP_DIR") in
          call (CreateBackup (migration_backup dsn directory) "before-database-migration")
        else Ret (Ok ()) in
      match backed_up with
      | Err e => ignore! call CloseDB in Ret (Err (Wrapped "sqlite: mandatory pre-migration backup" (Plain e)))
      | Ok _ => wrap! (Wrapped "sqlite: migrations") of _ := Run in Ret (Ok ())
      end
  end.

(** ** The tables *)

(** The table schema_migrations: of an early release, with the names of the migrations, or of the
    library, with at most one row of a version and whether its migration broke off. *)
Inductive table := Legacy (names : list string) | Versions (row : option (Z * bool)).
(** The table and the one early releases had, once it is renamed. *)
Record metadata := { md_current : option table; md_legacy : option (list string) }.

Definition columns_of (t : table) : list string := match t with Legacy _ => ["name"; "applied_at"] | Versions _ => ["version"; "dirty"] end.
Definition columns (md : metadata) (name : string) : list string :=
  if String.eqb name "schema_migrations" then match md_current md with Some t => columns_of t | None => [] end
  else match md_legacy md with Some _ => ["name"; "applied_at"] | None => [] end.
Definition names_in (md : metadata) (name : string) : option (list string) :=
  if String.eqb name "schema_migrations" then match md_current md with Some (Legacy names) => Some names | _ => None end
  else md_legacy md.

(** The metadata, those of the open transaction, whether the file exists, and how often the library
    migrated and a backup was made. *)
Record db := { db_meta : metadata; db_tx : option metadata; db_exists : bool; db_ups : nat; db_backups : nat }.
Definition set_meta (md : metadata) (d : db) : db :=
  {| db_meta := md; db_tx := db_tx d; db_exists := db_exists d; db_ups := db_ups d; db_backups := db_backups d |}.
Definition set_tx (tx : option metadata) (d : db) : db :=
  {| db_meta := db_meta d; db_tx := tx; db_exists := db_exists d; db_ups := db_ups d; db_backups := db_backups d |}.
Definition backed_up (d : db) : db :=
  {| db_meta := db_meta d; db_tx := db_tx d; db_exists := db_exists d; db_ups := db_ups d; db_backups := S (db_backups d) |}.
Definition migrated (md : metadata) (d : db) : db :=
  {| db_meta := md; db_tx := db_tx d; db_exists := db_exists d; db_ups := S (db_ups d); db_backups := db_backups d |}.

(** A query that reports no error gave every row. *)
Definition reads {A : Set} (l : option (list A)) (r : result string (query A)) : Prop :=
  match r with Err _ => True | Ok q => q_err q = None -> forall vs, q_rows q = (Ok <$> vs) -> l = Some vs end.
Definition reads_row {A : Set} (row : option A) (r : scanned A) : Prop :=
  match r with ScanFailed _ => True | NoRows => row = None | Row a => row = Some a end.
Definition the_row (md : metadata) : option (Z * bool) := match md_current md with Some (Versions row) => row | _ => None end.

(** A statement of the transaction: it fails, or changes the metadata the transaction sees. *)
Definition in_tx (step : metadata -> option metadata) (d : db) (r : result string ()) (d' : db) : Prop :=
  match r with Err _ => d' = d | Ok _ => exists md md', db_tx d = Some md /\ step md = Some md' /\ d' = set_tx (Some md') d end.
Definition rename_step (md : metadata) : option metadata :=
  match md_current md, md_legacy md with Some (Legacy names), None => Some {| md_current := None; md_legacy := Some names |} | _, _ => None end.
Definition create_step (md : metadata) : option metadata :=
  match md_current md with None => Some {| md_current := Some (Versions None); md_legacy := md_legacy md |} | Some _ => None end.
Definition insert_step (v : Z) (md : metadata) : option metadata :=
  match md_current md with
  | Some (Versions None) => Some {| md_current := Some (Versions (Some (v, false))); md_legacy := md_legacy md |}
  | _ => None
  end.
Definition update_row (v : Z) (md : metadata) : metadata :=
  match md_current md with
  | Some (Versions (Some _)) => {| md_current := Some (Versions (Some (v, false))); md_legacy := md_legacy md |}
  | _ => md
  end.

(** What the library documents of [Up]: when it succeeds the last version is recorded; if there is
    nothing to do it changes nothing; a failure may leave any row.  It refuses a row that is marked.
    [WithInstance] creates the table of versions if there is none. *)
Definition up_sem (row : option (Z * bool)) (r : up_answer) (row' : option (Z * bool)) : Prop :=
  match r with
  | UpDone => (forall v, row <> Some (v, true)) /\ row' = Some (latest_version, false)
  | UpNoChange => (forall v, row <> Some (v, true)) /\ row' = row /\ row = Some (latest_version, false)
  | UpFailed _ => True
  end.

Definition with_versions (md : metadata) : metadata :=
  {| md_current := Some (default (Versions None) (md_current md)); md_legacy := md_legacy md |}.

Definition open_sem (X : Set) (c : open_call X) (d : db) : X -> db -> Prop :=
  match c in open_call X return X -> db -> Prop with
  | TableInfo t => fun r d' => d' = d /\ reads (Some (columns (db_meta d) t)) r
  | SelectNames t => fun r d' => d' = d /\ reads (names_in (db_meta d) t) r
  | SelectVersion => fun r d' => d' = d /\ reads_row (fst <$> the_row (db_meta d)) r
  | SelectVersionDirty => fun r d' => d' = d /\ reads_row (the_row (db_meta d)) r
  | Begin => fun r d' => d' = if is_ok r then set_tx (Some (db_meta d)) d else d
  | RenameToLegacy => in_tx rename_step d
  | CreateVersions => in_tx create_step d
  | InsertVersion v => in_tx (insert_step v) d
  | Commit => fun r d' => match r with Err _ => d' = d | Ok _ => exists md, db_tx d = Some md /\ d' = set_tx None (set_meta md d) end
  | Rollback => fun _ d' => d' = set_tx None d
  | UpdateVersion v => fun r d' => d' = if is_ok r then set_meta (update_row v (db_meta d)) d else d
  | WithInstance => fun r d' => d' = if is_ok r then set_meta (with_versions (db_meta d)) d else d
  | Up => fun r d' => exists row, up_sem (the_row (db_meta d)) r row /\
            d' = migrated {| md_current := Some (Versions row); md_legacy := md_legacy (db_meta d) |} d
  | Stat _ => fun r d' => d' = d /\ r = db_exists d
  | CreateBackup _ _ => fun r d' => d' = if is_ok r then backed_up d else d
  | ReadDir | IofsNew | NewWithInstance | SqlOpen _ | Ping => fun _ d' => d' = d
  | CloseDB => fun _ d' => d' = d
  | Getenv _ => fun _ d' => d' = d
  end.
Notation on_db := (runs open_sem).

(** What [NeedsMigration] says. *)
Definition pending_spec (md : metadata) : bool :=
  match md_current md with
  | None => false
  | Some (Legacy _) => true
  | Some (Versions None) => true
  | Some (Versions (Some (v, _))) => (v <? latest_version)%Z
  end.

(** The metadata after a conversion. *)
Definition converted (md : metadata) : metadata :=
  match md_current md with
  | Some (Legacy names) =>
      {| md_current := Some (Versions (if (0 <? latestLegacyVersion names)%Z then Some (latestLegacyVersion names, false) else None)); md_legacy := Some names |}
  | Some (Versions (Some (v, dirty))) =>
      match md_legacy md with
      | Some names =>
          let legacyVersion := latestLegacyVersion names in
          if (legacyVersion =? 0)%Z || ((legacyVersion <=? v)%Z && negb dirty) then md else update_row legacyVersion md
      | None => md
      end
  | _ => md
  end.

(** ** The theorems *)

Lemma runs_failing {A : Set} msg (c : open_call (result string A)) d r d' :
  on_db (failing msg c) d r d' <-> exists x, open_sem _ c d x d' /\ r = match x with Ok a => Ok a | Err e => Err (Wrapped msg (Plain e)) end.
Proof.
  unfold failing. rewrite runs_bind. split.
  - intros (x & d1 & Hx%runs_call & [-> ->]). eauto.
  - intros (x & Hx & ->). exists x, d'. split; [by apply runs_call|done].
Qed.

Lemma scan_all_ok {A : Set} msg (rows : list (result string A)) l : scan_all msg rows = Ok l -> rows = (Ok <$> l).
Proof.
  revert l. induction rows as [|[a|e] rows IH]; intros l; cbn; [by intros [= <-]| |done].
  destruct (scan_all msg rows) as [l'|]; cbn; [|done]. intros [= <-]. cbn. by rewrite <- (IH l').
Qed.

Lemma read_rows_ok {A : Set} s c i (q : query A) l all : read_rows s c i q = Ok l -> reads all (Ok q) -> all = Some l.
Proof.
  unfold read_rows. destruct (scan_all s (q_rows q)) as [l'|] eqn:Hs; cbn; [|done]. destruct (q_close q); [done|]. destruct (q_err q) eqn:He; [done|].
  intros [= ->] Hr. apply Hr; [done|]. by eapply scan_all_ok.
Qed.

Lemma runs_columns d r d' :
  on_db migrationMetadataColumns d r d' ->
  d' = d /\ forall b, r = Ok b -> b = match md_current (db_meta d) with None => (false, false) | Some (Legacy _) => (true, false) | Some (Versions _) => (false, true) end.
Proof.
  unfold migrationMetadataColumns. rewrite runs_try. intros [(q & d1 & (x & [-> Hx] & Hq)%runs_failing & [-> ->])|(e & (x & [-> Hx] & Hq)%runs_failing & ->)]; [|done].
  split; [done|]. destruct x as [q'|]; [|done]. injection Hq as <-. intros b. destruct (read_rows _ _ _ q) as [l|] eqn:Hl; cbn; [|done]. intros [= <-].
  apply (read_rows_ok _ _ _ _ _ _ Hl) in Hx. injection Hx as <-. unfold columns. cbn. by destruct (md_current (db_meta d)) as [[|]|].
Qed.

(** The columns decide, and nothing is changed. *)
Theorem needs_migration_spec d r d' : on_db NeedsMigration d r d' -> d' = d /\ forall b, r = Ok b -> b = pending_spec (db_meta d).
Proof.
  unfold NeedsMigration. rewrite runs_try. intros [(cols & d1 & [-> Hc]%runs_columns & Hk)|(e & [-> _]%runs_columns & ->)]; [|done].
  specialize (Hc _ eq_refl). subst cols. unfold pending_spec. destruct (md_current (db_meta d)) as [[names|row]|] eqn:Hm; cbn in Hk.
  1, 3: destruct Hk as [-> ->]; split; [done|]; by intros b [= <-].
  destruct Hk as (x & d1 & [-> Hx] & Hk). unfold the_row in Hx. rewrite Hm in Hx. destruct x as [v| |e]; cbn in Hx.
  - destruct Hk as (y & d2 & -> & -> & ->). split; [done|]. destruct row as [[v' dirty]|]; [|done]. injection Hx as <-. destruct y; [by intros b [= <-]|done].
  - destruct Hk as [-> ->]. split; [done|]. destruct row; [done|]. by intros b [= <-].
  - destruct Hk as [-> ->]. by split.
Qed.

Lemma runs_names t d r d' :
  on_db (failing t (SelectNames "schema_migrations")) d r d' -> d' = d /\ forall q, r = Ok q -> reads (names_in (db_meta d) "schema_migrations") (Ok q).
Proof. intros (x & [-> Hx] & ->)%runs_failing. split; [done|]. by destruct x; intros q [= <-]. Qed.

Lemma runs_repair d r d' row :
  on_db repairConvertedMetadata d r d' -> md_current (db_meta d) = Some (Versions row) ->
  match r with Ok _ => d' = set_meta (converted (db_meta d)) d | Err _ => d' = d end.
Proof.
  intros Hr Hm. assert (set_meta (db_meta d) d = d) as Hid by (by destruct d). unfold repairConvertedMetadata in Hr. rewrite runs_try in Hr.
  destruct Hr as [(q & d1 & (x & [-> Hx] & Hq)%runs_failing & Hk)|(e & (x & [-> _] & _)%runs_failing & ->)]; [|done]. destruct x as [q'|]; [|done]. injection Hq as <-.
  destruct (read_rows _ _ _ q) as [l|] eqn:Hl in Hk; [|by destruct Hk as [-> ->]]. apply (read_rows_ok _ _ _ _ _ _ Hl) in Hx. injection Hx as <-.
  unfold converted. rewrite Hm. cbv zeta. unfold columns in Hk. destruct (md_legacy (db_meta d)) as [names|] eqn:Hn.
  2: { cbn in Hk. destruct Hk as [-> ->]. destruct row as [[]|]; by rewrite Hid. }
  match type of Hk with context [existsb ?f ?l] => assert (existsb f l = true) as Hc by reflexivity end. rewrite Hc in Hk. cbn [negb] in Hk. rewrite runs_try in Hk.
  destruct Hk as [(q2 & d1 & (x & [-> Hx] & Hq)%runs_failing & Hk)|(e & (x & [-> _] & _)%runs_failing & ->)]; [|done].
  destruct x as [q2'|]; [|done]. injection Hq as <-. destruct (read_rows _ _ _ q2) as [l|] eqn:Hl2 in Hk; [|by destruct Hk as [-> ->]].
  apply (read_rows_ok _ _ _ _ _ _ Hl2) in Hx. unfold names_in in Hx. cbn in Hx. rewrite Hn in Hx. injection Hx as <-.
  destruct (latestLegacyVersion names =? 0)%Z eqn:Hz; cbn in Hk; [destruct Hk as [-> ->]; destruct row as [[]|]; cbn [orb]; by rewrite ?Hz, Hid|].
  destruct Hk as (x & d1 & [-> Hx] & Hk). unfold the_row in Hx. rewrite Hm in Hx. destruct x as [[v dirty]| |e]; cbn in Hx; [|by destruct Hk as [-> ->]..].
  subst row. rewrite ?Hz. cbn [orb]. destruct ((_ <=? _)%Z && negb dirty); cbn in Hk |- *; [destruct Hk as [-> ->]; by rewrite Hid|].
  destruct Hk as (x & d1 & -> & -> & ->). by destruct x.
Qed.

Lemma try_in_tx {A} step (c : open_call (result string ())) msg (k : open_prog (result error A)) d r d' md :
  open_sem _ c d = in_tx step d -> db_tx d = Some md -> on_db (try! _ := failing msg c in k) d r d' ->
  (exists e, r = Err e /\ d' = d) \/ (exists md', step md = Some md' /\ on_db k (set_tx (Some md') d) r d').
Proof.
  intros Hc Htx Hr. rewrite runs_try in Hr. destruct Hr as [(a & d1 & (x & Hx & Ha)%runs_failing & Hk)|(e & (x & Hx & He)%runs_failing & ->)]; rewrite Hc in Hx.
  - destruct x; [|done]. destruct Hx as (md1 & md' & Hmd & Hs & ->). rewrite Htx in Hmd. injection Hmd as <-. eauto.
  - destruct x; [done|]. cbn in Hx. eauto.
Qed.

(** The conversion of the names of a table, as one step of the metadata. *)
Definition convert_spec (names : list string) (v : Z) : metadata :=
  {| md_current := Some (Versions (if (0 <? v)%Z then Some (v, false) else None)); md_legacy := Some names |}.

Lemma runs_convert v names d r d' :
  on_db (convert v) d r d' -> db_tx d = Some (db_meta d) -> md_current (db_meta d) = Some (Legacy names) ->
  set_tx None d' = set_tx None (if is_ok r then set_meta (convert_spec names v) d else d).
Proof.
  unfold convert. intros Hr Htx Hm. apply (try_in_tx rename_step RenameToLegacy _ _ d _ _ _ eq_refl Htx) in Hr as [(e & -> & ->)|(md1 & Hs & Hr)]; [done|].
  unfold rename_step in Hs. rewrite Hm in Hs. destruct (md_legacy (db_meta d)); [done|]. injection Hs as <-.
  apply (try_in_tx create_step CreateVersions _ _ (set_tx (Some _) d) _ _ _ eq_refl eq_refl) in Hr as [(e & -> & ->)|(md2 & [= <-] & Hr)]; [done|].
  assert (forall v' d2, db_tx d2 = Some v' -> set_tx None d2 = set_tx None d -> on_db (failing "commit legacy migration metadata" Commit) d2 r d' ->
    set_tx None d' = set_tx None (if is_ok r then set_meta v' d else d)) as Hcommit.
  { intros v' d2 Hv Hd Hx. apply runs_failing in Hx as ([a|e] & Hx & ->); cbn in Hx |- *; [|by subst]. destruct Hx as (md & Hmd & ->).
    rewrite Hv in Hmd. injection Hmd as <-. by injection Hd as ? ? ? ?; destruct d, d2; cbn in *; subst. }
  unfold convert_spec. destruct (0 <? v)%Z eqn:Hv.
  - apply (try_in_tx (insert_step v) (InsertVersion v) _ _ (set_tx (Some _) _) _ _ _ eq_refl eq_refl) in Hr as [(e & -> & ->)|(md3 & [= <-] & Hr)]; [done|]. eapply Hcommit; [| |exact Hr]; reflexivity.
  - eapply Hcommit; [| |exact Hr]; reflexivity.
Qed.

(** Metadata of an early release are converted as a whole: the version of its latest migration is
    recorded and the old table kept; metadata that were converted before are repaired; and whenever an
    error is reported, everything is as before. *)
Theorem metadata_converted d r d' :
  on_db migrateLegacyMetadata d r d' -> db_tx d = None -> d' = if is_ok r then set_meta (converted (db_meta d)) d else d.
Proof.
  assert (set_meta (db_meta d) d = d) as Hid by (by destruct d). intros Hr Htx. unfold migrateLegacyMetadata in Hr. rewrite runs_try in Hr.
  destruct Hr as [(cols & d1 & [-> Hc]%runs_columns & Hk)|(e & [-> _]%runs_columns & ->)]; [|done]. specialize (Hc _ eq_refl). subst cols.
  destruct (md_current (db_meta d)) as [[names|row]|] eqn:Hm.
  - cbv iota beta in Hk. unfold negb in Hk. unfold legacyMigrationNames in Hk. rewrite runs_try in Hk. destruct Hk as [(l & d1 & Hl & Hk)|(e & Hl & ->)].
    all: rewrite runs_try in Hl; destruct Hl as [(q & d2 & [-> Hq]%runs_names & [Hl ->])|(e' & [-> _]%runs_names & He)]; try done.
    symmetry in Hl. apply (read_rows_ok _ _ _ _ _ _ Hl) in Hq; [|done]. unfold names_in in Hq. cbn in Hq. rewrite Hm in Hq. injection Hq as <-.
    rewrite runs_try in Hk. destruct Hk as [(a & d1 & (x & Hx & Ha)%runs_failing & Hk)|(e & (x & Hx & He)%runs_failing & ->)].
    2: { destruct x; [done|]. by cbn in Hx. }
    destruct x; [|done]. cbn in Hx. subst d1. rewrite runs_bind in Hk. destruct Hk as (r' & d1 & Hconv & (u & d2 & -> & -> & ->)).
    apply (runs_convert _ names) in Hconv; [|done|done]. cbn [is_ok]. unfold converted. rewrite Hm. rewrite Hconv.
    unfold convert_spec, set_meta, set_tx. by destruct r', d; cbn in *; subst.
  - by pose proof (runs_repair _ _ _ _ Hk Hm); destruct r.
  - destruct Hk as [-> ->]. cbn. unfold converted. by rewrite Hm, Hid.
Qed.

(** A second start finds converted metadata as it left them. *)
Theorem conversion_idempotent md : converted (converted md) = converted md.
Proof.
  destruct md as [[[names|[[v dirty]|]]|] [old|]]; unfold converted; cbn; try done.
  1, 2: destruct (0 <? latestLegacyVersion names)%Z; cbn; [|done]; by rewrite Z.leb_refl, orb_true_r.
  destruct (_ || _) eqn:Hc; cbn; [by rewrite Hc|]. by rewrite Z.leb_refl, orb_true_r.
Qed.

Lemma latest_of_spec version names latest :
  (latest <= latest_of version names latest)%Z /\
  (forall name v, In name names -> version name = Some v -> (v <= latest_of version names latest)%Z) /\
  (latest_of version names latest = latest \/ exists name, In name names /\ version name = Some (latest_of version names latest)).
Proof.
  revert latest. induction names as [|n names IH]; intros latest; [cbn; split_and!; [lia|done|by left]|].
  set (l1 := match version n with Some v => if (latest <? v)%Z then v else latest | None => latest end).
  assert ((latest <= l1)%Z /\ (forall v, version n = Some v -> (v <= l1)%Z) /\ (l1 = latest \/ version n = Some l1)) as (H1 & H2 & H3).
  { subst l1. destruct (version n) as [v|]; [|split_and!; [lia|done|by left]]. destruct (Z.ltb_spec latest v); (split_and!; [lia|by intros w [= <-]; lia|auto]). }
  change (latest_of version (n :: names) latest) with (latest_of version names l1).
  destruct (IH l1) as (I1 & I2 & I3). split_and!.
  - lia.
  - intros name v [<-|Hin] Hv; [specialize (H2 _ Hv); lia|by eapply I2].
  - destruct I3 as [I3|(name & Hin & Hv)]; [|right; exists name; by split; [right|]]. destruct H3 as [H3|H3]; [left; congruence|right; exists n]. split; [by left|]. congruence.
Qed.

(** The recorded version is the greatest among the names that migrate upwards. *)
Theorem legacy_version_greatest names :
  (forall name v, In name names -> legacy_version name = Some v -> (v <= latestLegacyVersion names)%Z) /\
  (latestLegacyVersion names = 0%Z \/ exists name, In name names /\ legacy_version name = Some (latestLegacyVersion names)).
Proof. unfold latestLegacyVersion. by destruct (latest_of_spec legacy_version names 0) as (_ & ? & ?). Qed.

Lemma runs_quiet {A : Set} msg (c : open_call (result string A)) d r d' :
  (forall x d1, open_sem _ c d x d1 -> d1 = d) -> on_db (failing msg c) d r d' -> d' = d.
Proof. intros Hc (x & Hx & _)%runs_failing. eauto. Qed.

(** After a [Run] without error the metadata name the latest version; with or without, the library is
    not called before the metadata were converted. *)
Lemma runs_Run d r d' :
  on_db Run d r d' -> db_tx d = None ->
  db_backups d' = db_backups d /\ (forall u, r = Ok u -> the_row (db_meta d') = Some (latest_version, false)).
Proof.
  unfold Run. rewrite runs_wrap. intros [(u & d1 & Hm & Hr)|(e & Hm & ->)] Htx.
  2: { apply metadata_converted in Hm as ->; done. }
  apply metadata_converted in Hm as ->; [|done]. cbn [is_ok] in Hr. set (d1 := set_meta _ d) in *. change (db_backups d) with (db_backups d1).
  rewrite runs_try in Hr. destruct Hr as [(a & d2 & Hq & Hr)|(e & Hq & ->)]; apply runs_quiet in Hq as ->; [|by intros ??|done|by intros ??].
  rewrite runs_try in Hr. destruct Hr as [(b & d2 & (x & Hx & _)%runs_failing & Hr)|(e & (x & Hx & He)%runs_failing & ->)]; cbn in Hx.
  2: { destruct x; [done|]. by subst. }
  assert (db_backups d2 = db_backups d1) as <- by (by destruct x; subst). clear x Hx.
  rewrite runs_try in Hr. destruct Hr as [(c & d3 & Hq & Hr)|(e & Hq & ->)]; apply runs_quiet in Hq as ->; [|by intros ??|done|by intros ??].
  destruct Hr as (x & d3 & (row & Hup & ->) & -> & ->). split; [done|]. cbn. destruct x; cbn in Hup; [by destruct Hup as [_ ->]|by destruct Hup as (_ & -> & ->)|done].
Qed.

(** Opening a database: with an existing file whose metadata are behind, the library migrates and the
    metadata change only after a backup was made; and a database that was opened is up to date. *)
Theorem open_backs_up `{Unicode} dsn d r d' :
  on_db (Open dsn) d r d' -> db_tx d = None ->
  (db_exists d = true -> pending_spec (db_meta d) = true -> d' = d \/ db_backups d' = S (db_backups d)) /\
  (is_ok r = true -> the_row (db_meta d') = Some (latest_version, false) /\ pending_spec (db_meta d') = false).
Proof.
  intros Hr Htx. unfold Open in Hr. rewrite runs_bind in Hr. destruct Hr as (ex & d1 & [-> ->]%runs_call & Hr).
  rewrite runs_try in Hr. destruct Hr as [(a & d2 & Hq & Hr)|(e & Hq & ->)]; apply runs_quiet in Hq as ->; [|by intros ??|by split; [left|]|by intros ??].
  rewrite runs_try in Hr. destruct Hr as [(b & d2 & Hq & Hr)|(e & Hq & ->)]; apply runs_quiet in Hq as ->; [|by intros ??|by split; [left|]|by intros ??].
  rewrite runs_bind in Hr. destruct Hr as (p & d2 & [-> Hp]%needs_migration_spec & Hr). destruct p as [pending|e].
  2: { destruct Hr as (? & ? & -> & -> & ->). by split; [left|]. }
  specialize (Hp _ eq_refl). subst pending. rewrite runs_bind in Hr. destruct Hr as (bk & d2 & Hb & Hr).
  assert (d2 = if is_ok bk then (if db_exists d && pending_spec (db_meta d) then backed_up d else d) else d) as ->.
  { destruct (db_exists d && pending_spec (db_meta d)); [|by destruct Hb as [-> ->]]. destruct Hb as (dir & d3 & -> & x & d4 & -> & -> & ->). by destruct x. }
  destruct bk as [u|e]; [|destruct Hr as (? & ? & -> & -> & ->); by split; [left|]]. cbn [is_ok] in Hr. rewrite runs_wrap in Hr.
  assert (forall d3 r', on_db Run (if db_exists d && pending_spec (db_meta d) then backed_up d else d) r' d3 ->
    (db_exists d = true -> pending_spec (db_meta d) = true -> db_backups d3 = S (db_backups d)) /\
    (forall u, r' = Ok u -> the_row (db_meta d3) = Some (latest_version, false))) as Hrun.
  { intros d3 r' Hx. apply runs_Run in Hx as [Hx1 Hx2]; [|by destruct (_ && _)]. split; [|done]. intros He Hpe. by rewrite He, Hpe in Hx1. }
  destruct Hr as [(u' & d3 & Hx & [-> ->])|(e & Hx & ->)]; apply Hrun in Hx as [H1 H2]; (split; [by auto|]); [|done]. intros _.
  specialize (H2 _ eq_refl). split; [done|]. revert H2. unfold the_row, pending_spec. destruct (md_current _) as [[|row]|]; try done. intros ->. apply Z.ltb_irrefl.
Qed.

(** ** Where it differs from its intent *)

Definition early_names : list string := ["001_init.sql"; "002_modules.sql"; "003_sites.sql"; "004_dashboard.sql"; "005_services.sql"; "006_sites_v2.sql"].

(** The example of the tests of the repository: six early migrations give version 6. *)
Example early_release_converted :
  converted {| md_current := Some (Legacy early_names); md_legacy := None |} =
  {| md_current := Some (Versions (Some (6%Z, false))); md_legacy := Some early_names |}.
Proof. vm_compute. reflexivity. Qed.

(** A later migration that broke off on an installation that was converted once: the repair goes back to
    the version of the early release, so that every migration since then is applied a second time; if
    the latest one broke off, this is not pending, and so without a backup. *)
Theorem dirty_version_rewound v names :
  latestLegacyVersion names <> 0%Z ->
  let md := {| md_current := Some (Versions (Some (v, true))); md_legacy := Some names |} in
  the_row (converted md) = Some (latestLegacyVersion names, false) /\ (v = latest_version -> pending_spec md = false).
Proof.
  intros Hn md. unfold converted. cbn. destruct (Z.eqb_spec (latestLegacyVersion names) 0) as [?|_]; [done|]. rewrite andb_false_r. cbn.
  split; [done|]. intros ->. apply Z.ltb_irrefl.
Qed.

Example rewound_to_six :
  let md := {| md_current := Some (Versions (Some (14%Z, true))); md_legacy := Some early_names |} in
  latest_version = 14%Z /\ pending_spec md = false /\ the_row (converted md) = Some (6%Z, false).
Proof. vm_compute. auto. Qed.
