(* ===== verification/AgentTunnel.v ===== *)
(** * The Agent's side of the control plane

    internal/agent/remote, both files: the stream to the control plane with its commands,
    subscriptions and heartbeats, and the older client that posts heartbeats.  A goroutine is a program;
    starting it is a call. *)

From S2P Require Import Prelude GoStrings GoStrconv AppErrors Effects AgentWire Stats.
Local Open Scope string_scope.
Local Open Scope go_scope.

(** ** Messages *)

Record AgentCommand := { ac_id : string; ac_kind : string; ac_payload : string; ac_deadline : Z; ac_async : bool }.
Record Subscription := { su_id : string; su_kind : string; su_payload : string }.
Record Heartbeat := {
  hb_cpu : float64; hb_memory : float64; hb_disk : float64; hb_rx : Z; hb_tx : Z; hb_load : float64 * float64 * float64; hb_uptime : Z;
  hb_health : string; hb_sent : Z }.

Inductive agent_msg :=
| Hello (server fingerprint : string) (protocol : Z) (api version : string) (capabilities : list string)
| Pong (sent : Z)
| Chunk (stream : string) (sequence : Z) (data : string) (eof : bool)
| Progress (task : string) (percent : Z) (state message result : string)
| Result (id : string) (success : bool) (payload error : string)
| Beat (h : Heartbeat).

Inductive core_body :=
| Welcome (protocol serverTime interval : Z) | Command (c : AgentCommand) | Ping (sent : Z) | Subscribe (s : Subscription) | Cancel (id : string) | NoBody.

(** What the select of the loop gives. *)
Inductive event := Incoming (m : core_body) | ReceiveErr (e : string) | SendErr (e : string) | ConnectionDone (e : string).

Definition nanosecond_second : Z := 1000000000.
Definition nanosecond_minute : Z := 60 * nanosecond_second.

(** A context is a number. *)
Inductive tunnel_call : Set -> Set :=
| ReadCA : tunnel_call (result string string)
| AppendCerts (pem : string) : tunnel_call bool
| LoadKeyPair : tunnel_call (result string ())
| NewClient : tunnel_call (result string ())
| ConnectStream : tunnel_call (result string ())
| Send (m : agent_msg) : tunnel_call bool
| CtxErr : tunnel_call string
| Recv : tunnel_call (result string core_body)
| Since (unixMilli : Z) : tunnel_call Z
| GoSender : tunnel_call ()
| GoHeartbeats (interval : Z) : tunnel_call ()
| GoReceiver : tunnel_call ()
| GoExecute (c : AgentCommand) : tunnel_call ()
| GoSubscription (ctx : nat) (s : Subscription) : tunnel_call ()
| CancelContext (ctx : nat) : tunnel_call ()
| Wait : tunnel_call event
| CloseConn : tunnel_call ()
| CancelConnection : tunnel_call ().
Notation tunnel_prog A := (prog tunnel_call A).

(** source: internal/agent/remote/stream.go:22-22 (streamProtocolVersion) *)
Definition streamProtocolVersion : Z := 1.

Record agent_config := { ag_address : string; ag_ca : string; ag_server : string; ag_fingerprint : string; ag_version : string }.

(** source: internal/agent/remote/stream.go:35-41 (NewStream): whether the configuration is complete *)
Definition NewStream (cfg : agent_config) : result error () :=
  fail_if (String.eqb (ag_address cfg) "" || String.eqb (ag_ca cfg) "" || String.eqb (ag_server cfg) "" || String.eqb (ag_fingerprint cfg) "")
    (Plain "control-plane address, CA, server ID and certificate fingerprint are required").

(** ** Connecting *)

(** source: internal/agent/remote/stream.go:125-128 (connect, the skew): a duration, so its negation wraps *)
Definition clock_skew (since : Z) : Z := if (since <? 0)%Z then to_int64 (- since) else since.

(** source: internal/agent/remote/stream.go:68-131 (connect, up to the welcome): the interval of the
    heartbeats; the connection is closed only if it was made.  [duration_text] shows a duration rounded to
    seconds. *)
Definition handshake (duration_text : Z -> string) (cfg : agent_config) : tunnel_prog (bool * result error Z) :=
  let fail (conn : bool) (e : error) : tunnel_prog (bool * result error Z) := Ret (conn, Err e) in
  let! ca := call ReadCA in
  match ca with
  | Err e => fail false (Wrapped "load control-plane CA" (Plain e))
  | Ok pem =>
      let! ok := call (AppendCerts pem) in
      if negb ok then fail false (Plain "control-plane CA contains no certificates")
      else
        let! identity := call LoadKeyPair in
        match identity with
        | Err e => fail false (Wrapped "load control-plane client identity" (Plain e))
        | Ok _ =>
            let! conn := call NewClient in
            match conn with
            | Err e => fail false (Plain e)
            | Ok _ =>
                let! stream := call ConnectStream in
                match stream with
                | Err e => fail true (Plain e)
                | Ok _ =>
                    ignore! call GoSender in
                    let! sent := call (Send (Hello (ag_server cfg) (ag_fingerprint cfg) streamProtocolVersion "v1" (ag_version cfg) Names)) in
                    if negb sent then let! e := call CtxErr in fail true (Plain e)
                    else
                      let! welcome := call Recv in
                      match welcome with
                      | Err e => fail true (Plain e)
                      | Ok (Welcome protocol serverTime interval) =>
                          if negb (protocol =? streamProtocolVersion)%Z then fail true (Plain "control-plane protocol negotiation failed")
                          else
                            let! since := call (Since serverTime) in
                            if (5 * nanosecond_minute <? clock_skew since)%Z then fail true (Plain ("control-plane clock skew is " ++ duration_text (clock_skew since) ++ "; synchronize system time"))
                            else Ret (true, Ok (to_int64 (interval * nanosecond_second)))
                      | Ok _ => fail true (Plain "control-plane protocol negotiation failed")
                      end
                end
            end
        end
  end.

(** The contexts of the subscriptions: the next number, and by identifier. *)
Record subs := { sb_next : nat; sb_cancel : gmap string nat }.
Definition no_subs : subs := {| sb_next := 0; sb_cancel := ∅ |}.

(** source: internal/agent/remote/stream.go:160-179 (connect, one message): whether the loop goes on *)
Definition handle_message (m : core_body) (s : subs) : tunnel_prog (result error subs) :=
  match m with
  | Command c => ignore! call (GoExecute c) in Ret (Ok s)
  | Ping sent =>
      let! ok := call (Send (Pong sent)) in
      if negb ok then let! e := call CtxErr in Ret (Err (Plain e)) else Ret (Ok s)
  | Subscribe sub =>
      ignore! call (GoSubscription (sb_next s) sub) in
      Ret (Ok {| sb_next := S (sb_next s); sb_cancel := <[su_id sub := sb_next s]> (sb_cancel s) |})
  | Cancel id =>
      match sb_cancel s !! id with
      | Some ctx => ignore! call (CancelContext ctx) in Ret (Ok {| sb_next := sb_next s; sb_cancel := delete id (sb_cancel s) |})
      | None => Ret (Ok s)
      end
  | _ => Ret (Ok s)
  end.

(** source: internal/agent/remote/stream.go:149-181 (connect, the loop), for [turns] turns; [None] if it
    goes on after them *)
Fixpoint message_loop (turns : nat) (s : subs) : tunnel_prog (option error) :=
  match turns with
  | 0 => Ret None
  | S turns' =>
      let! e := call Wait in
      match e with
      | ReceiveErr e | SendErr e | ConnectionDone e => Ret (Some (Plain e))
      | Incoming m =>
          let! r := handle_message m s in
          match r with Err e => Ret (Some e) | Ok s' => message_loop turns' s' end
      end
  end.

(** source: internal/agent/remote/stream.go:68-182 (connect) *)
Definition connect (duration_text : Z -> string) (cfg : agent_config) (turns : nat) : tunnel_prog (option error) :=
  let! h := handshake duration_text cfg in
  let '(conn, r) := h in
  let! out :=
    match r with
    | Err e => Ret (Some e)
    | Ok interval =>
        ignore! call (GoHeartbeats interval) in
        ignore! call GoReceiver in
        message_loop turns no_subs
    end in
  ignore! (if conn then call CloseConn else Ret ()) in
  ignore! call CancelConnection in
  Ret out.

(** source: internal/agent/remote/stream.go:43-66 (Run, one turn): the delay before the next attempt and
    the next backoff, from whether the connection lasted over a minute and the random number below half
    of the backoff *)
Definition reconnect (backoff : Z) (lasted : bool) (jitter : Z) : Z * Z :=
  let backoff := if lasted then nanosecond_second else backoff in
  (backoff + jitter, if (backoff <? 30 * nanosecond_second)%Z then backoff * 2 else backoff)%Z.

(** source: internal/agent/remote/stream.go:43-66 (Run): the delays of a sequence of connections *)
Fixpoint delays (backoff : Z) (turns : list (bool * Z)) : list (Z * Z) :=
  match turns with
  | [] => []
  | (lasted, jitter) :: turns' => (if lasted then nanosecond_second else backoff, fst (reconnect backoff lasted jitter)) :: delays (snd (reconnect backoff lasted jitter)) turns'
  end.

(** ** Commands *)

(** The calls of the goroutine of a command: sending, and the handler of the command. *)
Inductive execute_call : Set -> Set :=
| ESend (m : agent_msg) : execute_call bool
| EHandle (deadline : Z) (kind payload : string) : execute_call (string * option string).

(** source: internal/agent/remote/stream.go:218-256 (execute) *)
Definition execute (c : AgentCommand) : prog execute_call () :=
  let! go :=
    if ac_async c then call (ESend (Progress (ac_id c) 0 "running" "operation started" "")) else Ret true in
  if negb go then Ret ()
  else
    let! out := call (EHandle (ac_deadline c) (ac_kind c) (ac_payload c)) in
    let '(payload, err) := out in
    let! go :=
      if ac_async c then
        call (ESend (match err with
                     | None => Progress (ac_id c) 100 "success" "operation completed" payload
                     | Some e => Progress (ac_id c) 100 "error" e payload
                     end))
      else Ret true in
    if negb go then Ret ()
    else ignore! call (ESend (Result (ac_id c) (bool_decide (err = None)) payload (default "" err))) in Ret ().

(** ** Subscriptions *)

(** The handler of subscriptions emits pieces of data; whatever else it asks and is told is a text. *)
Inductive handler_call : Set -> Set :=
| HEmit (data : string) : handler_call (option string)
| HAsk (question : string) : handler_call string.

(** Sending in the goroutine of a subscription: the error of its context if that is done first. *)
Inductive subscription_call : Set -> Set :=
| SSend (m : agent_msg) : subscription_call (option string)
| SAsk (question : string) : subscription_call string.

Section subscriptions.
Context (id : string).

(** source: internal/agent/remote/stream.go:195-205 (runSubscription, emit), as the handler calls it: each
    piece has the next number, sent or not *)
Fixpoint numbered {A} (sequence : Z) (p : prog handler_call A) : prog subscription_call (Z * A) :=
  match p with
  | Ret a => Ret (sequence, a)
  | Call e k =>
      match e in handler_call X return (X -> prog handler_call A) -> prog subscription_call (Z * A) with
      | HEmit data => fun k => Call (SSend (Chunk id (sequence + 1) data false)) (fun x => numbered (sequence + 1) (k x))
      | HAsk q => fun k => Call (SAsk q) (fun x => numbered sequence (k x))
      end k
  end.

(** source: internal/agent/remote/stream.go:193-216 (runSubscription) *)
Definition runSubscription (handler : prog handler_call (option string)) : prog subscription_call () :=
  let! out := numbered 0 handler in
  let '(sequence, err) := out in
  let! sequence :=
    match err with
    | Some e => ignore! call (SSend (Chunk id (sequence + 1) ("stream error: " ++ e) false)) in Ret (sequence + 1)%Z
    | None => Ret sequence
    end in
  ignore! call (SSend (Chunk id (sequence + 1) "" true)) in
  Ret ().
End subscriptions.

(** ** Heartbeats *)

Definition f_gt (a b : float64) : bool := SpecFloat.SFltb b a.

(** source: internal/agent/remote/stream.go:267-272 (heartbeatLoop, the disks) *)
Definition disk_usage (disks : list DiskStats) : float64 :=
  fold_left (fun u d => if f_gt (dk_UsedPercent d) u then dk_UsedPercent d else u) disks f_zero.

(** source: internal/agent/remote/stream.go:273-278 (heartbeatLoop, the message) *)
Definition beat_of (s : SystemStats) (now : Z) : Heartbeat :=
  {| hb_cpu := UsagePercent (st_CPU s); hb_memory := m_UsedPercent (st_Memory s); hb_disk := disk_usage (st_Disk s);
     hb_rx := BytesRecv (st_Network s); hb_tx := BytesSent (st_Network s); hb_load := st_LoadAverage s; hb_uptime := st_Uptime s;
     hb_health := "healthy"; hb_sent := now |}.

(** source: internal/agent/remote/stream.go:258-262 (heartbeatLoop, the interval) *)
Definition beat_interval (interval : Z) : Z := if (interval <=? 0)%Z then (15 * nanosecond_second)%Z else interval.

Inductive beat_call : Set -> Set :=
| BCollect : beat_call (result string SystemStats)
| BNow : beat_call Z
| BSend (m : agent_msg) : beat_call bool
| BTick (interval : Z) : beat_call bool.

(** source: internal/agent/remote/stream.go:258-289 (heartbeatLoop), for [turns] turns: [false] if the
    context was done *)
Fixpoint heartbeatLoop (turns : nat) (interval : Z) : prog beat_call bool :=
  match turns with
  | 0 => Ret true
  | S turns' =>
      let! snapshot := call BCollect in
      let! go :=
        match snapshot with
        | Err _ => Ret true
        | Ok s => let! now := call BNow in call (BSend (Beat (beat_of s now)))
        end in
      if negb go then Ret false
      else let! tick := call (BTick (beat_interval interval)) in if negb tick then Ret false else heartbeatLoop turns' interval
  end.

(** ** The older client *)

(** source: internal/agent/remote/client.go:19-22 (task) *)
Record task := { tk_ID : string; tk_Action : string }.
(** source: internal/agent/remote/client.go:24-29 (taskResult) *)
Record taskResult := { tr_ID : string; tr_State : string; tr_Output : string; tr_Error : string }.
(** source: internal/agent/remote/client.go:31-34 (heartbeatResponse) *)
Record heartbeatResponse := { hr_interval : Z; hr_tasks : list task }.

(** source: internal/agent/remote/client.go:124-139 (execute, one task) *)
Definition task_result (t : task) : taskResult :=
  if existsb (String.eqb (tk_Action t)) ["health_check"; "refresh_information"; "reconnect"]
  then {| tr_ID := tk_ID t; tr_State := "success"; tr_Output := "agent is healthy"; tr_Error := "" |}
  else {| tr_ID := tk_ID t; tr_State := "error"; tr_Output := "";
          tr_Error := "action requires a supervised agent update or host power controller" |}.
(** source: internal/agent/remote/client.go:124-140 (execute) *)
Definition execute_tasks (tasks : list task) : list taskResult := task_result <$> tasks.

(** What the Core answers: the transport may fail, the status may differ, the body may not decode. *)
Inductive beat_answer := Transport (e : string) | Status (code : Z) | Undecodable (e : string) | Answered (r : heartbeatResponse).

Inductive post_call : Set -> Set :=
| PCollect : post_call (result string SystemStats)
| PPost (url agent fingerprint : string) (s : SystemStats) (disk : float64) (results : list taskResult) : post_call (result string beat_answer).

(** [strings.TrimRight(s, "/")] *)
Fixpoint trim_slashes (s : string) : string :=
  match s with "" => "" | String c s' => match trim_slashes s' with "" => if Ascii.eqb c "/" then "" else String c "" | t => String c t end end.

(** source: internal/agent/remote/client.go:84-122 (heartbeat): the next interval, and the results that
    are pending *)
Definition heartbeat (coreURL server fingerprint : string) (pending : list taskResult) : prog post_call (result error Z * list taskResult) :=
  let! snapshot := call PCollect in
  match snapshot with
  | Err e => Ret (Err (Plain e), pending)
  | Ok s =>
      let! resp := call (PPost (trim_slashes coreURL ++ "/api/v1/agents/heartbeat") server fingerprint s (disk_usage (st_Disk s)) pending) in
      match resp with
      | Err e | Ok (Transport e) | Ok (Undecodable e) => Ret (Err (Plain e), pending)
      | Ok (Status code) => Ret (Err (Plain ("core returned HTTP " ++ itoa code)), pending)
      | Ok (Answered r) => Ret (Ok (to_int64 (hr_interval r * nanosecond_second)), execute_tasks (hr_tasks r))
      end
  end.

(** source: internal/agent/remote/client.go:63-82 (Run), for [turns] heartbeats: the interval and the
    results that are pending after them *)
Fixpoint post_loop (coreURL server fingerprint : string) (turns : nat) (interval : Z) (pending : list taskResult) : prog post_call (Z * list taskResult) :=
  match turns with
  | 0 => Ret (interval, pending)
  | S turns' =>
      let! out := heartbeat coreURL server fingerprint pending in
      let '(r, pending') := out in
      let interval' := match r with Ok next => if (0 <? next)%Z then next else interval | Err _ => interval end in
      post_loop coreURL server fingerprint turns' interval' pending'
  end.

(** ** A command is answered once *)

Definition tried (a : action execute_call) : list (agent_msg * bool) :=
  match a with @Act _ X e x => match e in execute_call X return X -> list (agent_msg * bool) with ESend m => fun ok => [(m, ok)] | EHandle _ _ _ => fun _ => [] end x end.
Definition handled (a : action execute_call) : list (string * string * (string * option string)) :=
  match a with
  | @Act _ X e x =>
      match e in execute_call X return X -> list (string * string * (string * option string)) with
      | EHandle _ kind payload => fun out => [(kind, payload, out)]
      | ESend _ => fun _ => []
      end x
  end.
(** The messages the Core gets, in order. *)
Definition delivered (tr : list (action execute_call)) : list agent_msg := fst <$> List.filter snd (tr ≫= tried).

(** What the Core should get for a command whose handler returned [out]. *)
Definition expected (c : AgentCommand) (out : string * option string) : list agent_msg :=
  let '(payload, err) := out in
  let result := Result (ac_id c) (bool_decide (err = None)) payload (default "" err) in
  if ac_async c then
    [Progress (ac_id c) 0 "running" "operation started" "";
     Progress (ac_id c) 100 (if err is None then "success" else "error") (default "operation completed" err) payload; result]
  else [result].

(** The Core gets the progress and the result of a command in order and each at most once; the handler
    runs at most once, for the kind and payload of the command; and unless the connection ends, the Core
    gets everything. *)
Theorem command_answered c tr u :
  exec (execute c) tr u ->
  exists out, delivered tr `prefix_of` expected c out /\
    (tr ≫= handled = [] \/ tr ≫= handled = [(ac_kind c, ac_payload c, out)]) /\
    (forallb snd (tr ≫= tried) = true -> delivered tr = expected c out /\ tr ≫= handled = [(ac_kind c, ac_payload c, out)]).
Proof.
  unfold execute, expected, delivered. destruct (ac_async c) eqn:Ha; cbn.
  - intros (go & tr1 & -> & Hk). destruct go; cbn in Hk.
    2: { destruct Hk as [-> _]. exists ("", None). cbn. split_and!; [apply prefix_nil|by left|done]. }
    destruct Hk as ([payload err] & tr2 & -> & Hk). cbn in Hk. destruct Hk as (go & tr3 & -> & Hk). exists (payload, err).
    destruct go; cbn in Hk; [destruct Hk as (ok & tr4 & -> & -> & _)|destruct Hk as [-> _]]; cbn; [|destruct err; (split_and!; [by eexists|by right|done])].
    destruct ok, err; cbn; (split_and!; [by eexists|by right|done]).
  - intros ([payload err] & tr1 & -> & Hk). cbn in Hk. destruct Hk as (ok & tr2 & -> & -> & _). exists (payload, err). cbn.
    destruct ok; cbn; (split_and!; [by eexists|by right|done]).
Qed.

(** ** The pieces of a stream are numbered *)

Definition offered (a : action subscription_call) : list agent_msg :=
  match a with @Act _ X e _ => match e with SSend m => [m] | SAsk _ => [] end end.
Definition pieces (id : string) (from : Z) (data : list string) : list agent_msg := imap (fun i d => Chunk id (from + 1 + Z.of_nat i) d false) data.

Lemma pieces_cons id from d data : pieces id from (d :: data) = Chunk id (from + 1) d false :: pieces id (from + 1) data.
Proof. unfold pieces. cbn. f_equal; [f_equal; lia|]. apply imap_ext. intros i x _. cbn. f_equal. lia. Qed.

Lemma pieces_app id from data d : pieces id from (data ++ [d]) = (pieces id from data ++ [Chunk id (from + 1 + Z.of_nat (length data)) d false])%list.
Proof. unfold pieces. rewrite imap_app. cbn. by rewrite Nat.add_0_r. Qed.

Lemma numbered_exec {A} id (p : prog handler_call A) : forall from tr to a,
  exec (numbered id from p) tr (to, a) -> exists data, tr ≫= offered = pieces id from data /\ to = (from + Z.of_nat (length data))%Z.
Proof.
  induction p as [b|X e k IH]; intros from tr to a; cbn.
  - intros [-> [= -> ->]]. exists []. cbn. split; [done|lia].
  - destruct e as [d|q]; cbn; intros (x & tr' & -> & Hk); apply IH in Hk as (data & Hd & ->).
    + exists (d :: data). rewrite pieces_cons. cbn. rewrite Hd. split; [done|lia].
    + exists data. by cbn.
Qed.

(** Whatever the handler does, its pieces are offered with the numbers from one on, in order, and the
    last piece, with the number after them, is the end of the stream. *)
Theorem stream_numbered id handler tr u :
  exec (runSubscription id handler) tr u ->
  exists data, tr ≫= offered = (pieces id 0 data ++ [Chunk id (Z.of_nat (length data) + 1) "" true])%list.
Proof.
  unfold runSubscription. intros (tr1 & tr2 & [n err] & -> & Hn & Hk)%exec_bind. apply numbered_exec in Hn as (data & Hd & ->). rewrite bind_app, Hd. cbn in Hk |- *.
  destruct err as [e|]; cbn in Hk.
  - destruct Hk as (x & tr3 & -> & y & tr4 & -> & -> & _). exists (data ++ [("stream error: " ++ e)%string])%list. rewrite pieces_app, length_app, <- app_assoc. cbn.
    apply f_equal2; [done|]. apply f_equal2; [apply (f_equal (fun z => Chunk id z _ _)); lia|]. apply (f_equal (fun z => [Chunk id z _ _])). lia.
  - destruct Hk as (y & tr4 & -> & -> & _). exists data. cbn. repeat f_equal; lia.
Qed.

(** ** Nothing is done before the welcome *)

Definition starts_work (X : Set) (c : tunnel_call X) : bool :=
  match c with GoExecute _ | GoSubscription _ _ | GoHeartbeats _ | GoReceiver => true | _ => false end.

Lemma handshake_idle text cfg : calls (fun X c => starts_work X c = false) (handshake text cfg).
Proof.
  unfold handshake, calls. cbn. split; [done|]. intros [pem|e]; cbn; [|done]. split; [done|]. intros [|]; cbn; [|done]. split; [done|]. intros [|]; cbn; [|done].
  split; [done|]. intros [|]; cbn; [|done]. split; [done|]. intros [|]; cbn; [|done]. split; [done|]. intros _. split; [done|]. intros [|]; cbn; [|done].
  split; [done|]. intros [[]|]; cbn; try done. destruct (negb _); cbn; [done|]. split; [done|]. intros s. by destruct (_ <? _)%Z.
Qed.

(** A clock that differs by at most five minutes, or by so much that its difference is the least duration. *)
Definition skew_accepted (since : Z) : Prop := (Z.abs since <= 5 * nanosecond_minute)%Z \/ since = (- 2 ^ 63)%Z.

Lemma clock_skew_spec s : is_int64 s -> (5 * nanosecond_minute <? clock_skew s)%Z = false -> skew_accepted s.
Proof.
  unfold is_int64, clock_skew, skew_accepted. intros Hs Hc%Z.ltb_ge. destruct (Z.ltb_spec s 0); [|left; lia].
  destruct (Z.eq_dec s (- 2 ^ 63)) as [|Hne]; [by right|left]. rewrite to_int64_id in Hc by (unfold is_int64; lia). lia.
Qed.

Lemma handshake_ok text cfg tr conn interval :
  exec (handshake text cfg) tr (conn, Ok interval) ->
  exists time secs since, In (Act Recv (Ok (Welcome streamProtocolVersion time secs))) tr /\ In (Act (Since time) since) tr /\
    (5 * nanosecond_minute <? clock_skew since)%Z = false /\ interval = to_int64 (secs * nanosecond_second).
Proof.
  unfold handshake. cbn. intros ([pem|e] & ? & -> & H); cbn in H; [|by destruct H as [_ H]]. destruct H as ([|] & ? & -> & H); cbn in H; [|by destruct H as [_ H]].
  destruct H as ([|] & ? & -> & H); cbn in H; [|by destruct H as [_ H]]. destruct H as ([|] & ? & -> & H); cbn in H; [|by destruct H as [_ H]].
  destruct H as ([|] & ? & -> & H); cbn in H; [|by destruct H as [_ H]]. destruct H as (? & ? & -> & H). destruct H as ([|] & ? & -> & H); cbn in H.
  2: { destruct H as (? & ? & _ & _ & H). done. }
  destruct H as ([[p t secs| | | | |]|] & ? & -> & H); cbn in H; try by destruct H as [_ H]. destruct (Z.eqb_spec p streamProtocolVersion) as [->|]; cbn in H; [|by destruct H as [_ H]].
  destruct H as (since & ? & -> & H). destruct (_ <? _)%Z eqn:Hs; cbn in H; [by destruct H as [_ H]|]. destruct H as [-> [= -> ->]].
  exists t, secs, since. split_and!; [cbn; tauto|cbn; tauto|done|done].
Qed.

(** In every execution of a connection, a command is executed, a subscription served or a heartbeat sent
    only after a welcome of the right protocol whose clock is close enough. *)
Theorem work_after_welcome text cfg turns tr r X (c : tunnel_call X) x :
  exec (connect text cfg turns) tr r -> In (Act c x) tr -> starts_work X c = true ->
  (forall t s, In (Act (Since t) s) tr -> is_int64 s) ->
  exists time secs since, In (Act Recv (Ok (Welcome streamProtocolVersion time secs))) tr /\ In (Act (Since time) since) tr /\ skew_accepted since.
Proof.
  unfold connect. intros (tr1 & tr2 & [conn [interval|e]] & -> & Hh & Hk)%exec_bind Hin Hw Hs.
  - apply handshake_ok in Hh as (t & secs & s & H1 & H2 & H3 & _). exists t, secs, s. setoid_rewrite in_app_iff. split_and!; [by left|by left|].
    apply clock_skew_spec; [|done]. eapply Hs. apply in_app_iff. left. exact H2.
  - apply in_app_iff in Hin as [Hin|Hin]; [by rewrite (calls_in _ _ _ _ _ _ (handshake_idle text cfg) Hh Hin) in Hw|]. exfalso.
    eapply (calls_in (fun X c => starts_work X c = false)) in Hin; [|clear|exact Hk]; [congruence|]. unfold calls. destruct conn; cbn; by repeat split.
Qed.

(** ** Contexts of subscriptions *)

Definition cancelled (a : action tunnel_call) : list nat :=
  match a with @Act _ X e _ => match e with CancelContext n => [n] | _ => [] end end.

(** The contexts that can still be cancelled are numbers given before. *)
Definition subs_ok (s : subs) : Prop := map_Forall (fun _ n => (n < sb_next s)%nat) (sb_cancel s) /\
  (forall i j n, sb_cancel s !! i = Some n -> sb_cancel s !! j = Some n -> i = j).

Lemma message_exec m s tr r :
  exec (handle_message m s) tr r -> subs_ok s ->
  (forall n, In n (tr ≫= cancelled) -> exists i, sb_cancel s !! i = Some n) /\
  (forall s', r = Ok s' -> subs_ok s' /\ (sb_next s <= sb_next s')%nat /\
     forall i n, sb_cancel s' !! i = Some n -> (sb_cancel s !! i = Some n /\ ~ In n (tr ≫= cancelled)) \/ (sb_next s <= n)%nat).
Proof.
  intros Hx [Hlt Hinj]. assert (subs_ok s) as Hok by done. destruct m as [p t i|c|sent|sub|id|]; cbn in Hx.
  - destruct Hx as [-> ->]. split; [done|]. intros s' [= <-]. split_and!; [done|done|]. intros i' n Hi. left. split; [done|by intros []].
  - destruct Hx as (? & ? & -> & -> & ->). split; [done|]. intros s' [= <-]. split_and!; [done|done|]. intros i' n Hi. left. split; [done|by intros []].
  - destruct Hx as ([|] & ? & -> & Hx); cbn in Hx.
    + destruct Hx as [-> ->]. split; [done|]. intros s' [= <-]. split_and!; [done|done|]. intros i' n Hi. left. split; [done|by intros []].
    + destruct Hx as (? & ? & -> & -> & ->). split; [done|]. done.
  - destruct Hx as (? & ? & -> & -> & ->). split; [done|]. intros s' [= <-]. cbn. split_and!; [split; cbn|lia|].
    + apply map_Forall_insert_2; [lia|]. eapply map_Forall_impl; [exact Hlt|]. cbn. lia.
    + intros i j n. rewrite !lookup_insert_Some. intros [[<- <-]|[_ Hi]] [[<- Hj]|[_ Hj]]; [done|apply Hlt in Hj; lia|subst; apply Hlt in Hi; lia|by eapply Hinj].
    + intros i n. rewrite lookup_insert_Some. intros [[<- <-]|[_ Hi]]; [by right|left]. split; [done|by intros []].
  - destruct (sb_cancel s !! id) as [ctx|] eqn:Hid; cbn in Hx.
    + destruct Hx as (? & ? & -> & -> & ->). split; [intros n [<-|[]]; eauto|]. intros s' [= <-]. cbn. split_and!; [split; cbn|done|].
      * by apply map_Forall_delete.
      * intros i j n. rewrite !lookup_delete_Some. intros [_ Hi] [_ Hj]. by eapply Hinj.
      * intros i n. rewrite lookup_delete_Some. intros [Hne Hi]. left. split; [done|]. intros [<-|[]]. apply Hne. by eapply Hinj.
    + destruct Hx as [-> ->]. split; [done|]. intros s' [= <-]. split_and!; [done|done|]. intros i' n Hi. left. split; [done|by intros []].
  - destruct Hx as [-> ->]. split; [done|]. intros s' [= <-]. split_and!; [done|done|]. intros i' n Hi. left. split; [done|by intros []].
Qed.

(** A context whose entry is gone is never cancelled by a message. *)
Lemma gone_never_cancelled turns : forall s tr r n,
  exec (message_loop turns s) tr r -> subs_ok s -> (n < sb_next s)%nat -> (forall i, sb_cancel s !! i <> Some n) -> ~ In n (tr ≫= cancelled).
Proof.
  induction turns as [|turns IH]; intros s tr r n Hx Hok Hn Hgone; cbn in Hx; [destruct Hx as [-> _]; by intros []|].
  destruct Hx as (e & tr1 & -> & Hx). destruct e as [m|e|e|e]; cbn in Hx |- *; [|destruct Hx as [-> _]; by intros []..].
  apply exec_bind in Hx as (t1 & t2 & out & -> & Hm & Hx). destruct (message_exec _ _ _ _ Hm Hok) as [H1 H2]. rewrite bind_app, in_app_iff.
  assert (~ In n (t1 ≫= cancelled)) as Hn1 by (intros Hi; destruct (H1 _ Hi) as [i Hi']; by eapply Hgone). destruct out as [s'|e].
  - destruct (H2 _ eq_refl) as (Hok' & Hle & Hkeep). intros [Hi|Hi]; [done|]. revert Hi. eapply IH; [exact Hx|done|lia|].
    intros i Hi. destruct (Hkeep _ _ Hi) as [[Hi' _]|]; [by eapply Hgone|lia].
  - destruct Hx as [-> _]. cbn. tauto.
Qed.

(** A second subscription with the identifier of one that runs takes its entry: no message ever cancels
    the first one, which runs until the connection ends. *)
Theorem replaced_subscription_runs_on turns s sub n tr r :
  subs_ok s -> sb_cancel s !! su_id sub = Some n ->
  exec (message_loop turns {| sb_next := S (sb_next s); sb_cancel := <[su_id sub := sb_next s]> (sb_cancel s) |}) tr r ->
  ~ In n (tr ≫= cancelled).
Proof.
  intros [Hlt Hinj] Hn Hx. pose proof (Hlt _ _ Hn) as Hlt'. cbn in Hlt'.
  assert (exec (handle_message (Subscribe sub) s) [Act (GoSubscription (sb_next s) sub) ()]
    (Ok {| sb_next := S (sb_next s); sb_cancel := <[su_id sub := sb_next s]> (sb_cancel s) |})) as Hm by (by eexists _, _).
  destruct (message_exec _ _ _ _ Hm (conj Hlt Hinj)) as [_ H2]. destruct (H2 _ eq_refl) as (Hok & _ & _).
  eapply gone_never_cancelled; [exact Hx|exact Hok|cbn; lia|]. cbn. intros i. rewrite lookup_insert_Some. intros [[_ Heq]|[Hne Hi]]; [lia|]. apply Hne. by eapply Hinj.
Qed.

Lemma replaced_subscription_runs_on_witness :
  let s := {| sb_next := 1; sb_cancel := {["logs" := 0%nat]} |} in
  ~ In 0%nat ([Act Wait (Incoming (Cancel "logs")); Act (CancelContext 1) (); Act Wait (ConnectionDone "end")] ≫= cancelled).
Proof.
  intros s. apply (replaced_subscription_runs_on 2 s {| su_id := "logs"; su_kind := ""; su_payload := "" |} 0 _ (Some (Plain "end"))).
  - split; [by apply map_Forall_singleton; cbn; lia|]. intros i j n. cbn. rewrite !lookup_singleton_Some. by intros [<- _] [<- _].
  - done.
  - cbn. eexists _, _. split; [done|]. cbn. eexists _, _. split; [done|]. eexists _, _. by split.
Defined.

(** ** Delays *)

(** Between two connections the Agent waits at least one second and at most 48. *)
Theorem delay_bounded turns :
  Forall (fun '(backoff, delay) => (0 <= delay - backoff <= backoff / 2)%Z) (delays nanosecond_second turns) ->
  Forall (fun '(_, delay) => (nanosecond_second <= delay <= 48 * nanosecond_second)%Z) (delays nanosecond_second turns).
Proof.
  assert (forall b, In b [1; 2; 4; 8; 16; 32]%Z -> Forall (fun '(backoff, delay) => (0 <= delay - backoff <= backoff / 2)%Z) (delays (b * nanosecond_second) turns) ->
    Forall (fun '(_, delay) => (nanosecond_second <= delay <= 48 * nanosecond_second)%Z) (delays (b * nanosecond_second) turns)) as H.
  2: { apply (H 1%Z). by left. }
  induction turns as [|[lasted jitter] turns IH]; intros b Hb; cbn [delays]; [done|]. set (b' := if lasted then 1%Z else b).
  assert (In b' [1; 2; 4; 8; 16; 32]%Z) as Hb' by (subst b'; destruct lasted; [by left|done]).
  assert (exists b2, In b2 [1; 2; 4; 8; 16; 32]%Z /\ reconnect (b * nanosecond_second) lasted jitter = (b' * nanosecond_second + jitter, b2 * nanosecond_second)%Z) as (b2 & Hb2 & ->).
  { assert ((if lasted then nanosecond_second else b * nanosecond_second)%Z = (b' * nanosecond_second)%Z) as He by (subst b'; by destruct lasted).
    unfold reconnect. rewrite He. destruct (Z.ltb_spec (b' * nanosecond_second) (30 * nanosecond_second)) as [Hlt|]; [|by exists b'].
    exists (b' * 2)%Z. split; [|f_equal; lia]. unfold nanosecond_second in Hlt. cbn in Hb' |- *. lia. }
  cbn [fst snd]. intros [H1 H2]%Forall_cons. apply Forall_cons. split; [|by apply IH].
  assert ((if lasted then nanosecond_second else b * nanosecond_second)%Z = (b' * nanosecond_second)%Z) as He by (subst b'; by destruct lasted).
  rewrite He in H1. unfold nanosecond_second in *. cbn in Hb'. assert (1 <= b' <= 32)%Z by lia.
  pose proof (Z.div_mod (b' * 1000000000) 2 ltac:(lia)). pose proof (Z.mod_pos_bound (b' * 1000000000) 2 ltac:(lia)). lia.
Qed.

(** ** Tasks of the older client *)

Definition posted (a : action post_call) : list (list taskResult * result string beat_answer) :=
  match a with
  | @Act _ X e x =>
      match e in post_call X return X -> list (list taskResult * result string beat_answer) with
      | PPost _ _ _ _ _ results => fun r => [(results, r)]
      | PCollect => fun _ => []
      end x
  end.

(** What is owed after an answer. *)
Definition owed (pending : list taskResult) (r : result string beat_answer) : list taskResult :=
  match r with Ok (Answered resp) => execute_tasks (hr_tasks resp) | _ => pending end.
Fixpoint reports (pending : list taskResult) (l : list (list taskResult * result string beat_answer)) (final : list taskResult) : Prop :=
  match l with [] => final = pending | (results, r) :: l' => results = pending /\ reports (owed pending r) l' final end.

(** The result of every task the Core handed out is in each request from then on until a request is
    answered; nothing else is reported. *)
Theorem tasks_reported url server fingerprint turns : forall interval pending tr interval' final,
  exec (post_loop url server fingerprint turns interval pending) tr (interval', final) -> reports pending (tr ≫= posted) final.
Proof.
  induction turns as [|turns IH]; intros interval pending tr interval' final Hx; cbn [post_loop] in Hx; [by destruct Hx as [-> [= _ ->]]|].
  apply exec_bind in Hx as (t1 & t2 & [r pending'] & -> & Hb & Hx). apply IH in Hx. rewrite bind_app. unfold heartbeat in Hb. cbn in Hb.
  destruct Hb as ([s|e] & t3 & -> & Hb); cbn in Hb; [|destruct Hb as [-> [= _ ->]]; exact Hx].
  destruct Hb as (x & t4 & -> & Hb). destruct x as [[e|code|e|resp]|e]; destruct Hb as [-> [= _ ->]]; cbn; by split.
Qed.

(** ** Where it differs from its intent *)

(** The difference to a clock that is far ahead is the least duration, whose negation is itself: the
    largest skew passes the check. *)
Example far_future_accepted : (5 * nanosecond_minute <? clock_skew (- 2 ^ 63))%Z = false.
Proof. done. Qed.
